(* ===== verification/_CoqProject ===== *)
-Q . S2P
Prelude.v
Glob.v
GoTime.v
TimeText.v
GoFormat.v
PolicyTypes.v
PolicyEngine.v
PolicyExplain.v
PolicyLoader.v
Identity.v
Jwt.v
Authz.v
AuthzTables.v
Action.v
Events.v
AuditChain.v
ApprovalStore.v
ApprovalHandlers.v
ApprovalPolicy.v
Rollback.v
RollbackStore.v
Fleet.v
FleetExec.v
FleetRollback.v
FleetMain.v
FleetStore.v
FleetRecords.v
PlaybookText.v
PlaybookStore.v
PlaybookSeed.v
PlaybookRuns.v
RunFeedback.v
PlaybookSteps.v
AuditQuery.v
Journeys.v
Auditor.v
Secbot.v
ApprovalClient.v
Enforcer.v
GovernanceCheck.v
Infra.v
PlaybookPrompt.v
PlaybookChain.v
ToolAudit.v
Delegation.v
ToolRegistry.v
Gateway.v
Planner.v
PlaybookDraft.v
GatewayProxy.v
Notifications.v
Decisions.v
GitWebhook.v
GatewayRoutes.v
DatabaseTools.v
DatabaseQueries.v
K8sTools.v
SysadminTools.v
IncidentAgent.v
AgentStart.v
AgentServe.v
AuditResults.v
GovernanceInfo.v
Govbot.v
FleetReview.v
Govexplain.v
ApprovalCommands.v
RemoteStore.v
IncidentNarrative.v
