(* ===== verification/Prelude.v ===== *)
(** * aiHelpDesk: the governance core

    aiHelpDesk lets language-model agents operate databases and clusters.  What keeps
    that safe is ordinary code, and this library models that code and proves it
    correct: who the caller is, what the caller may reach, which policy decides a tool
    call, who approves it, what is written to the audit log and read back from it, who
    watches that log, how a change is undone, how it is rolled out to a fleet, and how
    a playbook's run is steered by what an agent answers.

    ** The program

    - An agent (agentutil/) asks [CheckTool] before each tool call and [CheckResult]
      after it.  The policy engine (internal/policy/) runs in the agent, or in auditd
      behind POST /v1/governance/check.
    - auditd (cmd/auditd/) keeps the audit log with its hash chain, the approvals and
      their sessions, the rollback records, the fleet jobs and the playbooks with their
      runs (internal/audit/), behind an identity provider (internal/identity/) and a
      table of route permissions (internal/authz/).
    - The gateway (cmd/gateway/) identifies its callers, sends prompts and direct tool
      calls to the agents, behind a gate for the operating mode and one for the approval
      mode, checks answers against the audit trail, plans fleet jobs with a model and
      forwards the governance endpoints.  It runs playbooks: by an agent that may chain
      to another playbook through gates, or step by step, each step approved by an
      operator; and its decision hub collects what waits for a person.
    - An orchestrating agent delegates to the others (internal/audit/delegate_tool.go)
      and verifies what they claim against the same trail.
    - The database agent (agents/database/) runs psql, the Kubernetes agent (agents/k8s/)
      kubectl and reads of the API, the system agent (agents/sysadmin/) commands in
      containers and pods and on machines; each change is made under the policy.
    - The auditor (cmd/auditor/) and secbot (cmd/secbot/) read the stream of audit
      events and raise alerts and incidents.
    - fleet-runner (cmd/fleet-runner/) applies a job to many servers in stages, with
      approvals and records kept by auditd and tool calls sent through the gateway.
    - The incident agent (agents/incident/) collects a bundle for the vendor and asks the
      gateway for the draft of a playbook; govbot (cmd/govbot/) reports on compliance;
      approvals (cmd/approvals/) and govexplain (cmd/govexplain/) are the operators'
      commands.

    ** The files

    - Prelude, Glob, GoTime, TimeText, GoFormat: what the code uses of Go: strings,
      integers of 64 bits, [%q] and [%v], sorting as the class [SliceSort],
      filepath.Match, instants and their texts in both databases with the calendar in
      both directions, durations and amounts printed for people.
    - PolicyTypes, PolicyEngine, PolicyExplain, PolicyLoader: internal/policy/ (types.go,
      engine.go, explain.go, loader.go).  [first_match] is the declarative reading of
      the two evaluation loops.
    - Identity, Jwt, Authz, AuthzTables: internal/identity/ and internal/authz/, with
      both route tables in full and the routes auditd registers.
    - Events, AuditChain: the event record of internal/audit/event.go; hash.go and the
      store of store.go as a state with one step for each write.
    - AuditQuery, Journeys: the queries of store.go over the same table, LIKE included;
      journeys.go, whose loop over rows [journey_of] states anew for one trace.
    - Auditor, Secbot: the auditor's monitor with its detection rules and its polling,
      and secbot's detection with its cooldown.
    - Action: the classification of tools and messages of internal/audit/action.go.
    - ApprovalStore, ApprovalHandlers, ApprovalClient: approval_store.go and its
      waiters, the endpoints of cmd/auditd/approval_handlers.go, and the look-ups of
      approval_client.go.  The class [ApprovalAPI] is what a client may rely on;
      [auditd_api] shows that the handlers over the store provide it.
    - ApprovalPolicy: approval.go with its manager, approval sessions, and the gates of
      cmd/gateway/gateway.go and playbooks.go.
    - Rollback, RollbackStore: rollback.go; rollback_store.go with the handlers and the
      executor of cmd/auditd/.
    - Enforcer: [CheckTool], [CheckResult] and the approval request of
      agentutil/agentutil.go, with trace.go.
    - GovernanceCheck: POST /v1/governance/check and GET /v1/governance/explain of
      cmd/auditd/governance_handlers.go, and the exchange of an agent with the first.
    - Fleet, FleetExec, FleetRollback, FleetMain: cmd/fleet-runner/ and
      internal/fleet/: planning and staging; execution; the reverse job; the command.
    - FleetStore, FleetRecords: fleet_store.go with its endpoints; the requests that the
      runner sends to them, composed with the rollout of FleetExec.
    - Infra: the inventory of internal/infra/.
    - PlaybookStore, PlaybookRuns: playbook_store.go, playbook_run_store.go,
      playbook_run_step_store.go and their endpoints in cmd/auditd/.
    - RunFeedback: run_feedback_store.go and run_evaluation_store.go with their
      endpoints, and the statistics that the playbook endpoints add to their answers.
    - PlaybookText, PlaybookPrompt: what cmd/gateway/playbooks.go reads from an agent's
      answer and what it writes into a prompt.
    - PlaybookSteps, PlaybookChain: the two ways the gateway runs a playbook,
      step_proposer.go and the rest of playbooks.go, over the tables of PlaybookStore
      and PlaybookRuns.
    - ToolAudit: what is recorded of requests and tool calls: trace_middleware.go,
      trace.go, tool_audit.go and gateway.go of internal/audit/.
    - Delegation: the guard and the callback that insist on a delegation, and
      delegate_tool.go with the verification block.
    - ToolRegistry: internal/toolregistry/.
    - Gateway, Planner, GatewayProxy: cmd/gateway/gateway.go, router.go and planner.go:
      prompts and direct calls; fleet plans; the endpoints that are passed on.
    - Decisions: internal/decisions/ and cmd/gateway/decisions.go, with the endpoints of
      auditd behind it composed from ApprovalHandlers and PlaybookChain.
    - DatabaseTools, DatabaseQueries: agents/database/tools.go with
      agentutil/retryutil/: psql under the policy, sessions and maintenance; the
      diagnostic tools and the registry.  The class [SqlRunner] is what the latter use
      of the former, and [psql_runner] shows that they provide it.
    - K8sTools, SysadminTools: agents/k8s/tools.go and agents/sysadmin/tools.go, whole:
      targets resolved against the inventory, every tool and the two registries.
    - AgentStart, AgentServe: the start of an agent and what it serves: agentutil/, with
      the mains of the agents, their cards and the path of a direct call.
    - IncidentAgent: agents/incident/: the layers, the bundle, its index and the callback.
    - AuditResults: the stored tool results, uploads, stability certificates and
      compliance reports of internal/audit/ with their endpoints.
    - GovernanceInfo: what auditd says of its governance, and the endpoints of a gateway
      that keeps its own log.
    - Govbot: the phases of the compliance report, its snapshot and both histories.
    - PlaybookDraft, PlaybookSeed: playbooks imported or drafted by a model from a trace;
      the system playbooks that auditd seeds.
    - GitWebhook, Notifications: merged changes that resolve pending decisions; the mails
      and callbacks of the approval notifier.
    - GatewayRoutes: the gateway's table of routes and everything it passes on.
    - FleetReview: the review of a job before it is submitted.
    - Govexplain, ApprovalCommands: cmd/govexplain/ and cmd/approvals/, with the requests
      of approval_client.go.  The class [Auditd] is what the command relies on.
    - RemoteStore: the audit store over HTTP; the class [EventServer] is its server.
    - IncidentNarrative: the story of an incident, over the tables of auditd.

    State is passed explicitly: an operation takes the store or the server and gives the
    new one with its result or HTTP reply.  Where calls overlap, the model has the
    interleaving: the waiters of an approval are split into their atomic steps, the
    servers of a wave run concurrently, so that a run of a rollout is any merge of their
    sequences of actions ([linear]), and the writes that the gateway leaves to the
    background arrive at any later step ([gateway_step]).  A Go panic is the constructor
    [Panics].  Each operation takes its clock reading, its fresh identifiers and the
    failure of the database as arguments, so the theorems hold for all of them.

    ** The theorems

    - The log: every reachable store verifies ([reachable_verifies]); two sealed logs
      with the same last hash have the same hashed content, or a collision is at hand
      ([tamper_evidence]); what the checker answers on any list, and what the hash does
      not cover ([VerifyChain_spec], [chain_blind_spots]).
    - Reading it: an event that was recorded is found again ([recorded_event_found]), a
      trace holds what was recorded for it ([trace_attribution]);
      journeys are the reference's summary of each trace ([journeys_reference]) and a
      failure in a trace shows in its outcome ([failures_not_hidden]); times written to
      either database are read back ([stored_times_read_back]).
    - Watching it: the auditor's link check raises its alarm exactly for a broken chain
      ([monitor_watches_chain]); destructive actions without an approval are reported
      ([unauthorized_destructive_reported]); its memory is bounded ([monitor_memory]);
      secbot's incidents are spaced ([incidents_are_spaced]).
    - Decisions: the engine's loops give the first applicable rule
      ([explainEvaluate_first_match]) and allow exactly when that rule does
      ([explainEvaluate_allow_iff]); a larger impact never loosens a decision
      ([blast_radius_monotone]); loading sorts and validates ([Load_sorted_valid],
      [loaded_engine_effects]); errors made of decisions ([MustAllow_rule_decision]).
    - Enforcement: what an agent does with the decision ([CheckTool_local],
      [CheckResult_enforces_limits], [requestApproval_sound]), that an engine in auditd
      gives the same outcomes and where it does not ([remote_local_agree]), the check
      endpoint on every branch ([handlePolicyCheck_spec]) and the explain endpoint as a
      prediction of it ([explain_predicts_check]).
    - Approvals: a resolution is final and only [Approve] approves, over every history
      ([resolution_final], [approved_by_Approve], [resolution_spec],
      [ExpireRequests_spec]); waiters ([wait_delivery_and_loss]); the approval endpoint
      and the gateway's gate ([handleApprove_sound], [checkApprovalMode_iff]).
    - Identity: what a resolved principal can be ([StaticProvider_Resolve_sound],
      [JWTProvider_Resolve_sound]) and what it may reach ([Authorize_iff],
      [unlisted_routes]).
    - Rollback: derived plans ([DeriveRollbackPlan_sound]), at most one active rollback
      of an event ([one_active_rollback]), the endpoint and the executor
      ([handleInitiateRollback_spec], [Execute_outcome]).
    - Fleet: the rollout does what the job record says ([rollout_follows_plan]), ends
      well exactly when nothing fails ([runStages_completes]), touches no server before
      its gates ([gates_hold]), in every interleaving ([interleavings_sound]); steps
      ([executeSteps_spec]); the wait for an approval ends ([wait_terminates]); drift
      ([CheckSchemaDrift_fails]); the reverse job ([BuildRollbackJobDef_spec]), the
      command as a whole ([main_runs_checked_jobs]), the tables
      ([fleet_records_well_formed]) and what they say after a rollout
      ([records_refine_rollout]).
    - Playbooks: system playbooks are read-only ([system_playbooks_read_only]); a step
      is executed at most once while nothing overlaps ([executed_at_most_once],
      [proceed_spec]); chains, gates and overrides are authorised
      ([chains_are_authorised], [gate_pauses], [gate_resolved_once],
      [override_needs_role]); an agent's answer is read as the protocol says
      ([protocol_read_back], [forced_gate_sound]); the table of verdicts is a map with
      one verdict for each key ([feedback_refines_map]), the statistics agree with each
      other ([stats_agree]), and each scored run is counted once
      ([calibration_counts]).
    - Gateway: an answer without a warning was confirmed by the trail
      ([clean_reply_was_executed]); a direct call is answered, recorded and reported as
      it went ([direct_call_reported]); what an agent is told of the caller
      ([forwarded_identity]); a plan keeps to the catalogue, the targets and the
      sensitivity check ([plan_is_safe]); a job created through the gateway is traced
      ([job_creation_traced]); superseded tools are left out ([superseded_resolved]).
    - Delegation: a verification without a warning ([verification_sound]) and the
      insistence on a delegation ([answers_need_delegation]).
    - Decision hub: it lists what is pending ([hub_lists_pending]), what it lists can be
      resolved ([listed_ids_resolve]), and in whose name it approves
      ([hub_approval_in_declared_name]).
    - Database agent: every command of every tool runs on a registered server with the
      policy's leave ([tool_commands_permitted]); sessions are inspected before they are
      signalled and the status ok is earned ([signals_are_inspected]); arguments stay
      literals and identifiers ([arguments_stay_in_place]); what a log tool shows
      ([log_lines_shown]).
    - Kubernetes agent: what a call does to a cluster, and with whose leave
      ([kubernetes_calls_permitted]); a scaling is undone by the plan that is derived
      from its event ([scaling_can_be_undone]).
    - System agent: what a call runs, and that restarts are checked and recorded
      ([host_calls_permitted]); where hosts come from ([hosts_come_from_inventory],
      [registered_host_resolved]).
    - Agents' start and service: under governance an agent asks auditd
      ([governed_agents_ask_auditd]) and refuses to start exactly on a fatal violation
      ([fatal_violations_iff]); direct calls are authenticated and run as their caller
      ([direct_tools_authenticated], [direct_calls_run_as_the_caller]); a card says what
      was configured ([card_options_read_back]).
    - Incident agent: bundles are complete and only read ([bundle_is_complete],
      [bundles_only_read]); the index keeps the history, unless it is damaged
      ([index_keeps_history], [damaged_index_is_lost]).
    - Stored results: listed and read back ([gateway_results_listed],
      [uploads_read_back]), one certificate for each model ([certificates_per_model],
      [latest_certificate_answered]), a bounded number of reports ([reports_bounded]).
    - Compliance: a healthy report means what it says ([healthy_report_sound]), a bypass
      in the log is reported ([bypass_in_log_reported]), histories are read back
      ([history_read_back]), the gateway's own log answers as auditd does
      ([local_events_agree]).
    - Drafts and system playbooks: what is drafted or imported waits for a review
      ([drafts_wait_for_review], [imports_wait_for_review], [synthesis_has_evidence],
      [pinned_draft_keeps_settings], [protocol_silent_iff]); seeding is idempotent and
      keeps one active version ([seeding_idempotent], [seeding_keeps_one_active],
      [new_version_takes_over]).
    - Webhooks and notifications: a merge resolves what it names
      ([merges_resolve_what_they_name], [no_secret_no_check], [payload_branches],
      [merged_source_ignored]); callbacks are made once ([callbacks_once],
      [no_channel_no_callback]).
    - Routes: what the gateway forwards reaches a registered route of auditd
      ([forwarded_to_registered], [gateway_reach]).
    - Fleet review: it agrees with the runner's own checks ([review_agrees_with_runner],
      [review_ok_iff], [planned_job_passes_review]).
    - Commands: the local check is auditd's check ([local_check_matches_auditd]), exit
      codes ([list_code_is_worst], [retrospective_text_fails]) and requests
      ([list_request_understood], [remote_query_understood]); approving from the command
      line ([approve_command_sound], [flags_behind_the_id]), watching and waiting
      ([watch_announces_once], [wait_comes_back]); remote recording refines the local one
      ([remote_record_refines]).
    - Incidents: the gate of the story follows the outcome ([gate_follows_outcome]), a
      denial is told ([denial_is_told]), the journeys are the runs' traces
      ([journeys_are_the_traces]).

    ** Fuel and bounds

    The matcher of Glob ([glob_fuel]) and [chunk] take the length of their input as fuel,
    which their lemmas show to be enough; [waitForFleetApproval] takes the number of
    polls, and [wait_terminates] proves that [poll_fuel] polls are enough, as
    [wait_comes_back] does for the wait of the approval client; the chain of playbooks
    takes the code's own bound on its depth.  Integers are Z; where
    the code can overflow an int64 the wrap-around is written out ([wrap64],
    [in_int64]), as for the validity of an approval.  Rates of failures are binary64
    numbers of the Standard Library.  Strings are lists of bytes; the glob matcher and
    the case conversions are exact for ASCII.  Step numbers are proved in range for
    tables of less than 2^62 steps ([small]).

    ** Parameters

    SHA-256, JSON, YAML and base64 codecs, the signature schemes, Argon2id, the IANA zone
    database, HTTP exchanges, the agents and the model behind them, and the database's
    failures are parameters.  What the code
    relies on is a named hypothesis ([json_event_stable], [sha_nonempty]), and each
    theorem that has one is applied to concrete functions.  A Go map that is ranged
    over is a list in the order of that range.

    ** Not modelled

    Log lines, printed tables and usage texts, and SQL migrations, which compute
    nothing that the rest uses; the conversion of Kubernetes objects to JSON
    (k8sclient.go) and the clients of the language models (internal/model/), which only
    call other libraries; the transports of the notifiers; the orchestrator's and the
    interactive clients' command lines, the discovery and client libraries, the
    write-ahead-log capture of rollback_cap.go, which only tests call, and the
    fault-injection harness. *)

From Stdlib Require Export Ascii String ZArith Lia Bool.
From stdpp Require Export base tactics option list strings gmap pretty.
From Stdlib Require Import Permutation Sorted.

Declare Scope go_scope.
Delimit Scope go_scope with go.
#[global] Open Scope go_scope.

(** ** Go strings

    A Go [string] is a byte sequence; [String.string] is one too (an [ascii] is
    eight bits).  [=?s] is Go's [==] on strings. *)

#[global] Arguments String.eqb : simpl never.

Infix "=?s" := String.eqb (at level 70, no associativity) : go_scope.
Notation "a <>?s b" := (negb (String.eqb a b)) (at level 70, no associativity) : go_scope.

(** The loop [for _, x := range l { if x == s { return true } }; return false]
    and the look-up in a set built from [l] by [set[x] = true]. *)
Definition mem (s : string) (l : list string) : bool := existsb (String.eqb s) l.

Lemma mem_spec s l : mem s l = true <-> In s l.
Proof.
  unfold mem. rewrite existsb_exists. split.
  - intros (x & Hx & E). apply String.eqb_eq in E. by subst.
  - intros H. exists s. split; [done|]. apply String.eqb_refl.
Qed.

Lemma mem_false s l : mem s l = false <-> ~ In s l.
Proof. rewrite <- mem_spec. destruct (mem s l); split; congruence. Qed.

Lemma streq_spec a b : (a =?s b) = true <-> a = b.
Proof. apply String.eqb_eq. Qed.

Lemma streq_false a b : (a =?s b) = false <-> a <> b.
Proof. apply String.eqb_neq. Qed.

Lemma streq_refl a : (a =?s a) = true.
Proof. apply String.eqb_refl. Qed.

Lemma streq_cons c d a b : (String c a =?s String d b) = Ascii.eqb c d && (a =?s b).
Proof. unfold String.eqb at 1. fold String.eqb. by destruct (Ascii.eqb c d). Qed.

(** [strings.HasPrefix], [strings.TrimPrefix] and [strings.Contains]. *)
Fixpoint has_prefix (s p : string) {struct p} : bool :=
  match p, s with
  | EmptyString, _ => true
  | String c p', String d s' => Ascii.eqb c d && has_prefix s' p'
  | String _ _, EmptyString => false
  end.

Fixpoint drop_bytes (n : nat) (s : string) : string :=
  match n, s with
  | S n', String _ s' => drop_bytes n' s'
  | _, _ => s
  end.

Definition trim_prefix (s p : string) : string :=
  if has_prefix s p then drop_bytes (String.length p) s else s.

Fixpoint str_contains (s sub : string) : bool :=
  has_prefix s sub ||
  match s with EmptyString => false | String _ s' => str_contains s' sub end.

Lemma has_prefix_spec s p : has_prefix s p = true <-> exists r, s = (p ++ r)%string.
Proof.
  revert s. induction p as [|c p IH]; intros s; simpl.
  - split; [intros _; by exists s|done].
  - destruct s as [|d s]; simpl.
    + split; [done|]. intros [r Hr]. discriminate.
    + rewrite andb_true_iff, Ascii.eqb_eq, IH. split.
      * intros [-> [r ->]]. by exists r.
      * intros [r Hr]. injection Hr as -> ->. eauto.
Qed.

Lemma str_contains_spec s sub :
  str_contains s sub = true <-> exists a b, s = (a ++ sub ++ b)%string.
Proof.
  induction s as [|c s IH]; cbn [str_contains]; rewrite orb_true_iff, has_prefix_spec.
  - split.
    + intros [[r Hr]|]; [|done]. exists ""%string, r. done.
    + intros (a & b & H). left. destruct a; simpl in H; [by exists b|discriminate].
  - rewrite IH. split.
    + intros [[r Hr]|(a & b & ->)]; [by exists ""%string, r|by exists (String c a), b].
    + intros (a & b & H). destruct a as [|d a]; simpl in H.
      * left. by exists b.
      * right. injection H as -> ->. eauto.
Qed.

Lemma Forall2_In_l {A B} (R : A -> B -> Prop) l1 l2 x : Forall2 R l1 l2 -> In x l1 -> exists y, In y l2 /\ R x y.
Proof.
  induction 1 as [|a b l1 l2 Hab HF IH]; intros Hin; [done|]. destruct Hin as [->|Hin].
  - exists b. split; [by left|done].
  - destruct (IH Hin) as (y & Hy & HR). exists y. split; [by right|done].
Qed.


Lemma append_cons c a b : (String c a ++ b)%string = String c (a ++ b)%string.
Proof. done. Qed.

Lemma app_empty_r s : (s ++ "")%string = s.
Proof. induction s as [|c s IH]; [done|]. by rewrite append_cons, IH. Qed.

Lemma app_assoc_s a b c : ((a ++ b) ++ c)%string = (a ++ b ++ c)%string.
Proof. induction a as [|x a IH]; [done|]. by rewrite !append_cons, IH. Qed.

Lemma length_app_s a b : String.length (a ++ b) = String.length a + String.length b.
Proof. induction a as [|x a IH]; [done|]. rewrite append_cons. simpl. by rewrite IH. Qed.

Lemma rev_app_spec s t : String.rev_app s t = (String.rev s ++ t)%string.
Proof.
  unfold String.rev. revert t. induction s as [|c s IH]; intros t; [done|]. simpl.
  by rewrite (IH (String c t)), (IH (String c "")), app_assoc_s.
Qed.

Lemma rev_cons_s c s : String.rev (String c s) = (String.rev s ++ String c "")%string.
Proof. exact (rev_app_spec s (String c "")). Qed.

Lemma rev_append_s s t : String.rev (s ++ t) = (String.rev t ++ String.rev s)%string.
Proof.
  induction s as [|c s IH]; [by rewrite app_empty_r|].
  by rewrite append_cons, !rev_cons_s, IH, app_assoc_s.
Qed.

Lemma rev_involutive_s s : String.rev (String.rev s) = s.
Proof. induction s as [|c s IH]; [done|]. by rewrite rev_cons_s, rev_append_s, IH. Qed.

(** [strings.ToLower] and [strings.ToUpper] on the ASCII range; bytes outside
    it are kept. *)
Definition lower_byte (c : ascii) : ascii :=
  let n := N_of_ascii c in
  if (65 <=? n)%N && (n <=? 90)%N then ascii_of_N (n + 32) else c.

Definition upper_byte (c : ascii) : ascii :=
  let n := N_of_ascii c in
  if (97 <=? n)%N && (n <=? 122)%N then ascii_of_N (n - 32) else c.

Fixpoint map_bytes (f : ascii -> ascii) (s : string) : string :=
  match s with EmptyString => EmptyString | String c s' => String (f c) (map_bytes f s') end.

Definition to_lower : string -> string := map_bytes lower_byte.
Definition to_upper : string -> string := map_bytes upper_byte.

(** [strings.Join]. *)
Fixpoint join (sep : string) (l : list string) : string :=
  match l with
  | [] => ""
  | [x] => x
  | x :: l' => (x ++ sep ++ join sep l')%string
  end.

(** [strings.Split] at a one-byte separator: the parts between the separators, one
    at least. *)
Fixpoint split_on (sep : ascii) (s : string) : list string :=
  match s with
  | EmptyString => [EmptyString]
  | String c s' =>
      if Ascii.eqb c sep then EmptyString :: split_on sep s'
      else match split_on sep s' with
           | [] => [String c EmptyString]
           | p :: ps => String c p :: ps
           end
  end.

(** [strings.TrimSpace] on the ASCII white space bytes. *)
Definition is_space (c : ascii) : bool :=
  let n := N_of_ascii c in ((9 <=? n)%N && (n <=? 13)%N) || (n =? 32)%N.

Fixpoint trim_left (s : string) : string :=
  match s with
  | String c s' => if is_space c then trim_left s' else s
  | EmptyString => s
  end.

Definition trim_space (s : string) : string := String.rev (trim_left (String.rev (trim_left s))).

(** [strings.Trim] of the bytes of a set, [strings.TrimSuffix]. *)
Fixpoint trim_left_set (inset : ascii -> bool) (s : string) : string :=
  match s with
  | String c s' => if inset c then trim_left_set inset s' else s
  | EmptyString => s
  end.

Definition trim_set (inset : ascii -> bool) (s : string) : string :=
  String.rev (trim_left_set inset (String.rev (trim_left_set inset s))).

Definition trim_suffix (s suffix : string) : string :=
  String.rev (trim_prefix (String.rev s) (String.rev suffix)).

(** [%d] of an integer. *)
Definition itoa (z : Z) : string := pretty z.

(** [strconv.Atoi]: an optional sign and decimal digits, within int64. *)
Fixpoint digits_value (acc : Z) (s : string) : option Z :=
  match s with
  | EmptyString => Some acc
  | String c s' =>
      let n := Z.of_N (N_of_ascii c) in
      if (48 <=? n)%Z && (n <=? 57)%Z then digits_value (acc * 10 + (n - 48)) s' else None
  end.

Definition in_int64 (z : Z) : bool := (- 2 ^ 63 <=? z)%Z && (z <? 2 ^ 63)%Z.

Definition atoi (s : string) : option Z :=
  let '(neg, ds) :=
    match s with
    | String "-" s' => (true, s')
    | String "+" s' => (false, s')
    | _ => (false, s)
    end in
  match ds with
  | EmptyString => None
  | _ =>
      match digits_value 0 ds with
      | Some v => let z := if neg then (- v)%Z else v in if in_int64 z then Some z else None
      | None => None
      end
  end.

Lemma digits_value_pretty_char acc d s : (d < 10)%N ->
  digits_value acc (String (pretty_N_char d) s) = digits_value (acc * 10 + Z.of_N d) s.
Proof.
  intros H. assert (Hn : Z.of_N (N_of_ascii (pretty_N_char d)) = (48 + Z.of_N d)%Z)
    by (destruct d as [|[[[[]|[]|]|[[]|[]|]|]|[[[]|[]|]|[[]|[]|]|]|]]; (done || lia)).
  cbn [digits_value]. rewrite Hn. rewrite (proj2 (Z.leb_le _ _)), (proj2 (Z.leb_le _ 57)) by lia.
  simpl andb. cbv iota. f_equal. lia.
Qed.

Lemma digits_value_pretty x s : (0 < x)%N ->
  digits_value 0 (pretty_N_go x s) = digits_value (Z.of_N x) s.
Proof.
  revert s. induction (N.lt_wf_0 x) as [x _ IH]. intros s Hx. rewrite pretty_N_go_step by done.
  assert (Hm : (x mod 10 < 10)%N) by (by apply N.mod_lt).
  pose proof (N.div_mod x 10 ltac:(done)) as Hdm.
  revert Hm Hdm. generalize (x mod 10)%N. intros r Hm Hdm.
  destruct (N.eq_dec (x / 10)%N 0%N) as [E|E].
  - rewrite E, pretty_N_go_0, digits_value_pretty_char by done. rewrite E in Hdm. f_equal. lia.
  - rewrite (IH (x / 10)%N) by (generalize dependent (x / 10)%N; intros; lia).
    rewrite digits_value_pretty_char by done. f_equal. generalize dependent (x / 10)%N. intros. lia.
Qed.

Lemma itoa_digits z : (0 <= z)%Z -> digits_value 0 (itoa z) = Some z /\ itoa z <> "".
Proof.
  intros Hz. destruct z as [|p|p]; [done| |lia].
  assert (H : digits_value 0 (itoa (Z.pos p)) = Some (Z.pos p)).
  { change (itoa (Z.pos p)) with (pretty_N_go (N.pos p) ""). by rewrite digits_value_pretty. }
  split; [done|]. intros E. by rewrite E in H.
Qed.

(** [strconv.Atoi] reads back what [%d] printed. *)
Lemma atoi_itoa z : (0 <= z < 2 ^ 63)%Z -> atoi (itoa z) = Some z.
Proof.
  intros Hz. destruct (itoa_digits z ltac:(lia)) as [H Hne].
  destruct (itoa z) as [|c s]; [done|]. unfold atoi.
  assert (Hc : forall (x : string), match c with "-"%char => (true, s) | "+"%char => (false, s)
     | _ => (false, String c s) end = (false, String c s)).
  { intros _. destruct c as [[] [] [] [] [] [] [] []]; done. }
  rewrite (Hc ""), H. unfold in_int64. rewrite (proj2 (Z.leb_le _ _)), (proj2 (Z.ltb_lt _ _)) by lia. done.
Qed.

(** The wrap-around of int64 arithmetic. *)
Definition wrap64 (z : Z) : Z := ((z + 2 ^ 63) mod 2 ^ 64 - 2 ^ 63)%Z.

Lemma wrap64_id z : in_int64 z = true -> wrap64 z = z.
Proof.
  unfold in_int64, wrap64. rewrite andb_true_iff, Z.leb_le, Z.ltb_lt. intros [? ?].
  rewrite Z.mod_small; lia.
Qed.

(** [%q] of a string ([strconv.Quote]): the two characters the quoting must
    protect, the named escapes and the [\x..] form of the other control bytes.
    Bytes from 0x80 up, which in a valid string are parts of printable runes,
    are kept. *)
Definition hex_digit (n : N) : ascii :=
  if (n <? 10)%N then ascii_of_N (48 + n) else ascii_of_N (87 + n).

Definition quote_byte (c : ascii) : string :=
  let n := N_of_ascii c in
  let esc d := String "\" (String d EmptyString) in
  if (n =? 34)%N then esc (ascii_of_N 34)
  else if (n =? 92)%N then esc "\"%char
  else if (n =? 7)%N then esc "a"%char
  else if (n =? 8)%N then esc "b"%char
  else if (n =? 12)%N then esc "f"%char
  else if (n =? 10)%N then esc "n"%char
  else if (n =? 13)%N then esc "r"%char
  else if (n =? 9)%N then esc "t"%char
  else if (n =? 11)%N then esc "v"%char
  else if (n <? 32)%N || (n =? 127)%N then
    String "\" (String "x" (String (hex_digit (n / 16)) (String (hex_digit (n mod 16)) EmptyString)))
  else String c EmptyString.

Fixpoint quote_bytes (s : string) : string :=
  match s with EmptyString => EmptyString | String c s' => (quote_byte c ++ quote_bytes s')%string end.

Definition dquote : string := String (ascii_of_N 34) EmptyString.
Definition nl : string := String (ascii_of_N 10) EmptyString.
Definition quote (s : string) : string := (dquote ++ quote_bytes s ++ dquote)%string.

(** [%v] of a [[]string]. *)
Definition fmt_list (l : list string) : string := ("[" ++ join " " l ++ "]")%string.

(** ** Results

    [result E A] is a Go pair [(A, error)] of which the code reads one half. *)

Inductive result (E A : Type) : Type :=
  | Ok (a : A)
  | Err (e : E).
Arguments Ok {E A} a.
Arguments Err {E A} e.

#[export] Instance result_ret E : MRet (result E) := fun A a => Ok a.
#[export] Instance result_bind E : MBind (result E) :=
  fun A B f r => match r with Ok a => f a | Err e => Err e end.

Definition is_ok {E A} (r : result E A) : bool := match r with Ok _ => true | Err _ => false end.

(** A call that may panic. *)
Inductive outcome (A : Type) : Type :=
  | Returns (a : A)
  | Panics.
Arguments Returns {A} a.
Arguments Panics {A}.

(** ** Lists *)

(** Insertion sort by a strict order [lt]. *)
Section isort.
Context {A : Type} (lt : A -> A -> bool).

Fixpoint insert_sorted (x : A) (l : list A) : list A :=
  match l with
  | [] => [x]
  | y :: l' => if lt y x then y :: insert_sorted x l' else x :: y :: l'
  end.

Fixpoint isort (l : list A) : list A :=
  match l with
  | [] => []
  | x :: l' => insert_sorted x (isort l')
  end.

Lemma insert_sorted_perm x l : insert_sorted x l ≡ₚ x :: l.
Proof.
  induction l as [|y l IH]; simpl; [done|].
  destruct (lt y x); [|done]. rewrite IH. apply Permutation_swap.
Qed.

Lemma isort_perm l : isort l ≡ₚ l.
Proof. induction l as [|x l IH]; simpl; [done|]. by rewrite insert_sorted_perm, IH. Qed.

Lemma isort_In x l : In x (isort l) <-> In x l.
Proof. split; apply Permutation_in; [apply isort_perm|symmetry; apply isort_perm]. Qed.

(** Sorted: no later element comes strictly before an earlier one. *)
Definition sorted_by (l : list A) : Prop := StronglySorted (fun a b => lt b a = false) l.

Hypothesis lt_asym : forall a b, lt a b = true -> lt b a = false.
Hypothesis lt_ge_trans : forall a b c, lt b a = false -> lt c b = false -> lt c a = false.

Lemma insert_sorted_sorted x l : sorted_by l -> sorted_by (insert_sorted x l).
Proof.
  induction l as [|y l IH]; intros H; simpl; [repeat constructor|].
  inversion H as [|? ? Hl Hy]; subst.
  destruct (lt y x) eqn:E.
  - constructor; [by apply IH|].
    apply List.Forall_forall. intros z Hz.
    apply (Permutation_in _ (insert_sorted_perm x l)) in Hz. destruct Hz as [<-|Hz].
    + by apply lt_asym.
    + rewrite List.Forall_forall in Hy. by apply Hy.
  - constructor; [done|]. constructor; [done|].
    rewrite List.Forall_forall in Hy |- *. intros z Hz.
    apply (lt_ge_trans x y z); [done|by apply Hy].
Qed.

Lemma isort_sorted l : sorted_by (isort l).
Proof. induction l; simpl; [constructor|by apply insert_sorted_sorted]. Qed.
End isort.

(** What [sort.Slice] documents of its result for a strict weak order: the same
    elements, sorted; where equivalent elements end up is left open. *)
Class SliceSort {A} (lt : A -> A -> bool) := {
  slice_sort : list A -> list A;
  slice_sort_perm l : slice_sort l ≡ₚ l;
  slice_sort_sorted l : sorted_by lt (slice_sort l)
}.
Arguments slice_sort {A} lt {_} _.

Lemma slice_sort_In {A} (lt : A -> A -> bool) `{!SliceSort lt} x l :
  In x (slice_sort lt l) <-> In x l.
Proof. split; apply Permutation_in; [apply slice_sort_perm|symmetry; apply slice_sort_perm]. Qed.

Lemma strongly_sorted_weaken {A} (R S : A -> A -> Prop) l :
  (forall a b, R a b -> S a b) -> StronglySorted R l -> StronglySorted S l.
Proof.
  intros HRS. induction 1 as [|x l _ IH Hx]; [constructor|]. constructor; [done|].
  eapply List.Forall_impl; [|exact Hx]. auto.
Qed.

Lemma filter_perm {A} (f : A -> bool) l l' : l ≡ₚ l' -> List.filter f l ≡ₚ List.filter f l'.
Proof.
  induction 1 as [|x l l' _ IH|x y l|l l' l'' _ IH1 _ IH2]; simpl.
  - done.
  - destruct (f x); [by constructor|done].
  - destruct (f x), (f y); try done. apply Permutation_swap.
  - by rewrite IH1.
Qed.

Lemma existsb_false {A} (f : A -> bool) l :
  existsb f l = false <-> forall x, In x l -> f x = false.
Proof.
  split.
  - intros H x Hx. destruct (f x) eqn:E; [|done].
    assert (existsb f l = true) by (apply existsb_exists; eauto). congruence.
  - intros H. destruct (existsb f l) eqn:E; [|done].
    apply existsb_exists in E as (x & Hx & Hf). rewrite H in Hf; done.
Qed.

Lemma forallb_mem req avail :
  forallb (fun s => mem s avail) req = true <-> forall s, In s req -> In s avail.
Proof. rewrite forallb_forall. by setoid_rewrite mem_spec. Qed.

(** Element look-up by the first match, the loop shape of every look-up in a
    slice of the source. *)
Lemma find_none_iff {A} (f : A -> bool) l :
  find f l = None <-> forall x, In x l -> f x = false.
Proof.
  split; [intros H x; by apply find_none|].
  intros H. destruct (find f l) eqn:E; [|done].
  apply find_some in E as [Hx Hf]. by rewrite H in Hf.
Qed.

Lemma find_app_first {A} (f : A -> bool) l1 l2 :
  find f (l1 ++ l2) = match find f l1 with Some x => Some x | None => find f l2 end.
Proof. induction l1 as [|x l1 IH]; simpl; [done|]. by destruct (f x). Qed.

Lemma find_ext {A} (f g : A -> bool) l : (forall x, f x = g x) -> find f l = find g l.
Proof. intros H. induction l as [|x l IH]; simpl; [done|]. by rewrite H, IH. Qed.

Lemma find_map {A B} (f : B -> bool) (g : A -> B) l :
  find f (map g l) = option_map g (find (fun x => f (g x)) l).
Proof. induction l as [|x l IH]; simpl; [done|]. by destruct (f (g x)). Qed.

(** A map that keeps the tested attribute. *)
Lemma filter_map_same {A} (f : A -> bool) (g : A -> A) l :
  (forall x, f (g x) = f x) -> List.filter f (map g l) = map g (List.filter f l).
Proof.
  intros H. induction l as [|x l IH]; simpl; [done|]. rewrite H, IH. by destruct (f x).
Qed.

(** Sorting commutes with a map that respects the orders, and leaves a sorted list. *)
Lemma isort_map {A B} (lt : A -> A -> bool) (lt' : B -> B -> bool) (g : A -> B) l :
  (forall a b, lt' (g a) (g b) = lt a b) -> isort lt' (map g l) = map g (isort lt l).
Proof.
  intros H. induction l as [|x l IH]; simpl; [done|]. rewrite IH. generalize (isort lt l). intros m.
  induction m as [|y m IHm]; simpl; [done|]. rewrite H, IHm. by destruct (lt y x).
Qed.

Lemma isort_sorted_id {A} (lt : A -> A -> bool) l : sorted_by lt l -> isort lt l = l.
Proof.
  induction 1 as [|x l _ IH Hx]; simpl; [done|]. rewrite IH. destruct l as [|y l]; simpl; [done|].
  inversion Hx as [|? ? Hy]. by rewrite Hy.
Qed.

Lemma forallb_snoc {A} (f : A -> bool) l x : forallb f (l ++ [x]) = forallb f l && f x.
Proof. rewrite forallb_app. simpl. by rewrite andb_true_r. Qed.

(** ** Automation *)

Create HintDb go.
Create Rewrite HintDb go.
#[export] Hint Resolve streq_refl : go.
#[export] Hint Rewrite mem_spec mem_false streq_spec streq_false andb_true_iff orb_true_iff
  negb_true_iff negb_false_iff andb_false_iff orb_false_iff existsb_exists forallb_forall
  Z.ltb_lt Z.ltb_ge Z.leb_le Z.leb_gt Z.eqb_eq Z.eqb_neq : go.

(** Turn the boolean tests of the hypotheses and the goal into propositions. *)
Ltac go_simpl := autorewrite with go in *.

(** Case analysis on the innermost test of the goal, keeping the equation. *)
Ltac case_if :=
  match goal with
  | |- context [if ?b then _ else _] =>
      lazymatch b with context [if _ then _ else _] => fail | _ => destruct b eqn:? end
  end.

Ltac case_if_in H :=
  match type of H with
  | context [if ?b then _ else _] =>
      lazymatch b with context [if _ then _ else _] => fail | _ => destruct b eqn:? end
  end.

(** Replace tests on equal literals. *)
Ltac go_solve := go_simpl; simplify_eq/=; eauto with go; try done.
