(* ===== verification/Glob.v ===== *)
(** * path/filepath.Match, as the policy engine calls it

    The Go standard library's glob matcher on Unix, function by function
    (scanChunk, matchChunk, getEsc, Match).  Runes are taken to be single bytes,
    which is exact for the ASCII names and patterns the policies use.  A
    malformed pattern is [None]. *)

From S2P Require Import Prelude.

Definition slash : ascii := "/".

(** [scanChunk] after the leading stars: the chunk up to the next star that is
    not inside a character class, and the rest of the pattern. *)
Fixpoint scan (inrange : bool) (p : string) : string * string :=
  match p with
  | EmptyString => (EmptyString, EmptyString)
  | String c p' =>
      if Ascii.eqb c "\" then
        match p' with
        | EmptyString => (String c EmptyString, EmptyString)
        | String d p'' => let '(a, b) := scan inrange p'' in (String c (String d a), b)
        end
      else if Ascii.eqb c "*" && negb inrange then (EmptyString, p)
      else
        let inrange' := if Ascii.eqb c "[" then true else if Ascii.eqb c "]" then false else inrange in
        let '(a, b) := scan inrange' p' in (String c a, b)
  end.

Fixpoint skip_stars (p : string) : bool * string :=
  match p with
  | String c p' => if Ascii.eqb c "*" then (true, snd (skip_stars p')) else (false, p)
  | EmptyString => (false, p)
  end.

Definition scan_chunk (p : string) : bool * string * string :=
  let '(star, p1) := skip_stars p in
  let '(chunk, rest) := scan false p1 in (star, chunk, rest).

(** [getEsc]: a possibly escaped character of a class. *)
Definition get_esc (chunk : string) : option (ascii * string) :=
  match chunk with
  | EmptyString => None
  | String c rest =>
      if Ascii.eqb c "-" || Ascii.eqb c "]" then None
      else
        let taken :=
          if Ascii.eqb c "\" then
            match rest with EmptyString => None | String d rest' => Some (d, rest') end
          else Some (c, rest) in
        match taken with
        | Some (_, EmptyString) | None => None
        | Some (r, rest') => Some (r, rest')
        end
  end.

(** The ranges of a class up to its closing bracket: whether [r] is in one of
    them, and the chunk after the bracket. *)
Fixpoint match_ranges (fuel : nat) (r : option ascii) (first hit : bool) (chunk : string)
    : option (bool * string) :=
  match fuel with
  | O => None
  | S fuel' =>
      match chunk with
      | String "]" rest => if first then None else Some (hit, rest)
      | _ =>
          match get_esc chunk with
          | None => None
          | Some (lo, chunk1) =>
              let upper :=
                match chunk1 with
                | String "-" chunk2 => get_esc chunk2
                | _ => Some (lo, chunk1)
                end in
              match upper with
              | None => None
              | Some (hi, chunk3) =>
                  let inside :=
                    match r with
                    | None => false
                    | Some c => (N_of_ascii lo <=? N_of_ascii c)%N && (N_of_ascii c <=? N_of_ascii hi)%N
                    end in
                  match_ranges fuel' r false (hit || inside) chunk3
              end
          end
      end
  end.

(** [matchChunk]: [None] for a malformed chunk, otherwise the unmatched rest of
    the name, or [None] when the chunk does not match.  [s = None] is the
    source's [failed]. *)
Fixpoint match_chunk (fuel : nat) (chunk : string) (s : option string) : option (option string) :=
  match fuel with
  | O => None
  | S fuel' =>
      match chunk with
      | EmptyString => Some s
      | String c chunk' =>
          let s := match s with Some EmptyString => None | _ => s end in
          let literal d rest :=
            match_chunk fuel' rest
              (match s with
               | Some (String x s') => if Ascii.eqb d x then Some s' else None
               | _ => None
               end) in
          if Ascii.eqb c "[" then
            let '(r, s1) :=
              match s with Some (String x s') => (Some x, Some s') | _ => (None, None) end in
            let '(neg, chunk1) :=
              match chunk' with
              | String "^" rest => (true, rest)
              | _ => (false, chunk')
              end in
            match match_ranges fuel r true false chunk1 with
            | None => None
            | Some (hit, rest) =>
                match_chunk fuel' rest (if Bool.eqb hit neg then None else s1)
            end
          else if Ascii.eqb c "?" then
            match_chunk fuel' chunk'
              (match s with
               | Some (String x s') => if Ascii.eqb x slash then None else Some s'
               | _ => None
               end)
          else if Ascii.eqb c "\" then
            match chunk' with EmptyString => None | String d rest => literal d rest end
          else literal c chunk'
      end
  end.

Definition run_chunk (chunk s : string) : option (option string) :=
  match_chunk (S (String.length chunk)) chunk (Some s).

Definition is_empty (s : string) : bool := s =?s "".

(** The rest of a pattern is only parsed, for its errors. *)
Fixpoint check_rest (fuel : nat) (p : string) : bool :=
  match fuel with
  | O => true
  | S fuel' =>
      if is_empty p then true
      else
        let '(_, chunk, rest) := scan_chunk p in
        match run_chunk chunk "" with None => false | Some _ => check_rest fuel' rest end
  end.

Inductive skip_result := Found (t : string) | NotFound | Malformed.

(** The inner loop of [Match]: let a star swallow bytes other than '/'. *)
Fixpoint star_skip (chunk : string) (last : bool) (name : string) : skip_result :=
  match name with
  | EmptyString => NotFound
  | String c name' =>
      if Ascii.eqb c slash then NotFound
      else
        match run_chunk chunk name' with
        | None => Malformed
        | Some (Some t) => if last && negb (is_empty t) then star_skip chunk last name' else Found t
        | Some None => star_skip chunk last name'
        end
  end.

Fixpoint match_loop (fuel : nat) (p name : string) : option bool :=
  match fuel with
  | O => None
  | S fuel' =>
      if is_empty p then Some (is_empty name)
      else
        let '(star, chunk, rest) := scan_chunk p in
        if star && is_empty chunk then Some (negb (str_contains name "/"))
        else
          let fail := if check_rest (S (String.length rest)) rest then Some false else None in
          let by_star :=
            if star then
              match star_skip chunk (is_empty rest) name with
              | Found t => match_loop fuel' rest t
              | NotFound => fail
              | Malformed => None
              end
            else fail in
          match run_chunk chunk name with
          | None => None
          | Some (Some t) =>
              if is_empty t || negb (is_empty rest) then match_loop fuel' rest t else by_star
          | Some None => by_star
          end
  end.

(** [filepath.Match(pattern, name)]; [None] is [ErrBadPattern]. *)
Definition glob (pattern name : string) : option bool :=
  match_loop (S (String.length pattern)) pattern name.

(** [matched, _ := filepath.Match(..)]: an error leaves [matched] false. *)
Definition glob_matches (pattern name : string) : bool :=
  match glob pattern name with Some b => b | None => false end.

(** ** Literal patterns *)

Definition plain_byte (c : ascii) : bool :=
  negb (Ascii.eqb c "*" || Ascii.eqb c "?" || Ascii.eqb c "[" || Ascii.eqb c "\").

Fixpoint plain (p : string) : bool :=
  match p with EmptyString => true | String c p' => plain_byte c && plain p' end.

Lemma plain_byte_spec c :
  plain_byte c = true ->
  Ascii.eqb c "*" = false /\ Ascii.eqb c "?" = false /\ Ascii.eqb c "[" = false /\ Ascii.eqb c "\" = false.
Proof. unfold plain_byte. rewrite negb_true_iff, !orb_false_iff. tauto. Qed.

Lemma scan_plain p q :
  plain p = true -> q = ""%string \/ q = "*"%string -> scan false (p ++ q) = (p, q).
Proof.
  intros Hp Hq. induction p as [|c p IH]; [|rewrite append_cons]; simpl.
  - by destruct Hq as [->| ->].
  - simpl in Hp. apply andb_true_iff in Hp as [Hc Hp].
    apply plain_byte_spec in Hc as (H1 & H2 & H3 & H4).
    rewrite H4, H1, H3. simpl.
    replace (if Ascii.eqb c "]" then false else false) with false by by destruct (Ascii.eqb c "]").
    by rewrite (IH Hp).
Qed.

Lemma skip_stars_plain c p :
  plain_byte c = true -> skip_stars (String c p) = (false, String c p).
Proof. intros Hc. apply plain_byte_spec in Hc as (H & _). simpl. by rewrite H. Qed.

Lemma match_chunk_failed n p :
  plain p = true -> String.length p < n -> match_chunk n p None = Some None.
Proof.
  revert n. induction p as [|c p IH]; intros [|n] Hp Hn; simpl in *; try lia; [done|].
  apply andb_true_iff in Hp as [Hc Hp]. apply plain_byte_spec in Hc as (_ & H2 & H3 & H4).
  rewrite H2, H3, H4. apply IH; [done|lia].
Qed.

Lemma match_chunk_plain n p s :
  plain p = true -> String.length p < n ->
  match_chunk n p (Some s) = Some (if has_prefix s p then Some (drop_bytes (String.length p) s) else None).
Proof.
  revert n s. induction p as [|c p IH]; intros [|n] s Hp Hn; simpl in *; try lia; [done|].
  apply andb_true_iff in Hp as [Hc Hp]. apply plain_byte_spec in Hc as (_ & H2 & H3 & H4).
  rewrite H2, H3, H4. destruct s as [|x s]; simpl.
  - apply match_chunk_failed; [done|lia].
  - destruct (Ascii.eqb c x) eqn:E; simpl.
    + apply IH; [done|lia].
    + apply match_chunk_failed; [done|lia].
Qed.

Lemma run_chunk_plain p s :
  plain p = true ->
  run_chunk p s = Some (if has_prefix s p then Some (drop_bytes (String.length p) s) else None).
Proof. intros. apply match_chunk_plain; [done|lia]. Qed.

Lemma prefix_exhausts s p :
  has_prefix s p && is_empty (drop_bytes (String.length p) s) = (p =?s s).
Proof.
  unfold is_empty. revert s. induction p as [|c p IH]; intros [|d s]; try done.
  rewrite streq_cons, <- IH. simpl. destruct (Ascii.eqb c d); done.
Qed.

(** A pattern without metacharacters matches itself only. *)
Lemma glob_plain p name : plain p = true -> glob p name = Some (p =?s name).
Proof.
  intros Hp. unfold glob. cbn [match_loop].
  destruct p as [|c p]; [by destruct name|].
  unfold scan_chunk. pose proof Hp as Hp'. cbn [plain] in Hp'. apply andb_true_iff in Hp' as [Hc _].
  rewrite (skip_stars_plain _ _ Hc).
  replace (scan false (String c p)) with (String c p, ""%string)
    by (rewrite <- (scan_plain (String c p) "") by eauto; by rewrite app_empty_r).
  rewrite (run_chunk_plain _ _ Hp), <- prefix_exhausts.
  cbn [is_empty String.eqb andb check_rest]. 
  destruct (has_prefix name (String c p)) eqn:E; [|done].
  rewrite andb_true_l. generalize (drop_bytes (String.length (String c p)) name). intros t.
  by destruct t.
Qed.

(** A literal prefix followed by a star matches the names with that prefix whose
    rest has no separator. *)
Lemma glob_plain_star p name :
  plain p = true -> p <> ""%string ->
  glob (p ++ "*") name =
  Some (has_prefix name p && negb (str_contains (drop_bytes (String.length p) name) "/")).
Proof.
  intros Hp Hne. unfold glob. cbn [match_loop].
  destruct p as [|c p]; [done|].
  unfold scan_chunk. pose proof Hp as Hp'. cbn [plain] in Hp'. apply andb_true_iff in Hp' as [Hc _].
  change (String c p ++ "*")%string with (String c (p ++ "*")).
  rewrite (skip_stars_plain _ _ Hc).
  change (String c (p ++ "*")) with (String c p ++ "*")%string.
  rewrite (scan_plain _ "*" Hp) by eauto.
  rewrite (run_chunk_plain _ _ Hp). cbn [is_empty String.eqb andb negb orb].
  destruct (has_prefix name (String c p)) eqn:E; [|done].
  rewrite orb_true_r, andb_true_l. generalize (drop_bytes (String.length (String c p)) name). intros t.
  rewrite length_app_s. cbn [String.length Nat.add match_loop].
  by destruct t.
Qed.

(** ** The fuel is enough

    Every loop consumes a byte of the pattern, so fuel above its length changes
    nothing: the functions are the source's loops, which need none. *)

Lemma get_esc_shorter chunk r rest :
  get_esc chunk = Some (r, rest) -> String.length rest < String.length chunk.
Proof.
  destruct chunk as [|c [|d rest']]; simpl; [done| |].
  - destruct (_ || _); [done|]. by destruct (Ascii.eqb c "\").
  - destruct (_ || _); [done|]. destruct (Ascii.eqb c "\").
    + destruct rest' as [|e rest'']; [done|]. intros [= <- <-]. simpl. lia.
    + intros [= <- <-]. simpl. lia.
Qed.

(** One range of a class: its bounds and what follows it. *)
Definition class_range (chunk : string) : option (ascii * ascii * string) :=
  match get_esc chunk with
  | None => None
  | Some (lo, chunk1) =>
      match match chunk1 with String "-" chunk2 => get_esc chunk2 | _ => Some (lo, chunk1) end with
      | None => None
      | Some (hi, chunk3) => Some (lo, hi, chunk3)
      end
  end.

Definition in_range (r : option ascii) (lo hi : ascii) : bool :=
  match r with
  | None => false
  | Some c => (N_of_ascii lo <=? N_of_ascii c)%N && (N_of_ascii c <=? N_of_ascii hi)%N
  end.

Lemma class_range_shorter chunk lo hi rest :
  class_range chunk = Some (lo, hi, rest) -> String.length rest < String.length chunk.
Proof.
  unfold class_range. destruct (get_esc chunk) as [[x chunk1]|] eqn:E; [|done].
  apply get_esc_shorter in E. destruct chunk1 as [|c chunk2].
  { intros [= <- <- <-]. done. }
  destruct (ascii_dec c "-") as [->|Hc].
  - destruct (get_esc chunk2) as [[y chunk3]|] eqn:E2; [|done]. intros [= <- <- <-].
    apply get_esc_shorter in E2. simpl in E. lia.
  - intros H. assert (Some (x, x, String c chunk2) = Some (lo, hi, rest)) as [= <- <- <-]; [|done].
    rewrite <- H. destruct c as [[] [] [] [] [] [] [] []]; done.
Qed.

Lemma match_ranges_step n r first hit chunk :
  match_ranges (S n) r first hit chunk =
  match chunk with
  | String "]" rest => if first then None else Some (hit, rest)
  | _ =>
      match class_range chunk with
      | None => None
      | Some (lo, hi, rest) => match_ranges n r false (hit || in_range r lo hi) rest
      end
  end.
Proof.
  simpl. unfold class_range. destruct (get_esc chunk) as [[lo chunk1]|]; [|done].
  by destruct (match chunk1 with String "-" chunk2 => get_esc chunk2 | _ => Some (lo, chunk1) end) as [[hi c3]|].
Qed.

Lemma match_ranges_spec n m r first hit chunk :
  String.length chunk < n -> String.length chunk < m ->
  match_ranges n r first hit chunk = match_ranges m r first hit chunk /\
  forall h rest, match_ranges n r first hit chunk = Some (h, rest) ->
    String.length rest <= String.length chunk.
Proof.
  revert m first hit chunk. induction n as [|n IH]; intros [|m] first hit chunk Hn Hm; try lia.
  rewrite !match_ranges_step.
  assert (Hgo : (match class_range chunk with
      | None => None | Some (lo, hi, rest) => match_ranges n r false (hit || in_range r lo hi) rest end =
    match class_range chunk with
      | None => None | Some (lo, hi, rest) => match_ranges m r false (hit || in_range r lo hi) rest end) /\
    forall h rest, match class_range chunk with
      | None => None | Some (lo, hi, rest) => match_ranges n r false (hit || in_range r lo hi) rest end
      = Some (h, rest) -> String.length rest <= String.length chunk).
  { destruct (class_range chunk) as [[[lo hi] rest]|] eqn:E; [|done]. apply class_range_shorter in E.
    destruct (IH m false (hit || in_range r lo hi) rest) as [H1 H2]; [lia..|].
    split; [exact H1|]. intros h rest' Hr. apply H2 in Hr. lia. }
  destruct chunk as [|c chunk']; [exact Hgo|]. destruct (ascii_dec c "]") as [->|Hc].
  - split; [done|]. destruct first; [done|]. intros h rest [= <- <-]. simpl. lia.
  - destruct c as [[] [] [] [] [] [] [] []]; first [exact Hgo|done].
Qed.

Lemma match_chunk_fuel n m chunk s :
  String.length chunk < n -> String.length chunk < m -> match_chunk n chunk s = match_chunk m chunk s.
Proof.
  revert m chunk s. induction n as [|n IH]; intros [|m] chunk s Hn Hm; try lia.
  destruct chunk as [|c chunk']; [done|]. simpl in Hn, Hm. cbn [match_chunk].
  set (s0 := match s with Some "" => None | _ => s end).
  destruct (Ascii.eqb c "[").
  - destruct (match s0 with Some (String x s') => (Some x, Some s') | _ => (None, None) end) as [r s1].
    set (body := match chunk' with String "^" rest => (true, rest) | _ => (false, chunk') end).
    assert (Hb : String.length body.2 <= String.length chunk').
    { unfold body. destruct chunk' as [|d rest]; [done|]. destruct d as [[] [] [] [] [] [] [] []]; simpl; lia. }
    destruct body as [neg chunk1]. simpl in Hb.
    destruct (match_ranges_spec (S n) (S m) r true false chunk1) as [-> Hs]; [lia..|].
    destruct (match_ranges_spec (S m) (S m) r true false chunk1) as [_ Hs']; [lia..|].
    destruct (match_ranges (S m) r true false chunk1) as [[hit rest]|]; [|done].
    specialize (Hs' hit rest eq_refl). apply IH; lia.
  - destruct (Ascii.eqb c "?"); [apply IH; lia|].
    destruct (Ascii.eqb c "\"); [|apply IH; lia].
    destruct chunk' as [|d rest]; [done|]. simpl in Hn, Hm. apply IH; lia.
Qed.

Lemma scan_length inrange p :
  String.length (fst (scan inrange p)) + String.length (snd (scan inrange p)) = String.length p.
Proof.
  remember (String.length p) as n eqn:Hn. assert (Hle : String.length p <= n) by lia. rewrite Hn. clear Hn.
  revert inrange p Hle. induction n as [|n IH]; intros inrange [|c p'] Hle; try done; simpl in *; [lia|].
  destruct (Ascii.eqb c "\").
  - destruct p' as [|d p'']; [done|]. simpl in Hle. specialize (IH inrange p'' ltac:(lia)).
    destruct (scan inrange p''). simpl in *. lia.
  - destruct (_ && _); [done|].
    specialize (IH (if Ascii.eqb c "[" then true else if Ascii.eqb c "]" then false else inrange) p' ltac:(lia)).
    destruct (scan _ p'). simpl in *. lia.
Qed.

Lemma skip_stars_length p :
  String.length (snd (skip_stars p)) <= String.length p /\
  (fst (skip_stars p) = true -> String.length (snd (skip_stars p)) < String.length p) /\
  match snd (skip_stars p) with String c _ => Ascii.eqb c "*" = false | EmptyString => True end.
Proof.
  induction p as [|c p IH]; simpl; [done|]. destruct (Ascii.eqb c "*") eqn:E; simpl.
  - split_and!; [lia|lia|tauto].
  - by split_and!.
Qed.

(** Each turn of [Match] consumes some of the pattern. *)
Lemma scan_chunk_shorter p star chunk rest :
  p <> ""%string -> scan_chunk p = (star, chunk, rest) -> String.length rest < String.length p.
Proof.
  intros Hp. unfold scan_chunk. pose proof (skip_stars_length p) as (H1 & H2 & H3).
  destruct (skip_stars p) as [st p1] eqn:Es. simpl in *.
  pose proof (scan_length false p1) as Hl. destruct (scan false p1) as [a b] eqn:Ea. simpl in Hl.
  intros [= <- <- <-]. destruct st; [specialize (H2 eq_refl); lia|].
  assert (p1 = p) as ->.
  { destruct p as [|c p]; [done|]. simpl in Es. destruct (Ascii.eqb c "*"); congruence. }
  destruct p as [|c p]; [done|]. assert (a <> ""%string); [|destruct a; simpl in *; [done|lia]].
  intros ->. simpl in Ea. rewrite H3 in Ea. simpl in Ea. destruct (Ascii.eqb c "\").
  - destruct p as [|d p]; [done|]. by destruct (scan false p).
  - by destruct (scan _ p).
Qed.

Lemma check_rest_fuel n m p :
  String.length p < n -> String.length p < m -> check_rest n p = check_rest m p.
Proof.
  revert m p. induction n as [|n IH]; intros [|m] p Hn Hm; try lia. simpl. unfold is_empty.
  destruct (String.eqb_spec p "") as [|Hp]; [done|].
  destruct (scan_chunk p) as [[star chunk] rest] eqn:E. apply scan_chunk_shorter in E; [|done].
  destruct (run_chunk chunk ""); [|done]. apply IH; lia.
Qed.

(** The matcher with more fuel gives the same answer. *)
Lemma glob_fuel n p name : String.length p < n -> match_loop n p name = glob p name.
Proof.
  unfold glob. assert (Hgo : forall n m p name, String.length p < n -> String.length p < m ->
    match_loop n p name = match_loop m p name); [|intros; apply Hgo; lia].
  clear. induction n as [|n IH]; intros [|m] p name Hn Hm; try lia. simpl.
  destruct (is_empty p) eqn:Hp; [done|]. apply streq_false in Hp.
  destruct (scan_chunk p) as [[star chunk] rest] eqn:E. apply scan_chunk_shorter in E; [|done].
  destruct (star && is_empty chunk); [done|].
  assert (Ht : forall t, match_loop n rest t = match_loop m rest t) by (intros; apply IH; lia).
  destruct (run_chunk chunk name) as [[t|]|]; [destruct (is_empty t || negb (is_empty rest)); [apply Ht|]| |done];
    destruct star; try done; destruct (star_skip _ _ _); try done; apply Ht.
Qed.
