(* ===== verification/GoTime.v ===== *)
(** * Instants, civil time and the two timestamp formats of the stores

    A [Time] is the number of nanoseconds since the zero time.Time
    (0001-01-01T00:00:00Z), so [IsZero] is [t = 0].  [Weekday], [Hour] and the
    formatting functions are the standard library's; the layouts are
    time.RFC3339Nano (which drops trailing zeros of the fraction) and the
    fixed-width sqliteTimeFormat of internal/audit/store.go. *)

From S2P Require Import Prelude.
Local Open Scope Z_scope.

Abbreviation Time := Z (only parsing).

Definition IsZero (t : Time) : bool := t =? 0.

Definition Second : Z := 1000000000.
Definition Minute : Z := 60 * Second.
Definition Hours : Z := 60 * Minute.
Definition Day : Z := 24 * Hours.

(** [t.After(u)], [t.Before(u)]. *)
Definition After (t u : Time) : bool := u <? t.
Definition Before (t u : Time) : bool := t <? u.

(** ** Days of the proleptic Gregorian calendar

    [civil d] is the date of the day [d] days after 0001-01-01. *)

Definition civil (d : Z) : Z * Z * Z :=
  let z := d + 306 in
  let era := z / 146097 in
  let doe := z mod 146097 in
  let yoe := (doe - doe / 1460 + doe / 36524 - doe / 146096) / 365 in
  let doy := doe - (365 * yoe + yoe / 4 - yoe / 100) in
  let mp := (5 * doy + 2) / 153 in
  let m := if mp <? 10 then mp + 3 else mp - 9 in
  (yoe + era * 400 + (if m <=? 2 then 1 else 0), m, doy - (153 * mp + 2) / 5 + 1).

(** Sunday is 0; 0001-01-01 was a Monday. *)
Definition Weekday (t : Time) : Z := (t / Day + 1) mod 7.
Definition Hour (t : Time) : Z := (t / Hours) mod 24.

(** ** Formatting *)

Fixpoint pad_digits (width : nat) (n : Z) (acc : string) : string :=
  match width with
  | O => acc
  | S w => pad_digits w (n / 10) (String (ascii_of_N (Z.to_N (48 + n mod 10))) acc)
  end.

(** [n] in decimal, zero-padded to [width] digits. *)
Definition padded (width : nat) (n : Z) : string := pad_digits width n "".

Definition clock_fields (t : Time) : string :=
  let '(y, m, d) := civil (t / Day) in
  (padded 4 y ++ "-" ++ padded 2 m ++ "-" ++ padded 2 d ++ "T" ++
   padded 2 (Hour t) ++ ":" ++ padded 2 (t / Minute mod 60) ++ ":" ++ padded 2 (t / Second mod 60))%string.

(** "2006-01-02T15:04:05.000000000Z". *)
Definition sqliteTimeFormat (t : Time) : string :=
  (clock_fields t ++ "." ++ padded 9 (t mod Second) ++ "Z")%string.

Fixpoint drop_zeros (s : string) : string :=
  match s with
  | String c s' => if Ascii.eqb c "0" then drop_zeros s' else s
  | EmptyString => s
  end.

(** The fraction of RFC3339Nano: nine digits less the trailing zeros, and no
    point at all for a whole second. *)
Definition nano_fraction (ns : Z) : string :=
  if ns =? 0 then "" else ("." ++ String.rev (drop_zeros (String.rev (padded 9 ns))))%string.

(** [t.UTC().Format(time.RFC3339Nano)]. *)
Definition RFC3339Nano (t : Time) : string :=
  (clock_fields t ++ nano_fraction (t mod Second) ++ "Z")%string.

(** SQL's [<] and [>=] on TEXT columns: byte order. *)
Definition text_lt (a b : string) : bool := String.ltb a b.
Definition text_le (a b : string) : bool := negb (text_lt b a).

(** A [time.Time] together with the offset of its location, for the operations
    that read its wall clock.  [In loc] keeps the instant. *)
Record Clock := { instant : Time; zone_offset : Z }.

Definition In_location (c : Clock) (offset_at : Time -> Z) : Clock :=
  {| instant := instant c; zone_offset := offset_at (instant c) |}.

Definition clock_weekday (c : Clock) : Z := Weekday (instant c + zone_offset c).
Definition clock_hour (c : Clock) : Z := Hour (instant c + zone_offset c).
