(* ===== verification/TimeText.v ===== *)
(** * Timestamps as text

    The stores of internal/audit keep instants as text, in three layouts: RFC3339Nano,
    the fixed-width layout of store.go and the SQLite datetime layout.  This file reads
    them back: time.Parse on the texts the layouts produce (its fast path for RFC 3339,
    with offsets; the forms only its general path accepts, one-digit hours and a comma
    before the fraction, are refused here), the calendar in the other direction, and
    the column conversions of the stores.  Reading back what was written gives the
    instant again, and the fixed-width texts are ordered as their instants are. *)

From S2P Require Import Prelude GoTime.
Local Open Scope Z_scope.

(** ** The calendar, from dates to days *)

Definition leap_year (y : Z) : bool :=
  (y mod 4 =? 0) && (negb (y mod 100 =? 0) || (y mod 400 =? 0)).

Definition days_in (y m : Z) : Z :=
  if m =? 2 then (if leap_year y then 29 else 28)
  else if (m =? 4) || (m =? 6) || (m =? 9) || (m =? 11) then 30 else 31.

(** The days from 0001-01-01 to a date, counting years from March. *)
Definition days_of (y m d : Z) : Z :=
  let y' := if m <=? 2 then y - 1 else y in
  365 * y' + y' / 4 - y' / 100 + y' / 400 + (153 * ((m + 9) mod 12) + 2) / 5 + d - 1 - 306.

(** ** time.Parse *)

(** Exactly [w] digits. *)
Fixpoint read_digits (w : nat) (acc : Z) (s : string) : option (Z * string) :=
  match w with
  | O => Some (acc, s)
  | S w' =>
      match s with
      | EmptyString => None
      | String c s' =>
          let n := Z.of_N (N_of_ascii c) in
          if (48 <=? n) && (n <=? 57) then read_digits w' (acc * 10 + (n - 48)) s' else None
      end
  end.

(** A number of [w] digits within bounds. *)
Definition read_num (w : nat) (lo hi : Z) (s : string) : option (Z * string) :=
  match read_digits w 0 s with
  | Some (n, rest) => if (lo <=? n) && (n <=? hi) then Some (n, rest) else None
  | None => None
  end.

Definition read_byte (c : ascii) (s : string) : option string :=
  match s with String d s' => if Ascii.eqb c d then Some s' else None | EmptyString => None end.

Definition read_date (s : string) : option (Z * string) :=
  y ← read_num 4 0 9999 s;
  s1 ← read_byte "-" y.2;
  m ← read_num 2 1 12 s1;
  s2 ← read_byte "-" m.2;
  d ← read_num 2 1 (days_in y.1 m.1) s2;
  Some (days_of y.1 m.1 d.1, d.2).

Definition read_clock (s : string) : option (Z * string) :=
  h ← read_num 2 0 23 s;
  s1 ← read_byte ":" h.2;
  m ← read_num 2 0 59 s1;
  s2 ← read_byte ":" m.2;
  sec ← read_num 2 0 59 s2;
  Some (h.1 * Hours + m.1 * Minute + sec.1 * Second, sec.2).

Definition is_digit (c : ascii) : bool :=
  let n := Z.of_N (N_of_ascii c) in (48 <=? n) && (n <=? 57).

Fixpoint span_digits (s : string) : string * string :=
  match s with
  | String c s' => if is_digit c then let '(a, b) := span_digits s' in (String c a, b) else ("", s)
  | EmptyString => ("", "")
  end%string.

(** The digits after the point, as nanoseconds; those after the ninth are dropped. *)
Fixpoint nanos (w : nat) (s : string) (acc : Z) : Z :=
  match w with
  | O => acc
  | S w' =>
      match s with
      | EmptyString => nanos w' "" (acc * 10)
      | String c s' => nanos w' s' (acc * 10 + (Z.of_N (N_of_ascii c) - 48))
      end
  end.

Definition read_fraction (s : string) : Z * string :=
  match s with
  | String "." (String c _ as s') =>
      if is_digit c then let '(ds, rest) := span_digits s' in (nanos 9 ds 0, rest) else (0, s)
  | _ => (0, s)
  end.

(** "Z" or an offset, to be subtracted. *)
Definition read_zone (s : string) : option Z :=
  match s with
  | String "Z" EmptyString => Some 0
  | String sign s' =>
      h ← read_num 2 0 23 s';
      s1 ← read_byte ":" h.2;
      m ← read_num 2 0 59 s1;
      if m.2 =?s "" then
        let offset := (h.1 * 60 + m.1) * Minute in
        if Ascii.eqb sign "+" then Some offset
        else if Ascii.eqb sign "-" then Some (- offset) else None
      else None
  | EmptyString => None
  end.

Definition Parse_RFC3339 (s : string) : option Time :=
  date ← read_date s;
  s1 ← read_byte "T" date.2;
  clock ← read_clock s1;
  let '(ns, s2) := read_fraction clock.2 in
  offset ← read_zone s2;
  Some (date.1 * Day + clock.1 + ns - offset).

(** The layout "2006-01-02 15:04:05", in UTC. *)
Definition Parse_datetime (s : string) : option Time :=
  date ← read_date s;
  s1 ← read_byte " " date.2;
  clock ← read_clock s1;
  if clock.2 =?s "" then Some (date.1 * Day + clock.1) else None.

(** ** The columns of the stores *)

(** [t, _ = time.Parse(time.RFC3339Nano, s)]: the zero time for a text it cannot read. *)
Definition parse_or_zero (s : string) : Time := default 0 (Parse_RFC3339 s).

(** A nullable column read with [sql.NullString]. *)
Definition column_time (c : option string) : Time :=
  match c with Some s => parse_or_zero s | None => 0 end.

Definition formatTimeOrNull (t : Time) : option string :=
  if IsZero t then None else Some (RFC3339Nano t).

Definition parseFlexTime (s : string) : Time :=
  match Parse_RFC3339 s with
  | Some t => t
  | None => default 0 (Parse_datetime s)
  end.

(** [t.Format(time.RFC3339)] of a time in UTC. *)
Definition RFC3339 (t : Time) : string := (clock_fields t ++ "Z")%string.

(** "2006-01-02 15:04:05" *)
Definition datetime_text (t : Time) : string :=
  let '(y, m, d) := civil (t / Day) in
  (padded 4 y ++ "-" ++ padded 2 m ++ "-" ++ padded 2 d ++ " " ++
   padded 2 (Hour t) ++ ":" ++ padded 2 (t / Minute mod 60) ++ ":" ++ padded 2 (t / Second mod 60))%string.

Definition formatNullableTime (t : Time) : string := if IsZero t then "" else datetime_text t.

Ltac zdiv := Z.to_euclidean_division_equations; lia.

(** ** Digits *)

Lemma pad_digits_app w n acc : pad_digits w n acc = (padded w n ++ acc)%string.
Proof.
  unfold padded. revert n acc. induction w as [|w IH]; intros n acc; [done|]. cbn [pad_digits].
  rewrite IH, (IH _ (String _ "")), app_assoc_s. done.
Qed.

Definition digit (n : Z) : ascii := ascii_of_N (Z.to_N (48 + n)).

Lemma padded_S w n : padded (S w) n = (padded w (n / 10) ++ String (digit (n mod 10)) "")%string.
Proof. unfold padded at 1. cbn [pad_digits]. apply pad_digits_app. Qed.

Lemma digit_value n : 0 <= n < 10 -> Z.of_N (N_of_ascii (digit n)) = 48 + n.
Proof. intros H. unfold digit. rewrite N_ascii_embedding by lia. lia. Qed.

Lemma digit_is_digit n : 0 <= n < 10 -> is_digit (digit n) = true.
Proof. intros H. unfold is_digit. rewrite (digit_value n) by done. apply andb_true_iff. lia. Qed.

Lemma padded_length w n : String.length (padded w n) = w.
Proof.
  revert n. induction w as [|w IH]; intros n; [done|]. rewrite padded_S, length_app_s, IH. simpl. lia.
Qed.

Lemma pow10_S w : 10 ^ Z.of_nat (S w) = 10 * 10 ^ Z.of_nat w.
Proof. rewrite Nat2Z.inj_succ, Z.pow_succ_r by lia. done. Qed.

Lemma div10_bound w n : 0 <= n < 10 ^ Z.of_nat (S w) -> 0 <= n / 10 < 10 ^ Z.of_nat w.
Proof.
  rewrite pow10_S. intros H. split; [apply Z.div_pos; lia|]. apply Z.div_lt_upper_bound; lia.
Qed.

Lemma read_digits_app w v acc s rest :
  read_digits w acc s = Some (v, ""%string) -> read_digits w acc (s ++ rest) = Some (v, rest).
Proof.
  revert acc s. induction w as [|w IH]; intros acc s; simpl.
  - intros [= -> ->]. done.
  - destruct s as [|c s]; [done|]. rewrite append_cons. destruct (_ && _); [|done]. apply IH.
Qed.

Lemma read_digits_snoc w v acc s n :
  read_digits w acc s = Some (v, ""%string) -> 0 <= n < 10 ->
  read_digits (S w) acc (s ++ String (digit n) "") = Some (v * 10 + n, ""%string).
Proof.
  revert acc s. induction w as [|w IH]; intros acc s; cbn [read_digits].
  - intros [= -> ->] Hn. change ("" ++ String (digit n) "")%string with (String (digit n) ""). cbn [read_digits].
    rewrite (digit_value n) by done.
    replace ((48 <=? 48 + n) && (48 + n <=? 57)) with true by (symmetry; apply andb_true_iff; lia).
    do 2 f_equal. lia.
  - destruct s as [|c s]; [done|]. rewrite append_cons. destruct (_ && _); [|done]. apply IH.
Qed.

Lemma read_padded w n :
  0 <= n < 10 ^ Z.of_nat w -> read_digits w 0 (padded w n) = Some (n, ""%string).
Proof.
  revert n. induction w as [|w IH]; intros n Hn.
  - simpl in *. by replace n with 0 by lia.
  - rewrite padded_S. pose proof (Z.mod_pos_bound n 10 ltac:(lia)).
    rewrite (read_digits_snoc w (n / 10) 0 _ (n mod 10)); [|by apply IH, div10_bound|done].
    do 2 f_equal. pose proof (Z_div_mod_eq_full n 10). lia.
Qed.

Lemma read_num_padded w lo hi n rest :
  0 <= n < 10 ^ Z.of_nat w -> lo <= n <= hi ->
  read_num w lo hi (padded w n ++ rest) = Some (n, rest).
Proof.
  intros Hn Hb. unfold read_num. rewrite (read_digits_app _ n) by (by apply read_padded).
  replace ((lo <=? n) && (n <=? hi)) with true; [done|]. symmetry. apply andb_true_iff. lia.
Qed.

(** ** The calendar, both ways *)

(** The year, counted from March, of the day [doe] of a cycle of 400 years, its first
    day, the days before the next one, and the month and the day of the month. *)
Definition yoe_of (doe : Z) : Z := (doe - doe / 1460 + doe / 36524 - doe / 146096) / 365.
Definition year_start (y : Z) : Z := 365 * y + y / 4 - y / 100.
Definition year_end (y : Z) : Z := if y =? 399 then 146097 else year_start (y + 1).
Definition month_day (doy : Z) : Z * Z :=
  let mp := (5 * doy + 2) / 153 in
  (if mp <? 10 then mp + 3 else mp - 9, doy - (153 * mp + 2) / 5 + 1).

Definition civil0 (doe : Z) : Z * Z * Z :=
  let '(m, d) := month_day (doe - year_start (yoe_of doe)) in
  (yoe_of doe + (if m <=? 2 then 1 else 0), m, d).

Lemma civil_cycle d :
  let '(y, m, k) := civil0 ((d + 306) mod 146097) in
  civil d = (y + 400 * ((d + 306) / 146097), m, k).
Proof. unfold civil, civil0, month_day, year_start, yoe_of. cbv zeta. f_equal. f_equal. lia. Qed.

Definition date_lt (a b : Z * Z * Z) : bool :=
  let '(y, m, d) := a in let '(y', m', d') := b in
  (y <? y') || ((y =? y') && ((m <? m') || ((m =? m') && (d <? d')))).

(** A check of every number below a bound. *)
Fixpoint check_below (p : Z -> bool) (n : nat) : bool :=
  match n with
  | O => true
  | S n' => p (Z.of_nat n') && check_below p n'
  end.

Lemma check_below_spec p n k : check_below p n = true -> 0 <= k < Z.of_nat n -> p k = true.
Proof.
  induction n as [|n IH]; [lia|]. cbn [check_below]. rewrite andb_true_iff. intros [Hp Hn] Hk.
  destruct (Z.eq_dec k (Z.of_nat n)) as [->|]; [done|]. apply IH; [done|lia].
Qed.

(** The four hundred years and the days of a year. *)
Definition check_year (y : Z) : bool :=
  (yoe_of (year_start y) =? y) && (yoe_of (year_end y - 1) =? y) &&
  (year_end y - year_start y =? if leap_year (y + 1) then 366 else 365).

Definition check_doy (doy : Z) : bool :=
  let '(m, d) := month_day doy in
  (1 <=? m) && (m <=? 12) && (1 <=? d) && ((153 * ((m + 9) mod 12) + 2) / 5 + d - 1 =? doy) &&
  (if m =? 2 then (doy =? d + 336) && ((d <=? 28) || (doy =? 365))
   else (d <=? days_in 0 m)) &&
  ((doy =? 365) ||
   let '(m', d') := month_day (doy + 1) in
   date_lt ((if m <=? 2 then 1 else 0), m, d) ((if m' <=? 2 then 1 else 0), m', d')).

Lemma years_checked : check_below check_year 400 = true.
Proof. vm_compute. reflexivity. Qed.

Lemma doys_checked : check_below check_doy 366 = true.
Proof. vm_compute. reflexivity. Qed.

Lemma yoe_step doe : 0 <= doe -> yoe_of doe <= yoe_of (doe + 1).
Proof.
  intros H. unfold yoe_of. apply Z.div_le_mono; [lia|].
  replace 146096 with (36524 * 4) by done. rewrite <- !Z.div_div by lia.
  assert (doe / 36524 <= (doe + 1) / 36524) by (apply Z.div_le_mono; lia).
  assert ((doe + 1) / 1460 <= doe / 1460 + 1) by (zdiv).
  zdiv.
Qed.

Lemma yoe_mono a b : 0 <= a <= b -> yoe_of a <= yoe_of b.
Proof.
  intros H. replace b with (a + Z.of_nat (Z.to_nat (b - a))) by lia.
  generalize (Z.to_nat (b - a)). intros n. induction n as [|n IH]; [by rewrite Z.add_0_r|].
  rewrite Nat2Z.inj_succ, <- Z.add_1_r, Z.add_assoc.
  etransitivity; [exact IH|]. apply yoe_step. lia.
Qed.

(** Every day of the cycle is in its year. *)
Lemma yoe_year doe : 0 <= doe < 146097 ->
  0 <= yoe_of doe < 400 /\ year_start (yoe_of doe) <= doe < year_end (yoe_of doe).
Proof.
  intros Hd. assert (Hex : exists y, 0 <= y < 400 /\ year_start y <= doe < year_end y).
  { assert (Hgo : forall n, (n <= 400)%nat -> doe < year_end (Z.of_nat n - 1) ->
        exists y, 0 <= y < 400 /\ year_start y <= doe < year_end y).
    { intros n. induction n as [|n IH]; intros Hn Hlt.
      - change (year_end (Z.of_nat 0 - 1)) with 0 in Hlt. lia.
      - destruct (Z.le_gt_cases (year_start (Z.of_nat n)) doe) as [Hle|Hgt].
        + exists (Z.of_nat n). replace (Z.of_nat (S n) - 1) with (Z.of_nat n) in Hlt by lia. lia.
        + apply IH; [lia|]. unfold year_end. destruct (Z.eqb_spec (Z.of_nat n - 1) 399); [lia|].
          by replace (Z.of_nat n - 1 + 1) with (Z.of_nat n) by lia. }
    apply (Hgo 400%nat); [done|]. change (year_end (Z.of_nat 400 - 1)) with 146097. lia. }
  destruct Hex as (y & Hy & Hr).
  pose proof (check_below_spec _ _ y years_checked Hy) as Hc. unfold check_year in Hc.
  rewrite !andb_true_iff, !Z.eqb_eq in Hc. destruct Hc as [[H1 H2] _].
  assert (0 <= year_start y) by (unfold year_start; zdiv).
  pose proof (yoe_mono (year_start y) doe ltac:(lia)). pose proof (yoe_mono doe (year_end y - 1) ltac:(lia)).
  replace (yoe_of doe) with y by lia. lia.
Qed.

Lemma year_length y : 0 <= y < 400 -> year_end y - year_start y = if leap_year (y + 1) then 366 else 365.
Proof.
  intros Hy. pose proof (check_below_spec _ _ y years_checked Hy) as Hc. unfold check_year in Hc.
  rewrite !andb_true_iff, !Z.eqb_eq in Hc. tauto.
Qed.

Lemma doy_range doe : 0 <= doe < 146097 ->
  0 <= doe - year_start (yoe_of doe) < if leap_year (yoe_of doe + 1) then 366 else 365.
Proof. intros Hd. destruct (yoe_year doe Hd) as [Hy Hr]. rewrite <- (year_length _ Hy). lia. Qed.

Lemma civil0_spec doe : 0 <= doe < 146097 ->
  let '(y, m, d) := civil0 doe in
  days_of y m d = doe - 306 /\ 1 <= m <= 12 /\ 1 <= d <= days_in y m /\ 0 <= y <= 400.
Proof.
  intros Hd. destruct (yoe_year doe Hd) as [Hy _]. pose proof (doy_range doe Hd) as Hdoy.
  unfold civil0. set (y := yoe_of doe) in *. set (doy := doe - year_start y) in *.
  assert (Hb : 0 <= doy < Z.of_nat 366) by (destruct (leap_year (y + 1)); lia).
  pose proof (check_below_spec _ _ doy doys_checked Hb) as Hc. unfold check_doy in Hc.
  destruct (month_day doy) as [m d]. rewrite !andb_true_iff in Hc.
  destruct Hc as [[[[[H1 H2] H3] H4] H5] _]. apply Z.leb_le in H1, H2, H3. apply Z.eqb_eq in H4.
  assert (Hy' : (if m <=? 2 then y + (if m <=? 2 then 1 else 0) - 1 else y + (if m <=? 2 then 1 else 0)) = y)
    by (destruct (m <=? 2); lia).
  split_and!; [| | |done| |destruct (m <=? 2); lia|destruct (m <=? 2); lia].
  - unfold days_of. cbv zeta. rewrite Hy', (Z.div_small y 400) by lia. unfold doy, year_start in H4. lia.
  - done.
  - done.
  - unfold days_in in *. destruct (Z.eqb_spec m 2) as [->|Hm].
    + replace (y + (if 2 <=? 2 then 1 else 0)) with (y + 1) by done.
      apply andb_true_iff in H5 as [H5%Z.eqb_eq H6]. apply orb_true_iff in H6 as [H6%Z.leb_le|H6%Z.eqb_eq].
      * destruct (leap_year (y + 1)); lia.
      * destruct (leap_year (y + 1)); lia.
    + by apply Z.leb_le.
Qed.

Lemma civil0_next doe : 0 <= doe -> doe + 1 < 146097 -> date_lt (civil0 doe) (civil0 (doe + 1)) = true.
Proof.
  intros H0 H1. destruct (yoe_year doe ltac:(lia)) as [Hy Hr]. destruct (yoe_year (doe + 1) ltac:(lia)) as [Hy' Hr'].
  pose proof (doy_range doe ltac:(lia)) as Hdoy. unfold civil0.
  set (y := yoe_of doe) in *. set (y' := yoe_of (doe + 1)) in *. set (doy := doe - year_start y) in *.
  assert (Hb : 0 <= doy < Z.of_nat 366) by (destruct (leap_year (y + 1)); lia).
  pose proof (check_below_spec _ _ doy doys_checked Hb) as Hc. unfold check_doy in Hc.
  assert (Hm : y <= y') by (apply yoe_step; lia). destruct (Z.eq_dec y' y) as [Heq|Hne].
  - replace (doe + 1 - year_start y') with (doy + 1) by (rewrite Heq; unfold doy; lia). rewrite Heq.
    assert (doy <> 365).
    { intros E. rewrite Heq in Hr'. rewrite <- (year_length y Hy) in Hdoy.
      pose proof (year_length y Hy). destruct (leap_year (y + 1)); lia. }
    destruct (month_day doy) as [m d], (month_day (doy + 1)) as [m' d'].
    rewrite !andb_true_iff, orb_true_iff in Hc. destruct Hc as [_ [Hc|Hc]]; [lia|].
    revert Hc. unfold date_lt. destruct (m <=? 2), (m' <=? 2); lia.
  - assert (Hmono : forall k, 0 <= k < 399 -> year_end k = year_start (k + 1)).
    { intros k Hk. unfold year_end. destruct (Z.eqb_spec k 399); [lia|done]. }
    assert (Hs : y' = y + 1 /\ doe + 1 = year_start y').
    { assert (Hle : year_end y <= year_start (y + 1)) by (rewrite Hmono by lia; lia).
      assert (year_start (y + 1) <= year_start y') by (unfold year_start; zdiv).
      assert (doe + 1 = year_end y) by lia. split; [|lia].
      destruct (Z.eq_dec y' (y + 1)) as [|Hn]; [done|].
      assert (year_start (y + 1) < year_start y') by (unfold year_start; zdiv). lia. }
    destruct Hs as [-> Hs]. rewrite <- Hs, Z.sub_diag. change (month_day 0) with (3, 1).
    assert (Hl : doy = 364 \/ doy = 365).
    { pose proof (year_length y Hy) as Hl. rewrite Hmono, <- Hs in Hl by lia. unfold doy.
      destruct (leap_year (y + 1)); lia. }
    destruct Hl as [Hl|Hl]; rewrite Hl; simpl; lia.
Qed.

Lemma leap_cycle y e : leap_year (y + 400 * e) = leap_year y.
Proof.
  unfold leap_year.
  replace ((y + 400 * e) mod 4) with (y mod 4) by (rewrite <- (Z.mod_add y (100 * e) 4) by lia; f_equal; lia).
  replace ((y + 400 * e) mod 100) with (y mod 100) by (rewrite <- (Z.mod_add y (4 * e) 100) by lia; f_equal; lia).
  replace ((y + 400 * e) mod 400) with (y mod 400) by (rewrite <- (Z.mod_add y e 400) by lia; f_equal; lia).
  done.
Qed.

Lemma days_of_cycle y m d e : days_of (y + 400 * e) m d = days_of y m d + 146097 * e.
Proof.
  unfold days_of. cbv zeta. destruct (m <=? 2).
  - replace (y + 400 * e - 1) with (y - 1 + 400 * e) by lia. generalize (y - 1). intros x.
    replace (x + 400 * e) with (x + 100 * e * 4) at 2 by lia.
    replace (x + 400 * e) with (x + 4 * e * 100) at 2 by lia.
    replace (x + 400 * e) with (x + e * 400) at 2 by lia.
    rewrite !Z.div_add by lia. lia.
  - replace (y + 400 * e) with (y + 100 * e * 4) at 2 by lia.
    replace (y + 400 * e) with (y + 4 * e * 100) at 2 by lia.
    replace (y + 400 * e) with (y + e * 400) at 2 by lia.
    rewrite !Z.div_add by lia. lia.
Qed.

(** The date of a day is a date of the calendar, and is the date of that day only. *)
Lemma civil_spec d :
  let '(y, m, k) := civil d in
  days_of y m k = d /\ 1 <= m <= 12 /\ 1 <= k <= days_in y m /\
  400 * ((d + 306) / 146097) <= y <= 400 * ((d + 306) / 146097) + 400.
Proof.
  pose proof (civil_cycle d) as Hc. pose proof (Z.mod_pos_bound (d + 306) 146097 ltac:(lia)) as Hb.
  pose proof (Z_div_mod_eq_full (d + 306) 146097) as Hd.
  apply civil0_spec in Hb. destruct (civil0 _) as [[y m] k]. rewrite Hc.
  destruct Hb as (H1 & H2 & H3 & H4). rewrite days_of_cycle. unfold days_in in *. rewrite leap_cycle. lia.
Qed.

(** ** Reading back what was written *)

(** The instants the layouts write with four digits of the year: from the zero time to
    the end of the year 9999. *)
Definition writable (t : Time) : Prop := 0 <= t < days_of 10000 1 1 * Day.

Lemma day_year d : 0 <= d < days_of 10000 1 1 -> let '(y, _, _) := civil d in 0 <= y <= 9999.
Proof.
  intros Hd. pose proof (civil_spec d) as H. destruct (civil d) as [[y m] k].
  destruct H as (Hdays & Hm & Hk & Hy). change (days_of 10000 1 1) with 3652059 in Hd.
  split; [zdiv|]. destruct (Z.le_gt_cases y 9999) as [|Hgt]; [done|]. exfalso.
  assert (3652059 <= days_of y m k); [|lia]. unfold days_of. cbv zeta.
  destruct (Z.leb_spec m 2).
  - assert (m = 1 \/ m = 2) as [->| ->] by lia; simpl Z.modulo; zdiv.
  - assert (0 <= (153 * ((m + 9) mod 12) + 2) / 5) by zdiv. zdiv.
Qed.

Lemma writable_day t : writable t -> 0 <= t / Day < days_of 10000 1 1.
Proof.
  unfold writable. intros [H0 H1]. assert (0 < Day) by done. split; [apply Z.div_pos; lia|].
  apply Z.div_lt_upper_bound; lia.
Qed.

(** The instant, from its day and its clock. *)
Lemma clock_split t :
  t = t / Day * Day + (Hour t * Hours + (t / Minute mod 60) * Minute + (t / Second mod 60) * Second) + t mod Second.
Proof.
  unfold Hour, Day, Hours, Minute, Second.
  replace (24 * (60 * (60 * 1000000000))) with (1000000000 * 60 * 60 * 24) by done.
  replace (60 * (60 * 1000000000)) with (1000000000 * 60 * 60) by done.
  replace (60 * 1000000000) with (1000000000 * 60) by done.
  rewrite <- !Z.div_div by lia. zdiv.
Qed.

Lemma read_byte_app c s : read_byte c (String c "" ++ s) = Some s.
Proof. simpl. by rewrite Ascii.eqb_refl. Qed.

Ltac read_field :=
  rewrite read_num_padded by (simpl; lia); cbn [option_bind mbind snd fst];
  rewrite ?read_byte_app; cbn [option_bind mbind snd fst].

Lemma read_date_written d rest : 0 <= d < days_of 10000 1 1 ->
  let '(y, m, k) := civil d in
  read_date (padded 4 y ++ "-" ++ padded 2 m ++ "-" ++ padded 2 k ++ rest) = Some (d, rest).
Proof.
  intros Hd. pose proof (day_year d Hd) as Hy. pose proof (civil_spec d) as Hc.
  destruct (civil d) as [[y m] k]. destruct Hc as (Hdays & Hm & Hk & _).
  assert (days_in y m <= 31) by (unfold days_in; destruct (m =? 2), (leap_year y), ((m =? 4) || (m =? 6) || (m =? 9) || (m =? 11)); lia).
  unfold read_date. read_field.
  read_field.
  read_field. by rewrite Hdays.
Qed.

Lemma read_clock_written t rest :
  read_clock (padded 2 (Hour t) ++ ":" ++ padded 2 (t / Minute mod 60) ++ ":" ++
              padded 2 (t / Second mod 60) ++ rest) =
  Some (Hour t * Hours + (t / Minute mod 60) * Minute + (t / Second mod 60) * Second, rest).
Proof.
  pose proof (Z.mod_pos_bound (t / Hours) 24 ltac:(done)). fold (Hour t) in *.
  pose proof (Z.mod_pos_bound (t / Minute) 60 ltac:(done)).
  pose proof (Z.mod_pos_bound (t / Second) 60 ltac:(done)).
  unfold read_clock. read_field.
  read_field.
  by read_field.
Qed.

(** *** The fraction *)

Fixpoint zeros (n : nat) : string :=
  match n with O => "" | S n' => String "0" (zeros n') end%string.

Fixpoint all_digits (s : string) : bool :=
  match s with String c s' => is_digit c && all_digits s' | EmptyString => true end.

Lemma all_digits_app a b : all_digits (a ++ b) = all_digits a && all_digits b.
Proof. induction a as [|c a IH]; [done|]. rewrite append_cons. simpl. by rewrite IH, andb_assoc. Qed.

Lemma padded_digits w n : all_digits (padded w n) = true.
Proof.
  revert n. induction w as [|w IH]; intros n; [done|]. rewrite padded_S, all_digits_app, IH. simpl.
  by rewrite digit_is_digit by (apply Z.mod_pos_bound; lia).
Qed.

Lemma zeros_snoc n : (zeros n ++ "0")%string = zeros (S n).
Proof. induction n as [|n IH]; [done|]. simpl zeros. by rewrite append_cons, IH. Qed.

Lemma rev_zeros n : String.rev (zeros n) = zeros n.
Proof. induction n as [|n IH]; [done|]. simpl zeros. by rewrite rev_cons_s, IH, zeros_snoc. Qed.

Lemma drop_zeros_spec s : exists n, s = (zeros n ++ drop_zeros s)%string /\
  match drop_zeros s with String c _ => Ascii.eqb c "0" = false | EmptyString => True end.
Proof.
  induction s as [|c s (n & Hs & Hc)]; [by exists O|]. simpl.
  destruct (Ascii.eqb c "0") eqn:E; [|by exists O].
  exists (S n). split; [|done]. simpl zeros. rewrite append_cons, <- Hs. by apply Ascii.eqb_eq in E as ->.
Qed.

Lemma read_digits_zeros w n v s :
  (String.length s + n)%nat = w -> all_digits s = true -> read_digits w v (s ++ zeros n) = Some (nanos w s v, ""%string).
Proof.
  revert w v. induction s as [|c s IH]; intros w v Hl Hd.
  - simpl in Hl. subst w. revert v. induction n as [|n IHn]; intros v; [done|].
    change (read_digits n (v * 10 + 0) (zeros n) = Some (nanos n "" (v * 10), ""%string)).
    rewrite Z.add_0_r. apply IHn.
  - destruct w as [|w]; [simpl in Hl; lia|]. simpl in Hl, Hd. apply andb_true_iff in Hd as [Hc Hd].
    rewrite append_cons. cbn [read_digits nanos]. unfold is_digit in Hc. rewrite Hc. apply IH; [lia|done].
Qed.

Lemma span_digits_app s c rest :
  all_digits s = true -> is_digit c = false -> span_digits (s ++ String c rest) = (s, String c rest).
Proof.
  intros Hs Hc. induction s as [|d s IH]; simpl in *.
  - by rewrite Hc.
  - apply andb_true_iff in Hs as [Hd Hs]. rewrite Hd. by rewrite (IH Hs).
Qed.

Lemma fraction_written ns : 0 <= ns < Second ->
  read_fraction (nano_fraction ns ++ "Z") = (ns, "Z"%string).
Proof.
  intros Hns. unfold nano_fraction. destruct (Z.eqb_spec ns 0) as [->|Hn]; [done|].
  destruct (drop_zeros_spec (String.rev (padded 9 ns))) as (n & Hr & Hh).
  set (kept := drop_zeros (String.rev (padded 9 ns))) in *.
  assert (Hp : padded 9 ns = (String.rev kept ++ zeros n)%string).
  { by rewrite <- (rev_involutive_s (padded 9 ns)), Hr, rev_append_s, rev_zeros. }
  assert (Hd : all_digits (String.rev kept) = true).
  { pose proof (padded_digits 9 ns) as Hd. rewrite Hp, all_digits_app in Hd. by apply andb_true_iff in Hd as [? _]. }
  assert (Hl : (String.length (String.rev kept) + n)%nat = 9%nat).
  { pose proof (padded_length 9 ns) as Hl. rewrite Hp, length_app_s in Hl.
    replace (String.length (zeros n)) with n in Hl; [done|]. clear. induction n; simpl; congruence. }
  pose proof (read_digits_zeros 9 n 0 (String.rev kept) Hl Hd) as Hv. rewrite <- Hp in Hv.
  rewrite read_padded in Hv by (unfold Second in Hns; simpl; lia). injection Hv as Hv.
  rewrite app_assoc_s. destruct (String.rev kept) as [|c s'] eqn:E.
  - exfalso. apply Hn. rewrite Hv. reflexivity.
  - change ("." ++ String c s' ++ "Z")%string with (String "." (String c (s' ++ "Z"))).
    unfold read_fraction. simpl in Hd. apply andb_true_iff in Hd as [Hc Hd]. rewrite Hc.
    change (String c (s' ++ "Z")) with (String c s' ++ "Z")%string.
    rewrite span_digits_app; [by rewrite Hv| |done]. simpl. by rewrite Hc.
Qed.

Lemma nanos_padded ns : 0 <= ns < Second -> nanos 9 (padded 9 ns) 0 = ns.
Proof.
  intros Hns. pose proof (read_digits_zeros 9 0 0 (padded 9 ns) (padded_length 9 ns) (padded_digits 9 ns)) as Hv.
  rewrite app_empty_r, read_padded in Hv by (unfold Second in Hns; simpl; lia). congruence.
Qed.

Lemma fraction_padded ns : 0 <= ns < Second ->
  read_fraction ("." ++ padded 9 ns ++ "Z") = (ns, "Z"%string).
Proof.
  intros Hns. rewrite <- (nanos_padded ns Hns) at 2.
  generalize (padded_digits 9 ns), (padded_length 9 ns). generalize (padded 9 ns). clear ns Hns.
  intros [|c s] Hd Hl; [done|].
  change ("." ++ String c s ++ "Z")%string with (String "." (String c (s ++ "Z"))).
  unfold read_fraction. pose proof Hd as Hd'. simpl in Hd'. apply andb_true_iff in Hd' as [Hc _]. rewrite Hc.
  change (String c (s ++ "Z")) with (String c s ++ "Z")%string. by rewrite span_digits_app.
Qed.

Lemma parse_written t : writable t -> Parse_RFC3339 (RFC3339Nano t) = Some t.
Proof.
  intros Ht. unfold RFC3339Nano, clock_fields.
  pose proof (fun rest => read_date_written (t / Day) rest (writable_day t Ht)) as Hdate.
  destruct (civil (t / Day)) as [[y m] k]. unfold Parse_RFC3339. rewrite !app_assoc_s, Hdate.
  cbn [option_bind mbind snd fst]. rewrite read_byte_app. cbn [option_bind mbind].
  rewrite read_clock_written. cbn [option_bind mbind snd fst].
  rewrite fraction_written by (apply Z.mod_pos_bound; done). cbn [option_bind mbind read_zone].
  f_equal. pose proof (clock_split t). lia.
Qed.

(** An instant the stores can write is read back exactly: from a nullable
    RFC3339Nano column, and by [parseFlexTime] from the fixed-width layout, whatever its
    fraction; the zero time is the column's NULL. *)
Theorem stored_times_read_back t (Ht : writable t) :
  column_time (formatTimeOrNull t) = t /\ parseFlexTime (sqliteTimeFormat t) = t.
Proof.
  split.
  - unfold formatTimeOrNull, IsZero. destruct (Z.eqb_spec t 0) as [->|_]; [done|].
    unfold column_time, parse_or_zero. by rewrite parse_written.
  - unfold parseFlexTime, sqliteTimeFormat, clock_fields.
    pose proof (fun rest => read_date_written (t / Day) rest (writable_day t Ht)) as Hdate.
    destruct (civil (t / Day)) as [[y m] k]. unfold Parse_RFC3339. rewrite !app_assoc_s, Hdate.
    cbn [option_bind mbind snd fst]. rewrite read_byte_app. cbn [option_bind mbind].
    rewrite read_clock_written. cbn [option_bind mbind snd fst].
    rewrite fraction_padded by (apply Z.mod_pos_bound; done). cbn [option_bind mbind read_zone].
    pose proof (clock_split t). lia.
Qed.

(** ** The order of the texts *)

Lemma date_lt_trans a b c : date_lt a b = true -> date_lt b c = true -> date_lt a c = true.
Proof. destruct a as [[y m] d], b as [[y' m'] d'], c as [[y'' m''] d'']. unfold date_lt. lia. Qed.

Lemma date_lt_shift k y m d y' m' d' :
  date_lt (y, m, d) (y', m', d') = true -> date_lt (y + k, m, d) (y' + k, m', d') = true.
Proof. unfold date_lt. lia. Qed.

Lemma civil_next d : date_lt (civil d) (civil (d + 1)) = true.
Proof.
  pose proof (civil_cycle d) as H1. pose proof (civil_cycle (d + 1)) as H2.
  replace (d + 1 + 306) with (d + 306 + 1) in H2 by lia. generalize dependent (d + 306). intros z H1 H2.
  pose proof (Z.mod_pos_bound z 146097 ltac:(lia)) as Hb.
  destruct (Z.eq_dec (z mod 146097) 146096) as [He|He].
  - assert ((z + 1) mod 146097 = 0 /\ (z + 1) / 146097 = z / 146097 + 1) as [Hm Hd] by zdiv.
    rewrite Hm, Hd in H2. rewrite He in H1. change (civil0 0) with (0, 3, 1) in H2.
    change (civil0 146096) with (400, 2, 29) in H1. cbv iota in H1, H2. rewrite H1, H2. unfold date_lt. lia.
  - assert ((z + 1) mod 146097 = z mod 146097 + 1 /\ (z + 1) / 146097 = z / 146097) as [Hm Hd] by zdiv.
    rewrite Hm, Hd in H2. pose proof (civil0_next (z mod 146097) ltac:(lia) ltac:(lia)) as Hlt.
    destruct (civil0 (z mod 146097)) as [[y m] k], (civil0 (z mod 146097 + 1)) as [[y' m'] k'].
    rewrite H1, H2. by apply date_lt_shift.
Qed.

Lemma civil_mono a b : a < b -> date_lt (civil a) (civil b) = true.
Proof.
  intros H. replace b with (a + 1 + Z.of_nat (Z.to_nat (b - a - 1))) by lia.
  generalize (Z.to_nat (b - a - 1)). intros n. induction n as [|n IH].
  - rewrite Z.add_0_r. apply civil_next.
  - rewrite Nat2Z.inj_succ, <- Z.add_1_r, Z.add_assoc. eapply date_lt_trans; [exact IH|apply civil_next].
Qed.

(** Comparing first by one key, then by another. *)
Definition then_by (c d : comparison) : comparison := match c with Eq => d | _ => c end.

Lemma compare_app a b c d : String.length a = String.length b ->
  String.compare (a ++ c) (b ++ d) = then_by (String.compare a b) (String.compare c d).
Proof.
  revert b. induction a as [|x a IH]; intros [|y b] Hl; try done. injection Hl as Hl.
  rewrite !append_cons. cbn [String.compare]. rewrite (IH b Hl). by destruct (Ascii.compare x y).
Qed.

Lemma compare_digit a b : 0 <= a < 10 -> 0 <= b < 10 ->
  String.compare (String (digit a) "") (String (digit b) "") = (a ?= b).
Proof.
  intros Ha Hb. cbn [String.compare]. unfold Ascii.compare, digit.
  rewrite !N_ascii_embedding by lia. rewrite <- N2Z.inj_compare, !Z2N.id by lia.
  rewrite Z.add_compare_mono_l. by destruct (a ?= b).
Qed.

Lemma compare_div10 a b : then_by (a / 10 ?= b / 10) (a mod 10 ?= b mod 10) = (a ?= b).
Proof.
  unfold then_by. destruct (Z.compare_spec (a / 10) (b / 10)) as [He|Hl|Hl]; symmetry.
  - destruct (Z.compare_spec (a mod 10) (b mod 10)) as [He'|Hl'|Hl'];
      [apply Z.compare_eq_iff|apply Z.compare_lt_iff|apply Z.compare_gt_iff]; zdiv.
  - apply Z.compare_lt_iff. zdiv.
  - apply Z.compare_gt_iff. zdiv.
Qed.

Lemma compare_padded w a b : 0 <= a < 10 ^ Z.of_nat w -> 0 <= b < 10 ^ Z.of_nat w ->
  String.compare (padded w a) (padded w b) = (a ?= b).
Proof.
  revert a b. induction w as [|w IH]; intros a b Ha Hb.
  - simpl in *. replace b with a by lia. by rewrite Z.compare_refl.
  - rewrite !padded_S, compare_app by by rewrite !padded_length.
    rewrite IH, compare_digit by first [by apply div10_bound|apply Z.mod_pos_bound; lia].
    apply compare_div10.
Qed.

(** The fixed-width text as its fields, each padded. *)
Lemma sqlite_fields t : sqliteTimeFormat t =
  (let '(y, m, d) := civil (t / Day) in
   padded 4 y ++ "-" ++ padded 2 m ++ "-" ++ padded 2 d ++ "T" ++ padded 2 (Hour t) ++ ":" ++
   padded 2 (t / Minute mod 60) ++ ":" ++ padded 2 (t / Second mod 60) ++ "." ++
   padded 9 (t mod Second) ++ "Z")%string.
Proof.
  unfold sqliteTimeFormat, clock_fields. destruct (civil (t / Day)) as [[y m] d]. by rewrite !app_assoc_s.
Qed.

Lemma compare_sep c a b : String.compare (String c "" ++ a) (String c "" ++ b) = String.compare a b.
Proof. rewrite compare_app by done. cbn [String.compare]. unfold Ascii.compare. by rewrite N.compare_refl. Qed.

Lemma compare_field w a b rest rest' : 0 <= a < 10 ^ Z.of_nat w -> 0 <= b < 10 ^ Z.of_nat w ->
  String.compare (padded w a ++ rest) (padded w b ++ rest') = then_by (a ?= b) (String.compare rest rest').
Proof. intros. rewrite compare_app by by rewrite !padded_length. by rewrite compare_padded. Qed.

Lemma date_bounds d : 0 <= d < days_of 10000 1 1 ->
  let '(y, m, k) := civil d in 0 <= y < 10 ^ 4 /\ 0 <= m < 10 ^ 2 /\ 0 <= k < 10 ^ 2.
Proof.
  intros Hd. pose proof (day_year d Hd) as Hy. pose proof (civil_spec d) as Hc.
  destruct (civil d) as [[y m] k]. destruct Hc as (_ & Hm & Hk & _).
  assert (days_in y m <= 31)
    by (unfold days_in; destruct (m =? 2), (leap_year y), ((m =? 4) || (m =? 6) || (m =? 9) || (m =? 11)); lia).
  lia.
Qed.

Lemma clock_bounds t :
  (0 <= Hour t < 10 ^ 2 /\ 0 <= t / Minute mod 60 < 10 ^ 2) /\
  0 <= t / Second mod 60 < 10 ^ 2 /\ 0 <= t mod Second < 10 ^ 9.
Proof.
  unfold Hour.
  pose proof (Z.mod_pos_bound (t / Hours) 24 ltac:(done)). pose proof (Z.mod_pos_bound (t / Minute) 60 ltac:(done)).
  pose proof (Z.mod_pos_bound (t / Second) 60 ltac:(done)). pose proof (Z.mod_pos_bound t Second ltac:(done)).
  unfold Second in *. lia.
Qed.

(** Of two instants of one day the clocks decide. *)
Lemma compare_clock a b : a / Day = b / Day -> a < b ->
  then_by (Hour a ?= Hour b) (then_by (a / Minute mod 60 ?= b / Minute mod 60)
    (then_by (a / Second mod 60 ?= b / Second mod 60) (a mod Second ?= b mod Second))) = Lt.
Proof.
  intros Hd Hlt. pose proof (clock_split a) as Ha. pose proof (clock_split b) as Hb. rewrite Hd in Ha.
  unfold Hour in *.
  assert (Hb60 : forall x, 0 <= x mod 60 < 60) by (intros; by apply Z.mod_pos_bound).
  pose proof (Hb60 (a / Minute)). pose proof (Hb60 (b / Minute)). pose proof (Hb60 (a / Second)).
  pose proof (Hb60 (b / Second)). pose proof (clock_bounds a) as [_ [_ ?]]. pose proof (clock_bounds b) as [_ [_ ?]].
  clear Hb60.
  set (day := b / Day * Day) in *.
  set (h := (a / Hours) mod 24) in *. set (m := (a / Minute) mod 60) in *. set (s := (a / Second) mod 60) in *. set (n := a mod Second) in *.
  set (h' := (b / Hours) mod 24) in *. set (m' := (b / Minute) mod 60) in *. set (s' := (b / Second) mod 60) in *.
  set (n' := b mod Second) in *. clearbody day h m s n h' m' s' n'. unfold Hours, Minute, Second, then_by in *.
  destruct (Z.compare_spec h h'); [|done|lia]. destruct (Z.compare_spec m m'); [|done|lia].
  destruct (Z.compare_spec s s'); [|done|lia]. apply Z.compare_lt_iff. lia.
Qed.

Lemma sqlite_lt a b : writable a -> writable b -> a < b ->
  String.compare (sqliteTimeFormat a) (sqliteTimeFormat b) = Lt.
Proof.
  intros Ha Hb Hlt. rewrite !sqlite_fields.
  pose proof (date_bounds _ (writable_day a Ha)) as Hda. pose proof (date_bounds _ (writable_day b Hb)) as Hdb.
  destruct (clock_bounds a) as [[H1 H2] [H3 H4]], (clock_bounds b) as [[H5 H6] [H7 H8]].
  assert (Hday : a / Day < b / Day \/ a / Day = b / Day).
  { assert (a / Day <= b / Day) by (apply Z.div_le_mono; [done|lia]). lia. }
  assert (Hdate : a / Day < b / Day -> date_lt (civil (a / Day)) (civil (b / Day)) = true) by apply civil_mono.
  assert (Hsame : a / Day = b / Day -> civil (a / Day) = civil (b / Day)) by by intros ->.
  pose proof (fun E => compare_clock a b E Hlt) as Hclock.
  destruct (civil (a / Day)) as [[y m] d], (civil (b / Day)) as [[y' m'] d'].
  destruct Hda as (? & ? & ?), Hdb as (? & ? & ?).
  rewrite compare_field, compare_sep, compare_field, compare_sep, compare_field, compare_sep, compare_field,
    compare_sep, compare_field, compare_sep, compare_field, compare_sep, compare_field by (simpl; lia).
  assert (Hrefl : String.compare "Z" "Z" = Eq) by reflexivity. rewrite Hrefl.
  destruct Hday as [Hday|Hday].
  - specialize (Hdate Hday). unfold date_lt in Hdate. unfold then_by.
    destruct (Z.compare_spec y y'); [|done|lia]. destruct (Z.compare_spec m m'); [|done|lia].
    destruct (Z.compare_spec d d'); [lia|done|lia].
  - specialize (Hclock Hday). injection (Hsame Hday) as -> -> ->. rewrite !Z.compare_refl. cbn [then_by].
    revert Hclock. unfold then_by. by destruct (Hour a ?= Hour b), ((a / Minute) mod 60 ?= (b / Minute) mod 60),
      ((a / Second) mod 60 ?= (b / Second) mod 60), (a mod Second ?= b mod Second).
Qed.

(** In the fixed-width layout of the audit tables, byte order on the
    texts is the order of the instants, so that ORDER BY and range conditions on the
    timestamp column are chronological, for every instant of the years 1 to 9999. *)
Theorem sqlite_text_order a b (Ha : writable a) (Hb : writable b) :
  text_lt (sqliteTimeFormat a) (sqliteTimeFormat b) = Before a b /\
  text_le (sqliteTimeFormat a) (sqliteTimeFormat b) = negb (After a b).
Proof.
  assert (Hlt : forall x y, writable x -> writable y -> text_lt (sqliteTimeFormat x) (sqliteTimeFormat y) = (x <? y)).
  { intros x y Hx Hy. unfold text_lt, String.ltb. destruct (Z.ltb_spec x y) as [Hxy|Hxy].
    - by rewrite sqlite_lt.
    - destruct (Z.eq_dec x y) as [->|Hne].
      + destruct (String.compare (sqliteTimeFormat y) (sqliteTimeFormat y)) eqn:E; [done| |done].
        pose proof (String.compare_antisym (sqliteTimeFormat y) (sqliteTimeFormat y)) as Hanti.
        by rewrite E in Hanti.
      + rewrite String.compare_antisym, sqlite_lt by (done || lia). done. }
  unfold text_le, Before, After. by rewrite !Hlt.
Qed.

Lemma stored_times_read_back_witness :
  writable (5 * Day + 7) /\ column_time (formatTimeOrNull (5 * Day + 7)) = 5 * Day + 7 /\
  parseFlexTime (sqliteTimeFormat (5 * Day + 7)) = 5 * Day + 7.
Proof.
  assert (H : writable (5 * Day + 7)) by (split; [discriminate|reflexivity]).
  split; [exact H|]. exact (stored_times_read_back (5 * Day + 7) H).
Defined.

(** The example of the comment in store.go: a whole second and a millisecond after it. *)
Lemma sqlite_text_order_witness :
  let a := 27 * Second in let b := 27 * Second + 1000000 in
  text_lt (RFC3339Nano a) (RFC3339Nano b) = false /\
  text_lt (sqliteTimeFormat a) (sqliteTimeFormat b) = Before a b /\
  text_le (sqliteTimeFormat a) (sqliteTimeFormat b) = negb (After a b).
Proof.
  intros a b. split; [vm_compute; reflexivity|].
  apply (sqlite_text_order a b); (split; [discriminate|reflexivity]).
Defined.

(** Reading an offset, a datetime and a text that is none of these. *)
Example other_texts :
  Parse_RFC3339 "2024-02-29T12:30:00+02:00" = Parse_RFC3339 "2024-02-29T10:30:00Z" /\
  parseFlexTime "2024-02-29 10:30:00" = parse_or_zero "2024-02-29T10:30:00Z" /\
  parseFlexTime "2023-02-29T10:30:00Z" = 0.
Proof. vm_compute. repeat split. Qed.
