(* ===== verification/GoFormat.v ===== *)
(** * Durations and percentages as text

    What the monitors print of Go's standard library: [time.Duration.String], [%.0f]
    of a float64, [Time.Sub] with its saturation and [strings.SplitN].  A Duration is a
    Z within int64. *)

From Stdlib Require Import SpecFloat.
From S2P Require Import Prelude GoTime.
Local Open Scope Z_scope.

(** float64 constants and arithmetic, by rounding the exact value. *)
Definition float_ratio (a b : Z) : spec_float :=
  SFdiv 53 1024 (binary_normalize 53 1024 a 0 false) (binary_normalize 53 1024 b 0 false).
Definition float_mul : spec_float -> spec_float -> spec_float := SFmul 53 1024.
Definition float_int (a : Z) : spec_float := binary_normalize 53 1024 a 0 false.

(** The integer nearest to [m * 2^e], ties to even. *)
Definition round_half_even (m e : Z) : Z :=
  if 0 <=? e then m * 2 ^ e
  else
    let d := 2 ^ (- e) in
    let q := m / d in
    let r := m mod d in
    match 2 * r ?= d with
    | Lt => q
    | Gt => q + 1
    | Eq => if Z.even q then q else q + 1
    end.

(** [fmt.Sprintf("%.0f", x)]. *)
Definition fmt_f0 (x : spec_float) : string :=
  match x with
  | S754_zero s => if s then "-0" else "0"
  | S754_infinity s => if s then "-Inf" else "+Inf"
  | S754_nan => "NaN"
  | S754_finite s m e => ((if s then "-" else "") ++ itoa (round_half_even (Z.pos m) e))%string
  end.

(** The fraction of [v / 10^prec] without trailing zeros, with its point. *)
Definition fmtFrac (v : Z) (prec : nat) : string :=
  let f := v mod 10 ^ Z.of_nat prec in
  if f =? 0 then "" else ("." ++ String.rev (drop_zeros (String.rev (padded prec f))))%string.

Definition Duration_String (d : Z) : string :=
  let u := Z.abs d in
  let s := u / Second in
  let m := s / 60 in
  let h := m / 60 in
  ((if (d <? 0)%Z then "-" else "") ++
   (if (u =? 0)%Z then "0s"
    else if (u <? 1000)%Z then itoa u ++ "ns"
    else if (u <? 1000000)%Z then itoa (u / 1000)%Z ++ fmtFrac u 3 ++ "µs"
    else if (u <? Second)%Z then itoa (u / 1000000)%Z ++ fmtFrac u 6 ++ "ms"
    else
      (if (0 <? m)%Z then (if (0 <? h)%Z then itoa h ++ "h" else "") ++ itoa (m mod 60)%Z ++ "m" else "") ++
      itoa (s mod 60)%Z ++ fmtFrac u 9 ++ "s"))%string.

(** [t.Sub(u)] saturates at the bounds of int64. *)
Definition time_sub (t u : Time) : Z := Z.max (- 2 ^ 63) (Z.min (2 ^ 63 - 1) (t - u)).

(** [strings.SplitN] by one byte, for a positive [n]. *)
Fixpoint splitN (sep : ascii) (n : nat) (s : string) : list string :=
  match n with
  | O | S O => [s]
  | S n' =>
      (fix cut (acc : string) (s : string) : list string :=
         match s with
         | EmptyString => [acc]
         | String c s' =>
             if Ascii.eqb c sep then acc :: splitN sep n' s' else cut (acc ++ String c "")%string s'
         end) "" s
  end.

(** ** [time.ParseDuration] *)

Definition ascii_digit (c : ascii) : bool := (48 <=? N_of_ascii c)%N && (N_of_ascii c <=? 57)%N.
Definition digit_of (c : ascii) : Z := Z.of_N (N_of_ascii c) - 48.

(** The leading digits, refusing values above 2^63. *)
Fixpoint leadingInt (x : Z) (s : string) : option (Z * string) :=
  match s with
  | String c s' =>
      if ascii_digit c then
        if (2 ^ 63 / 10 <? x) || (2 ^ 63 <? x * 10 + digit_of c) then None
        else leadingInt (x * 10 + digit_of c) s'
      else Some (x, s)
  | EmptyString => Some (x, s)
  end.

(** The leading digits as a fraction of the scale; digits beyond the range are dropped. *)
Fixpoint leadingFraction (x scale : Z) (overflow : bool) (s : string) : Z * Z * string :=
  match s with
  | String c s' =>
      if ascii_digit c then
        if overflow || ((2 ^ 63 - 1) / 10 <? x) || (2 ^ 63 <? x * 10 + digit_of c)
        then leadingFraction x scale true s'
        else leadingFraction (x * 10 + digit_of c) (scale * 10) false s'
      else (x, scale, s)
  | EmptyString => (x, scale, s)
  end.

Fixpoint span_unit (s : string) : string * string :=
  match s with
  | String c s' =>
      if Ascii.eqb c "." || ascii_digit c then (EmptyString, s)
      else let '(u, r) := span_unit s' in (String c u, r)
  | EmptyString => (EmptyString, EmptyString)
  end.

Definition duration_unit (u : string) : option Z :=
  if u =?s "ns" then Some 1
  else if (u =?s "us") || (u =?s "µs") || (u =?s "μs") then Some 1000
  else if u =?s "ms" then Some 1000000
  else if u =?s "s" then Some Second
  else if u =?s "m" then Some Minute
  else if u =?s "h" then Some Hours
  else None.

(** A non-negative float64 as a uint64. *)
Definition float_trunc (x : spec_float) : Z :=
  match x with
  | S754_finite _ m e => if 0 <=? e then Z.pos m * 2 ^ e else Z.pos m / 2 ^ (- e)
  | _ => 0
  end.

(** One number with its unit: the nanoseconds and the rest of the text. *)
Definition duration_term (s : string) : option (Z * string) :=
  match leadingInt 0 s with
  | None => None
  | Some (v, s1) =>
      let '(f, scale, s2) :=
        match s1 with
        | String c s' => if Ascii.eqb c "." then leadingFraction 0 1 false s' else (0, 1, s1)
        | EmptyString => (0, 1, s1)
        end in
      let pre := negb (String.length s1 =? String.length s)%nat in
      let post :=
        match s1 with
        | String c s' => Ascii.eqb c "." && negb (String.length s2 =? String.length s')%nat
        | EmptyString => false
        end in
      if negb (pre || post) then None
      else
        let '(u, rest) := span_unit s2 in
        match duration_unit u with
        | None => None
        | Some unit =>
            if 2 ^ 63 / unit <? v then None
            else
              let v' := v * unit +
                (if 0 <? f then float_trunc (float_mul (float_int f) (float_ratio unit scale)) else 0) in
              if 2 ^ 63 <? v' then None else Some (v', rest)
        end
  end.

(** The terms; the sum is a uint64. *)
Fixpoint duration_terms (fuel : nat) (d : Z) (s : string) : option Z :=
  match s, fuel with
  | EmptyString, _ => Some d
  | _, O => None
  | _, S fuel' =>
      match duration_term s with
      | None => None
      | Some (v, rest) =>
          let d' := (d + v) mod 2 ^ 64 in
          if 2 ^ 63 <? d' then None else duration_terms fuel' d' rest
      end
  end.

(** Every term takes at least one byte, so the length of the text is fuel enough. *)
Definition ParseDuration (s : string) : option Z :=
  let '(neg, s) :=
    match s with
    | String c s' => if Ascii.eqb c "-" then (true, s') else if Ascii.eqb c "+" then (false, s') else (false, s)
    | EmptyString => (false, s)
    end in
  if s =?s "0" then Some 0
  else if s =?s "" then None
  else
    match duration_terms (String.length s) 0 s with
    | None => None
    | Some d => if neg then Some (- d) else if 2 ^ 63 - 1 <? d then None else Some d
    end.

Example parsed_durations :
  ParseDuration "1h30m0.5s" = Some (5400 * Second + 500000000) /\ ParseDuration "-1.5h" = Some (- 5400 * Second) /\
  ParseDuration "24" = None /\ ParseDuration "7d" = None /\ ParseDuration "" = None /\
  ParseDuration "2562048h" = None /\ ParseDuration ".5m" = Some (30 * Second).
Proof. vm_compute. repeat split. Qed.

(** The duration the examples of the library's documentation print. *)
Example durations :
  Duration_String (5400 * Second + 500000000) = "1h30m0.5s" /\ Duration_String 1500000 = "1.5ms" /\
  Duration_String (-2 * Second) = "-2s" /\ Duration_String 60000000000 = "1m0s" /\
  fmt_f0 (float_mul (float_ratio 3 5) (float_int 100)) = "60" /\
  splitN "|" 4 "a|b|c|d|e" = ["a"; "b"; "c"; "d|e"].
Proof. vm_compute. repeat split. Qed.
