(* ===== verification/PolicyTypes.v ===== *)
(** * internal/policy/types.go: the data of the policy engine

    The configuration (policies, principals, resources, rules, conditions,
    schedules), requests, decisions and evaluation traces, with the operations
    the file defines on them.  Strings keep the source's open string types:
    [ActionClass] and [Effect] are strings with named constants.  The time-zone
    database behind time.LoadLocation is a parameter of [Schedule_IsActive]. *)

From S2P Require Import Prelude GoTime.

Abbreviation ActionClass := string (only parsing).
Abbreviation Effect := string (only parsing).

Definition ActionRead : ActionClass := "read".
Definition ActionWrite : ActionClass := "write".
Definition ActionDestructive : ActionClass := "destructive".

Definition EffectAllow : Effect := "allow".
Definition EffectDeny : Effect := "deny".
Definition EffectRequireApproval : Effect := "require_approval".

Record Principal := {
  pr_User : string;
  pr_Role : string;
  pr_Service : string;
  pr_Any : bool }.

Record ResourceMatch := {
  rm_Name : string;
  rm_NamePattern : string;
  rm_Tags : list string;
  rm_Namespace : string;
  rm_Sensitivity : list string;
  rm_Tool : string;
  rm_ToolPattern : string }.

Record Resource := {
  rs_Type : string;
  rs_Match : ResourceMatch }.

Record Schedule := {
  Days : list string;
  HoursOfDay : list Z;
  Timezone : string }.

Record Conditions := {
  RequireApproval : bool;
  ApprovalQuorum : Z;
  MaxRowsAffected : Z;
  MaxPodsAffected : Z;
  MaxXactAgeSecs : Z;
  Sched : option Schedule;
  AllowedPurposes : list string;
  BlockedPurposes : list string }.

Abbreviation ActionMatcher := (list string) (only parsing).

Record Rule := {
  rl_Action : ActionMatcher;
  rl_Effect : Effect;
  rl_Conditions : option Conditions;
  rl_Message : string }.

Record Policy := {
  pol_Name : string;
  pol_Description : string;
  pol_Enabled : option bool;
  pol_Priority : Z;
  pol_Principals : list Principal;
  pol_Resources : list Resource;
  pol_Rules : list Rule }.

Record Config := {
  Version : string;
  Policies : list Policy }.

(** [IsEnabled]: an absent flag means enabled. *)
Definition IsEnabled (p : Policy) : bool :=
  match pol_Enabled p with None => true | Some b => b end.

(** [ActionMatcher.Matches]. *)
Fixpoint Matches (a : ActionMatcher) (action : ActionClass) : bool :=
  match a with
  | [] => false
  | ac :: a' => if ac =?s action then true else Matches a' action
  end.

(** [UnmarshalYAML]: the decoder's two attempts are arguments, a failed one is
    [None]; the first success wins. *)
Definition ActionMatcher_UnmarshalYAML (single : option string) (lst : option (list string))
    : option ActionMatcher :=
  match single with
  | Some s => Some [s]
  | None => lst
  end.

Definition dayToName (d : Z) : string :=
  (if d =? 1 then "mon" else if d =? 2 then "tue" else if d =? 3 then "wed"
   else if d =? 4 then "thu" else if d =? 5 then "fri" else if d =? 6 then "sat"
   else if d =? 0 then "sun" else "")%Z%string.

Section Schedule.
(** time.LoadLocation: the offset function of a zone, if the name is known. *)
Context (LoadLocation : string -> option (Time -> Z)).

Definition Schedule_now (s : Schedule) (now : Clock) : Clock :=
  if negb (Timezone s =?s "") then
    match LoadLocation (Timezone s) with
    | Some loc => In_location now loc
    | None => now
    end
  else now.

Definition Schedule_IsActive (os : option Schedule) (now : Clock) : bool :=
  match os with
  | None => true
  | Some s =>
      let now := Schedule_now s now in
      if match Days s with [] => false | _ => negb (mem (dayToName (clock_weekday now)) (Days s)) end
      then false
      else if match HoursOfDay s with
              | [] => false
              | _ => negb (existsb (fun h => Z.eqb h (clock_hour now)) (HoursOfDay s))
              end
      then false
      else true
  end.
End Schedule.

Record RequestPrincipal := {
  rp_UserID : string;
  rp_Roles : list string;
  rp_Service : string }.

Record RequestResource := {
  rr_Type : string;
  rr_Name : string;
  rr_Tags : list string;
  rr_Namespace : string;
  rr_Extra : list (string * string);
  rr_Sensitivity : list string;
  rr_ToolName : string }.

Record RequestContext := {
  Timestamp : Clock;
  rc_TraceID : string;
  RowsAffected : Z;
  PodsAffected : Z;
  XactAgeSecs : Z;
  rc_Purpose : string;
  rc_PurposeNote : string }.

Record Request := {
  rq_Principal : RequestPrincipal;
  rq_Resource : RequestResource;
  rq_Action : ActionClass;
  rq_Context : RequestContext }.

Record Decision := {
  d_Effect : Effect;
  d_PolicyName : string;
  d_RuleIndex : nat;
  d_Message : string;
  d_Conditions : list string;
  d_RequiresApproval : bool;
  d_ApprovalQuorum : Z }.

Record ConditionTrace := {
  ct_Name : string;
  ct_Passed : bool;
  ct_Detail : string }.

Record RuleTrace := {
  rt_Index : nat;
  rt_Actions : list string;
  rt_Effect : string;
  rt_Matched : bool;
  rt_SkipReason : string;
  rt_Conditions : list ConditionTrace }.

Record PolicyTrace := {
  pt_PolicyName : string;
  pt_Matched : bool;
  pt_SkipReason : string;
  pt_RequiredTags : list (list string);
  pt_Rules : list RuleTrace }.

Record DecisionTrace := {
  tr_Decision : Decision;
  PoliciesEvaluated : list PolicyTrace;
  DefaultApplied : bool;
  Explanation : string }.

(** [IsAllowed], [IsDenied] and [NeedsApproval] of a decision. *)
Definition IsAllowed (d : Decision) : bool := d_Effect d =?s EffectAllow.
Definition IsDenied (d : Decision) : bool := d_Effect d =?s EffectDeny.
Definition NeedsApproval (d : Decision) : bool :=
  (d_Effect d =?s EffectRequireApproval) || d_RequiresApproval d.

(** ** Lemmas *)

Lemma Matches_mem a action : Matches a action = mem action a.
Proof.
  induction a as [|ac a IH]; simpl; [done|].
  rewrite IH. unfold mem. simpl. rewrite String.eqb_sym. by destruct (action =?s ac).
Qed.

(** The day names are those of the week: every instant has one of the seven. *)
Lemma dayToName_weekday t :
  In (dayToName (Weekday t)) ["sun"; "mon"; "tue"; "wed"; "thu"; "fri"; "sat"].
Proof.
  assert (0 <= Weekday t < 7)%Z as Hr by (unfold Weekday; apply Z.mod_pos_bound; lia).
  assert (Weekday t = 0 \/ Weekday t = 1 \/ Weekday t = 2 \/ Weekday t = 3 \/
          Weekday t = 4 \/ Weekday t = 5 \/ Weekday t = 6)%Z as H by lia.
  destruct H as [->|[->|[->|[->|[->|[->| ->]]]]]]; vm_compute; tauto.
Qed.
