(* ===== verification/PolicyEngine.v ===== *)
(** * internal/policy/engine.go: evaluation of a request against the policies

    [explainEvaluate] walks the policies in order and the rules of each matching
    policy in order, builds the trace, and stops at the first rule that applies.
    [applyConditionsWithTrace] is the sequence of its six blocks, each a
    definition on the pair (decision, traces); the two purpose blocks return
    early.  [first_match] is the declarative reading of the two nested loops;
    [explainEvaluate_first_match] ties the two together. *)

From S2P Require Import Prelude GoTime Glob PolicyTypes.

(** ** Matching *)

Definition matchesPrincipal (policy : Policy) (principal : RequestPrincipal) : bool :=
  match pol_Principals policy with
  | [] => true
  | ps =>
      existsb (fun p =>
        if pr_Any p then true
        else if negb (pr_User p =?s "") && (pr_User p =?s rp_UserID principal) then true
        else if negb (pr_Service p =?s "") && (pr_Service p =?s rp_Service principal) then true
        else if negb (pr_Role p =?s "") then mem (pr_Role p) (rp_Roles principal)
        else false) ps
  end.

(** Both set look-ups of the file: every required item is among the available. *)
Definition allPresent (required available : list string) : bool :=
  forallb (fun s => mem s available) required.

Definition hasAllTags (resourceTags requiredTags : list string) : bool :=
  forallb (fun t => mem t resourceTags) requiredTags.

Definition nonempty {A} (l : list A) : bool := match l with [] => false | _ => true end.

(** The body of [matchesResource]'s loop: [false] is its [continue]. *)
Definition resource_matches (r : Resource) (resource : RequestResource) : bool :=
  let m := rs_Match r in
  if negb (rs_Type r =?s rr_Type resource) then false
  else if negb (rm_Name m =?s "") && negb (rm_Name m =?s rr_Name resource) then false
  else if negb (rm_NamePattern m =?s "") && negb (glob_matches (rm_NamePattern m) (rr_Name resource))
  then false
  else if negb (rm_Namespace m =?s "") && negb (rm_Namespace m =?s rr_Namespace resource) then false
  else if nonempty (rm_Tags m) && negb (hasAllTags (rr_Tags resource) (rm_Tags m)) then false
  else if nonempty (rm_Sensitivity m) && negb (allPresent (rm_Sensitivity m) (rr_Sensitivity resource))
  then false
  else if negb (rm_Tool m =?s "") && negb (rm_Tool m =?s rr_ToolName resource) then false
  else if negb (rm_ToolPattern m =?s "") && negb (glob_matches (rm_ToolPattern m) (rr_ToolName resource))
  then false
  else true.

Definition matchesResource (policy : Policy) (resource : RequestResource) : bool :=
  existsb (fun r => resource_matches r resource) (pol_Resources policy).

Definition resourceTagSets (pol : Policy) (resourceType : string) : list (list string) :=
  map (fun r => rm_Tags (rs_Match r))
    (List.filter (fun r => (rs_Type r =?s resourceType) && nonempty (rm_Tags (rs_Match r)))
      (pol_Resources pol)).

Definition actionsToStrings (am : ActionMatcher) : list string := map (fun a => a) am.

(** ** Conditions *)

(** [fmtAgeSecs]; the divisions are Go's, on non-negative operands here. *)
Definition fmtAgeSecs (secs : Z) : string :=
  (if 3600 <=? secs then
     itoa (Z.quot secs 3600) ++ "h " ++ itoa (Z.quot (Z.rem secs 3600) 60) ++ "m"
   else if 60 <=? secs then itoa (Z.quot secs 60) ++ "m " ++ itoa (Z.rem secs 60) ++ "s"
   else itoa secs ++ "s")%Z%string.

(** [formatMessage] trims what Sprintf produced. *)
Definition formatMessage (s : string) : string := trim_space s.

Definition step_state : Type := Decision * list ConditionTrace.

(** A failed check: the effect becomes deny, the message is replaced and the
    condition recorded. *)
Definition deny_with (d : Decision) (message condition : string) : Decision :=
  {| d_Effect := EffectDeny;
     d_PolicyName := d_PolicyName d;
     d_RuleIndex := d_RuleIndex d;
     d_Message := message;
     d_Conditions := d_Conditions d ++ [condition];
     d_RequiresApproval := d_RequiresApproval d;
     d_ApprovalQuorum := d_ApprovalQuorum d |}.

Definition cond_require_approval (cond : Conditions) (st : step_state) : step_state :=
  let '(d, traces) := st in
  if RequireApproval cond then
    let quorum := if (ApprovalQuorum cond =? 0)%Z then 1%Z else ApprovalQuorum cond in
    ({| d_Effect := if d_Effect d =?s EffectAllow then EffectRequireApproval else d_Effect d;
        d_PolicyName := d_PolicyName d;
        d_RuleIndex := d_RuleIndex d;
        d_Message := d_Message d;
        d_Conditions := d_Conditions d;
        d_RequiresApproval := true;
        d_ApprovalQuorum := quorum |},
     traces ++ [{| ct_Name := "require_approval"; ct_Passed := true;
                   ct_Detail := ("quorum: " ++ itoa quorum)%string |}])
  else st.

Definition cond_max_rows (cond : Conditions) (req : Request) (st : step_state) : step_state :=
  let '(d, traces) := st in
  let rows := RowsAffected (rq_Context req) in
  let limit := MaxRowsAffected cond in
  if (0 <? limit)%Z then
    let exceeded := (limit <? rows)%Z in
    ((if exceeded then
        deny_with d
          (formatMessage ("Operation affects " ++ itoa rows ++ " rows, limit is " ++ itoa limit)%string)
          (formatMessage ("max " ++ itoa limit ++ " rows")%string)
      else d),
     traces ++ [{| ct_Name := "max_rows_affected"; ct_Passed := negb exceeded;
                   ct_Detail := (itoa rows ++ " rows affected, limit is " ++ itoa limit)%string |}])
  else st.

Definition cond_max_pods (cond : Conditions) (req : Request) (st : step_state) : step_state :=
  let '(d, traces) := st in
  let pods := PodsAffected (rq_Context req) in
  let limit := MaxPodsAffected cond in
  if (0 <? limit)%Z then
    let exceeded := (limit <? pods)%Z in
    ((if exceeded then
        deny_with d
          (formatMessage ("Operation affects " ++ itoa pods ++ " pods, limit is " ++ itoa limit)%string)
          (formatMessage ("max " ++ itoa limit ++ " pods")%string)
      else d),
     traces ++ [{| ct_Name := "max_pods_affected"; ct_Passed := negb exceeded;
                   ct_Detail := (itoa pods ++ " pods affected, limit is " ++ itoa limit)%string |}])
  else st.

Definition cond_max_xact_age (cond : Conditions) (req : Request) (st : step_state) : step_state :=
  let '(d, traces) := st in
  let age := XactAgeSecs (rq_Context req) in
  let limit := MaxXactAgeSecs cond in
  if (0 <? limit)%Z && (0 <? age)%Z then
    let exceeded := (limit <? age)%Z in
    ((if exceeded then
        deny_with d
          (formatMessage ("Transaction has been open for " ++ fmtAgeSecs age ++
             "; rollback may take as long. Limit is " ++ fmtAgeSecs limit)%string)
          (formatMessage ("max_xact_age: " ++ itoa limit ++ "s")%string)
      else d),
     traces ++ [{| ct_Name := "max_xact_age_secs"; ct_Passed := negb exceeded;
                   ct_Detail := ("transaction age " ++ itoa age ++ "s, limit " ++ itoa limit ++ "s")%string |}])
  else st.

(** The purpose blocks; the boolean is the early return. *)
Definition cond_allowed_purposes (cond : Conditions) (req : Request) (st : step_state)
    : step_state * bool :=
  let '(d, traces) := st in
  let purpose := rc_Purpose (rq_Context req) in
  let lst := AllowedPurposes cond in
  if nonempty lst then
    let allowed := mem purpose lst in
    let traces := traces ++ [{| ct_Name := "allowed_purposes"; ct_Passed := allowed;
      ct_Detail := ("purpose=" ++ quote purpose ++ " allowed=" ++ fmt_list lst)%string |}] in
    if negb allowed then
      (deny_with d
         (formatMessage ("Purpose " ++ quote purpose ++ " is not in the allowed list " ++ fmt_list lst)%string)
         (formatMessage ("allowed_purposes: " ++ fmt_list lst)%string), traces, true)
    else (d, traces, false)
  else (st, false).

Definition cond_blocked_purposes (cond : Conditions) (req : Request) (st : step_state)
    : step_state :=
  let '(d, traces) := st in
  let purpose := rc_Purpose (rq_Context req) in
  let lst := BlockedPurposes cond in
  if nonempty lst then
    let blocked := mem purpose lst in
    let traces := traces ++ [{| ct_Name := "blocked_purposes"; ct_Passed := negb blocked;
      ct_Detail := ("purpose=" ++ quote purpose ++ " blocked=" ++ fmt_list lst)%string |}] in
    if blocked then
      (deny_with d
         (formatMessage ("Purpose " ++ quote purpose ++ " is in the blocked list " ++ fmt_list lst)%string)
         (formatMessage ("blocked_purposes: " ++ fmt_list lst)%string), traces)
    else (d, traces)
  else st.

Definition applyConditionsWithTrace (decision : Decision) (cond : Conditions) (req : Request)
    : step_state :=
  let st := cond_require_approval cond (decision, []) in
  let st := cond_max_rows cond req st in
  let st := cond_max_pods cond req st in
  let st := cond_max_xact_age cond req st in
  let '(st, returned) := cond_allowed_purposes cond req st in
  if returned then st else cond_blocked_purposes cond req st.

(** ** Engine *)

Record Engine := {
  config : Config;
  defaultEffect : Effect;
  dryRun : bool }.

Section Evaluate.
Context (LoadLocation : string -> option (Time -> Z)).

(** The test on the schedule of a rule's conditions. *)
Definition schedule_inactive (rule : Rule) (req : Request) : bool :=
  match rl_Conditions rule with
  | Some c =>
      match Sched c with
      | Some s => negb (Schedule_IsActive LoadLocation (Some s) (Timestamp (rq_Context req)))
      | None => false
      end
  | None => false
  end.

(** The decision of rule [i] of [pol] once it matched. *)
Definition rule_decision (pol : Policy) (i : nat) (rule : Rule) (req : Request) : step_state :=
  let decision :=
    {| d_Effect := rl_Effect rule; d_PolicyName := pol_Name pol; d_RuleIndex := i;
       d_Message := rl_Message rule; d_Conditions := []; d_RequiresApproval := false;
       d_ApprovalQuorum := 0 |} in
  match rl_Conditions rule with
  | Some c => applyConditionsWithTrace decision c req
  | None => (decision, [])
  end.

Definition rule_trace (i : nat) (rule : Rule) (effect : string) (matched : bool) (skip : string)
    (conds : list ConditionTrace) : RuleTrace :=
  {| rt_Index := i; rt_Actions := actionsToStrings (rl_Action rule); rt_Effect := effect;
     rt_Matched := matched; rt_SkipReason := skip; rt_Conditions := conds |}.

(** The loop over the rules of a matched policy: the rule traces so far and the
    decision of the first rule that applies. *)
Fixpoint eval_rules (pol : Policy) (req : Request) (i : nat) (rules : list Rule)
    (acc : list RuleTrace) : list RuleTrace * option Decision :=
  match rules with
  | [] => (acc, None)
  | rule :: rules' =>
      if negb (Matches (rl_Action rule) (rq_Action req)) then
        eval_rules pol req (S i) rules'
          (acc ++ [rule_trace i rule (rl_Effect rule) false "action_mismatch" []])
      else if schedule_inactive rule req then
        eval_rules pol req (S i) rules'
          (acc ++ [rule_trace i rule (rl_Effect rule) false "schedule_inactive" []])
      else
        let '(decision, conds) := rule_decision pol i rule req in
        (acc ++ [rule_trace i rule (d_Effect decision) true "" conds], Some decision)
  end.

Definition policy_trace (pol : Policy) (matched : bool) (skip : string)
    (tags : list (list string)) (rules : list RuleTrace) : PolicyTrace :=
  {| pt_PolicyName := pol_Name pol; pt_Matched := matched; pt_SkipReason := skip;
     pt_RequiredTags := tags; pt_Rules := rules |}.

Definition default_decision (effect : Effect) : Decision :=
  {| d_Effect := effect; d_PolicyName := "default"; d_RuleIndex := 0;
     d_Message := "No matching policy found"; d_Conditions := [];
     d_RequiresApproval := false; d_ApprovalQuorum := 0 |}.

(** The loop over the policies, with the traces appended so far. *)
Fixpoint eval_policies (dflt : Effect) (req : Request) (pols : list Policy)
    (acc : list PolicyTrace) : DecisionTrace :=
  match pols with
  | [] =>
      {| tr_Decision := default_decision dflt; PoliciesEvaluated := acc;
         DefaultApplied := true; Explanation := "" |}
  | pol :: pols' =>
      if negb (IsEnabled pol) then
        eval_policies dflt req pols' (acc ++ [policy_trace pol false "disabled" [] []])
      else if negb (matchesPrincipal pol (rq_Principal req)) then
        eval_policies dflt req pols' (acc ++ [policy_trace pol false "principal_mismatch" [] []])
      else if negb (matchesResource pol (rq_Resource req)) then
        eval_policies dflt req pols'
          (acc ++ [policy_trace pol false "resource_mismatch"
                     (resourceTagSets pol (rr_Type (rq_Resource req))) []])
      else
        match eval_rules pol req 0 (pol_Rules pol) [] with
        | (rules, Some decision) =>
            {| tr_Decision := decision;
               PoliciesEvaluated := acc ++ [policy_trace pol true "" [] rules];
               DefaultApplied := false; Explanation := "" |}
        | (rules, None) =>
            eval_policies dflt req pols' (acc ++ [policy_trace pol true "" [] rules])
        end
  end.

Definition explainEvaluate (e : Engine) (req : Request) : DecisionTrace :=
  eval_policies (defaultEffect e) req (Policies (config e)) [].

(** ** The declarative reading: first applicable rule of first applicable policy *)

Definition applicable (pol : Policy) (req : Request) : bool :=
  IsEnabled pol && matchesPrincipal pol (rq_Principal req) && matchesResource pol (rq_Resource req).

Definition rule_applies (rule : Rule) (req : Request) : bool :=
  Matches (rl_Action rule) (rq_Action req) && negb (schedule_inactive rule req).

(** All rules of the applicable policies, in evaluation order. *)
Definition candidates (pols : list Policy) (req : Request) : list (Policy * nat * Rule) :=
  flat_map (fun pol => imap (fun i r => (pol, i, r)) (pol_Rules pol))
    (List.filter (fun pol => applicable pol req) pols).

Definition first_match (pols : list Policy) (req : Request) : option (Policy * nat * Rule) :=
  find (fun '(_, _, r) => rule_applies r req) (candidates pols req).
End Evaluate.

(** ** Conditions, block by block *)

Definition rows_ok (c : Conditions) (ctx : RequestContext) : bool :=
  negb ((0 <? MaxRowsAffected c) && (MaxRowsAffected c <? RowsAffected ctx))%Z.
Definition pods_ok (c : Conditions) (ctx : RequestContext) : bool :=
  negb ((0 <? MaxPodsAffected c) && (MaxPodsAffected c <? PodsAffected ctx))%Z.
Definition age_ok (c : Conditions) (ctx : RequestContext) : bool :=
  negb ((0 <? MaxXactAgeSecs c) && (MaxXactAgeSecs c <? XactAgeSecs ctx))%Z.
Definition allowed_ok (c : Conditions) (ctx : RequestContext) : bool :=
  negb (nonempty (AllowedPurposes c)) || mem (rc_Purpose ctx) (AllowedPurposes c).
Definition blocked_ok (c : Conditions) (ctx : RequestContext) : bool :=
  negb (mem (rc_Purpose ctx) (BlockedPurposes c)).

(** Every limit of the rule is respected by the request. *)
Definition within_limits (c : Conditions) (ctx : RequestContext) : bool :=
  rows_ok c ctx && pods_ok c ctx && age_ok c ctx && allowed_ok c ctx && blocked_ok c ctx.

(** What a block does to a state: the effect, the approval flag, and whether all
    conditions traced so far passed. *)
Definition summary (st : step_state) : Effect * bool * bool :=
  (d_Effect (fst st), d_RequiresApproval (fst st), forallb ct_Passed (snd st)).

Definition gate (ok : bool) (s : Effect * bool * bool) : Effect * bool * bool :=
  let '(eff, appr, passed) := s in ((if ok then eff else EffectDeny), appr, passed && ok).

Section Blocks.
Context (c : Conditions) (req : Request).
Let ctx := rq_Context req.

Local Ltac block f :=
  unfold f, summary, gate;
  repeat case_if; simpl in *; rewrite ?forallb_snoc, ?andb_true_r, ?andb_false_r; simpl;
  rewrite ?andb_true_r, ?andb_false_r; try done; try (go_simpl; (lia || congruence)).

Lemma rows_block st : summary (cond_max_rows c req st) = gate (rows_ok c ctx) (summary st).
Proof. destruct st as [d ts]. unfold rows_ok, ctx. block cond_max_rows. Qed.

Lemma pods_block st : summary (cond_max_pods c req st) = gate (pods_ok c ctx) (summary st).
Proof. destruct st as [d ts]. unfold pods_ok, ctx. block cond_max_pods. Qed.

Lemma age_block st : summary (cond_max_xact_age c req st) = gate (age_ok c ctx) (summary st).
Proof. destruct st as [d ts]. unfold age_ok, ctx. block cond_max_xact_age. Qed.

Lemma allowed_block st :
  let '(st', returned) := cond_allowed_purposes c req st in
  summary st' = gate (allowed_ok c ctx) (summary st) /\ returned = negb (allowed_ok c ctx).
Proof.
  destruct st as [d ts]. unfold cond_allowed_purposes, allowed_ok, ctx, summary, gate.
  destruct (nonempty _); simpl; [|by rewrite andb_true_r].
  destruct (mem _ _); simpl; by rewrite forallb_snoc.
Qed.

Lemma blocked_block st : summary (cond_blocked_purposes c req st) = gate (blocked_ok c ctx) (summary st).
Proof.
  destruct st as [d ts]. unfold cond_blocked_purposes, blocked_ok, ctx, summary, gate.
  destruct (BlockedPurposes c) as [|x l] eqn:E; simpl nonempty; cbv iota.
  - simpl. by rewrite andb_true_r.
  - destruct (mem _ _); simpl; by rewrite forallb_snoc.
Qed.

Lemma approval_block d :
  summary (cond_require_approval c (d, [])) =
  ((if RequireApproval c && (d_Effect d =?s EffectAllow) then EffectRequireApproval else d_Effect d),
   RequireApproval c || d_RequiresApproval d, true).
Proof. unfold cond_require_approval, summary. by destruct (RequireApproval c). Qed.

(** The whole sequence. *)
Lemma applyConditions_summary d :
  summary (applyConditionsWithTrace d c req) =
  ((if within_limits c ctx
    then if RequireApproval c && (d_Effect d =?s EffectAllow) then EffectRequireApproval else d_Effect d
    else EffectDeny),
   RequireApproval c || d_RequiresApproval d,
   within_limits c ctx).
Proof.
  unfold applyConditionsWithTrace.
  pose proof (age_block (cond_max_pods c req (cond_max_rows c req (cond_require_approval c (d, []))))) as Ha.
  rewrite pods_block, rows_block, approval_block in Ha.
  pose proof (allowed_block (cond_max_xact_age c req (cond_max_pods c req (cond_max_rows c req
    (cond_require_approval c (d, [])))))) as Hb.
  destruct (cond_allowed_purposes _ _ _) as [st returned].
  rewrite Ha in Hb. destruct Hb as [Hb ->].
  unfold within_limits.
  destruct (allowed_ok c ctx); simpl in Hb |- *; [rewrite blocked_block|]; rewrite Hb; simpl;
    destruct (rows_ok c ctx), (pods_ok c ctx), (age_ok c ctx), (blocked_ok c ctx); done.
Qed.
End Blocks.

(** ** The two loops *)

Section Loops.
Context (LoadLocation : string -> option (Time -> Z)).
Context (req : Request).

Abbreviation applies := (fun '(_, _, r) => rule_applies LoadLocation r req).

Lemma eval_rules_decision pol i rules acc :
  snd (eval_rules LoadLocation pol req i rules acc) =
  option_map (fun '(p, j, r) => fst (rule_decision p j r req))
    (find applies (imap (fun k r => (pol, i + k, r)) rules)).
Proof.
  revert i acc. induction rules as [|r rules IH]; intros i acc; [done|].
  rewrite imap_cons. cbn [eval_rules find]. unfold rule_applies at 1.
  assert (imap ((λ (k : nat) (r : Rule), (pol, i + k, r)) ∘ S) rules =
          imap (λ (k : nat) (r : Rule), (pol, S i + k, r)) rules) as ->.
  { apply imap_ext. intros k x _. simpl. by rewrite Nat.add_succ_r. }
  destruct (Matches (rl_Action r) (rq_Action req)); simpl negb; cbv iota; [|by apply IH].
  destruct (schedule_inactive LoadLocation r req); simpl; [by apply IH|].
  rewrite Nat.add_0_r. by destruct (rule_decision pol i r req).
Qed.

Lemma first_match_cons pol pols :
  first_match LoadLocation (pol :: pols) req =
  if applicable pol req then
    match find applies (imap (fun i r => (pol, i, r)) (pol_Rules pol)) with
    | Some x => Some x
    | None => first_match LoadLocation pols req
    end
  else first_match LoadLocation pols req.
Proof.
  unfold first_match, candidates. cbn [List.filter].
  destruct (applicable pol req); [|done]. cbn [flat_map]. by rewrite find_app_first.
Qed.

Lemma eval_policies_decision dflt pols acc :
  tr_Decision (eval_policies LoadLocation dflt req pols acc) =
    match first_match LoadLocation pols req with
    | Some (p, j, r) => fst (rule_decision p j r req)
    | None => default_decision dflt
    end /\
  DefaultApplied (eval_policies LoadLocation dflt req pols acc) =
    match first_match LoadLocation pols req with Some _ => false | None => true end.
Proof.
  revert acc. induction pols as [|pol pols IH]; intros acc; [done|].
  rewrite first_match_cons. cbn [eval_policies]. unfold applicable.
  destruct (IsEnabled pol); simpl negb; cbv iota; [|by apply IH].
  destruct (matchesPrincipal pol _); simpl negb; cbv iota; [|by apply IH].
  destruct (matchesResource pol _); simpl negb; cbv iota; [|by apply IH].
  simpl andb. cbv iota.
  pose proof (eval_rules_decision pol 0 (pol_Rules pol) []) as Hr. simpl Nat.add in Hr.
  destruct (eval_rules LoadLocation pol req 0 (pol_Rules pol) []) as [rules od]. simpl in Hr.
  destruct (find applies (imap _ (pol_Rules pol))) as [[[p j] r]|]; simpl in Hr; subst od.
  - done.
  - by apply IH.
Qed.
End Loops.

(** ** Traces *)

Section Traces.
Context (LoadLocation : string -> option (Time -> Z)) (req : Request).

(** What the trace of one policy says about it. *)
Definition trace_sound (pol : Policy) (t : PolicyTrace) : Prop :=
  pt_PolicyName t = pol_Name pol /\
  pt_Matched t = applicable pol req /\
  (pt_SkipReason t = "disabled"%string <-> IsEnabled pol = false) /\
  (pt_SkipReason t = "principal_mismatch"%string <->
     IsEnabled pol = true /\ matchesPrincipal pol (rq_Principal req) = false) /\
  (pt_SkipReason t = "resource_mismatch"%string <->
     IsEnabled pol = true /\ matchesPrincipal pol (rq_Principal req) = true /\
     matchesResource pol (rq_Resource req) = false).

Local Ltac sound :=
  unfold trace_sound, applicable; simpl;
  repeat match goal with E : @eq bool _ _ |- _ => rewrite !E; clear E end;
  simpl; repeat split; intros; destruct_and?; congruence.

Lemma eval_policies_traces dflt pols acc :
  exists ts,
    PoliciesEvaluated (eval_policies LoadLocation dflt req pols acc) = acc ++ ts /\
    Forall2 trace_sound (take (length ts) pols) ts /\
    (DefaultApplied (eval_policies LoadLocation dflt req pols acc) = true ->
     length ts = length pols).
Proof.
  revert acc. induction pols as [|pol pols IH]; intros acc.
  { exists []. simpl. rewrite app_nil_r. repeat constructor. }
  cbn [eval_policies].
  assert (forall t, trace_sound pol t -> exists ts,
    PoliciesEvaluated (eval_policies LoadLocation dflt req pols (acc ++ [t])) = acc ++ ts /\
    Forall2 trace_sound (take (length ts) (pol :: pols)) ts /\
    (DefaultApplied (eval_policies LoadLocation dflt req pols (acc ++ [t])) = true ->
     length ts = length (pol :: pols))) as Hgo.
  { intros t Ht. destruct (IH (acc ++ [t])) as (ts & E & F & L).
    exists (t :: ts). rewrite E, <- app_assoc. split; [done|]. simpl. split; [by constructor|].
    intros H. by rewrite L. }
  destruct (IsEnabled pol) eqn:E1; simpl negb; cbv iota; [|apply Hgo; sound].
  destruct (matchesPrincipal pol _) eqn:E2; simpl negb; cbv iota; [|apply Hgo; sound].
  destruct (matchesResource pol _) eqn:E3; simpl negb; cbv iota; [|apply Hgo; sound].
  destruct (eval_rules LoadLocation pol req 0 (pol_Rules pol) []) as [rules [d|]]; [|apply Hgo; sound].
  eexists [_]. split; [done|]. split; [|done]. constructor; [sound|constructor].
Qed.
End Traces.

(** ** Properties *)

(** The zone database that knows no zone, for concrete runs. *)
Definition no_zones : string -> option (Time -> Z) := fun _ => None.

Lemma explain_decision LoadLocation e req :
  tr_Decision (explainEvaluate LoadLocation e req) =
  match first_match LoadLocation (Policies (config e)) req with
  | Some (pol, i, r) => fst (rule_decision pol i r req)
  | None => default_decision (defaultEffect e)
  end.
Proof. apply eval_policies_decision. Qed.

(** C5 (functional). The engine's two nested loops compute the declarative
    reading of the policy file: the decision is that of the first applicable rule
    (action and schedule) of the first enabled policy whose principals and
    resources match, with its conditions applied; and the default effect, flagged
    as such, exactly when there is no such rule. *)
Theorem explainEvaluate_first_match LoadLocation e req :
  let tr := explainEvaluate LoadLocation e req in
  match first_match LoadLocation (Policies (config e)) req with
  | Some (pol, i, r) =>
      tr_Decision tr = fst (rule_decision pol i r req) /\ DefaultApplied tr = false
  | None => tr_Decision tr = default_decision (defaultEffect e) /\ DefaultApplied tr = true
  end.
Proof.
  unfold explainEvaluate.
  destruct (eval_policies_decision LoadLocation req (defaultEffect e) (Policies (config e)) []) as [Hd Ha].
  destruct (first_match LoadLocation _ req) as [[[p j] r]|]; eauto.
Qed.

(** The conditions of a rule, absent ones counting as respected. *)
Definition rule_within_limits (r : Rule) (req : Request) : bool :=
  match rl_Conditions r with Some c => within_limits c (rq_Context req) | None => true end.
Definition rule_wants_approval (r : Rule) : bool :=
  match rl_Conditions r with Some c => RequireApproval c | None => false end.

Lemma rule_decision_effect pol i r req :
  d_Effect (fst (rule_decision pol i r req)) =
  if rule_within_limits r req
  then if rule_wants_approval r && (rl_Effect r =?s EffectAllow) then EffectRequireApproval else rl_Effect r
  else EffectDeny.
Proof.
  unfold rule_decision, rule_within_limits, rule_wants_approval.
  destruct (rl_Conditions r) as [c|]; [|done].
  pose proof (applyConditions_summary c req {|
    d_Effect := rl_Effect r; d_PolicyName := pol_Name pol; d_RuleIndex := i;
    d_Message := rl_Message r; d_Conditions := []; d_RequiresApproval := false; d_ApprovalQuorum := 0 |}) as H.
  unfold summary in H. by injection H as -> _ _.
Qed.

Lemma rule_decision_requires pol i r req :
  d_RequiresApproval (fst (rule_decision pol i r req)) = rule_wants_approval r.
Proof.
  unfold rule_decision, rule_wants_approval. destruct (rl_Conditions r) as [c|]; [|done].
  pose proof (applyConditions_summary c req {|
    d_Effect := rl_Effect r; d_PolicyName := pol_Name pol; d_RuleIndex := i;
    d_Message := rl_Message r; d_Conditions := []; d_RequiresApproval := false; d_ApprovalQuorum := 0 |}) as H.
  unfold summary in H. injection H as _ -> _. by rewrite orb_false_r.
Qed.

(** A decision of a rule needs approval when the rule asks for it in its conditions,
    whatever its limits say, or by its effect while they hold. *)
Lemma rule_decision_needs_approval pol i r req :
  NeedsApproval (fst (rule_decision pol i r req)) =
  rule_wants_approval r || (rule_within_limits r req && (rl_Effect r =?s EffectRequireApproval)).
Proof.
  unfold NeedsApproval. rewrite rule_decision_effect, rule_decision_requires.
  destruct (rule_wants_approval r); [by rewrite orb_true_r|]. rewrite orb_false_r. simpl.
  by destruct (rule_within_limits r req).
Qed.

Lemma rule_decision_allow pol i r req :
  IsAllowed (fst (rule_decision pol i r req)) = true <->
  rl_Effect r = EffectAllow /\ rule_wants_approval r = false /\ rule_within_limits r req = true.
Proof.
  unfold IsAllowed. rewrite streq_spec, rule_decision_effect.
  destruct (rule_within_limits r req); [|split; [done|by intros (_ & _ & ?)]].
  destruct (rule_wants_approval r); simpl; [|tauto].
  destruct (rl_Effect r =?s EffectAllow) eqn:E.
  - split; [done|by intros (_ & ? & _)].
  - apply streq_false in E. tauto.
Qed.

(** C6 (safety). The engine, not in dry-run mode, allows a request exactly when the
    first applicable rule has effect allow, asks for no approval and all its
    limits (rows, pods, transaction age, allowed and blocked purposes) are
    respected, or when no rule applies and the default effect is allow. *)
Theorem explainEvaluate_allow_iff LoadLocation e req :
  IsAllowed (tr_Decision (explainEvaluate LoadLocation e req)) = true <->
  match first_match LoadLocation (Policies (config e)) req with
  | Some (_, _, r) =>
      rl_Effect r = EffectAllow /\ rule_wants_approval r = false /\ rule_within_limits r req = true
  | None => defaultEffect e = EffectAllow
  end.
Proof.
  rewrite explain_decision.
  destruct (first_match LoadLocation _ req) as [[[p j] r]|].
  - apply rule_decision_allow.
  - unfold IsAllowed. by rewrite streq_spec.
Qed.

(** Applying a rule's conditions: the effect is deny when any
    limit is broken, require_approval when the rule allowed but asks for approval,
    and otherwise unchanged; the approval flag is set exactly when asked for; and
    the traced conditions all pass exactly when no limit is broken. *)
Theorem applyConditions_functional d c req :
  let '(d', traces) := applyConditionsWithTrace d c req in
  d_Effect d' =
    (if within_limits c (rq_Context req)
     then if RequireApproval c && (d_Effect d =?s EffectAllow) then EffectRequireApproval else d_Effect d
     else EffectDeny) /\
  d_RequiresApproval d' = RequireApproval c || d_RequiresApproval d /\
  forallb ct_Passed traces = within_limits c (rq_Context req).
Proof.
  pose proof (applyConditions_summary c req d) as H.
  destruct (applyConditionsWithTrace d c req) as [d' ts]. unfold summary in H. simpl in H.
  by injection H.
Qed.

(** [req] with another load: rows, pods and transaction age. *)
Definition with_load (req : Request) (rows pods age : Z) : Request :=
  {| rq_Principal := rq_Principal req; rq_Resource := rq_Resource req; rq_Action := rq_Action req;
     rq_Context :=
       {| Timestamp := Timestamp (rq_Context req); rc_TraceID := rc_TraceID (rq_Context req);
          RowsAffected := rows; PodsAffected := pods; XactAgeSecs := age;
          rc_Purpose := rc_Purpose (rq_Context req);
          rc_PurposeNote := rc_PurposeNote (rq_Context req) |} |}.

Lemma first_match_load LoadLocation pols req rows pods age :
  first_match LoadLocation pols (with_load req rows pods age) = first_match LoadLocation pols req.
Proof. done. Qed.

Lemma within_limits_mono c req rows pods age rows' pods' age' :
  (rows <= rows')%Z -> (pods <= pods')%Z -> (age <= age')%Z ->
  within_limits c (rq_Context (with_load req rows' pods' age')) = true ->
  within_limits c (rq_Context (with_load req rows pods age)) = true.
Proof.
  unfold within_limits, rows_ok, pods_ok, age_ok, allowed_ok, blocked_ok, with_load; simpl.
  intros. go_simpl. intuition lia.
Qed.

(** The blast-radius guards are monotone: a request that is allowed
    stays allowed when it affects fewer rows or pods or a younger transaction, so
    no decision is loosened by a larger impact. *)
Theorem blast_radius_monotone LoadLocation e req rows pods age rows' pods' age'
    (Hrows : (rows <= rows')%Z) (Hpods : (pods <= pods')%Z) (Hage : (age <= age')%Z)
    (Hallowed : IsAllowed (tr_Decision (explainEvaluate LoadLocation e (with_load req rows' pods' age'))) = true) :
  IsAllowed (tr_Decision (explainEvaluate LoadLocation e (with_load req rows pods age))) = true.
Proof.
  rewrite explain_decision, first_match_load in *.
  destruct (first_match LoadLocation _ req) as [[[p j] r]|]; [|done].
  apply rule_decision_allow in Hallowed as (H1 & H2 & H3). apply rule_decision_allow.
  split_and!; [done..|]. unfold rule_within_limits in *.
  destruct (rl_Conditions r) as [c|]; [|done]. by eapply within_limits_mono.
Qed.

(** The trace is faithful to the run: it has one entry per policy
    walked, in configuration order, whose name, matched flag and skip reason say
    what the policy's own tests say, and it covers every policy when the default
    was applied. *)
Theorem explainEvaluate_trace_sound LoadLocation e req :
  let tr := explainEvaluate LoadLocation e req in
  Forall2 (trace_sound req) (take (length (PoliciesEvaluated tr)) (Policies (config e))) (PoliciesEvaluated tr) /\
  (DefaultApplied tr = true -> length (PoliciesEvaluated tr) = length (Policies (config e))).
Proof.
  unfold explainEvaluate.
  destruct (eval_policies_traces LoadLocation req (defaultEffect e) (Policies (config e)) [])
    as (ts & E & F & L).
  rewrite E. by split.
Qed.

(** ** Concrete runs *)

(** A policy that allows destructive operations on databases named prod-* up to
    100 rows, and denies every other destructive operation on databases. *)
Definition sample_policy : Policy :=
  {| pol_Name := "prod-limits"; pol_Description := ""; pol_Enabled := None; pol_Priority := 10;
     pol_Principals := [{| pr_User := ""; pr_Role := "dba"; pr_Service := ""; pr_Any := false |}];
     pol_Resources :=
       [{| rs_Type := "database";
           rs_Match := {| rm_Name := ""; rm_NamePattern := "prod-*"; rm_Tags := []; rm_Namespace := "";
                          rm_Sensitivity := []; rm_Tool := ""; rm_ToolPattern := "" |} |}];
     pol_Rules :=
       [{| rl_Action := [ActionDestructive]; rl_Effect := EffectAllow;
           rl_Conditions := Some
             {| RequireApproval := false; ApprovalQuorum := 0; MaxRowsAffected := 100;
                MaxPodsAffected := 0; MaxXactAgeSecs := 0;
                Sched := Some {| Days := ["mon"]%string; HoursOfDay := [1%Z]; Timezone := "" |};
                AllowedPurposes := []; BlockedPurposes := ["diagnostic"]%string |};
           rl_Message := "" |}] |}.

Definition sample_request : Request :=
  {| rq_Principal := {| rp_UserID := "alice"; rp_Roles := ["dba"]%string; rp_Service := "" |};
     rq_Resource :=
       {| rr_Type := "database"; rr_Name := "prod-1"; rr_Tags := []; rr_Namespace := "";
          rr_Extra := []; rr_Sensitivity := []; rr_ToolName := "run_vacuum" |};
     rq_Action := ActionDestructive;
     rq_Context :=
       {| Timestamp := {| instant := 7 * Day + Hours; zone_offset := 0 |}; rc_TraceID := "";
          RowsAffected := 100; PodsAffected := 0; XactAgeSecs := 0; rc_Purpose := "remediation";
          rc_PurposeNote := "" |} |}.

Definition sample_engine : Engine :=
  {| config := {| Version := "1"; Policies := [sample_policy] |};
     defaultEffect := EffectDeny; dryRun := false |}.

Example sample_allowed :
  IsAllowed (tr_Decision (explainEvaluate no_zones sample_engine sample_request)) = true.
Proof. vm_compute. reflexivity. Qed.

Example sample_denied :
  d_Message (tr_Decision (explainEvaluate no_zones sample_engine (with_load sample_request 101 0 0)))
  = "Operation affects 101 rows, limit is 100"%string.
Proof. vm_compute. reflexivity. Qed.

Lemma blast_radius_monotone_witness :
  IsAllowed (tr_Decision (explainEvaluate no_zones sample_engine (with_load sample_request 100 0 0))) = true /\
  IsAllowed (tr_Decision (explainEvaluate no_zones sample_engine (with_load sample_request 7 0 0))) = true.
Proof.
  split; [vm_compute; reflexivity|].
  apply (blast_radius_monotone no_zones sample_engine sample_request 7 0 0 100 0 0);
    [lia|lia|lia|vm_compute; reflexivity].
Defined.
