(* ===== verification/PolicyExplain.v ===== *)
(** * internal/policy/explain.go and the entry points of engine.go

    [buildExplanation] renders a trace; [Explain] evaluates, renders, and applies
    the dry-run override; [Evaluate] keeps the decision only; [MustAllow] turns a
    decision into an error.  Logging ([logDecision]) has no effect on any of these
    results and is left out. *)

From S2P Require Import Prelude GoTime PolicyTypes PolicyEngine.

Definition effectLabel (e : Effect) : string :=
  if e =?s EffectRequireApproval then "REQUIRES APPROVAL"
  else if e =?s EffectDeny then "DENIED"
  else if e =?s EffectAllow then "ALLOWED"
  else to_upper e.

(** Number of runes of a valid UTF-8 string: the bytes that do not continue one. *)
Fixpoint rune_count (s : string) : nat :=
  match s with
  | EmptyString => 0
  | String c s' =>
      let n := N_of_ascii c in
      (if (128 <=? n)%N && (n <? 192)%N then 0 else 1) + rune_count s'
  end.

Fixpoint spaces (n : nat) : string :=
  match n with O => EmptyString | S n' => String " " (spaces n') end.

(** [%-Ns] *)
Definition pad_right (width : nat) (s : string) : string := (s ++ spaces (width - rune_count s))%string.

Definition concat_strings (l : list string) : string := foldr String.append "" l.

(** The first line. *)
Definition explanation_header (req : Request) (trace : DecisionTrace) : string :=
  let res := rq_Resource req in
  let resourceDesc :=
    (rr_Type res ++ " " ++ rr_Name res ++
     (if nonempty (rr_Tags res) then " (tags: " ++ join ", " (rr_Tags res) ++ ")" else ""))%string in
  ("Access to " ++ resourceDesc ++ " for " ++ rq_Action req ++ ": " ++
   effectLabel (d_Effect (tr_Decision trace)) ++ nl)%string.

Definition tag_line (tags : list string) (policy : string) : string :=
  ("  • tags: [" ++ join ", " tags ++ "]  → enables policy " ++ quote policy ++ nl)%string.

(** The inner loop over the tag sets of one skipped policy; [seen] holds the keys
    already listed. *)
Fixpoint tag_lines (policy : string) (sets : list (list string)) (seen : list string)
    : string * list string :=
  match sets with
  | [] => (""%string, seen)
  | tags :: sets' =>
      let key := join "," tags in
      if mem key seen then tag_lines policy sets' seen
      else
        let '(out, seen') := tag_lines policy sets' (key :: seen) in
        ((tag_line tags policy ++ out)%string, seen')
  end.

Fixpoint unlock_lines (pts : list PolicyTrace) (seen : list string) : string * list string :=
  match pts with
  | [] => (""%string, seen)
  | pt :: pts' =>
      if negb (pt_SkipReason pt =?s "resource_mismatch") then unlock_lines pts' seen
      else
        let '(out, seen1) := tag_lines (pt_PolicyName pt) (pt_RequiredTags pt) seen in
        let '(out', seen2) := unlock_lines pts' seen1 in ((out ++ out')%string, seen2)
  end.

(** The part written when the default effect was applied. *)
Definition default_explanation (req : Request) (trace : DecisionTrace) : string :=
  (nl ++ "No policy matched this resource — default effect is " ++ d_Effect (tr_Decision trace) ++ "." ++ nl ++
   (if nonempty (rr_Tags (rq_Resource req)) then ""
    else
      nl ++ "This resource has no tags, so no tag-based policy can match it." ++ nl ++
      "Add it to HELPDESK_INFRA_CONFIG with one of the following tag sets:" ++ nl ++ nl ++
      (let '(lines, seen) := unlock_lines (PoliciesEvaluated trace) [] in
       lines ++
       (if nonempty seen then ""
        else "  (no tag-based policies are configured for this resource type)" ++ nl))))%string.

Definition condition_line (ct : ConditionTrace) : string :=
  ("    " ++ (if ct_Passed ct then "✓" else "✗") ++ " " ++ ct_Name ct ++ ": " ++ ct_Detail ct ++ nl)%string.

Definition rule_lines (rt : RuleTrace) : string :=
  let ruleLabel := pad_right 28 (join "|" (rt_Actions rt) ++ " → " ++ rt_Effect rt)%string in
  let head := ("  Rule " ++ pad_right 2 (itoa (Z.of_nat (rt_Index rt))) ++ "  " ++ ruleLabel)%string in
  if negb (rt_Matched rt) then (head ++ "  skipped — " ++ rt_SkipReason rt ++ nl)%string
  else (head ++ "  matched" ++ nl ++ concat_strings (map condition_line (rt_Conditions rt)))%string.

Definition policy_lines (label : string) (pt : PolicyTrace) : string :=
  (nl ++
   (if negb (pt_Matched pt) then
      "Policy " ++ quote (pt_PolicyName pt) ++ ": skipped (" ++ pt_SkipReason pt ++ ")" ++ nl
    else
      "Policy " ++ quote (pt_PolicyName pt) ++ " matched:" ++ nl ++
      concat_strings (map rule_lines (pt_Rules pt)) ++
      "  → " ++ label ++ nl))%string.

Definition explanation_footer (d : Decision) : string :=
  (nl ++
   (if d_Effect d =?s EffectDeny then
      if negb (d_Message d =?s "") then "Reason: " ++ d_Message d
      else "No further action is possible for this request."
    else if d_Effect d =?s EffectRequireApproval then
      "An approval request has been created. Use `approvals list` to see pending requests."
    else if d_Effect d =?s EffectAllow then "The request is permitted to proceed."
    else ""))%string.

Definition buildExplanation (req : Request) (trace : DecisionTrace) : string :=
  (explanation_header req trace ++
   (if DefaultApplied trace then default_explanation req trace
    else
      concat_strings (map (policy_lines (effectLabel (d_Effect (tr_Decision trace)))) (PoliciesEvaluated trace)) ++
      explanation_footer (tr_Decision trace)))%string.

Definition with_effect_message (d : Decision) (eff msg : string) : Decision :=
  {| d_Effect := eff; d_PolicyName := d_PolicyName d; d_RuleIndex := d_RuleIndex d;
     d_Message := msg; d_Conditions := d_Conditions d; d_RequiresApproval := d_RequiresApproval d;
     d_ApprovalQuorum := d_ApprovalQuorum d |}.

Section Explain.
Context (LoadLocation : string -> option (Time -> Z)).

(** A zero timestamp is replaced by the clock, [now]. *)
Definition stamp (now : Clock) (req : Request) : Request :=
  if IsZero (instant (Timestamp (rq_Context req))) then
    {| rq_Principal := rq_Principal req; rq_Resource := rq_Resource req; rq_Action := rq_Action req;
       rq_Context :=
         {| Timestamp := now; rc_TraceID := rc_TraceID (rq_Context req);
            RowsAffected := RowsAffected (rq_Context req); PodsAffected := PodsAffected (rq_Context req);
            XactAgeSecs := XactAgeSecs (rq_Context req); rc_Purpose := rc_Purpose (rq_Context req);
            rc_PurposeNote := rc_PurposeNote (rq_Context req) |} |}
  else req.

Definition Explain (e : Engine) (now : Clock) (req : Request) : DecisionTrace :=
  let req := stamp now req in
  let trace := explainEvaluate LoadLocation e req in
  let d := tr_Decision trace in
  {| tr_Decision :=
       if dryRun e && negb (d_Effect d =?s EffectAllow)
       then with_effect_message d EffectAllow ("[DRY RUN] " ++ d_Message d)%string
       else d;
     PoliciesEvaluated := PoliciesEvaluated trace;
     DefaultApplied := DefaultApplied trace;
     Explanation := buildExplanation req trace |}.

Definition Evaluate (e : Engine) (now : Clock) (req : Request) : Decision :=
  tr_Decision (Explain e now req).
End Explain.

(** ** Errors *)

Inductive PolicyError :=
  | DeniedError (d : Decision) (explanation : string)
  | ApprovalRequiredError (d : Decision).

(** [MustAllow]: [None] is the nil error. *)
Definition MustAllow (d : Decision) : option PolicyError :=
  if IsAllowed d then None
  else if NeedsApproval d then Some (ApprovalRequiredError d)
  else Some (DeniedError d "").

Definition Error (e : PolicyError) : string :=
  match e with
  | DeniedError d explanation =>
      if negb (explanation =?s "") then explanation
      else if negb (d_Message d =?s "") then ("policy denied: " ++ d_Message d)%string
      else ("policy denied by " ++ d_PolicyName d)%string
  | ApprovalRequiredError d =>
      if negb (d_Message d =?s "") then ("approval required: " ++ d_Message d)%string
      else ("approval required by policy " ++ d_PolicyName d)%string
  end.

Definition IsApprovalRequired (err : option PolicyError) : bool :=
  match err with Some (ApprovalRequiredError _) => true | _ => false end.

Definition IsDeniedError (err : option PolicyError) : bool :=
  match err with Some (DeniedError _ _) => true | _ => false end.

(** ** Lemmas on the tag-set listing *)

Lemma contains_app_l a b s : str_contains a s = true -> str_contains (a ++ b) s = true.
Proof.
  rewrite !str_contains_spec. intros (x & y & ->). exists x, (y ++ b)%string.
  by rewrite !app_assoc_s.
Qed.

Lemma contains_app_r a b s : str_contains b s = true -> str_contains (a ++ b) s = true.
Proof.
  rewrite !str_contains_spec. intros (x & y & ->). exists (a ++ x)%string, y.
  by rewrite !app_assoc_s.
Qed.

Lemma contains_refl s : str_contains s s = true.
Proof. apply str_contains_spec. exists ""%string, ""%string. by rewrite app_empty_r. Qed.

#[local] Arguments str_contains : simpl never.
#[local] Arguments tag_line : simpl never.
#[local] Hint Resolve contains_app_l contains_app_r contains_refl : go.

(** A key listed in [seen'] but not in [seen] has its line in [out]. *)
Definition lists_new (lines : list (list string * string)) (seen : list string)
    (res : string * list string) : Prop :=
  forall key, In key (snd res) ->
    In key seen \/
    exists tags policy, In (tags, policy) lines /\ join "," tags = key /\
      str_contains (fst res) (tag_line tags policy) = true.

Lemma tag_lines_grows policy sets seen :
  (forall k, In k seen -> In k (snd (tag_lines policy sets seen))) /\
  (forall tags, In tags sets -> In (join "," tags) (snd (tag_lines policy sets seen))).
Proof.
  revert seen. induction sets as [|t sets IH]; intros seen; simpl; [tauto|].
  destruct (mem (join "," t) seen) eqn:E.
  - destruct (IH seen) as [Hs Ht]. split; [done|]. intros tags [<-|Hin]; [|by apply Ht].
    apply Hs. by apply mem_spec.
  - specialize (IH (join "," t :: seen)) as [Hs Ht].
    destruct (tag_lines policy sets (join "," t :: seen)) as [out seen']. simpl in *.
    split; [naive_solver|]. intros tags [<-|Hin]; [|by apply Ht]. apply Hs. by left.
Qed.

Lemma tag_lines_lists policy sets seen :
  lists_new (map (fun t => (t, policy)) sets) seen (tag_lines policy sets seen).
Proof.
  revert seen. induction sets as [|t sets IH]; intros seen key; simpl; [by left|].
  destruct (mem (join "," t) seen) eqn:E.
  - intros Hk. destruct (IH seen key Hk) as [|(tags & p & ? & ? & ?)]; [by left|].
    right. exists tags, p. auto.
  - specialize (IH (join "," t :: seen) key).
    destruct (tag_lines policy sets (join "," t :: seen)) as [out seen']. simpl in *.
    intros Hk. destruct (IH Hk) as [[<-|]|(tags & p & ? & ? & ?)]; [|by left|].
    + right. exists t, policy. eauto with go.
    + right. exists tags, p. eauto with go.
Qed.

(** The pairs (tag set, policy) the listing is about. *)
Definition unlock_pairs (pts : list PolicyTrace) : list (list string * string) :=
  flat_map (fun pt => map (fun t => (t, pt_PolicyName pt)) (pt_RequiredTags pt))
    (List.filter (fun pt => pt_SkipReason pt =?s "resource_mismatch") pts).

Lemma unlock_lines_grows pts seen :
  (forall k, In k seen -> In k (snd (unlock_lines pts seen))) /\
  (forall tags p, In (tags, p) (unlock_pairs pts) -> In (join "," tags) (snd (unlock_lines pts seen))).
Proof.
  revert seen. induction pts as [|pt pts IH]; intros seen; simpl; [done|].
  unfold unlock_pairs. cbn [List.filter].
  destruct (pt_SkipReason pt =?s "resource_mismatch"); simpl; [|apply IH].
  pose proof (tag_lines_grows (pt_PolicyName pt) (pt_RequiredTags pt) seen) as [T1 T2].
  destruct (tag_lines _ _ seen) as [out seen1]. simpl in *.
  destruct (IH seen1) as [U1 U2]. destruct (unlock_lines pts seen1) as [out' seen2]. simpl in *.
  split; [auto|]. intros tags p. rewrite in_app_iff, in_map_iff. intros [(t & [= -> _] & ?)|?]; eauto.
Qed.

Lemma unlock_lines_lists pts seen : lists_new (unlock_pairs pts) seen (unlock_lines pts seen).
Proof.
  revert seen. induction pts as [|pt pts IH]; intros seen key; simpl; [by left|].
  unfold unlock_pairs. cbn [List.filter].
  destruct (pt_SkipReason pt =?s "resource_mismatch"); simpl; [|apply IH].
  pose proof (tag_lines_lists (pt_PolicyName pt) (pt_RequiredTags pt) seen) as T.
  destruct (tag_lines _ _ seen) as [out seen1].
  specialize (IH seen1 key). destruct (unlock_lines pts seen1) as [out' seen2]. simpl in *.
  intros Hk. destruct (IH Hk) as [Hs|(tags & p & ? & ? & ?)].
  - destruct (T key Hs) as [|(tags & p & ? & ? & ?)]; [by left|].
    right. exists tags, p. rewrite in_app_iff. simpl in *. eauto with go.
  - right. exists tags, p. rewrite in_app_iff. eauto with go.
Qed.

(** ** Properties *)

(** Dry run allows everything and changes nothing else: outside
    dry-run mode the decision of [Explain] is the evaluated one; in dry-run mode
    its effect is always allow, while policy, rule index, recorded conditions and
    the approval flag are the evaluated ones. *)
Theorem Explain_dry_run LoadLocation e now req :
  let d := tr_Decision (explainEvaluate LoadLocation e (stamp now req)) in
  let d' := Evaluate LoadLocation e now req in
  (dryRun e = false -> d' = d) /\
  (dryRun e = true -> IsAllowed d' = true) /\
  d_PolicyName d' = d_PolicyName d /\ d_RuleIndex d' = d_RuleIndex d /\
  d_Conditions d' = d_Conditions d /\ d_RequiresApproval d' = d_RequiresApproval d.
Proof.
  unfold Evaluate, Explain, IsAllowed. simpl.
  destruct (dryRun e); simpl; [|done].
  destruct (d_Effect _ =?s EffectAllow) eqn:E; simpl; by rewrite ?E.
Qed.

(** What [MustAllow] makes of the decision of a matched rule: nil
    exactly for an allow; a rule that asks for approval yields an approval-required
    error even when one of its limits is broken and the effect is deny; a denied
    error is left for the rules that ask for none. *)
Theorem MustAllow_rule_decision pol i r req :
  let d := fst (rule_decision pol i r req) in
  MustAllow d =
  if rule_wants_approval r then Some (ApprovalRequiredError d)
  else if negb (rule_within_limits r req) then Some (DeniedError d "")
  else if rl_Effect r =?s EffectAllow then None
  else if rl_Effect r =?s EffectRequireApproval then Some (ApprovalRequiredError d)
  else Some (DeniedError d "").
Proof.
  intros d. unfold MustAllow, d. rewrite rule_decision_needs_approval. unfold IsAllowed.
  rewrite rule_decision_effect.
  destruct (rule_wants_approval r), (rule_within_limits r req); simpl; try done.
  destruct (rl_Effect r =?s EffectAllow) eqn:E; simpl; [done|]. by rewrite E.
Qed.

(** The default-deny explanation of an untagged resource is
    complete: every tag set that one of the skipped policies requires for the
    resource's type is listed, in a line that names a policy it unlocks. *)
Theorem explanation_lists_unlocking_tags req trace tags policy
    (Hdefault : DefaultApplied trace = true)
    (Huntagged : rr_Tags (rq_Resource req) = [])
    (Hpair : In (tags, policy) (unlock_pairs (PoliciesEvaluated trace))) :
  exists tags' policy', In (tags', policy') (unlock_pairs (PoliciesEvaluated trace)) /\
    join "," tags' = join "," tags /\
    str_contains (buildExplanation req trace) (tag_line tags' policy') = true.
Proof.
  pose proof (unlock_lines_grows (PoliciesEvaluated trace) []) as [_ Hgrow].
  pose proof (unlock_lines_lists (PoliciesEvaluated trace) []) as Hlist.
  specialize (Hgrow tags policy Hpair).
  destruct (Hlist (join "," tags) Hgrow) as [[]|(tags' & policy' & Hin & Hj & Hc)].
  exists tags', policy'. split_and!; [done..|].
  unfold buildExplanation, default_explanation. rewrite Hdefault, Huntagged. cbn [nonempty].
  destruct (unlock_lines (PoliciesEvaluated trace) []) as [lines seen]. simpl in Hc.
  apply contains_app_r. do 13 (try (apply contains_app_l; exact Hc); apply contains_app_r).
Qed.

(** ** A concrete run *)

Definition sample_skip : PolicyTrace :=
  {| pt_PolicyName := "prod"; pt_Matched := false; pt_SkipReason := "resource_mismatch";
     pt_RequiredTags := [["prod"; "pg"]%string]; pt_Rules := [] |}.

Definition sample_default_trace : DecisionTrace :=
  {| tr_Decision := default_decision EffectDeny; PoliciesEvaluated := [sample_skip];
     DefaultApplied := true; Explanation := "" |}.

Lemma explanation_lists_unlocking_tags_witness :
  In (["prod"; "pg"]%string, "prod"%string) (unlock_pairs (PoliciesEvaluated sample_default_trace)) /\
  exists tags' policy', In (tags', policy') (unlock_pairs (PoliciesEvaluated sample_default_trace)) /\
    join "," tags' = "prod,pg"%string /\
    str_contains (buildExplanation sample_request sample_default_trace) (tag_line tags' policy') = true.
Proof.
  split; [vm_compute; left; reflexivity|].
  apply (explanation_lists_unlocking_tags sample_request sample_default_trace ["prod"; "pg"]%string "prod");
    [reflexivity|reflexivity|vm_compute; left; reflexivity].
Defined.
