(* ===== verification/PolicyLoader.v ===== *)
(** * internal/policy/loader.go and the engine constructor

    [validate] is the source's nested loops with their error messages; [Load]
    composes the environment expansion, the YAML decoder (parameters: the
    decoder is gopkg.in/yaml.v3), [validate] and the priority sort.  The loaded
    configurations satisfy [valid_config] and are sorted, and an engine running
    one only produces the three known effects. *)

From S2P Require Import Prelude GoTime PolicyTypes PolicyEngine PolicyExplain.
From Stdlib Require Import Permutation Sorted.

(** The loop over the rules of policy [name], from index [j]. *)
Fixpoint validate_rules (name : string) (j : nat) (rules : list Rule) : result string unit :=
  match rules with
  | [] => Ok tt
  | r :: rules' =>
      let at_rule := ("policy " ++ quote name ++ " rule " ++ itoa (Z.of_nat j) ++ ": ")%string in
      if negb (nonempty (rl_Action r)) then Err (at_rule ++ "action is required")%string
      else if rl_Effect r =?s "" then Err (at_rule ++ "effect is required")%string
      else if negb (rl_Effect r =?s EffectAllow) && negb (rl_Effect r =?s EffectDeny) &&
              negb (rl_Effect r =?s EffectRequireApproval)
      then Err (at_rule ++ "invalid effect " ++ quote (rl_Effect r))%string
      else validate_rules name (S j) rules'
  end.

(** The loop over the policies; [seen] is the set of names. *)
Fixpoint validate_policies (i : nat) (seen : list string) (pols : list Policy) : result string unit :=
  match pols with
  | [] => Ok tt
  | p :: pols' =>
      if pol_Name p =?s "" then Err ("policy " ++ itoa (Z.of_nat i) ++ ": name is required")%string
      else if mem (pol_Name p) seen then
        Err ("policy " ++ itoa (Z.of_nat i) ++ ": duplicate name " ++ quote (pol_Name p))%string
      else if negb (nonempty (pol_Resources p)) then
        Err ("policy " ++ quote (pol_Name p) ++ ": at least one resource is required")%string
      else if negb (nonempty (pol_Rules p)) then
        Err ("policy " ++ quote (pol_Name p) ++ ": at least one rule is required")%string
      else
        match validate_rules (pol_Name p) 0 (pol_Rules p) with
        | Err e => Err e
        | Ok _ => validate_policies (S i) (pol_Name p :: seen) pols'
        end
  end.

(** [validate] also fills in the version, through its pointer. *)
Definition validate (cfg : Config) : result string Config :=
  let cfg := {| Version := if Version cfg =?s "" then "1" else Version cfg; Policies := Policies cfg |} in
  match validate_policies 0 [] (Policies cfg) with
  | Ok _ => Ok cfg
  | Err e => Err e
  end.

(** The order of [sort.Slice]: higher priority first. *)
Definition higher_priority (a b : Policy) : bool := (pol_Priority b <? pol_Priority a)%Z.

Section Load.
(** os.ExpandEnv and yaml.Unmarshal. *)
Context (ExpandEnv : string -> string) (yaml_Unmarshal : string -> result string Config).
(** sort.Slice, which does not promise stability. *)
Context `{!SliceSort higher_priority}.

Definition Load (data : string) : result string Config :=
  match yaml_Unmarshal (ExpandEnv data) with
  | Err e => Err ("parse policy YAML: " ++ e)%string
  | Ok cfg =>
      match validate cfg with
      | Err e => Err ("validate policy: " ++ e)%string
      | Ok cfg => Ok {| Version := Version cfg; Policies := slice_sort higher_priority (Policies cfg) |}
      end
  end.
End Load.

Definition empty_match : ResourceMatch :=
  {| rm_Name := ""; rm_NamePattern := ""; rm_Tags := []; rm_Namespace := "";
     rm_Sensitivity := []; rm_Tool := ""; rm_ToolPattern := "" |}.

Definition DefaultConfig : Config :=
  {| Version := "1";
     Policies :=
       [ {| pol_Name := "default-allow-read";
            pol_Description := "Allow all read operations by default";
            pol_Enabled := None; pol_Priority := 0; pol_Principals := [];
            pol_Resources :=
              [ {| rs_Type := "database"; rs_Match := empty_match |};
                {| rs_Type := "kubernetes"; rs_Match := empty_match |} ];
            pol_Rules :=
              [ {| rl_Action := [ActionRead]; rl_Effect := EffectAllow;
                   rl_Conditions := None; rl_Message := "" |};
                {| rl_Action := [ActionWrite]; rl_Effect := EffectRequireApproval;
                   rl_Conditions := None; rl_Message := "Write operations require approval" |};
                {| rl_Action := [ActionDestructive]; rl_Effect := EffectDeny;
                   rl_Conditions := None;
                   rl_Message := "Destructive operations are not allowed by default policy" |} ] |} ] |}.

(** [NewEngine]. *)
Definition NewEngine (policyConfig : option Config) (dflt : Effect) (dry : bool) : Engine :=
  {| config := match policyConfig with None => DefaultConfig | Some c => c end;
     defaultEffect := if dflt =?s "" then EffectDeny else dflt;
     dryRun := dry |}.

(** ** Validity *)

Definition known_effect (e : Effect) : Prop :=
  e = EffectAllow \/ e = EffectDeny \/ e = EffectRequireApproval.

Definition valid_rule (r : Rule) : Prop := rl_Action r <> [] /\ known_effect (rl_Effect r).

Definition valid_policy (p : Policy) : Prop :=
  pol_Name p <> ""%string /\ pol_Resources p <> [] /\ pol_Rules p <> [] /\ Forall valid_rule (pol_Rules p).

Definition valid_policies (pols : list Policy) : Prop :=
  Forall valid_policy pols /\ NoDup (map pol_Name pols).

Lemma nonempty_spec {A} (l : list A) : nonempty l = true <-> l <> [].
Proof. destruct l; simpl; split; congruence. Qed.

Lemma validate_rules_ok name j rules :
  is_ok (validate_rules name j rules) = true <-> Forall valid_rule rules.
Proof.
  revert j. induction rules as [|r rules IH]; intros j; simpl; [by split|].
  rewrite Forall_cons. rewrite <- (IH (S j)).
  unfold valid_rule, known_effect. rewrite <- nonempty_spec, <- !streq_spec.
  destruct (nonempty (rl_Action r)); simpl; [|intuition congruence].
  destruct (rl_Effect r =?s "") eqn:E; simpl.
  { apply streq_spec in E. rewrite E. simpl. intuition congruence. }
  destruct (rl_Effect r =?s EffectAllow), (rl_Effect r =?s EffectDeny),
    (rl_Effect r =?s EffectRequireApproval); simpl; intuition congruence.
Qed.

Lemma validate_policies_ok i seen pols :
  is_ok (validate_policies i seen pols) = true <->
  valid_policies pols /\ (forall n, In n (map pol_Name pols) -> ~ In n seen).
Proof.
  unfold valid_policies. revert i seen. induction pols as [|p pols IH]; intros i seen; simpl.
  { split; [|done]. intros _. split; [split; constructor|tauto]. }
  rewrite Forall_cons, NoDup_cons. rewrite list_elem_of_In.
  assert (is_ok (match validate_rules (pol_Name p) 0 (pol_Rules p) with
                 | Err e => Err e
                 | Ok _ => validate_policies (S i) (pol_Name p :: seen) pols end) = true <->
          Forall valid_rule (pol_Rules p) /\ is_ok (validate_policies (S i) (pol_Name p :: seen) pols) = true)
    as Hr.
  { rewrite <- (validate_rules_ok (pol_Name p) 0).
    destruct (validate_rules _ _ _) as [[]|e]; simpl; intuition congruence. }
  rewrite (IH (S i) (pol_Name p :: seen)) in Hr. unfold valid_policy.
  rewrite <- (nonempty_spec (pol_Resources p)), <- (nonempty_spec (pol_Rules p)).
  destruct (pol_Name p =?s "") eqn:E1; [apply streq_spec in E1; split; [done|naive_solver]|].
  apply streq_false in E1.
  destruct (mem (pol_Name p) seen) eqn:E2; [apply mem_spec in E2; split; [done|naive_solver]|].
  apply mem_false in E2.
  destruct (nonempty (pol_Resources p)); simpl; [|intuition congruence].
  destruct (nonempty (pol_Rules p)); simpl; [|intuition congruence].
  rewrite Hr. simpl. split.
  - intros (? & (? & ?) & Hs). split_and!; try done.
    + intros Hin. by apply (Hs _ Hin); left.
    + intros n [<-|Hin]; [done|]. intros ?. by apply (Hs n Hin); right.
  - intros ((((? & ? & ? & ?) & ?) & ? & ?) & Hs). split_and!; try done.
    intros n Hin [<-|?]; [done|]. by apply (Hs n); [right|].
Qed.

Lemma priority_asym a b : higher_priority a b = true -> higher_priority b a = false.
Proof. unfold higher_priority. go_simpl. lia. Qed.

Lemma priority_ge_trans a b c :
  higher_priority b a = false -> higher_priority c b = false -> higher_priority c a = false.
Proof. unfold higher_priority. go_simpl. lia. Qed.

Lemma validate_spec cfg :
  (is_ok (validate cfg) = true <-> valid_policies (Policies cfg)) /\
  (forall cfg', validate cfg = Ok cfg' ->
     Policies cfg' = Policies cfg /\ Version cfg' <> ""%string).
Proof.
  pose proof (validate_policies_ok 0 [] (Policies cfg)) as H.
  unfold validate. simpl. destruct (validate_policies 0 [] (Policies cfg)) as [[]|e]; simpl in *.
  - split; [split; [intros _; by apply H|done]|]. intros cfg' [= <-]. simpl. split; [done|].
    destruct (Version cfg =?s "") eqn:E; [done|by apply streq_false].
  - split; [|done]. split; [done|]. intros Hv. apply H. split; [done|tauto].
Qed.

Lemma Load_inv `{!SliceSort higher_priority} ExpandEnv yaml data cfg :
  Load ExpandEnv yaml data = Ok cfg ->
  exists raw, yaml (ExpandEnv data) = Ok raw /\ valid_policies (Policies raw) /\
    Version cfg <> ""%string /\ Policies cfg = slice_sort higher_priority (Policies raw).
Proof.
  unfold Load. destruct (yaml (ExpandEnv data)) as [raw|e]; [|done].
  pose proof (validate_spec raw) as [Hv Hs].
  destruct (validate raw) as [cfg'|e]; [|done]. intros [= <-].
  destruct (Hs cfg' eq_refl) as [Hp Hver]. simpl. exists raw.
  rewrite Hp. split_and!; try done. by apply Hv.
Qed.

(** ** Properties *)

(** [validate] accepts exactly the configurations in which every
    policy is named, the names are distinct, every policy has a resource and a
    rule, and every rule has an action and one of the three effects; it changes
    nothing but an empty version. *)
Theorem validate_iff cfg :
  (is_ok (validate cfg) = true <-> valid_policies (Policies cfg)) /\
  (forall cfg', validate cfg = Ok cfg' ->
     Policies cfg' = Policies cfg /\ Version cfg' <> ""%string).
Proof. apply validate_spec. Qed.

(** A loaded configuration is valid, versioned, a permutation of
    the decoded policies, and sorted by descending priority, which is the order
    in which the engine walks it. *)
Theorem Load_sorted_valid `{!SliceSort higher_priority} ExpandEnv yaml data cfg
    (Hload : Load ExpandEnv yaml data = Ok cfg) :
  valid_policies (Policies cfg) /\ Version cfg <> ""%string /\
  (exists raw, yaml (ExpandEnv data) = Ok raw /\ Policies cfg ≡ₚ Policies raw) /\
  StronglySorted (fun a b => (pol_Priority b <= pol_Priority a)%Z) (Policies cfg).
Proof.
  apply Load_inv in Hload as (raw & Hy & [Hv Hn] & Hver & Hp).
  pose proof (slice_sort_perm (Policies raw)) as Hperm. rewrite <- Hp in Hperm.
  split_and!; [|done|by exists raw|].
  - split; [by rewrite Hperm|]. by rewrite Hperm.
  - rewrite Hp. eapply strongly_sorted_weaken; [|apply slice_sort_sorted].
    intros a b. unfold higher_priority. simpl. go_simpl. lia.
Qed.

Lemma candidates_In pols req pol i r :
  In (pol, i, r) (candidates pols req) -> In pol pols /\ In r (pol_Rules pol).
Proof.
  unfold candidates. rewrite in_flat_map. intros (p & Hp & Hin).
  apply filter_In in Hp as [Hp _]. apply list_elem_of_In in Hin.
  apply elem_of_lookup_imap in Hin as (k & x & [= -> -> ->] & Hx).
  split; [done|]. apply list_elem_of_In, list_elem_of_lookup. eauto.
Qed.

(** C37 (type). An engine built from a loaded configuration and a known default
    only ever answers with one of the three known effects, whatever the request,
    the clock and the mode. *)
Theorem loaded_engine_effects `{!SliceSort higher_priority} ExpandEnv yaml data cfg dflt dry LoadLocation now req
    (Hload : Load ExpandEnv yaml data = Ok cfg) (Hdflt : dflt = ""%string \/ known_effect dflt) :
  known_effect (d_Effect (Evaluate LoadLocation (NewEngine (Some cfg) dflt dry) now req)).
Proof.
  apply Load_inv in Hload as (raw & _ & [Hv _] & _ & Hp).
  assert (Hk : known_effect (d_Effect (tr_Decision
    (explainEvaluate LoadLocation (NewEngine (Some cfg) dflt dry) (stamp now req))))).
  { rewrite explain_decision. simpl config. destruct (first_match LoadLocation (Policies cfg) (stamp now req)) as [[[p j] r]|] eqn:Ef.
    - apply find_some in Ef as [Hin _]. apply candidates_In in Hin as [Hpol Hr].
      rewrite Hp in Hpol. apply slice_sort_In in Hpol.
      rewrite List.Forall_forall in Hv. apply Hv in Hpol as (_ & _ & _ & Hrules).
      rewrite List.Forall_forall in Hrules. apply Hrules in Hr as [_ Hk].
      rewrite rule_decision_effect. unfold known_effect in *.
      destruct (rule_within_limits _ _); [|tauto]. destruct (_ && _); tauto.
    - simpl. unfold known_effect in *. destruct Hdflt as [->|Hd]; [by right; left|].
      destruct (dflt =?s "") eqn:Ed; [|done]. by right; left. }
  unfold Evaluate, Explain. simpl. destruct (dry && _); [by left|done].
Qed.

(** With no policy file: databases and Kubernetes resources are
    readable, writes to them need approval, destructive operations on them are
    denied, and everything else is denied, for every principal, name, tag and
    purpose. *)
Theorem default_engine_behaviour LoadLocation now req :
  let known := mem (rr_Type (rq_Resource req)) ["database"; "kubernetes"]%string in
  d_Effect (Evaluate LoadLocation (NewEngine None "" false) now req) =
  if known then
    if rq_Action req =?s ActionRead then EffectAllow
    else if rq_Action req =?s ActionWrite then EffectRequireApproval
    else EffectDeny
  else EffectDeny.
Proof.
  cbv zeta. unfold Evaluate, Explain. simpl dryRun. simpl andb. cbv iota. cbn [tr_Decision].
  replace (rr_Type (rq_Resource req)) with (rr_Type (rq_Resource (stamp now req)))
    by (unfold stamp; by destruct (IsZero _)).
  replace (rq_Action req) with (rq_Action (stamp now req)) by (unfold stamp; by destruct (IsZero _)).
  generalize (stamp now req). clear req now. intros req.
  unfold explainEvaluate. cbn [eval_policies NewEngine config DefaultConfig Policies IsEnabled pol_Enabled
    matchesPrincipal pol_Principals negb].
  unfold matchesResource, mem. cbn [existsb pol_Resources]. unfold resource_matches. simpl.
  rewrite (String.eqb_sym (rr_Type _) "database"), (String.eqb_sym (rr_Type _) "kubernetes").
  destruct ("database" =?s rr_Type (rq_Resource req)), ("kubernetes" =?s rr_Type (rq_Resource req));
    simpl; try done;
    rewrite (String.eqb_sym (rq_Action req) ActionRead), (String.eqb_sym (rq_Action req) ActionWrite);
    destruct (ActionRead =?s rq_Action req); simpl; try done;
    destruct (ActionWrite =?s rq_Action req); simpl; try done;
    by destruct (ActionDestructive =?s rq_Action req).
Qed.

(** ** A concrete run *)

(** Insertion sort is one of the sorts [sort.Slice] may be. *)
#[local] Instance insertion_priority : SliceSort higher_priority := {
  slice_sort := isort higher_priority;
  slice_sort_perm := isort_perm higher_priority;
  slice_sort_sorted := isort_sorted higher_priority priority_asym priority_ge_trans
}.

(** A decoder that ignores its input. *)
Definition sample_yaml : string -> result string Config :=
  fun _ => Ok {| Version := ""; Policies := Policies DefaultConfig ++ [sample_policy] |}.

Definition sample_loaded : Config :=
  {| Version := "1"; Policies := [sample_policy] ++ Policies DefaultConfig |}.

Lemma Load_sorted_valid_witness :
  Load (fun s => s) sample_yaml "" = Ok sample_loaded /\ valid_policies (Policies sample_loaded).
Proof.
  split; [vm_compute; reflexivity|].
  apply (Load_sorted_valid (fun s => s) sample_yaml "" sample_loaded). vm_compute. reflexivity.
Defined.

Lemma loaded_engine_effects_witness :
  Load (fun s => s) sample_yaml "" = Ok sample_loaded /\
  known_effect (d_Effect (Evaluate no_zones (NewEngine (Some sample_loaded) "" false)
    {| instant := 1; zone_offset := 0 |} sample_request)).
Proof.
  split; [vm_compute; reflexivity|].
  apply (loaded_engine_effects (fun s => s) sample_yaml "" sample_loaded); [vm_compute; reflexivity|].
  left. reflexivity.
Defined.
