(* ===== verification/Identity.v ===== *)
(** * internal/identity: principals and the header and static providers

    [ResolvedPrincipal] with its three operations, NoAuthProvider and
    StaticProvider ([NewStaticProvider] from a decoded users file, [expandRoles],
    [Resolve], [resolveServiceAccount]), and the purpose rule of new.go.  A
    request is the two headers the providers read.  The users and alias maps are
    [gmap]s; the service-account map, which the code iterates, is a list in
    iteration order.  Argon2id verification of an API key against a stored hash is
    a parameter: [None] is a malformed hash. *)

From S2P Require Import Prelude.

Record ResolvedPrincipal := {
  UserID : string;
  Roles : list string;
  Service : string;
  AuthMethod : string;
  OperatorID : string;
  OperatorRoles : list string }.

Definition zero_principal : ResolvedPrincipal :=
  {| UserID := ""; Roles := []; Service := ""; AuthMethod := "";
     OperatorID := ""; OperatorRoles := [] |}.

Definition header_principal (user : string) : ResolvedPrincipal :=
  {| UserID := user; Roles := []; Service := ""; AuthMethod := "header";
     OperatorID := ""; OperatorRoles := [] |}.

Definition IsAnonymous (p : ResolvedPrincipal) : bool := AuthMethod p =?s "header".

Definition HasRole (p : ResolvedPrincipal) (role : string) : bool :=
  mem role (Roles p) || mem role (OperatorRoles p).

Definition EffectiveID (p : ResolvedPrincipal) : string :=
  if negb (OperatorID p =?s "") then OperatorID p
  else if negb (Service p =?s "") then Service p
  else UserID p.

(** The headers of an HTTP request; an absent header is the empty string. *)
Record HttpRequest := {
  h_Authorization : string;
  h_XUser : string }.

Definition NoAuthProvider_Resolve (r : HttpRequest) : result string ResolvedPrincipal :=
  Ok (header_principal (h_XUser r)).

Record ServiceAccount := {
  sa_ID : string;
  sa_Roles : list string;
  APIKeyHash : string }.

Record UserEntry := { ue_ID : string; ue_Roles : list string }.

Record UsersConfig := {
  uc_Users : list UserEntry;
  uc_ServiceAccounts : list ServiceAccount;
  uc_RoleAliases : gmap string string }.

Record StaticProvider := {
  users : gmap string (list string);
  serviceAccounts : list (string * ServiceAccount);
  aliases : gmap string string }.

(** A map assignment kept as an association list: the last entry wins. *)
Definition assoc_set {A} (k : string) (v : A) (l : list (string * A)) : list (string * A) :=
  (k, v) :: List.filter (fun '(k', _) => negb (k' =?s k)) l.

(** [NewStaticProvider] after the file is read and decoded. *)
Definition NewStaticProvider (cfg : UsersConfig) : StaticProvider :=
  {| users := fold_left (fun m u => <[ue_ID u := ue_Roles u]> m) (uc_Users cfg) ∅;
     serviceAccounts := fold_left (fun m sa => assoc_set (sa_ID sa) sa m) (uc_ServiceAccounts cfg) [];
     aliases := uc_RoleAliases cfg |}.

Definition expandRoles (p : StaticProvider) (roles : list string) : list string :=
  if decide (aliases p = ∅) then roles
  else map (fun r => match aliases p !! r with Some canonical => canonical | None => r end) roles.

Definition RoleAliases (p : StaticProvider) : gmap string string := aliases p.

Section Static.
(** [verifyArgon2id key hash]. *)
Context (verifyArgon2id : string -> string -> option bool).

Fixpoint find_account (apiKey : string) (accounts : list (string * ServiceAccount))
    : option (string * ServiceAccount) :=
  match accounts with
  | [] => None
  | (id, sa) :: rest =>
      match verifyArgon2id apiKey (APIKeyHash sa) with
      | None => find_account apiKey rest
      | Some true => Some (id, sa)
      | Some false => find_account apiKey rest
      end
  end.

Definition resolveServiceAccount (p : StaticProvider) (apiKey : string)
    : result string ResolvedPrincipal :=
  match find_account apiKey (serviceAccounts p) with
  | Some (id, sa) =>
      Ok {| UserID := ""; Roles := expandRoles p (sa_Roles sa); Service := id;
            AuthMethod := "api_key"; OperatorID := ""; OperatorRoles := [] |}
  | None => Err "identity: invalid API key"%string
  end.

Definition StaticProvider_Resolve (p : StaticProvider) (r : HttpRequest)
    : result string ResolvedPrincipal :=
  if has_prefix (h_Authorization r) "Bearer " then
    match resolveServiceAccount p (trim_prefix (h_Authorization r) "Bearer ") with
    | Err e => Err e
    | Ok principal =>
        if negb (h_XUser r =?s "") then
          match users p !! h_XUser r with
          | Some roles =>
              Ok {| UserID := UserID principal; Roles := Roles principal;
                    Service := Service principal; AuthMethod := AuthMethod principal;
                    OperatorID := h_XUser r; OperatorRoles := expandRoles p roles |}
          | None => Ok principal
          end
        else Ok principal
    end
  else if h_XUser r =?s "" then Ok (header_principal "")
  else
    match users p !! h_XUser r with
    | None => Err ("identity: user " ++ quote (h_XUser r) ++ " not found in users config")%string
    | Some roles =>
        Ok {| UserID := h_XUser r; Roles := expandRoles p roles; Service := "";
              AuthMethod := "static"; OperatorID := ""; OperatorRoles := [] |}
    end.
End Static.

(** [PurposeFromRequest]: the header wins over the body. *)
Definition PurposeFromRequest (headerPurpose bodyPurpose : string) : string * bool :=
  if negb (headerPurpose =?s "") then (headerPurpose, true)
  else if negb (bodyPurpose =?s "") then (bodyPurpose, true)
  else (""%string, false).

(** ** Lemmas *)

Lemma HasRole_spec p role : HasRole p role = true <-> In role (Roles p) \/ In role (OperatorRoles p).
Proof. unfold HasRole. by go_simpl. Qed.

Lemma expandRoles_length p roles : length (expandRoles p roles) = length roles.
Proof. unfold expandRoles. case_decide; [done|]. by rewrite length_map. Qed.

(** Expansion never invents a role: each result is a configured role or the
    canonical form of one. *)
Lemma expandRoles_In p roles role :
  In role (expandRoles p roles) ->
  In role roles \/ exists r, In r roles /\ aliases p !! r = Some role.
Proof.
  unfold expandRoles. case_decide; [by left|]. rewrite in_map_iff.
  intros (r & Hr & Hin). destruct (aliases p !! r) eqn:E; subst; eauto.
Qed.

Lemma find_account_Some verify key accounts id sa :
  find_account verify key accounts = Some (id, sa) ->
  In (id, sa) accounts /\ verify key (APIKeyHash sa) = Some true.
Proof.
  induction accounts as [|[id' sa'] accounts IH]; simpl; [done|].
  destruct (verify key (APIKeyHash sa')) as [[]|] eqn:E; [|naive_solver..].
  intros [= -> ->]. auto.
Qed.

Lemma find_account_None verify key accounts :
  find_account verify key accounts = None <->
  forall id sa, In (id, sa) accounts -> verify key (APIKeyHash sa) <> Some true.
Proof.
  induction accounts as [|[id' sa'] accounts IH]; simpl; [naive_solver|].
  destruct (verify key (APIKeyHash sa')) as [[]|] eqn:E.
  - split; [done|]. intros H. by destruct (H id' sa' (or_introl eq_refl)).
  - rewrite IH. split; [intros H id sa [[= <- <-]|?]; [congruence|eauto]|eauto].
  - rewrite IH. split; [intros H id sa [[= <- <-]|?]; [congruence|eauto]|eauto].
Qed.

(** ** Properties *)

(** What a principal resolved by the static provider can be: the
    header principal without credentials (and only then anonymous); a listed
    user, known by name only, with their expanded roles and no service; or a
    service account whose stored hash accepted the presented key, acting for an
    operator only if that operator is a listed user, whose roles are then the
    expanded roles of the file.  Nothing else ever succeeds. *)
Theorem StaticProvider_Resolve_sound verify p r principal
    (Hok : StaticProvider_Resolve verify p r = Ok principal) :
  (IsAnonymous principal = true /\ h_XUser r = ""%string /\ principal = header_principal "") \/
  (exists roles, users p !! h_XUser r = Some roles /\ UserID principal = h_XUser r /\
     Roles principal = expandRoles p roles /\ Service principal = ""%string /\
     OperatorRoles principal = [] /\ IsAnonymous principal = false) \/
  (exists id sa, In (id, sa) (serviceAccounts p) /\
     verify (trim_prefix (h_Authorization r) "Bearer ") (APIKeyHash sa) = Some true /\
     Service principal = id /\ Roles principal = expandRoles p (sa_Roles sa) /\
     IsAnonymous principal = false /\
     (OperatorID principal = ""%string /\ OperatorRoles principal = [] \/
      exists roles, users p !! h_XUser r = Some roles /\ OperatorID principal = h_XUser r /\
        OperatorRoles principal = expandRoles p roles)).
Proof.
  unfold StaticProvider_Resolve in Hok.
  destruct (has_prefix (h_Authorization r) "Bearer ").
  - right; right. unfold resolveServiceAccount in Hok.
    destruct (find_account _ _ _) as [[id sa]|] eqn:Ef; [|done].
    apply find_account_Some in Ef as [Hin Hv].
    destruct (h_XUser r =?s "") eqn:Ex; simpl in Hok.
    + injection Hok as <-. exists id, sa. simpl. auto 10.
    + destruct (users p !! h_XUser r) as [roles|] eqn:Eu; injection Hok as <-;
        exists id, sa; simpl; split_and!; try done; [right; by exists roles|by left].
  - destruct (h_XUser r =?s "") eqn:Ex.
    + injection Hok as <-. apply streq_spec in Ex. by left.
    + right; left. destruct (users p !! h_XUser r) as [roles|] eqn:Eu; [|done].
      injection Hok as <-. by exists roles.
Qed.

Definition sample_provider : StaticProvider :=
  NewStaticProvider
    {| uc_Users := [{| ue_ID := "alice"; ue_Roles := ["database-admin"]%string |}];
       uc_ServiceAccounts := [{| sa_ID := "srebot"; sa_Roles := ["sre-automation"]%string; APIKeyHash := "h1" |}];
       uc_RoleAliases := {["database-admin"%string := "dba"%string]} |}.

(** A verifier for concrete runs: the key must be the hash followed by "!". *)
Definition sample_verify (key hash : string) : option bool := Some (key =?s (hash ++ "!")%string).

Lemma StaticProvider_Resolve_sound_witness :
  let r := {| h_Authorization := "Bearer h1!"; h_XUser := "alice" |} in
  exists principal,
    StaticProvider_Resolve sample_verify sample_provider r = Ok principal /\
    HasRole principal "dba" = true /\ EffectiveID principal = "alice"%string /\
    ((IsAnonymous principal = true /\ h_XUser r = ""%string /\ principal = header_principal "") \/
     (exists roles, users sample_provider !! h_XUser r = Some roles /\ UserID principal = h_XUser r /\
        Roles principal = expandRoles sample_provider roles /\ Service principal = ""%string /\
        OperatorRoles principal = [] /\ IsAnonymous principal = false) \/
     (exists id sa, In (id, sa) (serviceAccounts sample_provider) /\
        sample_verify (trim_prefix (h_Authorization r) "Bearer ") (APIKeyHash sa) = Some true /\
        Service principal = id /\ Roles principal = expandRoles sample_provider (sa_Roles sa) /\
        IsAnonymous principal = false /\
        (OperatorID principal = ""%string /\ OperatorRoles principal = [] \/
         exists roles, users sample_provider !! h_XUser r = Some roles /\
           OperatorID principal = h_XUser r /\ OperatorRoles principal = expandRoles sample_provider roles))).
Proof.
  eexists. split; [vm_compute; reflexivity|]. split; [vm_compute; reflexivity|].
  split; [vm_compute; reflexivity|].
  apply (StaticProvider_Resolve_sound sample_verify sample_provider
    {| h_Authorization := "Bearer h1!"; h_XUser := "alice" |}). vm_compute. reflexivity.
Defined.
