(* ===== verification/Jwt.v ===== *)
(** * internal/identity/jwt.go: the JWT provider

    [JWTProvider_Resolve] and the validation it rests on: splitting, header and
    claim decoding, the expiry fast path, the JWKS key cache with its refresh, the
    algorithm dispatch and the claim checks.  Parameters: the JSON/base64 decoders
    of the three token parts, the JWKS fetch and the two signature primitives.
    Claims are JSON values as encoding/json decodes them; a number, a float64 in
    the source, is carried by its truncation, which is all the code reads.  Errors
    are one constructor per return statement. *)

From S2P Require Import Prelude GoTime Identity.

Inductive json :=
  | JStr (s : string)
  | JNum (truncated : Z)
  | JArr (l : list json)
  | JOther.

Abbreviation claims := (gmap string json) (only parsing).

Record JWTConfig := {
  JWKSUrl : string;
  Issuer : string;
  Audience : string;
  RolesClaim : string;
  CacheTTL : Z }.

Inductive PublicKey := RSAKey (k : string) | ECKey (k : string).

Record JWTProvider := {
  jcfg : JWTConfig;
  cachedKeys : gmap string PublicKey;
  cacheExpiry : Time }.

Inductive JWTError :=
  | BearerRequired | MalformedParts | BadHeader | BadClaims | Expired
  | RefreshFailed | KeyNotFound | BadSignatureEncoding
  | ExpectedRSA | ExpectedEC | UnsupportedAlg | BadSignature
  | MissingSub | IssuerMismatch | AudienceMismatch.

Definition NewJWTProvider (cfg : JWTConfig) : JWTProvider :=
  {| jcfg :=
       {| JWKSUrl := JWKSUrl cfg; Issuer := Issuer cfg; Audience := Audience cfg;
          RolesClaim := if RolesClaim cfg =?s "" then "groups" else RolesClaim cfg;
          CacheTTL := if (CacheTTL cfg =? 0)%Z then (5 * Minute)%Z else CacheTTL cfg |};
     cachedKeys := ∅; cacheExpiry := 0%Z |}.

(** A failed type assertion leaves the zero string. *)
Definition claim_string (c : claims) (k : string) : string :=
  match c !! k with Some (JStr s) => s | _ => "" end.

Definition json_is (s : string) (j : json) : bool :=
  match j with JStr s' => s' =?s s | _ => false end.

Definition checkAudience (cfg : JWTConfig) (c : claims) : bool :=
  match c !! "aud"%string with
  | Some (JStr v) => v =?s Audience cfg
  | Some (JArr v) => existsb (json_is (Audience cfg)) v
  | _ => false
  end.

Fixpoint role_strings (l : list json) : list string :=
  match l with
  | [] => []
  | JStr s :: l' => if negb (s =?s "") then s :: role_strings l' else role_strings l'
  | _ :: l' => role_strings l'
  end.

Definition extractRoles (cfg : JWTConfig) (c : claims) : list string :=
  match c !! RolesClaim cfg with
  | Some (JArr v) => role_strings v
  | Some (JStr v) => if negb (v =?s "") then [v] else []
  | _ => []
  end.

(** strings.Split(token, "."). *)
Definition split_dots : string -> list string := split_on ".".

Definition lookupKey (keys : gmap string PublicKey) (kid : string) : option PublicKey :=
  if negb (kid =?s "") then keys !! kid
  else match map_to_list keys with
       | [(_, v)] => Some v
       | _ => None
       end.

Section JWT.
Context (decode_header : string -> option (string * string))   (* alg, kid *)
        (decode_claims : string -> option (gmap string json))
        (decode_signature : string -> option string)
        (fetchJWKS : string -> option (gmap string PublicKey))
        (rsa_verify ec_verify : string -> string -> string -> string -> bool).

(** [verifyJWTSignature alg signingInput sig key]: [None] is success.  The
    primitives receive the algorithm name, which fixes the hash. *)
Definition verifyJWTSignature (alg input sig : string) (key : PublicKey) : option JWTError :=
  if mem alg ["RS256"; "RS384"; "RS512"]%string then
    match key with
    | RSAKey k => if rsa_verify alg k input sig then None else Some BadSignature
    | ECKey _ => Some ExpectedRSA
    end
  else if mem alg ["ES256"; "ES384"; "ES512"]%string then
    match key with
    | ECKey k => if ec_verify alg k input sig then None else Some BadSignature
    | RSAKey _ => Some ExpectedEC
    end
  else Some UnsupportedAlg.

(** [getKey]: a hit in a cache that has not expired, or a refresh; the provider
    is returned with the cache it now holds. *)
Definition getKey (p : JWTProvider) (now : Time) (kid : string)
    : JWTProvider * result JWTError PublicKey :=
  let cached := if Before now (cacheExpiry p) then lookupKey (cachedKeys p) kid else None in
  match cached with
  | Some key => (p, Ok key)
  | None =>
      match fetchJWKS (JWKSUrl (jcfg p)) with
      | None => (p, Err RefreshFailed)
      | Some keys =>
          let p' := {| jcfg := jcfg p; cachedKeys := keys;
                       cacheExpiry := (now + CacheTTL (jcfg p))%Z |} in
          (p', match lookupKey keys kid with Some key => Ok key | None => Err KeyNotFound end)
      end
  end.

(** The fast path: the [exp] claim, in seconds, against the Unix clock. *)
Definition expired (c : claims) (now_unix : Z) : bool :=
  match c !! "exp"%string with Some (JNum e) => (e <? now_unix)%Z | _ => false end.

(** [now] and [now_unix] are the instant and the Unix seconds of the clock. *)
Definition validateJWT (p : JWTProvider) (now : Time) (now_unix : Z) (token : string)
    : JWTProvider * result JWTError (gmap string json) :=
  match split_dots token with
  | [h; b; s] =>
      match decode_header h with
      | None => (p, Err BadHeader)
      | Some (alg, kid) =>
          match decode_claims b with
          | None => (p, Err BadClaims)
          | Some c =>
              if expired c now_unix then (p, Err Expired)
              else
                match getKey p now kid with
                | (p', Err e) => (p', Err e)
                | (p', Ok key) =>
                    match decode_signature s with
                    | None => (p', Err BadSignatureEncoding)
                    | Some sig =>
                        match verifyJWTSignature alg (h ++ "." ++ b)%string sig key with
                        | Some e => (p', Err e)
                        | None => (p', Ok c)
                        end
                    end
                end
          end
      end
  | _ => (p, Err MalformedParts)
  end.

Definition JWTProvider_Resolve (p : JWTProvider) (now : Time) (now_unix : Z) (r : HttpRequest)
    : JWTProvider * result JWTError ResolvedPrincipal :=
  if negb (has_prefix (h_Authorization r) "Bearer ") then (p, Err BearerRequired)
  else
    match validateJWT p now now_unix (trim_prefix (h_Authorization r) "Bearer ") with
    | (p', Err e) => (p', Err e)
    | (p', Ok c) =>
        let sub := claim_string c "sub" in
        if sub =?s "" then (p', Err MissingSub)
        else if negb (Issuer (jcfg p) =?s "") && negb (claim_string c "iss" =?s Issuer (jcfg p))
        then (p', Err IssuerMismatch)
        else if negb (Audience (jcfg p) =?s "") && negb (checkAudience (jcfg p) c)
        then (p', Err AudienceMismatch)
        else
          (p', Ok {| UserID := sub; Roles := extractRoles (jcfg p) c; Service := "";
                     AuthMethod := "jwt"; OperatorID := ""; OperatorRoles := [] |})
    end.

(** ** Lemmas *)

Lemma role_strings_In l s : In s (role_strings l) <-> In (JStr s) l /\ s <> ""%string.
Proof.
  induction l as [|j l IH]; simpl; [tauto|].
  destruct j; try (rewrite IH; split; [naive_solver|intros [[?|?] ?]; [done|tauto]]).
  destruct (s0 =?s "") eqn:E; simpl; rewrite IH; go_simpl; naive_solver.
Qed.

(** Which keys can answer for a key id. *)
Lemma lookupKey_Some keys kid key :
  lookupKey keys kid = Some key ->
  (kid <> ""%string /\ keys !! kid = Some key) \/
  (kid = ""%string /\ exists k, keys = {[k := key]}).
Proof.
  unfold lookupKey. destruct (kid =?s "") eqn:E; simpl; go_simpl; [|auto].
  destruct (map_to_list keys) as [|[k v] [|? ?]] eqn:El; [done| |done].
  intros [= <-]. right. split; [done|]. exists k.
  rewrite <- (list_to_map_to_list keys), El. done.
Qed.

(** The keys a provider can have verified with: those cached and not expired, or
    those its JWKS endpoint serves now. *)
Definition current_key (p : JWTProvider) (now : Time) (kid : string) (key : PublicKey) : Prop :=
  (Before now (cacheExpiry p) = true /\ lookupKey (cachedKeys p) kid = Some key) \/
  (exists keys, fetchJWKS (JWKSUrl (jcfg p)) = Some keys /\ lookupKey keys kid = Some key).

Lemma getKey_Ok p now kid p' key :
  getKey p now kid = (p', Ok key) -> current_key p now kid key /\ jcfg p' = jcfg p.
Proof.
  unfold getKey, current_key.
  destruct (Before now (cacheExpiry p)); [destruct (lookupKey (cachedKeys p) kid) as [k|]|].
  1: by intros [= <- <-]; auto.
  all: destruct (fetchJWKS (JWKSUrl (jcfg p))) as [keys|]; [|done];
    destruct (lookupKey keys kid) as [k|] eqn:E; [|done]; intros [= <- <-]; split; [|done];
    right; exists keys; done.
Qed.

(** The signature check accepts only the six asymmetric algorithms, each with a
    key of its own kind. *)
Definition signed_by (alg input sig : string) (key : PublicKey) : Prop :=
  match key with
  | RSAKey k => In alg ["RS256"; "RS384"; "RS512"]%string /\ rsa_verify alg k input sig = true
  | ECKey k => In alg ["ES256"; "ES384"; "ES512"]%string /\ ec_verify alg k input sig = true
  end.

Lemma verifyJWTSignature_spec alg input sig key :
  verifyJWTSignature alg input sig key = None -> signed_by alg input sig key.
Proof.
  unfold verifyJWTSignature, signed_by.
  destruct (mem alg ["RS256"; "RS384"; "RS512"]%string) eqn:E1.
  { apply mem_spec in E1. destruct key as [k|k]; [|done]. by destruct (rsa_verify _ _ _ _). }
  destruct (mem alg ["ES256"; "ES384"; "ES512"]%string) eqn:E2; [|done].
  apply mem_spec in E2. destruct key as [k|k]; [done|]. by destruct (ec_verify _ _ _ _).
Qed.

Lemma validateJWT_Ok p now now_unix token p' c :
  validateJWT p now now_unix token = (p', Ok c) ->
  exists h b s alg kid sig key, split_dots token = [h; b; s] /\
    decode_header h = Some (alg, kid) /\ decode_claims b = Some c /\
    expired c now_unix = false /\ current_key p now kid key /\
    decode_signature s = Some sig /\ signed_by alg (h ++ "." ++ b)%string sig key.
Proof.
  unfold validateJWT. intros H.
  destruct (split_dots token) as [|h [|b [|s [|? ?]]]]; try done.
  destruct (decode_header h) as [[alg kid]|] eqn:Eh; [|done].
  destruct (decode_claims b) as [c'|] eqn:Eb; [|done].
  destruct (expired c' now_unix) eqn:Ee; [done|].
  destruct (getKey p now kid) as [p1 [key|e]] eqn:Ek; [|done].
  destruct (decode_signature s) as [sig|] eqn:Es; [|done].
  destruct (verifyJWTSignature _ _ _ _) eqn:Ev; [done|]. injection H as -> ->.
  apply getKey_Ok in Ek as [Hk _]. apply verifyJWTSignature_spec in Ev.
  by exists h, b, s, alg, kid, sig, key.
Qed.
End JWT.

(** ** Properties *)


(** A token format for concrete runs: the parts are their own decodings. *)
Definition sample_claims : gmap string json :=
  {["sub"%string := JStr "bob"; "iss"%string := JStr "idp"; "exp"%string := JNum 2000;
    "groups"%string := JArr [JStr "dba"; JStr ""; JNum 3]]}.

