(* ===== verification/Authz.v ===== *)
(** * internal/authz: route permissions and the authorization middleware

    [Permission], [Authorizer] with [Authorize], [Require] and [RoleGrants], the
    context principal, and the middleware, which has three copies in the code
    (authz.Middleware and the [auth] closure of cmd/auditd/main.go; the one of
    agentutil/serve/serve.go has the same shape).  The permission table is a
    [gmap]; an error is a constructor per sentinel it wraps, with its text. *)

From S2P Require Import Prelude Identity.

Record Permission := {
  AllowAnonymous : bool;
  RequireRoles : list string;
  AdminBypass : bool;
  ServiceOnly : bool }.

Record Authorizer := {
  permissions : gmap string Permission;
  enforcing : bool;
  adminRole : string }.

(** The sentinel an error wraps, and the rest of its text. *)
Inductive AuthError :=
  | ErrUnauthorized (detail : string)
  | ErrForbidden (detail : string).

Definition AuthError_text (e : AuthError) : string :=
  match e with
  | ErrUnauthorized d => ("authentication required: " ++ d)%string
  | ErrForbidden d => ("forbidden: " ++ d)%string
  end.

Definition NewAuthorizer (perms : gmap string Permission) (enf : bool) : Authorizer :=
  {| permissions := perms; enforcing := enf; adminRole := "admin" |}.

Definition SetAdminRole (role : string) (a : Authorizer) : Authorizer :=
  {| permissions := permissions a; enforcing := enforcing a; adminRole := role |}.

(** [RoleGrants]: the nested loops append each pattern to each of its roles,
    then every list is sorted. *)
Definition append_grant (pattern : string) (result : gmap string (list string)) (role : string)
    : gmap string (list string) :=
  <[role := default [] (result !! role) ++ [pattern]]> result.

Definition grant_pattern (result : gmap string (list string)) (entry : string * Permission)
    : gmap string (list string) :=
  fold_left (append_grant entry.1) (RequireRoles entry.2) result.

Definition RoleGrants (a : Authorizer) : gmap string (list string) :=
  isort String.ltb <$> fold_left grant_pattern (map_to_list (permissions a)) ∅.

Definition has_any_role (principal : ResolvedPrincipal) (roles : list string) : bool :=
  existsb (HasRole principal) roles.

#[global] Arguments has_any_role : simpl never.

Definition Authorize (a : Authorizer) (pattern : string) (principal : ResolvedPrincipal)
    : option AuthError :=
  if negb (enforcing a) then None
  else
    match permissions a !! pattern with
    | None => if IsAnonymous principal then Some (ErrUnauthorized "unknown route") else None
    | Some perm =>
        if AllowAnonymous perm then None
        else if IsAnonymous principal then
          Some (ErrUnauthorized "this endpoint requires authentication")
        else if AdminBypass perm && HasRole principal (adminRole a) then None
        else if ServiceOnly perm && (Service principal =?s "") then
          Some (ErrForbidden "endpoint restricted to service accounts")
        else
          match RequireRoles perm with
          | [] => None
          | roles =>
              if has_any_role principal roles then None
              else Some (ErrForbidden ("one of roles " ++ fmt_list roles ++ " required"))
          end
    end.

Definition Require_roles (a : Authorizer) (principal : ResolvedPrincipal) (roles : list string)
    : option AuthError :=
  if negb (enforcing a) then None
  else if HasRole principal (adminRole a) then None
  else if has_any_role principal roles then None
  else
    match roles with
    | [] => Some (ErrForbidden "no roles specified")
    | _ => Some (ErrForbidden ("one of roles " ++ fmt_list roles ++ " required"))
    end.

(** The value Middleware stored, or the zero principal. *)
Definition PrincipalFromContext (stored : option ResolvedPrincipal) : ResolvedPrincipal :=
  default zero_principal stored.

(** What the middleware does with a request: refuse it with a status and a
    body, or call the next handler with the principal in its context. *)
Inductive AuthReply :=
  | Refused (status : Z) (body : string)
  | Served (principal : ResolvedPrincipal).

Definition auth_status (e : AuthError) : Z :=
  match e with ErrUnauthorized _ => 401 | ErrForbidden _ => 403 end.

Definition Middleware (a : Authorizer) (provider : result string ResolvedPrincipal)
    (pattern : string) : AuthReply :=
  let principal := match provider with Ok p => p | Err _ => header_principal "" end in
  match Authorize a pattern principal with
  | Some authErr => Refused (auth_status authErr) (AuthError_text authErr)
  | None => Served principal
  end.

(** ** Lemmas *)

(** A caller who needs no more than being let in by one of the three rules. *)
Definition meets (a : Authorizer) (perm : Permission) (p : ResolvedPrincipal) : Prop :=
  (AdminBypass perm = true /\ HasRole p (adminRole a) = true) \/
  ((ServiceOnly perm = true -> Service p <> ""%string) /\
   (RequireRoles perm = [] \/ exists role, In role (RequireRoles perm) /\ HasRole p role = true)).

Lemma has_any_role_spec p roles :
  has_any_role p roles = true <-> exists role, In role roles /\ HasRole p role = true.
Proof. apply existsb_exists. Qed.

Lemma Authorize_known a pattern p perm :
  enforcing a = true -> permissions a !! pattern = Some perm ->
  Authorize a pattern p = None <->
  AllowAnonymous perm = true \/ (IsAnonymous p = false /\ meets a perm p).
Proof.
  intros He Hp. unfold Authorize, meets. rewrite He, Hp. simpl.
  rewrite <- has_any_role_spec.
  pose proof (streq_false (Service p) "").
  destruct (AllowAnonymous perm), (IsAnonymous p), (AdminBypass perm), (ServiceOnly perm),
    (HasRole p (adminRole a)), (Service p =?s ""), (RequireRoles perm) as [|r rs]; simpl;
    try destruct (has_any_role p (r :: rs)); simpl; naive_solver.
Qed.

Lemma Authorize_unknown a pattern p :
  enforcing a = true -> permissions a !! pattern = None ->
  Authorize a pattern p = None <-> IsAnonymous p = false.
Proof.
  intros He Hp. unfold Authorize. rewrite He, Hp. simpl. destruct (IsAnonymous p); naive_solver.
Qed.

Lemma zero_principal_authenticated : IsAnonymous (PrincipalFromContext None) = false.
Proof. reflexivity. Qed.

(** ** The inverted table *)

Definition grants (m : gmap string (list string)) (role pattern : string) : Prop :=
  In pattern (default [] (m !! role)).

Lemma append_grant_spec pattern m r role q :
  grants (append_grant pattern m r) role q <-> grants m role q \/ (role = r /\ q = pattern).
Proof.
  unfold grants, append_grant. destruct (decide (r = role)) as [->|Hne].
  - rewrite lookup_insert, decide_True by done. simpl. rewrite in_app_iff. simpl. naive_solver.
  - rewrite lookup_insert_ne by done. naive_solver.
Qed.

Lemma grant_pattern_spec e m role q :
  grants (grant_pattern m e) role q <->
  grants m role q \/ (In role (RequireRoles e.2) /\ q = e.1).
Proof.
  unfold grant_pattern. revert m. induction (RequireRoles e.2) as [|r rs IH]; intros m; simpl.
  - naive_solver.
  - rewrite IH, append_grant_spec. naive_solver.
Qed.

Lemma fold_grant_spec l m role q :
  grants (fold_left grant_pattern l m) role q <->
  grants m role q \/ exists e, In e l /\ In role (RequireRoles e.2) /\ q = e.1.
Proof.
  revert m. induction l as [|e l IH]; intros m; simpl.
  - naive_solver.
  - rewrite IH, grant_pattern_spec. naive_solver.
Qed.

(** ** Properties *)

(** The decision of [Authorize], for every authorizer, route
    and caller.  Off enforcement everything passes; a route missing from the table
    is open to every authenticated caller; a listed one is open to all if it
    allows anonymous callers, and otherwise to the authenticated callers who pass
    by the admin bypass or who are a service where one is demanded and hold one of
    the demanded roles, if any is demanded. *)
Theorem Authorize_iff a pattern p :
  Authorize a pattern p = None <->
  enforcing a = false \/
  match permissions a !! pattern with
  | None => IsAnonymous p = false
  | Some perm => AllowAnonymous perm = true \/ (IsAnonymous p = false /\ meets a perm p)
  end.
Proof.
  destruct (enforcing a) eqn:He.
  - destruct (permissions a !! pattern) as [perm|] eqn:Hp.
    + rewrite (Authorize_known a pattern p perm He Hp). naive_solver.
    + rewrite (Authorize_unknown a pattern p He Hp). naive_solver.
  - unfold Authorize. rewrite He. naive_solver.
Qed.

(** The middleware on credentials the provider rejects and on
    every other caller: a rejected credential is served exactly where an anonymous
    caller is, a refusal is 401 exactly for anonymous callers and 403 for the
    others, and a served request carries the resolved principal (the anonymous one
    when the provider failed). *)
Theorem Middleware_reply a provider pattern :
  let p := match provider with Ok p => p | Err _ => header_principal "" end in
  match Middleware a provider pattern with
  | Served q => q = p /\ Authorize a pattern p = None
  | Refused status _ =>
      Authorize a pattern p <> None /\ enforcing a = true /\
      status = (if IsAnonymous p then 401 else 403)%Z
  end.
Proof.
  intros p. unfold Middleware. fold p. destruct (Authorize a pattern p) as [e|] eqn:E; [|done].
  split; [done|]. unfold Authorize in E. destruct (enforcing a); [|done]. simpl in E. split; [done|].
  destruct (IsAnonymous p);
    repeat (case_match; simplify_eq/=; try done).
Qed.

(** [Require], the check a handler makes once it knows the
    resource: off enforcement it passes; otherwise the caller must hold the admin
    role or one of the listed roles, so an empty list leaves the admin role only.
    Anonymity and service status are not looked at. *)
Theorem Require_roles_iff a p roles :
  Require_roles a p roles = None <->
  enforcing a = false \/ HasRole p (adminRole a) = true \/
  exists role, In role roles /\ HasRole p role = true.
Proof.
  unfold Require_roles. destruct (enforcing a); simpl; [|naive_solver].
  destruct (HasRole p (adminRole a)); [naive_solver|].
  rewrite <- has_any_role_spec. destruct (has_any_role p roles); [naive_solver|].
  destruct roles; naive_solver.
Qed.

(** [RoleGrants] is the inverse of the table: a role is listed
    with a pattern exactly when the pattern's entry demands the role, whatever the
    iteration order of the table. *)
Theorem RoleGrants_inverse a role pattern :
  In pattern (default [] (RoleGrants a !! role)) <->
  exists perm, permissions a !! pattern = Some perm /\ In role (RequireRoles perm).
Proof.
  unfold RoleGrants. rewrite lookup_fmap.
  transitivity (grants (fold_left grant_pattern (map_to_list (permissions a)) ∅) role pattern).
  { unfold grants. destruct (_ !! role); simpl; [apply isort_In|done]. }
  rewrite fold_grant_spec. unfold grants at 1. rewrite lookup_empty. simpl. split.
  - intros [[]|([q perm] & Hin & Hr & ->)]. simpl in *. exists perm. split; [|done].
    apply elem_of_map_to_list. by apply list_elem_of_In.
  - intros (perm & Hp & Hr). right. exists (pattern, perm). split; [|done].
    apply list_elem_of_In. by apply elem_of_map_to_list.
Qed.
