(* ===== verification/AuthzTables.v ===== *)
(** * internal/authz/*_routes.go and the routes auditd registers

    The two permission tables, entry by entry in source order, the route patterns
    cmd/auditd/main.go registers behind its [auth] closure, and the gateway's
    closure.  The theorems say which callers each table lets through. *)

From S2P Require Import Prelude Identity Authz.

Open Scope string_scope.

Definition public : Permission :=
  {| AllowAnonymous := true; RequireRoles := []; AdminBypass := false; ServiceOnly := false |}.
Definition authenticated : Permission :=
  {| AllowAnonymous := false; RequireRoles := []; AdminBypass := true; ServiceOnly := false |}.
Definition service_only : Permission :=
  {| AllowAnonymous := false; RequireRoles := []; AdminBypass := true; ServiceOnly := true |}.
Definition roles (l : list string) : Permission :=
  {| AllowAnonymous := false; RequireRoles := l; AdminBypass := true; ServiceOnly := false |}.

Definition auditd_table : list (string * Permission) :=
  [("GET /health", public);
   ("GET /v1/events", authenticated);
   ("GET /v1/events/{eventID}", authenticated);
   ("GET /v1/verify", authenticated);
   ("GET /v1/journeys", authenticated);
   ("GET /v1/approvals", authenticated);
   ("GET /v1/approvals/pending", authenticated);
   ("GET /v1/approvals/{approvalID}", authenticated);
   ("GET /v1/approvals/{approvalID}/wait", authenticated);
   ("GET /v1/governance/info", public);
   ("GET /v1/governance/policies", authenticated);
   ("GET /v1/governance/explain", authenticated);
   ("GET /v1/govbot/runs", authenticated);
   ("GET /v1/fleet/jobs", authenticated);
   ("GET /v1/fleet/jobs/{jobID}", authenticated);
   ("GET /v1/fleet/jobs/{jobID}/servers", authenticated);
   ("GET /v1/fleet/jobs/{jobID}/servers/{serverName}", authenticated);
   ("GET /v1/fleet/jobs/{jobID}/servers/{serverName}/steps", authenticated);
   ("GET /v1/fleet/jobs/{jobID}/approval/{approvalID}", authenticated);
   ("GET /v1/fleet/playbooks", authenticated);
   ("GET /v1/fleet/playbooks/{playbookID}", authenticated);
   ("POST /v1/events", service_only);
   ("POST /v1/events/{eventID}/outcome", service_only);
   ("POST /v1/approvals", service_only);
   ("POST /v1/governance/check", service_only);
   ("POST /v1/govbot/runs", service_only);
   ("POST /v1/fleet/playbooks", authenticated);
   ("PUT /v1/fleet/playbooks/{playbookID}", authenticated);
   ("DELETE /v1/fleet/playbooks/{playbookID}", authenticated);
   ("POST /v1/fleet/playbooks/{playbookID}/activate", authenticated);
   ("POST /v1/fleet/playbooks/{playbookID}/runs", service_only);
   ("GET /v1/fleet/playbooks/{playbookID}/runs", authenticated);
   ("GET /v1/fleet/playbooks/{playbookID}/stats", authenticated);
   ("PATCH /v1/fleet/playbook-runs/{runID}", authenticated);
   ("GET /v1/fleet/playbook-runs/{runID}", authenticated);
   ("POST /v1/uploads", authenticated);
   ("GET /v1/uploads/{uploadID}", authenticated);
   ("GET /v1/uploads/{uploadID}/content", authenticated);
   ("POST /v1/tool-results", service_only);
   ("GET /v1/tool-results", authenticated);
   ("POST /v1/fleet/jobs", service_only);
   ("PATCH /v1/fleet/jobs/{jobID}/status", service_only);
   ("POST /v1/fleet/jobs/{jobID}/servers", service_only);
   ("PATCH /v1/fleet/jobs/{jobID}/servers/{serverName}", service_only);
   ("POST /v1/fleet/jobs/{jobID}/servers/{serverName}/steps", service_only);
   ("PATCH /v1/fleet/jobs/{jobID}/servers/{serverName}/steps/{stepIndex}", service_only);
   ("POST /v1/fleet/jobs/{jobID}/approval", service_only);
   ("POST /v1/approvals/{approvalID}/approve", roles ["dba"; "fleet-approver"]);
   ("POST /v1/approvals/{approvalID}/deny", roles ["dba"; "fleet-approver"]);
   ("POST /v1/approvals/{approvalID}/cancel", authenticated);
   ("GET /v1/rollbacks", authenticated);
   ("GET /v1/rollbacks/{rollbackID}", authenticated);
   ("POST /v1/events/{eventID}/rollback-plan", authenticated);
   ("GET /v1/fleet/jobs/{jobID}/rollback", authenticated);
   ("POST /v1/rollbacks", roles ["operator"; "admin"]);
   ("POST /v1/rollbacks/{rollbackID}/cancel", roles ["operator"; "admin"]);
   ("POST /v1/fleet/jobs/{jobID}/rollback", roles ["operator"; "fleet-approver"; "admin"])].

Definition gateway_table : list (string * Permission) :=
  [("GET /health", public);
   ("GET /metrics", public);
   ("GET /api/v1/agents", public);
   ("GET /api/v1/tools", public);
   ("GET /api/v1/tools/{toolName}", public);
   ("GET /api/v1/roles", public);
   ("POST /api/v1/query", authenticated);
   ("POST /api/v1/incidents", authenticated);
   ("GET /api/v1/incidents", authenticated);
   ("GET /api/v1/incidents/{runID}", authenticated);
   ("POST /api/v1/research", authenticated);
   ("GET /api/v1/infrastructure", authenticated);
   ("GET /api/v1/databases", authenticated);
   ("POST /api/v1/admin/infra/register-db", authenticated);
   ("GET /api/v1/governance", authenticated);
   ("GET /api/v1/governance/policies", authenticated);
   ("GET /api/v1/governance/explain", authenticated);
   ("GET /api/v1/governance/events", authenticated);
   ("GET /api/v1/governance/events/{eventID}", authenticated);
   ("GET /api/v1/governance/approvals/pending", authenticated);
   ("GET /api/v1/governance/approvals", authenticated);
   ("GET /api/v1/governance/verify", authenticated);
   ("GET /api/v1/governance/journeys", authenticated);
   ("GET /api/v1/governance/govbot/runs", authenticated);
   ("POST /api/v1/governance/approvals/{approvalID}/approve", roles ["dba"; "fleet-approver"]);
   ("POST /api/v1/governance/approvals/{approvalID}/deny", roles ["dba"; "fleet-approver"]);
   ("GET /api/v1/tool-results", authenticated);
   ("GET /api/v1/decisions", authenticated);
   ("GET /api/v1/decisions/{id}", authenticated);
   ("POST /api/v1/decisions/{id}/resolve", authenticated);
   ("POST /api/v1/webhooks/git", public);
   ("POST /api/v1/fleet/plan", authenticated);
   ("POST /api/v1/fleet/snapshot", authenticated);
   ("POST /api/v1/fleet/review", authenticated);
   ("GET /api/v1/fleet/jobs", authenticated);
   ("GET /api/v1/fleet/jobs/{jobID}", authenticated);
   ("GET /api/v1/fleet/jobs/{jobID}/servers", authenticated);
   ("GET /api/v1/fleet/jobs/{jobID}/servers/{serverName}", authenticated);
   ("GET /api/v1/fleet/jobs/{jobID}/servers/{serverName}/steps", authenticated);
   ("GET /api/v1/fleet/jobs/{jobID}/approval/{approvalID}", authenticated);
   ("POST /api/v1/fleet/uploads", authenticated);
   ("GET /api/v1/fleet/uploads/{uploadID}", authenticated);
   ("GET /api/v1/fleet/uploads/{uploadID}/content", authenticated);
   ("GET /api/v1/fleet/playbooks", authenticated);
   ("GET /api/v1/fleet/playbooks/{playbookID}", authenticated);
   ("POST /api/v1/fleet/playbooks", authenticated);
   ("PUT /api/v1/fleet/playbooks/{playbookID}", authenticated);
   ("DELETE /api/v1/fleet/playbooks/{playbookID}", authenticated);
   ("POST /api/v1/fleet/playbooks/from-trace", authenticated);
   ("POST /api/v1/fleet/playbooks/import", authenticated);
   ("POST /api/v1/fleet/playbooks/{playbookID}/activate", authenticated);
   ("POST /api/v1/fleet/playbooks/{playbookID}/run", authenticated);
   ("GET /api/v1/fleet/playbooks/{playbookID}/runs", authenticated);
   ("GET /api/v1/fleet/playbooks/{playbookID}/stats", authenticated);
   ("GET /api/v1/fleet/playbook-runs", authenticated);
   ("PATCH /api/v1/fleet/playbook-runs/{runID}", authenticated);
   ("GET /api/v1/fleet/playbook-runs/{runID}", authenticated);
   ("GET /api/v1/fleet/playbook-runs/{runID}/steps", authenticated);
   ("GET /api/v1/fleet/playbook-runs/{runID}/pending-step", authenticated);
   ("GET /api/v1/fleet/playbook-runs/{runID}/events", authenticated);
   ("GET /api/v1/fleet/playbook-runs/{runID}/feedback", authenticated);
   ("POST /api/v1/fleet/playbook-runs/{runID}/feedback", authenticated);
   ("POST /api/v1/fleet/playbook-runs/{runID}/request-feedback", authenticated);
   ("GET /api/v1/fleet/playbook-runs/{runID}/evaluation", authenticated);
   ("POST /api/v1/fleet/playbook-runs/{runID}/evaluation", authenticated);
   ("POST /api/v1/fleet/playbook-runs/{runID}/proceed", authenticated);
   ("POST /api/v1/fleet/playbook-runs/{runID}/proceed-escalation", authenticated);
   ("GET /api/v1/fleet/series/{seriesID}/version-stats", authenticated);
   ("GET /api/v1/fleet/calibration", authenticated);
   ("GET /api/v1/fleet/fault-run-history", authenticated);
   ("POST /api/v1/db/{tool}", roles ["dba"; "sre"; "oncall"; "sre-automation"]);
   ("POST /api/v1/k8s/{tool}", roles ["sre"; "k8s-admin"; "oncall"; "sre-automation"]);
   ("POST /api/v1/fleet/jobs", roles ["fleet-operator"])].

Definition DefaultAuditdPermissions : gmap string Permission := list_to_map auditd_table.
Definition DefaultGatewayPermissions : gmap string Permission := list_to_map gateway_table.

(** The route patterns of cmd/auditd/main.go, each registered as
    [mux.HandleFunc(p, auth(p, handler))]. *)
Definition auditd_registered : list string :=
  ["POST /v1/events";
   "POST /v1/events/{eventID}/outcome";
   "GET /v1/events";
   "GET /v1/verify";
   "POST /v1/approvals";
   "GET /v1/approvals";
   "GET /v1/approvals/pending";
   "GET /v1/approvals/{approvalID}";
   "GET /v1/approvals/{approvalID}/wait";
   "POST /v1/approvals/{approvalID}/approve";
   "POST /v1/approvals/{approvalID}/deny";
   "POST /v1/approvals/{approvalID}/cancel";
   "GET /v1/governance/info";
   "GET /v1/governance/policies";
   "GET /v1/governance/explain";
   "POST /v1/governance/check";
   "GET /v1/events/{eventID}";
   "GET /v1/journeys";
   "POST /v1/govbot/runs";
   "GET /v1/govbot/runs";
   "POST /v1/fleet/jobs";
   "GET /v1/fleet/jobs";
   "GET /v1/fleet/jobs/{jobID}";
   "PATCH /v1/fleet/jobs/{jobID}/status";
   "POST /v1/fleet/jobs/{jobID}/servers";
   "PATCH /v1/fleet/jobs/{jobID}/servers/{serverName}";
   "GET /v1/fleet/jobs/{jobID}/servers";
   "GET /v1/fleet/jobs/{jobID}/servers/{serverName}";
   "POST /v1/fleet/jobs/{jobID}/servers/{serverName}/steps";
   "PATCH /v1/fleet/jobs/{jobID}/servers/{serverName}/steps/{stepIndex}";
   "GET /v1/fleet/jobs/{jobID}/servers/{serverName}/steps";
   "POST /v1/fleet/playbooks";
   "GET /v1/fleet/playbooks";
   "GET /v1/fleet/playbooks/{playbookID}";
   "PUT /v1/fleet/playbooks/{playbookID}";
   "DELETE /v1/fleet/playbooks/{playbookID}";
   "POST /v1/fleet/playbooks/{playbookID}/activate";
   "POST /v1/fleet/playbooks/{playbookID}/judge-verdict";
   "POST /v1/fleet/playbooks/{playbookID}/runs";
   "PATCH /v1/fleet/playbook-runs/{runID}";
   "GET /v1/fleet/playbooks/{playbookID}/runs";
   "GET /v1/fleet/playbooks/{playbookID}/stats";
   "GET /v1/fleet/playbook-runs/{runID}";
   "GET /v1/fleet/playbook-runs";
   "GET /v1/fleet/playbook-runs/feedback-pending";
   "POST /v1/fleet/playbook-runs/{runID}/feedback";
   "GET /v1/fleet/playbook-runs/{runID}/feedback";
   "POST /v1/fleet/playbook-runs/{runID}/evaluation";
   "GET /v1/fleet/playbook-runs/{runID}/evaluation";
   "GET /v1/fleet/series/{seriesID}/version-stats";
   "GET /v1/fleet/calibration";
   "GET /v1/fleet/fault-run-history";
   "POST /v1/fleet/fault-stability";
   "GET /v1/fleet/fault-stability";
   "GET /v1/fleet/fault-stability/{faultID}";
   "POST /v1/fleet/playbook-runs/{runID}/steps";
   "PATCH /v1/fleet/playbook-runs/{runID}/steps/{stepIndex}";
   "GET /v1/fleet/playbook-runs/{runID}/steps";
   "GET /v1/fleet/playbook-runs/{runID}/pending-step";
   "POST /v1/approval/sessions";
   "GET /v1/approval/sessions/{sessionID}";
   "DELETE /v1/approval/sessions/{sessionID}";
   "POST /v1/uploads";
   "GET /v1/uploads/{uploadID}";
   "GET /v1/uploads/{uploadID}/content";
   "POST /v1/tool-results";
   "GET /v1/tool-results";
   "POST /v1/fleet/jobs/{jobID}/approval";
   "GET /v1/fleet/jobs/{jobID}/approval/{approvalID}";
   "POST /v1/rollbacks";
   "GET /v1/rollbacks";
   "GET /v1/rollbacks/{rollbackID}";
   "POST /v1/rollbacks/{rollbackID}/cancel";
   "POST /v1/events/{eventID}/rollback-plan";
   "POST /v1/fleet/jobs/{jobID}/rollback";
   "GET /v1/fleet/jobs/{jobID}/rollback";
   "GET /health"].

(** The [auth] closure of main.go: the middleware with the pattern captured at
    registration. *)
Definition auditd_auth (enf : bool) (provider : result string ResolvedPrincipal) (pattern : string)
    : AuthReply :=
  Middleware (NewAuthorizer DefaultAuditdPermissions enf) provider pattern.

(** The [auth] closure of the gateway: both the provider and the authorizer may
    be absent.  The audit record it writes on a refusal is not part of the reply. *)
Definition gateway_auth (authzr : option Authorizer)
    (provider : option (result string ResolvedPrincipal)) (pattern : string) : AuthReply :=
  let principal :=
    match provider with
    | None => zero_principal
    | Some (Ok p) => p
    | Some (Err _) => header_principal ""
    end in
  match authzr with
  | None => Served principal
  | Some a =>
      match Authorize a pattern principal with
      | Some authErr => Refused (auth_status authErr) (AuthError_text authErr)
      | None => Served principal
      end
  end.

(** ** Lemmas *)

Fixpoint assoc {A} (k : string) (l : list (string * A)) : option A :=
  match l with
  | [] => None
  | (k', v) :: l' => if k =?s k' then Some v else assoc k l'
  end.

Lemma lookup_table {A} (l : list (string * A)) k : (list_to_map l : gmap string A) !! k = assoc k l.
Proof.
  induction l as [|[k' v] l IH]; simpl; [apply lookup_empty|].
  destruct (k =?s k') eqn:E.
  - apply streq_spec in E as ->. by rewrite lookup_insert, decide_True.
  - apply streq_false in E. by rewrite lookup_insert_ne.
Qed.

Lemma assoc_In {A} (l : list (string * A)) k v : assoc k l = Some v -> In (k, v) l.
Proof.
  induction l as [|[k' v'] l IH]; simpl; [done|].
  destruct (k =?s k') eqn:E; [|auto]. apply streq_spec in E as ->. intros [= ->]. by left.
Qed.

(** A property of a pattern and its entry that a check of the whole table shows. *)
Lemma table_forall {A} (l : list (string * A)) (f : string -> A -> bool) k v :
  forallb (fun '(k, v) => f k v) l = true -> assoc k l = Some v -> f k v = true.
Proof.
  intros H Hk. rewrite forallb_forall in H. by apply (H (k, v)), assoc_In.
Qed.

(** An anonymous caller gets exactly the routes marked public. *)
Lemma anonymous_reaches table pub pattern p :
  forallb (fun '(k, perm) => Bool.eqb (AllowAnonymous perm) (mem k pub)) table = true ->
  forallb (fun k => match assoc k table with Some _ => true | None => false end) pub = true ->
  IsAnonymous p = true ->
  Authorize (NewAuthorizer (list_to_map table) true) pattern p = None <-> In pattern pub.
Proof.
  intros Ht Hp Hanon. unfold Authorize; simpl. rewrite lookup_table, Hanon.
  destruct (assoc pattern table) as [perm|] eqn:E.
  - pose proof (table_forall table
      (fun k perm => Bool.eqb (AllowAnonymous perm) (mem k pub)) _ _ Ht E) as Hk.
    apply Bool.eqb_prop in Hk. rewrite <- mem_spec, <- Hk.
    destruct (AllowAnonymous perm); naive_solver.
  - split; [done|]. intros Hin. rewrite forallb_forall in Hp. specialize (Hp _ Hin).
    by rewrite E in Hp.
Qed.

(** Entries that demand a service account, and routes without an entry. *)
Lemma service_entry a pattern p :
  enforcing a = true -> permissions a !! pattern = Some service_only -> IsAnonymous p = false ->
  (Service p <> "" -> Middleware a (Ok p) pattern = Served p) /\
  (Service p = "" -> HasRole p (adminRole a) = false ->
   Middleware a (Ok p) pattern = Refused 403 "forbidden: endpoint restricted to service accounts").
Proof.
  intros He Hp Hauth. unfold Middleware, Authorize. rewrite He, Hp, Hauth; simpl. split.
  - intros Hs. apply streq_false in Hs. rewrite Hs. by destruct (HasRole p (adminRole a)).
  - intros Hs Hr. by rewrite Hr, Hs.
Qed.

Lemma missing_entry a pattern p :
  permissions a !! pattern = None -> IsAnonymous p = false ->
  Middleware a (Ok p) pattern = Served p.
Proof.
  intros Hp Hauth. unfold Middleware, Authorize. rewrite Hp, Hauth. by destruct (enforcing a).
Qed.

Lemma authenticated_entry a pattern p :
  permissions a !! pattern = Some authenticated -> IsAnonymous p = false ->
  Middleware a (Ok p) pattern = Served p.
Proof.
  intros Hp Hauth. unfold Middleware, Authorize. rewrite Hp, Hauth.
  destruct (enforcing a); [|done]. simpl. by destruct (HasRole p (adminRole a)).
Qed.

Definition auditd_public : list string := ["GET /health"; "GET /v1/governance/info"].

Definition gateway_public : list string :=
  ["GET /health"; "GET /metrics"; "GET /api/v1/agents"; "GET /api/v1/tools";
   "GET /api/v1/tools/{toolName}"; "GET /api/v1/roles"; "POST /api/v1/webhooks/git"].

(** The machine-to-machine writes. *)
Definition auditd_service_routes : list string :=
  ["POST /v1/events"; "POST /v1/events/{eventID}/outcome"; "POST /v1/approvals";
   "POST /v1/governance/check"; "POST /v1/govbot/runs";
   "POST /v1/fleet/playbooks/{playbookID}/runs"; "POST /v1/tool-results"; "POST /v1/fleet/jobs";
   "PATCH /v1/fleet/jobs/{jobID}/status"; "POST /v1/fleet/jobs/{jobID}/servers";
   "PATCH /v1/fleet/jobs/{jobID}/servers/{serverName}";
   "POST /v1/fleet/jobs/{jobID}/servers/{serverName}/steps";
   "PATCH /v1/fleet/jobs/{jobID}/servers/{serverName}/steps/{stepIndex}";
   "POST /v1/fleet/jobs/{jobID}/approval"].

(** The registered routes that have no entry. *)
Definition auditd_unlisted : list string :=
  ["POST /v1/fleet/playbooks/{playbookID}/judge-verdict"; "GET /v1/fleet/playbook-runs";
   "GET /v1/fleet/playbook-runs/feedback-pending"; "POST /v1/fleet/playbook-runs/{runID}/feedback";
   "GET /v1/fleet/playbook-runs/{runID}/feedback";
   "POST /v1/fleet/playbook-runs/{runID}/evaluation";
   "GET /v1/fleet/playbook-runs/{runID}/evaluation";
   "GET /v1/fleet/series/{seriesID}/version-stats"; "GET /v1/fleet/calibration";
   "GET /v1/fleet/fault-run-history"; "POST /v1/fleet/fault-stability";
   "GET /v1/fleet/fault-stability"; "GET /v1/fleet/fault-stability/{faultID}";
   "POST /v1/fleet/playbook-runs/{runID}/steps";
   "PATCH /v1/fleet/playbook-runs/{runID}/steps/{stepIndex}";
   "GET /v1/fleet/playbook-runs/{runID}/steps"; "GET /v1/fleet/playbook-runs/{runID}/pending-step";
   "POST /v1/approval/sessions"; "GET /v1/approval/sessions/{sessionID}";
   "DELETE /v1/approval/sessions/{sessionID}"].

Lemma auditd_service_entries :
  forallb (fun k => match assoc k auditd_table with
                    | Some {| AllowAnonymous := false; RequireRoles := []; AdminBypass := true;
                              ServiceOnly := true |} => true
                    | _ => false end) auditd_service_routes = true.
Proof. vm_compute. reflexivity. Qed.

Lemma service_route_perm pattern :
  In pattern auditd_service_routes -> DefaultAuditdPermissions !! pattern = Some service_only.
Proof.
  intros Hin. pose proof auditd_service_entries as H. rewrite forallb_forall in H.
  specialize (H _ Hin). unfold DefaultAuditdPermissions. rewrite lookup_table.
  destruct (assoc pattern auditd_table) as [[[] [] [] []]|]; done.
Qed.

(** ** Properties *)

(** With enforcement on, an anonymous caller, and so also one whose
    credential was rejected, gets exactly two patterns of auditd, the health check
    and the governance summary, and exactly the seven public patterns of the
    gateway, whatever pattern is asked for. *)
Theorem anonymous_routes pattern p (Hanon : IsAnonymous p = true) :
  (Authorize (NewAuthorizer DefaultAuditdPermissions true) pattern p = None <->
     In pattern auditd_public) /\
  (Authorize (NewAuthorizer DefaultGatewayPermissions true) pattern p = None <->
     In pattern gateway_public).
Proof. split; apply anonymous_reaches; try done; vm_compute; reflexivity. Qed.

Lemma anonymous_routes_witness :
  IsAnonymous (header_principal "mallory") = true /\
  (Authorize (NewAuthorizer DefaultAuditdPermissions true) "POST /v1/events"
     (header_principal "mallory") = None <-> In "POST /v1/events" auditd_public) /\
  (Authorize (NewAuthorizer DefaultGatewayPermissions true) "POST /v1/events"
     (header_principal "mallory") = None <-> In "POST /v1/events" gateway_public).
Proof. split; [reflexivity|]. apply anonymous_routes. reflexivity. Defined.

(** The machine-to-machine writes of auditd (audit events,
    approval creation, policy checks, fleet job state) refuse every human who does
    not hold the admin role with 403, whatever roles they hold, and admit every
    service account. *)
Theorem service_routes pattern p
    (Hroute : In pattern auditd_service_routes) (Hauth : IsAnonymous p = false) :
  (Service p <> "" -> auditd_auth true (Ok p) pattern = Served p) /\
  (Service p = "" -> HasRole p "admin" = false ->
   auditd_auth true (Ok p) pattern =
     Refused 403 "forbidden: endpoint restricted to service accounts").
Proof.
  apply (service_entry (NewAuthorizer DefaultAuditdPermissions true)); [done| |done].
  by apply service_route_perm.
Qed.

Lemma service_routes_witness :
  let p := {| UserID := "alice"; Roles := ["dba"; "operator"]; Service := "";
              AuthMethod := "static"; OperatorID := ""; OperatorRoles := [] |} in
  In "POST /v1/events" auditd_service_routes /\ IsAnonymous p = false /\
  (Service p <> "" -> auditd_auth true (Ok p) "POST /v1/events" = Served p) /\
  (Service p = "" -> HasRole p "admin" = false ->
   auditd_auth true (Ok p) "POST /v1/events" =
     Refused 403 "forbidden: endpoint restricted to service accounts").
Proof.
  intros p. split; [by left|]. split; [reflexivity|].
  apply service_routes; [by left|reflexivity].
Defined.

(** Exactly twenty of the routes auditd registers have no entry in
    its table, among them the creation and the revocation of approval sessions and
    the writes of playbook-run steps, and for those the only demand is to be
    authenticated: a human with no role at all is served. *)
Theorem unlisted_routes :
  List.filter (fun k => match DefaultAuditdPermissions !! k with None => true | Some _ => false end)
    auditd_registered = auditd_unlisted /\
  forall pattern p, In pattern auditd_unlisted -> IsAnonymous p = false ->
    auditd_auth true (Ok p) pattern = Served p.
Proof.
  assert (H : List.filter (fun k => match DefaultAuditdPermissions !! k with
                                    | None => true | Some _ => false end)
                auditd_registered = auditd_unlisted).
  { unfold DefaultAuditdPermissions.
    rewrite (List.filter_ext _ (fun k => match assoc k auditd_table with
      None => true | Some _ => false end)) by (intros k; by rewrite lookup_table).
    vm_compute. reflexivity. }
  split; [exact H|]. clear -H. intros pattern p Hin Hp. rewrite <- H in Hin.
  rewrite filter_In in Hin. destruct Hin as [_ Hnone].
  apply (missing_entry (NewAuthorizer DefaultAuditdPermissions true)); [|exact Hp].
  change (DefaultAuditdPermissions !! pattern = None).
  destruct (DefaultAuditdPermissions !! pattern) eqn:E; [discriminate Hnone|reflexivity].
Qed.

(** The gateway with an authorizer but no identity provider takes
    every caller for an authenticated one, since the zero principal is not
    anonymous: every route that neither demands a role nor a service is served. *)
Theorem gateway_auth_without_provider a pattern perm
    (Hperm : permissions a !! pattern = Some perm)
    (Hopen : RequireRoles perm = [] /\ ServiceOnly perm = false) :
  gateway_auth (Some a) None pattern = Served zero_principal.
Proof.
  destruct Hopen as [Hr Hs]. unfold gateway_auth, Authorize. rewrite Hperm, Hr, Hs. simpl.
  by destruct (enforcing a), (AllowAnonymous perm), (AdminBypass perm).
Qed.

Lemma gateway_auth_without_provider_witness :
  let a := NewAuthorizer DefaultGatewayPermissions true in
  permissions a !! "POST /api/v1/query" = Some authenticated /\
  gateway_auth (Some a) None "POST /api/v1/query" = Served zero_principal.
Proof.
  intros a.
  assert (H : permissions a !! "POST /api/v1/query" = Some authenticated).
  { change (DefaultGatewayPermissions !! "POST /api/v1/query" = Some authenticated).
    unfold DefaultGatewayPermissions. rewrite lookup_table. reflexivity. }
  split; [exact H|].
  apply (gateway_auth_without_provider a _ authenticated H). split; reflexivity.
Defined.
