(* ===== verification/Action.v ===== *)
(** * internal/audit/action.go: action classes

    The action-class constants, the classification of tools, gateway endpoints and
    delegation messages, the approval and risk tests on a class, and the substring
    test the endpoint classification uses. *)

From S2P Require Import Prelude.

Open Scope string_scope.

Definition ActionRead : string := "read".
Definition ActionWrite : string := "write".
Definition ActionDestructive : string := "destructive".
Definition ActionEscalation : string := "escalation".
Definition ActionUnknown : string := "unknown".

Definition ToolClassification : list (string * string) :=
  [("check_connection", ActionRead);
   ("get_server_info", ActionRead);
   ("get_database_info", ActionRead);
   ("get_active_connections", ActionRead);
   ("get_connection_stats", ActionRead);
   ("get_database_stats", ActionRead);
   ("get_config_parameter", ActionRead);
   ("get_replication_status", ActionRead);
   ("get_lock_info", ActionRead);
   ("get_table_stats", ActionRead);
   ("get_session_info", ActionRead);
   ("cancel_query", ActionWrite);
   ("terminate_connection", ActionDestructive);
   ("terminate_idle_connections", ActionDestructive);
   ("resume_wal_replay", ActionWrite);
   ("run_vacuum", ActionWrite);
   ("drop_replication_slot", ActionDestructive);
   ("reset_pg_setting", ActionWrite);
   ("reset_cache_stats", ActionWrite);
   ("get_status_summary", ActionRead);
   ("get_pg_settings", ActionRead);
   ("get_extensions", ActionRead);
   ("get_baseline", ActionRead);
   ("get_saved_snapshots", ActionRead);
   ("get_slow_queries", ActionRead);
   ("get_vacuum_status", ActionRead);
   ("get_disk_usage", ActionRead);
   ("get_wait_events", ActionRead);
   ("get_blocking_queries", ActionRead);
   ("explain_query", ActionRead);
   ("read_pg_log", ActionRead);
   ("read_uploaded_file", ActionRead);
   ("get_pods", ActionRead);
   ("get_pod_logs", ActionRead);
   ("get_service", ActionRead);
   ("describe_service", ActionRead);
   ("get_endpoints", ActionRead);
   ("get_nodes", ActionRead);
   ("get_events", ActionRead);
   ("describe_pod", ActionRead);
   ("get_pod_resources", ActionRead);
   ("get_node_status", ActionRead);
   ("scale_deployment", ActionDestructive);
   ("restart_deployment", ActionDestructive);
   ("delete_pod", ActionDestructive);
   ("rollback_scale_deployment", ActionDestructive);
   ("rollback_exec_update", ActionDestructive);
   ("rollback_exec_delete", ActionDestructive);
   ("rollback_exec_insert", ActionWrite);
   ("create_incident_bundle", ActionWrite);
   ("list_incidents", ActionRead);
   ("web_search", ActionRead);
   ("check_host", ActionRead);
   ("get_host_logs", ActionRead);
   ("check_disk", ActionRead);
   ("check_memory", ActionRead);
   ("restart_container", ActionDestructive);
   ("restart_service", ActionDestructive)].

(** The look-up in a map literal, whose keys are distinct. *)
Fixpoint class_lookup (toolName : string) (l : list (string * string)) : option string :=
  match l with
  | [] => None
  | (k, class) :: l' => if toolName =?s k then Some class else class_lookup toolName l'
  end.

Definition ClassifyTool (toolName : string) : string :=
  match class_lookup toolName ToolClassification with
  | Some class => class
  | None => ActionUnknown
  end.

(** [containsImpl]: try every offset [i] up to [len s - len substr]. [n] counts
    the offsets left. *)
Fixpoint containsImpl_from (i n : nat) (s substr : string) : bool :=
  match n with
  | O => false
  | S n' =>
      if String.substring i (String.length substr) s =?s substr then true
      else containsImpl_from (S i) n' s substr
  end.

Definition containsImpl (s substr : string) : bool :=
  containsImpl_from 0 (Z.to_nat (Z.of_nat (String.length s) - Z.of_nat (String.length substr) + 1))
    s substr.

Definition contains (s substr : string) : bool :=
  (String.length substr <=? String.length s)%nat &&
  ((s =?s substr) || ((0 <? String.length s)%nat && containsImpl s substr)).

Definition ClassifyEndpoint (method path : string) : string :=
  if method =?s "GET" then ActionRead
  else if contains path "/research" then ActionRead
  else if contains path "/incidents" && (method =?s "POST") then ActionRead
  else if contains path "/db/" then ActionUnknown
  else if contains path "/k8s/" then ActionUnknown
  else if contains path "/query" then ActionUnknown
  else if contains path "/fleet/playbooks" && contains path "/run" then ActionRead
  else if contains path "/fleet/playbooks" && contains path "/import" then ActionRead
  else if contains path "/fleet/playbooks" && ((method =?s "POST") || (method =?s "PUT"))
  then ActionWrite
  else if contains path "/fleet/playbooks" && (method =?s "DELETE") then ActionDestructive
  else ActionUnknown.

Definition IsApprovalRequired (ac : string) : bool :=
  (ac =?s ActionWrite) || (ac =?s ActionDestructive) || (ac =?s ActionEscalation).

Definition RiskLevel (ac : string) : Z :=
  if ac =?s ActionRead then 0
  else if ac =?s ActionWrite then 1
  else if ac =?s ActionEscalation then 2
  else if ac =?s ActionDestructive then 3
  else -1.

Definition inquiryPrefixes : list string :=
  ["when was"; "when did"; "when is"; "last time"; "history of"; "previous";
   "how long ago"; "how many times"; "what is the"; "what are the"; "what was";
   "is there a"; "are there any"; "has been"; "have been"].

Definition destructiveKeywords : list string :=
  ["kill"; "terminate"; "delete"; "drop"; "remove"; "destroy"; "drain"; "evict";
   "force"; "truncate"; "purge"].

Definition writeKeywords : list string :=
  ["scale"; "restart"; "update"; "modify"; "change"; "alter"; "create"; "insert"; "set";
   "patch"; "apply"; "rollout"; "cordon"; "uncordon"; "vacuum"; "reindex"; "cancel"].

Definition readKeywords : list string :=
  ["check"; "get"; "list"; "show"; "describe"; "explain"; "status"; "info"; "stats";
   "logs"; "events"; "search"; "find"; "query"; "select"; "count"; "monitor"].

Definition mentions (msg : string) (kws : list string) : bool := existsb (str_contains msg) kws.

Definition ClassifyDelegation (agent message : string) : string :=
  let msg := to_lower message in
  if mentions msg inquiryPrefixes then ActionRead
  else if mentions msg destructiveKeywords then ActionDestructive
  else if mentions msg writeKeywords then ActionWrite
  else if mentions msg readKeywords then ActionRead
  else ActionUnknown.

(** ** Lemmas *)

Lemma substring_take s p :
  (String.substring 0 (String.length p) s =?s p) = has_prefix s p.
Proof.
  revert s. induction p as [|c p IH]; intros s; simpl.
  - destruct s; reflexivity.
  - destruct s as [|d s]; simpl; [reflexivity|].
    rewrite streq_cons, IH. by rewrite Ascii.eqb_sym.
Qed.

Lemma containsImpl_from_S i n c s p :
  containsImpl_from (S i) n (String c s) p = containsImpl_from i n s p.
Proof. revert i. induction n as [|n IH]; intros i; simpl; [done|]. by rewrite IH. Qed.

Lemma has_prefix_length s p : has_prefix s p = true -> String.length p <= String.length s.
Proof. intros H. apply has_prefix_spec in H as [r ->]. rewrite length_app_s. lia. Qed.

Lemma str_contains_length s p : str_contains s p = true -> String.length p <= String.length s.
Proof. intros H. apply str_contains_spec in H as (a & b & ->). rewrite !length_app_s. lia. Qed.

(** The offsets up to [len s - len substr] are the only ones that can match. *)
Lemma containsImpl_from_spec s p :
  containsImpl_from 0 (S (String.length s) - String.length p) s p = str_contains s p.
Proof.
  induction s as [|c s IH].
  - destruct p as [|d p]; reflexivity.
  - destruct (Nat.le_gt_cases (String.length p) (S (String.length s))) as [Hle|Hgt].
    + replace (S (String.length (String c s)) - String.length p)
        with (S (S (String.length s) - String.length p)) by (simpl; lia).
      cbn [containsImpl_from str_contains]. rewrite substring_take.
      destruct (has_prefix (String c s) p); [done|]. simpl orb.
      by rewrite containsImpl_from_S.
    + replace (S (String.length (String c s)) - String.length p) with 0 by (simpl; lia).
      destruct (str_contains (String c s) p) eqn:Es; [|done].
      apply str_contains_length in Es. simpl in Es. lia.
Qed.

Lemma contains_str_contains s p : contains s p = str_contains s p.
Proof.
  unfold contains, containsImpl.
  replace (Z.to_nat _) with (S (String.length s) - String.length p) by lia.
  rewrite containsImpl_from_spec.
  destruct (Nat.leb_spec (String.length p) (String.length s)); simpl.
  - destruct (s =?s p) eqn:E.
    + apply streq_spec in E as ->. symmetry. apply str_contains_spec. exists "", "".
      by rewrite app_empty_r.
    + simpl. destruct s as [|c s]; [|done]. destruct p; [discriminate E|done].
  - destruct (str_contains s p) eqn:Es; [|done]. apply str_contains_length in Es. lia.
Qed.

Lemma mentions_spec msg kws :
  mentions msg kws = true <-> exists kw a b, In kw kws /\ msg = a ++ kw ++ b.
Proof.
  unfold mentions. rewrite existsb_exists. setoid_rewrite str_contains_spec. naive_solver.
Qed.

Lemma ClassifyTool_known toolName :
  ClassifyTool toolName <> ActionUnknown <-> exists c, In (toolName, c) ToolClassification.
Proof.
  unfold ClassifyTool.
  assert (Hc : forallb (fun '(_, c) => negb (c =?s ActionUnknown)) ToolClassification = true)
    by reflexivity.
  induction ToolClassification as [|[k c] l IH]; simpl in *; [naive_solver|].
  apply andb_true_iff in Hc as [Hk Hl]. destruct (toolName =?s k) eqn:E.
  - apply streq_spec in E as ->. apply negb_true_iff, streq_false in Hk. naive_solver.
  - apply streq_false in E. rewrite (IH Hl). naive_solver.
Qed.

(** ** Properties *)

(** The hand-written substring test of the package, which
    compares the slice at every offset that leaves room, is true exactly when the
    second string occurs in the first, the empty strings included. *)
Theorem contains_iff s p : contains s p = true <-> exists a b, s = a ++ p ++ b.
Proof. rewrite contains_str_contains. apply str_contains_spec. Qed.

(** The class of a delegation message, for every message: a
    phrase of inquiry anywhere makes it a read, whatever else the message asks
    for; without one a destructive keyword decides, then a write keyword, then a
    read keyword, and a message with none is unknown. *)
Theorem ClassifyDelegation_cases agent message :
  let msg := to_lower message in
  let has kws := exists kw a b, In kw kws /\ msg = a ++ kw ++ b in
  let c := ClassifyDelegation agent message in
  (c = ActionDestructive <-> ~ has inquiryPrefixes /\ has destructiveKeywords) /\
  (c = ActionWrite <->
     ~ has inquiryPrefixes /\ ~ has destructiveKeywords /\ has writeKeywords) /\
  (c = ActionRead <->
     has inquiryPrefixes \/
     (~ has destructiveKeywords /\ ~ has writeKeywords /\ has readKeywords)) /\
  (c = ActionUnknown <->
     ~ has inquiryPrefixes /\ ~ has destructiveKeywords /\ ~ has writeKeywords /\
     ~ has readKeywords).
Proof.
  intros msg has c. unfold c, has, ClassifyDelegation. fold msg. rewrite <- !mentions_spec.
  destruct (mentions msg inquiryPrefixes), (mentions msg destructiveKeywords),
    (mentions msg writeKeywords), (mentions msg readKeywords); naive_solver.
Qed.
