(* ===== verification/Events.v ===== *)
(** * internal/audit: the event record and the data it carries

    The structs of event.go, of rollback.go and the [Approval] of approval.go, with
    the constants of event.go.  A pointer to a struct that may be nil is an
    [option].  A [map[string]any] is an association list of [any] values in key
    order; a float64 is a [spec_float].  Raw JSON ([json.RawMessage]) is its text. *)

From Stdlib Require Export SpecFloat.
From S2P Require Import Prelude GoTime Identity.

Open Scope string_scope.

Definition EventTypeDelegation := "delegation_decision".
Definition EventTypeOutcome := "delegation_outcome".
Definition EventTypeGatewayRequest := "gateway_request".
Definition EventTypeToolExecution := "tool_execution".
Definition EventTypePolicyDecision := "policy_decision".
Definition EventTypeAgentReasoning := "agent_reasoning".
Definition EventTypeGovernanceViolation := "governance_violation".
Definition EventTypeToolInvoked := "tool_invoked".
Definition EventTypeToolRetry := "tool_retry".
Definition EventTypeVerificationOutcome := "verification_outcome".
Definition EventTypeDelegationVerification := "delegation_verification".
Definition EventTypeNoDelegationTurn := "no_delegation_turn".
Definition EventTypeGateAcknowledged := "gate_acknowledged".
Definition EventTypeRollbackInitiated := "rollback_initiated".
Definition EventTypeRollbackExecuted := "rollback_executed".
Definition EventTypeRollbackVerified := "rollback_verified".

(** The values [encoding/json] decodes into an [any]: a JSON number becomes a
    float64, here an integral one ([ANum], printed without exponent below 1e21) or
    another one with the text [%v] prints for it ([AFloat]). *)
Inductive any :=
  | ANil
  | ABool (b : bool)
  | ANum (n : Z)
  | AFloat (text : string)
  | AStr (s : string)
  | AList (l : list any)
  | AMap (m : list (string * any)).

Abbreviation anymap := (list (string * any)) (only parsing).

Record Alternative := { alt_Agent : string; RejectedBecause : string }.

Record Decision := {
  d_Agent : string;
  RequestCategory : string;
  Confidence : spec_float;
  UserIntent : string;
  ReasoningChain : list string;
  AlternativesConsidered : list Alternative }.

Record Session := {
  s_ID : string;
  s_UserID : string;
  AgentName : string;
  StartedAt : Time;
  DelegationCount : Z }.

Record Input := { UserQuery : string; InfrastructureContext : list string }.

Record Output := { Response : string }.

Record ToolExecution := {
  t_Name : string;
  t_Agent : string;
  Parameters : anymap;
  RawCommand : string;
  Result : string;
  t_Error : string;
  t_Duration : Z;
  PreState : string }.

Record Outcome := { o_Status : string; o_ErrorMessage : string; o_Duration : Z }.

Record PolicyDecision := {
  ResourceType : string;
  ResourceName : string;
  pd_Action : string;
  pd_Tags : list string;
  Effect : string;
  PolicyName : string;
  RuleIndex : Z;
  Message : string;
  Note : string;
  DryRun : bool;
  PostExecution : bool;
  Trace : string;
  Explanation : string;
  pd_UserID : string;
  pd_Roles : list string;
  pd_Service : string;
  pd_AuthMethod : string;
  AutoApproved : bool;
  pd_Purpose : string;
  pd_PurposeNote : string;
  pd_Sensitivity : list string }.

Record AgentReasoning := { Reasoning : string; ToolCalls : list string }.

Record DelegationVerification := {
  DelegationEventID : string;
  dv_Agent : string;
  dv_ActionClass : string;
  ToolsConfirmed : list string;
  WriteConfirmed : list string;
  DestructiveConfirmed : list string;
  Mismatch : bool;
  MismatchReason : string }.

Record GovernanceViolation := {
  OperatingMode : string;
  gv_Module : string;
  Severity : string;
  Description : string;
  Remediation : string }.

(** rollback.go *)

Record InverseOperation := {
  io_Agent : string;
  io_Tool : string;
  Args : anymap;
  io_Description : string }.

Record RollbackPlan := {
  OriginalEventID : string;
  OriginalTool : string;
  OriginalTraceID : string;
  Reversibility : string;
  NotReversibleReason : string;
  InverseOp : option InverseOperation;
  GeneratedAt : Time }.

Record RollbackExecution := {
  re_RollbackID : string;
  re_OriginalEventID : string;
  re_OriginalTraceID : string;
  re_Plan : option RollbackPlan;
  re_Status : string;
  re_ErrorMessage : string }.

(** approval.go *)

Record Approval := {
  a_Required : bool;
  a_Status : string;
  a_RequestedBy : string;
  a_RequestedAt : Time;
  a_ApprovedBy : string;
  a_ApprovedAt : Time;
  a_Justification : string;
  a_PolicyName : string;
  a_ExpiresAt : Time }.

Record Event := {
  EventID : string;
  Timestamp : Time;
  EventType : string;
  TraceID : string;
  ParentID : string;
  Origin : string;
  e_ActionClass : string;
  PrevHash : string;
  EventHash : string;
  e_Principal : option ResolvedPrincipal;
  e_Purpose : string;
  e_PurposeNote : string;
  e_Session : Session;
  e_Input : Input;
  e_Output : option Output;
  e_Tool : option ToolExecution;
  e_Approval : option Approval;
  e_Decision : option Decision;
  e_PolicyDecision : option PolicyDecision;
  e_AgentReasoning : option AgentReasoning;
  e_GovernanceViolation : option GovernanceViolation;
  e_DelegationVerification : option DelegationVerification;
  e_Outcome : option Outcome;
  e_RollbackExecution : option RollbackExecution }.

(** The three assignments [Record] makes to an event. *)
Definition set_EventID (v : string) (e : Event) : Event :=
  {| EventID := v; Timestamp := Timestamp e; EventType := EventType e; TraceID := TraceID e;
     ParentID := ParentID e; Origin := Origin e; e_ActionClass := e_ActionClass e;
     PrevHash := PrevHash e; EventHash := EventHash e; e_Principal := e_Principal e;
     e_Purpose := e_Purpose e; e_PurposeNote := e_PurposeNote e; e_Session := e_Session e;
     e_Input := e_Input e; e_Output := e_Output e; e_Tool := e_Tool e; e_Approval := e_Approval e;
     e_Decision := e_Decision e; e_PolicyDecision := e_PolicyDecision e;
     e_AgentReasoning := e_AgentReasoning e; e_GovernanceViolation := e_GovernanceViolation e;
     e_DelegationVerification := e_DelegationVerification e; e_Outcome := e_Outcome e;
     e_RollbackExecution := e_RollbackExecution e |}.

Definition set_Timestamp (v : Time) (e : Event) : Event :=
  {| EventID := EventID e; Timestamp := v; EventType := EventType e; TraceID := TraceID e;
     ParentID := ParentID e; Origin := Origin e; e_ActionClass := e_ActionClass e;
     PrevHash := PrevHash e; EventHash := EventHash e; e_Principal := e_Principal e;
     e_Purpose := e_Purpose e; e_PurposeNote := e_PurposeNote e; e_Session := e_Session e;
     e_Input := e_Input e; e_Output := e_Output e; e_Tool := e_Tool e; e_Approval := e_Approval e;
     e_Decision := e_Decision e; e_PolicyDecision := e_PolicyDecision e;
     e_AgentReasoning := e_AgentReasoning e; e_GovernanceViolation := e_GovernanceViolation e;
     e_DelegationVerification := e_DelegationVerification e; e_Outcome := e_Outcome e;
     e_RollbackExecution := e_RollbackExecution e |}.

Definition set_hashes (prev hash : string) (e : Event) : Event :=
  {| EventID := EventID e; Timestamp := Timestamp e; EventType := EventType e; TraceID := TraceID e;
     ParentID := ParentID e; Origin := Origin e; e_ActionClass := e_ActionClass e;
     PrevHash := prev; EventHash := hash; e_Principal := e_Principal e;
     e_Purpose := e_Purpose e; e_PurposeNote := e_PurposeNote e; e_Session := e_Session e;
     e_Input := e_Input e; e_Output := e_Output e; e_Tool := e_Tool e; e_Approval := e_Approval e;
     e_Decision := e_Decision e; e_PolicyDecision := e_PolicyDecision e;
     e_AgentReasoning := e_AgentReasoning e; e_GovernanceViolation := e_GovernanceViolation e;
     e_DelegationVerification := e_DelegationVerification e; e_Outcome := e_Outcome e;
     e_RollbackExecution := e_RollbackExecution e |}.

(** The zero event with the given session, for composite literals. *)
Definition zero_event : Event :=
  {| EventID := ""; Timestamp := 0%Z; EventType := ""; TraceID := ""; ParentID := ""; Origin := "";
     e_ActionClass := ""; PrevHash := ""; EventHash := ""; e_Principal := None; e_Purpose := "";
     e_PurposeNote := "";
     e_Session := {| s_ID := ""; s_UserID := ""; AgentName := ""; StartedAt := 0%Z;
                     DelegationCount := 0%Z |};
     e_Input := {| UserQuery := ""; InfrastructureContext := [] |};
     e_Output := None; e_Tool := None; e_Approval := None; e_Decision := None;
     e_PolicyDecision := None; e_AgentReasoning := None; e_GovernanceViolation := None;
     e_DelegationVerification := None; e_Outcome := None; e_RollbackExecution := None |}.
