(* ===== verification/AuditChain.v ===== *)
(** * internal/audit/hash.go and the audit event store: the hash chain

    [ComputeEventHash], [VerifyEventHash], [VerifyChain] (which may panic) and
    [VerifyChainStatus]; the store of store.go with [Record], [RecordOutcome],
    [initLastHash] and [VerifyIntegrity] over the rows of audit_events in id order;
    [rebind].  SHA-256 and the JSON encoders of the hash input and of the event are
    parameters; [None] is an encoding error.  The clock, the fresh id and the
    database's own failures are arguments of the operations. *)

From S2P Require Import Prelude GoTime Identity Events.

Open Scope string_scope.

Definition GenesisHash : string :=
  "0000000000000000000000000000000000000000000000000000000000000000".

Record HashInput := {
  hi_EventID : string;
  hi_Timestamp : string;
  hi_EventType : string;
  hi_TraceID : string;
  hi_ParentID : string;
  hi_ActionClass : string;
  hi_PrevHash : string;
  hi_Session : Session;
  hi_Input : Input;
  hi_Output : option Output;
  hi_Tool : option ToolExecution;
  hi_Approval : option Approval;
  hi_Decision : option Decision;
  hi_Outcome : option Outcome }.

Definition hash_input (event : Event) : HashInput :=
  {| hi_EventID := EventID event;
     hi_Timestamp := RFC3339Nano (Timestamp event);
     hi_EventType := EventType event;
     hi_TraceID := TraceID event;
     hi_ParentID := ParentID event;
     hi_ActionClass := e_ActionClass event;
     hi_PrevHash := PrevHash event;
     hi_Session := e_Session event;
     hi_Input := e_Input event;
     hi_Output := e_Output event;
     hi_Tool := e_Tool event;
     hi_Approval := e_Approval event;
     hi_Decision := e_Decision event;
     hi_Outcome := e_Outcome event |}.

Record ChainStatus := {
  Valid : bool;
  TotalEvents : Z;
  HashedEvents : Z;
  LegacyEvents : Z;
  BrokenAt : Z;
  cs_Error : string;
  FirstEventID : string;
  LastEventID : string;
  LastHash : string }.

(** A row of audit_events; the id is the position. *)
Record Row := {
  event_id : string;
  timestamp : string;
  event_type : string;
  trace_id : string;
  parent_id : string;
  action_class : string;
  prev_hash : string;
  event_hash : option string;
  session_id : string;
  session_agent : string;
  user_id : string;
  user_query : string;
  purpose : string;
  purpose_note : string;
  origin : string;
  tool_name : string;
  tool_json : string;
  approval_status : string;
  approval_json : string;
  decision_agent : string;
  decision_category : string;
  decision_confidence : option spec_float;
  decision_json : string;
  outcome_status : string;
  outcome_error : string;
  outcome_duration_ms : Z;
  raw_json : string }.

Record Store := {
  rows : list Row;
  isPostgres : bool;
  lastHash : string;
  notified : list string }.

(** [rebind]: the n-th question mark becomes [$n]. *)
Fixpoint rebind_from (n : Z) (query : string) : string :=
  match query with
  | EmptyString => EmptyString
  | String c q =>
      if Ascii.eqb c "?" then "$" ++ itoa (n + 1) ++ rebind_from (n + 1) q
      else String c (rebind_from n q)
  end.

Definition rebind (isPostgres : bool) (query : string) : string :=
  if negb isPostgres then query else rebind_from 0 query.

(** [d.Milliseconds()]: truncation toward zero. *)
Definition Milliseconds (d : Z) : Z := Z.quot d 1000000.

Section Chain.
Context (sha256hex : string -> string).
Context (marshal_hash : HashInput -> option string).

Definition hash_data (event : Event) : string :=
  match marshal_hash (hash_input event) with Some data => data | None => EventID event end.

Definition ComputeEventHash (event : Event) : string := sha256hex (hash_data event).

Definition VerifyEventHash (event : Event) : bool :=
  if EventHash event =?s "" then true else ComputeEventHash event =?s EventHash event.

Definition expectedPrevHash (prevEvent : Event) : string :=
  if EventHash prevEvent =?s "" then ComputeEventHash prevEvent else EventHash prevEvent.

(** [s[:16]] *)
Definition first16 (s : string) : option string :=
  if (String.length s <? 16)%nat then None else Some (String.substring 0 16 s).

Definition broken_link (i : Z) (event : Event) (expected : string) : outcome (Z * option string) :=
  match first16 (PrevHash event), first16 expected with
  | Some a, Some b =>
      Returns (i, Some ("event " ++ EventID event ++ " has broken chain link: prev_hash=" ++ a ++
                        "..., expected=" ++ b ++ "..."))
  | _, _ => Panics
  end.

Fixpoint verify_from (i : Z) (prev : option Event) (events : list Event)
    : outcome (Z * option string) :=
  match events with
  | [] => Returns (-1, None)%Z
  | event :: rest =>
      if negb (EventHash event =?s "") && negb (VerifyEventHash event) then
        Returns (i, Some ("event " ++ EventID event ++ " has invalid hash"))
      else
        match prev with
        | Some prevEvent =>
            if negb (PrevHash event =?s "") &&
               negb (PrevHash event =?s expectedPrevHash prevEvent)
            then broken_link i event (expectedPrevHash prevEvent)
            else verify_from (i + 1) (Some event) rest
        | None =>
            if negb (PrevHash event =?s "") && negb (PrevHash event =?s GenesisHash)
            then Returns (i, Some ("first event " ++ EventID event ++
                   " has invalid prev_hash (expected genesis or empty)"))
            else verify_from (i + 1) (Some event) rest
        end
  end.

Definition VerifyChain (events : list Event) : outcome (Z * option string) :=
  match events with
  | [] => Returns (-1, None)%Z
  | _ => verify_from 0 None events
  end.

Definition count_hashed (events : list Event) : Z :=
  Z.of_nat (length (List.filter (fun e => negb (EventHash e =?s "")) events)).

Definition count_legacy (events : list Event) : Z :=
  Z.of_nat (length (List.filter (fun e => EventHash e =?s "") events)).

Definition empty_status (total : Z) (valid : bool) : ChainStatus :=
  {| Valid := valid; TotalEvents := total; HashedEvents := 0; LegacyEvents := 0; BrokenAt := -1;
     cs_Error := ""; FirstEventID := ""; LastEventID := ""; LastHash := "" |}.

Definition VerifyChainStatus (events : list Event) : outcome ChainStatus :=
  match events, last events with
  | first :: _, Some lastEvent =>
      let status valid broken err :=
        {| Valid := valid;
           TotalEvents := Z.of_nat (length events);
           HashedEvents := count_hashed events;
           LegacyEvents := count_legacy events;
           BrokenAt := broken;
           cs_Error := err;
           FirstEventID := EventID first;
           LastEventID := EventID lastEvent;
           LastHash := expectedPrevHash lastEvent |} in
      match VerifyChain events with
      | Panics => Panics
      | Returns (brokenAt, Some err) => Returns (status false brokenAt err)
      | Returns (_, None) => Returns (status true (-1)%Z "")
      end
  | _, _ => Returns (empty_status 0 true)
  end.

(** ** What a valid chain is *)

Definition link_target (prev : option Event) : string :=
  match prev with Some p => expectedPrevHash p | None => GenesisHash end.

(** An event that [VerifyChain] accepts after [prev]. *)
Definition event_ok (prev : option Event) (e : Event) : Prop :=
  (EventHash e = "" \/ EventHash e = ComputeEventHash e) /\
  (PrevHash e = "" \/ PrevHash e = link_target prev).

Fixpoint chain_ok (prev : option Event) (events : list Event) : Prop :=
  match events with
  | [] => True
  | e :: rest => event_ok prev e /\ chain_ok (Some e) rest
  end.

Definition last_or (prev : option Event) (l : list Event) : option Event :=
  match last l with Some e => Some e | None => prev end.

Lemma last_or_cons prev e l : last_or prev (e :: l) = last_or (Some e) l.
Proof. unfold last_or. rewrite last_cons. by destruct (last l). Qed.

Lemma chain_ok_app prev l1 l2 :
  chain_ok prev (l1 ++ l2) <-> chain_ok prev l1 /\ chain_ok (last_or prev l1) l2.
Proof.
  revert prev. induction l1 as [|e l1 IH]; intros prev; simpl; [unfold last_or; simpl; naive_solver|].
  rewrite IH, last_or_cons. naive_solver.
Qed.

Lemma chain_ok_prefix prev l1 l2 : chain_ok prev (l1 ++ l2) -> chain_ok prev l1.
Proof. rewrite chain_ok_app. tauto. Qed.

Lemma VerifyEventHash_spec e :
  negb (EventHash e =?s "") && negb (VerifyEventHash e) = false <->
  EventHash e = "" \/ EventHash e = ComputeEventHash e.
Proof.
  unfold VerifyEventHash. destruct (String.eqb_spec (EventHash e) "") as [E|E]; simpl; [tauto|].
  destruct (String.eqb_spec (ComputeEventHash e) (EventHash e)); simpl; intuition congruence.
Qed.

Lemma link_spec prev e :
  negb (PrevHash e =?s "") && negb (PrevHash e =?s link_target prev) = false <->
  PrevHash e = "" \/ PrevHash e = link_target prev.
Proof.
  destruct (String.eqb_spec (PrevHash e) ""), (String.eqb_spec (PrevHash e) (link_target prev));
    simpl; intuition congruence.
Qed.

(** What a run of the loop from [prev] tells about [events]. *)
Definition verdict (prev : option Event) (events : list Event) (i : Z)
    (r : outcome (Z * option string)) : Prop :=
  match r with
  | Returns (k, None) => k = (-1)%Z /\ chain_ok prev events
  | Returns (k, Some _) => exists pre e post, events = (pre ++ e :: post)%list /\
      k = (i + Z.of_nat (length pre))%Z /\ chain_ok prev pre /\ ~ event_ok (last_or prev pre) e
  | Panics => exists pre p e post, events = (pre ++ e :: post)%list /\ chain_ok prev pre /\
      last_or prev pre = Some p /\ ~ event_ok (Some p) e /\
      (String.length (PrevHash e) < 16 \/ String.length (expectedPrevHash p) < 16)
  end.

Lemma verdict_cons prev e rest i r :
  event_ok prev e -> verdict (Some e) rest (i + 1) r -> verdict prev (e :: rest) i r.
Proof.
  intros He. destruct r as [[k [msg|]]|]; simpl.
  - intros (pre & x & post & -> & -> & Hpre & Hx). exists (e :: pre), x, post.
    rewrite last_or_cons. simpl length. split_and!; [done|lia|done|done].
  - intros [-> H]. done.
  - intros (pre & p & x & post & -> & Hpre & Hl & Hx). exists (e :: pre), p, x, post.
    rewrite last_or_cons. done.
Qed.

Lemma verdict_broken prev e rest i msg :
  ~ event_ok prev e -> verdict prev (e :: rest) i (Returns (i, Some msg)).
Proof.
  intros He. exists [], e, rest. split_and!; [done|simpl; lia|done|exact He].
Qed.

Lemma broken_link_verdict p e rest i :
  ~ event_ok (Some p) e -> verdict (Some p) (e :: rest) i (broken_link i e (expectedPrevHash p)).
Proof.
  intros He. unfold broken_link, first16.
  destruct (Nat.ltb_spec (String.length (PrevHash e)) 16);
    [|destruct (Nat.ltb_spec (String.length (expectedPrevHash p)) 16)];
    try by apply verdict_broken.
  all: exists [], p, e, rest; split_and!; first [done | by left | by right].
Qed.

Lemma verify_from_verdict i prev events : verdict prev events i (verify_from i prev events).
Proof.
  revert i prev. induction events as [|e rest IH]; intros i prev; [done|]. cbn [verify_from].
  destruct (negb (EventHash e =?s "") && negb (VerifyEventHash e)) eqn:Eh.
  { apply verdict_broken. intros [H _]. apply VerifyEventHash_spec in H. congruence. }
  apply VerifyEventHash_spec in Eh.
  destruct (negb (PrevHash e =?s "") && negb (PrevHash e =?s link_target prev)) eqn:El.
  - assert (~ event_ok prev e) by (intros [_ H]; apply link_spec in H; congruence).
    destruct prev as [p|]; simpl in El; rewrite El; [by apply broken_link_verdict|by apply verdict_broken].
  - pose proof El as Hl. apply link_spec in Hl.
    destruct prev as [p|]; simpl in El; rewrite El; apply verdict_cons; try done; apply IH.
Qed.

Lemma VerifyChain_verdict events : verdict None events 0 (VerifyChain events).
Proof. destruct events as [|e l]; [done|]. apply (verify_from_verdict 0 None (e :: l)). Qed.

Lemma verify_from_ok i prev events :
  chain_ok prev events -> verify_from i prev events = Returns (-1, None)%Z.
Proof.
  revert i prev. induction events as [|e rest IH]; intros i prev; [done|]. cbn [verify_from chain_ok].
  intros [[Hh Hl] Hr]. apply VerifyEventHash_spec in Hh as ->. apply link_spec in Hl.
  destruct prev as [p|]; simpl in Hl; rewrite Hl; by apply IH.
Qed.

Lemma VerifyChain_ok events : VerifyChain events = Returns (-1, None)%Z <-> chain_ok None events.
Proof.
  split.
  - intros H. pose proof (VerifyChain_verdict events) as V. rewrite H in V. apply V.
  - intros H. destruct events as [|e l]; [done|]. by apply verify_from_ok.
Qed.
(** ** The store *)

Context (marshal_event : Event -> option string).
Context (unmarshal_event : string -> option Event).
(** [json.Marshal] of the parts, whose errors the code drops. *)
Context (marshal_decision : Decision -> string).
Context (marshal_tool : ToolExecution -> string).
Context (marshal_approval : Approval -> string).

Definition initLastHash (s : Store) : Store :=
  {| rows := rows s; isPostgres := isPostgres s;
     lastHash :=
       match last (rows s) with
       | None => GenesisHash
       | Some r =>
           match event_hash r with
           | Some h => if negb (h =?s "") then h else GenesisHash
           | None => GenesisHash
           end
       end;
     notified := notified s |}.

Definition NewStore (tables : list Row) (pg : bool) : Store :=
  initLastHash {| rows := tables; isPostgres := pg; lastHash := GenesisHash; notified := [] |}.

Definition outcome_columns (event : Event) : string * string * Z :=
  match e_Outcome event, e_PolicyDecision event, e_DelegationVerification event with
  | Some o, _, _ => (o_Status o, o_ErrorMessage o, Milliseconds (o_Duration o))
  | None, Some pd, _ => (if Effect pd =?s "deny" then "denied" else Effect pd, "", 0%Z)
  | None, None, Some dv => (if Mismatch dv then "unverified_claim" else "verified", "", 0%Z)
  | None, None, None => ("", "", 0%Z)
  end.

Definition purpose_columns (event : Event) : string * string :=
  match e_PolicyDecision event with
  | Some pd => if e_Purpose event =?s "" then (pd_Purpose pd, pd_PurposeNote pd)
               else (e_Purpose event, e_PurposeNote event)
  | None => (e_Purpose event, e_PurposeNote event)
  end.

(** The arguments of the INSERT. *)
Definition row_of (event : Event) (rawJSON : string) : Row :=
  let decisionAgent := match e_Decision event with Some d => d_Agent d | None => "" end in
  let toolAgent := match e_Tool event with Some t => t_Agent t | None => "" end in
  let '(outcomeStatus, outcomeError, outcomeDurationMs) := outcome_columns event in
  let '(purposeVal, purposeNoteVal) := purpose_columns event in
  {| event_id := EventID event;
     timestamp := sqliteTimeFormat (Timestamp event);
     event_type := EventType event;
     trace_id := TraceID event;
     parent_id := ParentID event;
     action_class := e_ActionClass event;
     prev_hash := PrevHash event;
     event_hash := Some (EventHash event);
     session_id := s_ID (e_Session event);
     session_agent := AgentName (e_Session event);
     user_id := s_UserID (e_Session event);
     user_query := UserQuery (e_Input event);
     purpose := purposeVal;
     purpose_note := purposeNoteVal;
     origin := Origin event;
     tool_name := match e_Tool event with Some t => t_Name t | None => "" end;
     tool_json := match e_Tool event with Some t => marshal_tool t | None => "" end;
     approval_status := match e_Approval event with Some a => a_Status a | None => "" end;
     approval_json := match e_Approval event with Some a => marshal_approval a | None => "" end;
     decision_agent :=
       if (decisionAgent =?s "") && negb (toolAgent =?s "") then toolAgent else decisionAgent;
     decision_category := match e_Decision event with Some d => RequestCategory d | None => "" end;
     decision_confidence := match e_Decision event with Some d => Some (Confidence d) | None => None end;
     decision_json := match e_Decision event with Some d => marshal_decision d | None => "" end;
     outcome_status := outcomeStatus;
     outcome_error := outcomeError;
     outcome_duration_ms := outcomeDurationMs;
     raw_json := rawJSON |}.

(** The INSERT fails on a taken event_id (the column is UNIQUE) and whenever the
    database does ([db_err]). *)
Definition insert_row (s : Store) (r : Row) (db_err : option string) : option string :=
  match db_err with
  | Some e => Some e
  | None =>
      if existsb (fun r' => event_id r' =?s event_id r) (rows s)
      then Some "UNIQUE constraint failed: audit_events.event_id" else None
  end.

(** The event as [Record] completes it before it is written. *)
Definition complete_event (now : Time) (uuid8 : string) (s : Store) (event : Event) : Event :=
  let e1 := if EventID event =?s "" then set_EventID ("evt_" ++ uuid8) event else event in
  let e2 := if IsZero (Timestamp e1) then set_Timestamp now e1 else e1 in
  let e3 := set_hashes (lastHash s) (EventHash e2) e2 in
  set_hashes (lastHash s) (ComputeEventHash e3) e3.

(** [Record]: the store and the error; the caller's event becomes
    [complete_event]. *)
Definition Record_event (now : Time) (uuid8 : string) (db_err : option string) (s : Store)
    (event : Event) : Store * option string :=
  let event := complete_event now uuid8 s event in
  match marshal_event event with
  | None => (s, Some "marshal event")
  | Some rawJSON =>
      let r := row_of event rawJSON in
      match insert_row s r db_err with
      | Some e => (s, Some ("insert event: " ++ e))
      | None =>
          ({| rows := rows s ++ [r]; isPostgres := isPostgres s; lastHash := EventHash event;
              notified := notified s ++ [rawJSON] |}, None)
      end
  end.

Definition set_outcome (o : Outcome) (r : Row) : Row :=
  {| event_id := event_id r; timestamp := timestamp r; event_type := event_type r;
     trace_id := trace_id r; parent_id := parent_id r; action_class := action_class r;
     prev_hash := prev_hash r; event_hash := event_hash r; session_id := session_id r;
     session_agent := session_agent r; user_id := user_id r; user_query := user_query r;
     purpose := purpose r; purpose_note := purpose_note r; origin := origin r;
     tool_name := tool_name r; tool_json := tool_json r; approval_status := approval_status r;
     approval_json := approval_json r; decision_agent := decision_agent r;
     decision_category := decision_category r; decision_confidence := decision_confidence r;
     decision_json := decision_json r;
     outcome_status := o_Status o; outcome_error := o_ErrorMessage o;
     outcome_duration_ms := Milliseconds (o_Duration o); raw_json := raw_json r |}.

Definition RecordOutcome (eventID : string) (o : Outcome) (s : Store) : Store :=
  {| rows := map (fun r => if event_id r =?s eventID then set_outcome o r else r) (rows s);
     isPostgres := isPostgres s; lastHash := lastHash s; notified := notified s |}.

Fixpoint decode_rows (rs : list Row) : option (list Event) :=
  match rs with
  | [] => Some []
  | r :: rs' =>
      match unmarshal_event (raw_json r), decode_rows rs' with
      | Some e, Some es => Some (e :: es)
      | _, _ => None
      end
  end.

Definition VerifyIntegrity (s : Store) : outcome (result string ChainStatus) :=
  match decode_rows (rows s) with
  | None => Returns (Err "unmarshal event")
  | Some events =>
      match VerifyChainStatus events with
      | Panics => Panics
      | Returns status => Returns (Ok status)
      end
  end.

(** What can happen to the store: recording an event, with any clock, id and
    database failure, an outcome update, and a restart on the same tables. *)
Inductive store_step : Store -> Store -> Prop :=
  | step_record now uuid8 db_err event s :
      store_step s (Record_event now uuid8 db_err s event).1
  | step_outcome eventID o s : store_step s (RecordOutcome eventID o s)
  | step_restart s : store_step s (NewStore (rows s) (isPostgres s)).

Inductive reachable (pg : bool) : Store -> Prop :=
  | reach_new : reachable pg (NewStore [] pg)
  | reach_step s s' : reachable pg s -> store_step s s' -> reachable pg s'.
End Chain.

(** ** The store keeps its log valid *)

Section StoreInvariant.
Context (sha256hex : string -> string) (marshal_hash : HashInput -> option string).
Context (marshal_event : Event -> option string) (unmarshal_event : string -> option Event).
Context (marshal_decision : Decision -> string) (marshal_tool : ToolExecution -> string).
Context (marshal_approval : Approval -> string).

Abbreviation ComputeEventHash := (ComputeEventHash sha256hex marshal_hash).
Abbreviation chain_ok := (chain_ok sha256hex marshal_hash).
Abbreviation link_target := (link_target sha256hex marshal_hash).
Abbreviation VerifyChain := (VerifyChain sha256hex marshal_hash).

(** Decoding an encoded event gives one that encodes and hashes the same. *)
Hypothesis json_event_stable : forall e raw, marshal_event e = Some raw ->
  exists e', unmarshal_event raw = Some e' /\ PrevHash e' = PrevHash e /\
    EventHash e' = EventHash e /\ hash_data marshal_hash e' = hash_data marshal_hash e.
(** A digest is never the empty string. *)
Hypothesis sha_nonempty : forall d, sha256hex d <> "".

Definition hashed (e : Event) : Prop := EventHash e = ComputeEventHash e.

(** A row and the event its raw_json decodes to. *)
Definition row_event (r : Row) (e : Event) : Prop :=
  unmarshal_event (raw_json r) = Some e /\ event_hash r = Some (EventHash e) /\ hashed e.

Definition store_ok (s : Store) : Prop :=
  exists events, Forall2 row_event (rows s) events /\ chain_ok None events /\
    lastHash s = link_target (last events).

Lemma hashed_nonempty e : hashed e -> EventHash e <> "".
Proof. intros ->. apply sha_nonempty. Qed.

Lemma expectedPrevHash_hashed e :
  hashed e -> expectedPrevHash sha256hex marshal_hash e = EventHash e.
Proof.
  intros H. unfold expectedPrevHash. apply hashed_nonempty, streq_false in H. by rewrite H.
Qed.

Lemma decode_rows_ok rs events :
  Forall2 row_event rs events -> decode_rows unmarshal_event rs = Some events.
Proof. induction 1 as [|r e rs es (Hu & _) _ IH]; [done|]. simpl. by rewrite Hu, IH. Qed.

Lemma store_ok_init s events :
  Forall2 row_event (rows s) events -> chain_ok None events -> store_ok (initLastHash s).
Proof.
  intros HF Hc. exists events. split_and!; [done|done|]. simpl.
  destruct (Forall2_length _ _ _ HF). revert HF.
  induction events as [|e es _] using rev_ind; intros HF.
  - apply Forall2_nil_inv_r in HF. by rewrite HF.
  - apply Forall2_app_inv_r in HF as (rs & rl & _ & Hl & ->).
    inversion Hl as [|r ? rl' ? (_ & He & Hh) Hnil]; subst. inversion Hnil; subst.
    rewrite !last_snoc, He. simpl. rewrite (expectedPrevHash_hashed _ Hh).
    apply hashed_nonempty, streq_false in Hh. by rewrite Hh.
Qed.

Lemma complete_event_hashed now uuid8 s e :
  let e' := complete_event sha256hex marshal_hash now uuid8 s e in
  hashed e' /\ PrevHash e' = lastHash s.
Proof. split; reflexivity. Qed.

Lemma store_ok_record now uuid8 db_err s e :
  store_ok s ->
  store_ok (Record_event sha256hex marshal_hash marshal_event marshal_decision marshal_tool
              marshal_approval now uuid8 db_err s e).1.
Proof.
  intros (events & HF & Hc & Hlast). unfold Record_event.
  destruct (complete_event_hashed now uuid8 s e) as [Hh Hp].
  set (e1 := complete_event _ _ _ _ _ _) in *.
  destruct (marshal_event e1) as [raw|] eqn:Em; [|by exists events].
  destruct (json_event_stable _ _ Em) as (e2 & Hu & Hp2 & He2 & Hd2).
  destruct (insert_row _ _ _); [by exists events|].
  assert (Hh2 : hashed e2).
  { unfold hashed, AuditChain.ComputeEventHash. rewrite Hd2, He2. exact Hh. }
  exists (events ++ [e2])%list. simpl. split_and!.
  - apply Forall2_app; [done|]. constructor; [|constructor].
    unfold row_of, row_event. destruct (outcome_columns e1) as [[] ?], (purpose_columns e1). simpl.
    by rewrite He2.
  - rewrite chain_ok_app. split; [exact Hc|]. simpl. split; [|done]. split; [by right|].
    right. rewrite Hp2, Hp, Hlast. unfold last_or. by destruct (last events).
  - rewrite last_snoc. simpl. by rewrite (expectedPrevHash_hashed _ Hh2).
Qed.

Lemma store_ok_outcome eventID o s : store_ok s -> store_ok (RecordOutcome eventID o s).
Proof.
  intros (events & HF & Hc & Hlast). exists events. split_and!; [|done|done]. simpl.
  clear Hc Hlast. induction HF as [|r e rs es Hr _ IH]; simpl; constructor; [|done].
  by destruct (event_id r =?s eventID).
Qed.

Lemma reachable_ok pg s :
  reachable sha256hex marshal_hash marshal_event marshal_decision marshal_tool marshal_approval pg s ->
  store_ok s.
Proof.
  induction 1 as [|s s' _ IH Hstep].
  - by apply (store_ok_init _ []).
  - destruct Hstep; [by apply store_ok_record|by apply store_ok_outcome|].
    destruct IH as (events & HF & Hc & _). by apply (store_ok_init _ events).
Qed.

Lemma filter_hashed rs events :
  Forall2 row_event rs events ->
  count_hashed events = Z.of_nat (length rs) /\ count_legacy events = 0%Z.
Proof.
  unfold count_hashed, count_legacy. intros HF.
  induction HF as [|r e rs es (_ & _ & Hh) _ [IH1 IH2]]; [done|].
  apply hashed_nonempty, streq_false in Hh. simpl. rewrite Hh. simpl. lia.
Qed.

End StoreInvariant.

(** ** Tamper evidence *)

Section Tamper.
Context (sha256hex : string -> string) (marshal_hash : HashInput -> option string).
Abbreviation VerifyChain := (VerifyChain sha256hex marshal_hash).
Abbreviation link_target := (link_target sha256hex marshal_hash).

(** The encoding of the hash input determines its prev_hash member. *)
Hypothesis marshal_hash_prev : forall h1 h2 d,
  marshal_hash h1 = Some d -> marshal_hash h2 = Some d -> hi_PrevHash h1 = hi_PrevHash h2.

(** An event the store wrote: both hashes present, and an encodable input. *)
Definition sealed (e : Event) : Prop :=
  EventHash e <> "" /\ PrevHash e <> "" /\ marshal_hash (hash_input e) <> None.

Definition same_data (a b : Event) : Prop := hash_data marshal_hash a = hash_data marshal_hash b.

(** Two sealed logs that end in the same hash: a collision of the digest, a
    preimage of the genesis hash, or the same hashed content throughout. *)
Definition broken_digest : Prop :=
  (exists d1 d2, d1 <> d2 /\ sha256hex d1 = sha256hex d2) \/ (exists d, sha256hex d = GenesisHash).

Lemma sealed_last prev l e :
  chain_ok sha256hex marshal_hash prev (l ++ [e]) -> sealed e ->
  EventHash e = sha256hex (hash_data marshal_hash e) /\
  PrevHash e = AuditChain.link_target sha256hex marshal_hash (last_or prev l) /\
  link_target (last (l ++ [e])%list) = EventHash e.
Proof.
  rewrite chain_ok_app. intros [_ [[[He|He] [Hp|Hp]] _]] (H1 & H2 & _); try done.
  split_and!; [exact He|exact Hp|]. rewrite last_snoc. simpl. unfold expectedPrevHash.
  apply streq_false in H1. by rewrite H1.
Qed.

Lemma same_data_prev a b : sealed a -> sealed b -> same_data a b -> PrevHash a = PrevHash b.
Proof.
  intros (_ & _ & Ha) (_ & _ & Hb) H. unfold same_data, hash_data in H.
  destruct (marshal_hash (hash_input a)) as [d|] eqn:Ea; [|done].
  destruct (marshal_hash (hash_input b)) as [d'|] eqn:Eb; [|done]. subst d'.
  exact (marshal_hash_prev _ _ d Ea Eb).
Qed.

Lemma same_hash_same_data a b :
  sha256hex (hash_data marshal_hash a) = sha256hex (hash_data marshal_hash b) ->
  same_data a b \/ broken_digest.
Proof.
  intros H. destruct (decide (hash_data marshal_hash a = hash_data marshal_hash b)); [by left|].
  right. left. eauto.
Qed.

Lemma tamper_chain l1 l2 :
  chain_ok sha256hex marshal_hash None l1 -> chain_ok sha256hex marshal_hash None l2 ->
  Forall sealed l1 -> Forall sealed l2 ->
  link_target (last l1) = link_target (last l2) ->
  Forall2 same_data l1 l2 \/ broken_digest.
Proof.
  revert l2. induction l1 as [|a l1 IH] using rev_ind; intros l2 H1 H2 S1 S2 Hl.
  - destruct l2 as [|b l2 _] using rev_ind; [by left|]. right. right.
    rewrite Forall_app in S2; destruct S2 as [_ Sb]. rewrite Forall_singleton in Sb.
    destruct (sealed_last _ _ _ H2 Sb) as (Hb & _ & Ht). exists (hash_data marshal_hash b).
    rewrite <- Hb, <- Ht, <- Hl. done.
  - rewrite Forall_app in S1; destruct S1 as [S1 Sa]. rewrite Forall_singleton in Sa.
    destruct (sealed_last _ _ _ H1 Sa) as (Ha & Hpa & Hta). rewrite Hta in Hl.
    destruct l2 as [|b l2 _] using rev_ind.
    { right. right. exists (hash_data marshal_hash a). by rewrite <- Ha, Hl. }
    rewrite Forall_app in S2; destruct S2 as [S2 Sb]. rewrite Forall_singleton in Sb.
    destruct (sealed_last _ _ _ H2 Sb) as (Hb & Hpb & Htb). rewrite Htb, Ha, Hb in Hl.
    destruct (same_hash_same_data _ _ Hl) as [Hab|]; [|by right].
    destruct (IH l2) as [HF|]; [by apply chain_ok_prefix in H1|by apply chain_ok_prefix in H2|done|done| | |by right].
    + pose proof (same_data_prev _ _ Sa Sb Hab) as Hp. rewrite Hpa, Hpb in Hp.
      unfold last_or in Hp. by destruct (last l1), (last l2).
    + left. apply Forall2_app; [done|]. by constructor.
Qed.

(** C3 (safety). Tamper evidence: two logs of sealed events that both verify and
    end in the same hash (the one an auditor has noted, say) carry the same hashed
    content event by event, and so have the same length, unless a collision of the
    digest or a preimage of the genesis hash is at hand. *)
Theorem tamper_evidence l1 l2
    (Hv1 : VerifyChain l1 = Returns (-1, None)%Z) (Hv2 : VerifyChain l2 = Returns (-1, None)%Z)
    (Hs1 : Forall sealed l1) (Hs2 : Forall sealed l2)
    (Hend : link_target (last l1) = link_target (last l2)) :
  Forall2 same_data l1 l2 \/ broken_digest.
Proof. apply VerifyChain_ok in Hv1, Hv2. by apply tamper_chain. Qed.
End Tamper.

(** ** What the chain does not protect *)

(** Other values for every member that is not part of the hash input. *)
Record Forgery := {
  f_Origin : string;
  f_Principal : option ResolvedPrincipal;
  f_Purpose : string;
  f_PurposeNote : string;
  f_PolicyDecision : option PolicyDecision;
  f_AgentReasoning : option AgentReasoning;
  f_GovernanceViolation : option GovernanceViolation;
  f_DelegationVerification : option DelegationVerification;
  f_RollbackExecution : option RollbackExecution }.

Definition forge (f : Event -> Forgery) (e : Event) : Event :=
  {| EventID := EventID e; Timestamp := Timestamp e; EventType := EventType e; TraceID := TraceID e;
     ParentID := ParentID e; Origin := f_Origin (f e); e_ActionClass := e_ActionClass e;
     PrevHash := PrevHash e; EventHash := EventHash e; e_Principal := f_Principal (f e);
     e_Purpose := f_Purpose (f e); e_PurposeNote := f_PurposeNote (f e); e_Session := e_Session e;
     e_Input := e_Input e; e_Output := e_Output e; e_Tool := e_Tool e; e_Approval := e_Approval e;
     e_Decision := e_Decision e; e_PolicyDecision := f_PolicyDecision (f e);
     e_AgentReasoning := f_AgentReasoning (f e);
     e_GovernanceViolation := f_GovernanceViolation (f e);
     e_DelegationVerification := f_DelegationVerification (f e); e_Outcome := e_Outcome e;
     e_RollbackExecution := f_RollbackExecution (f e) |}.

Lemma verify_from_forge sha marshal f i prev events :
  verify_from sha marshal i (option_map (forge f) prev) (map (forge f) events) =
  verify_from sha marshal i prev events.
Proof.
  revert i prev. induction events as [|e rest IH]; intros i prev; [done|].
  cbn [verify_from map]. rewrite (IH (i + 1)%Z (Some e) : verify_from _ _ _ (Some (forge f e)) _ = _).
  by destruct prev.
Qed.

(** The two ways past the chain.  Replacing the policy decision, the
    principal, the purpose, the origin and the other unhashed members of any events
    by anything leaves the verdict of [VerifyChain] as it was; and a log whose two
    hash members are blanked in every event verifies, as a log of legacy events. *)
Theorem chain_blind_spots sha marshal f events :
  VerifyChain sha marshal (map (forge f) events) = VerifyChain sha marshal events /\
  VerifyChain sha marshal (map (set_hashes "" "") events) = Returns (-1, None)%Z.
Proof.
  split.
  - destruct events as [|e l]; [done|]. apply (verify_from_forge sha marshal f 0 None (e :: l)).
  - apply VerifyChain_ok. generalize (@None Event).
    induction events as [|e l IH]; intros prev; simpl; [done|].
    split; [split; by left|apply IH].
Qed.

(** The verdict of [VerifyChain] on any list of events.  "No
    break" is returned exactly for valid chains (every present hash right, every
    present link equal to the previous event's hash, computed for a legacy one, the
    first to the genesis hash); a reported index is that of the first event that
    breaks the chain; and the call panics only at a first break that is a link
    shorter than sixteen bytes on one of its sides. *)
Theorem VerifyChain_spec sha marshal events :
  (VerifyChain sha marshal events = Returns (-1, None)%Z <-> chain_ok sha marshal None events) /\
  verdict sha marshal None events 0 (VerifyChain sha marshal events).
Proof. split; [apply VerifyChain_ok|apply VerifyChain_verdict]. Qed.

(** A link of one byte in the second event makes the verification panic. *)
Example VerifyChain_panics :
  let e1 := set_hashes "" "" zero_event in
  let e2 := set_hashes "x" "" zero_event in
  VerifyChain (fun d => GenesisHash) (fun _ => Some "") [e1; e2] = Panics.
Proof. reflexivity. Qed.

(** ** Concrete encoders

    A self-delimiting encoding of the members the chain reads, for runs: each byte
    is preceded by "1" and the end is marked by "0". *)

Fixpoint enc (s : string) : string :=
  match s with EmptyString => "0" | String c s' => String "1" (String c (enc s')) end.

Fixpoint dec (s : string) : option (string * string) :=
  match s with
  | String "1" (String c s') =>
      match dec s' with Some (a, rest) => Some (String c a, rest) | None => None end
  | String "0" rest => Some ("", rest)
  | _ => None
  end.

Lemma dec_enc s rest : dec (enc s ++ rest) = Some (s, rest).
Proof. induction s as [|c s IH]; [done|]. cbn [enc]. rewrite !append_cons. simpl. by rewrite IH. Qed.

Definition toy_sha (d : string) : string := "h" ++ d.
Definition toy_hash (h : HashInput) : option string := Some (enc (hi_PrevHash h) ++ hi_EventID h).
Definition toy_event (e : Event) : option string :=
  Some (enc (EventID e) ++ enc (PrevHash e) ++ enc (EventHash e)).
Definition toy_unmarshal (raw : string) : option Event :=
  match dec raw with
  | Some (id, r1) =>
      match dec r1 with
      | Some (p, r2) =>
          match dec r2 with
          | Some (h, _) => Some (set_hashes p h (set_EventID id zero_event))
          | None => None
          end
      | None => None
      end
  | None => None
  end.

Lemma toy_stable e raw : toy_event e = Some raw ->
  exists e', toy_unmarshal raw = Some e' /\ PrevHash e' = PrevHash e /\ EventHash e' = EventHash e /\
    hash_data toy_hash e' = hash_data toy_hash e.
Proof.
  intros [= <-]. unfold toy_unmarshal. rewrite <- (app_empty_r (enc (EventHash e))), !dec_enc.
  eexists. split; [reflexivity|]. done.
Qed.

Lemma toy_hash_prev h1 h2 d :
  toy_hash h1 = Some d -> toy_hash h2 = Some d -> hi_PrevHash h1 = hi_PrevHash h2.
Proof.
  intros [= <-] [= H]. pose proof (dec_enc (hi_PrevHash h1) (hi_EventID h1)) as E.
  rewrite <- H, dec_enc in E. by injection E.
Qed.

Definition toy_record (id : string) (s : Store) : Store :=
  (Record_event toy_sha toy_hash toy_event (fun _ => "") (fun _ => "") (fun _ => "") 1%Z id None s
     zero_event).1.

Definition toy_store : Store := toy_record "b" (toy_record "a" (NewStore [] false)).


Definition toy_log : list Event :=
  match decode_rows toy_unmarshal (rows toy_store) with Some l => l | None => [] end.

Lemma tamper_evidence_witness :
  length toy_log = 2 /\
  (Forall2 (same_data toy_hash) toy_log (map (forge (fun _ =>
     {| f_Origin := "forged"; f_Principal := None; f_Purpose := ""; f_PurposeNote := "";
        f_PolicyDecision := None; f_AgentReasoning := None; f_GovernanceViolation := None;
        f_DelegationVerification := None; f_RollbackExecution := None |})) toy_log) \/
   broken_digest toy_sha).
Proof.
  split; [reflexivity|].
  apply (tamper_evidence toy_sha toy_hash toy_hash_prev); try reflexivity.
  - repeat constructor; discriminate.
  - repeat constructor; discriminate.
Defined.
