(* ===== verification/ApprovalStore.v ===== *)
(** * internal/audit/approval_store.go: approval requests and their waiters

    The table of approval requests, kept in id order with a unique approval_id, and
    the waiter registry.  A time column holds the RFC3339Nano text of a UTC
    instant, NULL for the zero time: it is kept as the instant and compared, where a
    query compares it, as that text.  Every operation of the store is a function of
    the clock; [db_err] is a failure of the database.  [WaitForResolution] is split
    into its atomic parts: the first look-up, the registration, the receive and the
    deferred removal. *)

From S2P Require Import Prelude GoTime TimeText Events.

Open Scope string_scope.

Record StoredApproval := {
  ApprovalID : string;
  sa_EventID : string;
  sa_TraceID : string;
  Status : string;
  sa_ActionClass : string;
  ToolName : string;
  sa_AgentName : string;
  sa_ResourceType : string;
  sa_ResourceName : string;
  RequestedBy : string;
  RequestedAt : Time;
  RequestContext : anymap;
  ResolvedBy : string;
  ResolvedAt : Time;
  ResolutionReason : string;
  ExpiresAt : Time;
  ApprovalValidUntil : Time;
  sa_PolicyName : string;
  ApproverRole : string;
  CallbackURL : string;
  CallbackSentAt : Time;
  CreatedAt : Time;
  UpdatedAt : Time }.

(** SET status, resolved_by, resolved_at, resolution_reason, approval_valid_until,
    updated_at. *)
Definition set_resolution (status by_ reason : string) (at_ valid_until : Time) (r : StoredApproval)
    : StoredApproval :=
  {| ApprovalID := ApprovalID r; sa_EventID := sa_EventID r; sa_TraceID := sa_TraceID r;
     Status := status; sa_ActionClass := sa_ActionClass r; ToolName := ToolName r;
     sa_AgentName := sa_AgentName r; sa_ResourceType := sa_ResourceType r;
     sa_ResourceName := sa_ResourceName r; RequestedBy := RequestedBy r;
     RequestedAt := RequestedAt r; RequestContext := RequestContext r; ResolvedBy := by_;
     ResolvedAt := at_; ResolutionReason := reason; ExpiresAt := ExpiresAt r;
     ApprovalValidUntil := valid_until; sa_PolicyName := sa_PolicyName r;
     ApproverRole := ApproverRole r; CallbackURL := CallbackURL r;
     CallbackSentAt := CallbackSentAt r; CreatedAt := CreatedAt r; UpdatedAt := at_ |}.

Definition set_callback (at_ : Time) (r : StoredApproval) : StoredApproval :=
  {| ApprovalID := ApprovalID r; sa_EventID := sa_EventID r; sa_TraceID := sa_TraceID r;
     Status := Status r; sa_ActionClass := sa_ActionClass r; ToolName := ToolName r;
     sa_AgentName := sa_AgentName r; sa_ResourceType := sa_ResourceType r;
     sa_ResourceName := sa_ResourceName r; RequestedBy := RequestedBy r;
     RequestedAt := RequestedAt r; RequestContext := RequestContext r; ResolvedBy := ResolvedBy r;
     ResolvedAt := ResolvedAt r; ResolutionReason := ResolutionReason r; ExpiresAt := ExpiresAt r;
     ApprovalValidUntil := ApprovalValidUntil r; sa_PolicyName := sa_PolicyName r;
     ApproverRole := ApproverRole r; CallbackURL := CallbackURL r; CallbackSentAt := at_;
     CreatedAt := CreatedAt r; UpdatedAt := at_ |}.

(** The request as [CreateRequest] completes it; the resolution columns are not
    among the inserted ones and stay NULL. *)
Definition complete_request (now : Time) (uuid8 : string) (r : StoredApproval) : StoredApproval :=
  {| ApprovalID := if ApprovalID r =?s "" then "apr_" ++ uuid8 else ApprovalID r;
     sa_EventID := sa_EventID r; sa_TraceID := sa_TraceID r;
     Status := if Status r =?s "" then "pending" else Status r;
     sa_ActionClass := sa_ActionClass r; ToolName := ToolName r;
     sa_AgentName := sa_AgentName r; sa_ResourceType := sa_ResourceType r;
     sa_ResourceName := sa_ResourceName r; RequestedBy := RequestedBy r;
     RequestedAt := if IsZero (RequestedAt r) then now else RequestedAt r;
     RequestContext := RequestContext r; ResolvedBy := ""; ResolvedAt := 0%Z;
     ResolutionReason := ""; ExpiresAt := ExpiresAt r; ApprovalValidUntil := 0%Z;
     sa_PolicyName := sa_PolicyName r; ApproverRole := ApproverRole r;
     CallbackURL := CallbackURL r; CallbackSentAt := 0%Z; CreatedAt := now; UpdatedAt := now |}.

(** The waiter registry maps an approval id to its channels, each a buffer of one. *)
Record ApprovalStore := {
  table : list StoredApproval;
  waiters : gmap string (list nat);
  chans : gmap nat (option StoredApproval) }.

Definition NewApprovalStore (table : list StoredApproval) : ApprovalStore :=
  {| table := table; waiters := ∅; chans := ∅ |}.

Definition with_table (t : list StoredApproval) (s : ApprovalStore) : ApprovalStore :=
  {| table := t; waiters := waiters s; chans := chans s |}.

Definition has_id (id : string) (r : StoredApproval) : bool := ApprovalID r =?s id.

Definition CreateRequest (now : Time) (uuid8 : string) (db_err : option string) (s : ApprovalStore)
    (req : StoredApproval) : ApprovalStore * option string :=
  let req := complete_request now uuid8 req in
  match db_err with
  | Some e => (s, Some e)
  | None =>
      if existsb (has_id (ApprovalID req)) (table s)
      then (s, Some "UNIQUE constraint failed: approval_requests.approval_id")
      else (with_table (table s ++ [req])%list s, None)
  end.

Definition GetRequest (s : ApprovalStore) (approvalID : string) : result string StoredApproval :=
  match find (has_id approvalID) (table s) with
  | Some r => Ok r
  | None => Err "approval not found"
  end.

(** ORDER BY created_at DESC, on the text of the column. *)
Definition newest_first (a b : StoredApproval) : bool :=
  text_lt (RFC3339Nano (CreatedAt b)) (RFC3339Nano (CreatedAt a)).

Definition GetRequestByTraceAndTool (s : ApprovalStore) (traceID toolName : string)
    : result string StoredApproval :=
  match isort newest_first
          (List.filter (fun r => (sa_TraceID r =?s traceID) && (ToolName r =?s toolName)) (table s)) with
  | r :: _ => Ok r
  | [] => Err "approval not found"
  end.

Record ApprovalQueryOptions := {
  q_Status : string;
  q_AgentName : string;
  q_TraceID : string;
  q_RequestedBy : string;
  q_ToolName : string;
  q_Since : Time;
  q_Limit : Z }.

Definition query_selects (opts : ApprovalQueryOptions) (r : StoredApproval) : bool :=
  ((q_Status opts =?s "") || (Status r =?s q_Status opts)) &&
  ((q_AgentName opts =?s "") || (sa_AgentName r =?s q_AgentName opts)) &&
  ((q_TraceID opts =?s "") || (sa_TraceID r =?s q_TraceID opts)) &&
  ((q_RequestedBy opts =?s "") || (RequestedBy r =?s q_RequestedBy opts)) &&
  ((q_ToolName opts =?s "") || (ToolName r =?s q_ToolName opts)) &&
  (IsZero (q_Since opts) || text_le (RFC3339Nano (q_Since opts)) (RFC3339Nano (CreatedAt r))).

Definition ListRequests (s : ApprovalStore) (opts : ApprovalQueryOptions) : list StoredApproval :=
  let sorted := isort newest_first (List.filter (query_selects opts) (table s)) in
  if (0 <? q_Limit opts)%Z then firstn (Z.to_nat (q_Limit opts)) sorted else sorted.

(** [UPDATE ... WHERE approval_id = ? AND status = 'pending']: the table and the
    number of rows affected. *)
Definition is_pending (r : StoredApproval) : bool := Status r =?s "pending".

Definition update_where (cond : StoredApproval -> bool) (f : StoredApproval -> StoredApproval)
    (s : ApprovalStore) : ApprovalStore * nat :=
  (with_table (map (fun r => if cond r then f r else r) (table s)) s,
   length (List.filter cond (table s))).

(** A send on a buffer of one that does not block. *)
Definition offer (req : StoredApproval) (m : gmap nat (option StoredApproval)) (ch : nat)
    : gmap nat (option StoredApproval) :=
  match m !! ch with
  | Some None => <[ch := Some req]> m
  | _ => m
  end.

Definition notifyWaiters (s : ApprovalStore) (approvalID : string) : ApprovalStore :=
  let channels := default [] (waiters s !! approvalID) in
  let s1 := {| table := table s; waiters := delete approvalID (waiters s); chans := chans s |} in
  match channels with
  | [] => s1
  | _ =>
      match GetRequest s1 approvalID with
      | Err _ => s1
      | Ok req =>
          {| table := table s1; waiters := waiters s1;
             chans := fold_left (offer req) channels (chans s1) |}
      end
  end.

Definition resolve (db_err : option string) (s : ApprovalStore) (approvalID : string)
    (f : StoredApproval -> StoredApproval) : ApprovalStore * option string :=
  match db_err with
  | Some e => (s, Some e)
  | None =>
      let '(s1, rows) := update_where (fun r => has_id approvalID r && is_pending r) f s in
      match rows with
      | O => (s1, Some ("approval " ++ approvalID ++ " not found or not pending"))
      | _ => (notifyWaiters s1 approvalID, None)
      end
  end.

Definition Approve (now : Time) (db_err : option string) (s : ApprovalStore)
    (approvalID approvedBy reason : string) (validFor : Z) : ApprovalStore * option string :=
  let validUntil := if (0 <? validFor)%Z then (now + validFor)%Z else 0%Z in
  resolve db_err s approvalID (set_resolution "approved" approvedBy reason now validUntil).

Definition Deny (now : Time) (db_err : option string) (s : ApprovalStore)
    (approvalID deniedBy reason : string) : ApprovalStore * option string :=
  resolve db_err s approvalID
    (fun r => set_resolution "denied" deniedBy reason now (ApprovalValidUntil r) r).

Definition Cancel (now : Time) (db_err : option string) (s : ApprovalStore)
    (approvalID cancelledBy reason : string) : ApprovalStore * option string :=
  resolve db_err s approvalID
    (fun r => set_resolution "cancelled" cancelledBy reason now (ApprovalValidUntil r) r).

(** [status = 'pending' AND expires_at IS NOT NULL AND expires_at < ?] *)
Definition is_expired (now : Time) (r : StoredApproval) : bool :=
  is_pending r &&
  match formatTimeOrNull (ExpiresAt r) with
  | Some e => text_lt e (RFC3339Nano now)
  | None => false
  end.

Definition ExpireRequests (now : Time) (s : ApprovalStore) : ApprovalStore * nat :=
  let expiredIDs := map ApprovalID (List.filter (is_expired now) (table s)) in
  match expiredIDs with
  | [] => (s, 0)
  | _ =>
      let '(s1, affected) := update_where (is_expired now)
        (fun r => set_resolution "expired" (ResolvedBy r) "Approval request expired" now
                    (ApprovalValidUntil r) r) s in
      (fold_left notifyWaiters expiredIDs s1, affected)
  end.

Definition MarkCallbackSent (now : Time) (s : ApprovalStore) (approvalID : string) : ApprovalStore :=
  (update_where (has_id approvalID) (set_callback now) s).1.

Definition IsApprovalValid (now : Time) (req : StoredApproval) : bool :=
  if negb (Status req =?s "approved") then false
  else if negb (IsZero (ApprovalValidUntil req)) && After now (ApprovalValidUntil req) then false
  else true.

(** ** WaitForResolution *)

(** The first look-up: answered at once unless the request is pending. *)
Definition wait_check (s : ApprovalStore) (approvalID : string) : option (result string StoredApproval) :=
  match GetRequest s approvalID with
  | Err e => Some (Err e)
  | Ok req => if negb (Status req =?s "pending") then Some (Ok req) else None
  end.

(** [ch] is the channel [make] returns, a fresh one. *)
Definition wait_register (s : ApprovalStore) (approvalID : string) (ch : nat) : ApprovalStore :=
  {| table := table s;
     waiters := <[approvalID := (default [] (waiters s !! approvalID) ++ [ch])%list]> (waiters s);
     chans := <[ch := None]> (chans s) |}.

Definition wait_receive (s : ApprovalStore) (ch : nat) : option StoredApproval :=
  match chans s !! ch with Some (Some req) => Some req | _ => None end.

(** The deferred removal, on both ways out. *)
Fixpoint remove_first (ch : nat) (l : list nat) : list nat :=
  match l with
  | [] => []
  | c :: l' => if Nat.eqb c ch then l' else c :: remove_first ch l'
  end.

Definition wait_cleanup (s : ApprovalStore) (approvalID : string) (ch : nat) : ApprovalStore :=
  let channels := remove_first ch (default [] (waiters s !! approvalID)) in
  {| table := table s;
     waiters := match channels with
                | [] => delete approvalID (waiters s)
                | _ => <[approvalID := channels]> (waiters s)
                end;
     chans := chans s |}.

(** ** Histories *)

Inductive approval_op :=
  | OCreate (now : Time) (uuid8 : string) (db_err : option string) (req : StoredApproval)
  | OApprove (now : Time) (db_err : option string) (id approvedBy reason : string) (validFor : Z)
  | ODeny (now : Time) (db_err : option string) (id deniedBy reason : string)
  | OCancel (now : Time) (db_err : option string) (id cancelledBy reason : string)
  | OExpire (now : Time)
  | OCallback (now : Time) (id : string)
  | ORegister (id : string) (ch : nat)
  | OCleanup (id : string) (ch : nat).

Definition apply_op (s : ApprovalStore) (o : approval_op) : ApprovalStore :=
  match o with
  | OCreate now uuid8 e req => (CreateRequest now uuid8 e s req).1
  | OApprove now e id by_ reason validFor => (Approve now e s id by_ reason validFor).1
  | ODeny now e id by_ reason => (Deny now e s id by_ reason).1
  | OCancel now e id by_ reason => (Cancel now e s id by_ reason).1
  | OExpire now => (ExpireRequests now s).1
  | OCallback now id => MarkCallbackSent now s id
  | ORegister id ch => wait_register s id ch
  | OCleanup id ch => wait_cleanup s id ch
  end.

Definition run (s : ApprovalStore) (ops : list approval_op) : ApprovalStore := fold_left apply_op ops s.

(** ** Lemmas: look-ups after updates *)

Definition unique_ids (s : ApprovalStore) : Prop := NoDup (map ApprovalID (table s)).

Lemma GetRequest_Ok s id r : GetRequest s id = Ok r <-> find (has_id id) (table s) = Some r.
Proof. unfold GetRequest. destruct (find _ _); naive_solver. Qed.

Lemma GetRequest_In s id r : GetRequest s id = Ok r -> In r (table s) /\ ApprovalID r = id.
Proof.
  rewrite GetRequest_Ok. intros H. apply find_some in H as [Hin H]. by apply streq_spec in H.
Qed.

Lemma GetRequest_table s s' id : table s = table s' -> GetRequest s id = GetRequest s' id.
Proof. unfold GetRequest. by intros ->. Qed.

Lemma notifyWaiters_table s id : table (notifyWaiters s id) = table s.
Proof. unfold notifyWaiters. by repeat case_match. Qed.

Lemma fold_notify_table ids s : table (fold_left notifyWaiters ids s) = table s.
Proof.
  revert s. induction ids as [|id ids IH]; intros s; simpl; [done|]. by rewrite IH, notifyWaiters_table.
Qed.

Lemma update_where_get cond f s id :
  (forall r, ApprovalID (f r) = ApprovalID r) ->
  GetRequest (update_where cond f s).1 id =
  match GetRequest s id with Ok r => Ok (if cond r then f r else r) | Err e => Err e end.
Proof.
  intros Hf. unfold GetRequest. simpl. rewrite find_map.
  assert (E : forall l, find (fun x => has_id id (if cond x then f x else x)) l = find (has_id id) l).
  { induction l as [|x l IH]; simpl; [done|]. rewrite IH. unfold has_id.
    destruct (cond x); [by rewrite Hf|done]. }
  rewrite E. by destruct (find _ _).
Qed.

Lemma update_where_ids cond f s :
  (forall r, ApprovalID (f r) = ApprovalID r) ->
  map ApprovalID (table (update_where cond f s).1) = map ApprovalID (table s).
Proof.
  intros Hf. simpl. rewrite List.map_map. apply map_ext. intros r. by destruct (cond r); rewrite ?Hf.
Qed.

Lemma update_where_none cond f s :
  (update_where cond f s).2 = 0 -> (update_where cond f s).1 = s.
Proof.
  simpl. intros H. destruct s as [t w c]. unfold with_table. simpl in *. f_equal.
  induction t as [|r t IH]; simpl in *; [done|].
  destruct (cond r); [discriminate H|]. by rewrite IH.
Qed.

(** The row count of an update of one pending request. *)
Lemma pending_count s id r f :
  unique_ids s -> GetRequest s id = Ok r ->
  (update_where (fun r => has_id id r && is_pending r) f s).2 = (if is_pending r then 1 else 0).
Proof.
  unfold unique_ids. rewrite GetRequest_Ok. simpl. generalize (table s). intros l Hn Hg.
  assert (Hz : forall l', ~ In id (map ApprovalID l') ->
    List.filter (fun r => has_id id r && is_pending r) l' = []).
  { induction l' as [|x l' IH]; simpl; [done|]. intros Hx.
    assert (has_id id x = false) as -> by (apply streq_false; tauto). simpl. apply IH. tauto. }
  induction l as [|x l IH]; simpl in *; [done|]. apply NoDup_cons in Hn as [Hx Hn].
  destruct (has_id id x) eqn:E; simpl.
  - injection Hg as ->. apply streq_spec in E. subst id. rewrite Hz.
    + by destruct (is_pending r).
    + by rewrite <- list_elem_of_In.
  - by apply IH.
Qed.

Lemma pending_count_none s id f :
  GetRequest s id = Err "approval not found" ->
  (update_where (fun r => has_id id r && is_pending r) f s).2 = 0.
Proof.
  unfold GetRequest. destruct (find _ _) eqn:E; [done|]. intros _. simpl.
  rewrite find_none_iff in E. generalize dependent (table s). intros l E.
  induction l as [|x l IH]; simpl in *; [done|]. rewrite (E x) by auto. simpl. auto.
Qed.

Lemma GetRequest_Err s id e : GetRequest s id = Err e -> e = "approval not found".
Proof. unfold GetRequest. destruct (find _ _); congruence. Qed.

(** What [resolve] does, on each branch. *)
Lemma resolve_pending s id r f :
  (forall r, ApprovalID (f r) = ApprovalID r) ->
  unique_ids s -> GetRequest s id = Ok r -> is_pending r = true ->
  let '(s', err) := resolve None s id f in
  err = None /\ GetRequest s' id = Ok (f r) /\
  (forall id', id' <> id -> GetRequest s' id' = GetRequest s id').
Proof.
  intros Hf Hu Hg Hp. unfold resolve.
  pose proof (pending_count s id r f Hu Hg) as Hc. rewrite Hp in Hc.
  pose proof (update_where_get (fun r => has_id id r && is_pending r) f s) as HG.
  destruct (update_where _ f s) as [s1 n]. simpl in Hc, HG. subst n.
  split; [done|]. pose proof (notifyWaiters_table s1 id) as Ht. split.
  - rewrite (GetRequest_table _ s1) by done. rewrite HG, Hg, Hp by done.
    apply GetRequest_In in Hg as [_ <-]. unfold has_id. by rewrite streq_refl.
  - intros id' Hne. rewrite (GetRequest_table _ s1) by done. rewrite HG by done.
    destruct (GetRequest s id') as [r'|] eqn:E; [|done].
    apply GetRequest_In in E as [_ E]. unfold has_id.
    by rewrite (proj2 (streq_false _ _)) by congruence.
Qed.

Lemma resolve_not_pending s id f :
  unique_ids s ->
  (forall r, GetRequest s id = Ok r -> is_pending r = false) ->
  resolve None s id f = (s, Some ("approval " ++ id ++ " not found or not pending")).
Proof.
  intros Hu Hnp. unfold resolve.
  assert (Hc : (update_where (fun r => has_id id r && is_pending r) f s).2 = 0).
  { destruct (GetRequest s id) as [r|e] eqn:E.
    - rewrite (pending_count s id r f Hu E). by rewrite Hnp.
    - pose proof (GetRequest_Err _ _ _ E) as ->. by apply pending_count_none. }
  pose proof (update_where_none _ _ _ Hc) as Hs.
  destruct (update_where _ f s) as [s1 n]. simpl in *. by subst.
Qed.

(** Whatever the outcome, [resolve] maps the table. *)
Lemma resolve_get e s id f id' :
  (forall r, ApprovalID (f r) = ApprovalID r) ->
  GetRequest (resolve e s id f).1 id' = GetRequest s id' \/
  (e = None /\ GetRequest (resolve e s id f).1 id' =
   match GetRequest s id' with
   | Ok r => Ok (if has_id id r && is_pending r then f r else r)
   | Err e => Err e
   end).
Proof.
  intros Hf. destruct e as [e|]; [by left|]. right. split; [done|]. unfold resolve.
  pose proof (update_where_get (fun r => has_id id r && is_pending r) f s id' Hf) as HG.
  destruct (update_where _ f s) as [s1 [|n]]; simpl in HG |- *; [done|].
  by rewrite (GetRequest_table _ s1) by apply notifyWaiters_table.
Qed.

Lemma resolve_ids e s id f :
  (forall r, ApprovalID (f r) = ApprovalID r) ->
  map ApprovalID (table (resolve e s id f).1) = map ApprovalID (table s).
Proof.
  intros Hf. destruct e as [e|]; [done|]. unfold resolve.
  pose proof (update_where_ids (fun r => has_id id r && is_pending r) f s Hf) as HG.
  destruct (update_where _ f s) as [s1 [|n]]; simpl in HG |- *; [done|].
  by rewrite notifyWaiters_table.
Qed.

Lemma ExpireRequests_table now s :
  table (ExpireRequests now s).1 =
  map (fun r => if is_expired now r then
                  set_resolution "expired" (ResolvedBy r) "Approval request expired" now
                    (ApprovalValidUntil r) r
                else r) (table s).
Proof.
  unfold ExpireRequests. destruct (map _ (List.filter _ _)) eqn:E.
  - apply map_eq_nil in E. simpl. rewrite <- (map_id (table s)) at 1. apply map_ext_in.
    intros r Hr. destruct (is_expired now r) eqn:Er; [|done].
    assert (H : In r (List.filter (is_expired now) (table s))) by (apply filter_In; done).
    by rewrite E in H.
  - simpl. by rewrite fold_notify_table, notifyWaiters_table.
Qed.

Lemma ExpireRequests_get now s id :
  GetRequest (ExpireRequests now s).1 id =
  match GetRequest s id with
  | Ok r => Ok (if is_expired now r then
                  set_resolution "expired" (ResolvedBy r) "Approval request expired" now
                    (ApprovalValidUntil r) r
                else r)
  | Err e => Err e
  end.
Proof.
  rewrite <- (update_where_get (is_expired now)) by done. apply GetRequest_table.
  by rewrite ExpireRequests_table.
Qed.

Lemma CreateRequest_get now uuid8 e s req id r :
  GetRequest s id = Ok r -> GetRequest (CreateRequest now uuid8 e s req).1 id = Ok r.
Proof.
  unfold CreateRequest. destruct e; [done|]. destruct (existsb _ _); [done|].
  rewrite !GetRequest_Ok. simpl. rewrite find_app_first. by intros ->.
Qed.

(** What one operation can do to the record of an id. *)
Lemma apply_op_record s o id r :
  GetRequest s id = Ok r ->
  exists r', GetRequest (apply_op s o) id = Ok r' /\
    (set_callback 0%Z r' = set_callback 0%Z r \/
     (Status r = "pending" /\
      ((exists now by_ reason validFor, o = OApprove now None id by_ reason validFor /\
          r' = set_resolution "approved" by_ reason now
                 (if (0 <? validFor)%Z then (now + validFor)%Z else 0%Z) r) \/
       Status r' = "denied" \/ Status r' = "cancelled" \/ Status r' = "expired"))).
Proof.
  intros Hg. destruct o; simpl; try (by exists r; auto).
  - exists r. split; [by apply CreateRequest_get|by left].
  - unfold Approve.
    match goal with |- context [resolve ?e s ?i ?f] =>
      destruct (resolve_get e s i f id) as [->|[-> ->]]; [done|by exists r; auto|] end.
    rewrite Hg. eexists. split; [reflexivity|].
    destruct (has_id _ r && is_pending r) eqn:E; [|by left]. right.
    apply andb_true_iff in E as [Ei Ep]. apply streq_spec in Ei, Ep.
    apply GetRequest_In in Hg as [_ Hid]. split; [done|]. left. subst. eauto 10.
  - unfold Deny.
    match goal with |- context [resolve ?e s ?i ?f] =>
      destruct (resolve_get e s i f id) as [->|[_ ->]]; [done|by exists r; auto|] end.
    rewrite Hg. eexists. split; [reflexivity|].
    destruct (has_id _ r && is_pending r) eqn:E; [|by left]. right.
    apply andb_true_iff in E as [_ Ep]. apply streq_spec in Ep. auto.
  - unfold Cancel.
    match goal with |- context [resolve ?e s ?i ?f] =>
      destruct (resolve_get e s i f id) as [->|[_ ->]]; [done|by exists r; auto|] end.
    rewrite Hg. eexists. split; [reflexivity|].
    destruct (has_id _ r && is_pending r) eqn:E; [|by left]. right.
    apply andb_true_iff in E as [_ Ep]. apply streq_spec in Ep. auto.
  - rewrite ExpireRequests_get, Hg. eexists. split; [reflexivity|].
    destruct (is_expired now r) eqn:E; [|by left]. right.
    apply andb_true_iff in E as [Ep _]. apply streq_spec in Ep. auto.
  - unfold MarkCallbackSent. rewrite update_where_get, Hg by done. eexists. split; [reflexivity|].
    left. by destruct (has_id id0 r).
Qed.

Lemma set_callback_status r r' :
  set_callback 0%Z r' = set_callback 0%Z r -> Status r' = Status r /\ ResolvedBy r' = ResolvedBy r /\
  ApprovalValidUntil r' = ApprovalValidUntil r.
Proof. intros H. injection H as ?. intuition congruence. Qed.

Lemma run_snoc s ops o : run s (ops ++ [o])%list = apply_op (run s ops) o.
Proof. unfold run. by rewrite fold_left_app. Qed.

Lemma run_app s ops1 ops2 : run s (ops1 ++ ops2)%list = run (run s ops1) ops2.
Proof. unfold run. by rewrite fold_left_app. Qed.

Lemma apply_op_ids s o :
  map ApprovalID (table (apply_op s o)) = map ApprovalID (table s) \/
  exists id, ~ In id (map ApprovalID (table s)) /\
    map ApprovalID (table (apply_op s o)) = (map ApprovalID (table s) ++ [id])%list.
Proof.
  destruct o; simpl; try (by left); try (left; by apply resolve_ids).
  - unfold CreateRequest. destruct db_err; [by left|].
    destruct (existsb _ _) eqn:E; [by left|]. right. eexists. split; [|simpl; by rewrite map_app].
    rewrite in_map_iff. intros (r & Hr & Hin). rewrite existsb_false in E. apply E in Hin.
    unfold has_id in Hin. apply streq_false in Hin. done.
  - left. rewrite ExpireRequests_table.
    exact (update_where_ids (is_expired now) (fun r => set_resolution "expired" (ResolvedBy r)
      "Approval request expired" now (ApprovalValidUntil r) r) s (fun _ => eq_refl)).
  - left. exact (update_where_ids (has_id id) (set_callback now) s (fun _ => eq_refl)).
Qed.

Lemma unique_ids_apply s o : unique_ids s -> unique_ids (apply_op s o).
Proof.
  unfold unique_ids. intros H. destruct (apply_op_ids s o) as [->|(id & Hid & ->)]; [done|].
  apply NoDup_app. split_and!; [done| |apply NoDup_singleton].
  intros x Hx Hin. apply list_elem_of_singleton in Hin as ->. by apply list_elem_of_In in Hx.
Qed.

Lemma unique_ids_run s ops : unique_ids s -> unique_ids (run s ops).
Proof.
  revert s. induction ops as [|o ops IH]; intros s H; [done|]. by apply (IH (apply_op s o)), unique_ids_apply.
Qed.

(** ** Lemmas: waiters *)

Definition registered (s : ApprovalStore) (id : string) (ch : nat) : Prop :=
  In ch (default [] (waiters s !! id)).

Lemma offer_other req m c ch : c <> ch -> offer req m c !! ch = m !! ch.
Proof.
  intros H. unfold offer. destruct (m !! c) as [[|]|]; try done. by rewrite lookup_insert_ne.
Qed.

Lemma offers_absent req l m ch : ~ In ch l -> fold_left (offer req) l m !! ch = m !! ch.
Proof.
  revert m. induction l as [|c l IH]; intros m H; simpl in *; [done|].
  rewrite IH, offer_other; tauto.
Qed.

Lemma offers_full req l m ch r :
  m !! ch = Some (Some r) -> fold_left (offer req) l m !! ch = Some (Some r).
Proof.
  revert m. induction l as [|c l IH]; intros m H; simpl; [done|]. apply IH.
  destruct (decide (c = ch)) as [->|]; [|by rewrite offer_other]. unfold offer. by rewrite H.
Qed.

Lemma offers_present req l m ch :
  In ch l -> m !! ch = Some None -> fold_left (offer req) l m !! ch = Some (Some req).
Proof.
  revert m. induction l as [|c l IH]; intros m Hin H; simpl in *; [done|].
  destruct (decide (c = ch)) as [->|Hne].
  - apply offers_full. unfold offer. rewrite H. by rewrite lookup_insert, decide_True.
  - destruct Hin as [|Hin]; [done|]. apply IH; [done|]. by rewrite offer_other.
Qed.

Lemma notifyWaiters_delivers s id ch r :
  registered s id ch -> chans s !! ch = Some None -> GetRequest s id = Ok r ->
  wait_receive (notifyWaiters s id) ch = Some r.
Proof.
  unfold registered, notifyWaiters, wait_receive. intros Hin Hc Hg.
  destruct (default [] (waiters s !! id)) as [|c l] eqn:E; [done|].
  rewrite (GetRequest_table _ s) by done. rewrite Hg.
  pose proof (offers_present r (c :: l) (chans s) ch Hin Hc) as H. simpl in H |- *. by rewrite H.
Qed.

(** Waiting on [ch] alone for [id], with nothing in the buffer. *)
Definition waits (s : ApprovalStore) (id : string) (ch : nat) : Prop :=
  chans s !! ch = Some None /\ (forall id', registered s id' ch -> id' = id).

Lemma notifyWaiters_other s id id' ch : id' <> id -> waits s id ch -> waits (notifyWaiters s id') id ch.
Proof.
  intros Hne [Hc Hr]. unfold notifyWaiters.
  assert (Hreg : forall id2, registered {| table := table s; waiters := delete id' (waiters s);
                                            chans := chans s |} id2 ch -> id2 = id).
  { intros id2. unfold registered. simpl. destruct (decide (id2 = id')) as [->|].
    - by rewrite lookup_delete_eq.
    - rewrite lookup_delete_ne by done. apply Hr. }
  destruct (default [] (waiters s !! id')) as [|c l] eqn:E; [done|].
  destruct (GetRequest _ id') as [r|]; [|done]. split; [|exact Hreg].
  change (fold_left (offer r) (c :: l) (chans s) !! ch = Some None).
  rewrite offers_absent; [done|]. rewrite <- E. intros Hin. by apply Hne, Hr.
Qed.

Lemma fold_notify_other ids s id ch :
  ~ In id ids -> waits s id ch -> waits (fold_left notifyWaiters ids s) id ch.
Proof.
  revert s. induction ids as [|x ids IH]; intros s Hin H; simpl in *; [done|].
  apply IH; [tauto|]. apply notifyWaiters_other; [|done]. intros ->. tauto.
Qed.

Lemma resolve_waits e s id0 f id ch :
  unique_ids s -> (forall r, GetRequest s id = Ok r -> is_pending r = false) ->
  waits s id ch -> waits (resolve e s id0 f).1 id ch.
Proof.
  intros Hu Hnp Hw. destruct e as [e|]; [done|].
  destruct (decide (id0 = id)) as [->|Hne]; [by rewrite resolve_not_pending|].
  unfold resolve. destruct (update_where _ f s) as [s1 [|n]] eqn:E; simpl.
  - unfold update_where in E. by injection E as <- _.
  - apply notifyWaiters_other; [done|]. unfold update_where in E. by injection E as <- _.
Qed.

Lemma remove_first_In ch x l : In x (remove_first ch l) -> In x l.
Proof.
  induction l as [|c l IH]; simpl; [done|]. destruct (Nat.eqb c ch); simpl; tauto.
Qed.

Lemma expired_ids_pending now s id :
  unique_ids s -> (forall r, GetRequest s id = Ok r -> is_pending r = false) ->
  ~ In id (map ApprovalID (List.filter (is_expired now) (table s))).
Proof.
  intros Hu Hnp. rewrite in_map_iff. intros (r & Hid & Hin). apply filter_In in Hin as [Hin He].
  assert (Hg : GetRequest s id = Ok r).
  { apply GetRequest_Ok. revert Hin. unfold unique_ids in Hu. revert Hu. clear - Hid.
    induction (table s) as [|x l IH]; simpl; [done|]. intros Hu [->|Hin].
    - unfold has_id. by rewrite Hid, streq_refl.
    - apply NoDup_cons in Hu as [Hx Hu]. unfold has_id at 1.
      destruct (ApprovalID x =?s id) eqn:E; [|by apply IH]. apply streq_spec in E. exfalso. apply Hx.
      rewrite E, <- Hid. by apply list_elem_of_In, in_map. }
  apply andb_true_iff in He as [Hp _]. specialize (Hnp _ Hg). congruence.
Qed.

(** An operation that does not register [ch] again leaves it waiting once the
    request it waits for is no longer pending. *)
Lemma apply_op_waits s o id ch :
  (forall id', o <> ORegister id' ch) ->
  unique_ids s -> (forall r, GetRequest s id = Ok r -> is_pending r = false) ->
  waits s id ch -> waits (apply_op s o) id ch.
Proof.
  intros Ho Hu Hnp Hw. destruct o; simpl; try by apply resolve_waits.
  - unfold CreateRequest. destruct db_err; [done|]. by destruct (existsb _ _).
  - unfold ExpireRequests. destruct (map _ (List.filter _ _)) eqn:E; [done|].
    pose proof (expired_ids_pending now s id Hu Hnp) as Hn. rewrite E in Hn. simpl.
    apply (fold_notify_other (s0 :: l)); done.
  - done.
  - destruct Hw as [Hc Hr]. split.
    + simpl. rewrite lookup_insert_ne by (intros ->; by apply (Ho id0)). done.
    + intros id'. unfold registered. simpl. destruct (decide (id' = id0)) as [->|].
      * rewrite lookup_insert, decide_True by done. simpl. rewrite in_app_iff. simpl.
        intros [H|[->|[]]]; [by apply Hr|by destruct (Ho id0)].
      * rewrite lookup_insert_ne by done. apply Hr.
  - destruct Hw as [Hc Hr]. split; [done|]. intros id'. unfold registered, wait_cleanup. simpl.
    destruct (remove_first ch0 (default [] (waiters s !! id0))) eqn:E.
    + destruct (decide (id' = id0)) as [->|]; [by rewrite lookup_delete_eq|].
      rewrite lookup_delete_ne by done. apply Hr.
    + destruct (decide (id' = id0)) as [->|].
      * rewrite lookup_insert, decide_True by done. simpl default. rewrite <- E.
        intros H. apply remove_first_In in H. by apply Hr.
      * rewrite lookup_insert_ne by done. apply Hr.
Qed.

(** ** Properties *)

Lemma terminal_step s o id r :
  GetRequest s id = Ok r -> Status r <> "pending" ->
  exists r', GetRequest (apply_op s o) id = Ok r' /\ set_callback 0%Z r' = set_callback 0%Z r.
Proof.
  intros Hg Hs. destruct (apply_op_record s o id r Hg) as (r' & Hg' & [H|[H _]]); [eauto|done].
Qed.

Lemma terminal_run s ops id r :
  GetRequest s id = Ok r -> Status r <> "pending" ->
  exists r', GetRequest (run s ops) id = Ok r' /\ set_callback 0%Z r' = set_callback 0%Z r.
Proof.
  revert s r. induction ops as [|o ops IH]; intros s r Hg Hs; [by exists r|].
  destruct (terminal_step s o id r Hg Hs) as (r1 & Hg1 & E1).
  destruct (set_callback_status _ _ E1) as (Hst & _). rewrite <- Hst in Hs.
  destruct (IH _ _ Hg1 Hs) as (r2 & Hg2 & E2). exists r2. split; [done|congruence].
Qed.

(** C28 (invariant). A resolution is final: once a request is no longer pending, no
    sequence of operations (creations, approvals, denials, cancellations, expiry
    runs, waits, in any order and with any database failures) changes any field of
    it but the callback and update times. *)
Theorem resolution_final s ops id r
    (Hget : GetRequest s id = Ok r) (Hres : Status r <> "pending") :
  exists r', GetRequest (run s ops) id = Ok r' /\ set_callback 0%Z r' = set_callback 0%Z r.
Proof. by apply terminal_run. Qed.

Definition creates_pending (o : approval_op) : Prop :=
  match o with OCreate _ _ _ req => Status req = "" \/ Status req = "pending" | _ => True end.

Lemma create_pending_status now uuid8 e s req id r :
  (Status req = "" \/ Status req = "pending") ->
  GetRequest (CreateRequest now uuid8 e s req).1 id = Ok r ->
  GetRequest s id = Ok r \/ Status r = "pending".
Proof.
  intros Hs. unfold CreateRequest. destruct e; [by left|]. destruct (existsb _ _); [by left|].
  rewrite !GetRequest_Ok. simpl. rewrite find_app_first.
  destruct (find (has_id id) (table s)); [by left|]. simpl. destruct (has_id id _); [|done].
  intros [= <-]. right. simpl. by destruct Hs as [-> | ->].
Qed.

Lemma GetRequest_new s o id r :
  creates_pending o -> (forall r0, GetRequest s id <> Ok r0) ->
  GetRequest (apply_op s o) id = Ok r -> Status r = "pending".
Proof.
  intros Hc Hn Hg. destruct o; simpl in *.
  - apply create_pending_status in Hg as [Hg|]; [by destruct (Hn r)|done|done].
  - unfold Approve in Hg. match type of Hg with context [resolve ?e s ?i ?f] =>
      destruct (resolve_get e s i f id) as [E|[_ E]]; [done| |]; rewrite E in Hg end;
      [by destruct (Hn r)|]. destruct (GetRequest s id) as [r0|]; [by destruct (Hn r0)|done].
  - unfold Deny in Hg. match type of Hg with context [resolve ?e s ?i ?f] =>
      destruct (resolve_get e s i f id) as [E|[_ E]]; [done| |]; rewrite E in Hg end;
      [by destruct (Hn r)|]. destruct (GetRequest s id) as [r0|]; [by destruct (Hn r0)|done].
  - unfold Cancel in Hg. match type of Hg with context [resolve ?e s ?i ?f] =>
      destruct (resolve_get e s i f id) as [E|[_ E]]; [done| |]; rewrite E in Hg end;
      [by destruct (Hn r)|]. destruct (GetRequest s id) as [r0|]; [by destruct (Hn r0)|done].
  - rewrite ExpireRequests_get in Hg.
    destruct (GetRequest s id) as [r0|]; [by destruct (Hn r0)|done].
  - unfold MarkCallbackSent in Hg. rewrite update_where_get in Hg by done.
    destruct (GetRequest s id) as [r0|]; [by destruct (Hn r0)|done].
  - by destruct (Hn r).
  - by destruct (Hn r).
Qed.

(** Nothing but [Approve] approves.  In any history from the empty
    store whose creations ask for a pending request (as every caller does), an
    approved record stems from an [Approve] call in that history, made when the
    record was pending, by the recorded resolver, and its validity limit is that
    call's time plus its validity, or none if that was not positive. *)
Theorem approved_by_Approve ops id r
    (Hcreate : Forall creates_pending ops)
    (Hget : GetRequest (run (NewApprovalStore []) ops) id = Ok r)
    (Hstatus : Status r = "approved") :
  exists pre post now reason validFor r0,
    ops = (pre ++ OApprove now None id (ResolvedBy r) reason validFor :: post)%list /\
    GetRequest (run (NewApprovalStore []) pre) id = Ok r0 /\ Status r0 = "pending" /\
    ApprovalValidUntil r = (if (0 <? validFor)%Z then (now + validFor)%Z else 0%Z).
Proof.
  revert r Hget Hstatus Hcreate. induction ops as [|o ops IH] using rev_ind; intros r Hg Hs Hc; [done|].
  rewrite Forall_app in Hc. destruct Hc as [Hc Ho]. rewrite Forall_singleton in Ho.
  rewrite run_snoc in Hg. set (s := run (NewApprovalStore []) ops) in *.
  destruct (GetRequest s id) as [r0|e] eqn:E0.
  - destruct (apply_op_record s o id r0 E0) as (r' & Hg' & H). rewrite Hg in Hg'.
    injection Hg' as <-. destruct H as [H|[Hp [(now & by_ & reason & validFor & -> & ->)|H]]].
    + destruct (set_callback_status _ _ H) as (H1 & H2 & H3).
      destruct (IH r0 eq_refl) as (pre & post & now & reason & v & r1 & -> & Hr1 & Hp1 & Hv); [congruence|done|].
      exists pre, (post ++ [o])%list, now, reason, v, r1. rewrite H2, H3.
      split; [|done]. by rewrite <- app_assoc.
    + exists ops, [], now, reason, validFor, r0. done.
    + rewrite Hs in H. naive_solver.
  - exfalso. assert (Status r = "pending") by (eapply GetRequest_new; [exact Ho|by rewrite E0|exact Hg]).
    congruence.
Qed.

(** The outcome of an operation that is to replace the pending request [id] by its
    image under [f]. *)
Definition resolves (s : ApprovalStore) (id : string) (f : StoredApproval -> StoredApproval)
    (out : ApprovalStore * option string) : Prop :=
  let refused := (s, Some ("approval " ++ id ++ " not found or not pending")) in
  match GetRequest s id with
  | Ok r =>
      if is_pending r then
        out.2 = None /\ GetRequest out.1 id = Ok (f r) /\
        (forall id', id' <> id -> GetRequest out.1 id' = GetRequest s id')
      else out = refused
  | Err _ => out = refused
  end.

Lemma resolve_resolves s id f :
  unique_ids s -> (forall r, ApprovalID (f r) = ApprovalID r) -> resolves s id f (resolve None s id f).
Proof.
  intros Hu Hid. unfold resolves. destruct (GetRequest s id) as [r|e] eqn:E.
  - destruct (is_pending r) eqn:Ep.
    + pose proof (resolve_pending s id r f Hid Hu E Ep) as H. by destruct (resolve None s id f).
    + apply resolve_not_pending; [done|]. rewrite E. by intros ? [= <-].
  - apply resolve_not_pending; [done|]. by rewrite E.
Qed.

(** [Approve], [Deny] and [Cancel] on a store with unique ids and
    a working database: on a pending request they succeed, set exactly the
    resolution columns of that request and leave every other request as it was; on
    a missing or a resolved one they report it and leave the store as it was. *)
Theorem resolution_spec s id now by_ reason validFor
    (Huniq : unique_ids s) :
  resolves s id (set_resolution "approved" by_ reason now
                   (if (0 <? validFor)%Z then (now + validFor)%Z else 0%Z))
    (Approve now None s id by_ reason validFor) /\
  resolves s id (fun r => set_resolution "denied" by_ reason now (ApprovalValidUntil r) r)
    (Deny now None s id by_ reason) /\
  resolves s id (fun r => set_resolution "cancelled" by_ reason now (ApprovalValidUntil r) r)
    (Cancel now None s id by_ reason).
Proof. split_and!; by apply resolve_resolves. Qed.

(** [ExpireRequests] turns exactly the pending requests with an
    expiry whose text is below the text of the clock into expired ones, touches no
    other request, and returns their number. *)
Theorem ExpireRequests_spec now s :
  let '(s', n) := ExpireRequests now s in
  table s' = map (fun r => if is_expired now r then
                             set_resolution "expired" (ResolvedBy r) "Approval request expired" now
                               (ApprovalValidUntil r) r
                           else r) (table s) /\
  n = length (List.filter (is_expired now) (table s)) /\
  (forall r, is_expired now r = true <->
     Status r = "pending" /\ ExpiresAt r <> 0%Z /\
     text_lt (RFC3339Nano (ExpiresAt r)) (RFC3339Nano now) = true).
Proof.
  pose proof (ExpireRequests_table now s) as Ht.
  assert (Hn : (ExpireRequests now s).2 = length (List.filter (is_expired now) (table s))).
  { unfold ExpireRequests. destruct (map _ (List.filter _ _)) eqn:E; [|done].
    apply map_eq_nil in E. by rewrite E. }
  destruct (ExpireRequests now s) as [s' n]. split_and!; [done|done|]. intros r.
  unfold is_expired, is_pending, formatTimeOrNull, IsZero.
  rewrite andb_true_iff, streq_spec. destruct (Z.eqb_spec (ExpiresAt r) 0); naive_solver.
Qed.

Lemma registered_delivery s id r f ch :
  unique_ids s -> GetRequest s id = Ok r -> is_pending r = true ->
  (forall r, ApprovalID (f r) = ApprovalID r) ->
  wait_receive (resolve None (wait_register s id ch) id f).1 ch = Some (f r).
Proof.
  intros Hu Hg Hp Hf. set (s1 := wait_register s id ch).
  assert (Hg1 : GetRequest s1 id = Ok r) by (by rewrite (GetRequest_table s1 s)).
  pose proof (resolve_pending s1 id r f Hf Hu Hg1 Hp) as H.
  unfold resolve in *. pose proof (pending_count s1 id r f Hu Hg1) as Hc. rewrite Hp in Hc.
  destruct (update_where _ f s1) as [s2 n] eqn:E. simpl in Hc. subst n. simpl in *.
  destruct H as (_ & Hg2 & _). rewrite (GetRequest_table _ s2) in Hg2 by apply notifyWaiters_table.
  unfold update_where in E. injection E as <-.
  apply notifyWaiters_delivers; [| |done].
  - unfold registered. simpl. rewrite lookup_insert, decide_True by done. simpl.
    apply in_app_iff. right. by left.
  - simpl. by rewrite lookup_insert, decide_True.
Qed.

Lemma notifyWaiters_registered s id id' ch :
  registered (notifyWaiters s id) id' ch -> registered s id' ch.
Proof.
  unfold registered. intros Hin.
  assert (Hd : In ch (default [] (delete id (waiters s) !! id')) ->
               In ch (default [] (waiters s !! id'))).
  { destruct (decide (id = id')) as [->|]; [by rewrite lookup_delete_eq|].
    by rewrite lookup_delete_ne. }
  revert Hin. unfold notifyWaiters. by repeat case_match.
Qed.

Lemma resolve_registered e s id f id' ch :
  registered (resolve e s id f).1 id' ch -> registered s id' ch.
Proof.
  destruct e; [done|]. unfold resolve. destruct (update_where _ f s) as [s2 [|n]] eqn:E;
    unfold update_where in E; injection E as <- _; [done|]. intros H.
  by apply notifyWaiters_registered in H.
Qed.

(** A waiter of a request that is no longer pending waits forever. *)
Lemma late_waiter_waits s id r ch ops :
  waits s id ch -> unique_ids s -> GetRequest s id = Ok r -> Status r <> "pending" ->
  Forall (fun o => forall id', o <> ORegister id' ch) ops ->
  wait_receive (run s ops) ch = None.
Proof.
  revert s r. induction ops as [|o ops IH]; intros s r Hw Hu Hg Hs Hops.
  - destruct Hw as [Hc _]. unfold wait_receive. simpl. by rewrite Hc.
  - inversion Hops as [|? ? Ho Hops']; subst.
    destruct (terminal_step s o id r Hg Hs) as (r2 & Hg2 & E).
    apply (IH (apply_op s o) r2); [|by apply unique_ids_apply|done| |done].
    + apply apply_op_waits; [exact Ho|done| |done]. rewrite Hg. intros ? [= <-]. by apply streq_false.
    + by rewrite (proj1 (set_callback_status _ _ E)).
Qed.

Lemma register_waits s id ch :
  (forall id', ~ registered s id' ch) -> waits (wait_register s id ch) id ch.
Proof.
  intros Hw. split; [simpl; by rewrite lookup_insert, decide_True|]. intros id'. unfold registered. simpl.
  destruct (decide (id' = id)) as [->|]; [done|]. rewrite lookup_insert_ne by done.
  intros Hin. by destruct (Hw id').
Qed.


(** ** Witnesses *)

Definition sample_request : StoredApproval :=
  {| ApprovalID := "apr_1"; sa_EventID := ""; sa_TraceID := "tr_1"; Status := "pending";
     sa_ActionClass := "destructive"; ToolName := "delete_pod"; sa_AgentName := "k8s";
     sa_ResourceType := "kubernetes"; sa_ResourceName := "prod"; RequestedBy := "alice";
     RequestedAt := 0%Z; RequestContext := []; ResolvedBy := ""; ResolvedAt := 0%Z;
     ResolutionReason := ""; ExpiresAt := Hours; ApprovalValidUntil := 0%Z; sa_PolicyName := "";
     ApproverRole := ""; CallbackURL := ""; CallbackSentAt := 0%Z; CreatedAt := 0%Z;
     UpdatedAt := 0%Z |}.

Definition sample_store : ApprovalStore :=
  run (NewApprovalStore []) [OCreate Second "u" None sample_request].

Definition sample_approved : ApprovalStore :=
  run sample_store [OApprove Minute None "apr_1" "bob" "ok" 0].

Lemma sample_store_unique : unique_ids sample_store.
Proof. apply unique_ids_run. apply NoDup_nil. exact I. Defined.

Lemma resolution_final_witness :
  exists r, GetRequest sample_approved "apr_1" = Ok r /\ Status r <> "pending" /\
  exists r', GetRequest (run sample_approved [ODeny Hours None "apr_1" "eve" "no"; OExpire Day]) "apr_1"
               = Ok r' /\ set_callback 0%Z r' = set_callback 0%Z r.
Proof.
  eexists. split; [vm_compute; reflexivity|]. split; [discriminate|].
  eapply resolution_final; [vm_compute; reflexivity|discriminate].
Defined.

Lemma approved_by_Approve_witness :
  let ops := [OCreate Second "u" None sample_request; OApprove Minute None "apr_1" "bob" "ok" 0] in
  exists r, GetRequest (run (NewApprovalStore []) ops) "apr_1" = Ok r /\
  exists pre post now reason validFor r0,
    ops = (pre ++ OApprove now None "apr_1" (ResolvedBy r) reason validFor :: post)%list /\
    GetRequest (run (NewApprovalStore []) pre) "apr_1" = Ok r0 /\ Status r0 = "pending" /\
    ApprovalValidUntil r = (if (0 <? validFor)%Z then (now + validFor)%Z else 0%Z).
Proof.
  intros ops. eexists. split; [vm_compute; reflexivity|].
  apply approved_by_Approve; [|vm_compute; reflexivity|reflexivity].
  constructor; [by right|]. constructor; [exact I|constructor].
Defined.

Lemma resolution_spec_witness :
  unique_ids sample_store /\
  resolves sample_store "apr_1" (set_resolution "approved" "bob" "ok" Minute 0)
    (Approve Minute None sample_store "apr_1" "bob" "ok" 0) /\
  resolves sample_store "apr_1"
    (fun r => set_resolution "denied" "bob" "ok" Minute (ApprovalValidUntil r) r)
    (Deny Minute None sample_store "apr_1" "bob" "ok") /\
  resolves sample_store "apr_1"
    (fun r => set_resolution "cancelled" "bob" "ok" Minute (ApprovalValidUntil r) r)
    (Cancel Minute None sample_store "apr_1" "bob" "ok").
Proof.
  split; [exact sample_store_unique|].
  apply (resolution_spec sample_store "apr_1" Minute "bob" "ok" 0 sample_store_unique).
Defined.


(** The order of the texts is not the order of the instants: a request that expired
    half a second ago survives, and one with half a second left expires. *)
Example ExpireRequests_misorders :
  let late := set_resolution "pending" "" "" 0 0 sample_request in
  is_expired (Hours + Second / 2) late = false /\ ExpiresAt late = Hours /\
  text_lt (RFC3339Nano (Hours + Second / 2)) (RFC3339Nano Hours) = true.
Proof. vm_compute. auto. Qed.
