(* ===== verification/ApprovalHandlers.v ===== *)
(** * cmd/auditd/approval_handlers.go: the approval endpoints

    Each handler as a function of the server, the path value, the decoded body and
    the principal of the context, giving the server after it and the reply.  A
    request body is what reading and decoding it gave.  Notifications are kept as a
    log.  One clock reading serves a whole call.  The decoding of the body, and
    [time.ParseDuration] in the wait handler, are taken as their results. *)

From S2P Require Import Prelude GoTime Identity Authz AuthzTables Events ApprovalStore.

Open Scope string_scope.

Inductive Body (A : Type) :=
  | Unreadable
  | EmptyBody
  | BadJSON (err : string)
  | Decoded (a : A).
Arguments Unreadable {A}.
Arguments EmptyBody {A}.
Arguments BadJSON {A} err.
Arguments Decoded {A} a.

Inductive Payload :=
  | PApproval (a : option StoredApproval)
  | PApprovals (l : list StoredApproval)
  | PCreated (approval_id status : string) (expires_at : Time)
  | PStatus (status : string).

Inductive Reply :=
  | HttpError (code : Z) (msg : string)
  | HttpJSON (code : Z) (body : Payload).

Definition Reply_code (r : Reply) : Z :=
  match r with HttpError c _ => c | HttpJSON c _ => c end.

Inductive Notification :=
  | NotifyCreated (a : StoredApproval)
  | NotifyResolved (a : StoredApproval).

Record approvalServer := {
  store : ApprovalStore;
  notifier : bool;
  authorizer : Authorizer;
  sent : list Notification }.

Definition with_store (st : ApprovalStore) (s : approvalServer) : approvalServer :=
  {| store := st; notifier := notifier s; authorizer := authorizer s; sent := sent s |}.

Definition notify (n : Notification) (s : approvalServer) : approvalServer :=
  if notifier s then
    {| store := store s; notifier := notifier s; authorizer := authorizer s;
       sent := (sent s ++ [n])%list |}
  else s.

Definition isFleetApproval (a : StoredApproval) : bool :=
  (sa_AgentName a =?s "fleet-runner") || (sa_ResourceType a =?s "fleet_job").

Record CreateApprovalRequest := {
  c_EventID : string;
  c_TraceID : string;
  c_ActionClass : string;
  c_ToolName : string;
  c_AgentName : string;
  c_ResourceType : string;
  c_ResourceName : string;
  c_RequestedBy : string;
  c_Context : anymap;
  c_PolicyName : string;
  c_ApproverRole : string;
  c_ExpiresInMin : Z;
  c_CallbackURL : string }.

Record ApproveRequest := { ApprovedBy : string; ar_Reason : string; ValidForMin : Z }.
Record DenyRequest := { DeniedBy : string; dr_Reason : string }.
Record CancelRequest := { CancelledBy : string; cr_Reason : string }.

(** [time.Duration(n) * time.Minute], in int64. *)
Definition minutes (n : Z) : Z := wrap64 (n * Minute).

(** Reading and decoding the body, the two error replies the handlers share. *)
Definition with_body {A} (s : approvalServer) (body : Body A)
    (k : A -> approvalServer * Reply) : approvalServer * Reply :=
  match body with
  | Unreadable => (s, HttpError 400 "failed to read body")
  | EmptyBody => (s, HttpError 400 "invalid JSON: unexpected end of JSON input")
  | BadJSON e => (s, HttpError 400 ("invalid JSON: " ++ e))
  | Decoded a => k a
  end.

Definition new_approval (now : Time) (req : CreateApprovalRequest) : StoredApproval :=
  {| ApprovalID := ""; sa_EventID := c_EventID req; sa_TraceID := c_TraceID req;
     Status := "pending"; sa_ActionClass := c_ActionClass req; ToolName := c_ToolName req;
     sa_AgentName := c_AgentName req; sa_ResourceType := c_ResourceType req;
     sa_ResourceName := c_ResourceName req; RequestedBy := c_RequestedBy req;
     RequestedAt := 0%Z; RequestContext := c_Context req; ResolvedBy := ""; ResolvedAt := 0%Z;
     ResolutionReason := "";
     ExpiresAt := if (0 <? c_ExpiresInMin req)%Z then (now + minutes (c_ExpiresInMin req))%Z
                  else (now + 60 * Minute)%Z;
     ApprovalValidUntil := 0%Z; sa_PolicyName := c_PolicyName req;
     ApproverRole := c_ApproverRole req; CallbackURL := c_CallbackURL req;
     CallbackSentAt := 0%Z; CreatedAt := 0%Z; UpdatedAt := 0%Z |}.

Definition handleCreateApproval (now : Time) (uuid8 : string) (db_err : option string)
    (s : approvalServer) (body : Body CreateApprovalRequest) : approvalServer * Reply :=
  with_body s body (fun req =>
    if c_ActionClass req =?s "" then (s, HttpError 400 "action_class is required")
    else if c_RequestedBy req =?s "" then (s, HttpError 400 "requested_by is required")
    else
      let approval := new_approval now req in
      match CreateRequest now uuid8 db_err (store s) approval with
      | (_, Some _) => (s, HttpError 500 "failed to create approval request")
      | (st, None) =>
          let created := complete_request now uuid8 approval in
          (notify (NotifyCreated created) (with_store st s),
           HttpJSON 201 (PCreated (ApprovalID created) (Status created) (ExpiresAt created)))
      end).

Definition handleGetApproval (s : approvalServer) (approvalID : string) : Reply :=
  if approvalID =?s "" then HttpError 400 "missing approval ID"
  else
    match GetRequest (store s) approvalID with
    | Err e => HttpError 404 e
    | Ok a => HttpJSON 200 (PApproval (Some a))
    end.

(** The query parameters of the list endpoint; an absent one is empty. *)
Record ListQuery := {
  lq_status : string;
  lq_agent : string;
  lq_trace_id : string;
  lq_requested_by : string;
  lq_tool_name : string;
  lq_limit : string }.

Definition handleListApprovals (s : approvalServer) (q : ListQuery) : Reply :=
  let limit :=
    if negb (lq_limit q =?s "") then
      match atoi (lq_limit q) with
      | Some limit => if (0 <? limit)%Z then limit else 100%Z
      | None => 100%Z
      end
    else 100%Z in
  HttpJSON 200 (PApprovals (ListRequests (store s)
    {| q_Status := lq_status q; q_AgentName := lq_agent q; q_TraceID := lq_trace_id q;
       q_RequestedBy := lq_requested_by q; q_ToolName := lq_tool_name q; q_Since := 0%Z;
       q_Limit := limit |})).

Definition required_role (existing : StoredApproval) : string :=
  if isFleetApproval existing then "fleet-approver" else "dba".

Definition updated (s : approvalServer) (approvalID : string) : option StoredApproval :=
  match GetRequest (store s) approvalID with Ok a => Some a | Err _ => None end.

(** The end of the approve and deny handlers: notify and answer the record. *)
Definition finish (s : approvalServer) (approvalID : string) : approvalServer * Reply :=
  let approval := updated s approvalID in
  (match approval with Some a => notify (NotifyResolved a) s | None => s end,
   HttpJSON 200 (PApproval approval)).

Definition handleApprove (now : Time) (db_err : option string) (s : approvalServer)
    (approvalID : string) (principal : ResolvedPrincipal) (body : Body ApproveRequest)
    : approvalServer * Reply :=
  if approvalID =?s "" then (s, HttpError 400 "missing approval ID")
  else with_body s body (fun req =>
    match GetRequest (store s) approvalID with
    | Err _ => (s, HttpError 404 "approval not found")
    | Ok existing =>
        let identified :=
          if negb (IsAnonymous principal) then
            match Require_roles (authorizer s) principal [required_role existing] with
            | Some err => Err (HttpError 403 (AuthError_text err))
            | None =>
                if EffectiveID principal =?s RequestedBy existing then
                  Err (HttpError 403
                    "four-eyes constraint: approver and requester must be different people")
                else Ok (EffectiveID principal)
            end
          else if ApprovedBy req =?s "" then Err (HttpError 400 "approved_by is required")
          else Ok (ApprovedBy req) in
        match identified with
        | Err reply => (s, reply)
        | Ok approvedBy =>
            let validFor := if (0 <? ValidForMin req)%Z then minutes (ValidForMin req) else 0%Z in
            match Approve now db_err (store s) approvalID approvedBy (ar_Reason req) validFor with
            | (st, Some err) => (with_store st s, HttpError 400 err)
            | (st, None) => finish (with_store st s) approvalID
            end
        end
    end).

Definition handleDeny (now : Time) (db_err : option string) (s : approvalServer)
    (approvalID : string) (principal : ResolvedPrincipal) (body : Body DenyRequest)
    : approvalServer * Reply :=
  if approvalID =?s "" then (s, HttpError 400 "missing approval ID")
  else with_body s body (fun req =>
    match GetRequest (store s) approvalID with
    | Err _ => (s, HttpError 404 "approval not found")
    | Ok existing =>
        let identified :=
          if negb (IsAnonymous principal) then
            match Require_roles (authorizer s) principal [required_role existing] with
            | Some err => Err (HttpError 403 (AuthError_text err))
            | None => Ok (EffectiveID principal)
            end
          else if DeniedBy req =?s "" then Err (HttpError 400 "denied_by is required")
          else Ok (DeniedBy req) in
        match identified with
        | Err reply => (s, reply)
        | Ok deniedBy =>
            match Deny now db_err (store s) approvalID deniedBy (dr_Reason req) with
            | (st, Some err) => (with_store st s, HttpError 400 err)
            | (st, None) => finish (with_store st s) approvalID
            end
        end
    end).

Definition handleCancel (now : Time) (db_err : option string) (s : approvalServer)
    (approvalID : string) (body : Body CancelRequest) : approvalServer * Reply :=
  let go req :=
    let cancelledBy := if CancelledBy req =?s "" then "system" else CancelledBy req in
    match Cancel now db_err (store s) approvalID cancelledBy (cr_Reason req) with
    | (st, Some err) => (with_store st s, HttpError 400 err)
    | (st, None) =>
        let s1 := with_store st s in
        (match updated s1 approvalID with
         | Some a => notify (NotifyResolved a) s1
         | None => s1
         end, HttpJSON 200 (PStatus "cancelled"))
    end in
  if approvalID =?s "" then (s, HttpError 400 "missing approval ID")
  else
    match body with
    | EmptyBody => go {| CancelledBy := ""; cr_Reason := "" |}
    | _ => with_body s body go
    end.

(** The timeout of the wait handler: thirty seconds, or the parsed parameter but at
    most two minutes. *)
Definition wait_timeout (parsed : option Z) : Z :=
  match parsed with
  | Some d => if (120 * Second <? d)%Z then (120 * Second)%Z else d
  | None => (30 * Second)%Z
  end.

(** The reply once [WaitForResolution] came back: [outcome] is its result, or
    [None] when its context ended first. *)
Definition handleWaitForApproval (s : approvalServer) (approvalID : string)
    (waited : option (result string StoredApproval)) : Reply :=
  if approvalID =?s "" then HttpError 400 "missing approval ID"
  else
    match waited with
    | Some (Ok a) => HttpJSON 200 (PApproval (Some a))
    | Some (Err e) => HttpError 404 e
    | None =>
        match updated s approvalID with
        | Some a => HttpJSON 200 (PApproval (Some a))
        | None => HttpError 404 "context deadline exceeded"
        end
    end.

Definition handlePendingApprovals (s : approvalServer) : Reply :=
  HttpJSON 200 (PApprovals (ListRequests (store s)
    {| q_Status := "pending"; q_AgentName := ""; q_TraceID := ""; q_RequestedBy := "";
       q_ToolName := ""; q_Since := 0%Z; q_Limit := 100%Z |})).

(** One tick of the expiration worker. *)
Definition expiration_tick (now : Time) (s : approvalServer) : approvalServer :=
  with_store (ExpireRequests now (store s)).1 s.

(** ** Lemmas *)

Lemma notify_store n s : store (notify n s) = store s.
Proof. unfold notify. by destruct (notifier s). Qed.

Lemma finish_store s id : store (finish s id).1 = store s.
Proof. unfold finish. simpl. destruct (updated s id); [apply notify_store|done]. Qed.

Lemma minutes_exact n : (0 <= n <= 153722867)%Z -> minutes n = (n * Minute)%Z.
Proof.
  intros H. unfold minutes. apply wrap64_id. unfold in_int64, Minute, Second.
  rewrite andb_true_iff, Z.leb_le, Z.ltb_lt. lia.
Qed.

(** Who may resolve [existing], and the name the resolution is recorded under. *)
Definition may_resolve (s : approvalServer) (p : ResolvedPrincipal) (existing : StoredApproval)
    (claimed by_ : string) : Prop :=
  if IsAnonymous p then claimed <> "" /\ by_ = claimed
  else by_ = EffectiveID p /\
    (enforcing (authorizer s) = false \/ HasRole p (adminRole (authorizer s)) = true \/
     HasRole p (required_role existing) = true).

Lemma Require_one a p role :
  Require_roles a p [role] = None ->
  enforcing a = false \/ HasRole p (adminRole a) = true \/ HasRole p role = true.
Proof.
  unfold Require_roles, has_any_role. destruct (enforcing a); [|by left]. simpl.
  destruct (HasRole p (adminRole a)); [by right; left|].
  destruct (HasRole p role); [by right; right|done].
Qed.

Definition valid_until (now : Time) (n : Z) : Time :=
  let validFor := if (0 <? n)%Z then minutes n else 0%Z in
  if (0 <? validFor)%Z then (now + validFor)%Z else 0%Z.

Lemma valid_until_exact now n : (0 < n <= 153722867)%Z -> valid_until now n = (now + n * Minute)%Z.
Proof.
  intros H. unfold valid_until. rewrite (proj2 (Z.ltb_lt 0 n)) by lia.
  rewrite minutes_exact by lia. rewrite (proj2 (Z.ltb_lt _ _)); [done|]. unfold Minute, Second. lia.
Qed.

(** The store after [Approve], by what it returned. *)
Lemma Approve_outcome now e st id by_ reason v st' err :
  unique_ids st -> Approve now e st id by_ reason v = (st', err) ->
  match err with
  | Some _ => st' = st
  | None => exists r, GetRequest st id = Ok r /\ Status r = "pending" /\
      GetRequest st' id = Ok (set_resolution "approved" by_ reason now
                                (if (0 <? v)%Z then (now + v)%Z else 0%Z) r)
  end.
Proof.
  intros Hu. unfold Approve. destruct e as [e|]; [by intros [= <- <-]|].
  set (f := set_resolution _ _ _ _ _).
  pose proof (resolve_resolves st id f Hu (fun _ => eq_refl)) as H. unfold resolves in H.
  destruct (GetRequest st id) as [r|]; [|rewrite H; by intros [= <- <-]].
  destruct (is_pending r) eqn:Ep; [|rewrite H; by intros [= <- <-]].
  intros E. rewrite E in H. simpl in H. destruct H as (-> & Hg & _). exists r.
  split_and!; [done| |done]. by apply streq_spec.
Qed.

(** What an answer of [handleApprove] means. *)
Definition approve_outcome (now : Time) (s : approvalServer) (id : string) (p : ResolvedPrincipal)
    (body : Body ApproveRequest) (s' : approvalServer) (reply : Reply) : Prop :=
  (Reply_code reply = 200%Z /\ exists req existing by_,
     body = Decoded req /\ GetRequest (store s) id = Ok existing /\ Status existing = "pending" /\
     may_resolve s p existing (ApprovedBy req) by_ /\
     (IsAnonymous p = false -> by_ <> RequestedBy existing) /\
     GetRequest (store s') id =
       Ok (set_resolution "approved" by_ (ar_Reason req) now (valid_until now (ValidForMin req))
             existing)) \/
  (Reply_code reply <> 200%Z /\ store s' = store s).

Lemma handleApprove_cases now db_err s id p body s' reply :
  unique_ids (store s) -> handleApprove now db_err s id p body = (s', reply) ->
  approve_outcome now s id p body s' reply.
Proof.
  intros Huniq. unfold handleApprove, approve_outcome.
  destruct (id =?s ""); [intros [= <- <-]; by right|].
  destruct body as [| |e|req]; simpl; try by (intros [= <- <-]; right).
  destruct (GetRequest (store s) id) as [existing|] eqn:Eg; [|intros [= <- <-]; by right].
  set (identified := if negb (IsAnonymous p) then _ else _).
  assert (Hid : match identified with
    | Ok by_ => may_resolve s p existing (ApprovedBy req) by_ /\
                (IsAnonymous p = false -> by_ <> RequestedBy existing)
    | Err r => Reply_code r <> 200%Z end).
  { unfold identified, may_resolve. destruct (IsAnonymous p); simpl.
    - destruct (ApprovedBy req =?s "") eqn:E; [done|]. apply streq_false in E. done.
    - destruct (Require_roles _ _ _) eqn:Er; [done|]. apply Require_one in Er.
      destruct (EffectiveID p =?s RequestedBy existing) eqn:E; [done|]. apply streq_false in E. done. }
  destruct identified as [by_|r]; [|intros [= <- <-]; by right].
  destruct (Approve _ _ _ _ _ _ _) as [st err] eqn:Ea.
  pose proof (Approve_outcome _ _ _ _ _ _ _ _ _ Huniq Ea) as Ho. destruct err as [err|].
  - intros [= <- <-]. right. done.
  - destruct Ho as (r & Hr & Hp & Hs). rewrite Eg in Hr. injection Hr as <-.
    intros E. left. split; [by injection E as _ <-|]. exists req, existing, by_.
    destruct Hid. split_and!; try done.
    pose proof (finish_store (with_store st s) id) as Hf. rewrite E in Hf. simpl in Hf.
    rewrite Hf. exact Hs.
Qed.

(** ** Properties *)


(** The approve endpoint end to end, with enforcement on.  If the
    middleware serves the request and the handler answers 200, then the caller was
    authenticated, holds the admin role or the role the kind of request demands
    (fleet-approver for fleet jobs, dba for the others), and is not the requester. *)
Theorem approve_end_to_end now db_err s id provider body s' reply p
    (Huniq : unique_ids (store s))
    (Hauthz : authorizer s = NewAuthorizer DefaultAuditdPermissions true)
    (Hserved : auditd_auth true provider "POST /v1/approvals/{approvalID}/approve" = Served p)
    (Hrun : handleApprove now db_err s id p body = (s', reply))
    (Hok : Reply_code reply = 200%Z) :
  provider = Ok p /\ IsAnonymous p = false /\
  exists existing, GetRequest (store s) id = Ok existing /\ EffectiveID p <> RequestedBy existing /\
    (HasRole p "admin" = true \/ HasRole p (required_role existing) = true).
Proof.
  unfold auditd_auth, Middleware in Hserved.
  set (q := match provider with Ok p => p | Err _ => header_principal "" end) in *.
  destruct (Authorize _ _ q) eqn:Ea; [done|]. injection Hserved as Hq.
  assert (Hanon : IsAnonymous q = false).
  { destruct (IsAnonymous q) eqn:E; [|done].
    apply (anonymous_reaches auditd_table auditd_public) in Ea; [|reflexivity|reflexivity|done].
    simpl in Ea. destruct Ea as [H|[H|[]]]; discriminate H. }
  split; [|split; [by rewrite <- Hq|]].
  { unfold q in *. destruct provider; [by subst|]. by rewrite <- Hq in Hrun. }
  rewrite Hq in Hanon.
  destruct (handleApprove_cases _ _ _ _ _ _ _ _ Huniq Hrun)
    as [(_ & req & existing & by_ & _ & Hg & _ & Hmay & Hne & _)|[Hbad _]];
    [|exact (False_ind _ (Hbad Hok))].
  exists existing. unfold may_resolve in Hmay. rewrite Hanon, Hauthz in Hmay.
  destruct Hmay as [-> [He|[Hr|Hr]]]; [discriminate| |]; auto.
Qed.

(** Cancelling has no check of who asks: with enforcement on, every
    authenticated caller is served on the cancel route, the handler never looks at
    the caller, and it cancels any pending request, the caller's own or not, in
    whatever name the body gives. *)
Theorem cancel_unrestricted now s id p by_ reason r
    (Hauth : IsAnonymous p = false) (Hid : id <> "") (Huniq : unique_ids (store s))
    (Hget : GetRequest (store s) id = Ok r) (Hpend : Status r = "pending") (Hby : by_ <> "") :
  auditd_auth true (Ok p) "POST /v1/approvals/{approvalID}/cancel" = Served p /\
  let '(s', reply) :=
    handleCancel now None s id (Decoded {| CancelledBy := by_; cr_Reason := reason |}) in
  Reply_code reply = 200%Z /\
  GetRequest (store s') id =
    Ok (set_resolution "cancelled" by_ reason now (ApprovalValidUntil r) r).
Proof.
  split.
  - assert (Hp : DefaultAuditdPermissions !! "POST /v1/approvals/{approvalID}/cancel" =
                 Some authenticated).
    { unfold DefaultAuditdPermissions. rewrite lookup_table. reflexivity. }
    by apply (authenticated_entry (NewAuthorizer DefaultAuditdPermissions true)).
  - unfold handleCancel. apply streq_false in Hid, Hby. rewrite Hid.
    cbn [with_body CancelledBy cr_Reason]. rewrite Hby.
    set (f := fun r => set_resolution "cancelled" by_ reason now (ApprovalValidUntil r) r).
    assert (Hp : is_pending r = true) by (by apply streq_spec).
    pose proof (resolve_pending (store s) id r f (fun _ => eq_refl) Huniq Hget Hp) as H.
    change (Cancel now None (store s) id by_ reason) with (resolve None (store s) id f).
    destruct (resolve None (store s) id f) as [st err]. destruct H as (-> & Hg & _).
    split; [done|]. destruct (updated (with_store st s) id); rewrite ?notify_store; exact Hg.
Qed.

(** ** Witnesses *)

Definition sample_server : approvalServer :=
  {| store := sample_store; notifier := true;
     authorizer := NewAuthorizer DefaultAuditdPermissions true; sent := [] |}.

Definition bob : ResolvedPrincipal :=
  {| UserID := "bob"; Roles := ["dba"]; Service := ""; AuthMethod := "static"; OperatorID := "";
     OperatorRoles := [] |}.

Definition approve_body (n : Z) : Body ApproveRequest :=
  Decoded {| ApprovedBy := ""; ar_Reason := "ok"; ValidForMin := n |}.


Lemma approve_route_served :
  auditd_auth true (Ok bob) "POST /v1/approvals/{approvalID}/approve" = Served bob.
Proof.
  assert (Hp : DefaultAuditdPermissions !! "POST /v1/approvals/{approvalID}/approve" =
               Some (roles ["dba"; "fleet-approver"])).
  { unfold DefaultAuditdPermissions. rewrite lookup_table. reflexivity. }
  unfold auditd_auth, Middleware, Authorize. cbn [permissions enforcing NewAuthorizer].
  rewrite Hp. reflexivity.
Qed.

Lemma approve_end_to_end_witness :
  let out := handleApprove Minute None sample_server "apr_1" bob (approve_body 30) in
  Reply_code out.2 = 200%Z /\ Ok (E := string) bob = Ok bob /\ IsAnonymous bob = false /\
  exists existing, GetRequest sample_store "apr_1" = Ok existing /\
    EffectiveID bob <> RequestedBy existing /\
    (HasRole bob "admin" = true \/ HasRole bob (required_role existing) = true).
Proof.
  intros out. split; [reflexivity|].
  exact (approve_end_to_end Minute None sample_server "apr_1" (Ok bob) (approve_body 30) out.1 out.2
    bob sample_store_unique eq_refl approve_route_served (surjective_pairing _) eq_refl).
Defined.

Lemma cancel_unrestricted_witness :
  auditd_auth true (Ok bob) "POST /v1/approvals/{approvalID}/cancel" = Served bob /\
  let '(s', reply) :=
    handleCancel Minute None sample_server "apr_1"
      (Decoded {| CancelledBy := "alice"; cr_Reason := "changed my mind" |}) in
  Reply_code reply = 200%Z /\
  GetRequest (store s') "apr_1" =
    Ok (set_resolution "cancelled" "alice" "changed my mind" Minute 0
          (complete_request Second "u" sample_request)).
Proof.
  apply (cancel_unrestricted Minute sample_server "apr_1" bob "alice" "changed my mind"
    (complete_request Second "u" sample_request));
    first [exact sample_store_unique|reflexivity|discriminate].
Defined.

(** A validity of 153722868 minutes overflows to a negative duration and so grants
    an approval without a limit. *)
Example approve_validity_overflow :
  valid_until Minute 153722867 = (Minute + 153722867 * Minute)%Z /\
  valid_until Minute 153722868 = 0%Z.
Proof. split; reflexivity. Qed.
