(* ===== verification/ApprovalPolicy.v ===== *)
(** * internal/audit/approval.go, approval sessions and the gateway's approval modes

    The rule-based approval policy and its manager; approval sessions (approval.go,
    approval_session_store.go, cmd/auditd/approval_session_handlers.go); and the two
    gates of cmd/gateway that use them, [checkOperatingMode] and
    [checkApprovalMode], with [canAutoChain] of playbooks.go.  The manager shares its
    pending records with its callers by pointer: they live in a heap of cells and
    the pending map holds addresses.  Fetching a session from auditd is a parameter
    of the gates. *)

From S2P Require Import Prelude GoTime Events Action.

Open Scope string_scope.

Definition ApprovalPending := "pending".
Definition ApprovalApproved := "approved".
Definition ApprovalDenied := "denied".
Definition ApprovalAutoApproved := "auto_approved".
Definition ApprovalNotRequired := "not_required".

Definition Approval_IsValid (now : Time) (a : Approval) : bool :=
  if negb (a_Status a =?s ApprovalApproved) && negb (a_Status a =?s ApprovalAutoApproved) then false
  else if negb (IsZero (a_ExpiresAt a)) && After now (a_ExpiresAt a) then false
  else true.

Record ApprovalRule := {
  r_Name : string;
  ActionClasses : list string;
  Agents : list string;
  Tools : list string;
  Environments : list string;
  RequireApproval : bool;
  AutoApprove : bool;
  r_ApproverRole : string }.

Record ApprovalPolicy := { p_Name : string; p_Description : string; Rules : list ApprovalRule }.

Record ApprovalRequest := {
  q_ActionClass : string;
  q_Agent : string;
  q_Tool : string;
  q_Environment : string;
  q_Principal : string }.

(** An empty list of a rule matches everything. *)
Definition matches_any {A} (eq : A -> bool) (l : list A) : bool :=
  match l with [] => true | _ => existsb eq l end.

Definition rule_matches (r : ApprovalRule) (req : ApprovalRequest) : bool :=
  matches_any (fun ac => ac =?s q_ActionClass req) (ActionClasses r) &&
  matches_any (fun a => a =?s q_Agent req) (Agents r) &&
  matches_any (fun t => t =?s q_Tool req) (Tools r) &&
  matches_any (fun env => to_lower env =?s to_lower (q_Environment req)) (Environments r).

Definition rule_approval (p : ApprovalPolicy) (rule : ApprovalRule) (now : Time)
    (req : ApprovalRequest) : Approval :=
  let auto := negb (RequireApproval rule) && AutoApprove rule in
  {| a_Required := RequireApproval rule;
     a_Status := if RequireApproval rule then ApprovalPending
                 else if AutoApprove rule then ApprovalAutoApproved
                 else ApprovalNotRequired;
     a_RequestedBy := q_Principal req;
     a_RequestedAt := now;
     a_ApprovedBy := if auto then "policy:" ++ r_Name rule else "";
     a_ApprovedAt := if auto then now else 0%Z;
     a_Justification := "";
     a_PolicyName := p_Name p ++ "/" ++ r_Name rule;
     a_ExpiresAt := 0%Z |}.

Definition no_rule_approval (p : ApprovalPolicy) : Approval :=
  {| a_Required := false; a_Status := ApprovalNotRequired; a_RequestedBy := "";
     a_RequestedAt := 0%Z; a_ApprovedBy := ""; a_ApprovedAt := 0%Z; a_Justification := "";
     a_PolicyName := p_Name p ++ "/default"; a_ExpiresAt := 0%Z |}.

Fixpoint evaluate_rules (p : ApprovalPolicy) (now : Time) (req : ApprovalRequest)
    (rules : list ApprovalRule) : Approval :=
  match rules with
  | [] => no_rule_approval p
  | rule :: rest =>
      if rule_matches rule req then rule_approval p rule now req else evaluate_rules p now req rest
  end.

Definition Evaluate (p : ApprovalPolicy) (now : Time) (req : ApprovalRequest) : Approval :=
  evaluate_rules p now req (Rules p).

Definition DefaultPolicy : ApprovalPolicy :=
  {| p_Name := "default";
     p_Description := "Default approval policy for helpdesk operations";
     Rules :=
       [{| r_Name := "auto-approve-reads"; ActionClasses := [ActionRead]; Agents := []; Tools := [];
           Environments := []; RequireApproval := false; AutoApprove := true; r_ApproverRole := "" |};
        {| r_Name := "require-approval-destructive"; ActionClasses := [ActionDestructive];
           Agents := []; Tools := []; Environments := []; RequireApproval := true;
           AutoApprove := false; r_ApproverRole := "admin" |};
        {| r_Name := "require-approval-prod-writes"; ActionClasses := [ActionWrite]; Agents := [];
           Tools := []; Environments := ["prod"; "production"]; RequireApproval := true;
           AutoApprove := false; r_ApproverRole := "dba" |};
        {| r_Name := "auto-approve-non-prod-writes"; ActionClasses := [ActionWrite]; Agents := [];
           Tools := []; Environments := []; RequireApproval := false; AutoApprove := true;
           r_ApproverRole := "" |}] |}.

(** ** ApprovalManager *)

Record PendingApproval := {
  pa_EventID : string;
  pa_TraceID : string;
  pa_Request : ApprovalRequest;
  pa_Approval : Approval;
  pa_CreatedAt : Time;
  pa_Description : string }.

Record ApprovalManager := {
  policy : ApprovalPolicy;
  heap : list PendingApproval;
  pendingApprovals : gmap string nat }.

Definition NewApprovalManager (policy : option ApprovalPolicy) : ApprovalManager :=
  {| policy := match policy with Some p => p | None => DefaultPolicy end;
     heap := []; pendingApprovals := ∅ |}.

Definition CheckApproval (m : ApprovalManager) (now : Time) (req : ApprovalRequest) : Approval :=
  Evaluate (policy m) now req.

(** The address of the returned record. *)
Definition RequestApproval (now : Time) (m : ApprovalManager) (eventID traceID description : string)
    (req : ApprovalRequest) : ApprovalManager * nat :=
  let approval := Evaluate (policy m) now req in
  let pending := {| pa_EventID := eventID; pa_TraceID := traceID; pa_Request := req;
                    pa_Approval := approval; pa_CreatedAt := now; pa_Description := description |} in
  let addr := length (heap m) in
  ({| policy := policy m;
      heap := (heap m ++ [pending])%list;
      pendingApprovals :=
        if a_Status approval =?s ApprovalPending then <[eventID := addr]> (pendingApprovals m)
        else pendingApprovals m |}, addr).

Definition set_decision (status by_ justification : string) (at_ expires : Time) (p : PendingApproval)
    : PendingApproval :=
  let a := pa_Approval p in
  {| pa_EventID := pa_EventID p; pa_TraceID := pa_TraceID p; pa_Request := pa_Request p;
     pa_Approval :=
       {| a_Required := a_Required a; a_Status := status; a_RequestedBy := a_RequestedBy a;
          a_RequestedAt := a_RequestedAt a; a_ApprovedBy := by_; a_ApprovedAt := at_;
          a_Justification := justification; a_PolicyName := a_PolicyName a; a_ExpiresAt := expires |};
     pa_CreatedAt := pa_CreatedAt p; pa_Description := pa_Description p |}.

Definition decide_pending (m : ApprovalManager) (eventID : string)
    (f : PendingApproval -> PendingApproval) : ApprovalManager * option string :=
  match pendingApprovals m !! eventID with
  | None => (m, Some ("no pending approval for event " ++ eventID))
  | Some addr =>
      ({| policy := policy m; heap := alter f addr (heap m);
          pendingApprovals := delete eventID (pendingApprovals m) |}, None)
  end.

Definition Manager_Approve (now : Time) (m : ApprovalManager)
    (eventID approverID justification : string) (validFor : Z) : ApprovalManager * option string :=
  decide_pending m eventID (fun p =>
    set_decision ApprovalApproved approverID justification now
      (if (0 <? validFor)%Z then (now + validFor)%Z else a_ExpiresAt (pa_Approval p)) p).

Definition Manager_Deny (now : Time) (m : ApprovalManager) (eventID approverID reason : string)
    : ApprovalManager * option string :=
  decide_pending m eventID (fun p =>
    set_decision ApprovalDenied approverID reason now (a_ExpiresAt (pa_Approval p)) p).

Definition GetPending (m : ApprovalManager) : list PendingApproval :=
  omap (fun '(_, addr) => heap m !! addr) (map_to_list (pendingApprovals m)).

Definition GetPendingByID (m : ApprovalManager) (eventID : string) : option PendingApproval :=
  pendingApprovals m !! eventID ≫= fun addr => heap m !! addr.

(** ** Approval sessions *)

Record ApprovalSession := {
  SessionID : string;
  GrantedBy : string;
  GrantedAt : Time;
  ses_ExpiresAt : Time;
  AllowedClasses : list string;
  Scope : string;
  Revoked : bool }.

(** [IsValid] on a session pointer. *)
Definition Session_IsValid (now : Time) (s : option ApprovalSession) (class : string) : bool :=
  match s with
  | None => false
  | Some s =>
      if Revoked s then false
      else if After now (ses_ExpiresAt s) then false
      else existsb (fun c => c =?s class) (AllowedClasses s)
  end.

(** The "2006-01-02 15:04:05" columns drop the fraction of the second. *)
Definition truncate_second (t : Time) : Time := (t - t mod Second)%Z.

Definition session_row (now : Time) (uuid8 : string) (sess : ApprovalSession) : ApprovalSession :=
  {| SessionID := if SessionID sess =?s "" then "aps_" ++ uuid8 else SessionID sess;
     GrantedBy := GrantedBy sess;
     GrantedAt := truncate_second (if IsZero (GrantedAt sess) then now else GrantedAt sess);
     ses_ExpiresAt := truncate_second (ses_ExpiresAt sess);
     AllowedClasses := AllowedClasses sess; Scope := Scope sess; Revoked := false |}.

Definition Session_Create (now : Time) (uuid8 : string) (db_err : option string)
    (rows : list ApprovalSession) (sess : ApprovalSession)
    : list ApprovalSession * result string string :=
  let row := session_row now uuid8 sess in
  match db_err with
  | Some e => (rows, Err e)
  | None =>
      if existsb (fun r => SessionID r =?s SessionID row) rows
      then (rows, Err "UNIQUE constraint failed: approval_sessions.session_id")
      else ((rows ++ [row])%list, Ok (SessionID row))
  end.

Definition Session_Get (rows : list ApprovalSession) (sessionID : string)
    : result string ApprovalSession :=
  match find (fun r => SessionID r =?s sessionID) rows with
  | Some r => Ok r
  | None => Err "sql: no rows in result set"
  end.

Definition revoke_row (r : ApprovalSession) : ApprovalSession :=
  {| SessionID := SessionID r; GrantedBy := GrantedBy r; GrantedAt := GrantedAt r;
     ses_ExpiresAt := ses_ExpiresAt r; AllowedClasses := AllowedClasses r; Scope := Scope r;
     Revoked := true |}.

Definition Session_Revoke (rows : list ApprovalSession) (sessionID : string)
    : list ApprovalSession * option string :=
  let hit r := SessionID r =?s sessionID in
  (map (fun r => if hit r then revoke_row r else r) rows,
   if existsb hit rows then None else Some "sql: no rows in result set").

(** The create endpoint: the reply is the status code and the session id, or the
    error text. *)
Record SessionBody := {
  sb_GrantedBy : string;
  ExpiresInSecs : Z;
  sb_AllowedClasses : list string;
  sb_Scope : string }.

Definition session_handleCreate (now : Time) (uuid8 : string) (db_err : option string)
    (rows : list ApprovalSession) (body : result string SessionBody)
    : list ApprovalSession * (Z * string) :=
  match body with
  | Err e => (rows, (400%Z, "invalid JSON: " ++ e))
  | Ok body =>
      if sb_GrantedBy body =?s "" then (rows, (400%Z, "granted_by is required"))
      else if (ExpiresInSecs body <=? 0)%Z then (rows, (400%Z, "expires_in_secs must be positive"))
      else
        match sb_AllowedClasses body with
        | [] => (rows, (400%Z, "allowed_classes must not be empty"))
        | classes =>
            let sess := {| SessionID := ""; GrantedBy := sb_GrantedBy body; GrantedAt := now;
                           ses_ExpiresAt := (now + wrap64 (ExpiresInSecs body * Second))%Z;
                           AllowedClasses := classes; Scope := sb_Scope body; Revoked := false |} in
            match Session_Create now uuid8 db_err rows sess with
            | (rows', Err _) => (rows', (500%Z, "failed to create session"))
            | (rows', Ok id) => (rows', (201%Z, id))
            end
        end
  end.

Definition session_handleGet (rows : list ApprovalSession) (sessionID : string)
    : Z * result string ApprovalSession :=
  if sessionID =?s "" then (400%Z, Err "sessionID is required")
  else
    match Session_Get rows sessionID with
    | Ok s => (200%Z, Ok s)
    | Err _ => (404%Z, Err "session not found")
    end.

Definition session_handleRevoke (rows : list ApprovalSession) (sessionID : string)
    : list ApprovalSession * Z :=
  if sessionID =?s "" then (rows, 400%Z)
  else
    match Session_Revoke rows sessionID with
    | (rows', None) => (rows', 204%Z)
    | (rows', Some _) => (rows', 404%Z)
    end.

(** ** The gateway's gates *)

Record approvalContext := { mode : string; sessionID : string }.

(** [fetchApprovalSession]: a nil session without an error does not occur, the code
    tests for it all the same. *)
Section Gateway.
Context (fetch : string -> result string (option ApprovalSession)).

Definition requires_text (verb toolName class : string) : string :=
  "approval_mode=" ++ verb ++ ": tool " ++ quote toolName ++ " (" ++ class ++ ")".

Definition checkApprovalMode (now : Time) (auditURL : string) (ctx : option approvalContext)
    (toolName : string) : bool * string :=
  match ctx with
  | None => (false, "")
  | Some c =>
      if (mode c =?s "") || (mode c =?s "auto") then (false, "")
      else
        let class := ClassifyTool toolName in
        if negb (IsApprovalRequired class) then (false, "")
        else if mode c =?s "manual" then
          (true, requires_text "manual" toolName class ++ " requires explicit approval — " ++
             "run in session mode with a valid approval session or obtain per-step approval")
        else if mode c =?s "session" then
          if sessionID c =?s "" then
            (true, requires_text "session" toolName class ++ " requires an approval session — " ++
               "supply approval_session in the run request")
          else if auditURL =?s "" then
            (true, "approval_mode=session: cannot validate session — auditd not configured")
          else
            match fetch (sessionID c) with
            | Err e =>
                (true, "approval_mode=session: session " ++ quote (sessionID c) ++
                   " not found or error: " ++ e)
            | Ok None =>
                (true, "approval_mode=session: session " ++ quote (sessionID c) ++
                   " not found or error: <nil>")
            | Ok (Some sess) =>
                if negb (Session_IsValid now (Some sess) class) then
                  let detail :=
                    if negb (Revoked sess) && Before now (ses_ExpiresAt sess)
                    then "does not cover action class " ++ quote class
                    else "expired or revoked" in
                  (true, "approval_mode=session: session " ++ quote (sessionID c) ++
                     " is not valid for " ++ class ++ " tool " ++ quote toolName ++ ": " ++ detail)
                else (false, "")
            end
        else (false, "")
  end.

Definition checkOperatingMode (operatingMode toolName : string) : bool :=
  if negb (operatingMode =?s "readonly-governed") then true
  else
    let class := ClassifyTool toolName in
    negb ((class =?s ActionWrite) || (class =?s ActionDestructive)).

(** [canAutoChain] reads only the approval mode of the target playbook. *)
Definition canAutoChain (now : Time) (mode sessionID targetMode : string) : bool :=
  if mode =?s "force" then true
  else if (targetMode =?s "") || (targetMode =?s "manual") then false
  else if mode =?s "auto" then true
  else if mode =?s "session" then
    match fetch sessionID with
    | Ok sess => Session_IsValid now sess ActionEscalation
    | Err _ => false
    end
  else false.
End Gateway.

(** ** Lemmas *)

(** One list of a rule: empty, or some element related to the request. *)
Definition listed {A} (R : A -> Prop) (l : list A) : Prop := l = [] \/ exists x, In x l /\ R x.

Lemma listed_spec {A} (f : A -> bool) l :
  matches_any f l = true <-> listed (fun x => f x = true) l.
Proof.
  unfold listed, matches_any. destruct l as [|x l]; [naive_solver|]. rewrite existsb_exists. naive_solver.
Qed.

Lemma evaluate_rules_app p now req l1 l2 :
  Forall (fun r => rule_matches r req = false) l1 ->
  evaluate_rules p now req (l1 ++ l2) = evaluate_rules p now req l2.
Proof. induction 1 as [|r l1 Hr _ IH]; [done|]. simpl. by rewrite Hr. Qed.

Lemma evaluate_rules_none p now req l :
  Forall (fun r => rule_matches r req = false) l -> evaluate_rules p now req l = no_rule_approval p.
Proof. intros H. rewrite <- (app_nil_r l). by rewrite evaluate_rules_app. Qed.

(** The rule that decides: the first that matches. *)
Lemma evaluate_rules_cases p now req rules :
  (Forall (fun r => rule_matches r req = false) rules /\
   evaluate_rules p now req rules = no_rule_approval p) \/
  (exists l1 r l2, rules = (l1 ++ r :: l2)%list /\
   Forall (fun r => rule_matches r req = false) l1 /\ rule_matches r req = true /\
   evaluate_rules p now req rules = rule_approval p r now req).
Proof.
  induction rules as [|r rules IH]; [by left|]. simpl. destruct (rule_matches r req) eqn:E.
  - right. exists [], r, rules. done.
  - destruct IH as [[HF He]|(l1 & r' & l2 & -> & HF & Hm & He)].
    + left. auto.
    + right. exists (r :: l1), r', l2. auto.
Qed.

Lemma rule_approval_status p r now req :
  a_Status (rule_approval p r now req) =
  if RequireApproval r then ApprovalPending
  else if AutoApprove r then ApprovalAutoApproved else ApprovalNotRequired.
Proof. done. Qed.

(** ** The manager's invariant *)

(** An address of the pending map holds an undecided record of that event, and no
    two events share one. *)
Definition manager_ok (m : ApprovalManager) : Prop :=
  (forall id addr, pendingApprovals m !! id = Some addr ->
     exists p, heap m !! addr = Some p /\ pa_EventID p = id /\
       a_Status (pa_Approval p) = ApprovalPending).

Inductive manager_op :=
  | MRequest (now : Time) (eventID traceID description : string) (req : ApprovalRequest)
  | MApprove (now : Time) (eventID approverID justification : string) (validFor : Z)
  | MDeny (now : Time) (eventID approverID reason : string).

Definition apply_manager (m : ApprovalManager) (o : manager_op) : ApprovalManager :=
  match o with
  | MRequest now id tr d req => (RequestApproval now m id tr d req).1
  | MApprove now id by_ j v => (Manager_Approve now m id by_ j v).1
  | MDeny now id by_ r => (Manager_Deny now m id by_ r).1
  end.

Definition run_manager (m : ApprovalManager) (ops : list manager_op) : ApprovalManager :=
  fold_left apply_manager ops m.

Lemma manager_ok_request now m id tr d req :
  manager_ok m -> manager_ok (RequestApproval now m id tr d req).1.
Proof.
  intros Hm. unfold RequestApproval. intros id' addr. simpl.
  destruct (a_Status (Evaluate (policy m) now req) =?s ApprovalPending) eqn:Es.
  - apply streq_spec in Es. destruct (decide (id = id')) as [->|Hne].
    + rewrite lookup_insert, decide_True by done. intros [= <-]. eexists.
      split; [by apply list_lookup_middle|]. done.
    + rewrite lookup_insert_ne by done. intros H. destruct (Hm _ _ H) as (p & Hp & ?).
      exists p. split; [by apply lookup_app_l_Some|done].
  - intros H. destruct (Hm _ _ H) as (p & Hp & ?). exists p. split; [by apply lookup_app_l_Some|done].
Qed.

Lemma manager_ok_decide m id f :
  manager_ok m -> manager_ok (decide_pending m id f).1.
Proof.
  intros Hm. unfold decide_pending. destruct (pendingApprovals m !! id) as [a|] eqn:Ea; [|done].
  intros id' addr. simpl. destruct (decide (id = id')) as [->|Hne]; [by rewrite lookup_delete_eq|].
  rewrite lookup_delete_ne by done. intros H. destruct (Hm _ _ H) as (p & Hp & Hid & Hs).
  exists p. split; [|done]. rewrite list_lookup_alter_ne; [done|]. intros ->.
  destruct (Hm _ _ Ea) as (p' & Hp' & Hid' & _). congruence.
Qed.

Lemma manager_ok_run m ops : manager_ok m -> manager_ok (run_manager m ops).
Proof.
  revert m. induction ops as [|o ops IH]; intros m Hm; [done|]. apply (IH (apply_manager m o)).
  destruct o; simpl; [by apply manager_ok_request|by apply manager_ok_decide..].
Qed.

Lemma manager_ok_new p : manager_ok (NewApprovalManager p).
Proof. intros id addr. simpl. by rewrite lookup_empty. Qed.

(** A decided record is never written again. *)
Lemma decided_step m o addr p :
  manager_ok m -> heap m !! addr = Some p -> a_Status (pa_Approval p) <> ApprovalPending ->
  heap (apply_manager m o) !! addr = Some p.
Proof.
  intros Hm Hp Hs.
  assert (Hd : forall id f, heap (decide_pending m id f).1 !! addr = Some p).
  { intros id f. unfold decide_pending. destruct (pendingApprovals m !! id) as [a|] eqn:Ea; [|done].
    simpl. rewrite list_lookup_alter_ne; [done|]. intros ->.
    destruct (Hm _ _ Ea) as (p' & Hp' & _ & Hs'). congruence. }
  destruct o; simpl; [by apply lookup_app_l_Some|apply Hd..].
Qed.

Lemma decided_run m ops addr p :
  manager_ok m -> heap m !! addr = Some p -> a_Status (pa_Approval p) <> ApprovalPending ->
  heap (run_manager m ops) !! addr = Some p.
Proof.
  revert m. induction ops as [|o ops IH]; intros m Hm Hp Hs; [done|].
  apply (IH (apply_manager m o)); [|by apply decided_step|done]. apply (manager_ok_run m [o] Hm).
Qed.

(** ** Properties *)

(** [Evaluate] is decided by the first rule that matches, and a
    rule matches when each of its non-empty lists has an element for the request
    (environments compared without case).  A rule that requires approval makes the
    action pending whatever its auto-approve flag says; one that only auto-approves
    makes it approved by that rule; without a matching rule nothing is required. *)
Theorem Evaluate_first_match p now req :
  let a := Evaluate p now req in
  let fits r :=
    listed (fun c => c = q_ActionClass req) (ActionClasses r) /\
    listed (fun x => x = q_Agent req) (Agents r) /\ listed (fun x => x = q_Tool req) (Tools r) /\
    listed (fun e => to_lower e = to_lower (q_Environment req)) (Environments r) in
  ((forall r, In r (Rules p) -> ~ fits r) /\ a = no_rule_approval p) \/
  (exists l1 r l2, Rules p = (l1 ++ r :: l2)%list /\ (forall r', In r' l1 -> ~ fits r') /\ fits r /\
     a_Required a = RequireApproval r /\
     a_Status a = (if RequireApproval r then ApprovalPending
                   else if AutoApprove r then ApprovalAutoApproved else ApprovalNotRequired) /\
     a_PolicyName a = p_Name p ++ "/" ++ r_Name r).
Proof.
  intros a fits.
  assert (Hfits : forall r, rule_matches r req = true <-> fits r).
  { intros r. unfold rule_matches, fits. rewrite !andb_true_iff, !listed_spec. unfold listed.
    setoid_rewrite streq_spec. tauto. }
  assert (Hnot : forall l, Forall (fun r => rule_matches r req = false) l ->
                           forall r, In r l -> ~ fits r).
  { intros l HF r Hin Hf. rewrite List.Forall_forall in HF. apply Hfits in Hf. by rewrite HF in Hf. }
  destruct (evaluate_rules_cases p now req (Rules p)) as [[HF He]|(l1 & r & l2 & Hr & HF & Hm & He)].
  - left. split; [by apply Hnot|exact He].
  - right. exists l1, r, l2. apply Hfits in Hm. unfold a, Evaluate. rewrite He.
    split_and!; try done. by apply Hnot.
Qed.

Ltac solve_status :=
  cbn; unfold ApprovalPending, ApprovalAutoApproved, ApprovalNotRequired; intuition congruence.

(** The default policy, for every request: destructive actions
    are pending; writes are pending in an environment named prod or production in
    any case, and auto-approved elsewhere; reads are auto-approved; and every other
    class, escalations and unknown ones included, needs no approval. *)
Theorem DefaultPolicy_table now req :
  let a := Evaluate DefaultPolicy now req in
  let prod := to_lower (q_Environment req) = "prod" \/ to_lower (q_Environment req) = "production" in
  let c := q_ActionClass req in
  (a_Status a = ApprovalPending <-> c = ActionDestructive \/ (c = ActionWrite /\ prod)) /\
  (a_Status a = ApprovalAutoApproved <-> c = ActionRead \/ (c = ActionWrite /\ ~ prod)) /\
  (a_Status a = ApprovalNotRequired <->
     c <> ActionRead /\ c <> ActionWrite /\ c <> ActionDestructive) /\
  (a_Required a = true <-> a_Status a = ApprovalPending).
Proof.
  intros a prod c. unfold a, Evaluate, DefaultPolicy, evaluate_rules, Rules, rule_matches, matches_any.
  cbn [ActionClasses Agents Tools Environments existsb].
  fold c. change (to_lower "prod") with "prod". change (to_lower "production") with "production".
  unfold prod, ActionRead, ActionWrite, ActionDestructive, ApprovalPending, ApprovalAutoApproved,
    ApprovalNotRequired.
  destruct (String.eqb_spec "read" c) as [Hr|Hr]; [solve_status|].
  destruct (String.eqb_spec "destructive" c) as [Hd|Hd]; [solve_status|].
  destruct (String.eqb_spec "write" c) as [Hw|Hw]; [|solve_status].
  destruct (String.eqb_spec "prod" (to_lower (q_Environment req)));
    destruct (String.eqb_spec "production" (to_lower (q_Environment req)));
    solve_status.
Qed.

(** The manager and its shared records, after any operations on a
    new manager: the pending map leads to undecided records of its own event ids;
    an approval or a denial of a listed event decides exactly that record, in the
    memory shared with whoever requested it, and unlists it; and no later operation
    touches a record once it is decided. *)
Theorem manager_decides_once pol ops id :
  let m := run_manager (NewApprovalManager pol) ops in
  (forall p, GetPendingByID m id = Some p ->
     pa_EventID p = id /\ a_Status (pa_Approval p) = ApprovalPending) /\
  (forall addr now by_ reason, pendingApprovals m !! id = Some addr ->
     let '(m', err) := Manager_Deny now m id by_ reason in
     err = None /\ pendingApprovals m' !! id = None /\
     exists p, heap m' !! addr = Some p /\ a_Status (pa_Approval p) = ApprovalDenied /\
       a_ApprovedBy (pa_Approval p) = by_ /\
       forall ops', heap (run_manager m' ops') !! addr = Some p).
Proof.
  intros m. assert (Hm : manager_ok m) by apply manager_ok_run, manager_ok_new. split.
  - intros p. unfold GetPendingByID. destruct (pendingApprovals m !! id) as [a|] eqn:E; [|done].
    simpl. intros Hp. destruct (Hm _ _ E) as (p' & Hp' & ?). rewrite Hp in Hp'. by injection Hp' as ->.
  - intros addr now by_ reason E. destruct (Hm _ _ E) as (p & Hp & _).
    pose proof (manager_ok_run m [MDeny now id by_ reason] Hm) as Hm'. simpl in Hm'.
    revert Hm'. unfold Manager_Deny, decide_pending. rewrite E. simpl. intros Hm'. split; [done|].
    split; [apply lookup_delete_eq|]. eexists. split; [by rewrite list_lookup_alter_eq, Hp|].
    split_and!; [done|done|]. intros ops'. apply decided_run; [exact Hm'| |done].
    simpl. by rewrite list_lookup_alter_eq, Hp.
Qed.

(** The gateway's approval gate on a direct tool call, for every mode,
    tool and session service.  It lets a call pass exactly when no mode is set or the
    mode is auto or one of no meaning to it; or the tool's class needs no approval
    (reads and unclassified tools); or the mode is session and the named session,
    fetched from a configured auditd, is unrevoked, unexpired and covers the class.
    The session's scope is not looked at. *)
Theorem checkApprovalMode_iff fetch now auditURL ctx toolName :
  (checkApprovalMode fetch now auditURL ctx toolName).1 = false <->
  match ctx with
  | None => True
  | Some c =>
      (mode c <> "manual" /\ mode c <> "session") \/
      IsApprovalRequired (ClassifyTool toolName) = false \/
      (mode c = "session" /\ sessionID c <> "" /\ auditURL <> "" /\
       exists sess, fetch (sessionID c) = Ok (Some sess) /\ Revoked sess = false /\
         (now <= ses_ExpiresAt sess)%Z /\ In (ClassifyTool toolName) (AllowedClasses sess))
  end.
Proof.
  destruct ctx as [[m sid]|]; [|done]. unfold checkApprovalMode. cbn [mode sessionID].
  generalize (ClassifyTool toolName). intros class.
  destruct (String.eqb_spec m "") as [->|]; [simpl; split; [left; split; discriminate|done]|].
  destruct (String.eqb_spec m "auto") as [->|]; [simpl; split; [left; split; discriminate|done]|].
  simpl. destruct (IsApprovalRequired class) eqn:Ea; [|simpl; tauto]. simpl.
  destruct (String.eqb_spec m "manual") as [->|]; [simpl; split; [done|intros [[]|[|[]]]; congruence]|].
  destruct (String.eqb_spec m "session") as [->|]; [|simpl; tauto].
  destruct (String.eqb_spec sid "") as [->|]; [simpl; naive_solver|].
  destruct (String.eqb_spec auditURL "") as [->|]; [simpl; naive_solver|].
  destruct (fetch sid) as [[sess|]|e]; [|simpl; naive_solver..].
  unfold Session_IsValid, After.
  destruct (Revoked sess) eqn:Er; [simpl; naive_solver|].
  destruct (Z.ltb_spec (ses_ExpiresAt sess) now).
  { simpl. split; [done|]. intros [[]|[|(_ & _ & _ & s & [= <-] & _ & ? & _)]]; [done|done|lia]. }
  assert (He : existsb (fun c => c =?s class) (AllowedClasses sess) = true <->
               In class (AllowedClasses sess)).
  { rewrite existsb_exists. setoid_rewrite streq_spec. naive_solver. }
  destruct (existsb _ _); simpl.
  - split; [|done]. intros _. right; right. split_and!; try done. exists sess.
    split_and!; try done. by apply He.
  - split; [done|]. intros [[]|[|(_ & _ & _ & s & [= <-] & _ & _ & Hin)]]; [done|done|].
    by apply He in Hin.
Qed.

(** Revocation reaches the gate: once the revoke endpoint answered 204
    for a session, whatever sessions exist, a gate that fetches sessions from that
    store blocks every write, destructive or escalating tool in its name, at any
    time. *)
Theorem revoked_session_blocks rows id rows' now auditURL toolName
    (Hrevoke : session_handleRevoke rows id = (rows', 204%Z))
    (Hclass : IsApprovalRequired (ClassifyTool toolName) = true) :
  (checkApprovalMode (fun id => match Session_Get rows' id with
                                | Ok s => Ok (Some s) | Err e => Err e end)
     now auditURL (Some {| mode := "session"; sessionID := id |}) toolName).1 = true.
Proof.
  unfold session_handleRevoke, Session_Revoke in Hrevoke.
  destruct (id =?s "") eqn:Ei; [done|].
  destruct (existsb (fun r => SessionID r =?s id) rows) eqn:Ex; [|done]. injection Hrevoke as <-.
  unfold checkApprovalMode. simpl. rewrite Hclass, Ei. simpl. destruct (auditURL =?s ""); [done|].
  unfold Session_Get. rewrite find_map.
  assert (Hs : exists s, find (fun x => SessionID (if SessionID x =?s id then revoke_row x else x) =?s id)
                           rows = Some s /\ SessionID s = id).
  { clear - Ex. induction rows as [|r rows IH]; simpl in *; [done|].
    destruct (SessionID r =?s id) eqn:E; simpl in *; rewrite E; [|by apply IH].
    exists r. split; [done|]. by apply streq_spec. }
  destruct Hs as (s & -> & Hs). simpl. rewrite (proj2 (streq_spec _ _) Hs). done.
Qed.

Lemma revoked_session_blocks_witness :
  let rows := [{| SessionID := "aps_1"; GrantedBy := "boris"; GrantedAt := 0%Z;
                  ses_ExpiresAt := Day; AllowedClasses := ["destructive"]; Scope := "";
                  Revoked := false |}] in
  let rows' := (session_handleRevoke rows "aps_1").1 in
  (session_handleRevoke rows "aps_1").2 = 204%Z /\
  (checkApprovalMode (fun id => match Session_Get rows' id with
                                | Ok s => Ok (Some s) | Err e => Err e end)
     0 "http://auditd" (Some {| mode := "session"; sessionID := "aps_1" |}) "delete_pod").1 = true.
Proof.
  intros rows rows'. split; [reflexivity|].
  apply (revoked_session_blocks rows "aps_1"); reflexivity.
Defined.

(** An unclassified tool passes the gate in manual mode, and the read-only operating
    mode too. *)
Example unclassified_tool_passes fetch :
  checkApprovalMode fetch 0 "" (Some {| mode := "manual"; sessionID := "" |}) "drop_database" =
    (false, "") /\
  checkOperatingMode "readonly-governed" "drop_database" = true.
Proof. split; reflexivity. Qed.
