(* ===== verification/Rollback.v ===== *)
(** * internal/audit/rollback.go: deriving the inverse of a recorded mutation

    [DeriveRollbackPlan] with its scale and DML branches and the three generators of
    inverse SQL.  A [map[string]any] row is an association list in the order a range
    over it visits, which Go leaves open.  Decoding the captured pre-state is a
    parameter. *)

From S2P Require Import Prelude GoTime Identity Events.

Open Scope string_scope.

Definition ReversibilityYes := "yes".
Definition ReversibilityPartial := "partial".
Definition ReversibilityNo := "no".

Record ScalePreState := {
  Namespace : string;
  DeploymentName : string;
  PreviousReplicas : Z }.

Record WALChange := {
  Kind : string;
  w_Schema : string;
  w_Table : string;
  NewValues : anymap;
  OldValues : anymap;
  PKValues : anymap }.

Record WALCapture := {
  SlotName : string;
  LSNBefore : string;
  LSNAfter : string;
  Changes : list WALChange;
  w_CapturedAt : Time }.

Record DMLPreState := {
  d_Schema : string;
  d_Table : string;
  Operation : string;
  PKColumns : list string;
  Rows : list anymap;
  InsertedPKs : list anymap;
  RowCount : Z;
  CapturedAt : Time;
  Tier : Z;
  WAL : option WALCapture }.

(** [%v] of an [any]; a map prints its keys in order. *)
Fixpoint fmt_v (v : any) : string :=
  match v with
  | ANil => "<nil>"
  | ABool b => if b then "true" else "false"
  | ANum n => itoa n
  | AFloat text => text
  | AStr s => s
  | AList l => "[" ++ join " " (map fmt_v l) ++ "]"
  | AMap m =>
      "map[" ++ join " " (isort String.ltb (map (fun '(k, x) => k ++ ":" ++ fmt_v x) m)) ++ "]"
  end.

(** A map read: the zero value of [any] is nil. *)
Fixpoint any_get (row : anymap) (col : string) : any :=
  match row with
  | [] => ANil
  | (k, v) :: row' => if k =?s col then v else any_get row' col
  end.

Definition is_nil (v : any) : bool := match v with ANil => true | _ => false end.

Definition qualifiedTable (schema table : string) : string :=
  if (schema =?s "") || (schema =?s "public") then table else schema ++ "." ++ table.

Definition inverseInsertSQL (pre : DMLPreState) : result string (string * string) :=
  match InsertedPKs pre, PKColumns pre with
  | [], _ | _, [] => Err "INSERT pre-state missing InsertedPKs or PKColumns"
  | _, cols =>
      let qualTable := qualifiedTable (d_Schema pre) (d_Table pre) in
      let sql :=
        match cols with
        | [col] =>
            let vals := map (fun row => fmt_v (any_get row col)) (InsertedPKs pre) in
            "DELETE FROM " ++ qualTable ++ " WHERE " ++ col ++ " IN (" ++ join ", " vals ++ ")"
        | _ =>
            let cond row :=
              "(" ++ join " AND " (map (fun col => col ++ " = " ++ fmt_v (any_get row col)) cols) ++ ")" in
            "DELETE FROM " ++ qualTable ++ " WHERE " ++ join " OR " (map cond (InsertedPKs pre))
        end in
      Ok (sql, "delete " ++ itoa (Z.of_nat (length (InsertedPKs pre))) ++ " inserted row(s) from " ++
               qualTable)
  end.

(** The statement for one row, none when the row has only key columns. *)
Definition update_stmt (qualTable : string) (pks : list string) (row : anymap) : option string :=
  let set_clause '(col, val) := if is_nil val then col ++ " = NULL" else col ++ " = " ++ fmt_v val in
  let setClauses := map set_clause (List.filter (fun '(col, _) => negb (mem col pks)) row) in
  let whereClauses := map (fun pk => pk ++ " = " ++ fmt_v (any_get row pk)) pks in
  match setClauses with
  | [] => None
  | _ => Some ("UPDATE " ++ qualTable ++ " SET " ++ join ", " setClauses ++ " WHERE " ++
               join " AND " whereClauses)
  end.

Definition inverseUpdateSQL (pre : DMLPreState) : result string (string * string) :=
  match Rows pre, PKColumns pre with
  | [], _ | _, [] => Err "UPDATE pre-state missing Rows or PKColumns"
  | rows, pks =>
      let qualTable := qualifiedTable (d_Schema pre) (d_Table pre) in
      let stmts := omap (update_stmt qualTable pks) rows in
      Ok (join (";" ++ nl) stmts,
          "restore " ++ itoa (Z.of_nat (length rows)) ++ " updated row(s) in " ++ qualTable ++
          " to pre-mutation values")
  end.

Definition insert_value (v : any) : string := if is_nil v then "NULL" else "'" ++ fmt_v v ++ "'".

Definition inverseDeleteSQL (pre : DMLPreState) : result string (string * string) :=
  match Rows pre with
  | [] => Err "DELETE pre-state missing Rows"
  | first :: _ =>
      let qualTable := qualifiedTable (d_Schema pre) (d_Table pre) in
      let cols := map fst first in
      let val_row row := "(" ++ join ", " (map (fun col => insert_value (any_get row col)) cols) ++ ")" in
      Ok ("INSERT INTO " ++ qualTable ++ " (" ++ join ", " cols ++ ") VALUES" ++ nl ++ "  " ++
          join ("," ++ nl ++ "  ") (map val_row (Rows pre)),
          "re-insert " ++ itoa (Z.of_nat (length (Rows pre))) ++ " deleted row(s) into " ++ qualTable)
  end.

(** ** Plans *)

Definition plan_no (reason : string) (plan : RollbackPlan) : RollbackPlan :=
  {| OriginalEventID := OriginalEventID plan; OriginalTool := OriginalTool plan;
     OriginalTraceID := OriginalTraceID plan; Reversibility := ReversibilityNo;
     NotReversibleReason := reason; InverseOp := InverseOp plan; GeneratedAt := GeneratedAt plan |}.

Definition plan_partial (reason : string) (plan : RollbackPlan) : RollbackPlan :=
  {| OriginalEventID := OriginalEventID plan; OriginalTool := OriginalTool plan;
     OriginalTraceID := OriginalTraceID plan; Reversibility := ReversibilityPartial;
     NotReversibleReason := reason; InverseOp := InverseOp plan; GeneratedAt := GeneratedAt plan |}.

Definition plan_yes (op : InverseOperation) (plan : RollbackPlan) : RollbackPlan :=
  {| OriginalEventID := OriginalEventID plan; OriginalTool := OriginalTool plan;
     OriginalTraceID := OriginalTraceID plan; Reversibility := ReversibilityYes;
     NotReversibleReason := NotReversibleReason plan; InverseOp := Some op;
     GeneratedAt := GeneratedAt plan |}.

Section Derive.
Context (decode_scale : string -> result string ScalePreState).
Context (decode_dml : string -> result string DMLPreState).

Definition deriveScaleRollback (plan : RollbackPlan) (event : Event) (tool : ToolExecution)
    : result string RollbackPlan :=
  if PreState tool =?s "" then
    Ok (plan_no ("Pre-mutation state was not captured for this scale_deployment " ++
      "event. Events recorded before rollback support was added cannot be reversed automatically.") plan)
  else
    match decode_scale (PreState tool) with
    | Err e => Err ("unmarshal ScalePreState for event " ++ EventID event ++ ": " ++ e)
    | Ok pre =>
        if (PreviousReplicas pre =? 0)%Z then
          Ok (plan_no ("Pre-mutation replica count was 0 or could not be parsed; " ++
            "cannot safely restore to that state.") plan)
        else
          Ok (plan_yes
            {| io_Agent := "k8s"; io_Tool := "scale_deployment";
               Args := [("namespace", AStr (Namespace pre)); ("deployment", AStr (DeploymentName pre));
                        ("replicas", ANum (PreviousReplicas pre))];
               io_Description := "restore deployment/" ++ DeploymentName pre ++ " in namespace " ++
                 Namespace pre ++ " to " ++ itoa (PreviousReplicas pre) ++ " replica(s)" |} plan)
    end.

Definition inverse_sql (pre : DMLPreState) : option (result string (string * string)) :=
  if Operation pre =?s "insert" then Some (inverseInsertSQL pre)
  else if Operation pre =?s "update" then Some (inverseUpdateSQL pre)
  else if Operation pre =?s "delete" then Some (inverseDeleteSQL pre)
  else None.

Definition deriveDMLRollback (plan : RollbackPlan) (event : Event) (tool : ToolExecution)
    : result string RollbackPlan :=
  if PreState tool =?s "" then
    Ok (plan_no ("Pre-mutation state was not captured for this DML event. " ++
      "Events recorded before rollback support was added cannot be reversed automatically.") plan)
  else
    match decode_dml (PreState tool) with
    | Err e => Err ("unmarshal DMLPreState for event " ++ EventID event ++ ": " ++ e)
    | Ok pre =>
        if (RowCount pre =? 0)%Z then
          Ok (plan_yes
            {| io_Agent := "database"; io_Tool := "exec_sql";
               Args := [("sql", AStr "-- no rows affected; no inverse SQL needed")];
               io_Description :=
                 "no rows were affected by the original operation; nothing to reverse" |} plan)
        else
          match inverse_sql pre with
          | None => Ok (plan_no ("unknown DML operation " ++ quote (Operation pre)) plan)
          | Some (Err e) =>
              Err ("derive inverse SQL for " ++ Operation pre ++ " event " ++ EventID event ++ ": " ++ e)
          | Some (Ok (sql, desc)) =>
              let tierNote := if (Tier pre =? 2)%Z then "Tier 2 (WAL decode)"
                              else "Tier 1 (row-capture)" in
              Ok (plan_yes
                {| io_Agent := "database"; io_Tool := "exec_sql";
                   Args := [("sql", AStr sql); ("tier", ANum (Tier pre))];
                   io_Description := desc ++ " — captured via " ++ tierNote ++ " (" ++
                     itoa (RowCount pre) ++ " row(s))" |} plan)
          end
    end.

Definition DeriveRollbackPlan (now : Time) (event : Event) : result string RollbackPlan :=
  match e_Tool event with
  | None => Err ("event " ++ EventID event ++ " has no tool execution")
  | Some tool =>
      let name := t_Name tool in
      let plan := {| OriginalEventID := EventID event; OriginalTool := name;
                     OriginalTraceID := TraceID event; Reversibility := "";
                     NotReversibleReason := ""; InverseOp := None; GeneratedAt := now |} in
      if name =?s "scale_deployment" then deriveScaleRollback plan event tool
      else if name =?s "delete_pod" then
        Ok (plan_partial ("Pod deletion is partially reversible: the pod's owning " ++
          "controller (ReplicaSet, StatefulSet, DaemonSet) will recreate the pod automatically. " ++
          "If no controller manages this pod, it is permanently gone. " ++
          "No explicit inverse operation is generated.") plan)
      else if name =?s "restart_deployment" then
        Ok (plan_no ("A rollout restart cannot be undone: the restart has already " ++
          "happened. To roll back to a previous image, use a deployment rollback " ++
          "(kubectl rollout undo). Image rollbacks are not currently supported by this system.") plan)
      else if (name =?s "terminate_connection") || (name =?s "terminate_idle_connections") ||
              (name =?s "cancel_query") then
        Ok (plan_no (name ++ ": the connection or query is already gone and cannot be restored. " ++
          "The get_session_info pre-flight already surfaced the rollback cost estimate " ++
          "before this operation was approved.") plan)
      else if (name =?s "exec_update") || (name =?s "exec_delete") || (name =?s "exec_insert") then
        deriveDMLRollback plan event tool
      else
        Ok (plan_no ("tool " ++ quote name ++ " has no registered inverse operation") plan)
  end.
End Derive.

(** ** Lemmas *)

(** A finished plan: an inverse operation exactly for "yes", a reason for the
    others, and the event it stems from. *)
Definition plan_ok (event : Event) (plan : RollbackPlan) : Prop :=
  OriginalEventID plan = EventID event /\ OriginalTraceID plan = TraceID event /\
  ((Reversibility plan = ReversibilityYes /\ InverseOp plan <> None) \/
   ((Reversibility plan = ReversibilityNo \/ Reversibility plan = ReversibilityPartial) /\
    InverseOp plan = None /\ NotReversibleReason plan <> "")).

Lemma plan_ok_yes event plan op :
  OriginalEventID plan = EventID event -> OriginalTraceID plan = TraceID event ->
  plan_ok event (plan_yes op plan).
Proof. intros H1 H2. split_and!; [done|done|]. by left. Qed.

Lemma plan_ok_no event plan reason :
  OriginalEventID plan = EventID event -> OriginalTraceID plan = TraceID event ->
  InverseOp plan = None -> reason <> "" -> plan_ok event (plan_no reason plan).
Proof. intros H1 H2 H3 H4. split_and!; [done|done|]. right. split_and!; [by left|done|done]. Qed.

Lemma app_nonempty_l a b : a <> "" -> a ++ b <> "".
Proof. destruct a; [done|discriminate]. Qed.

(** The tools whose plan can carry an inverse operation. *)
Definition reversible_tools : list string :=
  ["scale_deployment"; "exec_update"; "exec_delete"; "exec_insert"].

Ltac plan_case :=
  first [ apply plan_ok_yes; reflexivity
        | apply plan_ok_no; [reflexivity|reflexivity|reflexivity|discriminate] ].

Lemma deriveScale_ok ds event tool plan plan' :
  OriginalEventID plan = EventID event -> OriginalTraceID plan = TraceID event ->
  InverseOp plan = None ->
  deriveScaleRollback ds plan event tool = Ok plan' -> plan_ok event plan'.
Proof.
  intros H1 H2 H3. unfold deriveScaleRollback. destruct (PreState tool =?s ""); [intros [= <-]; by apply plan_ok_no|].
  destruct (ds _) as [pre|]; [|done].
  destruct (PreviousReplicas pre =? 0)%Z; intros [= <-]; [by apply plan_ok_no|by apply plan_ok_yes].
Qed.

Lemma deriveDML_ok dd event tool plan plan' :
  OriginalEventID plan = EventID event -> OriginalTraceID plan = TraceID event ->
  InverseOp plan = None ->
  deriveDMLRollback dd plan event tool = Ok plan' -> plan_ok event plan'.
Proof.
  intros H1 H2 H3. unfold deriveDMLRollback. destruct (PreState tool =?s ""); [intros [= <-]; by apply plan_ok_no|].
  destruct (dd _) as [pre|]; [|done].
  destruct (RowCount pre =? 0)%Z; [intros [= <-]; by apply plan_ok_yes|].
  destruct (inverse_sql pre) as [[[sql desc]|]|]; [|done|];
    intros [= <-]; [by apply plan_ok_yes|by apply plan_ok_no].
Qed.

(** ** Properties *)

(** [DeriveRollbackPlan] on every event.  It fails on an event
    without a tool, and otherwise only for a reversible tool whose captured state
    does not decode or lacks rows or keys.  A plan it returns names its event and
    trace, carries an inverse operation exactly when it is marked fully reversible,
    states a reason when it is not, and is fully reversible only for
    scale_deployment and the three DML tools with a captured state. *)
Theorem DeriveRollbackPlan_sound ds dd now event :
  match DeriveRollbackPlan ds dd now event with
  | Err _ => e_Tool event = None \/
      exists tool, e_Tool event = Some tool /\ In (t_Name tool) reversible_tools /\ PreState tool <> ""
  | Ok plan => plan_ok event plan /\
      (Reversibility plan = ReversibilityYes ->
       exists tool, e_Tool event = Some tool /\ In (t_Name tool) reversible_tools /\ PreState tool <> "")
  end.
Proof.
  unfold DeriveRollbackPlan. destruct (e_Tool event) as [tool|]; [|by left].
  set (plan := Build_RollbackPlan _ _ _ _ _ _ _).
  destruct (String.eqb_spec (t_Name tool) "scale_deployment") as [En|].
  { destruct (deriveScaleRollback ds plan event tool) as [p|e] eqn:E.
    - split; [by apply (deriveScale_ok ds event tool plan)|]. revert E. unfold deriveScaleRollback.
      destruct (String.eqb_spec (PreState tool) ""); [by intros [= <-]|].
      intros _ _. exists tool. rewrite En. split_and!; [done|by left|done].
    - revert E. unfold deriveScaleRollback. destruct (String.eqb_spec (PreState tool) ""); [done|].
      intros _. right. exists tool. rewrite En. split_and!; [done|by left|done]. }
  destruct (t_Name tool =?s "delete_pod"); [split; [split_and!; [done|done|]; right; split_and!; [by right|done|done]|done]|].
  destruct (t_Name tool =?s "restart_deployment"); [split; [by apply plan_ok_no|done]|].
  destruct ((t_Name tool =?s "terminate_connection") || _ || _) eqn:Et.
  { split; [|done]. apply plan_ok_no; [done|done|done|]. apply app_nonempty_l.
    intros E. rewrite E in Et. done. }
  destruct ((t_Name tool =?s "exec_update") || _ || _) eqn:Ed; [|split; [by apply plan_ok_no|done]].
  assert (Hin : In (t_Name tool) reversible_tools).
  { rewrite !orb_true_iff, !streq_spec in Ed. simpl. intuition auto. }
  destruct (deriveDMLRollback dd plan event tool) as [p|e] eqn:E.
  - split; [by apply (deriveDML_ok dd event tool plan)|]. revert E. unfold deriveDMLRollback.
    destruct (String.eqb_spec (PreState tool) ""); [by intros [= <-]|]. intros _ _. by exists tool.
  - revert E. unfold deriveDMLRollback. destruct (String.eqb_spec (PreState tool) ""); [done|].
    intros _. right. by exists tool.
Qed.

(** An UPDATE whose captured rows hold key columns only is marked fully reversible,
    with an empty statement as its inverse. *)
Lemma inverseUpdateSQL_keys_only pre :
  Rows pre <> [] -> PKColumns pre <> [] ->
  (forall row col v, In row (Rows pre) -> In (col, v) row -> In col (PKColumns pre)) ->
  exists desc, inverseUpdateSQL pre = Ok ("", desc).
Proof.
  intros Hr Hp Hk. unfold inverseUpdateSQL.
  destruct (Rows pre) as [|r rows] eqn:Er; [done|]. destruct (PKColumns pre) as [|pk pks] eqn:Ep; [done|].
  eexists. f_equal. f_equal.
  set (q := qualifiedTable _ _).
  assert (Hs : forall row, In row (r :: rows) -> update_stmt q (pk :: pks) row = None).
  { intros row Hin. unfold update_stmt.
    replace (List.filter _ row) with (@nil (string * any)); [done|]. symmetry.
    specialize (fun col v => Hk row col v Hin). clear - Hk. induction row as [|[c v] row IH]; [done|].
    cbn [List.filter]. rewrite (proj2 (mem_spec c (pk :: pks))) by (apply (Hk c v); by left). cbn [negb].
    apply IH. intros col x Hin. apply (Hk col x). by right. }
  enough (E : omap (update_stmt q (pk :: pks)) (r :: rows) = []) by (rewrite E; reflexivity).
  revert Hs. generalize (r :: rows). clear. intros l Hl. induction l as [|x l IH]; [done|].
  simpl. rewrite Hl by (by left). apply IH. intros row Hin. apply Hl. by right.
Qed.

(** Inverse statements print text values without quotes, unlike the INSERT ones. *)
Example inverse_sql_quoting :
  let pre op := {| d_Schema := "public"; d_Table := "users"; Operation := op; PKColumns := ["id"];
                   Rows := [[("id", ANum 1); ("name", AStr "bob")]];
                   InsertedPKs := [[("id", AStr "x; --")]]; RowCount := 1%Z; CapturedAt := 0%Z;
                   Tier := 1%Z; WAL := None |} in
  inverseUpdateSQL (pre "update") =
    Ok ("UPDATE users SET name = bob WHERE id = 1",
        "restore 1 updated row(s) in users to pre-mutation values") /\
  inverseInsertSQL (pre "insert") =
    Ok ("DELETE FROM users WHERE id IN (x; --)", "delete 1 inserted row(s) from users") /\
  inverseDeleteSQL (pre "delete") =
    Ok ("INSERT INTO users (id, name) VALUES" ++ nl ++ "  ('1', 'bob')",
        "re-insert 1 deleted row(s) into users").
Proof. split_and!; vm_compute; reflexivity. Qed.
