(* ===== verification/RollbackStore.v ===== *)
(** * Rollback records and their endpoints

    internal/audit/rollback_store.go (single-event and fleet rollback records) and
    cmd/auditd/rollback_handlers.go.  The two tables are lists in id order.  The
    audit query, the fleet-job look-up, JSON encoding and the plan derivation's
    decoders are parameters; audit events the handlers emit are kept as a log.  One
    clock reading serves a call. *)

From S2P Require Import Prelude GoTime Identity Events Action ApprovalStore ApprovalHandlers Rollback.

Open Scope string_scope.

Record RollbackRecord := {
  RollbackID : string;
  rb_OriginalEventID : string;
  rb_OriginalTraceID : string;
  OriginalJobID : string;
  rb_Status : string;
  InitiatedBy : string;
  InitiatedAt : Time;
  rb_ApprovalID : string;
  RollbackTraceID : string;
  PlanJSON : string;
  ResultOutput : string;
  CompletedAt : Time;
  rb_CreatedAt : Time;
  rb_UpdatedAt : Time }.

Record FleetRollbackRecord := {
  FleetRollbackID : string;
  fr_OriginalJobID : string;
  fr_Status : string;
  fr_InitiatedBy : string;
  fr_ApprovalID : string;
  fr_Scope : string;
  RollbackJobID : string;
  fr_CreatedAt : Time;
  fr_UpdatedAt : Time }.

Record RollbackStore := {
  records : list RollbackRecord;
  fleet_records : list FleetRollbackRecord }.

Definition complete_rollback (now : Time) (uuid8 : string) (r : RollbackRecord) : RollbackRecord :=
  let id := if RollbackID r =?s "" then "rbk_" ++ uuid8 else RollbackID r in
  {| RollbackID := id; rb_OriginalEventID := rb_OriginalEventID r;
     rb_OriginalTraceID := rb_OriginalTraceID r; OriginalJobID := OriginalJobID r;
     rb_Status := if rb_Status r =?s "" then "pending_approval" else rb_Status r;
     InitiatedBy := InitiatedBy r;
     InitiatedAt := if IsZero (InitiatedAt r) then now else InitiatedAt r;
     rb_ApprovalID := rb_ApprovalID r;
     RollbackTraceID := if RollbackTraceID r =?s "" then "tr_" ++ id else RollbackTraceID r;
     PlanJSON := PlanJSON r; ResultOutput := ResultOutput r; CompletedAt := CompletedAt r;
     rb_CreatedAt := now; rb_UpdatedAt := now |}.

Definition CreateRollback (now : Time) (uuid8 : string) (db_err : option string) (s : RollbackStore)
    (r : RollbackRecord) : RollbackStore * result string RollbackRecord :=
  let r := complete_rollback now uuid8 r in
  match db_err with
  | Some e => (s, Err e)
  | None =>
      if existsb (fun r' => RollbackID r' =?s RollbackID r) (records s)
      then (s, Err "UNIQUE constraint failed: rollback_records.rollback_id")
      else ({| records := (records s ++ [r])%list; fleet_records := fleet_records s |}, Ok r)
  end.

Definition GetRollback (s : RollbackStore) (rollbackID : string) : result string RollbackRecord :=
  match find (fun r => RollbackID r =?s rollbackID) (records s) with
  | Some r => Ok r
  | None => Err "rollback record not found"
  end.

(** [status NOT IN ('failed', 'cancelled')] *)
Definition active (status : string) : bool := negb (mem status ["failed"; "cancelled"]).

Definition rollback_newer (a b : RollbackRecord) : bool :=
  text_lt (RFC3339Nano (rb_CreatedAt b)) (RFC3339Nano (rb_CreatedAt a)).

Definition GetRollbackByEventID (s : RollbackStore) (originalEventID : string) : option RollbackRecord :=
  match isort rollback_newer
          (List.filter (fun r => (rb_OriginalEventID r =?s originalEventID) && active (rb_Status r))
             (records s)) with
  | r :: _ => Some r
  | [] => None
  end.

Definition is_terminal (status : string) : bool :=
  (status =?s "success") || (status =?s "failed") || (status =?s "cancelled").

Definition set_rollback_status (now : Time) (status output : string) (r : RollbackRecord)
    : RollbackRecord :=
  {| RollbackID := RollbackID r; rb_OriginalEventID := rb_OriginalEventID r;
     rb_OriginalTraceID := rb_OriginalTraceID r; OriginalJobID := OriginalJobID r;
     rb_Status := status; InitiatedBy := InitiatedBy r; InitiatedAt := InitiatedAt r;
     rb_ApprovalID := rb_ApprovalID r; RollbackTraceID := RollbackTraceID r; PlanJSON := PlanJSON r;
     ResultOutput := if output =?s "" then ResultOutput r else output;
     CompletedAt := if is_terminal status then now else CompletedAt r;
     rb_CreatedAt := rb_CreatedAt r; rb_UpdatedAt := now |}.

Definition UpdateRollbackStatus (now : Time) (s : RollbackStore) (rollbackID status output : string)
    : RollbackStore :=
  {| records := map (fun r => if RollbackID r =?s rollbackID
                              then set_rollback_status now status output r else r) (records s);
     fleet_records := fleet_records s |}.

Definition set_rollback_approval (now : Time) (approvalID : string) (r : RollbackRecord)
    : RollbackRecord :=
  {| RollbackID := RollbackID r; rb_OriginalEventID := rb_OriginalEventID r;
     rb_OriginalTraceID := rb_OriginalTraceID r; OriginalJobID := OriginalJobID r;
     rb_Status := rb_Status r; InitiatedBy := InitiatedBy r; InitiatedAt := InitiatedAt r;
     rb_ApprovalID := approvalID; RollbackTraceID := RollbackTraceID r; PlanJSON := PlanJSON r;
     ResultOutput := ResultOutput r; CompletedAt := CompletedAt r;
     rb_CreatedAt := rb_CreatedAt r; rb_UpdatedAt := now |}.

Definition SetRollbackApprovalID (now : Time) (s : RollbackStore) (rollbackID approvalID : string)
    : RollbackStore :=
  {| records := map (fun r => if RollbackID r =?s rollbackID
                              then set_rollback_approval now approvalID r else r) (records s);
     fleet_records := fleet_records s |}.

Record RollbackQueryOptions := {
  rq_OriginalEventID : string;
  rq_OriginalTraceID : string;
  rq_OriginalJobID : string;
  rq_Status : string;
  rq_InitiatedBy : string;
  rq_Limit : Z }.

Definition rollback_selects (opts : RollbackQueryOptions) (r : RollbackRecord) : bool :=
  ((rq_OriginalEventID opts =?s "") || (rb_OriginalEventID r =?s rq_OriginalEventID opts)) &&
  ((rq_OriginalTraceID opts =?s "") || (rb_OriginalTraceID r =?s rq_OriginalTraceID opts)) &&
  ((rq_OriginalJobID opts =?s "") || (OriginalJobID r =?s rq_OriginalJobID opts)) &&
  ((rq_Status opts =?s "") || (rb_Status r =?s rq_Status opts)) &&
  ((rq_InitiatedBy opts =?s "") || (InitiatedBy r =?s rq_InitiatedBy opts)).

Definition ListRollbacks (s : RollbackStore) (opts : RollbackQueryOptions) : list RollbackRecord :=
  let sorted := isort rollback_newer (List.filter (rollback_selects opts) (records s)) in
  if (0 <? rq_Limit opts)%Z then firstn (Z.to_nat (rq_Limit opts)) sorted else sorted.

(** ** Fleet rollbacks *)

Definition complete_fleet_rollback (now : Time) (uuid8 : string) (r : FleetRollbackRecord)
    : FleetRollbackRecord :=
  {| FleetRollbackID := if FleetRollbackID r =?s "" then "frb_" ++ uuid8 else FleetRollbackID r;
     fr_OriginalJobID := fr_OriginalJobID r;
     fr_Status := if fr_Status r =?s "" then "pending_approval" else fr_Status r;
     fr_InitiatedBy := fr_InitiatedBy r; fr_ApprovalID := fr_ApprovalID r;
     fr_Scope := if fr_Scope r =?s "" then "all" else fr_Scope r;
     RollbackJobID := RollbackJobID r; fr_CreatedAt := now; fr_UpdatedAt := now |}.

Definition CreateFleetRollback (now : Time) (uuid8 : string) (db_err : option string)
    (s : RollbackStore) (r : FleetRollbackRecord) : RollbackStore * result string FleetRollbackRecord :=
  let r := complete_fleet_rollback now uuid8 r in
  match db_err with
  | Some e => (s, Err e)
  | None =>
      if existsb (fun r' => FleetRollbackID r' =?s FleetRollbackID r) (fleet_records s)
      then (s, Err "UNIQUE constraint failed: fleet_rollback_records.fleet_rollback_id")
      else ({| records := records s; fleet_records := (fleet_records s ++ [r])%list |}, Ok r)
  end.

Definition GetFleetRollback (s : RollbackStore) (id : string) : result string FleetRollbackRecord :=
  match find (fun r => FleetRollbackID r =?s id) (fleet_records s) with
  | Some r => Ok r
  | None => Err "fleet rollback record not found"
  end.

Definition fleet_newer (a b : FleetRollbackRecord) : bool :=
  text_lt (RFC3339Nano (fr_CreatedAt b)) (RFC3339Nano (fr_CreatedAt a)).

Definition GetFleetRollbackByJobID (s : RollbackStore) (originalJobID : string)
    : option FleetRollbackRecord :=
  match isort fleet_newer
          (List.filter (fun r => (fr_OriginalJobID r =?s originalJobID) && active (fr_Status r))
             (fleet_records s)) with
  | r :: _ => Some r
  | [] => None
  end.

Definition UpdateFleetRollbackStatus (now : Time) (s : RollbackStore) (id status rollbackJobID : string)
    : RollbackStore :=
  let set r :=
    {| FleetRollbackID := FleetRollbackID r; fr_OriginalJobID := fr_OriginalJobID r;
       fr_Status := status; fr_InitiatedBy := fr_InitiatedBy r; fr_ApprovalID := fr_ApprovalID r;
       fr_Scope := fr_Scope r;
       RollbackJobID := if rollbackJobID =?s "" then RollbackJobID r else rollbackJobID;
       fr_CreatedAt := fr_CreatedAt r; fr_UpdatedAt := now |} in
  {| records := records s;
     fleet_records := map (fun r => if FleetRollbackID r =?s id then set r else r) (fleet_records s) |}.

(** ** Handlers *)

Record rollbackServer := {
  rstore : RollbackStore;
  approvalStore : option ApprovalStore;
  emitted : list Event }.

Inductive RReply :=
  | RError (code : Z) (msg : string)
  | RPlan (code : Z) (plan : RollbackPlan)
  | RNotReversible (plan : RollbackPlan)
  | RDryRun (plan : RollbackPlan)
  | RConflict (existing : RollbackRecord)
  | RRecord (code : Z) (r : RollbackRecord) (plan : option RollbackPlan)
  | RList (l : list RollbackRecord)
  | RFleetDryRun (jobID scope status name : string)
  | RFleetConflict (existing : FleetRollbackRecord)
  | RFleet (code : Z) (r : FleetRollbackRecord).

Record InitiateRollbackRequest := {
  ir_OriginalEventID : string;
  ir_Justification : string;
  ir_DryRun : bool }.

(** The job members the fleet handler reads. *)
Record FleetJobInfo := { job_Status : string; job_Name : string }.

Section Handlers.
(** [auditStore.Query] for tool_execution events of an id, [fleetStore.GetJob]
    ([None] is "not found"), and the encoders. *)
Context (query_tool_event : string -> result string (list Event)).
Context (get_job : string -> result string (option FleetJobInfo)).
Context (decode_scale : string -> result string ScalePreState).
Context (decode_dml : string -> result string DMLPreState).
Context (marshal_plan : RollbackPlan -> option string).
Context (unmarshal_plan : string -> option RollbackPlan).

Definition handleDeriveRollbackPlan (now : Time) (eventID : string) : RReply :=
  if eventID =?s "" then RError 400 "missing event ID"
  else
    match query_tool_event eventID with
    | Err _ => RError 500 "failed to query event"
    | Ok [] => RError 404 "event not found or not a tool_execution event"
    | Ok (ev :: _) =>
        match DeriveRollbackPlan decode_scale decode_dml now ev with
        | Err e => RError 422 ("failed to derive rollback plan: " ++ e)
        | Ok plan => RPlan 200 plan
        end
    end.

Definition caller_name (principal : ResolvedPrincipal) : string :=
  if EffectiveID principal =?s "" then "unknown" else EffectiveID principal.

Definition new_rollback (req : InitiateRollbackRequest) (ev : Event) (by_ plan_json : string)
    : RollbackRecord :=
  {| RollbackID := ""; rb_OriginalEventID := ir_OriginalEventID req;
     rb_OriginalTraceID := TraceID ev; OriginalJobID := ""; rb_Status := "pending_approval";
     InitiatedBy := by_; InitiatedAt := 0%Z; rb_ApprovalID := ""; RollbackTraceID := "";
     PlanJSON := plan_json; ResultOutput := ""; CompletedAt := 0%Z; rb_CreatedAt := 0%Z;
     rb_UpdatedAt := 0%Z |}.

Definition rollback_approval (req : InitiateRollbackRequest) (plan : RollbackPlan)
    (rbk : RollbackRecord) : StoredApproval :=
  {| ApprovalID := ""; sa_EventID := ""; sa_TraceID := RollbackTraceID rbk; Status := "pending";
     sa_ActionClass := ActionDestructive; ToolName := "rollback"; sa_AgentName := "auditd";
     sa_ResourceType := match InverseOp plan with Some op => io_Agent op | None => "" end;
     sa_ResourceName := OriginalTool plan; RequestedBy := InitiatedBy rbk;
     RequestedAt := rb_CreatedAt rbk;
     RequestContext := [("rollback_id", AStr (RollbackID rbk));
                        ("original_event_id", AStr (ir_OriginalEventID req));
                        ("justification", AStr (ir_Justification req))];
     ResolvedBy := ""; ResolvedAt := 0%Z; ResolutionReason := ""; ExpiresAt := 0%Z;
     ApprovalValidUntil := 0%Z; sa_PolicyName := "rollback-requires-approval";
     ApproverRole := "operator"; CallbackURL := ""; CallbackSentAt := 0%Z; CreatedAt := 0%Z;
     UpdatedAt := 0%Z |}.

Definition rollback_event (eventID : string) (req : InitiateRollbackRequest) (ev : Event)
    (plan : RollbackPlan) (rbk : RollbackRecord) : Event :=
  {| EventID := eventID; Timestamp := 0%Z; EventType := EventTypeRollbackInitiated;
     TraceID := RollbackTraceID rbk; ParentID := ""; Origin := "";
     e_ActionClass := ActionDestructive; PrevHash := ""; EventHash := ""; e_Principal := None;
     e_Purpose := ""; e_PurposeNote := "";
     e_Session := {| s_ID := RollbackID rbk; s_UserID := ""; AgentName := ""; StartedAt := 0%Z;
                     DelegationCount := 0%Z |};
     e_Input := {| UserQuery := ir_Justification req; InfrastructureContext := [] |};
     e_Output := None; e_Tool := None; e_Approval := None; e_Decision := None;
     e_PolicyDecision := None; e_AgentReasoning := None; e_GovernanceViolation := None;
     e_DelegationVerification := None;
     e_Outcome := Some {| o_Status := "pending_approval"; o_ErrorMessage := ""; o_Duration := 0%Z |};
     e_RollbackExecution :=
       Some {| re_RollbackID := RollbackID rbk; re_OriginalEventID := ir_OriginalEventID req;
               re_OriginalTraceID := TraceID ev; re_Plan := Some plan;
               re_Status := "pending_approval"; re_ErrorMessage := "" |} |}.

(** The ids and failures one call draws: of the rollback record, of the approval
    request, of the event. *)
Record Draws := {
  rbk_uuid : string; apr_uuid : string; ev_uuid : string;
  rbk_err : option string; apr_err : option string }.

(** Everything after the duplicate check. *)
Definition initiate (now : Time) (dr : Draws) (s : rollbackServer) (req : InitiateRollbackRequest)
    (principal : ResolvedPrincipal) (ev : Event) (plan : RollbackPlan) : rollbackServer * RReply :=
  match marshal_plan plan with
  | None => (s, RError 500 "failed to serialize rollback plan")
  | Some planJSON =>
      match CreateRollback now (rbk_uuid dr) (rbk_err dr) (rstore s)
              (new_rollback req ev (caller_name principal) planJSON) with
      | (_, Err _) => (s, RError 500 "failed to create rollback record")
      | (st, Ok rbk) =>
          let '(st', approvals, rbk') :=
            match approvalStore s with
            | None => (st, None, rbk)
            | Some a =>
                let approval := rollback_approval req plan rbk in
                match CreateRequest now (apr_uuid dr) (apr_err dr) a approval with
                | (a', Some _) => (st, Some a', rbk)
                | (a', None) =>
                    let id := ApprovalID (complete_request now (apr_uuid dr) approval) in
                    (SetRollbackApprovalID now st (RollbackID rbk) id, Some a',
                     set_rollback_approval (rb_UpdatedAt rbk) id rbk)
                end
            end in
          ({| rstore := st'; approvalStore := approvals;
              emitted := (emitted s ++ [rollback_event ("rbk_" ++ ev_uuid dr) req ev plan rbk'])%list |},
           RRecord 201 rbk' (Some plan))
      end
  end.

Definition handleInitiateRollback (now : Time) (dr : Draws) (s : rollbackServer)
    (principal : ResolvedPrincipal) (body : Body InitiateRollbackRequest)
    : rollbackServer * RReply :=
  match body with
  | Unreadable => (s, RError 400 "failed to read body")
  | EmptyBody => (s, RError 400 "invalid JSON: unexpected end of JSON input")
  | BadJSON e => (s, RError 400 ("invalid JSON: " ++ e))
  | Decoded req =>
      if ir_OriginalEventID req =?s "" then (s, RError 400 "original_event_id is required")
      else
        match query_tool_event (ir_OriginalEventID req) with
        | Err _ => (s, RError 500 "failed to query event")
        | Ok [] => (s, RError 404 "event not found or not a tool_execution event")
        | Ok (ev :: _) =>
            match DeriveRollbackPlan decode_scale decode_dml now ev with
            | Err e => (s, RError 422 ("failed to derive rollback plan: " ++ e))
            | Ok plan =>
                if Reversibility plan =?s ReversibilityNo then (s, RNotReversible plan)
                else if ir_DryRun req then (s, RDryRun plan)
                else
                  match GetRollbackByEventID (rstore s) (ir_OriginalEventID req) with
                  | Some existing => (s, RConflict existing)
                  | None => initiate now dr s req principal ev plan
                  end
            end
        end
  end.

(** The query parameters of the list endpoint; an absent one is empty. *)
Definition handleListRollbacks (s : rollbackServer)
    (original_event_id original_trace_id status initiated_by limit : string) : RReply :=
  let n := match atoi limit with Some n => if (0 <? n)%Z then n else 50%Z | None => 50%Z end in
  RList (ListRollbacks (rstore s)
    {| rq_OriginalEventID := original_event_id; rq_OriginalTraceID := original_trace_id;
       rq_OriginalJobID := ""; rq_Status := status; rq_InitiatedBy := initiated_by; rq_Limit := n |}).

Definition handleGetRollback (s : rollbackServer) (rollbackID : string) : RReply :=
  if rollbackID =?s "" then RError 400 "missing rollback ID"
  else
    match GetRollback (rstore s) rollbackID with
    | Err _ => RError 404 "rollback not found"
    | Ok rbk => RRecord 200 rbk (if PlanJSON rbk =?s "" then None else unmarshal_plan (PlanJSON rbk))
    end.

Definition set_status (status : string) (r : RollbackRecord) : RollbackRecord :=
  {| RollbackID := RollbackID r; rb_OriginalEventID := rb_OriginalEventID r;
     rb_OriginalTraceID := rb_OriginalTraceID r; OriginalJobID := OriginalJobID r;
     rb_Status := status; InitiatedBy := InitiatedBy r; InitiatedAt := InitiatedAt r;
     rb_ApprovalID := rb_ApprovalID r; RollbackTraceID := RollbackTraceID r; PlanJSON := PlanJSON r;
     ResultOutput := ResultOutput r; CompletedAt := CompletedAt r; rb_CreatedAt := rb_CreatedAt r;
     rb_UpdatedAt := rb_UpdatedAt r |}.

Definition handleCancelRollback (now : Time) (s : rollbackServer) (rollbackID : string)
    : rollbackServer * RReply :=
  if rollbackID =?s "" then (s, RError 400 "missing rollback ID")
  else
    match GetRollback (rstore s) rollbackID with
    | Err _ => (s, RError 404 "rollback not found")
    | Ok rbk =>
        if is_terminal (rb_Status rbk) then
          (s, RError 409 ("rollback is already in terminal state: " ++ rb_Status rbk))
        else if rb_Status rbk =?s "executing" then
          (s, RError 409 "rollback is currently executing and cannot be cancelled")
        else
          ({| rstore := UpdateRollbackStatus now (rstore s) rollbackID "cancelled" "";
              approvalStore := approvalStore s; emitted := emitted s |},
           RRecord 200 (set_status "cancelled" rbk) None)
    end.

(** The body of the fleet endpoint is optional and its decoding errors are
    ignored: an absent or bad one is the zero request. *)
Definition handleInitiateFleetRollback (now : Time) (uuid8 : string) (db_err : option string)
    (s : rollbackServer) (principal : ResolvedPrincipal) (jobID : string) (body : string * bool)
    : rollbackServer * RReply :=
  if jobID =?s "" then (s, RError 400 "missing job ID")
  else
    match get_job jobID with
    | Err _ => (s, RError 500 "failed to get fleet job")
    | Ok None => (s, RError 404 "fleet job not found")
    | Ok (Some job) =>
        match GetFleetRollbackByJobID (rstore s) jobID with
        | Some existing => (s, RFleetConflict existing)
        | None =>
            let scope := if body.1 =?s "" then "all" else body.1 in
            if body.2 then (s, RFleetDryRun jobID scope (job_Status job) (job_Name job))
            else
              let frb := {| FleetRollbackID := ""; fr_OriginalJobID := jobID; fr_Status := "";
                            fr_InitiatedBy := caller_name principal; fr_ApprovalID := "";
                            fr_Scope := scope; RollbackJobID := ""; fr_CreatedAt := 0%Z;
                            fr_UpdatedAt := 0%Z |} in
              match CreateFleetRollback now uuid8 db_err (rstore s) frb with
              | (_, Err _) => (s, RError 500 "failed to create fleet rollback record")
              | (st, Ok r) =>
                  ({| rstore := st; approvalStore := approvalStore s; emitted := emitted s |},
                   RFleet 201 r)
              end
        end
    end.

Definition handleGetFleetRollback (s : rollbackServer) (jobID : string) : RReply :=
  if jobID =?s "" then RError 400 "missing job ID"
  else
    match GetFleetRollbackByJobID (rstore s) jobID with
    | None => RError 404 "no active rollback for this fleet job"
    | Some frb => RFleet 200 frb
    end.
End Handlers.

(** ** Lemmas *)

Definition active_for (e : string) (r : RollbackRecord) : bool :=
  (rb_OriginalEventID r =?s e) && active (rb_Status r).

Definition active_count (s : RollbackStore) (e : string) : nat :=
  length (List.filter (active_for e) (records s)).

Definition single_active (s : RollbackStore) : Prop := forall e, active_count s e <= 1.

Lemma isort_nil {A} (lt : A -> A -> bool) l : isort lt l = [] -> l = [].
Proof.
  intros H. pose proof (isort_perm lt l) as P. rewrite H in P. by apply Permutation_nil.
Qed.

Lemma GetRollbackByEventID_None s e : GetRollbackByEventID s e = None -> active_count s e = 0.
Proof.
  unfold GetRollbackByEventID, active_count. destruct (isort _ _) eqn:E; [|done]. intros _.
  apply isort_nil in E. unfold active_for. by rewrite E.
Qed.

Lemma GetRollbackByEventID_Some s e r :
  GetRollbackByEventID s e = Some r -> In r (records s) /\ active_for e r = true.
Proof.
  unfold GetRollbackByEventID. destruct (isort _ _) as [|x l] eqn:E; [done|]. intros [= ->].
  assert (H : In r (isort rollback_newer (List.filter (active_for e) (records s)))).
  { unfold active_for. rewrite E. by left. }
  by rewrite isort_In, filter_In in H.
Qed.

Lemma filter_length_map {A} (f : A -> bool) (g : A -> A) l :
  (forall x, f (g x) = true -> f x = true) ->
  length (List.filter f (map g l)) <= length (List.filter f l).
Proof.
  intros H. induction l as [|x l IH]; simpl; [lia|].
  destruct (f (g x)) eqn:E; [rewrite (H _ E)|destruct (f x)]; simpl; lia.
Qed.

Lemma single_active_update now s id status output :
  active status = false -> single_active s ->
  single_active (UpdateRollbackStatus now s id status output).
Proof.
  intros Hs H e. unfold active_count, UpdateRollbackStatus. simpl.
  etransitivity; [|apply (H e)]. apply filter_length_map. intros r.
  destruct (RollbackID r =?s id); [|done]. unfold active_for. simpl. rewrite Hs.
  by rewrite andb_false_r.
Qed.

Lemma active_count_approval now s id a e :
  active_count (SetRollbackApprovalID now s id a) e <= active_count s e.
Proof.
  unfold active_count, SetRollbackApprovalID. simpl. apply filter_length_map. intros r.
  by destruct (RollbackID r =?s id).
Qed.

Lemma CreateRollback_cases now u err s r :
  (exists e, CreateRollback now u err s r = (s, Err e)) \/
  CreateRollback now u err s r =
    ({| records := (records s ++ [complete_rollback now u r])%list; fleet_records := fleet_records s |},
     Ok (complete_rollback now u r)).
Proof.
  unfold CreateRollback. destruct err; [left; by eexists|]. destruct (existsb _ _); [left; by eexists|by right].
Qed.

(** What [initiate] does to the store: nothing, or one more record. *)
Lemma initiate_store marshal now dr s req p ev plan :
  let '(s', reply) := initiate marshal now dr s req p ev plan in
  (s' = s /\ exists msg, reply = RError 500 msg) \/
  (exists planJSON st rbk rbk',
     marshal plan = Some planJSON /\
     rbk = complete_rollback now (rbk_uuid dr) (new_rollback req ev (caller_name p) planJSON) /\
     records st = (records (rstore s) ++ [rbk])%list /\
     (rstore s' = st \/ exists id, rstore s' = SetRollbackApprovalID now st (RollbackID rbk) id) /\
     emitted s' = (emitted s ++ [rollback_event ("rbk_" ++ ev_uuid dr) req ev plan rbk'])%list /\
     reply = RRecord 201 rbk' (Some plan)).
Proof.
  unfold initiate. destruct (marshal plan) as [pj|]; [|simpl; left; eauto].
  destruct (CreateRollback_cases now (rbk_uuid dr) (rbk_err dr) (rstore s)
    (new_rollback req ev (caller_name p) pj)) as [[e ->]| ->]; [simpl; left; eauto|].
  set (rbk := complete_rollback _ _ _). set (st := Build_RollbackStore _ _).
  destruct (approvalStore s) as [a|].
  - destruct (CreateRequest _ _ _ a _) as [a' [e|]]; simpl; right; exists pj, st, rbk; eexists;
      (split_and!; [done|done|reflexivity| |reflexivity|reflexivity]); [by left|right; by eexists].
  - simpl. right. exists pj, st, rbk. eexists. split_and!; [done|done|reflexivity|by left|reflexivity|reflexivity].
Qed.

Lemma single_active_initiate marshal now dr s req p ev plan :
  active_count (rstore s) (ir_OriginalEventID req) = 0 -> single_active (rstore s) ->
  single_active (rstore (initiate marshal now dr s req p ev plan).1).
Proof.
  intros H0 H. pose proof (initiate_store marshal now dr s req p ev plan) as HI.
  destruct (initiate _ _ _ _ _ _ _ _) as [s' reply].
  destruct HI as [[-> _]|(pj & st & rbk & rbk' & _ & Hr & Hst & Hs' & _)]; [done|]. simpl. intros e.
  assert (Hle : active_count st e <= 1).
  { unfold active_count. rewrite Hst, List.filter_app, length_app.
    assert (Hrec : active_for e rbk = (ir_OriginalEventID req =?s e)).
    { rewrite Hr. unfold active_for. simpl. by rewrite andb_true_r. }
    simpl. rewrite Hrec. destruct (String.eqb_spec (ir_OriginalEventID req) e) as [E|].
    - rewrite <- E. unfold active_count in H0. rewrite H0. simpl. lia.
    - pose proof (H e). unfold active_count in *. simpl. lia. }
  destruct Hs' as [-> |[id ->]]; [done|]. etransitivity; [apply active_count_approval|done].
Qed.

Lemma update_status_get now s id status out id' :
  GetRollback (UpdateRollbackStatus now s id status out) id' =
  match GetRollback s id' with
  | Ok r => Ok (if RollbackID r =?s id then set_rollback_status now status out r else r)
  | Err e => Err e
  end.
Proof.
  unfold GetRollback, UpdateRollbackStatus. simpl. rewrite find_map.
  assert (Ef : forall l, find (fun x => RollbackID (if RollbackID x =?s id then
      set_rollback_status now status out x else x) =?s id') l =
      find (fun x => RollbackID x =?s id') l).
  { induction l as [|x l IH]; simpl; [done|]. rewrite IH. by destruct (RollbackID x =?s id). }
  rewrite Ef. by destruct (find _ _).
Qed.

Lemma GetRollback_id s id r : GetRollback s id = Ok r -> RollbackID r = id.
Proof.
  unfold GetRollback. destruct (find _ _) eqn:Ef; [|done]. intros [= ->].
  apply find_some in Ef as [_ Ef]. by apply streq_spec.
Qed.

(** ** Properties *)

Section Properties.
Context (query : string -> result string (list Event)) (ds : string -> result string ScalePreState).
Context (dd : string -> result string DMLPreState) (marshal : RollbackPlan -> option string).
Context (get_job : string -> result string (option FleetJobInfo)).

(** One call of a mutating rollback endpoint. *)
Inductive rollback_call :=
  | CInitiate (now : Time) (dr : Draws) (p : ResolvedPrincipal) (body : Body InitiateRollbackRequest)
  | CCancel (now : Time) (id : string)
  | CFleet (now : Time) (uuid8 : string) (err : option string) (p : ResolvedPrincipal)
      (jobID : string) (body : string * bool).

Definition serve (s : rollbackServer) (c : rollback_call) : rollbackServer :=
  match c with
  | CInitiate now dr p body => (handleInitiateRollback query ds dd marshal now dr s p body).1
  | CCancel now id => (handleCancelRollback now s id).1
  | CFleet now u err p jobID body => (handleInitiateFleetRollback get_job now u err s p jobID body).1
  end.

Lemma single_active_serve s c : single_active (rstore s) -> single_active (rstore (serve s c)).
Proof.
  intros H. destruct c as [now dr p body|now id|now u err p jobID body]; simpl.
  - unfold handleInitiateRollback. destruct body as [| | |req]; try exact H.
    destruct (ir_OriginalEventID req =?s ""); [exact H|].
    destruct (query _) as [[|ev evs]|]; [exact H| |exact H].
    destruct (DeriveRollbackPlan _ _ _ _) as [plan|]; [|exact H].
    destruct (Reversibility plan =?s ReversibilityNo); [exact H|].
    destruct (ir_DryRun req); [exact H|].
    destruct (GetRollbackByEventID _ _) eqn:E; [exact H|].
    apply single_active_initiate; [|exact H]. by apply GetRollbackByEventID_None.
  - unfold handleCancelRollback. destruct (id =?s ""); [exact H|].
    destruct (GetRollback _ _) as [r|]; [|exact H]. destruct (is_terminal _); [exact H|].
    destruct (rb_Status r =?s "executing"); [exact H|]. by apply single_active_update.
  - unfold handleInitiateFleetRollback. destruct (jobID =?s ""); [exact H|].
    destruct (get_job jobID) as [[job|]|]; [|exact H..].
    destruct (GetFleetRollbackByJobID _ _); [exact H|]. destruct body.2; [exact H|].
    unfold CreateFleetRollback. destruct err; [exact H|]. destruct (existsb _ _); exact H.
Qed.

(** C34 (invariant). Served one after the other, the rollback endpoints never give
    an event more than one active rollback (one that neither failed nor was
    cancelled), whatever the requests, the callers and the database failures. *)
Theorem one_active_rollback s calls
    (Hsingle : single_active (rstore s)) :
  single_active (rstore (fold_left serve calls s)).
Proof.
  revert s Hsingle. induction calls as [|c calls IH]; intros s H; [done|].
  apply (IH (serve s c)). by apply single_active_serve.
Qed.

(** [handleInitiateRollback]: when it answers 201 the event's
    plan was derived and is not irreversible, the request was no dry run and no
    active rollback existed, and exactly one record is added, pending approval, in
    the caller's name, with one rollback_initiated audit event that carries the
    plan; on every other answer, a dry run included, the server is as before. *)
Theorem handleInitiateRollback_spec now dr s p body :
  let '(s', reply) := handleInitiateRollback query ds dd marshal now dr s p body in
  (s' = s /\ forall r plan, reply <> RRecord 201 r plan) \/
  (exists req ev evs plan rbk st,
     body = Decoded req /\ query (ir_OriginalEventID req) = Ok (ev :: evs) /\
     DeriveRollbackPlan ds dd now ev = Ok plan /\ Reversibility plan <> ReversibilityNo /\
     ir_DryRun req = false /\ active_count (rstore s) (ir_OriginalEventID req) = 0 /\
     records st = (records (rstore s) ++ [rbk])%list /\
     (rstore s' = st \/ exists id, rstore s' = SetRollbackApprovalID now st (RollbackID rbk) id) /\
     rb_OriginalEventID rbk = ir_OriginalEventID req /\ rb_Status rbk = "pending_approval" /\
     InitiatedBy rbk = caller_name p /\
     exists e, emitted s' = (emitted s ++ [e])%list /\ EventType e = EventTypeRollbackInitiated /\
       option_map re_Plan (e_RollbackExecution e) = Some (Some plan)).
Proof.
  unfold handleInitiateRollback. destruct body as [| | |req]; try (left; split; [done|congruence]).
  destruct (ir_OriginalEventID req =?s ""); [left; split; [done|congruence]|].
  destruct (query _) as [[|ev evs]|] eqn:Eq; [left; split; [done|congruence]| |left; split; [done|congruence]].
  destruct (DeriveRollbackPlan _ _ _ _) as [plan|] eqn:Ed; [|left; split; [done|congruence]].
  destruct (Reversibility plan =?s ReversibilityNo) eqn:Er; [left; split; [done|congruence]|].
  destruct (ir_DryRun req) eqn:Ey; [left; split; [done|congruence]|].
  destruct (GetRollbackByEventID _ _) eqn:Eg; [left; split; [done|congruence]|].
  pose proof (initiate_store marshal now dr s req p ev plan) as HI.
  destruct (initiate _ _ _ _ _ _ _ _) as [s' reply].
  destruct HI as [[-> (msg & ->)]|(pj & st & rbk & rbk' & _ & Hr & Hst & Hs' & He & _)];
    [left; split; [done|congruence]|].
  right. exists req, ev, evs, plan, rbk, st. apply GetRollbackByEventID_None in Eg.
  apply streq_false in Er. split_and!; try done; try by rewrite Hr.
  eexists. split; [exact He|]. done.
Qed.
End Properties.

(** [handleCancelRollback] cancels exactly the rollbacks that have
    not started: it answers 409 for a finished or an executing one and 404 for an
    unknown one, changing nothing, and otherwise marks the record cancelled with a
    completion time and touches no record of another id. *)
Theorem handleCancelRollback_spec now s id (Hid : id <> "") :
  let '(s', reply) := handleCancelRollback now s id in
  match GetRollback (rstore s) id with
  | Err _ => s' = s /\ reply = RError 404 "rollback not found"
  | Ok r =>
      if is_terminal (rb_Status r) || (rb_Status r =?s "executing")
      then s' = s /\ exists msg, reply = RError 409 msg
      else GetRollback (rstore s') id = Ok (set_rollback_status now "cancelled" "" r) /\
           (forall id', id' <> id -> GetRollback (rstore s') id' = GetRollback (rstore s) id')
  end.
Proof.
  unfold handleCancelRollback. apply streq_false in Hid as Hid'. rewrite Hid'.
  destruct (GetRollback (rstore s) id) as [r|] eqn:E; [|done].
  destruct (is_terminal (rb_Status r)); simpl; [by eauto|].
  destruct (rb_Status r =?s "executing"); [by eauto|].
  simpl. split.
  - rewrite update_status_get, E. by rewrite (GetRollback_id _ _ _ E), streq_refl.
  - intros id' Hne. rewrite update_status_get.
    destruct (GetRollback (rstore s) id') as [r'|] eqn:E'; [|done].
    rewrite (GetRollback_id _ _ _ E'). by rewrite (proj2 (streq_false _ _)).
Qed.

(** ** cmd/auditd/rollback_executor.go *)

Section Executor.
Context (unmarshal_plan : string -> result string RollbackPlan).
Context (marshal_args : anymap -> result string string).
(** The POST to the gateway: url, body and X-Trace-ID to a status and a body. *)
Context (post : string -> string -> string -> result string (Z * string)).

Definition dispatchInverseOp (gatewayURL : string) (rbk : RollbackRecord) (op : InverseOperation)
    : result string string :=
  if gatewayURL =?s "" then Ok "gateway not configured; rollback dispatch skipped"
  else
    match marshal_args (Args op) with
    | Err e => Err ("marshal inverse op args: " ++ e)
    | Ok body =>
        match post (gatewayURL ++ "/api/v1/" ++ io_Agent op ++ "/" ++ io_Tool op) body
                (RollbackTraceID rbk) with
        | Err e => Err ("gateway request failed: " ++ e)
        | Ok (code, respBody) =>
            if (300 <=? code)%Z then Err ("gateway returned " ++ itoa code ++ ": " ++ respBody)
            else Ok respBody
        end
    end.

Definition executor_event (eventID eventType : string) (rbk : RollbackRecord) (plan : RollbackPlan)
    (status errMsg : string) : Event :=
  {| EventID := eventID; Timestamp := 0%Z; EventType := eventType;
     TraceID := RollbackTraceID rbk; ParentID := ""; Origin := "";
     e_ActionClass := ActionDestructive; PrevHash := ""; EventHash := ""; e_Principal := None;
     e_Purpose := ""; e_PurposeNote := "";
     e_Session := {| s_ID := RollbackID rbk; s_UserID := ""; AgentName := ""; StartedAt := 0%Z;
                     DelegationCount := 0%Z |};
     e_Input := {| UserQuery := ""; InfrastructureContext := [] |};
     e_Output := None; e_Tool := None; e_Approval := None; e_Decision := None;
     e_PolicyDecision := None; e_AgentReasoning := None; e_GovernanceViolation := None;
     e_DelegationVerification := None;
     e_Outcome := Some {| o_Status := status; o_ErrorMessage := errMsg; o_Duration := 0%Z |};
     e_RollbackExecution :=
       Some {| re_RollbackID := RollbackID rbk; re_OriginalEventID := rb_OriginalEventID rbk;
               re_OriginalTraceID := rb_OriginalTraceID rbk; re_Plan := Some plan;
               re_Status := status; re_ErrorMessage := errMsg |} |}.

(** [string(eventType[:3]) + "_" + uuid] *)
Definition executor_event_id (eventType uuid8 : string) : string :=
  String.substring 0 3 eventType ++ "_" ++ uuid8.

(** [Execute]: the store, the events and the error.  [t1] and [t2] are the clock
    at the two status updates, [u1] and [u2] the event ids drawn. *)
Definition Execute (t1 t2 : Time) (u1 u2 gatewayURL : string) (s : RollbackStore)
    (rbk : RollbackRecord) : RollbackStore * list Event * option string :=
  if is_terminal (rb_Status rbk) then (s, [], None)
  else
    match unmarshal_plan (PlanJSON rbk) with
    | Err e => (s, [], Some ("unmarshal rollback plan: " ++ e))
    | Ok plan =>
        match (if Reversibility plan =?s ReversibilityYes then InverseOp plan else None) with
        | None => (s, [], Some ("rollback " ++ RollbackID rbk ++
                      " plan is not executable (reversibility=" ++ Reversibility plan ++ ")"))
        | Some op =>
            let s1 := UpdateRollbackStatus t1 s (RollbackID rbk) "executing" "" in
            let '(status, output, execErr) :=
              match dispatchInverseOp gatewayURL rbk op with
              | Ok out => ("success", out, None)
              | Err e => ("failed", e, Some e)
              end in
            let s2 := UpdateRollbackStatus t2 s1 (RollbackID rbk) status output in
            let executed := executor_event (executor_event_id EventTypeRollbackExecuted u1)
                              EventTypeRollbackExecuted rbk plan status output in
            match execErr with
            | Some e => (s2, [executed], Some e)
            | None => (s2, [executed; executor_event (executor_event_id EventTypeRollbackVerified u2)
                                        EventTypeRollbackVerified rbk plan "verified_ok" ""], None)
            end
        end
    end.

(** [Execute] on a stored rollback that has not finished and
    whose plan is executable: the stored record ends in success exactly when the
    dispatch succeeded and in failed otherwise, with a completion time and the
    output or error kept, one rollback_executed event is emitted, followed by a
    verified one only on success; and without a gateway the dispatch always
    counts as a success, though nothing was sent. *)
Theorem Execute_outcome t1 t2 u1 u2 gatewayURL s rbk plan op
    (Hget : GetRollback s (RollbackID rbk) = Ok rbk)
    (Hopen : is_terminal (rb_Status rbk) = false)
    (Hplan : unmarshal_plan (PlanJSON rbk) = Ok plan)
    (Hyes : Reversibility plan = ReversibilityYes) (Hop : InverseOp plan = Some op) :
  let '(s', events, err) := Execute t1 t2 u1 u2 gatewayURL s rbk in
  (gatewayURL = "" -> is_ok (dispatchInverseOp gatewayURL rbk op) = true) /\
  exists r', GetRollback s' (RollbackID rbk) = Ok r' /\ CompletedAt r' = t2 /\
  match dispatchInverseOp gatewayURL rbk op with
  | Ok out => err = None /\ rb_Status r' = "success" /\ (out <> "" -> ResultOutput r' = out) /\
      map EventType events = [EventTypeRollbackExecuted; EventTypeRollbackVerified]
  | Err e => err = Some e /\ rb_Status r' = "failed" /\ (e <> "" -> ResultOutput r' = e) /\
      map EventType events = [EventTypeRollbackExecuted]
  end.
Proof.
  unfold Execute. rewrite Hopen, Hplan, Hyes, Hop. rewrite streq_refl.
  assert (Hg : gatewayURL = "" -> is_ok (dispatchInverseOp gatewayURL rbk op) = true)
    by (by intros ->).
  assert (Hup : forall status out,
    GetRollback (UpdateRollbackStatus t2 (UpdateRollbackStatus t1 s (RollbackID rbk) "executing" "")
      (RollbackID rbk) status out) (RollbackID rbk) =
    Ok (set_rollback_status t2 status out (set_rollback_status t1 "executing" "" rbk))).
  { intros status out. rewrite !update_status_get, Hget. simpl. by rewrite streq_refl; simpl; rewrite streq_refl. }
  destruct (dispatchInverseOp gatewayURL rbk op) as [out|e];
    (split; [exact Hg|]; eexists; split; [apply Hup|]; simpl; split_and!; try done);
    intros Hne; apply streq_false in Hne; by rewrite Hne.
Qed.
End Executor.

(** ** Witnesses *)

Definition sample_tool : ToolExecution :=
  {| t_Name := "scale_deployment"; t_Agent := "k8s"; Parameters := []; RawCommand := ""; Result := "";
     t_Error := ""; t_Duration := 0%Z; PreState := "pre" |}.

Definition sample_event : Event :=
  {| EventID := "evt_1"; Timestamp := 1%Z; EventType := EventTypeToolExecution; TraceID := "tr_1";
     ParentID := ""; Origin := ""; e_ActionClass := ActionDestructive; PrevHash := ""; EventHash := "";
     e_Principal := None; e_Purpose := ""; e_PurposeNote := ""; e_Session := e_Session zero_event;
     e_Input := e_Input zero_event; e_Output := None; e_Tool := Some sample_tool; e_Approval := None;
     e_Decision := None; e_PolicyDecision := None; e_AgentReasoning := None;
     e_GovernanceViolation := None; e_DelegationVerification := None; e_Outcome := None;
     e_RollbackExecution := None |}.

Definition sample_query (id : string) : result string (list Event) :=
  if id =?s "evt_1" then Ok [sample_event] else Ok [].
Definition sample_scale (_ : string) : result string ScalePreState :=
  Ok {| Namespace := "prod"; DeploymentName := "web"; PreviousReplicas := 3%Z |}.
Definition no_dml (_ : string) : result string DMLPreState := Err "no DML".
Definition no_job (_ : string) : result string (option FleetJobInfo) := Ok None.
Definition sample_body : Body InitiateRollbackRequest :=
  Decoded {| ir_OriginalEventID := "evt_1"; ir_Justification := "bad scale"; ir_DryRun := false |}.
Definition draws (n : string) : Draws :=
  {| rbk_uuid := n; apr_uuid := n; ev_uuid := n; rbk_err := None; apr_err := None |}.
Definition empty_server : rollbackServer :=
  {| rstore := {| records := []; fleet_records := [] |};
     approvalStore := Some (NewApprovalStore []); emitted := [] |}.

Lemma one_active_rollback_witness :
  let calls := [CInitiate Second (draws "a") zero_principal sample_body;
                CInitiate Minute (draws "b") zero_principal sample_body] in
  let s := fold_left (serve sample_query sample_scale no_dml (fun _ => Some "{}") no_job) calls
             empty_server in
  length (records (rstore s)) = 1 /\ single_active (rstore s).
Proof.
  intros calls s. split; [vm_compute; reflexivity|].
  apply one_active_rollback. intros e. simpl. unfold active_count. simpl. lia.
Defined.

(** The duplicate check and the insert are two database calls: two requests that
    both passed the check leave two active rollbacks of one event. *)
Example initiate_race :
  let req := {| ir_OriginalEventID := "evt_1"; ir_Justification := ""; ir_DryRun := false |} in
  match DeriveRollbackPlan sample_scale no_dml Second sample_event with
  | Ok plan =>
      let go u s := (initiate (fun _ => Some "{}") Second (draws u) s req zero_principal sample_event
                       plan).1 in
      active_count (rstore (go "b" (go "a" empty_server))) "evt_1" = 2
  | Err _ => False
  end.
Proof. vm_compute. reflexivity. Qed.

Lemma handleCancelRollback_spec_witness :
  let s := serve sample_query sample_scale no_dml (fun _ => Some "{}") no_job empty_server
             (CInitiate Second (draws "a") zero_principal sample_body) in
  "rbk_a" <> "" /\
  let '(s', reply) := handleCancelRollback Minute s "rbk_a" in
  match GetRollback (rstore s) "rbk_a" with
  | Err _ => s' = s /\ reply = RError 404 "rollback not found"
  | Ok r =>
      if is_terminal (rb_Status r) || (rb_Status r =?s "executing")
      then s' = s /\ exists msg, reply = RError 409 msg
      else GetRollback (rstore s') "rbk_a" = Ok (set_rollback_status Minute "cancelled" "" r) /\
           (forall id', id' <> "rbk_a" -> GetRollback (rstore s') id' = GetRollback (rstore s) id')
  end.
Proof. intros s. split; [discriminate|]. apply (handleCancelRollback_spec Minute s "rbk_a"). discriminate. Defined.

Definition sample_plan : RollbackPlan :=
  {| OriginalEventID := "evt_1"; OriginalTool := "scale_deployment"; OriginalTraceID := "tr_1";
     Reversibility := "yes"; NotReversibleReason := "";
     InverseOp := Some {| io_Agent := "k8s"; io_Tool := "scale_deployment"; Args := [];
                          io_Description := "" |}; GeneratedAt := 0%Z |}.

Definition sample_record : RollbackRecord :=
  {| RollbackID := "rbk_a"; rb_OriginalEventID := "evt_1"; rb_OriginalTraceID := "tr_1";
     OriginalJobID := ""; rb_Status := "pending_approval"; InitiatedBy := "alice";
     InitiatedAt := Second; rb_ApprovalID := ""; RollbackTraceID := "tr_rbk_a"; PlanJSON := "{}";
     ResultOutput := ""; CompletedAt := 0%Z; rb_CreatedAt := Second; rb_UpdatedAt := Second |}.

Lemma Execute_outcome_witness :
  let s := {| records := [sample_record]; fleet_records := [] |} in
  let dispatch := dispatchInverseOp (fun _ => Ok "{}") (fun _ _ _ => Ok (200%Z, "done")) in
  let '(s', events, err) :=
    Execute (fun _ => Ok sample_plan) (fun _ => Ok "{}") (fun _ _ _ => Ok (200%Z, "done"))
      Minute Hours "1" "2" "" s sample_record in
  ("" = "" -> is_ok (dispatch "" sample_record
                       {| io_Agent := "k8s"; io_Tool := "scale_deployment"; Args := [];
                          io_Description := "" |}) = true) /\
  exists r', GetRollback s' "rbk_a" = Ok r' /\ CompletedAt r' = Hours /\
    err = None /\ rb_Status r' = "success" /\
    ("gateway not configured; rollback dispatch skipped" <> "" ->
     ResultOutput r' = "gateway not configured; rollback dispatch skipped") /\
    map EventType events = [EventTypeRollbackExecuted; EventTypeRollbackVerified].
Proof.
  apply (Execute_outcome (fun _ => Ok sample_plan) (fun _ => Ok "{}")
    (fun _ _ _ => Ok (200%Z, "done")) Minute Hours "1" "2" ""
    {| records := [sample_record]; fleet_records := [] |} sample_record sample_plan
    {| io_Agent := "k8s"; io_Tool := "scale_deployment"; Args := []; io_Description := "" |});
    reflexivity.
Defined.
