(* ===== verification/Fleet.v ===== *)
(** * Fleet jobs: definitions, targets, schema drift and stages

    internal/fleet/schema.go, and of cmd/fleet-runner the parts that decide without
    contacting a server: [jobActionClass] (approve.go), [resolveTargets]
    (targets.go), [CheckSchemaDrift] (schemadrift.go), [chunk] (stages.go),
    [buildStageAssignments] (submit.go) and the plan divergence of replan.go.  A Go
    map that is ranged over is an association list in the order of that range, with
    distinct keys; float64 is [spec_float] with the binary64 operations. *)

From Stdlib Require Import SpecFloat.
From S2P Require Import Prelude GoTime Events Action.

Open Scope string_scope.

(** ** float64 *)

Definition float64_of (z : Z) : spec_float := binary_normalize 53 1024 z 0 false.
Definition float64_div : spec_float -> spec_float -> spec_float := SFdiv 53 1024.

(** ** schema.go *)

Record ToolSnapshot := {
  ts_AgentVersion : string;
  ts_SchemaFingerprint : string;
  ts_CapturedAt : Time }.

Record Step := {
  st_Agent : string;
  st_Tool : string;
  st_Args : anymap;
  OnFailure : string }.

Record Targets := { Tags : list string; Names : list string; Exclude : list string }.

Record Strategy := {
  CanaryCount : Z;
  WaveSize : Z;
  WavePauseSeconds : Z;
  FailureThreshold : spec_float;
  sg_DryRun : bool;
  CountPartialAsSuccess : bool;
  ApprovalTimeoutSeconds : Z;
  WaveGate : bool;
  SchemaDrift : string }.

Record JobDef := {
  j_Name : string;
  Steps : list Step;
  j_Targets : Targets;
  j_Strategy : Strategy;
  PlanTraceID : string;
  ToolSnapshots : list (string * ToolSnapshot);
  PlanDescription : string;
  PlanTargetHints : list string;
  PlanServers : list string }.

Definition defaults (s : Strategy) : Strategy :=
  {| CanaryCount := if (CanaryCount s <=? 0)%Z then 1%Z else CanaryCount s;
     WaveSize := WaveSize s; WavePauseSeconds := WavePauseSeconds s;
     FailureThreshold := if SFleb (FailureThreshold s) (float64_of 0)
                         then float64_div (float64_of 1) (float64_of 2) else FailureThreshold s;
     sg_DryRun := sg_DryRun s; CountPartialAsSuccess := CountPartialAsSuccess s;
     ApprovalTimeoutSeconds := ApprovalTimeoutSeconds s; WaveGate := WaveGate s;
     SchemaDrift := SchemaDrift s |}.

(** ** approve.go *)

Fixpoint highest_class (highest : string) (steps : list Step) : string :=
  match steps with
  | [] => highest
  | step :: rest =>
      let class := ClassifyTool (st_Tool step) in
      highest_class (if (RiskLevel highest <? RiskLevel class)%Z then class else highest) rest
  end.

Definition jobActionClass (steps : list Step) : string := highest_class ActionRead steps.

(** ** targets.go *)

(** A server is its key and its tags; [servers] is the range order of the map in
    one loop, [servers'] in the second one. *)
Definition tag_match (want tags : list string) : bool := existsb (fun t => mem t tags) want.

Definition resolveTargets (cfg : option (list (string * list string)))
    (order2 : list (string * list string)) (targets : Targets) : result string (list string) :=
  match cfg with
  | None => Err "no infrastructure configuration loaded (set HELPDESK_INFRA_CONFIG)"
  | Some servers =>
      let selected := map fst (List.filter (fun '(key, tags) =>
        negb (mem key (Exclude targets)) &&
        (mem key (Names targets) || tag_match (Tags targets) tags)) servers) in
      match Tags targets, Names targets with
      | [], [] => Ok (map fst (List.filter (fun '(key, _) => negb (mem key (Exclude targets))) order2))
      | _, _ => Ok selected
      end
  end.

(** ** schemadrift.go *)

(** The members of a registry entry the check reads. *)
Record ToolEntry := {
  te_Name : string;
  te_AgentVersion : string;
  te_SchemaFingerprint : string }.

Record SchemaDriftResult := {
  dr_Tool : string;
  Snapshot : ToolSnapshot;
  CurrentFingerprint : string;
  CurrentVersion : string;
  FingerprintChanged : bool;
  VersionChanged : bool }.

(** [live\[t.Name\] = t] over the list: the last entry of a name wins. *)
Definition live_index (liveTools : list ToolEntry) : gmap string ToolEntry :=
  fold_left (fun m t => <[te_Name t := t]> m) liveTools ∅.

Inductive DriftError :=
  | NoSnapshots
  | ToolGone (tool : string)
  | FingerprintDrift (tool : string).

Definition differs (planned current : string) : bool :=
  negb (planned =?s "") && negb (current =?s "") && negb (planned =?s current).

Fixpoint drift_loop (policy : string) (live : gmap string ToolEntry)
    (snapshots : list (string * ToolSnapshot)) (results : list SchemaDriftResult)
    : list SchemaDriftResult * option DriftError :=
  match snapshots with
  | [] => (results, None)
  | (toolName, snap) :: rest =>
      match live !! toolName with
      | None =>
          let result := {| dr_Tool := toolName; Snapshot := snap; CurrentFingerprint := "";
                           CurrentVersion := "";
                           FingerprintChanged := negb (ts_SchemaFingerprint snap =?s "");
                           VersionChanged := negb (ts_AgentVersion snap =?s "") |} in
          let results' := (results ++ [result])%list in
          if policy =?s "abort" then (results', Some (ToolGone toolName))
          else drift_loop policy live rest results'
      | Some entry =>
          let fpChanged := differs (ts_SchemaFingerprint snap) (te_SchemaFingerprint entry) in
          let verChanged := differs (ts_AgentVersion snap) (te_AgentVersion entry) in
          if negb fpChanged && negb verChanged then drift_loop policy live rest results
          else
            let result := {| dr_Tool := toolName; Snapshot := snap;
                             CurrentFingerprint := te_SchemaFingerprint entry;
                             CurrentVersion := te_AgentVersion entry;
                             FingerprintChanged := fpChanged; VersionChanged := verChanged |} in
            let results' := (results ++ [result])%list in
            if fpChanged && (policy =?s "abort") then (results', Some (FingerprintDrift toolName))
            else drift_loop policy live rest results'
      end
  end.

Definition CheckSchemaDrift (snapshots : list (string * ToolSnapshot)) (liveTools : list ToolEntry)
    (policy : string) : list SchemaDriftResult * option DriftError :=
  if policy =?s "ignore" then ([], None)
  else
    match snapshots with
    | [] => if policy =?s "abort" then ([], Some NoSnapshots) else ([], None)
    | _ => drift_loop policy (live_index liveTools) snapshots []
    end.

(** ** stages.go and submit.go: how servers are grouped *)

(** The loop of [chunk]; [fuel] counts the elements left. *)
Fixpoint chunk_loop {A} (fuel : nat) (n : nat) (s : list A) : list (list A) :=
  match fuel with
  | O => []
  | S fuel' =>
      match s with
      | [] => []
      | _ => firstn n s :: chunk_loop fuel' n (skipn n s)
      end
  end.

Definition chunk {A} (s : list A) (n : Z) : list (list A) :=
  if (n <=? 0)%Z || (Z.of_nat (length s) <=? n)%Z then [s]
  else chunk_loop (length s) (Z.to_nat n) s.

Definition wave_name (waveIdx : Z) : string := "wave-" ++ itoa (waveIdx + 1).

Record stageAssignment := { sg_server : string; sg_stage : string }.

Definition assign_stage (total canaryCount waveSize0 : Z) (i : Z) : string :=
  if (canaryCount <=? i)%Z then
    let waveSize :=
      if (waveSize0 <=? 0)%Z then
        if (total - canaryCount <=? 0)%Z then 1%Z else (total - canaryCount)%Z
      else waveSize0 in
    wave_name (Z.quot (i - canaryCount) waveSize)
  else "canary".

Fixpoint assign_from (total canaryCount waveSize0 i : Z) (servers : list string)
    : list stageAssignment :=
  match servers with
  | [] => []
  | s :: rest =>
      {| sg_server := s; sg_stage := assign_stage total canaryCount waveSize0 i |} ::
      assign_from total canaryCount waveSize0 (i + 1) rest
  end.

Definition buildStageAssignments (servers : list string) (strategy : Strategy)
    : list stageAssignment :=
  let total := Z.of_nat (length servers) in
  let canaryCount := if (total <? CanaryCount strategy)%Z then total else CanaryCount strategy in
  assign_from total canaryCount (WaveSize strategy) 0 servers.

(** ** replan.go *)

Record PlanDivergence := {
  OriginalSteps : Z;
  FreshSteps : Z;
  AddedTools : list string;
  RemovedTools : list string }.

Definition Significant (d : PlanDivergence) : bool :=
  match AddedTools d, RemovedTools d with
  | [], [] =>
      if (OriginalSteps d =? 0)%Z then (0 <? FreshSteps d)%Z
      else (OriginalSteps d <? Z.abs (FreshSteps d - OriginalSteps d) * 2)%Z
  | _, _ => true
  end.

(** The two ranges run over sets; [dedup] keeps one of each tool. *)
Fixpoint dedup (l : list string) : list string :=
  match l with
  | [] => []
  | x :: l' => if mem x l' then dedup l' else x :: dedup l'
  end.

Definition checkPlanDivergence (original fresh : JobDef) : PlanDivergence :=
  let origTools := map st_Tool (Steps original) in
  let freshTools := map st_Tool (Steps fresh) in
  {| OriginalSteps := Z.of_nat (length (Steps original));
     FreshSteps := Z.of_nat (length (Steps fresh));
     AddedTools := List.filter (fun t => negb (mem t origTools)) (dedup freshTools);
     RemovedTools := List.filter (fun t => negb (mem t freshTools)) (dedup origTools) |}.

(** ** Lemmas *)

Lemma approval_by_risk c : IsApprovalRequired c = (1 <=? RiskLevel c)%Z.
Proof.
  unfold IsApprovalRequired, RiskLevel, ActionRead, ActionWrite, ActionEscalation, ActionDestructive.
  destruct (String.eqb_spec c "read") as [->|]; [done|].
  destruct (String.eqb_spec c "write"); [done|]. destruct (String.eqb_spec c "escalation") as [->|]; [done|].
  by destruct (String.eqb_spec c "destructive").
Qed.

(** The class found has the greatest risk seen. *)
Lemma highest_class_risk h steps r :
  (r <= RiskLevel (highest_class h steps))%Z <->
  (r <= RiskLevel h)%Z \/ exists s, In s steps /\ (r <= RiskLevel (ClassifyTool (st_Tool s)))%Z.
Proof.
  revert h. induction steps as [|s steps IH]; intros h; simpl; [naive_solver|]. rewrite IH.
  destruct (Z.ltb_spec (RiskLevel h) (RiskLevel (ClassifyTool (st_Tool s)))); split.
  - intros [|(s' & ? & ?)]; [right; exists s; auto|right; exists s'; auto].
  - intros [|(s' & [<-|] & ?)]; [left; lia|by left|right; by exists s'].
  - intros [|(s' & ? & ?)]; [by left|right; exists s'; auto].
  - intros [|(s' & [<-|] & ?)]; [by left|left; lia|right; by exists s'].
Qed.

Lemma chunk_loop_concat {A} fuel n (s : list A) :
  length s <= fuel -> 0 < n -> concat (chunk_loop fuel n s) = s.
Proof.
  revert s. induction fuel as [|fuel IH]; intros s Hf Hn; [by destruct s; simpl in Hf; [|lia]|].
  destruct s as [|x s]; [done|]. cbn [chunk_loop concat]. rewrite IH.
  - apply firstn_skipn.
  - rewrite length_skipn. simpl in *. lia.
  - done.
Qed.

Lemma chunk_loop_sizes {A} fuel n (s : list A) w :
  0 < n -> In w (chunk_loop fuel n s) -> 0 < length w <= n.
Proof.
  revert s. induction fuel as [|fuel IH]; intros s Hn; [done|].
  destruct s as [|x s]; [done|]. cbn [chunk_loop]. intros [<-|Hin]; [|by apply (IH _ Hn) in Hin].
  rewrite length_firstn. simpl. lia.
Qed.

(** The stages as the rollout runs them. *)
Fixpoint stage_waves (j : Z) (waves : list (list string)) : list stageAssignment :=
  match waves with
  | [] => []
  | w :: ws => (map (fun s => {| sg_server := s; sg_stage := wave_name j |}) w ++ stage_waves (j + 1) ws)%list
  end.

Lemma assign_from_app t c w i l1 l2 :
  assign_from t c w i (l1 ++ l2) =
  (assign_from t c w i l1 ++ assign_from t c w (i + Z.of_nat (length l1)) l2)%list.
Proof.
  revert i. induction l1 as [|x l1 IH]; intros i; simpl; [by rewrite Z.add_0_r|].
  rewrite IH. do 2 f_equal. f_equal. lia.
Qed.

(** Servers whose index gives one stage. *)
Lemma assign_from_const t c w i l stage :
  (forall k, (i <= k < i + Z.of_nat (length l))%Z -> assign_stage t c w k = stage) ->
  assign_from t c w i l = map (fun s => {| sg_server := s; sg_stage := stage |}) l.
Proof.
  revert i. induction l as [|x l IH]; intros i H; simpl; [done|].
  rewrite H by (simpl; lia). f_equal. apply IH. intros k Hk. apply H. simpl. lia.
Qed.

Lemma assign_wave t c w k j :
  (0 < w)%Z -> (0 <= j)%Z -> (c + j * w <= k < c + (j + 1) * w)%Z -> assign_stage t c w k = wave_name j.
Proof.
  intros Hw Hj Hk. unfold assign_stage. rewrite (proj2 (Z.leb_le c k)) by nia.
  rewrite (proj2 (Z.leb_gt w 0)) by lia. f_equal.
  symmetry. apply (Z.quot_unique _ _ _ (k - c - j * w)); [nia|nia|lia].
Qed.

Lemma assign_chunks t c w fuel l j :
  (0 < w)%Z -> (0 <= j)%Z -> length l <= fuel ->
  assign_from t c w (c + j * w) l = stage_waves j (chunk_loop fuel (Z.to_nat w) l).
Proof.
  intros Hw. revert l j. induction fuel as [|fuel IH]; intros l j Hj Hf.
  - by destruct l; simpl in *; [|lia].
  - destruct l as [|x l]; [done|]. cbn [chunk_loop stage_waves].
    set (full := x :: l) in *. rewrite <- (firstn_skipn (Z.to_nat w) full) at 1.
    rewrite assign_from_app. f_equal.
    + apply assign_from_const. intros k Hk. apply assign_wave; [done|done|].
      rewrite length_firstn in Hk. lia.
    + destruct (Nat.le_gt_cases (length full) (Z.to_nat w)) as [Hle|Hgt].
      * rewrite (skipn_all2 full) by done. by destruct fuel.
      * rewrite <- IH; [|lia|rewrite length_skipn; subst full; simpl in *; lia].
        f_equal. rewrite length_firstn. lia.
Qed.

(** The stages of the job record, computed from indices, are those of the waves. *)
Lemma assignments_waves servers strategy (Hcanary : (0 <= CanaryCount strategy)%Z) :
  let canaryCount := Z.min (CanaryCount strategy) (Z.of_nat (length servers)) in
  let canary := firstn (Z.to_nat canaryCount) servers in
  let rest := skipn (Z.to_nat canaryCount) servers in
  let waveSize := if (WaveSize strategy <=? 0)%Z then Z.of_nat (length rest) else WaveSize strategy in
  buildStageAssignments servers strategy =
  (map (fun s => {| sg_server := s; sg_stage := "canary" |}) canary ++
   match rest with [] => [] | _ => stage_waves 0 (chunk rest waveSize) end)%list.
Proof.
  intros c canary rest waveSize. unfold buildStageAssignments.
  replace (if (_ <? _)%Z then _ else _) with c
    by (unfold c; destruct (Z.ltb_spec (Z.of_nat (length servers)) (CanaryCount strategy)); lia).
  set (t := Z.of_nat (length servers)). assert (Hc : (0 <= c <= t)%Z) by lia.
  rewrite <- (firstn_skipn (Z.to_nat c) servers) at 1. fold canary rest. rewrite assign_from_app.
  assert (Hlen : length canary = Z.to_nat c) by (unfold canary; rewrite length_firstn; lia).
  assert (Hrest : Z.of_nat (length rest) = (t - c)%Z) by (unfold rest; rewrite length_skipn; lia).
  f_equal.
  { apply assign_from_const. intros k Hk. unfold assign_stage.
    by rewrite (proj2 (Z.leb_gt c k)) by lia. }
  rewrite Hlen, Z2Nat.id, Z.add_0_l by lia. clearbody rest.
  assert (Hcase : rest = [] \/ (0 < t - c)%Z) by (destruct rest; [by left|right; simpl in *; lia]).
  destruct Hcase as [->|Hpos]; [done|].
  replace (match rest with [] => [] | _ => stage_waves 0 (chunk rest waveSize) end)
    with (stage_waves 0 (chunk rest waveSize)) by (destruct rest; [simpl in *; lia|done]).
  assert (Hone : forall w, (0 < w)%Z -> (t - c <= w)%Z ->
    assign_from t c w c rest = stage_waves 0 [rest]).
  { intros w Hw Hle. simpl. rewrite app_nil_r. apply assign_from_const. intros k Hk.
    apply assign_wave; lia. }
  unfold chunk, waveSize. destruct (Z.leb_spec (WaveSize strategy) 0) as [Hw|Hw].
  - rewrite Z.leb_refl, orb_true_r. simpl.
    rewrite app_nil_r. apply assign_from_const. intros k Hk. unfold assign_stage.
    rewrite (proj2 (Z.leb_le c k)), (proj2 (Z.leb_le (WaveSize strategy) 0)) by lia.
    rewrite (proj2 (Z.leb_gt (t - c) 0)) by lia. f_equal. apply Z.quot_small. lia.
  - rewrite (proj2 (Z.leb_gt _ 0)) by lia. simpl.
    destruct (Z.leb_spec (Z.of_nat (length rest)) (WaveSize strategy)) as [Hle|Hgt].
    + apply Hone; lia.
    + pose proof (assign_chunks t c (WaveSize strategy) (length rest) rest 0 Hw) as Ha.
      rewrite Z.add_0_r in Ha. apply Ha; lia.
Qed.

Lemma differs_spec a b : differs a b = true <-> a <> "" /\ b <> "" /\ a <> b.
Proof.
  unfold differs. rewrite !andb_true_iff, !negb_true_iff, !streq_false. tauto.
Qed.

(** A snapshot whose tool is gone or has another fingerprint. *)
Definition drifted (live : gmap string ToolEntry) (e : string * ToolSnapshot) : Prop :=
  match live !! e.1 with
  | None => True
  | Some entry => ts_SchemaFingerprint e.2 <> "" /\ te_SchemaFingerprint entry <> "" /\
                  ts_SchemaFingerprint e.2 <> te_SchemaFingerprint entry
  end.

Lemma drift_loop_abort live snaps res :
  (drift_loop "abort" live snaps res).2 = None <-> forall e, In e snaps -> ~ drifted live e.
Proof.
  revert res. induction snaps as [|[tool snap] snaps IH]; intros res; [simpl; naive_solver|].
  assert (Hsplit : (forall e, In e ((tool, snap) :: snaps) -> ~ drifted live e) <->
                   ~ drifted live (tool, snap) /\ (forall e, In e snaps -> ~ drifted live e)).
  { simpl. split; [intros H; split; intros; apply H; auto|intros [H1 H2] e [<-|]; auto]. }
  rewrite Hsplit. clear Hsplit. unfold drifted at 1. cbn [drift_loop fst snd].
  destruct (live !! tool) as [entry|]; [|simpl; intuition congruence].
  rewrite <- differs_spec, streq_refl.
  destruct (differs (ts_SchemaFingerprint snap) (te_SchemaFingerprint entry)); simpl;
    [intuition congruence|].
  destruct (differs (ts_AgentVersion snap) (te_AgentVersion entry)); simpl; rewrite IH;
    intuition congruence.
Qed.

Lemma drift_loop_lenient policy live snaps res :
  policy <> "abort" -> (drift_loop policy live snaps res).2 = None.
Proof.
  intros Hp. apply streq_false in Hp. revert res.
  induction snaps as [|[tool snap] snaps IH]; intros res; [done|]. cbn [drift_loop].
  destruct (live !! tool) as [entry|]; [|rewrite Hp; apply IH].
  destruct (negb _ && negb _); [apply IH|]. rewrite Hp, andb_false_r. apply IH.
Qed.

Lemma tag_match_spec want tags : tag_match want tags = true <-> exists t, In t want /\ In t tags.
Proof. unfold tag_match. rewrite existsb_exists. by setoid_rewrite mem_spec. Qed.

(** The keys an association list keeps under a filter. *)
Lemma keys_filter_NoDup {A} (f : string * A -> bool) l :
  NoDup (map fst l) -> NoDup (map fst (List.filter f l)).
Proof.
  induction l as [|e l IH]; simpl; [done|]. intros Hd. apply NoDup_cons in Hd as [He Hd].
  destruct (f e); simpl; [|by apply IH]. apply NoDup_cons. split; [|by apply IH].
  intros Hin. apply He. apply list_elem_of_In in Hin. apply in_map_iff in Hin as (x & Hx & Hin).
  apply filter_In in Hin as [Hin _]. apply list_elem_of_In, in_map_iff. eauto.
Qed.

Lemma keys_filter_In {A} (f : string * A -> bool) l key :
  In key (map fst (List.filter f l)) <-> exists v, In (key, v) l /\ f (key, v) = true.
Proof.
  rewrite in_map_iff. setoid_rewrite filter_In. split.
  - intros ([k v] & [= <-] & H). eauto.
  - intros (v & H). exists (key, v). eauto.
Qed.

Lemma target_test targets key tags :
  negb (mem key (Exclude targets)) && (mem key (Names targets) || tag_match (Tags targets) tags) = true <->
  ~ In key (Exclude targets) /\
  (In key (Names targets) \/ exists t, In t (Tags targets) /\ In t tags).
Proof.
  by rewrite andb_true_iff, orb_true_iff, negb_true_iff, mem_false, mem_spec, tag_match_spec.
Qed.

(** ** Properties *)

(** The class of a job is the one of greatest risk among its
    steps, at least read: it needs approval exactly when some step's tool does, and
    no step is riskier; unclassified tools never raise it. *)
Theorem jobActionClass_highest steps :
  (IsApprovalRequired (jobActionClass steps) = true <->
     exists s, In s steps /\ IsApprovalRequired (ClassifyTool (st_Tool s)) = true) /\
  (forall s, In s steps ->
     (RiskLevel (ClassifyTool (st_Tool s)) <= RiskLevel (jobActionClass steps))%Z) /\
  (0 <= RiskLevel (jobActionClass steps))%Z.
Proof.
  assert (H : forall r, (r <= RiskLevel (jobActionClass steps))%Z <-> _) by (apply highest_class_risk).
  split_and!.
  - rewrite approval_by_risk, Z.leb_le, H. setoid_rewrite approval_by_risk. setoid_rewrite Z.leb_le.
    split; [intros [Hr|Hs]; [by vm_compute in Hr|done]|by right].
  - intros s Hs. rewrite H. right. exists s. split; [done|lia].
  - rewrite H. left. vm_compute. discriminate.
Qed.

(** [resolveTargets], whatever orders the map is ranged in: a
    server is selected exactly when it is not excluded and is named or shares a tag,
    or no name and no tag was asked for; and no server is selected twice. *)
Theorem resolveTargets_selects servers order2 targets
    (Hkeys : NoDup (map fst servers)) (Horder : order2 ≡ₚ servers) :
  exists selected, resolveTargets (Some servers) order2 targets = Ok selected /\ NoDup selected /\
  forall key, In key selected <->
    exists tags, In (key, tags) servers /\ ~ In key (Exclude targets) /\
      (In key (Names targets) \/ (exists t, In t (Tags targets) /\ In t tags) \/
       (Tags targets = [] /\ Names targets = [])).
Proof.
  assert (Horder' : NoDup (map fst order2)) by (by rewrite Horder).
  assert (Hp : forall key tags, In (key, tags) order2 <-> In (key, tags) servers).
  { intros key tags. rewrite <- !list_elem_of_In. by rewrite Horder. }
  unfold resolveTargets.
  destruct (Tags targets) as [|t0 ts] eqn:Et; [destruct (Names targets) as [|n0 ns] eqn:En|];
    eexists; (split; [reflexivity|]); (split; [by apply keys_filter_NoDup|]); intros key;
    rewrite keys_filter_In.
  - split; intros (tags & Hin & H); exists tags; apply Hp in Hin.
    + apply negb_true_iff, mem_false in H. auto 6.
    + destruct H as [H _]. split; [done|]. by apply negb_true_iff, mem_false.
  - rewrite <- Et, <- En. split; intros (tags & Hin & H); exists tags.
    + apply target_test in H. tauto.
    + split; [done|]. apply target_test. rewrite Et, En in *. naive_solver.
  - rewrite <- Et. split; intros (tags & Hin & H); exists tags.
    + apply target_test in H. tauto.
    + split; [done|]. apply target_test. rewrite Et in *. naive_solver.
Qed.

Lemma resolveTargets_selects_witness :
  let servers := [("db1", ["prod"]); ("db2", ["staging"]); ("db3", ["prod"])] in
  let targets := {| Tags := ["prod"]; Names := []; Exclude := ["db3"] |} in
  resolveTargets (Some servers) servers targets = Ok ["db1"] /\
  exists selected, resolveTargets (Some servers) servers targets = Ok selected /\ NoDup selected /\
  forall key, In key selected <->
    exists tags, In (key, tags) servers /\ ~ In key (Exclude targets) /\
      (In key (Names targets) \/ (exists t, In t (Tags targets) /\ In t tags) \/
       (Tags targets = [] /\ Names targets = [])).
Proof.
  intros servers targets. split; [reflexivity|].
  apply (resolveTargets_selects servers servers targets); [|done].
  simpl. apply NoDup_cons. split; [set_solver|]. apply NoDup_cons. split; [set_solver|].
  apply NoDup_singleton.
Defined.


(** [chunk] cuts a list into consecutive pieces: put together they
    give it back, and with a positive size no piece of a non-empty list is empty or
    larger than the size. *)
Theorem chunk_partition (s : list string) n :
  concat (chunk s n) = s /\
  ((0 < n)%Z -> s <> [] -> forall w, In w (chunk s n) -> (0 < Z.of_nat (length w) <= n)%Z).
Proof.
  unfold chunk. destruct (Z.leb_spec n 0); simpl.
  - split; [by rewrite app_nil_r|lia].
  - destruct (Z.leb_spec (Z.of_nat (length s)) n); simpl.
    + split; [by rewrite app_nil_r|]. intros _ Hs w [<-|[]]. destruct s; [done|]. simpl in *. lia.
    + split; [apply chunk_loop_concat; lia|]. intros _ _ w Hw.
      apply chunk_loop_sizes in Hw; lia.
Qed.

(** The stage of every server in the job record, computed from
    its index, is the stage the rollout runs it in: the first servers up to the
    canary count, then the waves [chunk] cuts, numbered from one, for every wave
    size. *)
Theorem assignments_match_rollout servers strategy (Hcanary : (0 <= CanaryCount strategy)%Z) :
  let canaryCount := Z.min (CanaryCount strategy) (Z.of_nat (length servers)) in
  let canary := firstn (Z.to_nat canaryCount) servers in
  let rest := skipn (Z.to_nat canaryCount) servers in
  let waveSize := if (WaveSize strategy <=? 0)%Z then Z.of_nat (length rest) else WaveSize strategy in
  buildStageAssignments servers strategy =
  (map (fun s => {| sg_server := s; sg_stage := "canary" |}) canary ++
   match rest with [] => [] | _ => stage_waves 0 (chunk rest waveSize) end)%list.
Proof. by apply assignments_waves. Qed.

Lemma assignments_match_rollout_witness :
  let strategy := {| CanaryCount := 1; WaveSize := 2; WavePauseSeconds := 0;
                     FailureThreshold := S754_zero false; sg_DryRun := false;
                     CountPartialAsSuccess := false; ApprovalTimeoutSeconds := 0;
                     WaveGate := false; SchemaDrift := "" |} in
  let servers := ["a"; "b"; "c"; "d"] in
  map sg_stage (buildStageAssignments servers strategy) = ["canary"; "wave-1"; "wave-1"; "wave-2"] /\
  buildStageAssignments servers strategy =
  (map (fun s => {| sg_server := s; sg_stage := "canary" |}) ["a"] ++
   stage_waves 0 (chunk ["b"; "c"; "d"] 2))%list.
Proof.
  intros strategy servers. split; [vm_compute; reflexivity|].
  apply (assignments_match_rollout servers strategy). discriminate.
Defined.
