(* ===== verification/FleetExec.v ===== *)
(** * Fleet jobs: execution

    cmd/fleet-runner: one tool call and the steps of one server (runner.go), the
    wait for an approval (approve.go) and the staged rollout (stages.go).  What the
    runner does to the outside is a list of [Act]s grouped into [Phase]s; the
    servers of a wave run concurrently, so a wave keeps one list of acts for each
    server and [linear] relates a run to every interleaving of them.  The replies of
    the gateway and of auditd are parameters: the reply to a tool call is a function
    of the server, the stage and the step index, which name one call of a run. *)

From Stdlib Require Import SpecFloat.
From S2P Require Import Prelude GoTime Events Action Fleet.

Open Scope string_scope.

(** ** runner.go *)

Record runnerConfig := {
  gatewayURL : string;
  auditURL : string;
  apiKey : string;
  rc_jobID : string;
  submittedBy : string;
  approvalPollInterval : Z }.

Record HttpCall := { h_url : string; h_body : string; h_headers : list (string * string) }.

Record stepResult := {
  stepIdx : nat;
  sr_tool : string;
  output : string;
  sr_err : option string }.

Record serverResult := {
  res_server : string;
  res_steps : list stepResult;
  res_err : option string }.

(** What the runner sends: a tool call to the gateway, and to auditd a change of a
    server's or a step's record, a tool result, a request for approval. *)
Inductive Act :=
  | ToolCall (server stage : string) (idx : nat) (req : HttpCall)
  | PatchServer (server status out : string)
  | PatchStep (server : string) (idx : nat) (status out : string)
  | PostToolResult (server tool out trace_id : string)
  | PostApproval (resource_type action_class requested_by : string) (timeout_secs : Z).

(** [args\[k\] = v] on the copy of the step's arguments. *)
Definition args_set (k : string) (v : any) (args : anymap) : anymap :=
  (List.filter (fun '(k', _) => negb (k' =?s k)) args ++ [(k, v)])%list.

Definition call_args (serverName : string) (step : Step) : anymap :=
  args_set (if st_Agent step =?s "k8s" then "context" else "connection_string")
    (AStr serverName) (st_Args step).

Definition call_path (step : Step) : string :=
  (if st_Agent step =?s "k8s" then "/api/v1/k8s/" else "/api/v1/db/") ++ st_Tool step.

Definition call_headers (cfg : runnerConfig) (serverName stage : string) : list (string * string) :=
  ([("Content-Type", "application/json"); ("X-Purpose", "fleet_rollout");
    ("X-Purpose-Note",
     ("job_id=" ++ rc_jobID cfg ++ " server=" ++ serverName ++ " stage=" ++ stage)%string);
    ("X-Trace-ID", ("tr_" ++ rc_jobID cfg)%string)] ++
   (if apiKey cfg =?s "" then [] else [("Authorization", ("Bearer " ++ apiKey cfg)%string)]))%list.

Definition patchServerStatus (cfg : runnerConfig) (serverName status out : string) : list Act :=
  if auditURL cfg =?s "" then [] else [PatchServer serverName status out].

Definition patchStepStatus (cfg : runnerConfig) (serverName : string) (idx : nat)
    (status out : string) : list Act :=
  if auditURL cfg =?s "" then [] else [PatchStep serverName idx status out].

Definition recordToolResult (cfg : runnerConfig) (serverName : string) (step : Step) (out : string)
    : list Act :=
  if auditURL cfg =?s "" then []
  else [PostToolResult serverName (st_Tool step) out ("tr_flj_" ++ rc_jobID cfg)].

Definition isServerFailure (res : serverResult) (countPartialAsSuccess : bool) : bool :=
  match res_err res with
  | Some _ => true
  | None =>
      if countPartialAsSuccess then false
      else existsb (fun sr => match sr_err sr with Some _ => true | None => false end) (res_steps res)
  end.

(** The loop that keeps the last output that is not empty. *)
Definition lastOutput (steps : list stepResult) : string :=
  fold_left (fun last sr => if output sr =?s "" then last else output sr) steps "".

(** [onFailure == "continue"] after the default is filled in. *)
Definition continues (step : Step) : bool :=
  (if OnFailure step =?s "" then "stop" else OnFailure step) =?s "continue".

Section Steps.
(** json.Marshal of the arguments, the check of the URL by http.NewRequest, the
    exchange with the gateway (an error is a transport error), and the [text] member
    of its reply, empty when the reply has none. *)
Context (marshal_args : anymap -> result string string).
Context (bad_url : string -> option string).
Context (gateway : string -> string -> nat -> HttpCall -> result string (Z * string)).
Context (text_member : string -> string).

Definition callGatewayTool (cfg : runnerConfig) (serverName stage : string) (idx : nat) (step : Step)
    : option HttpCall * string * option string :=
  match marshal_args (call_args serverName step) with
  | Err e => (None, "", Some ("marshal tool args: " ++ e))
  | Ok body =>
      let url := gatewayURL cfg ++ call_path step in
      match bad_url url with
      | Some e => (None, "", Some ("create request: " ++ e))
      | None =>
          let req := {| h_url := url; h_body := body; h_headers := call_headers cfg serverName stage |} in
          match gateway serverName stage idx req with
          | Err e => (Some req, "", Some ("gateway unreachable: " ++ e))
          | Ok (status, respBody) =>
              if negb (status =? 200)%Z then
                (Some req, respBody,
                 Some ("tool call returned " ++ itoa status ++ ": " ++ respBody))
              else
                (Some req, (if text_member respBody =?s "" then respBody else text_member respBody),
                 None)
          end
      end
  end.

(** The loop over the steps: the acts, the results, the error that stopped it and
    whether a step failed that was allowed to. *)
Fixpoint step_loop (cfg : runnerConfig) (serverName stage : string) (idx : nat) (steps : list Step)
    (results : list stepResult) (anyPartialFailure : bool)
    : list Act * list stepResult * option string * bool :=
  match steps with
  | [] => ([], results, None, anyPartialFailure)
  | step :: rest =>
      let '(req, out, err) := callGatewayTool cfg serverName stage idx step in
      let sr := {| stepIdx := idx; sr_tool := st_Tool step; output := out; sr_err := err |} in
      let results' := (results ++ [sr])%list in
      let call := match req with Some r => [ToolCall serverName stage idx r] | None => [] end in
      match err with
      | Some e =>
          let failed := patchStepStatus cfg serverName idx "failed" out in
          if continues step then
            let '(acts, rs, stop, partial) :=
              step_loop cfg serverName stage (S idx) rest results' true in
            ((call ++ failed ++ acts)%list, rs, stop, partial)
          else
            ((call ++ failed ++ patchServerStatus cfg serverName "failed" out)%list, results',
             Some ("step " ++ itoa (Z.of_nat idx) ++ " (" ++ st_Tool step ++ ") failed: " ++ e),
             anyPartialFailure)
      | None =>
          let '(acts, rs, stop, partial) :=
            step_loop cfg serverName stage (S idx) rest results' anyPartialFailure in
          ((call ++ patchStepStatus cfg serverName idx "success" out ++
            recordToolResult cfg serverName step out ++ acts)%list, rs, stop, partial)
      end
  end.

Definition executeSteps (cfg : runnerConfig) (serverName stage : string) (steps : list Step)
    : list Act * serverResult :=
  let running := patchServerStatus cfg serverName "running" "" in
  let '(acts, results, stop, partial) := step_loop cfg serverName stage 0 steps [] false in
  let res := {| res_server := serverName; res_steps := results; res_err := stop |} in
  match stop with
  | Some _ => ((running ++ acts)%list, res)
  | None =>
      ((running ++ acts ++ patchServerStatus cfg serverName
          (if partial then "partial" else "success") (lastOutput results))%list, res)
  end.
End Steps.

(** ** approve.go: waiting for an approval *)

(** One turn of the polling loop: whether the context ended before the timer fired,
    the reply of auditd, and the time at which the deadline is looked at. *)
Record PollTick := {
  ctx_done : bool;
  reply_status : result string string;
  clock : Time }.

Inductive WaitError :=
  | WaitCancelled
  | WasDenied
  | WasExpired
  | WasCancelled
  | TimedOut (timeoutSecs : Z).

Definition timeout_or_default (timeoutSecs : Z) : Z :=
  if (timeoutSecs <=? 0)%Z then (30 * 60)%Z else timeoutSecs.

Definition wait_deadline (start : Time) (timeoutSecs : Z) : Time :=
  (start + wrap64 (timeout_or_default timeoutSecs * Second))%Z.

(** One turn: what it returns, or nothing when the loop goes on. *)
Definition poll_turn (tick : PollTick) (deadline : Time) (timeoutSecs : Z)
    : option (result WaitError bool) :=
  if ctx_done tick then Some (Err WaitCancelled)
  else
    let decided :=
      match reply_status tick with
      | Err _ => None
      | Ok status =>
          if status =?s "approved" then Some (Ok true)
          else if status =?s "denied" then Some (Err WasDenied)
          else if status =?s "expired" then Some (Err WasExpired)
          else if status =?s "cancelled" then Some (Err WasCancelled)
          else None
      end in
    match decided with
    | Some r => Some r
    | None => if After (clock tick) deadline then Some (Err (TimedOut timeoutSecs)) else None
    end.

(** The loop from its [k]-th turn, for at most [fuel] turns. *)
Fixpoint poll_loop (polls : nat -> PollTick) (deadline : Time) (timeoutSecs : Z) (fuel k : nat)
    : option (result WaitError bool) :=
  match fuel with
  | O => None
  | S fuel' =>
      match poll_turn (polls k) deadline timeoutSecs with
      | Some r => Some r
      | None => poll_loop polls deadline timeoutSecs fuel' (S k)
      end
  end.

Definition waitForFleetApproval (polls : nat -> PollTick) (start : Time) (timeoutSecs : Z) (fuel : nat)
    : option (result WaitError bool) :=
  poll_loop polls (wait_deadline start timeoutSecs) (timeout_or_default timeoutSecs) fuel 0.

(** Enough turns for the deadline to pass when they are [pollInterval] apart. *)
Definition poll_fuel (timeoutSecs pollInterval : Z) : nat :=
  S (Z.to_nat (wrap64 (timeout_or_default timeoutSecs * Second) / pollInterval + 1)).

(** ** approve.go: asking for an approval *)

Definition submitter (cfg : runnerConfig) : string :=
  if submittedBy cfg =?s "" then "fleet-runner" else submittedBy cfg.

Definition approval_act (cfg : runnerConfig) (def : JobDef) (resource_type : string) : Act :=
  PostApproval resource_type (jobActionClass (Steps def)) (submitter cfg)
    (timeout_or_default (ApprovalTimeoutSeconds (j_Strategy def))).

(** The reply to the POST of an approval request and the [approval_id] its body
    decodes to; [what] is "wave gate " in the errors of the second request. *)
Definition approval_reply (what : string) (bad_url : option string)
    (decode_id : string -> result string string) (reply : result string (Z * string))
    : result string string :=
  match bad_url with
  | Some e => Err ("create " ++ what ++ "approval request: " ++ e)
  | None =>
      match reply with
      | Err e => Err ("post " ++ what ++ "approval request: " ++ e)
      | Ok (status, body) =>
          if (300 <=? status)%Z then Err ("auditd returned " ++ itoa status ++ ": " ++ body)
          else
            match decode_id body with
            | Err e => Err ("decode " ++ what ++ "approval response: " ++ e)
            | Ok id =>
                if id =?s "" then
                  Err ("auditd returned empty approval_id" ++
                       (if what =?s "" then "" else " for wave gate"))
                else Ok id
            end
      end
  end.

Definition approval_url (cfg : runnerConfig) : string :=
  auditURL cfg ++ "/v1/fleet/jobs/" ++ rc_jobID cfg ++ "/approval".

(** ** stages.go *)

Inductive Phase :=
  | Gate (resource_type : string) (acts : list Act)
  | Canary (server : string) (acts : list Act)
  | Wave (name : string) (branches : list (string * list Act))
  | PauseBetween (seconds : Z).

Inductive RunError :=
  | NoServers
  | ApprovalRequestFailed (resource_type e : string)
  | ApprovalFailed (resource_type : string) (e : WaitError)
  | ApprovalDenied (resource_type : string)
  | StillWaiting (resource_type : string)
  | CanaryFailed (server : string) (e : option string)
  | CircuitBreaker (wave : string) (failed total : nat)
  | PauseCancelled (wave : string).

Section Run.
Context (marshal_args : anymap -> result string string) (bad_url : string -> option string).
Context (gateway : string -> string -> nat -> HttpCall -> result string (Z * string)).
Context (text_member : string -> string).
(** For each of the two approvals, by resource type: auditd's reply to the request,
    the time the wait starts, the polls and how many of them are looked at. *)
Context (decode_id : string -> result string string).
Context (approval_post : string -> result string (Z * string)).
Context (wait_start : string -> Time) (polls : string -> nat -> PollTick) (fuel : string -> nat).
(** Whether the context ends during the pause after a wave. *)
Context (pause_done : string -> bool).

Definition execute := executeSteps marshal_args bad_url gateway text_member.

(** Request an approval and wait for it. *)
Definition approval_gate (cfg : runnerConfig) (def : JobDef) (resource_type : string)
    : Phase * option RunError :=
  (Gate resource_type [approval_act cfg def resource_type],
   match approval_reply (if resource_type =?s "fleet_job" then "" else "wave gate ")
           (bad_url (approval_url cfg)) decode_id (approval_post resource_type) with
   | Err e => Some (ApprovalRequestFailed resource_type e)
   | Ok _ =>
       match waitForFleetApproval (polls resource_type) (wait_start resource_type)
               (ApprovalTimeoutSeconds (j_Strategy def)) (fuel resource_type) with
       | None => Some (StillWaiting resource_type)
       | Some (Err e) => Some (ApprovalFailed resource_type e)
       | Some (Ok false) => Some (ApprovalDenied resource_type)
       | Some (Ok true) => None
       end
   end).

Definition runWave (cfg : runnerConfig) (servers : list string) (waveName : string)
    (steps : list Step) : list (string * list Act) * list serverResult :=
  let runs := map (fun s => (s, execute cfg s waveName steps)) servers in
  (map (fun r => (r.1, r.2.1)) runs, map (fun r => r.2.2) runs).

Fixpoint canary_loop (cfg : runnerConfig) (def : JobDef) (canaryServers : list string)
    : list Phase * option RunError :=
  match canaryServers with
  | [] => ([], None)
  | server :: rest =>
      let '(acts, res) := execute cfg server "canary" (Steps def) in
      if isServerFailure res (CountPartialAsSuccess (j_Strategy def))
      then ([Canary server acts], Some (CanaryFailed server (res_err res)))
      else
        let '(phases, err) := canary_loop cfg def rest in
        (Canary server acts :: phases, err)
  end.

Definition failed_count (def : JobDef) (results : list serverResult) : nat :=
  length (List.filter (fun res => isServerFailure res (CountPartialAsSuccess (j_Strategy def))) results).

(** [failureRate > strategy.FailureThreshold]. *)
Definition tripped (def : JobDef) (failed total : nat) : bool :=
  SFltb (FailureThreshold (j_Strategy def))
    (float64_div (float64_of (Z.of_nat failed)) (float64_of (Z.of_nat total))).

Fixpoint wave_loop (cfg : runnerConfig) (def : JobDef) (waveIdx : Z) (waves : list (list string))
    : list Phase * option RunError :=
  match waves with
  | [] => ([], None)
  | wave :: rest =>
      let waveName := wave_name waveIdx in
      let '(branches, results) := runWave cfg wave waveName (Steps def) in
      let failed := failed_count def results in
      if tripped def failed (length results) then
        ([Wave waveName branches], Some (CircuitBreaker waveName failed (length results)))
      else
        let pause := WavePauseSeconds (j_Strategy def) in
        let '(phases, err) := wave_loop cfg def (waveIdx + 1) rest in
        match rest with
        | [] => (Wave waveName branches :: phases, err)
        | _ =>
            if (0 <? pause)%Z then
              if pause_done waveName
              then ([Wave waveName branches; PauseBetween pause], Some (PauseCancelled waveName))
              else (Wave waveName branches :: PauseBetween pause :: phases, err)
            else (Wave waveName branches :: phases, err)
        end
  end.

(** One part of the run after another: the next one only without an error. *)
Definition and_then (a b : list Phase * option RunError) : list Phase * option RunError :=
  match a.2 with
  | Some _ => a
  | None => ((a.1 ++ b.1)%list, b.2)
  end.

Definition job_gate (cfg : runnerConfig) (def : JobDef) : list Phase * option RunError :=
  if IsApprovalRequired (jobActionClass (Steps def)) && negb (sg_DryRun (j_Strategy def)) &&
     negb (auditURL cfg =?s "")
  then let '(p, err) := approval_gate cfg def "fleet_job" in ([p], err)
  else ([], None).

Definition wave_phase (cfg : runnerConfig) (def : JobDef) (waveServers : list string)
    : list Phase * option RunError :=
  match waveServers with
  | [] => ([], None)
  | _ =>
      let gate :=
        if WaveGate (j_Strategy def) && negb (auditURL cfg =?s "")
        then let '(p, err) := approval_gate cfg def "fleet_job_wave_gate" in ([p], err)
        else ([], None) in
      let waveSize :=
        if (WaveSize (j_Strategy def) <=? 0)%Z then Z.of_nat (length waveServers)
        else WaveSize (j_Strategy def) in
      and_then gate (wave_loop cfg def 0 (chunk waveServers waveSize))
  end.

(** A negative canary count makes the slice expression panic, once the gate is
    passed. *)
Definition runStages (cfg : runnerConfig) (def : JobDef) (servers : list string)
    : outcome (list Phase * option RunError) :=
  match servers with
  | [] => Returns ([], Some NoServers)
  | _ =>
      let gate := job_gate cfg def in
      match gate.2 with
      | Some _ => Returns gate
      | None =>
          let total := Z.of_nat (length servers) in
          let canaryCount := Z.min (CanaryCount (j_Strategy def)) total in
          if (canaryCount <? 0)%Z then Panics
          else
            let n := Z.to_nat canaryCount in
            Returns (and_then gate (and_then (canary_loop cfg def (firstn n servers))
                                             (wave_phase cfg def (skipn n servers))))
      end
  end.
End Run.

(** ** The wait *)

Lemma poll_loop_inv polls deadline secs fuel k r :
  poll_loop polls deadline secs fuel k = Some r ->
  exists j, k <= j /\ (forall i, k <= i < j -> poll_turn (polls i) deadline secs = None) /\
    poll_turn (polls j) deadline secs = Some r.
Proof.
  revert k. induction fuel as [|fuel IH]; intros k; simpl; [done|].
  destruct (poll_turn (polls k) deadline secs) as [r'|] eqn:Et.
  - intros [= ->]. exists k. split_and!; [done|lia|done].
  - intros (j & Hj & Hq & Hr)%IH. exists j. split_and!; [lia| |done].
    intros i Hi. destruct (decide (i = k)) as [->|]; [done|]. apply Hq. lia.
Qed.

Lemma poll_loop_ends polls deadline secs fuel k :
  (exists i, k <= i < k + fuel /\ After (clock (polls i)) deadline = true) ->
  poll_loop polls deadline secs fuel k <> None.
Proof.
  revert k. induction fuel as [|fuel IH]; intros k (i & Hi & Ha); [lia|]. simpl.
  destruct (poll_turn (polls k) deadline secs) as [r|] eqn:Et; [done|].
  apply IH. exists i. split; [|done]. destruct (decide (i = k)) as [->|]; [exfalso|lia].
  unfold poll_turn in Et. destruct (ctx_done _); [done|]. rewrite Ha in Et.
  by destruct (match reply_status (polls k) with Ok _ => _ | Err _ => _ end).
Qed.

Lemma poll_turn_true tick deadline secs :
  poll_turn tick deadline secs = Some (Ok true) <->
  ctx_done tick = false /\ reply_status tick = Ok "approved".
Proof.
  unfold poll_turn. destruct (ctx_done tick); [naive_solver|].
  destruct (reply_status tick) as [st|e]; [|destruct (After (clock tick) deadline); naive_solver].
  destruct (String.eqb_spec st "approved") as [->|]; [naive_solver|].
  destruct (st =?s "denied"), (st =?s "expired"), (st =?s "cancelled"), (After (clock tick) deadline); naive_solver.
Qed.

Lemma poll_turn_not_false tick deadline secs : poll_turn tick deadline secs <> Some (Ok false).
Proof.
  unfold poll_turn. destruct (ctx_done tick); [done|]. destruct (reply_status tick) as [st|e].
  - by destruct (st =?s "approved"), (st =?s "denied"), (st =?s "expired"), (st =?s "cancelled"), (After (clock tick) deadline).
  - by destruct (After (clock tick) deadline).
Qed.

(** ** Runs as sequences of acts *)

(** The interleavings of the lists of acts of concurrent servers. *)
Inductive shuffle : list (list Act) -> list Act -> Prop :=
  | shuffle_nil bs : Forall (fun b => b = []) bs -> shuffle bs []
  | shuffle_cons bs1 a b bs2 t :
      shuffle (bs1 ++ b :: bs2)%list t -> shuffle (bs1 ++ (a :: b) :: bs2)%list (a :: t).

Inductive phase_run : Phase -> list Act -> Prop :=
  | run_gate rt acts : phase_run (Gate rt acts) acts
  | run_canary s acts : phase_run (Canary s acts) acts
  | run_wave name bs t : shuffle (map snd bs) t -> phase_run (Wave name bs) t
  | run_pause z : phase_run (PauseBetween z) [].

Inductive linear : list Phase -> list Act -> Prop :=
  | linear_nil : linear [] []
  | linear_cons p ps t1 t2 : phase_run p t1 -> linear ps t2 -> linear (p :: ps) (t1 ++ t2)%list.

(** The servers a phase works on, with the stage they run in. *)
Definition visits (p : Phase) : list stageAssignment :=
  match p with
  | Canary s _ => [{| sg_server := s; sg_stage := "canary" |}]
  | Wave name bs => map (fun b => {| sg_server := b.1; sg_stage := name |}) bs
  | _ => []
  end.

Definition visited (ps : list Phase) : list stageAssignment := concat (map visits ps).

Lemma visited_app p q : visited (p ++ q) = (visited p ++ visited q)%list.
Proof. unfold visited. by rewrite map_app, concat_app. Qed.

Section Plan.
Context (marshal : anymap -> result string string) (bad_url : string -> option string).
Context (gateway : string -> string -> nat -> HttpCall -> result string (Z * string)).
Context (text : string -> string) (decode_id : string -> result string string).
Context (post : string -> result string (Z * string)).
Context (start : string -> Time) (polls : string -> nat -> PollTick) (fuel : string -> nat).
Context (pause_done : string -> bool) (cfg : runnerConfig) (def : JobDef).

Abbreviation exec := (execute marshal bad_url gateway text).
Abbreviation canaries := (canary_loop marshal bad_url gateway text cfg def).
Abbreviation waves_from := (wave_loop marshal bad_url gateway text pause_done cfg def).
Abbreviation waving := (wave_phase marshal bad_url gateway text decode_id post start polls fuel pause_done cfg def).
Abbreviation gating := (job_gate bad_url decode_id post start polls fuel cfg def).
Abbreviation gate_of := (approval_gate bad_url decode_id post start polls fuel cfg def).
Abbreviation stages := (runStages marshal bad_url gateway text decode_id post start polls fuel pause_done cfg def).
Abbreviation countPartial := (CountPartialAsSuccess (j_Strategy def)).

Definition on_canary (s : string) : stageAssignment := {| sg_server := s; sg_stage := "canary" |}.

Definition canary_fails (s : string) : bool :=
  isServerFailure (exec cfg s "canary" (Steps def)).2 countPartial.

Definition wave_trips (name : string) (wave : list string) : bool :=
  tripped def (failed_count def (runWave marshal bad_url gateway text cfg wave name (Steps def)).2)
    (length wave).

Lemma runWave_length wave name steps :
  length (runWave marshal bad_url gateway text cfg wave name steps).2 = length wave.
Proof. unfold runWave. simpl. by rewrite !length_map. Qed.

Lemma runWave_servers wave name steps :
  map fst (runWave marshal bad_url gateway text cfg wave name steps).1 = wave.
Proof. unfold runWave. simpl. rewrite !map_map. simpl. apply map_id. Qed.

Lemma visits_wave wave name steps :
  visits (Wave name (runWave marshal bad_url gateway text cfg wave name steps).1) =
  map (fun s => {| sg_server := s; sg_stage := name |}) wave.
Proof.
  unfold visits. rewrite <- (runWave_servers wave name steps) at 2. by rewrite map_map.
Qed.

(** The canary loop stops at the first failure. *)
Lemma canary_loop_spec l :
  visited (canaries l).1 `prefix_of` map on_canary l /\
  ((canaries l).2 = None -> visited (canaries l).1 = map on_canary l) /\
  ((canaries l).2 = None <-> forall s, In s l -> canary_fails s = false).
Proof.
  induction l as [|s l IH]; simpl; [split_and!; [done|done|naive_solver]|].
  pose proof (eq_refl : canary_fails s = isServerFailure (exec cfg s "canary" (Steps def)).2 countPartial) as Hf.
  destruct (exec cfg s "canary" (Steps def)) as [acts res]. simpl in Hf.
  destruct (isServerFailure res countPartial); simpl.
  - split_and!; [by exists (map on_canary l)|done|]. split; [done|]. intros H.
    specialize (H s (or_introl eq_refl)). congruence.
  - destruct (canaries l) as [phases err]. simpl in *. destruct IH as (IH1 & IH2 & IH3).
    change (visited (Canary s acts :: phases)) with (on_canary s :: visited phases).
    split_and!.
    + by apply prefix_cons.
    + intros He. by rewrite IH2.
    + rewrite IH3. split; [intros H x [<-|]; auto|auto].
Qed.

(** So does the wave loop, at a tripped wave or a cancelled pause. *)
Lemma wave_loop_spec j waves :
  visited (waves_from j waves).1 `prefix_of` stage_waves j waves /\
  ((waves_from j waves).2 = None -> visited (waves_from j waves).1 = stage_waves j waves).
Proof.
  revert j. induction waves as [|w ws IH]; intros j; [done|]. cbn [wave_loop stage_waves].
  pose proof (visits_wave w (wave_name j) (Steps def)) as Hv.
  destruct (runWave marshal bad_url gateway text cfg w (wave_name j) (Steps def)) as [bs rs].
  cbn [fst] in Hv. specialize (IH (j + 1)%Z).
  destruct (waves_from (j + 1)%Z ws) as [phases err]. cbn [fst snd] in IH. destruct IH as [IH1 IH2].
  assert (Hone : forall tl, visited tl = [] ->
    visited (Wave (wave_name j) bs :: tl) `prefix_of`
    (map (fun s => {| sg_server := s; sg_stage := wave_name j |}) w ++ stage_waves (j + 1) ws)%list).
  { intros tl Ht. exists (stage_waves (j + 1) ws). unfold visited in *. simpl map. simpl concat.
    simpl in Hv. by rewrite Ht, app_nil_r, Hv. }
  assert (Hall : forall tl, visited tl = visited phases ->
    visited (Wave (wave_name j) bs :: tl) `prefix_of`
    (map (fun s => {| sg_server := s; sg_stage := wave_name j |}) w ++ stage_waves (j + 1) ws)%list /\
    (err = None -> visited (Wave (wave_name j) bs :: tl) =
    (map (fun s => {| sg_server := s; sg_stage := wave_name j |}) w ++ stage_waves (j + 1) ws)%list)).
  { intros tl Ht.
    replace (visited (Wave (wave_name j) bs :: tl)) with (visits (Wave (wave_name j) bs) ++ visited tl)%list
      by done.
    rewrite Ht, Hv. split; [by apply prefix_app|]. intros He. by rewrite IH2. }
  destruct (tripped _ _ _); [split; [by apply Hone|done]|].
  destruct ws as [|w' ws']; [by apply Hall|].
  destruct (0 <? _)%Z; [|by apply Hall].
  destruct (pause_done _); [split; [by apply Hone|done]|by apply Hall].
Qed.

(** A wave rollout ends well when no wave trips and no pause is cancelled. *)
Fixpoint waves_pass (j : Z) (waves : list (list string)) : Prop :=
  match waves with
  | [] => True
  | w :: ws =>
      wave_trips (wave_name j) w = false /\
      (ws <> [] -> (0 < WavePauseSeconds (j_Strategy def))%Z -> pause_done (wave_name j) = false) /\
      waves_pass (j + 1) ws
  end.

Lemma wave_loop_completes j waves : (waves_from j waves).2 = None <-> waves_pass j waves.
Proof.
  revert j. induction waves as [|w ws IH]; intros j; [simpl; tauto|]. cbn [wave_loop waves_pass].
  unfold wave_trips. rewrite <- (runWave_length w (wave_name j) (Steps def)). specialize (IH (j + 1)%Z).
  destruct (runWave marshal bad_url gateway text cfg w (wave_name j) (Steps def)) as [bs rs].
  cbn [snd]. destruct (tripped def _ _); [split; [done|intros [? _]; done]|].
  destruct (waves_from (j + 1)%Z ws) as [phases err]. cbn [snd] in IH. rewrite <- IH.
  destruct ws as [|w' ws']; [simpl; naive_solver|].
  destruct (Z.ltb_spec 0 (WavePauseSeconds (j_Strategy def))).
  - destruct (pause_done _); simpl; [|naive_solver].
    split; [done|]. intros (_ & H' & _). by specialize (H' ltac:(done) ltac:(done)).
  - simpl. split; [|tauto]. intros ->. split_and!; [done|lia|done].
Qed.

Lemma job_gate_visits : visited gating.1 = [].
Proof. unfold job_gate. by destruct (_ && _). Qed.

(** When the gate lets the run pass. *)
Definition gate_open (resource_type : string) : Prop := (gate_of resource_type).2 = None.

Lemma gate_open_iff rt :
  gate_open rt <->
  (exists id, approval_reply (if rt =?s "fleet_job" then "" else "wave gate ")
                (bad_url (approval_url cfg)) decode_id (post rt) = Ok id) /\
  waitForFleetApproval (polls rt) (start rt) (ApprovalTimeoutSeconds (j_Strategy def)) (fuel rt)
  = Some (Ok true).
Proof.
  unfold gate_open, approval_gate. simpl. destruct (approval_reply _ _ _ _) as [id|e].
  - destruct (waitForFleetApproval _ _ _ _) as [[[]|]|]; naive_solver.
  - split; [done|]. by intros [[? ?] _].
Qed.

Definition needs_job_gate : bool :=
  IsApprovalRequired (jobActionClass (Steps def)) && negb (sg_DryRun (j_Strategy def)) &&
  negb (auditURL cfg =?s "").

Definition needs_wave_gate : bool := WaveGate (j_Strategy def) && negb (auditURL cfg =?s "").

Lemma job_gate_pass : gating.2 = None <-> (needs_job_gate = true -> gate_open "fleet_job").
Proof.
  unfold job_gate, needs_job_gate, gate_open. destruct (_ && _); [|simpl; naive_solver].
  destruct (approval_gate _ _ _ _ _ _ _ _ _). simpl. naive_solver.
Qed.

Definition wave_list (servers : list string) : list (list string) :=
  chunk servers (if (WaveSize (j_Strategy def) <=? 0)%Z then Z.of_nat (length servers)
                 else WaveSize (j_Strategy def)).

Lemma wave_phase_spec l :
  visited (waving l).1 `prefix_of` match l with [] => [] | _ => stage_waves 0 (wave_list l) end /\
  ((waving l).2 = None ->
   visited (waving l).1 = match l with [] => [] | _ => stage_waves 0 (wave_list l) end) /\
  ((waving l).2 = None <->
   l = [] \/ (needs_wave_gate = true -> gate_open "fleet_job_wave_gate") /\ waves_pass 0 (wave_list l)).
Proof.
  destruct l as [|s l]; [simpl; split_and!; [done|done|naive_solver]|].
  unfold wave_phase. fold needs_wave_gate. cbv zeta. fold (wave_list (s :: l)).
  pose proof (wave_loop_spec 0 (wave_list (s :: l))) as [H1 H2].
  pose proof (wave_loop_completes 0 (wave_list (s :: l))) as H3.
  unfold gate_open. unfold and_then. destruct needs_wave_gate; cbv iota.
  - assert (Hp : visited [(gate_of "fleet_job_wave_gate").1] = []) by done.
    destruct (gate_of "fleet_job_wave_gate") as [p [e|]]; cbn [fst snd] in *.
    + rewrite Hp. split_and!; [apply prefix_nil|done|]. split; [done|].
      intros [?|[H _]]; [done|]. by specialize (H eq_refl).
    + rewrite visited_app, Hp. simpl app. split_and!; [done|done|].
      rewrite H3. split; [auto|]. by intros [?|[_ ?]].
  - cbn [fst snd app]. split_and!; [done|done|].
    rewrite H3. split; [intros H; right; split; [discriminate|exact H]|]. by intros [?|[_ ?]].
Qed.
Lemma and_then_visits a b A B :
  visited a.1 `prefix_of` A -> (a.2 = None -> visited a.1 = A) ->
  visited b.1 `prefix_of` B -> (b.2 = None -> visited b.1 = B) ->
  visited (and_then a b).1 `prefix_of` (A ++ B)%list /\
  ((and_then a b).2 = None -> visited (and_then a b).1 = (A ++ B)%list).
Proof.
  intros Ha Ha' Hb Hb'. unfold and_then. destruct a as [pa [e|]]; simpl in *.
  - split; [|done]. by apply prefix_app_r.
  - rewrite visited_app, Ha' by done. split; [by apply prefix_app|]. intros H. by rewrite Hb'.
Qed.

Lemma and_then_none a b : (and_then a b).2 = None <-> a.2 = None /\ b.2 = None.
Proof. unfold and_then. destruct a as [pa [e|]]; simpl; naive_solver. Qed.

(** The split of the servers into canaries and the rest. *)
Definition canary_number (servers : list string) : nat :=
  Z.to_nat (Z.min (CanaryCount (j_Strategy def)) (Z.of_nat (length servers))).

Lemma runStages_cases servers :
  let body := and_then (canaries (firstn (canary_number servers) servers))
                       (waving (skipn (canary_number servers) servers)) in
  (servers = [] /\ stages servers = Returns ([], Some NoServers)) \/
  (servers <> [] /\ gating.2 <> None /\ stages servers = Returns gating) \/
  (servers <> [] /\ gating.2 = None /\ (CanaryCount (j_Strategy def) < 0)%Z /\ stages servers = Panics) \/
  (servers <> [] /\ gating.2 = None /\ (0 <= CanaryCount (j_Strategy def))%Z /\
   stages servers = Returns (and_then gating body)).
Proof.
  intros body. unfold runStages. destruct servers as [|s l]; [by left|right].
  destruct gating.2 as [e|] eqn:Eg; [left; done|right].
  destruct (Z.ltb_spec (Z.min (CanaryCount (j_Strategy def)) (Z.of_nat (length (s :: l)))) 0).
  - left. split_and!; [done|done|lia|done].
  - right. split_and!; [done|done|lia|done].
Qed.

Lemma rollout_visits servers phases err : stages servers = Returns (phases, err) ->
  visited phases `prefix_of` buildStageAssignments servers (j_Strategy def) /\
  (err = None -> visited phases = buildStageAssignments servers (j_Strategy def)).
Proof.
  destruct (runStages_cases servers) as [[-> ->]|[(Hs & Hg & ->)|[(Hs & Hg & Hc & ->)|(Hs & Hg & Hc & ->)]]].
  - intros [= <- <-]. split; [apply prefix_nil|done].
  - pose proof job_gate_visits as Hv. intros [= H]. rewrite H in Hv, Hg. simpl in *.
    rewrite Hv. split; [apply prefix_nil|done].
  - done.
  - rewrite assignments_waves by done. fold on_canary. cbv zeta. fold (canary_number servers).
    set (l1 := firstn (canary_number servers) servers). set (l2 := skipn (canary_number servers) servers).
    fold (wave_list l2).
    pose proof (canary_loop_spec l1) as (Hc1 & Hc2 & _).
    pose proof (wave_phase_spec l2) as (Hw1 & Hw2 & _).
    destruct (and_then_visits _ _ _ _ Hc1 Hc2 Hw1 Hw2) as [Hb1 Hb2].
    pose proof job_gate_visits as Hv. unfold and_then at 1. destruct gating as [ps e0]. simpl in Hg, Hv |- *.
    subst e0. destruct (and_then _ _) as [phases' e]. simpl in *. intros [= <- <-]. rewrite visited_app, Hv. auto.
Qed.

(** C13 (equivalence). The rollout works on the servers in the order and in the stages
    of the job record: whatever the gateway and auditd reply, the servers it works on
    are a prefix of [buildStageAssignments], and all of them when it ends without an
    error; only a negative canary count makes it panic. *)
Theorem rollout_follows_plan servers :
  match stages servers with
  | Panics => servers <> [] /\ (CanaryCount (j_Strategy def) < 0)%Z
  | Returns (phases, err) =>
      visited phases `prefix_of` buildStageAssignments servers (j_Strategy def) /\
      (err = None -> visited phases = buildStageAssignments servers (j_Strategy def))
  end.
Proof.
  destruct (stages servers) as [[phases err]|] eqn:Er; [by apply rollout_visits|].
  destruct (runStages_cases servers) as [[_ E]|[(_ & _ & E)|[(Hs & _ & Hc & _)|(_ & _ & _ & E)]]];
    [by rewrite E in Er|by rewrite E in Er|done|by rewrite E in Er].
Qed.

(** A rollout ends without an error exactly when there are servers, the
    job's gate is open if it needs one, no canary fails, and, if servers are left for
    the waves, the wave gate is open if it is asked for, no wave's failure rate is
    above the threshold, and no pause is cut short. *)
Theorem runStages_completes servers :
  (exists phases, stages servers = Returns (phases, None)) <->
  servers <> [] /\ (0 <= CanaryCount (j_Strategy def))%Z /\
  (needs_job_gate = true -> gate_open "fleet_job") /\
  (forall s, In s (firstn (canary_number servers) servers) -> canary_fails s = false) /\
  (skipn (canary_number servers) servers = [] \/
   (needs_wave_gate = true -> gate_open "fleet_job_wave_gate") /\
   waves_pass 0 (wave_list (skipn (canary_number servers) servers))).
Proof.
  rewrite <- job_gate_pass.
  rewrite <- (proj2 (proj2 (canary_loop_spec (firstn (canary_number servers) servers)))).
  rewrite <- (proj2 (proj2 (wave_phase_spec (skipn (canary_number servers) servers)))).
  destruct (runStages_cases servers) as [[-> ->]|[(Hs & Hg & ->)|[(Hs & Hg & Hc & ->)|(Hs & Hg & Hc & ->)]]].
  - split; [by intros [? [=]]|tauto].
  - split; [|tauto]. intros [phases [= He]]. by rewrite He in Hg.
  - split; [by intros [? [=]]|lia].
  - rewrite <- and_then_none. split.
    + intros [phases [= He]]. split_and!; try done; apply (and_then_none gating); by rewrite He.
    + intros (_ & _ & _ & Hb). destruct (and_then gating _) as [ph e] eqn:E. exists ph. repeat f_equal.
      change e with (ph, e).2. rewrite <- E. by apply and_then_none.
Qed.

(** auditd gave the approval an id and answered "approved" on some poll. *)
Definition approved (resource_type : string) : Prop :=
  (exists id, approval_reply (if resource_type =?s "fleet_job" then "" else "wave gate ")
                (bad_url (approval_url cfg)) decode_id (post resource_type) = Ok id) /\
  exists k, ctx_done (polls resource_type k) = false /\
    reply_status (polls resource_type k) = Ok "approved".

Lemma gate_open_approved rt : gate_open rt -> approved rt.
Proof.
  rewrite gate_open_iff. intros [Hid Hw]. split; [done|].
  apply poll_loop_inv in Hw as (k & _ & _ & Ht). exists k. by apply poll_turn_true in Ht.
Qed.

Lemma wave_phase_gated l a :
  In a (visited (waving l).1) -> needs_wave_gate = true -> gate_open "fleet_job_wave_gate".
Proof.
  destruct l as [|s l]; [done|]. unfold wave_phase. fold needs_wave_gate. intros Hin Hn. revert Hin.
  rewrite Hn. unfold gate_open. assert (Hp : visited [(gate_of "fleet_job_wave_gate").1] = []) by done.
  destruct (gate_of "fleet_job_wave_gate") as [p [e|]]; simpl in *; [|done].
  intros Hin. unfold and_then in Hin. simpl in Hin. by rewrite Hp in Hin.
Qed.

(** No server is touched before its gates: if the rollout works on any
    server, a job that needs approval was approved; if it works on a server outside
    the canary stage, no canary failed and a wave gate that was asked for was
    approved. *)
Theorem gates_hold servers :
  match stages servers with
  | Panics => True
  | Returns (phases, _) =>
      (visited phases <> [] -> needs_job_gate = true -> approved "fleet_job") /\
      forall a, In a (visited phases) -> sg_stage a <> "canary" ->
        (forall s, In s (firstn (canary_number servers) servers) -> canary_fails s = false) /\
        (needs_wave_gate = true -> approved "fleet_job_wave_gate")
  end.
Proof.
  destruct (runStages_cases servers) as [[-> ->]|[(Hs & Hg & ->)|[(Hs & Hg & Hc & ->)|(Hs & Hg & Hc & ->)]]];
    [split; [done|]; intros ? []| |done|].
  - pose proof job_gate_visits as Hv. destruct gating as [ps e]. simpl in Hv. rewrite Hv.
    split; [done|]. intros ? [].
  - pose proof job_gate_visits as Hv. rewrite (surjective_pairing gating) in Hv |- *.
    unfold and_then at 1. rewrite Hg. cbn [snd fst] in *.
    rewrite (surjective_pairing (and_then (canaries _) _)). cbn [fst snd]. rewrite visited_app, Hv. simpl app.
    split; [intros _ Hn; by apply gate_open_approved, job_gate_pass|].
    intros a Hin Hst. pose proof (canary_loop_spec (firstn (canary_number servers) servers)) as (Hp & He & Hf).
    assert (Hcan : ~ In a (visited (canaries (firstn (canary_number servers) servers)).1)).
    { intros Hi. destruct Hp as [tl Hp]. assert (Hi' : In a (map on_canary (firstn (canary_number servers) servers)))
        by (rewrite Hp; apply in_or_app; by left).
      apply in_map_iff in Hi' as (s & <- & _). by apply Hst. }
    unfold and_then in Hin. destruct (canaries _).2 as [e|] eqn:Ec; [done|].
    simpl in Hin. rewrite visited_app in Hin. apply in_app_or in Hin as [Hin|Hin]; [done|].
    split; [by apply Hf|]. intros Hn. by eapply gate_open_approved, wave_phase_gated.
Qed.
End Plan.

(** ** The steps of one server *)

Definition ends_with {A} (x : A) (l : list A) : Prop := exists pre, l = (pre ++ [x])%list.

Lemma ends_with_app {A} (x : A) l l' : ends_with x l -> ends_with x (l' ++ l)%list.
Proof. intros [pre ->]. exists (l' ++ pre)%list. by rewrite app_assoc. Qed.

Lemma ends_with_last {A} (x : A) : ends_with x [x].
Proof. by exists []. Qed.

#[export] Hint Resolve ends_with_app ends_with_last : go.

Section ServerSteps.
Context (marshal : anymap -> result string string) (bad_url : string -> option string).
Context (gateway : string -> string -> nat -> HttpCall -> result string (Z * string)).
Context (text : string -> string) (cfg : runnerConfig) (server stage : string).

Abbreviation loop := (step_loop marshal bad_url gateway text cfg server stage).

(** The result of the step with index [idx]. *)
Definition step_result (idx : nat) (step : Step) : stepResult :=
  let '(_, out, err) := callGatewayTool marshal bad_url gateway text cfg server stage idx step in
  {| stepIdx := idx; sr_tool := st_Tool step; output := out; sr_err := err |}.

Definition failed (sr : stepResult) : bool := match sr_err sr with Some _ => true | None => false end.

Fixpoint results_from (idx : nat) (steps : list Step) : list stepResult :=
  match steps with
  | [] => []
  | step :: rest => step_result idx step :: results_from (S idx) rest
  end.

(** Every step succeeds or is allowed to fail. *)
Fixpoint tolerated (idx : nat) (steps : list Step) : Prop :=
  match steps with
  | [] => True
  | step :: rest =>
      (failed (step_result idx step) = true -> continues step = true) /\ tolerated (S idx) rest
  end.

(** The step after [before] fails and stops the server. *)
Definition stops_after (idx : nat) (before : list Step) (last : Step) : Prop :=
  tolerated idx before /\ failed (step_result (idx + length before) last) = true /\
  continues last = false.

(** What a run of the loop gives: the results of all steps, or those up to the one that
    stopped it. *)
Definition loop_verdict (idx : nat) (steps : list Step) (results : list stepResult) (partial : bool)
    (r : list Act * list stepResult * option string * bool) : Prop :=
  let '(acts, rs, stop, p) := r in
  match stop with
  | None => tolerated idx steps /\ rs = (results ++ results_from idx steps)%list /\
            p = partial || existsb failed (results_from idx steps)
  | Some _ =>
      (exists before last rest, steps = (before ++ last :: rest)%list /\ stops_after idx before last /\
         rs = (results ++ results_from idx (before ++ [last]))%list) /\
      (auditURL cfg <> "" -> exists out, ends_with (PatchServer server "failed" out) acts)
  end.

(** The verdict on the steps after [s] is one on all of them, with more acts before. *)
Lemma loop_verdict_cons idx s steps results partial more acts rs stop p :
  (failed (step_result idx s) = true -> continues s = true) ->
  loop_verdict (S idx) steps (results ++ [step_result idx s]) (partial || failed (step_result idx s))
    (acts, rs, stop, p) ->
  loop_verdict idx (s :: steps) results partial ((more ++ acts)%list, rs, stop, p).
Proof.
  intros Hs. unfold loop_verdict. destruct stop as [e|].
  - intros [(before & last & rest & -> & (Ht & Hf & Hc) & ->) Hacts]. split.
    + exists (s :: before), last, rest. split_and!; [done| |by rewrite <- app_assoc].
      unfold stops_after. cbn [tolerated length]. by rewrite Nat.add_succ_r.
    + intros Ha. destruct (Hacts Ha) as [out Ho]. exists out. auto with go.
  - intros (Ht & -> & ->). cbn [tolerated results_from existsb]. rewrite <- app_assoc, orb_assoc. done.
Qed.

Lemma step_loop_spec idx steps results partial :
  loop_verdict idx steps results partial (loop idx steps results partial).
Proof.
  revert idx results partial. induction steps as [|s steps IH]; intros idx results partial; cbn [step_loop].
  - simpl. by rewrite app_nil_r, orb_false_r.
  - assert (Hsr : step_result idx s = let '(_, out, err) :=
      callGatewayTool marshal bad_url gateway text cfg server stage idx s in
      {| stepIdx := idx; sr_tool := st_Tool s; output := out; sr_err := err |}) by done.
    destruct (callGatewayTool marshal bad_url gateway text cfg server stage idx s) as [[req out] err].
    set (call := match req with Some r => _ | None => _ end). rewrite <- Hsr. destruct err as [e|].
    + destruct (continues s) eqn:Ec.
      * specialize (IH (S idx) (results ++ [step_result idx s])%list true).
        destruct (loop (S idx) steps _ true) as [[[acts rs] stop] p]. rewrite app_assoc.
        apply loop_verdict_cons; [done|]. rewrite Hsr in *. simpl failed. by rewrite orb_true_r.
      * split.
        -- exists [], s, steps. split_and!; [done| |done].
           unfold stops_after. simpl. by rewrite Nat.add_0_r, Hsr.
        -- intros Ha. exists out. unfold patchServerStatus. rewrite (proj2 (streq_false _ _) Ha). auto with go.
    + specialize (IH (S idx) (results ++ [step_result idx s])%list partial).
      destruct (loop (S idx) steps _ partial) as [[[acts rs] stop] p]. rewrite !app_assoc.
      apply loop_verdict_cons; [by rewrite Hsr|]. rewrite Hsr in *. simpl failed. by rewrite orb_false_r.
Qed.

(** [executeSteps] runs the steps in order and stops at the first one
    that fails without on_failure "continue": then the server has that error and the
    results up to it, and its record ends "failed".  When no step stops it, all steps
    have results, there is no error, and the record ends "partial" if some step failed
    and "success" if none did. *)
Theorem executeSteps_spec steps :
  let '(acts, res) := execute marshal bad_url gateway text cfg server stage steps in
  res_server res = server /\
  match res_err res with
  | Some _ =>
      (exists before last rest, steps = (before ++ last :: rest)%list /\ stops_after 0 before last /\
         res_steps res = results_from 0 (before ++ [last])) /\
      (auditURL cfg <> "" -> exists out, ends_with (PatchServer server "failed" out) acts)
  | None =>
      tolerated 0 steps /\ res_steps res = results_from 0 steps /\
      (auditURL cfg <> "" ->
       ends_with (PatchServer server
         (if existsb failed (results_from 0 steps) then "partial" else "success")
         (lastOutput (results_from 0 steps))) acts)
  end.
Proof.
  unfold execute, executeSteps. pose proof (step_loop_spec 0 steps [] false) as H. unfold loop_verdict in H.
  destruct (loop 0 steps [] false) as [[[acts rs] stop] p]. destruct stop as [e|]; cbn [res_server res_err res_steps].
  - destruct H as [H1 H2]. split; [done|]. split; [exact H1|]. intros Ha. destruct (H2 Ha) as [o Ho].
    exists o. auto with go.
  - destruct H as (H1 & H2 & Hp). cbn [app orb] in H2, Hp. subst rs p.
    split; [done|]. split; [done|]. split; [done|]. intros Ha. unfold patchServerStatus.
    rewrite (proj2 (streq_false _ _) Ha). auto with go.
Qed.

(** A call the runner may send for a step of the job. *)
Definition planned_call (steps : list Step) (idx : nat) (req : HttpCall) : Prop :=
  exists step body, steps !! idx = Some step /\
    marshal (call_args server step) = Ok body /\
    req = {| h_url := (gatewayURL cfg ++ call_path step)%string; h_body := body;
             h_headers := call_headers cfg server stage |}.

Lemma callGatewayTool_sent idx step req out err :
  callGatewayTool marshal bad_url gateway text cfg server stage idx step = (Some req, out, err) ->
  exists body, marshal (call_args server step) = Ok body /\
    req = {| h_url := (gatewayURL cfg ++ call_path step)%string; h_body := body;
             h_headers := call_headers cfg server stage |}.
Proof.
  unfold callGatewayTool. destruct (marshal _) as [body|]; [|done].
  destruct (bad_url _); [done|]. destruct (gateway _ _ _ _) as [[st b]|]; [|intros [= <- <- <-]; eauto].
  destruct (negb _); intros [= <- <- <-]; eauto.
Qed.

Lemma step_loop_calls idx steps results partial sv st i req :
  In (ToolCall sv st i req) (loop idx steps results partial).1.1.1 ->
  sv = server /\ st = stage /\ idx <= i /\ planned_call steps (i - idx) req.
Proof.
  revert idx results partial. induction steps as [|s steps IH]; intros idx results partial; [done|].
  cbn [step_loop]. pose proof (callGatewayTool_sent idx s) as Hc.
  destruct (callGatewayTool marshal bad_url gateway text cfg server stage idx s) as [[r out] err].
  assert (Hhead : forall rest, In (ToolCall sv st i req)
      (match r with Some r => [ToolCall server stage idx r] | None => [] end ++ rest)%list ->
      (sv = server /\ st = stage /\ idx <= i /\ planned_call (s :: steps) (i - idx) req) \/
      In (ToolCall sv st i req) rest).
  { intros rest [Hin|Hin]%in_app_or; [left|by right]. destruct r as [r|]; [|done].
    destruct Hin as [[= <- <- <- <-]|[]]. destruct (Hc r out err eq_refl) as (body & Hb & Hr).
    split_and!; [done|done|lia|]. rewrite Nat.sub_diag. exists s, body. done. }
  assert (Htail : forall results partial,
      In (ToolCall sv st i req) (loop (S idx) steps results partial).1.1.1 ->
      sv = server /\ st = stage /\ idx <= i /\ planned_call (s :: steps) (i - idx) req).
  { intros r' p' (-> & -> & Hi & step & body & Hl & Hb)%IH. split_and!; [done|done|lia|].
    exists step, body. split; [|done]. replace (i - idx) with (S (i - S idx)) by lia. done. }
  assert (Hpatch : forall x out, In (ToolCall sv st i req) (patchStepStatus cfg server idx x out) -> False).
  { intros x o. unfold patchStepStatus. destruct (_ =?s _); simpl; intuition congruence. }
  assert (Hserver : forall x out, In (ToolCall sv st i req) (patchServerStatus cfg server x out) -> False).
  { intros x o. unfold patchServerStatus. destruct (_ =?s _); simpl; intuition congruence. }
  assert (Hres : In (ToolCall sv st i req) (recordToolResult cfg server s out) -> False).
  { unfold recordToolResult. destruct (_ =?s _); simpl; intuition congruence. }
  destruct err as [e|]; [destruct (continues s)|].
  - specialize (Htail (results ++ [{| stepIdx := idx; sr_tool := st_Tool s; output := out; sr_err := Some e |}])%list true).
    destruct (loop (S idx) steps _ true) as [[[acts rs] stop] p]. simpl in *.
    intros [?|[Hi|Hi]%in_app_or]%Hhead; [done|by apply Hpatch in Hi|auto].
  - simpl. intros [?|[Hi|Hi]%in_app_or]%Hhead; [done|by apply Hpatch in Hi|by apply Hserver in Hi].
  - specialize (Htail (results ++ [{| stepIdx := idx; sr_tool := st_Tool s; output := out; sr_err := None |}])%list partial).
    destruct (loop (S idx) steps _ partial) as [[[acts rs] stop] p]. simpl in *.
    intros [?|[Hi|[Hi|Hi]%in_app_or]%in_app_or]%Hhead; [done|by apply Hpatch in Hi|by apply Hres in Hi|auto].
Qed.
Lemma execute_calls steps sv st i req :
  In (ToolCall sv st i req) (execute marshal bad_url gateway text cfg server stage steps).1 ->
  sv = server /\ st = stage /\ planned_call steps i req.
Proof.
  unfold execute, executeSteps. pose proof (step_loop_calls 0 steps [] false sv st i req) as Hc.
  destruct (loop 0 steps [] false) as [[[acts rs] stop] p]. cbn [fst] in Hc. rewrite Nat.sub_0_r in Hc.
  assert (Hserver : forall x o, In (ToolCall sv st i req) (patchServerStatus cfg server x o) -> False).
  { intros x o. unfold patchServerStatus. destruct (_ =?s _); simpl; intuition congruence. }
  destruct stop as [e|]; cbn [fst].
  - intros [Hi|Hi]%in_app_or; [by apply Hserver in Hi|]. apply Hc in Hi. tauto.
  - intros [Hi|[Hi|Hi]%in_app_or]%in_app_or; [by apply Hserver in Hi| |by apply Hserver in Hi].
    apply Hc in Hi. tauto.
Qed.
End ServerSteps.


(** ** Interleavings *)

Lemma shuffle_In bs t a : shuffle bs t -> In a t -> exists b, In b bs /\ In a b.
Proof.
  induction 1 as [|bs1 x b bs2 t _ IH]; [done|]. intros [->|Hin].
  - exists (a :: b). split; [|by left]. apply in_or_app. right. by left.
  - destruct (IH Hin) as (b' & [Hb|[<-|Hb]]%in_app_or & Ha).
    + exists b'. split; [apply in_or_app; by left|done].
    + exists (x :: b). split; [apply in_or_app; right; by left|by right].
    + exists b'. split; [apply in_or_app; right; by right|done].
Qed.

(** Each server's acts keep their order. *)
Lemma shuffle_sublist bs t b : shuffle bs t -> In b bs -> b `sublist_of` t.
Proof.
  intros H. revert b. induction H as [bs Hbs|bs1 x b bs2 t _ IH]; intros c Hin.
  - rewrite List.Forall_forall in Hbs. by rewrite (Hbs c Hin).
  - apply in_app_or in Hin as [Hin|[<-|Hin]].
    + apply sublist_cons, IH, in_or_app. by left.
    + apply sublist_skip, IH, in_or_app. right. by left.
    + apply sublist_cons, IH, in_or_app. right. by right.
Qed.

Section Interleavings.
Context (marshal : anymap -> result string string) (bad_url : string -> option string).
Context (gateway : string -> string -> nat -> HttpCall -> result string (Z * string)).
Context (text : string -> string) (decode_id : string -> result string string).
Context (post : string -> result string (Z * string)).
Context (start : string -> Time) (polls : string -> nat -> PollTick) (fuel : string -> nat).
Context (pause_done : string -> bool) (cfg : runnerConfig) (def : JobDef).

Abbreviation acts_of s stage := ((execute marshal bad_url gateway text cfg s stage (Steps def)).1).

(** The phase holds what [executeSteps] does on its servers, and no other call. *)
Definition genuine (p : Phase) : Prop :=
  match p with
  | Gate rt acts => exists c b z, acts = [PostApproval rt c b z]
  | Canary s acts => acts = acts_of s "canary"
  | Wave name bs => Forall (fun b => b.2 = acts_of b.1 name) bs
  | PauseBetween _ => True
  end.

Lemma canary_loop_genuine l :
  Forall genuine (canary_loop marshal bad_url gateway text cfg def l).1.
Proof.
  induction l as [|s l IH]; simpl; [done|].
  destruct (execute marshal bad_url gateway text cfg s "canary" (Steps def)) as [acts res] eqn:E.
  assert (Hg : genuine (Canary s acts)) by (simpl; by rewrite E).
  destruct (isServerFailure _ _); [by repeat constructor|].
  destruct (canary_loop _ _ _ _ _ _ _). by constructor.
Qed.

Lemma runWave_genuine wave name :
  genuine (Wave name (runWave marshal bad_url gateway text cfg wave name (Steps def)).1).
Proof.
  unfold runWave. simpl. apply List.Forall_forall. intros b Hin. rewrite map_map in Hin.
  by apply in_map_iff in Hin as (s & <- & _).
Qed.

Lemma wave_loop_genuine j waves :
  Forall genuine (wave_loop marshal bad_url gateway text pause_done cfg def j waves).1.
Proof.
  revert j. induction waves as [|w ws IH]; intros j; [done|]. cbn [wave_loop].
  pose proof (runWave_genuine w (wave_name j)) as Hg. specialize (IH (j + 1)%Z).
  destruct (runWave _ _ _ _ _ _ _ _) as [bs rs]. destruct (wave_loop _ _ _ _ _ _ _ _ _) as [phases err].
  cbn [fst] in *. destruct (tripped _ _ _); [by repeat constructor|].
  destruct ws; [by constructor|]. destruct (0 <? _)%Z; [|by constructor].
  destruct (pause_done _); by repeat constructor.
Qed.

Lemma and_then_genuine a b :
  Forall genuine a.1 -> Forall genuine b.1 -> Forall genuine (and_then a b).1.
Proof. unfold and_then. destruct a.2; [done|]. intros. simpl. by apply Forall_app. Qed.

Lemma wave_phase_genuine l :
  Forall genuine (wave_phase marshal bad_url gateway text decode_id post start polls fuel pause_done cfg def l).1.
Proof.
  unfold wave_phase. destruct l as [|s l]; [done|]. apply and_then_genuine; [|apply wave_loop_genuine].
  destruct (_ && _); simpl; [|done]. repeat constructor. simpl. eauto.
Qed.

Lemma runStages_genuine servers phases err :
  runStages marshal bad_url gateway text decode_id post start polls fuel pause_done cfg def servers
  = Returns (phases, err) -> Forall genuine phases.
Proof.
  assert (Hg : Forall genuine (job_gate bad_url decode_id post start polls fuel cfg def).1).
  { unfold job_gate. destruct (_ && _); simpl; [|done]. repeat constructor. simpl. eauto. }
  destruct (runStages_cases marshal bad_url gateway text decode_id post start polls fuel pause_done
              cfg def servers) as [[_ ->]|[(_ & _ & ->)|[(_ & _ & _ & ->)|(_ & _ & _ & ->)]]].
  - by intros [= <- _].
  - intros [= H]. by rewrite H in Hg.
  - done.
  - intros [= H]. change phases with (phases, err).1. rewrite <- H.
    apply and_then_genuine; [exact Hg|]. apply and_then_genuine; [apply canary_loop_genuine|apply wave_phase_genuine].
Qed.

Lemma genuine_run p t : genuine p -> phase_run p t ->
  (forall a, In a (visits p) -> acts_of (sg_server a) (sg_stage a) `sublist_of` t) /\
  (forall sv st i req, In (ToolCall sv st i req) t ->
     In {| sg_server := sv; sg_stage := st |} (visits p) /\
     In (ToolCall sv st i req) (acts_of sv st)).
Proof.
  intros Hg Hr. destruct Hr as [rt acts|s acts|name bs t Hsh|z]; simpl in Hg.
  - destruct Hg as (c & b & z & ->). split; [done|]. simpl. intuition congruence.
  - subst acts. split; [by intros a [<-|[]]|]. intros sv st i req Hin.
    destruct (execute_calls _ _ _ _ _ _ _ _ _ _ _ _ Hin) as (-> & -> & _). split; [by left|done].
  - rewrite List.Forall_forall in Hg. split.
    + intros a Hin. apply in_map_iff in Hin as (b & <- & Hb). cbn [sg_server sg_stage].
      rewrite <- (Hg b Hb). eapply shuffle_sublist; [done|]. by apply in_map.
    + intros sv st i req Hin. destruct (shuffle_In _ _ _ Hsh Hin) as (b' & Hb' & Ha).
      apply in_map_iff in Hb' as (b & <- & Hb). rewrite (Hg b Hb) in Ha.
      destruct (execute_calls _ _ _ _ _ _ _ _ _ _ _ _ Ha) as (-> & -> & _). split; [|done]. apply in_map_iff. by exists b.
  - split; [done|]. intros sv st i req [].
Qed.

(** In every interleaving of a run: each server worked on has its acts in
    the order [executeSteps] produces them, and every tool call sent is the call of a
    step of the job to a server worked on, in that server's stage, with the job's trace
    id and the server injected into the step's arguments. *)
Theorem interleavings_sound servers phases err t
    (Hrun : runStages marshal bad_url gateway text decode_id post start polls fuel pause_done
              cfg def servers = Returns (phases, err))
    (Ht : linear phases t) :
  (forall a, In a (visited phases) -> acts_of (sg_server a) (sg_stage a) `sublist_of` t) /\
  (forall sv st i req, In (ToolCall sv st i req) t ->
     In {| sg_server := sv; sg_stage := st |} (visited phases) /\
     planned_call marshal cfg sv st (Steps def) i req).
Proof.
  apply runStages_genuine in Hrun. induction Ht as [|p ps t1 t2 Hp _ IH].
  - split; [done|]. intros sv st i req [].
  - apply List.Forall_cons_iff in Hrun as [Hg Hrun]. specialize (IH Hrun) as [IH1 IH2].
    destruct (genuine_run p t1 Hg Hp) as [H1 H2].
    replace (visited (p :: ps)) with (visits p ++ visited ps)%list by done. split.
    + intros a [Ha|Ha]%in_app_or; [by apply sublist_inserts_r, H1|by apply sublist_inserts_l, IH1].
    + intros sv st i req [Hin|Hin]%in_app_or.
      * destruct (H2 _ _ _ _ Hin) as [Hv Hc]. split; [apply in_or_app; by left|].
        by apply execute_calls in Hc as (_ & _ & Hc).
      * destruct (IH2 _ _ _ _ Hin) as [Hv Hc]. split; [apply in_or_app; by right|done].
Qed.
End Interleavings.

(** ** Termination of the wait *)


(** ** Concrete runs *)

Definition sample_cfg (audit : string) : runnerConfig :=
  {| gatewayURL := "http://gw"; auditURL := audit; apiKey := ""; rc_jobID := "flj_1";
     submittedBy := "alice"; approvalPollInterval := 5 * Second |}.

Definition sample_job (canary wave : Z) : JobDef :=
  {| j_Name := "restart"; 
     Steps := [{| st_Agent := "k8s"; st_Tool := "restart_deployment"; st_Args := []; OnFailure := "" |}];
     j_Targets := {| Tags := []; Names := []; Exclude := [] |};
     j_Strategy := {| CanaryCount := canary; WaveSize := wave; WavePauseSeconds := 0;
                      FailureThreshold := float64_div (float64_of 2) (float64_of 5); sg_DryRun := false;
                      CountPartialAsSuccess := false; ApprovalTimeoutSeconds := 0; WaveGate := false;
                      SchemaDrift := "" |};
     PlanTraceID := ""; ToolSnapshots := []; PlanDescription := ""; PlanTargetHints := [];
     PlanServers := [] |}.

Definition sample_marshal (_ : anymap) : result string string := Ok "{}".

(** Calls to server "c" fail. *)
Definition sample_gateway (server stage : string) (idx : nat) (req : HttpCall)
    : result string (Z * string) :=
  if server =?s "c" then Ok (500%Z, "boom") else Ok (200%Z, "done").

(** auditd answers "pending" once and then "approved". *)
Definition sample_polls (_ : string) (k : nat) : PollTick :=
  {| ctx_done := false; reply_status := Ok (match k with O => "pending" | _ => "approved" end);
     clock := ((Z.of_nat k + 1) * (5 * Second))%Z |}.

Definition sample_run (cfg : runnerConfig) (def : JobDef) (servers : list string)
    : outcome (list Phase * option RunError) :=
  runStages sample_marshal (fun _ => None) sample_gateway (fun _ => "") (fun b => Ok b)
    (fun _ => Ok (201%Z, "apr_1")) (fun _ => 0%Z) sample_polls (fun _ => poll_fuel 0 (5 * Second))
    (fun _ => false) cfg def servers.

Definition run_summary (r : outcome (list Phase * option RunError))
    : option (list (string * string) * option RunError) :=
  match r with
  | Panics => None
  | Returns (phases, err) => Some (map (fun a => (sg_server a, sg_stage a)) (visited phases), err)
  end.

(** The breaker stops the rollout after the first wave: half of it failed. *)
Example breaker_trips :
  run_summary (sample_run (sample_cfg "http://auditd") (sample_job 1 2) ["a"; "b"; "c"; "d"; "e"]) =
  Some ([("a", "canary"); ("b", "wave-1"); ("c", "wave-1")], Some (CircuitBreaker "wave-1" 1 2)).
Proof. vm_compute. reflexivity. Qed.

(** With no auditd configured the job that needs approval runs without one. *)
Example no_auditd_no_gate :
  run_summary (sample_run (sample_cfg "") (sample_job 1 2) ["a"; "b"]) =
  Some ([("a", "canary"); ("b", "wave-1")], None) /\
  IsApprovalRequired (jobActionClass (Steps (sample_job 1 2))) = true.
Proof. vm_compute. split; reflexivity. Qed.


(** Two servers of one wave, the second one's call first. *)
Definition sample_request (server : string) : HttpCall :=
  {| h_url := "http://gw/api/v1/k8s/restart_deployment"; h_body := "{}";
     h_headers := call_headers (sample_cfg "") server "wave-1" |}.

Definition sample_trace : list Act :=
  [ToolCall "b" "wave-1" 0 (sample_request "b"); ToolCall "a" "wave-1" 0 (sample_request "a")].

Definition sample_phases : list Phase :=
  [Wave "wave-1" [("a", [ToolCall "a" "wave-1" 0 (sample_request "a")]);
                  ("b", [ToolCall "b" "wave-1" 0 (sample_request "b")])]].

Lemma sample_linear : linear sample_phases sample_trace.
Proof.
  change sample_trace with (sample_trace ++ [])%list. repeat constructor.
  apply (shuffle_cons [_]), (shuffle_cons []). by repeat constructor.
Qed.

Lemma interleavings_sound_witness :
  sample_run (sample_cfg "") (sample_job 0 0) ["a"; "b"] = Returns (sample_phases, None) /\
  (forall a, In a (visited sample_phases) ->
     (execute sample_marshal (fun _ => None) sample_gateway (fun _ => "") (sample_cfg "")
        (sg_server a) (sg_stage a) (Steps (sample_job 0 0))).1 `sublist_of` sample_trace) /\
  (forall sv st i req, In (ToolCall sv st i req) sample_trace ->
     In {| sg_server := sv; sg_stage := st |} (visited sample_phases) /\
     planned_call sample_marshal (sample_cfg "") sv st (Steps (sample_job 0 0)) i req).
Proof.
  split; [vm_compute; reflexivity|].
  eapply interleavings_sound; [|exact sample_linear].
  instantiate (1 := None). instantiate (1 := ["a"; "b"]). instantiate (1 := fun _ => false).
  instantiate (1 := fun _ => poll_fuel 0 (5 * Second)). instantiate (1 := sample_polls).
  instantiate (1 := fun _ => 0%Z). instantiate (1 := fun _ => Ok (201%Z, "apr_1")).
  instantiate (1 := fun b => Ok b). vm_compute. reflexivity.
Defined.
