(* ===== verification/FleetRollback.v ===== *)
(** * Fleet jobs: the reverse job

    cmd/fleet-runner/rollback.go: the servers a rollback scope selects, the order the
    canaries are put in, and the job that undoes another one from the rollback plans
    of its steps. *)

From S2P Require Import Prelude Events Action Rollback Fleet FleetExec.

Open Scope string_scope.

(** The cutset of [strings.Trim]: a quotation mark or a space. *)
Definition quote_or_space (c : ascii) : bool := (c =? "034")%char || (c =? " ")%char.

(** ** resolveRollbackScope *)

Abbreviation ServerPlans := (gmap string (list (option RollbackPlan))).

Definition server_plans (plans : ServerPlans) (srv : string) : list (option RollbackPlan) :=
  default [] (plans !! srv).

Definition reversible (p : option RollbackPlan) : bool :=
  match p with
  | Some p => Reversibility p =?s ReversibilityYes
  | None => false
  end.

(** The names of a scope list. *)
Definition scope_names (scope : string) : list string :=
  let scope := if has_prefix scope "[" then trim_suffix (trim_prefix scope "[") "]" else scope in
  List.filter (fun p => negb (p =?s ""))
    (map (fun p => trim_space (trim_set quote_or_space p)) (split_on "," scope)).

Definition resolveRollbackScope (scope0 : string) (serverOrder : list string) (plans : ServerPlans)
    : result string (list string) :=
  let scope := trim_space scope0 in
  if (scope =?s "") || (scope =?s "all") then Ok serverOrder
  else if scope =?s "canary_only" then
    match serverOrder with
    | [] => Err "server order is empty"
    | canary :: _ => Ok [canary]
    end
  else if scope =?s "failed_only" then
    Ok (List.filter (fun srv => existsb reversible (server_plans plans srv)) serverOrder)
  else
    let filtered := List.filter (fun srv => mem srv (scope_names scope)) serverOrder in
    match filtered with
    | [] =>
        let shown := if has_prefix scope "[" then trim_suffix (trim_prefix scope "[") "]" else scope in
        Err ("no servers matched scope list " ++ quote shown)
    | _ => Ok filtered
    end.

(** ** reverseCanaryOrder *)

Definition reverseCanaryOrder (servers : list string) (canaryCount : Z) : list string :=
  if (canaryCount <=? 0)%Z || (Z.of_nat (length servers) <=? canaryCount)%Z then isort String.ltb servers
  else (skipn (Z.to_nat canaryCount) servers ++ firstn (Z.to_nat canaryCount) servers)%list.

(** ** BuildRollbackJobDef *)

(** The first selected server with a reversible plan for the step. *)
Definition step_plan (plans : ServerPlans) (i : nat) (servers : list string) : option InverseOperation :=
  match find (fun srv =>
          match nth_error (server_plans plans srv) i with
          | Some (Some p) => (Reversibility p =?s ReversibilityYes) &&
                             match InverseOp p with Some _ => true | None => false end
          | _ => false
          end) servers with
  | Some srv =>
      match nth_error (server_plans plans srv) i with
      | Some (Some p) => InverseOp p
      | _ => None
      end
  | None => None
  end.

Definition rollback_note (i : nat) (step : Step) : string :=
  "step " ++ itoa (Z.of_nat i) ++ " (" ++ st_Agent step ++ "/" ++ st_Tool step ++
  ") has no inverse operation; review manually".

Definition reverse_step (plans : ServerPlans) (servers : list string) (i : nat) (step : Step) : Step :=
  match step_plan plans i servers with
  | Some op =>
      {| st_Agent := io_Agent op; st_Tool := io_Tool op; st_Args := Args op; OnFailure := OnFailure step |}
  | None =>
      {| st_Agent := st_Agent step; st_Tool := st_Tool step;
         st_Args := args_set "_rollback_note" (AStr (rollback_note i step)) (st_Args step);
         OnFailure := "stop" |}
  end.

(** The loop from the last index down. *)
Definition reverse_steps (plans : ServerPlans) (servers : list string) (steps : list Step) : list Step :=
  reverse (imap (reverse_step plans servers) steps).

Definition BuildRollbackJobDef (originalDef : option JobDef) (plans : ServerPlans) (scope : string)
    (serverOrder : list string) : result string JobDef :=
  match originalDef with
  | None => Err "original job definition is required"
  | Some def =>
      match Steps def with
      | [] => Err "original job has no steps to reverse"
      | steps =>
          match resolveRollbackScope scope serverOrder plans with
          | Err e => Err ("resolve scope: " ++ e)
          | Ok [] => Err ("no servers selected by scope " ++ quote scope)
          | Ok servers =>
              Ok {| j_Name := "rollback: " ++ j_Name def;
                    Steps := reverse_steps plans servers steps;
                    j_Targets := {| Tags := [];
                                    Names := reverseCanaryOrder servers (CanaryCount (j_Strategy def));
                                    Exclude := [] |};
                    j_Strategy :=
                      {| CanaryCount := 0; WaveSize := WaveSize (j_Strategy def);
                         WavePauseSeconds := WavePauseSeconds (j_Strategy def);
                         FailureThreshold := FailureThreshold (j_Strategy def);
                         sg_DryRun := false; CountPartialAsSuccess := false;
                         ApprovalTimeoutSeconds := 0; WaveGate := false; SchemaDrift := "" |};
                    PlanTraceID := ""; ToolSnapshots := []; PlanDescription := "";
                    PlanTargetHints := []; PlanServers := [] |}
          end
      end
  end.

(** ** Lemmas *)

Lemma resolveRollbackScope_sublist scope order plans servers :
  resolveRollbackScope scope order plans = Ok servers -> servers `sublist_of` order.
Proof.
  assert (Hf : forall f, List.filter f order `sublist_of` order).
  { intros f. induction order as [|x l IH]; simpl; [done|].
    destruct (f x); [by apply sublist_skip|by apply sublist_cons]. }
  unfold resolveRollbackScope. destruct (_ || _); [by intros [= <-]|].
  destruct (_ =?s "canary_only").
  { destruct order; [done|]. intros [= <-]. apply sublist_skip, sublist_nil_l. }
  destruct (_ =?s "failed_only"); [by intros [= <-]|].
  destruct (List.filter _ order) eqn:E; [done|]. intros [= <-]. rewrite <- E. apply Hf.
Qed.

Lemma reverseCanaryOrder_perm servers n : reverseCanaryOrder servers n ≡ₚ servers.
Proof.
  unfold reverseCanaryOrder. destruct (_ || _); [apply isort_perm|].
  rewrite <- (firstn_skipn (Z.to_nat n) servers) at 3. apply Permutation_app_comm.
Qed.

(** A server offers a reversible plan for the step. *)
Definition offers (plans : ServerPlans) (i : nat) (srv : string) (op : InverseOperation) : Prop :=
  exists p, nth_error (server_plans plans srv) i = Some (Some p) /\
    Reversibility p = ReversibilityYes /\ InverseOp p = Some op.

Lemma step_plan_spec plans i servers :
  match step_plan plans i servers with
  | Some op => exists srv, In srv servers /\ offers plans i srv op
  | None => forall srv op, In srv servers -> ~ offers plans i srv op
  end.
Proof.
  unfold step_plan. match goal with |- context [find ?f servers] => set (test := f) end.
  destruct (find test servers) as [srv|] eqn:Ef.
  - apply find_some in Ef as [Hin Ht]. unfold test in Ht.
    destruct (nth_error (server_plans plans srv) i) as [[p|]|] eqn:En; try done.
    apply andb_true_iff in Ht as [Hr Hop]. apply streq_spec in Hr.
    destruct (InverseOp p) as [op|] eqn:Eo; [|done]. exists srv. split; [done|]. by exists p.
  - intros srv op Hin (p & Hn & Hr & Ho). pose proof (find_none _ _ Ef _ Hin) as Ht. unfold test in Ht.
    by rewrite Hn, Hr, Ho in Ht.
Qed.

Lemma reverse_steps_lookup plans servers steps i step :
  steps !! i = Some step ->
  reverse_steps plans servers steps !! (length steps - 1 - i) = Some (reverse_step plans servers i step).
Proof.
  intros H. pose proof (lookup_lt_Some _ _ _ H). unfold reverse_steps.
  rewrite reverse_lookup by (rewrite length_imap; lia). rewrite length_imap, list_lookup_imap.
  replace (length steps - S (length steps - 1 - i)) with i by lia. by rewrite H.
Qed.

(** ** Properties *)

(** A reverse job that is built has one step for each step of the
    original one, in the opposite order: the inverse operation some selected server
    has for it, with the original's failure mode, or, when no selected server has one,
    the original step again with a note in its arguments, which stops on failure.  Its
    targets are the servers of the scope, all of them in the original order's list, and
    its canary count of zero becomes one when the defaults are filled in. *)
Theorem BuildRollbackJobDef_spec originalDef plans scope serverOrder job
    (Hbuild : BuildRollbackJobDef originalDef plans scope serverOrder = Ok job) :
  exists def servers, originalDef = Some def /\ servers <> [] /\
    resolveRollbackScope scope serverOrder plans = Ok servers /\ servers `sublist_of` serverOrder /\
    Names (j_Targets job) ≡ₚ servers /\ Tags (j_Targets job) = [] /\
    CanaryCount (defaults (j_Strategy job)) = 1%Z /\
    length (Steps job) = length (Steps def) /\
    forall i step, Steps def !! i = Some step ->
      exists s, Steps job !! (length (Steps def) - 1 - i) = Some s /\
        ((exists srv op, In srv servers /\ offers plans i srv op /\
            s = {| st_Agent := io_Agent op; st_Tool := io_Tool op; st_Args := Args op;
                   OnFailure := OnFailure step |}) \/
         ((forall srv op, In srv servers -> ~ offers plans i srv op) /\
            s = {| st_Agent := st_Agent step; st_Tool := st_Tool step;
                   st_Args := args_set "_rollback_note" (AStr (rollback_note i step)) (st_Args step);
                   OnFailure := "stop" |})).
Proof.
  unfold BuildRollbackJobDef in Hbuild. destruct originalDef as [def|]; [|done].
  destruct (Steps def) as [|st0 sts] eqn:Es; [done|]. rewrite <- Es in *.
  destruct (resolveRollbackScope scope serverOrder plans) as [servers|e] eqn:Er; [|done].
  assert (Hjob : servers <> []) by (by destruct servers).
  exists def, servers. destruct servers as [|x l] eqn:Ex; [done|]. rewrite <- Ex in *.
  injection Hbuild as <-. cbn [Names Tags j_Targets j_Strategy Steps].
  split_and!; [done|done|done|by eapply resolveRollbackScope_sublist|by rewrite reverseCanaryOrder_perm|done|done| |].
  - unfold reverse_steps. by rewrite length_reverse, length_imap.
  - intros i step Hi. exists (reverse_step plans servers i step).
    split; [by apply reverse_steps_lookup|]. unfold reverse_step.
    pose proof (step_plan_spec plans i servers) as Hp. destruct (step_plan plans i servers) as [op|].
    + left. destruct Hp as (srv & Hin & Ho). by exists srv, op.
    + by right.
Qed.

(** ** A concrete job *)

Definition sample_inverse (replicas : Z) : RollbackPlan :=
  {| OriginalEventID := "evt_1"; OriginalTool := "scale_deployment"; OriginalTraceID := "tr_1";
     Reversibility := ReversibilityYes; NotReversibleReason := "";
     InverseOp := Some {| io_Agent := "k8s"; io_Tool := "scale_deployment";
                          Args := [("replicas", ANum replicas)]; io_Description := "restore" |};
     GeneratedAt := 0%Z |}.

Definition sample_def : JobDef :=
  {| j_Name := "resize";
     Steps := [{| st_Agent := "database"; st_Tool := "terminate_connection"; st_Args := [("pid", ANum 7)];
                  OnFailure := "continue" |};
               {| st_Agent := "k8s"; st_Tool := "scale_deployment"; st_Args := [("replicas", ANum 5)];
                  OnFailure := "" |}];
     j_Targets := {| Tags := []; Names := []; Exclude := [] |};
     j_Strategy := j_Strategy (sample_job 1 2);
     PlanTraceID := ""; ToolSnapshots := []; PlanDescription := ""; PlanTargetHints := [];
     PlanServers := [] |}.

Definition sample_server_plans : ServerPlans :=
  <["a" := [None; Some (sample_inverse 3)]]> (<["b" := [None; Some (sample_inverse 2)]]> ∅).

Definition sample_reverse : result string JobDef :=
  BuildRollbackJobDef (Some sample_def) sample_server_plans "all" ["a"; "b"; "c"].

(** The connection that was terminated is terminated again, and every server gets the
    replica count the first one had. *)
Example reverse_job_steps :
  match sample_reverse with
  | Ok job => map (fun s => (st_Tool s, st_Args s, OnFailure s)) (Steps job)
  | Err _ => []
  end =
  [("scale_deployment", [("replicas", ANum 3)], "");
   ("terminate_connection",
    [("pid", ANum 7);
     ("_rollback_note",
      AStr "step 0 (database/terminate_connection) has no inverse operation; review manually")],
    "stop")].
Proof. vm_compute. reflexivity. Qed.

(** A scope can be a JSON list or a plain one. *)
Example scope_lists :
  resolveRollbackScope (" [" ++ quote "b" ++ ", " ++ quote "c" ++ "] ") ["a"; "b"; "c"] ∅ = Ok ["b"; "c"] /\
  resolveRollbackScope "c,a" ["a"; "b"; "c"] ∅ = Ok ["a"; "c"].
Proof. vm_compute. split; reflexivity. Qed.

Lemma BuildRollbackJobDef_spec_witness :
  exists job def servers,
    BuildRollbackJobDef (Some sample_def) sample_server_plans "all" ["a"; "b"; "c"] = Ok job /\
    Some sample_def = Some def /\ servers <> [] /\ Names (j_Targets job) ≡ₚ servers /\
    length (Steps job) = length (Steps def).
Proof.
  eexists.
  destruct (BuildRollbackJobDef_spec (Some sample_def) sample_server_plans "all" ["a"; "b"; "c"] _ eq_refl)
    as (def & servers & Hd & Hs & _ & _ & Hn & _ & _ & Hl & _).
  exists def, servers. split; [reflexivity|]. done.
Defined.
