(* ===== verification/FleetMain.v ===== *)
(** * Fleet jobs: the command

    cmd/fleet-runner/main.go from the loaded job definition on, with preflight.go,
    the replan mode of replan.go and [submitJob], [finalizeJob] and
    [recordJobOutcome] of submit.go: the overrides of the flags, the drift policy, the
    dry run, the drift check with its replan, the preflight, the job record and the
    rollout.  The files, the gateway and auditd are parameters. *)

From Stdlib Require Import SpecFloat.
From S2P Require Import Prelude GoTime Events Action Fleet FleetExec.

Open Scope string_scope.

(** ** replan.go *)

Definition replanMode_Set (v : string) : result string string :=
  if mem v ["true"; "stop"; ""] then Ok "stop"
  else if v =?s "auto" then Ok "auto"
  else Err ("invalid replan mode " ++ quote v ++
            ": use --replan (write-and-stop) or --replan=auto (execute)").

(** ** main.go: flags *)

Record Flags := {
  fl_dryRun : bool;
  fl_canary : Z;
  fl_waveSize : Z;
  fl_pause : Z;
  fl_schemaDrift : string;
  fl_replan : string;        (* "" when the flag is absent, "stop" or "auto" *)
  fl_gatewayURL : string }.

(** [Defaults] and the overrides, applied to the loaded and to the fresh plan. *)
Definition apply_overrides (flags : Flags) (strategy : Strategy) : Strategy :=
  let s := defaults strategy in
  {| CanaryCount := if (0 <? fl_canary flags)%Z then fl_canary flags else CanaryCount s;
     WaveSize := if (0 <? fl_waveSize flags)%Z then fl_waveSize flags else WaveSize s;
     WavePauseSeconds := if (0 <=? fl_pause flags)%Z then fl_pause flags else WavePauseSeconds s;
     FailureThreshold := FailureThreshold s;
     sg_DryRun := if fl_dryRun flags then true else sg_DryRun s;
     CountPartialAsSuccess := CountPartialAsSuccess s;
     ApprovalTimeoutSeconds := ApprovalTimeoutSeconds s; WaveGate := WaveGate s;
     SchemaDrift := SchemaDrift s |}.

Definition with_strategy (s : Strategy) (def : JobDef) : JobDef :=
  {| j_Name := j_Name def; Steps := Steps def; j_Targets := j_Targets def; j_Strategy := s;
     PlanTraceID := PlanTraceID def; ToolSnapshots := ToolSnapshots def;
     PlanDescription := PlanDescription def; PlanTargetHints := PlanTargetHints def;
     PlanServers := PlanServers def |}.

Definition prepared (flags : Flags) (def : JobDef) : JobDef :=
  with_strategy (apply_overrides flags (j_Strategy def)) def.

Definition drift_policy (flags : Flags) (strategy : Strategy) : string :=
  if negb (SchemaDrift strategy =?s "") then SchemaDrift strategy
  else if negb (fl_schemaDrift flags =?s "") then fl_schemaDrift flags
  else "abort".

(** ** preflight.go *)

(** [check] is the answer of check_connection for a server, an error or nothing. *)
Definition runPreflight (check : string -> option string) (servers : list string)
    : list (string * string) :=
  flat_map (fun s => match check s with Some e => [(s, e)] | None => [] end) servers.

(** ** submit.go *)

Inductive JobWrite :=
  | CreateJob (name plan_trace_id : string)
  | RegisterServer (server stage : string)
  | RegisterStep (server : string) (idx : nat) (tool : string)
  | SetJobStatus (jobID status summary : string)
  | JobOutcome (event_id trace_id error_message : string).

Definition registered_steps (servers : list string) (steps : list Step) : list JobWrite :=
  flat_map (fun s => imap (fun idx step => RegisterStep s idx (st_Tool step)) steps) servers.

(** [created] is the gateway's reply with its decoded job_id. *)
Definition submitJob (created : result string string) (gatewayURL : string) (def : JobDef)
    (stages : list stageAssignment) : list JobWrite * result string string :=
  if gatewayURL =?s "" then ([], Err "gateway URL not configured (set HELPDESK_GATEWAY_URL)")
  else
    let create := CreateJob (j_Name def) (PlanTraceID def) in
    match created with
    | Err e => ([create], Err ("create job: " ++ e))
    | Ok jobID =>
        if jobID =?s "" then ([create], Err "gateway returned empty job_id")
        else
          ((create :: map (fun sa => RegisterServer (sg_server sa) (sg_stage sa)) stages ++
            registered_steps (map sg_server stages) (Steps def))%list, Ok jobID)
    end.

Definition job_outcome_id (jobID : string) : string :=
  "gw_" ++ substring 0 8 jobID ++ "_end".

Definition finalizeJob (auditURL jobID status summary : string) : list JobWrite :=
  if auditURL =?s "" then []
  else
    SetJobStatus jobID status summary ::
    (if status =?s "completed" then [] else [JobOutcome (job_outcome_id jobID) ("tr_" ++ jobID) summary]).

(** ** main *)

Record Run := {
  run_def : JobDef;
  run_servers : list string;
  run_jobID : string;
  run_phases : list Phase;
  run_err : option RunError;
  run_status : string;
  run_writes : list JobWrite }.

Inductive MainEnd :=
  | Invalid (why : string)
  | DryRunPrinted (def : JobDef) (servers : list string)
      (drift : result string (list SchemaDriftResult))
  | DriftFailed (e : DriftError)
  | RegistryUnreachable (e : string)
  | PlannerFailed (e : string)
  | PlanDiverged (d : PlanDivergence)
  | PlanWritten (plan : JobDef)
  | PreflightFailed (failures : list (string * string))
  | Crashed
  | Ran (r : Run).

Section Main.
(** The infrastructure file; the [n]-th range over its servers, which keeps them. *)
Context (infra_loaded : option string).
Context (range : nat -> list (string * list string)).
(** GET of the tool registry; the planner; check_connection; the reply that creates
    the job; one run of the stages under a configuration. *)
Context (fetchLiveTools : result string (list ToolEntry)) (callFleetPlan : result string JobDef).
Context (check : string -> option string) (created : result string string).
Context (rollout : runnerConfig -> JobDef -> list string -> outcome (list Phase * option RunError)).
Context (config : string -> runnerConfig) (err_text : RunError -> string).

(** Everything after the drift check. *)
Definition execute_job (flags : Flags) (def : JobDef) (servers : list string) : MainEnd :=
  match runPreflight check servers with
  | (_ :: _) as failures => PreflightFailed failures
  | [] =>
      let assignments := buildStageAssignments servers (j_Strategy def) in
      let '(writes, submitted) := submitJob created (fl_gatewayURL flags) def assignments in
      let jobID := match submitted with Ok id => id | Err _ => "" end in
      let rcfg := config jobID in
      match rollout rcfg def servers with
      | Panics => Crashed
      | Returns (phases, err) =>
          let status := match err with None => "completed" | Some _ => "failed" end in
          let summary :=
            match err with
            | None => "Applied " ++ itoa (Z.of_nat (length (Steps def))) ++ " step(s) to " ++
                      itoa (Z.of_nat (length servers)) ++ " server(s)."
            | Some e => "Failed: " ++ err_text e
            end in
          let final := if jobID =?s "" then [] else finalizeJob (auditURL rcfg) jobID status summary in
          Ran {| run_def := def; run_servers := servers; run_jobID := jobID; run_phases := phases;
                 run_err := err; run_status := status; run_writes := (writes ++ final)%list |}
      end
  end.

(** The fresh plan after a drift; [policy] stays the one of the first plan. *)
Definition replan (flags : Flags) (def : JobDef) (liveTools : list ToolEntry) (policy : string) : MainEnd :=
  match callFleetPlan with
  | Err e => PlannerFailed e
  | Ok planned =>
      let div := checkPlanDivergence def planned in
      if Significant div && (fl_replan flags =?s "auto") then PlanDiverged div
      else if fl_replan flags =?s "stop" then PlanWritten planned
      else
        let def' := prepared flags planned in
        match resolveTargets (Some (range 2)) (range 3) (j_Targets def') with
        | Err e => Invalid e
        | Ok [] => Invalid "no servers matched new plan targets"
        | Ok servers =>
            match (CheckSchemaDrift (ToolSnapshots def') liveTools policy).2 with
            | Some e => DriftFailed e
            | None => execute_job flags def' servers
            end
        end
  end.

Definition fleet_main (flags : Flags) (loaded : JobDef) : MainEnd :=
  let def := prepared flags loaded in
  let policy := drift_policy flags (j_Strategy def) in
  if j_Name def =?s "" then Invalid "job definition missing required field: name"
  else if match Steps def with [] => true | _ => false end then
    Invalid "job definition has no change steps (steps required)"
  else
    match infra_loaded with
    | Some e => Invalid e
    | None =>
        match resolveTargets (Some (range 0)) (range 1) (j_Targets def) with
        | Err e => Invalid e
        | Ok [] => Invalid "no servers matched the target specification"
        | Ok servers =>
            if sg_DryRun (j_Strategy def) then
              DryRunPrinted def servers
                (match fetchLiveTools with
                 | Err e => Err e
                 | Ok liveTools => Ok (CheckSchemaDrift (ToolSnapshots def) liveTools "warn").1
                 end)
            else if policy =?s "ignore" then execute_job flags def servers
            else
              match fetchLiveTools with
              | Err e => RegistryUnreachable e
              | Ok liveTools =>
                  match (CheckSchemaDrift (ToolSnapshots def) liveTools policy).2 with
                  | None => execute_job flags def servers
                  | Some e =>
                      if negb (fl_replan flags =?s "") && negb (PlanDescription def =?s "")
                      then replan flags def liveTools policy
                      else DriftFailed e
                  end
              end
        end
    end.
End Main.

(** ** Lemmas *)

Lemma prepared_dry flags def :
  sg_DryRun (j_Strategy (prepared flags def)) = fl_dryRun flags || sg_DryRun (j_Strategy def).
Proof. simpl. by destruct (fl_dryRun flags). Qed.

Lemma runPreflight_nil check servers :
  runPreflight check servers = [] <-> forall s, In s servers -> check s = None.
Proof.
  induction servers as [|s l IH]; simpl; [naive_solver|].
  destruct (check s) eqn:E; simpl; [split; [done|intros H; by rewrite H in E; [|left]]|].
  rewrite IH. split; [intros H x [<-|]; auto|auto].
Qed.

Section MainRuns.
Context (infra_loaded : option string) (range : nat -> list (string * list string)).
Context (fetchLiveTools : result string (list ToolEntry)) (callFleetPlan : result string JobDef).
Context (check : string -> option string) (created : result string string).
Context (rollout : runnerConfig -> JobDef -> list string -> outcome (list Phase * option RunError)).
Context (config : string -> runnerConfig) (err_text : RunError -> string) (flags : Flags).

Abbreviation executing := (execute_job check created rollout config err_text flags).

(** What holds of a rollout that was started. *)
Definition started (def : JobDef) (servers : list string) (r : Run) : Prop :=
  run_def r = def /\ run_servers r = servers /\ (forall s, In s servers -> check s = None) /\
  rollout (config (run_jobID r)) def servers = Returns (run_phases r, run_err r) /\
  (run_status r = "completed" <-> run_err r = None).

Lemma execute_job_started def servers r : executing def servers = Ran r -> started def servers r.
Proof.
  unfold execute_job. destruct (runPreflight check servers) eqn:Ep; [|done].
  destruct (submitJob _ _ _ _) as [writes submitted].
  destruct (rollout _ def servers) as [[phases err]|] eqn:Er; [|done]. intros [= <-].
  unfold started. simpl. split_and!; [done|done|by apply runPreflight_nil|done|].
  by destruct err.
Qed.

(** When the command starts a rollout: the dry-run flag was not given, the
    servers are the ones the targets of the executed job select and all of them passed
    the preflight check, the executed job passes the drift check under the policy of the
    first plan unless that policy is "ignore", and the executed job is the loaded one
    with the flags applied, itself no dry run, or in the auto replan mode a fresh plan
    that does not diverge significantly. *)
Theorem main_runs_checked_jobs loaded r
    (Hmode : fl_replan flags = "" \/ exists v, replanMode_Set v = Ok (fl_replan flags))
    (Hrun : fleet_main infra_loaded range fetchLiveTools callFleetPlan check created rollout config
              err_text flags loaded = Ran r) :
  let def := prepared flags loaded in
  let policy := drift_policy flags (j_Strategy def) in
  started (run_def r) (run_servers r) r /\ fl_dryRun flags = false /\ run_servers r <> [] /\
  (exists n, resolveTargets (Some (range n)) (range (S n)) (j_Targets (run_def r)) = Ok (run_servers r)) /\
  (policy = "ignore" \/ exists live, fetchLiveTools = Ok live /\
     (CheckSchemaDrift (ToolSnapshots (run_def r)) live policy).2 = None) /\
  ((run_def r = def /\ sg_DryRun (j_Strategy def) = false) \/
   (fl_replan flags = "auto" /\ exists planned, callFleetPlan = Ok planned /\
      run_def r = prepared flags planned /\ Significant (checkPlanDivergence def planned) = false)).
Proof.
  intros def policy. unfold fleet_main in Hrun. fold def in Hrun. fold policy in Hrun.
  destruct (j_Name def =?s ""); [done|]. destruct (match Steps def with [] => true | _ => false end); [done|].
  destruct infra_loaded; [done|].
  destruct (resolveTargets (Some (range 0)) (range 1) (j_Targets def)) as [[|s l]|e] eqn:Et; [done| |done].
  destruct (sg_DryRun (j_Strategy def)) eqn:Ed in Hrun; [done|].
  assert (Hdry : fl_dryRun flags = false).
  { unfold def in Ed. rewrite prepared_dry in Ed. by apply orb_false_iff in Ed as [? _]. }
  assert (Hfirst : executing def (s :: l) = Ran r ->
    (policy = "ignore" \/ exists live, fetchLiveTools = Ok live /\
       (CheckSchemaDrift (ToolSnapshots def) live policy).2 = None) ->
    started (run_def r) (run_servers r) r /\ fl_dryRun flags = false /\ run_servers r <> [] /\
    (exists n, resolveTargets (Some (range n)) (range (S n)) (j_Targets (run_def r)) = Ok (run_servers r)) /\
    (policy = "ignore" \/ exists live, fetchLiveTools = Ok live /\
       (CheckSchemaDrift (ToolSnapshots (run_def r)) live policy).2 = None) /\
    ((run_def r = def /\ sg_DryRun (j_Strategy def) = false) \/
     (fl_replan flags = "auto" /\ exists planned, callFleetPlan = Ok planned /\
        run_def r = prepared flags planned /\ Significant (checkPlanDivergence def planned) = false))).
  { intros H Hp. pose proof (execute_job_started _ _ _ H) as Hs. pose proof Hs as (Hd & Hv & _).
    rewrite Hd, Hv. split_and!; [done|done|done|by exists 0|done|by left]. }
  destruct (String.eqb_spec policy "ignore") as [Hp|Hp]; [by apply Hfirst; [|left]|].
  destruct fetchLiveTools as [live|e]; [|done].
  destruct (CheckSchemaDrift (ToolSnapshots def) live policy).2 as [e|] eqn:Ec;
    [|apply Hfirst; [done|right; by exists live]].
  destruct (negb (fl_replan flags =?s "") && _) eqn:Er; [|done].
  apply andb_true_iff in Er as [Er _]. apply negb_true_iff, streq_false in Er.
  unfold replan in Hrun. destruct callFleetPlan as [planned|e']; [|done].
  destruct (Significant (checkPlanDivergence def planned) && (fl_replan flags =?s "auto")) eqn:Esig; [done|].
  destruct (String.eqb_spec (fl_replan flags) "stop") as [|Hstop]; [done|].
  assert (Hauto : fl_replan flags = "auto").
  { destruct Hmode as [?|[v Hv]]; [done|]. unfold replanMode_Set in Hv. destruct (mem v _); [congruence|].
    destruct (v =?s "auto"); congruence. }
  rewrite Hauto, streq_refl, andb_true_r in Esig.
  destruct (resolveTargets (Some (range 2)) (range 3) (j_Targets (prepared flags planned))) as [[|s' l']|e'] eqn:Et';
    [done| |done].
  destruct (CheckSchemaDrift (ToolSnapshots (prepared flags planned)) live policy).2 eqn:Ec'; [done|].
  pose proof (execute_job_started _ _ _ Hrun) as Hs. pose proof Hs as (Hd & Hv & _). rewrite Hd, Hv.
  split_and!; [done|done|done|by exists 2|right; by exists live|]. right. split; [done|]. by exists planned.
Qed.
End MainRuns.

(** ** Concrete runs *)

Definition main_flags (replan : string) (dry : bool) : Flags :=
  {| fl_dryRun := dry; fl_canary := 0; fl_waveSize := 0; fl_pause := -1; fl_schemaDrift := "";
     fl_replan := replan; fl_gatewayURL := "http://gw" |}.

(** A job whose snapshot of the tool is stale unless [fingerprint] is "new". *)
Definition main_job (dry : bool) (fingerprint : string) : JobDef :=
  let base := sample_job 1 0 in
  let s := j_Strategy base in
  {| j_Name := "restart"; Steps := Steps base; j_Targets := j_Targets base;
     j_Strategy := {| CanaryCount := 1; WaveSize := 0; WavePauseSeconds := 0;
                      FailureThreshold := FailureThreshold s; sg_DryRun := dry;
                      CountPartialAsSuccess := false; ApprovalTimeoutSeconds := 0; WaveGate := false;
                      SchemaDrift := "" |};
     PlanTraceID := ""; 
     ToolSnapshots := [("restart_deployment",
       {| ts_AgentVersion := "1"; ts_SchemaFingerprint := fingerprint; ts_CapturedAt := 0%Z |})];
     PlanDescription := "restart the deployments"; PlanTargetHints := []; PlanServers := [] |}.

Definition main_live : list ToolEntry :=
  [{| te_Name := "restart_deployment"; te_AgentVersion := "1"; te_SchemaFingerprint := "new" |}].

Definition main_run (planned : JobDef) (flags : Flags) (loaded : JobDef) : MainEnd :=
  fleet_main None (fun _ => [("a", []); ("b", [])]) (Ok main_live) (Ok planned) (fun _ => None)
    (Ok "flj_1") sample_run (fun _ => sample_cfg "http://auditd") (fun _ => "") flags loaded.

Definition main_summary (e : MainEnd)
    : option (bool * list (string * string) * list Phase) :=
  match e with
  | Ran r => Some (sg_DryRun (j_Strategy (run_def r)),
                   map (fun a => (sg_server a, sg_stage a)) (visited (run_phases r)),
                   List.filter (fun p => match p with Gate _ _ => true | _ => false end) (run_phases r))
  | _ => None
  end.

(** A planner that answers with a dry-run plan: the auto replan executes it on every
    server, and because the plan is marked as a dry run no approval is asked for, for a
    job whose class requires one. *)
Example replanned_dry_run_executes :
  main_summary (main_run (main_job true "new") (main_flags "auto" false) (main_job false "old")) =
  Some (true, [("a", "canary"); ("b", "wave-1")], []) /\
  IsApprovalRequired (jobActionClass (Steps (main_job true "new"))) = true.
Proof. vm_compute. split; reflexivity. Qed.

(** The same plan loaded from a file is only printed. *)
Example loaded_dry_run_prints :
  main_summary (main_run (main_job true "new") (main_flags "auto" false) (main_job true "new")) = None.
Proof. vm_compute. reflexivity. Qed.

Lemma main_runs_checked_jobs_witness :
  exists r, main_run (main_job false "new") (main_flags "" false) (main_job false "new") = Ran r /\
    fl_dryRun (main_flags "" false) = false /\ run_servers r <> [].
Proof.
  eexists. split; [vm_compute; reflexivity|].
  edestruct (main_runs_checked_jobs None (fun _ => [("a", []); ("b", [])]) (Ok main_live)
    (Ok (main_job false "new")) (fun _ => None) (Ok "flj_1") sample_run (fun _ => sample_cfg "http://auditd")
    (fun _ => "") (main_flags "" false) (main_job false "new")) as (_ & Hd & Hs & _);
    [by left|vm_compute; reflexivity|]. split; [exact Hd|exact Hs].
Defined.
