(* ===== verification/FleetStore.v ===== *)
(** * Fleet jobs: the records

    internal/audit/fleet_store.go and cmd/auditd/fleet_handlers.go.  The three tables
    are lists of their rows in insertion order; the time columns hold the instants
    their texts read back as ([TimeText.stored_times_read_back]) and a NULL text reads
    back as the empty one.  Rows are only inserted and updated.  On Postgres the
    foreign keys refuse records of an unknown job; SQLite does not enforce them, since
    the connection never turns them on.  A handler takes what decoding the request gave
    and [db_err], the error of the database if it fails; sort order among equal keys is
    insertion order. *)

From S2P Require Import Prelude GoTime TimeText Events ApprovalStore ApprovalHandlers.

Open Scope string_scope.

(** ** Rows *)

Record FleetJob := {
  fj_JobID : string;
  fj_Name : string;
  fj_SubmittedBy : string;
  fj_SubmittedAt : Time;
  fj_Status : string;
  fj_JobDef : string;
  fj_Summary : string;
  fj_PlanTraceID : string;
  fj_CreatedAt : Time;
  fj_UpdatedAt : Time }.

Record FleetJobServer := {
  fs_ID : Z;
  fs_JobID : string;
  fs_ServerName : string;
  fs_Stage : string;
  fs_Status : string;
  fs_Output : string;
  fs_StartedAt : Time;
  fs_FinishedAt : Time }.

Record FleetJobServerStep := {
  fp_ID : Z;
  fp_JobID : string;
  fp_ServerName : string;
  fp_StepIndex : Z;
  fp_Tool : string;
  fp_Status : string;
  fp_Output : string;
  fp_StartedAt : Time;
  fp_FinishedAt : Time }.

Record FleetStore := {
  isPostgres : bool;
  jobs : list FleetJob;
  servers : list FleetJobServer;
  steps : list FleetJobServerStep }.

Definition NewFleetStore (pg : bool) : FleetStore :=
  {| isPostgres := pg; jobs := []; servers := []; steps := [] |}.

Definition with_jobs (l : list FleetJob) (s : FleetStore) : FleetStore :=
  {| isPostgres := isPostgres s; jobs := l; servers := servers s; steps := steps s |}.
Definition with_servers (l : list FleetJobServer) (s : FleetStore) : FleetStore :=
  {| isPostgres := isPostgres s; jobs := jobs s; servers := l; steps := steps s |}.
Definition with_steps (l : list FleetJobServerStep) (s : FleetStore) : FleetStore :=
  {| isPostgres := isPostgres s; jobs := jobs s; servers := servers s; steps := l |}.

(** ** Operations of the store: the state after, and the error *)

Definition job_is (id : string) (j : FleetJob) : bool := fj_JobID j =?s id.
Definition server_is (id name : string) (r : FleetJobServer) : bool :=
  (fs_JobID r =?s id) && (fs_ServerName r =?s name).
Definition steps_of (id name : string) (r : FleetJobServerStep) : bool :=
  (fp_JobID r =?s id) && (fp_ServerName r =?s name).
Definition step_is (id name : string) (idx : Z) (r : FleetJobServerStep) : bool :=
  steps_of id name r && (fp_StepIndex r =? idx)%Z.

(** The defaults of [CreateJob]. *)
Definition complete_job (now : Time) (uuid8 : string) (j : FleetJob) : FleetJob :=
  {| fj_JobID := if fj_JobID j =?s "" then "flj_" ++ uuid8 else fj_JobID j;
     fj_Name := fj_Name j; fj_SubmittedBy := fj_SubmittedBy j;
     fj_SubmittedAt := if IsZero (fj_SubmittedAt j) then now else fj_SubmittedAt j;
     fj_Status := if fj_Status j =?s "" then "pending" else fj_Status j;
     fj_JobDef := fj_JobDef j; fj_Summary := fj_Summary j; fj_PlanTraceID := fj_PlanTraceID j;
     fj_CreatedAt := now; fj_UpdatedAt := now |}.

Definition CreateJob (now : Time) (uuid8 : string) (db_err : option string) (s : FleetStore)
    (job : FleetJob) : FleetStore * option string :=
  let j := complete_job now uuid8 job in
  match db_err with
  | Some e => (s, Some e)
  | None =>
      if existsb (job_is (fj_JobID j)) (jobs s)
      then (s, Some "UNIQUE constraint failed: fleet_jobs.job_id")
      else (with_jobs (jobs s ++ [j])%list s, None)
  end.

Definition GetJob (s : FleetStore) (jobID : string) : result string FleetJob :=
  match find (job_is jobID) (jobs s) with
  | Some j => Ok j
  | None => Err "fleet job not found"
  end.

Record FleetJobQueryOptions := {
  fq_Status : string;
  fq_SubmittedBy : string;
  fq_PlanTraceID : string;
  fq_Limit : Z }.

(** A NULL plan_trace_id equals no argument, and the argument is not empty. *)
Definition job_selects (opts : FleetJobQueryOptions) (j : FleetJob) : bool :=
  ((fq_Status opts =?s "") || (fj_Status j =?s fq_Status opts)) &&
  ((fq_SubmittedBy opts =?s "") || (fj_SubmittedBy j =?s fq_SubmittedBy opts)) &&
  ((fq_PlanTraceID opts =?s "") || (fj_PlanTraceID j =?s fq_PlanTraceID opts)).

(** ORDER BY created_at DESC, on the text of the column. *)
Definition job_newer (a b : FleetJob) : bool :=
  text_lt (RFC3339Nano (fj_CreatedAt b)) (RFC3339Nano (fj_CreatedAt a)).

Definition ListJobs (s : FleetStore) (opts : FleetJobQueryOptions) : list FleetJob :=
  let l := isort job_newer (List.filter (job_selects opts) (jobs s)) in
  if (0 <? fq_Limit opts)%Z then firstn (Z.to_nat (fq_Limit opts)) l else l.

Definition set_job (now : Time) (status summary : string) (j : FleetJob) : FleetJob :=
  {| fj_JobID := fj_JobID j; fj_Name := fj_Name j; fj_SubmittedBy := fj_SubmittedBy j;
     fj_SubmittedAt := fj_SubmittedAt j; fj_Status := status; fj_JobDef := fj_JobDef j;
     fj_Summary := summary; fj_PlanTraceID := fj_PlanTraceID j;
     fj_CreatedAt := fj_CreatedAt j; fj_UpdatedAt := now |}.

Definition UpdateJobStatus (now : Time) (db_err : option string) (s : FleetStore)
    (jobID status summary : string) : FleetStore * option string :=
  match db_err with
  | Some e => (s, Some e)
  | None =>
      (with_jobs (map (fun j =>
         if job_is jobID j then set_job now status summary j else j) (jobs s)) s, None)
  end.

(** The foreign key on [job_id]. *)
Definition unknown_job (s : FleetStore) (jobID : string) : bool :=
  isPostgres s && negb (existsb (job_is jobID) (jobs s)).

Definition foreign_key_error : string := "insert or update violates foreign key constraint".

Definition AddServer (db_err : option string) (s : FleetStore) (srv : FleetJobServer)
    : FleetStore * option string :=
  match db_err with
  | Some e => (s, Some e)
  | None =>
      if unknown_job s (fs_JobID srv) then (s, Some foreign_key_error)
      else
        (with_servers (servers s ++
           [{| fs_ID := Z.of_nat (S (length (servers s))); fs_JobID := fs_JobID srv;
               fs_ServerName := fs_ServerName srv; fs_Stage := fs_Stage srv;
               fs_Status := fs_Status srv; fs_Output := ""; fs_StartedAt := 0%Z;
               fs_FinishedAt := 0%Z |}])%list s, None)
  end.

Definition set_server (status out : string) (startedAt finishedAt : Time) (r : FleetJobServer)
    : FleetJobServer :=
  {| fs_ID := fs_ID r; fs_JobID := fs_JobID r; fs_ServerName := fs_ServerName r;
     fs_Stage := fs_Stage r; fs_Status := status; fs_Output := out;
     fs_StartedAt := startedAt; fs_FinishedAt := finishedAt |}.

Definition UpdateServer (db_err : option string) (s : FleetStore)
    (jobID serverName status out : string) (startedAt finishedAt : Time)
    : FleetStore * option string :=
  match db_err with
  | Some e => (s, Some e)
  | None =>
      (with_servers (map (fun r =>
         if server_is jobID serverName r then set_server status out startedAt finishedAt r else r)
         (servers s)) s, None)
  end.

(** ORDER BY id: the order of the list. *)
Definition GetJobServers (s : FleetStore) (jobID : string) : list FleetJobServer :=
  List.filter (fun r => fs_JobID r =?s jobID) (servers s).

Definition GetServer (s : FleetStore) (jobID serverName : string) : option FleetJobServer :=
  find (server_is jobID serverName) (servers s).

Definition AddServerStep (db_err : option string) (s : FleetStore) (step : FleetJobServerStep)
    : FleetStore * option string :=
  match db_err with
  | Some e => (s, Some e)
  | None =>
      if unknown_job s (fp_JobID step) then (s, Some foreign_key_error)
      else
        (with_steps (steps s ++
           [{| fp_ID := Z.of_nat (S (length (steps s))); fp_JobID := fp_JobID step;
               fp_ServerName := fp_ServerName step; fp_StepIndex := fp_StepIndex step;
               fp_Tool := fp_Tool step; fp_Status := fp_Status step; fp_Output := "";
               fp_StartedAt := 0%Z; fp_FinishedAt := 0%Z |}])%list s, None)
  end.

Definition set_step (status out : string) (startedAt finishedAt : Time) (r : FleetJobServerStep)
    : FleetJobServerStep :=
  {| fp_ID := fp_ID r; fp_JobID := fp_JobID r; fp_ServerName := fp_ServerName r;
     fp_StepIndex := fp_StepIndex r; fp_Tool := fp_Tool r; fp_Status := status; fp_Output := out;
     fp_StartedAt := startedAt; fp_FinishedAt := finishedAt |}.

Definition UpdateServerStep (db_err : option string) (s : FleetStore)
    (jobID serverName : string) (stepIndex : Z) (status out : string)
    (startedAt finishedAt : Time) : FleetStore * option string :=
  match db_err with
  | Some e => (s, Some e)
  | None =>
      (with_steps (map (fun r =>
         if step_is jobID serverName stepIndex r then set_step status out startedAt finishedAt r
         else r) (steps s)) s, None)
  end.

Definition step_before (a b : FleetJobServerStep) : bool := (fp_StepIndex a <? fp_StepIndex b)%Z.

Definition GetServerSteps (s : FleetStore) (jobID serverName : string) : list FleetJobServerStep :=
  isort step_before (List.filter (steps_of jobID serverName) (steps s)).

(** ** Handlers *)

Inductive FleetPayload :=
  | FNothing
  | FJob (j : FleetJob)
  | FJobs (l : list FleetJob)
  | FServer (r : FleetJobServer)
  | FServers (l : list FleetJobServer)
  | FStep (r : FleetJobServerStep)
  | FSteps (l : list FleetJobServerStep)
  | FApprovalCreated (approval_id status : string)
  | FApproval (a : StoredApproval).

Inductive FleetReply :=
  | FleetError (code : Z) (msg : string)
  | FleetOK (code : Z) (body : FleetPayload).

(** [s.store] with [s.approvalStore], which may be absent. *)
Record fleetServer := { fleet : FleetStore; approvals : option ApprovalStore }.

Definition with_fleet (f : FleetStore) (s : fleetServer) : fleetServer :=
  {| fleet := f; approvals := approvals s |}.

(** The end of the handlers that write. *)
Definition store_result (s : fleetServer) (r : FleetStore * option string) (failure : string)
    (reply : FleetReply) : fleetServer * FleetReply :=
  match r with
  | (_, Some _) => (s, FleetError 500 failure)
  | (f, None) => (with_fleet f s, reply)
  end.

(** [json.NewDecoder(r.Body).Decode]. *)
Definition decoding {A} (s : fleetServer) (body : result string A)
    (k : A -> fleetServer * FleetReply) : fleetServer * FleetReply :=
  match body with
  | Err e => (s, FleetError 400 ("invalid JSON: " ++ e))
  | Ok a => k a
  end.

Definition handleCreateJob (now : Time) (uuid8 : string) (db_err : option string) (s : fleetServer)
    (body : Body FleetJob) : fleetServer * FleetReply :=
  match body with
  | Unreadable => (s, FleetError 400 "failed to read body")
  | EmptyBody => (s, FleetError 400 "invalid JSON: unexpected end of JSON input")
  | BadJSON e => (s, FleetError 400 ("invalid JSON: " ++ e))
  | Decoded job =>
      if fj_Name job =?s "" then (s, FleetError 400 "name is required")
      else if fj_SubmittedBy job =?s "" then (s, FleetError 400 "submitted_by is required")
      else if fj_JobDef job =?s "" then (s, FleetError 400 "job_def is required")
      else store_result s (CreateJob now uuid8 db_err (fleet s) job) "failed to create fleet job"
             (FleetOK 201 (FJob (complete_job now uuid8 job)))
  end.

Definition handleListJobs (s : fleetServer) (status submitted_by plan_trace_id : string) : FleetReply :=
  FleetOK 200 (FJobs (ListJobs (fleet s)
    {| fq_Status := status; fq_SubmittedBy := submitted_by; fq_PlanTraceID := plan_trace_id;
       fq_Limit := 50 |})).

Definition handleGetJob (s : fleetServer) (jobID : string) : FleetReply :=
  if jobID =?s "" then FleetError 400 "missing job ID"
  else
    match GetJob (fleet s) jobID with
    | Err _ => FleetError 404 "fleet job not found"
    | Ok j => FleetOK 200 (FJob j)
    end.

Record StatusRequest := { rq_Status : string; rq_Summary : string }.

Definition handleUpdateStatus (now : Time) (db_err : option string) (s : fleetServer) (jobID : string)
    (body : result string StatusRequest) : fleetServer * FleetReply :=
  if jobID =?s "" then (s, FleetError 400 "missing job ID")
  else decoding s body (fun req =>
    if rq_Status req =?s "" then (s, FleetError 400 "status is required")
    else store_result s (UpdateJobStatus now db_err (fleet s) jobID (rq_Status req) (rq_Summary req))
           "failed to update fleet job status" (FleetOK 200 FNothing)).

Definition server_of_request (jobID : string) (srv : FleetJobServer) : FleetJobServer :=
  {| fs_ID := fs_ID srv; fs_JobID := jobID; fs_ServerName := fs_ServerName srv;
     fs_Stage := fs_Stage srv;
     fs_Status := if fs_Status srv =?s "" then "pending" else fs_Status srv;
     fs_Output := fs_Output srv; fs_StartedAt := fs_StartedAt srv;
     fs_FinishedAt := fs_FinishedAt srv |}.

Definition handleAddServer (db_err : option string) (s : fleetServer) (jobID : string)
    (body : result string FleetJobServer) : fleetServer * FleetReply :=
  if jobID =?s "" then (s, FleetError 400 "missing job ID")
  else decoding s body (fun srv =>
    if fs_ServerName srv =?s "" then (s, FleetError 400 "server_name is required")
    else if fs_Stage srv =?s "" then (s, FleetError 400 "stage is required")
    else
      let srv := server_of_request jobID srv in
      store_result s (AddServer db_err (fleet s) srv) "failed to add fleet job server"
        (FleetOK 201 (FServer srv))).

(** The body of the two PATCH endpoints; the times are texts. *)
Record PatchRequest := {
  pr_Status : string;
  pr_Output : string;
  pr_StartedAt : string;
  pr_FinishedAt : string }.

(** An absent or unreadable time is the zero time. *)
Definition patch_time (text : string) : Time := if text =?s "" then 0%Z else parse_or_zero text.

Definition handleUpdateServer (db_err : option string) (s : fleetServer) (jobID serverName : string)
    (body : result string PatchRequest) : fleetServer * FleetReply :=
  if (jobID =?s "") || (serverName =?s "") then
    (s, FleetError 400 "missing job ID or server name")
  else decoding s body (fun req =>
    if pr_Status req =?s "" then (s, FleetError 400 "status is required")
    else store_result s
           (UpdateServer db_err (fleet s) jobID serverName (pr_Status req) (pr_Output req)
              (patch_time (pr_StartedAt req)) (patch_time (pr_FinishedAt req)))
           "failed to update fleet job server" (FleetOK 200 FNothing)).

Definition handleGetServers (s : fleetServer) (jobID : string) : FleetReply :=
  if jobID =?s "" then FleetError 400 "missing job ID"
  else FleetOK 200 (FServers (GetJobServers (fleet s) jobID)).

Definition handleGetServer (s : fleetServer) (jobID serverName : string) : FleetReply :=
  if (jobID =?s "") || (serverName =?s "") then FleetError 400 "missing job ID or server name"
  else
    match GetServer (fleet s) jobID serverName with
    | None => FleetError 404 "server not found"
    | Some r => FleetOK 200 (FServer r)
    end.

Definition step_of_request (jobID serverName : string) (step : FleetJobServerStep) : FleetJobServerStep :=
  {| fp_ID := fp_ID step; fp_JobID := jobID; fp_ServerName := serverName;
     fp_StepIndex := fp_StepIndex step; fp_Tool := fp_Tool step;
     fp_Status := if fp_Status step =?s "" then "pending" else fp_Status step;
     fp_Output := fp_Output step; fp_StartedAt := fp_StartedAt step;
     fp_FinishedAt := fp_FinishedAt step |}.

Definition handleAddServerStep (db_err : option string) (s : fleetServer) (jobID serverName : string)
    (body : result string FleetJobServerStep) : fleetServer * FleetReply :=
  if (jobID =?s "") || (serverName =?s "") then
    (s, FleetError 400 "missing job ID or server name")
  else decoding s body (fun step =>
    if fp_Tool step =?s "" then (s, FleetError 400 "tool is required")
    else
      let step := step_of_request jobID serverName step in
      store_result s (AddServerStep db_err (fleet s) step) "failed to add fleet job server step"
        (FleetOK 201 (FStep step))).

Definition handleUpdateServerStep (db_err : option string) (s : fleetServer)
    (jobID serverName stepIndexStr : string) (body : result string PatchRequest)
    : fleetServer * FleetReply :=
  if (jobID =?s "") || (serverName =?s "") || (stepIndexStr =?s "") then
    (s, FleetError 400 "missing job ID, server name, or step index")
  else
    match atoi stepIndexStr with
    | None => (s, FleetError 400 "invalid step index")
    | Some stepIndex =>
        decoding s body (fun req =>
          if pr_Status req =?s "" then (s, FleetError 400 "status is required")
          else store_result s
                 (UpdateServerStep db_err (fleet s) jobID serverName stepIndex (pr_Status req)
                    (pr_Output req) (patch_time (pr_StartedAt req)) (patch_time (pr_FinishedAt req)))
                 "failed to update fleet job server step" (FleetOK 200 FNothing))
    end.

Definition handleGetServerSteps (s : fleetServer) (jobID serverName : string) : FleetReply :=
  if (jobID =?s "") || (serverName =?s "") then FleetError 400 "missing job ID or server name"
  else FleetOK 200 (FSteps (GetServerSteps (fleet s) jobID serverName)).

Record JobApprovalRequest := {
  ja_ActionClass : string;
  ja_ResourceType : string;
  ja_ResourceName : string;
  ja_RequestedBy : string;
  ja_Context : anymap;
  ja_ExpiresAt : string }.

(** The approval of a job: its trace id is the job's id and only a fleet approver
    may resolve it. *)
Definition job_approval (jobID : string) (req : JobApprovalRequest) : StoredApproval :=
  {| ApprovalID := ""; sa_EventID := ""; sa_TraceID := jobID; Status := "";
     sa_ActionClass := ja_ActionClass req; ToolName := ""; sa_AgentName := "fleet-runner";
     sa_ResourceType := "fleet_job"; sa_ResourceName := ja_ResourceName req;
     RequestedBy := if ja_RequestedBy req =?s "" then "fleet-runner" else ja_RequestedBy req;
     RequestedAt := 0%Z; RequestContext := ja_Context req; ResolvedBy := ""; ResolvedAt := 0%Z;
     ResolutionReason := ""; ExpiresAt := patch_time (ja_ExpiresAt req);
     ApprovalValidUntil := 0%Z; sa_PolicyName := ""; ApproverRole := "fleet-approver";
     CallbackURL := ""; CallbackSentAt := 0%Z; CreatedAt := 0%Z; UpdatedAt := 0%Z |}.

Definition handleCreateJobApproval (now : Time) (uuid8 : string) (db_err : option string)
    (s : fleetServer) (jobID : string) (body : result string JobApprovalRequest)
    : fleetServer * FleetReply :=
  match approvals s with
  | None => (s, FleetError 503 "approval store not configured")
  | Some st =>
      if jobID =?s "" then (s, FleetError 400 "missing job ID")
      else decoding s body (fun req =>
        if ja_ActionClass req =?s "" then (s, FleetError 400 "action_class is required")
        else
          match CreateRequest now uuid8 db_err st (job_approval jobID req) with
          | (_, Some _) => (s, FleetError 500 "failed to create approval request")
          | (st', None) =>
              ({| fleet := fleet s; approvals := Some st' |},
               FleetOK 201 (FApprovalCreated
                 (ApprovalID (complete_request now uuid8 (job_approval jobID req))) "pending"))
          end)
  end.

Definition handleGetJobApproval (s : fleetServer) (approvalID : string) : FleetReply :=
  match approvals s with
  | None => FleetError 503 "approval store not configured"
  | Some st =>
      if approvalID =?s "" then FleetError 400 "missing approval ID"
      else
        match GetRequest st approvalID with
        | Err _ => FleetError 404 "approval not found"
        | Ok a => FleetOK 200 (FApproval a)
        end
  end.

(** ** The endpoints together *)

Inductive FleetRequest :=
  | RqCreateJob (body : Body FleetJob)
  | RqListJobs (status submitted_by plan_trace_id : string)
  | RqGetJob (jobID : string)
  | RqUpdateStatus (jobID : string) (body : result string StatusRequest)
  | RqAddServer (jobID : string) (body : result string FleetJobServer)
  | RqUpdateServer (jobID serverName : string) (body : result string PatchRequest)
  | RqGetServers (jobID : string)
  | RqGetServer (jobID serverName : string)
  | RqAddServerStep (jobID serverName : string) (body : result string FleetJobServerStep)
  | RqUpdateServerStep (jobID serverName stepIndex : string) (body : result string PatchRequest)
  | RqGetServerSteps (jobID serverName : string)
  | RqCreateJobApproval (jobID : string) (body : result string JobApprovalRequest)
  | RqGetJobApproval (approvalID : string).

Definition serve (now : Time) (uuid8 : string) (db_err : option string) (s : fleetServer)
    (rq : FleetRequest) : fleetServer * FleetReply :=
  match rq with
  | RqCreateJob body => handleCreateJob now uuid8 db_err s body
  | RqListJobs a b c => (s, handleListJobs s a b c)
  | RqGetJob j => (s, handleGetJob s j)
  | RqUpdateStatus j body => handleUpdateStatus now db_err s j body
  | RqAddServer j body => handleAddServer db_err s j body
  | RqUpdateServer j n body => handleUpdateServer db_err s j n body
  | RqGetServers j => (s, handleGetServers s j)
  | RqGetServer j n => (s, handleGetServer s j n)
  | RqAddServerStep j n body => handleAddServerStep db_err s j n body
  | RqUpdateServerStep j n i body => handleUpdateServerStep db_err s j n i body
  | RqGetServerSteps j n => (s, handleGetServerSteps s j n)
  | RqCreateJobApproval j body => handleCreateJobApproval now uuid8 db_err s j body
  | RqGetJobApproval id => (s, handleGetJobApproval s id)
  end.

(** The servers that requests lead to, from empty tables. *)
Inductive served (pg : bool) : fleetServer -> Prop :=
  | served_new st : served pg {| fleet := NewFleetStore pg; approvals := st |}
  | served_step s now uuid8 db_err rq : served pg s -> served pg (serve now uuid8 db_err s rq).1.

(** Every record has a status and belongs to a job, whose id is unique; a SQLite
    database promises the second only for the records of jobs that exist. *)
Record fleet_ok (f : FleetStore) : Prop := {
  ok_job_ids : NoDup (map fj_JobID (jobs f));
  ok_job_status : forall j, In j (jobs f) -> fj_Status j <> "" /\ fj_JobID j <> "";
  ok_server_status : forall r, In r (servers f) -> fs_Status r <> "" /\ fs_ServerName r <> "";
  ok_step_status : forall r, In r (steps f) -> fp_Status r <> "" /\ fp_Tool r <> "";
  ok_server_job : isPostgres f = true ->
    forall r, In r (servers f) -> In (fs_JobID r) (map fj_JobID (jobs f));
  ok_step_job : isPostgres f = true ->
    forall r, In r (steps f) -> In (fp_JobID r) (map fj_JobID (jobs f)) }.

Lemma known_job f id : unknown_job f id = false -> isPostgres f = true -> In id (map fj_JobID (jobs f)).
Proof.
  unfold unknown_job. intros Hu Hp. rewrite Hp in Hu. apply negb_false_iff, existsb_exists in Hu as (j & Hj & He).
  apply streq_spec in He as <-. by apply in_map.
Qed.

Lemma store_result_cases s r failure reply s' rep :
  store_result s r failure reply = (s', rep) ->
  (s' = s /\ rep = FleetError 500 failure) \/ (exists f, r = (f, None) /\ s' = with_fleet f s /\ rep = reply).
Proof. unfold store_result. destruct r as [f [e|]]; intros [= <- <-]; eauto. Qed.

(** The writes keep the records well formed. *)
Lemma create_job_ok now uuid8 db f j f' : fleet_ok f ->
  CreateJob now uuid8 db f j = (f', None) -> fleet_ok f'.
Proof.
  intros [H1 H2 H3 H4 H5 H6]. unfold CreateJob. destruct db; [done|]. destruct (existsb _ _) eqn:E; [done|].
  intros [= <-]. set (c := complete_job now uuid8 j) in *.
  assert (Hc : fj_Status c <> "" /\ fj_JobID c <> "").
  { simpl. split; [by destruct (String.eqb_spec (fj_Status j) "")|by destruct (String.eqb_spec (fj_JobID j) "")]. }
  assert (Hin : forall id, In id (map fj_JobID (jobs f)) -> In id (map fj_JobID (jobs f ++ [c])))
    by (intros id Hid; rewrite map_app; apply in_or_app; by left).
  constructor; simpl; auto.
  - rewrite map_app. apply NoDup_app. split_and!; [done| |apply NoDup_singleton].
    intros id Hid ->%list_elem_of_singleton. apply list_elem_of_In, in_map_iff in Hid as (x & Hx & Hi).
    pose proof (proj1 (existsb_false _ _) E x Hi) as Hf. unfold job_is in Hf. by rewrite Hx, streq_refl in Hf.
  - intros x [Hx|[<-|[]]]%in_app_or; [auto|exact Hc].
Qed.

Lemma update_status_ok now db f id status summary f' : fleet_ok f -> status <> "" ->
  UpdateJobStatus now db f id status summary = (f', None) -> fleet_ok f'.
Proof.
  intros [H1 H2 H3 H4 H5 H6] Hs. unfold UpdateJobStatus. destruct db; [done|]. intros [= <-].
  assert (Hids : map fj_JobID (map (fun j => if job_is id j then set_job now status summary j else j) (jobs f)) = map fj_JobID (jobs f))
    by (rewrite map_map; apply map_ext; intros j; by destruct (job_is id j)).
  constructor; simpl; rewrite ?Hids; auto.
  intros x (j & <- & Hj)%in_map_iff. destruct (job_is id j); [|auto]. simpl. split; [done|by apply H2].
Qed.

Lemma add_server_ok db f r f' : fleet_ok f -> fs_Status r <> "" -> fs_ServerName r <> "" ->
  AddServer db f r = (f', None) -> fleet_ok f'.
Proof.
  intros [H1 H2 H3 H4 H5 H6] Hs Hn. unfold AddServer. destruct db; [done|]. destruct (unknown_job _ _) eqn:E; [done|].
  intros [= <-]. constructor; simpl; auto.
  - intros x [Hx|[<-|[]]]%in_app_or; [auto|done].
  - intros Hp x [Hx|[<-|[]]]%in_app_or; [auto|]. by apply known_job.
Qed.

Lemma update_server_ok db f id n status out a b f' : fleet_ok f -> status <> "" ->
  UpdateServer db f id n status out a b = (f', None) -> fleet_ok f'.
Proof.
  intros [H1 H2 H3 H4 H5 H6] Hs. unfold UpdateServer. destruct db; [done|]. intros [= <-].
  constructor; simpl; auto.
  - intros x (r & <- & Hr)%in_map_iff. destruct (server_is id n r); [|auto]. simpl. split; [done|by apply H3].
  - intros Hp x (r & <- & Hr)%in_map_iff. destruct (server_is id n r); exact (H5 Hp r Hr).
Qed.

Lemma add_step_ok db f r f' : fleet_ok f -> fp_Status r <> "" -> fp_Tool r <> "" ->
  AddServerStep db f r = (f', None) -> fleet_ok f'.
Proof.
  intros [H1 H2 H3 H4 H5 H6] Hs Hn. unfold AddServerStep. destruct db; [done|].
  destruct (unknown_job _ _) eqn:E; [done|]. intros [= <-]. constructor; simpl; auto.
  - intros x [Hx|[<-|[]]]%in_app_or; [auto|done].
  - intros Hp x [Hx|[<-|[]]]%in_app_or; [auto|]. by apply known_job.
Qed.

Lemma update_step_ok db f id n i status out a b f' : fleet_ok f -> status <> "" ->
  UpdateServerStep db f id n i status out a b = (f', None) -> fleet_ok f'.
Proof.
  intros [H1 H2 H3 H4 H5 H6] Hs. unfold UpdateServerStep. destruct db; [done|]. intros [= <-].
  constructor; simpl; auto.
  - intros x (r & <- & Hr)%in_map_iff. destruct (step_is id n i r); [|auto]. simpl. split; [done|by apply H4].
  - intros Hp x (r & <- & Hr)%in_map_iff. destruct (step_is id n i r); exact (H6 Hp r Hr).
Qed.

(** What one request does: an error leaves the server as it was; otherwise the records
    stay well formed. *)
Definition serves_well (s : fleetServer) (r : fleetServer * FleetReply) : Prop :=
  match r.2 with
  | FleetError code _ => r.1 = s /\ In code [400; 404; 500; 503]%Z
  | FleetOK code _ => fleet_ok (fleet r.1) /\ In code [200; 201]%Z
  end.

Lemma serves_error s code msg : In code [400; 404; 500; 503]%Z -> serves_well s (s, FleetError code msg).
Proof. done. Qed.

Lemma serves_read s reply : fleet_ok (fleet s) ->
  match reply with FleetError code _ => In code [400; 404; 500; 503]%Z | FleetOK code _ => In code [200; 201]%Z end ->
  serves_well s (s, reply).
Proof. intros Hs. by destruct reply. Qed.

Lemma serves_write s r failure code body :
  (forall f, r = (f, None) -> fleet_ok f) -> In code [200; 201]%Z ->
  serves_well s (store_result s r failure (FleetOK code body)).
Proof.
  intros Hr Hc. unfold store_result. destruct r as [f [e|]]; [apply serves_error; simpl; tauto|].
  split; [by apply Hr|done].
Qed.

Lemma serves_decoding {A} s (body : result string A) k :
  (forall a, serves_well s (k a)) -> serves_well s (decoding s body k).
Proof. intros Hk. destruct body; [apply Hk|]. apply serves_error. simpl. tauto. Qed.

Lemma nonempty_default x : (if x =?s "" then "pending" else x) <> "".
Proof. by destruct (String.eqb_spec x ""). Qed.

#[local] Hint Resolve nonempty_default : go.

(** Every write of the endpoints serves well: the requests that pass the checks satisfy
    the side conditions of the store. *)
Lemma serve_well now uuid8 db s rq : fleet_ok (fleet s) -> serves_well s (serve now uuid8 db s rq).
Proof.
  intros Hok.
  assert (Herr : forall code msg, In code [400; 404; 500; 503]%Z -> serves_well s (s, FleetError code msg))
    by (intros; by apply serves_error).
  destruct rq; simpl.
  - unfold handleCreateJob. destruct body as [| |e|j]; try (apply Herr; simpl; tauto).
    repeat case_if; try (apply Herr; simpl; tauto).
    apply serves_write; [|simpl; tauto]. intros f. by apply create_job_ok.
  - apply serves_read; simpl; tauto.
  - apply serves_read; [done|]. unfold handleGetJob. case_if; [simpl; tauto|]. destruct (GetJob _ _); simpl; tauto.
  - unfold handleUpdateStatus. case_if; [apply Herr; simpl; tauto|]. apply serves_decoding. intros rq.
    case_if; [apply Herr; simpl; tauto|]. apply serves_write; [|simpl; tauto]. intros f. apply update_status_ok; [done|].
    by apply streq_false.
  - unfold handleAddServer. case_if; [apply Herr; simpl; tauto|]. apply serves_decoding. intros rq.
    case_if; [apply Herr; simpl; tauto|]. case_if; [apply Herr; simpl; tauto|].
    apply serves_write; [|simpl; tauto]. intros f. apply add_server_ok; [done|apply nonempty_default|].
    by apply streq_false.
  - unfold handleUpdateServer. case_if; [apply Herr; simpl; tauto|]. apply serves_decoding. intros rq.
    case_if; [apply Herr; simpl; tauto|]. apply serves_write; [|simpl; tauto]. intros f. apply update_server_ok; [done|].
    by apply streq_false.
  - apply serves_read; [done|]. unfold handleGetServers. case_if; simpl; tauto.
  - apply serves_read; [done|]. unfold handleGetServer. case_if; [simpl; tauto|]. destruct (GetServer _ _ _); simpl; tauto.
  - unfold handleAddServerStep. case_if; [apply Herr; simpl; tauto|]. apply serves_decoding. intros rq.
    case_if; [apply Herr; simpl; tauto|].
    apply serves_write; [|simpl; tauto]. intros f. apply add_step_ok; [done|apply nonempty_default|].
    by apply streq_false.
  - unfold handleUpdateServerStep. case_if; [apply Herr; simpl; tauto|].
    destruct (atoi _); [|apply Herr; simpl; tauto]. apply serves_decoding. intros rq.
    case_if; [apply Herr; simpl; tauto|]. apply serves_write; [|simpl; tauto]. intros f. apply update_step_ok; [done|].
    by apply streq_false.
  - apply serves_read; [done|]. unfold handleGetServerSteps. case_if; simpl; tauto.
  - unfold handleCreateJobApproval. destruct (approvals s); [|apply Herr; simpl; tauto].
    case_if; [apply Herr; simpl; tauto|]. apply serves_decoding. intros rq.
    case_if; [apply Herr; simpl; tauto|]. destruct (CreateRequest _ _ _ _ _) as [st [e|]]; [apply Herr; simpl; tauto|].
    split; [done|simpl; tauto].
  - apply serves_read; [done|]. unfold handleGetJobApproval. destruct (approvals s); [|simpl; tauto].
    case_if; [simpl; tauto|]. destruct (GetRequest _ _); simpl; tauto.
Qed.

Lemma fleet_ok_new pg : fleet_ok (NewFleetStore pg).
Proof. constructor; simpl; try done. constructor. Qed.

Lemma served_ok pg s : served pg s -> fleet_ok (fleet s).
Proof.
  induction 1 as [st|s now uuid8 db rq _ IH]; [apply fleet_ok_new|].
  pose proof (serve_well now uuid8 db s rq IH) as H. unfold serves_well in H.
  destruct (serve _ _ _ s rq) as [s' [code msg|code body]]; simpl in *; [by destruct H as [-> _]|by destruct H].
Qed.

(** The records of fleet jobs stay well formed under any sequence of
    requests and database failures: job ids are unique, every record has a status, a
    server record a server, a step record a tool, and on Postgres every record belongs
    to a job; a request that is answered with an error changes nothing, and the reply
    codes are 200 or 201, or 400, 404, 500 or 503. *)
Theorem fleet_records_well_formed pg s now uuid8 db_err rq (Hs : served pg s) :
  fleet_ok (fleet s) /\
  let '(s', reply) := serve now uuid8 db_err s rq in
  fleet_ok (fleet s') /\
  match reply with
  | FleetError code _ => s' = s /\ In code [400; 404; 500; 503]%Z
  | FleetOK code _ => In code [200; 201]%Z
  end.
Proof.
  pose proof (served_ok pg s Hs) as Hok. split; [done|].
  pose proof (serve_well now uuid8 db_err s rq Hok) as H. unfold serves_well in H.
  destruct (serve now uuid8 db_err s rq) as [s' [code msg|code body]]; simpl in H; [by destruct H as [-> ?]|done].
Qed.

(** On SQLite a record of an unknown job is accepted, on Postgres it is refused, and an
    update of an unknown job is answered like any other. *)
Definition stray_server (pg : bool) : fleetServer * FleetReply :=
  serve 0 "1" None {| fleet := NewFleetStore pg; approvals := None |}
    (RqAddServer "flj_9" (Ok {| fs_ID := 0; fs_JobID := ""; fs_ServerName := "db"; fs_Stage := "canary";
       fs_Status := ""; fs_Output := ""; fs_StartedAt := 0; fs_FinishedAt := 0 |}))%Z.

Example stray_records :
  length (servers (fleet (stray_server false).1)) = 1 /\
  (stray_server true).2 = FleetError 500 "failed to add fleet job server" /\
  (serve 0 "1" None (stray_server true).1
     (RqUpdateStatus "flj_9" (Ok {| rq_Status := "completed"; rq_Summary := "" |}))).2 = FleetOK 200 FNothing.
Proof. vm_compute. split_and!; reflexivity. Qed.

Lemma fleet_records_well_formed_witness :
  served false (stray_server false).1 /\
  fleet_ok (fleet (serve 5 "2" None (stray_server false).1 (RqGetServers "flj_9")).1).
Proof.
  assert (H : served false (stray_server false).1) by apply served_step, served_new.
  split; [exact H|]. exact (proj1 (proj2 (fleet_records_well_formed false _ 5 "2" None (RqGetServers "flj_9") H))).
Defined.
