(* ===== verification/FleetRecords.v ===== *)
(** * Fleet jobs: what the records say of a rollout

    The runner of cmd/fleet-runner and the records of auditd together.  The writes of
    submit.go ([JobWrite]) and the updates of runner.go ([Act]) arrive at the handlers
    of [FleetStore] as requests; a run is an interleaving of the acts of its servers.
    The records refine a specification without HTTP, tables or interleavings: one
    verdict for each server and for each of its steps.  It is assumed here that auditd
    receives every request, which the runner itself never checks. *)

From S2P Require Import Prelude GoTime TimeText Events Action ApprovalStore ApprovalHandlers FleetStore.
From S2P Require Import Fleet FleetExec FleetMain.

Open Scope string_scope.

Lemma flat_map_imap_nil {A B C} (h : B -> list C) (g : nat -> A -> B) l :
  (forall i x, h (g i x) = []) -> flat_map h (imap g l) = [].
Proof. revert g. induction l as [|x l IH]; intros g H; simpl; [done|]. rewrite H. apply (IH (g ∘ S)). intros. apply H. Qed.

Lemma flat_map_imap_one {A B C} (h : B -> list C) (g : nat -> A -> B) (k : nat -> A -> C) l :
  (forall i x, h (g i x) = [k i x]) -> flat_map h (imap g l) = imap k l.
Proof.
  revert g k. induction l as [|x l IH]; intros g k H; simpl; [done|]. rewrite H. simpl. f_equal.
  apply (IH (g ∘ S) (k ∘ S)). intros. apply H.
Qed.

Lemma sublist_full {A} (l1 l2 : list A) : l1 `sublist_of` l2 -> length l2 <= length l1 -> l1 = l2.
Proof.
  induction 1 as [|x l1 l2 _ IH|x l1 l2 Hs IH]; simpl; intros Hl; [done| |].
  - rewrite IH by lia. done.
  - apply sublist_length in Hs. lia.
Qed.

(** ** Requests *)

Section Requests.
(** The path value auditd reads from a segment that is put in the URL as it is; the
    times of a request; the job's JSON, the submitter, auditd's clock and fresh id. *)
Context (segment : string -> option string) (stamp : Act -> string * string).
Context (job_json submitted_by : string) (submitted_at now : Time) (uuid8 : string).

Definition serving (f : FleetStore) : fleetServer := {| fleet := f; approvals := None |}.

Definition patch_request (a : Act) (status out : string) : PatchRequest :=
  {| pr_Status := status; pr_Output := out; pr_StartedAt := (stamp a).1; pr_FinishedAt := (stamp a).2 |}.

(** [patchServerStatus] and [patchStepStatus] at auditd; the other acts go elsewhere. *)
Definition apply_act (jobID : string) (f : FleetStore) (a : Act) : FleetStore :=
  match a with
  | PatchServer server status out =>
      match segment jobID, segment server with
      | Some j, Some n =>
          fleet (handleUpdateServer None (serving f) j n (Ok (patch_request a status out))).1
      | _, _ => f
      end
  | PatchStep server idx status out =>
      match segment jobID, segment server with
      | Some j, Some n =>
          fleet (handleUpdateServerStep None (serving f) j n (itoa (Z.of_nat idx))
                   (Ok (patch_request a status out))).1
      | _, _ => f
      end
  | _ => f
  end.

Definition new_job (name plan_trace_id : string) : FleetJob :=
  {| fj_JobID := ""; fj_Name := name; fj_SubmittedBy := submitted_by;
     fj_SubmittedAt := submitted_at; fj_Status := "running"; fj_JobDef := job_json;
     fj_Summary := ""; fj_PlanTraceID := plan_trace_id; fj_CreatedAt := 0%Z; fj_UpdatedAt := 0%Z |}.

Definition new_server (jobID server stage : string) : FleetJobServer :=
  {| fs_ID := 0; fs_JobID := jobID; fs_ServerName := server; fs_Stage := stage;
     fs_Status := "pending"; fs_Output := ""; fs_StartedAt := 0%Z; fs_FinishedAt := 0%Z |}.

Definition new_step (idx : nat) (tool : string) : FleetJobServerStep :=
  {| fp_ID := 0; fp_JobID := ""; fp_ServerName := ""; fp_StepIndex := Z.of_nat idx; fp_Tool := tool;
     fp_Status := "pending"; fp_Output := ""; fp_StartedAt := 0%Z; fp_FinishedAt := 0%Z |}.

Definition apply_write (jobID : string) (f : FleetStore) (w : JobWrite) : FleetStore :=
  match w with
  | FleetMain.CreateJob name plan =>
      fleet (handleCreateJob now uuid8 None (serving f) (Decoded (new_job name plan))).1
  | RegisterServer server stage =>
      match segment jobID with
      | Some j => fleet (handleAddServer None (serving f) j (Ok (new_server jobID server stage))).1
      | None => f
      end
  | RegisterStep server idx tool =>
      match segment jobID, segment server with
      | Some j, Some n => fleet (handleAddServerStep None (serving f) j n (Ok (new_step idx tool))).1
      | _, _ => f
      end
  | SetJobStatus id status summary =>
      match segment id with
      | Some j =>
          fleet (handleUpdateStatus now None (serving f) j
                   (Ok {| rq_Status := status; rq_Summary := summary |})).1
      | None => f
      end
  | JobOutcome _ _ _ => f
  end.

(** ** Views of the tables *)

Definition server_view (f : FleetStore) (jobID : string) : list (string * string * string) :=
  map (fun r => (fs_ServerName r, fs_Stage r, fs_Status r)) (GetJobServers f jobID).

Definition step_view (f : FleetStore) (jobID server : string) : list (Z * string * string) :=
  map (fun r => (fp_StepIndex r, fp_Tool r, fp_Status r)) (GetServerSteps f jobID server).

(** The rows of the steps before they are sorted. *)
Definition step_rows (f : FleetStore) (jobID server : string) : list (Z * string * string) :=
  map (fun r => (fp_StepIndex r, fp_Tool r, fp_Status r))
    (List.filter (steps_of jobID server) (steps f)).

Definition index_before (a b : Z * string * string) : bool := (a.1.1 <? b.1.1)%Z.

Lemma step_view_sorted f jobID server :
  step_view f jobID server = isort index_before (step_rows f jobID server).
Proof. unfold step_view, step_rows, GetServerSteps. by rewrite (isort_map step_before). Qed.

(** The path values the run uses arrive as they were sent. *)
Definition segment_ok (s : string) : Prop := s <> "" /\ segment s = Some s.

(** The requests of an act pass the checks of the handlers. *)
Definition act_ok (a : Act) : Prop :=
  match a with
  | PatchServer s x _ => segment_ok s /\ x <> ""
  | PatchStep s i x _ => segment_ok s /\ x <> "" /\ (Z.of_nat i < 2 ^ 63)%Z
  | _ => True
  end.

(** The status a sequence of acts leaves on a server and on a step. *)
Definition put_server (server : string) (y : string) (a : Act) : string :=
  match a with PatchServer s x _ => if server =?s s then x else y | _ => y end.

Definition put_step (server : string) (idx : Z) (y : string) (a : Act) : string :=
  match a with
  | PatchStep s i x _ => if (server =?s s) && (idx =? Z.of_nat i)%Z then x else y
  | _ => y
  end.

Lemma server_view_act jobID f a : segment_ok jobID -> act_ok a ->
  server_view (apply_act jobID f a) jobID =
  map (fun '(n, g, y) => (n, g, put_server n y a)) (server_view f jobID).
Proof.
  intros [Hj Hsj] Ha.
  assert (Hid : server_view f jobID = map (fun '(n, g, y) => (n, g, y)) (server_view f jobID))
    by (rewrite <- map_id at 1; apply map_ext; by intros [[]]).
  destruct a as [| s x o | s i x o | |]; try exact Hid; simpl in Ha |- *.
  - destruct Ha as [[Hs Hseg] Hx]. rewrite Hsj, Hseg. unfold handleUpdateServer.
    rewrite !(proj2 (streq_false _ _)) by done. simpl.
    rewrite (proj2 (streq_false _ _)) by done. unfold server_view, GetJobServers. simpl.
    rewrite filter_map_same by (intros r; by destruct (server_is jobID s r)).
    rewrite !map_map. apply map_ext_in. intros r [_ Hr]%filter_In. unfold server_is. rewrite Hr. simpl.
    by destruct (fs_ServerName r =?s s).
  - destruct Ha as [[Hs Hseg] [Hx _]]. rewrite Hsj, Hseg. unfold handleUpdateServerStep.
    destruct ((jobID =?s "") || (s =?s "") || (itoa (Z.of_nat i) =?s "")); [exact Hid|].
    destruct (atoi _); [|exact Hid]. simpl. destruct (x =?s ""); exact Hid.
Qed.

Lemma step_rows_act jobID n f a : segment_ok jobID -> act_ok a ->
  step_rows (apply_act jobID f a) jobID n =
  map (fun '(i, tl, y) => (i, tl, put_step n i y a)) (step_rows f jobID n).
Proof.
  intros [Hj Hsj] Ha.
  assert (Hid : step_rows f jobID n = map (fun '(i, tl, y) => (i, tl, y)) (step_rows f jobID n))
    by (rewrite <- map_id at 1; apply map_ext; by intros [[]]).
  destruct a as [| s x o | s i x o | |]; try exact Hid; simpl in Ha |- *.
  - destruct Ha as [[Hs Hseg] _]. rewrite Hsj, Hseg. unfold handleUpdateServer.
    destruct ((jobID =?s "") || (s =?s "")); [exact Hid|]. simpl. destruct (x =?s ""); exact Hid.
  - destruct Ha as [[Hs Hseg] [Hx Hi]]. rewrite Hsj, Hseg. unfold handleUpdateServerStep.
    rewrite atoi_itoa by lia. rewrite !(proj2 (streq_false _ _)) by (done || apply itoa_digits; lia). simpl.
    rewrite (proj2 (streq_false _ _)) by done. unfold step_rows. simpl.
    rewrite filter_map_same by (intros r; by destruct (step_is jobID s (Z.of_nat i) r)).
    rewrite !map_map. apply map_ext_in. intros r [_ Hr]%filter_In. unfold step_is.
    unfold steps_of in *. apply andb_true_iff in Hr as [Hj' Hn]. rewrite Hj'. apply streq_spec in Hn. rewrite Hn.
    simpl. by destruct ((n =?s s) && (fp_StepIndex r =? Z.of_nat i)%Z).
Qed.

Lemma jobs_act jobID f a : jobs (apply_act jobID f a) = jobs f.
Proof.
  destruct a as [| s x o | s i x o | |]; try done; simpl; destruct (segment jobID), (segment s); try done.
  - unfold handleUpdateServer. destruct (_ || _); [done|]. simpl. by destruct (x =?s "").
  - unfold handleUpdateServerStep. destruct (_ || _); [done|]. destruct (atoi _); [|done]. simpl. by destruct (x =?s "").
Qed.

(** A whole run, act by act. *)
Definition apply_acts (jobID : string) (f : FleetStore) (t : list Act) : FleetStore :=
  fold_left (apply_act jobID) t f.

Definition last_server (n : string) (t : list Act) (y : string) : string := fold_left (put_server n) t y.
Definition last_step (n : string) (i : Z) (t : list Act) (y : string) : string := fold_left (put_step n i) t y.

Lemma acts_views jobID t f : segment_ok jobID -> Forall act_ok t ->
  jobs (apply_acts jobID f t) = jobs f /\
  server_view (apply_acts jobID f t) jobID =
    map (fun '(n, g, y) => (n, g, last_server n t y)) (server_view f jobID) /\
  forall n, step_rows (apply_acts jobID f t) jobID n =
    map (fun '(i, tl, y) => (i, tl, last_step n i t y)) (step_rows f jobID n).
Proof.
  intros Hj Ht. revert f. induction Ht as [|a t Ha _ IH]; intros f.
  - split_and!; [done| |intros n]; rewrite <- map_id at 1; apply map_ext; by intros [[]].
  - unfold apply_acts in *. cbn [fold_left]. destruct (IH (apply_act jobID f a)) as (H1 & H2 & H3). split_and!.
    + by rewrite H1, jobs_act.
    + rewrite H2, server_view_act, map_map by done. apply map_ext. by intros [[]].
    + intros n. rewrite H3, step_rows_act, map_map by done. apply map_ext. by intros [[]].
Qed.
(** ** Registration *)

Definition registers (w : JobWrite) : Prop :=
  match w with
  | RegisterServer s g => s <> "" /\ g <> ""
  | RegisterStep s _ tool => segment_ok s /\ tool <> ""
  | _ => False
  end.

Definition new_servers (ws : list JobWrite) : list (string * string * string) :=
  flat_map (fun w => match w with RegisterServer s g => [(s, g, "pending")] | _ => [] end) ws.

Definition new_steps (n : string) (ws : list JobWrite) : list (Z * string * string) :=
  flat_map (fun w => match w with
    | RegisterStep s i tool => if n =?s s then [(Z.of_nat i, tool, "pending")] else []
    | _ => [] end) ws.

Definition apply_writes (jobID : string) (f : FleetStore) (ws : list JobWrite) : FleetStore :=
  fold_left (apply_write jobID) ws f.

(** The two tables of a job grow by these rows, and the jobs stay. *)
Definition grows (jobID : string) (f f' : FleetStore) (rows : list (string * string * string))
    (srows : string -> list (Z * string * string)) : Prop :=
  isPostgres f' = isPostgres f /\ jobs f' = jobs f /\
  server_view f' jobID = (server_view f jobID ++ rows)%list /\
  forall n, step_rows f' jobID n = (step_rows f jobID n ++ srows n)%list.

Lemma grows_refl jobID f : grows jobID f f [] (fun _ => []).
Proof. unfold grows. rewrite app_nil_r. split_and!; try done. intros n. by rewrite app_nil_r. Qed.

Lemma register_one jobID f w : segment_ok jobID -> unknown_job f jobID = false -> registers w ->
  grows jobID f (apply_write jobID f w) (new_servers [w]) (fun n => new_steps n [w]).
Proof.
  intros [Hj Hsj] Hk Hw. destruct w as [| s g | s i tool | |]; try done; simpl in Hw |- *.
  - destruct Hw as [Hs Hg]. rewrite Hsj. unfold handleAddServer. rewrite !(proj2 (streq_false _ _)) by done. simpl.
    rewrite !(proj2 (streq_false _ _)) by done. unfold AddServer. simpl. rewrite Hk. simpl.
    unfold grows, server_view, GetJobServers. simpl. rewrite List.filter_app, map_app. simpl. rewrite streq_refl.
    split_and!; try done. intros n. by rewrite app_nil_r.
  - destruct Hw as [[Hs Hseg] Ht]. rewrite Hsj, Hseg. unfold handleAddServerStep.
    rewrite !(proj2 (streq_false _ _)) by done. simpl. rewrite (proj2 (streq_false _ _)) by done.
    unfold AddServerStep. simpl. rewrite Hk. simpl. unfold grows, step_rows. simpl. rewrite app_nil_r.
    split_and!; try done. intros n. rewrite app_nil_r, List.filter_app, map_app. simpl.
    unfold steps_of at 2. simpl. rewrite streq_refl. simpl. rewrite (String.eqb_sym n s). by destruct (s =?s n).
Qed.

Lemma grows_trans jobID f1 f2 f3 r1 r2 s1 s2 :
  grows jobID f1 f2 r1 s1 -> grows jobID f2 f3 r2 s2 ->
  grows jobID f1 f3 (r1 ++ r2)%list (fun n => s1 n ++ s2 n)%list.
Proof.
  intros (H1 & H2 & H3 & H4) (H5 & H6 & H7 & H8). unfold grows.
  rewrite H5, H6, H7, H1, H2, H3, app_assoc. split_and!; try done. intros n. by rewrite H8, H4, app_assoc.
Qed.

Lemma registration jobID f ws : segment_ok jobID -> unknown_job f jobID = false -> Forall registers ws ->
  grows jobID f (apply_writes jobID f ws) (new_servers ws) (fun n => new_steps n ws).
Proof.
  intros Hj Hk Hws. revert f Hk. induction Hws as [|w ws Hw _ IH]; intros f Hk; [apply grows_refl|].
  pose proof (register_one jobID f w Hj Hk Hw) as H1.
  assert (Hk' : unknown_job (apply_write jobID f w) jobID = false)
    by (destruct H1 as (Hp & Hjs & _); unfold unknown_job; by rewrite Hp, Hjs).
  pose proof (grows_trans _ _ _ _ _ _ _ _ H1 (IH _ Hk')) as H. unfold new_servers, new_steps in *.
  simpl in *. rewrite app_nil_r in H. destruct H as (Ha & Hb & Hc & Hd). split_and!; try done.
  intros n. rewrite Hd. by rewrite app_nil_r.
Qed.

Lemma new_servers_registered (stages : list stageAssignment) names (l : list Step) :
  new_servers (map (fun sa => RegisterServer (sg_server sa) (sg_stage sa)) stages ++ registered_steps names l) =
  map (fun sa => (sg_server sa, sg_stage sa, "pending")) stages.
Proof.
  unfold new_servers. rewrite flat_map_app.
  assert (H : flat_map (fun w => match w with RegisterServer s g => [(s, g, "pending")] | _ => [] end)
                (registered_steps names l) = []).
  { unfold registered_steps. induction names as [|n names IH]; [done|]. simpl. rewrite flat_map_app, IH, app_nil_r.
    by apply flat_map_imap_nil. }
  rewrite H, app_nil_r. induction stages as [|sa stages IH]; [done|]. simpl. by rewrite IH.
Qed.

(** Each server gets one row for each step, in order. *)
Lemma new_steps_registered n (stages : list stageAssignment) names (l : list Step) : NoDup names ->
  new_steps n (map (fun sa => RegisterServer (sg_server sa) (sg_stage sa)) stages ++ registered_steps names l) =
  if mem n names then imap (fun i st => (Z.of_nat i, st_Tool st, "pending")) l else [].
Proof.
  intros Hnd. unfold new_steps. rewrite flat_map_app.
  rewrite (flat_map_concat_map _ (map _ stages)), map_map. simpl.
  replace (concat (map (fun _ : stageAssignment => []) stages)) with (@nil (Z * string * string))
    by (induction stages; done).
  simpl. unfold registered_steps. induction Hnd as [|s names Hs _ IH]; [done|]. simpl. rewrite flat_map_app, IH.
  destruct (String.eqb_spec n s) as [->|Hne].
  - replace (mem s names) with false by (symmetry; apply mem_false; by rewrite <- list_elem_of_In).
    rewrite app_nil_r. apply flat_map_imap_one. intros. simpl. by rewrite streq_refl.
  - rewrite flat_map_imap_nil; [done|]. intros. simpl. by rewrite (proj2 (streq_false _ _)).
Qed.

(** ** The job's row *)

Lemma create_fresh f name plan :
  name <> "" -> submitted_by <> "" -> job_json <> "" ->
  GetJob f ("flj_" ++ uuid8) = Err "fleet job not found" ->
  apply_write ("flj_" ++ uuid8) f (FleetMain.CreateJob name plan) =
  with_jobs (jobs f ++ [complete_job now uuid8 (new_job name plan)])%list f.
Proof.
  intros Hn Hs Hj Hg. unfold GetJob in Hg. destruct (find _ _) eqn:E; [done|]. clear Hg.
  unfold apply_write, handleCreateJob. simpl fj_Name. simpl fj_SubmittedBy. simpl fj_JobDef.
  rewrite !(proj2 (streq_false _ _)) by done. unfold store_result, FleetStore.CreateJob. simpl fj_JobID. cbv zeta.
  replace (existsb _ _) with false; [done|]. symmetry. apply existsb_false. by apply find_none_iff.
Qed.

Lemma set_status jobID f status summary j : segment_ok jobID -> status <> "" ->
  GetJob f jobID = Ok j ->
  let f' := apply_write jobID f (SetJobStatus jobID status summary) in
  (exists j', GetJob f' jobID = Ok j' /\ fj_Status j' = status /\ fj_Name j' = fj_Name j) /\
  servers f' = servers f /\ steps f' = steps f.
Proof.
  intros [Hj Hsj] Hst Hg. simpl. rewrite Hsj. unfold handleUpdateStatus.
  rewrite !(proj2 (streq_false _ _)) by done. simpl. rewrite (proj2 (streq_false _ _)) by done. simpl.
  split; [|done]. unfold GetJob in *. simpl. destruct (find (job_is jobID) (jobs f)) as [j0|] eqn:E; [|done].
  injection Hg as <-. rewrite find_map.
  rewrite (find_ext _ (job_is jobID))
    by (intros x; destruct (job_is jobID x) eqn:Ex; unfold job_is in *; simpl; by rewrite ?Ex).
  rewrite E. simpl. apply find_some in E as [_ E]. rewrite E. eauto.
Qed.
End Requests.

(** ** The specification: one verdict for each server and step *)

Section Verdicts.
Context (marshal : anymap -> result string string) (bad_url : string -> option string).
Context (gateway : string -> string -> nat -> HttpCall -> result string (Z * string)).
Context (text : string -> string) (cfg : runnerConfig) (def : JobDef).

Definition run_of (a : stageAssignment) : list Act * serverResult :=
  execute marshal bad_url gateway text cfg (sg_server a) (sg_stage a) (Steps def).

Definition server_verdict (a : stageAssignment) : string :=
  match res_err (run_of a).2 with
  | Some _ => "failed"
  | None => if existsb failed (res_steps (run_of a).2) then "partial" else "success"
  end.

Definition step_status (r : option stepResult) (y : string) : string :=
  match r with Some sr => if failed sr then "failed" else "success" | None => y end.

Definition step_verdict (a : stageAssignment) (i : nat) : string :=
  step_status (res_steps (run_of a).2 !! i) "pending".

(** ** The acts of one server *)

Definition own_act (n : string) (bound : nat) (a : Act) : Prop :=
  match a with
  | PatchServer s x _ => s = n /\ x <> ""
  | PatchStep s i x _ => s = n /\ x <> "" /\ i < bound
  | _ => True
  end.

Hypothesis has_auditd : auditURL cfg <> "".

Lemma patch_server_some n x o : patchServerStatus cfg n x o = [PatchServer n x o].
Proof. unfold patchServerStatus. by rewrite (proj2 (streq_false _ _)). Qed.
Lemma patch_step_some n i x o : patchStepStatus cfg n i x o = [PatchStep n i x o].
Proof. unfold patchStepStatus. by rewrite (proj2 (streq_false _ _)). Qed.
Lemma tool_result_some n st o :
  recordToolResult cfg n st o = [PostToolResult n (st_Tool st) o ("tr_flj_" ++ rc_jobID cfg)].
Proof. unfold recordToolResult. by rewrite (proj2 (streq_false _ _)). Qed.

Lemma last_server_app n t1 t2 y : last_server n (t1 ++ t2) y = last_server n t2 (last_server n t1 y).
Proof. apply fold_left_app. Qed.
Lemma last_step_app n i t1 t2 y : last_step n i (t1 ++ t2) y = last_step n i t2 (last_step n i t1 y).
Proof. apply fold_left_app. Qed.

(** What the loop writes: the status of every step it ran, and "failed" on the server
    when it stops. *)
Definition loop_writes (n : string) (idx bound : nat) (results : list stepResult) (acts : list Act)
    (rs : list stepResult) (stop : option string) : Prop :=
  Forall (own_act n bound) acts /\
  (forall y, last_server n acts y = match stop with Some _ => "failed" | None => y end) /\
  exists ran, rs = (results ++ ran)%list /\
    forall k y, last_step n (Z.of_nat k) acts y =
      if (k <? idx)%nat then y else step_status (ran !! (k - idx)) y.

Lemma loop_writes_cons n idx bound results sr pre acts rs stop : idx < bound ->
  Forall (own_act n bound) pre -> (forall y, last_server n pre y = y) ->
  (forall k y, last_step n (Z.of_nat k) pre y = if (k =? idx)%nat then step_status (Some sr) y else y) ->
  loop_writes n (S idx) bound (results ++ [sr]) acts rs stop ->
  loop_writes n idx bound results (pre ++ acts) rs stop.
Proof.
  intros Hb Hp Hs Hk (H1 & H2 & ran & -> & H3). split; [by apply Forall_app|]. split.
  - intros y. by rewrite last_server_app, Hs, H2.
  - exists (sr :: ran). rewrite <- app_assoc. split; [done|]. intros k y. rewrite last_step_app, Hk, H3.
    destruct (Nat.eqb_spec k idx) as [->|Hne].
    + rewrite Nat.ltb_irrefl, Nat.sub_diag, (proj2 (Nat.ltb_lt _ _)) by lia. done.
    + destruct (Nat.ltb_spec k idx).
      * by rewrite (proj2 (Nat.ltb_lt _ _)) by lia.
      * rewrite (proj2 (Nat.ltb_ge _ _)) by lia. by replace (k - idx) with (S (k - S idx)) by lia.
Qed.

Lemma last_step_patch n i x o k y :
  last_step n (Z.of_nat k) [PatchStep n i x o] y = if (k =? i)%nat then x else y.
Proof.
  simpl. rewrite streq_refl. simpl. destruct (Z.eqb_spec (Z.of_nat k) (Z.of_nat i)), (Nat.eqb_spec k i); done || lia.
Qed.

Lemma own_step_patch n i x o bound : x <> "" -> i < bound -> Forall (own_act n bound) [PatchStep n i x o].
Proof. intros Hx Hi. apply List.Forall_cons; [done|constructor]. Qed.

Lemma step_loop_writes n stage idx l results p acts rs stop q :
  step_loop marshal bad_url gateway text cfg n stage idx l results p = (acts, rs, stop, q) ->
  loop_writes n idx (idx + length l) results acts rs stop.
Proof.
  revert idx results p acts rs stop q. induction l as [|s l IH]; intros idx results p acts rs stop q; cbn [step_loop].
  - intros [= <- <- <- <-]. split_and!; [constructor|done|]. exists []. rewrite app_nil_r. split; [done|].
    intros k y. by destruct (k <? idx)%nat.
  - simpl length. rewrite Nat.add_succ_r, <- Nat.add_succ_l.
    destruct (callGatewayTool marshal bad_url gateway text cfg n stage idx s) as [[req out] err].
    set (call := match req with Some r => _ | None => _ end).
    assert (Hcall : Forall (own_act n (S idx + length l)) call) by (destruct req; by repeat constructor).
    assert (Hc1 : forall y, last_server n call y = y) by (by destruct req).
    assert (Hc2 : forall k y, last_step n (Z.of_nat k) call y = y) by (by destruct req).
    clearbody call. set (sr := {| stepIdx := idx; sr_tool := _; output := _; sr_err := _ |}).
    assert (Hpre : forall x post, x <> "" -> x = step_status (Some sr) x ->
      Forall (own_act n (S idx + length l)) post -> (forall y, last_server n post y = y) ->
      (forall k y, last_step n (Z.of_nat k) post y = y) ->
      forall acts rs stop, loop_writes n (S idx) (S idx + length l) (results ++ [sr]) acts rs stop ->
      loop_writes n idx (S idx + length l) results (call ++ PatchStep n idx x out :: (post ++ acts)) rs stop).
    { intros x post Hx Hst Hf H1 H2 acts' rs' stop'.
      replace (call ++ PatchStep n idx x out :: (post ++ acts'))%list
        with ((call ++ [PatchStep n idx x out] ++ post) ++ acts')%list by (by rewrite <- !app_assoc).
      apply loop_writes_cons; [lia| | |].
      - rewrite !Forall_app. split_and!; [done| |done]. apply own_step_patch; [done|lia].
      - intros y. rewrite !last_server_app, Hc1. apply H1.
      - intros k y. rewrite !last_step_app, Hc2, H2, last_step_patch, Hst. by destruct (k =? idx)%nat. }
    rewrite ?patch_step_some, ?patch_server_some, ?tool_result_some.
    destruct err as [e|].
    + destruct (continues s).
      * destruct (step_loop _ _ _ _ _ _ _ (S idx) l _ true) as [[[acts1 rs1] stop1] q1] eqn:E1.
        intros [= <- <- <- <-]. apply IH in E1. apply (Hpre "failed" []); done || constructor.
      * intros [= <- <- <- <-]. split_and!.
        -- apply Forall_app. split; [done|]. apply List.Forall_cons; [simpl; split_and!; [done|done|lia]|].
           by repeat constructor.
        -- intros y. rewrite last_server_app, Hc1. simpl. by rewrite streq_refl.
        -- exists [sr]. split; [done|]. intros k y. rewrite last_step_app, Hc2.
           change (PatchStep n idx "failed" out :: ?t) with ([PatchStep n idx "failed" out] ++ t)%list.
           rewrite last_step_app, last_step_patch. simpl.
           destruct (Nat.eqb_spec k idx) as [->|Hne].
           ++ by rewrite Nat.ltb_irrefl, Nat.sub_diag.
           ++ destruct (Nat.ltb_spec k idx); [done|]. by replace (k - idx) with (S (k - S idx)) by lia.
    + destruct (step_loop _ _ _ _ _ _ _ (S idx) l _ p) as [[[acts1 rs1] stop1] q1] eqn:E1.
      intros [= <- <- <- <-]. apply IH in E1.
      apply (Hpre "success" [PostToolResult n (st_Tool s) out ("tr_flj_" ++ rc_jobID cfg)]); (done || by repeat constructor).
Qed.

(** The acts of a server leave its verdict and the verdicts of its steps. *)
Lemma run_of_writes a :
  let n := sg_server a in
  Forall (own_act n (length (Steps def))) (run_of a).1 /\
  (forall y, last_server n (run_of a).1 y = server_verdict a) /\
  forall k y, last_step n (Z.of_nat k) (run_of a).1 y = step_status (res_steps (run_of a).2 !! k) y.
Proof.
  intros n. unfold server_verdict, run_of, execute, executeSteps.
  pose proof (step_loop_spec marshal bad_url gateway text cfg n (sg_stage a) 0 (Steps def) [] false) as Hspec.
  unfold loop_verdict in Hspec. fold n.
  destruct (step_loop _ _ _ _ _ _ _ 0 (Steps def) [] false) as [[[acts rs] stop] q] eqn:E.
  apply step_loop_writes in E as (H1 & H2 & ran & -> & H3). simpl in H1.
  rewrite !patch_server_some.
  assert (Hrun : own_act n (length (Steps def)) (PatchServer n "running" "")) by done.
  destruct stop as [e|]; cbn [fst snd res_err res_steps].
  - split; [by constructor|]. split; [|].
    + intros y. rewrite last_server_app. by rewrite H2.
    + intros k y. rewrite last_step_app, H3. simpl. by rewrite Nat.sub_0_r.
  - destruct Hspec as (_ & Hrs & Hq). simpl in Hrs, Hq. split; [|split].
    + rewrite !Forall_app. split_and!; [by constructor|done|]. repeat constructor. by destruct q.
    + intros y. rewrite !last_server_app. simpl. rewrite streq_refl. rewrite Hrs. by subst q.
    + intros k y. rewrite !last_step_app, H3. simpl. by rewrite Nat.sub_0_r.
Qed.

(** ** Interleavings *)

(** The acts that change the records of a server. *)
Definition patches (n : string) (a : Act) : bool :=
  match a with PatchServer s _ _ | PatchStep s _ _ _ => n =?s s | _ => false end.

Abbreviation on n := (List.filter (patches n)).

Lemma last_server_on n t y : last_server n (on n t) y = last_server n t y.
Proof.
  revert y. induction t as [|a t IH]; intros y; simpl; [done|].
  destruct a as [| s x o | s i x o | |]; simpl; try apply IH; destruct (n =?s s) eqn:E; simpl; rewrite ?E; apply IH.
Qed.

Lemma last_step_on n i t y : last_step n i (on n t) y = last_step n i t y.
Proof.
  revert y. induction t as [|a t IH]; intros y; simpl; [done|].
  destruct a as [| s x o | s k x o | |]; simpl; try apply IH; destruct (n =?s s) eqn:E; simpl; rewrite ?E; apply IH.
Qed.

Lemma own_on n m bound t : n <> m -> Forall (own_act m bound) t -> on n t = [].
Proof.
  intros Hne. induction 1 as [|a t Ha _ IH]; simpl; [done|].
  destruct a as [| s x o | s i x o | |]; simpl in *; try done; destruct Ha as [-> _]; by rewrite (proj2 (streq_false _ _)).
Qed.

(** The acts on a server in the runs of these assignments. *)
Definition acts_on (n : string) (l : list stageAssignment) : list Act := flat_map (fun a => on n (run_of a).1) l.

Lemma acts_on_other n l : ~ In n (map sg_server l) -> acts_on n l = [].
Proof.
  induction l as [|a l IH]; simpl; [done|]. intros H. rewrite IH by tauto.
  rewrite (own_on n (sg_server a) (length (Steps def))); [done|intros ->; tauto|apply run_of_writes].
Qed.

Lemma acts_on_one n l a : NoDup (map sg_server l) -> In a l -> sg_server a = n -> acts_on n l = on n (run_of a).1.
Proof.
  induction l as [|b l IH]; simpl; [done|]. intros [Hb Hnd]%NoDup_cons [->|Hin] Hn.
  - rewrite acts_on_other, app_nil_r; [done|]. by rewrite <- Hn, <- list_elem_of_In.
  - rewrite IH by done. rewrite (own_on n (sg_server b) (length (Steps def))); [done| |apply run_of_writes].
    intros ->. apply Hb. rewrite <- Hn. apply list_elem_of_In. by apply in_map.
Qed.

Lemma shuffle_perm bs t : shuffle bs t -> t ≡ₚ concat bs.
Proof.
  induction 1 as [bs Hbs|bs1 a b bs2 t _ IH].
  - induction Hbs as [|b bs -> _ IH]; [done|]. exact IH.
  - rewrite IH, !concat_app. simpl. by rewrite Permutation_middle.
Qed.

Lemma on_perm n t t' : t ≡ₚ t' -> on n t ≡ₚ on n t'.
Proof.
  induction 1 as [|x l l' _ IH|x y l|l1 l2 l3 _ IH1 _ IH2]; simpl; [done| | |by rewrite IH1].
  - destruct (patches n x); by rewrite IH.
  - destruct (patches n x), (patches n y); try done. apply Permutation_swap.
Qed.

Lemma on_sublist n (t t' : list Act) : t `sublist_of` t' -> on n t `sublist_of` on n t'.
Proof.
  induction 1 as [|x l l' _ IH|x l l' _ IH]; simpl; [done| |]; destruct (patches n x); try done.
  - by apply sublist_skip.
  - by apply sublist_cons.
Qed.

Lemma on_concat n bs : on n (concat bs) = concat (map (on n) bs).
Proof. induction bs as [|b bs IH]; simpl; [done|]. by rewrite List.filter_app, IH. Qed.

(** When one of the interleaved lists has all acts on a server, they keep their order. *)
Lemma shuffle_on n bs t b : shuffle bs t -> In b bs -> on n (concat bs) = on n b -> on n t = on n b.
Proof.
  intros Hsh Hb Hone. pose proof (on_sublist n b t (shuffle_sublist _ _ _ Hsh Hb)) as Hs.
  symmetry. apply (sublist_full _ _ Hs).
  rewrite (Permutation_length (on_perm n _ _ (shuffle_perm _ _ Hsh))). by rewrite Hone.
Qed.

Lemma phase_on n p t : genuine marshal bad_url gateway text cfg def p -> phase_run p t ->
  NoDup (map sg_server (visits p)) -> on n t = acts_on n (visits p).
Proof.
  intros Hg Hr Hnd. destruct Hr as [rt acts|s acts|name bs t Hsh|z]; simpl in Hg.
  - by destruct Hg as (c & b & z & ->).
  - subst acts. unfold acts_on, run_of. simpl. by rewrite app_nil_r.
  - assert (Hbs : bs = map (fun a => (sg_server a, (run_of a).1)) (visits (Wave name bs))).
    { clear Hsh Hnd. induction Hg as [|[s b] bs Hb _ IH]; [done|]. simpl. unfold run_of at 1. simpl in Hb |- *.
      rewrite <- Hb. f_equal. exact IH. }
    assert (Hcat : on n (concat (map snd bs)) = acts_on n (visits (Wave name bs))).
    { rewrite on_concat, Hbs at 1. unfold acts_on. by rewrite flat_map_concat_map, !map_map. }
    destruct (decide (n ∈ map sg_server (visits (Wave name bs)))) as [Hin|Hout].
    + apply list_elem_of_In, in_map_iff in Hin as (a & Hn & Ha).
      pose proof (acts_on_one n _ a Hnd Ha Hn) as E. rewrite E in *.
      apply (shuffle_on n _ _ _ Hsh); [|done]. rewrite Hbs, map_map. by apply (in_map (fun a => (run_of a).1)).
    + rewrite list_elem_of_In in Hout. pose proof (acts_on_other n _ Hout) as E. rewrite E in *.
      pose proof (on_perm n _ _ (shuffle_perm _ _ Hsh)) as Hp. rewrite Hcat in Hp.
      by apply Permutation_nil_r in Hp.
  - done.
Qed.

Lemma linear_on n phases t : Forall (genuine marshal bad_url gateway text cfg def) phases -> linear phases t ->
  NoDup (map sg_server (visited phases)) -> on n t = acts_on n (visited phases).
Proof.
  intros Hg Hl. induction Hl as [|p ps t1 t2 Hp _ IH]; [done|].
  apply List.Forall_cons_iff in Hg as [Hg1 Hg2].
  replace (visited (p :: ps)) with (visits p ++ visited ps)%list by done.
  rewrite map_app. intros (Hn1 & _ & Hn2)%NoDup_app.
  unfold acts_on. rewrite flat_map_app. rewrite List.filter_app. rewrite (phase_on n p t1), IH by done. done.
Qed.
End Verdicts.

(** ** Every act of a run is an update of a server worked on *)

Definition act_within (names : list string) (bound : nat) (a : Act) : Prop :=
  match a with
  | PatchServer s x _ => In s names /\ x <> ""
  | PatchStep s i x _ => In s names /\ x <> "" /\ i < bound
  | _ => True
  end.

Lemma own_within n names bound t : In n names -> Forall (own_act n bound) t -> Forall (act_within names bound) t.
Proof.
  intros Hn. apply List.Forall_impl. intros [| s x o | s i x o | |]; simpl; try done; by intros [-> ?].
Qed.

Lemma within_more names names' bound t : incl names names' ->
  Forall (act_within names bound) t -> Forall (act_within names' bound) t.
Proof.
  intros Hi. apply List.Forall_impl. intros [| s x o | s i x o | |]; simpl; try done; intros [? ?]; auto.
Qed.

Lemma assign_from_servers t c w i l : map sg_server (assign_from t c w i l) = l.
Proof. revert i. induction l as [|s l IH]; intros i; simpl; [done|]. by rewrite IH. Qed.

Lemma assignments_servers servers strategy : map sg_server (buildStageAssignments servers strategy) = servers.
Proof. apply assign_from_servers. Qed.

Lemma assign_from_stage t c w i l a : In a (assign_from t c w i l) -> sg_stage a <> "".
Proof.
  revert i. induction l as [|s l IH]; intros i; simpl; [done|]. intros [<-|Hin]; [|by eapply IH].
  simpl. unfold assign_stage. by destruct (c <=? i)%Z.
Qed.

Section Within.
Context (marshal : anymap -> result string string) (bad_url : string -> option string).
Context (gateway : string -> string -> nat -> HttpCall -> result string (Z * string)).
Context (text : string -> string) (cfg : runnerConfig) (def : JobDef) (has_auditd : auditURL cfg <> "").

Lemma linear_within phases t : Forall (genuine marshal bad_url gateway text cfg def) phases -> linear phases t ->
  Forall (act_within (map sg_server (visited phases)) (length (Steps def))) t.
Proof.
  intros Hg Hl. induction Hl as [|p ps t1 t2 Hp _ IH]; [constructor|].
  apply List.Forall_cons_iff in Hg as [Hg Hgs]. specialize (IH Hgs).
  replace (visited (p :: ps)) with (visits p ++ visited ps)%list by done. rewrite map_app. apply Forall_app.
  split; [|eapply within_more; [|exact IH]; apply incl_appr, incl_refl].
  apply (within_more (map sg_server (visits p))); [apply incl_appl, incl_refl|].
  pose proof (fun s st => run_of_writes marshal bad_url gateway text cfg def has_auditd
    {| sg_server := s; sg_stage := st |}) as Hown.
  destruct Hp as [rt acts|s acts|name bs t Hsh|z]; simpl in Hg.
  - destruct Hg as (c & b & z & ->). by repeat constructor.
  - subst acts. apply (own_within s); [by left|]. apply (Hown s "canary").
  - rewrite List.Forall_forall in Hg |- *. intros x Hx. destruct (shuffle_In _ _ _ Hsh Hx) as (b' & Hb' & Ha).
    apply in_map_iff in Hb' as (b & <- & Hb).
    assert (Hw : Forall (act_within (map sg_server (visits (Wave name bs))) (length (Steps def))) b.2).
    { rewrite (Hg b Hb). apply (own_within b.1); [|apply (Hown b.1 name)].
      apply in_map_iff. exists {| sg_server := b.1; sg_stage := name |}. split; [done|]. simpl.
      by apply (in_map (fun b : string * list Act => {| sg_server := b.1; sg_stage := name |})). }
    rewrite List.Forall_forall in Hw. by apply Hw.
  - constructor.
Qed.
End Within.

#[global] Instance stageAssignment_eq_dec : EqDecision stageAssignment.
Proof. solve_decision. Defined.

(** ** The refinement *)

Section Refinement.
Context (segment : string -> option string) (stamp : Act -> string * string).
Context (job_json submitted_by : string) (submitted_at now : Time) (uuid8 : string).
Context (marshal : anymap -> result string string) (bad_url : string -> option string).
Context (gateway : string -> string -> nat -> HttpCall -> result string (Z * string)).
Context (text : string -> string) (decode_id : string -> result string string).
Context (post : string -> result string (Z * string)).
Context (start : string -> Time) (polls : string -> nat -> PollTick) (fuel : string -> nat).
Context (pause_done : string -> bool) (cfg : runnerConfig) (def : JobDef).

Abbreviation on n := (List.filter (patches n)).

(** What the records of a job should say: the verdict of every server the rollout
    worked on, and "pending" for the others. *)
Definition recorded_server (phases : list Phase) (a : stageAssignment) : string :=
  if decide (a ∈ visited phases) then server_verdict marshal bad_url gateway text cfg def a else "pending".

Definition recorded_step (phases : list Phase) (a : stageAssignment) (i : nat) : string :=
  if decide (a ∈ visited phases) then step_verdict marshal bad_url gateway text cfg def a i else "pending".

(** The job's writes before, the acts of the run, the writes after. *)
Definition records_after (f0 : FleetStore) (assignments : list stageAssignment) (t : list Act)
    (status summary : string) : FleetStore :=
  let jobID := rc_jobID cfg in
  let write := apply_writes segment job_json submitted_by submitted_at now uuid8 jobID in
  let f1 := write f0 (submitJob (Ok jobID) (gatewayURL cfg) def assignments).1 in
  write (apply_acts segment stamp jobID f1 t) (finalizeJob (auditURL cfg) jobID status summary).

(** No record of the job yet. *)
Definition fresh (f0 : FleetStore) (jobID : string) : Prop :=
  GetJob f0 jobID = Err "fleet job not found" /\ server_view f0 jobID = [] /\
  forall n, step_rows f0 jobID n = [].

(** What the requests need to pass the checks of the handlers. *)
Definition requests_ok (servers : list string) : Prop :=
  gatewayURL cfg <> "" /\ auditURL cfg <> "" /\ j_Name def <> "" /\ submitted_by <> "" /\ job_json <> "" /\
  segment_ok segment (rc_jobID cfg) /\ Forall (segment_ok segment) servers /\
  Forall (fun st => st_Tool st <> "") (Steps def) /\ (Z.of_nat (length (Steps def)) <= 2 ^ 63)%Z.

Lemma server_view_with_jobs l f jobID : server_view (with_jobs l f) jobID = server_view f jobID.
Proof. done. Qed.

(** The records once the job is submitted. *)
Lemma submitted_records f0 servers : NoDup servers -> requests_ok servers ->
  rc_jobID cfg = "flj_" ++ uuid8 -> fresh f0 (rc_jobID cfg) ->
  let assignments := buildStageAssignments servers (j_Strategy def) in
  let f1 := apply_writes segment job_json submitted_by submitted_at now uuid8 (rc_jobID cfg) f0
              (submitJob (Ok (rc_jobID cfg)) (gatewayURL cfg) def assignments).1 in
  (exists j, GetJob f1 (rc_jobID cfg) = Ok j /\ fj_Name j = j_Name def) /\
  server_view f1 (rc_jobID cfg) = map (fun a => (sg_server a, sg_stage a, "pending")) assignments /\
  forall n, step_rows f1 (rc_jobID cfg) n =
    if mem n servers then imap (fun i st => (Z.of_nat i, st_Tool st, "pending")) (Steps def) else [].
Proof.
  intros Hnd (Hg & Ha & Hn & Hs & Hjs & Hseg & Hsegs & Htools & _) Hid (Hf1 & Hf2 & Hf3) assignments f1.
  pose proof (assignments_servers servers (j_Strategy def)) as Has. fold assignments in Has.
  revert f1. unfold submitJob. rewrite (proj2 (streq_false _ _) Hg), (proj2 (streq_false _ _) (proj1 Hseg)). cbn [fst].
  set (ws := (map _ assignments ++ _)%list).
  unfold apply_writes. cbn [fold_left].
  rewrite Hid in Hf1. pose proof (create_fresh segment job_json submitted_by submitted_at now uuid8 f0
    (j_Name def) (PlanTraceID def) Hn Hs Hjs Hf1) as Hc. rewrite <- Hid in Hc, Hf1. rewrite Hc.
  set (job := complete_job now uuid8 _). set (fc := with_jobs _ f0).
  assert (Hjob : fj_JobID job = rc_jobID cfg) by (rewrite Hid; done).
  assert (Hk : unknown_job fc (rc_jobID cfg) = false).
  { unfold unknown_job. apply andb_false_intro2, negb_false_iff, existsb_exists. exists job.
    split; [apply in_or_app; right; by left|]. unfold job_is. by rewrite Hjob, streq_refl. }
  assert (Hws : Forall (registers segment) ws).
  { unfold ws, registered_steps. apply Forall_app. split; apply List.Forall_forall; intros w.
    - intros (a & <- & Hin)%in_map_iff. simpl. split; [|by eapply assign_from_stage].
      rewrite <- Has in Hsegs. rewrite List.Forall_forall in Hsegs.
      by destruct (Hsegs (sg_server a) (in_map sg_server _ _ Hin)).
    - rewrite Has. intros (s & Hins & Hin)%in_flat_map.
      apply list_elem_of_In, elem_of_lookup_imap in Hin as (i & st & -> & Hst). simpl.
      rewrite List.Forall_forall in Hsegs, Htools. split; [by apply Hsegs|]. apply Htools.
      apply list_elem_of_In. by apply list_elem_of_lookup_2 in Hst. }
  destruct (registration segment job_json submitted_by submitted_at now uuid8 (rc_jobID cfg) fc ws Hseg Hk Hws)
    as (_ & Hjobs & Hview & Hrows).
  change (fold_left _ ws fc) with (apply_writes segment job_json submitted_by submitted_at now uuid8 (rc_jobID cfg) fc ws).
  split_and!.
  - exists job. split; [|done]. unfold GetJob in *. rewrite Hjobs. simpl. rewrite find_app_first.
    destruct (find _ (jobs f0)); [done|]. simpl. unfold job_is. by rewrite Hjob, streq_refl.
  - rewrite Hview. unfold ws. rewrite new_servers_registered. change (server_view fc (rc_jobID cfg)) with
      (server_view f0 (rc_jobID cfg)). by rewrite Hf2.
  - intros n. rewrite Hrows. unfold ws. rewrite new_steps_registered by by rewrite Has.
    rewrite Has. change (step_rows fc (rc_jobID cfg) n) with (step_rows f0 (rc_jobID cfg) n). by rewrite Hf3.
Qed.

(** The verdicts are what the interleaved acts leave on the records. *)
Lemma run_leaves phases t l a : auditURL cfg <> "" ->
  Forall (genuine marshal bad_url gateway text cfg def) phases -> linear phases t ->
  visited phases `prefix_of` l -> NoDup (map sg_server l) -> In a l ->
  last_server (sg_server a) t "pending" = recorded_server phases a /\
  forall i, last_step (sg_server a) (Z.of_nat i) t "pending" = recorded_step phases a i.
Proof.
  intros Hu Hg Hl [rest ->] Hnd Hin.
  assert (Hndv : NoDup (map sg_server (visited phases))) by (rewrite map_app in Hnd; by apply NoDup_app in Hnd as [? _]).
  pose proof (linear_on marshal bad_url gateway text cfg def Hu (sg_server a) phases t Hg Hl Hndv) as Hon.
  pose proof (run_of_writes marshal bad_url gateway text cfg def Hu a) as (_ & Hs & Hk).
  assert (E : on (sg_server a) t =
    if decide (a ∈ visited phases) then on (sg_server a) (run_of marshal bad_url gateway text cfg def a).1 else []).
  { rewrite Hon. destruct (decide (a ∈ visited phases)) as [Hv|Hv].
    - apply acts_on_one; [done|done|by apply list_elem_of_In|done].
    - apply acts_on_other; [done|]. rewrite list_elem_of_In in Hv. apply in_app_or in Hin as [Hin|Hin]; [done|].
      intros Hc. rewrite map_app in Hnd. apply NoDup_app in Hnd as (_ & Hd & _).
      apply (Hd (sg_server a)); apply list_elem_of_In; [done|by apply in_map]. }
  unfold recorded_server, recorded_step. rewrite <- last_server_on, E. split.
  - destruct (decide _); [by rewrite last_server_on, Hs|done].
  - intros i. rewrite <- last_step_on, E. destruct (decide _); [by rewrite last_step_on, Hk|done].
Qed.

Lemma imap_sorted {A B} (k : nat -> A -> B) (key : B -> Z) l : (forall i x, key (k i x) = Z.of_nat i) ->
  sorted_by (fun a b => (key a <? key b)%Z) (imap k l).
Proof.
  intros Hkey. assert (H : forall o, (forall i x, key (k i x) = Z.of_nat (o + i)) ->
    sorted_by (fun a b => (key a <? key b)%Z) (imap k l)); [|by apply (H 0)].
  clear Hkey. revert k. induction l as [|x l IH]; intros k o Hkey; [constructor|]. simpl. constructor.
  - apply (IH (k ∘ S) (S o)). intros i y. simpl. rewrite Hkey. lia.
  - apply List.Forall_forall. intros y Hy.
    apply list_elem_of_In, elem_of_lookup_imap in Hy as (i & z & -> & _).
    apply Z.ltb_ge. simpl. rewrite !Hkey. lia.
Qed.

Lemma map_imap {A B C} (g : B -> C) (k : nat -> A -> B) l : map g (imap k l) = imap (fun i x => g (k i x)) l.
Proof. revert k. induction l as [|x l IH]; intros k; simpl; [done|]. f_equal. apply (IH (k ∘ S)). Qed.

(** The acts of a run pass the checks of the handlers. *)
Lemma run_acts_ok servers phases t : requests_ok servers ->
  Forall (genuine marshal bad_url gateway text cfg def) phases -> linear phases t ->
  incl (map sg_server (visited phases)) servers -> Forall (act_ok segment) t.
Proof.
  intros (_ & Hu & _ & _ & _ & _ & Hsegs & _ & Hlen) Hg Hl Hi.
  eapply List.Forall_impl; [|apply (linear_within marshal bad_url gateway text cfg def Hu phases t Hg Hl)].
  rewrite List.Forall_forall in Hsegs.
  intros [| s x o | s i x o | |]; simpl; try done.
  - intros [Hs Hx]. split; [by apply Hsegs, Hi|done].
  - intros (Hs & Hx & Hb). split_and!; [by apply Hsegs, Hi|done|lia].
Qed.

(** After the last writes the tables of servers and steps are unchanged and the job has
    its final status. *)
Lemma finalized f jobID status summary j : segment_ok segment jobID -> status <> "" -> auditURL cfg <> "" ->
  GetJob f jobID = Ok j ->
  let f' := apply_writes segment job_json submitted_by submitted_at now uuid8 jobID f
              (finalizeJob (auditURL cfg) jobID status summary) in
  (exists j', GetJob f' jobID = Ok j' /\ fj_Status j' = status /\ fj_Name j' = fj_Name j) /\
  servers f' = servers f /\ steps f' = steps f.
Proof.
  intros Hseg Hst Hu Hj. unfold finalizeJob, apply_writes. rewrite (proj2 (streq_false _ _) Hu). cbn [fold_left].
  pose proof (set_status segment job_json submitted_by submitted_at now uuid8 jobID f status summary j Hseg Hst Hj) as H.
  destruct (status =?s "completed"); exact H.
Qed.

(** C14 (refinement). What auditd records of a rollout, whatever the interleaving of the
    concurrent servers: the job has the final status, every server has one record with
    its planned stage, and its status is the verdict of [executeSteps] on it alone, or
    "pending" when the rollout did not reach it; the records of a server's steps, in
    order, say which of them ran and how they ended. *)
Theorem records_refine_rollout f0 servers phases err t status summary
    (Hnd : NoDup servers) (Hok : requests_ok servers)
    (Hid : rc_jobID cfg = "flj_" ++ uuid8) (Hfresh : fresh f0 (rc_jobID cfg)) (Hst : status <> "")
    (Hrun : runStages marshal bad_url gateway text decode_id post start polls fuel pause_done
              cfg def servers = Returns (phases, err))
    (Ht : linear phases t) :
  let assignments := buildStageAssignments servers (j_Strategy def) in
  let f := records_after f0 assignments t status summary in
  (exists j, GetJob f (rc_jobID cfg) = Ok j /\ fj_Name j = j_Name def /\ fj_Status j = status) /\
  server_view f (rc_jobID cfg) =
    map (fun a => (sg_server a, sg_stage a, recorded_server phases a)) assignments /\
  forall a, In a assignments ->
    step_view f (rc_jobID cfg) (sg_server a) =
    imap (fun i st => (Z.of_nat i, st_Tool st, recorded_step phases a i)) (Steps def).
Proof.
  intros assignments f.
  pose proof Hok as (_ & Hu & _ & _ & _ & Hseg & _).
  destruct (rollout_visits marshal bad_url gateway text decode_id post start polls fuel pause_done cfg def
              servers phases err Hrun) as [Hpre _]. fold assignments in Hpre.
  pose proof (assignments_servers servers (j_Strategy def)) as Has. fold assignments in Has.
  apply runStages_genuine in Hrun.
  assert (Hacts : Forall (act_ok segment) t).
  { apply (run_acts_ok servers phases); [done|done|done|]. rewrite <- Has. destruct Hpre as [rest Hpre].
    rewrite Hpre, map_app. apply incl_appl, incl_refl. }
  destruct (submitted_records f0 servers Hnd Hok Hid Hfresh) as ((j & Hj & Hname) & Hsv & Hsr).
  fold assignments in Hj, Hsv, Hsr. set (f1 := apply_writes _ _ _ _ _ _ _ f0 _) in *.
  destruct (acts_views segment stamp (rc_jobID cfg) t f1 Hseg Hacts) as (Hjobs & Hv & Hr).
  set (f2 := apply_acts _ _ _ f1 t) in *.
  assert (Hf : f = apply_writes segment job_json submitted_by submitted_at now uuid8 (rc_jobID cfg) f2
                     (finalizeJob (auditURL cfg) (rc_jobID cfg) status summary)) by reflexivity.
  assert (Hj2 : GetJob f2 (rc_jobID cfg) = Ok j) by (unfold GetJob in *; by rewrite Hjobs).
  destruct (finalized f2 (rc_jobID cfg) status summary j Hseg Hst Hu Hj2) as ((j' & Hj' & Hs' & Hn') & Hservers & Hsteps).
  rewrite <- Hf in Hj', Hservers, Hsteps. clearbody f.
  pose proof (run_leaves phases t assignments) as Hleaves. rewrite Has in Hleaves.
  split_and!.
  - exists j'. by rewrite Hn', Hs'.
  - unfold server_view, GetJobServers in *. rewrite Hservers, Hv, Hsv, map_map. apply map_ext_in.
    intros a Hin. by destruct (Hleaves a Hu Hrun Ht Hpre Hnd Hin) as [-> _].
  - intros a Hin. destruct (Hleaves a Hu Hrun Ht Hpre Hnd Hin) as [_ Hstep].
    rewrite step_view_sorted. unfold step_rows in *. rewrite Hsteps, Hr, Hsr.
    rewrite (proj2 (mem_spec _ _)) by (rewrite <- Has; by apply in_map).
    rewrite map_imap. rewrite (imap_ext _ (fun i st => (Z.of_nat i, st_Tool st, recorded_step phases a i)))
      by (intros i st _; by rewrite Hstep).
    apply isort_sorted_id. by apply (imap_sorted _ (fun r => r.1.1)).
Qed.
End Refinement.

(** ** A rollout stopped by its breaker *)

Lemma shuffle_empty_branch bs t : shuffle bs t -> shuffle ([] :: bs) t.
Proof.
  induction 1 as [bs Hbs|bs1 a b bs2 t _ IH]; [constructor; by constructor|].
  by apply (shuffle_cons ([] :: bs1)).
Qed.

Lemma shuffle_concat bs : shuffle bs (concat bs).
Proof.
  induction bs as [|b bs IH]; [by constructor|]. simpl.
  induction b as [|a b IHb]; simpl; [by apply shuffle_empty_branch|]. by apply (shuffle_cons []).
Qed.

(** The servers of a wave one after another. *)
Definition sequential (phases : list Phase) : list Act :=
  flat_map (fun p => match p with
    | Gate _ acts | Canary _ acts => acts
    | Wave _ bs => concat (map snd bs)
    | PauseBetween _ => [] end) phases.

Lemma sequential_linear phases : linear phases (sequential phases).
Proof.
  induction phases as [|p ps IH]; simpl; constructor; [|done].
  destruct p; constructor. apply shuffle_concat.
Qed.

Definition breaker_servers : list string := ["a"; "b"; "c"; "d"; "e"].
Definition breaker_cfg : runnerConfig := sample_cfg "http://auditd".
Definition breaker_phases : list Phase :=
  match sample_run breaker_cfg (sample_job 1 2) breaker_servers with Returns (p, _) => p | Panics => [] end.

Definition breaker_records : FleetStore :=
  records_after Some (fun _ => ("", "")) "{}" "alice" 0 0 "1" breaker_cfg (sample_job 1 2) (NewFleetStore true)
    (buildStageAssignments breaker_servers (j_Strategy (sample_job 1 2))) (sequential breaker_phases)
    "failed" "Failed: circuit breaker".

Example breaker_views :
  server_view breaker_records "flj_1" =
    [("a", "canary", "success"); ("b", "wave-1", "success"); ("c", "wave-1", "failed");
     ("d", "wave-2", "pending"); ("e", "wave-2", "pending")] /\
  step_view breaker_records "flj_1" "c" = [(0%Z, "restart_deployment", "failed")] /\
  step_view breaker_records "flj_1" "d" = [(0%Z, "restart_deployment", "pending")].
Proof. vm_compute. split_and!; reflexivity. Qed.

Lemma records_refine_rollout_witness :
  server_view breaker_records "flj_1" =
    map (fun a => (sg_server a, sg_stage a,
           recorded_server sample_marshal (fun _ => None) sample_gateway (fun _ => "") breaker_cfg
             (sample_job 1 2) breaker_phases a))
      (buildStageAssignments breaker_servers (j_Strategy (sample_job 1 2))).
Proof.
  eapply (records_refine_rollout Some (fun _ => ("", "")) "{}" "alice" 0 0 "1" sample_marshal (fun _ => None)
    sample_gateway (fun _ => "") (fun b => Ok b) (fun _ => Ok (201%Z, "apr_1")) (fun _ => 0%Z) sample_polls
    (fun _ => poll_fuel 0 (5 * Second)) (fun _ => false) breaker_cfg (sample_job 1 2) (NewFleetStore true)
    breaker_servers breaker_phases).
  - apply (bool_decide_unpack _). vm_compute. exact I.
  - unfold requests_ok, segment_ok. repeat split; try discriminate; repeat constructor; discriminate.
  - reflexivity.
  - repeat split.
  - discriminate.
  - vm_compute. reflexivity.
  - apply sequential_linear.
Defined.
