(* ===== verification/PlaybookText.v ===== *)
(** * cmd/gateway/playbooks.go: reading an agent's answer

    The signal lines of the response protocol ([parseAgentEscalation] with its
    fallback on conclusions, [findingsRecommendMonitor]), the hypotheses
    ([parseDiagnosticReport], [matchHypothesisLine]) and what the gateway makes of
    their confidence ([lowConfidenceForceGate], [confidenceWarning],
    [mergeDiagnosticReports]), with the connection strings compared by
    [checkTargetScope].  The two regular expressions are written out as the tests they
    stand for, on ASCII letters.  [ParseFloat] covers decimal notation, infinities and
    NaN; hexadecimal floats are not accepted. *)

From Stdlib Require Import SpecFloat.
From S2P Require Import Prelude GoTime GoFormat.

Open Scope string_scope.

(** ** The diagnostic report *)

Record DiagnosticHypothesis := {
  h_Rank : Z;
  h_Text : string;
  h_Confidence : spec_float;
  h_Evidence : string;
  h_RejectedReason : string;
  h_IsPrimary : bool }.

Record DiagnosticReport := {
  Hypotheses : list DiagnosticHypothesis;
  RootCause : string;
  ActionTaken : string }.

(** ** Strings *)

(** [strings.Index]. *)
Fixpoint index_from (i : nat) (s sub : string) : option nat :=
  if has_prefix s sub then Some i
  else match s with String _ s' => index_from (S i) s' sub | EmptyString => None end.

Definition str_index (s sub : string) : option nat := index_from 0 s sub.

(** [strings.Split] at a separator of several bytes; [skip] bytes of the current
    separator are still to be dropped. *)
Fixpoint split_go (sep : string) (skip : nat) (acc s : string) : list string :=
  match s with
  | EmptyString => [acc]
  | String c s' =>
      match skip with
      | S k => split_go sep k acc s'
      | O =>
          if has_prefix s sep then acc :: split_go sep (pred (String.length sep)) "" s'
          else split_go sep 0 (acc ++ String c "") s'
      end
  end.

Definition split_str (sep s : string) : list string := split_go sep 0 "" s.

(** [strings.NewReplacer(...).Replace]: at each position the first old text wins. *)
Fixpoint replace_go (pairs : list (string * string)) (skip : nat) (s : string) : string :=
  match s with
  | EmptyString => EmptyString
  | String c s' =>
      match skip with
      | S k => replace_go pairs k s'
      | O =>
          match find (fun p => has_prefix s p.1) pairs with
          | Some (old, new) => new ++ replace_go pairs (pred (String.length old)) s'
          | None => String c (replace_go pairs 0 s')
          end
      end
  end.

Definition newline : ascii := ascii_of_N 10.
Definition quote_mark : ascii := ascii_of_N 34.

(** [strings.TrimRight(s, "\n")] *)
Definition trim_right_newlines (s : string) : string :=
  String.rev (trim_left_set (Ascii.eqb newline) (String.rev s)).

Definition has_suffix (s suffix : string) : bool := has_prefix (String.rev s) (String.rev suffix).

(** [strings.CutPrefix] *)
Definition cut_prefix (s p : string) : option string :=
  if has_prefix s p then Some (drop_bytes (String.length p) s) else None.

(** The bytes before the first one of a set. *)
Fixpoint before_any (inset : ascii -> bool) (s : string) : string :=
  match s with
  | String c s' => if inset c then EmptyString else String c (before_any inset s')
  | EmptyString => EmptyString
  end.

(** ** [strconv.ParseFloat(s, 64)] *)

(** The nearest float64 of [m / d], for positive [d]: enough bits of the quotient with
    a sticky bit below them. *)
Definition float_quotient (neg : bool) (m d : Z) : spec_float :=
  if (m =? 0)%Z then S754_zero neg
  else
    let shift := (64 + Z.log2 d)%Z in
    let q := (m * 2 ^ shift / d)%Z in
    let sticky := if ((m * 2 ^ shift) mod d =? 0)%Z then 0%Z else 1%Z in
    let x := binary_normalize 53 1024 (2 * q + sticky) (- shift - 1) false in
    if neg then SFopp x else x.

(** The digits of a mantissa: its value, the number of digits, and the rest. *)
Fixpoint mantissa (v n : Z) (s : string) : Z * Z * string :=
  match s with
  | String c s' =>
      if ascii_digit c then mantissa (v * 10 + digit_of c) (n + 1) s' else (v, n, s)
  | EmptyString => (v, n, s)
  end.

(** An exponent part, or nothing. *)
Definition exponent (s : string) : option Z :=
  match s with
  | EmptyString => Some 0%Z
  | String c s' => if Ascii.eqb c "e" || Ascii.eqb c "E" then atoi s' else None
  end.

Definition parse_decimal (neg : bool) (s : string) : option spec_float :=
  let '(v1, n1, r1) := mantissa 0 0 s in
  let '(v2, n2, r2) :=
    match r1 with
    | String "." r => mantissa v1 0 r
    | _ => (v1, 0%Z, r1)
    end in
  if (n1 + n2 =? 0)%Z then None
  else
    match exponent r2 with
    | None => None
    | Some e =>
        let x :=
          if (0 <=? e - n2)%Z then float_quotient neg (v2 * 10 ^ (e - n2)) 1
          else float_quotient neg v2 (10 ^ (n2 - e)) in
        match x with S754_infinity _ => None | _ => Some x end
    end.

Definition ParseFloat (s : string) : option spec_float :=
  let '(neg, ds) :=
    match s with
    | String "-" s' => (true, s')
    | String "+" s' => (false, s')
    | _ => (false, s)
    end in
  let word := to_lower ds in
  if (word =?s "inf") || (word =?s "infinity") then Some (S754_infinity neg)
  else if to_lower s =?s "nan" then Some S754_nan
  else parse_decimal neg ds.

(** ** Hypotheses *)

Definition blank_hypothesis (rank : Z) (text : string) : DiagnosticHypothesis :=
  {| h_Rank := rank; h_Text := text; h_Confidence := S754_zero false; h_Evidence := "";
     h_RejectedReason := ""; h_IsPrimary := false |}.

Definition set_confidence (c : spec_float) (h : DiagnosticHypothesis) : DiagnosticHypothesis :=
  {| h_Rank := h_Rank h; h_Text := h_Text h; h_Confidence := c; h_Evidence := h_Evidence h;
     h_RejectedReason := h_RejectedReason h; h_IsPrimary := h_IsPrimary h |}.

Definition set_evidence (ev : string) (h : DiagnosticHypothesis) : DiagnosticHypothesis :=
  {| h_Rank := h_Rank h; h_Text := h_Text h; h_Confidence := h_Confidence h; h_Evidence := ev;
     h_RejectedReason := h_RejectedReason h; h_IsPrimary := h_IsPrimary h |}.

Definition set_rejected (r : string) (h : DiagnosticHypothesis) : DiagnosticHypothesis :=
  {| h_Rank := h_Rank h; h_Text := h_Text h; h_Confidence := h_Confidence h;
     h_Evidence := h_Evidence h; h_RejectedReason := r; h_IsPrimary := h_IsPrimary h |}.

Definition set_primary (b : bool) (h : DiagnosticHypothesis) : DiagnosticHypothesis :=
  {| h_Rank := h_Rank h; h_Text := h_Text h; h_Confidence := h_Confidence h;
     h_Evidence := h_Evidence h; h_RejectedReason := h_RejectedReason h; h_IsPrimary := b |}.

Definition evidence_text (after : string) : string :=
  trim_set (Ascii.eqb quote_mark) (trim_space after).

(** One field after the text of a hypothesis line. *)
Definition hypothesis_field (h : DiagnosticHypothesis) (part : string) : DiagnosticHypothesis :=
  let part := trim_space part in
  match cut_prefix part "CONFIDENCE:" with
  | Some after =>
      match ParseFloat (trim_space after) with Some c => set_confidence c h | None => h end
  | None =>
      match cut_prefix part "EVIDENCE:" with
      | Some after => set_evidence (evidence_text after) h
      | None =>
          match cut_prefix part "REJECTED:" with
          | Some after => set_rejected (trim_space after) h
          | None => h
          end
      end
  end.

Definition matchHypothesisLine (line : string) : option DiagnosticHypothesis :=
  if negb (has_prefix (to_upper line) "HYPOTHESIS_") then None
  else
    match str_index line ":" with
    | None => None
    | Some colonIdx =>
        let prefix := String.length "HYPOTHESIS_" in
        match atoi (String.substring prefix (colonIdx - prefix) line) with
        | None => None
        | Some rank =>
            match split_str " | " (trim_space (drop_bytes (S colonIdx) line)) with
            | [] => None
            | text :: fields => Some (fold_left hypothesis_field fields (blank_hypothesis rank (trim_space text)))
            end
        end
    end.

(** The lines that may follow a hypothesis, at most [n] of them; members that are
    already set are kept. *)
Fixpoint look_ahead (n : nat) (lines : list string) (h : DiagnosticHypothesis) : DiagnosticHypothesis :=
  match n, lines with
  | S n', line :: rest =>
      let next := trim_space (trim_set (Ascii.eqb "*") line) in
      if next =?s "" then look_ahead n' rest h
      else
        match cut_prefix next "CONFIDENCE:" with
        | Some after =>
            look_ahead n' rest
              (if SFeqb (h_Confidence h) (S754_zero false) then
                 match ParseFloat (trim_space after) with Some c => set_confidence c h | None => h end
               else h)
        | None =>
            match cut_prefix next "EVIDENCE:" with
            | Some after =>
                look_ahead n' rest (if h_Evidence h =?s "" then set_evidence (evidence_text after) h else h)
            | None =>
                match cut_prefix next "REJECTED:" with
                | Some after =>
                    look_ahead n' rest
                      (if h_RejectedReason h =?s "" then set_rejected (trim_space after) h else h)
                | None => h
                end
            end
        end
  | _, _ => h
  end.

Record ReportScan := { rs_hypotheses : list DiagnosticHypothesis; rs_rootCause : string; rs_action : string }.

Fixpoint scan_report (lines : list string) (acc : ReportScan) : ReportScan :=
  match lines with
  | [] => acc
  | line :: rest =>
      let trimmed := trim_set (Ascii.eqb "*") (trim_space line) in
      match matchHypothesisLine trimmed with
      | Some h =>
          scan_report rest
            {| rs_hypotheses := rs_hypotheses acc ++ [look_ahead 5 rest h];
               rs_rootCause := rs_rootCause acc; rs_action := rs_action acc |}
      | None =>
          scan_report rest
            (match cut_prefix trimmed "ROOT_CAUSE:" with
             | Some after => {| rs_hypotheses := rs_hypotheses acc; rs_rootCause := trim_space after;
                                rs_action := rs_action acc |}
             | None =>
                 match cut_prefix trimmed "ACTION_TAKEN:" with
                 | Some after => {| rs_hypotheses := rs_hypotheses acc; rs_rootCause := rs_rootCause acc;
                                    rs_action := trim_space after |}
                 | None => acc
                 end
             end)
      end
  end.

Definition primary_rank (rootCauseRef : string) : Z :=
  match cut_prefix rootCauseRef "HYPOTHESIS_" with
  | Some n => default 1%Z (atoi n)
  | None => 1
  end.

(** The text of the last hypothesis of the primary rank. *)
Definition root_cause_text (rank : Z) (hs : list DiagnosticHypothesis) : string :=
  fold_left (fun t h => if (h_Rank h =? rank)%Z then h_Text h else t) hs "".

Definition mark_primary (rank : Z) (h : DiagnosticHypothesis) : DiagnosticHypothesis :=
  if (h_Rank h =? rank)%Z then set_primary true h else h.

Definition parseDiagnosticReport (text : string) : option DiagnosticReport :=
  let scan := scan_report (split_on newline text) {| rs_hypotheses := []; rs_rootCause := ""; rs_action := "" |} in
  match rs_hypotheses scan with
  | [] => None
  | hs =>
      let rank := primary_rank (rs_rootCause scan) in
      Some {| Hypotheses := map (mark_primary rank) hs; RootCause := root_cause_text rank hs;
              ActionTaken := rs_action scan |}
  end.

(** ** The signal lines *)

Record agentEscalation := {
  EscalateTo : string;
  TransitionTo : string;
  Findings : string;
  CleanText : string }.

(** White space of a regular expression. *)
Definition re_space (c : ascii) : bool := is_space c && negb (N_of_ascii c =? 11)%N.

(** [\s+] followed by a word, in any case; the words start with letters. *)
Definition spaced_word (word s : string) : bool :=
  match s with
  | String c _ => re_space c && has_prefix (to_lower (trim_left_set re_space s)) word
  | EmptyString => false
  end.

(** The rest after a first word, if the text starts with it. *)
Definition two_words (w1 w2 s : string) : bool :=
  match cut_prefix s w1 with Some r => spaced_word w2 r | None => false end.

Definition heading_title (s : string) : bool :=
  two_words "findings" "summary" s || has_prefix s "summary" || has_prefix s "conclusion" ||
  two_words "investigation" "summary" s.

(** The leading [#] signs, and the rest. *)
Fixpoint split_hashes (s : string) : nat * string :=
  match s with
  | String c s' => if Ascii.eqb c "#" then let '(n, r) := split_hashes s' in (S n, r) else (O, s)
  | EmptyString => (O, s)
  end.

(** [^#{1,3}\s+(findings\s+summary|summary|conclusion|investigation\s+summary)] *)
Definition heading_re (s : string) : bool :=
  match split_hashes s with
  | (n, rest) =>
      (1 <=? n)%nat && (n <=? 3)%nat &&
      match rest with
      | String c _ => re_space c && heading_title (to_lower (trim_left_set re_space rest))
      | EmptyString => false
      end
  end.

Definition status_words : list string :=
  ["operational"; "healthy"; "unavailable"; "unreachable"; "down"; "resolved"; "escalat"].

Definition status_re (s : string) : bool := existsb (str_contains (to_lower s)) status_words.

(** The first text a function finds in some lines. *)
Fixpoint first_found (f : string -> option string) (lines : list string) : option string :=
  match lines with
  | [] => None
  | l :: rest => match f l with Some v => Some v | None => first_found f rest end
  end.

Definition nonempty (v : string) : option string := if v =?s "" then None else Some v.

Definition star_or_space (c : ascii) : bool := Ascii.eqb c "*" || Ascii.eqb c " ".

Definition inline_conclusion (line : string) : option string :=
  first_found
    (fun prefix =>
       match cut_prefix (trim_space line) prefix with
       | Some after => nonempty (trim_set star_or_space (trim_space after))
       | None => None
       end)
    ["**CONCLUSION:**"; "**Conclusion:**"; "CONCLUSION:"].

Definition after_heading (line : string) : option string :=
  let v := trim_space line in
  if (v =?s "") || has_prefix v "#" then None
  else nonempty (trim_set (fun c => star_or_space c || Ascii.eqb c "_") v).

Fixpoint heading_conclusion (lines : list string) : option string :=
  match lines with
  | [] => None
  | l :: rest =>
      if heading_re (trim_space l) then
        match first_found after_heading rest with Some v => Some v | None => heading_conclusion rest end
      else heading_conclusion rest
  end.

Definition status_line (line : string) : option string :=
  let trimmed := trim_space line in
  if has_prefix trimmed "**" && has_suffix trimmed "**" && status_re trimmed
  then nonempty (trim_set star_or_space trimmed) else None.

Definition extractConclusionFallback (text : string) : string :=
  let lines := split_on newline text in
  match first_found inline_conclusion lines with
  | Some v => v
  | None =>
      match heading_conclusion lines with
      | Some v => v
      | None =>
          default "" (first_found status_line (skipn (length lines * 2 / 3) lines))
      end
  end.

Definition unbold (line : string) : string :=
  replace_go [("**FINDINGS:**", "FINDINGS:"); ("**ESCALATE_TO:**", "ESCALATE_TO:")] 0 (trim_space line).

(** A signal that names nothing keeps what was named before. *)
Definition named (old v : string) : string := if (v =?s "none") || (v =?s "") then old else v.

(** The signals so far, and the other lines, each with its newline. *)
Definition signal_line (acc : agentEscalation) (line : string) : agentEscalation :=
  let trimmed := unbold line in
  match cut_prefix trimmed "TRANSITION_TO:" with
  | Some after =>
      {| EscalateTo := EscalateTo acc; TransitionTo := named (TransitionTo acc) (trim_space after);
         Findings := Findings acc; CleanText := CleanText acc |}
  | None =>
      match cut_prefix trimmed "ESCALATE_TO:" with
      | Some after =>
          {| EscalateTo := named (EscalateTo acc) (trim_space after); TransitionTo := TransitionTo acc;
             Findings := Findings acc; CleanText := CleanText acc |}
      | None =>
          match cut_prefix trimmed "FINDINGS:" with
          | Some after =>
              {| EscalateTo := EscalateTo acc; TransitionTo := TransitionTo acc;
                 Findings := trim_space after; CleanText := CleanText acc |}
          | None =>
              {| EscalateTo := EscalateTo acc; TransitionTo := TransitionTo acc; Findings := Findings acc;
                 CleanText := CleanText acc ++ line ++ nl |}
          end
      end
  end.

Definition scan_signals (text : string) : agentEscalation :=
  fold_left signal_line (split_on newline text)
    {| EscalateTo := ""; TransitionTo := ""; Findings := ""; CleanText := "" |}.

Definition parseAgentEscalation (text : string) : agentEscalation :=
  let r := scan_signals text in
  let clean := trim_right_newlines (CleanText r) in
  {| EscalateTo := EscalateTo r; TransitionTo := TransitionTo r;
     Findings := if Findings r =?s "" then extractConclusionFallback clean else Findings r;
     CleanText := clean |}.

Definition value_end (c : ascii) : bool :=
  Ascii.eqb c ";" || Ascii.eqb c " " || Ascii.eqb c (ascii_of_N 9) || Ascii.eqb c newline.

Definition findingsRecommendMonitor (findings : string) : bool :=
  match str_index findings "recommended=" with
  | None => false
  | Some idx =>
      let val := before_any value_end (drop_bytes (idx + String.length "recommended=") findings) in
      (val =?s "monitor") || (val =?s "no_changes_needed")
  end.

(** ** Confidence *)

Definition half : spec_float := float_ratio 1 2.
Definition seven_tenths : spec_float := float_ratio 7 10.

Definition lowConfidenceForceGate (report : option DiagnosticReport) : bool :=
  match report with
  | None => false
  | Some r =>
      match find h_IsPrimary (Hypotheses r) with
      | Some h => SFltb (h_Confidence h) half
      | None => true
      end
  end.

Definition percent (x : spec_float) : string := fmt_f0 (float_mul x (float_int 100)) ++ "%".

(** The warning and the suggested approval mode. *)
Definition confidenceWarning (report : option DiagnosticReport) : string * string :=
  match report with
  | Some {| Hypotheses := primary :: others |} =>
      let lowAbsolute := SFltb (h_Confidence primary) seven_tenths in
      let competing :=
        match others with
        | second :: _ => SFltb (float_mul (h_Confidence primary) seven_tenths) (h_Confidence second)
        | [] => false
        end in
      if negb lowAbsolute && negb competing then ("", "")
      else
        ("Primary hypothesis confidence " ++ percent (h_Confidence primary) ++
         (match others with
          | second :: _ =>
              if competing then " — competing hypothesis at " ++ percent (h_Confidence second) else ""
          | [] => ""
          end) ++ ". Uncertain diagnosis: consider step-by-step approval.", "manual")
  | _ => ("", "")
  end.

(** [all[i].Confidence > all[j].Confidence] *)
Definition more_confident (a b : DiagnosticHypothesis) : bool := SFltb (h_Confidence b) (h_Confidence a).

Definition set_rank (rank : Z) (h : DiagnosticHypothesis) : DiagnosticHypothesis :=
  {| h_Rank := rank; h_Text := h_Text h; h_Confidence := h_Confidence h; h_Evidence := h_Evidence h;
     h_RejectedReason := h_RejectedReason h; h_IsPrimary := (rank =? 1)%Z |}.

Definition rerank (hs : list DiagnosticHypothesis) : list DiagnosticHypothesis :=
  imap (fun i h => set_rank (Z.of_nat i + 1) h) hs.

(** [sort.Slice] is a parameter: where ties end up is open. *)
Definition mergeDiagnosticReports (sort : list DiagnosticHypothesis -> list DiagnosticHypothesis)
    (primary secondary : option DiagnosticReport) : option DiagnosticReport :=
  match primary, secondary with
  | None, _ => secondary
  | _, None => primary
  | Some p, Some s =>
      Some {| Hypotheses := rerank (sort (map (set_primary false) (Hypotheses p) ++ Hypotheses s)%list);
              RootCause := if RootCause s =?s "" then RootCause p else RootCause s;
              ActionTaken := if ActionTaken s =?s "" then ActionTaken p else ActionTaken s |}
  end.

(** ** Connection strings *)

(** [strings.Fields] *)
Fixpoint fields_go (acc : string) (s : string) : list string :=
  match s with
  | EmptyString => if acc =?s "" then [] else [acc]
  | String c s' =>
      if is_space c then if acc =?s "" then fields_go "" s' else acc :: fields_go "" s'
      else fields_go (acc ++ String c "") s'
  end.

Definition str_fields (s : string) : list string := fields_go "" s.

(** The pairs [key=value] of a connection string, in order. *)
Definition conn_pairs (s : string) : list (string * string) :=
  flat_map (fun field => match splitN "=" 2 field with [k; v] => [(k, v)] | _ => [] end) (str_fields s).

Definition parseConnFields (s : string) : gmap string string :=
  fold_left (fun m kv => <[kv.1 := kv.2]> m) (conn_pairs s) ∅.

Definition targetMatches (intended actual : string) : bool :=
  (intended =?s actual) ||
  existsb (fun kv => kv.2 =?s intended) (conn_pairs actual) ||
  (let want := delete "password" (parseConnFields intended) in
   let have := delete "password" (parseConnFields actual) in
   negb (size want =? 0)%nat &&
   forallb (fun kv => default "" (have !! kv.1) =?s kv.2) (map_to_list want)).

(** ** Samples of the protocol *)

Definition sample_answer : string :=
  join nl
    ["Checked the server.";
     "HYPOTHESIS_1: disk full | CONFIDENCE: 0.85 | EVIDENCE: " ++ dquote ++ "no space left" ++ dquote;
     "**HYPOTHESIS_2: lock storm**";
     "CONFIDENCE: 0.30";
     "REJECTED: no waiters";
     "ROOT_CAUSE: HYPOTHESIS_1";
     "**FINDINGS:** disk full; recommended=free_space";
     "TRANSITION_TO: pbs_disk_remediation";
     "ESCALATE_TO: none"].

Example sample_signals :
  EscalateTo (parseAgentEscalation sample_answer) = "" /\
  TransitionTo (parseAgentEscalation sample_answer) = "pbs_disk_remediation" /\
  Findings (parseAgentEscalation sample_answer) = "disk full; recommended=free_space" /\
  findingsRecommendMonitor "recommended=monitor; nothing to do" = true /\
  extractConclusionFallback ("## Findings  Summary" ++ nl ++ nl ++ "**DB status: HEALTHY**") = "DB status: HEALTHY".
Proof. vm_compute. repeat split. Qed.

Example sample_report :
  match parseDiagnosticReport sample_answer with
  | Some {| Hypotheses := [h1; h2]; RootCause := root |} =>
      h_Confidence h1 = float_ratio 85 100 /\ h_Evidence h1 = "no space left" /\ h_IsPrimary h1 = true /\
      h_Text h2 = "lock storm" /\ h_Confidence h2 = float_ratio 3 10 /\ h_RejectedReason h2 = "no waiters" /\
      root = "disk full"
  | _ => False
  end.
Proof. vm_compute. repeat split. Qed.

Example target_samples :
  targetMatches "test-pg" "host=test-pg dbname=postgres" = true /\
  targetMatches "host=a port=1 password=x" "host=a port=1 user=u password=***" = true /\
  targetMatches "host=a port=1" "host=b port=1" = false.
Proof. vm_compute. repeat split. Qed.

(** A confidence of NaN is below no threshold: the forced gate stays open for a report
    whose only hypothesis has no usable confidence. *)
Example nan_passes_the_gate :
  lowConfidenceForceGate (parseDiagnosticReport "HYPOTHESIS_1: disk full | CONFIDENCE: NaN") = false /\
  lowConfidenceForceGate (parseDiagnosticReport "HYPOTHESIS_1: disk full | CONFIDENCE: 0.49") = true /\
  lowConfidenceForceGate (parseDiagnosticReport "HYPOTHESIS_1: disk full | CONFIDENCE: high") = true.
Proof. vm_compute. repeat split. Qed.

(** ** What the report says of its primary hypothesis *)

Lemma mark_primary_spec rank h :
  h_Rank (mark_primary rank h) = h_Rank h /\ h_Text (mark_primary rank h) = h_Text h /\
  h_Confidence (mark_primary rank h) = h_Confidence h /\
  (h_Rank h = rank -> h_IsPrimary (mark_primary rank h) = true) /\
  (h_Rank h <> rank -> h_IsPrimary (mark_primary rank h) = h_IsPrimary h).
Proof.
  unfold mark_primary. destruct (Z.eqb_spec (h_Rank h) rank); simpl; repeat split; done.
Qed.

Lemma blank_not_primary rank text : h_IsPrimary (blank_hypothesis rank text) = false.
Proof. done. Qed.

Lemma hypothesis_field_primary h part : h_IsPrimary (hypothesis_field h part) = h_IsPrimary h.
Proof. unfold hypothesis_field. by repeat case_match. Qed.

Lemma fields_primary fields h : h_IsPrimary (fold_left hypothesis_field fields h) = h_IsPrimary h.
Proof.
  revert h. induction fields as [|f fields IH]; intros h; [done|]. simpl. by rewrite IH, hypothesis_field_primary.
Qed.

Lemma matched_not_primary line h : matchHypothesisLine line = Some h -> h_IsPrimary h = false.
Proof.
  unfold matchHypothesisLine. repeat (case_match; try done). intros [= <-]. by rewrite fields_primary.
Qed.

Lemma look_ahead_primary n lines h : h_IsPrimary (look_ahead n lines h) = h_IsPrimary h.
Proof.
  revert lines h. induction n as [|n IH]; intros [|line rest] h; try done. cbn [look_ahead].
  repeat (case_match; rewrite ?IH; try done).
Qed.

Lemma scanned_not_primary lines acc :
  Forall (fun h => h_IsPrimary h = false) (rs_hypotheses acc) ->
  Forall (fun h => h_IsPrimary h = false) (rs_hypotheses (scan_report lines acc)).
Proof.
  revert acc. induction lines as [|line rest IH]; intros acc H; [done|]. cbn [scan_report].
  destruct (matchHypothesisLine _) as [h|] eqn:E; apply IH.
  - apply Forall_app. split; [done|]. constructor; [|constructor].
    rewrite look_ahead_primary. by eapply matched_not_primary.
  - by repeat case_match.
Qed.

(** The forced gate: a report read from an answer lets a run chain on its
    own only if the hypothesis the answer names as its root cause (the first one, when
    it names none) is in the report and its confidence is not below one half; an answer
    that names a hypothesis it does not list is always gated. *)
Theorem forced_gate_sound text r
    (Hr : parseDiagnosticReport text = Some r) (Hopen : lowConfidenceForceGate (Some r) = false) :
  let rank := primary_rank (rs_rootCause (scan_report (split_on newline text)
                {| rs_hypotheses := []; rs_rootCause := ""; rs_action := "" |})) in
  exists h, In h (Hypotheses r) /\ h_Rank h = rank /\ h_IsPrimary h = true /\
    SFltb (h_Confidence h) half = false /\
    (forall h', In h' (Hypotheses r) -> h_IsPrimary h' = true <-> h_Rank h' = rank).
Proof.
  unfold parseDiagnosticReport in Hr. set (scan := scan_report _ _) in *. cbv zeta.
  assert (Hn : Forall (fun h => h_IsPrimary h = false) (rs_hypotheses scan)) by (by apply scanned_not_primary).
  destruct (rs_hypotheses scan) as [|h0 hs0]; [done|]. injection Hr as <-.
  set (rank := primary_rank _) in *. set (hs := h0 :: hs0) in *.
  assert (Hp : forall h', In h' (map (mark_primary rank) hs) -> h_IsPrimary h' = true <-> h_Rank h' = rank).
  { intros h' Hh'. apply in_map_iff in Hh' as (h & <- & Hh).
    destruct (mark_primary_spec rank h) as (H1 & _ & _ & H2 & H3). rewrite H1.
    rewrite List.Forall_forall in Hn. specialize (Hn h Hh).
    destruct (Z.eq_dec (h_Rank h) rank) as [Heq|Hne]; [by rewrite H2|]. rewrite H3, Hn by done.
    by split; [discriminate|intros ?]. }
  assert (Hfound : match find h_IsPrimary (map (mark_primary rank) hs) with
                   | Some h => SFltb (h_Confidence h) half | None => true end = false) by exact Hopen.
  destruct (find h_IsPrimary (map (mark_primary rank) hs)) as [h|] eqn:E; [|done].
  apply find_some in E as [Hin Hprim]. exists h. split_and!; try done. by apply Hp.
Qed.

Lemma forced_gate_sound_witness :
  exists h, In h (match parseDiagnosticReport sample_answer with Some r => Hypotheses r | None => [] end) /\
    h_Rank h = 1%Z /\ SFltb (h_Confidence h) half = false.
Proof.
  edestruct (forced_gate_sound sample_answer) as (h & H1 & H2 & _ & H3 & _);
    [vm_compute; reflexivity|vm_compute; reflexivity|].
  exists h. split; [exact H1|]. split; [exact H2|exact H3].
Defined.

(** ** Lines *)

Lemma split_on_nonempty sep s : split_on sep s <> [].
Proof. destruct s as [|c s]; simpl; [done|]. destruct (Ascii.eqb c sep); [done|]. by destruct (split_on sep s). Qed.

(** Splitting a text at the end of a line. *)
Lemma split_on_app sep a b :
  split_on sep (a ++ String sep b) = (split_on sep a ++ split_on sep b)%list.
Proof.
  induction a as [|c a IH]; simpl.
  - by rewrite Ascii.eqb_refl.
  - rewrite IH. destruct (Ascii.eqb c sep); [done|].
    pose proof (split_on_nonempty sep a). by destruct (split_on sep a).
Qed.

Lemma split_on_line sep s l : In l (split_on sep s) -> split_on sep l = [l].
Proof.
  revert l. induction s as [|c s IH]; simpl; intros l H.
  - by destruct H as [<-|[]].
  - destruct (Ascii.eqb c sep) eqn:E.
    + destruct H as [<-|H]; [done|by apply IH].
    + pose proof (split_on_nonempty sep s) as Hne. destruct (split_on sep s) as [|p ps] eqn:Es; [done|].
      destruct H as [<-|H]; [|apply IH; by right].
      assert (Hp : split_on sep p = [p]) by (apply IH; by left).
      simpl. by rewrite E, Hp.
Qed.

(** ** The protocol's block is read back *)

(** A value the protocol asks for: one line, not empty, no space at its ends, no
    markup. *)
Record signal_value (v : string) : Prop := {
  sv_nonempty : v <> "";
  sv_left : trim_left v = v;
  sv_right : trim_left (String.rev v) = String.rev v;
  sv_line : split_on newline v = [v];
  sv_plain : str_contains v "**" = false }.

(** A line without a signal. *)
Definition plain_line (line : string) : Prop :=
  forall p, In p ["TRANSITION_TO:"; "ESCALATE_TO:"; "FINDINGS:"] -> cut_prefix (unbold line) p = None.

Lemma replace_none pairs s :
  Forall (fun p => has_prefix p.1 "**" = true) pairs -> str_contains s "**" = false -> replace_go pairs 0 s = s.
Proof.
  intros Hp. induction s as [|c s IH]; intros H; [done|]. cbn [str_contains] in H.
  apply orb_false_iff in H as [H1 H2]. cbn [replace_go].
  destruct (find _ pairs) as [[old new]|] eqn:E; [|by rewrite IH].
  apply find_some in E as [Hin Hpre]. cbn [fst] in Hpre. rewrite List.Forall_forall in Hp.
  specialize (Hp _ Hin). cbn [fst] in Hp. apply has_prefix_spec in Hp as [r ->], Hpre as [r' Hr'].
  rewrite app_assoc_s in Hr'. assert (Hc : has_prefix (String c s) "**" = true).
  { apply has_prefix_spec. by exists (r ++ r'). }
  congruence.
Qed.

Lemma trim_left_app a b : a <> "" -> trim_left a = a -> trim_left (a ++ b) = a ++ b.
Proof.
  destruct a as [|c a]; [done|]. intros _. simpl. destruct (is_space c) eqn:E; [|done]. intros H. exfalso.
  assert (Hl : forall s, String.length (trim_left s) <= String.length s).
  { induction s as [|x s IH]; simpl; [done|]. destruct (is_space x); simpl; lia. }
  specialize (Hl a). rewrite H in Hl. simpl in Hl. lia.
Qed.

Lemma rev_nonempty s : s <> "" -> String.rev s <> "".
Proof. intros H E. apply H. by rewrite <- (rev_involutive_s s), E. Qed.

Lemma trim_value v : signal_value v -> trim_space (" " ++ v) = v.
Proof.
  intros Hv. unfold trim_space. change (trim_left (" " ++ v)) with (trim_left v).
  by rewrite (sv_left _ Hv), (sv_right _ Hv), rev_involutive_s.
Qed.

(** A signal line as it is read: its text is not touched. *)
Lemma unbold_signal p v : signal_value v -> p <> "" -> trim_left p = p ->
  str_contains (p ++ v) "**" = false -> unbold (p ++ v) = p ++ v.
Proof.
  intros Hv Hp Hl Hs. unfold unbold.
  assert (Ht : trim_space (p ++ v) = p ++ v).
  { unfold trim_space. rewrite trim_left_app by done. rewrite rev_append_s.
    rewrite trim_left_app; [|by apply rev_nonempty, (sv_nonempty _ Hv)|apply (sv_right _ Hv)].
    by rewrite <- rev_append_s, rev_involutive_s. }
  rewrite Ht. apply replace_none; [|done]. repeat constructor.
Qed.

(** The lines of a text, each with its newline, are the text. *)
Definition unlines (lines : list string) : string := fold_left (fun acc l => acc ++ l ++ nl) lines "".

Lemma unlines_from acc lines : fold_left (fun acc l => acc ++ l ++ nl) lines acc = acc ++ unlines lines.
Proof.
  unfold unlines. revert acc. induction lines as [|l lines IH]; intros acc; cbn [fold_left]; [by rewrite app_empty_r|].
  rewrite (IH (acc ++ l ++ nl)), (IH ("" ++ l ++ nl)). by rewrite app_assoc_s.
Qed.

Lemma unlines_cons l lines : unlines (l :: lines) = l ++ nl ++ unlines lines.
Proof. unfold unlines at 1. cbn [fold_left]. by rewrite unlines_from, !app_assoc_s. Qed.

Lemma unlines_split s : unlines (split_on newline s) = s ++ nl.
Proof.
  induction s as [|c s IH]; [done|]. simpl split_on. destruct (Ascii.eqb c newline) eqn:E.
  - apply Ascii.eqb_eq in E as ->. rewrite unlines_cons, IH. done.
  - pose proof (split_on_nonempty newline s) as Hne. destruct (split_on newline s) as [|p ps]; [done|].
    rewrite unlines_cons in IH |- *. by rewrite !append_cons, IH.
Qed.

Lemma scan_protocol_line lines acc :
  (forall l, In l lines -> plain_line l) ->
  fold_left signal_line lines acc =
    {| EscalateTo := EscalateTo acc; TransitionTo := TransitionTo acc; Findings := Findings acc;
       CleanText := CleanText acc ++ unlines lines |}.
Proof.
  revert acc. induction lines as [|l lines IH]; intros acc H; simpl.
  - rewrite app_empty_r. by destruct acc.
  - rewrite IH by (intros l' Hl'; apply H; by right).
    assert (Hl : plain_line l) by (apply H; by left). unfold signal_line.
    rewrite !Hl by (simpl; tauto). simpl. f_equal. by rewrite unlines_cons, !app_assoc_s.
Qed.

Definition signal_word (transition : bool) : string := if transition then "TRANSITION_TO: " else "ESCALATE_TO: ".

(** The block the triage prompt asks for, after a text. *)
Definition protocol_answer (body findings series : string) (transition : bool) : string :=
  body ++ String newline ("FINDINGS: " ++ findings ++ String newline (signal_word transition ++ series)).

Lemma split_value p v : (forall c, In c (list_ascii_of_string p) -> Ascii.eqb c newline = false) ->
  split_on newline v = [v] -> split_on newline (p ++ v) = [p ++ v].
Proof.
  induction p as [|c p IH]; intros Hp Hv; [done|]. simpl.
  rewrite (Hp c) by (by left). rewrite IH; [done| |done]. intros x Hx. apply Hp. by right.
Qed.

Lemma protocol_lines body f s t : signal_value f -> signal_value s ->
  split_on newline (protocol_answer body f s t) =
  (split_on newline body ++ [("FINDINGS: " ++ f)%string; (signal_word t ++ s)%string])%list.
Proof.
  intros Hf Hs. unfold protocol_answer. rewrite split_on_app. f_equal.
  rewrite <- app_assoc_s, split_on_app.
  rewrite (split_value "FINDINGS: " f), (split_value (signal_word t) s); try done; try apply sv_line; try done.
  - destruct t; simpl; intros c Hc; repeat (destruct Hc as [<-|Hc]; [done|]); done.
  - simpl. intros c Hc. repeat (destruct Hc as [<-|Hc]; [done|]); done.
Qed.

(** C31 (roundtrip).  An answer that ends as the triage prompt asks is read back: the
    findings, the one signal with the series it names, and the text before the block as
    the text for the operator, without the newlines at its end. *)
Theorem protocol_read_back body f s t :
  (forall l, In l (split_on newline body) -> plain_line l) ->
  signal_value f -> signal_value s -> s <> "none" ->
  parseAgentEscalation (protocol_answer body f s t) =
    {| EscalateTo := if t then "" else s; TransitionTo := if t then s else ""; Findings := f;
       CleanText := trim_right_newlines (body ++ nl) |}.
Proof.
  intros Hb Hf Hs Hn. unfold parseAgentEscalation, scan_signals. rewrite protocol_lines by done.
  rewrite fold_left_app, (scan_protocol_line _ _ Hb), unlines_split. cbn [fold_left EscalateTo TransitionTo Findings CleanText].
  assert (Hu1 : unbold ("FINDINGS: " ++ f) = "FINDINGS: " ++ f).
  { apply unbold_signal; [done..|]. simpl. apply (sv_plain _ Hf). }
  assert (Hu2 : unbold (signal_word t ++ s) = signal_word t ++ s).
  { apply unbold_signal; [done|by destruct t|by destruct t|]. destruct t; simpl; apply (sv_plain _ Hs). }
  assert (Hnamed : named "" s = s).
  { unfold named. rewrite (proj2 (streq_false s "none") Hn). by rewrite (proj2 (streq_false s "") (sv_nonempty _ Hs)). }
  assert (Hfn : (f =?s "") = false) by (apply streq_false, (sv_nonempty _ Hf)).
  assert (Hread : forall acc, signal_line acc ("FINDINGS: " ++ f) =
    {| EscalateTo := EscalateTo acc; TransitionTo := TransitionTo acc; Findings := f; CleanText := CleanText acc |}).
  { intros acc. unfold signal_line. rewrite Hu1.
    change (cut_prefix ("FINDINGS: " ++ f) "TRANSITION_TO:") with (@None string).
    change (cut_prefix ("FINDINGS: " ++ f) "ESCALATE_TO:") with (@None string).
    change (cut_prefix ("FINDINGS: " ++ f) "FINDINGS:") with (Some (" " ++ f)). cbv iota. by rewrite trim_value. }
  rewrite Hread. unfold signal_line. rewrite Hu2. destruct t; unfold signal_word.
  - change (cut_prefix ("TRANSITION_TO: " ++ s) "TRANSITION_TO:") with (Some (" " ++ s)). cbv iota.
    cbn [EscalateTo TransitionTo Findings CleanText]. by rewrite trim_value, Hnamed, Hfn.
  - change (cut_prefix ("ESCALATE_TO: " ++ s) "TRANSITION_TO:") with (@None string).
    change (cut_prefix ("ESCALATE_TO: " ++ s) "ESCALATE_TO:") with (Some (" " ++ s)). cbv iota.
    cbn [EscalateTo TransitionTo Findings CleanText]. by rewrite trim_value, Hnamed, Hfn.
Qed.

Lemma protocol_read_back_witness :
  parseAgentEscalation (protocol_answer ("Checked." ++ nl) "disk full" "pbs_disk" true) =
    {| EscalateTo := ""; TransitionTo := "pbs_disk"; Findings := "disk full"; CleanText := "Checked." |}.
Proof.
  rewrite protocol_read_back; [reflexivity| | | |discriminate].
  - simpl. intros l [<-|[<-|[]]] p [<-|[<-|[<-|[]]]]; reflexivity.
  - constructor; [discriminate|reflexivity..].
  - constructor; [discriminate|reflexivity..].
Defined.
