(* ===== verification/PlaybookStore.v ===== *)
(** * internal/audit/playbook_store.go and cmd/auditd/playbook_handlers.go

    The playbooks table with every operation of the store, and the endpoints.  A row
    is a [Playbook] as [scanPlaybook] reads it back: the JSON columns are the lists
    they encode, an empty class list is no classification, [judge_at] and
    [last_validated] go through their texts.  The statements are those SQLite runs.
    The order of [created_at] in the database is a parameter of [List_].  Creating and
    migrating the schema, failing statements and the statistics joined to lists are
    left out. *)

From S2P Require Import Prelude GoTime TimeText PlaybookText.

Open Scope string_scope.

Record RootCauseClassification := { rcc_Version : string; rcc_Classes : list string }.

Record Playbook := {
  PlaybookID : string;
  pb_Name : string;
  pb_Description : string;
  TargetHints : list string;
  pb_CreatedBy : string;
  pb_CreatedAt : Time;
  pb_UpdatedAt : Time;
  ProblemClass : string;
  Symptoms : list string;
  Guidance : string;
  pb_Escalation : list string;
  RelatedPlaybooks : list string;
  Author : string;
  LastValidated : option Time;
  pb_Version : string;
  pb_SeriesID : string;
  IsActive : bool;
  IsSystem : bool;
  pb_Source : string;
  OriginTrace : string;
  PlaybookType : string;
  EntryPoint : bool;
  EscalatesTo : list string;
  TransitionsTo : list string;
  RequiresEvidence : list string;
  pb_ExecutionMode : string;
  PermittedTools : list string;
  pb_ApprovalMode : string;
  pb_AgentName : string;
  JudgeVerdict : string;
  JudgeModel : string;
  JudgeAt : Time;
  RootCauseClasses : option RootCauseClassification }.

(** The members that identify a version and govern it. *)
Record Control := {
  c_PlaybookID : string;
  c_SeriesID : string;
  c_IsActive : bool;
  c_IsSystem : bool;
  c_Source : string;
  c_Version : string;
  c_ExecutionMode : string;
  c_CreatedBy : string;
  c_CreatedAt : Time;
  c_UpdatedAt : Time;
  c_OriginTrace : string;
  c_JudgeVerdict : string;
  c_JudgeModel : string;
  c_JudgeAt : Time;
  c_LastValidated : option Time;
  c_RootCauseClasses : option RootCauseClassification }.

Definition control_of (pb : Playbook) : Control :=
  {| c_PlaybookID := PlaybookID pb; c_SeriesID := pb_SeriesID pb; c_IsActive := IsActive pb;
     c_IsSystem := IsSystem pb; c_Source := pb_Source pb; c_Version := pb_Version pb;
     c_ExecutionMode := pb_ExecutionMode pb; c_CreatedBy := pb_CreatedBy pb;
     c_CreatedAt := pb_CreatedAt pb; c_UpdatedAt := pb_UpdatedAt pb; c_OriginTrace := OriginTrace pb;
     c_JudgeVerdict := JudgeVerdict pb; c_JudgeModel := JudgeModel pb; c_JudgeAt := JudgeAt pb;
     c_LastValidated := LastValidated pb; c_RootCauseClasses := RootCauseClasses pb |}.

(** A playbook with the knowledge members of [pb] and other control members. *)
Definition with_control (c : Control) (pb : Playbook) : Playbook :=
  {| PlaybookID := c_PlaybookID c; pb_Name := pb_Name pb; pb_Description := pb_Description pb;
     TargetHints := TargetHints pb; pb_CreatedBy := c_CreatedBy c; pb_CreatedAt := c_CreatedAt c;
     pb_UpdatedAt := c_UpdatedAt c; ProblemClass := ProblemClass pb; Symptoms := Symptoms pb;
     Guidance := Guidance pb; pb_Escalation := pb_Escalation pb; RelatedPlaybooks := RelatedPlaybooks pb;
     Author := Author pb; LastValidated := c_LastValidated c; pb_Version := c_Version c;
     pb_SeriesID := c_SeriesID c; IsActive := c_IsActive c; IsSystem := c_IsSystem c;
     pb_Source := c_Source c; OriginTrace := c_OriginTrace c; PlaybookType := PlaybookType pb;
     EntryPoint := EntryPoint pb; EscalatesTo := EscalatesTo pb; TransitionsTo := TransitionsTo pb;
     RequiresEvidence := RequiresEvidence pb; pb_ExecutionMode := c_ExecutionMode c;
     PermittedTools := PermittedTools pb; pb_ApprovalMode := pb_ApprovalMode pb;
     pb_AgentName := pb_AgentName pb; JudgeVerdict := c_JudgeVerdict c; JudgeModel := c_JudgeModel c;
     JudgeAt := c_JudgeAt c; RootCauseClasses := c_RootCauseClasses c |}.

Definition or_default (d s : string) : string := if s =?s "" then d else s.

Inductive StoreError := ErrNoRows | ErrSystemPlaybook | ErrDatabase.

Definition Table := list Playbook.

(** What the columns keep of two times and the classification. *)
Definition stored_validated (t : option Time) : option Time :=
  match t with
  | Some t => let u := parseFlexTime (RFC3339Nano t) in if IsZero u then None else Some u
  | None => None
  end.

Definition stored_classes (c : option RootCauseClassification) : option RootCauseClassification :=
  match c with Some r => if (length (rcc_Classes r) =? 0)%nat then None else Some r | None => None end.

Definition stored_judge_at (t : Time) : Time := parseFlexTime (formatNullableTime t).

(** ** Create *)

(** The playbook as the caller gets it back. *)
Definition complete_playbook (now : Time) (id8 series8 : string) (pb : Playbook) : Playbook :=
  let seriesWasEmpty := pb_SeriesID pb =?s "" in
  let source := or_default "manual" (pb_Source pb) in
  with_control
    {| c_PlaybookID := or_default ("pb_" ++ id8) (PlaybookID pb);
       c_SeriesID := or_default ("pbs_" ++ series8) (pb_SeriesID pb);
       c_IsActive := IsActive pb ||
         (seriesWasEmpty && negb (source =?s "imported") && negb (source =?s "generated"));
       c_IsSystem := IsSystem pb; c_Source := source; c_Version := pb_Version pb;
       c_ExecutionMode := or_default "fleet" (pb_ExecutionMode pb); c_CreatedBy := pb_CreatedBy pb;
       c_CreatedAt := now; c_UpdatedAt := now; c_OriginTrace := OriginTrace pb;
       c_JudgeVerdict := JudgeVerdict pb; c_JudgeModel := JudgeModel pb; c_JudgeAt := JudgeAt pb;
       c_LastValidated := LastValidated pb; c_RootCauseClasses := RootCauseClasses pb |} pb.

Definition playbook_row (pb : Playbook) : Playbook :=
  let c := control_of pb in
  with_control
    {| c_PlaybookID := c_PlaybookID c; c_SeriesID := c_SeriesID c; c_IsActive := c_IsActive c;
       c_IsSystem := c_IsSystem c; c_Source := c_Source c; c_Version := c_Version c;
       c_ExecutionMode := c_ExecutionMode c; c_CreatedBy := c_CreatedBy c; c_CreatedAt := c_CreatedAt c;
       c_UpdatedAt := c_UpdatedAt c; c_OriginTrace := c_OriginTrace c; c_JudgeVerdict := c_JudgeVerdict c;
       c_JudgeModel := c_JudgeModel c; c_JudgeAt := stored_judge_at (c_JudgeAt c);
       c_LastValidated := stored_validated (c_LastValidated c);
       c_RootCauseClasses := stored_classes (c_RootCauseClasses c) |} pb.

Definition has_id (id : string) (pb : Playbook) : bool := PlaybookID pb =?s id.
Definition in_series (series : string) (pb : Playbook) : bool := pb_SeriesID pb =?s series.

(** The primary key refuses a second row of an id. *)
Definition Create (now : Time) (id8 series8 : string) (pb : Playbook) (t : Table)
    : Table * result StoreError Playbook :=
  let pb := complete_playbook now id8 series8 pb in
  if existsb (has_id (PlaybookID pb)) t then (t, Err ErrDatabase)
  else ((t ++ [playbook_row pb])%list, Ok pb).

(** ** Update, Delete, SetJudgeVerdict *)

Definition GetPlaybook (id : string) (t : Table) : option Playbook := find (has_id id) t.

(** The row after an update with [pb]: its identity, origin and judgement stay. *)
Definition updated_row (now : Time) (pb old : Playbook) : Playbook :=
  with_control
    {| c_PlaybookID := PlaybookID old; c_SeriesID := pb_SeriesID pb; c_IsActive := IsActive old;
       c_IsSystem := IsSystem old; c_Source := pb_Source old; c_Version := pb_Version pb;
       c_ExecutionMode := or_default "fleet" (pb_ExecutionMode pb); c_CreatedBy := pb_CreatedBy old;
       c_CreatedAt := pb_CreatedAt old; c_UpdatedAt := now; c_OriginTrace := OriginTrace old;
       c_JudgeVerdict := JudgeVerdict old; c_JudgeModel := JudgeModel old; c_JudgeAt := JudgeAt old;
       c_LastValidated := stored_validated (LastValidated pb);
       c_RootCauseClasses := RootCauseClasses old |} pb.

Definition update_where (p : Playbook -> bool) (f : Playbook -> Playbook) (t : Table) : Table :=
  map (fun r => if p r then f r else r) t.

Definition UpdatePlaybook (now : Time) (pb : Playbook) (t : Table) : Table * option StoreError :=
  match GetPlaybook (PlaybookID pb) t with
  | None => (t, Some ErrNoRows)
  | Some old =>
      if IsSystem old then (t, Some ErrSystemPlaybook)
      else (update_where (has_id (PlaybookID pb)) (updated_row now pb) t, None)
  end.

Definition DeletePlaybook (id : string) (t : Table) : Table * option StoreError :=
  match GetPlaybook id t with
  | None => (t, None)
  | Some old =>
      if IsSystem old then (t, Some ErrSystemPlaybook)
      else (List.filter (fun r => negb (has_id id r)) t, None)
  end.

Definition set_judge (now : Time) (verdict model : string) (r : Playbook) : Playbook :=
  let c := control_of r in
  with_control
    {| c_PlaybookID := c_PlaybookID c; c_SeriesID := c_SeriesID c; c_IsActive := c_IsActive c;
       c_IsSystem := c_IsSystem c; c_Source := c_Source c; c_Version := c_Version c;
       c_ExecutionMode := c_ExecutionMode c; c_CreatedBy := c_CreatedBy c; c_CreatedAt := c_CreatedAt c;
       c_UpdatedAt := c_UpdatedAt c; c_OriginTrace := c_OriginTrace c; c_JudgeVerdict := verdict;
       c_JudgeModel := model; c_JudgeAt := parseFlexTime (RFC3339Nano now);
       c_LastValidated := c_LastValidated c; c_RootCauseClasses := c_RootCauseClasses c |} r.

Definition SetJudgeVerdict (now : Time) (id verdict model : string) (t : Table) : Table * option StoreError :=
  if existsb (has_id id) t then (update_where (has_id id) (set_judge now verdict model) t, None)
  else (t, Some ErrNoRows).

(** ** Versions *)

(** [fmt.Sscanf(s, "%d", &n)]: spaces, a sign, digits; what follows is ignored. *)
Fixpoint skip_blanks (s : string) : string :=
  match s with
  | String c s' =>
      if is_space c && negb (Ascii.eqb c newline) then skip_blanks s' else s
  | EmptyString => s
  end.

Definition sscanf_int (s : string) : option Z :=
  let s := skip_blanks s in
  let '(neg, ds) :=
    match s with
    | String "-" s' => (true, s')
    | String "+" s' => (false, s')
    | _ => (false, s)
    end in
  let '(v, n, _) := mantissa 0 0 ds in
  if (n =? 0)%Z then None
  else let z := if neg then (- v)%Z else v in if in_int64 z then Some z else None.

Definition nextVersion (current : string) : string :=
  if current =?s "" then "1.0"
  else
    match GoFormat.splitN "." 2 current with
    | [major; rest] =>
        match sscanf_int rest with
        | Some minor => major ++ "." ++ itoa (wrap64 (minor + 1))
        | None => ""
        end
    | _ => current ++ ".1"
    end.

Definition set_version (v : string) (r : Playbook) : Playbook :=
  let c := control_of r in
  with_control
    {| c_PlaybookID := c_PlaybookID c; c_SeriesID := c_SeriesID c; c_IsActive := c_IsActive c;
       c_IsSystem := c_IsSystem c; c_Source := c_Source c; c_Version := v;
       c_ExecutionMode := c_ExecutionMode c; c_CreatedBy := c_CreatedBy c; c_CreatedAt := c_CreatedAt c;
       c_UpdatedAt := c_UpdatedAt c; c_OriginTrace := c_OriginTrace c; c_JudgeVerdict := c_JudgeVerdict c;
       c_JudgeModel := c_JudgeModel c; c_JudgeAt := c_JudgeAt c;
       c_LastValidated := c_LastValidated c; c_RootCauseClasses := c_RootCauseClasses c |} r.

Definition set_active (b : bool) (r : Playbook) : Playbook :=
  let c := control_of r in
  with_control
    {| c_PlaybookID := c_PlaybookID c; c_SeriesID := c_SeriesID c; c_IsActive := b;
       c_IsSystem := c_IsSystem c; c_Source := c_Source c; c_Version := c_Version c;
       c_ExecutionMode := c_ExecutionMode c; c_CreatedBy := c_CreatedBy c; c_CreatedAt := c_CreatedAt c;
       c_UpdatedAt := c_UpdatedAt c; c_OriginTrace := c_OriginTrace c; c_JudgeVerdict := c_JudgeVerdict c;
       c_JudgeModel := c_JudgeModel c; c_JudgeAt := c_JudgeAt c;
       c_LastValidated := c_LastValidated c; c_RootCauseClasses := c_RootCauseClasses c |} r.

(** The version of some active row of the series, the one the database returns first. *)
Definition active_version (first : Table -> option Playbook) (series : string) (t : Table) : string :=
  match first (List.filter (fun r => in_series series r && IsActive r) t) with
  | Some r => pb_Version r
  | None => ""
  end.

(** The two statements every activation ends with. *)
Definition make_active (id series : string) (t : Table) : Table :=
  update_where (has_id id) (set_active true)
    (update_where (fun r => in_series series r && negb (has_id id r)) (set_active false) t).

Definition assign_version (first : Table -> option Playbook) (id series : string) (draft : Playbook) (t : Table)
    : Table :=
  if pb_Version draft =?s "" then
    let next := nextVersion (active_version first series t) in
    if next =?s "" then t else update_where (has_id id) (set_version next) t
  else t.

(** [Activate]: one transaction. *)
Definition Activate (first : Table -> option Playbook) (id : string) (t : Table) : Table * option StoreError :=
  match GetPlaybook id t with
  | None => (t, Some ErrNoRows)
  | Some draft =>
      if IsSystem draft then (t, Some ErrSystemPlaybook)
      else (make_active id (pb_SeriesID draft) (assign_version first id (pb_SeriesID draft) draft t), None)
  end.

Definition ActivateSystem (id series : string) (t : Table) : Table := make_active id series t.

(** ** List *)

Record PlaybookListQuery := { ActiveOnly : bool; IncludeSystem : bool; lq_SeriesID : string; lq_Source : string }.

Definition DefaultPlaybookListQuery : PlaybookListQuery :=
  {| ActiveOnly := true; IncludeSystem := true; lq_SeriesID := ""; lq_Source := "" |}.

Definition list_selects (q : PlaybookListQuery) (r : Playbook) : bool :=
  (negb (ActiveOnly q) || IsActive r) && (IncludeSystem q || negb (IsSystem r)) &&
  ((lq_SeriesID q =?s "") || in_series (lq_SeriesID q) r) &&
  ((lq_Source q =?s "") || (pb_Source r =?s lq_Source q)).

Definition ListPlaybooks (order : Table -> Table) (q : PlaybookListQuery) (t : Table) : Table :=
  order (List.filter (list_selects q) t).

(** ** The endpoints *)

Inductive PlaybookReply :=
  | PError (code : Z) (msg : string)
  | PPlaybook (code : Z) (pb : Playbook)
  | PList (l : list Playbook)
  | PNothing.

(** The two members every write requires. *)
Definition check_required (pb : Playbook) : option PlaybookReply :=
  if pb_Name pb =?s "" then Some (PError 400 "name is required")
  else if pb_Description pb =?s "" then Some (PError 400 "description is required")
  else None.

Definition handleCreate (now : Time) (id8 series8 : string) (body : result string Playbook) (t : Table)
    : Table * PlaybookReply :=
  match body with
  | Err e => (t, PError 400 ("invalid JSON: " ++ e))
  | Ok pb =>
      match check_required pb with
      | Some r => (t, r)
      | None =>
          match Create now id8 series8 pb t with
          | (t', Ok pb') => (t', PPlaybook 201 pb')
          | (t', Err _) => (t', PError 500 "failed to create playbook")
          end
      end
  end.

Definition handleGet (id : string) (t : Table) : PlaybookReply :=
  if id =?s "" then PError 400 "missing playbook ID"
  else
    match GetPlaybook id t with
    | Some pb => PPlaybook 200 pb
    | None => PError 404 "playbook not found"
    end.

Definition list_query (active_only include_system series_id source : string) : PlaybookListQuery :=
  {| ActiveOnly := negb (active_only =?s "false"); IncludeSystem := negb (include_system =?s "false");
     lq_SeriesID := series_id; lq_Source := source |}.

Definition set_id (id : string) (pb : Playbook) : Playbook :=
  let c := control_of pb in
  with_control
    {| c_PlaybookID := id; c_SeriesID := c_SeriesID c; c_IsActive := c_IsActive c;
       c_IsSystem := c_IsSystem c; c_Source := c_Source c; c_Version := c_Version c;
       c_ExecutionMode := c_ExecutionMode c; c_CreatedBy := c_CreatedBy c; c_CreatedAt := c_CreatedAt c;
       c_UpdatedAt := c_UpdatedAt c; c_OriginTrace := c_OriginTrace c; c_JudgeVerdict := c_JudgeVerdict c;
       c_JudgeModel := c_JudgeModel c; c_JudgeAt := c_JudgeAt c;
       c_LastValidated := c_LastValidated c; c_RootCauseClasses := c_RootCauseClasses c |} pb.

(** How a store error of the write endpoints is answered. *)
Definition store_reply (err : option StoreError) (system_msg failed : string) (ok : PlaybookReply) : PlaybookReply :=
  match err with
  | None => ok
  | Some ErrNoRows => PError 404 "playbook not found"
  | Some ErrSystemPlaybook => PError 400 system_msg
  | Some ErrDatabase => PError 500 failed
  end.

(** The answer is the request's playbook with its id and the time of the update, not
    the row. *)
Definition echoed (now : Time) (id : string) (pb : Playbook) : Playbook :=
  let c := control_of pb in
  with_control
    {| c_PlaybookID := id; c_SeriesID := c_SeriesID c; c_IsActive := c_IsActive c;
       c_IsSystem := c_IsSystem c; c_Source := c_Source c; c_Version := c_Version c;
       c_ExecutionMode := c_ExecutionMode c; c_CreatedBy := c_CreatedBy c; c_CreatedAt := c_CreatedAt c;
       c_UpdatedAt := now; c_OriginTrace := c_OriginTrace c; c_JudgeVerdict := c_JudgeVerdict c;
       c_JudgeModel := c_JudgeModel c; c_JudgeAt := c_JudgeAt c;
       c_LastValidated := c_LastValidated c; c_RootCauseClasses := c_RootCauseClasses c |} pb.

Definition handleUpdate (now : Time) (id : string) (body : result string Playbook) (t : Table)
    : Table * PlaybookReply :=
  if id =?s "" then (t, PError 400 "missing playbook ID")
  else
    match body with
    | Err e => (t, PError 400 ("invalid JSON: " ++ e))
    | Ok pb =>
        match check_required pb with
        | Some r => (t, r)
        | None =>
            let '(t', err) := UpdatePlaybook now (set_id id pb) t in
            (t', store_reply err "system playbooks are read-only" "failed to update playbook"
                   (PPlaybook 200 (echoed now id pb)))
        end
    end.

Definition handleDelete (id : string) (t : Table) : Table * PlaybookReply :=
  if id =?s "" then (t, PError 400 "missing playbook ID")
  else
    let '(t', err) := DeletePlaybook id t in
    (t', store_reply err "system playbooks are read-only" "failed to delete playbook" PNothing).

Definition handleSetJudgeVerdict (now : Time) (id : string) (body : result string (string * string)) (t : Table)
    : Table * PlaybookReply :=
  if id =?s "" then (t, PError 400 "missing playbook ID")
  else
    match body with
    | Err e => (t, PError 400 ("invalid JSON: " ++ e))
    | Ok (verdict, model) =>
        if verdict =?s "" then (t, PError 400 "verdict is required")
        else
          let '(t', err) := SetJudgeVerdict now id verdict model t in
          (t', store_reply err "" "failed to record judge verdict" PNothing)
    end.

Definition handleActivate (first : Table -> option Playbook) (id : string) (t : Table) : Table * PlaybookReply :=
  if id =?s "" then (t, PError 400 "missing playbook ID")
  else
    let '(t', err) := Activate first id t in
    (t', match err with
         | None =>
             match GetPlaybook id t' with
             | Some pb => PPlaybook 200 pb
             | None => PError 500 "activation succeeded but failed to fetch result"
             end
         | _ => store_reply err "system playbooks cannot be activated via API — managed by system seeder"
                  "failed to activate playbook" PNothing
         end).

(** ** Lemmas *)

Definition ids (t : Table) : list string := map PlaybookID t.

Lemma has_id_true id r : has_id id r = true <-> PlaybookID r = id.
Proof. unfold has_id. apply String.eqb_eq. Qed.

Lemma in_series_true series r : in_series series r = true <-> pb_SeriesID r = series.
Proof. unfold in_series. apply String.eqb_eq. Qed.

Lemma ids_update_where p f t : (forall r, PlaybookID (f r) = PlaybookID r) -> ids (update_where p f t) = ids t.
Proof.
  intros H. unfold ids, update_where. rewrite map_map. apply map_ext. intros r. by destruct (p r).
Qed.

Lemma ids_make_active id series t : ids (make_active id series t) = ids t.
Proof. unfold make_active. by rewrite !ids_update_where. Qed.

Lemma ids_assign_version first id series draft t : ids (assign_version first id series draft t) = ids t.
Proof.
  unfold assign_version. destruct (_ =?s _); [|done]. destruct (_ =?s _); [done|]. by rewrite ids_update_where.
Qed.

Lemma GetPlaybook_Some id t r : GetPlaybook id t = Some r -> In r t /\ PlaybookID r = id.
Proof. intros H. apply find_some in H as [H1 H2]. by apply has_id_true in H2. Qed.

Lemma existsb_has_id id t : existsb (has_id id) t = false <-> ~ In id (ids t).
Proof.
  rewrite existsb_false. unfold ids. rewrite in_map_iff. split.
  - intros H (r & Hr & Hin). apply has_id_true in Hr. rewrite H in Hr; done.
  - intros H r Hin. destruct (has_id id r) eqn:E; [|done]. exfalso. apply H. exists r.
    by apply has_id_true in E.
Qed.

(** The row of an id is the only one. *)
Lemma unique_row t r1 r2 :
  NoDup (ids t) -> In r1 t -> In r2 t -> PlaybookID r1 = PlaybookID r2 -> r1 = r2.
Proof.
  induction t as [|r t IH]; [done|]. unfold ids. simpl. intros Hnd H1 H2 He.
  inversion Hnd as [|? ? Hn Hnd']; subst. rewrite list_elem_of_In in Hn.
  destruct H1 as [->|H1], H2 as [->|H2]; [done| | |by apply IH];
    exfalso; apply Hn; apply in_map_iff; [exists r2|exists r1]; done.
Qed.

(** What [make_active] leaves of each row. *)
Definition activated (id series : string) (r : Playbook) : Playbook :=
  if has_id id r then set_active true (if in_series series r && negb (has_id id r) then set_active false r else r)
  else if in_series series r then set_active false r else r.

Lemma make_active_map id series t : make_active id series t = map (activated id series) t.
Proof.
  unfold make_active, update_where, activated. rewrite map_map. apply map_ext. intros r.
  destruct (in_series series r), (has_id id r) eqn:E; simpl; rewrite ?E; try done.
  change (has_id id (set_active false r)) with (has_id id r). by rewrite E.
Qed.

Lemma restore_row b v r :
  set_active (IsActive r) (set_version (pb_Version r) (set_active b (set_version v r))) = r /\
  set_active (IsActive r) (set_version (pb_Version r) (set_active b r)) = r /\
  set_active (IsActive r) (set_version (pb_Version r) (set_active b (set_active false (set_version v r)))) = r.
Proof. by destruct r. Qed.

Lemma filter_unique id t r :
  NoDup (ids t) -> In r t -> PlaybookID r = id -> List.filter (has_id id) t = [r].
Proof.
  induction t as [|x t IH]; [done|]. unfold ids. simpl. intros Hnd Hin Hr.
  inversion Hnd as [|? ? Hn Hnd']; subst. rewrite list_elem_of_In in Hn. destruct Hin as [->|Hin].
  - rewrite (proj2 (has_id_true (PlaybookID r) r) eq_refl). f_equal.
    destruct (List.filter (has_id (PlaybookID r)) t) as [|y l] eqn:E; [done|]. exfalso. apply Hn.
    assert (Hy : In y (y :: l)) by (by left). rewrite <- E in Hy. apply filter_In in Hy as [Hy1 Hy2].
    apply has_id_true in Hy2. apply in_map_iff. by exists y.
  - destruct (has_id (PlaybookID r) x) eqn:E; [|by apply IH].
    apply has_id_true in E. exfalso. apply Hn. apply in_map_iff. by exists r.
Qed.

Lemma filter_map_ext {A B} (p : B -> bool) (q : A -> bool) (h : A -> B) l :
  (forall x, In x l -> p (h x) = q x) -> List.filter p (map h l) = map h (List.filter q l).
Proof.
  induction l as [|x l IH]; intros H; simpl; [done|]. rewrite (H x) by (by left).
  rewrite IH by (intros y Hy; apply H; by right). by destruct (q x).
Qed.

(** The version step touches the draft only. *)
Definition version_step (first : Table -> option Playbook) (id series : string) (draft : Playbook) (t : Table)
    (r : Playbook) : Playbook :=
  if has_id id r && (pb_Version draft =?s "") && negb (nextVersion (active_version first series t) =?s "")
  then set_version (nextVersion (active_version first series t)) r else r.

Lemma assign_version_map first id series draft t :
  assign_version first id series draft t = map (version_step first id series draft t) t.
Proof.
  unfold assign_version, version_step, update_where. destruct (pb_Version draft =?s ""); cbv zeta.
  - destruct (nextVersion _ =?s "").
    + rewrite <- (map_id t) at 1. apply map_ext. intros r. by rewrite andb_false_r.
    + apply map_ext. intros r. by rewrite !andb_true_r.
  - rewrite <- (map_id t) at 1. apply map_ext. intros r. by rewrite andb_false_r.
Qed.

Lemma version_step_cases first id series draft t r :
  version_step first id series draft t r = r \/
  (PlaybookID r = id /\ pb_Version draft = "" /\
   version_step first id series draft t r = set_version (nextVersion (active_version first series t)) r).
Proof.
  unfold version_step. destruct (has_id id r) eqn:E1; [|by left].
  destruct (String.eqb_spec (pb_Version draft) "") as [E2|]; [|by left].
  destruct (nextVersion _ =?s ""); [by left|]. right. by apply has_id_true in E1.
Qed.

Lemma Forall2_map_self {A B} (P : A -> B -> Prop) (h : A -> B) l :
  (forall x, In x l -> P x (h x)) -> Forall2 P l (map h l).
Proof.
  induction l as [|x l IH]; intros H; simpl; constructor; [apply H; by left|].
  apply IH. intros y Hy. apply H. by right.
Qed.

(** A row whose version is not filled in. *)
Lemma activated_keeps id series old :
  (pb_SeriesID old <> series -> PlaybookID old <> id) ->
  PlaybookID (activated id series old) = PlaybookID old /\
  pb_SeriesID (activated id series old) = pb_SeriesID old /\
  set_active (IsActive old) (set_version (pb_Version old) (activated id series old)) = old /\
  (pb_SeriesID old <> series -> activated id series old = old) /\
  (pb_Version (activated id series old) = pb_Version old \/ PlaybookID old = id /\ pb_Version old = "").
Proof.
  intros Hother. destruct (restore_row true "" old) as (_ & R1 & _). destruct (restore_row false "" old) as (_ & R2 & _).
  unfold activated. destruct (has_id id old) eqn:E1.
  - rewrite andb_false_r. split_and!; [done|done|exact R1| |by left].
    intros Hne. apply has_id_true in E1. by apply Hother in Hne.
  - destruct (in_series series old) eqn:E2.
    + split_and!; [done|done|exact R2| |by left]. intros Hne. by apply in_series_true in E2.
    + split_and!; [done|done|by destruct old|done|by left].
Qed.

(** ** Activation *)

(** A successful activation of a version leaves exactly one active
    version in its series, that one; rows of other series are untouched, every row keeps
    its id and its content but for the active flag, and the version text is filled in
    only for the activated draft, and only when it had none. *)
Theorem Activate_spec first id t t' (Hids : NoDup (ids t)) (Hok : Activate first id t = (t', None)) :
  exists draft,
    In draft t /\ PlaybookID draft = id /\ IsSystem draft = false /\
    (exists r, List.filter (fun r => in_series (pb_SeriesID draft) r && IsActive r) t' = [r] /\ PlaybookID r = id) /\
    Forall2 (fun old new =>
        PlaybookID new = PlaybookID old /\ pb_SeriesID new = pb_SeriesID old /\
        set_active (IsActive old) (set_version (pb_Version old) new) = old /\
        (pb_SeriesID old <> pb_SeriesID draft -> new = old) /\
        (pb_Version new = pb_Version old \/ PlaybookID old = id /\ pb_Version old = "")) t t'.
Proof.
  unfold Activate in Hok. destruct (GetPlaybook id t) as [draft|] eqn:Eg; [|done].
  destruct (IsSystem draft) eqn:Es; [done|]. injection Hok as <-.
  apply GetPlaybook_Some in Eg as [Hin Hid]. exists draft.
  set (S := pb_SeriesID draft). set (v := version_step first id S draft t).
  assert (Hmap : make_active id S (assign_version first id S draft t) = map (fun r => activated id S (v r)) t)
    by (by rewrite make_active_map, assign_version_map, map_map).
  rewrite Hmap. clear Hmap.
  assert (Hv : forall r, In r t -> v r = r \/
    r = draft /\ pb_Version r = "" /\ v r = set_version (nextVersion (active_version first S t)) r).
  { intros r Hr. destruct (version_step_cases first id S draft t r) as [H|(H1 & H2 & H3)]; [by left|right].
    assert (r = draft) as -> by (apply (unique_row t); [done..|by rewrite H1]). done. }
  split_and!; [done|done|done| |].
  - rewrite (filter_map_ext _ (has_id id)).
    + rewrite (filter_unique id t draft) by done. eexists. split; [reflexivity|].
      unfold activated. destruct (Hv draft Hin) as [->|(_ & _ & ->)]; simpl; by repeat case_match.
    + intros r Hr. assert (Hvr : has_id id (v r) = has_id id r /\ pb_SeriesID (v r) = pb_SeriesID r)
        by (destruct (Hv r Hr) as [->|(_ & _ & ->)]; done). destruct Hvr as [H1 H2].
      unfold activated. rewrite H1. destruct (has_id id r) eqn:E.
      * apply has_id_true in E. assert (r = draft) as -> by (apply (unique_row t); [done..|by rewrite E]).
        rewrite andb_false_r. unfold in_series. simpl. rewrite H2. by rewrite String.eqb_refl.
      * unfold in_series. rewrite H2. destruct (String.eqb_spec (pb_SeriesID r) S) as [E2|E2]; simpl.
        -- by rewrite andb_false_r.
        -- rewrite H2. apply String.eqb_neq in E2. by rewrite E2.
  - apply Forall2_map_self. intros old Hold.
    destruct (Hv old Hold) as [->|(Hd & Hb & ->)].
    + apply activated_keeps. intros Hne He. apply Hne.
      by rewrite (unique_row t old draft Hids Hold Hin (eq_trans He (eq_sym Hid))).
    + subst old. destruct (restore_row true (nextVersion (active_version first S t)) draft) as (R1 & _ & _).
      unfold activated. rewrite (proj2 (has_id_true id (set_version _ draft)) Hid), andb_false_r.
      split_and!; [done|done|exact R1|done|by right].
Qed.

Lemma Activate_spec_witness :
  let draft id := {| PlaybookID := id; pb_Name := "n"; pb_Description := "d"; TargetHints := [];
     pb_CreatedBy := ""; pb_CreatedAt := 0; pb_UpdatedAt := 0; ProblemClass := ""; Symptoms := [];
     Guidance := ""; pb_Escalation := []; RelatedPlaybooks := []; Author := ""; LastValidated := None;
     pb_Version := if id =?s "pb_1" then "1.4" else ""; pb_SeriesID := "pbs_s"; IsActive := id =?s "pb_1";
     IsSystem := false; pb_Source := "generated"; OriginTrace := ""; PlaybookType := ""; EntryPoint := false;
     EscalatesTo := []; TransitionsTo := []; RequiresEvidence := []; pb_ExecutionMode := "agent";
     PermittedTools := []; pb_ApprovalMode := ""; pb_AgentName := ""; JudgeVerdict := ""; JudgeModel := "";
     JudgeAt := 0; RootCauseClasses := None |} in
  let t := [draft "pb_1"; draft "pb_2"] in
  map (fun r => (IsActive r, pb_Version r)) (Activate head "pb_2" t).1 = [(false, "1.4"); (true, "1.5")] /\
  exists r, List.filter (fun r => in_series "pbs_s" r && IsActive r) (Activate head "pb_2" t).1 = [r].
Proof.
  intros draft t. split; [vm_compute; reflexivity|].
  destruct (Activate_spec head "pb_2" t (Activate head "pb_2" t).1) as (d & Hd & Hid & _ & (r & Hr & _) & _).
  - repeat constructor; rewrite list_elem_of_In; simpl; intuition discriminate.
  - reflexivity.
  - exists r. destruct Hd as [<-|[<-|[]]]; exact Hr.
Defined.

(** ** What the API can do to the table *)

Inductive api_step : Table -> Table -> Prop :=
  | api_create now id8 series8 body t : api_step t (handleCreate now id8 series8 body t).1
  | api_update now id body t : api_step t (handleUpdate now id body t).1
  | api_delete id t : api_step t (handleDelete id t).1
  | api_judge now id body t : api_step t (handleSetJudgeVerdict now id body t).1
  | api_activate first id t : api_step t (handleActivate first id t).1.

Inductive api_steps : Table -> Table -> Prop :=
  | api_none t : api_steps t t
  | api_more t1 t2 t3 : api_steps t1 t2 -> api_step t2 t3 -> api_steps t1 t3.

(** Equal but for the active flag and the judge's verdict. *)
Definition same_content (r r' : Playbook) : Prop :=
  set_active false (set_judge 0 "" "" r) = set_active false (set_judge 0 "" "" r').

Lemma same_content_refl r : same_content r r.
Proof. done. Qed.

Lemma same_content_id r r' : same_content r r' -> PlaybookID r' = PlaybookID r /\ IsSystem r' = IsSystem r.
Proof.
  intros H. split; [change (PlaybookID (set_active false (set_judge 0 "" "" r')) = PlaybookID r)|
    change (IsSystem (set_active false (set_judge 0 "" "" r')) = IsSystem r)]; by rewrite <- H.
Qed.

Lemma same_content_active b r : same_content r (set_active b r).
Proof. done. Qed.

Lemma same_content_judge now v m r : same_content r (set_judge now v m r).
Proof. done. Qed.

Lemma activated_content id series r : same_content r (activated id series r).
Proof. unfold activated. by repeat case_match. Qed.

(** The rows of system playbooks after a write. *)
Definition keeps_system (t t' : Table) : Prop :=
  (NoDup (ids t) -> NoDup (ids t')) /\
  (NoDup (ids t) -> forall r, In r t -> IsSystem r = true -> exists r', In r' t' /\ same_content r r').

Lemma keeps_system_refl t : keeps_system t t.
Proof. split; [done|]. intros _ r Hr _. by exists r. Qed.

(** A write to the rows of one id, which is not that of a system playbook. *)
Lemma keeps_system_map (h : Playbook -> Playbook) t :
  ids (map h t) = ids t ->
  (NoDup (ids t) -> forall r, In r t -> IsSystem r = true -> same_content r (h r)) ->
  keeps_system t (map h t).
Proof.
  intros Hids Hh. split; [by rewrite Hids|]. intros Hnd r Hr Hs. exists (h r).
  split; [by apply in_map|by apply Hh].
Qed.

Lemma GetPlaybook_unique id t old r :
  NoDup (ids t) -> GetPlaybook id t = Some old -> In r t -> PlaybookID r = id -> r = old.
Proof.
  intros Hnd H Hr Hid. apply GetPlaybook_Some in H as [Hin Ho]. apply (unique_row t); [done..|].
  by rewrite Hid, Ho.
Qed.

Lemma create_keeps now id8 series8 pb t : keeps_system t (Create now id8 series8 pb t).1.
Proof.
  unfold Create. cbv zeta. set (pb' := complete_playbook _ _ _ _). destruct (existsb _ t) eqn:E; [apply keeps_system_refl|].
  apply existsb_has_id in E. split.
  - intros Hnd. unfold ids. simpl. rewrite map_app. apply NoDup_app. split; [done|]. split.
    + intros x Hx. apply list_elem_of_In in Hx. simpl. rewrite list_elem_of_singleton. intros ->. by apply E.
    + apply NoDup_singleton.
  - intros _ r Hr _. exists r. simpl. rewrite in_app_iff. split; [by left|done].
Qed.

Lemma update_keeps now pb t : keeps_system t (UpdatePlaybook now pb t).1.
Proof.
  unfold UpdatePlaybook. destruct (GetPlaybook _ t) as [old|] eqn:Eg; [|apply keeps_system_refl].
  destruct (IsSystem old) eqn:Es; [apply keeps_system_refl|]. apply keeps_system_map.
  - by apply ids_update_where.
  - intros Hnd r Hr Hs. destruct (has_id (PlaybookID pb) r) eqn:E; [|done]. apply has_id_true in E.
    rewrite (GetPlaybook_unique _ _ _ _ Hnd Eg Hr E) in Hs. congruence.
Qed.

Lemma delete_keeps id t : keeps_system t (DeletePlaybook id t).1.
Proof.
  unfold DeletePlaybook. destruct (GetPlaybook id t) as [old|] eqn:Eg; [|apply keeps_system_refl].
  destruct (IsSystem old) eqn:Es; [apply keeps_system_refl|]. split.
  - unfold ids. simpl. clear Eg. induction t as [|r t IH]; simpl; [done|]. intros Hnd.
    inversion Hnd as [|? ? Hn Hnd']; subst. destruct (negb (has_id id r)); [|by apply IH].
    simpl. constructor; [|by apply IH]. rewrite list_elem_of_In, in_map_iff in Hn |- *.
    intros (x & Hx & Hin). apply Hn. exists x. by apply filter_In in Hin as [Hin _].
  - intros Hnd r Hr Hs. exists r. split; [|done]. apply filter_In. split; [done|].
    destruct (has_id id r) eqn:E; [|done]. apply has_id_true in E.
    rewrite (GetPlaybook_unique _ _ _ _ Hnd Eg Hr E) in Hs. congruence.
Qed.

Lemma judge_keeps now id v m t : keeps_system t (SetJudgeVerdict now id v m t).1.
Proof.
  unfold SetJudgeVerdict. destruct (existsb _ t); [|apply keeps_system_refl]. apply keeps_system_map.
  - by apply ids_update_where.
  - intros _ r _ _. by destruct (has_id id r).
Qed.

Lemma activate_keeps first id t : keeps_system t (Activate first id t).1.
Proof.
  unfold Activate. destruct (GetPlaybook id t) as [draft|] eqn:Eg; [|apply keeps_system_refl].
  destruct (IsSystem draft) eqn:Es; [apply keeps_system_refl|]. cbn [fst].
  rewrite make_active_map, assign_version_map, map_map. apply keeps_system_map.
  - rewrite <- map_map, <- assign_version_map, <- make_active_map, ids_make_active. apply ids_assign_version.
  - intros Hnd r Hr Hs. destruct (version_step_cases first id (pb_SeriesID draft) draft t r) as [->|(Hid & _)].
    + apply activated_content.
    + rewrite (GetPlaybook_unique _ _ _ _ Hnd Eg Hr Hid) in Hs. congruence.
Qed.

Lemma api_step_keeps t t' : api_step t t' -> keeps_system t t'.
Proof.
  destruct 1.
  - unfold handleCreate. destruct body as [pb|]; [|apply keeps_system_refl].
    destruct (check_required pb); [apply keeps_system_refl|].
    pose proof (create_keeps now id8 series8 pb t) as H. by destruct (Create _ _ _ _ _) as [t' [?|?]].
  - unfold handleUpdate. destruct (id =?s ""); [apply keeps_system_refl|].
    destruct body as [pb|]; [|apply keeps_system_refl]. destruct (check_required pb); [apply keeps_system_refl|].
    pose proof (update_keeps now (set_id id pb) t) as H. by destruct (UpdatePlaybook _ _ _).
  - unfold handleDelete. destruct (id =?s ""); [apply keeps_system_refl|].
    pose proof (delete_keeps id t) as H. by destruct (DeletePlaybook _ _).
  - unfold handleSetJudgeVerdict. destruct (id =?s ""); [apply keeps_system_refl|].
    destruct body as [[v m]|]; [|apply keeps_system_refl]. destruct (v =?s ""); [apply keeps_system_refl|].
    pose proof (judge_keeps now id v m t) as H. by destruct (SetJudgeVerdict _ _ _ _ _).
  - unfold handleActivate. destruct (id =?s ""); [apply keeps_system_refl|].
    pose proof (activate_keeps first id t) as H. by destruct (Activate _ _ _).
Qed.

(** System playbooks are read-only through the API: whatever requests
    are served in whatever order, ids stay unique, and a system playbook that was in
    the table is still there with the same content, under the same id and as a system
    playbook; only its active flag (when a user's version of the series is activated)
    and its judge verdict can differ. *)
Theorem system_playbooks_read_only t t' (Hids : NoDup (ids t)) (Hsteps : api_steps t t') :
  NoDup (ids t') /\
  forall r, In r t -> IsSystem r = true ->
    exists r', In r' t' /\ same_content r r' /\ PlaybookID r' = PlaybookID r /\ IsSystem r' = true.
Proof.
  induction Hsteps as [t|t1 t2 t3 _ IH Hstep].
  - split; [done|]. intros r Hr Hs. by exists r.
  - destruct (IH Hids) as [Hnd2 H2]. destruct (api_step_keeps _ _ Hstep) as [Hnd H]. split; [by apply Hnd|].
    intros r Hr Hs. destruct (H2 r Hr Hs) as (r2 & Hr2 & Hc2 & Hid2 & Hs2).
    destruct (H Hnd2 r2 Hr2 Hs2) as (r3 & Hr3 & Hc3). exists r3.
    destruct (same_content_id _ _ Hc3) as [Hi Hy]. unfold same_content in *.
    split_and!; [done|by rewrite Hc2|congruence|congruence].
Qed.

(** ** Runs *)

(** The body of a request: a named playbook of a series. *)
Definition toy_body (id series : string) (active system : bool) : Playbook :=
  {| PlaybookID := id; pb_Name := "n"; pb_Description := "d"; TargetHints := [];
     pb_CreatedBy := ""; pb_CreatedAt := 0; pb_UpdatedAt := 0; ProblemClass := ""; Symptoms := [];
     Guidance := ""; pb_Escalation := []; RelatedPlaybooks := []; Author := ""; LastValidated := None;
     pb_Version := ""; pb_SeriesID := series; IsActive := active; IsSystem := system; pb_Source := "";
     OriginTrace := ""; PlaybookType := ""; EntryPoint := false; EscalatesTo := []; TransitionsTo := [];
     RequiresEvidence := []; pb_ExecutionMode := ""; PermittedTools := []; pb_ApprovalMode := "";
     pb_AgentName := ""; JudgeVerdict := ""; JudgeModel := ""; JudgeAt := 0; RootCauseClasses := None |}.

Definition after_create (pb : Playbook) (t : Table) : Table := (handleCreate 0 "a" "b" (Ok pb) t).1.

(** The request's own flags are kept: a client can create a system playbook, which
    nobody can then delete, and a second active version of a series. *)
Example created_flags :
  map (fun r => (IsActive r, IsSystem r)) (after_create (toy_body "pb_1" "pbs_s" true true) []) = [(true, true)] /\
  handleDelete "pb_1" (after_create (toy_body "pb_1" "pbs_s" true true) []) =
    (after_create (toy_body "pb_1" "pbs_s" true true) [], PError 400 "system playbooks are read-only") /\
  length (ListPlaybooks (fun l => l) (list_query "" "" "pbs_s" "")
    (after_create (toy_body "pb_2" "pbs_s" true false) (after_create (toy_body "pb_1" "pbs_s" true false) []))) = 2.
Proof. vm_compute. repeat split. Qed.

(** An update without a series takes the version out of its series. *)
Example update_drops_series :
  map pb_SeriesID (handleUpdate 0 "pb_1" (Ok (toy_body "" "" false false))
    (after_create (toy_body "pb_1" "pbs_s" true false) [])).1 = [""].
Proof. vm_compute. reflexivity. Qed.

Example versions :
  map nextVersion [""; "2"; "1.4"; "1.4-beta"; "1.x"; "1.9.3"] = ["1.0"; "2.1"; "1.5"; "1.5"; ""; "1.10"].
Proof. vm_compute. reflexivity. Qed.

Lemma system_playbooks_read_only_witness :
  let t := after_create (toy_body "pb_1" "pbs_s" true true) [] in
  exists r', In r' (handleDelete "pb_1" (handleUpdate 0 "pb_1" (Ok (toy_body "" "" false false)) t).1).1 /\
    PlaybookID r' = "pb_1" /\ IsSystem r' = true.
Proof.
  intros t. destruct (system_playbooks_read_only t
    (handleDelete "pb_1" (handleUpdate 0 "pb_1" (Ok (toy_body "" "" false false)) t).1).1) as [_ H].
  - repeat constructor. rewrite list_elem_of_In. simpl. intuition discriminate.
  - eapply api_more; [eapply api_more; [apply api_none|]|]; [apply api_update|apply api_delete].
  - edestruct H as (r' & H1 & _ & H2 & H3); [left; reflexivity|reflexivity|].
    exists r'. split; [exact H1|]. split; [exact H2|exact H3].
Defined.
