(* ===== verification/PlaybookSeed.v ===== *)
(** * playbooks/seed.go: the system playbooks at the start of auditd

    [SeedSystemPlaybooks] reads the playbook files embedded in the binary and brings the
    table of auditd up to date through the store's [List], [Create] and [ActivateSystem]
    (file PlaybookStore).  The YAML decoder, the order of a list and the fresh part of an id
    are parameters; a file that cannot be read has no data.  The counters of the log line
    are left out. *)

From S2P Require Import Prelude GoTime PlaybookText PlaybookStore.

Open Scope string_scope.

Record systemPlaybookYAML := {
  sy_SeriesID : string; sy_Name : string; sy_Version : string; sy_ProblemClass : string; sy_Author : string;
  sy_Description : string; sy_Symptoms : list string; sy_Guidance : string; sy_Escalation : list string;
  sy_TargetHints : list string; sy_EntryPoint : bool; sy_EscalatesTo : list string;
  sy_TransitionsTo : list string; sy_RequiresEvidence : list string; sy_ExecutionMode : string;
  sy_AgentName : string; sy_ApprovalMode : string; sy_PlaybookType : string;
  sy_RootCauseClasses : option RootCauseClassification }.

(** The row a file asks for. *)
Definition system_playbook (y : systemPlaybookYAML) : Playbook :=
  {| PlaybookID := ""; pb_Name := sy_Name y; pb_Description := sy_Description y; TargetHints := sy_TargetHints y;
     pb_CreatedBy := ""; pb_CreatedAt := 0; pb_UpdatedAt := 0; ProblemClass := sy_ProblemClass y;
     Symptoms := sy_Symptoms y; Guidance := sy_Guidance y; pb_Escalation := sy_Escalation y;
     RelatedPlaybooks := []; Author := sy_Author y; LastValidated := None; pb_Version := sy_Version y;
     pb_SeriesID := sy_SeriesID y; IsActive := true; IsSystem := true; pb_Source := "system"; OriginTrace := "";
     PlaybookType := sy_PlaybookType y; EntryPoint := sy_EntryPoint y; EscalatesTo := sy_EscalatesTo y;
     TransitionsTo := sy_TransitionsTo y; RequiresEvidence := sy_RequiresEvidence y;
     pb_ExecutionMode := sy_ExecutionMode y; PermittedTools := []; pb_ApprovalMode := sy_ApprovalMode y;
     pb_AgentName := sy_AgentName y; JudgeVerdict := ""; JudgeModel := ""; JudgeAt := 0;
     RootCauseClasses := sy_RootCauseClasses y |}.

(** An embedded entry: a name, whether it is a directory, its data. *)
Record Entry := { en_name : string; en_dir : bool; en_data : option string }.

Definition all_versions (series : string) : PlaybookListQuery :=
  {| ActiveOnly := false; IncludeSystem := true; lq_SeriesID := series; lq_Source := "" |}.

Section Seed.
Context (yaml_system : string -> result string systemPlaybookYAML).
Context (order : Table -> Table) (now : Time) (fresh : Table -> string).

Definition of_version (v : string) (pb : Playbook) : bool := pb_Version pb =?s v.

(** One playbook: the table and the error that ends the seeding. *)
Definition seed_one (y : systemPlaybookYAML) (t : Table) : Table * option string :=
  let series := sy_SeriesID y in
  let existing := ListPlaybooks order (all_versions series) t in
  match find (of_version (sy_Version y)) existing with
  | Some pb =>
      if IsActive pb then (t, None)
      else if existsb IsActive existing then (t, None)
      else (ActivateSystem (PlaybookID pb) series t, None)
  | None =>
      match Create now (fresh t) (fresh t) (system_playbook y) t with
      | (t', Err _) => (t', Some ("seed playbook " ++ quote series ++ " v" ++ sy_Version y))
      | (t', Ok pb) =>
          (match existing with [] => t' | _ => ActivateSystem (PlaybookID pb) series t' end, None)
      end
  end.

(** The playbooks of the entries, in the order of the directory. *)
Definition entry_playbook (e : Entry) : option systemPlaybookYAML :=
  if en_dir e || negb (has_suffix (en_name e) ".yaml") then None
  else
    match en_data e with
    | None => None
    | Some data =>
        match yaml_system data with
        | Err _ => None
        | Ok y => if (sy_SeriesID y =?s "") || (sy_Name y =?s "") then None else Some y
        end
    end.

Fixpoint seed_all (ys : list systemPlaybookYAML) (t : Table) : Table * option string :=
  match ys with
  | [] => (t, None)
  | y :: ys =>
      match seed_one y t with
      | (t', None) => seed_all ys t'
      | (t', Some e) => (t', Some e)
      end
  end.

Definition SeedSystemPlaybooks (entries : list Entry) (t : Table) : Table * option string :=
  seed_all (omap entry_playbook entries) t.

(** ** Rows and activation *)

(** ORDER BY returns the rows it is given. *)
Context (order_same : forall l x, In x (order l) <-> In x l).

Lemma In_versions series t x :
  series <> "" -> In x (ListPlaybooks order (all_versions series) t) <-> In x t /\ pb_SeriesID x = series.
Proof.
  intros Hs. unfold ListPlaybooks. rewrite order_same, filter_In. unfold list_selects. simpl.
  rewrite (proj2 (streq_false _ _) Hs). simpl. rewrite andb_true_r, in_series_true. done.
Qed.

Lemma activated_fields id series r :
  PlaybookID (activated id series r) = PlaybookID r /\ pb_SeriesID (activated id series r) = pb_SeriesID r /\
  pb_Version (activated id series r) = pb_Version r.
Proof. unfold activated. by destruct (has_id id r), (in_series series r). Qed.

Lemma activated_system id series r : IsSystem (activated id series r) = IsSystem r.
Proof. unfold activated. by destruct (has_id id r), (in_series series r). Qed.

Lemma activated_active id series r :
  IsActive (activated id series r) =
    (has_id id r || (negb (in_series series r) && IsActive r)).
Proof. unfold activated. by destruct (has_id id r), (in_series series r). Qed.

Lemma In_make_active id series t r :
  In r (make_active id series t) <-> exists r0, In r0 t /\ r = activated id series r0.
Proof. rewrite make_active_map, in_map_iff. split; intros (r0 & ? & ?); exists r0; by split. Qed.

Definition some_active (series : string) (t : Table) : Prop :=
  exists a, In a t /\ pb_SeriesID a = series /\ IsActive a = true.

Definition has_version (series v : string) (t : Table) : Prop :=
  exists r, In r t /\ pb_SeriesID r = series /\ pb_Version r = v.

(** A file needs nothing more. *)
Definition settled (y : systemPlaybookYAML) (t : Table) : Prop :=
  has_version (sy_SeriesID y) (sy_Version y) t /\ some_active (sy_SeriesID y) t.

Lemma has_version_make_active id series t s v : has_version s v t -> has_version s v (make_active id series t).
Proof.
  intros (r & Hr & Hs & Hv). destruct (activated_fields id series r) as (_ & Es & Ev).
  exists (activated id series r). rewrite In_make_active, Es, Ev. split; [by exists r|done].
Qed.

(** The chosen row is in the table and in its series. *)
Definition chosen (id series : string) (t : Table) : Prop :=
  exists r, In r t /\ PlaybookID r = id /\ pb_SeriesID r = series.

Lemma some_active_chosen id series t : chosen id series t -> some_active series (make_active id series t).
Proof.
  intros (r & Hr & Hi & Hs). exists (activated id series r). destruct (activated_fields id series r) as (_ & -> & _).
  rewrite activated_active, (proj2 (has_id_true id r) Hi), In_make_active. split; [by exists r|done].
Qed.

Lemma some_active_make_active id series s t : chosen id series t -> some_active s t ->
  some_active s (make_active id series t).
Proof.
  intros Hc (a & Ha & Hs & Hact). destruct (decide (s = series)) as [->|Hne]; [by apply some_active_chosen|].
  exists (activated id series a). destruct (activated_fields id series a) as (_ & -> & _).
  rewrite In_make_active, activated_active, Hact. split; [by exists a|]. split; [done|].
  destruct (in_series series a) eqn:E; [apply in_series_true in E; congruence|]. apply orb_true_r.
Qed.

Lemma settled_make_active id series y t : chosen id series t -> settled y t -> settled y (make_active id series t).
Proof. intros Hc [Hv Ha]. split; [by apply has_version_make_active|by apply some_active_make_active]. Qed.

Lemma settled_app y t row : settled y t -> settled y (t ++ [row])%list.
Proof.
  intros [(r & Hr & ?) (a & Ha & ?)]. split; [exists r|exists a]; (split; [apply in_or_app; by left|done]).
Qed.

(** The four outcomes of one file. *)
Inductive seeded (y : systemPlaybookYAML) (t : Table) : Table * option string -> Prop :=
  | seeded_skip : has_version (sy_SeriesID y) (sy_Version y) t -> some_active (sy_SeriesID y) t -> seeded y t (t, None)
  | seeded_again r : In r t -> pb_SeriesID r = sy_SeriesID y -> pb_Version r = sy_Version y ->
      ~ some_active (sy_SeriesID y) t -> seeded y t (make_active (PlaybookID r) (sy_SeriesID y) t, None)
  | seeded_refused e : ~ has_version (sy_SeriesID y) (sy_Version y) t -> seeded y t (t, Some e)
  | seeded_first row : ~ (exists r, In r t /\ pb_SeriesID r = sy_SeriesID y) ->
      row = playbook_row (complete_playbook now (fresh t) (fresh t) (system_playbook y)) ->
      ~ In (PlaybookID row) (ids t) -> seeded y t ((t ++ [row])%list, None)
  | seeded_new row : ~ has_version (sy_SeriesID y) (sy_Version y) t ->
      row = playbook_row (complete_playbook now (fresh t) (fresh t) (system_playbook y)) ->
      ~ In (PlaybookID row) (ids t) ->
      seeded y t (make_active (PlaybookID row) (sy_SeriesID y) (t ++ [row])%list, None).

Lemma seed_one_cases y t : sy_SeriesID y <> "" -> seeded y t (seed_one y t).
Proof.
  intros Hs. unfold seed_one. destruct (find _ _) as [pb|] eqn:Ef.
  - apply find_some in Ef as [Hin Hv]. apply streq_spec in Hv. apply In_versions in Hin as [Hin Hser]; [|done].
    destruct (IsActive pb) eqn:Ea; [constructor; by exists pb|].
    destruct (existsb IsActive _) eqn:Ex.
    + apply existsb_exists in Ex as (a & Hina & Ha). apply In_versions in Hina as [Hina Hsa]; [|done].
      constructor; [by exists pb|by exists a].
    + apply seeded_again; [done..|]. intros (a & Ha & Hsa & Hact). rewrite existsb_false in Ex.
      rewrite (Ex a) in Hact; [done|]. by apply In_versions.
  - assert (Hnv : ~ has_version (sy_SeriesID y) (sy_Version y) t).
    { intros (r & Hr & Hser & Hv). pose proof (find_none _ _ Ef r) as Hn.
      unfold of_version in Hn. rewrite Hv, streq_refl in Hn. discriminate Hn. by apply In_versions. }
    unfold Create. destruct (existsb _ t) eqn:Eid; [by constructor|]. apply existsb_has_id in Eid.
    destruct (ListPlaybooks _ _ _) as [|x l] eqn:El.
    + apply seeded_first; [|done..]. intros (r & Hr & Hser).
      assert (H : In r (ListPlaybooks order (all_versions (sy_SeriesID y)) t)) by (by apply In_versions).
      by rewrite El in H.
    + exact (seeded_new y t _ Hnv eq_refl Eid).
Qed.

Lemma system_row_fields y t :
  let row := playbook_row (complete_playbook now (fresh t) (fresh t) (system_playbook y)) in
  sy_SeriesID y <> "" -> pb_SeriesID row = sy_SeriesID y /\ pb_Version row = sy_Version y /\ IsActive row = true /\
  IsSystem row = true /\ pb_Source row = "system".
Proof.
  intros row Hs. subst row. cbn [playbook_row complete_playbook with_control control_of pb_SeriesID pb_Version
    IsActive IsSystem pb_Source c_SeriesID c_Version c_IsActive c_IsSystem c_Source system_playbook].
  unfold or_default. by rewrite (proj2 (streq_false _ _) Hs).
Qed.

Lemma chosen_last row series t : pb_SeriesID row = series -> chosen (PlaybookID row) series (t ++ [row])%list.
Proof. intros H. exists row. split; [apply in_or_app; right; by left|done]. Qed.

Lemma seeded_settles y t t' : sy_SeriesID y <> "" -> seeded y t (t', None) -> settled y t'.
Proof.
  intros Hs H. inversion H as [? ?|r Hr Hser Hv Hna| |row Hn Hrow Hid|row Hn Hrow Hid]; subst; [done| | |].
  - split; [apply has_version_make_active; by exists r|]. apply some_active_chosen. by exists r.
  - destruct (system_row_fields y t Hs) as (E1 & E2 & E3 & _). set (row := playbook_row _) in *.
    assert (Hin : In row (t ++ [row])) by (apply in_or_app; right; by left). split; by exists row.
  - destruct (system_row_fields y t Hs) as (E1 & E2 & E3 & _). set (row := playbook_row _) in *.
    assert (Hin : In row (t ++ [row])) by (apply in_or_app; right; by left).
    split; [apply has_version_make_active; by exists row|]. apply some_active_chosen. by apply chosen_last.
Qed.

Lemma seeded_keeps y z t r : sy_SeriesID y <> "" -> seeded y t r -> settled z t -> settled z r.1.
Proof.
  intros Hs H Hz. destruct H as [? ?|r Hr Hser Hv Hna|? ?|row Hn -> Hid|row Hn -> Hid]; simpl; [done| |done| |].
  - apply settled_make_active; [by exists r|done].
  - by apply settled_app.
  - destruct (system_row_fields y t Hs) as (E1 & _). apply settled_make_active; [by apply chosen_last|].
    by apply settled_app.
Qed.

Lemma settled_skips y t : sy_SeriesID y <> "" -> settled y t -> seed_one y t = (t, None).
Proof.
  intros Hs [Hv Ha]. pose proof (seed_one_cases y t Hs) as H. remember (seed_one y t) as r eqn:Er.
  destruct H as [? ?|r Hr Hser Hver Hna|e Hn|row Hn ? ?|row Hn ? ?]; try done.
  destruct Hv as (r & Hr & Hser & _). exfalso. apply Hn. by exists r.
Qed.

(** ** One active version *)

Definition single_active (series : string) (t : Table) : Prop :=
  forall r1 r2, In r1 t -> In r2 t -> pb_SeriesID r1 = series -> pb_SeriesID r2 = series ->
    IsActive r1 = true -> IsActive r2 = true -> PlaybookID r1 = PlaybookID r2.

(** The ids are keys and no series has two active versions. *)
Definition well_kept (t : Table) : Prop := NoDup (ids t) /\ forall series, single_active series t.

Lemma activated_row_active id series t r : NoDup (ids t) -> chosen id series t -> In r t ->
  IsActive (activated id series r) = true ->
  (pb_SeriesID r = series /\ PlaybookID r = id) \/ (pb_SeriesID r <> series /\ IsActive r = true).
Proof.
  intros Hnd (c & Hc & Hid & Hser) Hr. rewrite activated_active, orb_true_iff, andb_true_iff, has_id_true.
  intros [Hi|[Hi Ha]].
  - left. rewrite (unique_row t r c Hnd Hr Hc) by congruence. done.
  - right. split; [|done]. intros E. by rewrite (proj2 (in_series_true series r) E) in Hi.
Qed.

Lemma well_kept_activation id series t : NoDup (ids t) -> chosen id series t ->
  (forall s, s <> series -> single_active s t) -> well_kept (make_active id series t).
Proof.
  intros Hnd Hc Hother. split; [by rewrite ids_make_active|]. intros s r1 r2 H1 H2 Hs1 Hs2 Ha1 Ha2.
  apply In_make_active in H1 as (q1 & H1 & ->), H2 as (q2 & H2 & ->).
  destruct (activated_fields id series q1) as (E1 & F1 & _), (activated_fields id series q2) as (E2 & F2 & _).
  rewrite E1, E2. rewrite F1 in Hs1. rewrite F2 in Hs2.
  apply (activated_row_active id series t q1 Hnd Hc H1) in Ha1.
  apply (activated_row_active id series t q2 Hnd Hc H2) in Ha2.
  destruct Ha1 as [[? ?]|[? ?]], Ha2 as [[? ?]|[? ?]]; [congruence..|].
  apply (Hother s); congruence || done.
Qed.

Lemma ids_app_row t row : NoDup (ids t) -> ~ In (PlaybookID row) (ids t) -> NoDup (ids (t ++ [row])%list).
Proof.
  intros Hnd Hn. unfold ids. rewrite map_app. apply NoDup_app. split; [done|]. split; [|apply NoDup_singleton].
  intros x Hx Hin. apply list_elem_of_In in Hin as [<-|[]]. by apply list_elem_of_In in Hx.
Qed.

Lemma single_active_app s t row : pb_SeriesID row <> s -> single_active s t -> single_active s (t ++ [row])%list.
Proof.
  intros Hne H r1 r2 H1 H2 Hs1 Hs2 Ha1 Ha2.
  apply in_app_iff in H1 as [H1|[->|[]]], H2 as [H2|[->|[]]]; try congruence. by apply (H r1 r2).
Qed.

Lemma seeded_well_kept y t r : sy_SeriesID y <> "" -> well_kept t -> seeded y t r -> well_kept r.1.
Proof.
  intros Hs Hw H. pose proof (system_row_fields y t Hs) as Hf. cbv zeta in Hf.
  destruct H as [? ?|r Hr Hser Hv Hna|? ?|row Hn -> Hid|row Hn -> Hid]; simpl; [done| |done| |];
    destruct Hw as [Hnd Hsingle].
  - apply well_kept_activation; [done|by exists r|]. intros s _. apply Hsingle.
  - destruct Hf as (E1 & _). set (row := playbook_row _) in *. split; [by apply ids_app_row|].
    intros s. destruct (decide (pb_SeriesID row = s)) as [<-|Hne]; [|by apply single_active_app].
    intros r1 r2 H1 H2 Hs1 Hs2 _ _. apply in_app_iff in H1 as [H1|[->|[]]], H2 as [H2|[->|[]]]; try done;
      exfalso; apply Hn; [exists r1|exists r1|exists r2]; (split; [done|congruence]).
  - destruct Hf as (E1 & _). set (row := playbook_row _) in *.
    apply well_kept_activation; [by apply ids_app_row|by apply chosen_last|].
    intros s Hne. apply single_active_app; [congruence|apply Hsingle].
Qed.

(** ** All the files *)

Lemma seed_all_ind (P : Table -> Prop) ys t : Forall (fun y => sy_SeriesID y <> "") ys ->
  (forall y t r, sy_SeriesID y <> "" -> P t -> seeded y t r -> P r.1) ->
  P t -> P (seed_all ys t).1.
Proof.
  intros Hys HP. revert t. induction Hys as [|y ys Hy Hys IH]; intros t Ht; [done|]. cbn [seed_all].
  pose proof (HP y t _ Hy Ht (seed_one_cases y t Hy)) as H. destruct (seed_one y t) as [t1 [e|]]; [done|].
  by apply (IH t1).
Qed.

Lemma seed_all_settles ys t t' : Forall (fun y => sy_SeriesID y <> "") ys -> seed_all ys t = (t', None) ->
  Forall (fun y => settled y t') ys.
Proof.
  intros Hys. revert t. induction Hys as [|y ys Hy Hys IH]; intros t; [constructor|]. cbn [seed_all].
  pose proof (seed_one_cases y t Hy) as H. destruct (seed_one y t) as [t1 [e|]]; [done|]. intros Ht.
  constructor; [|by apply (IH t1)]. apply seeded_settles in H; [|done].
  pose proof (seed_all_ind (settled y) ys t1 Hys) as Hind. rewrite Ht in Hind. apply Hind; [|done].
  intros z t2 r Hz Hset Hseed. by apply (seeded_keeps z y t2).
Qed.

Lemma settled_all_skip ys t : Forall (fun y => sy_SeriesID y <> "") ys -> Forall (fun y => settled y t) ys ->
  seed_all ys t = (t, None).
Proof.
  intros Hys Hs. induction Hys as [|y ys Hy Hys IH]; [done|]. inversion Hs; subst. cbn [seed_all].
  rewrite settled_skips by done. by apply IH.
Qed.

Lemma entries_have_series entries : Forall (fun y => sy_SeriesID y <> "") (omap entry_playbook entries).
Proof.
  induction entries as [|e entries IH]; [constructor|]. cbn [omap list_omap].
  destruct (entry_playbook e) as [y|] eqn:E; [|done]. constructor; [|done].
  unfold entry_playbook in E. destruct (_ || _); [done|]. destruct (en_data e); [|done].
  destruct (yaml_system _) as [y'|]; [|done]. destruct (_ || _) eqn:Eo; [done|]. injection E as ->.
  apply orb_false_iff in Eo as [Eo _]. by apply streq_false.
Qed.

(** Seeding is idempotent: when a start of auditd has seeded the embedded
    playbooks without an error, every playbook's version is in the table and its series has
    an active version, and a further start leaves the table as it is. *)
Theorem seeding_idempotent entries t t' (Hseed : SeedSystemPlaybooks entries t = (t', None)) :
  Forall (fun y => settled y t') (omap entry_playbook entries) /\
  SeedSystemPlaybooks entries t' = (t', None).
Proof.
  pose proof (entries_have_series entries) as Hys. apply seed_all_settles in Hseed; [|done].
  split; [done|]. by apply settled_all_skip.
Qed.


(** A version of a series that the table does not have yet becomes the
    series' only active version, whichever version was active before, one an operator
    promoted included. *)
Theorem new_version_takes_over y t t' (Hs : sy_SeriesID y <> "") (Hkept : well_kept t)
    (Hnew : ~ has_version (sy_SeriesID y) (sy_Version y) t) (Hseed : seed_one y t = (t', None)) :
  some_active (sy_SeriesID y) t' /\
  forall r, In r t' -> pb_SeriesID r = sy_SeriesID y -> IsActive r = true ->
    pb_Version r = sy_Version y /\ IsSystem r = true /\ ~ In (PlaybookID r) (ids t).
Proof.
  pose proof (seed_one_cases y t Hs) as H. rewrite Hseed in H. split; [by apply (seeded_settles y t)|].
  destruct (system_row_fields y t Hs) as (E1 & E2 & E3 & E4 & _).
  inversion H as [? ?|r Hr Hser Hv Hna| |row Hn Hrow Hid|row Hn Hrow Hid]; subst; [done| | |].
  - exfalso. apply Hnew. by exists r.
  - set (row := playbook_row _) in *. intros r Hr Hser _. apply in_app_iff in Hr as [Hr|[<-|[]]]; [|done].
    exfalso. apply Hn. by exists r.
  - set (row := playbook_row _) in *. intros r Hr Hser Ha. apply In_make_active in Hr as (q & Hq & ->).
    destruct (activated_fields (PlaybookID row) (sy_SeriesID y) q) as (F1 & F2 & F3). rewrite F2 in Hser.
    assert (Hnd : NoDup (ids (t ++ [row])%list)) by (apply ids_app_row; [apply Hkept|done]).
    apply (activated_row_active _ _ (t ++ [row])%list) in Ha as [[_ Hi]|[? _]]; [|done|done|by apply chosen_last|done].
    assert (Hq' : q = row).
    { apply (unique_row (t ++ [row])%list); [done|done| |done].
      apply in_or_app. right. by left. }
    by rewrite F3, F1, activated_system, Hq'.
Qed.
End Seed.

(** ** A toy set of files *)

Module SeedToy.

Definition file (series version : string) : systemPlaybookYAML :=
  {| sy_SeriesID := series; sy_Name := series; sy_Version := version; sy_ProblemClass := ""; sy_Author := "";
     sy_Description := "d"; sy_Symptoms := []; sy_Guidance := ""; sy_Escalation := []; sy_TargetHints := [];
     sy_EntryPoint := false; sy_EscalatesTo := []; sy_TransitionsTo := []; sy_RequiresEvidence := [];
     sy_ExecutionMode := ""; sy_AgentName := ""; sy_ApprovalMode := ""; sy_PlaybookType := "";
     sy_RootCauseClasses := None |}.

(** The data of an entry is its version; every entry is of the series [pbs_a]. *)
Definition decode (data : string) : result string systemPlaybookYAML :=
  if data =?s "bad" then Err "yaml" else Ok (file "pbs_a" data).

Definition entry (name data : string) : Entry := {| en_name := name; en_dir := false; en_data := Some data |}.
Definition fresh (t : Table) : string := itoa (Z.of_nat (length t)).
Definition start (entries : list Entry) (t : Table) : Table * option string :=
  SeedSystemPlaybooks decode (fun t => t) 7 fresh entries t.

Definition release1 : list Entry := [entry "a.yaml" "1.0"; entry "README.md" "2.0"; entry "b.yaml" "bad"].
Definition release2 : list Entry := [entry "a.yaml" "1.1"].

Definition versions (t : Table) : list (string * bool) := map (fun r => (pb_Version r, IsActive r)) t.

Definition row (id source version : string) (active : bool) : Playbook :=
  with_control
    {| c_PlaybookID := id; c_SeriesID := "pbs_a"; c_IsActive := active; c_IsSystem := false; c_Source := source;
       c_Version := version; c_ExecutionMode := "fleet"; c_CreatedBy := "ops"; c_CreatedAt := 1; c_UpdatedAt := 1;
       c_OriginTrace := ""; c_JudgeVerdict := ""; c_JudgeModel := ""; c_JudgeAt := 0; c_LastValidated := None;
       c_RootCauseClasses := None |}
    (system_playbook (file "pbs_a" version)).

(** An operator has promoted a version of their own. *)
Definition promoted : Table := [row "pb_0" "system" "1.0" false; row "mine" "manual" "1.0.1" true].

(** A generated draft of a series the binary does not know yet. *)
Definition draft : Playbook := row "pb_draft" "generated" "1.0" false.

(** When a release ships the same series and version, the draft becomes active and the
    shipped playbook is not stored. *)
Example draft_activated_by_seeding :
  IsActive draft = false /\
  map (fun r => (PlaybookID r, pb_Source r, IsActive r)) (start release1 [draft]).1 =
    [("pb_draft", "generated", true)].
Proof. vm_compute. split; reflexivity. Qed.

Example two_releases :
  versions (start release1 []).1 = [("1.0", true)] /\
  versions (start release2 (start release1 []).1).1 = [("1.0", false); ("1.1", true)].
Proof. vm_compute. split; reflexivity. Qed.
End SeedToy.

Lemma toy_order (l : Table) (x : Playbook) : In x ((fun t : Table => t) l) <-> In x l.
Proof. reflexivity. Defined.

Lemma seeding_idempotent_witness :
  SeedToy.start SeedToy.release1 (SeedToy.start SeedToy.release1 []).1 =
    ((SeedToy.start SeedToy.release1 []).1, None).
Proof.
  exact (proj2 (seeding_idempotent SeedToy.decode (fun t => t) 7 SeedToy.fresh toy_order SeedToy.release1 []
    (SeedToy.start SeedToy.release1 []).1 ltac:(vm_compute; reflexivity))).
Defined.


Lemma promoted_kept : well_kept SeedToy.promoted.
Proof.
  split.
  - constructor; [|constructor; [|constructor]]; intros H; apply list_elem_of_In in H.
    + destruct H as [H|[]]. discriminate H.
    + destruct H.
  - intros s r1 r2 [<-|[<-|[]]] [<-|[<-|[]]] _ _ Ha1 Ha2; first [discriminate Ha1|discriminate Ha2|reflexivity].
Defined.

Lemma new_version_takes_over_witness :
  SeedToy.versions SeedToy.promoted = [("1.0", false); ("1.0.1", true)] /\
  forall r, In r (seed_one (fun t => t) 7 SeedToy.fresh (SeedToy.file "pbs_a" "1.1") SeedToy.promoted).1 ->
    pb_SeriesID r = "pbs_a" -> IsActive r = true -> pb_Version r = "1.1".
Proof.
  split; [vm_compute; reflexivity|].
  assert (E : (seed_one (fun t => t) 7 SeedToy.fresh (SeedToy.file "pbs_a" "1.1") SeedToy.promoted).2 = None)
    by (vm_compute; reflexivity).
  assert (Hn : ~ has_version "pbs_a" "1.1" SeedToy.promoted).
  { intros (q & [<-|[<-|[]]] & _ & Hv); discriminate Hv. }
  destruct (seed_one _ _ _ _ _) as [t' e] eqn:Es. simpl in E. subst e. intros r Hr Hs Ha.
  exact (proj1 (proj2 (new_version_takes_over (fun t => t) 7 SeedToy.fresh toy_order (SeedToy.file "pbs_a" "1.1")
    SeedToy.promoted t' ltac:(discriminate) promoted_kept Hn Es) r Hr Hs Ha)).
Defined.
