(* ===== verification/PlaybookRuns.v ===== *)
(** * Playbook runs and their steps in auditd

    internal/audit/playbook_run_store.go (runs) and playbook_run_step_store.go (the
    steps of agent_approve runs), with the endpoints of
    cmd/auditd/playbook_run_handlers.go and playbook_run_step_handlers.go.  Tables are
    lists in insertion order, times are the texts of their columns, the statements are
    those SQLite runs; rows that compare equal under ORDER BY stay in insertion order.
    The diagnostic report of a run goes through a JSON column, whose encoder and
    decoder are parameters; the JSON of a step's arguments is kept as the arguments.
    Failing statements are left out, except the primary keys. *)

From S2P Require Import Prelude GoTime TimeText PlaybookText PlaybookStore.

Open Scope string_scope.

Definition OutcomeResolved := "resolved".
Definition OutcomeEscalated := "escalated".
Definition OutcomeTransitioned := "transitioned".
Definition OutcomeAbandoned := "abandoned".
Definition OutcomeUnknown := "unknown".
Definition OutcomeGatePending := "gate_pending".
Definition OutcomeEscalatedResolved := "escalated+resolved".

Record PlaybookRun := {
  RunID : string;
  run_PlaybookID : string;
  run_SeriesID : string;
  run_ExecutionMode : string;
  run_Outcome : string;
  EscalatedTo : string;
  TransitionedTo : string;
  FindingsSummary : string;
  run_Report : option DiagnosticReport;
  run_ContextID : string;
  run_ConnectionString : string;
  run_TraceID : string;
  AgentTranscript : string;
  PriorRunID : string;
  TriggerContext : string;
  run_Operator : string;
  run_StartedAt : Time;
  run_CompletedAt : Time }.

(** The columns of a run; its report is a text. *)
Record RunRow := {
  rr_RunID : string;
  rr_PlaybookID : string;
  rr_SeriesID : string;
  rr_ExecutionMode : string;
  rr_Outcome : string;
  rr_EscalatedTo : string;
  rr_TransitionedTo : string;
  rr_FindingsSummary : string;
  rr_Report : string;
  rr_ContextID : string;
  rr_ConnectionString : string;
  rr_TraceID : string;
  rr_AgentTranscript : string;
  rr_PriorRunID : string;
  rr_TriggerContext : string;
  rr_Operator : string;
  rr_StartedAt : string;
  rr_CompletedAt : string }.

Section Runs.
Context (encode_report : DiagnosticReport -> option string).
Context (decode_report : string -> option DiagnosticReport).

Definition marshalDiagnosticReport (r : option DiagnosticReport) : string :=
  match r with Some r => default "" (encode_report r) | None => "" end.

Definition unmarshalDiagnosticReport (s : string) : option DiagnosticReport :=
  if s =?s "" then None else decode_report s.

(** The run as the caller gets it back from [Record]. *)
Definition complete_run (now : Time) (id8 : string) (r : PlaybookRun) : PlaybookRun :=
  {| RunID := or_default ("plr_" ++ id8) (RunID r); run_PlaybookID := run_PlaybookID r;
     run_SeriesID := run_SeriesID r; run_ExecutionMode := run_ExecutionMode r;
     run_Outcome := run_Outcome r; EscalatedTo := EscalatedTo r; TransitionedTo := TransitionedTo r;
     FindingsSummary := FindingsSummary r; run_Report := run_Report r; run_ContextID := run_ContextID r;
     run_ConnectionString := run_ConnectionString r; run_TraceID := run_TraceID r;
     AgentTranscript := AgentTranscript r; PriorRunID := PriorRunID r; TriggerContext := TriggerContext r;
     run_Operator := run_Operator r;
     run_StartedAt := if IsZero (run_StartedAt r) then now else run_StartedAt r;
     run_CompletedAt := run_CompletedAt r |}.

(** The INSERT has no transcript column, which starts empty. *)
Definition run_row (r : PlaybookRun) : RunRow :=
  {| rr_RunID := RunID r; rr_PlaybookID := run_PlaybookID r; rr_SeriesID := run_SeriesID r;
     rr_ExecutionMode := run_ExecutionMode r; rr_Outcome := or_default "unknown" (run_Outcome r);
     rr_EscalatedTo := EscalatedTo r; rr_TransitionedTo := TransitionedTo r;
     rr_FindingsSummary := FindingsSummary r; rr_Report := marshalDiagnosticReport (run_Report r);
     rr_ContextID := run_ContextID r; rr_ConnectionString := run_ConnectionString r;
     rr_TraceID := run_TraceID r; rr_AgentTranscript := ""; rr_PriorRunID := PriorRunID r;
     rr_TriggerContext := TriggerContext r; rr_Operator := run_Operator r;
     rr_StartedAt := datetime_text (run_StartedAt r); rr_CompletedAt := formatNullableTime (run_CompletedAt r) |}.

Definition run_is (id : string) (r : RunRow) : bool := rr_RunID r =?s id.

Definition RecordRun (now : Time) (id8 : string) (r : PlaybookRun) (t : list RunRow)
    : list RunRow * result StoreError PlaybookRun :=
  let r := complete_run now id8 r in
  if existsb (run_is (RunID r)) t then (t, Err ErrDatabase) else ((t ++ [run_row r])%list, Ok r).

(** What an update sets. *)
Record RunUpdate := {
  u_Outcome : string;
  u_EscalatedTo : string;
  u_TransitionedTo : string;
  u_FindingsSummary : string;
  u_AgentTranscript : string;
  u_TraceID : string;
  u_Report : option DiagnosticReport }.

Definition updated_run (now : Time) (u : RunUpdate) (r : RunRow) : RunRow :=
  {| rr_RunID := rr_RunID r; rr_PlaybookID := rr_PlaybookID r; rr_SeriesID := rr_SeriesID r;
     rr_ExecutionMode := rr_ExecutionMode r; rr_Outcome := u_Outcome u; rr_EscalatedTo := u_EscalatedTo u;
     rr_TransitionedTo := u_TransitionedTo u; rr_FindingsSummary := u_FindingsSummary u;
     rr_Report := marshalDiagnosticReport (u_Report u); rr_ContextID := rr_ContextID r;
     rr_ConnectionString := rr_ConnectionString r; rr_TraceID := or_default (rr_TraceID r) (u_TraceID u);
     rr_AgentTranscript := u_AgentTranscript u; rr_PriorRunID := rr_PriorRunID r;
     rr_TriggerContext := rr_TriggerContext r; rr_Operator := rr_Operator r;
     rr_StartedAt := rr_StartedAt r; rr_CompletedAt := datetime_text now |}.

Definition UpdateRun (now : Time) (id : string) (u : RunUpdate) (t : list RunRow) : list RunRow :=
  map (fun r => if run_is id r then updated_run now u r else r) t.

Definition scanPlaybookRun (r : RunRow) : PlaybookRun :=
  {| RunID := rr_RunID r; run_PlaybookID := rr_PlaybookID r; run_SeriesID := rr_SeriesID r;
     run_ExecutionMode := rr_ExecutionMode r; run_Outcome := rr_Outcome r;
     EscalatedTo := rr_EscalatedTo r; TransitionedTo := rr_TransitionedTo r;
     FindingsSummary := rr_FindingsSummary r; run_Report := unmarshalDiagnosticReport (rr_Report r);
     run_ContextID := rr_ContextID r; run_ConnectionString := rr_ConnectionString r;
     run_TraceID := rr_TraceID r; AgentTranscript := rr_AgentTranscript r; PriorRunID := rr_PriorRunID r;
     TriggerContext := rr_TriggerContext r; run_Operator := rr_Operator r;
     run_StartedAt := parseFlexTime (rr_StartedAt r); run_CompletedAt := parseFlexTime (rr_CompletedAt r) |}.

Definition GetByRunID (id : string) (t : list RunRow) : option PlaybookRun :=
  option_map scanPlaybookRun (find (run_is id) t).

Definition recent_first (a b : RunRow) : bool := text_lt (rr_StartedAt b) (rr_StartedAt a).

(** [ORDER BY started_at DESC LIMIT n]: the limit is the default when it is not
    positive or above the cap. *)
Definition list_runs (dflt cap limit : Z) (p : RunRow -> bool) (t : list RunRow) : list PlaybookRun :=
  let n := if (limit <=? 0)%Z || (cap <? limit)%Z then dflt else limit in
  map scanPlaybookRun (take (Z.to_nat n) (isort recent_first (List.filter p t))).

Definition ListByPlaybook (id : string) (limit : Z) : list RunRow -> list PlaybookRun :=
  list_runs 20 100 limit (fun r => rr_PlaybookID r =?s id).
Definition ListByPriorRunID (id : string) (limit : Z) : list RunRow -> list PlaybookRun :=
  list_runs 10 100 limit (fun r => rr_PriorRunID r =?s id).
Definition ListBySeriesID (id : string) (limit : Z) : list RunRow -> list PlaybookRun :=
  list_runs 50 200 limit (fun r => rr_SeriesID r =?s id).
Definition ListByOutcome (outcome : string) (limit : Z) : list RunRow -> list PlaybookRun :=
  list_runs 50 100 limit (fun r => rr_Outcome r =?s outcome).

(** ** The run endpoints *)

Inductive RunReply :=
  | RError (code : Z) (msg : string)
  | RCreated (r : PlaybookRun)
  | ROne (r : PlaybookRun)
  | RMany (l : list PlaybookRun)
  | RNoContent.

Definition fill_run (playbookID : string) (pb : option Playbook) (r : PlaybookRun) : PlaybookRun :=
  {| RunID := RunID r; run_PlaybookID := playbookID;
     run_SeriesID := match pb with Some pb => or_default (pb_SeriesID pb) (run_SeriesID r) | None => run_SeriesID r end;
     run_ExecutionMode :=
       match pb with Some pb => or_default (pb_ExecutionMode pb) (run_ExecutionMode r) | None => run_ExecutionMode r end;
     run_Outcome := run_Outcome r; EscalatedTo := EscalatedTo r; TransitionedTo := TransitionedTo r;
     FindingsSummary := FindingsSummary r; run_Report := run_Report r; run_ContextID := run_ContextID r;
     run_ConnectionString := run_ConnectionString r; run_TraceID := run_TraceID r;
     AgentTranscript := AgentTranscript r; PriorRunID := PriorRunID r; TriggerContext := TriggerContext r;
     run_Operator := run_Operator r; run_StartedAt := run_StartedAt r; run_CompletedAt := run_CompletedAt r |}.

Definition handleRecordRun (now : Time) (id8 playbookID : string) (body : result string PlaybookRun)
    (playbooks : Table) (t : list RunRow) : list RunRow * RunReply :=
  if playbookID =?s "" then (t, RError 400 "playbookID is required")
  else
    match body with
    | Err e => (t, RError 400 ("invalid JSON: " ++ e))
    | Ok run =>
        let run := fill_run playbookID (GetPlaybook playbookID playbooks) run in
        if run_SeriesID run =?s "" then (t, RError 400 "series_id is required")
        else
          match RecordRun now id8 run t with
          | (t', Ok r) => (t', RCreated r)
          | (t', Err _) => (t', RError 500 "failed to record run")
          end
    end.

Definition handleUpdateRun (now : Time) (runID : string) (body : result string RunUpdate) (t : list RunRow)
    : list RunRow * RunReply :=
  if runID =?s "" then (t, RError 400 "runID is required")
  else
    match body with
    | Err e => (t, RError 400 ("invalid JSON: " ++ e))
    | Ok u =>
        if u_Outcome u =?s "" then (t, RError 400 "outcome is required")
        else (UpdateRun now runID u t, RNoContent)
    end.

Definition limit_of (dflt : Z) (limit : string) : Z := default dflt (atoi limit).

Definition handleListRuns (playbookID limit : string) (t : list RunRow) : RunReply :=
  RMany (ListByPlaybook playbookID (limit_of 20 limit) t).

Definition handleGetRun (runID : string) (t : list RunRow) : RunReply :=
  if runID =?s "" then RError 400 "runID is required"
  else match GetByRunID runID t with Some r => ROne r | None => RError 404 "run not found" end.

Definition handleListByOutcome (series_id prior_run_id outcome limit : string) (t : list RunRow) : RunReply :=
  let n := limit_of 50 limit in
  if negb (series_id =?s "") then RMany (ListBySeriesID series_id n t)
  else if negb (prior_run_id =?s "") then RMany (ListByPriorRunID prior_run_id n t)
  else if outcome =?s "" then RError 400 "series_id, prior_run_id, or outcome query parameter is required"
  else RMany (ListByOutcome outcome n t).
End Runs.

(** ** The steps of agent_approve runs *)

Section Steps.
(** The JSON values of a tool's arguments. *)
Context {Value : Type}.

Record PlaybookRunStep := {
  st_RunID : string;
  StepIndex : Z;
  st_Agent : string;
  st_Tool : string;
  st_Args : list (string * Value);
  st_Reason : string;
  st_Status : string;
  st_ApprovalID : string;
  st_Result : string;
  st_Error : string;
  st_CreatedAt : Time;
  st_UpdatedAt : Time }.

Definition step_is (runID : string) (idx : Z) (s : PlaybookRunStep) : bool :=
  (st_RunID s =?s runID) && (StepIndex s =? idx)%Z.

Definition complete_step (now : Time) (s : PlaybookRunStep) : PlaybookRunStep :=
  {| st_RunID := st_RunID s; StepIndex := StepIndex s; st_Agent := st_Agent s; st_Tool := st_Tool s;
     st_Args := st_Args s; st_Reason := st_Reason s; st_Status := or_default "proposed" (st_Status s);
     st_ApprovalID := st_ApprovalID s; st_Result := st_Result s; st_Error := st_Error s;
     st_CreatedAt := now; st_UpdatedAt := now |}.

(** The INSERT has no result and error columns. *)
Definition step_row (s : PlaybookRunStep) : PlaybookRunStep :=
  {| st_RunID := st_RunID s; StepIndex := StepIndex s; st_Agent := st_Agent s; st_Tool := st_Tool s;
     st_Args := st_Args s; st_Reason := st_Reason s; st_Status := st_Status s;
     st_ApprovalID := st_ApprovalID s; st_Result := ""; st_Error := "";
     st_CreatedAt := st_CreatedAt s; st_UpdatedAt := st_UpdatedAt s |}.

(** The pair of run and index is unique. *)
Definition CreateStep (now : Time) (s : PlaybookRunStep) (t : list PlaybookRunStep)
    : list PlaybookRunStep * option PlaybookRunStep :=
  let s := complete_step now s in
  if existsb (step_is (st_RunID s) (StepIndex s)) t then (t, None) else ((t ++ [step_row s])%list, Some s).

Definition updated_step (now : Time) (status approvalID res err : string) (s : PlaybookRunStep) : PlaybookRunStep :=
  {| st_RunID := st_RunID s; StepIndex := StepIndex s; st_Agent := st_Agent s; st_Tool := st_Tool s;
     st_Args := st_Args s; st_Reason := st_Reason s; st_Status := status; st_ApprovalID := approvalID;
     st_Result := res; st_Error := err; st_CreatedAt := st_CreatedAt s; st_UpdatedAt := now |}.

Definition UpdateStep (now : Time) (runID : string) (idx : Z) (status approvalID res err : string)
    (t : list PlaybookRunStep) : list PlaybookRunStep :=
  map (fun s => if step_is runID idx s then updated_step now status approvalID res err s else s) t.

Definition is_pending (status : string) : bool :=
  (status =?s "proposed") || (status =?s "approved") || (status =?s "executing").

Definition by_index (a b : PlaybookRunStep) : bool := (StepIndex a <? StepIndex b)%Z.

Definition ListSteps (runID : string) (t : list PlaybookRunStep) : list PlaybookRunStep :=
  isort by_index (List.filter (fun s => st_RunID s =?s runID) t).

Definition GetPendingStep (runID : string) (t : list PlaybookRunStep) : option PlaybookRunStep :=
  head (isort by_index (List.filter (fun s => (st_RunID s =?s runID) && is_pending (st_Status s)) t)).

(** [MAX(step_index) + 1], or 1. *)
Definition NextStepIndex (runID : string) (t : list PlaybookRunStep) : Z :=
  match List.filter (fun s => st_RunID s =?s runID) t with
  | [] => 1
  | s :: rest => fold_left (fun m x => Z.max m (StepIndex x)) rest (StepIndex s) + 1
  end.

Inductive StepReply :=
  | SError (code : Z) (msg : string)
  | SCreated (s : PlaybookRunStep)
  | SOne (s : PlaybookRunStep)
  | SMany (l : list PlaybookRunStep)
  | SNoContent.

Definition step_for (runID : string) (idx : Z) (s : PlaybookRunStep) : PlaybookRunStep :=
  {| st_RunID := runID; StepIndex := idx; st_Agent := st_Agent s; st_Tool := st_Tool s;
     st_Args := st_Args s; st_Reason := st_Reason s; st_Status := st_Status s;
     st_ApprovalID := st_ApprovalID s; st_Result := st_Result s; st_Error := st_Error s;
     st_CreatedAt := st_CreatedAt s; st_UpdatedAt := st_UpdatedAt s |}.

Definition handleCreateStep (now : Time) (runID : string) (body : result string PlaybookRunStep)
    (t : list PlaybookRunStep) : list PlaybookRunStep * StepReply :=
  if runID =?s "" then (t, SError 400 "runID is required")
  else
    match body with
    | Err e => (t, SError 400 ("invalid JSON: " ++ e))
    | Ok s =>
        if (st_Tool s =?s "") || (st_Agent s =?s "") then (t, SError 400 "agent and tool are required")
        else
          let idx := if (StepIndex s =? 0)%Z then NextStepIndex runID t else StepIndex s in
          match CreateStep now (step_for runID idx s) t with
          | (t', Some s') => (t', SCreated s')
          | (t', None) => (t', SError 500 "failed to create step")
          end
    end.

Record StepUpdate := { su_Status : string; su_ApprovalID : string; su_Result : string; su_Error : string }.

Definition handleUpdateStep (now : Time) (runID stepIndex : string) (body : result string StepUpdate)
    (t : list PlaybookRunStep) : list PlaybookRunStep * StepReply :=
  if (runID =?s "") || (stepIndex =?s "") then (t, SError 400 "runID and stepIndex are required")
  else
    match atoi stepIndex with
    | None => (t, SError 400 "invalid stepIndex")
    | Some idx =>
        match body with
        | Err e => (t, SError 400 ("invalid JSON: " ++ e))
        | Ok u =>
            if su_Status u =?s "" then (t, SError 400 "status is required")
            else (UpdateStep now runID idx (su_Status u) (su_ApprovalID u) (su_Result u) (su_Error u) t, SNoContent)
        end
    end.

Definition handleListSteps (runID : string) (t : list PlaybookRunStep) : StepReply :=
  if runID =?s "" then SError 400 "runID is required" else SMany (ListSteps runID t).

Definition handleGetPendingStep (runID : string) (t : list PlaybookRunStep) : StepReply :=
  if runID =?s "" then SError 400 "runID is required"
  else match GetPendingStep runID t with Some s => SOne s | None => SError 404 "no pending step" end.

(** ** What the step operations keep *)

Definition step_key (s : PlaybookRunStep) : string * Z := (st_RunID s, StepIndex s).

Definition steps_of_run (runID : string) (t : list PlaybookRunStep) : list PlaybookRunStep :=
  List.filter (fun s => st_RunID s =?s runID) t.

(** The steps of every run have distinct indexes, from one up to their number. *)
Definition well_numbered (t : list PlaybookRunStep) : Prop :=
  NoDup (map step_key t) /\
  forall s, In s t -> st_RunID s <> "" /\ (1 <= StepIndex s <= Z.of_nat (length (steps_of_run (st_RunID s) t)))%Z.

Lemma step_is_spec runID idx s : step_is runID idx s = true <-> step_key s = (runID, idx).
Proof.
  unfold step_is, step_key. rewrite andb_true_iff, streq_spec, Z.eqb_eq.
  split; [by intros [-> ->]|by intros [= -> ->]].
Qed.

Lemma UpdateStep_keys now runID idx a b c d t : map step_key (UpdateStep now runID idx a b c d t) = map step_key t.
Proof. unfold UpdateStep. rewrite map_map. apply map_ext. intros s. by destruct (step_is _ _ _). Qed.

Lemma UpdateStep_length now runID idx a b c d t r :
  length (steps_of_run r (UpdateStep now runID idx a b c d t)) = length (steps_of_run r t).
Proof.
  unfold steps_of_run. induction t as [|s t IH]; simpl; [done|].
  destruct (step_is runID idx s); simpl; destruct (st_RunID s =?s r); simpl; by rewrite IH.
Qed.

(** A row of the updated table is an old row, changed when it has the key. *)
Lemma UpdateStep_In now runID idx a b c d t x :
  In x (UpdateStep now runID idx a b c d t) <->
  exists s, In s t /\
    x = if decide (step_key s = (runID, idx)) then updated_step now a b c d s else s.
Proof.
  unfold UpdateStep. rewrite in_map_iff. split.
  - intros (s & <- & Hs). exists s. split; [done|].
    case_decide as E; [by rewrite (proj2 (step_is_spec _ _ _) E)|].
    destruct (step_is runID idx s) eqn:E'; [|done]. by apply step_is_spec in E'.
  - intros (s & Hs & ->). exists s. split; [|done].
    case_decide as E; [by rewrite (proj2 (step_is_spec _ _ _) E)|].
    destruct (step_is runID idx s) eqn:E'; [|done]. by apply step_is_spec in E'.
Qed.

Lemma UpdateStep_well_numbered now runID idx a b c d t :
  well_numbered t -> well_numbered (UpdateStep now runID idx a b c d t).
Proof.
  intros [Hnd Hb]. split; [by rewrite UpdateStep_keys|].
  intros x Hx. rewrite UpdateStep_length. apply UpdateStep_In in Hx as (s & Hs & ->).
  specialize (Hb s Hs). by case_decide.
Qed.

Lemma steps_of_run_snoc r t s :
  steps_of_run r (t ++ [s]) = (steps_of_run r t ++ (if (st_RunID s =?s r) then [s] else []))%list.
Proof. unfold steps_of_run. rewrite List.filter_app. simpl. by destruct (_ =?s _). Qed.

(** A step numbered one above the number of the run's steps is stored. *)
Lemma CreateStep_next now s t :
  well_numbered t -> st_RunID s <> "" ->
  StepIndex s = (Z.of_nat (length (steps_of_run (st_RunID s) t)) + 1)%Z ->
  CreateStep now s t = ((t ++ [step_row (complete_step now s)])%list, Some (complete_step now s)) /\
  well_numbered (t ++ [step_row (complete_step now s)]).
Proof.
  intros [Hnd Hb] Hr Hi. unfold CreateStep.
  assert (Hnew : forall x, In x t -> step_key x <> (st_RunID s, StepIndex s)).
  { intros x Hx [= Hr' Hi']. destruct (Hb x Hx) as [_ Hbx]. rewrite Hr' in Hbx. lia. }
  rewrite (proj2 (existsb_false _ _)).
  2:{ intros x Hx. destruct (step_is _ _ x) eqn:E; [|done]. apply step_is_spec in E. by destruct (Hnew x Hx). }
  split; [done|]. split.
  - rewrite map_app. apply NoDup_app. split; [done|]. split; [|apply NoDup_singleton].
    intros k Hk. apply list_elem_of_In, in_map_iff in Hk as (x & <- & Hx).
    rewrite list_elem_of_In. intros [Heq|[]]. by apply (Hnew x Hx).
  - intros x Hx. rewrite steps_of_run_snoc, length_app. apply in_app_or in Hx as [Hx|[<-|[]]].
    + destruct (Hb x Hx) as [H1 H2]. split; [done|]. lia.
    + simpl. rewrite streq_refl. simpl. split; [done|]. lia.
Qed.

Lemma by_index_asym a b : by_index a b = true -> by_index b a = false.
Proof. unfold by_index. rewrite Z.ltb_lt, Z.ltb_ge. lia. Qed.

Lemma by_index_trans a b c : by_index b a = false -> by_index c b = false -> by_index c a = false.
Proof. unfold by_index. rewrite !Z.ltb_ge. lia. Qed.

(** The pending step of least index. *)
Definition least_pending (runID : string) (t : list PlaybookRunStep) (s : PlaybookRunStep) : Prop :=
  In s t /\ st_RunID s = runID /\ is_pending (st_Status s) = true /\
  forall x, In x t -> st_RunID x = runID -> is_pending (st_Status x) = true -> (StepIndex s <= StepIndex x)%Z.

Lemma GetPendingStep_Some runID t s : GetPendingStep runID t = Some s -> least_pending runID t s.
Proof.
  unfold GetPendingStep. set (l := List.filter _ t). intros Hs.
  pose proof (isort_sorted by_index by_index_asym by_index_trans l) as Hsort.
  assert (HIn : forall x, In x (isort by_index l) <-> In x t /\ st_RunID x = runID /\ is_pending (st_Status x) = true).
  { intros x. unfold l. by rewrite isort_In, filter_In, andb_true_iff, streq_spec. }
  destruct (isort by_index l) as [|y rest] eqn:E; simpl in Hs; [done|]. injection Hs as ->.
  destruct (proj1 (HIn s) (or_introl eq_refl)) as (H1 & H2 & H3). repeat split; [done..|].
  intros x Hx Hr Hp. destruct (proj2 (HIn x) (conj Hx (conj Hr Hp))) as [->|Hx']; [lia|].
  inversion Hsort as [|? ? _ Hall]; subst. rewrite List.Forall_forall in Hall.
  specialize (Hall x Hx'). unfold by_index in Hall. apply Z.ltb_ge in Hall. lia.
Qed.

Lemma GetPendingStep_None runID t : GetPendingStep runID t = None ->
  forall x, In x t -> st_RunID x = runID -> is_pending (st_Status x) = false.
Proof.
  unfold GetPendingStep. set (l := List.filter _ t). intros Hs x Hx Hr.
  destruct (is_pending (st_Status x)) eqn:E; [|done].
  assert (H : In x (isort by_index l)).
  { apply isort_In. unfold l. by rewrite filter_In, andb_true_iff, streq_spec. }
  by destruct (isort by_index l).
Qed.

Lemma ListSteps_length runID t : length (ListSteps runID t) = length (steps_of_run runID t).
Proof. unfold ListSteps. by rewrite isort_perm. Qed.
End Steps.
Arguments PlaybookRunStep : clear implicits.
