(* ===== verification/RunFeedback.v ===== *)
(** * How well playbooks do: feedback, evaluations and statistics in auditd

    internal/audit/run_feedback_store.go, run_evaluation_store.go and the statistics of
    playbook_run_store.go, with their endpoints in cmd/auditd/playbook_run_handlers.go
    and playbook_handlers.go.  Tables are lists in insertion order; the statements are
    those SQLite runs.  A series' rows are visited in insertion order, on which only
    the rounding of a sum of seconds depends.  A GROUP BY is the list of its groups in
    the order of their first rows; the code keeps them in maps.  A failing statement is
    an argument of the operations that write; failing SELECT statements are left out,
    and so are schema creation and migration. *)

From Stdlib Require Import SpecFloat Permutation.
From S2P Require Import Prelude GoTime TimeText GoFormat PlaybookText PlaybookStore PlaybookRuns.

Open Scope string_scope.

(** ** float64 *)

Definition float_add : spec_float -> spec_float -> spec_float := SFadd 53 1024.
Definition float_sub : spec_float -> spec_float -> spec_float := SFsub 53 1024.
Definition float_div : spec_float -> spec_float -> spec_float := SFdiv 53 1024.

(** [float64(a) / float64(b)], zero when [b] is not positive: the rates of the code. *)
Definition rate (a b : Z) : spec_float := if (0 <? b)%Z then float_ratio a b else float_int 0.
Definition mean (sum : spec_float) (n : Z) : spec_float :=
  if (0 <? n)%Z then float_div sum (float_int n) else float_int 0.

(** [Duration.Seconds]. *)
Definition seconds (d : Z) : spec_float :=
  float_add (float_int (Z.quot d Second)) (float_div (float_int (Z.rem d Second)) (float_int 1000000000)).

Definition count {A} (p : A -> bool) (l : list A) : Z := Z.of_nat (length (List.filter p l)).

(** ** The feedback table *)

Record RunFeedback := {
  fb_RunID : string;
  FeedbackType : string;
  FeedbackTime : string;
  fb_SeriesID : string;
  VerdictCorrect : option bool;
  VerdictNotes : string;
  fb_Operator : string;
  SubmittedAt : Time;
  FeedbackSource : string }.

Record FeedbackRow := {
  fr_RunID : string;
  fr_Type : string;
  fr_Time : string;
  fr_SeriesID : string;
  fr_Verdict : option Z;
  fr_Notes : string;
  fr_Operator : string;
  fr_SubmittedAt : string;
  fr_Source : string }.

(** The primary key. *)
Definition feedback_key (r : FeedbackRow) : string * string * string := (fr_RunID r, fr_Type r, fr_Time r).

Definition same_key (a b : FeedbackRow) : bool :=
  (fr_RunID a =?s fr_RunID b) && (fr_Type a =?s fr_Type b) && (fr_Time a =?s fr_Time b).

(** The feedback as the caller gets it back. *)
Definition complete_feedback (now : Time) (fb : RunFeedback) : RunFeedback :=
  {| fb_RunID := fb_RunID fb; FeedbackType := or_default "triage" (FeedbackType fb);
     FeedbackTime := or_default "post_incident" (FeedbackTime fb); fb_SeriesID := fb_SeriesID fb;
     VerdictCorrect := VerdictCorrect fb; VerdictNotes := VerdictNotes fb; fb_Operator := fb_Operator fb;
     SubmittedAt := if IsZero (SubmittedAt fb) then now else SubmittedAt fb;
     FeedbackSource := FeedbackSource fb |}.

Definition feedback_row (fb : RunFeedback) : FeedbackRow :=
  {| fr_RunID := fb_RunID fb; fr_Type := FeedbackType fb; fr_Time := FeedbackTime fb;
     fr_SeriesID := fb_SeriesID fb;
     fr_Verdict := option_map (fun b : bool => if b then 1%Z else 0%Z) (VerdictCorrect fb);
     fr_Notes := VerdictNotes fb; fr_Operator := fb_Operator fb;
     fr_SubmittedAt := RFC3339Nano (SubmittedAt fb); fr_Source := or_default "human" (FeedbackSource fb) |}.

(** INSERT, or UPDATE of every other column where the key is there. *)
Definition upsert (r : FeedbackRow) (t : list FeedbackRow) : list FeedbackRow :=
  if existsb (same_key r) t then map (fun x => if same_key r x then r else x) t else (t ++ [r])%list.

Definition Submit (now : Time) (failure : option string) (fb : RunFeedback) (t : list FeedbackRow)
    : list FeedbackRow * result string RunFeedback :=
  let fb := complete_feedback now fb in
  match failure with
  | Some e => (t, Err ("submit run feedback: " ++ e))
  | None => (upsert (feedback_row fb) t, Ok fb)
  end.

Definition scanRunFeedbackRow (r : FeedbackRow) : RunFeedback :=
  {| fb_RunID := fr_RunID r; FeedbackType := fr_Type r; FeedbackTime := fr_Time r; fb_SeriesID := fr_SeriesID r;
     VerdictCorrect := option_map (fun v => negb (v =? 0)%Z) (fr_Verdict r); VerdictNotes := fr_Notes r;
     fb_Operator := fr_Operator r; SubmittedAt := parse_or_zero (fr_SubmittedAt r); FeedbackSource := fr_Source r |}.

Definition GetByRunIDAndType (runID feedbackType feedbackTime : string) (t : list FeedbackRow) : option RunFeedback :=
  option_map scanRunFeedbackRow
    (find (fun r => (fr_RunID r =?s runID) && (fr_Type r =?s feedbackType) && (fr_Time r =?s feedbackTime)) t).

Definition GetFeedbackByRunID (runID : string) : list FeedbackRow -> option RunFeedback :=
  GetByRunIDAndType runID "triage" "post_incident".

Definition oldest_first (a b : FeedbackRow) : bool := text_lt (fr_SubmittedAt a) (fr_SubmittedAt b).

Definition ListByRunID (runID : string) (t : list FeedbackRow) : list RunFeedback :=
  map scanRunFeedbackRow (isort oldest_first (List.filter (fun r => fr_RunID r =?s runID) t)).

Definition has_verdict (r : FeedbackRow) : bool := match fr_Verdict r with Some _ => true | None => false end.
Definition is_correct (r : FeedbackRow) : bool := match fr_Verdict r with Some v => (v =? 1)%Z | None => false end.

Definition ListPending (t : list FeedbackRow) : list RunFeedback :=
  map scanRunFeedbackRow
    (isort (fun a b => oldest_first b a)
       (List.filter (fun r => negb (has_verdict r) && (fr_Type r =?s "triage") && (fr_Time r =?s "post_incident")) t)).

(** ** Statistics of the feedback *)

(** [GROUP BY]: the groups in the order of their first rows, with their rows. *)
Fixpoint add_group {A} (k : string) (x : A) (gs : list (string * list A)) : list (string * list A) :=
  match gs with
  | [] => [(k, [x])]
  | (k', xs) :: gs' => if k' =?s k then (k', (xs ++ [x])%list) :: gs' else (k', xs) :: add_group k x gs'
  end.

Definition group_by {A} (key : A -> string) (l : list A) : list (string * list A) :=
  fold_left (fun gs x => add_group (key x) x gs) l [].

(** The code's map of the groups. *)
Definition as_map {A} (gs : list (string * A)) : gmap string A := list_to_map gs.

Record FeedbackStats := {
  fs_SeriesID : string;
  FeedbackCount : Z;
  CorrectCount : Z;
  AccuracyRate : spec_float;
  AtGateCount : Z;
  AtGateCorrect : Z;
  AtGateAccuracyRate : spec_float;
  PostIncidentCount : Z;
  PostIncidentCorrect : Z;
  PostIncidentAccuracyRate : spec_float;
  RemediationFeedbackCount : Z;
  RemediationCorrectCount : Z;
  RemediationAccuracyRate : spec_float;
  RemediationAtGateCount : Z;
  RemediationAtGateCorrect : Z;
  RemediationPostIncidentCount : Z;
  RemediationPostIncidentCorrect : Z }.

(** The totals of one of the two passes: all, at the gate, after the incident. *)
Record Tally := { total : Z; total_ok : Z; gate : Z; gate_ok : Z; post : Z; post_ok : Z }.

Definition no_tally : Tally := {| total := 0; total_ok := 0; gate := 0; gate_ok := 0; post := 0; post_ok := 0 |}.

Definition tally_group (a : Tally) (g : string * list FeedbackRow) : Tally :=
  let n := Z.of_nat (length g.2) in
  let ok := count is_correct g.2 in
  let at_gate := g.1 =?s "at_gate" in
  let after := g.1 =?s "post_incident" in
  {| total := total a + n; total_ok := total_ok a + ok;
     gate := if at_gate then n else gate a; gate_ok := if at_gate then ok else gate_ok a;
     post := if after then n else post a; post_ok := if after then ok else post_ok a |}.

(** The WHERE clause of the two passes. *)
Definition counted (seriesID feedbackType : string) (r : FeedbackRow) : bool :=
  (fr_SeriesID r =?s seriesID) && (fr_Type r =?s feedbackType) && has_verdict r.

Definition tally (seriesID feedbackType : string) (t : list FeedbackRow) : Tally :=
  fold_left tally_group (group_by fr_Time (List.filter (counted seriesID feedbackType) t)) no_tally.

Definition StatsBySeries (seriesID : string) (t : list FeedbackRow) : FeedbackStats :=
  let a := tally seriesID "triage" t in
  let b := tally seriesID "remediation" t in
  {| fs_SeriesID := seriesID; FeedbackCount := total a; CorrectCount := total_ok a;
     AccuracyRate := rate (total_ok a) (total a);
     AtGateCount := gate a; AtGateCorrect := gate_ok a; AtGateAccuracyRate := rate (gate_ok a) (gate a);
     PostIncidentCount := post a; PostIncidentCorrect := post_ok a;
     PostIncidentAccuracyRate := rate (post_ok a) (post a);
     RemediationFeedbackCount := total b; RemediationCorrectCount := total_ok b;
     RemediationAccuracyRate := rate (total_ok b) (total b);
     RemediationAtGateCount := gate b; RemediationAtGateCorrect := gate_ok b;
     RemediationPostIncidentCount := post b; RemediationPostIncidentCorrect := post_ok b |}.

(** ** The feedback endpoints *)

Inductive FeedbackReply :=
  | FError (code : Z) (msg : string)
  | FCreated (fb : RunFeedback)
  | FOne (fb : RunFeedback)
  | FMany (l : list RunFeedback).

Definition set_feedback_ids (runID operator series : string) (fb : RunFeedback) : RunFeedback :=
  {| fb_RunID := runID; FeedbackType := FeedbackType fb; FeedbackTime := FeedbackTime fb;
     fb_SeriesID := or_default series (fb_SeriesID fb); VerdictCorrect := VerdictCorrect fb;
     VerdictNotes := VerdictNotes fb; fb_Operator := or_default operator (fb_Operator fb);
     SubmittedAt := SubmittedAt fb; FeedbackSource := FeedbackSource fb |}.

(** [runs] is the table of runs, where the series is looked up. *)
Definition handleSubmitFeedback (now : Time) (failure : option string) (runID user : string)
    (body : result string RunFeedback) (runs : list RunRow) (t : list FeedbackRow) : list FeedbackRow * FeedbackReply :=
  if runID =?s "" then (t, FError 400 "runID is required")
  else
    match body with
    | Err e => (t, FError 400 ("invalid JSON: " ++ e))
    | Ok fb =>
        let series := match find (run_is runID) runs with Some r => rr_SeriesID r | None => "" end in
        match Submit now failure (set_feedback_ids runID user series fb) t with
        | (t', Ok fb') => (t', FCreated fb')
        | (t', Err _) => (t', FError 500 "failed to submit feedback")
        end
    end.

Definition handleGetFeedback (runID feedback_type feedback_time : string) (t : list FeedbackRow) : FeedbackReply :=
  if runID =?s "" then FError 400 "runID is required"
  else if (feedback_type =?s "") && (feedback_time =?s "") then FMany (ListByRunID runID t)
  else
    match GetByRunIDAndType runID (or_default "triage" feedback_type) (or_default "post_incident" feedback_time) t with
    | Some fb => FOne fb
    | None => FError 404 "no feedback for run"
    end.

Definition handleListPendingFeedback (t : list FeedbackRow) : FeedbackReply := FMany (ListPending t).

(** ** What the gateway submits

    The bodies that cmd/gateway/playbooks.go posts, as auditd decodes them.  Transport
    failures are left out: each call reaches [handleSubmitFeedback] without an X-User
    header. *)

Definition no_feedback : RunFeedback :=
  {| fb_RunID := ""; FeedbackType := ""; FeedbackTime := ""; fb_SeriesID := ""; VerdictCorrect := None;
     VerdictNotes := ""; fb_Operator := ""; SubmittedAt := 0; FeedbackSource := "" |}.

Definition at_gate_body (series operator notes : string) (verdict : option bool) : RunFeedback :=
  {| fb_RunID := ""; FeedbackType := "triage"; FeedbackTime := "at_gate"; fb_SeriesID := series;
     VerdictCorrect := verdict; VerdictNotes := notes; fb_Operator := operator; SubmittedAt := 0;
     FeedbackSource := "" |}.

Definition placeholder_body (operator : string) : RunFeedback :=
  {| fb_RunID := ""; FeedbackType := ""; FeedbackTime := ""; fb_SeriesID := ""; VerdictCorrect := None;
     VerdictNotes := ""; fb_Operator := operator; SubmittedAt := 0; FeedbackSource := "" |}.

Definition postAtGateFeedback (now : Time) (failure : option string) (runID operator : string)
    (verdict : option bool) (notes : string) (runs : list RunRow) (t : list FeedbackRow) : list FeedbackRow :=
  if runID =?s "" then t
  else (handleSubmitFeedback now failure runID "" (Ok (at_gate_body "" operator notes verdict)) runs t).1.

Definition submitDenialFeedback (now : Time) (failure : option string) (runID seriesID operator reason : string)
    (runs : list RunRow) (t : list FeedbackRow) : list FeedbackRow :=
  if (runID =?s "") || (seriesID =?s "") then t
  else (handleSubmitFeedback now failure runID "" (Ok (at_gate_body seriesID operator reason (Some false))) runs t).1.

Inductive RequestFeedbackReply :=
  | RFError (code : Z) (msg : string)
  | RFCreated (run_id resolve_url : string).

(** [baseURL] is the gateway's own address. *)
Definition handleRequestFeedback (baseURL : string) (now : Time) (failure : option string) (runID user : string)
    (runs : list RunRow) (t : list FeedbackRow) : list FeedbackRow * RequestFeedbackReply :=
  if runID =?s "" then (t, RFError 400 "runID is required")
  else
    match handleSubmitFeedback now failure runID "" (Ok (placeholder_body (or_default "faulttest" user))) runs t with
    | (t', FError code msg) => (t', RFError code msg)
    | (t', _) =>
        (t', RFCreated runID (trim_suffix baseURL "/" ++ "/api/v1/decisions/feedback:" ++ runID ++ "/resolve"))
    end.

(** ** The evaluation table *)

Record RunEvaluation := {
  ev_RunID : string;
  FailureID : string;
  FailureName : string;
  KeywordScore : spec_float;
  ToolScore : spec_float;
  DiagnosisScore : spec_float;
  RemediationScore : spec_float;
  OverallScore : spec_float;
  JudgeUsed : bool;
  Passed : bool;
  ev_CreatedAt : Time;
  RemediationJudgeScore : spec_float;
  RemediationJudgeReasoning : string;
  PrimaryConfidence : spec_float }.

(** A row; its time is a text. *)
Record EvaluationRow := { er_eval : RunEvaluation; er_CreatedAt : string }.

Definition set_created (t : Time) (e : RunEvaluation) : RunEvaluation :=
  {| ev_RunID := ev_RunID e; FailureID := FailureID e; FailureName := FailureName e;
     KeywordScore := KeywordScore e; ToolScore := ToolScore e; DiagnosisScore := DiagnosisScore e;
     RemediationScore := RemediationScore e; OverallScore := OverallScore e; JudgeUsed := JudgeUsed e;
     Passed := Passed e; ev_CreatedAt := t; RemediationJudgeScore := RemediationJudgeScore e;
     RemediationJudgeReasoning := RemediationJudgeReasoning e; PrimaryConfidence := PrimaryConfidence e |}.

Definition set_eval_run (runID : string) (e : RunEvaluation) : RunEvaluation :=
  {| ev_RunID := runID; FailureID := FailureID e; FailureName := FailureName e;
     KeywordScore := KeywordScore e; ToolScore := ToolScore e; DiagnosisScore := DiagnosisScore e;
     RemediationScore := RemediationScore e; OverallScore := OverallScore e; JudgeUsed := JudgeUsed e;
     Passed := Passed e; ev_CreatedAt := ev_CreatedAt e; RemediationJudgeScore := RemediationJudgeScore e;
     RemediationJudgeReasoning := RemediationJudgeReasoning e; PrimaryConfidence := PrimaryConfidence e |}.

Definition eval_is (runID : string) (r : EvaluationRow) : bool := ev_RunID (er_eval r) =?s runID.

Definition UpsertEvaluation (now : Time) (failure : option string) (e : RunEvaluation) (t : list EvaluationRow)
    : list EvaluationRow * option string :=
  let e := if IsZero (ev_CreatedAt e) then set_created now e else e in
  let row := {| er_eval := e; er_CreatedAt := RFC3339Nano (ev_CreatedAt e) |} in
  match failure with
  | Some err => (t, Some err)
  | None =>
      (if existsb (eval_is (ev_RunID e)) t then map (fun r => if eval_is (ev_RunID e) r then row else r) t
       else (t ++ [row])%list, None)
  end.

Definition GetEvaluation (runID : string) (t : list EvaluationRow) : option RunEvaluation :=
  option_map (fun r => set_created (parse_or_zero (er_CreatedAt r)) (er_eval r)) (find (eval_is runID) t).

Record FaultRunEntry := { fe_RunID : string; fe_FailureID : string; Timestamp : Time; fe_Passed : bool }.

(** [ORDER BY created_at ASC], a text; the cutoff is a text too. *)
Definition ListHistory (now : Time) (sinceDays : Z) (faultID : string) (t : list EvaluationRow) : list FaultRunEntry :=
  let cutoff := RFC3339Nano (now - sinceDays * Day)%Z in
  let keep r := ((faultID =?s "") || (FailureID (er_eval r) =?s faultID)) &&
                negb (FailureID (er_eval r) =?s "") && text_le cutoff (er_CreatedAt r) in
  map (fun r => {| fe_RunID := ev_RunID (er_eval r); fe_FailureID := FailureID (er_eval r);
                   Timestamp := parse_or_zero (er_CreatedAt r); fe_Passed := Passed (er_eval r) |})
    (isort (fun a b => text_lt (er_CreatedAt a) (er_CreatedAt b)) (List.filter keep t)).

(** ** Calibration *)

Record CalibrationBand := {
  Band : string;
  Runs : Z;
  Correct : Z;
  ActualAccuracy : spec_float;
  Calibration : string;
  HeuristicRuns : Z }.

Record CalibrationReport := {
  cr_SeriesID : string;
  Bands : list CalibrationBand;
  TotalRuns_ : Z;
  RemediationBands : list CalibrationBand;
  RemediationRuns : Z;
  HeuristicCount : Z;
  HumanRuns : Z;
  AutoJudgeRuns : Z }.

Record bandDef := { label : string; min : spec_float; max : spec_float; expected : spec_float }.

Definition diagBands : list bandDef :=
  [ {| label := "90-100%"; min := float_ratio 90 100; max := float_ratio 101 100; expected := float_ratio 95 100 |};
    {| label := "70-89%"; min := float_ratio 70 100; max := float_ratio 90 100; expected := float_ratio 80 100 |};
    {| label := "<70%"; min := float_int 0; max := float_ratio 70 100; expected := float_ratio 50 100 |} ].

Definition calibrationLabel (actual expected : spec_float) (runs : Z) : string :=
  if (runs <? 3)%Z then "INSUFFICIENT_DATA"
  else
    let diff := float_sub actual expected in
    if SFltb diff (SFopp (float_ratio 10 100)) then "OVERCONFIDENT"
    else if SFltb (float_ratio 10 100) diff then "UNDERCONFIDENT"
    else "WELL_CALIBRATED".

(** The LEFT JOIN of an evaluation with the feedback of its run: the primary key leaves
    one row at most. *)
Definition joined (seriesID feedbackType feedbackTime : string) (feedback : list FeedbackRow) (runID : string)
    : option FeedbackRow :=
  find (fun f => (fr_RunID f =?s runID) && (fr_Type f =?s feedbackType) && (fr_Time f =?s feedbackTime) &&
                 has_verdict f && ((seriesID =?s "") || (fr_SeriesID f =?s seriesID))) feedback.

(** COALESCE over the two joined rows, the preferred one first. *)
Definition preferred (a b : option FeedbackRow) : option FeedbackRow := match a with Some f => Some f | None => b end.

Definition triage_feedback (seriesID : string) (feedback : list FeedbackRow) (e : RunEvaluation) : option FeedbackRow :=
  preferred (joined seriesID "triage" "at_gate" feedback (ev_RunID e))
            (joined seriesID "triage" "post_incident" feedback (ev_RunID e)).

Definition remediation_feedback (seriesID : string) (feedback : list FeedbackRow) (e : RunEvaluation)
    : option FeedbackRow :=
  preferred (joined seriesID "remediation" "post_incident" feedback (ev_RunID e))
            (joined seriesID "remediation" "at_gate" feedback (ev_RunID e)).

Definition float_positive (x : spec_float) : bool := SFltb (float_int 0) x.
Definition float_zero (x : spec_float) : bool := SFeqb x (float_int 0).

(** A row of the result: score, judge, verdict and source. *)
Record Scored := { score : spec_float; sc_JudgeUsed : bool; sc_Correct : bool; sc_Source : string }.

Definition scored_rows (pick : RunEvaluation -> option FeedbackRow) (sc : RunEvaluation -> spec_float)
    (evals : list EvaluationRow) : list Scored :=
  omap (fun r =>
          let e := er_eval r in
          match pick e with
          | Some f =>
              if float_positive (sc e) then
                Some {| score := sc e; sc_JudgeUsed := JudgeUsed e; sc_Correct := is_correct f; sc_Source := fr_Source f |}
              else None
          | None => None
          end) evals.

Record Accum := { a_runs : Z; a_correct : Z; a_heuristic : Z }.

Definition in_band (b : bandDef) (x : spec_float) : bool := SFleb (min b) x && SFltb x (max b).

Definition bump_accum (r : Scored) (a : Accum) : Accum :=
  {| a_runs := a_runs a + 1; a_correct := a_correct a + (if sc_Correct r then 1 else 0);
     a_heuristic := a_heuristic a + (if sc_JudgeUsed r then 0 else 1) |}.

(** The inner loop: the first band that the score is in. *)
Fixpoint count_in_band (r : Scored) (bands : list bandDef) (counts : list Accum) : list Accum :=
  match bands, counts with
  | b :: bands, c :: counts =>
      if in_band b (score r) then bump_accum r c :: counts else c :: count_in_band r bands counts
  | _, _ => counts
  end.

Definition band_counts (rows : list Scored) : list Accum :=
  fold_left (fun counts r => count_in_band r diagBands counts) rows
    (map (fun _ => {| a_runs := 0; a_correct := 0; a_heuristic := 0 |}) diagBands).

Definition make_band (heuristic : bool) (b : bandDef) (c : Accum) : CalibrationBand :=
  let accuracy := rate (a_correct c) (a_runs c) in
  {| Band := label b; Runs := a_runs c; Correct := a_correct c; ActualAccuracy := accuracy;
     Calibration := calibrationLabel accuracy (expected b) (a_runs c);
     HeuristicRuns := if heuristic then a_heuristic c else 0 |}.

Definition sum_runs (l : list CalibrationBand) : Z := fold_left (fun n b => n + Runs b)%Z l 0%Z.

Definition from_judge (r : Scored) : bool := sc_Source r =?s "auto_judge".

Definition CalibrationBands (seriesID : string) (feedback : list FeedbackRow) (evals : list EvaluationRow)
    : CalibrationReport :=
  let rows := scored_rows (triage_feedback seriesID feedback) PrimaryConfidence evals in
  let remRows := scored_rows (remediation_feedback seriesID feedback) RemediationJudgeScore evals in
  let bands := zip_with (make_band true) diagBands (band_counts rows) in
  let remBands := zip_with (make_band false) diagBands (band_counts remRows) in
  {| cr_SeriesID := seriesID; Bands := bands; TotalRuns_ := sum_runs bands; RemediationBands := remBands;
     RemediationRuns := sum_runs remBands;
     HeuristicCount := count (fun r => match triage_feedback seriesID feedback (er_eval r) with
                                       | Some _ => float_zero (PrimaryConfidence (er_eval r))
                                       | None => false
                                       end) evals;
     HumanRuns := count (fun r => negb (from_judge r)) rows; AutoJudgeRuns := count from_judge rows |}.

(** ** The evaluation endpoints *)

Inductive EvaluationReply :=
  | EError (code : Z) (msg : string)
  | ENoContent
  | EOne (e : RunEvaluation)
  | EReport (r : CalibrationReport)
  | EEntries (l : list FaultRunEntry).

Definition handleSubmitEvaluation (now : Time) (failure : option string) (runID : string)
    (body : result string RunEvaluation) (t : list EvaluationRow) : list EvaluationRow * EvaluationReply :=
  if runID =?s "" then (t, EError 400 "runID is required")
  else
    match body with
    | Err e => (t, EError 400 ("invalid JSON: " ++ e))
    | Ok e =>
        match UpsertEvaluation now failure (set_eval_run runID e) t with
        | (t', None) => (t', ENoContent)
        | (t', Some _) => (t', EError 500 "failed to submit evaluation")
        end
    end.

Definition handleGetEvaluation (runID : string) (t : list EvaluationRow) : EvaluationReply :=
  if runID =?s "" then EError 400 "runID is required"
  else match GetEvaluation runID t with Some e => EOne e | None => EError 404 "no evaluation for run" end.

Definition handleCalibration (series_id : string) (feedback : list FeedbackRow) (t : list EvaluationRow)
    : EvaluationReply := EReport (CalibrationBands series_id feedback t).

Definition handleFaultRunHistory (now : Time) (since_days fault_id : string) (t : list EvaluationRow) : EvaluationReply :=
  let sinceDays := match atoi since_days with Some n => if (0 <? n)%Z then n else 90%Z | None => 90%Z end in
  EEntries (ListHistory now sinceDays fault_id t).

(** ** Statistics of the runs *)

Record PlaybookRunStats := {
  ps_SeriesID : string;
  TotalRuns : Z;
  Resolved : Z;
  Escalated : Z;
  Abandoned : Z;
  EscalationRate : spec_float;
  ResolutionRate : spec_float;
  LastRunAt : string;
  ps_Feedback : FeedbackStats;
  AvgStepCount : spec_float;
  AvgRecoverySecs : spec_float }.

(** "2006-01-02T15:04:05Z07:00" in UTC. *)
(** [MAX(started_at)] of the rows, if there are any. *)
Definition max_text (a b : string) : string := if text_lt a b then b else a.

Definition last_started (rows : list RunRow) : option string :=
  match rows with
  | [] => None
  | r :: rest => Some (fold_left (fun m r => max_text m (rr_StartedAt r)) rest (rr_StartedAt r))
  end.

Definition last_run_text (s : option string) : string :=
  match s with
  | Some s => if s =?s "" then "" else match Parse_datetime s with Some t => RFC3339 t | None => s end
  | None => ""
  end.

Definition has_outcome (o : string) (r : RunRow) : bool := rr_Outcome r =?s o.

(** The zero values of the members that the feedback fills. *)
Definition no_feedback_stats : FeedbackStats :=
  let z := float_int 0 in
  {| fs_SeriesID := ""; FeedbackCount := 0; CorrectCount := 0; AccuracyRate := z; AtGateCount := 0;
     AtGateCorrect := 0; AtGateAccuracyRate := z; PostIncidentCount := 0; PostIncidentCorrect := 0;
     PostIncidentAccuracyRate := z; RemediationFeedbackCount := 0; RemediationCorrectCount := 0;
     RemediationAccuracyRate := z; RemediationAtGateCount := 0; RemediationAtGateCorrect := 0;
     RemediationPostIncidentCount := 0; RemediationPostIncidentCorrect := 0 |}.

(** The statistics of the rows of one series, before the averages. *)
Definition series_stats (seriesID : string) (rows : list RunRow) : PlaybookRunStats :=
  let n := Z.of_nat (length rows) in
  {| ps_SeriesID := seriesID; TotalRuns := n; Resolved := count (has_outcome OutcomeResolved) rows;
     Escalated := count (has_outcome OutcomeEscalated) rows; Abandoned := count (has_outcome OutcomeAbandoned) rows;
     EscalationRate := rate (count (has_outcome OutcomeEscalated) rows) n;
     ResolutionRate := rate (count (has_outcome OutcomeResolved) rows) n;
     LastRunAt := last_run_text (last_started rows); ps_Feedback := no_feedback_stats;
     AvgStepCount := float_int 0; AvgRecoverySecs := float_int 0 |}.

Section Stats.
Context {Value : Type}.
Implicit Types steps : list (PlaybookRunStep Value).

(** The number of steps of a run, from the LEFT JOIN. *)
Definition step_count steps (r : RunRow) : Z := count (fun s => st_RunID s =?s rr_RunID r) steps.

(** How long a finished run took, where both times can be read. *)
Definition recovery (r : RunRow) : option spec_float :=
  if (rr_StartedAt r =?s "") || (rr_CompletedAt r =?s "") then None
  else
    let started := parseFlexTime (rr_StartedAt r) in
    let completed := parseFlexTime (rr_CompletedAt r) in
    if negb (IsZero started) && negb (IsZero completed) && After completed started then
      Some (seconds (time_sub completed started))
    else None.

Record Efficiency := { stepSum : spec_float; totalRuns : Z; recoverySumSecs : spec_float; recoveryCount : Z }.

Definition no_efficiency : Efficiency :=
  {| stepSum := float_int 0; totalRuns := 0; recoverySumSecs := float_int 0; recoveryCount := 0 |}.

Definition see_run steps (a : Efficiency) (r : RunRow) : Efficiency :=
  {| stepSum := float_add (stepSum a) (float_int (step_count steps r)); totalRuns := totalRuns a + 1;
     recoverySumSecs := match recovery r with Some s => float_add (recoverySumSecs a) s | None => recoverySumSecs a end;
     recoveryCount := match recovery r with Some _ => recoveryCount a + 1 | None => recoveryCount a end |}.

(** The last loop, for one entry of the map. *)
Definition with_averages (a : Efficiency) (st : PlaybookRunStats) : PlaybookRunStats :=
  if (totalRuns a =? 0)%Z then st
  else
    {| ps_SeriesID := ps_SeriesID st; TotalRuns := TotalRuns st; Resolved := Resolved st; Escalated := Escalated st;
       Abandoned := Abandoned st; EscalationRate := EscalationRate st; ResolutionRate := ResolutionRate st;
       LastRunAt := LastRunAt st; ps_Feedback := ps_Feedback st;
       AvgStepCount := float_div (stepSum a) (float_int (totalRuns a));
       AvgRecoverySecs := if (0 <? recoveryCount a)%Z then float_div (recoverySumSecs a) (float_int (recoveryCount a))
                          else AvgRecoverySecs st |}.

Definition in_series_run (seriesID : string) (r : RunRow) : bool := rr_SeriesID r =?s seriesID.

(** The accumulators of all series in one pass over the rows. *)
Definition efficiencies (ids : list string) steps (t : list RunRow) : gmap string Efficiency :=
  fold_left (fun m r => <[rr_SeriesID r := see_run steps (default no_efficiency (m !! rr_SeriesID r)) r]> m)
    (List.filter (fun r => mem (rr_SeriesID r) ids) t) ∅.

Definition augmentEfficiencyStats steps (t : list RunRow) (stats : gmap string PlaybookRunStats)
    : gmap string PlaybookRunStats :=
  let acc := efficiencies (map fst (map_to_list stats)) steps t in
  map_imap (fun id st => Some (match acc !! id with Some a => with_averages a st | None => st end)) stats.

Definition Stats (seriesID : string) steps (t : list RunRow) : PlaybookRunStats :=
  let st := series_stats seriesID (List.filter (in_series_run seriesID) t) in
  default st (augmentEfficiencyStats steps t {[seriesID := st]} !! seriesID).

Definition StatsBatch (ids : list string) steps (t : list RunRow) : gmap string PlaybookRunStats :=
  if (length ids =? 0)%nat then ∅
  else
    augmentEfficiencyStats steps t
      (as_map (map (fun g => (g.1, series_stats g.1 g.2))
                     (group_by rr_SeriesID (List.filter (fun r => mem (rr_SeriesID r) ids) t)))).

(** *** By version *)

Record PlaybookVersionStats := {
  pv_SeriesID : string;
  pv_PlaybookID : string;
  pv_OriginTrace : string;
  pv_Version : string;
  pv_IsActive : bool;
  pv_TotalRuns : Z;
  pv_Resolved : Z;
  pv_ResolutionRate : spec_float;
  Transitioned : Z;
  TransitionRate : spec_float;
  pv_Escalated : Z;
  pv_EscalationRate : spec_float;
  pv_AvgStepCount : spec_float;
  pv_AvgRecoverySecs : spec_float;
  AvgDiagnosisScore : spec_float;
  DiagEvalCount : Z;
  AvgRemediationScore : spec_float;
  RemedEvalCount : Z;
  RemFeedbackCount : Z;
  RemFeedbackRate : spec_float;
  pv_JudgeVerdict : string;
  pv_JudgeModel : string;
  pv_JudgeAt : string }.

(** A row of the join of a run with its playbook and its evaluation. *)
Record VersionRow := { vr_run : RunRow; vr_pb : Playbook; vr_eval : option RunEvaluation }.

Definition version_rows (seriesID : string) (playbooks : Table) (evals : list EvaluationRow) (t : list RunRow)
    : list VersionRow :=
  let before a b := text_lt (pb_Version (vr_pb a)) (pb_Version (vr_pb b)) ||
                    ((pb_Version (vr_pb a) =?s pb_Version (vr_pb b)) &&
                     text_lt (rr_StartedAt (vr_run a)) (rr_StartedAt (vr_run b))) in
  isort before
    (omap (fun r =>
             match find (has_id (rr_PlaybookID r)) playbooks with
             | Some pb => Some {| vr_run := r; vr_pb := pb;
                                  vr_eval := option_map er_eval (find (eval_is (rr_RunID r)) evals) |}
             | None => None
             end) (List.filter (in_series_run seriesID) t)).

(** An escalation, or a run that waits at the gate of one. *)
Definition counts_escalated (r : RunRow) : bool :=
  has_outcome OutcomeEscalated r || (has_outcome OutcomeGatePending r && negb (rr_EscalatedTo r =?s "")).

Definition remed_score (v : VersionRow) : option spec_float :=
  match vr_eval v with
  | Some e => if float_positive (RemediationScore e) then Some (RemediationScore e) else None
  | None => None
  end.

Definition float_sum (l : list spec_float) : spec_float := fold_left float_add l (float_int 0).

(** The accumulator of a version, from its rows: the first one gives the playbook. *)
Definition version_stats (seriesID : string) steps (v : string) (rows : list VersionRow) : PlaybookVersionStats :=
  let runs := map vr_run rows in
  let n := Z.of_nat (length rows) in
  let resolved := count (has_outcome OutcomeResolved) runs in
  let transitioned := count (has_outcome OutcomeTransitioned) runs in
  let escalated := count counts_escalated runs in
  let recoveries := omap recovery runs in
  let diag := omap (fun v => option_map DiagnosisScore (vr_eval v)) rows in
  let remed := omap remed_score rows in
  let pb := option_map vr_pb (head rows) in
  {| pv_SeriesID := seriesID; pv_PlaybookID := match pb with Some pb => PlaybookID pb | None => "" end;
     pv_OriginTrace := match pb with Some pb => OriginTrace pb | None => "" end; pv_Version := v;
     pv_IsActive := match pb with Some pb => IsActive pb | None => false end;
     pv_TotalRuns := n; pv_Resolved := resolved; pv_ResolutionRate := rate resolved n;
     Transitioned := transitioned; TransitionRate := rate transitioned n;
     pv_Escalated := escalated; pv_EscalationRate := rate escalated n;
     pv_AvgStepCount := mean (float_sum (map (fun r => float_int (step_count steps r)) runs)) n;
     pv_AvgRecoverySecs := mean (float_sum recoveries) (Z.of_nat (length recoveries));
     AvgDiagnosisScore := mean (float_sum diag) (Z.of_nat (length diag)); DiagEvalCount := Z.of_nat (length diag);
     AvgRemediationScore := mean (float_sum remed) (Z.of_nat (length remed));
     RemedEvalCount := Z.of_nat (length remed); RemFeedbackCount := 0; RemFeedbackRate := float_int 0;
     pv_JudgeVerdict := ""; pv_JudgeModel := ""; pv_JudgeAt := "" |}.

Definition set_rem_feedback (n ok : Z) (st : PlaybookVersionStats) : PlaybookVersionStats :=
  {| pv_SeriesID := pv_SeriesID st; pv_PlaybookID := pv_PlaybookID st; pv_OriginTrace := pv_OriginTrace st;
     pv_Version := pv_Version st; pv_IsActive := pv_IsActive st; pv_TotalRuns := pv_TotalRuns st;
     pv_Resolved := pv_Resolved st; pv_ResolutionRate := pv_ResolutionRate st; Transitioned := Transitioned st;
     TransitionRate := TransitionRate st; pv_Escalated := pv_Escalated st; pv_EscalationRate := pv_EscalationRate st;
     pv_AvgStepCount := pv_AvgStepCount st; pv_AvgRecoverySecs := pv_AvgRecoverySecs st;
     AvgDiagnosisScore := AvgDiagnosisScore st; DiagEvalCount := DiagEvalCount st;
     AvgRemediationScore := AvgRemediationScore st; RemedEvalCount := RemedEvalCount st;
     RemFeedbackCount := n; RemFeedbackRate := rate ok n; pv_JudgeVerdict := pv_JudgeVerdict st;
     pv_JudgeModel := pv_JudgeModel st; pv_JudgeAt := pv_JudgeAt st |}.

Definition set_judge (pb : Playbook) (st : PlaybookVersionStats) : PlaybookVersionStats :=
  {| pv_SeriesID := pv_SeriesID st; pv_PlaybookID := pv_PlaybookID st; pv_OriginTrace := pv_OriginTrace st;
     pv_Version := pv_Version st; pv_IsActive := pv_IsActive st; pv_TotalRuns := pv_TotalRuns st;
     pv_Resolved := pv_Resolved st; pv_ResolutionRate := pv_ResolutionRate st; Transitioned := Transitioned st;
     TransitionRate := TransitionRate st; pv_Escalated := pv_Escalated st; pv_EscalationRate := pv_EscalationRate st;
     pv_AvgStepCount := pv_AvgStepCount st; pv_AvgRecoverySecs := pv_AvgRecoverySecs st;
     AvgDiagnosisScore := AvgDiagnosisScore st; DiagEvalCount := DiagEvalCount st;
     AvgRemediationScore := AvgRemediationScore st; RemedEvalCount := RemedEvalCount st;
     RemFeedbackCount := RemFeedbackCount st; RemFeedbackRate := RemFeedbackRate st;
     pv_JudgeVerdict := JudgeVerdict pb; pv_JudgeModel := JudgeModel pb;
     pv_JudgeAt := formatNullableTime (JudgeAt pb) |}.

(** The verdicts on remediation that runs of a version have, unset ones included: [true]
    for a verdict that is set and positive. *)
Definition version_verdicts (seriesID version : string) (playbooks : Table) (feedback : list FeedbackRow)
    (t : list RunRow) : list bool :=
  omap (fun f =>
          if fr_Type f =?s "remediation" then
            match find (run_is (fr_RunID f)) t with
            | Some r =>
                match find (has_id (rr_PlaybookID r)) playbooks with
                | Some pb =>
                    if in_series_run seriesID r && (pb_Version pb =?s version) then
                      Some (match fr_Verdict f with Some v => negb (v =? 0)%Z | None => false end)
                    else None
                | None => None
                end
            | None => None
            end
          else None) feedback.

(** The judge's verdict is found by playbook id. *)
Definition judged (seriesID id : string) (pb : Playbook) : bool :=
  in_series seriesID pb && negb (JudgeVerdict pb =?s "") && has_id id pb.

Definition StatsByVersion (seriesID : string) (playbooks : Table) (feedback : list FeedbackRow)
    (evals : list EvaluationRow) steps (t : list RunRow) : list PlaybookVersionStats :=
  let groups := group_by (fun v => pb_Version (vr_pb v)) (version_rows seriesID playbooks evals t) in
  map (fun g =>
         let st := version_stats seriesID steps g.1 g.2 in
         let verdicts := version_verdicts seriesID g.1 playbooks feedback t in
         let st := if (length verdicts =? 0)%nat then st
                   else set_rem_feedback (Z.of_nat (length verdicts)) (count id verdicts) st in
         if pv_PlaybookID st =?s "" then st
         else match find (judged seriesID (pv_PlaybookID st)) playbooks with
              | Some pb => set_judge pb st
              | None => st
              end) groups.

(** *** The endpoints *)

Inductive StatsReply :=
  | TError (code : Z) (msg : string)
  | TStats (st : PlaybookRunStats)
  | TVersions (seriesID : string) (l : list PlaybookVersionStats)
  | TPlaybooks (l : list (Playbook * option PlaybookRunStats)).

(** The members copied from the statistics of the feedback. *)
Definition merge_feedback (fs : FeedbackStats) (st : PlaybookRunStats) : PlaybookRunStats :=
  {| ps_SeriesID := ps_SeriesID st; TotalRuns := TotalRuns st; Resolved := Resolved st; Escalated := Escalated st;
     Abandoned := Abandoned st; EscalationRate := EscalationRate st; ResolutionRate := ResolutionRate st;
     LastRunAt := LastRunAt st; ps_Feedback := fs; AvgStepCount := AvgStepCount st;
     AvgRecoverySecs := AvgRecoverySecs st |}.

Definition handleStats (playbookID : string) (playbooks : Table) (feedback : list FeedbackRow) steps
    (t : list RunRow) : StatsReply :=
  match GetPlaybook playbookID playbooks with
  | None => TError 404 "playbook not found"
  | Some pb =>
      TStats (merge_feedback (StatsBySeries (pb_SeriesID pb) feedback) (Stats (pb_SeriesID pb) steps t))
  end.

Definition handleVersionStats (seriesID : string) (playbooks : Table) (feedback : list FeedbackRow)
    (evals : list EvaluationRow) steps (t : list RunRow) : StatsReply :=
  if seriesID =?s "" then TError 400 "seriesID path parameter is required"
  else TVersions seriesID (StatsByVersion seriesID playbooks feedback evals steps t).

(** The list of playbooks, each with the statistics of its series. *)
Definition handleListWithStats (order : Table -> Table) (q : PlaybookListQuery) (playbooks : Table)
    (feedback : list FeedbackRow) steps (t : list RunRow) : StatsReply :=
  let l := ListPlaybooks order q playbooks in
  let ids := List.filter (fun s => negb (s =?s "")) (map pb_SeriesID l) in
  let stats := StatsBatch ids steps t in
  TPlaybooks (map (fun pb => (pb, option_map (merge_feedback (StatsBySeries (pb_SeriesID pb) feedback))
                                    (stats !! pb_SeriesID pb))) l).
End Stats.

(** ** Groups *)

Lemma add_group_lookup {A} k (x : A) gs k' :
  as_map (add_group k x gs) !! k' =
  if decide (k' = k) then Some (default [] (as_map gs !! k) ++ [x])%list else as_map gs !! k'.
Proof.
  unfold as_map. induction gs as [|[k0 xs] gs IH]; simpl.
  - case_decide as E; [subst; by rewrite lookup_insert_eq|by rewrite lookup_insert_ne].
  - destruct (String.eqb_spec k0 k) as [->|Hne]; simpl.
    + rewrite lookup_insert_eq. case_decide as E; [subst; by rewrite lookup_insert_eq|].
      by rewrite !lookup_insert_ne by done.
    + rewrite (lookup_insert_ne _ k0 k) by done. destruct (decide (k' = k0)) as [->|Hk].
      * rewrite !lookup_insert_eq. by rewrite decide_False.
      * by rewrite !(lookup_insert_ne _ k0 k') by done.
Qed.

Lemma group_by_snoc {A} (key : A -> string) l x : group_by key (l ++ [x]) = add_group (key x) x (group_by key l).
Proof. unfold group_by. by rewrite fold_left_app. Qed.

(** The rows of a key, and whether there are any. *)
Definition with_key {A} (key : A -> string) (k : string) (l : list A) : list A := List.filter (fun x => key x =?s k) l.

Definition some_rows {A} (l : list A) : option (list A) := match l with [] => None | _ => Some l end.

Lemma some_rows_snoc {A} (l : list A) x : some_rows (l ++ [x]) = Some (default [] (some_rows l) ++ [x])%list.
Proof. by destruct l. Qed.

Lemma group_by_lookup {A} (key : A -> string) l k :
  as_map (group_by key l) !! k = some_rows (with_key key k l).
Proof.
  induction l as [|x l IH] using rev_ind; [done|].
  rewrite group_by_snoc, add_group_lookup. unfold with_key in *. rewrite List.filter_app. simpl. case_decide as E.
  - subst k. rewrite IH, streq_refl. by rewrite some_rows_snoc.
  - rewrite (proj2 (streq_false (key x) k)) by congruence. by rewrite app_nil_r.
Qed.

Lemma add_group_keys {A} k (x : A) gs : NoDup (map fst gs) -> NoDup (map fst (add_group k x gs)).
Proof.
  intros H. assert (Hin : forall gs k', In k' (map fst (add_group k x gs)) -> k' = k \/ In k' (map fst gs)).
  { clear. induction gs as [|[k0 xs] gs IH]; simpl; intros k'; [by intros [->|[]]; left|].
    destruct (k0 =?s k); simpl; [tauto|]. intros [->|Hi]; [tauto|]. destruct (IH _ Hi); tauto. }
  induction gs as [|[k0 xs] gs IH]; simpl in *; [apply NoDup_singleton|].
  apply NoDup_cons in H as [H0 H]. destruct (String.eqb_spec k0 k) as [->|Hne]; simpl; [by apply NoDup_cons|].
  apply NoDup_cons. split; [|by apply IH]. rewrite list_elem_of_In in *. intros Hi.
  destruct (Hin _ _ Hi) as [->|]; tauto.
Qed.

Lemma group_by_keys {A} (key : A -> string) l : NoDup (map fst (group_by key l)).
Proof.
  induction l as [|x l IH] using rev_ind; [apply NoDup_nil_2|]. rewrite group_by_snoc. by apply add_group_keys.
Qed.

Lemma as_map_groups {A B} (f : string -> list A -> B) (gs : list (string * list A)) k :
  as_map (map (fun g => (g.1, f g.1 g.2)) gs) !! k = f k <$> as_map gs !! k.
Proof.
  unfold as_map. induction gs as [|[k0 xs] gs IH]; simpl; [done|].
  destruct (decide (k = k0)) as [->|Hne]; [by rewrite !lookup_insert_eq|by rewrite !lookup_insert_ne by done].
Qed.

(** ** One series alone and in a batch *)

Section StatsProofs.
Context {Value : Type}.
Implicit Types steps : list (PlaybookRunStep Value).

Lemma efficiencies_lookup ids steps t s :
  mem s ids = true ->
  efficiencies ids steps t !! s =
  (fun rows => fold_left (see_run steps) rows no_efficiency) <$> some_rows (List.filter (in_series_run s) t).
Proof.
  intros Hs. unfold efficiencies. induction t as [|r t IH] using rev_ind; [done|].
  rewrite !List.filter_app. simpl. change (in_series_run s r) with (rr_SeriesID r =?s s).
  destruct (String.eqb_spec (rr_SeriesID r) s) as [<-|Hne].
  - rewrite Hs, fold_left_app, some_rows_snoc. simpl. rewrite lookup_insert_eq, IH. f_equal.
    rewrite fold_left_app. simpl. by destruct (List.filter (in_series_run _) t).
  - rewrite app_nil_r, <- IH. destruct (mem (rr_SeriesID r) ids); [|by rewrite app_nil_r].
    rewrite fold_left_app. simpl. by rewrite lookup_insert_ne.
Qed.

(** What the two passes add to the statistics of a series. *)
Definition averaged steps (t : list RunRow) (s : string) (st : PlaybookRunStats) : PlaybookRunStats :=
  match some_rows (List.filter (in_series_run s) t) with
  | Some rows => with_averages (fold_left (see_run steps) rows no_efficiency) st
  | None => st
  end.

Lemma augment_lookup steps t stats s :
  augmentEfficiencyStats steps t stats !! s = averaged steps t s <$> stats !! s.
Proof.
  unfold augmentEfficiencyStats. rewrite map_lookup_imap. destruct (stats !! s) as [st|] eqn:E; simpl; [|done].
  rewrite efficiencies_lookup.
  - unfold averaged. by destruct (some_rows _).
  - apply mem_spec, in_map_iff. exists (s, st). split; [done|]. by apply list_elem_of_In, elem_of_map_to_list.
Qed.

Lemma Stats_averaged s steps t :
  Stats s steps t = averaged steps t s (series_stats s (List.filter (in_series_run s) t)).
Proof. unfold Stats. rewrite augment_lookup, lookup_singleton_eq. done. Qed.

Lemma filter_series s ids t : mem s ids = true ->
  with_key rr_SeriesID s (List.filter (fun r => mem (rr_SeriesID r) ids) t) = List.filter (in_series_run s) t.
Proof.
  intros Hs. unfold with_key, in_series_run. induction t as [|r t IH]; simpl; [done|].
  destruct (rr_SeriesID r =?s s) eqn:E.
  - pose proof (proj1 (streq_spec _ _) E) as E'. rewrite <- E' in Hs. rewrite Hs. simpl. by rewrite E, IH.
  - destruct (mem (rr_SeriesID r) ids); simpl; [by rewrite E|done].
Qed.

Lemma filter_no_series s ids t : mem s ids = false ->
  with_key rr_SeriesID s (List.filter (fun r => mem (rr_SeriesID r) ids) t) = [].
Proof.
  intros Hs. unfold with_key. induction t as [|r t IH]; simpl; [done|].
  destruct (mem (rr_SeriesID r) ids) eqn:E; simpl; [|done].
  destruct (String.eqb_spec (rr_SeriesID r) s) as [E'|]; [congruence|done].
Qed.

(**  The batch statistics of the playbook list are those of the
    single-series endpoint: an asked series with a run has in the batch exactly what
    [Stats] answers for it, averages over steps and recovery times included, and any
    other series has no entry. *)
Theorem stats_agree ids steps t s :
  StatsBatch ids steps t !! s =
  if mem s ids && existsb (in_series_run s) t then Some (Stats s steps t) else None.
Proof.
  unfold StatsBatch. destruct ids as [|i ids]; [done|]. set (l := i :: ids). simpl (_ =? 0)%nat. cbv iota.
  rewrite augment_lookup, as_map_groups, group_by_lookup.
  destruct (mem s l) eqn:Hs; [|by rewrite filter_no_series].
  rewrite filter_series, Stats_averaged by done. simpl.
  destruct (List.filter (in_series_run s) t) as [|r rows] eqn:E.
  - rewrite (proj2 (existsb_false _ _)); [done|]. intros x Hx. destruct (in_series_run s x) eqn:Ex; [|done].
    assert (H : In x (List.filter (in_series_run s) t)) by (by apply filter_In). by rewrite E in H.
  - rewrite (proj2 (existsb_exists _ _)); [done|]. exists r.
    assert (H : In r (List.filter (in_series_run s) t)) by (rewrite E; by left). by apply filter_In in H.
Qed.
End StatsProofs.

(** ** The feedback table as a map

    What the table promises: for every run, type and time, the verdict submitted
    last.  The table is a list; [feedback_map] is the map it stands for. *)

Abbreviation FeedbackMap := (gmap (string * string * string) FeedbackRow).

Definition feedback_map (t : list FeedbackRow) : FeedbackMap := list_to_map (map (fun r => (feedback_key r, r)) t).

Definition unique_keys (t : list FeedbackRow) : Prop := NoDup (map feedback_key t).

(** A submission: the clock, the database's failure and the body. *)
Definition Submission : Type := Time * option string * RunFeedback.

Definition submit_all (subs : list Submission) : list FeedbackRow :=
  fold_left (fun t s => (Submit s.1.1 s.1.2 s.2 t).1) subs [].

(** The specification: an insertion for each submission that does not fail. *)
Definition record_verdict (m : FeedbackMap) (s : Submission) : FeedbackMap :=
  match s.1.2 with
  | Some _ => m
  | None => let r := feedback_row (complete_feedback s.1.1 s.2) in <[feedback_key r := r]> m
  end.

Definition latest (subs : list Submission) : FeedbackMap := fold_left record_verdict subs ∅.

(** The number of rows of the map that a test selects. *)
Definition map_count (p : FeedbackRow -> bool) (m : FeedbackMap) : Z := count p (map snd (map_to_list m)).

Lemma same_key_spec a b : same_key a b = true <-> feedback_key a = feedback_key b.
Proof.
  unfold same_key, feedback_key. rewrite !andb_true_iff, !streq_spec.
  split; [by intros [[-> ->] ->]|by intros [= -> -> ->]].
Qed.

Lemma same_key_false a b : same_key a b = false <-> feedback_key a <> feedback_key b.
Proof. rewrite <- same_key_spec. by destruct (same_key a b). Qed.

Lemma upsert_keys r t :
  map feedback_key (upsert r t) =
  if existsb (same_key r) t then map feedback_key t else (map feedback_key t ++ [feedback_key r])%list.
Proof.
  unfold upsert. destruct (existsb (same_key r) t); [|by rewrite map_app].
  rewrite map_map. apply map_ext. intros x. destruct (same_key r x) eqn:E; [by apply same_key_spec|done].
Qed.

Lemma absent_key r t : existsb (same_key r) t = false -> feedback_key r ∉ map feedback_key t.
Proof.
  intros H. rewrite list_elem_of_In, in_map_iff. intros (x & E & Hx).
  apply (existsb_false (same_key r) t) with (x := x) in H; [|done]. apply same_key_false in H. congruence.
Qed.

Lemma upsert_unique r t : unique_keys t -> unique_keys (upsert r t).
Proof.
  unfold unique_keys. intros H. rewrite upsert_keys. destruct (existsb (same_key r) t) eqn:E; [done|].
  apply NoDup_app. split; [done|]. split; [|apply NoDup_singleton].
  intros k Hk ->%list_elem_of_singleton. by apply (absent_key r t).
Qed.

Lemma feedback_map_cons x t : feedback_map (x :: t) = <[feedback_key x := x]> (feedback_map t).
Proof. done. Qed.

Lemma feedback_map_snoc t r : feedback_key r ∉ map feedback_key t ->
  feedback_map (t ++ [r]) = <[feedback_key r := r]> (feedback_map t).
Proof.
  induction t as [|x t IH]; intros H; [done|]. rewrite <- app_comm_cons, !feedback_map_cons.
  simpl in H. apply not_elem_of_cons in H as [Hne H]. rewrite IH by done. by apply insert_insert_ne.
Qed.

Lemma feedback_map_update r t : unique_keys t -> existsb (same_key r) t = true ->
  feedback_map (map (fun x => if same_key r x then r else x) t) = <[feedback_key r := r]> (feedback_map t).
Proof.
  unfold unique_keys. induction t as [|x t IH]; intros Hu He; [done|].
  cbn [map]. rewrite !feedback_map_cons. simpl in Hu, He. apply NoDup_cons in Hu as [Hx Hu].
  destruct (same_key r x) eqn:E.
  - apply same_key_spec in E. rewrite <- E, insert_insert_eq. f_equal. f_equal.
    rewrite <- E in Hx. clear -Hx. induction t as [|y t IH]; [done|]. simpl in *.
    apply not_elem_of_cons in Hx as [Hy Hx]. by rewrite (proj2 (same_key_false r y) Hy), IH.
  - simpl in He. rewrite IH by done. apply same_key_false in E. by apply insert_insert_ne.
Qed.

Lemma upsert_map r t : unique_keys t -> feedback_map (upsert r t) = <[feedback_key r := r]> (feedback_map t).
Proof.
  intros H. unfold upsert. destruct (existsb (same_key r) t) eqn:E; [by apply feedback_map_update|].
  by apply feedback_map_snoc, absent_key.
Qed.

Lemma Submit_refines t s : unique_keys t ->
  let t' := (Submit s.1.1 s.1.2 s.2 t).1 in
  unique_keys t' /\ feedback_map t' = record_verdict (feedback_map t) s.
Proof.
  intros Hu. unfold Submit, record_verdict. destruct s.1.2; [done|].
  split; [by apply upsert_unique|by apply upsert_map].
Qed.

Lemma submit_all_refines subs :
  unique_keys (submit_all subs) /\ feedback_map (submit_all subs) = latest subs.
Proof.
  induction subs as [|s subs [Hu Hm]] using rev_ind; [split; [apply NoDup_nil_2|done]|].
  unfold submit_all, latest. rewrite !fold_left_app. cbn [fold_left].
  fold (submit_all subs) (latest subs). rewrite <- Hm. by apply Submit_refines.
Qed.

Lemma feedback_map_lookup t r : unique_keys t -> In r t -> feedback_map t !! feedback_key r = Some r.
Proof.
  intros Hu Hr. apply elem_of_list_to_map_1.
  - by rewrite <- list_fmap_compose.
  - apply list_elem_of_In, in_map_iff. by exists r.
Qed.

Lemma find_feedback runID ty tm t : unique_keys t ->
  find (fun r => (fr_RunID r =?s runID) && (fr_Type r =?s ty) && (fr_Time r =?s tm)) t =
  feedback_map t !! (runID, ty, tm).
Proof.
  intros Hu. destruct (find _ t) as [r|] eqn:E.
  - apply find_some in E as [Hr E]. rewrite !andb_true_iff, !streq_spec in E. destruct E as [[<- <-] <-].
    symmetry. by apply feedback_map_lookup.
  - symmetry. apply not_elem_of_list_to_map_1. rewrite <- list_fmap_compose, list_elem_of_In, in_map_iff.
    intros (r & Ek & Hr). simpl in Ek. injection Ek as E1 E2 E3.
    pose proof (find_none _ _ E r Hr) as Hn. simpl in Hn. by rewrite E1, E2, E3, !streq_refl in Hn.
Qed.

Lemma count_perm {A} (p : A -> bool) l l' : l ≡ₚ l' -> count p l = count p l'.
Proof.
  intros H. unfold count. f_equal. induction H; simpl; try done.
  - destruct (p x); simpl; by rewrite IHPermutation.
  - by destruct (p x), (p y).
  - congruence.
Qed.

Lemma map_count_table p t : unique_keys t -> map_count p (feedback_map t) = count p t.
Proof.
  intros Hu. unfold map_count, feedback_map. apply count_perm.
  rewrite (map_to_list_to_map (map (fun r => (feedback_key r, r)) t)).
  - rewrite map_map. by rewrite map_id.
  - by rewrite <- list_fmap_compose.
Qed.

(** *** The tallies *)

Lemma count_app {A} (p : A -> bool) l l' : count p (l ++ l') = (count p l + count p l')%Z.
Proof. unfold count. rewrite List.filter_app, length_app. lia. Qed.

(** The first counters add up over the groups. *)
Definition group_total (f : list FeedbackRow -> Z) (gs : list (string * list FeedbackRow)) : Z :=
  fold_right (fun g n => f g.2 + n)%Z 0%Z gs.

Lemma add_group_total f k x gs :
  (forall a b, f (a ++ b)%list = f a + f b)%Z ->
  group_total f (add_group k x gs) = (group_total f gs + f [x])%Z.
Proof.
  intros Hf. unfold group_total. induction gs as [|[k0 xs] gs IH]; simpl; [lia|].
  destruct (k0 =?s k); simpl; [rewrite Hf; lia|rewrite IH; lia].
Qed.

Lemma group_by_total f key l :
  f [] = 0%Z -> (forall a b, f (a ++ b)%list = f a + f b)%Z -> group_total f (group_by key l) = f l.
Proof.
  intros H0 Hf. induction l as [|x l IH] using rev_ind; [by rewrite H0|].
  by rewrite group_by_snoc, add_group_total, IH, Hf.
Qed.

Lemma tally_totals gs a :
  total (fold_left tally_group gs a) = (total a + group_total (fun l => Z.of_nat (length l)) gs)%Z /\
  total_ok (fold_left tally_group gs a) = (total_ok a + group_total (count is_correct) gs)%Z.
Proof.
  unfold group_total. revert a. induction gs as [|g gs IH]; intros a; simpl; [lia|].
  destruct (IH (tally_group a g)) as [-> ->]. simpl. lia.
Qed.

(** A counter that one group sets. *)
Lemma tally_keyed (k : string) (get : Tally -> Z) (f : list FeedbackRow -> Z) gs a :
  (forall a g, get (tally_group a g) = if g.1 =?s k then f g.2 else get a) -> NoDup (map fst gs) ->
  get (fold_left tally_group gs a) = match as_map gs !! k with Some xs => f xs | None => get a end.
Proof.
  intros Hget. unfold as_map. revert a. induction gs as [|[k0 xs] gs IH]; intros a Hn; simpl; [done|].
  simpl in Hn. apply NoDup_cons in Hn as [H0 Hn]. rewrite IH, Hget by done. simpl.
  destruct (String.eqb_spec k0 k) as [->|Hne]; [|by rewrite lookup_insert_ne].
  rewrite lookup_insert_eq, not_elem_of_list_to_map_1 by done. done.
Qed.

Lemma count_with_key (p : FeedbackRow -> bool) k l :
  count p (with_key fr_Time k l) = count (fun r => (fr_Time r =?s k) && p r) l.
Proof.
  unfold count, with_key. f_equal. induction l as [|x l IH]; simpl; [done|].
  destruct (fr_Time x =?s k); simpl; [|done]. destruct (p x); simpl; by rewrite IH.
Qed.

Lemma count_filter {A} (p q : A -> bool) l : count p (List.filter q l) = count (fun x => q x && p x) l.
Proof.
  unfold count. f_equal. induction l as [|x l IH]; simpl; [done|].
  destruct (q x); simpl; [|done]. destruct (p x); simpl; by rewrite IH.
Qed.

Definition all_rows (r : FeedbackRow) : bool := true.

Lemma count_all (l : list FeedbackRow) : count all_rows l = Z.of_nat (length l).
Proof. unfold count. f_equal. induction l; simpl; [done|by f_equal]. Qed.

Lemma keyed_count p k l :
  match as_map (group_by fr_Time l) !! k with Some xs => count p xs | None => 0%Z end =
  count (fun r => (fr_Time r =?s k) && p r) l.
Proof.
  rewrite group_by_lookup, <- count_with_key. unfold some_rows. by destruct (with_key fr_Time k l).
Qed.

(** The six counters of a pass, over the rows of the table. *)
Lemma tally_spec seriesID ty t :
  let n p := count (fun r => counted seriesID ty r && p r) t in
  let at_time k p r := (fr_Time r =?s k) && p r in
  tally seriesID ty t =
  {| total := n all_rows; total_ok := n is_correct;
     gate := n (at_time "at_gate" all_rows); gate_ok := n (at_time "at_gate" is_correct);
     post := n (at_time "post_incident" all_rows); post_ok := n (at_time "post_incident" is_correct) |}.
Proof.
  intros n at_time. unfold tally. set (l := List.filter (counted seriesID ty) t).
  assert (Hn : forall p, n p = count p l) by (intros p; unfold n, l; by rewrite count_filter).
  rewrite !Hn. pose proof (group_by_keys fr_Time l) as Hk.
  destruct (tally_totals (group_by fr_Time l) no_tally) as [Ht Hok].
  rewrite group_by_total in Ht, Hok; [|done|apply count_app|done|intros; rewrite length_app; lia].
  destruct (fold_left _ _ _) as [a1 a2 a3 a4 a5 a6] eqn:E.
  assert (Hc : forall k get f p, (forall a g, get (tally_group a g) = if g.1 =?s k then f g.2 else get a) ->
    (forall xs, f xs = count p xs) -> get no_tally = 0%Z ->
    get (fold_left tally_group (group_by fr_Time l) no_tally) = count (at_time k p) l).
  { intros k get f p Hget Hf H0. rewrite (tally_keyed k get f) by done. rewrite H0.
    unfold at_time. rewrite <- keyed_count. by destruct (as_map _ !! k); rewrite ?Hf. }
  rewrite E in *. simpl in *. rewrite count_all. f_equal; try lia.
  - apply (Hc "at_gate" gate (fun l => Z.of_nat (length l)) all_rows); [done|symmetry; apply count_all|done].
  - by apply (Hc "at_gate" gate_ok (count is_correct) is_correct).
  - apply (Hc "post_incident" post (fun l => Z.of_nat (length l)) all_rows); [done|symmetry; apply count_all|done].
  - by apply (Hc "post_incident" post_ok (count is_correct) is_correct).
Qed.

(** The statistics as counts over the map of last verdicts. *)
Definition reference_stats (seriesID : string) (m : FeedbackMap) : FeedbackStats :=
  let n ty p := map_count (fun r => counted seriesID ty r && p r) m in
  let at_time k p r := (fr_Time r =?s k) && p r in
  let gate_n ty := n ty (at_time "at_gate" all_rows) in
  let gate_c ty := n ty (at_time "at_gate" is_correct) in
  let post_n ty := n ty (at_time "post_incident" all_rows) in
  let post_c ty := n ty (at_time "post_incident" is_correct) in
  {| fs_SeriesID := seriesID; FeedbackCount := n "triage" all_rows; CorrectCount := n "triage" is_correct;
     AccuracyRate := rate (n "triage" is_correct) (n "triage" all_rows);
     AtGateCount := gate_n "triage"; AtGateCorrect := gate_c "triage";
     AtGateAccuracyRate := rate (gate_c "triage") (gate_n "triage");
     PostIncidentCount := post_n "triage"; PostIncidentCorrect := post_c "triage";
     PostIncidentAccuracyRate := rate (post_c "triage") (post_n "triage");
     RemediationFeedbackCount := n "remediation" all_rows; RemediationCorrectCount := n "remediation" is_correct;
     RemediationAccuracyRate := rate (n "remediation" is_correct) (n "remediation" all_rows);
     RemediationAtGateCount := gate_n "remediation"; RemediationAtGateCorrect := gate_c "remediation";
     RemediationPostIncidentCount := post_n "remediation"; RemediationPostIncidentCorrect := post_c "remediation" |}.

(** C33 (refinement).  The feedback table implements a map from run, type and time to
    the verdict submitted last, over every sequence of submissions, failed ones and
    repeated ones included: a look-up by run, type and time answers that entry, and
    the statistics of a series are the counts over the map, in which placeholders
    without a verdict do not count. *)
Theorem feedback_refines_map subs seriesID :
  StatsBySeries seriesID (submit_all subs) = reference_stats seriesID (latest subs) /\
  forall runID ty tm,
    GetByRunIDAndType runID ty tm (submit_all subs) = option_map scanRunFeedbackRow (latest subs !! (runID, ty, tm)).
Proof.
  destruct (submit_all_refines subs) as [Hu <-]. split.
  - unfold StatsBySeries, reference_stats. rewrite !tally_spec. simpl. by rewrite !map_count_table by done.
  - intros runID ty tm. unfold GetByRunIDAndType. by rewrite find_feedback.
Qed.

(** ** Calibration *)

Lemma count_in_band_length r bands counts : length (count_in_band r bands counts) = length counts.
Proof.
  revert counts. induction bands as [|b bands IH]; intros [|c counts]; simpl; try done.
  destruct (in_band b (score r)); simpl; [done|]. by rewrite IH.
Qed.

Definition band_runs (counts : list Accum) : Z := fold_right (fun c n => a_runs c + n)%Z 0%Z counts.

Lemma count_in_band_runs r bands counts : length counts = length bands ->
  band_runs (count_in_band r bands counts) =
  (band_runs counts + if existsb (fun b => in_band b (score r)) bands then 1 else 0)%Z.
Proof.
  unfold band_runs. revert counts. induction bands as [|b bands IH]; intros [|c counts] H; simpl in *; try lia.
  destruct (in_band b (score r)); simpl; [lia|]. rewrite IH by lia. lia.
Qed.

Definition sound_counts (counts : list Accum) : Prop :=
  Forall (fun c => 0 <= a_correct c <= a_runs c /\ 0 <= a_heuristic c <= a_runs c)%Z counts.

Lemma count_in_band_sound r bands counts : sound_counts counts -> sound_counts (count_in_band r bands counts).
Proof.
  unfold sound_counts. revert counts. induction bands as [|b bands IH]; intros [|c counts] H; simpl; try done.
  inversion H as [|? ? Hc Hr]; subst. destruct (in_band b (score r)); constructor; try done; [|by apply IH].
  simpl. destruct (sc_Correct r), (sc_JudgeUsed r); lia.
Qed.

Definition in_some_band (r : Scored) : bool := existsb (fun b => in_band b (score r)) diagBands.

Lemma band_counts_spec rows :
  length (band_counts rows) = length diagBands /\ sound_counts (band_counts rows) /\
  band_runs (band_counts rows) = count in_some_band rows.
Proof.
  unfold band_counts. induction rows as [|r rows (Hl & Hs & Hr)] using rev_ind.
  { split; [done|]. split; [|done]. by repeat constructor. }
  rewrite fold_left_app. cbn [fold_left]. set (cs := fold_left _ rows _) in *.
  rewrite count_in_band_length. split; [done|]. split; [by apply count_in_band_sound|].
  rewrite count_in_band_runs, Hr, count_app by done. f_equal. unfold in_some_band, count. cbn [List.filter].
  by destruct (existsb (fun b => in_band b (score r)) diagBands).
Qed.

Lemma sum_runs_bands h bands counts : length counts = length bands ->
  sum_runs (zip_with (make_band h) bands counts) = band_runs counts.
Proof.
  intros H. unfold sum_runs, band_runs. cut (forall n, fold_left (fun n b => n + Runs b)%Z
    (zip_with (make_band h) bands counts) n = (n + fold_right (fun c n => a_runs c + n)%Z 0%Z counts)%Z);
    [intros E; by rewrite E|].
  revert counts H. induction bands as [|b bands IH]; intros [|c counts] H n; simpl in *; try lia.
  rewrite IH by lia. lia.
Qed.

(** Positive numbers compare by exponent, then by mantissa. *)
Lemma SFltb_positive m e m' e' :
  SFltb (S754_finite false m e) (S754_finite false m' e') = (e <? e')%Z || ((e =? e') && (Zpos m <? Zpos m'))%Z.
Proof.
  unfold SFltb. simpl. destruct (Z.compare_spec e e') as [->|H|H].
  - rewrite Z.ltb_irrefl, Z.eqb_refl. simpl. change (Pos.compare_cont Eq m m') with (m ?= m')%positive.
    unfold Z.ltb. simpl. by destruct (m ?= m')%positive.
  - by rewrite (proj2 (Z.ltb_lt _ _) H).
  - rewrite (proj2 (Z.ltb_ge _ _)), (proj2 (Z.eqb_neq _ _)) by lia. done.
Qed.

Lemma SFleb_positive m e m' e' :
  SFleb (S754_finite false m e) (S754_finite false m' e') = negb (SFltb (S754_finite false m' e') (S754_finite false m e)).
Proof.
  unfold SFleb, SFltb. simpl. rewrite (Z.compare_antisym e e').
  change (Pos.compare_cont Eq m m') with (m ?= m')%positive.
  change (Pos.compare_cont Eq m' m) with (m' ?= m)%positive. rewrite (Pos.compare_antisym m m').
  destruct (e ?= e')%Z; simpl; [by destruct (m ?= m')%positive|done..].
Qed.

(** A number above zero and below 1.01 is in one of the bands. *)
Lemma bands_cover x :
  float_positive x = true -> existsb (fun b => in_band b x) diagBands = SFltb x (float_ratio 101 100).
Proof.
  intros Hpos. destruct x as [s|[]| |[] m e]; try done.
  cbn [existsb diagBands]. unfold in_band. cbn [min max].
  replace (SFleb (float_int 0) (S754_finite false m e)) with true by done.
  repeat match goal with |- context [float_ratio ?a ?b] =>
    let c := eval vm_compute in (float_ratio a b) in change (float_ratio a b) with c end.
  rewrite !SFleb_positive, !SFltb_positive. lia.
Qed.

Lemma scored_positive pick sc evals r : In r (scored_rows pick sc evals) -> float_positive (score r) = true.
Proof.
  unfold scored_rows. rewrite <- list_elem_of_In, list_elem_of_omap. intros (x & _ & H).
  destruct (pick (er_eval x)); [|done]. destruct (float_positive (sc (er_eval x))) eqn:E; [|done].
  by injection H as <-.
Qed.

Lemma count_split {A} (p : A -> bool) l : (count p l + count (fun x => negb (p x)) l)%Z = Z.of_nat (length l).
Proof. unfold count. induction l as [|x l IH]; simpl; [done|]. destruct (p x); simpl; lia. Qed.

Lemma count_ext {A} (p q : A -> bool) l : (forall x, In x l -> p x = q x) -> count p l = count q l.
Proof.
  intros H. unfold count. f_equal. induction l as [|x l IH]; simpl; [done|].
  rewrite (H x) by (by left). specialize (IH (fun y Hy => H y (or_intror Hy))). destruct (q x); simpl; congruence.
Qed.

(** A score the bands leave out. *)
Definition off_scale (r : Scored) : bool := negb (SFltb (score r) (float_ratio 101 100)).

(**  In every calibration report each band counts at most as many correct
    and at most as many heuristic runs as runs; a run is in one band exactly when its
    confidence is below 1.01; so the split by the source of the verdict adds up to the
    total of the bands plus the runs with a larger confidence, which no band shows. *)
Theorem calibration_counts seriesID feedback evals :
  let r := CalibrationBands seriesID feedback evals in
  Forall (fun b => 0 <= Correct b <= Runs b /\ 0 <= HeuristicRuns b <= Runs b)%Z (Bands r ++ RemediationBands r) /\
  (HumanRuns r + AutoJudgeRuns r =
   TotalRuns_ r + count off_scale (scored_rows (triage_feedback seriesID feedback) PrimaryConfidence evals))%Z.
Proof.
  intros r. unfold r, CalibrationBands. cbv zeta. cbn [Bands RemediationBands HumanRuns AutoJudgeRuns TotalRuns_].
  set (rows := scored_rows (triage_feedback _ _) _ _). set (rem := scored_rows (remediation_feedback _ _) _ _).
  assert (Hb : forall h counts, sound_counts counts ->
    Forall (fun b => 0 <= Correct b <= Runs b /\ 0 <= HeuristicRuns b <= Runs b)%Z
      (zip_with (make_band h) diagBands counts)).
  { intros h counts. generalize diagBands. intros bands Hc. revert bands.
    induction Hc as [|c counts (Hc & Hh) _ IH]; intros [|b bands]; simpl; constructor; [|by apply IH].
    simpl. destruct h; lia. }
  destruct (band_counts_spec rows) as (Hl & Hs & Hr). destruct (band_counts_spec rem) as (_ & Hs' & _).
  split; [by apply Forall_app_2; apply Hb|].
  rewrite sum_runs_bands, Hr by done.
  rewrite (count_ext in_some_band (fun r => SFltb (score r) (float_ratio 101 100))).
  - unfold off_scale. rewrite count_split. pose proof (count_split from_judge rows). lia.
  - intros x Hx. unfold in_some_band. by apply bands_cover, (scored_positive _ _ _ _ Hx).
Qed.

(** ** What the endpoints do with a small history *)

Module FeedbackToy.

Definition verdict (ok : option bool) (ty tm : string) : RunFeedback :=
  {| fb_RunID := "plr_1"; FeedbackType := ty; FeedbackTime := tm; fb_SeriesID := "s"; VerdictCorrect := ok;
     VerdictNotes := ""; fb_Operator := "ann"; SubmittedAt := 0; FeedbackSource := "" |}.

Definition run (id outcome escalated : string) : RunRow :=
  {| rr_RunID := id; rr_PlaybookID := "pb_1"; rr_SeriesID := "s"; rr_ExecutionMode := "agent";
     rr_Outcome := outcome; rr_EscalatedTo := escalated; rr_TransitionedTo := ""; rr_FindingsSummary := "";
     rr_Report := ""; rr_ContextID := ""; rr_ConnectionString := ""; rr_TraceID := ""; rr_AgentTranscript := "";
     rr_PriorRunID := ""; rr_TriggerContext := ""; rr_Operator := ""; rr_StartedAt := ""; rr_CompletedAt := "" |}.

(** A request for feedback erases the verdict that the operator has given. *)
Example request_erases_verdict :
  let runs := [run "plr_1" "resolved" ""] in
  let t := submit_all [(0, None, verdict (Some true) "triage" "post_incident")]%Z in
  let t' := (handleRequestFeedback "http://gw" 0 None "plr_1" "bob" runs t).1 in
  FeedbackCount (StatsBySeries "s" t) = 1%Z /\ FeedbackCount (StatsBySeries "s" t') = 0%Z /\
  ListPending t = [] /\ length (ListPending t') = 1.
Proof. vm_compute. done. Qed.

(** One run with an unset and a set verdict on its remediation: the series counts one
    verdict, the version two. *)
Example version_counts_rows :
  let t := submit_all [(0, None, verdict None "remediation" "at_gate");
                       (0, None, verdict (Some true) "remediation" "post_incident")]%Z in
  let pb := with_control
    {| c_PlaybookID := "pb_1"; c_SeriesID := "s"; c_IsActive := true; c_IsSystem := false; c_Source := "manual";
       c_Version := "1"; c_ExecutionMode := "agent"; c_CreatedBy := ""; c_CreatedAt := 0; c_UpdatedAt := 0;
       c_OriginTrace := ""; c_JudgeVerdict := ""; c_JudgeModel := ""; c_JudgeAt := 0; c_LastValidated := None;
       c_RootCauseClasses := None |}
    {| PlaybookID := ""; pb_Name := ""; pb_Description := ""; TargetHints := []; pb_CreatedBy := "";
       pb_CreatedAt := 0; pb_UpdatedAt := 0; ProblemClass := ""; Symptoms := []; Guidance := "";
       pb_Escalation := []; RelatedPlaybooks := []; Author := ""; LastValidated := None; pb_Version := "";
       pb_SeriesID := ""; IsActive := false; IsSystem := false; pb_Source := ""; OriginTrace := "";
       PlaybookType := ""; EntryPoint := false; EscalatesTo := []; TransitionsTo := []; RequiresEvidence := [];
       pb_ExecutionMode := ""; PermittedTools := []; pb_ApprovalMode := ""; pb_AgentName := "";
       JudgeVerdict := ""; JudgeModel := ""; JudgeAt := 0; RootCauseClasses := None |} in
  let runs := [run "plr_1" "gate_pending" "other"] in
  map (fun v => (RemFeedbackCount v, pv_Escalated v)) (StatsByVersion (Value := string) "s" [pb] t [] [] runs) =
    [(2, 1)]%Z /\
  RemediationFeedbackCount (StatsBySeries "s" t) = 1%Z /\ Escalated (Stats (Value := string) "s" [] runs) = 0%Z.
Proof. vm_compute. done. Qed.

(** A confidence of 95 is in no band. *)
Example confidence_off_scale :
  let eval := {| ev_RunID := "plr_1"; FailureID := "f"; FailureName := ""; KeywordScore := float_int 0;
                 ToolScore := float_int 0; DiagnosisScore := float_int 0; RemediationScore := float_int 0;
                 OverallScore := float_int 0; JudgeUsed := false; Passed := true; ev_CreatedAt := 1;
                 RemediationJudgeScore := float_int 0; RemediationJudgeReasoning := "";
                 PrimaryConfidence := float_int 95 |} in
  let t := submit_all [(0, None, verdict (Some true) "triage" "at_gate")]%Z in
  let r := CalibrationBands "" t (UpsertEvaluation 1 None eval []).1 in
  TotalRuns_ r = 0%Z /\ HumanRuns r = 1%Z.
Proof. vm_compute. done. Qed.
End FeedbackToy.
