(* ===== verification/PlaybookSteps.v ===== *)
(** * cmd/gateway: agent_approve runs, step by step

    [handlePlaybookRunApprove] and [handlePlaybookRunProceed] of playbooks.go with
    [proposeNextStep] of step_proposer.go, over the tables of auditd.  The planner
    (prompt, model call and JSON of its answer), the tool call and the ids are
    parameters.  The gateway's requests to auditd are the handlers of PlaybookRuns, and
    arrive; the writes the gateway starts in a goroutine are kept in [background] until
    they arrive.  [handlePlaybookRunProceed] is split where another request can come in
    between: [proceed_begin] up to the tool call, [proceed_end] after it. *)

From S2P Require Import Prelude GoTime PlaybookText PlaybookStore PlaybookRuns Action.

Open Scope string_scope.

Section Driver.
Context {Value : Type}.
Context (VString : string -> Value) (as_string : Value -> option string).
Abbreviation Step := (PlaybookRunStep Value).
Abbreviation Args := (list (string * Value)).

Record StepProposal := {
  pr_Index : Z;
  pr_Agent : string;
  pr_Tool : string;
  pr_Args : Args;
  pr_Reason : string;
  pr_ActionClass : string }.

(** The planner's answer as decoded. *)
Record stepProposerResult := {
  pa_Action : string;
  pa_Agent : string;
  pa_Tool : string;
  pa_Args : Args;
  pa_Reason : string;
  pa_Summary : string }.

Inductive Proposal := Next (p : StepProposal) | Done (summary : string).

Context (planner : Playbook -> string -> string -> list Step -> result string stepProposerResult).

Definition proposeNextStep (pb : Playbook) (connStr priorFindings : string) (history : list Step)
    : result string Proposal :=
  match planner pb connStr priorFindings history with
  | Err e => Err e
  | Ok r =>
      if pa_Action r =?s "complete" then Ok (Done (pa_Summary r))
      else if pa_Tool r =?s "" then Err "step proposer returned empty tool name"
      else
        Ok (Next
          {| pr_Index := Z.of_nat (length history) + 1; pr_Agent := or_default "database" (pa_Agent r);
             pr_Tool := pa_Tool r; pr_Args := pa_Args r; pr_Reason := pa_Reason r;
             pr_ActionClass := ClassifyTool (pa_Tool r) |})
  end.

(** ** The world of a run *)

Record ToolCall := {
  tc_RunID : string;
  tc_Index : Z;
  tc_Agent : string;
  tc_Tool : string;
  tc_Args : Args;
  tc_TraceID : string }.

(** A write a goroutine has yet to make. *)
Inductive Background :=
  | BgComplete (runID : string) (u : RunUpdate)
  | BgStep (runID : string) (idx : Z) (approvalID : string).

Record World := {
  w_playbooks : Table;
  w_runs : list RunRow;
  w_steps : list Step;
  w_approvals : list (string * StepProposal * string);
  w_calls : list ToolCall;
  background : list Background }.

Context (encode_report : DiagnosticReport -> option string).
Context (decode_report : string -> option DiagnosticReport).
Context (order : Table -> Table).
(** The tool call, given the calls made before. *)
Context (call_tool : list ToolCall -> ToolCall -> result string string).

Definition set_steps (steps : list Step) (w : World) : World :=
  {| w_playbooks := w_playbooks w; w_runs := w_runs w; w_steps := steps; w_approvals := w_approvals w;
     w_calls := w_calls w; background := background w |}.

Definition set_runs (runs : list RunRow) (w : World) : World :=
  {| w_playbooks := w_playbooks w; w_runs := runs; w_steps := w_steps w; w_approvals := w_approvals w;
     w_calls := w_calls w; background := background w |}.

Definition later (b : Background) (w : World) : World :=
  {| w_playbooks := w_playbooks w; w_runs := w_runs w; w_steps := w_steps w; w_approvals := w_approvals w;
     w_calls := w_calls w; background := background w ++ [b] |}.

(** ** Requests to auditd *)

(** [fetchPlaybook]: by id, and otherwise the first active version of the series. *)
Definition fetchPlaybook (id : string) (t : Table) : option Playbook :=
  match GetPlaybook id t with
  | Some pb => Some pb
  | None => head (ListPlaybooks order (list_query "true" "" id "") t)
  end.

Definition fetchPlaybookRun (runID : string) (w : World) : option PlaybookRun :=
  match handleGetRun decode_report runID (w_runs w) with ROne r => Some r | _ => None end.

Definition fetchPendingStep (runID : string) (w : World) : option Step :=
  match handleGetPendingStep runID (w_steps w) with SOne s => Some s | _ => None end.

Definition fetchRunSteps (runID : string) (w : World) : list Step :=
  match handleListSteps runID (w_steps w) with SMany l => l | _ => [] end.

Definition updateRunStep (now : Time) (runID : string) (idx : Z) (status approvalID res err : string) (w : World) : World :=
  set_steps (handleUpdateStep now runID (itoa idx)
    (Ok {| su_Status := status; su_ApprovalID := approvalID; su_Result := res; su_Error := err |}) (w_steps w)).1 w.

Definition run_update (outcome findings traceID : string) : RunUpdate :=
  {| u_Outcome := outcome; u_EscalatedTo := ""; u_TransitionedTo := ""; u_FindingsSummary := findings;
     u_AgentTranscript := ""; u_TraceID := traceID; u_Report := None |}.

(** [recordPlaybookRunComplete] does nothing without a run id. *)
Definition record_complete (runID : string) (u : RunUpdate) (w : World) : World :=
  if runID =?s "" then w else later (BgComplete runID u) w.

Definition apply_background (now : Time) (b : Background) (w : World) : World :=
  match b with
  | BgComplete runID u => set_runs (handleUpdateRun encode_report now runID (Ok u) (w_runs w)).1 w
  | BgStep runID idx approvalID => updateRunStep now runID idx "proposed" approvalID "" "" w
  end.

Definition proposed_step (runID : string) (p : StepProposal) : Step :=
  {| st_RunID := runID; StepIndex := pr_Index p; st_Agent := pr_Agent p; st_Tool := pr_Tool p;
     st_Args := pr_Args p; st_Reason := pr_Reason p; st_Status := "proposed"; st_ApprovalID := "";
     st_Result := ""; st_Error := ""; st_CreatedAt := 0; st_UpdatedAt := 0 |}.

(** A failing insert is only logged. *)
Definition createRunStep (now : Time) (runID : string) (p : StepProposal) (w : World) : World :=
  set_steps (handleCreateStep now runID (Ok (proposed_step runID p)) (w_steps w)).1 w.

(** The approval request, and the write that links it to the step; [approvalID] is
    empty when auditd does not answer with one. *)
Definition createStepApproval (approvalID runID : string) (p : StepProposal) (requestedBy : string) (w : World) : World :=
  if approvalID =?s "" then w
  else
    later (BgStep runID (pr_Index p) approvalID)
      {| w_playbooks := w_playbooks w; w_runs := w_runs w; w_steps := w_steps w;
         w_approvals := w_approvals w ++ [(runID, p, or_default "gateway" requestedBy)];
         w_calls := w_calls w; background := background w |}.

Definition set_arg (k : string) (v : Value) (args : Args) : Args :=
  (List.filter (fun kv => negb (kv.1 =?s k)) args ++ [(k, v)])%list.

Definition get_arg (k : string) (args : Args) : option Value :=
  option_map snd (find (fun kv => kv.1 =?s k) args).

Definition with_connection (connStr : string) (args : Args) : Args :=
  if connStr =?s "" then args else set_arg "connection_string" (VString connStr) args.

Definition with_args (args : Args) (p : StepProposal) : StepProposal :=
  {| pr_Index := pr_Index p; pr_Agent := pr_Agent p; pr_Tool := pr_Tool p; pr_Args := args;
     pr_Reason := pr_Reason p; pr_ActionClass := pr_ActionClass p |}.

Inductive RunAnswer :=
  | AnswerError (code : Z) (msg : string)
  | AnswerPending (code : Z) (runID : string) (p : StepProposal) (approvalID : string)
  | AnswerComplete (runID summary : string)
  | AnswerDenied (runID : string).

(** Persist a proposal, ask for its approval and answer. *)
Definition propose (code : Z) (now : Time) (approvalID requestedBy runID connStr : string) (p : StepProposal)
    (w : World) : World * RunAnswer :=
  let p := with_args (with_connection connStr (pr_Args p)) p in
  (createStepApproval approvalID runID p requestedBy (createRunStep now runID p w),
   AnswerPending code runID p approvalID).

(** [handlePlaybookRunApprove], with a planner configured. *)
Definition handlePlaybookRunApprove (now : Time) (approvalID user : string) (pb : Playbook)
    (connStr priorFindings runID : string) (w : World) : World * RunAnswer :=
  match proposeNextStep pb connStr priorFindings [] with
  | Err e => (w, AnswerError 500 ("step proposal failed: " ++ e))
  | Ok (Done summary) =>
      (record_complete runID (run_update "resolved" summary "") w, AnswerComplete runID summary)
  | Ok (Next p) => propose 202 now approvalID user runID connStr p w
  end.

(** ** Proceeding *)

Record ProceedRequest := {
  q_Resolution : string;
  q_ResolvedBy : string;
  q_StepIndex : Z;
  q_ConnectionString : string }.

Definition resolver (resolvedBy user : string) : string := or_default (or_default "operator" user) resolvedBy.

(** What a proceed request is about to execute. *)
Record Execution := {
  x_run : PlaybookRun;
  x_pb : Playbook;
  x_step : Step;
  x_call : ToolCall }.

Inductive Begun :=
  | Refused (a : RunAnswer)
  | Executing (x : Execution).

(** The tool call of a step: the run's connection and trace replace the step's. *)
Definition step_call (header_trace fresh runID : string) (run : PlaybookRun) (step : Step) : ToolCall :=
  {| tc_RunID := runID; tc_Index := StepIndex step; tc_Agent := st_Agent step; tc_Tool := st_Tool step;
     tc_Args := with_connection (run_ConnectionString run) (st_Args step);
     tc_TraceID := or_default (or_default fresh header_trace) (run_TraceID run) |}.

(** The checks, and the step marked as executing.  [fresh] is a new trace id. *)
Definition proceed_begin (now : Time) (header_trace fresh runID : string) (body : result string ProceedRequest) (w : World)
    : World * Begun :=
  if runID =?s "" then (w, Refused (AnswerError 400 "missing runID"))
  else
    match body with
    | Err e => (w, Refused (AnswerError 400 ("invalid request body: " ++ e)))
    | Ok req =>
        match fetchPlaybookRun runID w with
        | None => (w, Refused (AnswerError 404 "run not found: not found"))
        | Some run =>
            match fetchPlaybook (run_PlaybookID run) (w_playbooks w) with
            | None => (w, Refused (AnswerError 404 "playbook not found: not found"))
            | Some pb =>
                match fetchPendingStep runID w with
                | None => (w, Refused (AnswerError 409 "no pending step found for this run"))
                | Some step =>
                    if negb (q_StepIndex req =? 0)%Z && negb (q_StepIndex req =? StepIndex step)%Z then
                      (w, Refused (AnswerError 409 ("step_index mismatch: expected " ++ itoa (StepIndex step) ++
                             ", got " ++ itoa (q_StepIndex req))))
                    else if q_Resolution req =?s "denied" then
                      (record_complete runID (run_update "abandoned" "step denied by operator" (run_TraceID run))
                         (updateRunStep now runID (StepIndex step) "denied" "" "" "" w),
                       Refused (AnswerDenied runID))
                    else
                      (updateRunStep now runID (StepIndex step) "executing" (st_ApprovalID step) "" "" w,
                       Executing
                         {| x_run := run; x_pb := pb; x_step := step;
                            x_call := step_call header_trace fresh runID run step |})
                end
            end
        end
    end.

Definition log_call (c : ToolCall) (w : World) : World :=
  {| w_playbooks := w_playbooks w; w_runs := w_runs w; w_steps := w_steps w; w_approvals := w_approvals w;
     w_calls := w_calls w ++ [c]; background := background w |}.

Definition arg_connection (args : Args) : string :=
  match get_arg "connection_string" args with
  | Some v => default "" (as_string v)
  | None => ""
  end.

(** The connection string the planner gets: the request's, the step's, or the first
    one of the history. *)
Definition replan_connection (req_conn : string) (args : Args) (history : list Step) : string :=
  if negb (req_conn =?s "") then req_conn
  else if negb (arg_connection args =?s "") then arg_connection args
  else default "" (find (fun c => negb (c =?s "")) (map (fun s => arg_connection (st_Args s)) history)).

Definition prior_findings (run : PlaybookRun) (w : World) : string :=
  if PriorRunID run =?s "" then ""
  else match fetchPlaybookRun (PriorRunID run) w with Some r => FindingsSummary r | None => "" end.

(** After the tool answered: the step's result, and the next proposal. *)
Definition proceed_end (now : Time) (approvalID user : string) (req : ProceedRequest) (x : Execution) (w : World)
    : World * RunAnswer :=
  let runID := tc_RunID (x_call x) in
  let step := x_step x in
  let run := x_run x in
  let w := log_call (x_call x) w in
  let finish outcome findings w := record_complete runID (run_update outcome findings (run_TraceID run)) w in
  match call_tool (w_calls w) (x_call x) with
  | Err e =>
      let w := updateRunStep now runID (StepIndex step) "failed" (st_ApprovalID step) "" e w in
      (finish "abandoned" ("tool execution failed: " ++ e) w, AnswerError 422 ("tool execution failed: " ++ e))
  | Ok out =>
      let w := updateRunStep now runID (StepIndex step) "succeeded" (st_ApprovalID step) out "" w in
      let history := fetchRunSteps runID w in
      let connStr := replan_connection (q_ConnectionString req) (tc_Args (x_call x)) history in
      match proposeNextStep (x_pb x) connStr (prior_findings run w) history with
      | Err e =>
          (finish "abandoned" ("re-planning failed: " ++ e) w,
           AnswerError 422 ("re-planning failed after step " ++ itoa (StepIndex step) ++ ": " ++ e))
      | Ok (Done summary) => (finish "resolved" summary w, AnswerComplete runID summary)
      | Ok (Next p) => propose 200 now approvalID (resolver (q_ResolvedBy req) user) runID connStr p w
      end
  end.

(** The whole request, nothing in between. *)
Definition handlePlaybookRunProceed (now : Time) (header_trace fresh approvalID user runID : string)
    (body : result string ProceedRequest) (w : World) : World * RunAnswer :=
  match proceed_begin now header_trace fresh runID body w with
  | (w', Refused a) => (w', a)
  | (w', Executing x) =>
      match body with
      | Ok req => proceed_end now approvalID user req x w'
      | Err _ => (w', AnswerError 400 "")
      end
  end.

(** ** Lemmas *)

Definition call_key (c : ToolCall) : string * Z := (tc_RunID c, tc_Index c).

(** Few enough rows for their numbers to be integers of the program. *)
Definition small (w : World) : Prop := (Z.of_nat (length (w_steps w)) + 1 < 2 ^ 63)%Z.

Lemma updateRunStep_steps now runID idx status a b c w :
  runID <> "" -> (0 <= idx < 2 ^ 63)%Z -> status <> "" ->
  w_steps (updateRunStep now runID idx status a b c w) = UpdateStep now runID idx status a b c (w_steps w).
Proof.
  intros Hr Hi Hs. unfold updateRunStep, handleUpdateStep.
  rewrite (proj2 (streq_false runID "") Hr), (proj2 (streq_false (itoa idx) "")) by (apply itoa_digits; lia).
  simpl. rewrite atoi_itoa by done. by rewrite (proj2 (streq_false status "") Hs).
Qed.

Lemma fetchPendingStep_Some runID w s :
  fetchPendingStep runID w = Some s -> runID <> "" /\ least_pending runID (w_steps w) s.
Proof.
  unfold fetchPendingStep, handleGetPendingStep. destruct (runID =?s "") eqn:E; [done|].
  apply streq_false in E. destruct (GetPendingStep _ _) eqn:E'; [|done]. intros [= ->].
  split; [done|]. by apply GetPendingStep_Some.
Qed.

Lemma fetchRunSteps_length runID w : runID <> "" ->
  length (fetchRunSteps runID w) = length (steps_of_run runID (w_steps w)).
Proof.
  intros H. unfold fetchRunSteps, handleListSteps. rewrite (proj2 (streq_false runID "") H).
  apply ListSteps_length.
Qed.

Lemma proposeNextStep_Next pb c f h p : proposeNextStep pb c f h = Ok (Next p) ->
  pr_Index p = (Z.of_nat (length h) + 1)%Z /\ pr_Tool p <> "" /\ pr_Agent p <> "".
Proof.
  unfold proposeNextStep. destruct (planner pb c f h) as [r|]; [|done].
  destruct (_ =?s "complete"); [done|]. destruct (pa_Tool r =?s "") eqn:E; [done|].
  intros [= <-]. simpl. apply streq_false in E. repeat split; [done|].
  unfold or_default. destruct (pa_Agent r =?s "") eqn:E'; [done|]. by apply streq_false in E'.
Qed.

(** A proposal numbered behind the run's steps is stored, pending. *)
Lemma createRunStep_next now runID p w :
  well_numbered (w_steps w) -> runID <> "" -> pr_Tool p <> "" -> pr_Agent p <> "" ->
  pr_Index p = (Z.of_nat (length (steps_of_run runID (w_steps w))) + 1)%Z ->
  let row := step_row (complete_step now (proposed_step runID p)) in
  w_steps (createRunStep now runID p w) = (w_steps w ++ [row])%list /\ well_numbered (w_steps w ++ [row]).
Proof.
  intros Hw Hr Ht Ha Hi. cbv zeta. unfold createRunStep, handleCreateStep.
  rewrite (proj2 (streq_false runID "") Hr). simpl.
  rewrite (proj2 (streq_false _ "") Ht), (proj2 (streq_false _ "") Ha). simpl.
  rewrite (proj2 (Z.eqb_neq (pr_Index p) 0)) by lia.
  change (step_for runID (pr_Index p) (proposed_step runID p)) with (proposed_step runID p).
  destruct (CreateStep_next now (proposed_step runID p) (w_steps w) Hw Hr Hi) as [-> H]. by split.
Qed.

Lemma createStepApproval_keeps aid runID p by_ w :
  w_steps (createStepApproval aid runID p by_ w) = w_steps w /\
  w_calls (createStepApproval aid runID p by_ w) = w_calls w /\
  forall b, In b (background (createStepApproval aid runID p by_ w)) ->
    In b (background w) \/ b = BgStep runID (pr_Index p) aid.
Proof.
  unfold createStepApproval. destruct (aid =?s ""); simpl; [by auto|].
  repeat split. intros b Hb. apply in_app_or in Hb as [Hb|[<-|[]]]; auto.
Qed.

Lemma record_complete_keeps runID u w :
  w_steps (record_complete runID u w) = w_steps w /\ w_calls (record_complete runID u w) = w_calls w /\
  forall r i a, In (BgStep r i a) (background (record_complete runID u w)) -> In (BgStep r i a) (background w).
Proof.
  unfold record_complete. destruct (runID =?s ""); simpl; [done|]. repeat split.
  intros r i a H. by apply in_app_or in H as [H|[H|[]]].
Qed.

(** ** Calls and steps *)

(** The step whose tool the call ran, ended. *)
Definition executed (s : Step) (c : ToolCall) : Prop :=
  step_key s = call_key c /\ st_Agent s = tc_Agent c /\ st_Tool s = tc_Tool c /\ is_pending (st_Status s) = false.

(** Every call was made for a step that is no longer pending, and no step has two;
    the late writes concern pending steps. *)
Record calls_match (w : World) : Prop := {
  cm_numbered : well_numbered (w_steps w);
  cm_once : NoDup (map call_key (w_calls w));
  cm_ended : forall c, In c (w_calls w) ->
    exists s, In s (w_steps w) /\ executed s c;
  cm_link_ok : forall r i a, In (BgStep r i a) (background w) -> r <> "" /\ (0 <= i < 2 ^ 63)%Z;
  cm_links : forall r i a s, In (BgStep r i a) (background w) -> In s (w_steps w) ->
    step_key s = (r, i) -> is_pending (st_Status s) = true }.

Lemma NoDup_key_eq {A B} (f : A -> B) l x y : NoDup (map f l) -> In x l -> In y l -> f x = f y -> x = y.
Proof.
  induction l as [|z l IH]; [done|]. simpl. rewrite NoDup_cons, list_elem_of_In. intros [Hn Hd].
  intros [<-|Hx] [<-|Hy] E; [done| | |by apply IH].
  - destruct Hn. rewrite E. by apply in_map.
  - destruct Hn. rewrite <- E. by apply in_map.
Qed.

Lemma key_once w s x : calls_match w -> In s (w_steps w) -> In x (w_steps w) -> step_key s = step_key x -> s = x.
Proof. intros Hw. apply (NoDup_key_eq step_key), (cm_numbered _ Hw). Qed.

Lemma key_bounds w s : calls_match w -> small w -> In s (w_steps w) -> (0 <= StepIndex s < 2 ^ 63)%Z.
Proof.
  intros Hw Hs Hin. destruct (proj2 (cm_numbered _ Hw) s Hin) as [_ H]. unfold small in Hs.
  pose proof (List.filter_length_le (fun x => st_RunID x =?s st_RunID s) (w_steps w)) as Hl.
  unfold steps_of_run in H. lia.
Qed.

(** A pending step has had no call. *)
Lemma pending_not_called w s c : calls_match w -> In s (w_steps w) -> is_pending (st_Status s) = true ->
  In c (w_calls w) -> call_key c <> step_key s.
Proof.
  intros Hw Hs Hp Hc E. destruct (cm_ended _ Hw c Hc) as (x & Hx & Hk & _ & _ & He).
  rewrite (key_once w x s Hw Hx Hs) in He by congruence. congruence.
Qed.

Lemma calls_match_update now r i status a b e w :
  calls_match w -> r <> "" -> (0 <= i < 2 ^ 63)%Z -> status <> "" ->
  (is_pending status = false -> forall x, ~ In (BgStep r i x) (background w)) ->
  (is_pending status = true -> forall c, In c (w_calls w) -> call_key c <> (r, i)) ->
  calls_match (updateRunStep now r i status a b e w).
Proof.
  intros [Hn Ho He Hk Hl] Hr Hi Hs Hend Hpend.
  pose proof (updateRunStep_steps now r i status a b e w Hr Hi Hs) as Hsteps.
  constructor.
  - rewrite Hsteps. by apply UpdateStep_well_numbered.
  - done.
  - intros c Hc. destruct (He c Hc) as (s & Hin & Hkey & Ha & Ht & Hp). rewrite Hsteps.
    exists (if decide (step_key s = (r, i)) then updated_step now status a b e s else s).
    split; [apply UpdateStep_In; by exists s|]. case_decide as E; [|done]. do 3 (split; [done|]). simpl.
    destruct (is_pending status) eqn:Est; [|done]. destruct (Hpend eq_refl c Hc). congruence.
  - done.
  - intros r' i' x s Hb Hin Hkey. rewrite Hsteps in Hin. apply UpdateStep_In in Hin as (s0 & H0 & ->).
    case_decide as E; [|by apply (Hl r' i' x s0)]. simpl. destruct (is_pending status) eqn:Est; [done|].
    change (step_key s0 = (r', i')) in Hkey. rewrite E in Hkey. injection Hkey as <- <-. by destruct (Hend eq_refl x).
Qed.

(** The call of a pending step, and the step's end. *)
Lemma calls_match_called now status b e c w s :
  calls_match w -> small w -> In s (w_steps w) -> is_pending (st_Status s) = true -> step_key s = call_key c ->
  st_Agent s = tc_Agent c -> st_Tool s = tc_Tool c ->
  (forall x, ~ In (BgStep (tc_RunID c) (tc_Index c) x) (background w)) ->
  is_pending status = false -> status <> "" ->
  calls_match (updateRunStep now (tc_RunID c) (tc_Index c) status (st_ApprovalID s) b e (log_call c w)).
Proof.
  intros Hw Hsm Hs Hp Hk Hag Hto Hb Hst Hne. injection Hk as Hr Hi.
  pose proof (key_bounds w s Hw Hsm Hs) as Hbd.
  assert (Hrne : tc_RunID c <> "") by (rewrite <- Hr; apply (cm_numbered _ Hw); done).
  assert (Hw' : calls_match (updateRunStep now (tc_RunID c) (tc_Index c) status (st_ApprovalID s) b e w)).
  { apply calls_match_update; [done|done|lia|done|by intros _|congruence]. }
  pose proof (updateRunStep_steps now (tc_RunID c) (tc_Index c) status (st_ApprovalID s) b e w
    Hrne ltac:(lia) Hne) as Hsteps.
  pose proof (updateRunStep_steps now (tc_RunID c) (tc_Index c) status (st_ApprovalID s) b e (log_call c w)
    Hrne ltac:(lia) Hne) as Hsteps'. change (w_steps (log_call c w)) with (w_steps w) in Hsteps'.
  destruct Hw' as [Hn Ho He Hlk Hl]. rewrite Hsteps in Hn, He, Hl. constructor; rewrite ?Hsteps'; [done| | |done|done].
  - simpl. rewrite map_app. apply NoDup_app. split; [done|]. split; [|apply NoDup_singleton].
    intros k Hk. apply list_elem_of_In, in_map_iff in Hk as (d & <- & Hd).
    rewrite list_elem_of_In. intros [Heq|[]]. apply (pending_not_called w s d Hw Hs Hp Hd).
    unfold step_key, call_key in *. congruence.
  - simpl. intros d Hd. apply in_app_or in Hd as [Hd|[<-|[]]]; [by apply He|].
    exists (updated_step now status (st_ApprovalID s) b e s). split; [|split; [|done]].
    + apply UpdateStep_In. exists s. split; [done|]. case_decide as E; [done|]. destruct E. by unfold step_key; f_equal.
    + unfold step_key, call_key. simpl. congruence.
Qed.

Lemma calls_match_complete runID u w : calls_match w -> calls_match (record_complete runID u w).
Proof.
  intros [Hn Ho He Hk Hl]. destruct (record_complete_keeps runID u w) as (Hs & Hc & Hb).
  constructor; rewrite ?Hs, ?Hc; [done..| |].
  - intros r i a H. apply (Hk r i a), Hb, H.
  - intros r i a s H. apply (Hl r i a), Hb, H.
Qed.

Lemma calls_match_propose code now aid by_ runID connStr p w :
  calls_match w -> small w -> runID <> "" -> pr_Tool p <> "" -> pr_Agent p <> "" ->
  pr_Index p = (Z.of_nat (length (steps_of_run runID (w_steps w))) + 1)%Z ->
  calls_match (propose code now aid by_ runID connStr p w).1.
Proof.
  intros [Hn Ho He Hk Hl] Hsm Hr Ht Ha Hi. unfold propose. cbv zeta. simpl fst. set (p' := with_args _ p).
  destruct (createRunStep_next now runID p' w Hn Hr Ht Ha Hi) as [Hst Hn'].
  set (w1 := createRunStep now runID p' w) in *.
  destruct (createStepApproval_keeps aid runID p' by_ w1) as (Hs & Hc & Hb).
  constructor; rewrite ?Hs, ?Hc, ?Hst; [done|done| | |].
  - intros c Hin. destruct (He c Hin) as (s & H1 & H2). exists s. split; [apply in_or_app; by left|done].
  - intros r i a Hin. apply Hb in Hin as [Hin|Hin]; [by apply (Hk r i a)|]. injection Hin as -> -> ->.
    split; [done|]. simpl. unfold small in Hsm.
    pose proof (List.filter_length_le (fun x => st_RunID x =?s runID) (w_steps w)) as Hlen.
    unfold steps_of_run in Hi. lia.
  - intros r i a s Hin Hins Hkey. apply in_app_or in Hins as [Hins|[<-|[]]]; [|done].
    apply Hb in Hin as [Hin|Hin]; [by apply (Hl r i a s)|]. injection Hin as -> -> ->.
    destruct (proj2 Hn s Hins) as [_ Hbd]. injection Hkey as Hk1 Hk2. rewrite Hk1, Hk2 in Hbd. simpl in Hbd. lia.
Qed.

(** What a proceed request finds before the tool call. *)
Definition proceeds (runID : string) (req : ProceedRequest) (w : World) (run : PlaybookRun) (pb : Playbook) (step : Step) : Prop :=
  runID <> "" /\ GetByRunID decode_report runID (w_runs w) = Some run /\
  fetchPlaybook (run_PlaybookID run) (w_playbooks w) = Some pb /\
  least_pending runID (w_steps w) step /\ (q_StepIndex req = 0 \/ q_StepIndex req = StepIndex step)%Z.

Definition denied_world (now : Time) (runID : string) (run : PlaybookRun) (step : Step) (w : World) : World :=
  record_complete runID (run_update "abandoned" "step denied by operator" (run_TraceID run))
    (updateRunStep now runID (StepIndex step) "denied" "" "" "" w).

Lemma fetchPlaybookRun_Some runID w run : fetchPlaybookRun runID w = Some run ->
  GetByRunID decode_report runID (w_runs w) = Some run.
Proof.
  unfold fetchPlaybookRun, handleGetRun. destruct (runID =?s ""); [done|].
  by destruct (GetByRunID _ _ _) as [r|]; [intros [= ->]|].
Qed.

Lemma proceed_begin_cases now ht fresh runID req w :
  (exists code msg, proceed_begin now ht fresh runID (Ok req) w = (w, Refused (AnswerError code msg))) \/
  exists run pb step, proceeds runID req w run pb step /\
    proceed_begin now ht fresh runID (Ok req) w =
      (if q_Resolution req =?s "denied" then (denied_world now runID run step w, Refused (AnswerDenied runID))
       else (updateRunStep now runID (StepIndex step) "executing" (st_ApprovalID step) "" "" w,
             Executing {| x_run := run; x_pb := pb; x_step := step; x_call := step_call ht fresh runID run step |})).
Proof.
  unfold proceed_begin. destruct (runID =?s "") eqn:Er; [by left; do 2 eexists|]. apply streq_false in Er.
  destruct (fetchPlaybookRun runID w) as [run|] eqn:Erun; [|by left; do 2 eexists].
  destruct (fetchPlaybook _ _) as [pb|] eqn:Epb; [|by left; do 2 eexists].
  destruct (fetchPendingStep runID w) as [step|] eqn:Est; [|by left; do 2 eexists].
  destruct (negb (q_StepIndex req =? 0)%Z && negb (q_StepIndex req =? StepIndex step)%Z) eqn:Ei;
    [by left; do 2 eexists|].
  right. exists run, pb, step. split; [|by destruct (q_Resolution req =?s "denied")].
  split; [done|]. split; [by apply fetchPlaybookRun_Some|]. split; [done|].
  split; [by apply fetchPendingStep_Some in Est as [_ H]|].
  rewrite andb_false_iff, !negb_false_iff, !Z.eqb_eq in Ei. exact Ei.
Qed.

(** The world right after the tool's answer. *)
Definition step_ended (now : Time) (step : Step) (c : ToolCall) (w : World) : World :=
  match call_tool (w_calls w ++ [c]) c with
  | Err e => updateRunStep now (tc_RunID c) (StepIndex step) "failed" (st_ApprovalID step) "" e (log_call c w)
  | Ok out => updateRunStep now (tc_RunID c) (StepIndex step) "succeeded" (st_ApprovalID step) out "" (log_call c w)
  end.

(** What is left to do after that: end the run, or store the next proposal. *)
Lemma proceed_end_cases now aid user req x w :
  tc_RunID (x_call x) <> "" ->
  let w1 := step_ended now (x_step x) (x_call x) w in
  (exists u a, proceed_end now aid user req x w = (record_complete (tc_RunID (x_call x)) u w1, a)) \/
  exists connStr p, pr_Tool p <> "" /\ pr_Agent p <> "" /\
    pr_Index p = (Z.of_nat (length (steps_of_run (tc_RunID (x_call x)) (w_steps w1))) + 1)%Z /\
    proceed_end now aid user req x w =
      propose 200 now aid (resolver (q_ResolvedBy req) user) (tc_RunID (x_call x)) connStr p w1.
Proof.
  intros Hr w1. unfold proceed_end, w1, step_ended. simpl w_calls.
  destruct (call_tool _ _) as [out|e]; [|by left; do 2 eexists].
  set (w2 := updateRunStep _ _ _ _ _ _ _ _).
  set (connStr := replan_connection _ _ _).
  destruct (proposeNextStep _ _ _ _) as [[p|summary]|e] eqn:Ep; [|by left; do 2 eexists..].
  right. exists connStr, p. apply proposeNextStep_Next in Ep as (Hi & Ht & Ha).
  rewrite fetchRunSteps_length in Hi by done. by repeat split.
Qed.

Lemma calls_match_executing now runID w step :
  calls_match w -> small w -> least_pending runID (w_steps w) step -> runID <> "" ->
  calls_match (updateRunStep now runID (StepIndex step) "executing" (st_ApprovalID step) "" "" w).
Proof.
  intros Hw Hs (Hin & Hrun & Hp & _) Hr. apply calls_match_update; [done|done|by apply (key_bounds w)|done|done|].
  intros _ c Hc. rewrite <- Hrun. by apply (pending_not_called w step).
Qed.

Lemma small_update now r i s a b c w : small w -> small (updateRunStep now r i s a b c w).
Proof.
  unfold small, updateRunStep, handleUpdateStep. simpl. destruct (_ || _); [done|].
  destruct (atoi _); [|done]. simpl. destruct (s =?s ""); [done|]. simpl. unfold UpdateStep. by rewrite length_map.
Qed.

Lemma updated_executing_In now w step : calls_match w -> small w -> In step (w_steps w) ->
  In (updated_step now "executing" (st_ApprovalID step) "" "" step)
    (w_steps (updateRunStep now (st_RunID step) (StepIndex step) "executing" (st_ApprovalID step) "" "" w)).
Proof.
  intros Hw Hs Hin. rewrite updateRunStep_steps; [|by apply (cm_numbered _ Hw)|by apply (key_bounds w)|done].
  apply UpdateStep_In. exists step. split; [done|]. by case_decide.
Qed.

(** An undisturbed proceed keeps the calls in step with the steps. *)
Lemma calls_match_proceed now ht fresh aid user runID body w :
  calls_match w -> small w -> (forall i x, ~ In (BgStep runID i x) (background w)) ->
  calls_match (handlePlaybookRunProceed now ht fresh aid user runID body w).1.
Proof.
  intros Hw Hs Hb. unfold handlePlaybookRunProceed. destruct body as [req|e].
  2:{ unfold proceed_begin. by destruct (runID =?s ""). }
  destruct (proceed_begin_cases now ht fresh runID req w) as [(code & msg & ->)|(run & pb & step & Hp & ->)]; [done|].
  destruct Hp as (Hr & _ & _ & Hlp & _). pose proof Hlp as (Hin & Hrun & Hpend & _).
  destruct (q_Resolution req =?s "denied").
  { apply calls_match_complete, calls_match_update; [done|done|by apply (key_bounds w)|done| |done].
    intros _ x. apply Hb. }
  set (w0 := updateRunStep _ _ _ _ _ _ _ w). set (c := step_call ht fresh runID run step).
  set (step' := updated_step now "executing" (st_ApprovalID step) "" "" step).
  assert (Hw1 : calls_match (step_ended now step c w0)).
  { assert (Hw0 : calls_match w0) by (by apply calls_match_executing).
    assert (Hs0 : small w0) by (by apply small_update).
    assert (Hin0 : In step' (w_steps w0)) by (unfold w0; rewrite <- Hrun; by apply (updated_executing_In now w step)).
    assert (Hk : step_key step' = call_key c) by (unfold step_key, call_key; simpl; by rewrite Hrun).
    unfold step_ended. destruct (call_tool _ c) as [out|e];
      apply (calls_match_called now _ _ _ c w0 step'); try done; intros x; apply Hb. }
  assert (Hs1 : small (step_ended now step c w0)).
  { unfold step_ended. destruct (call_tool _ c); apply small_update; by apply small_update. }
  destruct (proceed_end_cases now aid user req {| x_run := run; x_pb := pb; x_step := step; x_call := c |} w0 Hr)
    as [(u & a & ->)|(connStr & p & Ht & Ha & Hi & ->)].
  - by apply calls_match_complete.
  - by apply calls_match_propose.
Qed.

(** ** The gateway over time *)

Definition set_background (bs : list Background) (w : World) : World :=
  {| w_playbooks := w_playbooks w; w_runs := w_runs w; w_steps := w_steps w; w_approvals := w_approvals w;
     w_calls := w_calls w; background := bs |}.

(** Runs start under a new id, are proceeded, late writes arrive in any order, and
    other requests change runs and playbooks.  A proceed is one step, and comes when the
    link of the run's proposal to its approval has arrived. *)
Inductive gateway_step : World -> World -> Prop :=
  | gw_start now aid user pb connStr prior runID w :
      runID <> "" -> (forall s, In s (w_steps w) -> st_RunID s <> runID) -> small w ->
      gateway_step w (handlePlaybookRunApprove now aid user pb connStr prior runID w).1
  | gw_proceed now ht fresh aid user runID body w :
      small w -> (forall i x, ~ In (BgStep runID i x) (background w)) ->
      gateway_step w (handlePlaybookRunProceed now ht fresh aid user runID body w).1
  | gw_arrive now pre b post w :
      background w = (pre ++ b :: post)%list ->
      gateway_step w (apply_background now b (set_background (pre ++ post) w))
  | gw_other playbooks runs w :
      gateway_step w
        {| w_playbooks := playbooks; w_runs := runs; w_steps := w_steps w; w_approvals := w_approvals w;
           w_calls := w_calls w; background := background w |}.

Lemma calls_match_arrive now pre b post w :
  calls_match w -> background w = (pre ++ b :: post)%list ->
  calls_match (apply_background now b (set_background (pre ++ post) w)).
Proof.
  intros [Hn Ho He Hk Hl] Hb.
  assert (Hsub : forall x, In x (pre ++ post) -> In x (background w)).
  { intros x. rewrite Hb, !in_app_iff. simpl. tauto. }
  assert (Hw : calls_match (set_background (pre ++ post) w)).
  { constructor; simpl; [done..| |].
    - intros r i a H. by apply (Hk r i a), Hsub.
    - intros r i a s H. by apply (Hl r i a), Hsub. }
  destruct b as [runID u|r i a]; simpl; [by destruct Hw; constructor|].
  assert (Hin : In (BgStep r i a) (background w)) by (rewrite Hb; apply in_elt).
  destruct (Hk r i a Hin) as [Hr Hi]. apply calls_match_update; [done|done|done|done|done|].
  intros _ c Hc E. destruct (He c Hc) as (s & Hs & Hkey & _ & _ & Hp).
  rewrite (Hl r i a s Hin Hs) in Hp by congruence. done.
Qed.

Lemma calls_match_start now aid user pb connStr prior runID w :
  calls_match w -> small w -> runID <> "" -> (forall s, In s (w_steps w) -> st_RunID s <> runID) ->
  calls_match (handlePlaybookRunApprove now aid user pb connStr prior runID w).1.
Proof.
  intros Hw Hs Hr Hnew. unfold handlePlaybookRunApprove.
  destruct (proposeNextStep _ _ _ _) as [[p|summary]|e] eqn:Ep; [|by apply (calls_match_complete runID)|done].
  apply proposeNextStep_Next in Ep as (Hi & Ht & Ha). apply calls_match_propose; [done..|].
  rewrite Hi. unfold steps_of_run. destruct (List.filter _ _) as [|x l] eqn:E; [done|].
  assert (Hx : In x (x :: l)) by (by left). rewrite <- E, filter_In, streq_spec in Hx.
  destruct Hx as [H1 H2]. by destruct (Hnew x H1).
Qed.

Lemma calls_match_step w w' : gateway_step w w' -> calls_match w -> calls_match w'.
Proof.
  intros H. destruct H; intros Hw.
  - by apply calls_match_start.
  - by apply calls_match_proceed.
  - by apply calls_match_arrive.
  - by destruct Hw; constructor.
Qed.


(** The row of an executed step after the tool's answer. *)
Definition ended_step (now : Time) (step : Step) (answer : result string string) : Step :=
  let ended status out err :=
    updated_step now status (st_ApprovalID step) out err
      (updated_step now "executing" (st_ApprovalID step) "" "" step) in
  match answer with Ok out => ended "succeeded" out "" | Err e => ended "failed" "" e end.

Lemma step_ended_adds now ht fresh run w step :
  calls_match w -> small w -> In step (w_steps w) -> st_RunID step <> "" ->
  let runID := st_RunID step in
  let c := step_call ht fresh runID run step in
  let w0 := updateRunStep now runID (StepIndex step) "executing" (st_ApprovalID step) "" "" w in
  calls_match w0 ->
  w_calls (step_ended now step c w0) = (w_calls w ++ [c])%list /\
  In (ended_step now step (call_tool (w_calls w ++ [c]) c)) (w_steps (step_ended now step c w0)) /\
  well_numbered (w_steps (step_ended now step c w0)).
Proof.
  intros Hw Hs Hin Hr runID c w0 Hw0.
  pose proof (key_bounds w step Hw Hs Hin) as Hbd.
  pose proof (updated_executing_In now w step Hw Hs Hin) as Hin0.
  unfold step_ended. change (w_calls w0) with (w_calls w).
  destruct (call_tool (w_calls w ++ [c]) c) as [out|e]; (split; [done|]);
    rewrite updateRunStep_steps by (done || apply (cm_numbered _ Hw0));
    (split; [|apply UpdateStep_well_numbered, (cm_numbered _ Hw0)]);
    apply UpdateStep_In; (eexists; split; [exact Hin0|by case_decide]).
Qed.

(**  A proceed request either answers an error and changes nothing,
    or is about the pending step of least index of the run, which is the one it names if
    it names one.  With the resolution denied no tool is called and the step is denied;
    with any other resolution the tool of that step is called once, with the run's
    connection, and the step ends as succeeded or failed with the tool's answer. *)
Theorem proceed_spec now ht fresh aid user runID req w :
  calls_match w -> small w ->
  let '(w', a) := handlePlaybookRunProceed now ht fresh aid user runID (Ok req) w in
  (w' = w /\ exists code msg, a = AnswerError code msg) \/
  exists run pb step, proceeds runID req w run pb step /\
    if q_Resolution req =?s "denied" then
      w' = denied_world now runID run step w /\ w_calls w' = w_calls w /\ a = AnswerDenied runID
    else
      let c := step_call ht fresh runID run step in
      w_calls w' = (w_calls w ++ [c])%list /\
      In (ended_step now step (call_tool (w_calls w ++ [c]) c)) (w_steps w').
Proof.
  intros Hw Hs. unfold handlePlaybookRunProceed.
  destruct (proceed_begin_cases now ht fresh runID req w) as [(code & msg & ->)|(run & pb & step & Hp & ->)];
    [left; split; [done|by do 2 eexists]|].
  destruct (q_Resolution req =?s "denied") eqn:Eq.
  { right. exists run, pb, step. split; [done|]. split; [done|]. split; [|done].
    unfold denied_world. by destruct (record_complete_keeps runID
      (run_update "abandoned" "step denied by operator" (run_TraceID run))
      (updateRunStep now runID (StepIndex step) "denied" "" "" "" w)) as (_ & -> & _). }
  set (w0 := updateRunStep _ _ _ _ _ _ _ w). set (c := step_call ht fresh runID run step).
  set (x := {| x_run := run; x_pb := pb; x_step := step; x_call := c |}).
  pose proof Hp as (Hr & _ & _ & Hlp & _). pose proof Hlp as (Hin & Hrun & _).
  assert (Hw0 : calls_match w0) by (by apply calls_match_executing).
  pose proof (step_ended_adds now ht fresh run w step Hw Hs Hin) as H. cbv zeta in H. rewrite Hrun in H.
  destruct (H Hr Hw0) as (Hc & Hst & Hn). clear H. fold w0 c in Hc, Hst, Hn.
  destruct (proceed_end_cases now aid user req x w0 Hr) as [(u & a & ->)|(conn & p & Ht & Ha & Hi & ->)];
    right; exists run, pb, step; (split; [done|]).
  - destruct (record_complete_keeps (tc_RunID (x_call x)) u (step_ended now (x_step x) (x_call x) w0)) as (-> & -> & _).
    by split.
  - simpl. set (p' := with_args _ p).
    destruct (createStepApproval_keeps aid runID p' (resolver (q_ResolvedBy req) user)
      (createRunStep now runID p' (step_ended now step c w0))) as (-> & -> & _).
    split; [exact Hc|].
    destruct (createRunStep_next now runID p' _ Hn Hr Ht Ha Hi) as [-> _]. by apply in_or_app; left.
Qed.
End Driver.

(** ** A run of two steps *)

Module Toy.
Definition plan (pb : Playbook) (connStr prior : string) (history : list (PlaybookRunStep string))
    : result string (stepProposerResult (Value := string)) :=
  let tool (t : string) := Ok {| pa_Action := "tool"; pa_Agent := ""; pa_Tool := t; pa_Args := []; pa_Reason := "r"; pa_Summary := "" |} in
  match length history with
  | 0 => tool "get_locks"
  | 1 => tool "terminate_connection"
  | _ => Ok {| pa_Action := "complete"; pa_Agent := ""; pa_Tool := ""; pa_Args := []; pa_Reason := ""; pa_Summary := "done" |}
  end.

Definition book : Playbook := toy_body "pb_1" "pbs_s" true false.

Definition run : PlaybookRun :=
  {| RunID := "plr_1"; run_PlaybookID := "pb_1"; run_SeriesID := "pbs_s"; run_ExecutionMode := "agent_approve";
     run_Outcome := ""; EscalatedTo := ""; TransitionedTo := ""; FindingsSummary := ""; run_Report := None;
     run_ContextID := ""; run_ConnectionString := "host=db1"; run_TraceID := "tr_1"; AgentTranscript := "";
     PriorRunID := ""; TriggerContext := ""; run_Operator := "op"; run_StartedAt := 1; run_CompletedAt := 0 |}.

Definition empty : World (Value := string) :=
  {| w_playbooks := after_create book []; w_runs := (RecordRun (fun _ => None) 0 "1" run []).1;
     w_steps := []; w_approvals := []; w_calls := []; background := [] |}.

Definition answer (calls : list (ToolCall (Value := string))) (c : ToolCall (Value := string)) : result string string :=
  if Nat.eqb (length calls) 3 then Err "refused" else Ok "rows".

Definition start (w : World) : World (Value := string) :=
  (handlePlaybookRunApprove (fun s => s) plan 5 "apr_1" "op" book "host=db1" "" "plr_1" w).1.

Definition request (resolution : string) : ProceedRequest :=
  {| q_Resolution := resolution; q_ResolvedBy := "op"; q_StepIndex := 0; q_ConnectionString := "" |}.

Definition proceed (resolution : string) (w : World) : World (Value := string) * RunAnswer :=
  handlePlaybookRunProceed (fun s => s) Some plan (fun _ => None) (fun t => t) answer 6 "" "tr_f" "apr_2" "op" "plr_1"
    (Ok (request resolution)) w.

(** The first late write arrives. *)
Definition arrive (w : World (Value := string)) : World :=
  match background w with
  | b :: post => apply_background (fun _ => None) 7 b (set_background post w)
  | [] => w
  end.

Definition one_executed : World := (proceed "approved" (arrive (start empty))).1.

Definition keys (w : World (Value := string)) : list (string * Z) := map call_key (w_calls w).
Definition statuses (w : World (Value := string)) : list string := map st_Status (w_steps w).

(** The usual course: two steps, each executed once, and the run resolved. *)
Example two_steps :
  let w := (proceed "approved" (arrive one_executed)).1 in
  keys w = [("plr_1", 1%Z); ("plr_1", 2%Z)] /\ statuses w = ["succeeded"; "succeeded"] /\
  map tc_Args (w_calls w) = [[("connection_string", "host=db1")]; [("connection_string", "host=db1")]] /\
  map rr_Outcome (w_runs (arrive w)) = ["resolved"].
Proof. vm_compute. repeat split. Qed.

(** Only the word denied refuses: a proposal that the operator rejected is executed. *)
Example rejected_executes :
  keys (proceed "rejected" (arrive (start empty))).1 = [("plr_1", 1%Z)] /\
  keys (proceed "" (arrive (start empty))).1 = [("plr_1", 1%Z)] /\
  keys (proceed "denied" (arrive (start empty))).1 = [].
Proof. vm_compute. repeat split. Qed.

(** The write that links the first proposal to its approval comes after the step was
    executed: the step is proposed again, and executed again. *)
Example late_link_executes_twice :
  let w := arrive (proceed "approved" (start empty)).1 in
  statuses w = ["proposed"; "proposed"] /\
  keys (proceed "approved" w).1 = [("plr_1", 1%Z); ("plr_1", 1%Z)].
Proof. vm_compute. repeat split. Qed.

(** A second request while the first one's tool runs: the executing step is pending. *)
Example overlapping_proceeds_execute_twice :
  let w := arrive (start empty) in
  let begin := proceed_begin (fun s => s) (fun _ => None) (fun t => t) 6 "" "tr_f" "plr_1" (Ok (request "approved")) in
  let finish x w := (proceed_end (fun s => s) Some plan (fun _ => None) answer 8 "apr_2" "op" (request "approved") x w).1 in
  match begin w with
  | (w1, Executing x1) =>
      match begin w1 with
      | (w2, Executing x2) => keys (finish x2 (finish x1 w2)) = [("plr_1", 1%Z); ("plr_1", 1%Z)]
      | _ => False
      end
  | _ => False
  end.
Proof. vm_compute. reflexivity. Qed.

(** A failing tool ends the run, and its step is not pending any more. *)
Example failing_tool :
  let w := (proceed "approved" (log_call (step_call (fun s => s) "" "" "x" run
             (proposed_step "x" {| pr_Index := 1; pr_Agent := "a"; pr_Tool := "t"; pr_Args := []; pr_Reason := "";
                                   pr_ActionClass := ActionRead |})) (arrive one_executed))).1 in
  statuses w = ["succeeded"; "failed"] /\ map st_Error (w_steps w) = [""; "refused"] /\
  map rr_Outcome (w_runs (arrive w)) = ["abandoned"].
Proof. vm_compute. repeat split. Qed.
End Toy.


Lemma proceed_spec_witness :
  exists step, In step (w_steps (Toy.proceed "approved" (Toy.arrive (Toy.start Toy.empty))).1) /\
    st_Status step = "succeeded".
Proof.
  pose proof (proceed_spec (fun s => s) Some Toy.plan (fun _ => None) (fun t => t) Toy.answer 6 "" "tr_f" "apr_2" "op"
    "plr_1" (Toy.request "approved") (Toy.arrive (Toy.start Toy.empty))) as H.
  assert (Hw : calls_match (Toy.arrive (Toy.start Toy.empty))).
  { constructor.
    - split; [repeat constructor; rewrite list_elem_of_In; simpl; tauto|].
      intros s [<-|[]]. split; [discriminate|]. vm_compute. split; discriminate.
    - apply NoDup_nil_2.
    - intros c [].
    - intros r i a [].
    - intros r i a s []. }
  specialize (H Hw eq_refl). unfold Toy.proceed.
  destruct (handlePlaybookRunProceed _ _ _ _ _ _ _ _ _ _ _ _ _ _) as [w' a] eqn:E.
  destruct H as [(_ & code & msg & ->)|(run & pb & step & _ & _ & H)].
  - vm_compute in E. discriminate E.
  - eexists. split; [exact H|]. vm_compute. reflexivity.
Defined.
