(* ===== verification/AuditQuery.v ===== *)
(** * internal/audit/store.go: queries over the audit table, and their endpoints

    [Store.Query] as its WHERE clause, ORDER BY and LIMIT over the rows of
    audit_events, and the event endpoints of cmd/auditd/main.go and
    governance_handlers.go.  The order in which the database visits rows is an
    argument ([scan], a permutation in the theorems), so nothing depends on how ties
    of ORDER BY come out.  [sql_like] is the LIKE operator of the two databases.  A
    failing SELECT is left out; undecodable rows are not.  Characters are bytes in
    LIKE, as in the ASCII identifiers it is used on. *)

From Stdlib Require Import SpecFloat.
From S2P Require Import Prelude GoTime TimeText GoFormat Identity Events AuditChain.

Open Scope string_scope.

(** ** SQL text operators *)

(** LIKE: the percent sign stands for any text and the underscore for any
    character.  SQLite folds ASCII case; Postgres does not, and takes the backslash
    as an escape (at the end of a pattern it is an error, here no match). *)
Fixpoint like_bytes (pg : bool) (pat s : string) {struct pat} : bool :=
  match pat with
  | EmptyString => match s with EmptyString => true | _ => false end
  | String c pat' =>
      if Ascii.eqb c "%" then
        (fix any (s : string) : bool :=
           like_bytes pg pat' s || match s with String _ s' => any s' | EmptyString => false end) s
      else if Ascii.eqb c "_" then
        match s with String _ s' => like_bytes pg pat' s' | EmptyString => false end
      else if pg && Ascii.eqb c (ascii_of_N 92) then
        match pat' with
        | String c' pat'' =>
            match s with
            | String d s' => Ascii.eqb c' d && like_bytes pg pat'' s'
            | EmptyString => false
            end
        | EmptyString => false
        end
      else
        match s with
        | String d s' => Ascii.eqb c d && like_bytes pg pat' s'
        | EmptyString => false
        end
  end.

Definition sql_like (pg : bool) (pat s : string) : bool :=
  if pg then like_bytes true pat s else like_bytes false (to_lower pat) (to_lower s).

(** ** QueryOptions *)

Record QueryOptions := {
  qo_EventID : string;
  qo_SessionID : string;
  qo_EventType : string;
  qo_EventTypes : list string;
  qo_Agent : string;
  qo_Since : Time;
  qo_MinConfidence : spec_float;
  qo_MaxConfidence : spec_float;
  qo_Limit : Z;
  qo_TraceID : string;
  qo_TraceIDPrefix : string;
  qo_ActionClass : string;
  qo_ToolName : string;
  qo_ApprovalStatus : string;
  qo_OutcomeStatus : string;
  qo_Origin : string }.

Definition no_options (limit : Z) : QueryOptions :=
  {| qo_EventID := ""; qo_SessionID := ""; qo_EventType := ""; qo_EventTypes := []; qo_Agent := "";
     qo_Since := 0%Z; qo_MinConfidence := S754_zero false; qo_MaxConfidence := S754_zero false;
     qo_Limit := limit; qo_TraceID := ""; qo_TraceIDPrefix := ""; qo_ActionClass := "";
     qo_ToolName := ""; qo_ApprovalStatus := ""; qo_OutcomeStatus := ""; qo_Origin := "" |}.

(** A clause that is added only for a non-empty option. *)
Definition col_is (want have : string) : bool := (want =?s "") || (have =?s want).

Definition type_clause (opts : QueryOptions) (r : Row) : bool :=
  if negb (qo_EventType opts =?s "") then event_type r =?s qo_EventType opts
  else match qo_EventTypes opts with [] => true | l => mem (event_type r) l end.

Definition float_positive (x : spec_float) : bool := SFltb (S754_zero false) x.

(** A comparison with NULL is not true. *)
Definition confidence_clauses (opts : QueryOptions) (r : Row) : bool :=
  (negb (float_positive (qo_MinConfidence opts)) ||
   match decision_confidence r with Some c => SFleb (qo_MinConfidence opts) c | None => false end) &&
  (negb (float_positive (qo_MaxConfidence opts)) ||
   match decision_confidence r with Some c => SFleb c (qo_MaxConfidence opts) | None => false end).

Definition query_matches (pg : bool) (opts : QueryOptions) (r : Row) : bool :=
  col_is (qo_EventID opts) (event_id r) &&
  col_is (qo_SessionID opts) (session_id r) &&
  type_clause opts r &&
  col_is (qo_Agent opts) (decision_agent r) &&
  (IsZero (qo_Since opts) || text_le (sqliteTimeFormat (qo_Since opts)) (timestamp r)) &&
  confidence_clauses opts r &&
  col_is (qo_TraceID opts) (trace_id r) &&
  ((qo_TraceIDPrefix opts =?s "") || sql_like pg (qo_TraceIDPrefix opts ++ "%") (trace_id r)) &&
  col_is (qo_ActionClass opts) (action_class r) &&
  col_is (qo_ToolName opts) (tool_name r) &&
  col_is (qo_ApprovalStatus opts) (approval_status r) &&
  col_is (qo_OutcomeStatus opts) (outcome_status r) &&
  col_is (qo_Origin opts) (origin r).

Definition oldest_first (a b : Row) : bool := text_lt (timestamp a) (timestamp b).
Definition newest_first (a b : Row) : bool := text_lt (timestamp b) (timestamp a).

Definition query_order (opts : QueryOptions) : Row -> Row -> bool :=
  if negb (qo_TraceID opts =?s "") || negb (qo_TraceIDPrefix opts =?s "") then oldest_first
  else newest_first.

Definition sql_limit {A} (n : Z) (l : list A) : list A :=
  if (0 <? n)%Z then take (Z.to_nat n) l else l.

Section Query.
Context (unmarshal_event : string -> option Event).
Context (scan : list Row -> list Row).

Definition query_rows (opts : QueryOptions) (s : Store) : list Row :=
  sql_limit (qo_Limit opts)
    (isort (query_order opts) (scan (List.filter (query_matches (isPostgres s) opts) (rows s)))).

Definition Query (opts : QueryOptions) (s : Store) : result string (list Event) :=
  match decode_rows unmarshal_event (query_rows opts s) with
  | Some events => Ok events
  | None => Err "unmarshal event"
  end.

(** ** The event endpoints *)

Inductive EventsReply :=
  | EventsError (code : Z) (msg : string)
  | EventsList (l : list Event)
  | EventFound (e : Event)
  | EventRecorded (event_id event_hash prev_hash : string)
  | EventsNothing.

(** [r.URL.Query().Get]: the first value of a parameter, or the empty string. *)
Definition Params := string -> string.

Definition limit_param (q : Params) (dflt : Z) : Z :=
  match atoi (q "limit") with
  | Some n => if (0 <? n)%Z then n else dflt
  | None => dflt
  end.

Definition types_param (v : string) : list string :=
  List.filter (fun t => negb (t =?s "")) (map trim_space (split_on "," v)).

Definition query_of_params (q : Params) : QueryOptions :=
  {| qo_EventID := ""; qo_SessionID := q "session_id"; qo_EventType := q "event_type";
     qo_EventTypes := types_param (q "types"); qo_Agent := q "agent";
     qo_Since := parse_or_zero (q "since");
     qo_MinConfidence := S754_zero false; qo_MaxConfidence := S754_zero false;
     qo_Limit := limit_param q 100; qo_TraceID := q "trace_id";
     qo_TraceIDPrefix := q "trace_id_prefix"; qo_ActionClass := q "action_class";
     qo_ToolName := q "tool_name"; qo_ApprovalStatus := ""; qo_OutcomeStatus := q "outcome_status";
     qo_Origin := q "origin" |}.

Definition handleQueryEvents (q : Params) (s : Store) : EventsReply :=
  match Query (query_of_params q) s with
  | Err _ => EventsError 500 "failed to query events"
  | Ok events => EventsList events
  end.

Definition event_by_id (eventID : string) : QueryOptions :=
  let opts := no_options 1 in
  {| qo_EventID := eventID; qo_SessionID := qo_SessionID opts; qo_EventType := qo_EventType opts;
     qo_EventTypes := qo_EventTypes opts; qo_Agent := qo_Agent opts; qo_Since := qo_Since opts;
     qo_MinConfidence := qo_MinConfidence opts; qo_MaxConfidence := qo_MaxConfidence opts;
     qo_Limit := qo_Limit opts; qo_TraceID := qo_TraceID opts;
     qo_TraceIDPrefix := qo_TraceIDPrefix opts; qo_ActionClass := qo_ActionClass opts;
     qo_ToolName := qo_ToolName opts; qo_ApprovalStatus := qo_ApprovalStatus opts;
     qo_OutcomeStatus := qo_OutcomeStatus opts; qo_Origin := qo_Origin opts |}.

Definition handleGetEvent (eventID : string) (s : Store) : EventsReply :=
  if eventID =?s "" then EventsError 400 "missing event ID"
  else
    match Query (event_by_id eventID) s with
    | Err _ => EventsError 500 "failed to query event"
    | Ok [] => EventsError 404 "event not found"
    | Ok (e :: _) => EventFound e
    end.

Definition handleRecordOutcome (eventID : string) (body : result string Outcome) (s : Store)
    : Store * EventsReply :=
  if eventID =?s "" then (s, EventsError 400 "missing event ID")
  else
    match body with
    | Err e => (s, EventsError 400 ("invalid JSON: " ++ e))
    | Ok o => (RecordOutcome eventID o s, EventsNothing)
    end.
End Query.

(** POST /v1/events answers with the members [Record] filled in. *)
Section RecordEvent.
Context (sha256hex : string -> string) (marshal_hash : HashInput -> option string).
Context (marshal_event : Event -> option string).
Context (marshal_decision : Decision -> string) (marshal_tool : ToolExecution -> string).
Context (marshal_approval : Approval -> string).

Abbreviation record :=
  (Record_event sha256hex marshal_hash marshal_event marshal_decision marshal_tool marshal_approval).
Abbreviation complete := (complete_event sha256hex marshal_hash).

Definition handleRecordEvent (now : Time) (uuid8 : string) (db_err : option string)
    (body : result string Event) (s : Store) : Store * EventsReply :=
  match body with
  | Err e => (s, EventsError 400 ("invalid JSON: " ++ e))
  | Ok event =>
      match record now uuid8 db_err s event with
      | (s', Some _) => (s', EventsError 500 "failed to record event")
      | (s', None) =>
          let e := complete now uuid8 s event in
          (s', EventRecorded (EventID e) (EventHash e) (PrevHash e))
      end
  end.
End RecordEvent.

(** ** LIKE as a prefix test *)

Definition like_plain (pg : bool) (c : ascii) : bool :=
  negb (Ascii.eqb c "%") && negb (Ascii.eqb c "_") && negb (pg && Ascii.eqb c (ascii_of_N 92)).

Fixpoint like_literal (pg : bool) (p : string) : bool :=
  match p with EmptyString => true | String c p' => like_plain pg c && like_literal pg p' end.

Lemma like_percent pg s : like_bytes pg "%" s = true.
Proof.
  induction s as [|c s IH]; [done|].
  assert (like_bytes pg "%" (String c s) = like_bytes pg "" (String c s) || like_bytes pg "%" s) as ->
    by done.
  by rewrite IH.
Qed.

Lemma like_bytes_prefix pg p s :
  like_literal pg p = true -> like_bytes pg (p ++ "%") s = has_prefix s p.
Proof.
  revert s. induction p as [|c p IH]; intros s; [intros _; destruct s; apply like_percent|].
  cbn [like_literal]. unfold like_plain. rewrite !andb_true_iff, !negb_true_iff.
  intros [[[H1 H2] H3] Hp]. rewrite append_cons. cbn [like_bytes]. rewrite H1, H2, H3.
  destruct s as [|d s]; simpl; [done|]. by rewrite IH.
Qed.

(** ** What a query returns *)

Lemma text_lt_asym a b : text_lt a b = true -> text_lt b a = false.
Proof.
  unfold text_lt, String.ltb. rewrite (String.compare_antisym b a).
  by destruct (String.compare a b).
Qed.

Lemma compare_not_lt_trans a b c :
  String.compare b a <> Lt -> String.compare c b <> Lt -> String.compare c a <> Lt.
Proof.
  revert b c. induction a as [|x a IH]; intros [|y b] [|z c]; simpl; try done.
  unfold Ascii.compare.
  destruct (N.compare_spec (N_of_ascii y) (N_of_ascii x)), (N.compare_spec (N_of_ascii z) (N_of_ascii y)),
    (N.compare_spec (N_of_ascii z) (N_of_ascii x)); try done; try lia. apply IH.
Qed.

Lemma text_ge_trans a b c : text_lt b a = false -> text_lt c b = false -> text_lt c a = false.
Proof.
  unfold text_lt, String.ltb. intros H1 H2. pose proof (compare_not_lt_trans a b c) as H.
  destruct (String.compare b a), (String.compare c b), (String.compare c a); try done;
    exfalso; by apply H.
Qed.

Lemma query_order_asym opts a b : query_order opts a b = true -> query_order opts b a = false.
Proof. unfold query_order. destruct (_ || _); apply text_lt_asym. Qed.

Lemma query_order_trans opts a b c :
  query_order opts b a = false -> query_order opts c b = false -> query_order opts c a = false.
Proof.
  unfold query_order. destruct (_ || _); unfold oldest_first, newest_first; [apply text_ge_trans|].
  intros H1 H2. exact (text_ge_trans _ _ _ H2 H1).
Qed.

Section QueryTheorems.
Context (unmarshal_event : string -> option Event).
Context (scan : list Row -> list Row).
Hypothesis scan_perm : forall l, scan l ≡ₚ l.

Abbreviation decode_rows := (decode_rows unmarshal_event).
Abbreviation Query := (Query unmarshal_event scan).

Lemma query_rows_split opts s :
  exists rest,
    (query_rows scan opts s ++ rest ≡ₚ List.filter (query_matches (isPostgres s) opts) (rows s)) /\
    sorted_by (query_order opts) (query_rows scan opts s ++ rest) /\
    (qo_Limit opts <= 0 -> rest = [])%Z /\
    (0 < qo_Limit opts -> Z.of_nat (length (query_rows scan opts s)) =
       Z.min (qo_Limit opts) (Z.of_nat (length (query_rows scan opts s ++ rest))))%Z.
Proof.
  unfold query_rows, sql_limit. set (m := List.filter _ _). set (l := isort _ _).
  assert (Hp : l ≡ₚ m) by (unfold l; by rewrite isort_perm, scan_perm).
  assert (Hs : sorted_by (query_order opts) l).
  { apply isort_sorted; [apply query_order_asym|apply query_order_trans]. }
  destruct (Z.ltb_spec 0 (qo_Limit opts)) as [H|H].
  - exists (drop (Z.to_nat (qo_Limit opts)) l). rewrite take_drop. split_and!; [done|done|lia|].
    intros _. rewrite length_take. lia.
  - exists []. rewrite app_nil_r. split_and!; [done|done|done|lia].
Qed.

(** A query that answers returns the decoded rows of a part of the
    rows its filters select: the first ones in its order (newest first, or oldest
    first when a trace is named), so that no row left out comes strictly before one
    that is returned; as many as the limit allows, and all of them without a limit.
    It fails only if a row it selected cannot be decoded. *)
Theorem Query_spec opts s :
  exists picked rest,
    (picked ++ rest ≡ₚ List.filter (query_matches (isPostgres s) opts) (rows s)) /\
    sorted_by (query_order opts) (picked ++ rest) /\
    (qo_Limit opts <= 0 -> rest = [])%Z /\
    (0 < qo_Limit opts ->
       Z.of_nat (length picked) = Z.min (qo_Limit opts) (Z.of_nat (length (picked ++ rest))))%Z /\
    match Query opts s with
    | Ok events => Forall2 (fun r e => unmarshal_event (raw_json r) = Some e) picked events
    | Err _ => exists r, In r picked /\ unmarshal_event (raw_json r) = None
    end.
Proof.
  destruct (query_rows_split opts s) as (rest & H1 & H2 & H3 & H4).
  exists (query_rows scan opts s), rest. split_and!; [done..|]. unfold AuditQuery.Query.
  clear. induction (query_rows scan opts s) as [|r l IH]; simpl; [constructor|].
  destruct (unmarshal_event (raw_json r)) eqn:E; [|exists r; auto].
  destruct (decode_rows l); [by constructor|]. destruct IH as (r' & Hr & Hu). exists r'. auto.
Qed.
End QueryTheorems.

Section RoundTrip.
Context (sha256hex : string -> string) (marshal_hash : HashInput -> option string).
Context (marshal_event : Event -> option string) (unmarshal_event : string -> option Event).
Context (marshal_decision : Decision -> string) (marshal_tool : ToolExecution -> string).
Context (marshal_approval : Approval -> string) (scan : list Row -> list Row).
Hypothesis scan_perm : forall l, scan l ≡ₚ l.

Abbreviation handleRecordEvent :=
  (handleRecordEvent sha256hex marshal_hash marshal_event marshal_decision marshal_tool marshal_approval).
Abbreviation handleGetEvent := (handleGetEvent unmarshal_event scan).

Lemma row_of_id e raw :
  event_id (row_of marshal_decision marshal_tool marshal_approval e raw) = EventID e /\
  raw_json (row_of marshal_decision marshal_tool marshal_approval e raw) = raw.
Proof. unfold row_of. by destruct (outcome_columns e) as [[] ?], (purpose_columns e). Qed.

Lemma query_matches_by_id pg id r :
  id <> "" -> query_matches pg (event_by_id id) r = (event_id r =?s id).
Proof.
  intros Hid. apply streq_false in Hid. unfold query_matches, col_is, event_by_id. simpl.
  rewrite Hid. unfold type_clause. simpl. by rewrite !andb_true_r.
Qed.

Lemma filter_id_none id rs :
  existsb (fun r => event_id r =?s id) rs = false -> List.filter (fun r => event_id r =?s id) rs = [].
Proof.
  induction rs as [|r rs IH]; simpl; [done|]. rewrite orb_false_iff. intros [-> H]. auto.
Qed.

Lemma get_one id s r :
  id <> "" -> List.filter (fun r => event_id r =?s id) (rows s) = [r] ->
  handleGetEvent id s =
    match unmarshal_event (raw_json r) with
    | Some e => EventFound e
    | None => EventsError 500 "failed to query event"
    end.
Proof.
  intros Hid Hf. pose proof (proj2 (streq_false _ _) Hid) as Hid'.
  unfold AuditQuery.handleGetEvent, Query, query_rows. rewrite Hid'.
  rewrite (List.filter_ext _ _ (fun r => query_matches_by_id (isPostgres s) id r Hid)), Hf.
  rewrite (proj1 (Permutation_singleton_r _ _) (scan_perm [r])). simpl.
  by destruct (unmarshal_event (raw_json r)).
Qed.

Lemma filter_set_outcome id id' o rs :
  List.filter (fun r => event_id r =?s id)
    (map (fun r => if event_id r =?s id' then set_outcome o r else r) rs) =
  map (fun r => if event_id r =?s id' then set_outcome o r else r)
    (List.filter (fun r => event_id r =?s id) rs).
Proof. apply filter_map_same. intros r. by destruct (event_id r =?s id'). Qed.

(** One row carries the id, with this text; outcomes keep it so. *)
Definition stored_once (id raw : string) (s : Store) : Prop :=
  exists r, List.filter (fun r => event_id r =?s id) (rows s) = [r] /\ raw_json r = raw.

Lemma stored_once_get id raw e s :
  id <> "" -> unmarshal_event raw = Some e -> stored_once id raw s -> handleGetEvent id s = EventFound e.
Proof. intros Hid Hu (r & Hf & <-). rewrite (get_one id s r Hid Hf). by rewrite Hu. Qed.

Lemma stored_once_outcome id raw i o s :
  stored_once id raw s -> stored_once id raw (handleRecordOutcome i (Ok o) s).1.
Proof.
  intros (r & Hf & Hr). unfold handleRecordOutcome. destruct (i =?s ""); [by exists r|].
  unfold stored_once. cbn [fst RecordOutcome rows]. rewrite filter_set_outcome, Hf.
  eexists. split; [reflexivity|]. by destruct (event_id r =?s i).
Qed.

Lemma stored_once_outcomes id raw os s :
  stored_once id raw s ->
  stored_once id raw (fold_left (fun st '(i, o) => (handleRecordOutcome i (Ok o) st).1) os s).
Proof.
  revert s. induction os as [|[i o] os IH]; intros s H; [done|]. by apply IH, stored_once_outcome.
Qed.

Lemma complete_event_id now uuid8 s e : EventID (complete_event sha256hex marshal_hash now uuid8 s e) <> "".
Proof.
  unfold complete_event. destruct (String.eqb_spec (EventID e) "") as [H|H]; simpl;
    by destruct (IsZero _).
Qed.

(** An event that POST /v1/events accepts is found again: the answer
    names a non-empty id, and GET /v1/events/{id} returns the event decoded from what
    was stored under it, the completed event with exactly these hashes, however many
    outcomes are recorded for any events afterwards.  (An outcome recorded later
    therefore never shows in the event that is returned; only the columns that
    queries filter on change.) *)
Theorem recorded_event_found now uuid8 db_err body s s' id eh ph os e raw e'
    (Hbody : body = Ok e)
    (Hrec : handleRecordEvent now uuid8 db_err body s = (s', EventRecorded id eh ph))
    (Hraw : marshal_event (complete_event sha256hex marshal_hash now uuid8 s e) = Some raw)
    (Hdec : unmarshal_event raw = Some e') :
  let later := fold_left (fun st '(i, o) => (handleRecordOutcome i (Ok o) st).1) os s' in
  id <> "" /\
  id = EventID (complete_event sha256hex marshal_hash now uuid8 s e) /\
  eh = ComputeEventHash sha256hex marshal_hash (complete_event sha256hex marshal_hash now uuid8 s e) /\
  ph = lastHash s /\
  handleGetEvent id s' = EventFound e' /\ handleGetEvent id later = EventFound e'.
Proof.
  subst body. unfold AuditQuery.handleRecordEvent, Record_event in Hrec. rewrite Hraw in Hrec.
  set (ce := complete_event _ _ _ _ _ _) in *. unfold insert_row in Hrec.
  destruct db_err; [by injection Hrec|]. destruct (existsb _ _) eqn:Hnew; [by injection Hrec|].
  destruct (row_of_id ce raw) as [Hi Hr]. rewrite Hi in Hnew.
  injection Hrec as <- <- <- <-.
  assert (Hid : EventID ce <> "") by apply complete_event_id.
  assert (Hs : stored_once (EventID ce) raw
    {| rows := rows s ++ [row_of marshal_decision marshal_tool marshal_approval ce raw];
       isPostgres := isPostgres s; lastHash := EventHash ce; notified := notified s ++ [raw] |}).
  { exists (row_of marshal_decision marshal_tool marshal_approval ce raw). split; [|exact Hr].
    cbn [rows]. rewrite List.filter_app, (filter_id_none _ _ Hnew). cbn [List.filter app].
    by rewrite Hi, String.eqb_refl. }
  cbv zeta. split_and!; [done|done|done|done| |].
  - exact (stored_once_get _ _ _ _ Hid Hdec Hs).
  - exact (stored_once_get _ _ _ _ Hid Hdec (stored_once_outcomes _ _ os _ Hs)).
Qed.
End RoundTrip.

(** ** Runs with the encoders of AuditChain *)

Definition toy_post (id : string) (s : Store) : Store * EventsReply :=
  handleRecordEvent toy_sha toy_hash toy_event (fun _ => "") (fun _ => "") (fun _ => "") 5%Z "u1" None
    (Ok (set_EventID id zero_event)) s.

Lemma Query_spec_witness :
  length (query_rows (@reverse Row) (no_options 1) toy_store) = 1 /\
  exists picked rest,
    (picked ++ rest ≡ₚ List.filter (query_matches false (no_options 1)) (rows toy_store)) /\
    sorted_by (query_order (no_options 1)) (picked ++ rest) /\
    (1 <= 0 -> rest = [])%Z /\
    (0 < 1 -> Z.of_nat (length picked) = Z.min 1 (Z.of_nat (length (picked ++ rest))))%Z /\
    match Query toy_unmarshal (@reverse Row) (no_options 1) toy_store with
    | Ok events => Forall2 (fun r e => toy_unmarshal (raw_json r) = Some e) picked events
    | Err _ => exists r, In r picked /\ toy_unmarshal (raw_json r) = None
    end.
Proof.
  split; [reflexivity|].
  apply (Query_spec toy_unmarshal (@reverse Row) (@reverse_Permutation Row) (no_options 1) toy_store).
Defined.

Lemma recorded_event_found_witness :
  handleGetEvent toy_unmarshal (@reverse Row) "evt_u1" (toy_post "" toy_store).1 =
    EventFound (default zero_event (toy_unmarshal
      (raw_json (List.last (rows (toy_post "" toy_store).1) (row_of (fun _ => "") (fun _ => "") (fun _ => "") zero_event ""))))).
Proof.
  edestruct (recorded_event_found toy_sha toy_hash toy_event toy_unmarshal (fun _ => "") (fun _ => "")
    (fun _ => "") (@reverse Row) (@reverse_Permutation Row) 5%Z "u1" None (Ok (set_EventID "" zero_event)) toy_store
    (toy_post "" toy_store).1 "evt_u1") as (_ & _ & _ & _ & H & _);
    [reflexivity|reflexivity|reflexivity|reflexivity|exact H].
  Unshelve. exact [].
Defined.

(** A prefix with an underscore, as callers use them, selects other traces too, and
    SQLite ignores case: the filter for "sess_" also returns trace "SESS-1". *)
Example prefix_is_a_pattern :
  sql_like false ("sess_" ++ "%") "SESS-1" = true /\ sql_like true ("sess_" ++ "%") "sess-1" = true /\
  sql_like true ("sess_" ++ "%") "SESS-1" = false /\ has_prefix "SESS-1" "sess_" = false.
Proof. repeat split. Qed.
