(* ===== verification/Journeys.v ===== *)
(** * internal/audit/store.go: end-to-end journeys

    [QueryJourneys] as the code composes it: the SELECT of trace ids from anchor
    events, the SELECT of all events of those traces, the loop over its rows with one
    [traceData] per trace, the summaries, the run ids of playbook_runs and the filters
    applied afterwards; and its endpoint in cmd/auditd/main.go.  The playbook_runs
    table is a list of (trace_id, run_id) rows in the order the database returns
    them.  Failing SELECTs are left out. *)

From Stdlib Require Import Sorted.
From S2P Require Import Prelude GoTime TimeText GoFormat Identity Events AuditChain AuditQuery.

Open Scope string_scope.

Record JourneyOptions := {
  jo_UserID : string;
  jo_Purpose : string;
  jo_From : Time;
  jo_Until : Time;
  jo_Limit : Z;
  jo_Since : Z;
  jo_Category : string;
  jo_Outcome : string;
  jo_HasRetries : bool;
  jo_TraceID : string;
  jo_TraceIDPrefix : string;
  jo_Origin : string;
  jo_IncidentOnly : bool }.

Record DelegationSummary := { ds_Intent : string; ds_Tools : list string }.

Record JourneySummary := {
  js_TraceID : string;
  js_StartedAt : string;
  js_EndedAt : string;
  js_DurationMs : Z;
  js_UserID : string;
  js_UserQuery : string;
  js_Purpose : string;
  js_PurposeNote : string;
  js_Agent : string;
  js_Category : string;
  js_Delegations : list DelegationSummary;
  js_ToolsUsed : list string;
  js_Outcome : string;
  js_EventCount : Z;
  js_RetryCount : Z;
  js_Origin : string;
  js_HasMismatch : bool;
  js_IncidentRunID : string }.

Definition outcomePriority (o : string) : Z :=
  if o =?s "unverified_claim" then 9
  else if o =?s "error" then 8
  else if o =?s "denied" then 7
  else if o =?s "escalation_required" then 6
  else if o =?s "verified_failed" then 5
  else if o =?s "verified_warning" then 4
  else if o =?s "approved" then 3
  else if o =?s "verified_ok" then 2
  else if o =?s "success" then 1
  else 0.

(** [filterJourneys] is the standard filter. *)
Definition filterJourneys (keep : JourneySummary -> bool) (journeys : list JourneySummary)
    : list JourneySummary := List.filter keep journeys.

(** ** The traces of a query *)

Definition is_anchor (r : Row) : bool :=
  ((event_type r =?s "delegation_decision") ||
   ((event_type r =?s "gateway_request") && (tool_name r =?s "")) ||
   (event_type r =?s "rollback_initiated")) &&
  negb (trace_id r =?s "").

(** The limit and the lower bound as the function first sets them. *)
Definition journey_limit (opts : JourneyOptions) : Z :=
  if (jo_Limit opts <=? 0)%Z then 50 else jo_Limit opts.

Definition journey_from (now : Time) (opts : JourneyOptions) : Time :=
  if (0 <? jo_Since opts)%Z then (now - jo_Since opts)%Z else jo_From opts.

Definition anchor_matches (now : Time) (pg : bool) (runs : list (string * string))
    (opts : JourneyOptions) (r : Row) : bool :=
  is_anchor r &&
  col_is (jo_TraceID opts) (trace_id r) &&
  ((jo_TraceIDPrefix opts =?s "") || sql_like pg (jo_TraceIDPrefix opts ++ "%") (trace_id r)) &&
  col_is (jo_UserID opts) (user_id r) &&
  col_is (jo_Purpose opts) (purpose r) &&
  (IsZero (journey_from now opts) ||
   text_le (sqliteTimeFormat (journey_from now opts)) (timestamp r)) &&
  (IsZero (jo_Until opts) || text_lt (timestamp r) (sqliteTimeFormat (jo_Until opts))) &&
  (negb (jo_IncidentOnly opts) || existsb (fun run => run.1 =?s trace_id r) runs).

Definition text_min (a b : string) : string := if text_lt b a then b else a.

(** GROUP BY trace_id with MIN(timestamp), in the order traces are first met. *)
Fixpoint group_add (t ts : string) (groups : list (string * string)) : list (string * string) :=
  match groups with
  | [] => [(t, ts)]
  | (t', first) :: rest =>
      if t' =?s t then (t', text_min first ts) :: rest else (t', first) :: group_add t ts rest
  end.

Definition group_traces (rs : list Row) : list (string * string) :=
  fold_left (fun groups r => group_add (trace_id r) (timestamp r) groups) rs [].

Definition later_trace (a b : string * string) : bool := text_lt b.2 a.2.

(** ** The events of the traces *)

Record traceData := {
  startedAt : string;
  endedAt : string;
  td_userID : string;
  td_userQuery : string;
  td_purpose : string;
  td_purposeNote : string;
  td_agent : string;
  td_category : string;
  td_tools : list string;
  delegations : list DelegationSummary;
  currentDelegIdx : Z;
  td_outcome : string;
  td_origin : string;
  td_count : Z;
  td_retryCount : Z;
  sawRequireApproval : bool;
  hasMismatch : bool }.

Definition new_trace : traceData :=
  {| startedAt := ""; endedAt := ""; td_userID := ""; td_userQuery := ""; td_purpose := "";
     td_purposeNote := ""; td_agent := ""; td_category := ""; td_tools := []; delegations := [];
     currentDelegIdx := -1; td_outcome := ""; td_origin := ""; td_count := 0; td_retryCount := 0;
     sawRequireApproval := false; hasMismatch := false |}.

(** [if v.Valid && v.String != "" && d.f == "" { d.f = v.String }] *)
Definition keep_first (old new : string) : string := if old =?s "" then new else old.

Definition raise_outcome (status old : string) : string :=
  if (outcomePriority old <? outcomePriority status)%Z then status else old.

Definition is_plumbing (ty : string) : bool :=
  (ty =?s EventTypeVerificationOutcome) || (ty =?s EventTypeDelegationVerification).

Definition see_time (ts : string) (d : traceData) : traceData :=
  {| startedAt := if (startedAt d =?s "") || text_lt ts (startedAt d) then ts else startedAt d;
     endedAt := if text_lt (endedAt d) ts then ts else endedAt d;
     td_userID := td_userID d; td_userQuery := td_userQuery d; td_purpose := td_purpose d;
     td_purposeNote := td_purposeNote d; td_agent := td_agent d; td_category := td_category d;
     td_tools := td_tools d; delegations := delegations d; currentDelegIdx := currentDelegIdx d;
     td_outcome := td_outcome d; td_origin := td_origin d; td_count := td_count d;
     td_retryCount := td_retryCount d; sawRequireApproval := sawRequireApproval d;
     hasMismatch := hasMismatch d |}.

Definition see_plumbing (r : Row) (d : traceData) : traceData :=
  {| startedAt := startedAt d; endedAt := endedAt d;
     td_userID := td_userID d; td_userQuery := td_userQuery d; td_purpose := td_purpose d;
     td_purposeNote := td_purposeNote d; td_agent := td_agent d; td_category := td_category d;
     td_tools := td_tools d; delegations := delegations d; currentDelegIdx := currentDelegIdx d;
     td_outcome := if outcome_status r =?s "" then td_outcome d
                   else raise_outcome (outcome_status r) (td_outcome d);
     td_origin := td_origin d; td_count := td_count d;
     td_retryCount := td_retryCount d; sawRequireApproval := sawRequireApproval d;
     hasMismatch := hasMismatch d ||
       ((event_type r =?s EventTypeDelegationVerification) &&
        (outcome_status r =?s "unverified_claim")) |}.

Definition delegation_agent (r : Row) (old : string) : string :=
  if negb (session_agent r =?s "") then session_agent r else keep_first old (decision_agent r).

Definition see_delegation (r : Row) (d : traceData) : traceData :=
  {| startedAt := startedAt d; endedAt := endedAt d;
     td_userID := keep_first (td_userID d) (user_id r);
     td_userQuery := keep_first (td_userQuery d) (user_query r);
     td_purpose := keep_first (td_purpose d) (purpose r);
     td_purposeNote := keep_first (td_purposeNote d) (purpose_note r);
     td_agent := delegation_agent r (td_agent d);
     td_category := keep_first (td_category d) (decision_category r);
     td_tools := td_tools d;
     delegations := delegations d ++ [{| ds_Intent := user_query r; ds_Tools := [] |}];
     currentDelegIdx := Z.of_nat (length (delegations d ++ [{| ds_Intent := user_query r; ds_Tools := [] |}])) - 1;
     td_outcome := td_outcome d; td_origin := td_origin d; td_count := td_count d;
     td_retryCount := td_retryCount d; sawRequireApproval := sawRequireApproval d;
     hasMismatch := hasMismatch d |}.

Definition see_gateway (r : Row) (d : traceData) : traceData :=
  {| startedAt := startedAt d; endedAt := endedAt d;
     td_userID := keep_first (td_userID d) (user_id r);
     td_userQuery := keep_first (td_userQuery d) (user_query r);
     td_purpose := keep_first (td_purpose d) (purpose r);
     td_purposeNote := keep_first (td_purposeNote d) (purpose_note r);
     td_agent := keep_first (td_agent d) (decision_agent r);
     td_category := td_category d; td_tools := td_tools d; delegations := delegations d;
     currentDelegIdx := currentDelegIdx d;
     td_outcome := td_outcome d; td_origin := td_origin d; td_count := td_count d;
     td_retryCount := td_retryCount d; sawRequireApproval := sawRequireApproval d;
     hasMismatch := hasMismatch d |}.

Definition add_tool (t : string) (d : DelegationSummary) : DelegationSummary :=
  {| ds_Intent := ds_Intent d; ds_Tools := ds_Tools d ++ [t] |}.

Definition runs_tool (r : Row) : bool :=
  (event_type r =?s EventTypeToolExecution) && negb (tool_name r =?s "").

(** The counter, the origin, the tool, the retries, the outcome and the approval
    signal: what every other event adds. *)
Definition see_common (r : Row) (d : traceData) : traceData :=
  let retry := event_type r =?s EventTypeToolRetry in
  let status := outcome_status r in
  let real := negb retry && negb (status =?s "") in
  {| startedAt := startedAt d; endedAt := endedAt d;
     td_userID := td_userID d; td_userQuery := td_userQuery d; td_purpose := td_purpose d;
     td_purposeNote := td_purposeNote d; td_agent := td_agent d; td_category := td_category d;
     td_tools := if runs_tool r then td_tools d ++ [tool_name r] else td_tools d;
     delegations :=
       if runs_tool r && (0 <=? currentDelegIdx d)%Z
       then alter (add_tool (tool_name r)) (Z.to_nat (currentDelegIdx d)) (delegations d)
       else delegations d;
     currentDelegIdx := currentDelegIdx d;
     td_outcome :=
       if real && negb (status =?s "require_approval") then raise_outcome status (td_outcome d)
       else td_outcome d;
     td_origin := if event_type r =?s EventTypeToolExecution then keep_first (td_origin d) (origin r)
                  else td_origin d;
     td_count := td_count d + 1;
     td_retryCount := if retry then td_retryCount d + 1 else td_retryCount d;
     sawRequireApproval := sawRequireApproval d ||
       (real && (status =?s "require_approval")) || (approval_status r =?s "approved");
     hasMismatch := hasMismatch d |}.

Definition see_anchor (r : Row) (d : traceData) : traceData :=
  if event_type r =?s EventTypeDelegation then see_delegation r d
  else if event_type r =?s EventTypeGatewayRequest then see_gateway r d
  else d.

(** One turn of the loop over the rows of the second SELECT. *)
Definition see_row (r : Row) (d : traceData) : traceData :=
  let d := see_time (timestamp r) d in
  if is_plumbing (event_type r) then see_plumbing r d else see_common r (see_anchor r d).

(** [byTrace]: rows of traces that are not in the map are skipped. *)
Definition see_rows (rs : list Row) (byTrace : gmap string traceData) : gmap string traceData :=
  fold_left (fun m r => alter (see_row r) (trace_id r) m) rs byTrace.

Definition fresh_traces (ids : list string) : gmap string traceData :=
  fold_left (fun m id => <[id := new_trace]> m) ids ∅.

(** ** The summaries *)

Definition journey_duration (started ended : string) : Z :=
  if negb (started =?s "") && negb (ended =?s "") then
    match Parse_RFC3339 started, Parse_RFC3339 ended with
    | Some t1, Some t2 => Milliseconds (time_sub t2 t1)
    | _, _ => 0
    end
  else 0.

Definition final_outcome (d : traceData) : string :=
  if sawRequireApproval d && ((td_outcome d =?s "success") || (td_outcome d =?s "verified_ok"))
  then "approved" else td_outcome d.

Definition summary_of (id : string) (d : traceData) : JourneySummary :=
  {| js_TraceID := id; js_StartedAt := startedAt d; js_EndedAt := endedAt d;
     js_DurationMs := journey_duration (startedAt d) (endedAt d);
     js_UserID := td_userID d; js_UserQuery := td_userQuery d; js_Purpose := td_purpose d;
     js_PurposeNote := td_purposeNote d; js_Agent := td_agent d; js_Category := td_category d;
     js_Delegations := delegations d; js_ToolsUsed := td_tools d; js_Outcome := final_outcome d;
     js_EventCount := td_count d; js_RetryCount := td_retryCount d; js_Origin := td_origin d;
     js_HasMismatch := hasMismatch d; js_IncidentRunID := "" |}.

Definition set_run (run : string) (j : JourneySummary) : JourneySummary :=
  {| js_TraceID := js_TraceID j; js_StartedAt := js_StartedAt j; js_EndedAt := js_EndedAt j;
     js_DurationMs := js_DurationMs j; js_UserID := js_UserID j; js_UserQuery := js_UserQuery j;
     js_Purpose := js_Purpose j; js_PurposeNote := js_PurposeNote j; js_Agent := js_Agent j;
     js_Category := js_Category j; js_Delegations := js_Delegations j; js_ToolsUsed := js_ToolsUsed j;
     js_Outcome := js_Outcome j; js_EventCount := js_EventCount j; js_RetryCount := js_RetryCount j;
     js_Origin := js_Origin j; js_HasMismatch := js_HasMismatch j; js_IncidentRunID := run |}.

(** The last run of a trace wins; the query text keeps its question marks on
    Postgres, which rejects it, and then no run is attached. *)
Definition run_map (runs : list (string * string)) : gmap string string :=
  fold_left (fun m run => <[run.1 := run.2]> m) runs ∅.

Definition attach_runs (pg : bool) (runs : list (string * string)) (l : list JourneySummary)
    : list JourneySummary :=
  if pg then l
  else map (fun j => set_run (default "" (run_map runs !! js_TraceID j)) j) l.

(** A filter that is applied only when its option is set. *)
Definition filter_when (on : bool) (keep : JourneySummary -> bool) (l : list JourneySummary)
    : list JourneySummary := if on then filterJourneys keep l else l.

Definition post_filters (opts : JourneyOptions) (l : list JourneySummary) : list JourneySummary :=
  let l := filter_when (negb (jo_Category opts =?s "")) (fun j => js_Category j =?s jo_Category opts) l in
  let l := filter_when (negb (jo_Outcome opts =?s "")) (fun j => js_Outcome j =?s jo_Outcome opts) l in
  let l := filter_when (jo_HasRetries opts) (fun j => (0 <? js_RetryCount j)%Z) l in
  filter_when (negb (jo_Origin opts =?s "")) (fun j => js_Origin j =?s jo_Origin opts) l.

Section Journeys.
(** The orders in which the database visits rows. *)
Context (scan : list Row -> list Row).

Definition journey_traces (now : Time) (runs : list (string * string)) (opts : JourneyOptions)
    (s : Store) : list string :=
  map fst (sql_limit (journey_limit opts)
    (isort later_trace (group_traces
      (scan (List.filter (anchor_matches now (isPostgres s) runs opts) (rows s)))))).

(** ORDER BY trace_id, timestamp. *)
Definition by_trace_then_time (a b : Row) : bool :=
  text_lt (trace_id a) (trace_id b) ||
  (negb (text_lt (trace_id b) (trace_id a)) && text_lt (timestamp a) (timestamp b)).

Definition journey_rows (ids : list string) (s : Store) : list Row :=
  isort by_trace_then_time (scan (List.filter (fun r => mem (trace_id r) ids) (rows s))).

Definition summaries (ids : list string) (s : Store) : list JourneySummary :=
  let byTrace := see_rows (journey_rows ids s) (fresh_traces ids) in
  map (fun id => summary_of id (default new_trace (byTrace !! id))) ids.

Definition QueryJourneys (now : Time) (runs : list (string * string)) (opts : JourneyOptions)
    (s : Store) : list JourneySummary :=
  match journey_traces now runs opts s with
  | [] => []
  | ids => post_filters opts (attach_runs (isPostgres s) runs (summaries ids s))
  end.
End Journeys.

(** ** GET /v1/journeys *)

Definition journeys_of_params (q : Params) : JourneyOptions :=
  {| jo_UserID := q "user"; jo_Purpose := q "purpose"; jo_From := parse_or_zero (q "from");
     jo_Until := parse_or_zero (q "until"); jo_Limit := limit_param q 50;
     jo_Since := default 0%Z (ParseDuration (q "since")); jo_Category := q "category";
     jo_Outcome := q "outcome"; jo_HasRetries := q "has_retries" =?s "true";
     jo_TraceID := q "trace_id"; jo_TraceIDPrefix := q "trace_id_prefix"; jo_Origin := q "origin";
     jo_IncidentOnly := q "incident_only" =?s "true" |}.

Definition handleQueryJourneys (scan : list Row -> list Row) (now : Time)
    (runs : list (string * string)) (q : Params) (s : Store) : list JourneySummary :=
  QueryJourneys scan now runs (journeys_of_params q) s.

(** ** What a journey is: the reference

    The summary of a trace as a function of its rows in time order, member by
    member. *)

Definition is_delegation (r : Row) : bool := event_type r =?s EventTypeDelegation.
Definition is_anchoring (r : Row) : bool := is_delegation r || (event_type r =?s EventTypeGatewayRequest).
Definition counted (r : Row) : bool := negb (is_plumbing (event_type r)).

(** The first non-empty value of a column among some rows. *)
Definition first_set (on : Row -> bool) (col : Row -> string) (rs : list Row) : string :=
  default "" (find (fun v => negb (v =?s "")) (map col (List.filter on rs))).

Definition last_set (on : Row -> bool) (col : Row -> string) (rs : list Row) : string :=
  default "" (find (fun v => negb (v =?s "")) (rev (map col (List.filter on rs)))).

(** The session's agent of the last delegation that names one, and otherwise the
    first agent an anchor names. *)
Definition owner (rs : list Row) : string :=
  let session := last_set is_delegation session_agent rs in
  if session =?s "" then first_set is_anchoring decision_agent rs else session.

(** The statuses that count, and the worst of them. *)
Definition status_counts (r : Row) : bool :=
  is_plumbing (event_type r) ||
  (negb (event_type r =?s EventTypeToolRetry) && negb (outcome_status r =?s "require_approval")).

Definition severity (rs : list Row) : Z :=
  fold_right Z.max 0%Z (map (fun r => outcomePriority (outcome_status r)) (List.filter status_counts rs)).

Definition status_of_rank (n : Z) : string :=
  List.nth (Z.to_nat n)
    [""; "success"; "verified_ok"; "approved"; "verified_warning"; "verified_failed";
     "escalation_required"; "denied"; "error"; "unverified_claim"] "".

Definition approval_seen (r : Row) : bool :=
  counted r &&
  ((negb (event_type r =?s EventTypeToolRetry) && (outcome_status r =?s "require_approval")) ||
   (approval_status r =?s "approved")).

Definition journey_outcome (rs : list Row) : string :=
  let n := severity rs in
  if existsb approval_seen rs && ((n =? 1)%Z || (n =? 2)%Z) then "approved" else status_of_rank n.

(** The tools run before the next delegation, and the delegations with theirs. *)
Fixpoint tools_until (rs : list Row) : list string :=
  match rs with
  | [] => []
  | r :: rs' =>
      if is_delegation r then [] else if runs_tool r then tool_name r :: tools_until rs' else tools_until rs'
  end.

Fixpoint delegations_of (rs : list Row) : list DelegationSummary :=
  match rs with
  | [] => []
  | r :: rs' =>
      if is_delegation r
      then {| ds_Intent := user_query r; ds_Tools := tools_until rs' |} :: delegations_of rs'
      else delegations_of rs'
  end.

Definition tools_of (rs : list Row) : list string := map tool_name (List.filter runs_tool rs).
Definition count_rows (f : Row -> bool) (rs : list Row) : Z := Z.of_nat (length (List.filter f rs)).

Definition claims_unverified (r : Row) : bool :=
  (event_type r =?s EventTypeDelegationVerification) && (outcome_status r =?s "unverified_claim").

Definition started_of (rs : list Row) : string := first_set (fun _ => true) timestamp rs.
Definition ended_of (rs : list Row) : string := default "" (last (map timestamp rs)).

Definition journey_of (id : string) (rs : list Row) : JourneySummary :=
  {| js_TraceID := id; js_StartedAt := started_of rs; js_EndedAt := ended_of rs;
     js_DurationMs := journey_duration (started_of rs) (ended_of rs);
     js_UserID := first_set is_anchoring user_id rs;
     js_UserQuery := first_set is_anchoring user_query rs;
     js_Purpose := first_set is_anchoring purpose rs;
     js_PurposeNote := first_set is_anchoring purpose_note rs;
     js_Agent := owner rs;
     js_Category := first_set is_delegation decision_category rs;
     js_Delegations := delegations_of rs; js_ToolsUsed := tools_of rs;
     js_Outcome := journey_outcome rs;
     js_EventCount := count_rows counted rs;
     js_RetryCount := count_rows (fun r => event_type r =?s EventTypeToolRetry) rs;
     js_Origin := first_set (fun r => event_type r =?s EventTypeToolExecution) origin rs;
     js_HasMismatch := existsb claims_unverified rs;
     js_IncidentRunID := "" |}.

(** ** The loop computes the reference *)

(** A member of the state that is updated by itself. *)
Lemma fold_member {A} (get : traceData -> A) (step : A -> Row -> A) rs d :
  (forall r d, get (see_row r d) = step (get d) r) ->
  get (fold_left (fun d r => see_row r d) rs d) = fold_left step rs (get d).
Proof. intros H. revert d. induction rs as [|r rs IH]; intros d; simpl; [done|]. by rewrite IH, H. Qed.

Lemma fold_keep_first (on : Row -> bool) (col : Row -> string) rs v :
  fold_left (fun v r => if on r then keep_first v (col r) else v) rs v = keep_first v (first_set on col rs).
Proof.
  revert v. unfold first_set, keep_first. induction rs as [|r rs IH]; intros v; simpl.
  - by destruct (String.eqb_spec v "").
  - rewrite IH. clear IH. destruct (on r); [|done]. simpl.
    destruct (String.eqb_spec v "") as [->|Hv]; simpl.
    + destruct (String.eqb_spec (col r) "") as [->|Hc]; simpl; done.
    + by apply streq_false in Hv as ->.
Qed.

(** Event types are one thing only. *)
Lemma anchoring_counted r : is_anchoring r = true -> is_plumbing (event_type r) = false.
Proof.
  unfold is_anchoring, is_delegation. rewrite orb_true_iff, !String.eqb_eq. by intros [->| ->].
Qed.

Lemma runs_tool_type r : runs_tool r = true ->
  is_plumbing (event_type r) = false /\ is_delegation r = false.
Proof. unfold runs_tool, is_delegation. rewrite andb_true_iff, String.eqb_eq. by intros [-> _]. Qed.


Lemma plumbing_not_anchor r :
  is_plumbing (event_type r) = true ->
  (event_type r =?s EventTypeDelegation) = false /\ (event_type r =?s EventTypeGatewayRequest) = false /\
  (event_type r =?s EventTypeToolExecution) = false /\ (event_type r =?s EventTypeToolRetry) = false.
Proof. unfold is_plumbing. rewrite orb_true_iff, !String.eqb_eq. by intros [->| ->]. Qed.

(** The members that take the first value an anchor names. *)
Lemma anchored_member (get : traceData -> string) (col : Row -> string) :
  (forall ts d, get (see_time ts d) = get d) ->
  (forall r d, get (see_plumbing r d) = get d) -> (forall r d, get (see_common r d) = get d) ->
  (forall r d, get (see_delegation r d) = keep_first (get d) (col r)) ->
  (forall r d, get (see_gateway r d) = keep_first (get d) (col r)) ->
  forall rs, get (fold_left (fun d r => see_row r d) rs new_trace) =
             keep_first (get new_trace) (first_set is_anchoring col rs).
Proof.
  intros Ht Hp Hc Hd Hg rs. rewrite <- fold_keep_first. apply fold_member. intros r d.
  unfold see_row, see_anchor. destruct (is_plumbing (event_type r)) eqn:E.
  - destruct (plumbing_not_anchor r E) as (E1 & E2 & _).
    unfold is_anchoring, is_delegation. by rewrite E1, E2, Hp, Ht.
  - rewrite Hc. unfold is_anchoring, is_delegation.
    destruct (event_type r =?s EventTypeDelegation); [by rewrite Hd, Ht|].
    destruct (event_type r =?s EventTypeGatewayRequest); [by rewrite Hg, Ht|]. by rewrite Ht.
Qed.

(** Case analysis on a row, with what the row's kind excludes. *)
Ltac by_kind r :=
  unfold see_row, see_anchor;
  let E := fresh "E" in
  destruct (is_plumbing (event_type r)) eqn:E;
  [ destruct (plumbing_not_anchor r E) as (?E1 & ?E2 & ?E3 & ?E4) | ].

Ltac anchor_kind r :=
  destruct (event_type r =?s EventTypeDelegation), (event_type r =?s EventTypeGatewayRequest).

Lemma category_member rs :
  td_category (fold_left (fun d r => see_row r d) rs new_trace) =
  first_set is_delegation decision_category rs.
Proof.
  transitivity (keep_first "" (first_set is_delegation decision_category rs)); [|done].
  rewrite <- fold_keep_first. apply (fold_member td_category). intros r d. unfold is_delegation.
  by_kind r; [by rewrite E1|]. by anchor_kind r.
Qed.

Lemma origin_member rs :
  td_origin (fold_left (fun d r => see_row r d) rs new_trace) =
  first_set (fun r => event_type r =?s EventTypeToolExecution) origin rs.
Proof.
  transitivity (keep_first "" (first_set (fun r => event_type r =?s EventTypeToolExecution) origin rs));
    [|done].
  rewrite <- fold_keep_first. apply (fold_member td_origin). intros r d.
  by_kind r; [by rewrite E3|]. cbn [td_origin see_common].
  by anchor_kind r.
Qed.

(** Sums and disjunctions over the rows. *)
Lemma fold_count (f : Row -> bool) rs n :
  fold_left (fun n r => if f r then n + 1 else n)%Z rs n = (n + count_rows f rs)%Z.
Proof.
  revert n. unfold count_rows. induction rs as [|r rs IH]; intros n; simpl; [lia|].
  rewrite IH. destruct (f r); simpl; lia.
Qed.

Lemma fold_any (f : Row -> bool) rs b :
  fold_left (fun b r => b || f r) rs b = b || existsb f rs.
Proof.
  revert b. induction rs as [|r rs IH]; intros b; simpl; [by rewrite orb_false_r|].
  by rewrite IH, orb_assoc.
Qed.

Lemma fold_tools rs l :
  fold_left (fun l r => if runs_tool r then (l ++ [tool_name r])%list else l) rs l = (l ++ tools_of rs)%list.
Proof.
  revert l. unfold tools_of. induction rs as [|r rs IH]; intros l; simpl; [by rewrite app_nil_r|].
  rewrite IH. destruct (runs_tool r); [|done]. by rewrite <- app_assoc.
Qed.

Lemma plumbing_no_tool r : is_plumbing (event_type r) = true -> runs_tool r = false.
Proof. intros E. destruct (runs_tool r) eqn:H; [|done]. apply runs_tool_type in H as [H _]. congruence. Qed.

Lemma count_member rs :
  td_count (fold_left (fun d r => see_row r d) rs new_trace) = count_rows counted rs.
Proof.
  rewrite <- (Z.add_0_l (count_rows counted rs)), <- fold_count. apply (fold_member td_count).
  intros r d. unfold counted. by_kind r; [done|]. simpl.
  by anchor_kind r.
Qed.

Lemma retry_member rs :
  td_retryCount (fold_left (fun d r => see_row r d) rs new_trace) =
  count_rows (fun r => event_type r =?s EventTypeToolRetry) rs.
Proof.
  rewrite <- (Z.add_0_l (count_rows _ rs)), <- fold_count. apply (fold_member td_retryCount).
  intros r d. by_kind r; [by rewrite E4|]. cbn [td_retryCount see_common].
  by anchor_kind r.
Qed.

Lemma mismatch_member rs :
  hasMismatch (fold_left (fun d r => see_row r d) rs new_trace) = existsb claims_unverified rs.
Proof.
  rewrite <- (orb_false_l (existsb _ rs)), <- fold_any. apply (fold_member hasMismatch).
  intros r d. by_kind r; [done|]. cbn [hasMismatch see_common].
  assert (claims_unverified r = false) as ->.
  { unfold claims_unverified. unfold is_plumbing in E. apply orb_false_iff in E as [_ ->]. done. }
  rewrite orb_false_r.
  by anchor_kind r.
Qed.

Lemma approval_member rs :
  sawRequireApproval (fold_left (fun d r => see_row r d) rs new_trace) = existsb approval_seen rs.
Proof.
  rewrite <- (orb_false_l (existsb _ rs)), <- fold_any. apply (fold_member sawRequireApproval).
  intros r d. unfold approval_seen, counted. by_kind r; [by rewrite orb_false_r|].
  cbn [sawRequireApproval see_common negb]. rewrite andb_true_l, <- orb_assoc.
  assert (Hs : negb (outcome_status r =?s "") && (outcome_status r =?s "require_approval") =
               (outcome_status r =?s "require_approval")).
  { destruct (String.eqb_spec (outcome_status r) "require_approval") as [->|]; [done|by rewrite andb_false_r]. }
  rewrite <- andb_assoc, Hs.
  by anchor_kind r.
Qed.

Lemma tools_member rs :
  td_tools (fold_left (fun d r => see_row r d) rs new_trace) = tools_of rs.
Proof.
  rewrite <- (app_nil_l (tools_of rs)), <- fold_tools. apply (fold_member td_tools). intros r d.
  by_kind r; [by rewrite (plumbing_no_tool r E)|]. cbn [td_tools see_common].
  by anchor_kind r.
Qed.

(** *** The agent *)

Definition agent_step (a : string) (r : Row) : string :=
  if is_delegation r then delegation_agent r a
  else if is_anchoring r then keep_first a (decision_agent r) else a.

Lemma last_set_cons r rs :
  last_set is_delegation session_agent (r :: rs) =
  if last_set is_delegation session_agent rs =?s ""
  then (if is_delegation r then session_agent r else "") else last_set is_delegation session_agent rs.
Proof.
  unfold last_set. simpl. destruct (is_delegation r).
  - simpl. rewrite find_app_first.
    destruct (find _ (rev (map session_agent (List.filter is_delegation rs)))) as [v|] eqn:E.
    + apply find_some in E as [_ Hv]. apply negb_true_iff in Hv. simpl. by rewrite Hv.
    + simpl. by destruct (String.eqb_spec (session_agent r) "") as [->|].
  - destruct (find _ _) as [v|] eqn:E; simpl; [|done].
    by destruct (String.eqb_spec v "").
Qed.

Lemma first_set_cons on col r rs :
  first_set on col (r :: rs) =
  if on r then keep_first (col r) (first_set on col rs) else first_set on col rs.
Proof.
  unfold first_set, keep_first. simpl. destruct (on r); [|done]. simpl.
  by destruct (String.eqb_spec (col r) "").
Qed.

Lemma keep_first_assoc a b c : keep_first (keep_first a b) c = keep_first a (keep_first b c).
Proof. unfold keep_first. destruct (String.eqb_spec a "") as [->|H]; [done|]. by apply streq_false in H as ->. Qed.

Lemma fold_agent rs a :
  fold_left agent_step rs a =
  let session := last_set is_delegation session_agent rs in
  if session =?s "" then keep_first a (first_set is_anchoring decision_agent rs) else session.
Proof.
  revert a. induction rs as [|r rs IH]; intros a.
  - unfold keep_first. simpl. by destruct (String.eqb_spec a "").
  - cbn [fold_left]. rewrite IH, last_set_cons, first_set_cons. cbv zeta.
    destruct (String.eqb_spec (last_set is_delegation session_agent rs) "") as [_|H].
    + unfold agent_step, is_anchoring, delegation_agent. destruct (is_delegation r) eqn:Ed; simpl.
      * destruct (String.eqb_spec (session_agent r) "") as [->|Hs]; simpl.
        -- by rewrite keep_first_assoc.
        -- apply streq_false in Hs. unfold keep_first at 1. by rewrite Hs.
      * destruct (event_type r =?s EventTypeGatewayRequest); [|done]. by rewrite keep_first_assoc.
    + apply streq_false in H. by rewrite H.
Qed.

Lemma agent_member rs :
  td_agent (fold_left (fun d r => see_row r d) rs new_trace) = owner rs.
Proof.
  transitivity (fold_left agent_step rs "").
  - apply (fold_member td_agent). intros r d. unfold agent_step, is_anchoring, is_delegation.
    by_kind r; [by rewrite E1, E2|]. by anchor_kind r.
  - rewrite fold_agent. unfold owner. done.
Qed.

(** *** The outcome *)

Lemma rank_of_status s : outcomePriority s = 0%Z \/ status_of_rank (outcomePriority s) = s.
Proof.
  unfold outcomePriority, status_of_rank.
  repeat (case_match; [right; match goal with H : (_ =?s _) = true |- _ => apply String.eqb_eq in H as -> end; done|]).
  by left.
Qed.

Lemma rank_bounds s : (0 <= outcomePriority s <= 9)%Z.
Proof. unfold outcomePriority. repeat case_match; lia. Qed.

(** What holds of the ten ranks one by one holds of every rank. *)
Lemma each_rank (P : Z -> Prop) :
  Forall P (Z.of_nat <$> seq 0 10) -> forall n, (0 <= n <= 9)%Z -> P n.
Proof.
  intros H n Hn. rewrite Forall_fmap, Forall_seq in H. rewrite <- (Z2Nat.id n) by lia. apply H. lia.
Qed.

Lemma rank_status n : (0 <= n <= 9)%Z -> outcomePriority (status_of_rank n) = n.
Proof. apply (each_rank (fun n => outcomePriority (status_of_rank n) = n)). by repeat constructor. Qed.

Lemma raise_rank s n :
  (0 <= n <= 9)%Z -> raise_outcome s (status_of_rank n) = status_of_rank (Z.max n (outcomePriority s)).
Proof.
  intros Hn. unfold raise_outcome. rewrite rank_status by done.
  destruct (Z.ltb_spec n (outcomePriority s)).
  - rewrite Z.max_r by lia. destruct (rank_of_status s); [lia|done].
  - by rewrite Z.max_l by lia.
Qed.

Lemma severity_bounds rs : (0 <= severity rs <= 9)%Z.
Proof.
  unfold severity. induction (List.filter status_counts rs) as [|r l IH]; simpl; [lia|].
  pose proof (rank_bounds (outcome_status r)). lia.
Qed.

Lemma fold_outcome rs n :
  (0 <= n <= 9)%Z ->
  fold_left (fun o r => if status_counts r then raise_outcome (outcome_status r) o else o) rs
    (status_of_rank n) = status_of_rank (Z.max n (severity rs)).
Proof.
  revert n. unfold severity. induction rs as [|r rs IH]; intros n Hn; [simpl; by rewrite Z.max_l by lia|].
  cbn [fold_left List.filter]. destruct (status_counts r); [|by apply IH].
  rewrite raise_rank by done. pose proof (rank_bounds (outcome_status r)). rewrite IH by lia.
  cbn [map fold_right]. f_equal. lia.
Qed.

Lemma raise_empty o : raise_outcome "" o = o.
Proof. unfold raise_outcome. destruct (Z.ltb_spec (outcomePriority o) (outcomePriority "")); [|done].
  pose proof (rank_bounds o). change (outcomePriority "") with 0%Z in *. lia. Qed.

Lemma outcome_member rs :
  td_outcome (fold_left (fun d r => see_row r d) rs new_trace) = status_of_rank (severity rs).
Proof.
  pose proof (fold_outcome rs 0 ltac:(lia)) as H. rewrite Z.max_r in H by (apply severity_bounds).
  rewrite <- H. apply (fold_member td_outcome). intros r d. unfold status_counts. by_kind r.
  - simpl. destruct (String.eqb_spec (outcome_status r) "") as [->|]; [by rewrite raise_empty|done].
  - cbn [td_outcome see_common]. rewrite orb_false_l.
    destruct (event_type r =?s EventTypeToolRetry) eqn:Hr; cbn [negb andb].
    { by anchor_kind r. }
    destruct (String.eqb_spec (outcome_status r) "") as [->|Hs]; cbn [negb andb].
    { rewrite raise_empty. by anchor_kind r. }
    destruct (outcome_status r =?s "require_approval"); by anchor_kind r.
Qed.

(** *** The delegations *)

Definition add_tools (ts : list string) (d : DelegationSummary) : DelegationSummary :=
  {| ds_Intent := ds_Intent d; ds_Tools := ds_Tools d ++ ts |}.

(** Tools for the delegation in progress, which is the last. *)
Definition attach (ts : list string) (ds : list DelegationSummary) : list DelegationSummary :=
  alter (add_tools ts) (pred (length ds)) ds.

Lemma attach_snoc ts ds x : attach ts (ds ++ [x])%list = (ds ++ [add_tools ts x])%list.
Proof.
  unfold attach. rewrite length_app. replace (pred (length ds + length [x])) with (length ds + 0)
    by (simpl; lia). by rewrite alter_app_r.
Qed.

Lemma attach_more t ts ds : attach ts (attach [t] ds) = attach (t :: ts) ds.
Proof.
  destruct ds as [|x ds _] using rev_ind; [done|]. rewrite !attach_snoc. unfold add_tools. simpl.
  by rewrite <- app_assoc.
Qed.

Lemma attach_none ds : attach [] ds = ds.
Proof.
  destruct ds as [|x ds _] using rev_ind; [done|]. rewrite attach_snoc. unfold add_tools.
  rewrite app_nil_r. by destruct x.
Qed.

(** The index always points at the last delegation. *)
Definition points_at_last (d : traceData) : Prop :=
  currentDelegIdx d = (Z.of_nat (length (delegations d)) - 1)%Z.

Definition after_tool (r : Row) (ds : list DelegationSummary) : list DelegationSummary :=
  if runs_tool r then attach [tool_name r] ds else ds.

Lemma see_row_delegations r d :
  points_at_last d ->
  points_at_last (see_row r d) /\
  delegations (see_row r d) =
    if is_delegation r then (delegations d ++ [{| ds_Intent := user_query r; ds_Tools := [] |}])%list
    else after_tool r (delegations d).
Proof.
  unfold points_at_last, after_tool, is_delegation. intros Hd. by_kind r.
  { rewrite E1, (plumbing_no_tool r E). done. }
  assert (Htool : forall d', points_at_last d' ->
    points_at_last (see_common r d') /\ delegations (see_common r d') = after_tool r (delegations d')).
  { unfold points_at_last, after_tool. intros d' Hi. cbn [delegations currentDelegIdx see_common].
    rewrite Hi. destruct (runs_tool r); [|done]. cbn [andb].
    destruct (Z.leb_spec 0 (Z.of_nat (length (delegations d')) - 1)).
    - rewrite length_alter. split; [done|]. unfold attach.
      replace (Z.to_nat (Z.of_nat (length (delegations d')) - 1)) with (pred (length (delegations d'))) by lia.
      done.
    - assert (length (delegations d') = 0) as Hl by lia. apply length_zero_iff_nil in Hl as ->. done. }
  destruct (event_type r =?s EventTypeDelegation) eqn:Ed.
  - assert (Hn : runs_tool r = false).
    { destruct (runs_tool r) eqn:Hr; [|done]. apply runs_tool_type in Hr as [_ Hr].
      unfold is_delegation in Hr. congruence. }
    destruct (Htool (see_delegation r (see_time (timestamp r) d)) eq_refl) as [H1 H2].
    unfold after_tool in H2. rewrite Hn in H2. by rewrite H2.
  - destruct (event_type r =?s EventTypeGatewayRequest); by apply Htool.
Qed.

Lemma fold_delegations rs d :
  points_at_last d ->
  delegations (fold_left (fun d r => see_row r d) rs d) =
  (attach (tools_until rs) (delegations d) ++ delegations_of rs)%list.
Proof.
  revert d. induction rs as [|r rs IH]; intros d Hd; [by rewrite attach_none, app_nil_r|].
  destruct (see_row_delegations r d Hd) as [Hp He]. cbn [fold_left tools_until delegations_of].
  rewrite (IH _ Hp), He. unfold after_tool. destruct (is_delegation r).
  - rewrite attach_snoc, attach_none, <- app_assoc. done.
  - destruct (runs_tool r); [|done]. by rewrite attach_more.
Qed.

Lemma delegations_member rs :
  delegations (fold_left (fun d r => see_row r d) rs new_trace) = delegations_of rs.
Proof. by rewrite fold_delegations. Qed.

(** *** The times *)

Lemma started_member rs d :
  sorted_by oldest_first rs ->
  (startedAt d = "" \/ Forall (fun r => text_lt (timestamp r) (startedAt d) = false) rs) ->
  startedAt (fold_left (fun d r => see_row r d) rs d) = keep_first (startedAt d) (started_of rs).
Proof.
  revert d. induction rs as [|r rs IH]; intros d Hs Hd.
  - unfold keep_first. simpl. by destruct (String.eqb_spec (startedAt d) "").
  - inversion Hs as [|? ? Hs' Hr]; subst. cbn [fold_left].
    assert (Ht : startedAt (see_row r d) = keep_first (startedAt d) (timestamp r)).
    { transitivity (startedAt (see_time (timestamp r) d)).
      { by_kind r; [done|]. by anchor_kind r. }
      cbn [startedAt see_time]. unfold keep_first.
      destruct (String.eqb_spec (startedAt d) "") as [->|Hne]; [done|].
      destruct Hd as [Hd|Hd]; [done|]. inversion Hd as [|? ? Hlt]; subst. by rewrite Hlt. }
    rewrite IH; [|done|].
    + rewrite Ht. unfold started_of. rewrite first_set_cons. apply keep_first_assoc.
    + right. rewrite Ht. unfold keep_first. destruct (String.eqb_spec (startedAt d) "") as [E|Hne].
      * exact Hr.
      * destruct Hd as [Hd|Hd]; [done|]. by inversion Hd.
Qed.

Lemma ended_member rs d :
  sorted_by oldest_first rs -> Forall (fun r => text_lt (timestamp r) (endedAt d) = false) rs ->
  endedAt (fold_left (fun d r => see_row r d) rs d) = default (endedAt d) (last (map timestamp rs)).
Proof.
  revert d. induction rs as [|r rs IH]; intros d Hs Hd; [done|].
  inversion Hs as [|? ? Hs' Hr]; inversion Hd as [|? ? Hlt Hd']; subst. cbn [fold_left].
  assert (Ht : endedAt (see_row r d) = timestamp r).
  { transitivity (endedAt (see_time (timestamp r) d)).
    { by_kind r; [done|]. by anchor_kind r. }
    cbn [endedAt see_time]. destruct (text_lt (endedAt d) (timestamp r)) eqn:E; [done|].
    unfold text_lt, String.ltb in E, Hlt.
    pose proof (String.compare_antisym (endedAt d) (timestamp r)) as Ha.
    pose proof (String.compare_eq_iff (endedAt d) (timestamp r)) as He.
    destruct (String.compare (endedAt d) (timestamp r)); [by apply He|done|].
    by destruct (String.compare (timestamp r) (endedAt d)). }
  rewrite IH; [|done|rewrite Ht; exact Hr]. rewrite Ht. cbn [map].
  rewrite last_cons. by destruct (last (map timestamp rs)).
Qed.

Lemma text_lt_empty a : text_lt a "" = false.
Proof. by destruct a. Qed.

(** The loop over the rows of a trace in time order ends in the reference. *)
Lemma loop_reference id rs :
  sorted_by oldest_first rs ->
  summary_of id (fold_left (fun d r => see_row r d) rs new_trace) = journey_of id rs.
Proof.
  intros Hs.
  assert (H1 : startedAt (fold_left (fun d r => see_row r d) rs new_trace) = started_of rs)
    by (rewrite started_member by (done || by left); done).
  assert (H2 : endedAt (fold_left (fun d r => see_row r d) rs new_trace) = ended_of rs).
  { rewrite ended_member; [done|done|]. apply List.Forall_forall. intros; apply text_lt_empty. }
  unfold summary_of, journey_of, final_outcome.
  rewrite H1, H2, category_member, origin_member, count_member, retry_member, mismatch_member,
    approval_member, tools_member, agent_member, outcome_member, delegations_member.
  rewrite (anchored_member td_userID user_id), (anchored_member td_userQuery user_query),
    (anchored_member td_purpose purpose), (anchored_member td_purposeNote purpose_note) by done.
  f_equal. unfold journey_outcome. cbv zeta. pose proof (severity_bounds rs) as Hb.
  assert (forall n, (0 <= n <= 9)%Z ->
    (status_of_rank n =?s "success") || (status_of_rank n =?s "verified_ok") = (n =? 1)%Z || (n =? 2)%Z) as ->;
    [|done|done].
  apply (each_rank (fun n => _ = (n =? 1)%Z || (n =? 2)%Z)). by repeat constructor.
Qed.

(** ** The rows of a trace *)

Definition rows_of (id : string) (rs : list Row) : list Row := List.filter (fun r => trace_id r =?s id) rs.

Lemma see_rows_lookup rs m id :
  see_rows rs m !! id = (fun d => fold_left (fun d r => see_row r d) (rows_of id rs) d) <$> m !! id.
Proof.
  revert m. unfold see_rows. induction rs as [|r rs IH]; intros m; simpl; [by destruct (m !! id)|].
  rewrite IH. destruct (String.eqb_spec (trace_id r) id) as [<-|Hne].
  - rewrite lookup_alter_eq. by destruct (m !! trace_id r).
  - by rewrite lookup_alter_ne.
Qed.

Lemma fresh_traces_lookup ids id : In id ids -> fresh_traces ids !! id = Some new_trace.
Proof.
  unfold fresh_traces. assert (H : forall m : gmap string traceData, (In id ids \/ m !! id = Some new_trace) ->
    fold_left (fun m id => <[id := new_trace]> m) ids m !! id = Some new_trace).
  { induction ids as [|x ids IH]; intros m [H|H]; simpl; try done.
    - destruct H as [->|H]; apply IH; [right|by left]. apply lookup_insert_eq.
    - apply IH. right. destruct (decide (x = id)) as [->|Hne]; [apply lookup_insert_eq|].
      by rewrite lookup_insert_ne. }
  intros Hin. apply H. by left.
Qed.

Lemma by_trace_asym a b : by_trace_then_time a b = true -> by_trace_then_time b a = false.
Proof.
  unfold by_trace_then_time. destruct (text_lt (trace_id a) (trace_id b)) eqn:E.
  - intros _. by rewrite (text_lt_asym _ _ E).
  - simpl. destruct (text_lt (trace_id b) (trace_id a)); [done|]. simpl. apply text_lt_asym.
Qed.

Lemma by_trace_trans a b c :
  by_trace_then_time b a = false -> by_trace_then_time c b = false -> by_trace_then_time c a = false.
Proof.
  unfold by_trace_then_time. rewrite !orb_false_iff, !andb_false_iff, !negb_false_iff.
  intros [A1 A2] [B1 B2]. split; [exact (text_ge_trans _ _ _ A1 B1)|].
  destruct (text_lt (trace_id a) (trace_id c)) eqn:E; [by left|right].
  pose proof (text_ge_trans _ _ _ B1 E) as Hab. pose proof (text_ge_trans _ _ _ E A1) as Hbc.
  destruct A2 as [A2|A2]; [congruence|]. destruct B2 as [B2|B2]; [congruence|].
  exact (text_ge_trans _ _ _ A2 B2).
Qed.

Lemma sorted_filter {A} (R : A -> A -> Prop) f l :
  StronglySorted R l -> StronglySorted R (List.filter f l).
Proof.
  induction 1 as [|x l _ IH Hx]; simpl; [constructor|]. destruct (f x); [|done].
  constructor; [done|]. rewrite List.Forall_forall in Hx |- *. intros y Hy.
  apply filter_In in Hy as [Hy _]. auto.
Qed.

Lemma sorted_of_trace id l : sorted_by by_trace_then_time l -> sorted_by oldest_first (rows_of id l).
Proof.
  intros H. apply (sorted_filter _ (fun r => trace_id r =?s id)) in H. unfold sorted_by in *.
  assert (Hid : Forall (fun r => trace_id r = id) (rows_of id l)).
  { apply List.Forall_forall. intros r Hr. apply filter_In in Hr as [_ Hr]. by apply String.eqb_eq. }
  unfold rows_of in *. induction H as [|x m Hm IH Hx]; [constructor|].
  inversion Hid as [|? ? Hxi Hmi]; subst. constructor; [by apply IH|].
  rewrite List.Forall_forall in Hx, Hmi |- *. intros y Hy. specialize (Hx y Hy).
  unfold by_trace_then_time in Hx. rewrite (Hmi y Hy) in Hx. apply orb_false_iff in Hx as [Hlt Hx].
  rewrite Hlt in Hx. done.
Qed.

Lemma rows_of_selected id ids rs :
  In id ids -> rows_of id (List.filter (fun r => mem (trace_id r) ids) rs) = rows_of id rs.
Proof.
  intros Hin. unfold rows_of. induction rs as [|r rs IH]; simpl; [done|].
  destruct (mem (trace_id r) ids) eqn:E; simpl; rewrite IH; [done|].
  destruct (String.eqb_spec (trace_id r) id) as [Hr|]; [|done]. rewrite Hr in E.
  apply mem_spec in Hin. congruence.
Qed.

Section Reference.
Context (scan : list Row -> list Row).
Hypothesis scan_perm : forall l, scan l ≡ₚ l.

(** A journey of a store: the reference on the rows of its trace, oldest first. *)
Definition journey_from_rows (s : Store) (id : string) (j : JourneySummary) : Prop :=
  exists rs, (rs ≡ₚ rows_of id (rows s)) /\ sorted_by oldest_first rs /\ j = journey_of id rs.

Lemma summaries_reference ids s :
  Forall2 (journey_from_rows s) ids (summaries scan ids s).
Proof.
  unfold summaries. cbv zeta. set (bt := see_rows _ _).
  set (f := fun id => summary_of id (default new_trace (bt !! id))).
  assert (H : forall id, In id ids -> journey_from_rows s id (f id)).
  { unfold f. intros id Hin. exists (rows_of id (journey_rows scan ids s)).
    assert (Hs : sorted_by oldest_first (rows_of id (journey_rows scan ids s))).
    { apply sorted_of_trace, isort_sorted; [apply by_trace_asym|apply by_trace_trans]. }
    split_and!; [|exact Hs|].
    - unfold journey_rows. rewrite <- (rows_of_selected id ids (rows s)) by done. unfold rows_of.
      apply filter_perm. by rewrite isort_perm, scan_perm.
    - unfold bt. rewrite see_rows_lookup, fresh_traces_lookup by done. by apply loop_reference. }
  clearbody f. clear bt scan_perm. revert H. induction ids as [|id ids IH]; intros H; simpl; constructor; [apply H; by left|].
  apply IH. intros x Hx. apply H. by right.
Qed.

(** The run the enrichment query attaches to a journey. *)
Definition attached_run (pg : bool) (runs : list (string * string)) (id : string) : string :=
  if pg then "" else default "" (run_map runs !! id).

(** The journeys of a query are, trace by trace in the order of
    [journey_traces], the reference summary of the trace's rows (all rows of the
    trace, also those outside the window of the query), oldest first, with the run of
    the trace; the filters on the summaries are applied afterwards.  The reference
    gives each member on its own: the worst status, the tools in order and by
    delegation, the first value an anchor names, the agent of the session. *)
Theorem journeys_reference now runs opts s :
  exists js,
    Forall2 (fun id j => exists j0, journey_from_rows s id j0 /\ j = set_run (attached_run (isPostgres s) runs id) j0)
      (journey_traces scan now runs opts s) js /\
    QueryJourneys scan now runs opts s = post_filters opts js.
Proof.
  unfold QueryJourneys. destruct (journey_traces scan now runs opts s) as [|id0 ids0] eqn:E.
  - exists []. split; [constructor|]. unfold post_filters, filter_when. by repeat case_match.
  - rewrite <- E. set (ids := journey_traces scan now runs opts s).
    eexists. split; [|reflexivity]. unfold attach_runs, attached_run.
    pose proof (summaries_reference ids s) as H. destruct (isPostgres s).
    + eapply Forall2_impl; [exact H|]. intros id j Hj. exists j. split; [done|].
      destruct Hj as (rs & _ & _ & ->). done.
    + apply Forall2_fmap_r. eapply Forall2_impl; [exact H|]. intros id j Hj. exists j. split; [done|].
      destruct Hj as (rs & _ & _ & ->). done.
Qed.
End Reference.

(** ** Which traces are journeys *)

(** What GROUP BY makes of the rows: one entry per trace, with its earliest time. *)
Record grouped (rs : list Row) (g : list (string * string)) : Prop := {
  grouped_once : NoDup (map fst g);
  grouped_first : forall t m, In (t, m) g ->
    (exists r, In r rs /\ trace_id r = t /\ timestamp r = m) /\
    (forall r, In r rs -> trace_id r = t -> text_lt (timestamp r) m = false);
  grouped_all : forall r, In r rs -> In (trace_id r) (map fst g) }.

Lemma group_add_keys t ts g x : In x (map fst (group_add t ts g)) <-> x = t \/ In x (map fst g).
Proof.
  induction g as [|[t' m] g IH]; simpl; [intuition|].
  destruct (String.eqb_spec t' t) as [->|]; simpl; [intuition|]. rewrite IH. tauto.
Qed.

Lemma group_add_nodup t ts g : NoDup (map fst g) -> NoDup (map fst (group_add t ts g)).
Proof.
  induction g as [|[t' m] g IH]; simpl; intros H; [by apply NoDup_singleton|].
  inversion H as [|? ? Hn Hg]; subst. destruct (String.eqb_spec t' t) as [->|Hne]; [done|].
  simpl. constructor; [|by apply IH]. rewrite list_elem_of_In in Hn |- *. rewrite group_add_keys. tauto.
Qed.

Lemma group_add_In t ts g x m :
  NoDup (map fst g) -> In (x, m) (group_add t ts g) ->
  if x =?s t then (exists m0, In (t, m0) g /\ m = text_min m0 ts) \/ (~ In t (map fst g) /\ m = ts)
  else In (x, m) g.
Proof.
  induction g as [|[t' m'] g IH]; simpl; intros Hd H.
  - destruct H as [[= <- <-]|[]]. rewrite String.eqb_refl. right. tauto.
  - inversion Hd as [|? ? Hn Hg]; subst. rewrite list_elem_of_In in Hn.
    destruct (String.eqb_spec t' t) as [->|Hne].
    + destruct H as [[= <- <-]|H]; [rewrite String.eqb_refl; left; exists m'; auto|].
      destruct (String.eqb_spec x t) as [->|]; [|by right].
      exfalso. apply Hn. by apply (in_map fst) in H.
    + destruct H as [[= <- <-]|H].
      * apply String.eqb_neq in Hne. rewrite Hne. by left.
      * specialize (IH Hg H). destruct (x =?s t) eqn:E; [|by right].
        destruct IH as [(m0 & H0 & ->)|[H0 ->]]; [left; exists m0; auto|right]. split; [|done].
        intros [H1|H1]; congruence.
Qed.

Lemma text_min_spec a b c : text_lt c a = false -> text_lt c (text_min a b) = false.
Proof.
  unfold text_min. destruct (text_lt b a) eqn:E; [|done]. intros H.
  exact (text_ge_trans _ _ _ (text_lt_asym _ _ E) H).
Qed.

Lemma text_lt_irrefl a : text_lt a a = false.
Proof. destruct (text_lt a a) eqn:E; [|done]. by rewrite (text_lt_asym _ _ E) in E. Qed.

Lemma text_min_le a b : text_lt b (text_min a b) = false.
Proof. unfold text_min. destruct (text_lt b a) eqn:E; [apply text_lt_irrefl|done]. Qed.

Lemma grouped_snoc rs g r :
  grouped rs g -> grouped (rs ++ [r]) (group_add (trace_id r) (timestamp r) g).
Proof.
  intros [H1 H2 H3]. split.
  - by apply group_add_nodup.
  - intros t m H. apply (group_add_In _ _ _ _ _ H1) in H.
    destruct (String.eqb_spec t (trace_id r)) as [->|Hne].
    + destruct H as [(m0 & H0 & ->)|[H0 ->]].
      * destruct (H2 _ _ H0) as [(r0 & Hr0 & Ht & Hm) Hmin]. split.
        -- unfold text_min. destruct (text_lt (timestamp r) m0);
             [exists r|exists r0]; rewrite in_app_iff; simpl; auto.
        -- intros r' Hr' Ht'. apply in_app_iff in Hr' as [Hr'|[<-|[]]];
             [by apply text_min_spec, Hmin|apply text_min_le].
      * split; [exists r; rewrite in_app_iff; simpl; auto|].
        intros r' Hr' Ht'. apply in_app_iff in Hr' as [Hr'|[<-|[]]]; [|apply text_lt_irrefl].
        apply H3 in Hr'. congruence.
    + destruct (H2 _ _ H) as [(r0 & Hr0 & Ht & Hm) Hmin]. split.
      * exists r0. rewrite in_app_iff. auto.
      * intros r' Hr' Ht'. apply in_app_iff in Hr' as [Hr'|[<-|[]]]; [auto|congruence].
  - intros r' Hr'. rewrite group_add_keys. apply in_app_iff in Hr' as [Hr'|[<-|[]]]; auto.
Qed.

Lemma group_traces_grouped rs : grouped rs (group_traces rs).
Proof.
  unfold group_traces. induction rs as [|r rs IH] using rev_ind.
  - split; simpl; [constructor|tauto|tauto].
  - rewrite fold_left_app. by apply grouped_snoc.
Qed.

Lemma sql_limit_split {A} n (l : list A) :
  (0 < n)%Z ->
  exists rest, l = (sql_limit n l ++ rest)%list /\
    Z.of_nat (length (sql_limit n l)) = Z.min n (Z.of_nat (length l)).
Proof.
  intros Hn. unfold sql_limit. rewrite (proj2 (Z.ltb_lt 0 n) Hn). exists (drop (Z.to_nat n) l).
  rewrite take_drop, length_take. split; [done|lia].
Qed.

Lemma sorted_app_before {A} (lt : A -> A -> bool) l1 l2 a b :
  sorted_by lt (l1 ++ l2) -> In a l1 -> In b l2 -> lt b a = false.
Proof.
  unfold sorted_by. induction l1 as [|x l1 IH]; simpl; intros H Ha Hb; [done|].
  inversion H as [|? ? Hs Hx]; subst. destruct Ha as [->|Ha]; [|by apply IH].
  rewrite List.Forall_forall in Hx. apply Hx. rewrite in_app_iff. by right.
Qed.

Section Traces.
Context (scan : list Row -> list Row).
Hypothesis scan_perm : forall l, scan l ≡ₚ l.

(** The journeys listed are traces of anchor events that match the
    query, each once and at most as many as the limit (50 when none is given); every
    matching anchor's trace is listed, unless the limit is reached, and then no anchor
    of a listed trace is earlier than the first anchor of the trace left out. *)
Theorem journey_traces_spec now runs opts s :
  let ids := journey_traces scan now runs opts s in
  let matching r := In r (rows s) /\ anchor_matches now (isPostgres s) runs opts r = true in
  NoDup ids /\ (Z.of_nat (length ids) <= journey_limit opts)%Z /\
  (forall id, In id ids -> exists r, matching r /\ trace_id r = id) /\
  (forall r, matching r -> In (trace_id r) ids \/
     Z.of_nat (length ids) = journey_limit opts /\
     exists r0, matching r0 /\ trace_id r0 = trace_id r /\
       forall r', matching r' -> In (trace_id r') ids -> text_lt (timestamp r') (timestamp r0) = false).
Proof.
  cbv zeta. unfold journey_traces. set (sel := List.filter _ (rows s)).
  assert (Hsel : forall r, In r (scan sel) <-> In r (rows s) /\ anchor_matches now (isPostgres s) runs opts r = true).
  { intros r. rewrite <- filter_In. fold sel. split; apply Permutation_in; [|symmetry]; apply scan_perm. }
  destruct (group_traces_grouped (scan sel)) as [G1 G2 G3]. set (g := group_traces _) in *.
  assert (Hpos : (0 < journey_limit opts)%Z) by (unfold journey_limit; destruct (Z.leb_spec (jo_Limit opts) 0); lia).
  destruct (sql_limit_split (journey_limit opts) (isort later_trace g) Hpos) as (rest & Hsplit & Hlen).
  set (top := sql_limit _ _) in *.
  assert (Hg : forall x, In x g <-> In x top \/ In x rest)
    by (intros x; rewrite <- in_app_iff, <- Hsplit; symmetry; apply isort_In).
  assert (Hsort : sorted_by later_trace (top ++ rest)).
  { rewrite <- Hsplit. apply isort_sorted; unfold later_trace.
    - intros a b. apply text_lt_asym.
    - intros a b c H1 H2. exact (text_ge_trans _ _ _ H2 H1). }
  split_and!.
  - assert (Hnd : NoDup (map fst (top ++ rest))) by (rewrite <- Hsplit, isort_perm; exact G1).
    rewrite map_app in Hnd. by apply NoDup_app in Hnd as [Hnd _].
  - rewrite length_map. lia.
  - intros id Hid. apply in_map_iff in Hid as ([t m] & <- & Hin).
    destruct (G2 t m) as [(r & Hr & Ht & _) _]; [apply Hg; by left|]. exists r. by rewrite <- Hsel.
  - intros r Hr. apply Hsel in Hr. pose proof (G3 _ Hr) as Hin.
    apply in_map_iff in Hin as ([t m] & Ht & Hin). simpl in Ht. subst t.
    apply Hg in Hin as [Hin|Hin]; [left; by apply (in_map fst) in Hin|right]. split.
    { rewrite length_map. assert (length rest <> 0) by (destruct rest; simpl; [done|lia]).
      apply (f_equal length) in Hsplit. rewrite length_app in Hsplit. lia. }
    destruct (G2 _ _ (proj2 (Hg _) (or_intror Hin))) as [(r0 & Hr0 & Ht0 & Hm0) _].
    exists r0. rewrite <- Hsel. split_and!; [done|done|]. intros r' Hr' Hin'. apply Hsel in Hr'.
    apply in_map_iff in Hin' as ([t' m'] & Ht' & Hin'). simpl in Ht'.
    pose proof (sorted_app_before _ _ _ _ _ Hsort Hin' Hin) as Hlt. unfold later_trace in Hlt. simpl in Hlt.
    destruct (G2 _ _ (proj2 (Hg _) (or_introl Hin'))) as [_ Hmin]. rewrite Hm0.
    exact (text_ge_trans _ _ _ Hlt (Hmin _ Hr' (eq_sym Ht'))).
Qed.
End Traces.

(** ** Outcomes *)

Lemma severity_upper r rs :
  In r rs -> status_counts r = true -> (outcomePriority (outcome_status r) <= severity rs)%Z.
Proof.
  unfold severity. intros Hin Hc. assert (H : In r (List.filter status_counts rs)) by (by apply filter_In).
  clear Hin Hc. induction (List.filter status_counts rs) as [|x l IH]; simpl in *; [done|].
  destruct H as [->|H]; [lia|]. specialize (IH H). lia.
Qed.

Lemma severity_attained rs :
  severity rs = 0%Z \/
  exists r, In r rs /\ status_counts r = true /\ outcomePriority (outcome_status r) = severity rs.
Proof.
  unfold severity.
  assert (H : forall l, (forall r, In r l -> In r rs /\ status_counts r = true) ->
    fold_right Z.max 0%Z (map (fun r => outcomePriority (outcome_status r)) l) = 0%Z \/
    exists r, In r rs /\ status_counts r = true /\ outcomePriority (outcome_status r) =
      fold_right Z.max 0%Z (map (fun r => outcomePriority (outcome_status r)) l)).
  { induction l as [|x l IH]; intros Hl; [by left|]. cbn [map fold_right].
    pose proof (rank_bounds (outcome_status x)) as Hx.
    destruct (Z.max_spec (outcomePriority (outcome_status x))
      (fold_right Z.max 0%Z (map (fun r => outcomePriority (outcome_status r)) l))) as [[_ ->]|[_ ->]].
    - apply IH. intros r Hr. apply Hl. by right.
    - right. exists x. destruct (Hl x) as [H1 H2]; [by left|]. done. }
  apply H. intros r Hr. by apply filter_In in Hr.
Qed.

Lemma journey_outcome_rank rs : (severity rs <= outcomePriority (journey_outcome rs))%Z.
Proof.
  unfold journey_outcome. cbv zeta. pose proof (severity_bounds rs) as Hb.
  destruct (existsb approval_seen rs && _) eqn:E; [|rewrite rank_status by done; lia].
  apply andb_true_iff in E as [_ E]. rewrite orb_true_iff, !Z.eqb_eq in E.
  change (outcomePriority "approved") with 3%Z. lia.
Qed.

Lemma journey_outcome_source rs :
  journey_outcome rs = "" \/
  (exists r, In r rs /\ status_counts r = true /\ outcome_status r = journey_outcome rs) \/
  (journey_outcome rs = "approved" /\ (severity rs <= 2)%Z /\ exists r, In r rs /\ approval_seen r = true).
Proof.
  unfold journey_outcome. cbv zeta. destruct (existsb approval_seen rs && _) eqn:E.
  - apply andb_true_iff in E as [Ha E]. rewrite orb_true_iff, !Z.eqb_eq in E. right. right.
    apply existsb_exists in Ha as (r & Hr & Ha). split_and!; [done|lia|by exists r].
  - clear E. destruct (severity_attained rs) as [->|(r & Hr & Hc & Hs)]; [by left|].
    destruct (rank_of_status (outcome_status r)) as [H0|H0]; [left; by rewrite <- Hs, H0|].
    right. left. exists r. rewrite <- Hs, H0. done.
Qed.

Lemma post_filters_In opts l j : In j (post_filters opts l) -> In j l.
Proof.
  assert (H : forall on keep m, In j (filter_when on keep m) -> In j m).
  { intros on keep m. unfold filter_when, filterJourneys. destruct on; [|done]. by intros [? _]%filter_In. }
  unfold post_filters. cbv zeta. intros Hj. do 4 apply H in Hj. done.
Qed.

Section Outcomes.
Context (scan : list Row -> list Row).
Hypothesis scan_perm : forall l, scan l ≡ₚ l.

Lemma journey_rows_of now runs opts s j :
  In j (QueryJourneys scan now runs opts s) ->
  exists rs, (rs ≡ₚ rows_of (js_TraceID j) (rows s)) /\ js_Outcome j = journey_outcome rs.
Proof.
  unfold QueryJourneys. destruct (journey_traces scan now runs opts s) as [|i l] eqn:E; [done|].
  rewrite <- E. intros Hj. apply post_filters_In in Hj.
  assert (Hs : exists j0, In j0 (summaries scan (journey_traces scan now runs opts s) s) /\
    js_Outcome j = js_Outcome j0 /\ js_TraceID j = js_TraceID j0).
  { unfold attach_runs in Hj. destruct (isPostgres s); [by exists j|].
    apply in_map_iff in Hj as (j0 & <- & Hj). by exists j0. }
  destruct Hs as (j0 & Hj0 & -> & ->).
  pose proof (summaries_reference scan scan_perm (journey_traces scan now runs opts s) s) as HF.
  apply list_elem_of_In, list_elem_of_lookup in Hj0 as [k Hk].
  destruct (Forall2_lookup_r _ _ _ _ _ HF Hk) as (id & _ & rs & Hp & _ & ->). by exists rs.
Qed.

(** A journey never looks better than the worst its trace recorded: the
    outcome of a returned journey ranks at least as high as the status of every event
    of the trace that counts (in or out of the query's window, whatever the order of
    events), so an error, a denial or an unverified claim shows.  And it is not made
    up: it is empty, the status of such an event, or "approved", for a trace where an
    approval was required or granted and nothing ranks above a verified success. *)
Theorem failures_not_hidden now runs opts s j (Hin : In j (QueryJourneys scan now runs opts s)) :
  let of_trace r := In r (rows s) /\ trace_id r = js_TraceID j in
  (forall r, of_trace r -> status_counts r = true ->
     outcomePriority (outcome_status r) <= outcomePriority (js_Outcome j))%Z /\
  (js_Outcome j = "" \/
   (exists r, of_trace r /\ status_counts r = true /\ outcome_status r = js_Outcome j) \/
   (js_Outcome j = "approved" /\ (exists r, of_trace r /\ approval_seen r = true) /\
    forall r, of_trace r -> status_counts r = true -> (outcomePriority (outcome_status r) <= 2)%Z)).
Proof.
  destruct (journey_rows_of _ _ _ _ _ Hin) as (rs & Hp & ->). cbv zeta.
  assert (Hrs : forall r, In r rs <-> In r (rows s) /\ trace_id r = js_TraceID j).
  { intros r. rewrite <- String.eqb_eq, <- (filter_In (fun r => trace_id r =?s js_TraceID j)).
    split; apply Permutation_in; [|symmetry]; exact Hp. }
  setoid_rewrite <- Hrs. split.
  - intros r Hr Hc. etransitivity; [by apply severity_upper|apply journey_outcome_rank].
  - destruct (journey_outcome_source rs) as [H|[H|(H & Hle & Ha)]]; [by left|right; left; done|right; right].
    split_and!; [done|done|]. intros r Hr Hc. pose proof (severity_upper r rs Hr Hc). lia.
Qed.
End Outcomes.

(** ** Runs *)

Definition toy_row (ts ty trace tool status : string) : Row :=
  {| event_id := ts; timestamp := ts; event_type := ty; trace_id := trace; parent_id := "";
     action_class := ""; prev_hash := ""; event_hash := None; session_id := "";
     session_agent := if ty =?s EventTypeDelegation then "helpdesk_orchestrator" else "";
     user_id := "alice"; user_query := if ty =?s EventTypeDelegation then "ask " ++ trace else "";
     purpose := ""; purpose_note := ""; origin := "agent"; tool_name := tool; tool_json := "";
     approval_status := ""; approval_json := ""; decision_agent := "db"; decision_category := "database";
     decision_confidence := None; decision_json := ""; outcome_status := status; outcome_error := "";
     outcome_duration_ms := 0; raw_json := "" |}.

(** Two traces: the first fails on its second tool, the second is approved. *)
Definition toy_rows : list Row :=
  [toy_row "2025-01-01T00:00:05Z" "delegation_decision" "tr_2" "" "";
   toy_row "2025-01-01T00:00:01Z" "delegation_decision" "tr_1" "" "";
   toy_row "2025-01-01T00:00:03Z" "tool_execution" "tr_1" "kill_query" "error";
   toy_row "2025-01-01T00:00:02Z" "tool_execution" "tr_1" "list_queries" "success";
   toy_row "2025-01-01T00:00:06Z" "policy_decision" "tr_2" "" "require_approval";
   toy_row "2025-01-01T00:00:08Z" "tool_execution" "tr_2" "scale" "success";
   toy_row "2025-01-01T00:00:07Z" "tool_retry" "tr_2" "scale" "error"].

Definition toy_log (pg : bool) : Store :=
  {| rows := toy_rows; isPostgres := pg; lastHash := ""; notified := [] |}.

Definition toy_options (limit : Z) (outcome : string) : JourneyOptions :=
  {| jo_UserID := "alice"; jo_Purpose := ""; jo_From := 0; jo_Until := 0; jo_Limit := limit; jo_Since := 0;
     jo_Category := ""; jo_Outcome := outcome; jo_HasRetries := false; jo_TraceID := "";
     jo_TraceIDPrefix := "tr_"; jo_Origin := ""; jo_IncidentOnly := false |}.

Definition toy_journeys (pg : bool) (limit : Z) (outcome : string) : list JourneySummary :=
  QueryJourneys (@reverse Row) 0%Z [("tr_1", "plr_1")] (toy_options limit outcome) (toy_log pg).

(** What the summaries say of the two traces. *)
Example toy_summaries :
  map (fun j => (js_TraceID j, js_Outcome j, js_ToolsUsed j, js_DurationMs j, js_RetryCount j, js_IncidentRunID j))
    (toy_journeys false 0 "") =
  [("tr_2", "approved", ["scale"], 3000%Z, 1%Z, "");
   ("tr_1", "error", ["list_queries"; "kill_query"], 2000%Z, 0%Z, "plr_1")].
Proof. vm_compute. reflexivity. Qed.

(** The limit comes before the filters on the outcome: asked for one failed journey,
    the query returns none although there is one.  And on Postgres no journey carries
    its run. *)
Example limit_hides_failures :
  map js_TraceID (toy_journeys false 1 "error") = [] /\
  map js_TraceID (toy_journeys false 2 "error") = ["tr_1"] /\
  map js_IncidentRunID (toy_journeys true 2 "error") = [""].
Proof. vm_compute. repeat split. Qed.

(** "verified" ranks with unknown statuses: alone, it leaves the outcome empty. *)
Example verified_is_no_outcome :
  journey_outcome [toy_row "1" "verification_outcome" "tr" "" "verified"] = "".
Proof. reflexivity. Qed.

Lemma journeys_reference_witness :
  (forall l : list Row, reverse l ≡ₚ l) /\
  exists js,
    Forall2 (fun id j => exists j0, journey_from_rows (toy_log false) id j0 /\
        j = set_run (attached_run false [("tr_1", "plr_1")] id) j0)
      (journey_traces (@reverse Row) 0%Z [("tr_1", "plr_1")] (toy_options 0 "") (toy_log false)) js /\
    toy_journeys false 0 "" = post_filters (toy_options 0 "") js.
Proof.
  split; [apply reverse_Permutation|].
  apply (journeys_reference (@reverse Row) (@reverse_Permutation Row) 0%Z [("tr_1", "plr_1")]
    (toy_options 0 "") (toy_log false)).
Defined.

Lemma journey_traces_spec_witness :
  NoDup (journey_traces (@reverse Row) 0%Z [] (toy_options 1 "") (toy_log false)).
Proof.
  apply (journey_traces_spec (@reverse Row) (@reverse_Permutation Row) 0%Z [] (toy_options 1 "") (toy_log false)).
Defined.

Lemma failures_not_hidden_witness :
  exists j, In j (toy_journeys false 0 "") /\ js_TraceID j = "tr_1" /\
    (8 <= outcomePriority (js_Outcome j))%Z.
Proof.
  eexists. split; [right; left; reflexivity|]. split; [reflexivity|].
  refine (proj1 (failures_not_hidden (@reverse Row) (@reverse_Permutation Row) 0%Z [("tr_1", "plr_1")]
    (toy_options 0 "") (toy_log false) _ _)
    (toy_row "2025-01-01T00:00:03Z" "tool_execution" "tr_1" "kill_query" "error") _ _).
  - right. left. reflexivity.
  - split; [|reflexivity]. simpl. tauto.
  - reflexivity.
Defined.
