(* ===== verification/Auditor.v ===== *)
(** * cmd/auditor: the real-time monitor of the audit stream

    The state of the monitor, its detection rules in the order [Analyze] runs them,
    the security alerts, the periodic verification and the HTTP polling loop.  What
    goes out is kept as logs of the state: the alerts handed to the console and the
    notifiers, the security incidents posted to the incident webhook (each by its own
    goroutine, so their arrival order is open) and the events posted to the webhook
    notifiers.  One clock reading serves the analysis of one event.  Event timestamps
    are in UTC, as auditd writes them; the local hour of an instant, SHA-256 and the
    JSON encoder of the hash input are parameters.  Printing events and the notifiers
    themselves are not modelled, except that printing an event with a short hash
    panics. *)

From Stdlib Require Import SpecFloat.
From S2P Require Import Prelude GoTime GoFormat Events Action AuditChain ApprovalPolicy.

Open Scope string_scope.

Definition AlertInfo := "INFO".
Definition AlertWarning := "WARNING".
Definition AlertCritical := "CRITICAL".

(** The flags the analysis reads. *)
Record Config := {
  LogAll : bool;
  OutputJSON : bool;
  WebhookAll : bool;
  IncidentWebhookURL : string;
  MaxEventsPerMinute : Z;
  AllowedHoursStart : Z;
  AllowedHoursEnd : Z }.

(** The values of an alert's details, in the order of the call. *)
Inductive Detail :=
  | DStr (s : string)
  | DInt (n : Z)
  | DFloat (x : spec_float)
  | DList (l : list string).

Record Alert := {
  al_Level : string;
  al_Message : string;
  al_EventID : string;
  al_SessionID : string;
  al_UserID : string;
  al_Agent : string;
  al_Details : list (string * Detail);
  al_Timestamp : Time }.

Record SecurityAlert := {
  sec_Type : string;
  sec_Severity : string;
  sec_Message : string;
  sec_EventID : string;
  sec_TraceID : string;
  sec_Details : list (string * Detail);
  sec_Timestamp : Time }.

Record Metrics := {
  eventsTotal : Z;
  alertsTotal : gmap string Z;
  delegationsByAgent : gmap string Z;
  errorsByAgent : gmap string Z }.

Definition NewMetrics : Metrics :=
  {| eventsTotal := 0; alertsTotal := ∅; delegationsByAgent := ∅; errorsByAgent := ∅ |}.

(** [m\[k\]++] on a map of counters. *)
Definition bump (k : string) (m : gmap string Z) : gmap string Z := <[k := (default 0 (m !! k) + 1)%Z]> m.

Definition agent_of (event : Event) : string :=
  match e_Decision event with Some d => d_Agent d | None => "" end.

Definition is_error (event : Event) : bool :=
  match e_Outcome event with Some o => o_Status o =?s "error" | None => false end.

Definition RecordEvent (event : Event) (m : Metrics) : Metrics :=
  {| eventsTotal := (eventsTotal m + 1)%Z;
     alertsTotal := alertsTotal m;
     delegationsByAgent :=
       match e_Decision event with
       | Some d => bump (d_Agent d) (delegationsByAgent m)
       | None => delegationsByAgent m
       end;
     errorsByAgent := if is_error event then bump (agent_of event) (errorsByAgent m) else errorsByAgent m |}.

Definition RecordAlert (level : string) (m : Metrics) : Metrics :=
  {| eventsTotal := eventsTotal m; alertsTotal := bump level (alertsTotal m);
     delegationsByAgent := delegationsByAgent m; errorsByAgent := errorsByAgent m |}.

Record Auditor := {
  cfg : Config;
  metrics : option Metrics;
  recentEvents : list Event;
  agentErrorCount : gmap string Z;
  agentCallCount : gmap string Z;
  sessionQueries : gmap string (list string);
  lastEventHash : string;
  lastEventTime : Time;
  eventsThisMinute : Z;
  minuteStart : Time;
  securityAlerts : list SecurityAlert;
  (* what went out *)
  raised : list Alert;
  incidents : list SecurityAlert;
  webhook_events : list Alert }.

Definition NewAuditor (now : Time) (cfg : Config) (metrics : option Metrics) : Auditor :=
  {| cfg := cfg; metrics := metrics; recentEvents := []; agentErrorCount := ∅; agentCallCount := ∅;
     sessionQueries := ∅; lastEventHash := ""; lastEventTime := 0%Z; eventsThisMinute := 0;
     minuteStart := now; securityAlerts := []; raised := []; incidents := []; webhook_events := [] |}.

(** ** Alerts *)

Definition set_metrics (m : option Metrics) (a : Auditor) : Auditor :=
  {| cfg := cfg a; metrics := m; recentEvents := recentEvents a; agentErrorCount := agentErrorCount a;
     agentCallCount := agentCallCount a; sessionQueries := sessionQueries a;
     lastEventHash := lastEventHash a; lastEventTime := lastEventTime a;
     eventsThisMinute := eventsThisMinute a; minuteStart := minuteStart a;
     securityAlerts := securityAlerts a; raised := raised a; incidents := incidents a;
     webhook_events := webhook_events a |}.

Definition set_out (sa : list SecurityAlert) (r : list Alert) (i : list SecurityAlert) (w : list Alert)
    (a : Auditor) : Auditor :=
  {| cfg := cfg a; metrics := metrics a; recentEvents := recentEvents a;
     agentErrorCount := agentErrorCount a; agentCallCount := agentCallCount a;
     sessionQueries := sessionQueries a; lastEventHash := lastEventHash a;
     lastEventTime := lastEventTime a; eventsThisMinute := eventsThisMinute a;
     minuteStart := minuteStart a; securityAlerts := sa; raised := r; incidents := i; webhook_events := w |}.

Definition make_alert (level message : string) (event : Event) (details : list (string * Detail)) : Alert :=
  {| al_Level := level; al_Message := message; al_EventID := EventID event;
     al_SessionID := s_ID (e_Session event); al_UserID := s_UserID (e_Session event);
     al_Agent := agent_of event; al_Details := details; al_Timestamp := Timestamp event |}.

Definition alert (level message : string) (event : Event) (details : list (string * Detail)) (a : Auditor)
    : Auditor :=
  let a := set_metrics (option_map (RecordAlert level) (metrics a)) a in
  set_out (securityAlerts a) (raised a ++ [make_alert level message event details]) (incidents a)
    (webhook_events a) a.

(** [l\[1:\]] once the list is longer than 100. *)
Definition keep_100 {A} (l : list A) : list A := if (100 <? length l)%nat then tl l else l.

Definition recordSecurityAlert (now : Time) (alertType level message : string) (event : Event)
    (details : list (string * Detail)) (a : Auditor) : Auditor :=
  let secAlert := {| sec_Type := alertType; sec_Severity := level; sec_Message := message;
                     sec_EventID := EventID event; sec_TraceID := TraceID event;
                     sec_Details := details; sec_Timestamp := now |} in
  let posted :=
    if negb (IncidentWebhookURL (cfg a) =?s "") && (level =?s AlertCritical)
    then (incidents a ++ [secAlert])%list else incidents a in
  alert level message event details
    (set_out (keep_100 (securityAlerts a ++ [secAlert])) (raised a) posted (webhook_events a) a).

(** ** Tracking *)

Definition set_tracking (recent : list Event) (errs calls : gmap string Z) (qs : gmap string (list string))
    (a : Auditor) : Auditor :=
  {| cfg := cfg a; metrics := metrics a; recentEvents := recent; agentErrorCount := errs;
     agentCallCount := calls; sessionQueries := qs; lastEventHash := lastEventHash a;
     lastEventTime := lastEventTime a; eventsThisMinute := eventsThisMinute a;
     minuteStart := minuteStart a; securityAlerts := securityAlerts a; raised := raised a;
     incidents := incidents a; webhook_events := webhook_events a |}.

(** [Parameters\["connection_string"\].(string)], empty when it is not one. *)
Fixpoint string_param (k : string) (m : anymap) : string :=
  match m with
  | [] => ""
  | (k', v) :: rest =>
      if k' =?s k then match v with AStr s => s | _ => "" end else string_param k rest
  end.

(** The key of a tool execution with a query, if the event is one. *)
Definition query_key (event : Event) : option string :=
  if (EventType event =?s EventTypeToolExecution) && negb (UserQuery (e_Input event) =?s "") then
    match e_Tool event with
    | Some t =>
        Some (t_Name t ++ "|" ++ string_param "connection_string" (Parameters t) ++ "|" ++
              UserQuery (e_Input event))
    | None => None
    end
  else None.

Definition trackEvent (event : Event) (a : Auditor) : Auditor :=
  set_tracking
    (keep_100 (recentEvents a ++ [event]))
    (match e_Decision event with
     | Some d => if is_error event then bump (d_Agent d) (agentErrorCount a) else agentErrorCount a
     | None => agentErrorCount a
     end)
    (match e_Decision event with
     | Some d => bump (d_Agent d) (agentCallCount a)
     | None => agentCallCount a
     end)
    (match query_key event with
     | Some key =>
         <[s_ID (e_Session event) := (default [] (sessionQueries a !! s_ID (e_Session event)) ++ [key])%list]>
           (sessionQueries a)
     | None => sessionQueries a
     end) a.

(** ** Detection rules *)

Definition half : spec_float := float_ratio 1 2.

Definition checkLowConfidence (event : Event) (a : Auditor) : Auditor :=
  if EventType event =?s EventTypeToolExecution then a
  else
    match e_Decision event with
    | None => a
    | Some d =>
        let details := [("confidence", DFloat (Confidence d)); ("agent", DStr (d_Agent d))] in
        if SFltb (Confidence d) half then
          alert AlertCritical "very low confidence delegation" event details a
        else if SFltb (Confidence d) (float_ratio 7 10) then
          alert AlertWarning "low confidence delegation" event details a
        else a
    end.

Definition expectedCategories : list (string * list string) :=
  [("postgres_database_agent", ["database"]); ("k8s_agent", ["kubernetes"]);
   ("incident_agent", ["incident"]); ("research_agent", ["research"]); ("gateway", ["fleet"])].

Fixpoint categories_of (agent : string) (l : list (string * list string)) : option (list string) :=
  match l with
  | [] => None
  | (n, cats) :: rest => if n =?s agent then Some cats else categories_of agent rest
  end.

Definition checkCategoryMismatch (event : Event) (a : Auditor) : Auditor :=
  match e_Decision event with
  | None => a
  | Some d =>
      if EventType event =?s EventTypeGatewayRequest then a
      else if has_prefix (d_Agent d) "pbs_" then a
      else
        match categories_of (d_Agent d) expectedCategories with
        | None => alert AlertWarning "unknown agent" event [("agent", DStr (d_Agent d))] a
        | Some expected =>
            if mem (RequestCategory d) expected then a
            else
              alert AlertWarning "category/agent mismatch" event
                [("agent", DStr (d_Agent d)); ("category", DStr (RequestCategory d));
                 ("expected", DList expected)] a
        end
  end.

Definition checkHighErrorRate (event : Event) (a : Auditor) : Auditor :=
  match e_Decision event, e_Outcome event with
  | Some d, Some _ =>
      let calls := default 0%Z (agentCallCount a !! d_Agent d) in
      let errors := default 0%Z (agentErrorCount a !! d_Agent d) in
      if (calls <? 5)%Z then a
      else
        let errorRate := float_ratio errors calls in
        let percent := fmt_f0 (float_mul errorRate (float_int 100)) ++ "%" in
        if SFltb half errorRate then
          alert AlertCritical "high error rate for agent" event
            [("agent", DStr (d_Agent d)); ("error_rate", DStr percent); ("errors", DInt errors);
             ("calls", DInt calls)] a
        else if SFltb (float_ratio 3 10) errorRate then
          alert AlertWarning "elevated error rate for agent" event
            [("agent", DStr (d_Agent d)); ("error_rate", DStr percent)] a
        else a
  | _, _ => a
  end.

(** [strings.TrimRight(s, "/")] and [strings.HasSuffix]. *)
Definition trim_slashes (s : string) : string :=
  String.rev (trim_left_set (Ascii.eqb "/") (String.rev s)).
Definition has_suffix (s p : string) : bool := has_prefix (String.rev s) (String.rev p).

Definition isPlaybookRun (event : Event) : bool :=
  let intent := match e_Decision event with Some d => UserIntent d | None => "" end in
  str_contains intent "/fleet/playbooks" && has_suffix (trim_slashes intent) "/run".

Definition checkLongDuration (event : Event) (a : Auditor) : Auditor :=
  match e_Outcome event with
  | None => a
  | Some o =>
      let warnThreshold := (if isPlaybookRun event then 120 * Second else 15 * Second)%Z in
      let critThreshold := (if isPlaybookRun event then 300 * Second else 30 * Second)%Z in
      if (critThreshold <? o_Duration o)%Z then
        alert AlertCritical "very long delegation duration" event
          [("duration", DStr (Duration_String (o_Duration o))); ("agent", DStr (agent_of event))] a
      else if (warnThreshold <? o_Duration o)%Z then
        alert AlertWarning "long delegation duration" event
          [("duration", DStr (Duration_String (o_Duration o)))] a
      else a
  end.

Definition truncate (s : string) (maxLen : nat) : string :=
  if (String.length s <=? maxLen)%nat then s else substring 0 maxLen s ++ "...".

(** How often the last query occurs among the four before it. *)
Definition repeat_count (queries : list string) : nat :=
  match rev queries with
  | [] => 0
  | lastQuery :: before => length (List.filter (String.eqb lastQuery) (firstn 4 before))
  end.

Definition display_query (lastQuery : string) : string :=
  match splitN "|" 4 lastQuery with
  | [p0; p1; _; p3] => p0 ++ " on " ++ p1 ++ ": " ++ p3
  | [p0; _; p2] => p0 ++ ": " ++ p2
  | _ => lastQuery
  end.

Definition checkRepeatedQueries (event : Event) (a : Auditor) : Auditor :=
  if has_prefix (TraceID event) "tr_flj_" || has_prefix (TraceID event) "dt_" then a
  else
    let queries := default [] (sessionQueries a !! s_ID (e_Session event)) in
    if (length queries <? 3)%nat then a
    else if (3 <=? repeat_count queries)%nat then
      alert AlertCritical "repeated identical queries detected (possible loop)" event
        [("query", DStr (truncate (display_query (List.last queries "")) 80));
         ("repeat_count", DInt (Z.of_nat (repeat_count queries)))] a
    else a.

Definition checkEmptyReasoning (event : Event) (a : Auditor) : Auditor :=
  if mem (EventType event) [EventTypeGatewayRequest; EventTypeToolExecution; EventTypePolicyDecision;
                            EventTypeAgentReasoning] then a
  else
    match e_Decision event with
    | None => a
    | Some d =>
        match ReasoningChain d with
        | [] => alert AlertWarning "delegation without reasoning chain" event [("agent", DStr (d_Agent d))] a
        | _ => a
        end
    end.

Definition policy_allowed (event : Event) : bool :=
  match e_PolicyDecision event with Some pd => Effect pd =?s "allow" | None => false end.

Definition checkDangerousAction (event : Event) (a : Auditor) : Auditor :=
  if EventType event =?s EventTypeToolInvoked then a
  else if policy_allowed event then a
  else if match e_Approval event with Some ap => a_Status ap =?s ApprovalAutoApproved | None => false end then a
  else
    let details := [("action_class", DStr (e_ActionClass event)); ("trace_id", DStr (TraceID event))] in
    if e_ActionClass event =?s ActionWrite then alert AlertWarning "write operation detected" event details a
    else if e_ActionClass event =?s ActionDestructive then
      alert AlertCritical "DESTRUCTIVE operation detected" event details a
    else a.

(** The switch on the status. *)
Definition alert_status (event : Event) (ap : Approval) (a : Auditor) : Auditor :=
  if a_Status ap =?s ApprovalPending then
    alert AlertWarning "action pending approval" event
      [("approval_status", DStr (a_Status ap)); ("requested_by", DStr (a_RequestedBy ap))] a
  else if a_Status ap =?s ApprovalDenied then
    alert AlertCritical "action was DENIED" event
      [("approval_status", DStr (a_Status ap)); ("denied_by", DStr (a_ApprovedBy ap));
       ("reason", DStr (a_Justification ap))] a
  else a.

Definition checkApprovalStatus (now : Time) (event : Event) (a : Auditor) : Auditor :=
  match e_Approval event with
  | None => a
  | Some ap =>
      let a := alert_status event ap a in
      if (a_Status ap =?s ApprovalApproved) && negb (IsZero (a_ExpiresAt ap)) && After now (a_ExpiresAt ap) then
        alert AlertWarning "approval has expired" event
          [("expired_at", DStr (clock_fields (a_ExpiresAt ap) ++ "Z"))] a
      else a
  end.

Definition set_chain (h : string) (a : Auditor) : Auditor :=
  {| cfg := cfg a; metrics := metrics a; recentEvents := recentEvents a;
     agentErrorCount := agentErrorCount a; agentCallCount := agentCallCount a;
     sessionQueries := sessionQueries a; lastEventHash := h; lastEventTime := lastEventTime a;
     eventsThisMinute := eventsThisMinute a; minuteStart := minuteStart a;
     securityAlerts := securityAlerts a; raised := raised a; incidents := incidents a;
     webhook_events := webhook_events a |}.

Definition set_minute (n : Z) (start : Time) (a : Auditor) : Auditor :=
  {| cfg := cfg a; metrics := metrics a; recentEvents := recentEvents a;
     agentErrorCount := agentErrorCount a; agentCallCount := agentCallCount a;
     sessionQueries := sessionQueries a; lastEventHash := lastEventHash a;
     lastEventTime := lastEventTime a; eventsThisMinute := n; minuteStart := start;
     securityAlerts := securityAlerts a; raised := raised a; incidents := incidents a;
     webhook_events := webhook_events a |}.

Definition set_last_time (t : Time) (a : Auditor) : Auditor :=
  {| cfg := cfg a; metrics := metrics a; recentEvents := recentEvents a;
     agentErrorCount := agentErrorCount a; agentCallCount := agentCallCount a;
     sessionQueries := sessionQueries a; lastEventHash := lastEventHash a; lastEventTime := t;
     eventsThisMinute := eventsThisMinute a; minuteStart := minuteStart a;
     securityAlerts := securityAlerts a; raised := raised a; incidents := incidents a;
     webhook_events := webhook_events a |}.

Definition hash_mismatch := "EVENT HASH MISMATCH - possible tampering!".
Definition link_broken := "CHAIN LINK BROKEN - possible tampering!".

Definition volume_message := "High volume activity detected - possible attack or data exfiltration".

Definition checkHighVolume (now : Time) (event : Event) (a : Auditor) : Auditor :=
  if (MaxEventsPerMinute (cfg a) <=? 0)%Z then a
  else
    let fresh := (Minute <=? time_sub now (minuteStart a))%Z in
    let n := ((if fresh then 0 else eventsThisMinute a) + 1)%Z in
    let a := set_minute n (if fresh then now else minuteStart a) a in
    if (n =? MaxEventsPerMinute (cfg a) + 1)%Z then
      recordSecurityAlert now "high_volume" AlertCritical volume_message event
        [("events_per_minute", DInt n); ("threshold", DInt (MaxEventsPerMinute (cfg a)))] a
    else a.

(** [hour] lies in the range of allowed hours, which may wrap around midnight. *)
Definition in_allowed_hours (cfg : Config) (hour : Z) : bool :=
  if (AllowedHoursStart cfg <=? AllowedHoursEnd cfg)%Z
  then (AllowedHoursStart cfg <=? hour)%Z && (hour <? AllowedHoursEnd cfg)%Z
  else (AllowedHoursStart cfg <=? hour)%Z || (hour <? AllowedHoursEnd cfg)%Z.

Definition approved_status (ap : Approval) : bool :=
  (a_Status ap =?s ApprovalApproved) || (a_Status ap =?s ApprovalAutoApproved).

Definition without_record := "DESTRUCTIVE operation without approval record".
Definition not_approved := "DESTRUCTIVE operation not approved".

Definition checkUnauthorizedDestructive (now : Time) (event : Event) (a : Auditor) : Auditor :=
  if negb (e_ActionClass event =?s ActionDestructive) then a
  else if EventType event =?s EventTypeToolInvoked then a
  else if policy_allowed event then a
  else
    match e_Approval event with
    | None =>
        recordSecurityAlert now "unauthorized_destructive" AlertCritical without_record event
          [("action_class", DStr (e_ActionClass event))] a
    | Some ap =>
        if approved_status ap then a
        else
          recordSecurityAlert now "unauthorized_destructive" AlertCritical not_approved event
            [("action_class", DStr (e_ActionClass event)); ("approval_status", DStr (a_Status ap))] a
    end.

Definition clockSkewTolerance : Z := (-5 * Second)%Z.

Definition anomaly_message := "Event timestamp is before previous event - possible manipulation".
Definition gap_message := "Large gap between events - possible event deletion".

(** The event ran long enough to explain that it comes after later ones. *)
Definition explained (event : Event) (gap : Z) : bool :=
  match e_Outcome event with
  | Some o => (clockSkewTolerance <=? wrap64 (gap + o_Duration o))%Z
  | None => false
  end.

Definition working_hours (t : Time) : bool := (8 <=? Hour t)%Z && (Hour t <=? 18)%Z.

Definition gap_details (gap : Z) (a : Auditor) : list (string * Detail) :=
  [("gap", DStr (Duration_String gap)); ("previous_time", DStr (clock_fields (lastEventTime a) ++ "Z"))].

Definition checkTimestampGap (now : Time) (event : Event) (a : Auditor) : Auditor :=
  if IsZero (lastEventTime a) then set_last_time (Timestamp event) a
  else
    let gap := time_sub (Timestamp event) (lastEventTime a) in
    let details := gap_details gap a in
    let a :=
      if (gap <? clockSkewTolerance)%Z && negb (explained event gap) then
        recordSecurityAlert now "timestamp_anomaly" AlertCritical anomaly_message event details a
      else a in
    let a :=
      if (Hours <? gap)%Z && working_hours (Timestamp event) then
        recordSecurityAlert now "timestamp_gap" AlertWarning gap_message event details a
      else a in
    set_last_time (Timestamp event) a.

Definition checkFabricationMismatch (now : Time) (event : Event) (a : Auditor) : Auditor :=
  if negb (EventType event =?s EventTypeDelegationVerification) then a
  else
    match e_DelegationVerification event with
    | Some dv =>
        if Mismatch dv then
          recordSecurityAlert now "fabrication_mismatch" AlertCritical
            "FABRICATION RISK — agent returned success but audit trail has no matching tool executions"
            event [("agent", DStr (dv_Agent dv)); ("action_class", DStr (dv_ActionClass dv));
                   ("trace_id", DStr (TraceID event))] a
        else a
    | None => a
    end.

(** Printing an event slices its hash, and its previous hash unless it is empty or the
    genesis hash, which panics on a hash of fewer than twelve bytes. *)
Definition logEvent_panics (event : Event) : bool :=
  negb (EventHash event =?s "") &&
  ((String.length (EventHash event) <? 12)%nat ||
   (negb (PrevHash event =?s "") && negb (PrevHash event =?s GenesisHash) &&
    (String.length (PrevHash event) <? 12)%nat)).

(** The alert made of every event for the webhook. *)
Definition event_post (event : Event) : Alert :=
  let confidence := match e_Decision event with Some d => Confidence d | None => S754_zero false end in
  let intent := match e_Decision event with Some d => UserIntent d | None => "" end in
  let outcome := match e_Outcome event with Some o => o_Status o | None => "" end in
  make_alert AlertInfo
    ("Delegation to " ++ agent_of event ++ " (" ++ fmt_f0 (float_mul confidence (float_int 100)) ++
     "% confidence)") event
    [("intent", DStr intent); ("outcome", DStr outcome); ("confidence", DFloat confidence)].

Definition sendEventToWebhook (event : Event) (a : Auditor) : Auditor :=
  set_out (securityAlerts a) (raised a) (incidents a) (webhook_events a ++ [event_post event]) a.

Section Monitor.
Context (sha256hex : string -> string) (marshal_hash : HashInput -> option string).
(** The hour of an instant in the auditor's time zone. *)
Context (local_hour : Time -> Z).

Definition checkChainIntegrity (event : Event) (a : Auditor) : Auditor :=
  if EventHash event =?s "" then a
  else
    let a :=
      if negb (VerifyEventHash sha256hex marshal_hash event) then
        alert AlertCritical hash_mismatch event
          [("event_hash", DStr (truncate (EventHash event) 20)); ("trace_id", DStr (TraceID event))] a
      else a in
    let a :=
      if negb (lastEventHash a =?s "") && negb (PrevHash event =?s "") &&
         negb (PrevHash event =?s lastEventHash a) then
        alert AlertCritical link_broken event
          [("prev_hash", DStr (truncate (PrevHash event) 20));
           ("expected", DStr (truncate (lastEventHash a) 20)); ("trace_id", DStr (TraceID event))] a
      else a in
    set_chain (EventHash event) a.

Definition checkOffHours (now : Time) (event : Event) (a : Auditor) : Auditor :=
  if (AllowedHoursStart (cfg a) <? 0)%Z || (AllowedHoursEnd (cfg a) <? 0)%Z then a
  else
    let hour := local_hour (Timestamp event) in
    if in_allowed_hours (cfg a) hour then a
    else
      recordSecurityAlert now "off_hours" AlertWarning "Activity detected outside allowed hours" event
        [("event_hour_local", DInt hour); ("allowed_start", DInt (AllowedHoursStart (cfg a)));
         ("allowed_end", DInt (AllowedHoursEnd (cfg a)))] a.

(** The detection rules, in order. *)
Definition rules (now : Time) : list (Event -> Auditor -> Auditor) :=
  [checkLowConfidence; checkCategoryMismatch; checkHighErrorRate; checkLongDuration;
   checkRepeatedQueries; checkEmptyReasoning; checkDangerousAction; checkApprovalStatus now;
   checkChainIntegrity; checkHighVolume now; checkOffHours now; checkUnauthorizedDestructive now;
   checkTimestampGap now; checkFabricationMismatch now].

Definition run_rules (l : list (Event -> Auditor -> Auditor)) (event : Event) (a : Auditor) : Auditor :=
  fold_left (fun a rule => rule event a) l a.

Definition Analyze (now : Time) (event : Event) (a : Auditor) : outcome Auditor :=
  let a := set_metrics (option_map (RecordEvent event) (metrics a)) a in
  if negb (OutputJSON (cfg a)) && LogAll (cfg a) && logEvent_panics event then Panics
  else
    let a := if WebhookAll (cfg a) then sendEventToWebhook event a else a in
    Returns (run_rules (rules now) event (trackEvent event a)).

(** The events of the socket, each with the clock at its arrival. *)
Fixpoint analyze_all (events : list (Time * Event)) (a : Auditor) : outcome Auditor :=
  match events with
  | [] => Returns a
  | (now, e) :: rest =>
      match Analyze now e a with
      | Returns a' => analyze_all rest a'
      | Panics => Panics
      end
  end.

(** ** Periodic verification *)

(** [reply] is the decoded status of /v1/verify when the request succeeds. *)
Definition verifyChainFromService (now : Time) (reply : option ChainStatus) (a : Auditor) : Auditor :=
  match reply with
  | None => a
  | Some status =>
      if Valid status then a
      else
        let synthetic :=
          {| EventID := "verify_" ++ itoa (now / Second - 62135596800); Timestamp := now;
             EventType := "security_alert"; TraceID := "periodic_verification"; ParentID := "";
             Origin := ""; e_ActionClass := ""; PrevHash := ""; EventHash := ""; e_Principal := None;
             e_Purpose := ""; e_PurposeNote := ""; e_Session := e_Session zero_event;
             e_Input := e_Input zero_event; e_Output := None; e_Tool := None; e_Approval := None;
             e_Decision := None; e_PolicyDecision := None; e_AgentReasoning := None;
             e_GovernanceViolation := None; e_DelegationVerification := None; e_Outcome := None;
             e_RollbackExecution := None |} in
        recordSecurityAlert now "chain_tampering" AlertCritical
          "AUDIT CHAIN TAMPERING DETECTED - Periodic verification failed" synthetic
          [("broken_at_index", DInt (BrokenAt status)); ("error", DStr (cs_Error status));
           ("total_events", DInt (TotalEvents status)); ("hashed_events", DInt (HashedEvents status))] a
  end.

(** ** HTTP polling *)

Record Poller := {
  auditor : Auditor;
  latestSeen : Time;
  seenIDs : gset string }.

Definition newest (t : Time) (events : list Event) : Time :=
  fold_left (fun t e => if After (Timestamp e) t then Timestamp e else t) events t.

(** Events not seen before, in the order of the reply, with the ids marked. *)
Fixpoint unseen (events : list Event) (seen : gset string) : list Event * gset string :=
  match events with
  | [] => ([], seen)
  | e :: rest =>
      let '(l, seen') := unseen rest ({[EventID e]} ∪ seen) in
      (if decide (EventID e ∈ seen) then l else e :: l, seen')
  end.

(** The first batch, newest first, or an error. *)
Definition poll_start (now : Time) (reply : option (list Event)) (a : Auditor) : outcome Poller :=
  match reply with
  | None => Returns {| auditor := a; latestSeen := 0%Z; seenIDs := ∅ |}
  | Some events =>
      let chronological := rev events in
      match analyze_all (map (fun e => (now, e)) chronological) a with
      | Panics => Panics
      | Returns a' =>
          Returns {| auditor := a'; latestSeen := newest 0%Z chronological;
                     seenIDs := list_to_set (map EventID chronological) |}
      end
  end.

(** The time the next request asks from. *)
Definition poll_since (now : Time) (p : Poller) : Time :=
  if IsZero (latestSeen p) then (now - Minute)%Z else latestSeen p.

Definition poll_tick (now : Time) (reply : option (list Event)) (p : Poller) : outcome Poller :=
  match reply with
  | None => Returns p
  | Some newEvents =>
      let '(toDisplay, seen) := unseen newEvents (seenIDs p) in
      match analyze_all (map (fun e => (now, e)) (rev toDisplay)) (auditor p) with
      | Panics => Panics
      | Returns a' =>
          Returns {| auditor := a'; latestSeen := newest (latestSeen p) newEvents;
                     seenIDs := if (2000 <? size seen)%nat then ∅ else seen |}
      end
  end.
End Monitor.

(** ** What a rule may change *)

Definition tracked (a : Auditor) := (recentEvents a, agentErrorCount a, agentCallCount a, sessionQueries a).
Definition counters (a : Auditor) := (lastEventHash a, lastEventTime a, (eventsThisMinute a, minuteStart a)).

(** Only alerts with these messages are raised, and the tables of events stay. *)
Record raises (msgs : list string) (a a' : Auditor) : Prop := {
  raises_cfg : cfg a' = cfg a;
  raises_tracked : tracked a' = tracked a;
  raises_alerts : exists l, raised a' = (raised a ++ l)%list /\ Forall (fun al => In (al_Message al) msgs) l;
  raises_incidents : exists l, incidents a' = (incidents a ++ l)%list /\
                               Forall (fun s => In (sec_Message s) msgs) l;
  raises_bound : length (securityAlerts a) <= 100 -> length (securityAlerts a') <= 100 }.

Lemma raises_refl msgs a : raises msgs a a.
Proof. constructor; try done; exists []; by rewrite app_nil_r. Qed.

Lemma raises_trans msgs a1 a2 a3 : raises msgs a1 a2 -> raises msgs a2 a3 -> raises msgs a1 a3.
Proof.
  intros [H1 H2 (l & H3 & H4) (i & H6 & H7) H5] [H1' H2' (l' & H3' & H4') (i' & H6' & H7') H5'].
  constructor; [congruence|congruence| | |auto].
  - exists (l ++ l')%list. rewrite H3', H3, app_assoc. split; [done|]. by apply Forall_app.
  - exists (i ++ i')%list. rewrite H6', H6, app_assoc. split; [done|]. by apply Forall_app.
Qed.

Lemma raises_alert msgs level m e d a : In m msgs -> raises msgs a (alert level m e d a).
Proof.
  intros Hm. constructor; try done; [|exists []; by rewrite app_nil_r].
  eexists. split; [reflexivity|]. by repeat constructor.
Qed.

Lemma keep_100_length {A} (l : list A) x : length l <= 100 -> length (keep_100 (l ++ [x])) <= 100.
Proof.
  intros H. unfold keep_100. pose proof (length_app l [x]) as Hl. simpl in Hl.
  destruct (Nat.ltb_spec 100 (length (l ++ [x]))); [|lia]. rewrite length_tl. lia.
Qed.

Lemma raises_security msgs now ty level m e d a : In m msgs -> raises msgs a (recordSecurityAlert now ty level m e d a).
Proof.
  intros Hm. constructor; try done; [| |simpl; apply keep_100_length].
  - eexists. split; [reflexivity|]. by repeat constructor.
  - simpl. case_if; [|exists []; by rewrite app_nil_r]. eexists. split; [reflexivity|]. by repeat constructor.
Qed.

(** A rule that raises nothing but alerts keeps the counters too. *)
Record alerts_only (msgs : list string) (a a' : Auditor) : Prop := {
  alerts_raises : raises msgs a a';
  alerts_counters : counters a' = counters a }.

Lemma alerts_refl msgs a : alerts_only msgs a a.
Proof. split; [apply raises_refl|done]. Qed.
Lemma alerts_alert msgs level m e d a : In m msgs -> alerts_only msgs a (alert level m e d a).
Proof. split; [by apply raises_alert|done]. Qed.
Lemma alerts_security msgs now ty level m e d a : In m msgs ->
  alerts_only msgs a (recordSecurityAlert now ty level m e d a).
Proof. split; [by apply raises_security|done]. Qed.
Lemma alerts_trans msgs a1 a2 a3 : alerts_only msgs a1 a2 -> alerts_only msgs a2 a3 -> alerts_only msgs a1 a3.
Proof. intros [H1 H2] [H3 H4]. split; [by eapply raises_trans|congruence]. Qed.

#[local] Hint Resolve alerts_refl alerts_alert alerts_security raises_refl raises_alert raises_security : go.

(** Case analysis on every test and match of the goal. *)
Ltac rule_cases :=
  repeat match goal with
  | |- context [match ?x with _ => _ end] =>
      lazymatch x with context [match _ with _ => _ end] => fail | _ => destruct x eqn:? end
  end; eauto 6 with go.

Lemma in_msg_here {A} (m : A) l : In m (m :: l).
Proof. by left. Qed.
Lemma in_msg_next {A} (m x : A) l : In m l -> In m (x :: l).
Proof. by right. Qed.
#[local] Hint Resolve in_msg_here in_msg_next : go.

Lemma checkLowConfidence_alerts e a :
  alerts_only ["very low confidence delegation"; "low confidence delegation"] a (checkLowConfidence e a).
Proof. unfold checkLowConfidence. rule_cases. Qed.

Lemma checkCategoryMismatch_alerts e a :
  alerts_only ["unknown agent"; "category/agent mismatch"] a (checkCategoryMismatch e a).
Proof. unfold checkCategoryMismatch. generalize expectedCategories. intros l. rule_cases. Qed.

Lemma checkHighErrorRate_alerts e a :
  alerts_only ["high error rate for agent"; "elevated error rate for agent"] a (checkHighErrorRate e a).
Proof. unfold checkHighErrorRate. rule_cases. Qed.

Lemma checkLongDuration_alerts e a :
  alerts_only ["very long delegation duration"; "long delegation duration"] a (checkLongDuration e a).
Proof. unfold checkLongDuration. generalize (isPlaybookRun e). intros b. rule_cases. Qed.

Lemma checkRepeatedQueries_alerts e a :
  alerts_only ["repeated identical queries detected (possible loop)"] a (checkRepeatedQueries e a).
Proof.
  unfold checkRepeatedQueries. generalize (default [] (sessionQueries a !! s_ID (e_Session e))). intros q. rule_cases.
Qed.

Lemma checkEmptyReasoning_alerts e a :
  alerts_only ["delegation without reasoning chain"] a (checkEmptyReasoning e a).
Proof. unfold checkEmptyReasoning. rule_cases. Qed.

Lemma checkDangerousAction_alerts e a :
  alerts_only ["write operation detected"; "DESTRUCTIVE operation detected"] a (checkDangerousAction e a).
Proof. unfold checkDangerousAction. generalize (policy_allowed e). intros b. rule_cases. Qed.

Lemma checkApprovalStatus_alerts now e a :
  alerts_only ["action pending approval"; "action was DENIED"; "approval has expired"] a (checkApprovalStatus now e a).
Proof.
  unfold checkApprovalStatus. destruct (e_Approval e) as [ap|]; [|auto with go].
  apply (alerts_trans _ _ (alert_status e ap a)); [unfold alert_status; rule_cases|].
  generalize (alert_status e ap a). intros a'. rule_cases.
Qed.

Lemma checkUnauthorizedDestructive_alerts now e a :
  alerts_only [without_record; not_approved] a (checkUnauthorizedDestructive now e a).
Proof. unfold checkUnauthorizedDestructive. generalize (policy_allowed e). intros b. rule_cases. Qed.

Lemma checkFabricationMismatch_alerts now e a :
  alerts_only ["FABRICATION RISK — agent returned success but audit trail has no matching tool executions"] a
    (checkFabricationMismatch now e a).
Proof. unfold checkFabricationMismatch. rule_cases. Qed.

Lemma checkOffHours_alerts local_hour now e a :
  alerts_only ["Activity detected outside allowed hours"] a (checkOffHours local_hour now e a).
Proof. unfold checkOffHours. generalize (in_allowed_hours (cfg a)). intros f. rule_cases. Qed.

Lemma raises_set_minute msgs n t a : raises msgs a (set_minute n t a).
Proof. constructor; try done; exists []; by rewrite app_nil_r. Qed.
Lemma raises_set_last_time msgs t a : raises msgs a (set_last_time t a).
Proof. constructor; try done; exists []; by rewrite app_nil_r. Qed.
Lemma raises_set_chain msgs h a : raises msgs a (set_chain h a).
Proof. constructor; try done; exists []; by rewrite app_nil_r. Qed.

Lemma checkHighVolume_raises now e a :
  raises [volume_message] a (checkHighVolume now e a) /\
  lastEventHash (checkHighVolume now e a) = lastEventHash a /\
  lastEventTime (checkHighVolume now e a) = lastEventTime a.
Proof.
  unfold checkHighVolume. destruct (_ <=? 0)%Z; [auto with go|]. cbv zeta.
  set (n := ((if (Minute <=? _)%Z then _ else _) + 1)%Z). set (t := if (Minute <=? _)%Z then now else _).
  destruct (n =? _)%Z; split; try done; [|apply raises_set_minute].
  eapply raises_trans; [apply (raises_set_minute _ n t)|]. apply raises_security. by left.
Qed.

Lemma checkTimestampGap_raises now e a :
  raises [anomaly_message; gap_message] a (checkTimestampGap now e a) /\
  lastEventHash (checkTimestampGap now e a) = lastEventHash a /\
  (eventsThisMinute (checkTimestampGap now e a), minuteStart (checkTimestampGap now e a)) =
  (eventsThisMinute a, minuteStart a).
Proof.
  unfold checkTimestampGap. destruct (IsZero _); [split; [apply raises_set_last_time|done]|]. cbv zeta.
  set (gap := time_sub _ _). set (d := gap_details _ _).
  assert (H : forall (b : bool) ty level m a', In m [anomaly_message; gap_message] ->
    raises [anomaly_message; gap_message] a a' ->
    raises [anomaly_message; gap_message] a (if b then recordSecurityAlert now ty level m e d a' else a')).
  { intros [] ty level m a' Hm Ha; [|done]. eapply raises_trans; [exact Ha|]. by apply raises_security. }
  split.
  - eapply raises_trans; [|apply raises_set_last_time]. apply H; [right; by left|]. apply H; [by left|apply raises_refl].
  - by destruct ((gap <? clockSkewTolerance)%Z && _), ((Hours <? gap)%Z && _).
Qed.

(** ** Alerts about one subject *)

Definition about (msgs : list string) (a : Auditor) : list Alert :=
  List.filter (fun al => mem (al_Message al) msgs) (raised a).

Definition incidents_about (msgs : list string) (a : Auditor) : list SecurityAlert :=
  List.filter (fun s => mem (sec_Message s) msgs) (incidents a).

Definition disjoint_msgs (l l' : list string) : bool := forallb (fun m => negb (mem m l)) l'.

Lemma filter_none {A} (f : A -> bool) l : Forall (fun x => f x = false) l -> List.filter f l = [].
Proof. induction 1 as [|x l Hx _ IH]; simpl; [done|]. by rewrite Hx. Qed.

Lemma raises_about msgs msgs' a a' : raises msgs' a a' -> disjoint_msgs msgs msgs' = true ->
  about msgs a' = about msgs a /\ incidents_about msgs a' = incidents_about msgs a.
Proof.
  intros [_ _ (l & Hl0 & Hl) (i & Hi & Hi') _] Hd. unfold about, incidents_about. rewrite Hl0, Hi, !List.filter_app.
  unfold disjoint_msgs in Hd. rewrite forallb_forall in Hd.
  rewrite (filter_none _ l), (filter_none _ i), !app_nil_r; [done| |];
    (eapply List.Forall_impl; [|eassumption]); simpl; intros x Hx; by apply Hd, negb_true_iff in Hx.
Qed.

(** ** The watch on the chain *)

Section Watch.
Context (sha256hex : string -> string) (marshal_hash : HashInput -> option string) (local_hour : Time -> Z).
Abbreviation ComputeHash := (ComputeEventHash sha256hex marshal_hash).
Abbreviation chain_rule := (checkChainIntegrity sha256hex marshal_hash).
Abbreviation analyze := (Analyze sha256hex marshal_hash local_hour).
Abbreviation analyze_stream := (analyze_all sha256hex marshal_hash local_hour).
Abbreviation all_rules := (rules sha256hex marshal_hash local_hour).

Definition chain_messages := [hash_mismatch; link_broken].

(** The event continues the chain after the last hash seen, or has no hash. *)
Definition fits (last : string) (e : Event) : Prop :=
  EventHash e = "" \/
  (EventHash e = ComputeHash e /\ (last = "" \/ PrevHash e = "" \/ PrevHash e = last)).

Definition next_hash (last : string) (e : Event) : string :=
  if EventHash e =?s "" then last else EventHash e.

Fixpoint stream_ok (last : string) (events : list Event) : Prop :=
  match events with
  | [] => True
  | e :: rest => fits last e /\ stream_ok (next_hash last e) rest
  end.

Lemma chain_rule_raises e a : raises chain_messages a (chain_rule e a).
Proof.
  unfold checkChainIntegrity. destruct (EventHash e =?s ""); [apply raises_refl|]. cbv zeta.
  eapply raises_trans; [|apply raises_set_chain].
  set (d1 := [("event_hash", _); _]).
  set (a1 := if negb (VerifyEventHash _ _ e) then _ else a).
  assert (H1 : raises chain_messages a a1)
    by (unfold a1; destruct (negb _); [apply raises_alert; by left|apply raises_refl]).
  destruct (negb (lastEventHash a1 =?s "") && _ && _); [|done].
  eapply raises_trans; [exact H1|]. apply raises_alert. right. by left.
Qed.

Lemma app_self_nil {A} (l l' : list A) : l = (l ++ l')%list <-> l' = [].
Proof.
  split; [|intros ->; by rewrite app_nil_r]. intros H. apply (f_equal length) in H. rewrite length_app in H.
  destruct l'; [done|simpl in H; lia].
Qed.

Lemma chain_rule_quiet e a :
  lastEventHash (chain_rule e a) = next_hash (lastEventHash a) e /\
  (about chain_messages (chain_rule e a) = about chain_messages a <-> fits (lastEventHash a) e).
Proof.
  unfold checkChainIntegrity, next_hash, fits.
  destruct (String.eqb_spec (EventHash e) "") as [E|E]; [split; [done|tauto]|]. cbv zeta.
  assert (Hv : negb (VerifyEventHash sha256hex marshal_hash e) = false <-> EventHash e = ComputeHash e).
  { unfold VerifyEventHash. rewrite (proj2 (streq_false _ _) E), negb_false_iff, streq_spec. done. }
  assert (Hl : negb (lastEventHash a =?s "") && negb (PrevHash e =?s "") && negb (PrevHash e =?s lastEventHash a) = false
               <-> (lastEventHash a = "" \/ PrevHash e = "" \/ PrevHash e = lastEventHash a)).
  { rewrite !andb_false_iff, !negb_false_iff, !streq_spec. tauto. }
  destruct (negb (VerifyEventHash _ _ e)); cbn [lastEventHash alert set_out set_metrics];
    destruct (negb (lastEventHash a =?s "") && _ && _); (split; [done|]);
    unfold about; simpl; rewrite ?List.filter_app; simpl;
    match goal with |- ?x = ?y <-> _ => idtac | _ => idtac end.
  - split; [|intros [?|[H _]]; [done|by apply Hv in H]]. intros H. symmetry in H. rewrite <- app_assoc in H.
    by apply app_self_nil in H.
  - split; [|intros [?|[H _]]; [done|by apply Hv in H]]. intros H. symmetry in H. by apply app_self_nil in H.
  - split; [|intros [?|[_ H]]; [done|by apply Hl in H]]. intros H. symmetry in H. by apply app_self_nil in H.
  - split; [intros _|done]. right. split; [by apply Hv|by apply Hl].
Qed.

(** A rule that leaves a subject and the last hash alone. *)
Definition neutral (msgs : list string) (r : Event -> Auditor -> Auditor) : Prop :=
  forall e a, about msgs (r e a) = about msgs a /\ incidents_about msgs (r e a) = incidents_about msgs a /\
    lastEventHash (r e a) = lastEventHash a /\ cfg (r e a) = cfg a.

Lemma alerts_neutral msgs msgs' r : (forall e a, alerts_only msgs' a (r e a)) ->
  disjoint_msgs msgs msgs' = true -> neutral msgs r.
Proof.
  intros Hr Hd e a. destruct (Hr e a) as [H Hc]. destruct (raises_about _ _ _ _ H Hd) as [H1 H2].
  split_and!; [done|done| |by apply H]. by injection Hc.
Qed.

Lemma run_neutral msgs l e a : Forall (neutral msgs) l ->
  about msgs (run_rules l e a) = about msgs a /\ incidents_about msgs (run_rules l e a) = incidents_about msgs a /\
  lastEventHash (run_rules l e a) = lastEventHash a /\ cfg (run_rules l e a) = cfg a.
Proof.
  intros Hl. revert a. induction Hl as [|r l Hr _ IH]; intros a; [done|]. cbn [run_rules fold_left].
  destruct (IH (r e a)) as (H1 & H2 & H3 & H4), (Hr e a) as (H5 & H6 & H7 & H8). unfold run_rules in *.
  by rewrite H1, H2, H3, H4.
Qed.

Lemma volume_neutral msgs now : disjoint_msgs msgs [volume_message] = true -> neutral msgs (checkHighVolume now).
Proof.
  intros Hd e a. destruct (checkHighVolume_raises now e a) as (H & Hh & _).
  destruct (raises_about _ _ _ _ H Hd). split_and!; try done. by apply H.
Qed.

Lemma gap_neutral msgs now : disjoint_msgs msgs [anomaly_message; gap_message] = true ->
  neutral msgs (checkTimestampGap now).
Proof.
  intros Hd e a. destruct (checkTimestampGap_raises now e a) as (H & Hh & _).
  destruct (raises_about _ _ _ _ H Hd). split_and!; try done. by apply H.
Qed.

(** The rules before the chain check, and after it. *)
Definition rules_before (now : Time) : list (Event -> Auditor -> Auditor) :=
  [checkLowConfidence; checkCategoryMismatch; checkHighErrorRate; checkLongDuration;
   checkRepeatedQueries; checkEmptyReasoning; checkDangerousAction; checkApprovalStatus now].
Definition rules_after (now : Time) : list (Event -> Auditor -> Auditor) :=
  [checkHighVolume now; checkOffHours local_hour now; checkUnauthorizedDestructive now;
   checkTimestampGap now; checkFabricationMismatch now].

(** The subjects of these two groups of rules are told apart by their messages. *)
Lemma before_neutral msgs now :
  forallb (disjoint_msgs msgs)
    [["very low confidence delegation"; "low confidence delegation"]; ["unknown agent"; "category/agent mismatch"];
     ["high error rate for agent"; "elevated error rate for agent"];
     ["very long delegation duration"; "long delegation duration"];
     ["repeated identical queries detected (possible loop)"]; ["delegation without reasoning chain"];
     ["write operation detected"; "DESTRUCTIVE operation detected"];
     ["action pending approval"; "action was DENIED"; "approval has expired"]] = true ->
  Forall (neutral msgs) (rules_before now).
Proof.
  rewrite forallb_forall. intros Hd. unfold rules_before.
  apply List.Forall_cons; [apply (alerts_neutral msgs _ _ checkLowConfidence_alerts), Hd; auto with go|].
  apply List.Forall_cons; [apply (alerts_neutral msgs _ _ checkCategoryMismatch_alerts), Hd; auto with go|].
  apply List.Forall_cons; [apply (alerts_neutral msgs _ _ checkHighErrorRate_alerts), Hd; auto with go|].
  apply List.Forall_cons; [apply (alerts_neutral msgs _ _ checkLongDuration_alerts), Hd; auto with go|].
  apply List.Forall_cons; [apply (alerts_neutral msgs _ _ checkRepeatedQueries_alerts), Hd; auto 10 with go|].
  apply List.Forall_cons; [apply (alerts_neutral msgs _ _ checkEmptyReasoning_alerts), Hd; auto 10 with go|].
  apply List.Forall_cons; [apply (alerts_neutral msgs _ _ checkDangerousAction_alerts), Hd; auto 10 with go|].
  apply List.Forall_cons; [apply (alerts_neutral msgs _ _ (checkApprovalStatus_alerts now)), Hd; auto 12 with go|].
  constructor.
Qed.

Lemma after_neutral msgs now :
  forallb (disjoint_msgs msgs)
    [[volume_message]; ["Activity detected outside allowed hours"]; [without_record; not_approved];
     [anomaly_message; gap_message];
     ["FABRICATION RISK — agent returned success but audit trail has no matching tool executions"]] = true ->
  Forall (neutral msgs) (rules_after now).
Proof.
  rewrite forallb_forall. intros Hd. unfold rules_after.
  apply List.Forall_cons; [apply volume_neutral, Hd; auto with go|].
  apply List.Forall_cons; [apply (alerts_neutral msgs _ _ (checkOffHours_alerts local_hour now)), Hd; auto with go|].
  apply List.Forall_cons; [apply (alerts_neutral msgs _ _ (checkUnauthorizedDestructive_alerts now)), Hd; auto with go|].
  apply List.Forall_cons; [apply gap_neutral, Hd; auto with go|].
  apply List.Forall_cons; [apply (alerts_neutral msgs _ _ (checkFabricationMismatch_alerts now)), Hd; auto 10 with go|].
  constructor.
Qed.

Lemma Analyze_run now e a a' : analyze now e a = Returns a' ->
  exists a0, a' = run_rules (rules_after now) e (chain_rule e (run_rules (rules_before now) e (trackEvent e a0))) /\
    cfg a0 = cfg a /\ tracked a0 = tracked a /\ counters a0 = counters a /\ raised a0 = raised a /\
    incidents a0 = incidents a /\ securityAlerts a0 = securityAlerts a.
Proof.
  unfold Analyze. cbv zeta. set (m := set_metrics _ a). destruct (_ && logEvent_panics e); [done|].
  intros [= <-]. exists (if WebhookAll (cfg m) then sendEventToWebhook e m else m).
  split; [reflexivity|]. by destruct (WebhookAll (cfg m)).
Qed.

Lemma Analyze_chain now e a a' : analyze now e a = Returns a' ->
  lastEventHash a' = next_hash (lastEventHash a) e /\
  exists l, about chain_messages a' = (about chain_messages a ++ l)%list /\ (l = [] <-> fits (lastEventHash a) e).
Proof.
  intros (a0 & -> & _ & _ & Hc & Hr & _)%Analyze_run. injection Hc as Hh _.
  destruct (run_neutral chain_messages _ e (trackEvent e a0) (before_neutral chain_messages now eq_refl))
    as (B1 & _ & B3 & _).
  set (a1 := run_rules (rules_before now) e (trackEvent e a0)) in *.
  destruct (run_neutral chain_messages _ e (chain_rule e a1) (after_neutral chain_messages now eq_refl))
    as (A1 & _ & A3 & _).
  destruct (chain_rule_quiet e a1) as [Q1 Q2]. destruct (chain_rule_raises e a1) as [_ _ (l & Hl & _) _ _].
  rewrite A3, Q1, B3, A1. simpl. rewrite Hh. split; [done|].
  exists (List.filter (fun al => mem (al_Message al) chain_messages) l).
  unfold about at 1. rewrite Hl, List.filter_app. fold (about chain_messages a1).
  assert (Ha : about chain_messages a1 = about chain_messages a) by (rewrite B1; unfold about; simpl; by rewrite Hr).
  split; [by rewrite Ha|].
  rewrite <- Hh. change (lastEventHash a0) with (lastEventHash (trackEvent e a0)). rewrite <- B3, <- Q2.
  unfold about at 1. rewrite Hl, List.filter_app. fold (about chain_messages a1).
  rewrite <- (app_self_nil (about chain_messages a1)). split; congruence.
Qed.

Lemma stream_chain events a a' : analyze_stream events a = Returns a' ->
  exists l, about chain_messages a' = (about chain_messages a ++ l)%list /\
    (l = [] <-> stream_ok (lastEventHash a) (map snd events)).
Proof.
  revert a. induction events as [|[now e] rest IH]; intros a; simpl.
  - intros [= <-]. exists []. by rewrite app_nil_r.
  - destruct (analyze now e a) as [a1|] eqn:E; [|done]. intros H. apply Analyze_chain in E as (Hn & l1 & H1 & H1').
    apply IH in H as (l2 & H2 & H2'). rewrite Hn in H2'. exists (l1 ++ l2)%list. rewrite H2, H1, app_assoc.
    split; [done|]. rewrite <- H1', <- H2'. split; [intros E; by apply app_eq_nil in E|]. by intros [-> ->].
Qed.

(** A piece of a log that [VerifyChain] accepts, all of whose events are hashed. *)
Lemma segment_fits pre seg post h :
  chain_ok sha256hex marshal_hash None (pre ++ seg ++ post) ->
  Forall (fun e => EventHash e <> "") (pre ++ seg ++ post) ->
  (h = "" \/ exists p, last pre = Some p /\ h = EventHash p) -> stream_ok h seg.
Proof.
  rewrite !Forall_app. intros Hc (Hp & Hs & _) Hlast.
  apply chain_ok_app in Hc as [_ Hc]. apply chain_ok_app in Hc as [Hc _].
  assert (Hprev : h = "" \/ exists p, last_or None pre = Some p /\ h = EventHash p /\ EventHash p <> "").
  { destruct Hlast as [->|(p & Hl & ->)]; [by left|]. right. exists p. unfold last_or. rewrite Hl.
    split_and!; [done|done|]. rewrite List.Forall_forall in Hp. apply Hp, list_elem_of_In.
    by apply last_Some_elem_of. }
  clear Hlast Hp. revert h Hprev Hc. generalize (last_or None pre). induction Hs as [|e seg He _ IH];
    intros prev h Hprev; [done|]. simpl. intros [[Hh Hk] Hr]. split.
  - right. split; [by destruct Hh|]. destruct Hprev as [->|(p & -> & -> & Hp)]; [by left|right].
    destruct Hk as [Hk|Hk]; [by left|right]. rewrite Hk. simpl. unfold expectedPrevHash.
    by rewrite (proj2 (streq_false _ _) Hp).
  - apply (IH (Some e)); [|exact Hr]. right. exists e. unfold next_hash. by rewrite (proj2 (streq_false _ _) He).
Qed.

Lemma stream_ok_after s1 p e s2 h : EventHash p <> "" -> stream_ok h (s1 ++ p :: e :: s2) -> fits (EventHash p) e.
Proof.
  intros Hp. revert h. induction s1 as [|x s1 IH]; intros h; simpl.
  - intros [_ [H _]]. unfold next_hash in H. by rewrite (proj2 (streq_false _ _) Hp) in H.
  - intros [_ H]. by eapply IH.
Qed.

Lemma chain_link pre d e post :
  chain_ok sha256hex marshal_hash None (pre ++ d :: e :: post) -> EventHash d <> "" -> PrevHash e <> "" ->
  PrevHash e = EventHash d.
Proof.
  intros [_ (_ & [_ [?|Hk]] & _)]%chain_ok_app Hd He; [done|]. rewrite Hk. simpl. unfold expectedPrevHash.
  by rewrite (proj2 (streq_false _ _) Hd).
Qed.

(** C2 (equivalence). The watch on the stream agrees with the check of the log: the
    monitor raises no chain alert exactly when every hashed event it was sent has its
    own hash and follows the hashed event before it; so it is silent on any piece of a
    log that VerifyChain accepts, and not silent when events between two hashed ones
    are missing, unless the hashes around the gap collide. *)
Theorem monitor_watches_chain t0 c m events a'
    (Hrun : analyze_stream events (NewAuditor t0 c m) = Returns a') :
  (about chain_messages a' = [] <-> stream_ok "" (map snd events)) /\
  (forall pre post,
     VerifyChain sha256hex marshal_hash (pre ++ map snd events ++ post) = Returns (-1, None)%Z ->
     Forall (fun e => EventHash e <> "") (pre ++ map snd events ++ post) -> about chain_messages a' = []) /\
  (forall pre s1 p gap d e s2 post, map snd events = (s1 ++ p :: e :: s2)%list ->
     VerifyChain sha256hex marshal_hash (pre ++ s1 ++ p :: gap ++ d :: e :: s2 ++ post) = Returns (-1, None)%Z ->
     EventHash p <> "" -> EventHash d <> "" -> EventHash e <> "" -> PrevHash e <> "" ->
     EventHash d <> EventHash p -> about chain_messages a' <> []).
Proof.
  apply stream_chain in Hrun as (l & Hl & Hiff). simpl in Hl. rewrite Hl. split_and!; [done| |].
  - intros pre post Hv%VerifyChain_ok Hall. apply Hiff. by apply (segment_fits pre _ post); [| |left].
  - intros pre s1 p gap d e s2 post Hevs Hv%VerifyChain_ok Hp Hd He Hk Hne Hok%Hiff. rewrite Hevs in Hok.
    apply stream_ok_after in Hok as [?|[_ [?|[?|Hpe]]]]; try done.
    apply Hne. rewrite <- Hpe. symmetry.
    replace (pre ++ s1 ++ p :: gap ++ d :: e :: s2 ++ post)%list
      with ((pre ++ s1 ++ p :: gap) ++ d :: e :: (s2 ++ post))%list in Hv by (by rewrite <- !app_assoc).
    by eapply chain_link.
Qed.

(** ** Destructive operations *)

Definition destructive_messages := [without_record; not_approved].

(** A destructive operation that neither the policy nor an approval authorised. *)
Definition unauthorized (e : Event) : bool :=
  (e_ActionClass e =?s ActionDestructive) && negb (EventType e =?s EventTypeToolInvoked) &&
  negb (policy_allowed e) &&
  match e_Approval e with Some ap => negb (approved_status ap) | None => true end.

Lemma unauthorized_rule now e a :
  let a' := checkUnauthorizedDestructive now e a in
  if unauthorized e then
    exists al, about destructive_messages a' = (about destructive_messages a ++ [al])%list /\
      al_Level al = AlertCritical /\ al_EventID al = EventID e /\
      (IncidentWebhookURL (cfg a) <> "" ->
       exists s, incidents_about destructive_messages a' = (incidents_about destructive_messages a ++ [s])%list /\
         sec_EventID s = EventID e)
  else a' = a.
Proof.
  intros a'. subst a'. unfold checkUnauthorizedDestructive, unauthorized.
  destruct (e_ActionClass e =?s ActionDestructive); [|done].
  destruct (EventType e =?s EventTypeToolInvoked); [done|]. destruct (policy_allowed e); [done|].
  assert (H : forall ty level m d, level = AlertCritical -> In m destructive_messages ->
    let a' := recordSecurityAlert now ty level m e d a in
    exists al, about destructive_messages a' = (about destructive_messages a ++ [al])%list /\
      al_Level al = AlertCritical /\ al_EventID al = EventID e /\
      (IncidentWebhookURL (cfg a) <> "" ->
       exists s, incidents_about destructive_messages a' = (incidents_about destructive_messages a ++ [s])%list /\
         sec_EventID s = EventID e)).
  { intros ty level m d -> Hm. cbv zeta. apply mem_spec in Hm. unfold about, incidents_about.
    change (raised (recordSecurityAlert now ty AlertCritical m e d a))
      with (raised a ++ [make_alert AlertCritical m e d])%list.
    rewrite List.filter_app. cbn [List.filter al_Message make_alert]. rewrite Hm.
    eexists. split_and!; [reflexivity|done|done|]. intros Hu. cbn [incidents recordSecurityAlert alert set_out set_metrics].
    rewrite (proj2 (streq_false _ _) Hu). cbn [negb andb]. rewrite streq_refl.
    rewrite List.filter_app. cbn [List.filter sec_Message]. rewrite Hm. eauto. }
  destruct (e_Approval e) as [ap|]; [destruct (approved_status ap); [done|]|]; simpl.
  - apply H; [done|right; by left].
  - apply H; [done|by left].
Qed.

(** No unauthorised destructive operation passes unnoticed, and no other
    event is reported as one: the analysis of an event adds exactly one critical alert
    of that kind, and with a webhook configured one incident, when it is destructive,
    past the policy check, and neither allowed by policy nor approved; otherwise it adds
    none. *)
Theorem unauthorized_destructive_reported now e a a' (Hrun : analyze now e a = Returns a') :
  if unauthorized e then
    exists al, about destructive_messages a' = (about destructive_messages a ++ [al])%list /\
      al_Level al = AlertCritical /\ al_EventID al = EventID e /\
      (IncidentWebhookURL (cfg a) <> "" ->
       exists s, incidents_about destructive_messages a' = (incidents_about destructive_messages a ++ [s])%list /\
         sec_EventID s = EventID e)
  else about destructive_messages a' = about destructive_messages a /\
       incidents_about destructive_messages a' = incidents_about destructive_messages a.
Proof.
  apply Analyze_run in Hrun as (a0 & -> & Hcfg & _ & _ & Hr & Hi & _).
  set (msgs := destructive_messages).
  destruct (run_neutral msgs _ e (trackEvent e a0) (before_neutral msgs now eq_refl)) as (B1 & B2 & _ & B4).
  set (a1 := run_rules (rules_before now) e (trackEvent e a0)) in *.
  destruct (raises_about msgs _ _ _ (chain_rule_raises e a1) eq_refl) as [C1 C2].
  pose proof (raises_cfg _ _ _ (chain_rule_raises e a1)) as C4. set (a2 := chain_rule e a1) in *.
  assert (Hn1 : Forall (neutral msgs) [checkHighVolume now; checkOffHours local_hour now]).
  { apply List.Forall_cons; [by apply volume_neutral|]. apply List.Forall_cons; [|constructor].
    by apply (alerts_neutral msgs _ _ (checkOffHours_alerts local_hour now)). }
  assert (Hn2 : Forall (neutral msgs) [checkTimestampGap now; checkFabricationMismatch now]).
  { apply List.Forall_cons; [by apply gap_neutral|]. apply List.Forall_cons; [|constructor].
    by apply (alerts_neutral msgs _ _ (checkFabricationMismatch_alerts now)). }
  destruct (run_neutral msgs _ e a2 Hn1) as (D1 & D2 & _ & D4). set (a3 := run_rules _ e a2) in D1, D2, D4.
  destruct (run_neutral msgs _ e (checkUnauthorizedDestructive now e a3) Hn2) as (F1 & F2 & _ & _).
  change (run_rules (rules_after now) e a2) with
    (run_rules [checkTimestampGap now; checkFabricationMismatch now] e (checkUnauthorizedDestructive now e a3)).
  rewrite F1, F2. pose proof (unauthorized_rule now e a3) as U. cbv zeta in U. fold msgs in U.
  assert (Ha : about msgs a3 = about msgs a) by (rewrite D1, C1, B1; unfold about; simpl; by rewrite Hr).
  assert (Hia : incidents_about msgs a3 = incidents_about msgs a)
    by (rewrite D2, C2, B2; unfold incidents_about; simpl; by rewrite Hi).
  rewrite <- Ha, <- Hia. destruct (unauthorized e); [|by rewrite U].
  rewrite <- Hcfg. change (cfg a0) with (cfg (trackEvent e a0)). by rewrite <- B4, <- C4, <- D4.
Qed.

(** ** What is remembered of the stream *)

Definition last_100 {A} (l : list A) : list A := skipn (length l - 100) l.

Lemma keep_100_last {A} (l : list A) x : keep_100 (last_100 l ++ [x]) = last_100 (l ++ [x]).
Proof.
  unfold keep_100, last_100. rewrite !length_app, length_skipn. simpl length.
  destruct (Nat.ltb_spec 100 (length l - (length l - 100) + 1)).
  - destruct (skipn (length l - 100) l) as [|y tl] eqn:E.
    + apply (f_equal length) in E. rewrite length_skipn in E. simpl in E. lia.
    + replace (length l + 1 - 100) with (S (length l - 100)) by lia.
      rewrite skipn_app. replace (S (length l - 100) - length l) with 0 by lia. simpl skipn at 2.
      rewrite <- Nat.add_1_l, <- (skipn_skipn 1), E. done.
  - replace (length l + 1 - 100) with 0 by lia. replace (length l - 100) with 0 by lia. done.
Qed.

Definition delegated_to (agent : string) (e : Event) : bool :=
  match e_Decision e with Some d => d_Agent d =?s agent | None => false end.

Definition count {A} (f : A -> bool) (l : list A) : Z := Z.of_nat (length (List.filter f l)).

Lemma count_snoc {A} (f : A -> bool) l x : count f (l ++ [x]) = (count f l + if f x then 1 else 0)%Z.
Proof. unfold count. rewrite List.filter_app, length_app. simpl. destruct (f x); simpl; lia. Qed.

Definition queries_of (session : string) (events : list Event) : list string :=
  flat_map (fun e => if s_ID (e_Session e) =?s session
                     then match query_key e with Some k => [k] | None => [] end else []) events.

(** The tables say of the events what they are for. *)
Record remembers (events : list Event) (a : Auditor) : Prop := {
  rem_recent : recentEvents a = last_100 events;
  rem_calls : forall g, default 0%Z (agentCallCount a !! g) = count (delegated_to g) events;
  rem_errors : forall g, default 0%Z (agentErrorCount a !! g) =
    count (fun e => delegated_to g e && is_error e) events;
  rem_queries : forall s, default [] (sessionQueries a !! s) = queries_of s events;
  rem_alerts : length (securityAlerts a) <= 100 }.

Lemma bump_lookup k k' (m : gmap string Z) :
  default 0%Z (bump k m !! k') = (default 0%Z (m !! k') + if k =?s k' then 1 else 0)%Z.
Proof.
  unfold bump. destruct (String.eqb_spec k k') as [->|Hne].
  - by rewrite lookup_insert_eq.
  - rewrite lookup_insert_ne by done. lia.
Qed.

Lemma trackEvent_remembers events a e : remembers events a -> remembers (events ++ [e]) (trackEvent e a).
Proof.
  intros [H1 H2 H3 H4 H5]. constructor; simpl; [| | | |done].
  - by rewrite H1, keep_100_last.
  - intros g. rewrite count_snoc, <- H2. unfold delegated_to.
    destruct (e_Decision e) as [d|]; [apply bump_lookup|lia].
  - intros g. rewrite count_snoc, <- H3. unfold delegated_to.
    destruct (e_Decision e) as [d|]; [|simpl; lia]. destruct (is_error e).
    + rewrite bump_lookup. by rewrite andb_true_r.
    + rewrite andb_false_r. lia.
  - intros s. unfold queries_of. rewrite flat_map_app. fold (queries_of s events). rewrite <- H4. simpl.
    rewrite app_nil_r. destruct (query_key e) as [k|].
    + destruct (String.eqb_spec (s_ID (e_Session e)) s) as [<-|Hne].
      * by rewrite lookup_insert_eq.
      * by rewrite lookup_insert_ne, app_nil_r by done.
    + destruct (_ =?s s); by rewrite app_nil_r.
Qed.

Lemma remembers_raises events msgs a a' : remembers events a -> raises msgs a a' -> remembers events a'.
Proof.
  intros [H1 H2 H3 H4 H5] [_ Ht _ _ Hb]. injection Ht as E1 E2 E3 E4.
  constructor; rewrite ?E1, ?E2, ?E3, ?E4; auto.
Qed.

Lemma rules_remember events l e a :
  Forall (fun r => forall a, exists msgs, raises msgs a (r e a)) l ->
  remembers events a -> remembers events (run_rules l e a).
Proof.
  intros Hl. revert a. induction Hl as [|r l Hr _ IH]; intros a Ha; [done|]. cbn [run_rules fold_left].
  apply IH. destruct (Hr a) as [msgs H]. by eapply remembers_raises.
Qed.

Lemma all_rules_raise now e : Forall (fun r : Event -> Auditor -> Auditor => forall a, exists msgs, raises msgs a (r e a)) (all_rules now).
Proof.
  unfold rules.
  apply List.Forall_cons; [intros a; eexists; apply checkLowConfidence_alerts|].
  apply List.Forall_cons; [intros a; eexists; apply checkCategoryMismatch_alerts|].
  apply List.Forall_cons; [intros a; eexists; apply checkHighErrorRate_alerts|].
  apply List.Forall_cons; [intros a; eexists; apply checkLongDuration_alerts|].
  apply List.Forall_cons; [intros a; eexists; apply checkRepeatedQueries_alerts|].
  apply List.Forall_cons; [intros a; eexists; apply checkEmptyReasoning_alerts|].
  apply List.Forall_cons; [intros a; eexists; apply checkDangerousAction_alerts|].
  apply List.Forall_cons; [intros a; eexists; apply checkApprovalStatus_alerts|].
  apply List.Forall_cons; [intros a; eexists; apply chain_rule_raises|].
  apply List.Forall_cons; [intros a; eexists; apply checkHighVolume_raises|].
  apply List.Forall_cons; [intros a; eexists; apply checkOffHours_alerts|].
  apply List.Forall_cons; [intros a; eexists; apply checkUnauthorizedDestructive_alerts|].
  apply List.Forall_cons; [intros a; eexists; apply checkTimestampGap_raises|].
  apply List.Forall_cons; [intros a; eexists; apply checkFabricationMismatch_alerts|]. constructor.
Qed.

Lemma Analyze_remembers events now e a a' : remembers events a -> analyze now e a = Returns a' ->
  remembers (events ++ [e]) a'.
Proof.
  intros Ha (a0 & -> & _ & Ht & _ & _ & _ & Hs)%Analyze_run.
  change (run_rules (rules_after now) e (chain_rule e (run_rules (rules_before now) e (trackEvent e a0))))
    with (run_rules (all_rules now) e (trackEvent e a0)).
  apply rules_remember; [apply all_rules_raise|]. apply trackEvent_remembers.
  injection Ht as E1 E2 E3 E4. destruct Ha as [H1 H2 H3 H4 H5].
  constructor; rewrite ?E1, ?E2, ?E3, ?E4, ?Hs; auto.
Qed.

Lemma stream_remembers before events a a' : remembers before a -> analyze_stream events a = Returns a' ->
  remembers (before ++ map snd events) a'.
Proof.
  revert before a. induction events as [|[now e] rest IH]; intros before a Ha; simpl.
  - intros [= <-]. by rewrite app_nil_r.
  - destruct (analyze now e a) as [a1|] eqn:E; [|done]. intros H.
    apply (IH (before ++ [e])%list) in H; [by rewrite <- app_assoc in H|]. by eapply Analyze_remembers.
Qed.

(** The monitor's memory: after any stream it holds the last hundred
    events and at most a hundred security alerts; the calls and errors counted for an
    agent are those of the stream, so the errors never exceed the calls; and the
    queries of a session are its tool executions' in order. *)
Theorem monitor_memory t0 c m events a'
    (Hrun : analyze_stream events (NewAuditor t0 c m) = Returns a') :
  let evs := map snd events in
  recentEvents a' = last_100 evs /\ length (recentEvents a') <= 100 /\ length (securityAlerts a') <= 100 /\
  (forall g, default 0%Z (agentCallCount a' !! g) = count (delegated_to g) evs /\
     default 0%Z (agentErrorCount a' !! g) = count (fun e => delegated_to g e && is_error e) evs /\
     (0 <= default 0%Z (agentErrorCount a' !! g) <= default 0%Z (agentCallCount a' !! g))%Z) /\
  forall s, default [] (sessionQueries a' !! s) = queries_of s evs.
Proof.
  intros evs. assert (H0 : remembers [] (NewAuditor t0 c m)).
  { constructor; simpl; try done; try lia; intros; by rewrite lookup_empty. }
  destruct (stream_remembers _ _ _ _ H0 Hrun) as [H1 H2 H3 H4 H5]. simpl in *. fold evs in H1, H2, H3, H4.
  split_and!; try done.
  - rewrite H1. unfold last_100. rewrite length_skipn. lia.
  - intros g. rewrite H2, H3. split_and!; try done; unfold count; [lia|].
    apply inj_le.
    clear. induction evs as [|e l IH]; simpl; [lia|].
    destruct (is_error e), (delegated_to g e); simpl; lia.
Qed.

(** ** Bursts *)

Definition minute (a : Auditor) : Z * Time := (eventsThisMinute a, minuteStart a).
Definition keeps_minute (e : Event) (r : Event -> Auditor -> Auditor) : Prop := forall a, minute (r e a) = minute a.

Lemma alerts_keep_minute msgs e r : (forall a, alerts_only msgs a (r e a)) -> keeps_minute e r.
Proof. intros H a. destruct (H a) as [_ Hc]. unfold minute. by injection Hc as _ _ -> ->. Qed.

Lemma run_keeps_minute l e a : Forall (keeps_minute e) l -> minute (run_rules l e a) = minute a.
Proof.
  intros Hl. revert a. induction Hl as [|r l Hr _ IH]; intros a; [done|]. cbn [run_rules fold_left].
  unfold run_rules in IH. by rewrite IH.
Qed.

Lemma chain_keeps_minute e : keeps_minute e chain_rule.
Proof.
  intros a. unfold checkChainIntegrity. destruct (EventHash e =?s ""); [done|]. cbv zeta.
  by destruct (negb (VerifyEventHash _ _ e)), (negb (lastEventHash _ =?s "") && _ && _).
Qed.

Lemma other_rules_keep_minute now e :
  Forall (keeps_minute e) (rules_before now ++ [chain_rule]) /\ Forall (keeps_minute e) (tl (rules_after now)).
Proof.
  split; unfold rules_before, rules_after; cbn [app tl].
  - apply List.Forall_cons; [eapply alerts_keep_minute; intros; apply checkLowConfidence_alerts|].
    apply List.Forall_cons; [eapply alerts_keep_minute; intros; apply checkCategoryMismatch_alerts|].
    apply List.Forall_cons; [eapply alerts_keep_minute; intros; apply checkHighErrorRate_alerts|].
    apply List.Forall_cons; [eapply alerts_keep_minute; intros; apply checkLongDuration_alerts|].
    apply List.Forall_cons; [eapply alerts_keep_minute; intros; apply checkRepeatedQueries_alerts|].
    apply List.Forall_cons; [eapply alerts_keep_minute; intros; apply checkEmptyReasoning_alerts|].
    apply List.Forall_cons; [eapply alerts_keep_minute; intros; apply checkDangerousAction_alerts|].
    apply List.Forall_cons; [eapply alerts_keep_minute; intros; apply checkApprovalStatus_alerts|].
    apply List.Forall_cons; [apply chain_keeps_minute|constructor].
  - apply List.Forall_cons; [eapply alerts_keep_minute; intros; apply checkOffHours_alerts|].
    apply List.Forall_cons; [eapply alerts_keep_minute; intros; apply checkUnauthorizedDestructive_alerts|].
    apply List.Forall_cons; [intros a; apply checkTimestampGap_raises|].
    apply List.Forall_cons; [eapply alerts_keep_minute; intros; apply checkFabricationMismatch_alerts|constructor].
Qed.

Definition volume_alerts (a : Auditor) : nat := length (about [volume_message] a).

(** The count of the current minute after an event. *)
Definition counted (now : Time) (a : Auditor) : Z :=
  ((if (Minute <=? time_sub now (minuteStart a))%Z then 0 else eventsThisMinute a) + 1)%Z.

Lemma volume_rule now e a : (0 < MaxEventsPerMinute (cfg a))%Z ->
  let a' := checkHighVolume now e a in
  minute a' = (counted now a, if (Minute <=? time_sub now (minuteStart a))%Z then now else minuteStart a) /\
  volume_alerts a' = volume_alerts a + (if (counted now a =? MaxEventsPerMinute (cfg a) + 1)%Z then 1 else 0).
Proof.
  intros Hm. unfold checkHighVolume. rewrite (proj2 (Z.leb_gt _ _) Hm). cbv zeta. fold (counted now a).
  unfold volume_alerts. cbn [cfg set_minute]. destruct (counted now a =? _)%Z; [|by rewrite Nat.add_0_r].
  split; [done|]. unfold about. simpl. rewrite List.filter_app, length_app. reflexivity.
Qed.

Lemma Analyze_volume now e a a' : analyze now e a = Returns a' -> (0 < MaxEventsPerMinute (cfg a))%Z ->
  cfg a' = cfg a /\
  minute a' = (counted now a, if (Minute <=? time_sub now (minuteStart a))%Z then now else minuteStart a) /\
  volume_alerts a' = volume_alerts a + (if (counted now a =? MaxEventsPerMinute (cfg a) + 1)%Z then 1 else 0).
Proof.
  intros (a0 & -> & Hcfg & _ & Hc & Hr & _)%Analyze_run Hm. set (msgs := [volume_message]).
  injection Hc as _ _ Hn Hs. destruct (other_rules_keep_minute now e) as [K1 K2].
  destruct (run_neutral msgs _ e (trackEvent e a0) (before_neutral msgs now eq_refl)) as (B1 & _ & _ & B4).
  pose proof (run_keeps_minute _ e (trackEvent e a0) K1) as M1.
  unfold run_rules in M1. rewrite fold_left_app in M1. cbn [fold_left] in M1. fold (run_rules (rules_before now) e (trackEvent e a0)) in M1.
  set (a1 := run_rules (rules_before now) e (trackEvent e a0)) in *.
  destruct (raises_about msgs _ _ _ (chain_rule_raises e a1) eq_refl) as [C1 _].
  pose proof (raises_cfg _ _ _ (chain_rule_raises e a1)) as C4. set (a2 := chain_rule e a1) in *.
  assert (Hm2 : minute a2 = minute a) by (rewrite M1; unfold minute; simpl; by rewrite Hn, Hs).
  assert (Hcfg2 : cfg a2 = cfg a) by (rewrite C4, B4; exact Hcfg).
  assert (Hv2 : about msgs a2 = about msgs a) by (rewrite C1, B1; unfold about; simpl; by rewrite Hr).
  assert (Hct : counted now a2 = counted now a) by (injection Hm2 as E1 E2; unfold counted; by rewrite E1, E2).
  destruct (volume_rule now e a2 ltac:(by rewrite Hcfg2)) as [V1 V2].
  assert (Hn3 : Forall (neutral msgs) (tl (rules_after now))).
  { unfold rules_after. cbn [tl].
    apply List.Forall_cons; [by apply (alerts_neutral msgs _ _ (checkOffHours_alerts local_hour now))|].
    apply List.Forall_cons; [by apply (alerts_neutral msgs _ _ (checkUnauthorizedDestructive_alerts now))|].
    apply List.Forall_cons; [by apply gap_neutral|].
    apply List.Forall_cons; [by apply (alerts_neutral msgs _ _ (checkFabricationMismatch_alerts now))|constructor]. }
  change (run_rules (rules_after now) e a2) with (run_rules (tl (rules_after now)) e (checkHighVolume now e a2)).
  destruct (run_neutral msgs _ e (checkHighVolume now e a2) Hn3) as (A1 & _ & _ & A4).
  rewrite A4, (run_keeps_minute _ e _ K2), V1. unfold volume_alerts in *. fold msgs in V2 |- *. rewrite A1, V2, Hv2, Hct, Hcfg2.
  split_and!; [|by injection Hm2 as _ ->|done].
  destruct (checkHighVolume_raises now e a2) as [Hraise _]. by rewrite (raises_cfg _ _ _ Hraise).
Qed.

Lemma burst_alerts limit t0 events a a' k :
  MaxEventsPerMinute (cfg a) = limit -> (0 < limit)%Z -> minuteStart a = t0 -> eventsThisMinute a = k -> (0 <= k)%Z ->
  Forall (fun x => 0 <= x.1 - t0 < Minute)%Z events ->
  analyze_stream events a = Returns a' ->
  volume_alerts a' = volume_alerts a +
    (if (k <=? limit)%Z && (limit <? k + Z.of_nat (length events))%Z then 1 else 0).
Proof.
  intros Hl Hpos Ht Hk Hk0 Hf. revert a k Hl Ht Hk Hk0. induction Hf as [|[now e] rest Hn _ IH]; intros a k Hl Ht Hk Hk0.
  - intros [= <-]. cbn [length]. destruct (Z.leb_spec k limit), (Z.ltb_spec limit (k + Z.of_nat 0)); simpl; lia.
  - cbn [analyze_all]. destruct (analyze now e a) as [a1|] eqn:E; [|done]. intros Hrun.
    apply Analyze_volume in E as (Hc & Hm & Hv); [|by rewrite Hl].
    assert (Hfresh : (Minute <=? time_sub now (minuteStart a))%Z = false).
    { apply Z.leb_gt. rewrite Ht. simpl in Hn. unfold time_sub. unfold Minute, Second in *. lia. }
    unfold counted in *. rewrite Hfresh in *. injection Hm as Hm1 Hm2. rewrite Hk in *.
    rewrite (IH a1 (k + 1)%Z) by first [congruence|lia]. rewrite Hv, Hl.
    replace (k + Z.of_nat (length ((now, e) :: rest)))%Z with (k + 1 + Z.of_nat (length rest))%Z by (simpl length; lia).
    destruct (Z.eqb_spec (k + 1) (limit + 1)), (Z.leb_spec (k + 1) limit), (Z.leb_spec k limit),
      (Z.ltb_spec limit (k + 1 + Z.of_nat (length rest))); simpl; lia.
Qed.

(** In a burst, with every event within a minute of the start, a
    monitor with a limit raises exactly one high-volume alert when the events exceed
    the limit, however far, and none otherwise. *)
Theorem burst_reported_once t0 c m events a'
    (Hlimit : (0 < MaxEventsPerMinute c)%Z)
    (Hburst : Forall (fun x => 0 <= x.1 - t0 < Minute)%Z events)
    (Hrun : analyze_stream events (NewAuditor t0 c m) = Returns a') :
  volume_alerts a' = if (MaxEventsPerMinute c <? Z.of_nat (length events))%Z then 1 else 0.
Proof.
  rewrite (burst_alerts (MaxEventsPerMinute c) t0 events (NewAuditor t0 c m) a' 0) by done.
  by rewrite (proj2 (Z.leb_le _ _)) by lia.
Qed.

(** ** Polling *)

Abbreviation tick := (poll_tick sha256hex marshal_hash local_hour).

Fixpoint poll_run (replies : list (Time * option (list Event))) (p : Poller) : outcome Poller :=
  match replies with
  | [] => Returns p
  | (now, r) :: rest =>
      match tick now r p with Returns p' => poll_run rest p' | Panics => Panics end
  end.

(** The events the ticks pass on, as long as the set of ids is kept. *)
Fixpoint passed_on (replies : list (Time * option (list Event))) (seen : gset string) : list (Time * Event) :=
  match replies with
  | [] => []
  | (now, None) :: rest => passed_on rest seen
  | (now, Some events) :: rest =>
      let '(l, seen') := unseen events seen in
      (map (fun e => (now, e)) (rev l) ++ passed_on rest seen')%list
  end.

Definition replied (replies : list (Time * option (list Event))) : list Event :=
  flat_map (fun r => match r.2 with Some l => l | None => [] end) replies.

Lemma unseen_spec events seen :
  (unseen events seen).2 = list_to_set (map EventID events) ∪ seen /\
  NoDup (map EventID (unseen events seen).1) /\
  forall id, In id (map EventID (unseen events seen).1) <-> In id (map EventID events) /\ id ∉ seen.
Proof.
  revert seen. induction events as [|e events IH]; intros seen; simpl.
  - split_and!; [by rewrite union_empty_l_L|constructor|tauto].
  - destruct (IH ({[EventID e]} ∪ seen)) as (H1 & H2 & H3). clear IH.
    destruct (unseen events _) as [l seen']. simpl in *.
    assert (H4 : forall id, In id (map EventID l) <-> In id (map EventID events) /\ EventID e <> id /\ id ∉ seen).
    { intros id. rewrite H3, not_elem_of_union, not_elem_of_singleton. intuition congruence. }
    split; [rewrite H1, (union_assoc_L _ {[EventID e]} seen); f_equal; apply union_comm_L|].
    destruct (decide (EventID e ∈ seen)) as [Hin|Hout].
    + split; [done|]. intros id. rewrite H4. intuition congruence.
    + simpl. split.
      * constructor; [|done]. rewrite list_elem_of_In, H4. tauto.
      * intros id. rewrite H4. destruct (decide (EventID e = id)) as [<-|Hne]; tauto.
Qed.

Lemma analyze_app l1 l2 a : analyze_stream (l1 ++ l2) a =
  match analyze_stream l1 a with Returns a' => analyze_stream l2 a' | Panics => Panics end.
Proof.
  revert a. induction l1 as [|[now e] l1 IH]; intros a; [done|]. simpl. destruct (analyze now e a); [apply IH|done].
Qed.

Lemma poll_run_passes replies p p' :
  size (list_to_set (map EventID (replied replies)) ∪ seenIDs p) <= 2000 ->
  poll_run replies p = Returns p' ->
  analyze_stream (passed_on replies (seenIDs p)) (auditor p) = Returns (auditor p').
Proof.
  revert p. induction replies as [|[now [events|]] rest IH]; intros p; simpl; [by intros _ [= <-]| |apply IH].
  destruct (unseen_spec events (seenIDs p)) as [Hs _]. destruct (unseen events (seenIDs p)) as [l seen'].
  simpl in Hs. rewrite map_app, list_to_set_app_L, analyze_app. intros Hsize.
  destruct (analyze_stream _ (auditor p)) as [a1|]; [|done]. intros H. apply IH in H; simpl in *.
  - destruct (Nat.ltb_spec 2000 (size seen')) as [Hb|_]; [|exact H]. exfalso.
    assert (size seen' <= 2000); [|lia]. etransitivity; [|exact Hsize]. apply subseteq_size. rewrite Hs. clear. set_solver.
  - etransitivity; [|exact Hsize]. apply subseteq_size. rewrite Hs. clear. case_if; set_solver.
Qed.

Lemma passed_on_spec replies seen :
  NoDup (map (fun x => EventID x.2) (passed_on replies seen)) /\
  forall id, In id (map (fun x => EventID x.2) (passed_on replies seen)) <->
             In id (map EventID (replied replies)) /\ id ∉ seen.
Proof.
  revert seen. induction replies as [|[now [events|]] rest IH]; intros seen; simpl; [split; [constructor|tauto]| |apply IH].
  destruct (unseen_spec events seen) as (Hs & Hnd & Hin). destruct (unseen events seen) as [l seen']. simpl in Hs, Hnd, Hin.
  destruct (IH seen') as [H1 H2]. unfold replied in *. simpl.
  assert (Hl : map (fun x => EventID x.2) (map (fun e => (now, e)) (rev l)) = rev (map EventID l))
    by (rewrite map_map; simpl; apply map_rev).
  rewrite map_app, Hl, map_app. split.
  - apply NoDup_app. split_and!; [|intros id|done].
    + apply NoDup_ListNoDup, List.NoDup_rev. by apply NoDup_ListNoDup.
    + rewrite !list_elem_of_In, <- in_rev, Hin, H2, Hs, not_elem_of_union, elem_of_list_to_set, list_elem_of_In. tauto.
  - intros id. rewrite !in_app_iff, <- in_rev, Hin, H2, Hs, not_elem_of_union, elem_of_list_to_set, list_elem_of_In.
    destruct (decide (id ∈ map EventID events)) as [Hd|Hd]; rewrite list_elem_of_In in Hd; tauto.
Qed.

(** Polling over HTTP shows every event once: as long as no more than
    2000 ids were seen, the events analysed since the first batch are exactly those
    the service returned and the first batch had not, each once, however often the
    service repeats them. *)
Theorem polling_analyses_once replies p p'
    (Hsize : size (list_to_set (map EventID (replied replies)) ∪ seenIDs p) <= 2000)
    (Hrun : poll_run replies p = Returns p') :
  exists l, analyze_stream l (auditor p) = Returns (auditor p') /\
    NoDup (map (fun x => EventID x.2) l) /\
    forall id, In id (map (fun x => EventID x.2) l) <->
               In id (map EventID (replied replies)) /\ id ∉ seenIDs p.
Proof.
  exists (passed_on replies (seenIDs p)). split; [by apply poll_run_passes|]. apply passed_on_spec.
Qed.
End Watch.

(** ** Concrete streams *)

Definition quiet_config (limit : Z) : Config :=
  {| LogAll := false; OutputJSON := false; WebhookAll := false; IncidentWebhookURL := "http://hook";
     MaxEventsPerMinute := limit; AllowedHoursStart := -1; AllowedHoursEnd := -1 |}.

(** A digest of the id alone, for long streams. *)
Definition id_hash (h : HashInput) : option string := Some (hi_EventID h).

Definition chained (id prev : string) : Event :=
  set_hashes prev ("h" ++ id) (set_EventID id zero_event).

Definition event_with (class : string) (ap : option Approval) : Event :=
  {| EventID := "evt"; Timestamp := 0%Z; EventType := EventTypeToolExecution; TraceID := ""; ParentID := "";
     Origin := ""; e_ActionClass := class; PrevHash := ""; EventHash := ""; e_Principal := None;
     e_Purpose := ""; e_PurposeNote := ""; e_Session := e_Session zero_event; e_Input := e_Input zero_event;
     e_Output := None; e_Tool := None; e_Approval := ap; e_Decision := None; e_PolicyDecision := None;
     e_AgentReasoning := None; e_GovernanceViolation := None; e_DelegationVerification := None;
     e_Outcome := None; e_RollbackExecution := None |}.

Definition final (r : outcome Auditor) (a : Auditor) : Auditor := match r with Returns a' => a' | Panics => a end.
Definition fresh_auditor (limit : Z) : Auditor := NewAuditor 0 (quiet_config limit) None.
Definition toy_stream (events : list Event) : list (Time * Event) := map (fun e => (0%Z, e)) events.
Definition toy_final (limit : Z) (events : list Event) : Auditor :=
  final (analyze_all toy_sha id_hash (fun _ => 0%Z) (toy_stream events) (fresh_auditor limit)) (fresh_auditor limit).

Definition short_log : list Event := [chained "a" GenesisHash; chained "b" "ha"; chained "c" "hb"].

Lemma monitor_watches_chain_witness :
  VerifyChain toy_sha id_hash short_log = Returns (-1, None)%Z /\
  about chain_messages (toy_final 0 short_log) = [] /\
  about chain_messages (toy_final 0 [chained "a" GenesisHash; chained "c" "hb"]) <> [].
Proof.
  split; [vm_compute; reflexivity|]. split.
  - apply (proj1 (proj2 (monitor_watches_chain toy_sha id_hash (fun _ => 0%Z) 0 (quiet_config 0) None
      (toy_stream short_log) (toy_final 0 short_log) ltac:(vm_compute; reflexivity))) [] []);
      [vm_compute; reflexivity|repeat constructor; discriminate].
  - apply (proj2 (proj2 (monitor_watches_chain toy_sha id_hash (fun _ => 0%Z) 0 (quiet_config 0) None
      (toy_stream [chained "a" GenesisHash; chained "c" "hb"]) _ ltac:(vm_compute; reflexivity)))
      [] [] (chained "a" GenesisHash) [] (chained "b" "ha") (chained "c" "hb") [] []);
      try discriminate; vm_compute; reflexivity.
Defined.

Lemma unauthorized_destructive_reported_witness :
  unauthorized (event_with ActionDestructive None) = true /\
  exists al, about destructive_messages (toy_final 0 [event_with ActionDestructive None]) = ([] ++ [al])%list.
Proof.
  split; [vm_compute; reflexivity|].
  destruct (unauthorized_destructive_reported toy_sha id_hash (fun _ => 0%Z) 0 (event_with ActionDestructive None)
    (fresh_auditor 0) (toy_final 0 [event_with ActionDestructive None]) ltac:(vm_compute; reflexivity)) as (al & H & _).
  exists al. exact H.
Defined.

Lemma monitor_memory_witness :
  length (recentEvents (toy_final 0 short_log)) <= 100 /\
  forall s, default [] (sessionQueries (toy_final 0 short_log) !! s) = queries_of s short_log.
Proof.
  destruct (monitor_memory toy_sha id_hash (fun _ => 0%Z) 0 (quiet_config 0) None (toy_stream short_log)
    (toy_final 0 short_log) ltac:(vm_compute; reflexivity)) as (_ & H1 & _ & _ & H2).
  split; [exact H1|exact H2].
Defined.

Lemma burst_reported_once_witness :
  volume_alerts (toy_final 2 short_log) = 1.
Proof.
  apply (burst_reported_once toy_sha id_hash (fun _ => 0%Z) 0 (quiet_config 2) None (toy_stream short_log));
    [reflexivity|repeat constructor; discriminate|vm_compute; reflexivity].
Defined.

Definition toy_poller : Poller := {| auditor := fresh_auditor 0; latestSeen := 0; seenIDs := {["a"]} |}.
Definition repeated_replies : list (Time * option (list Event)) :=
  [(0, Some [chained "b" "ha"; chained "a" GenesisHash]); (5, None); (9, Some [chained "c" "hb"; chained "b" "ha"])]%Z.

Lemma polling_analyses_once_witness :
  exists l p', analyze_all toy_sha id_hash (fun _ => 0%Z) l (fresh_auditor 0) = Returns (auditor p') /\
    NoDup (map (fun x => EventID x.2) l).
Proof.
  destruct (poll_run toy_sha id_hash (fun _ => 0%Z) repeated_replies toy_poller) as [p'|] eqn:E; [|vm_compute in E; discriminate].
  destruct (polling_analyses_once toy_sha id_hash (fun _ => 0%Z) repeated_replies toy_poller p') as (l & H1 & H2 & _);
    [vm_compute; repeat constructor|exact E|]. exists l, p'. split; [exact H1|exact H2].
Defined.

(** The set of ids is emptied once it holds more than 2000; the newest events come back
    with the next reply, are analysed again and reported as a broken chain. *)
Definition crowded (ids : gset string) : Poller :=
  {| auditor := fresh_auditor 0; latestSeen := 0; seenIDs := ids |}.

Definition replay_count (ids : gset string) (replies : nat) : option nat :=
  match poll_run toy_sha id_hash (fun _ => 0%Z) (repeat (0%Z, Some [chained "x" "hw"]) replies)
          (crowded ids) with
  | Returns p => Some (length (about chain_messages (auditor p)))
  | Panics => None
  end.

Lemma unseen_one e (seen : gset string) :
  unseen [e] seen = (if decide (EventID e ∈ seen) then [] else [e], {[EventID e]} ∪ seen).
Proof. done. Qed.

Example emptied_ids_raise_alarm (ids : gset string) :
  "x" ∉ ids -> size ids = 2000 -> replay_count ids 1 = Some 0 /\ replay_count ids 2 = Some 1.
Proof.
  intros Hx Hn.
  assert (Hfull : (2000 <? size ({["x"]} ∪ ids))%nat = true).
  { rewrite size_union, size_singleton, Hn by (by apply disjoint_singleton_l). done. }
  unfold replay_count. cbn [repeat poll_run]. unfold poll_tick. cbn [seenIDs crowded auditor latestSeen].
  rewrite unseen_one. change (EventID (chained "x" "hw")) with "x". rewrite (decide_False _ _ Hx), Hfull.
  split; [reflexivity|]. vm_compute. reflexivity.
Qed.

(** With every event printed, one with a hash shorter than twelve bytes stops the
    monitor. *)
Example short_hash_stops_monitor :
  Analyze toy_sha id_hash (fun _ => 0%Z) 0 (chained "x" "")
    (NewAuditor 0 {| LogAll := true; OutputJSON := false; WebhookAll := false; IncidentWebhookURL := "";
                     MaxEventsPerMinute := 0; AllowedHoursStart := -1; AllowedHoursEnd := -1 |} None) = Panics.
Proof. reflexivity. Qed.
