(* ===== verification/Secbot.v ===== *)
(** * cmd/secbot: the security responder

    The volume tracker, the detection of one event, the creation of an incident bundle
    with its cooldown, the loop body both sources of events share and the HTTP polling.
    The clock is read where the code reads it: once by the tracker, once before and
    once after the POST.  The gateway's answer to the POST is a parameter; callbacks
    are only logged by the code and are not modelled. *)

From S2P Require Import Prelude GoTime GoFormat Events Action AuditChain ApprovalPolicy Auditor.

Open Scope string_scope.

Record volumeTracker := {
  vt_events : Z;
  vt_start : Time;
  threshold : Z;
  alerted : bool }.

Definition recordAndCheck (now : Time) (v : volumeTracker) : volumeTracker * string :=
  let fresh := (Minute <=? time_sub now (vt_start v))%Z in
  let n := ((if fresh then 0 else vt_events v) + 1)%Z in
  let start := if fresh then now else vt_start v in
  let was := if fresh then false else alerted v in
  if (n =? threshold v + 1)%Z && negb was
  then ({| vt_events := n; vt_start := start; threshold := threshold v; alerted := true |}, "high_volume")
  else ({| vt_events := n; vt_start := start; threshold := threshold v; alerted := was |}, "").

(** The text of an alert's incident, and what is POSTed to create it. *)
Record IncidentPost := {
  ip_alert : string;
  ip_event : string;
  ip_infra_key : string;
  ip_description : string;
  ip_layers : list string;
  ip_at : Time }.

Record SecbotConfig := { cooldown : Z; infraKey : string; dryRun : bool }.

Definition incident_description (alertType : string) (event : Event) : string :=
  "Security alert: " ++ alertType ++ " (event: " ++ EventID event ++ ", trace: " ++ TraceID event ++ ")".

(** The time of the last incident after an alert, and the POST if one was sent.
    [created]: the gateway accepted it and answered with JSON. *)
Definition processAlert (cfg : SecbotConfig) (now after : Time) (created : bool) (alertType : string)
    (event : Event) (lastIncidentTime : Time) : Time * list IncidentPost :=
  if (time_sub now lastIncidentTime <? cooldown cfg)%Z then (lastIncidentTime, [])
  else if dryRun cfg then (lastIncidentTime, [])
  else
    (if created then after else lastIncidentTime,
     [{| ip_alert := alertType; ip_event := EventID event; ip_infra_key := infraKey cfg;
         ip_description := incident_description alertType event; ip_layers := ["os"; "storage"];
         ip_at := now |}]).

Record SecbotState := {
  tracker : volumeTracker;
  lastIncident : Time;
  posts : list IncidentPost }.

(** The clock readings for one event and the gateway's answer. *)
Record Turn := { t_check : Time; t_before : Time; t_after : Time; t_created : bool }.

Section Secbot.
Context (sha256hex : string -> string) (marshal_hash : HashInput -> option string).

Definition detectSecurityAlert (event : Event) : string :=
  if negb (EventHash event =?s "") && negb (VerifyEventHash sha256hex marshal_hash event) then "hash_mismatch"
  else if (e_ActionClass event =?s ActionDestructive) &&
          match e_Approval event with
          | None => true
          | Some ap => negb (a_Status ap =?s ApprovalApproved) && negb (a_Status ap =?s ApprovalAutoApproved)
          end then "unauthorized_destructive"
  else
    match e_Tool event with
    | Some t =>
        if t_Error t =?s "" then ""
        else
          let errLower := to_lower (t_Error t) in
          if str_contains errLower "syntax error" && str_contains errLower "sql" then "potential_sql_injection"
          else if str_contains errLower "command not found" || str_contains errLower "permission denied"
          then "potential_command_injection"
          else ""
    | None => ""
    end.

Definition alertTypeList : list string :=
  ["high_volume"; "hash_mismatch"; "unauthorized_destructive"; "potential_sql_injection";
   "potential_command_injection"].

(** The body of the two event loops. *)
Definition on_event (cfg : SecbotConfig) (turn : Turn) (event : Event) (s : SecbotState) : SecbotState :=
  let '(v, volume) := recordAndCheck (t_check turn) (tracker s) in
  let alertType := if volume =?s "" then detectSecurityAlert event else volume in
  if alertType =?s "" then {| tracker := v; lastIncident := lastIncident s; posts := posts s |}
  else
    let '(last, sent) :=
      processAlert cfg (t_before turn) (t_after turn) (t_created turn) alertType event (lastIncident s) in
    {| tracker := v; lastIncident := last; posts := (posts s ++ sent)%list |}.

Definition on_events (cfg : SecbotConfig) (events : list (Turn * Event)) (s : SecbotState) : SecbotState :=
  fold_left (fun s te => on_event cfg te.1 te.2 s) events s.

(** ** HTTP polling *)

Record SecbotPoller := { sp_state : SecbotState; sp_latest : Time; sp_seen : gset string }.

(** The first batch is a baseline and is not analysed. *)
Definition secbot_baseline (reply : option (list Event)) (s : SecbotState) : SecbotPoller :=
  match reply with
  | None => {| sp_state := s; sp_latest := 0%Z; sp_seen := ∅ |}
  | Some events =>
      {| sp_state := s; sp_latest := newest 0%Z events; sp_seen := list_to_set (map EventID events) |}
  end.

Definition secbot_tick (cfg : SecbotConfig) (turns : Event -> Turn) (reply : option (list Event))
    (p : SecbotPoller) : SecbotPoller :=
  match reply with
  | None => p
  | Some newEvents =>
      let '(toProcess, seen) := unseen newEvents (sp_seen p) in
      {| sp_state := on_events cfg (map (fun e => (turns e, e)) (rev toProcess)) (sp_state p);
         sp_latest := newest (sp_latest p) newEvents;
         sp_seen := if (2000 <? size seen)%nat then ∅ else seen |}
  end.

(** ** What it detects *)

Lemma detect_listed event : detectSecurityAlert event = "" \/ In (detectSecurityAlert event) alertTypeList.
Proof.
  unfold detectSecurityAlert, alertTypeList. destruct (_ && negb (VerifyEventHash _ _ event)); [simpl; tauto|].
  destruct (_ && match e_Approval event with _ => _ end); [simpl; tauto|]. destruct (e_Tool event) as [t|]; [|simpl; tauto].
  destruct (t_Error t =?s ""); [simpl; tauto|]. cbv zeta.
  destruct (_ && str_contains _ "sql"); [simpl; tauto|]. destruct (_ || _); simpl; tauto.
Qed.

(** The responder reacts to everything the monitor reports of a single
    event's hash or authorisation: an event whose hash is wrong, or that the monitor
    calls an unauthorised destructive operation, has an alert type, and every alert
    type is one of the announced list. *)
Theorem responder_covers_monitor event :
  (detectSecurityAlert event = "" \/ In (detectSecurityAlert event) alertTypeList) /\
  (EventHash event <> "" -> EventHash event <> ComputeEventHash sha256hex marshal_hash event ->
   detectSecurityAlert event = "hash_mismatch") /\
  (unauthorized event = true ->
   detectSecurityAlert event = "hash_mismatch" \/ detectSecurityAlert event = "unauthorized_destructive").
Proof.
  split; [apply detect_listed|]. split.
  - intros Hne Hh. unfold detectSecurityAlert, VerifyEventHash. rewrite (proj2 (streq_false _ _) Hne). simpl.
    destruct (String.eqb_spec (ComputeEventHash sha256hex marshal_hash event) (EventHash event)); [congruence|done].
  - unfold unauthorized, detectSecurityAlert. rewrite !andb_true_iff. intros (((Hd & _) & _) & Ha).
    destruct (_ && negb (VerifyEventHash _ _ event)); [by left|right]. rewrite Hd.
    destruct (e_Approval event) as [ap|]; [|done]. unfold approved_status in Ha. rewrite negb_orb in Ha. by rewrite Ha.
Qed.

(** ** The cooldown *)

(** Creations far enough apart: each POST starts at least a cooldown after the last
    incident created before it. *)
Fixpoint spaced (cfg : SecbotConfig) (last : Time) (events : list (Turn * Event)) (s : SecbotState) : Prop :=
  match events with
  | [] => True
  | (turn, e) :: rest =>
      let s' := on_event cfg turn e s in
      (posts s' = posts s \/
       exists p, posts s' = (posts s ++ [p])%list /\ ip_at p = t_before turn /\ ip_event p = EventID e /\
         (cooldown cfg <= time_sub (ip_at p) last)%Z) /\
      spaced cfg (lastIncident s') rest s'
  end.

Lemma on_event_posts cfg turn e s :
  let s' := on_event cfg turn e s in
  (posts s' = posts s /\ lastIncident s' = lastIncident s) \/
  (exists p, posts s' = (posts s ++ [p])%list /\ ip_at p = t_before turn /\ ip_event p = EventID e /\
     (cooldown cfg <= time_sub (ip_at p) (lastIncident s))%Z /\ dryRun cfg = false /\
     lastIncident s' = if t_created turn then t_after turn else lastIncident s).
Proof.
  intros s'. subst s'. unfold on_event. destruct (recordAndCheck _ _) as [v volume].
  set (ty := if volume =?s "" then _ else _). destruct (ty =?s ""); [by left|]. unfold processAlert.
  destruct (Z.ltb_spec (time_sub (t_before turn) (lastIncident s)) (cooldown cfg));
    [left; simpl; by rewrite app_nil_r|]. destruct (dryRun cfg) eqn:Ed; [left; simpl; by rewrite app_nil_r|].
  right. eexists. split; [reflexivity|]. done.
Qed.

(** Incidents are rate limited: on any stream, whatever the clock and the
    gateway do, a POST is sent only when a cooldown has passed since the last incident
    that was created, and a dry run sends none. *)
Theorem incidents_are_spaced cfg events s :
  spaced cfg (lastIncident s) events s /\
  (dryRun cfg = true -> posts (on_events cfg events s) = posts s /\ lastIncident (on_events cfg events s) = lastIncident s).
Proof.
  split.
  - revert s. induction events as [|[turn e] rest IH]; intros s; [done|]. simpl. split; [|apply IH].
    destruct (on_event_posts cfg turn e s) as [[H _]|(p & H1 & H2 & H3 & H4 & _)]; [by left|right].
    exists p. done.
  - intros Hd. unfold on_events. revert s. induction events as [|[turn e] rest IH]; intros s; [done|]. cbn [fold_left fst snd].
    destruct (IH (on_event cfg turn e s)) as [-> ->].
    destruct (on_event_posts cfg turn e s) as [[-> ->]|(p & _ & _ & _ & _ & H & _)]; [done|congruence].
Qed.
End Secbot.

(** The responder calls a destructive operation that the policy allowed unauthorised;
    the monitor does not. *)
Definition allowed_destructive : Event :=
  {| EventID := "evt"; Timestamp := 0%Z; EventType := EventTypePolicyDecision; TraceID := ""; ParentID := "";
     Origin := ""; e_ActionClass := ActionDestructive; PrevHash := ""; EventHash := ""; e_Principal := None;
     e_Purpose := ""; e_PurposeNote := ""; e_Session := e_Session zero_event; e_Input := e_Input zero_event;
     e_Output := None; e_Tool := None; e_Approval := None; e_Decision := None;
     e_PolicyDecision := Some {| ResourceType := ""; ResourceName := ""; pd_Action := ""; pd_Tags := [];
       Effect := "allow"; PolicyName := ""; RuleIndex := 0; Message := ""; Note := ""; DryRun := false;
       PostExecution := false; Trace := ""; Explanation := ""; pd_UserID := ""; pd_Roles := [];
       pd_Service := ""; pd_AuthMethod := ""; AutoApproved := false; pd_Purpose := ""; pd_PurposeNote := "";
       pd_Sensitivity := [] |};
     e_AgentReasoning := None; e_GovernanceViolation := None; e_DelegationVerification := None;
     e_Outcome := None; e_RollbackExecution := None |}.

Example responder_and_monitor_differ :
  unauthorized allowed_destructive = false /\
  detectSecurityAlert toy_sha id_hash allowed_destructive = "unauthorized_destructive".
Proof. vm_compute. split; reflexivity. Qed.

Lemma responder_covers_monitor_witness :
  detectSecurityAlert toy_sha id_hash (event_with ActionDestructive None) = "hash_mismatch" \/
  detectSecurityAlert toy_sha id_hash (event_with ActionDestructive None) = "unauthorized_destructive".
Proof.
  apply (proj2 (proj2 (responder_covers_monitor toy_sha id_hash (event_with ActionDestructive None)))).
  reflexivity.
Defined.

Lemma incidents_are_spaced_witness :
  posts (on_events toy_sha id_hash {| cooldown := 300; infraKey := ""; dryRun := true |}
    [({| t_check := 1; t_before := 1; t_after := 1; t_created := true |}, allowed_destructive)]%Z
    {| tracker := {| vt_events := 0; vt_start := 0; threshold := 100; alerted := false |}; lastIncident := 0;
       posts := [] |}) = [].
Proof.
  eapply (proj2 (incidents_are_spaced toy_sha id_hash {| cooldown := 300; infraKey := ""; dryRun := true |}
    [({| t_check := 1; t_before := 1; t_after := 1; t_created := true |}, allowed_destructive)]%Z
    {| tracker := {| vt_events := 0; vt_start := 0; threshold := 100; alerted := false |}; lastIncident := 0;
       posts := [] |})). reflexivity.
Defined.
