(* ===== verification/ApprovalClient.v ===== *)
(** * The agents' approval client

    internal/audit/approval_client.go: the look-ups an agent makes before it asks for
    an approval.  What the client needs of auditd is the class [ApprovalAPI]: listing
    returns approvals that satisfy the filters it was given, and only those.  The
    store and the handlers of auditd are an instance, so the client's theorems hold of
    the client talking to them. *)

From S2P Require Import Prelude GoTime Events ApprovalStore ApprovalHandlers.

Open Scope string_scope.

Record ApprovalListOptions := {
  lo_Status : string;
  lo_AgentName : string;
  lo_TraceID : string;
  lo_RequestedBy : string;
  lo_ToolName : string;
  lo_Limit : Z }.

(** The store query the options ask for. *)
Definition store_query (o : ApprovalListOptions) : ApprovalQueryOptions :=
  {| q_Status := lo_Status o; q_AgentName := lo_AgentName o; q_TraceID := lo_TraceID o;
     q_RequestedBy := lo_RequestedBy o; q_ToolName := lo_ToolName o; q_Since := 0%Z;
     q_Limit := lo_Limit o |}.

Definition filters (status agent trace tool : string) (limit : Z) : ApprovalListOptions :=
  {| lo_Status := status; lo_AgentName := agent; lo_TraceID := trace; lo_RequestedBy := "";
     lo_ToolName := tool; lo_Limit := limit |}.

(** GET and POST /v1/approvals on a server in state [S]: an error stands for a
    transport failure, an unexpected status or an undecodable body. *)
Class ApprovalAPI (S : Type) := {
  api_list : S -> ApprovalListOptions -> result string (list StoredApproval);
  api_create : S -> CreateApprovalRequest -> S * result string string;
  api_rows : S -> list StoredApproval;
  api_list_sound s opts l a :
    api_list s opts = Ok l -> In a l -> In a (api_rows s) /\ query_selects (store_query opts) a = true
}.

Section Client.
Context {S : Type} `{!ApprovalAPI S}.

Definition still_valid (now : Time) (a : StoredApproval) : bool :=
  IsZero (ApprovalValidUntil a) || After (ApprovalValidUntil a) now.

Definition CheckExistingApproval (now : Time) (s : S) (traceID toolName : string)
    : result string (option StoredApproval) :=
  if traceID =?s "" then Ok None
  else
    match api_list s (filters "approved" "" traceID "" 10) with
    | Err e => Err e
    | Ok approvals =>
        Ok (find (fun a =>
              negb (negb (toolName =?s "") && negb (ToolName a =?s toolName)) &&
              negb (negb (IsZero (ApprovalValidUntil a)) && Before (ApprovalValidUntil a) now))
              approvals)
    end.

Definition FindApprovalByTool (now : Time) (s : S) (toolName agentName : string)
    : result string (option StoredApproval) :=
  match api_list s (filters "approved" agentName "" toolName 5) with
  | Err e => Err e
  | Ok approved =>
      match find (still_valid now) approved with
      | Some a => Ok (Some a)
      | None =>
          match api_list s (filters "pending" agentName "" toolName 1) with
          | Err e => Err e
          | Ok (a :: _) => Ok (Some a)
          | Ok [] => Ok None
          end
      end
  end.

Lemma filters_selects status agent trace tool limit a :
  status <> "" -> query_selects (store_query (filters status agent trace tool limit)) a = true ->
  Status a = status /\ (agent = "" \/ sa_AgentName a = agent) /\
  (trace = "" \/ sa_TraceID a = trace) /\ (tool = "" \/ ToolName a = tool).
Proof.
  intros Hs. unfold query_selects. simpl. rewrite !andb_true_iff, !orb_true_iff, !streq_spec. tauto.
Qed.

(** What a look-up returns is in auditd's table, for the tool and the agent asked
    about, and either approved and still valid or pending. *)
Lemma FindApprovalByTool_sound now s tool agent a :
  FindApprovalByTool now s tool agent = Ok (Some a) ->
  In a (api_rows s) /\ (agent = "" \/ sa_AgentName a = agent) /\ (tool = "" \/ ToolName a = tool) /\
  ((Status a = "approved" /\ still_valid now a = true) \/ Status a = "pending").
Proof.
  unfold FindApprovalByTool. destruct (api_list s (filters "approved" agent "" tool 5)) as [l|e] eqn:El; [|done].
  destruct (find (still_valid now) l) as [x|] eqn:Ef.
  - intros [= <-]. apply find_some in Ef as [Hin Hv].
    destruct (api_list_sound _ _ _ _ El Hin) as [Hr Hq]. apply filters_selects in Hq; [|done]. tauto.
  - destruct (api_list s (filters "pending" agent "" tool 1)) as [[|x l']|e] eqn:Ep; [done| |done].
    intros [= <-]. destruct (api_list_sound _ _ _ x Ep (or_introl eq_refl)) as [Hr Hq].
    apply filters_selects in Hq; [|done]. tauto.
Qed.

Lemma CheckExistingApproval_sound now s trace tool a :
  CheckExistingApproval now s trace tool = Ok (Some a) ->
  In a (api_rows s) /\ Status a = "approved" /\ sa_TraceID a = trace /\
  (tool = "" \/ ToolName a = tool) /\
  (ApprovalValidUntil a = 0%Z \/ (now <= ApprovalValidUntil a)%Z).
Proof.
  unfold CheckExistingApproval. destruct (String.eqb_spec trace ""); [done|].
  destruct (api_list s (filters "approved" "" trace "" 10)) as [l|e] eqn:El; [|done].
  intros [= Hf]. apply find_some in Hf as [Hin Ht].
  destruct (api_list_sound _ _ _ _ El Hin) as [Hr Hq]. apply filters_selects in Hq; [|done].
  apply andb_true_iff in Ht as [Ht1 Ht2]. unfold IsZero, Before in Ht2.
  split_and!; [done|tauto|tauto| |].
  - destruct (String.eqb_spec tool ""); [by left|]. right. simpl in Ht1.
    by apply negb_true_iff, negb_false_iff, streq_spec in Ht1.
  - destruct (Z.eqb_spec (ApprovalValidUntil a) 0); [by left|]. right. simpl in Ht2.
    apply negb_true_iff in Ht2. lia.
Qed.
End Client.

(** ** auditd as the server *)

(** A server with the clock, the id and the database failure of its next request. *)
Record Served := {
  sv_server : approvalServer;
  sv_now : Time;
  sv_uuid : string;
  sv_db : option string }.

Definition query_of (o : ApprovalListOptions) : ListQuery :=
  {| lq_status := lo_Status o; lq_agent := lo_AgentName o; lq_trace_id := lo_TraceID o;
     lq_requested_by := lo_RequestedBy o; lq_tool_name := lo_ToolName o;
     lq_limit := if (0 <? lo_Limit o)%Z then itoa (lo_Limit o) else "" |}.

Definition served_list (s : Served) (o : ApprovalListOptions) : result string (list StoredApproval) :=
  match sv_db s with
  | Some e => Err ("unexpected status 500: " ++ e)
  | None =>
      match handleListApprovals (sv_server s) (query_of o) with
      | HttpJSON 200 (PApprovals l) => Ok l
      | _ => Err "unexpected status"
      end
  end.

Definition served_create (s : Served) (req : CreateApprovalRequest) : Served * result string string :=
  let '(server, reply) := handleCreateApproval (sv_now s) (sv_uuid s) (sv_db s) (sv_server s) (Decoded req) in
  ({| sv_server := server; sv_now := sv_now s; sv_uuid := sv_uuid s; sv_db := sv_db s |},
   match reply with
   | HttpJSON 201 (PCreated id _ _) => Ok id
   | _ => Err "unexpected status"
   end).

Lemma firstn_In {A} n (l : list A) x : In x (firstn n l) -> In x l.
Proof. intros H. rewrite <- (firstn_skipn n l). apply in_or_app. by left. Qed.

Lemma ListRequests_In s opts a :
  In a (ListRequests s opts) -> In a (table s) /\ query_selects opts a = true.
Proof.
  unfold ListRequests. intros Hin.
  assert (H : In a (isort newest_first (List.filter (query_selects opts) (table s)))).
  { destruct (0 <? q_Limit opts)%Z; [by eapply firstn_In|done]. }
  by rewrite isort_In, filter_In in H.
Qed.

Lemma served_list_sound s o l a :
  served_list s o = Ok l -> In a l ->
  In a (table (store (sv_server s))) /\ query_selects (store_query o) a = true.
Proof.
  unfold served_list. destruct (sv_db s); [done|]. intros [= <-] Hin. by apply ListRequests_In in Hin.
Qed.

#[export] Instance auditd_api : ApprovalAPI Served := {
  api_list := served_list;
  api_create := served_create;
  api_rows s := table (store (sv_server s));
  api_list_sound := served_list_sound
}.
