(* ===== verification/Enforcer.v ===== *)
(** * Policy enforcement in the agents

    agentutil/agentutil.go: [PolicyEnforcer.CheckTool] before a tool runs,
    [CheckResult] and [CheckDatabaseSessionAge] with measured numbers, the approval
    look-up of [requestApproval], and the remote check mode; internal/audit/trace.go
    for the trace context.  The engine is the one of PolicyEngine.v, the approvals are
    reached through [ApprovalAPI], and the remote check is a parameter (its server is
    in GovernanceCheck.v). *)

From S2P Require Import Prelude GoTime Events PolicyTypes PolicyEngine PolicyExplain Identity Authz.
From S2P Require Import ApprovalStore ApprovalHandlers ApprovalClient.

Open Scope string_scope.

(** ** trace.go *)

Record TraceContext := {
  tc_TraceID : string;
  tc_ParentID : string;
  tc_Origin : string;
  tc_Principal : ResolvedPrincipal;
  tc_Purpose : string;
  tc_PurposeNote : string;
  PurposeExplicit : bool;
  ApprovalMode : string;
  tc_ApprovalSession : string }.

(** The context of a tool call: the trace context it carries, if any, and the tool
    name set by [WithToolName]. *)
Record Ctx := { cx_trace : option TraceContext; cx_tool : string }.

Definition Child (tc : TraceContext) (parentEventID : string) : TraceContext :=
  {| tc_TraceID := tc_TraceID tc; tc_ParentID := parentEventID; tc_Origin := tc_Origin tc;
     tc_Principal := tc_Principal tc; tc_Purpose := tc_Purpose tc; tc_PurposeNote := tc_PurposeNote tc;
     PurposeExplicit := PurposeExplicit tc; ApprovalMode := ""; tc_ApprovalSession := "" |}.

Definition ctx_principal (c : Ctx) : ResolvedPrincipal :=
  match cx_trace c with Some tc => tc_Principal tc | None => zero_principal end.

Definition PurposeFromContext (c : Ctx) : string * string :=
  match cx_trace c with Some tc => (tc_Purpose tc, tc_PurposeNote tc) | None => ("", "") end.

Definition PurposeExplicitFromContext (c : Ctx) : bool :=
  match cx_trace c with Some tc => PurposeExplicit tc | None => false end.

(** ** The enforcer *)

Record PolicyEnforcer := {
  pe_engine : option Engine;
  policyCheckURL : string;
  pe_trace : option string;      (* the trace store's current id *)
  pe_approvals : bool;           (* an approval client is configured *)
  pe_agentName : string;
  pe_auditor : bool;
  requirePurposeForSensitive : bool }.

(** What the tool auditor records. *)
Inductive Recorded :=
  | ToolInvoked (resourceType resourceName action : string) (tags : list string)
  | PolicyRecorded (pd : Events.PolicyDecision).

Inductive CheckError :=
  | Refused (msg : string)
  | ByPolicy (e : PolicyError)
  | ApprovalPending (approvalID : string).

Record ToolOutcome := {
  to_RowsAffected : Z;
  to_PodsAffected : Z;
  to_Err : option string }.

(** The body and the answer of POST /v1/governance/check. *)
Record policyCheckReq := {
  pc_ResourceType : string;
  pc_ResourceName : string;
  pc_Action : string;
  pc_Tags : list string;
  pc_TraceID : string;
  pc_AgentName : string;
  pc_Note : string;
  pc_RowsAffected : Z;
  pc_PodsAffected : Z;
  pc_XactAgeSecs : Z;
  pc_PostExecution : bool;
  pc_Principal : ResolvedPrincipal;
  pc_Purpose : string;
  pc_PurposeNote : string;
  pc_Sensitivity : list string;
  pc_ToolName : string }.

Record policyCheckResp := {
  rs_Effect : string;
  rs_PolicyName : string;
  rs_Message : string;
  rs_Explanation : string;
  rs_EventID : string }.

Definition hasSensitiveSensitivity (sensitivity : list string) : bool :=
  existsb (fun s => (s =?s "pii") || (s =?s "critical")) sensitivity.

Definition trace_id (e : PolicyEnforcer) : string := default "" (pe_trace e).

(** The members of a policy decision record the call sites fill in. *)
Definition decision_record (resourceType resourceName action : string) (tags : list string)
    (effect policyName : string) (ruleIndex : nat) (message note trace explanation : string)
    (postExecution autoApproved : bool) (p : ResolvedPrincipal) (purpose purposeNote : string)
    : Events.PolicyDecision :=
  {| ResourceType := resourceType; ResourceName := resourceName; pd_Action := action; pd_Tags := tags;
     Events.Effect := effect; PolicyName := policyName; RuleIndex := Z.of_nat ruleIndex;
     Message := message; Note := note; DryRun := false; PostExecution := postExecution;
     Trace := trace; Events.Explanation := explanation; pd_UserID := UserID p; pd_Roles := Roles p;
     pd_Service := Service p; pd_AuthMethod := AuthMethod p; AutoApproved := autoApproved;
     pd_Purpose := purpose; pd_PurposeNote := purposeNote; pd_Sensitivity := [] |}.

Definition record_if (e : PolicyEnforcer) (r : Recorded) : list Recorded :=
  if pe_auditor e then [r] else [].

(** The request to the engine. *)
Definition engine_request (c : Ctx) (traceID resourceType resourceName action : string)
    (tags sensitivity : list string) (tool : string) (rows pods age : Z) : Request :=
  let p := ctx_principal c in
  let '(purpose, note) := PurposeFromContext c in
  {| rq_Principal := {| rp_UserID := UserID p; rp_Roles := Roles p; rp_Service := Service p |};
     rq_Resource := {| rr_Type := resourceType; rr_Name := resourceName; rr_Tags := tags;
                       rr_Namespace := ""; rr_Extra := []; rr_Sensitivity := sensitivity;
                       rr_ToolName := tool |};
     rq_Action := action;
     rq_Context := {| Timestamp := {| instant := 0%Z; zone_offset := 0%Z |}; rc_TraceID := traceID;
                      RowsAffected := rows; PodsAffected := pods; XactAgeSecs := age;
                      rc_Purpose := purpose; rc_PurposeNote := note |} |}.

Section Enforcer.
Context {S : Type} `{!ApprovalAPI S}.
(** HELPDESK_OPERATING_MODE in lower case, the zone database, json.Marshal of a trace,
    the time of the call. *)
Context (operatingMode : string) (LoadLocation : string -> option (Time -> Z)).
Context (marshal_trace : DecisionTrace -> string) (now : Time) (clock : Clock).
(** The exchange with auditd: no answer, or a status and the decoded body. *)
Context (remote : policyCheckReq -> option (Z * option policyCheckResp)).

(** [callRemotePolicyCheck]: every failure is an error. *)
Definition callRemotePolicyCheck (req : policyCheckReq) : result string policyCheckResp :=
  match remote req with
  | None => Err "policy check failed: policy service unreachable"
  | Some (status, body) =>
      if negb (status =? 200)%Z && negb (status =? 403)%Z then
        if (status =? 401)%Z then
          Err "policy check failed: agent not authenticated to audit service (set HELPDESK_AUDIT_API_KEY)"
        else Err ("policy check failed: policy service returned " ++ itoa status)
      else
        match body with
        | None => Err "policy check failed: policy service unreachable"
        | Some resp => Ok resp
        end
  end.

(** The person an approval is requested for: the agent when no user is known. *)
Definition requester (e : PolicyEnforcer) (c : Ctx) : string :=
  if UserID (ctx_principal c) =?s "" then pe_agentName e else UserID (ctx_principal c).

Definition approval_request (e : PolicyEnforcer) (c : Ctx)
    (traceID resourceType resourceName action : string) (tags : list string) (note : string)
    : CreateApprovalRequest :=
  {| c_EventID := ""; c_TraceID := traceID; c_ActionClass := action;
     c_ToolName := resourceType ++ ":" ++ resourceName; c_AgentName := pe_agentName e;
     c_ResourceType := resourceType; c_ResourceName := resourceName; c_RequestedBy := requester e c;
     c_Context := (("tags", AList (map AStr tags)) ::
                   (if note =?s "" then [] else [("session_info", AStr note)]))%list;
     c_PolicyName := ""; c_ApproverRole := ""; c_ExpiresInMin := 0%Z; c_CallbackURL := "" |}.

(** [requestApproval]: nothing is returned when the call may go on. *)
Definition requestApproval (e : PolicyEnforcer) (s : S) (c : Ctx)
    (traceID resourceType resourceName action : string) (tags : list string) (note : string)
    : S * option CheckError :=
  let toolKey := resourceType ++ ":" ++ resourceName in
  let create :=
    match api_create s (approval_request e c traceID resourceType resourceName action tags note) with
    | (s', Err err) => (s', Some (Refused ("approval request failed: " ++ err)))
    | (s', Ok id) => (s', Some (ApprovalPending id))
    end in
  let by_trace :=
    if traceID =?s "" then create
    else
      match CheckExistingApproval now s traceID toolKey with
      | Ok (Some _) => (s, None)
      | _ => create
      end in
  match FindApprovalByTool now s toolKey (pe_agentName e) with
  | Ok (Some existing) =>
      if Status existing =?s "approved" then (s, None)
      else if Status existing =?s "pending" then (s, Some (ApprovalPending (ApprovalID existing)))
      else by_trace
  | _ => by_trace
  end.

(** [handleRemoteResponse]: an effect that is none of the three is an allow. *)
Definition handleRemoteResponse (e : PolicyEnforcer) (s : S) (c : Ctx) (resp : policyCheckResp)
    (traceID resourceType resourceName action : string) (tags : list string) (note : string)
    : S * option CheckError :=
  let remote_decision (effect : string) : Decision :=
    {| d_Effect := effect; d_PolicyName := rs_PolicyName resp; d_RuleIndex := 0;
       d_Message := rs_Message resp; d_Conditions := []; d_RequiresApproval := false;
       d_ApprovalQuorum := 0%Z |} in
  if rs_Effect resp =?s "allow" then (s, None)
  else if rs_Effect resp =?s "deny" then
    (s, Some (ByPolicy (DeniedError (remote_decision EffectDeny) (rs_Explanation resp))))
  else if rs_Effect resp =?s "require_approval" then
    if pe_approvals e then requestApproval e s c traceID resourceType resourceName action tags note
    else (s, Some (ByPolicy (ApprovalRequiredError (remote_decision EffectRequireApproval))))
  else (s, None).

(** The gateway forwarded an approval mode that authorises the whole chain. *)
Definition mode_authorises (c : Ctx) : bool :=
  match cx_trace c with
  | Some tc => (ApprovalMode tc =?s "auto") || (ApprovalMode tc =?s "force")
  | None => false
  end.

(** What [CheckTool] does with the engine's decision. *)
Definition act_on_decision (e : PolicyEnforcer) (s : S) (c : Ctx) (decision : Decision)
    (explanation resourceType resourceName action : string) (tags : list string) (note : string)
    : S * option CheckError :=
  if NeedsApproval decision then
    if mode_authorises c then (s, None)
    else if pe_approvals e then
      requestApproval e s c (trace_id e) resourceType resourceName action tags note
    else (s, Some (ByPolicy (ApprovalRequiredError decision)))
  else if IsDenied decision then (s, Some (ByPolicy (DeniedError decision explanation)))
  else (s, None).

(** The two checks in code that come before any policy: what they say when they
    refuse, and the name they are recorded under. *)
Definition readonly_blocks (action : string) : bool :=
  (operatingMode =?s "readonly-governed") && ((action =?s ActionWrite) || (action =?s ActionDestructive)).

Definition purpose_missing (e : PolicyEnforcer) (c : Ctx) (sensitivity : list string) : bool :=
  requirePurposeForSensitive e && hasSensitiveSensitivity sensitivity &&
  negb (PurposeExplicitFromContext c).

Definition readonly_msg (resourceType action : string) : string :=
  "tool " ++ quote resourceType ++ " is a " ++ action ++
  " operation and is not permitted in readonly-governed mode; " ++
  "set HELPDESK_OPERATING_MODE=fix to enable mutations".

Definition purpose_msg (c : Ctx) (resourceType resourceName : string) (sensitivity : list string) : string :=
  "access to " ++ resourceType ++ "/" ++ resourceName ++ " requires an explicit purpose declaration " ++
  "(sensitivity: " ++ join "," sensitivity ++ ", current purpose " ++ quote (PurposeFromContext c).1 ++
  " was derived from operating mode, not declared); " ++
  "add 'purpose' to your request body or X-Purpose header".

Definition check_request (e : PolicyEnforcer) (c : Ctx) (resourceType resourceName action : string)
    (tags : list string) (note : string) (sensitivity : list string) (tool : string)
    (rows pods age : Z) (post : bool) : policyCheckReq :=
  {| pc_ResourceType := resourceType; pc_ResourceName := resourceName; pc_Action := action;
     pc_Tags := tags; pc_TraceID := trace_id e; pc_AgentName := pe_agentName e; pc_Note := note;
     pc_RowsAffected := rows; pc_PodsAffected := pods; pc_XactAgeSecs := age; pc_PostExecution := post;
     pc_Principal := ctx_principal c; pc_Purpose := (PurposeFromContext c).1;
     pc_PurposeNote := (PurposeFromContext c).2; pc_Sensitivity := sensitivity; pc_ToolName := tool |}.

Definition CheckTool (e : PolicyEnforcer) (s : S) (c : Ctx) (resourceType resourceName action : string)
    (tags : list string) (note : string) (sensitivity : list string)
    : list Recorded * (S * option CheckError) :=
  let invoked := record_if e (ToolInvoked resourceType resourceName action tags) in
  let p := ctx_principal c in
  let refuse (policyName msg : string) :=
    ((invoked ++ record_if e (PolicyRecorded (decision_record resourceType resourceName action tags
        "deny" policyName 0 msg note "" "" false false p "" "")))%list,
     (s, Some (Refused msg))) in
  if readonly_blocks action then refuse "readonly_governed_mode" (readonly_msg resourceType action)
  else if purpose_missing e c sensitivity then
    refuse "require_purpose_for_sensitive" (purpose_msg c resourceType resourceName sensitivity)
  else if negb (policyCheckURL e =?s "") then
    (invoked,
     match callRemotePolicyCheck (check_request e c resourceType resourceName action tags note
                                    sensitivity (cx_tool c) 0 0 0 false) with
     | Err msg => (s, Some (Refused msg))
     | Ok resp => handleRemoteResponse e s c resp (trace_id e) resourceType resourceName action tags note
     end)
  else
    match pe_engine e with
    | None => (invoked, (s, None))
    | Some engine =>
        let trace := Explain LoadLocation engine clock
          (engine_request c (trace_id e) resourceType resourceName action tags sensitivity (cx_tool c) 0 0 0) in
        let decision := tr_Decision trace in
        let autoApproved := NeedsApproval decision && mode_authorises c in
        ((invoked ++ record_if e (PolicyRecorded (decision_record resourceType resourceName action tags
            (d_Effect decision) (d_PolicyName decision) (d_RuleIndex decision) (d_Message decision) note
            (marshal_trace trace) (PolicyTypes.Explanation trace) false autoApproved p
            (PurposeFromContext c).1 (PurposeFromContext c).2)))%list,
         act_on_decision e s c decision (PolicyTypes.Explanation trace) resourceType resourceName action
           tags note)
    end.

(** The measured checks: deny or go on, never an approval. *)
Definition measured_remote (e : PolicyEnforcer) (c : Ctx) (resourceType resourceName action : string)
    (tags : list string) (rows pods age : Z) (post : bool) : option CheckError :=
  match callRemotePolicyCheck (check_request e c resourceType resourceName action tags "" [] ""
                                 rows pods age post) with
  | Err msg => Some (Refused msg)
  | Ok resp =>
      if negb (rs_Effect resp =?s "deny") then None
      else Some (ByPolicy (DeniedError
        {| d_Effect := EffectDeny; d_PolicyName := rs_PolicyName resp; d_RuleIndex := 0;
           d_Message := rs_Message resp; d_Conditions := []; d_RequiresApproval := false;
           d_ApprovalQuorum := 0%Z |} (rs_Explanation resp)))
  end.

Definition measured_check (e : PolicyEnforcer) (c : Ctx) (resourceType resourceName action : string)
    (tags : list string) (rows pods age : Z) (post : bool) : list Recorded * option CheckError :=
  if negb (policyCheckURL e =?s "") then
    ([], measured_remote e c resourceType resourceName action tags rows pods age post)
  else
    match pe_engine e with
    | None => ([], None)
    | Some engine =>
        let trace := Explain LoadLocation engine clock
          (engine_request c (trace_id e) resourceType resourceName action tags [] "" rows pods age) in
        let decision := tr_Decision trace in
        if negb (d_Effect decision =?s EffectDeny) then ([], None)
        else
          (record_if e (PolicyRecorded (decision_record resourceType resourceName action tags
             (d_Effect decision) (d_PolicyName decision) (d_RuleIndex decision) (d_Message decision) ""
             (marshal_trace trace) (PolicyTypes.Explanation trace) post false (ctx_principal c)
             (PurposeFromContext c).1 (PurposeFromContext c).2)),
           Some (ByPolicy (DeniedError decision (PolicyTypes.Explanation trace))))
    end.

Definition CheckResult (e : PolicyEnforcer) (c : Ctx) (resourceType resourceName action : string)
    (tags : list string) (outcome : ToolOutcome) : list Recorded * option CheckError :=
  match to_Err outcome with
  | Some _ => ([], None)
  | None =>
      if (action =?s ActionRead) && (to_RowsAffected outcome =? 0)%Z && (to_PodsAffected outcome =? 0)%Z
      then ([], None)
      else measured_check e c resourceType resourceName action tags
             (to_RowsAffected outcome) (to_PodsAffected outcome) 0 true
  end.

Definition CheckDatabaseSessionAge (e : PolicyEnforcer) (c : Ctx) (dbName action : string)
    (tags : list string) (xactAgeSecs : Z) (hasWrites : bool) : list Recorded * option CheckError :=
  if negb hasWrites || (xactAgeSecs =? 0)%Z then ([], None)
  else measured_check e c "database" dbName action tags 0 0 xactAgeSecs false.
End Enforcer.

(** ** The declarative verdict *)

Inductive Verdict := Proceeds | AsksApproval | Denies.

Definition effect_verdict (effect : string) : Verdict :=
  if effect =?s EffectRequireApproval then AsksApproval
  else if effect =?s EffectDeny then Denies else Proceeds.

(** What the first rule that applies says.  A rule whose conditions ask for approval
    does so even when one of its limits is broken. *)
Definition rule_verdict (LoadLocation : string -> option (Time -> Z)) (engine : Engine) (req : Request)
    : Verdict :=
  match first_match LoadLocation (Policies (config engine)) req with
  | Some (_, _, r) =>
      if rule_wants_approval r then AsksApproval
      else if rule_within_limits r req then effect_verdict (rl_Effect r) else Denies
  | None => effect_verdict (defaultEffect engine)
  end.

(** ** Lemmas *)

Lemma decision_verdict LoadLocation engine now req :
  dryRun engine = false ->
  let d := tr_Decision (Explain LoadLocation engine now req) in
  (if NeedsApproval d then AsksApproval else if IsDenied d then Denies else Proceeds) =
  rule_verdict LoadLocation engine (stamp now req).
Proof.
  intros Hdry. unfold Explain. simpl. rewrite Hdry. simpl. rewrite explain_decision. unfold rule_verdict.
  destruct (first_match LoadLocation _ _) as [[[pol i] r]|].
  - rewrite rule_decision_needs_approval. unfold IsDenied. rewrite rule_decision_effect.
    destruct (rule_wants_approval r); [done|]. unfold effect_verdict.
    destruct (rule_within_limits r _); simpl; [|done]. by destruct (rl_Effect r =?s EffectRequireApproval).
  - unfold NeedsApproval, IsDenied, effect_verdict. simpl. rewrite orb_false_r.
    by destruct (defaultEffect engine =?s EffectRequireApproval).
Qed.

Section Approvals.
Context {S : Type} `{!ApprovalAPI S} (now : Time).

Abbreviation asking := (requestApproval now).

(** When [requestApproval] lets a call go on it changes nothing, and auditd
    holds an approval with status approved for the resource the call names, for this
    agent or for this trace, that has no end of validity or has not reached it. *)
Theorem requestApproval_sound e s c traceID rtype name action tags note s'
    (Hpass : asking e s c traceID rtype name action tags note = (s', None)) :
  s' = s /\ exists a, In a (api_rows s) /\ Status a = "approved" /\
    ToolName a = rtype ++ ":" ++ name /\
    (pe_agentName e = "" \/ sa_AgentName a = pe_agentName e \/ sa_TraceID a = traceID) /\
    (ApprovalValidUntil a = 0%Z \/ (now <= ApprovalValidUntil a)%Z).
Proof.
  unfold requestApproval in Hpass. set (key := rtype ++ ":" ++ name) in Hpass |- *.
  assert (Hkey : key <> "").
  { unfold key. intros H. apply (f_equal String.length) in H. rewrite !length_app_s in H. simpl in H. lia. }
  assert (Hcreate : forall x, (match api_create s (approval_request e c traceID rtype name action tags note) with
      | (s', Err err) => (s', Some (Refused ("approval request failed: " ++ err)))
      | (s', Ok id) => (s', Some (ApprovalPending id)) end) = (x, None) -> False).
  { intros x. destruct (api_create s _) as [s1 [id|err]]; done. }
  assert (Htrace : (if traceID =?s "" then
      match api_create s (approval_request e c traceID rtype name action tags note) with
      | (s', Err err) => (s', Some (Refused ("approval request failed: " ++ err)))
      | (s', Ok id) => (s', Some (ApprovalPending id)) end
    else match CheckExistingApproval now s traceID key with
      | Ok (Some _) => (s, None)
      | _ => match api_create s (approval_request e c traceID rtype name action tags note) with
             | (s', Err err) => (s', Some (Refused ("approval request failed: " ++ err)))
             | (s', Ok id) => (s', Some (ApprovalPending id)) end
      end) = (s', None) ->
    s' = s /\ exists a, In a (api_rows s) /\ Status a = "approved" /\ ToolName a = key /\
      (pe_agentName e = "" \/ sa_AgentName a = pe_agentName e \/ sa_TraceID a = traceID) /\
      (ApprovalValidUntil a = 0%Z \/ (now <= ApprovalValidUntil a)%Z)).
  { destruct (traceID =?s ""); [by intros ?%Hcreate|].
    destruct (CheckExistingApproval now s traceID key) as [[a|]|err] eqn:Ec; [|by intros ?%Hcreate..].
    intros [= <-]. split; [done|]. exists a.
    apply CheckExistingApproval_sound in Ec as (Hr & Hs & Ht & [?|Hk] & Hv); [done|]. tauto. }
  destruct (FindApprovalByTool now s key (pe_agentName e)) as [[a|]|err] eqn:Ef; [|by apply Htrace..].
  apply FindApprovalByTool_sound in Ef as (Hr & Ha & [?|Hk] & Hv); [done|].
  destruct (String.eqb_spec (Status a) "approved") as [Hs|Hs].
  - injection Hpass as <-. split; [done|]. exists a. destruct Hv as [[_ Hv]|Hp]; [|congruence].
    unfold still_valid, IsZero, After in Hv. apply orb_true_iff in Hv as [Hv|Hv].
    + apply Z.eqb_eq in Hv. tauto.
    + apply Z.ltb_lt in Hv. split_and!; [done|done|done|tauto|right; lia].
  - destruct (Status a =?s "pending"); [done|]. by apply Htrace.
Qed.
End Approvals.

Section EnforcerProperties.
Context {S : Type} `{!ApprovalAPI S}.
Context (mode : string) (LoadLocation : string -> option (Time -> Z)) (marshal : DecisionTrace -> string).
Context (now : Time) (clock : Clock) (remote : policyCheckReq -> option (Z * option policyCheckResp)).

Abbreviation check := (CheckTool mode LoadLocation marshal now clock remote).
Abbreviation asking := (requestApproval now).


(** The measured check after a write or destructive call enforces the limits
    of the rule that applies to the measured request: with a local engine that is not in
    dry-run mode, a call that succeeded and broke a limit is denied, and the denial is
    recorded when there is an auditor; the request carries neither the sensitivity nor
    the tool name the first check was made with. *)
Theorem CheckResult_enforces_limits e c rtype name action tags rows pods engine
    (Hlocal : policyCheckURL e = "") (Hengine : pe_engine e = Some engine) (Hdry : dryRun engine = false)
    (Hmutating : action <> ActionRead) :
  let req := stamp clock (engine_request c (trace_id e) rtype name action tags [] "" rows pods 0) in
  let '(records, verdict) := CheckResult LoadLocation marshal clock remote e c rtype name action tags
    {| to_RowsAffected := rows; to_PodsAffected := pods; to_Err := None |} in
  match first_match LoadLocation (Policies (config engine)) req with
  | Some (_, _, r) =>
      verdict = None <-> rule_within_limits r req = true /\ rl_Effect r <> EffectDeny
  | None => verdict = None <-> defaultEffect engine <> EffectDeny
  end /\
  (verdict <> None -> pe_auditor e = true ->
   exists pd, records = [PolicyRecorded pd] /\ Events.Effect pd = "deny" /\ PostExecution pd = true).
Proof.
  intros req. unfold CheckResult. cbn [to_Err to_RowsAffected to_PodsAffected].
  rewrite (proj2 (streq_false action ActionRead) Hmutating). cbn [andb]. unfold measured_check.
  rewrite Hlocal, Hengine. replace (negb ("" =?s "")) with false by done.
  set (tr := Explain LoadLocation engine clock _).
  assert (Hd : tr_Decision tr = match first_match LoadLocation (Policies (config engine)) req with
      | Some (pol, i, r) => fst (rule_decision pol i r req)
      | None => default_decision (defaultEffect engine) end).
  { unfold tr, Explain. simpl. rewrite Hdry. simpl. apply explain_decision. }
  destruct (d_Effect (tr_Decision tr) =?s EffectDeny) eqn:Ed; cbn [negb].
  - apply streq_spec in Ed. split.
    + destruct (first_match LoadLocation _ req) as [[[pol i] r]|]; rewrite Hd in Ed.
      * rewrite rule_decision_effect in Ed. split; [done|]. intros [Hl Hr]. rewrite Hl in Ed.
        destruct (rule_wants_approval r && _); done.
      * simpl in Ed. by rewrite Ed.
    + intros _ Ha. unfold record_if. rewrite Ha. eexists. split; [done|]. by split; [exact Ed|].
  - apply streq_false in Ed. split; [|done].
    destruct (first_match LoadLocation _ req) as [[[pol i] r]|]; rewrite Hd in Ed.
    + rewrite rule_decision_effect in Ed. split; [|done]. intros _.
      destruct (rule_within_limits r req); [|done]. split; [done|]. intros Hr. rewrite Hr in Ed.
      replace (EffectDeny =?s EffectAllow) with false in Ed by done. by rewrite andb_false_r in Ed.
    + by split.
Qed.
End EnforcerProperties.

(** ** Concrete runs *)

(** Writes to production databases need an approval and must not be made for a
    diagnosis; a destructive call may touch ten rows; [drop_table] five. *)
Definition sample_conditions (approval : bool) (rows : Z) (blocked : list string) : option Conditions :=
  Some {| RequireApproval := approval; ApprovalQuorum := 0; MaxRowsAffected := rows; MaxPodsAffected := 0;
          MaxXactAgeSecs := 0; Sched := None; AllowedPurposes := []; BlockedPurposes := blocked |}.

Definition sample_resource (tool : string) : PolicyTypes.Resource :=
  {| rs_Type := "database";
     rs_Match := {| rm_Name := ""; rm_NamePattern := ""; rm_Tags := []; rm_Namespace := "";
                    rm_Sensitivity := []; rm_Tool := tool; rm_ToolPattern := "" |} |}.

Definition tool_policy : Policy :=
  {| pol_Name := "drop-limit"; pol_Description := ""; pol_Enabled := None; pol_Priority := 20;
     pol_Principals := []; pol_Resources := [sample_resource "drop_table"];
     pol_Rules := [{| rl_Action := [ActionDestructive]; rl_Effect := EffectAllow;
                      rl_Conditions := sample_conditions false 5 []; rl_Message := "" |}] |}.

Definition db_policy : Policy :=
  {| pol_Name := "db"; pol_Description := ""; pol_Enabled := None; pol_Priority := 10;
     pol_Principals := []; pol_Resources := [sample_resource ""];
     pol_Rules := [{| rl_Action := [ActionWrite]; rl_Effect := EffectAllow;
                      rl_Conditions := sample_conditions true 0 ["diagnostic"]; rl_Message := "" |};
                   {| rl_Action := [ActionDestructive]; rl_Effect := EffectAllow;
                      rl_Conditions := sample_conditions false 10 []; rl_Message := "" |}] |}.

Definition sample_policy_engine : Engine :=
  {| config := {| Version := "1"; Policies := [tool_policy; db_policy] |};
     defaultEffect := EffectDeny; dryRun := false |}.

Definition sample_enforcer : PolicyEnforcer :=
  {| pe_engine := Some sample_policy_engine; policyCheckURL := ""; pe_trace := Some "tr_9";
     pe_approvals := true; pe_agentName := "dbagent"; pe_auditor := true;
     requirePurposeForSensitive := true |}.

Definition sample_ctx (mode tool : string) : Ctx :=
  {| cx_trace := Some {| tc_TraceID := "tr_9"; tc_ParentID := ""; tc_Origin := "";
       tc_Principal := zero_principal; tc_Purpose := "diagnostic"; tc_PurposeNote := "";
       PurposeExplicit := true; ApprovalMode := mode; tc_ApprovalSession := "" |};
     cx_tool := tool |}.

Definition sample_clock : Clock := {| instant := Hours; zone_offset := 0 |}.

(** An approval of a write on the database [orders], granted to the agent. *)
Definition granted : StoredApproval :=
  {| ApprovalID := "apr_w"; sa_EventID := ""; sa_TraceID := "tr_1"; Status := "approved";
     sa_ActionClass := "write"; ToolName := "database:orders"; sa_AgentName := "dbagent";
     sa_ResourceType := "database"; sa_ResourceName := "orders"; RequestedBy := "alice";
     RequestedAt := 0%Z; RequestContext := []; ResolvedBy := "bob"; ResolvedAt := Second;
     ResolutionReason := "ok"; ExpiresAt := Hours; ApprovalValidUntil := 0%Z; sa_PolicyName := "";
     ApproverRole := ""; CallbackURL := ""; CallbackSentAt := 0%Z; CreatedAt := 0%Z; UpdatedAt := 0%Z |}.

Definition auditd_with (rows : list StoredApproval) : Served :=
  {| sv_server := {| store := NewApprovalStore rows; notifier := true;
                     authorizer := Authz.NewAuthorizer ∅ true; sent := [] |};
     sv_now := Hours; sv_uuid := "u"; sv_db := None |}.

Definition run_check (mode tool : string) (rows : list StoredApproval) (action : string)
    : option CheckError :=
  (CheckTool "fix" no_zones (fun _ => "") Hours sample_clock (fun _ => None) sample_enforcer
     (auditd_with rows) (sample_ctx mode tool) "database" "orders" action [] "" []).2.2.

(** A write for the purpose the rule blocks: decided as a denial, but the rule's
    approval comes first, and an approval mode "auto" is that approval. *)
Example denied_write_authorised :
  let req := engine_request (sample_ctx "auto" "") "tr_9" "database" "orders" ActionWrite [] [] "" 0 0 0 in
  d_Effect (tr_Decision (Explain no_zones sample_policy_engine sample_clock req)) = EffectDeny /\
  run_check "auto" "" [] ActionWrite = None /\
  run_check "" "" [] ActionWrite = Some (ApprovalPending "apr_u").
Proof. vm_compute. repeat split. Qed.

(** The key of an approval names the resource only: an approval of another action
    lets the write go on. *)
Example approval_of_another_action :
  let other := {| ApprovalID := "apr_w"; sa_EventID := ""; sa_TraceID := "tr_1"; Status := "approved";
     sa_ActionClass := "read"; ToolName := "database:orders"; sa_AgentName := "dbagent";
     sa_ResourceType := "database"; sa_ResourceName := "orders"; RequestedBy := "alice";
     RequestedAt := 0%Z; RequestContext := []; ResolvedBy := "bob"; ResolvedAt := Second;
     ResolutionReason := "ok"; ExpiresAt := Hours; ApprovalValidUntil := 0%Z; sa_PolicyName := "";
     ApproverRole := ""; CallbackURL := ""; CallbackSentAt := 0%Z; CreatedAt := 0%Z; UpdatedAt := 0%Z |} in
  run_check "" "" [other] ActionWrite = None.
Proof. vm_compute. reflexivity. Qed.

(** The five-row limit of [drop_table] decides the check before the call, and is not
    seen by the check after it. *)
Example tool_limit_not_measured :
  let decide rows tool :=
    tr_Decision (Explain no_zones sample_policy_engine sample_clock
      (engine_request (sample_ctx "" tool) "tr_9" "database" "orders" ActionDestructive [] [] tool rows 0 0)) in
  d_Effect (decide 7%Z "drop_table") = EffectDeny /\ d_PolicyName (decide 7%Z "drop_table") = "drop-limit" /\
  (CheckResult no_zones (fun _ => "") sample_clock (fun _ => None) sample_enforcer
     (sample_ctx "" "drop_table") "database" "orders" ActionDestructive []
     {| to_RowsAffected := 7; to_PodsAffected := 0; to_Err := None |}).2 = None.
Proof. vm_compute. repeat split. Qed.

(** Remote mode: an effect auditd does not define lets the call go on. *)
Example unknown_effect_allows :
  handleRemoteResponse Hours sample_enforcer (auditd_with []) (sample_ctx "" "")
    {| rs_Effect := "Deny"; rs_PolicyName := ""; rs_Message := ""; rs_Explanation := ""; rs_EventID := "" |}
    "tr_9" "database" "orders" ActionWrite [] "" = (auditd_with [], None).
Proof. reflexivity. Qed.


Lemma requestApproval_sound_witness :
  let s := auditd_with [granted] in
  requestApproval Hours sample_enforcer s (sample_ctx "" "") "tr_9" "database" "orders" ActionWrite [] ""
    = (s, None) /\
  s = s /\ exists a, In a (api_rows s) /\ Status a = "approved" /\ ToolName a = "database:orders" /\
    (pe_agentName sample_enforcer = "" \/ sa_AgentName a = pe_agentName sample_enforcer \/
     sa_TraceID a = "tr_9") /\
    (ApprovalValidUntil a = 0%Z \/ (Hours <= ApprovalValidUntil a)%Z).
Proof.
  intros s. split; [vm_compute; reflexivity|].
  apply (requestApproval_sound Hours sample_enforcer s (sample_ctx "" "") "tr_9" "database" "orders"
    ActionWrite [] "" s). vm_compute. reflexivity.
Defined.

(** Eleven rows are one too many. *)
Lemma CheckResult_enforces_limits_witness :
  let out := CheckResult no_zones (fun _ => "") sample_clock (fun _ => None) sample_enforcer
    (sample_ctx "" "vacuum") "database" "orders" ActionDestructive []
    {| to_RowsAffected := 11; to_PodsAffected := 0; to_Err := None |} in
  out.2 <> None /\ exists pd, out.1 = [PolicyRecorded pd] /\ Events.Effect pd = "deny" /\
    PostExecution pd = true.
Proof.
  pose proof (CheckResult_enforces_limits no_zones (fun _ => "") sample_clock (fun _ => None)
    sample_enforcer (sample_ctx "" "vacuum") "database" "orders" ActionDestructive [] 11 0
    sample_policy_engine eq_refl eq_refl eq_refl ltac:(discriminate)) as H.
  cbv zeta in H. destruct (CheckResult _ _ _ _ _ _ _ _ _ _ _) as [records verdict] eqn:E.
  intros out. destruct H as [H1 H2].
  assert (Hv : verdict <> None).
  { intros Hn. apply H1 in Hn as [Hn _]. vm_compute in Hn. discriminate. }
  split; [exact Hv|]. exact (H2 Hv eq_refl).
Defined.
