(* ===== verification/GovernanceCheck.v ===== *)
(** * Policy checks on the audit service

    cmd/auditd/governance_handlers.go: the look-ups of tags and sensitivity in the
    infrastructure configuration, POST /v1/governance/check, which evaluates the engine
    and records the decision as one event of the hash chain, and GET
    /v1/governance/explain, which only evaluates.  [served_check] is the exchange an
    agent in remote mode has with the first: it instantiates the parameter [remote] of
    Enforcer.v, and [CheckTool_remote] and [remote_local_agree] compare the two modes. *)

From S2P Require Import Prelude GoTime Identity Authz Events AuditChain PolicyTypes PolicyEngine PolicyExplain.
From S2P Require Import AuthzTables ApprovalStore ApprovalClient Enforcer.

Open Scope string_scope.

(** ** internal/infra/infra.go: the configuration *)

Record DBServer := {
  db_Name : string;
  ConnectionString : string;
  PasswordEnv : string;
  db_K8sCluster : string;
  K8sNamespace : string;
  K8sPodSelector : string;
  VMName : string;
  ContainerName : string;
  SystemdUnit : string;
  db_Tags : list string;
  db_Sensitivity : list string;
  ApprovalOverrideRoles : list string }.

Record K8sCluster := {
  k8s_Name : string;
  k8s_Context : string;
  k8s_Tags : list string;
  k8s_Sensitivity : list string }.

Record VM := { vm_Name : string; Address : string; Runtime : string }.

Record InfraConfig := {
  DBServers : gmap string DBServer;
  K8sClusters : gmap string K8sCluster;
  VMs : gmap string VM }.

(** ** The server *)

(** The members of governanceServer the two handlers use. *)
Record governanceServer := {
  auditStore : Store;
  policyEngine : option Engine;
  infraConfig : option InfraConfig }.

Definition tagsFromInfra (s : governanceServer) (resourceType resourceName : string) : list string :=
  match infraConfig s with
  | None => []
  | Some cfg =>
      if resourceType =?s "database" then
        match DBServers cfg !! resourceName with Some db => db_Tags db | None => [] end
      else if resourceType =?s "kubernetes" then
        match K8sClusters cfg !! resourceName with Some k8s => k8s_Tags k8s | None => [] end
      else []
  end.

Definition sensitivityFromInfra (s : governanceServer) (resourceType resourceName : string) : list string :=
  match infraConfig s with
  | None => []
  | Some cfg =>
      if resourceType =?s "database" then
        match DBServers cfg !! resourceName with Some db => db_Sensitivity db | None => [] end
      else if resourceType =?s "kubernetes" then
        match K8sClusters cfg !! resourceName with Some k8s => k8s_Sensitivity k8s | None => [] end
      else []
  end.

Definition resourceInInfra (s : governanceServer) (resourceType resourceName : string) : bool :=
  match infraConfig s with
  | None => false
  | Some cfg =>
      if resourceType =?s "database" then
        match DBServers cfg !! resourceName with Some _ => true | None => false end
      else if resourceType =?s "kubernetes" then
        match K8sClusters cfg !! resourceName with Some _ => true | None => false end
      else false
  end.

Record PolicyCheckRequest := {
  k_ResourceType : string;
  k_ResourceName : string;
  k_Action : string;
  k_Tags : list string;
  k_TraceID : string;
  k_SessionID : string;
  k_AgentName : string;
  k_Note : string;
  k_RowsAffected : Z;
  k_PodsAffected : Z;
  k_XactAgeSecs : Z;
  k_PostExecution : bool;
  k_Principal : ResolvedPrincipal;
  k_Purpose : string;
  k_PurposeNote : string;
  k_Sensitivity : list string;
  k_ToolName : string }.

Record PolicyCheckResponse := {
  a_Effect : string;
  a_PolicyName : string;
  a_Message : string;
  a_Explanation : string;
  a_RequiresApproval : bool;
  a_Trace : DecisionTrace;
  a_EventID : string;
  a_TraceID : string }.

Inductive CheckReply :=
  | CheckFailed (code : Z) (msg : string)
  | CheckAnswered (code : Z) (resp : PolicyCheckResponse).

(** The body as the decoder leaves it: an error or the request. *)
Abbreviation decoded := (result string PolicyCheckRequest) (only parsing).

Section Governance.
(** The parameters of the audit store and of the engine. *)
Context (sha256hex : string -> string) (marshal_hash : HashInput -> option string).
Context (marshal_event : Event -> option string) (marshal_decision : Events.Decision -> string).
Context (marshal_tool : ToolExecution -> string) (marshal_approval : Approval -> string).
Context (marshal_trace : DecisionTrace -> string) (LoadLocation : string -> option (Time -> Z)).
(** The clock, the first eight characters of the two fresh ids, the failure of the
    database. *)
Context (now : Time) (clock : Clock) (uuid_trace uuid_event : string) (db_err : option string).

Definition record (st : Store) (event : Event) : Store * option string :=
  Record_event sha256hex marshal_hash marshal_event marshal_decision marshal_tool marshal_approval
    now "" db_err st event.

Definition check_tags (s : governanceServer) (req : PolicyCheckRequest) : list string :=
  match k_Tags req with
  | [] => tagsFromInfra s (k_ResourceType req) (k_ResourceName req)
  | tags => tags
  end.

Definition check_sensitivity (s : governanceServer) (req : PolicyCheckRequest) : list string :=
  match k_Sensitivity req with
  | [] => sensitivityFromInfra s (k_ResourceType req) (k_ResourceName req)
  | sensitivity => sensitivity
  end.

Definition check_trace_id (req : PolicyCheckRequest) : string :=
  if k_TraceID req =?s "" then "chk_" ++ uuid_trace else k_TraceID req.

(** The request to the engine. *)
Definition check_policy_request (s : governanceServer) (req : PolicyCheckRequest) : Request :=
  {| rq_Principal := {| rp_UserID := UserID (k_Principal req); rp_Roles := Roles (k_Principal req);
                        rp_Service := Service (k_Principal req) |};
     rq_Resource := {| rr_Type := k_ResourceType req; rr_Name := k_ResourceName req;
                       rr_Tags := check_tags s req; rr_Namespace := ""; rr_Extra := [];
                       rr_Sensitivity := check_sensitivity s req; rr_ToolName := k_ToolName req |};
     rq_Action := k_Action req;
     rq_Context := {| PolicyTypes.Timestamp := {| instant := 0%Z; zone_offset := 0%Z |};
                      rc_TraceID := check_trace_id req;
                      RowsAffected := k_RowsAffected req; PodsAffected := k_PodsAffected req;
                      XactAgeSecs := k_XactAgeSecs req; rc_Purpose := k_Purpose req;
                      rc_PurposeNote := k_PurposeNote req |} |}.

Definition check_decision_record (s : governanceServer) (req : PolicyCheckRequest) (trace : DecisionTrace)
    : Events.PolicyDecision :=
  let decision := tr_Decision trace in
  {| ResourceType := k_ResourceType req; ResourceName := k_ResourceName req; pd_Action := k_Action req;
     pd_Tags := check_tags s req; Events.Effect := d_Effect decision; PolicyName := d_PolicyName decision;
     RuleIndex := Z.of_nat (d_RuleIndex decision); Message := d_Message decision; Note := k_Note req;
     DryRun := false; PostExecution := k_PostExecution req; Trace := marshal_trace trace;
     Events.Explanation := PolicyTypes.Explanation trace; pd_UserID := UserID (k_Principal req);
     pd_Roles := Roles (k_Principal req); pd_Service := Service (k_Principal req);
     pd_AuthMethod := AuthMethod (k_Principal req); AutoApproved := false; pd_Purpose := k_Purpose req;
     pd_PurposeNote := k_PurposeNote req; pd_Sensitivity := check_sensitivity s req |}.

Definition check_event (s : governanceServer) (req : PolicyCheckRequest) (trace : DecisionTrace) : Event :=
  {| EventID := "pol_" ++ uuid_event; Events.Timestamp := now; EventType := EventTypePolicyDecision;
     TraceID := check_trace_id req; ParentID := ""; Origin := ""; e_ActionClass := k_Action req;
     PrevHash := ""; EventHash := ""; e_Principal := None; e_Purpose := ""; e_PurposeNote := "";
     e_Session := {| s_ID := if k_SessionID req =?s "" then check_trace_id req else k_SessionID req;
                     s_UserID := ""; AgentName := ""; StartedAt := 0%Z; DelegationCount := 0%Z |};
     e_Input := {| UserQuery := ""; InfrastructureContext := [] |}; e_Output := None; e_Tool := None;
     e_Approval := None; e_Decision := None;
     e_PolicyDecision := Some (check_decision_record s req trace); e_AgentReasoning := None;
     e_GovernanceViolation := None; e_DelegationVerification := None; e_Outcome := None;
     e_RollbackExecution := None |}.

Definition with_audit (st : Store) (s : governanceServer) : governanceServer :=
  {| auditStore := st; policyEngine := policyEngine s; infraConfig := infraConfig s |}.

Definition handlePolicyCheck (s : governanceServer) (body : decoded) : governanceServer * CheckReply :=
  match policyEngine s with
  | None =>
      (s, CheckFailed 503
            "policy engine not configured; set HELPDESK_POLICY_FILE and HELPDESK_POLICY_ENABLED")
  | Some engine =>
      match body with
      | Err e => (s, CheckFailed 400 ("invalid JSON: " ++ e))
      | Ok req =>
          if (k_ResourceType req =?s "") || (k_ResourceName req =?s "") || (k_Action req =?s "") then
            (s, CheckFailed 400 "resource_type, resource_name and action are required")
          else if negb (k_AgentName req =?s "") && (k_TraceID req =?s "") then
            (s, CheckFailed 400 "agent requests must include trace_id")
          else
            let trace := Explain LoadLocation engine clock (check_policy_request s req) in
            let decision := tr_Decision trace in
            let '(st, _) := record (auditStore s) (check_event s req trace) in
            (with_audit st s,
             CheckAnswered (if IsDenied decision then 403 else 200)
               {| a_Effect := d_Effect decision; a_PolicyName := d_PolicyName decision;
                  a_Message := d_Message decision; a_Explanation := PolicyTypes.Explanation trace;
                  a_RequiresApproval := NeedsApproval decision; a_Trace := trace;
                  a_EventID := "pol_" ++ uuid_event; a_TraceID := check_trace_id req |})
      end
  end.

(** ** GET /v1/governance/explain *)

(** The query parameters; an absent one is empty. *)
Record ExplainQuery := {
  x_resource_type : string;
  x_resource_name : string;
  x_action : string;
  x_tags : string;
  x_user_id : string;
  x_service : string;
  x_role : string;
  x_purpose : string;
  x_sensitivity : string }.

Inductive ExplainReply :=
  | ExplainDisabled
  | ExplainError (code : Z) (msg : string)
  | ExplainTrace (trace : DecisionTrace).

(** The words of a comma-separated parameter. *)
Definition words (raw : string) : list string :=
  if raw =?s "" then []
  else List.filter (fun t => negb (t =?s "")) (map trim_space (split_on "," raw)).

Definition explain_tags (s : governanceServer) (q : ExplainQuery) : list string :=
  match words (x_tags q) with
  | [] => tagsFromInfra s (x_resource_type q) (x_resource_name q)
  | tags => tags
  end.

Definition explain_sensitivity (s : governanceServer) (q : ExplainQuery) : list string :=
  match words (x_sensitivity q) with
  | [] => sensitivityFromInfra s (x_resource_type q) (x_resource_name q)
  | sensitivity => sensitivity
  end.

Definition explain_request (s : governanceServer) (q : ExplainQuery) : Request :=
  {| rq_Principal := {| rp_UserID := x_user_id q;
                        rp_Roles := if x_role q =?s "" then [] else [x_role q];
                        rp_Service := x_service q |};
     rq_Resource := {| rr_Type := x_resource_type q; rr_Name := x_resource_name q;
                       rr_Tags := explain_tags s q; rr_Namespace := ""; rr_Extra := [];
                       rr_Sensitivity := explain_sensitivity s q; rr_ToolName := "" |};
     rq_Action := x_action q;
     rq_Context := {| PolicyTypes.Timestamp := {| instant := 0%Z; zone_offset := 0%Z |}; rc_TraceID := "";
                      RowsAffected := 0; PodsAffected := 0; XactAgeSecs := 0;
                      rc_Purpose := x_purpose q; rc_PurposeNote := "" |} |}.

Definition not_found_note (resourceName : string) : string :=
  "⚠️  Resource " ++ dquote ++ resourceName ++ dquote ++
  " was not found in the infrastructure config." ++ nl ++
  "Tags and sensitivity could not be resolved — policy evaluation used no tags." ++ nl ++
  "Check that the resource name matches exactly (case-sensitive) in HELPDESK_INFRA_CONFIG." ++ nl ++ nl.

Definition notFoundInInfra (s : governanceServer) (q : ExplainQuery) : bool :=
  negb (nonempty (words (x_tags q))) &&
  match infraConfig s with Some _ => true | None => false end &&
  negb (nonempty (explain_tags s q)) &&
  negb (resourceInInfra s (x_resource_type q) (x_resource_name q)).

Definition handleExplain (s : governanceServer) (q : ExplainQuery) : ExplainReply :=
  match policyEngine s with
  | None => ExplainDisabled
  | Some engine =>
      if (x_resource_type q =?s "") || (x_resource_name q =?s "") || (x_action q =?s "") then
        ExplainError 400 "resource_type, resource_name and action are required"
      else
        let trace := Explain LoadLocation engine clock (explain_request s q) in
        ExplainTrace
          (if notFoundInInfra s q then
             {| tr_Decision := tr_Decision trace; PoliciesEvaluated := PoliciesEvaluated trace;
                DefaultApplied := DefaultApplied trace;
                PolicyTypes.Explanation :=
                  not_found_note (x_resource_name q) ++ PolicyTypes.Explanation trace |}
           else trace)
  end.

(** ** The exchange with an agent in remote mode *)

(** The agent's body, decoded. *)
Definition received (r : policyCheckReq) : PolicyCheckRequest :=
  {| k_ResourceType := pc_ResourceType r; k_ResourceName := pc_ResourceName r; k_Action := pc_Action r;
     k_Tags := pc_Tags r; k_TraceID := pc_TraceID r; k_SessionID := ""; k_AgentName := pc_AgentName r;
     k_Note := pc_Note r; k_RowsAffected := pc_RowsAffected r; k_PodsAffected := pc_PodsAffected r;
     k_XactAgeSecs := pc_XactAgeSecs r; k_PostExecution := pc_PostExecution r;
     k_Principal := pc_Principal r; k_Purpose := pc_Purpose r; k_PurposeNote := pc_PurposeNote r;
     k_Sensitivity := pc_Sensitivity r; k_ToolName := pc_ToolName r |}.

(** What the agent decodes from the reply: the error object has none of the members. *)
Definition sent_back (r : CheckReply) : Z * option policyCheckResp :=
  match r with
  | CheckFailed code _ =>
      (code, Some {| rs_Effect := ""; rs_PolicyName := ""; rs_Message := ""; rs_Explanation := "";
                     rs_EventID := "" |})
  | CheckAnswered code resp =>
      (code, Some {| rs_Effect := a_Effect resp; rs_PolicyName := a_PolicyName resp;
                     rs_Message := a_Message resp; rs_Explanation := a_Explanation resp;
                     rs_EventID := a_EventID resp |})
  end.

(** The middleware in front of the handler answers a refused caller in plain text,
    which the agent cannot decode. *)
Definition served_check (authz : Authorizer) (caller : result string ResolvedPrincipal)
    (s : governanceServer) (r : policyCheckReq) : option (Z * option policyCheckResp) :=
  match Middleware authz caller "POST /v1/governance/check" with
  | Authz.Refused status _ => Some (status, None)
  | Authz.Served _ => Some (sent_back (handlePolicyCheck s (Ok (received r))).2)
  end.
End Governance.

(** ** What the handlers do *)

Section HandlerProperties.
Context (sha256hex : string -> string) (marshal_hash : HashInput -> option string).
Context (marshal_event : Event -> option string) (marshal_decision : Events.Decision -> string).
Context (marshal_tool : ToolExecution -> string) (marshal_approval : Approval -> string).
Context (marshal_trace : DecisionTrace -> string) (LoadLocation : string -> option (Time -> Z)).
Context (now : Time) (clock : Clock) (uuid_trace uuid_event : string) (db_err : option string).

Abbreviation handle := (handlePolicyCheck sha256hex marshal_hash marshal_event marshal_decision marshal_tool
  marshal_approval marshal_trace LoadLocation now clock uuid_trace uuid_event db_err).
Abbreviation record_in := (record sha256hex marshal_hash marshal_event marshal_decision marshal_tool
  marshal_approval now db_err).

(** A request the handler evaluates. *)
Definition well_formed (req : PolicyCheckRequest) : Prop :=
  k_ResourceType req <> "" /\ k_ResourceName req <> "" /\ k_Action req <> "" /\
  (k_AgentName req = "" \/ k_TraceID req <> "").

Lemma handle_well_formed s engine req :
  policyEngine s = Some engine -> well_formed req ->
  let trace := Explain LoadLocation engine clock (check_policy_request uuid_trace s req) in
  let decision := tr_Decision trace in
  handle s (Ok req) =
    (with_audit (record_in (auditStore s) (check_event marshal_trace now uuid_trace uuid_event s req trace)).1 s,
     CheckAnswered (if IsDenied decision then 403 else 200)
       {| a_Effect := d_Effect decision; a_PolicyName := d_PolicyName decision;
          a_Message := d_Message decision; a_Explanation := PolicyTypes.Explanation trace;
          a_RequiresApproval := NeedsApproval decision; a_Trace := trace;
          a_EventID := "pol_" ++ uuid_event; a_TraceID := check_trace_id uuid_trace req |}).
Proof.
  intros He (H1%streq_false & H2%streq_false & H3%streq_false & H4). cbv zeta. unfold handlePolicyCheck.
  rewrite He, H1, H2, H3. cbn [orb].
  assert (Ha : negb (k_AgentName req =?s "") && (k_TraceID req =?s "") = false).
  { destruct H4 as [->|H4%streq_false]; [done|]. by rewrite H4, andb_false_r. }
  rewrite Ha. by destruct (record_in _ _).
Qed.

(** What [Record] adds: one row with the event's id and its trace, or nothing when the
    event cannot be encoded or written. *)
Lemma record_row st event : EventID event <> "" ->
  let st' := (record_in st event).1 in
  st' = st \/ exists r, rows st' = (rows st ++ [r])%list /\ event_id r = EventID event /\
    AuditChain.trace_id r = TraceID event /\ event_type r = EventType event.
Proof.
  intros Hid. unfold record, Record_event.
  set (e := complete_event _ _ _ _ _ _).
  assert (He : EventID e = EventID event /\ TraceID e = TraceID event /\ EventType e = EventType event).
  { unfold e, complete_event. apply streq_false in Hid. rewrite Hid. by destruct (IsZero _). }
  destruct (marshal_event e) as [raw|]; [|by left].
  destruct (insert_row _ _ _); [by left|]. right. eexists. split; [reflexivity|].
  destruct He as (H1 & H2 & H3). unfold row_of.
  destruct (outcome_columns e) as [[] ?], (purpose_columns e). simpl. done.
Qed.

(** POST /v1/governance/check on every branch: without an engine 503,
    and 400 for an undecodable, incomplete or untraced agent request, with nothing
    changed; otherwise the engine's decision for the request completed from the
    infrastructure configuration is the answer, with 403 exactly for a denial, and the
    audit log takes one step that appends at most one event, with the id and the trace
    id of the answer; if it appends none the answer is the same. *)
Theorem handlePolicyCheck_spec s body :
  let '(s', reply) := handle s body in
  policyEngine s' = policyEngine s /\ infraConfig s' = infraConfig s /\
  match reply with
  | CheckFailed code _ =>
      s' = s /\ (code = 503%Z /\ policyEngine s = None \/
                 code = 400%Z /\ policyEngine s <> None /\
                 (forall req, body = Ok req -> ~ well_formed req))
  | CheckAnswered code resp =>
      exists engine req, policyEngine s = Some engine /\ body = Ok req /\ well_formed req /\
      a_Trace resp = Explain LoadLocation engine clock (check_policy_request uuid_trace s req) /\
      a_Effect resp = d_Effect (tr_Decision (a_Trace resp)) /\
      code = (if a_Effect resp =?s "deny" then 403 else 200)%Z /\
      a_TraceID resp <> "" /\
      store_step sha256hex marshal_hash marshal_event marshal_decision marshal_tool marshal_approval
        (auditStore s) (auditStore s') /\
      (auditStore s' = auditStore s \/
       exists r, rows (auditStore s') = (rows (auditStore s) ++ [r])%list /\
         event_id r = a_EventID resp /\ AuditChain.trace_id r = a_TraceID resp /\
         event_type r = EventTypePolicyDecision)
  end.
Proof.
  destruct (policyEngine s) as [engine|] eqn:He.
  2: { unfold handlePolicyCheck. rewrite He. split_and!; [done|done|done|by left]. }
  destruct body as [req|err].
  2: { unfold handlePolicyCheck. rewrite He. split_and!; [done|done|done|]. right. by split_and!. }
  assert (Hd : well_formed req \/ ~ well_formed req).
  { unfold well_formed. destruct (String.eqb_spec (k_ResourceType req) ""), (String.eqb_spec (k_ResourceName req) ""),
      (String.eqb_spec (k_Action req) ""), (String.eqb_spec (k_AgentName req) ""),
      (String.eqb_spec (k_TraceID req) ""); tauto. }
  destruct Hd as [Hw|Hw].
  - rewrite (handle_well_formed s engine req He Hw). set (trace := Explain _ _ _ _).
    split_and!; [exact He|done|]. exists engine, req. split_and!; try done.
    + cbn [a_TraceID]. unfold check_trace_id. by destruct (String.eqb_spec (k_TraceID req) "").
    + apply step_record.
    + by apply record_row.
  - assert (Hf : exists msg, handle s (Ok req) = (s, CheckFailed 400 msg)).
    { unfold handlePolicyCheck. rewrite He. unfold well_formed in Hw.
      destruct (String.eqb_spec (k_ResourceType req) ""), (String.eqb_spec (k_ResourceName req) ""),
        (String.eqb_spec (k_Action req) ""), (String.eqb_spec (k_AgentName req) ""),
        (String.eqb_spec (k_TraceID req) ""); simpl; first [by eexists|tauto]. }
    destruct Hf as [msg ->]. split_and!; [exact He|done|done|]. right. split_and!; [done|done|].
    by intros ? [= <-].
Qed.

(** Two requests the engine cannot tell apart: neither the trace id nor the note of the
    purpose is looked at. *)
Lemma decision_ignores_trace engine p r a ts t1 t2 n1 n2 rows pods age purpose :
  let req t n := {| rq_Principal := p; rq_Resource := r; rq_Action := a;
    rq_Context := {| PolicyTypes.Timestamp := ts; rc_TraceID := t; RowsAffected := rows; PodsAffected := pods;
                     XactAgeSecs := age; rc_Purpose := purpose; rc_PurposeNote := n |} |} in
  tr_Decision (Explain LoadLocation engine clock (req t1 n1)) =
  tr_Decision (Explain LoadLocation engine clock (req t2 n2)).
Proof.
  intros req. unfold Explain. cbn [tr_Decision]. rewrite !explain_decision.
  unfold stamp, req. cbn [rq_Context PolicyTypes.Timestamp]. by destruct (IsZero (instant ts)).
Qed.

(** GET /v1/governance/explain predicts the check: for the same
    resource, action and caller with at most one role, and with the tags and the
    sensitivity classes written as the check lists them, it answers with the decision
    the check answers with, provided the check names no tool and reports no measured
    numbers. *)
Theorem explain_predicts_check s q req engine
    (Hengine : policyEngine s = Some engine) (Hreq : well_formed req)
    (Hresource : x_resource_type q = k_ResourceType req /\ x_resource_name q = k_ResourceName req /\
                 x_action q = k_Action req)
    (Hcaller : x_user_id q = UserID (k_Principal req) /\ x_service q = Service (k_Principal req) /\
               Roles (k_Principal req) = if x_role q =?s "" then [] else [x_role q])
    (Hclasses : words (x_tags q) = k_Tags req /\ words (x_sensitivity q) = k_Sensitivity req)
    (Hcontext : x_purpose q = k_Purpose req /\ k_ToolName req = "" /\ k_RowsAffected req = 0%Z /\
                k_PodsAffected req = 0%Z /\ k_XactAgeSecs req = 0%Z) :
  match handleExplain LoadLocation clock s q, (handle s (Ok req)).2 with
  | ExplainTrace trace, CheckAnswered _ resp => tr_Decision trace = tr_Decision (a_Trace resp)
  | _, _ => False
  end.
Proof.
  rewrite (handle_well_formed s engine req Hengine Hreq). cbn [snd a_Trace].
  unfold handleExplain. rewrite Hengine.
  destruct Hresource as (Ht & Hn & Ha), Hreq as (H1%streq_false & H2%streq_false & H3%streq_false & _).
  rewrite <- Ht in H1. rewrite <- Hn in H2. rewrite <- Ha in H3. rewrite H1, H2, H3. cbn [orb].
  assert (Hd : tr_Decision (Explain LoadLocation engine clock (explain_request s q)) =
    tr_Decision (Explain LoadLocation engine clock (check_policy_request uuid_trace s req))).
  { unfold explain_request, check_policy_request, explain_tags, explain_sensitivity, check_tags,
      check_sensitivity.
    destruct Hcaller as (-> & -> & ->), Hclasses as (-> & ->), Hcontext as (-> & -> & -> & -> & ->).
    rewrite Ht, Hn, Ha. apply decision_ignores_trace. }
  by destruct (notFoundInInfra s q).
Qed.
End HandlerProperties.

(** ** Remote and local enforcement *)

Section Remote.
Context (sha256hex : string -> string) (marshal_hash : HashInput -> option string).
Context (marshal_event : Event -> option string) (marshal_decision : Events.Decision -> string).
Context (marshal_tool : ToolExecution -> string) (marshal_approval : Approval -> string).
Context (marshal_trace : DecisionTrace -> string) (LoadLocation : string -> option (Time -> Z)).
Context (clock : Clock) (uuid_trace uuid_event : string) (db_err : option string).
Context {S : Type} `{!ApprovalAPI S} (mode : string) (now : Time).
(** The audit service: its permissions, who it takes the agent for, its state. *)
Context (authz : Authorizer) (caller : result string ResolvedPrincipal) (gs : governanceServer).

Abbreviation auditd := (served_check sha256hex marshal_hash marshal_event marshal_decision marshal_tool
  marshal_approval marshal_trace LoadLocation now clock uuid_trace uuid_event db_err authz caller gs).
Abbreviation check := (CheckTool mode LoadLocation marshal_trace now clock).

(** What the server looks up for an agent that sends no tags or no classes. *)
Definition resolve_tags (rtype name : string) (tags : list string) : list string :=
  match tags with [] => tagsFromInfra gs rtype name | _ => tags end.
Definition resolve_sensitivity (rtype name : string) (sens : list string) : list string :=
  match sens with [] => sensitivityFromInfra gs rtype name | _ => sens end.

Definition agent_decision (engine : Engine) (e : PolicyEnforcer) (c : Ctx)
    (rtype name action : string) (tags sens : list string) : DecisionTrace :=
  Explain LoadLocation engine clock
    (engine_request c (trace_id e) rtype name action tags sens (cx_tool c) 0 0 0).

(** A decision as it comes back over the wire. *)
Definition wire_decision (d : PolicyTypes.Decision) : PolicyTypes.Decision :=
  {| d_Effect := d_Effect d; d_PolicyName := d_PolicyName d; d_RuleIndex := 0;
     d_Message := d_Message d; d_Conditions := []; d_RequiresApproval := false;
     d_ApprovalQuorum := 0%Z |}.

Definition asks_well (e : PolicyEnforcer) (rtype name action : string) : Prop :=
  rtype <> "" /\ name <> "" /\ action <> "" /\ (pe_agentName e = "" \/ trace_id e <> "").

Lemma request_received e c rtype name action tags note sens :
  trace_id e <> "" ->
  check_policy_request uuid_trace gs
    (received (check_request e c rtype name action tags note sens (cx_tool c) 0 0 0 false)) =
  engine_request c (trace_id e) rtype name action (resolve_tags rtype name tags)
    (resolve_sensitivity rtype name sens) (cx_tool c) 0 0 0.
Proof.
  intros Ht%streq_false. unfold check_policy_request, check_trace_id. simpl. rewrite Ht.
  by destruct c as [[t|] tool], tags, sens.
Qed.

Lemma asks_well_formed e c rtype name action tags note sens tool rows pods age post :
  asks_well e rtype name action ->
  well_formed (received (check_request e c rtype name action tags note sens tool rows pods age post)).
Proof. done. Qed.

Lemma remote_answer e c rtype name action tags note sens engine p :
  Middleware authz caller "POST /v1/governance/check" = Authz.Served p ->
  policyEngine gs = Some engine -> asks_well e rtype name action -> trace_id e <> "" ->
  let trace := agent_decision engine e c rtype name action
    (resolve_tags rtype name tags) (resolve_sensitivity rtype name sens) in
  callRemotePolicyCheck auditd
    (check_request e c rtype name action tags note sens (cx_tool c) 0 0 0 false) =
  Ok {| rs_Effect := d_Effect (tr_Decision trace); rs_PolicyName := d_PolicyName (tr_Decision trace);
        rs_Message := d_Message (tr_Decision trace); rs_Explanation := PolicyTypes.Explanation trace;
        rs_EventID := "pol_" ++ uuid_event |}.
Proof.
  intros Hauth He Hw Ht. cbv zeta. unfold callRemotePolicyCheck, served_check. rewrite Hauth.
  rewrite (handle_well_formed _ _ _ _ _ _ _ _ _ _ _ _ _ gs engine _ He
    (asks_well_formed _ _ _ _ _ _ _ _ _ _ _ _ _ Hw)).
  rewrite request_received by done. by destruct (IsDenied _).
Qed.

(** What a check in remote mode comes to, when auditd lets the agent in
    and its engine is set: after the two refusals made in code, the agent denies with the
    policy and the message of auditd's decision, asks for an approval when the effect is
    require_approval, whatever approval mode the request carries, and goes on otherwise;
    the decision is made with the tags and the classes auditd looks up when none are
    sent. *)
Theorem CheckTool_remote e s c rtype name action tags note sens engine p
    (Hauth : Middleware authz caller "POST /v1/governance/check" = Authz.Served p)
    (Hengine : policyEngine gs = Some engine) (Hremote : policyCheckURL e <> "")
    (Hask : asks_well e rtype name action) (Htrace : trace_id e <> "") :
  let trace := agent_decision engine e c rtype name action
    (resolve_tags rtype name tags) (resolve_sensitivity rtype name sens) in
  let d := tr_Decision trace in
  (check auditd e s c rtype name action tags note sens).2 =
  if readonly_blocks mode action then (s, Some (Enforcer.Refused (readonly_msg rtype action)))
  else if purpose_missing e c sens then (s, Some (Enforcer.Refused (purpose_msg c rtype name sens)))
  else if d_Effect d =?s EffectDeny then
    (s, Some (ByPolicy (DeniedError (wire_decision d) (PolicyTypes.Explanation trace))))
  else if d_Effect d =?s EffectRequireApproval then
    if pe_approvals e then requestApproval now e s c (trace_id e) rtype name action tags note
    else (s, Some (ByPolicy (ApprovalRequiredError (wire_decision d))))
  else (s, None).
Proof.
  intros trace d. unfold CheckTool. destruct (readonly_blocks mode action); [done|].
  destruct (purpose_missing e c sens); [done|]. apply streq_false in Hremote. rewrite Hremote. cbn [negb snd].
  rewrite (remote_answer e c rtype name action tags note sens engine p Hauth Hengine Hask Htrace).
  fold trace. fold d. unfold handleRemoteResponse, wire_decision. cbn [rs_Effect rs_PolicyName rs_Message rs_Explanation].
  destruct (String.eqb_spec (d_Effect d) EffectDeny) as [->|Hd]; [done|].
  destruct (String.eqb_spec (d_Effect d) EffectRequireApproval) as [->|Hr]; [done|].
  destruct (String.eqb_spec (d_Effect d) "allow"); [done|].
  by rewrite (proj2 (streq_false _ "deny") Hd), (proj2 (streq_false _ "require_approval") Hr).
Qed.

(** The same enforcer with the engine in the agent. *)
Definition localised (engine : Engine) (e : PolicyEnforcer) : PolicyEnforcer :=
  {| pe_engine := Some engine; policyCheckURL := ""; pe_trace := pe_trace e;
     pe_approvals := pe_approvals e; pe_agentName := pe_agentName e; pe_auditor := pe_auditor e;
     requirePurposeForSensitive := requirePurposeForSensitive e |}.

Lemma requestApproval_localised engine e s c rtype name action tags note :
  requestApproval now (localised engine e) s c (trace_id e) rtype name action tags note =
  requestApproval now e s c (trace_id e) rtype name action tags note.
Proof. done. Qed.

(** C11 (equivalence). Moving the engine from the agent to auditd changes no outcome: a
    check in remote mode leaves the approvals in the same state and lets the same calls
    go on as the check with the same engine in the agent, when nothing is left for auditd
    to look up, the request carries no authorising approval mode, and the decision asks
    for an approval only through its effect. *)
Theorem remote_local_agree e s c rtype name action tags note sens engine p
    (Hauth : Middleware authz caller "POST /v1/governance/check" = Authz.Served p)
    (Hengine : policyEngine gs = Some engine) (Hremote : policyCheckURL e <> "")
    (Hask : asks_well e rtype name action) (Htrace : trace_id e <> "")
    (Htags : resolve_tags rtype name tags = tags) (Hsens : resolve_sensitivity rtype name sens = sens)
    (Hmode : mode_authorises c = false)
    (Hplain : let d := tr_Decision (agent_decision engine e c rtype name action tags sens) in
              NeedsApproval d = true -> d_Effect d = EffectRequireApproval) :
  let far := (check auditd e s c rtype name action tags note sens).2 in
  let near := (check (fun _ => None) (localised engine e) s c rtype name action tags note sens).2 in
  far.1 = near.1 /\ (far.2 = None <-> near.2 = None).
Proof.
  unfold CheckTool. change (purpose_missing (localised engine e) c sens) with (purpose_missing e c sens).
  destruct (readonly_blocks mode action); [done|]. destruct (purpose_missing e c sens); [done|].
  apply streq_false in Hremote. rewrite Hremote. cbn [negb snd policyCheckURL localised String.eqb pe_engine].
  rewrite (remote_answer e c rtype name action tags note sens engine p Hauth Hengine Hask Htrace).
  change (trace_id (localised engine e)) with (trace_id e).
  rewrite Htags, Hsens. fold (agent_decision engine e c rtype name action tags sens).
  cbv zeta in Hplain. set (trace := agent_decision _ _ _ _ _ _ _ _) in *. set (d := tr_Decision trace) in *.
  unfold act_on_decision, handleRemoteResponse. cbn [rs_Effect rs_PolicyName rs_Message rs_Explanation].
  change (trace_id (localised engine e)) with (trace_id e). rewrite requestApproval_localised, Hmode.
  change (pe_approvals (localised engine e)) with (pe_approvals e).
  destruct (NeedsApproval d) eqn:En.
  - rewrite (Hplain eq_refl). cbn. by destruct (pe_approvals e).
  - unfold NeedsApproval in En. apply orb_false_iff in En as [Er%streq_false _].
    unfold IsDenied. destruct (String.eqb_spec (d_Effect d) EffectDeny) as [->|Hd]; [done|].
    destruct (String.eqb_spec (d_Effect d) "allow"); [done|].
    by rewrite (proj2 (streq_false _ "deny") Hd), (proj2 (streq_false _ "require_approval") Er).
Qed.
End Remote.

(** ** Concrete runs *)

Definition agent_service : ResolvedPrincipal :=
  {| UserID := ""; Roles := []; Service := "dbagent"; AuthMethod := "static"; OperatorID := "";
     OperatorRoles := [] |}.

Definition auditd_authz : Authorizer := NewAuthorizer DefaultAuditdPermissions true.

Lemma agent_let_in :
  Middleware auditd_authz (Ok agent_service) "POST /v1/governance/check" = Authz.Served agent_service.
Proof.
  assert (Hp : permissions auditd_authz !! "POST /v1/governance/check" = Some service_only).
  { unfold auditd_authz, DefaultAuditdPermissions. cbn [permissions NewAuthorizer].
    rewrite lookup_table. reflexivity. }
  unfold Middleware, Authorize. rewrite Hp. reflexivity.
Qed.

(** The database [orders] is tagged in the infrastructure configuration. *)
Definition orders : DBServer :=
  {| db_Name := "orders"; ConnectionString := ""; PasswordEnv := ""; db_K8sCluster := "";
     K8sNamespace := ""; K8sPodSelector := ""; VMName := ""; ContainerName := ""; SystemdUnit := "";
     db_Tags := ["prod"]; db_Sensitivity := ["pii"]; ApprovalOverrideRoles := [] |}.

Definition sample_governance : governanceServer :=
  {| auditStore := NewStore [] false; policyEngine := Some sample_policy_engine;
     infraConfig := Some {| DBServers := {["orders" := orders]}; K8sClusters := ∅; VMs := ∅ |} |}.

Definition remote_enforcer : PolicyEnforcer :=
  {| pe_engine := None; policyCheckURL := "http://auditd"; pe_trace := Some "tr_9"; pe_approvals := true;
     pe_agentName := "dbagent"; pe_auditor := true; requirePurposeForSensitive := true |}.

Definition check_sample (s : governanceServer) : decoded -> governanceServer * CheckReply :=
  handlePolicyCheck toy_sha toy_hash toy_event (fun _ => "") (fun _ => "") (fun _ => "") (fun _ => "")
    no_zones Hours sample_clock "t" "e" None s.

Definition sample_auditd : policyCheckReq -> option (Z * option policyCheckResp) :=
  served_check toy_sha toy_hash toy_event (fun _ => "") (fun _ => "") (fun _ => "") (fun _ => "")
    no_zones Hours sample_clock "t" "e" None auditd_authz (Ok agent_service) sample_governance.

Definition remote_check (mode action : string) (rows : list ApprovalStore.StoredApproval) : Served * option CheckError :=
  (CheckTool "fix" no_zones (fun _ => "") Hours sample_clock sample_auditd remote_enforcer
     (auditd_with rows) (sample_ctx mode "") "database" "orders" action ["prod"] "" ["none"]).2.

Definition sample_body (action tool : string) (rows : Z) : PolicyCheckRequest :=
  {| k_ResourceType := "database"; k_ResourceName := "orders"; k_Action := action; k_Tags := [];
     k_TraceID := "tr_9"; k_SessionID := ""; k_AgentName := "dbagent"; k_Note := "";
     k_RowsAffected := rows; k_PodsAffected := 0; k_XactAgeSecs := 0; k_PostExecution := false;
     k_Principal := agent_service; k_Purpose := "diagnostic"; k_PurposeNote := ""; k_Sensitivity := [];
     k_ToolName := tool |}.

Definition sample_query (action : string) : ExplainQuery :=
  {| x_resource_type := "database"; x_resource_name := "orders"; x_action := action; x_tags := " ,";
     x_user_id := ""; x_service := "dbagent"; x_role := ""; x_purpose := "diagnostic"; x_sensitivity := "" |}.

(** A check leaves one event, under the tags of the configuration; a second one with the
    same event id is answered and leaves none. *)
Example checks_are_recorded :
  let '(s1, r1) := check_sample sample_governance (Ok (sample_body ActionDestructive "" 0)) in
  match r1 with
  | CheckAnswered code resp =>
      code = 200%Z /\ a_Effect resp = "allow" /\
      rr_Tags (rq_Resource (check_policy_request "t" sample_governance (sample_body ActionDestructive "" 0)))
        = ["prod"]
  | _ => False
  end /\
  map event_id (rows (auditStore s1)) = ["pol_e"] /\
  (check_sample s1 (Ok (sample_body ActionDestructive "" 11))).1 = s1 /\
  match (check_sample s1 (Ok (sample_body ActionDestructive "" 11))).2 with
  | CheckAnswered code _ => code = 403%Z
  | CheckFailed _ _ => False
  end.
Proof. vm_compute. repeat split. Qed.

(** The purpose the write rule blocks: auditd answers with a denial, and the agent in
    remote mode denies a call that the agent with the same engine asks an approval for,
    or lets go on in approval mode "auto". *)
Example remote_denies_local_asks :
  (exists d why, (remote_check "auto" ActionWrite []).2 = Some (ByPolicy (DeniedError d why))) /\
  run_check "" "" [] ActionWrite = Some (ApprovalPending "apr_u") /\
  run_check "auto" "" [] ActionWrite = None.
Proof.
  split; [|vm_compute; split; reflexivity].
  unfold remote_check, sample_auditd, CheckTool, callRemotePolicyCheck, served_check.
  rewrite agent_let_in. vm_compute. repeat eexists.
Qed.

(** The explanation endpoint has no parameter for the tool, so it does not see the
    policies scoped to one. *)
Example explain_misses_tools :
  match handleExplain no_zones sample_clock sample_governance (sample_query ActionDestructive),
        (check_sample sample_governance (Ok (sample_body ActionDestructive "drop_table" 0))).2 with
  | ExplainTrace t, CheckAnswered _ resp =>
      d_PolicyName (tr_Decision t) = "db" /\ a_PolicyName resp = "drop-limit"
  | _, _ => False
  end.
Proof. vm_compute. split; reflexivity. Qed.

Lemma explain_predicts_check_witness :
  match handleExplain no_zones sample_clock sample_governance (sample_query ActionWrite),
        (check_sample sample_governance (Ok (sample_body ActionWrite "" 0))).2 with
  | ExplainTrace trace, CheckAnswered _ resp => tr_Decision trace = tr_Decision (a_Trace resp)
  | _, _ => False
  end.
Proof.
  apply (explain_predicts_check toy_sha toy_hash toy_event (fun _ => "") (fun _ => "") (fun _ => "")
    (fun _ => "") no_zones Hours sample_clock "t" "e" None sample_governance (sample_query ActionWrite)
    (sample_body ActionWrite "" 0) sample_policy_engine); try (vm_compute; repeat split; reflexivity).
  repeat split; try discriminate. right. discriminate.
Defined.

Lemma remote_asks_well action : action <> "" -> asks_well remote_enforcer "database" "orders" action.
Proof. intros Ha. repeat split; try discriminate; [exact Ha|right; discriminate]. Qed.

(** A destructive call in remote mode goes on under the rule of [db_policy]. *)
Lemma CheckTool_remote_witness :
  remote_check "" ActionDestructive [] = (auditd_with [], None).
Proof.
  unfold remote_check, sample_auditd.
  rewrite (CheckTool_remote toy_sha toy_hash toy_event (fun _ => "") (fun _ => "") (fun _ => "")
    (fun _ => "") no_zones sample_clock "t" "e" None "fix" Hours auditd_authz (Ok agent_service)
    sample_governance remote_enforcer (auditd_with []) (sample_ctx "" "") "database" "orders"
    ActionDestructive ["prod"] "" ["none"] sample_policy_engine agent_service agent_let_in eq_refl
    ltac:(discriminate) (remote_asks_well ActionDestructive ltac:(discriminate)) ltac:(discriminate)).
  vm_compute. reflexivity.
Defined.

Lemma remote_local_agree_witness :
  let near := (CheckTool "fix" no_zones (fun _ => "") Hours sample_clock (fun _ => None)
    (localised sample_policy_engine remote_enforcer) (auditd_with []) (sample_ctx "" "") "database" "orders"
    ActionDestructive ["prod"] "" ["none"]).2 in
  let far := remote_check "" ActionDestructive [] in
  near.2 = None /\ far.1 = near.1 /\ (far.2 = None <-> near.2 = None).
Proof.
  intros near far. split; [vm_compute; reflexivity|].
  apply (remote_local_agree toy_sha toy_hash toy_event (fun _ => "") (fun _ => "") (fun _ => "")
    (fun _ => "") no_zones sample_clock "t" "e" None "fix" Hours auditd_authz (Ok agent_service)
    sample_governance remote_enforcer (auditd_with []) (sample_ctx "" "") "database" "orders"
    ActionDestructive ["prod"] "" ["none"] sample_policy_engine agent_service agent_let_in);
    first [exact (remote_asks_well ActionDestructive ltac:(discriminate))|vm_compute; discriminate
          |vm_compute; reflexivity].
Defined.
