(* ===== verification/Infra.v ===== *)
(** * internal/infra/infra.go: look-ups and summaries

    The records of the configuration are those of GovernanceCheck.  A loop over the map
    of database servers goes over [servers], the pairs in the iteration order of the
    run; the environment is a parameter.  [Load] only reads a JSON file. *)

From S2P Require Import Prelude PlaybookText PlaybookStore GovernanceCheck.

Open Scope string_scope.

(** [getenv] is os.Getenv. *)
Definition ResolvedConnectionString (getenv : string -> string) (db : DBServer) : string :=
  if PasswordEnv db =?s "" then ConnectionString db
  else
    let pw := getenv (PasswordEnv db) in
    if pw =?s "" then ConnectionString db else ConnectionString db ++ " password=" ++ pw.

(** [strings.Cut(field, "=")] of a field that has the separator. *)
Definition last_value (key : string) (connStr : string) : string :=
  fold_left (fun v kv => if kv.1 =?s key then kv.2 else v) (conn_pairs connStr) "".

Definition connEndpoint (connStr : string) : string :=
  let host := last_value "host" connStr in
  let port := last_value "port" connStr in
  let dbname := last_value "dbname" connStr in
  if (host =?s "") && (port =?s "") then ""
  else
    host ++ (if port =?s "" then "" else ":" ++ port) ++ (if dbname =?s "" then "" else "/" ++ dbname).

(** The servers, in the order the loop meets them. *)
Abbreviation Servers := (list (string * DBServer)).

Definition named_by (name : string) (kv : string * DBServer) : bool := (kv.1 =?s name) || (db_Name kv.2 =?s name).
Definition known_as (connStr : string) (kv : string * DBServer) : bool :=
  named_by connStr kv || (ConnectionString kv.2 =?s connStr).

(** [first] and [second] are the orders of the two loops. *)
Definition FindDBByConnStr (first second : Servers) (connStr : string) : option (DBServer * string) :=
  if connStr =?s "" then None
  else
    match find (known_as connStr) first with
    | Some (key, db) => Some (db, key)
    | None =>
        let ep := connEndpoint connStr in
        if ep =?s "" then None
        else
          match find (fun kv => connEndpoint (ConnectionString kv.2) =?s ep) second with
          | Some (key, db) => Some (db, key)
          | None => None
          end
    end.

Record DBInfo := {
  di_ID : string;
  di_Name : string;
  di_ConnectionString : string;
  Hosting : string;
  K8sContext : string;
  di_K8sNamespace : string;
  VMAddress : string;
  VMRuntime : string;
  di_ContainerName : string;
  di_SystemdUnit : string }.

Definition db_info (c : InfraConfig) (kv : string * DBServer) : DBInfo :=
  let '(id, db) := kv in
  let '(hosting, ctx, ns, addr, rt) :=
    if negb (db_K8sCluster db =?s "") then
      match K8sClusters c !! db_K8sCluster db with
      | Some k8s => ("Kubernetes: " ++ k8s_Name k8s, k8s_Context k8s, or_default "default" (K8sNamespace db), "", "")
      | None => ("Kubernetes: " ++ db_K8sCluster db ++ " (not configured)", "", "", "", "")
      end
    else if negb (VMName db =?s "") then
      match VMs c !! VMName db with
      | Some vm => ("VM: " ++ vm_Name vm, "", "", Address vm, Runtime vm)
      | None => ("VM: " ++ VMName db ++ " (not configured)", "", "", "", "")
      end
    else ("Standalone", "", "", "", "") in
  {| di_ID := id; di_Name := db_Name db; di_ConnectionString := ConnectionString db; Hosting := hosting;
     K8sContext := ctx; di_K8sNamespace := ns; VMAddress := addr; VMRuntime := rt;
     di_ContainerName := ContainerName db; di_SystemdUnit := SystemdUnit db |}.

(** Nil when there is no server, which the loop gives too. *)
Definition ListDatabases (c : option InfraConfig) (servers : Servers) : list DBInfo :=
  match c with Some c => map (db_info c) servers | None => [] end.

Definition summary_line (db : DBInfo) : string :=
  let suffix :=
    if negb (VMRuntime db =?s "") && negb (di_ContainerName db =?s "") then
      " [" ++ VMRuntime db ++ " container: " ++ di_ContainerName db ++ "]"
    else if negb (di_SystemdUnit db =?s "") then " [systemd: " ++ di_SystemdUnit db ++ "]"
    else "" in
  let ep := connEndpoint (di_ConnectionString db) in
  "  - " ++ di_ID db ++ " (" ++ di_Name db ++ "): " ++ Hosting db ++ suffix ++
  (if ep =?s "" then "" else " [conn: " ++ ep ++ "]") ++ nl.

Definition Summary (c : option InfraConfig) (servers : Servers) : string :=
  match c with
  | None => "No infrastructure configured."
  | Some cfg =>
      let count {A} (m : gmap string A) := itoa (Z.of_nat (size m)) in
      "Infrastructure: " ++ count (DBServers cfg) ++ " database(s), " ++ count (K8sClusters cfg) ++
      " K8s cluster(s), " ++ count (VMs cfg) ++ " VM(s)" ++ nl ++
      (if (0 <? size (DBServers cfg))%nat
       then nl ++ "Databases:" ++ nl ++ String.concat "" (map summary_line (ListDatabases c servers)) else "")
  end.

(** ** What the endpoint shows *)

Definition endpoint_pairs (connStr : string) : list (string * string) :=
  List.filter (fun kv => mem kv.1 ["host"; "port"; "dbname"]) (conn_pairs connStr).

Lemma last_value_filter key (l : list (string * string)) (v : string) : In key ["host"; "port"; "dbname"] ->
  fold_left (fun v kv => if kv.1 =?s key then kv.2 else v) l v =
  fold_left (fun v kv => if kv.1 =?s key then kv.2 else v)
    (List.filter (fun kv => mem kv.1 ["host"; "port"; "dbname"]) l) v.
Proof.
  intros Hk. revert v. induction l as [|[k x] l IH]; intros v; [done|]. cbn [fold_left List.filter fst snd].
  destruct (k =?s key) eqn:E.
  - apply streq_spec in E as ->. rewrite (proj2 (mem_spec _ _) Hk). cbn [fold_left fst snd]. by rewrite streq_refl.
  - destruct (mem k _); [cbn [fold_left fst snd]; by rewrite E|done].
Qed.

(**  The endpoint that summaries show depends on host, port and database
    name only: two connection strings that differ in anything else, such as user and
    password, have the same endpoint. *)
Theorem endpoint_hides_credentials (s1 s2 : string) (H : endpoint_pairs s1 = endpoint_pairs s2) :
  connEndpoint s1 = connEndpoint s2.
Proof.
  assert (Hl : forall key, In key ["host"; "port"; "dbname"] -> last_value key s1 = last_value key s2).
  { intros key Hk. unfold last_value. rewrite (last_value_filter key (conn_pairs s1)), (last_value_filter key (conn_pairs s2)) by done.
    unfold endpoint_pairs in H. by rewrite H. }
  unfold connEndpoint. by rewrite (Hl "host"), (Hl "port"), (Hl "dbname") by (simpl; tauto).
Qed.

Lemma endpoint_hides_credentials_witness :
  connEndpoint "host=db1 port=5432 user=app password=secret dbname=orders" = connEndpoint "host=db1 port=5432 dbname=orders".
Proof. apply endpoint_hides_credentials. vm_compute. reflexivity. Defined.

(** The search prefers a name: a server is found by its endpoint only when none has the
    name, and the server found answers to the text. *)
Lemma FindDB_sound first second connStr db key :
  FindDBByConnStr first second connStr = Some (db, key) ->
  (In (key, db) first /\ known_as connStr (key, db) = true) \/
  ((forall kv, In kv first -> known_as connStr kv = false) /\ In (key, db) second /\
   connEndpoint (ConnectionString db) = connEndpoint connStr).
Proof.
  unfold FindDBByConnStr. destruct (connStr =?s ""); [done|]. destruct (find (known_as connStr) first) as [[k d]|] eqn:E.
  - intros [= -> ->]. apply find_some in E. by left.
  - destruct (connEndpoint connStr =?s ""); [done|].
    destruct (find _ second) as [[k d]|] eqn:E2; [|done]. intros [= -> ->]. right.
    apply find_some in E2 as [H1 H2]. apply streq_spec in H2.
    split; [by apply find_none_iff|]. by split.
Qed.
