(* ===== verification/PlaybookPrompt.v ===== *)
(** * cmd/gateway: the prompts of agent runs and the checks around them

    The prompt texts of playbooks.go byte for byte, the hint about where a server is
    hosted, the warnings about the operator's context, and the check that an agent
    stayed on its target.  A loop over the map of servers goes over the pairs in
    iteration order, as in Infra; [regexp.Compile] is a parameter, and so are the events
    auditd answers with. *)

From S2P Require Import Prelude GoTime Events PlaybookText PlaybookStore GovernanceCheck Infra.

Open Scope string_scope.

Record PlaybookRunRequest := {
  rq_ConnectionString : string;
  rq_Context : string;
  rq_TriggerContext : string;
  rq_ContextID : string;
  rq_PriorRunID : string;
  rq_PriorFindings : string;
  rq_ApprovalMode : string;
  rq_ApprovalSession : string;
  GateEscalation : bool;
  RemediationSeriesID : string;
  rq_Purpose : string;
  rq_PurposeNote : string }.

Definition agentNameDB := "postgres_database_agent".
Definition agentNameSysadmin := "sysadmin_agent".

Definition when (b : bool) (s : string) : string := if b then s else "".
Definition given (s : string) : bool := negb (s =?s "").

(** ** Prompts *)

Definition protocol_text : string :=
  "## Response Protocol" ++ nl ++
  "Do NOT write a CONCLUSION section or end with '---'. Close your response with this exact block (plain text, no markdown, no bold, no backticks):" ++
  nl ++ nl ++ "HYPOTHESIS_1: <primary hypothesis> | CONFIDENCE: <0.0–1.0> | EVIDENCE: " ++ dquote ++
  "<verbatim quote from tool output>" ++ dquote ++ nl ++
  "HYPOTHESIS_2: <alternative hypothesis> | CONFIDENCE: <0.0–1.0> | REJECTED: <one-sentence reason>" ++ nl ++
  "ROOT_CAUSE: HYPOTHESIS_1" ++ nl ++ "FINDINGS: <one-sentence diagnosis and recommended action>" ++ nl ++
  "TRANSITION_TO: <series_id>   — use this when the Expert Guidance 'Final step' specifies TRANSITION_TO (same-domain handoff to the expected remediation playbook)" ++
  nl ++ "ESCALATE_TO: <series_id or " ++ dquote ++ "none" ++ dquote ++
  ">   — use this for true out-of-scope escalations to a different domain; use " ++ dquote ++ "none" ++
  dquote ++ " if no escalation is needed" ++ nl ++
  "Emit exactly one of TRANSITION_TO or ESCALATE_TO (not both). Follow the 'Final step' in Expert Guidance to determine which signal and which series_id." ++
  nl ++ nl ++
  "Rules: list hypotheses in descending confidence order; EVIDENCE must be a short verbatim quote from a tool output; every non-primary hypothesis must have REJECTED with a reason; CONFIDENCE is 0.0–1.0." ++
  nl ++ nl.

Definition constraints_text : string :=
  "## Constraints" ++ nl ++
  "- Use only read-only diagnostic tools. Do not execute any write or destructive operations." ++ nl ++
  "- Collect evidence, form a hypothesis, and if the evidence contradicts it, back out and pursue a different hypothesis." ++
  nl ++ "- When you reach a clear diagnosis, present your findings and recommended remediation steps." ++ nl ++
  "- Do NOT execute remediation — describe it for operator review and approval." ++ nl.

Definition closing_text : string :=
  "IMPORTANT: Do not write **CONCLUSION:** or end with ---. Close with exactly:" ++ nl ++
  "HYPOTHESIS_1: ... | CONFIDENCE: ... | EVIDENCE: " ++ dquote ++ "..." ++ dquote ++ nl ++
  "HYPOTHESIS_2: ... | CONFIDENCE: ... | REJECTED: ..." ++ nl ++ "ROOT_CAUSE: HYPOTHESIS_1" ++ nl ++
  "FINDINGS: <one-sentence diagnosis>" ++ nl ++
  "TRANSITION_TO: <series_id>   (if Expert Guidance 'Final step' says TRANSITION_TO)" ++ nl ++
  "ESCALATE_TO: <series_id or " ++ dquote ++ "none" ++ dquote ++ ">   (for true cross-domain escalations; " ++
  dquote ++ "none" ++ dquote ++ " if neither applies)" ++ nl ++
  "Use exactly the signal and series_id from the Expert Guidance 'Final step'. Do not substitute one signal for the other." ++
  nl ++
  "EXCEPTION: if you were unable to complete the investigation (policy denial, connection failure, or insufficient evidence to form a hypothesis), emit ESCALATE_TO: none regardless of what the Expert Guidance specifies." ++
  nl.

Definition target_text (pb : Playbook) (conn serverTypeHint : string) : string :=
  (if pb_AgentName pb =?s agentNameSysadmin then
     "Your target is connection_string=" ++ quote conn ++
     ". Follow the Expert Guidance below — use check_host and restart_container as instructed. Do not call check_connection (that is a DB-agent tool, not available here)." ++
     nl
   else
     "Call check_connection with connection_string=" ++ quote conn ++
     " and begin diagnosing why it is unavailable. Do not ask which database — the target is " ++ quote conn ++
     "." ++ nl) ++
  when (given serverTypeHint) (serverTypeHint ++ nl) ++ nl.

Definition untargeted_text : string :=
  "Read the 'Additional context' section at the bottom of this prompt first." ++ nl ++
  "It identifies the specific namespace, pod, or service to investigate." ++ nl ++
  "Use exactly what the context specifies — do not substitute or expand to other systems listed in your infrastructure configuration." ++
  nl ++ "Then follow the playbook guidance below." ++ nl ++ nl.

Definition assembleTriagePrompt (pb : Playbook) (req : PlaybookRunRequest) (serverTypeHint : string) : string :=
  let conn := rq_ConnectionString req in
  (if given conn then target_text pb conn serverTypeHint else untargeted_text) ++
  protocol_text ++
  "## Playbook: " ++ pb_Name pb ++ nl ++ nl ++
  when (given (pb_Description pb)) (
    "## Objective" ++ nl ++ pb_Description pb ++ nl ++ nl) ++
  when (given (Guidance pb)) (
    "## Expert Guidance" ++ nl ++ Guidance pb ++ nl ++ nl) ++
  when (negb (length (TransitionsTo pb) =? 0)%nat) (
    "## Same-domain transitions" ++ nl ++
    "When triage completes successfully and a follow-on remediation under the same agent is appropriate, the allowed next playbooks are (by series ID): " ++
    join ", " (TransitionsTo pb) ++ nl ++ nl) ++
  when (negb (length (EscalatesTo pb) =? 0)%nat) (
    "## Cross-domain escalations" ++ nl ++
    "If the issue is out of scope for this playbook's agent (different problem class or different agent needed), the allowed escalation targets are (by series ID): " ++
    join ", " (EscalatesTo pb) ++ nl ++ nl) ++
  when (given (rq_PriorFindings req)) (
    "## Prior Investigation Findings" ++ nl ++ "A previous investigation reached the following conclusion:" ++
    nl ++ rq_PriorFindings req ++ nl ++ nl ++ "Continue from this context and investigate further." ++ nl ++ nl) ++
  constraints_text ++
  when (given conn) (
    "- Use ONLY `connection_string` = `" ++ conn ++
    "`. Do not query any other server, even if your context lists others." ++ nl) ++
  nl ++
  when (given (rq_Context req)) (
    "## Additional context" ++ nl ++ rq_Context req ++ nl ++ nl) ++
  when (given conn) (
    "REMINDER: your target is connection_string=" ++ quote conn ++ " only. Do not check other databases." ++ nl) ++
  closing_text.

Definition assembleCrystalBallPrompt (req : PlaybookRunRequest) (serverTypeHint : string) : string :=
  let conn := rq_ConnectionString req in
  "You are a database operations assistant with access to diagnostic tools." ++ nl ++ nl ++
  (if given conn then
     (if given (rq_Context req) then
        "The operator is reporting an issue with " ++ quote conn ++
        ". Investigate using whatever tools you judge appropriate and explain what you find." ++ nl
      else
        "The operator is reporting that " ++ quote conn ++
        " is unavailable. Investigate using whatever tools you judge appropriate and explain what you find." ++
        nl) ++
     when (given serverTypeHint) (serverTypeHint ++ nl)
   else
     "The operator needs help diagnosing a database issue. Investigate and explain what you find." ++ nl) ++
  when (given (rq_Context req)) (
    nl ++ "Additional context from the operator:" ++ nl ++ rq_Context req ++ nl) ++
  nl ++
  "Use your tools to investigate. When you have a diagnosis, explain your findings and what you recommend." ++
  nl.

(** ** The target server *)

(** The server the connection string names, in the iteration order. *)
Definition find_server (servers : Servers) (conn : string) : option DBServer :=
  option_map snd (find (known_as conn) servers).

Definition containerised (runtime : string) : bool := (runtime =?s "docker") || (runtime =?s "podman").

Definition server_vm (cfg : InfraConfig) (db : DBServer) : option VM :=
  if VMName db =?s "" then None else VMs cfg !! VMName db.

Definition server_runtime (cfg : InfraConfig) (db : DBServer) : string :=
  match server_vm cfg db with Some vm => Runtime vm | None => "" end.

Definition serverHostingLabel (db : DBServer) (runtime : string) : string :=
  if containerised runtime then runtime ++ "-hosted"
  else if given (VMName db) then "VM-hosted"
  else "standalone".

Definition k8s_hint (db : DBServer) : string :=
  "Server type: Kubernetes pod (cluster: " ++ db_K8sCluster db ++ ", namespace: " ++
  or_default "default" (K8sNamespace db) ++ ")" ++
  when (given (K8sPodSelector db)) (", pod selector: " ++ K8sPodSelector db) ++
  "." ++ nl ++ "Kubectl commands, pod log retrieval, and K8s event lookups are applicable to this server.".

Definition container_hint (db : DBServer) (runtime vmAddr : string) : string :=
  "Server type: " ++ runtime ++ " container" ++
  when (given vmAddr) (" on VM " ++ quote (VMName db) ++ " (" ++ vmAddr ++ ")") ++
  when (given (ContainerName db)) (", container name: " ++ ContainerName db) ++
  "." ++ nl ++
  "This is NOT a Kubernetes-managed server — do NOT attempt kubectl commands, pod queries, pod log retrieval, or K8s event lookups. Use docker/host-level diagnostics only.".

Definition vm_hint (db : DBServer) (vmAddr : string) : string :=
  "Server type: bare VM (" ++ VMName db ++ when (given vmAddr) (" / " ++ vmAddr) ++ ")" ++
  when (given (SystemdUnit db)) (", systemd unit: " ++ SystemdUnit db) ++
  "." ++ nl ++ "This is NOT a Kubernetes-managed server — do NOT use kubectl or K8s tools.".

Definition buildServerTypeHint (cfg : option InfraConfig) (servers : Servers) (conn : string) : string :=
  match cfg with
  | None => ""
  | Some cfg =>
      if conn =?s "" then ""
      else
        match find_server servers conn with
        | None => ""
        | Some db =>
            let vmAddr := match server_vm cfg db with Some vm => Address vm | None => "" end in
            let runtime := server_runtime cfg db in
            if given (db_K8sCluster db) then k8s_hint db
            else if containerised runtime then container_hint db runtime vmAddr
            else if given (VMName db) then vm_hint db vmAddr
            else "Server type: standalone PostgreSQL — NOT Kubernetes-managed. Do NOT use kubectl or K8s tools."
        end
  end.

(** ** Warnings about the operator's context *)

(** The warning about the first keyword that occurs in the lowered context. *)
Definition keyword_warning (ctx : string) (keywords : list string) (warning : string -> string) : list string :=
  match find (str_contains ctx) keywords with
  | Some kw => [warning (trim_space kw)]
  | None => []
  end.

Definition k8sKeywords : list string :=
  ["pod "; "pods "; "kubectl"; "deployment"; "statefulset"; "namespace"; "kubernetes"; "k8s"].
Definition containerKeywords : list string := ["docker "; "docker exec"; "docker run"; "podman "].

Definition checkContextConsistency (cfg : option InfraConfig) (servers : Servers) (conn operatorContext : string)
    : list string :=
  match cfg with
  | None => []
  | Some cfg =>
      if (conn =?s "") || (operatorContext =?s "") then []
      else
        match find_server servers conn with
        | None => []
        | Some db =>
            let isK8s := given (db_K8sCluster db) in
            let runtime := server_runtime cfg db in
            let ctx := to_lower operatorContext in
            (if isK8s then [] else
               keyword_warning ctx k8sKeywords (fun kw => (
                 "context mentions " ++ quote kw ++ " but " ++ quote (db_Name db) ++ " is " ++
                 serverHostingLabel db runtime ++ " — Kubernetes tools will not apply to this server")%string)) ++
            (if containerised runtime || isK8s then [] else
               keyword_warning ctx containerKeywords (fun kw => (
                 "context mentions " ++ quote kw ++ " but " ++ quote (db_Name db) ++
                 " is not container-hosted (runtime=" ++ quote runtime ++ ")")%string))
        end
  end%list.

(** A pattern that does not compile is looked for as a text. *)
Definition checkRequiresEvidence (compile : string -> option (string -> bool)) (patterns : list string) (ctx : string)
    : list string :=
  let matched pat :=
    if ctx =?s "" then false
    else
      match compile ("(?i)" ++ pat) with
      | Some re => re ctx
      | None => str_contains (to_lower ctx) (to_lower pat)
      end in
  map (fun pat => "expected evidence pattern not found in provided context: " ++ quote pat)
    (List.filter (fun pat => negb (matched pat)) patterns).

(** ** The agent's targets *)

(** The connection string a tool was called with, if it is a text. *)
Definition called_target (e : Event) : string :=
  match e_Tool e with
  | Some t =>
      match find (fun kv => kv.1 =?s "connection_string") (Parameters t) with
      | Some (_, AStr cs) => cs
      | _ => ""
      end
  | None => ""
  end.

Definition off_target (intended resolved cs : string) : bool :=
  given cs && negb (targetMatches intended cs) && negb (targetMatches resolved cs).

(** The connection string configured for a short name; [servers] is empty without a
    configuration. *)
Definition resolve_target (servers : Servers) (intended : string) : string :=
  match find (named_by intended) servers with Some (_, db) => ConnectionString db | None => intended end.

(** [fetch] are the tool events of the trace since the run's start. *)
Definition checkTargetScope (servers : Servers) (auditURL traceID intended : string) (fetch : list Event) : list string :=
  if (auditURL =?s "") || (traceID =?s "") || (intended =?s "") then []
  else
    let resolved := resolve_target servers intended in
    if (resolved =?s intended) && negb (str_contains intended "=") then []
    else
      isort String.ltb (remove_dups (List.filter (off_target intended resolved) (map called_target fetch))).
