(* ===== verification/PlaybookChain.v ===== *)
(** * cmd/gateway: agent runs of playbooks, chaining and gates

    [handlePlaybookRun], [runAgentPlaybook], [handlePlaybookRunAsAgent] with its loop
    over follow-on playbooks, and [handleProceedEscalation] of playbooks.go, over the
    world of PlaybookSteps.  The agent behind [proxyToAgent] is a parameter that sees
    the calls made before, and so are the session look-up, the tool events auditd
    answers with, the fleet planner, the new ids and [regexp.Compile].  auditd answers
    every request; a request takes place at one time.  The decision that is posted to
    the hub is kept without the diagnostic report. *)

From S2P Require Import Prelude GoTime Identity Action ApprovalPolicy TimeText GoFormat Events.
From S2P Require Import GovernanceCheck PlaybookText PlaybookStore PlaybookRuns PlaybookSteps Infra PlaybookPrompt.

Open Scope string_scope.

(** ** Follow-on playbooks *)

Definition operator_approval : string := "requires_operator_approval".

Definition terminalEscalations (token : string) : option string :=
  if token =?s operator_approval then
    Some "This action requires explicit operator approval before it can proceed."
  else None.

Definition is_terminal (token : string) : bool :=
  match terminalEscalations token with Some _ => true | None => false end.

Inductive directive := directiveTransition | directiveEscalate.

Definition allow_list (pb : Playbook) (d : directive) : list string :=
  match d with directiveTransition => TransitionsTo pb | directiveEscalate => EscalatesTo pb end.

Definition isAllowedNextPlaybook (pb : Playbook) (emitted : string) (d : directive) : bool :=
  (emitted =?s "") || (emitted =?s "none") || is_terminal emitted ||
  (length (allow_list pb d) =? 0)%nat || mem emitted (allow_list pb d).

(** ** Approval modes *)

Definition approvalModeRank (mode : string) : Z :=
  if mode =?s "review" then 1
  else if mode =?s "session" then 2
  else if mode =?s "auto" then 3
  else if mode =?s "force" then 4
  else 0.

(** The mode that is used, and the warning; [servers] are the configured servers in the
    orders of the two look-up loops, if there is a configuration. *)
Definition enforceApprovalOverride (servers : option (Servers * Servers)) (principal : ResolvedPrincipal)
    (requestedMode playbookMode connStr : string) : string * list string :=
  match servers with
  | None => (requestedMode, [])
  | Some (first, second) =>
      if (approvalModeRank requestedMode <=? approvalModeRank playbookMode)%Z then (requestedMode, [])
      else
        match FindDBByConnStr first second connStr with
        | None => (requestedMode, [])
        | Some (db, _) =>
            match ApprovalOverrideRoles db with
            | [] => (requestedMode, [])
            | roles =>
                if existsb (HasRole principal) roles then (requestedMode, [])
                else
                  (playbookMode,
                   ["approval_mode clamped to " ++ quote playbookMode ++ ": override to " ++ quote requestedMode ++
                    " requires one of roles " ++ fmt_list roles ++ " (caller: " ++ EffectiveID principal ++ ")"])
            end
        end
  end.

(** ** Answers of agents *)

(** A JSON object with its member [text] when that is a text, or anything else. *)
Inductive Body := NotObject | Object (text : option string).

Record Capture := { c_code : Z; c_trace : string; c_body : Body }.

Definition capturedText (c : Capture) : string :=
  if negb (c_code c =? 200)%Z then ""
  else match c_body c with Object (Some t) => t | _ => "" end.

Definition set_text (t : string) (c : Capture) : Capture :=
  {| c_code := c_code c; c_trace := c_trace c; c_body := Object (Some t) |}.

Definition appendChainedText (primary chained : Capture) : Capture :=
  if negb (c_code chained =? 200)%Z then primary
  else
    match c_body primary, c_body chained with
    | Object pt, Object (Some ct) =>
        if ct =?s "" then primary
        else set_text (default "" pt ++ nl ++ nl ++ "---" ++ nl ++ nl ++ ct) primary
    | _, _ => primary
    end.

Record AgentCall := {
  ac_Agent : string;
  ac_ContextID : string;
  ac_Prompt : string;
  ac_Approval : option approvalContext }.

Record agentRunResult := {
  ar_capture : Capture;
  ar_traceID : string;
  ar_outcome : string;
  ar_escalatedTo : string;
  ar_transitionTo : string;
  ar_findings : string;
  ar_report : option DiagnosticReport;
  ar_runID : string;
  ar_series : string;
  ar_agent : string }.

Record chainEntry := {
  ce_Step : Z;
  ce_Series : string;
  ce_Agent : string;
  ce_RunID : string;
  ce_Findings : string;
  ce_Text : string;
  ce_Report : option DiagnosticReport }.

(** ** What the response carries *)

Inductive Suggested :=
  | SuggestOperator (token message : string)
  | SuggestPlaybook (series reason conn prior_run context mode : string).

Record Preview := { pv_series : string; pv_name : string; pv_description : string; pv_mode : string }.

Record GateInfo := {
  gate_transition : bool;
  gate_target : string;
  gate_findings : string;
  gate_warning : string;
  gate_suggested_mode : string;
  gate_preview : option Preview }.

(** The fields that are set, in order; a field set twice has its last value. *)
Inductive ExtraField :=
  | XRunID (id : string)
  | XFindings (s : string)
  | XReport (r : option DiagnosticReport)
  | XWarnings (l : list string)
  | XDrift (l : list string)
  | XCrystalBall
  | XSuggested (s : Suggested)
  | XLowConfidence
  | XGate (g : GateInfo)
  | XChainedRun (id : string)
  | XChainedFindings (s : string)
  | XChain (l : list chainEntry).

(** A decision of the hub. *)
Record HubDecision := {
  hub_ID : string;
  hub_Status : string;
  hub_Summary : string;
  hub_By : string;
  hub_Gate : option GateInfo }.

(** The headers that are used. *)
Record Headers := { x_user : string; x_trace : string; x_method : string; x_path : string }.

(** ** Audit events *)

Definition CategoryIncident := "incident".
Definition one : spec_float := float_int 1.

(** The event both recorders emit. *)
Definition decision_event (id : string) (now : Time) (etype trace session : string)
    (p : option ResolvedPrincipal) (query agent intent : string) (reasons : list string) (output : option Output) : Event :=
  {| EventID := id; Timestamp := now; EventType := etype; TraceID := trace; ParentID := ""; Origin := "";
     e_ActionClass := ""; PrevHash := ""; EventHash := ""; e_Principal := p; e_Purpose := ""; e_PurposeNote := "";
     e_Session := {| s_ID := session; s_UserID := ""; AgentName := ""; StartedAt := 0; DelegationCount := 0 |};
     e_Input := {| UserQuery := query; InfrastructureContext := [] |};
     e_Output := output; e_Tool := None; e_Approval := None;
     e_Decision := Some {| d_Agent := agent; RequestCategory := CategoryIncident; Confidence := one;
                           UserIntent := intent; ReasoningChain := reasons; AlternativesConsidered := [] |};
     e_PolicyDecision := None; e_AgentReasoning := None; e_GovernanceViolation := None;
     e_DelegationVerification := None;
     e_Outcome := Some {| o_Status := "success"; o_ErrorMessage := ""; o_Duration := 0 |};
     e_RollbackExecution := None |}.

(** [recordEscalationDecision]; [fresh] is a new trace id. *)
Definition escalation_event (uuid8 fresh : string) (now : Time) (traceID : string) (principal : ResolvedPrincipal)
    (pb : Playbook) (nextSeries findings : string) (isTransition : bool) : Event :=
  let trace := or_default fresh traceID in
  let signal := if isTransition then "TRANSITION_TO" else "ESCALATE_TO" in
  let verb := if isTransition then "transitioning" else "escalating" in
  let noun := if isTransition then "transition" else "escalation" in
  let act := if isTransition then "transition" else "escalate" in
  let reasons :=
    ["agent signalled " ++ signal ++ " during playbook run: " ++ pb_SeriesID pb;
     verb ++ " to next playbook: " ++ nextSeries] in
  decision_event ("ps_" ++ uuid8) now EventTypeDelegation trace trace
    (if EffectiveID principal =?s "" then None else Some principal)
    ("playbook " ++ noun ++ " from " ++ pb_SeriesID pb)
    nextSeries
    (act ++ " from playbook " ++ pb_SeriesID pb ++ " to " ++ nextSeries)
    (reasons ++ (if findings =?s "" then [] else [("findings: " ++ findings)%string]))%list
    None.

(** [recordGateAcknowledged], which is never given a confidence warning. *)
Definition gate_event (uuid8 : string) (now : Time) (run : PlaybookRun) (resolvedBy resolution approvalMode reason : string) : Event :=
  let reasons :=
    ["operator " ++ resolvedBy ++ " acknowledged informed gate for run " ++ RunID run;
     "resolution: " ++ resolution; "escalation_target: " ++ EscalatedTo run] in
  decision_event ("ga_" ++ uuid8) now EventTypeGateAcknowledged (RunID run) "" None
    ("gate acknowledged for triage run " ++ RunID run)
    (EscalatedTo run)
    (resolution ++ " gate for escalation to " ++ EscalatedTo run)
    (reasons ++
     (if approvalMode =?s "" then [] else [("chosen approval_mode: " ++ approvalMode)%string]) ++
     (if reason =?s "" then [] else [("operator_reason: " ++ reason)%string]))%list
    (Some {| Response := reason |}).

(** ** The gateway *)

Section Gateway.
Context {Value : Type}.
Abbreviation World := (World (Value := Value)).
Context (VString : string -> Value) (planner : Playbook -> string -> string -> list (PlaybookRunStep Value) ->
  result string (stepProposerResult (Value := Value))).
Context (encode_report : DiagnosticReport -> option string) (decode_report : string -> option DiagnosticReport).
Context (order : Table -> Table) (sort : list DiagnosticHypothesis -> list DiagnosticHypothesis).
Context (proxyToAgent : list AgentCall -> AgentCall -> Capture).
Context (fetchSession : string -> result string (option ApprovalSession)).
Context (fetchToolEvents : string -> list Event).
Context (handleFleetPlan : Playbook -> Capture).
Context (compile : string -> option (string -> bool)).
Context (new_id : list RunRow -> string) (uuid8 fresh : string).

(** The members of the gateway that are read: the configuration comes with its servers
    in iteration order; the auditor, the notifier and the planner may be missing. *)
Record Gateway := {
  crystalBall : bool;
  g_infra : option (InfraConfig * Servers);
  has_auditor : bool;
  has_notifier : bool;
  has_planner : bool }.

Record ChainWorld := {
  base : World;
  agent_calls : list AgentCall;
  audit_events : list Event;
  hub : list HubDecision }.

Definition on_base (f : World -> World) (w : ChainWorld) : ChainWorld :=
  {| base := f (base w); agent_calls := agent_calls w; audit_events := audit_events w; hub := hub w |}.

Definition emit (g : Gateway) (e : Event) (w : ChainWorld) : ChainWorld :=
  if has_auditor g then
    {| base := base w; agent_calls := agent_calls w; audit_events := audit_events w ++ [e]; hub := hub w |}
  else w.

Definition notify (g : Gateway) (d : HubDecision) (w : ChainWorld) : ChainWorld :=
  if has_notifier g then
    {| base := base w; agent_calls := agent_calls w; audit_events := audit_events w; hub := hub w ++ [d] |}
  else w.

Definition config (g : Gateway) : option InfraConfig := option_map fst (g_infra g).
Definition servers_of (g : Gateway) : Servers := match g_infra g with Some (_, l) => l | None => [] end.

(** [fetchPlaybookBySeriesID] *)
Definition fetchPlaybookBySeriesID (series : string) (w : ChainWorld) : option Playbook :=
  head (ListPlaybooks order (list_query "true" "true" series "") (w_playbooks (base w))).

Definition run_start (pb : Playbook) (contextID connStr traceID priorRunID trigger operator : string) : PlaybookRun :=
  {| RunID := ""; run_PlaybookID := PlaybookID pb; run_SeriesID := pb_SeriesID pb;
     run_ExecutionMode := pb_ExecutionMode pb; run_Outcome := ""; EscalatedTo := ""; TransitionedTo := "";
     FindingsSummary := ""; run_Report := None; run_ContextID := contextID; run_ConnectionString := connStr;
     run_TraceID := traceID; AgentTranscript := ""; PriorRunID := priorRunID; TriggerContext := trigger;
     run_Operator := operator; run_StartedAt := 0; run_CompletedAt := 0 |}.

(** [recordPlaybookRunStart]: the run's id, or nothing. *)
Definition recordPlaybookRunStart (now : Time) (pb : Playbook)
    (contextID connStr traceID priorRunID trigger operator : string) (w : ChainWorld) : ChainWorld * string :=
  let rows := w_runs (base w) in
  let run := run_start pb contextID connStr traceID priorRunID trigger operator in
  match handleRecordRun encode_report now (new_id rows) (PlaybookID pb) (Ok run) (w_playbooks (base w)) rows with
  | (rows', RCreated r) => (on_base (set_runs rows') w, RunID r)
  | (rows', _) => (on_base (set_runs rows') w, "")
  end.

Definition full_update (outcome escalatedTo transitionedTo findings transcript traceID : string)
    (report : option DiagnosticReport) : RunUpdate :=
  {| u_Outcome := outcome; u_EscalatedTo := escalatedTo; u_TransitionedTo := transitionedTo;
     u_FindingsSummary := findings; u_AgentTranscript := transcript; u_TraceID := traceID; u_Report := report |}.

Definition prior_summary (runID : string) (w : ChainWorld) : string :=
  if runID =?s "" then ""
  else match fetchPlaybookRun decode_report runID (base w) with Some r => FindingsSummary r | None => "" end.

(** ** One agent run *)

Definition with_signals (escalate transition : string) (e : agentEscalation) : agentEscalation :=
  {| EscalateTo := escalate; TransitionTo := transition; Findings := Findings e; CleanText := CleanText e |}.

(** A target that is not allowed becomes a request for the operator. *)
Definition checked_signals (pb : Playbook) (e : agentEscalation) : agentEscalation :=
  let e :=
    if negb (isAllowedNextPlaybook pb (TransitionTo e) directiveTransition) then with_signals operator_approval "" e
    else e in
  if negb (isAllowedNextPlaybook pb (EscalateTo e) directiveEscalate) then with_signals operator_approval (TransitionTo e) e
  else e.

(** Only an answer with status 200 and a text is read. *)
Definition answer_text (c : Capture) : option string :=
  if (c_code c =? 200)%Z then match c_body c with Object t => t | NotObject => None end else None.

Definition run_outcome (e : agentEscalation) : string :=
  if given (TransitionTo e) then OutcomeTransitioned
  else if given (EscalateTo e) then OutcomeEscalated
  else if given (Findings e) then OutcomeResolved
  else OutcomeUnknown.

Definition run_event (now : Time) (traceID : string) (principal : ResolvedPrincipal) (pb : Playbook) (e : agentEscalation)
    : option Event :=
  if given (TransitionTo e) then Some (escalation_event uuid8 fresh now traceID principal pb (TransitionTo e) (Findings e) true)
  else if given (EscalateTo e) && negb (is_terminal (EscalateTo e)) then
    Some (escalation_event uuid8 fresh now traceID principal pb (EscalateTo e) (Findings e) false)
  else None.

Definition run_agent_name (pb : Playbook) (agentName : string) : string :=
  or_default (or_default agentNameDB (pb_AgentName pb)) agentName.

Definition agent_call (g : Gateway) (pb : Playbook) (req : PlaybookRunRequest) (agentName : string) : AgentCall :=
  let hint := buildServerTypeHint (config g) (servers_of g) (rq_ConnectionString req) in
  {| ac_Agent := run_agent_name pb agentName; ac_ContextID := rq_ContextID req;
     ac_Prompt := if crystalBall g then assembleCrystalBallPrompt req hint else assembleTriagePrompt pb req hint;
     ac_Approval :=
       if rq_ApprovalMode req =?s "" then None
       else Some {| mode := rq_ApprovalMode req; sessionID := rq_ApprovalSession req |} |}.

Definition runAgentPlaybook (g : Gateway) (now : Time) (principal : ResolvedPrincipal) (pb : Playbook)
    (req : PlaybookRunRequest) (agentName runID : string) (w : ChainWorld) : ChainWorld * agentRunResult :=
  let call := agent_call g pb req agentName in
  let capture := proxyToAgent (agent_calls w) call in
  let w := {| base := base w; agent_calls := agent_calls w ++ [call]; audit_events := audit_events w; hub := hub w |} in
  let res capture outcome esc trans findings report :=
    {| ar_capture := capture; ar_traceID := c_trace capture; ar_outcome := outcome; ar_escalatedTo := esc;
       ar_transitionTo := trans; ar_findings := findings; ar_report := report; ar_runID := runID;
       ar_series := pb_SeriesID pb; ar_agent := run_agent_name pb agentName |} in
  match answer_text capture with
  | None => (w, res capture OutcomeUnknown "" "" "" None)
  | Some text =>
      let e := checked_signals pb (parseAgentEscalation text) in
      let w := match run_event now (c_trace capture) principal pb e with Some ev => emit g ev w | None => w end in
      (w, res (set_text (CleanText e) capture) (run_outcome e)
            (if given (TransitionTo e) then "" else EscalateTo e) (TransitionTo e) (Findings e)
            (parseDiagnosticReport text))
  end.

(** ** Chaining *)

(** The request of a chained run. *)
Definition chain_request (req : PlaybookRunRequest) (priorRunID priorFindings : string) : PlaybookRunRequest :=
  {| rq_ConnectionString := rq_ConnectionString req; rq_Context := rq_Context req; rq_TriggerContext := "";
     rq_ContextID := ""; rq_PriorRunID := priorRunID; rq_PriorFindings := priorFindings;
     rq_ApprovalMode := rq_ApprovalMode req; rq_ApprovalSession := rq_ApprovalSession req;
     GateEscalation := false; RemediationSeriesID := ""; rq_Purpose := ""; rq_PurposeNote := "" |}.

Definition chainEscalation (g : Gateway) (now : Time) (principal : ResolvedPrincipal) (h : Headers)
    (req : PlaybookRunRequest) (prev : agentRunResult) (nextPB : Playbook) (w : ChainWorld) : ChainWorld * agentRunResult :=
  let chainReq := chain_request req (ar_runID prev) (prior_summary (ar_runID prev) w) in
  let '(w, chainRunID) :=
    recordPlaybookRunStart now nextPB (rq_ContextID req) (rq_ConnectionString req) (x_trace h) (ar_runID prev) ""
      (x_user h) w in
  let '(w, res) := runAgentPlaybook g now principal nextPB chainReq (pb_AgentName nextPB) chainRunID w in
  (on_base (record_complete chainRunID
     (full_update (ar_outcome res) (ar_escalatedTo res) (ar_transitionTo res) (ar_findings res)
        (capturedText (ar_capture res)) (ar_traceID res) (ar_report res))) w, res).

Definition next_series (prev : agentRunResult) : string := or_default (ar_transitionTo prev) (ar_escalatedTo prev).
Definition is_transition (prev : agentRunResult) : bool := ar_escalatedTo prev =?s "".

(** What the loop does with the last run's signal.  [gate] is the request's
    gate_escalation, or that a gate was forced. *)
Inductive Next :=
  | NoSignal
  | AskOperator (token message : string)
  | NothingToDo
  | Pause (forced : bool)
  | Unavailable
  | Suggest
  | ChainTo (pb : Playbook).

Definition decide_next (now : Time) (gate : bool) (req : PlaybookRunRequest) (prev : agentRunResult) (w : ChainWorld) : Next :=
  if (ar_escalatedTo prev =?s "") && (ar_transitionTo prev =?s "") then NoSignal
  else
    match (if is_transition prev then None else terminalEscalations (next_series prev)) with
    | Some msg => AskOperator (next_series prev) msg
    | None =>
        if findingsRecommendMonitor (ar_findings prev) then NothingToDo
        else if gate then Pause false
        else if lowConfidenceForceGate (ar_report prev) then Pause true
        else
          match fetchPlaybookBySeriesID (next_series prev) w with
          | None => Unavailable
          | Some pb =>
              if canAutoChain fetchSession now (rq_ApprovalMode req) (rq_ApprovalSession req) (pb_ApprovalMode pb)
              then ChainTo pb else Suggest
          end
    end.

Record LoopState := {
  l_world : ChainWorld;
  l_gate : bool;
  l_chain : list chainEntry;
  l_prev : agentRunResult;
  l_outcome : string;
  l_escalatedTo : string;
  l_transitionedTo : string;
  l_findings : string;
  l_report : option DiagnosticReport;
  l_extra : list ExtraField;
  l_capture : Capture }.

Definition entry (step : nat) (r : agentRunResult) : chainEntry :=
  {| ce_Step := Z.of_nat step; ce_Series := ar_series r; ce_Agent := ar_agent r; ce_RunID := ar_runID r;
     ce_Findings := ar_findings r; ce_Text := capturedText (ar_capture r); ce_Report := ar_report r |}.

Definition add_extra (fields : list ExtraField) (st : LoopState) : LoopState :=
  {| l_world := l_world st; l_gate := l_gate st; l_chain := l_chain st; l_prev := l_prev st;
     l_outcome := l_outcome st; l_escalatedTo := l_escalatedTo st; l_transitionedTo := l_transitionedTo st;
     l_findings := l_findings st; l_report := l_report st; l_extra := l_extra st ++ fields; l_capture := l_capture st |}.

Definition preview (series : string) (w : ChainWorld) : option Preview :=
  option_map (fun pb => {| pv_series := pb_SeriesID pb; pv_name := pb_Name pb; pv_description := pb_Description pb;
                           pv_mode := pb_ApprovalMode pb |}) (fetchPlaybookBySeriesID series w).

Definition gate_info (transition : bool) (series : string) (prev : agentRunResult) (w : ChainWorld) : GateInfo :=
  let '(warn, suggested) := confidenceWarning (ar_report prev) in
  {| gate_transition := transition; gate_target := series; gate_findings := ar_findings prev; gate_warning := warn;
     gate_suggested_mode := suggested; gate_preview := preview series w |}.

Definition report_field (r : option DiagnosticReport) : list ExtraField :=
  match r with Some r => [XReport (Some r)] | None => [] end.

Definition gate_decision (user : string) (prev : agentRunResult) (info : GateInfo) : HubDecision :=
  {| hub_ID := "gate:" ++ ar_runID prev; hub_Status := "pending";
     hub_Summary := "Triage complete — " ++ (if gate_transition info then "TRANSITION_TO " else "ESCALATE_TO ") ++ gate_target info;
     hub_By := user; hub_Gate := Some info |}.

Definition notify_gate (g : Gateway) (user : string) (prev : agentRunResult) (info : GateInfo) (w : ChainWorld) : ChainWorld :=
  if ar_runID prev =?s "" then w else notify g (gate_decision user prev info) w.

(** The loop stops at a gate; [escalatedTo] is what the run keeps of that. *)
Definition pause (g : Gateway) (h : Headers) (series : string) (transition : bool) (escalatedTo : string)
    (fields : list ExtraField) (st : LoopState) : LoopState :=
  let prev := l_prev st in
  let info := gate_info transition series prev (l_world st) in
  {| l_world := notify_gate g (x_user h) prev info (l_world st); l_gate := true; l_chain := l_chain st; l_prev := prev;
     l_outcome := OutcomeGatePending; l_escalatedTo := escalatedTo;
     l_transitionedTo := if transition then series else ""; l_findings := ar_findings prev; l_report := ar_report prev;
     l_extra := l_extra st ++ fields ++ [XGate info] ++ report_field (ar_report prev); l_capture := l_capture st |}.

Definition nothing_to_do (st : LoopState) : LoopState :=
  {| l_world := l_world st; l_gate := l_gate st; l_chain := l_chain st; l_prev := l_prev st;
     l_outcome := OutcomeResolved; l_escalatedTo := ""; l_transitionedTo := ""; l_findings := l_findings st;
     l_report := l_report st; l_extra := l_extra st; l_capture := l_capture st |}.

(** A chained run joins the result. *)
Definition chained (w : ChainWorld) (r : agentRunResult) (st : LoopState) : LoopState :=
  let found := given (ar_findings r) in
  let report := mergeDiagnosticReports sort (l_report st) (ar_report r) in
  {| l_world := w; l_gate := l_gate st; l_chain := l_chain st ++ [entry (length (l_chain st) + 1) r]; l_prev := r;
     l_outcome := OutcomeEscalatedResolved;
     l_escalatedTo := if found then ar_escalatedTo r else l_escalatedTo st;
     l_transitionedTo := if found then ar_transitionTo r else l_transitionedTo st;
     l_findings := if found then ar_findings r else l_findings st;
     l_report := report;
     l_extra := l_extra st ++ [XReport report; XChainedRun (ar_runID r)] ++
                (if found then [XChainedFindings (ar_findings r)] else []);
     l_capture := appendChainedText (l_capture st) (ar_capture r) |}.

Definition suggested_next (req : PlaybookRunRequest) (prev : agentRunResult) : Suggested :=
  SuggestPlaybook (next_series prev) (ar_findings prev) (rq_ConnectionString req) (ar_runID prev) (ar_findings prev)
    (rq_ApprovalMode req).

Definition maxChainDepth : nat := 5.

(** [fuel] bounds the runs that may be added. *)
Fixpoint chain_loop (fuel : nat) (g : Gateway) (now : Time) (principal : ResolvedPrincipal) (h : Headers)
    (req : PlaybookRunRequest) (st : LoopState) : LoopState :=
  match fuel with
  | O => st
  | S fuel =>
      let prev := l_prev st in
      match decide_next now (l_gate st) req prev (l_world st) with
      | NoSignal | Unavailable => st
      | AskOperator token msg => add_extra [XSuggested (SuggestOperator token msg)] st
      | NothingToDo => nothing_to_do st
      | Pause forced =>
          pause g h (next_series prev) (is_transition prev) (if is_transition prev then "" else next_series prev)
            (if forced then [XLowConfidence] else []) st
      | Suggest => add_extra [XSuggested (suggested_next req prev)] st
      | ChainTo nextPB =>
          let '(w, r) := chainEscalation g now principal h req prev nextPB (l_world st) in
          chain_loop fuel g now principal h req (chained w r st)
      end
  end.

(** The gate that is made when the agent gave no signal. *)
Definition fallback_gate (g : Gateway) (h : Headers) (req : PlaybookRunRequest) (warnings : list string) (st : LoopState)
    : LoopState :=
  let prev := l_prev st in
  if l_gate st && given (RemediationSeriesID req) && (ar_escalatedTo prev =?s "") && (ar_transitionTo prev =?s "") &&
     negb (l_outcome st =?s OutcomeGatePending) && negb (findingsRecommendMonitor (ar_findings prev)) then
    add_extra [XWarnings (warnings ++
      ["triage agent omitted required TRANSITION_TO/ESCALATE_TO signal; gate created from remediation_series_id"])]
      (pause g h (RemediationSeriesID req) true (l_escalatedTo st) [] st)
  else st.

Definition first_state (req : PlaybookRunRequest) (w : ChainWorld) (r : agentRunResult) (extra : list ExtraField) : LoopState :=
  {| l_world := w; l_gate := GateEscalation req; l_chain := [entry 1 r]; l_prev := r; l_outcome := ar_outcome r;
     l_escalatedTo := ar_escalatedTo r; l_transitionedTo := ar_transitionTo r; l_findings := ar_findings r;
     l_report := ar_report r; l_extra := extra; l_capture := ar_capture r |}.

Inductive ChainAnswer :=
  | ChainError (code : Z) (msg : string)
  | ChainAgent (c : Capture) (extra : list ExtraField)
  | ChainApprove (a : RunAnswer (Value := Value)) (warnings : list string) (mode : string)
  | ChainDenied (runID : string).

(** auditd is configured; otherwise no run starts. *)
Definition auditURL : string := "http://auditd".

Definition drift_fields (g : Gateway) (conn traceID : string) : list ExtraField :=
  if conn =?s "" then []
  else
    match checkTargetScope (servers_of g) auditURL traceID conn (fetchToolEvents traceID) with
    | [] => []
    | drift => [XDrift drift]
    end.

Definition first_fields (runID : string) (r : agentRunResult) (warnings : list string) : list ExtraField :=
  (if runID =?s "" then [] else [XRunID runID]) ++
  (if given (ar_findings r) then [XFindings (ar_findings r)] else []) ++
  report_field (ar_report r) ++
  match warnings with [] => [] | _ => [XWarnings warnings] end.

Definition handlePlaybookRunAsAgent (g : Gateway) (now : Time) (principal : ResolvedPrincipal) (h : Headers) (pb : Playbook)
    (req : PlaybookRunRequest) (runID : string) (warnings : list string) (w : ChainWorld) : ChainWorld * ChainAnswer :=
  let '(w, primary) := runAgentPlaybook g now principal pb req "" runID w in
  let extra := (first_fields runID primary warnings ++ drift_fields g (rq_ConnectionString req) (ar_traceID primary))%list in
  if crystalBall g then
    (on_base (record_complete runID
       (full_update (ar_outcome primary) "" "" (ar_findings primary) "" (ar_traceID primary) None)) w,
     ChainAgent (ar_capture primary) (extra ++ [XCrystalBall]))
  else
    let st := chain_loop (maxChainDepth - 1) g now principal h req (first_state req w primary extra) in
    let st := fallback_gate g h req warnings st in
    (on_base (record_complete runID
       (full_update (l_outcome st) (l_escalatedTo st) (l_transitionedTo st) (l_findings st)
          (capturedText (l_capture st)) (ar_traceID primary) (l_report st))) (l_world st),
     ChainAgent (l_capture st) (l_extra st ++ [XChain (l_chain st)])).

(** ** Step-by-step runs *)

(** Without a planner nothing is proposed. *)
Definition run_approve (g : Gateway) (now : Time) (approvalID : string) (h : Headers) (pb : Playbook)
    (req : PlaybookRunRequest) (runID : string) (warnings : list string) (w : ChainWorld) : ChainWorld * ChainAnswer :=
  if negb (has_planner g) then
    (w, ChainError 503 "planner LLM not configured (required for agent_approve mode)")
  else
    let '(b, a) :=
      handlePlaybookRunApprove VString planner now approvalID (x_user h) pb (rq_ConnectionString req)
        (rq_PriorFindings req) runID (base w) in
    (on_base (fun _ => b) w,
     match a with
     | AnswerError code msg => ChainError code msg
     | _ => ChainApprove a warnings (rq_ApprovalMode req)
     end).

(** ** Starting a run *)

Definition override_servers (g : Gateway) : option (Servers * Servers) :=
  option_map (fun cs => (cs.2, cs.2)) (g_infra g).

Definition with_mode_and_findings (mode prior : string) (req : PlaybookRunRequest) : PlaybookRunRequest :=
  {| rq_ConnectionString := rq_ConnectionString req; rq_Context := rq_Context req;
     rq_TriggerContext := rq_TriggerContext req; rq_ContextID := rq_ContextID req; rq_PriorRunID := rq_PriorRunID req;
     rq_PriorFindings := prior; rq_ApprovalMode := mode; rq_ApprovalSession := rq_ApprovalSession req;
     GateEscalation := GateEscalation req; RemediationSeriesID := RemediationSeriesID req;
     rq_Purpose := rq_Purpose req; rq_PurposeNote := rq_PurposeNote req |}.

Definition no_connection_warning : string :=
  "no connection_string specified — agent will need to ask which database to investigate".

Definition run_warnings (g : Gateway) (pb : Playbook) (req : PlaybookRunRequest) : list string :=
  ((if (pb_ExecutionMode pb =?s "agent") && (rq_ConnectionString req =?s "") then [no_connection_warning] else []) ++
   checkRequiresEvidence compile (RequiresEvidence pb) (rq_Context req) ++
   checkContextConsistency (config g) (servers_of g) (rq_ConnectionString req) (rq_Context req))%list.

Definition start_trace (h : Headers) (pb : Playbook) : string :=
  if (x_trace h =?s "") && (pb_ExecutionMode pb =?s "agent_approve") then fresh else x_trace h.

Definition handlePlaybookRun (g : Gateway) (now : Time) (approvalID : string) (principal : ResolvedPrincipal) (h : Headers)
    (id : string) (body : result string PlaybookRunRequest) (w : ChainWorld) : ChainWorld * ChainAnswer :=
  if id =?s "" then (w, ChainError 400 "missing playbook ID")
  else
    match body with
    | Err e => (w, ChainError 400 ("invalid request body: " ++ e))
    | Ok req =>
        match fetchPlaybook order id (w_playbooks (base w)) with
        | None => (w, ChainError 404 ("playbook " ++ quote id ++ " not found: not found"))
        | Some pb =>
            let '(mode, clamped) :=
              enforceApprovalOverride (override_servers g) principal (or_default (pb_ApprovalMode pb) (rq_ApprovalMode req))
                (pb_ApprovalMode pb) (rq_ConnectionString req) in
            let warnings := (clamped ++ run_warnings g pb req)%list in
            let req := with_mode_and_findings mode (prior_summary (rq_PriorRunID req) w) req in
            let '(w, runID) :=
              recordPlaybookRunStart now pb (rq_ContextID req) (rq_ConnectionString req) (start_trace h pb)
                (rq_PriorRunID req) (rq_TriggerContext req) (x_user h) w in
            if pb_ExecutionMode pb =?s "agent" then handlePlaybookRunAsAgent g now principal h pb req runID warnings w
            else if pb_ExecutionMode pb =?s "agent_approve" then run_approve g now approvalID h pb req runID warnings w
            else if negb (has_planner g) then (w, ChainError 503 "fleet planner LLM not configured")
            else
              (on_base (record_complete runID (run_update OutcomeUnknown "" "")) w,
               ChainAgent (handleFleetPlan pb) (match warnings with [] => [] | _ => [XWarnings warnings] end))
        end
    end.

(** ** The informed gate *)

Record ProceedEscalationRequest := {
  pe_Resolution : string;
  pe_ResolvedBy : string;
  pe_ApprovalMode : string;
  pe_ApprovalSession : string;
  pe_ConnectionString : string;
  pe_Reason : string }.

Definition hub_resolved (runID status summary by_ : string) : HubDecision :=
  {| hub_ID := "gate:" ++ runID; hub_Status := status; hub_Summary := summary; hub_By := by_; hub_Gate := None |}.

(** [recordPlaybookRunComplete], when it is waited for. *)
Definition complete_now (now : Time) (runID : string) (u : RunUpdate) (b : World) : World :=
  if runID =?s "" then b else set_runs (handleUpdateRun encode_report now runID (Ok u) (w_runs b)).1 b.

Definition gate_next (run : PlaybookRun) : string :=
  if given (TransitionedTo run) then TransitionedTo run else EscalatedTo run.

(** The request of the remediation run. *)
Definition remediation_request (run : PlaybookRun) (req : ProceedEscalationRequest) (runID mode prior : string)
    : PlaybookRunRequest :=
  {| rq_ConnectionString := or_default (run_ConnectionString run) (pe_ConnectionString req); rq_Context := "";
     rq_TriggerContext := ""; rq_ContextID := ""; rq_PriorRunID := runID; rq_PriorFindings := prior;
     rq_ApprovalMode := mode; rq_ApprovalSession := pe_ApprovalSession req; GateEscalation := false;
     RemediationSeriesID := ""; rq_Purpose := ""; rq_PurposeNote := "" |}.

Definition gate_denied (g : Gateway) (now : Time) (runID resolvedBy : string) (req : ProceedEscalationRequest)
    (run : PlaybookRun) (w : ChainWorld) : ChainWorld * ChainAnswer :=
  let w := emit g (gate_event uuid8 now run resolvedBy "denied" (pe_ApprovalMode req) (pe_Reason req)) w in
  let w := on_base (complete_now now runID
             (full_update OutcomeAbandoned "" "" "gate denied by operator" "" "" (run_Report run))) w in
  (notify g (hub_resolved runID "denied" "Gate denied — remediation will not proceed" resolvedBy) w, ChainDenied runID).

Definition gate_approved (g : Gateway) (now : Time) (approvalID : string) (principal : ResolvedPrincipal) (h : Headers)
    (runID resolution resolvedBy : string) (req : ProceedEscalationRequest) (run : PlaybookRun) (nextPB : Playbook)
    (w : ChainWorld) : ChainWorld * ChainAnswer :=
  let w := emit g (gate_event uuid8 now run resolvedBy resolution (pe_ApprovalMode req) (pe_Reason req)) w in
  let outcome := if given (TransitionedTo run) then OutcomeTransitioned else OutcomeEscalated in
  let w := on_base (complete_now now runID
             (full_update outcome (EscalatedTo run) (TransitionedTo run) (FindingsSummary run) "" "" (run_Report run))) w in
  let w := notify g (hub_resolved runID "approved" ("Gate approved — chaining to " ++ gate_next run) resolvedBy) w in
  let connStr := or_default (run_ConnectionString run) (pe_ConnectionString req) in
  let '(mode, warnings) :=
    enforceApprovalOverride (override_servers g) principal (or_default (pb_ApprovalMode nextPB) (pe_ApprovalMode req))
      (pb_ApprovalMode nextPB) connStr in
  let remReq := remediation_request run req runID mode (prior_summary runID w) in
  let '(w, remRunID) :=
    recordPlaybookRunStart now nextPB (run_ContextID run) connStr (start_trace h nextPB) runID "" resolvedBy w in
  if pb_ExecutionMode nextPB =?s "agent_approve" then run_approve g now approvalID h nextPB remReq remRunID warnings w
  else handlePlaybookRunAsAgent g now principal h nextPB remReq remRunID warnings w.

(** Feedback that is posted along is left out, and so is the audit anchor of a
    step-by-step run. *)
Definition handleProceedEscalation (g : Gateway) (now : Time) (approvalID : string) (principal : ResolvedPrincipal)
    (h : Headers) (runID : string) (body : result string ProceedEscalationRequest) (w : ChainWorld)
    : ChainWorld * ChainAnswer :=
  if runID =?s "" then (w, ChainError 400 "missing runID")
  else
    match body with
    | Err e => (w, ChainError 400 ("invalid request body: " ++ e))
    | Ok req =>
        let resolution := or_default "approved" (pe_Resolution req) in
        let resolvedBy := resolver (pe_ResolvedBy req) (x_user h) in
        match fetchPlaybookRun decode_report runID (base w) with
        | None => (w, ChainError 404 "run not found: not found")
        | Some run =>
            if negb (run_Outcome run =?s OutcomeGatePending) then
              (w, ChainError 409 ("run " ++ quote runID ++ " is not in gate_pending state (outcome=" ++
                                  quote (run_Outcome run) ++ ")"))
            else if resolution =?s "denied" then gate_denied g now runID resolvedBy req run w
            else
              match fetchPlaybookBySeriesID (gate_next run) w with
              | None => (w, ChainError 404 "remediation playbook not found: not found")
              | Some nextPB => gate_approved g now approvalID principal h runID resolution resolvedBy req run nextPB w
              end
        end
    end.

(** ** What a signal may name *)

Definition may_follow (pb : Playbook) (d : directive) (series : string) : Prop :=
  is_terminal series = true \/ allow_list pb d = [] \/ In series (allow_list pb d).

Definition never_none (e : agentEscalation) : Prop := EscalateTo e <> "none" /\ TransitionTo e <> "none".

Lemma named_not_none old v : old <> "none" -> named old v <> "none".
Proof.
  intros H. unfold named. destruct (v =?s "none") eqn:E; [done|]. destruct (v =?s ""); [done|].
  by apply streq_false in E.
Qed.

Lemma signal_line_never_none e line : never_none e -> never_none (signal_line e line).
Proof.
  intros [H1 H2]. unfold signal_line. set (t := unbold line).
  destruct (cut_prefix t "TRANSITION_TO:"); [split; [done|by apply named_not_none]|].
  destruct (cut_prefix t "ESCALATE_TO:"); [split; [by apply named_not_none|done]|].
  by destruct (cut_prefix t "FINDINGS:").
Qed.

Lemma parse_never_none text : never_none (parseAgentEscalation text).
Proof.
  assert (H : forall lines e, never_none e -> never_none (fold_left signal_line lines e)).
  { induction lines as [|l lines IH]; simpl; [done|]. intros e He. by apply IH, signal_line_never_none. }
  destruct (H (split_on newline text) {| EscalateTo := ""; TransitionTo := ""; Findings := ""; CleanText := "" |})
    as [H1 H2]; [by split|]. by split.
Qed.

Lemma allowed_may_follow pb s d : s <> "" -> s <> "none" -> isAllowedNextPlaybook pb s d = true -> may_follow pb d s.
Proof.
  intros H1 H2. unfold isAllowedNextPlaybook, may_follow.
  rewrite (proj2 (streq_false s "") H1), (proj2 (streq_false s "none") H2). simpl.
  rewrite !orb_true_iff, mem_spec, Nat.eqb_eq. intros [[H|H]|H]; [by left| |by right; right].
  right; left. by destruct (allow_list pb d).
Qed.

Definition signals_allowed (pb : Playbook) (transition escalate : string) : Prop :=
  (transition <> "" -> may_follow pb directiveTransition transition) /\
  (escalate <> "" -> may_follow pb directiveEscalate escalate).

Lemma checked_signals_allowed pb e : never_none e ->
  signals_allowed pb (TransitionTo (checked_signals pb e)) (EscalateTo (checked_signals pb e)).
Proof.
  intros [Hn1 Hn2]. unfold checked_signals, signals_allowed.
  destruct (isAllowedNextPlaybook pb (TransitionTo e) directiveTransition) eqn:Et; simpl.
  - destruct (isAllowedNextPlaybook pb (EscalateTo e) directiveEscalate) eqn:Ee; simpl;
      (split; [intros H; by apply allowed_may_follow|]).
    + intros H. by apply allowed_may_follow.
    + intros _. by left.
  - split; [done|]. intros _. by left.
Qed.

(** ** What a run does to the world *)

Lemma emit_keeps g e w : base (emit g e w) = base w /\ agent_calls (emit g e w) = agent_calls w.
Proof. unfold emit. by destruct (has_auditor g). Qed.

Lemma notify_keeps g d w : base (notify g d w) = base w /\ agent_calls (notify g d w) = agent_calls w.
Proof. unfold notify. by destruct (has_notifier g). Qed.

Lemma record_complete_fields runID u (b : World) :
  w_playbooks (record_complete runID u b) = w_playbooks b /\ w_runs (record_complete runID u b) = w_runs b.
Proof. unfold record_complete. by destruct (runID =?s ""). Qed.

Lemma runAgentPlaybook_spec g now principal pb req agentName runID w :
  let '(w', r) := runAgentPlaybook g now principal pb req agentName runID w in
  agent_calls w' = (agent_calls w ++ [agent_call g pb req agentName])%list /\ base w' = base w /\
  signals_allowed pb (ar_transitionTo r) (ar_escalatedTo r) /\ ar_runID r = runID.
Proof.
  unfold runAgentPlaybook. destruct (answer_text _) as [text|]; simpl; [|done].
  pose proof (checked_signals_allowed pb _ (parse_never_none text)) as Hs.
  set (e := checked_signals pb _) in *. destruct (run_event _ _ _ _ e) as [ev|]; simpl.
  1: destruct (emit_keeps g ev {| base := base w; agent_calls := agent_calls w ++ [agent_call g pb req agentName];
    audit_events := audit_events w; hub := hub w |}) as [-> ->]; simpl.
  all: split; [done|]; split; [done|]; split; [|done]; split; [apply Hs|];
    destruct (given (TransitionTo e)); [done|apply Hs].
Qed.

Lemma recordPlaybookRunStart_keeps now pb a b c d e f w :
  let w' := (recordPlaybookRunStart now pb a b c d e f w).1 in
  agent_calls w' = agent_calls w /\ w_playbooks (base w') = w_playbooks (base w) /\
  w_steps (base w') = w_steps (base w) /\ w_calls (base w') = w_calls (base w) /\
  exists rows, w_runs (base w') = (w_runs (base w) ++ rows)%list.
Proof.
  unfold recordPlaybookRunStart, handleRecordRun. destruct (PlaybookID pb =?s "").
  { simpl. repeat split. exists []. by rewrite app_nil_r. }
  set (run := fill_run _ _ _). destruct (run_SeriesID run =?s "").
  { simpl. repeat split. exists []. by rewrite app_nil_r. }
  unfold RecordRun. set (r := complete_run now _ run). destruct (existsb _ _); simpl; (repeat split; [..|eexists]).
  - symmetry. apply app_nil_r.
  - done.
Qed.

(** ** Authorised chains *)

(** The next playbook was named by the last run's signal, which its own playbook allows,
    nothing asks for a human, and the approval modes permit the chaining. *)
Record authorised (playbooks : Table) (now : Time) (req : PlaybookRunRequest) (pb : Playbook) (r : agentRunResult)
    (next : Playbook) : Prop := {
  au_named : next_series r <> "";
  au_allowed : may_follow pb (if is_transition r then directiveTransition else directiveEscalate) (next_series r);
  au_not_terminal : is_transition r = false -> is_terminal (next_series r) = false;
  au_actionable : findingsRecommendMonitor (ar_findings r) = false;
  au_no_gate : GateEscalation req = false;
  au_confident : lowConfidenceForceGate (ar_report r) = false;
  au_active : head (ListPlaybooks order (list_query "true" "true" (next_series r) "") playbooks) = Some next;
  au_mode : canAutoChain fetchSession now (rq_ApprovalMode req) (rq_ApprovalSession req) (pb_ApprovalMode next) = true }.

(** A chain of follow-on playbooks, each with its run's id and the findings it was given. *)
Inductive follows (playbooks : Table) (now : Time) (req : PlaybookRunRequest)
    : Playbook -> agentRunResult -> list (Playbook * string * string) -> Prop :=
  | follows_end pb r : follows playbooks now req pb r []
  | follows_next pb r next runID findings r' l :
      authorised playbooks now req pb r next ->
      signals_allowed next (ar_transitionTo r') (ar_escalatedTo r') ->
      follows playbooks now req next r' l ->
      follows playbooks now req pb r ((next, runID, findings) :: l).

Definition chained_call (g : Gateway) (req : PlaybookRunRequest) (l : Playbook * string * string) : AgentCall :=
  let '(next, runID, findings) := l in agent_call g next (chain_request req runID findings) (pb_AgentName next).

Lemma decide_next_chain now gate req prev w pb next :
  decide_next now gate req prev w = ChainTo next -> signals_allowed pb (ar_transitionTo prev) (ar_escalatedTo prev) ->
  gate = GateEscalation req ->
  authorised (w_playbooks (base w)) now req pb prev next.
Proof.
  intros H [Ht He] ->. unfold decide_next in H.
  destruct ((ar_escalatedTo prev =?s "") && (ar_transitionTo prev =?s "")) eqn:E0; [done|].
  destruct (if is_transition prev then None else terminalEscalations (next_series prev)) eqn:E1; [done|].
  destruct (findingsRecommendMonitor _) eqn:E2; [done|].
  destruct (GateEscalation req) eqn:E3; [done|].
  destruct (lowConfidenceForceGate _) eqn:E4; [done|].
  destruct (fetchPlaybookBySeriesID _ _) as [p|] eqn:E5; [|done].
  destruct (canAutoChain _ _ _ _ _) eqn:E6; [|done]. injection H as ->.
  unfold is_transition, next_series, or_default in *.
  destruct (ar_escalatedTo prev =?s "") eqn:E; simpl in E0.
  - apply streq_false in E0. constructor; unfold is_transition, next_series, or_default; rewrite ?E; try done; by apply Ht.
  - apply streq_false in E. constructor; unfold is_transition, next_series, or_default;
      rewrite ?(proj2 (streq_false _ _) E); try done; [by apply He|].
    intros _. unfold is_terminal. by rewrite E1.
Qed.

Lemma chainEscalation_spec g now principal h req prev next w :
  let '(w', r) := chainEscalation g now principal h req prev next w in
  exists runID findings,
    agent_calls w' = (agent_calls w ++ [chained_call g req (next, runID, findings)])%list /\
    w_playbooks (base w') = w_playbooks (base w) /\ signals_allowed next (ar_transitionTo r) (ar_escalatedTo r).
Proof.
  unfold chainEscalation.
  destruct (recordPlaybookRunStart _ _ _ _ _ _ _ _ _) as [w1 id] eqn:E1.
  pose proof (recordPlaybookRunStart_keeps now next (rq_ContextID req) (rq_ConnectionString req) (x_trace h)
    (ar_runID prev) "" (x_user h) w) as H1. rewrite E1 in H1. destruct H1 as (Hc1 & Hp1 & _). simpl fst in Hc1, Hp1.
  destruct (runAgentPlaybook _ _ _ _ _ _ _ _) as [w2 r] eqn:E2.
  pose proof (runAgentPlaybook_spec g now principal next
    (chain_request req (ar_runID prev) (prior_summary (ar_runID prev) w)) (pb_AgentName next) id w1) as H2.
  rewrite E2 in H2. destruct H2 as (Hc2 & Hb2 & Hs2 & _).
  exists (ar_runID prev), (prior_summary (ar_runID prev) w). split; [|split; [|done]].
  - simpl. by rewrite Hc2, Hc1.
  - simpl. rewrite (proj1 (record_complete_fields _ _ _)), Hb2. exact Hp1.
Qed.

(** Every way out of the loop but chaining leaves the calls and the playbooks alone. *)
Lemma pause_keeps g h series t esc f st :
  agent_calls (l_world (pause g h series t esc f st)) = agent_calls (l_world st) /\
  base (l_world (pause g h series t esc f st)) = base (l_world st).
Proof.
  unfold pause, notify_gate; simpl. destruct (ar_runID _ =?s ""); [done|].
  by destruct (notify_keeps g (gate_decision (x_user h) (l_prev st) (gate_info t series (l_prev st) (l_world st)))
    (l_world st)) as [-> ->].
Qed.

Lemma chain_loop_spec g now principal h req fuel : forall st pb,
  l_gate st = GateEscalation req -> signals_allowed pb (ar_transitionTo (l_prev st)) (ar_escalatedTo (l_prev st)) ->
  let st' := chain_loop fuel g now principal h req st in
  exists l, length l <= fuel /\ follows (w_playbooks (base (l_world st))) now req pb (l_prev st) l /\
    agent_calls (l_world st') = (agent_calls (l_world st) ++ map (chained_call g req) l)%list.
Proof.
  induction fuel as [|fuel IH]; intros st pb Hg Hs; cbv zeta.
  { exists []. split; [done|]. split; [constructor|]. by rewrite app_nil_r. }
  assert (Hstop : forall st', agent_calls (l_world st') = agent_calls (l_world st) ->
    exists l, length l <= S fuel /\ follows (w_playbooks (base (l_world st))) now req pb (l_prev st) l /\
      agent_calls (l_world st') = (agent_calls (l_world st) ++ map (chained_call g req) l)%list).
  { intros st' E. exists []. split; [simpl; lia|]. split; [constructor|]. by rewrite app_nil_r. }
  cbn [chain_loop]. destruct (decide_next now (l_gate st) req (l_prev st) (l_world st)) as [| | | | | |next] eqn:Ed;
    try (by apply Hstop).
  - apply Hstop, (pause_keeps g h).
  - pose proof (decide_next_chain _ _ _ _ _ pb _ Ed Hs Hg) as Hau.
    destruct (chainEscalation _ _ _ _ _ _ _ _) as [w r] eqn:Ec.
    pose proof (chainEscalation_spec g now principal h req (l_prev st) next (l_world st)) as Hc. rewrite Ec in Hc.
    destruct Hc as (runID & findings & Hcalls & Hpb & Hsig).
    destruct (IH (chained w r st) next Hg Hsig) as (l & Hlen & Hf & Hl).
    exists ((next, runID, findings) :: l). split; [simpl; lia|]. split.
    + apply (follows_next _ _ _ _ _ _ _ _ r); [done|done|]. simpl in Hf. by rewrite Hpb in Hf.
    + rewrite Hl. simpl. rewrite Hcalls. by rewrite <- List.app_assoc.
Qed.

Lemma fallback_gate_keeps g h req ws st :
  agent_calls (l_world (fallback_gate g h req ws st)) = agent_calls (l_world st) /\
  base (l_world (fallback_gate g h req ws st)) = base (l_world st).
Proof. unfold fallback_gate. destruct (_ && _); [|done]. apply (pause_keeps g h). Qed.

Lemma agent_run_chain g now principal h pb req runID warnings w :
  let w' := (handlePlaybookRunAsAgent g now principal h pb req runID warnings w).1 in
  exists first l,
    signals_allowed pb (ar_transitionTo first) (ar_escalatedTo first) /\
    follows (w_playbooks (base w)) now req pb first l /\
    agent_calls w' = (agent_calls w ++ agent_call g pb req "" :: map (chained_call g req) l)%list /\
    length l <= 4 /\ (crystalBall g = true -> l = []).
Proof.
  cbv zeta. unfold handlePlaybookRunAsAgent.
  destruct (runAgentPlaybook g now principal pb req "" runID w) as [w1 r] eqn:E1.
  pose proof (runAgentPlaybook_spec g now principal pb req "" runID w) as H1. rewrite E1 in H1.
  destruct H1 as (Hc & Hb & Hs & _). destruct (crystalBall g) eqn:Ecb.
  - exists r, []. split; [done|]. split; [constructor|]. split; [done|]. split; [simpl; lia|done].
  - set (st := first_state req w1 r _).
    destruct (chain_loop_spec g now principal h req (maxChainDepth - 1) st pb eq_refl Hs) as (l & Hlen & Hf & Hl).
    exists r, l. split; [done|]. split; [simpl in Hf; by rewrite Hb in Hf|]. split; [|split; [exact Hlen|done]].
    change (agent_calls (l_world (fallback_gate g h req warnings
      (chain_loop (maxChainDepth - 1) g now principal h req st))) =
      (agent_calls w ++ agent_call g pb req "" :: map (chained_call g req) l)%list).
    rewrite (proj1 (fallback_gate_keeps g h req warnings _)), Hl. change (agent_calls (l_world st)) with (agent_calls w1). rewrite Hc. by rewrite <- List.app_assoc.
Qed.


(** ** Gates *)

Lemma decide_next_pause now gate req r w :
  next_series r <> "" -> (is_transition r = false -> is_terminal (next_series r) = false) ->
  findingsRecommendMonitor (ar_findings r) = false -> gate = true \/ lowConfidenceForceGate (ar_report r) = true ->
  exists forced, decide_next now gate req r w = Pause forced.
Proof.
  intros Hn Ht Hm Hg. unfold decide_next. unfold next_series, or_default, is_transition, is_terminal in *.
  destruct (ar_escalatedTo r =?s "") eqn:E; simpl.
  - rewrite (proj2 (streq_false _ "") Hn), Hm. destruct gate; [by exists false|].
    destruct Hg as [Hg|Hg]; [done|rewrite Hg]. by exists true.
  - specialize (Ht eq_refl). destruct (terminalEscalations _); [done|]. rewrite Hm.
    destruct gate; [by exists false|]. destruct Hg as [Hg|Hg]; [done|rewrite Hg]. by exists true.
Qed.

(**  When the agent names a follow-on playbook, its findings ask for
    action, and a gate was requested or the diagnosis is not confident, the run stops
    there: no other agent is called, the response carries the gate, and the run is
    recorded as waiting for the operator, with the playbook that was named. *)
Theorem gate_pauses g now principal h pb req runID warnings w w1 r :
  crystalBall g = false -> runID <> "" -> runAgentPlaybook g now principal pb req "" runID w = (w1, r) ->
  next_series r <> "" -> (is_transition r = false -> is_terminal (next_series r) = false) ->
  findingsRecommendMonitor (ar_findings r) = false ->
  GateEscalation req = true \/ lowConfidenceForceGate (ar_report r) = true ->
  let '(w', a) := handlePlaybookRunAsAgent g now principal h pb req runID warnings w in
  agent_calls w' = (agent_calls w ++ [agent_call g pb req ""])%list /\
  background (base w') = (background (base w) ++
    [BgComplete runID
       (full_update OutcomeGatePending (if is_transition r then "" else next_series r)
          (if is_transition r then next_series r else "") (ar_findings r) (capturedText (ar_capture r))
          (ar_traceID r) (ar_report r))])%list /\
  exists c extra, a = ChainAgent c extra /\ In (XGate (gate_info (is_transition r) (next_series r) r w1)) extra.
Proof.
  intros Hcb Hid E1 Hn Ht Hm Hg. unfold handlePlaybookRunAsAgent. rewrite E1, Hcb.
  pose proof (runAgentPlaybook_spec g now principal pb req "" runID w) as H1. rewrite E1 in H1.
  destruct H1 as (Hc & Hb & _ & _).
  set (st := first_state req w1 r _).
  destruct (decide_next_pause now (l_gate st) req (l_prev st) (l_world st) Hn Ht Hm Hg) as [forced Ed].
  change (maxChainDepth - 1)%nat with 4%nat. cbn [chain_loop]. rewrite Ed. change (l_prev st) with r.
  set (st' := pause g h _ _ _ _ st).
  assert (Hf : fallback_gate g h req warnings st' = st').
  { unfold fallback_gate. replace (l_outcome st' =?s OutcomeGatePending) with true by done.
    by rewrite andb_false_r. }
  rewrite Hf. destruct (pause_keeps g h (next_series r) (is_transition r)
    (if is_transition r then "" else next_series r) (if forced then [XLowConfidence] else []) st) as [Hk1 Hk2].
  fold st' in Hk1, Hk2. split; [|split].
  - change (agent_calls (l_world st') = (agent_calls w ++ [agent_call g pb req ""])%list). rewrite Hk1. exact Hc.
  - cbn [on_base base]. rewrite Hk2. unfold record_complete. rewrite (proj2 (streq_false runID "") Hid).
    simpl. by rewrite Hb.
  - do 2 eexists. split; [done|]. simpl. rewrite !in_app_iff. left. right. right. by left.
Qed.

Lemma run_is_spec id r : run_is id r = true <-> rr_RunID r = id.
Proof. unfold run_is. apply streq_spec. Qed.

Lemma find_updated now id u rows : 
  find (run_is id) (UpdateRun encode_report now id u rows) =
  option_map (updated_run encode_report now u) (find (run_is id) rows).
Proof.
  induction rows as [|r rows IH]; simpl; [done|].
  destruct (run_is id r) eqn:E.
  - unfold run_is. simpl. unfold run_is in E. by rewrite E.
  - by rewrite E.
Qed.

(** The run with this id is not waiting at a gate. *)
Definition not_pending (runID : string) (rows : list RunRow) : Prop :=
  exists r, find (run_is runID) rows = Some r /\ rr_Outcome r <> OutcomeGatePending.

Lemma not_pending_app runID rows rows' : not_pending runID rows -> not_pending runID (rows ++ rows').
Proof. intros (r & H & Ho). exists r. split; [|done]. by rewrite find_app_first, H. Qed.

Lemma complete_now_runs now runID u (b : World) : runID <> "" -> u_Outcome u <> "" ->
  w_runs (complete_now now runID u b) = UpdateRun encode_report now runID u (w_runs b).
Proof.
  intros H1 H2. unfold complete_now, handleUpdateRun. rewrite (proj2 (streq_false runID "") H1). simpl.
  by rewrite (proj2 (streq_false _ "") H2).
Qed.

Lemma refused_again g now aid principal h runID body w :
  not_pending runID (w_runs (base w)) -> (handleProceedEscalation g now aid principal h runID body w).1 = w.
Proof.
  intros (r & Hr & Ho). unfold handleProceedEscalation. destruct (runID =?s "") eqn:E; [done|]. destruct body as [req|]; [|done].
  unfold fetchPlaybookRun, handleGetRun, GetByRunID. rewrite E, Hr. simpl.
  by rewrite (proj2 (streq_false _ OutcomeGatePending) Ho).
Qed.

Lemma run_approve_runs g now aid h pb req runID ws w :
  w_runs (base (run_approve g now aid h pb req runID ws w).1) = w_runs (base w).
Proof.
  unfold run_approve. destruct (has_planner g); [|done]. simpl. unfold handlePlaybookRunApprove.
  destruct (proposeNextStep _ _ _ _ _) as [[p|summary]|e]; [| |done].
  - simpl. unfold createStepApproval. by destruct (aid =?s "").
  - apply (record_complete_fields runID).
Qed.

(** Only recording a run changes the rows, at their end. *)
Lemma chainEscalation_runs g now principal h req prev next w :
  exists rows, w_runs (base (chainEscalation g now principal h req prev next w).1) = (w_runs (base w) ++ rows)%list.
Proof.
  unfold chainEscalation.
  destruct (recordPlaybookRunStart _ _ _ _ _ _ _ _ _) as [w1 id] eqn:E1.
  pose proof (recordPlaybookRunStart_keeps now next (rq_ContextID req) (rq_ConnectionString req) (x_trace h)
    (ar_runID prev) "" (x_user h) w) as H1. rewrite E1 in H1. destruct H1 as (_ & _ & _ & _ & rows & Hr).
  destruct (runAgentPlaybook _ _ _ _ _ _ _ _) as [w2 r] eqn:E2.
  pose proof (runAgentPlaybook_spec g now principal next
    (chain_request req (ar_runID prev) (prior_summary (ar_runID prev) w)) (pb_AgentName next) id w1) as H2.
  rewrite E2 in H2. destruct H2 as (_ & Hb2 & _).
  exists rows. simpl. rewrite (proj2 (record_complete_fields _ _ _)), Hb2. exact Hr.
Qed.

Lemma chain_loop_runs g now principal h req fuel : forall st,
  exists rows, w_runs (base (l_world (chain_loop fuel g now principal h req st))) = (w_runs (base (l_world st)) ++ rows)%list.
Proof.
  induction fuel as [|fuel IH]; intros st; [exists []; by rewrite app_nil_r|].
  assert (Hstop : exists rows, w_runs (base (l_world st)) = (w_runs (base (l_world st)) ++ rows)%list)
    by (exists []; by rewrite app_nil_r).
  cbn [chain_loop]. destruct (decide_next now (l_gate st) req (l_prev st) (l_world st)) as [|t m| |f| | |next] eqn:Ed;
    try exact Hstop.
  - destruct (pause_keeps g h (next_series (l_prev st)) (is_transition (l_prev st))
      (if is_transition (l_prev st) then "" else next_series (l_prev st)) (if f then [XLowConfidence] else []) st)
      as [_ ->]. exact Hstop.
  - destruct (chainEscalation_runs g now principal h req (l_prev st) next (l_world st)) as [rows Hr].
    destruct (chainEscalation _ _ _ _ _ _ _ _) as [w r]. simpl fst in Hr.
    destruct (IH (chained w r st)) as [rows' Hr']. exists (rows ++ rows')%list. rewrite Hr'. simpl. rewrite Hr.
    by rewrite <- List.app_assoc.
Qed.

Lemma agent_run_runs g now principal h pb req runID ws w :
  exists rows, w_runs (base (handlePlaybookRunAsAgent g now principal h pb req runID ws w).1) = (w_runs (base w) ++ rows)%list.
Proof.
  unfold handlePlaybookRunAsAgent. destruct (runAgentPlaybook g now principal pb req "" runID w) as [w1 r] eqn:E1.
  pose proof (runAgentPlaybook_spec g now principal pb req "" runID w) as H1. rewrite E1 in H1.
  destruct H1 as (_ & Hb & _). destruct (crystalBall g).
  - exists []. simpl. rewrite (proj2 (record_complete_fields _ _ _)), Hb. by rewrite app_nil_r.
  - set (st := first_state req w1 r _).
    destruct (chain_loop_runs g now principal h req (maxChainDepth - 1) st) as [rows Hr].
    exists rows. cbn [fst on_base base]. rewrite (proj2 (record_complete_fields _ _ _)).
    rewrite (proj2 (fallback_gate_keeps g h req ws _)), Hr. simpl. by rewrite Hb.
Qed.

(** A completion under another outcome ends the wait at the gate. *)
Lemma complete_not_pending now runID u (b : World) r :
  runID <> "" -> find (run_is runID) (w_runs b) = Some r -> u_Outcome u <> "" -> u_Outcome u <> OutcomeGatePending ->
  not_pending runID (w_runs (complete_now now runID u b)).
Proof.
  intros Hid Hr H1 H2. rewrite complete_now_runs by done.
  exists (updated_run encode_report now u r). split; [|done]. by rewrite find_updated, Hr.
Qed.

Lemma fetched_row runID (b : World) run :
  fetchPlaybookRun decode_report runID b = Some run -> exists r, find (run_is runID) (w_runs b) = Some r.
Proof.
  intros H. apply fetchPlaybookRun_Some in H. unfold GetByRunID in H. destruct (find _ _) as [r|]; [by exists r|done].
Qed.

Lemma recordStart_not_pending now pb ctx conn trace prior own by_ runID w :
  not_pending runID (w_runs (base w)) ->
  not_pending runID (w_runs (base (recordPlaybookRunStart now pb ctx conn trace prior own by_ w).1)).
Proof.
  intros H. destruct (recordPlaybookRunStart_keeps now pb ctx conn trace prior own by_ w) as (_ & _ & _ & _ & rows & ->).
  by apply not_pending_app.
Qed.

Lemma gate_denied_resolves g now runID by_ req run w r :
  runID <> "" -> find (run_is runID) (w_runs (base w)) = Some r ->
  let w' := (gate_denied g now runID by_ req run w).1 in
  agent_calls w' = agent_calls w /\ w_steps (base w') = w_steps (base w) /\ not_pending runID (w_runs (base w')).
Proof.
  intros Hid Hr. unfold gate_denied.
  destruct (emit_keeps g (gate_event uuid8 now run by_ "denied" (pe_ApprovalMode req) (pe_Reason req)) w) as [Hb Hc].
  set (w1 := emit g _ w) in *. set (w2 := on_base _ w1).
  destruct (notify_keeps g (hub_resolved runID "denied" "Gate denied — remediation will not proceed" by_) w2)
    as [Hb2 Hc2].
  cbv zeta. unfold fst. rewrite Hc2, Hb2. simpl. rewrite Hc. split; [done|]. split.
  - unfold complete_now. destruct (runID =?s ""); simpl; by rewrite Hb.
  - by apply (complete_not_pending _ _ _ _ r); [|rewrite Hb|..].
Qed.

Lemma gate_approved_resolves g now aid principal h runID resolution by_ req run next w r :
  runID <> "" -> find (run_is runID) (w_runs (base w)) = Some r ->
  not_pending runID (w_runs (base
    (gate_approved g now aid principal h runID resolution by_ req run next w).1)).
Proof.
  intros Hid Hr. unfold gate_approved. set (w1 := emit g _ w). set (w2 := on_base _ w1). set (w3 := notify g _ w2).
  assert (H3 : not_pending runID (w_runs (base w3))).
  { unfold w3. rewrite (proj1 (notify_keeps g _ w2)). unfold w2. simpl.
    apply (complete_not_pending _ _ _ _ r); [done| |by destruct (given _)..].
    unfold w1. by rewrite (proj1 (emit_keeps g _ w)). }
  destruct (enforceApprovalOverride _ _ _ _ _) as [mode warnings].
  match goal with |- context [recordPlaybookRunStart ?a ?b ?c ?d ?e ?f ?i ?j w3] =>
    pose proof (recordStart_not_pending a b c d e f i j runID w3 H3) as H4;
    destruct (recordPlaybookRunStart a b c d e f i j w3) as [w4 rid] end.
  destruct (pb_ExecutionMode next =?s "agent_approve"); [by rewrite run_approve_runs|].
  match goal with |- not_pending _ (w_runs (base (handlePlaybookRunAsAgent ?g ?n ?p ?h ?pb ?rq ?id ?ws ?w).1)) =>
    destruct (agent_run_runs g n p h pb rq id ws w) as [rows ->] end.
  by apply not_pending_app.
Qed.

(**  A gate is resolved once: proceed-escalation either answers an error
    and changes nothing, or the run was waiting at its gate.  Then a denial calls no
    agent and proposes no step, and in both cases the run stops waiting, so that every
    later proceed-escalation of the run, whatever it says, changes nothing. *)
Theorem gate_resolved_once g now aid principal h runID body w :
  let '(w', a) := handleProceedEscalation g now aid principal h runID body w in
  (w' = w /\ exists code msg, a = ChainError code msg) \/
  exists req run, body = Ok req /\ fetchPlaybookRun decode_report runID (base w) = Some run /\
    run_Outcome run = OutcomeGatePending /\
    (pe_Resolution req = "denied" -> agent_calls w' = agent_calls w /\ w_steps (base w') = w_steps (base w)) /\
    forall g2 now2 aid2 principal2 h2 body2,
      (handleProceedEscalation g2 now2 aid2 principal2 h2 runID body2 w').1 = w'.
Proof.
  unfold handleProceedEscalation at 1. destruct (runID =?s "") eqn:Eid; [left; split; [done|by do 2 eexists]|].
  apply streq_false in Eid. destruct body as [req|e]; [|left; split; [done|by do 2 eexists]].
  destruct (fetchPlaybookRun decode_report runID (base w)) as [run|] eqn:Er; [|left; split; [done|by do 2 eexists]].
  destruct (run_Outcome run =?s OutcomeGatePending) eqn:Eo; [|left; split; [done|by do 2 eexists]].
  apply streq_spec in Eo. simpl negb. cbv iota. destruct (fetched_row runID (base w) run Er) as [r Hrow].
  destruct (or_default "approved" (pe_Resolution req) =?s "denied") eqn:Ed.
  - destruct (gate_denied_resolves g now runID (resolver (pe_ResolvedBy req) (x_user h)) req run w r Eid Hrow)
      as (Hc & Hs & Hp).
    destruct (gate_denied _ _ _ _ _ _ _) as [w' a]. right. exists req, run. do 3 (split; [done|]).
    split; [done|]. intros. by apply refused_again.
  - destruct (fetchPlaybookBySeriesID _ _) as [next|]; [|left; split; [done|by do 2 eexists]].
    pose proof (gate_approved_resolves g now aid principal h runID (or_default "approved" (pe_Resolution req))
      (resolver (pe_ResolvedBy req) (x_user h)) req run next w r Eid Hrow) as Hp.
    destruct (gate_approved _ _ _ _ _ _ _ _ _ _ _ _) as [w' a]. right. exists req, run. do 3 (split; [done|]).
    split; [intros E; by rewrite E in Ed|]. intros. by apply refused_again.
Qed.

(** ** Approval overrides *)

(** The approval mode an agent is called with. *)
Definition call_mode (c : AgentCall) : string := match ac_Approval c with Some a => mode a | None => "" end.

Lemma agent_call_mode g pb req name : call_mode (agent_call g pb req name) = rq_ApprovalMode req.
Proof.
  unfold call_mode, agent_call. simpl. destruct (rq_ApprovalMode req =?s "") eqn:E; [|done].
  by apply streq_spec in E.
Qed.

Lemma enforceApprovalOverride_rank first second principal requested playbookMode connStr db key :
  FindDBByConnStr first second connStr = Some (db, key) -> ApprovalOverrideRoles db <> [] ->
  (forall role, In role (ApprovalOverrideRoles db) -> HasRole principal role = false) ->
  (approvalModeRank (enforceApprovalOverride (Some (first, second)) principal requested playbookMode connStr).1 <=
   approvalModeRank playbookMode)%Z.
Proof.
  intros Hf Hr Hn. unfold enforceApprovalOverride.
  destruct (approvalModeRank requested <=? approvalModeRank playbookMode)%Z eqn:E; [by apply Z.leb_le in E|].
  rewrite Hf. destruct (ApprovalOverrideRoles db) as [|r roles]; [done|].
  rewrite (proj2 (existsb_false _ _) Hn). simpl. lia.
Qed.

(**  On a database that restricts overrides, a caller without one of its
    roles cannot loosen the approval mode: every agent the run calls, chained ones
    included, is called with a mode no more permissive than the playbook's own. *)
Theorem override_needs_role g now aid principal h id req w pb cfg servers db key :
  fetchPlaybook order id (w_playbooks (base w)) = Some pb -> pb_ExecutionMode pb = "agent" ->
  g_infra g = Some (cfg, servers) -> FindDBByConnStr servers servers (rq_ConnectionString req) = Some (db, key) ->
  ApprovalOverrideRoles db <> [] ->
  (forall role, In role (ApprovalOverrideRoles db) -> HasRole principal role = false) ->
  exists calls, agent_calls (handlePlaybookRun g now aid principal h id (Ok req) w).1 = (agent_calls w ++ calls)%list /\
    Forall (fun c => approvalModeRank (call_mode c) <= approvalModeRank (pb_ApprovalMode pb))%Z calls.
Proof.
  intros Hpb Hm Hg Hf Hr Hn. unfold handlePlaybookRun. destruct (id =?s ""); [exists []; by rewrite app_nil_r|].
  rewrite Hpb, Hm. unfold override_servers. rewrite Hg. simpl option_map. cbv iota zeta.
  pose proof (enforceApprovalOverride_rank servers servers principal
    (or_default (pb_ApprovalMode pb) (rq_ApprovalMode req)) (pb_ApprovalMode pb) (rq_ConnectionString req) db key Hf Hr Hn) as Hrank.
  destruct (enforceApprovalOverride _ _ _ _ _) as [mode clamped]. simpl in Hrank.
  set (req' := with_mode_and_findings mode _ req).
  destruct (recordPlaybookRunStart _ _ _ _ _ _ _ _ _) as [w1 runID] eqn:E1.
  pose proof (recordPlaybookRunStart_keeps now pb (rq_ContextID req') (rq_ConnectionString req') (start_trace h pb)
    (rq_PriorRunID req') (rq_TriggerContext req') (x_user h) w) as H1. rewrite E1 in H1. destruct H1 as (Hc1 & _).
  simpl fst in Hc1. rewrite streq_refl.
  destruct (agent_run_chain g now principal h pb req' runID (clamped ++ run_warnings g pb req) w1)
    as (first & l & _ & _ & -> & _).
  rewrite Hc1. eexists. split; [done|]. constructor; [by rewrite agent_call_mode|].
  apply List.Forall_forall. intros c Hc. apply in_map_iff in Hc as ([[next rid] f] & <- & _).
  unfold chained_call. by rewrite agent_call_mode.
Qed.
End Gateway.

(** ** A triage playbook and its remediation *)

Module ChainToy.
Definition book (id series mode exec : string) (transitions : list string) : Playbook :=
  let b := toy_body id series true false in
  {| PlaybookID := id; pb_Name := pb_Name b; pb_Description := pb_Description b; TargetHints := [];
     pb_CreatedBy := ""; pb_CreatedAt := 0; pb_UpdatedAt := 0; ProblemClass := ""; Symptoms := [];
     Guidance := ""; pb_Escalation := []; RelatedPlaybooks := []; Author := ""; LastValidated := None;
     pb_Version := ""; pb_SeriesID := series; IsActive := true; IsSystem := false; pb_Source := "";
     OriginTrace := ""; PlaybookType := ""; EntryPoint := false; EscalatesTo := []; TransitionsTo := transitions;
     RequiresEvidence := []; pb_ExecutionMode := exec; PermittedTools := []; pb_ApprovalMode := mode;
     pb_AgentName := ""; JudgeVerdict := ""; JudgeModel := ""; JudgeAt := 0; RootCauseClasses := None |}.

Definition triage : Playbook := book "pb_1" "pbs_triage" "manual" "agent" ["pbs_fix"].
Definition remedy (mode exec : string) : Playbook := book "pb_2" "pbs_fix" mode exec [].

Definition answer (confidence findings signal : string) : Capture :=
  {| c_code := 200; c_trace := "tr_1";
     c_body := Object (Some (String.concat nl
       ["HYPOTHESIS_1: wal full | CONFIDENCE: " ++ confidence ++ " | EVIDENCE: no space"; "ROOT_CAUSE: HYPOTHESIS_1";
        "FINDINGS: " ++ findings; signal])) |}.

Definition script (answers : list Capture) (calls : list AgentCall) (_ : AgentCall) : Capture :=
  nth (length calls) answers {| c_code := 502; c_trace := ""; c_body := NotObject |}.

Definition world (remedy : Playbook) : ChainWorld (Value := string) :=
  {| base := {| w_playbooks := after_create remedy (after_create triage []); w_runs := []; w_steps := [];
                w_approvals := []; w_calls := []; background := [] |};
     agent_calls := []; audit_events := []; hub := [] |}.

Definition gateway : Gateway :=
  {| crystalBall := false; g_infra := None; has_auditor := true; has_notifier := true; has_planner := true |}.

Definition headers : Headers := {| x_user := "op"; x_trace := ""; x_method := "POST"; x_path := "/run" |}.

Definition request (mode : string) (gate : bool) : PlaybookRunRequest :=
  {| rq_ConnectionString := "host=db1"; rq_Context := ""; rq_TriggerContext := ""; rq_ContextID := "";
     rq_PriorRunID := ""; rq_PriorFindings := ""; rq_ApprovalMode := mode; rq_ApprovalSession := "";
     GateEscalation := gate; RemediationSeriesID := ""; rq_Purpose := ""; rq_PurposeNote := "" |}.

Definition new_id (rows : list RunRow) : string := itoa (Z.of_nat (length rows) + 1).

Definition run (g : Gateway) (answers : list Capture) (req : PlaybookRunRequest) (w : ChainWorld (Value := string))
    : ChainWorld (Value := string) * ChainAnswer :=
  handlePlaybookRun (fun s => s) Toy.plan (fun _ => None) (fun _ => None) (fun t => t) (fun l => l) (script answers)
    (fun _ => Err "session not found") (fun _ => []) (fun _ => {| c_code := 200; c_trace := ""; c_body := NotObject |})
    (fun _ => None) new_id "u" "tr_f" g 5 "apr" zero_principal headers "pb_1" (Ok req) w.

Definition proceed (answers : list Capture) (runID resolution : string) (w : ChainWorld (Value := string))
    : ChainWorld (Value := string) * ChainAnswer :=
  handleProceedEscalation (fun s => s) Toy.plan (fun _ => None) (fun _ => None) (fun t => t) (fun l => l) (script answers)
    (fun _ => Err "session not found") (fun _ => []) new_id "u" "tr_f" gateway 6 "apr" zero_principal headers
    runID (Ok {| pe_Resolution := resolution; pe_ResolvedBy := "op"; pe_ApprovalMode := "manual"; pe_ApprovalSession := "";
                 pe_ConnectionString := ""; pe_Reason := "" |}) w.

(** The writes in the background arrive. *)
Definition settle (w : ChainWorld (Value := string)) : ChainWorld (Value := string) :=
  on_base (fun b => fold_left (fun b x => apply_background (fun _ => None) 7 x b) (background b) (set_background [] b)) w.

Definition outcomes (w : ChainWorld (Value := string)) : list (string * string) :=
  map (fun r => (rr_RunID r, rr_Outcome r)) (w_runs (base (settle w))).

Definition names_fix : Capture := answer "0.9" "recommended=vacuum" "TRANSITION_TO: pbs_fix".
Definition fixed : Capture := answer "0.9" "vacuumed" "ESCALATE_TO: none".

(** The mode auto chains, and runs an agent_approve playbook as an agent, without the
    approval of its steps; the target's mode review lets itself be chained too. *)
Example chain_ignores_execution_mode :
  let w := (run gateway [names_fix; fixed] (request "auto" false) (world (remedy "review" "agent_approve"))).1 in
  length (agent_calls w) = 2 /\ w_approvals (base w) = [] /\
  outcomes w = [("plr_1", "escalated+resolved"); ("plr_2", "resolved")].
Proof. vm_compute. repeat split. Qed.

(** A chained run that fails is part of a run that counts as resolved. *)
Example failed_chain_counts_as_resolved :
  outcomes (run gateway [names_fix] (request "auto" false) (world (remedy "auto" "agent"))).1 =
    [("plr_1", "escalated+resolved"); ("plr_2", "unknown")].
Proof. vm_compute. repeat split. Qed.

(** The gate, its approval and the denial. *)
Example gate_course :
  let w := settle (run gateway [names_fix; fixed] (request "auto" true) (world (remedy "auto" "agent"))).1 in
  outcomes w = [("plr_1", "gate_pending")] /\ map hub_ID (hub w) = ["gate:plr_1"] /\
  length (agent_calls w) = 1 /\
  (proceed [names_fix; fixed] "plr_1" "denied" w).2 = ChainDenied "plr_1" /\
  outcomes (proceed [names_fix; fixed] "plr_1" "denied" w).1 = [("plr_1", "abandoned")] /\
  outcomes (proceed [names_fix; fixed] "plr_1" "no" w).1 = [("plr_1", "transitioned"); ("plr_2", "resolved")] /\
  length (agent_calls (proceed [names_fix; fixed] "plr_1" "no" w).1) = 2.
Proof. vm_compute. repeat split. Qed.

(** A gate that is forced after a chained run is announced under that run's id, but the
    first run is the one that waits. *)
Definition loop_fix : Playbook := book "pb_2" "pbs_fix" "auto" "agent" ["pbs_triage"].
Example gate_of_the_wrong_run :
  let unsure := answer "0.3" "recommended=restart" "TRANSITION_TO: pbs_triage" in
  let w := settle (run gateway [names_fix; unsure] (request "auto" false) (world loop_fix)).1 in
  outcomes w = [("plr_1", "gate_pending"); ("plr_2", "transitioned")] /\ map hub_ID (hub w) = ["gate:plr_2"] /\
  (proceed [] "plr_2" "approved" w).1 = w.
Proof. vm_compute. repeat split. Qed.

(** As a transition, the token that asks for the operator asks for nobody. *)
Example operator_token_as_transition :
  let '(w, a) := run gateway [answer "0.9" "recommended=failover" "TRANSITION_TO: requires_operator_approval"]
    (request "auto" false) (world (remedy "auto" "agent")) in
  outcomes w = [("plr_1", "transitioned")] /\ hub w = [] /\
  match a with ChainAgent _ extra => existsb (fun x => match x with XSuggested _ => true | _ => false end) extra = false | _ => False end.
Proof. vm_compute. repeat split. Qed.

Definition restricted : string * DBServer :=
  ("orders", {| db_Name := "orders"; ConnectionString := "host=db1 port=5432"; PasswordEnv := ""; db_K8sCluster := "";
     K8sNamespace := ""; K8sPodSelector := ""; VMName := ""; ContainerName := ""; SystemdUnit := "";
     db_Tags := []; db_Sensitivity := []; ApprovalOverrideRoles := ["dba"] |}).

Definition restricted_gateway : Gateway :=
  {| crystalBall := false; has_auditor := true; has_notifier := true; has_planner := true;
     g_infra := Some ({| DBServers := {["orders" := restricted.2]}; K8sClusters := ∅; VMs := ∅ |}, [restricted]) |}.

(** The default port left out, the server is not found and nothing is clamped. *)
Example default_port_escapes_the_clamp :
  enforceApprovalOverride (Some ([restricted], [restricted])) zero_principal "force" "manual" "host=db1 port=5432" =
    ("manual", ["approval_mode clamped to " ++ quote "manual" ++ ": override to " ++ quote "force" ++
                " requires one of roles [dba] (caller: )"]) /\
  enforceApprovalOverride (Some ([restricted], [restricted])) zero_principal "force" "manual" "host=db1" = ("force", []).
Proof. vm_compute. repeat split. Qed.
End ChainToy.

Lemma gate_pauses_witness :
  exists c extra,
    (handlePlaybookRunAsAgent (fun _ => None) (fun _ => None) (fun t => t) (fun l => l) (ChainToy.script [ChainToy.names_fix])
      (fun _ => Err "session not found") (fun _ => []) ChainToy.new_id "u" "tr_f" ChainToy.gateway 5 zero_principal
      ChainToy.headers ChainToy.triage (ChainToy.request "auto" true) "plr_1" []
      (ChainToy.world (ChainToy.remedy "auto" "agent"))).2 = ChainAgent c extra /\
    exists info, In (XGate info) extra.
Proof.
  destruct (runAgentPlaybook (Value := string) (ChainToy.script [ChainToy.names_fix]) "u" "tr_f" ChainToy.gateway 5 zero_principal
    ChainToy.triage (ChainToy.request "auto" true) "" "plr_1" (ChainToy.world (ChainToy.remedy "auto" "agent"))) as [w1 r] eqn:E.
  assert (Hr : next_series r = "pbs_fix" /\ is_transition r = true /\ findingsRecommendMonitor (ar_findings r) = false).
  { vm_compute in E. injection E as _ <-. vm_compute. repeat split. }
  destruct Hr as (H1 & H2 & H3).
  pose proof (gate_pauses (fun _ => None) (fun _ => None) (fun t => t) (fun l => l) (ChainToy.script [ChainToy.names_fix])
    (fun _ => Err "session not found") (fun _ => []) ChainToy.new_id "u" "tr_f" ChainToy.gateway 5 zero_principal
    ChainToy.headers ChainToy.triage (ChainToy.request "auto" true) "plr_1" []
    (ChainToy.world (ChainToy.remedy "auto" "agent")) w1 r) as H.
  specialize (H eq_refl ltac:(discriminate) E ltac:(rewrite H1; discriminate) ltac:(rewrite H2; discriminate) H3
    (or_introl eq_refl)).
  destruct (handlePlaybookRunAsAgent _ _ _ _ _ _ _ _ _ _ _ _ _ _ _ _ _ _ _) as [w' a].
  destruct H as (_ & _ & c & extra & -> & Hin). exists c, extra. split; [reflexivity|]. eexists. exact Hin.
Defined.

Lemma override_needs_role_witness :
  exists calls,
    agent_calls (ChainToy.run ChainToy.restricted_gateway [ChainToy.names_fix]
      {| rq_ConnectionString := "orders"; rq_Context := ""; rq_TriggerContext := ""; rq_ContextID := "";
         rq_PriorRunID := ""; rq_PriorFindings := ""; rq_ApprovalMode := "force"; rq_ApprovalSession := "";
         GateEscalation := false; RemediationSeriesID := ""; rq_Purpose := ""; rq_PurposeNote := "" |}
      (ChainToy.world (ChainToy.remedy "auto" "agent"))).1 = calls /\
    Forall (fun c => approvalModeRank (call_mode c) <= 0)%Z calls.
Proof.
  unfold ChainToy.run.
  edestruct (override_needs_role (Value := string)) as (calls & -> & H);
    [vm_compute; reflexivity|reflexivity|reflexivity|vm_compute; reflexivity|discriminate| |].
  - intros role [<-|[]]. reflexivity.
  - exists calls. split; [reflexivity|exact H].
Defined.
