(* ===== verification/ToolAudit.v ===== *)
(** * Traces and the events that servers and agents record

    internal/audit/trace.go and trace_middleware.go (how a request's trace, principal
    and purpose reach an agent's tools), tool_audit.go (the events an agent records) and
    gateway.go (the events the gateway records).  A recorder's effect is the list of
    events it passes to its [Auditor]; whether the store accepts them never changes what
    the caller does.  The current trace id of an agent is one cell shared by all its
    requests: its accesses are explicit steps. *)

From Stdlib Require Import SpecFloat.
From S2P Require Import Prelude GoTime GoFormat Identity Events Action ApprovalPolicy Enforcer.

Open Scope string_scope.

(** ** The A2A message that carries a request to an agent *)

(** The metadata of a message: decoded JSON. *)
Definition meta_get (k : string) (m : anymap) : option any := snd <$> find (fun kv => fst kv =?s k) m.

Definition meta_string (k : string) (m : anymap) : string :=
  match meta_get k m with Some (AStr s) => s | _ => "" end.

Definition meta_bool (k : string) (m : anymap) : bool :=
  match meta_get k m with Some (ABool b) => b | _ => false end.

Definition meta_strings (k : string) (m : anymap) : list string :=
  match meta_get k m with
  | Some (AList l) => omap (fun v => match v with AStr s => Some s | _ => None end) l
  | _ => []
  end.

Record A2ARequest := { ar_contextId : string; ar_metadata : anymap; ar_parts : list (string * string) }.

Record a2aRequestData := {
  rd_traceID : string;
  rd_userQuery : string;
  rd_contextID : string;
  rd_userID : string;
  rd_roles : list string;
  rd_service : string;
  rd_authMethod : string;
  rd_purpose : string;
  rd_purposeNote : string;
  rd_purposeExplicit : bool;
  rd_approvalMode : string;
  rd_approvalSession : string }.

Definition first_text (parts : list (string * string)) : string :=
  match find (fun p => (fst p =?s "text") && negb (snd p =?s "")) parts with Some p => snd p | None => "" end.

(** [None] is a body that is not JSON of this shape. *)
Definition parseA2ARequest (body : option A2ARequest) : a2aRequestData :=
  match body with
  | None =>
      {| rd_traceID := ""; rd_userQuery := ""; rd_contextID := ""; rd_userID := ""; rd_roles := [];
         rd_service := ""; rd_authMethod := ""; rd_purpose := ""; rd_purposeNote := "";
         rd_purposeExplicit := false; rd_approvalMode := ""; rd_approvalSession := "" |}
  | Some req =>
      let m := ar_metadata req in
      {| rd_traceID := meta_string "trace_id" m; rd_userQuery := first_text (ar_parts req);
         rd_contextID := ar_contextId req; rd_userID := meta_string "user_id" m;
         rd_roles := meta_strings "roles" m; rd_service := meta_string "service" m;
         rd_authMethod := meta_string "auth_method" m; rd_purpose := meta_string "purpose" m;
         rd_purposeNote := meta_string "purpose_note" m; rd_purposeExplicit := meta_bool "purpose_explicit" m;
         rd_approvalMode := meta_string "approval_mode" m;
         rd_approvalSession := meta_string "approval_session" m |}
  end.

Definition resolvedPrincipal (d : a2aRequestData) : ResolvedPrincipal :=
  {| UserID := rd_userID d; Roles := rd_roles d; Service := rd_service d; AuthMethod := rd_authMethod d;
     OperatorID := ""; OperatorRoles := [] |}.

(** ** The middleware of an agent *)

(** The trace context that tools find in the request's context. *)
Definition request_context (traceID : string) (d : a2aRequestData) : TraceContext :=
  {| tc_TraceID := traceID; tc_ParentID := ""; tc_Origin := "agent"; tc_Principal := resolvedPrincipal d;
     tc_Purpose := rd_purpose d; tc_PurposeNote := rd_purposeNote d; PurposeExplicit := rd_purposeExplicit d;
     ApprovalMode := rd_approvalMode d; tc_ApprovalSession := rd_approvalSession d |}.

Definition session_of (id user : string) : Session :=
  {| s_ID := id; s_UserID := user; AgentName := ""; StartedAt := 0%Z; DelegationCount := 0%Z |}.

Definition input_of (q : string) : Input := {| UserQuery := q; InfrastructureContext := [] |}.

(** A tool execution with a name and an agent only. *)
Definition tool_named (name agent : string) : ToolExecution :=
  {| t_Name := name; t_Agent := agent; Parameters := []; RawCommand := ""; Result := ""; t_Error := "";
     t_Duration := 0%Z; PreState := "" |}.

(** The event that makes a request visible as a journey. *)
Definition anchor_event (now : Time) (uuid8 sess8 agentName : string) (tc : TraceContext) (d : a2aRequestData) : Event :=
  let p := tc_Principal tc in
  {| EventID := "req_" ++ uuid8; Timestamp := now; EventType := EventTypeGatewayRequest; TraceID := tc_TraceID tc;
     ParentID := ""; Origin := ""; e_ActionClass := ""; PrevHash := ""; EventHash := ""; e_Principal := Some p;
     e_Purpose := tc_Purpose tc; e_PurposeNote := tc_PurposeNote tc;
     e_Session := session_of (if rd_contextID d =?s "" then "asess_" ++ sess8 else rd_contextID d) (EffectiveID p);
     e_Input := input_of (rd_userQuery d); e_Output := None; e_Tool := Some (tool_named "" agentName);
     e_Approval := None; e_Decision := None; e_PolicyDecision := None; e_AgentReasoning := None;
     e_GovernanceViolation := None; e_DelegationVerification := None; e_Outcome := None; e_RollbackExecution := None |}.

(** What the middleware does before it serves the request: the id it stores, the
    context it attaches and the events it records. *)
Definition TraceMiddlewareWithAudit (audited : bool) (agentName : string) (now : Time) (id12 uuid8 sess8 : string)
    (body : option A2ARequest) : string * TraceContext * list Event :=
  let d := parseA2ARequest body in
  let traceID := if rd_traceID d =?s "" then "ar_" ++ id12 else rd_traceID d in
  let tc := request_context traceID d in
  (traceID, tc,
   if audited && negb (rd_userQuery d =?s "") then [anchor_event now uuid8 sess8 agentName tc d] else []).

(** ** The shared cell

    [CurrentTraceStore] of an agent process, as the middleware and the tools of any
    number of requests use it. *)

Inductive TraceAction :=
  | SetTrace (request : nat) (traceID : string)
  | RunTool (request : nat)
  | ClearTrace (request : nat).

Definition trace_cell (cell : string) (a : TraceAction) : string :=
  match a with SetTrace _ t => t | RunTool _ => cell | ClearTrace _ => "" end.

(** [getTraceID] with the static id of the auditor. *)
Definition getTraceID (static cell : string) : string := if cell =?s "" then static else cell.

(** The trace id recorded for each tool execution. *)
Fixpoint recorded_traces (static cell : string) (l : list TraceAction) : list (nat * string) :=
  match l with
  | [] => []
  | RunTool i :: rest => (i, getTraceID static cell) :: recorded_traces static cell rest
  | a :: rest => recorded_traces static (trace_cell cell a) rest
  end.

(** ** The events of a tool *)

Record ToolAuditor := { ta_audited : bool; ta_agentName : string; ta_sessionID : string }.

Record ToolCall := { c_Name : string; c_Parameters : anymap; c_RawCommand : string; c_PreState : string }.
Record ToolResult := { r_Output : string; r_Error : string }.

Definition truncateString (s : string) (maxLen : nat) : string :=
  if (String.length s <=? maxLen)%nat then s else String.substring 0 maxLen s ++ "...".

Definition outcomeStatus (errMsg : string) : string := if errMsg =?s "" then "success" else "error".

Definition auto_approval (now : Time) (principal : string) : Approval :=
  {| a_Required := true; a_Status := ApprovalAutoApproved; a_RequestedBy := principal; a_RequestedAt := now;
     a_ApprovedBy := "approval_mode:auto"; a_ApprovedAt := now; a_Justification := "";
     a_PolicyName := "approval_mode:auto"; a_ExpiresAt := 0%Z |}.

(** The event with the members that every recorder sets. *)
Definition base_event (id : string) (now : Time) (ty traceID origin class session query : string) : Event :=
  {| EventID := id; Timestamp := now; EventType := ty; TraceID := traceID; ParentID := ""; Origin := origin;
     e_ActionClass := class; PrevHash := ""; EventHash := ""; e_Principal := None; e_Purpose := "";
     e_PurposeNote := ""; e_Session := session_of session ""; e_Input := input_of query; e_Output := None;
     e_Tool := None; e_Approval := None; e_Decision := None; e_PolicyDecision := None; e_AgentReasoning := None;
     e_GovernanceViolation := None; e_DelegationVerification := None; e_Outcome := None;
     e_RollbackExecution := None |}.

(** The bodies of an event. *)
Definition with_bodies (tool : option ToolExecution) (approval : option Approval) (pd : option PolicyDecision)
    (reasoning : option AgentReasoning) (dv : option DelegationVerification) (o : option Outcome) (e : Event) : Event :=
  {| EventID := EventID e; Timestamp := Timestamp e; EventType := EventType e; TraceID := TraceID e;
     ParentID := ParentID e; Origin := Origin e; e_ActionClass := e_ActionClass e; PrevHash := PrevHash e;
     EventHash := EventHash e; e_Principal := e_Principal e; e_Purpose := e_Purpose e;
     e_PurposeNote := e_PurposeNote e; e_Session := e_Session e; e_Input := e_Input e; e_Output := e_Output e;
     e_Tool := tool; e_Approval := approval; e_Decision := e_Decision e; e_PolicyDecision := pd;
     e_AgentReasoning := reasoning; e_GovernanceViolation := e_GovernanceViolation e;
     e_DelegationVerification := dv; e_Outcome := o; e_RollbackExecution := e_RollbackExecution e |}.

Section Recorders.
Context (ta : ToolAuditor) (now : Time) (uuid8 traceID : string).

Definition if_audited (e : Event) : list Event := if ta_audited ta then [e] else [].

Definition ctx_origin (c : Ctx) : string := match cx_trace c with Some tc => tc_Origin tc | None => "" end.

(** The approval record of a call that the approval mode of its chain authorises. *)
Definition pre_authorised (c : Ctx) (actionClass : string) : option Approval :=
  match cx_trace c with
  | Some tc =>
      if ((ApprovalMode tc =?s "auto") || (ApprovalMode tc =?s "force")) &&
         ((actionClass =?s ActionWrite) || (actionClass =?s ActionDestructive))
      then Some (auto_approval now (EffectiveID (tc_Principal tc))) else None
  | None => None
  end.

Definition RecordToolCall (c : Ctx) (call : ToolCall) (res : ToolResult) (duration : Z) : list Event :=
  let actionClass := ClassifyTool (c_Name call) in
  if_audited
    (with_bodies
       (Some {| t_Name := c_Name call; t_Agent := ta_agentName ta; Parameters := c_Parameters call;
                RawCommand := c_RawCommand call; Result := truncateString (r_Output res) 500;
                t_Error := r_Error res; t_Duration := duration; PreState := c_PreState call |})
       (pre_authorised c actionClass) None None None
       (Some {| o_Status := outcomeStatus (r_Error res); o_ErrorMessage := r_Error res; o_Duration := duration |})
       (base_event ("tool_" ++ uuid8) now EventTypeToolExecution traceID (ctx_origin c) actionClass
          (ta_sessionID ta) (c_RawCommand call))).

Definition RecordPolicyDecision (c : Ctx) (pd : PolicyDecision) : list Event :=
  let principal := match cx_trace c with Some tc => EffectiveID (tc_Principal tc) | None => "" end in
  if_audited
    (with_bodies None (if AutoApproved pd then Some (auto_approval now principal) else None) (Some pd) None None None
       (base_event ("pol_" ++ uuid8) now EventTypePolicyDecision traceID "" (pd_Action pd) (ta_sessionID ta) "")).

(** A decision with the members of the resource only. *)
Definition invoked_decision (resourceType resourceName action : string) (tags : list string) : PolicyDecision :=
  {| ResourceType := resourceType; ResourceName := resourceName; pd_Action := action; pd_Tags := tags; Effect := "";
     PolicyName := ""; RuleIndex := 0; Message := ""; Note := ""; DryRun := false; PostExecution := false;
     Trace := ""; Explanation := ""; pd_UserID := ""; pd_Roles := []; pd_Service := ""; pd_AuthMethod := "";
     AutoApproved := false; pd_Purpose := ""; pd_PurposeNote := ""; pd_Sensitivity := [] |}.

Definition RecordToolInvoked (c : Ctx) (resourceType resourceName action : string) (tags : list string) : list Event :=
  if_audited
    (with_bodies None None (Some (invoked_decision resourceType resourceName action tags)) None None None
       (base_event ("inv_" ++ uuid8) now EventTypeToolInvoked traceID (ctx_origin c) action (ta_sessionID ta) "")).

Definition status_only (s : string) : Outcome := {| o_Status := s; o_ErrorMessage := ""; o_Duration := 0 |}.

Definition RecordToolRetry (toolName : string) (attempt : Z) (resolved : bool) : list Event :=
  if_audited
    (with_bodies (Some (tool_named toolName (ta_agentName ta))) None None None None
       (Some (status_only (if resolved then "resolved" else "retrying")))
       (base_event ("rty_" ++ uuid8) now EventTypeToolRetry traceID "" ActionRead (ta_sessionID ta)
          ("retry check " ++ itoa attempt ++ " for " ++ toolName))).

Definition verification_status (verifyStatus : string) : string :=
  if (verifyStatus =?s "ok") || (verifyStatus =?s "") then "verified_ok"
  else if verifyStatus =?s "warning" then "verified_warning"
  else if verifyStatus =?s "failed" then "verified_failed"
  else verifyStatus.

Definition RecordToolVerification (toolName verifyStatus : string) : list Event :=
  if_audited
    (with_bodies (Some (tool_named toolName (ta_agentName ta))) None None None None
       (Some (status_only (verification_status verifyStatus)))
       (base_event ("vfy_" ++ uuid8) now EventTypeVerificationOutcome traceID "" "" (ta_sessionID ta)
          ("verification outcome for " ++ toolName))).

Definition RecordAgentReasoning (reasoning : string) (toolCalls : list string) : list Event :=
  if reasoning =?s "" then []
  else
    if_audited
      (with_bodies None None None (Some {| Reasoning := reasoning; ToolCalls := toolCalls |}) None None
         (base_event ("rsn_" ++ uuid8) now EventTypeAgentReasoning traceID "" "" (ta_sessionID ta) "")).
End Recorders.

(** ** The events of the gateway *)

Definition categorizeAgent (agent : string) : string :=
  if agent =?s "postgres_database_agent" then "database"
  else if agent =?s "k8s_agent" then "kubernetes"
  else if agent =?s "incident_agent" then "incident"
  else if agent =?s "research_agent" then "research"
  else if agent =?s "sysadmin_agent" then "sysadmin"
  else if agent =?s "gateway" then "fleet"
  else "unknown".

Record GatewayRequest := {
  gr_RequestID : string;
  gr_TraceID : string;
  gr_ContextID : string;
  gr_ParentID : string;
  gr_Principal : string;
  gr_ResolvedPrincipal : ResolvedPrincipal;
  gr_Purpose : string;
  gr_PurposeNote : string;
  gr_Environment : string;
  gr_Endpoint : string;
  gr_Method : string;
  gr_Agent : string;
  gr_ToolName : string;
  gr_ToolParameters : anymap;
  gr_ActionClass : string;
  gr_Message : string;
  gr_Response : string;
  gr_StartTime : Time;
  gr_Duration : Z;
  gr_Status : string;
  gr_Error : string;
  gr_HTTPCode : Z }.

Definition request_class (req : GatewayRequest) : string :=
  if negb (gr_ActionClass req =?s "") then gr_ActionClass req
  else if negb (gr_ToolName req =?s "") then ClassifyTool (gr_ToolName req)
  else ClassifyEndpoint (gr_Method req) (gr_Endpoint req).

Definition request_tool (req : GatewayRequest) : option ToolExecution :=
  if gr_ToolName req =?s "" then None
  else
    Some {| t_Name := gr_ToolName req; t_Agent := ""; Parameters := gr_ToolParameters req; RawCommand := "";
            Result := truncateString (gr_Response req) 500;
            t_Error := if gr_Status req =?s "error" then gr_Error req else ""; t_Duration := gr_Duration req;
            PreState := "" |}.

Definition one_float : spec_float := float_int 1.

(** The event of a request; [m] is the manager with the gateway's approval policy. *)
Definition request_event (m : ApprovalManager) (now : Time) (uuid8 id12 : string) (req : GatewayRequest) : Event :=
  let class := request_class req in
  let p := gr_ResolvedPrincipal req in
  {| EventID := "gw_" ++ uuid8; Timestamp := gr_StartTime req; EventType := EventTypeGatewayRequest;
     TraceID := if gr_TraceID req =?s "" then "tr_" ++ id12 else gr_TraceID req; ParentID := gr_ParentID req;
     Origin := ""; e_ActionClass := class; PrevHash := ""; EventHash := "";
     e_Principal := if negb (EffectiveID p =?s "") || negb (AuthMethod p =?s "") then Some p else None;
     e_Purpose := gr_Purpose req; e_PurposeNote := gr_PurposeNote req;
     e_Session := session_of (gr_RequestID req) (gr_Principal req); e_Input := input_of (gr_Message req);
     e_Output := Some {| Response := gr_Response req |}; e_Tool := request_tool req;
     e_Approval := Some (CheckApproval m now {| q_ActionClass := class; q_Agent := gr_Agent req;
                           q_Tool := gr_ToolName req; q_Environment := gr_Environment req;
                           q_Principal := gr_Principal req |});
     e_Decision := Some {| d_Agent := gr_Agent req; RequestCategory := categorizeAgent (gr_Agent req);
                           Confidence := one_float; UserIntent := gr_Endpoint req; ReasoningChain := [];
                           AlternativesConsidered := [] |};
     e_PolicyDecision := None; e_AgentReasoning := None; e_GovernanceViolation := None;
     e_DelegationVerification := None;
     e_Outcome := Some {| o_Status := gr_Status req; o_ErrorMessage := gr_Error req; o_Duration := gr_Duration req |};
     e_RollbackExecution := None |}.

Definition RecordRequest (audited : bool) (m : ApprovalManager) (now : Time) (uuid8 id12 : string)
    (req : GatewayRequest) : list Event := if audited then [request_event m now uuid8 id12 req] else [].

(** The middleware around other handlers, which knows the method, path and status. *)
Definition middleware_event (start : Time) (duration : Z) (requestID method path : string) (status : Z) : Event :=
  let z := base_event ("gw_" ++ requestID) start EventTypeGatewayRequest "" "" "" requestID path in
  {| EventID := EventID z; Timestamp := Timestamp z; EventType := EventType z; TraceID := TraceID z;
     ParentID := ParentID z; Origin := Origin z; e_ActionClass := e_ActionClass z; PrevHash := PrevHash z;
     EventHash := EventHash z; e_Principal := e_Principal z; e_Purpose := e_Purpose z;
     e_PurposeNote := e_PurposeNote z; e_Session := e_Session z; e_Input := e_Input z; e_Output := e_Output z;
     e_Tool := e_Tool z; e_Approval := e_Approval z;
     e_Decision := Some {| d_Agent := ""; RequestCategory := ""; Confidence := one_float;
                           UserIntent := method ++ " " ++ path; ReasoningChain := []; AlternativesConsidered := [] |};
     e_PolicyDecision := e_PolicyDecision z; e_AgentReasoning := e_AgentReasoning z;
     e_GovernanceViolation := e_GovernanceViolation z; e_DelegationVerification := e_DelegationVerification z;
     e_Outcome := Some {| o_Status := if (400 <=? status)%Z then "error" else "success"; o_ErrorMessage := "";
                          o_Duration := duration |};
     e_RollbackExecution := e_RollbackExecution z |}.

(** ** Whose trace a tool execution is recorded under *)

(** The cell after a prefix of the actions. *)
Definition cell_after (cell : string) (l : list TraceAction) : string := fold_left trace_cell l cell.

Lemma recorded_traces_app static cell l l' :
  recorded_traces static cell (l ++ l') =
  (recorded_traces static cell l ++ recorded_traces static (cell_after cell l) l')%list.
Proof.
  revert cell. induction l as [|a l IH]; intros cell; [done|].
  destruct a; simpl; rewrite IH; done.
Qed.

(** No other request sets or clears the cell. *)
Definition undisturbed (l : list TraceAction) : Prop :=
  forall a, In a l -> match a with RunTool _ => True | _ => False end.

Lemma cell_undisturbed cell l : undisturbed l -> cell_after cell l = cell.
Proof.
  unfold cell_after. revert cell. induction l as [|a l IH]; intros cell H; [done|].
  pose proof (H a (or_introl eq_refl)) as Ha. destruct a; simpl; try done.
  apply IH. intros b Hb. apply H. by right.
Qed.

(**  A tool execution is recorded under the trace id that was set
    last, by whichever request, and under the auditor's static id once any request has
    cleared the cell since; so it is recorded under its own request's trace when no
    request starts or ends between that request's start and the execution. *)
Theorem trace_attribution static cell before traceID i mid rest :
  undisturbed mid -> traceID <> "" ->
  recorded_traces static cell (before ++ SetTrace i traceID :: mid ++ RunTool i :: rest) =
  (recorded_traces static cell (before ++ SetTrace i traceID :: mid) ++
   (i, traceID) :: recorded_traces static traceID rest)%list /\
  forall j other, other <> "" ->
    recorded_traces static cell (before ++ SetTrace i traceID :: mid ++ SetTrace j other :: RunTool i :: rest) =
    (recorded_traces static cell (before ++ SetTrace i traceID :: mid) ++
     (i, other) :: recorded_traces static other rest)%list /\
    recorded_traces static cell (before ++ SetTrace i traceID :: mid ++ ClearTrace j :: RunTool i :: rest) =
    (recorded_traces static cell (before ++ SetTrace i traceID :: mid) ++
     (i, static) :: recorded_traces static "" rest)%list.
Proof.
  intros Hm Ht.
  assert (Hpre : forall tail, recorded_traces static cell (before ++ SetTrace i traceID :: mid ++ tail) =
    (recorded_traces static cell (before ++ SetTrace i traceID :: mid) ++ recorded_traces static traceID tail)%list).
  { intros tail. rewrite !recorded_traces_app. cbn [recorded_traces trace_cell]. rewrite recorded_traces_app.
    rewrite app_assoc. by rewrite (cell_undisturbed traceID mid Hm). }
  split; [|intros j other Ho; split]; rewrite Hpre; simpl; unfold getTraceID;
    [by rewrite (proj2 (streq_false _ _) Ht)|by rewrite (proj2 (streq_false _ _) Ho)|done].
Qed.

Lemma trace_attribution_witness :
  recorded_traces "" "" [SetTrace 0 "tr_a"; SetTrace 1 "tr_b"; RunTool 0; RunTool 1; ClearTrace 1; RunTool 0] =
    [(0, "tr_b"); (1, "tr_b"); (0, "")] /\
  recorded_traces "" "" ([] ++ SetTrace 0 "tr_a" :: [] ++ RunTool 0 :: [ClearTrace 0]) = [(0, "tr_a")].
Proof.
  split; [reflexivity|].
  assert (Hu : undisturbed []) by (intros a []).
  rewrite (proj1 (trace_attribution "" "" [] "tr_a" 0 [] [ClearTrace 0] Hu ltac:(discriminate))). reflexivity.
Defined.
