(* ===== verification/Delegation.v ===== *)
(** * Delegations of the orchestrator and their verification

    internal/audit/delegate_tool.go (the delegate_to_agent tool and the check of an
    answer against the audit trail), delegation_guard.go and no_delegation_callback.go
    (no answer without a delegation).  The tool's effect on the audit log is the list of
    its calls to the [Auditor]; the answers of auditd to its query are an argument, one
    for each of the two attempts, and the theorems take them from auditd's event
    endpoint over the store of AuditChain.  The A2A client, the agents and the fetch of
    their cards are parameters. *)

From Stdlib Require Import SpecFloat.
From S2P Require Import Prelude GoTime TimeText GoFormat Identity Events Action AuditChain AuditQuery.
From S2P Require Import Enforcer ToolAudit.

Open Scope string_scope.

(** ** The guard *)

Record DelegationGuard := { called : gmap string bool; retries : gmap string Z }.

Definition NewDelegationGuard : DelegationGuard := {| called := ∅; retries := ∅ |}.

Definition MarkCalled (inv : string) (g : DelegationGuard) : DelegationGuard :=
  {| called := <[inv := true]> (called g); retries := retries g |}.

Definition WasCalled (inv : string) (g : DelegationGuard) : bool := default false (called g !! inv).

Definition RetryCount (inv : string) (g : DelegationGuard) : Z := default 0%Z (retries g !! inv).

Definition IncrementRetry (inv : string) (g : DelegationGuard) : DelegationGuard * Z :=
  let n := (RetryCount inv g + 1)%Z in
  ({| called := called g; retries := <[inv := n]> (retries g) |}, n).

Definition Reset_guard (inv : string) (g : DelegationGuard) : DelegationGuard :=
  {| called := delete inv (called g); retries := delete inv (retries g) |}.

(** ** The callback after each answer of the model *)

Record Part := { p_Text : string; p_Thought : bool; p_FunctionCall : option (string * anymap) }.

(** An answer of the model: [None] for an answer without content. *)
Definition LLMResponse : Type := option (list Part).

Definition CorrectionToolName := "_delegation_required".
Definition DefaultMaxDelegationRetries : Z := 2.

Definition has_text (parts : list Part) : bool :=
  existsb (fun p => negb (p_Text p =?s "") && negb (p_Thought p)) parts.
Definition has_function_call (parts : list Part) : bool :=
  existsb (fun p => match p_FunctionCall p with Some _ => true | None => false end) parts.

Definition suppressed (maxRetries : Z) : LLMResponse :=
  Some [{| p_Text := "I was unable to route this request through the appropriate specialist agent after " ++
                     itoa maxRetries ++ " attempts. Please try rephrasing your question or contact support.";
           p_Thought := false; p_FunctionCall := None |}].

Definition correction (attempt : Z) : LLMResponse :=
  Some [{| p_Text := ""; p_Thought := false;
           p_FunctionCall := Some (CorrectionToolName, [("attempt", ANum attempt)]) |}].

Definition max_retries (maxRetries : Z) : Z := if (maxRetries <=? 0)%Z then DefaultMaxDelegationRetries else maxRetries.

(** [Some r] replaces the answer; [None] leaves it. *)
Definition NoDelegationCallback (maxRetries : Z) (inv : string) (resp : LLMResponse) (g : DelegationGuard)
    : DelegationGuard * option LLMResponse :=
  let maxRetries := max_retries maxRetries in
  match resp with
  | None => (g, None)
  | Some parts =>
      if WasCalled inv g then (g, None)
      else if has_function_call parts || negb (has_text parts) then (g, None)
      else
        let '(g, attempt) := IncrementRetry inv g in
        if (maxRetries <? attempt)%Z then (g, Some (suppressed maxRetries))
        else (g, Some (correction attempt))
  end.

(** The tool behind the correction. *)
Definition correction_event (now : Time) (uuid8 sessionID : string) (attempt : Z) : Event :=
  let e := base_event ("nd_" ++ uuid8) now EventTypeNoDelegationTurn "" "" "" sessionID "" in
  {| EventID := EventID e; Timestamp := Timestamp e; EventType := EventType e; TraceID := TraceID e;
     ParentID := ParentID e; Origin := Origin e; e_ActionClass := e_ActionClass e; PrevHash := PrevHash e;
     EventHash := EventHash e; e_Principal := e_Principal e; e_Purpose := e_Purpose e;
     e_PurposeNote := e_PurposeNote e; e_Session := e_Session e; e_Input := e_Input e;
     e_Output := Some {| Response := "correction attempt " ++ itoa attempt |};
     e_Tool := e_Tool e; e_Approval := e_Approval e; e_Decision := e_Decision e;
     e_PolicyDecision := e_PolicyDecision e; e_AgentReasoning := e_AgentReasoning e;
     e_GovernanceViolation := e_GovernanceViolation e; e_DelegationVerification := e_DelegationVerification e;
     e_Outcome := e_Outcome e; e_RollbackExecution := e_RollbackExecution e |}.

Definition correction_text (attempt : Z) : string :=
  "[SYSTEM CORRECTION — attempt " ++ itoa attempt ++ "] " ++
  "You responded directly without calling delegate_to_agent. " ++
  "You MUST delegate ALL technical requests to a specialist agent using the delegate_to_agent tool. " ++
  "Do not answer infrastructure, database, or Kubernetes questions directly. " ++
  "Call delegate_to_agent now.".

Definition NoDelegationCorrectionTool (audited : bool) (now : Time) (uuid8 sessionID : string) (attempt : Z)
    : list Event * list (string * string) :=
  (if audited then [correction_event now uuid8 sessionID attempt] else [], [("correction", correction_text attempt)]).

(** ** Verification against the audit trail *)

(** The two attempts of the query; [None] is a request that fails or does not decode. *)
Definition fetchToolExecutionEvents (reply : nat -> option (list Event)) : list Event :=
  match reply 0 with
  | Some events => events
  | None => match reply 1 with Some events => events | None => [] end
  end.

(** The parameters of the query. *)
Definition trace_query (traceID : string) (since : Time) : Params :=
  fun k =>
    if k =?s "event_type" then "tool_execution"
    else if k =?s "trace_id" then traceID
    else if k =?s "since" then clock_fields since ++ "Z"
    else "".

Definition event_tool (e : Event) : option string :=
  match e_Tool e with Some t => if t_Name t =?s "" then None else Some (t_Name t) | None => None end.

Definition tools_confirmed (events : list Event) : list string := omap event_tool events.

Definition of_class (class : string) (tools : list string) : list string :=
  List.filter (fun t => ClassifyTool t =?s class) tools.

Definition verification (delegationEventID agent actionClass : string) (tools : list string) (mismatch : bool)
    : DelegationVerification :=
  {| DelegationEventID := delegationEventID; dv_Agent := agent; dv_ActionClass := actionClass;
     ToolsConfirmed := tools; WriteConfirmed := of_class ActionWrite tools;
     DestructiveConfirmed := of_class ActionDestructive tools; Mismatch := mismatch; MismatchReason := "" |}.

Definition none {A} (l : list A) : bool := match l with [] => true | _ => false end.

Definition buildDelegationVerification (auditURL : string) (reply : nat -> option (list Event))
    (actionClass delegationEventID agent : string) : DelegationVerification :=
  if auditURL =?s "" then verification delegationEventID agent actionClass [] false
  else
    let tools := tools_confirmed (fetchToolExecutionEvents reply) in
    verification delegationEventID agent actionClass tools
      (if actionClass =?s ActionDestructive then none (of_class ActionDestructive tools)
       else if actionClass =?s ActionWrite then
         none (of_class ActionWrite tools) && none (of_class ActionDestructive tools)
       else false).

Definition names_or_none (l : list string) : string := match l with [] => "none" | _ => join ", " l end.

Definition formatVerificationBlock (v : DelegationVerification) : string :=
  nl ++ nl ++ "---[AUDIT VERIFICATION | delegation: " ++ DelegationEventID v ++ "]" ++ nl ++
  "Tools confirmed by audit trail: " ++
    names_or_none (map (fun t => t ++ " (" ++ ClassifyTool t ++ ")") (ToolsConfirmed v)) ++ nl ++
  "Write tools confirmed: " ++ names_or_none (WriteConfirmed v) ++ nl ++
  "Destructive tools confirmed: " ++ names_or_none (DestructiveConfirmed v) ++ nl ++
  (if Mismatch v then
     "⚠️  MISMATCH: this delegation was classified as " ++ dv_ActionClass v ++ " but NO " ++ dv_ActionClass v ++
     "-or-stronger tool execution appears in the audit trail." ++ nl ++
     "You MUST tell the user the action could not be verified and was likely not executed. Do NOT claim success." ++
     nl
   else
     "✓ VERIFICATION CLEAN: no mismatch. Tool execution matches delegation. Report the agent's result as-is (success or error)." ++
     nl) ++
  "---".

(** ** The answer of an agent *)

Inductive ContentPart :=
  | TextPart (text : string)
  | DataPart (metadata data : anymap)
  | OtherPart.

Record Artifact := { af_ID : string; af_Name : string; af_Parts : list ContentPart }.

(** The history is a list of roles and parts. *)
Record A2ATask := {
  tk_ID : string;
  tk_State : string;
  tk_ContextID : string;
  tk_Status : option (list ContentPart);
  tk_History : list (string * list ContentPart);
  tk_Artifacts : list Artifact }.

Inductive SendMessageResult :=
  | Task (t : A2ATask)
  | PlainMessage (parts : list ContentPart).

Definition partsToText (parts : list ContentPart) : string :=
  join nl (omap (fun p => match p with TextPart t => Some t | _ => None end) parts).

(** The first of the texts that is not empty. *)
Definition first_nonempty (l : list string) : string := default "" (find (fun s => negb (s =?s "")) l).

Definition extractResponseText (r : SendMessageResult) : string :=
  match r with
  | Task t =>
      first_nonempty
        ((match tk_Status t with Some p => [partsToText p] | None => [] end) ++
         map (fun h => partsToText (snd h)) (List.filter (fun h => fst h =?s "agent") (List.rev (tk_History t))) ++
         map (fun a => partsToText (af_Parts a)) (tk_Artifacts t))%list
  | PlainMessage parts => partsToText parts
  end.

(** ** The call *)

(** A member of the metadata that is set only when it is not empty. *)
Definition meta_text (k v : string) : anymap := if v =?s "" then [] else [(k, AStr v)].

Definition meta_roles (roles : list string) : anymap :=
  match roles with [] => [] | _ => [("roles", AList (map AStr roles))] end.

Definition principal_meta (p : ResolvedPrincipal) : anymap :=
  (meta_text "user_id" (UserID p) ++ meta_roles (Roles p) ++ meta_text "service" (Service p) ++
   meta_text "auth_method" (AuthMethod p))%list.

Definition call_meta (tc : option TraceContext) (traceID : string) : anymap :=
  (meta_text "trace_id" traceID ++
   match tc with
   | Some tc =>
       principal_meta (tc_Principal tc) ++ meta_text "purpose" (tc_Purpose tc) ++
       meta_text "purpose_note" (tc_PurposeNote tc) ++
       (if PurposeExplicit tc then [("purpose_explicit", ABool true)] else [])
   | None => []
   end)%list.

Section Call.
(** The answer to a GET of an agent card: a transport error, or the status with the
    error of its decoding; whether a client can be made for a URL; and the agent. *)
Context (get_card : string -> result string (Z * option string)).
Context (new_client : string -> option string).
Context (send : string -> string -> anymap -> result string SendMessageResult).

Definition fetchAgentCard (cardURL : string) : option string :=
  match get_card cardURL with
  | Err e => Some e
  | Ok (status, decode_err) =>
      if negb (status =? 200)%Z then Some ("HTTP " ++ itoa status ++ " from " ++ cardURL) else decode_err
  end.

Definition callAgentWithTrace (tc : option TraceContext) (agentURL message traceID : string) : result string string :=
  match fetchAgentCard (trim_suffix agentURL "/" ++ "/.well-known/agent-card.json") with
  | Some e => Err ("fetching agent card: " ++ e)
  | None =>
      let url := trim_suffix agentURL "/" ++ "/invoke" in
      match new_client url with
      | Some e => Err ("creating A2A client: " ++ e)
      | None =>
          match send url message (call_meta tc traceID) with
          | Err e => Err ("sending message: " ++ e)
          | Ok r => Ok (extractResponseText r)
          end
      end
  end.

(** ** The tool *)

Record DelegateArgs := {
  da_Agent : string;
  da_RequestCategory : string;
  da_Confidence : spec_float;
  da_UserIntent : string;
  da_ReasoningChain : list string;
  da_Alternatives : list Alternative;
  da_Message : string }.

Record DelegateResult := { dr_Agent : string; dr_Response : string; dr_Duration : string; dr_EventID : string }.

(** What [DelegateToolWithTrace] fixes: [agents] is the registry, with the order of a
    range over it; [audited] whether there is an auditor. *)
Record Orchestrator := {
  audited : bool;
  auditURL : string;
  agents : list (string * string);
  or_sessionID : string;
  or_userID : string;
  or_traceID : string;
  callerName : string;
  sessionPurpose : string }.

Definition Get (name : string) (o : Orchestrator) : string :=
  match find (fun a => fst a =?s name) (agents o) with Some a => snd a | None => "" end.

Inductive AuditCall :=
  | CallRecord (e : Event)
  | CallOutcome (eventID : string) (o : Outcome).

(** The state the tool shares between its calls. *)
Record OrchestratorState := { guard : DelegationGuard; delegationCount : Z }.

Definition delegation_event (o : Orchestrator) (n : Z) (start : Time) (uuid8 : string) (args : DelegateArgs) : Event :=
  let e := base_event ("evt_" ++ uuid8) start EventTypeDelegation (or_traceID o) ""
             (ClassifyDelegation (da_Agent args) (da_Message args)) "" (da_UserIntent args) in
  {| EventID := EventID e; Timestamp := Timestamp e; EventType := EventType e; TraceID := TraceID e;
     ParentID := ParentID e; Origin := Origin e; e_ActionClass := e_ActionClass e; PrevHash := PrevHash e;
     EventHash := EventHash e; e_Principal := e_Principal e; e_Purpose := e_Purpose e;
     e_PurposeNote := e_PurposeNote e;
     e_Session := {| s_ID := or_sessionID o; s_UserID := or_userID o; AgentName := callerName o;
                     StartedAt := start; DelegationCount := n |};
     e_Input := e_Input e; e_Output := e_Output e; e_Tool := e_Tool e; e_Approval := e_Approval e;
     e_Decision := Some {| d_Agent := da_Agent args; RequestCategory := da_RequestCategory args;
                           Confidence := da_Confidence args; UserIntent := da_UserIntent args;
                           ReasoningChain := da_ReasoningChain args; AlternativesConsidered := da_Alternatives args |};
     e_PolicyDecision := e_PolicyDecision e; e_AgentReasoning := e_AgentReasoning e;
     e_GovernanceViolation := e_GovernanceViolation e; e_DelegationVerification := e_DelegationVerification e;
     e_Outcome := e_Outcome e; e_RollbackExecution := e_RollbackExecution e |}.

Definition verification_event (now : Time) (id traceID : string) (session : Session) (v : DelegationVerification)
    : Event :=
  let e := base_event id now EventTypeDelegationVerification traceID "" "" "" "" in
  {| EventID := EventID e; Timestamp := Timestamp e; EventType := EventType e; TraceID := TraceID e;
     ParentID := ParentID e; Origin := Origin e; e_ActionClass := e_ActionClass e; PrevHash := PrevHash e;
     EventHash := EventHash e; e_Principal := e_Principal e; e_Purpose := e_Purpose e;
     e_PurposeNote := e_PurposeNote e; e_Session := session; e_Input := e_Input e; e_Output := e_Output e;
     e_Tool := e_Tool e; e_Approval := e_Approval e; e_Decision := e_Decision e;
     e_PolicyDecision := e_PolicyDecision e; e_AgentReasoning := e_AgentReasoning e;
     e_GovernanceViolation := e_GovernanceViolation e; e_DelegationVerification := Some v;
     e_Outcome := e_Outcome e; e_RollbackExecution := e_RollbackExecution e |}.

(** The trace context of a call: only when the session has a purpose. *)
Definition purpose_context (o : Orchestrator) : option TraceContext :=
  if sessionPurpose o =?s "" then None
  else Some {| tc_TraceID := or_traceID o; tc_ParentID := ""; tc_Origin := ""; tc_Principal := zero_principal;
               tc_Purpose := sessionPurpose o; tc_PurposeNote := ""; PurposeExplicit := true; ApprovalMode := "";
               tc_ApprovalSession := "" |}.

Definition audit_calls (o : Orchestrator) (l : list AuditCall) : list AuditCall := if audited o then l else [].

(** [elapsed] is the duration read at the end of the call, [reply] auditd's answers
    to the query that follows a call that succeeds. *)
Definition delegate (o : Orchestrator) (inv : string) (start now2 : Time) (elapsed : Z) (uuid8 verif8 : string)
    (reply : nat -> option (list Event)) (args : DelegateArgs) (st : OrchestratorState)
    : OrchestratorState * list AuditCall * DelegateResult :=
  let n := (delegationCount st + 1)%Z in
  let st := {| guard := MarkCalled inv (guard st); delegationCount := n |} in
  let event := delegation_event o n start uuid8 args in
  let answer text := {| dr_Agent := da_Agent args; dr_Response := text; dr_Duration := Duration_String elapsed;
                        dr_EventID := EventID event |} in
  let failed msg := {| o_Status := "error"; o_ErrorMessage := msg; o_Duration := elapsed |} in
  let agentURL := Get (da_Agent args) o in
  if agentURL =?s "" then
    (st, audit_calls o [CallRecord event;
           CallOutcome (EventID event) (failed ("agent " ++ quote (da_Agent args) ++ " not found in registry"))],
     answer ("Error: agent " ++ quote (da_Agent args) ++ " is not available. Available agents: [" ++
             join " " (map fst (agents o)) ++ "]"))
  else
    match callAgentWithTrace (purpose_context o) agentURL (da_Message args) (or_traceID o) with
    | Err e =>
        (st, audit_calls o [CallRecord event; CallOutcome (EventID event) (failed e)],
         answer ("Error calling agent: " ++ e))
    | Ok response =>
        let v := buildDelegationVerification (auditURL o) reply (e_ActionClass event) (EventID event) (da_Agent args) in
        (st, audit_calls o [CallRecord event;
               CallOutcome (EventID event) {| o_Status := "success"; o_ErrorMessage := ""; o_Duration := elapsed |};
               CallRecord (verification_event now2 ("evt_" ++ verif8) (or_traceID o) (e_Session event) v)],
         answer (response ++ formatVerificationBlock v))
    end.
End Call.

(** Elements of related lists. *)
Lemma Forall2_In_r {A B} (R : A -> B -> Prop) l k y : Forall2 R l k -> In y k -> exists x, In x l /\ R x y.
Proof. induction 1 as [|x z l k Hr _ IH]; simpl; [done|]. intros [->|H]; [by exists x; auto|]. destruct (IH H) as (w & ? & ?). eauto. Qed.

(** ** What the verification shows *)

(** The start of a delegation as the query carries it: in whole seconds. *)
Definition whole_second (t : Time) : Time := (t - t mod Second)%Z.

Lemma whole_second_fields t : clock_fields (whole_second t) = clock_fields t.
Proof.
  unfold clock_fields, whole_second, Hour.
  assert (Hd : forall d k, (0 < k -> d = k * Second -> (t - t mod Second) / d = t / d)%Z).
  { intros d k Hk ->. rewrite !(Z.mul_comm k), <- !Z.div_div by (unfold Second; lia).
    f_equal. rewrite (Z.div_mod t Second) at 1 by done.
    replace (Second * (t / Second) + t mod Second - t mod Second)%Z with ((t / Second) * Second)%Z by lia.
    by rewrite Z.div_mul. }
  rewrite (Hd Day 86400%Z), (Hd Hours 3600%Z), (Hd Minute 60%Z), (Hd Second 1%Z) by done. done.
Qed.

Lemma since_read_back t : writable t -> parse_or_zero (clock_fields t ++ "Z") = whole_second t.
Proof.
  intros [H0 H1]. pose proof (Z.mod_pos_bound t Second ltac:(done)) as Hm.
  assert (Hz : (whole_second t mod Second = 0)%Z).
  { unfold whole_second. rewrite Zminus_mod_idemp_r, Z.sub_diag. done. }
  assert (Hle : (0 <= whole_second t)%Z).
  { unfold whole_second. rewrite (Z.div_mod t Second) at 1 by done.
    pose proof (Z.div_pos t Second H0 ltac:(done)). unfold Second in *. lia. }
  assert (Hw : writable (whole_second t)) by (split; [done|unfold whole_second; lia]).
  pose proof (parse_written _ Hw) as Hp. unfold RFC3339Nano in Hp. rewrite Hz, whole_second_fields in Hp.
  unfold parse_or_zero. change (nano_fraction 0 ++ "Z") with "Z" in Hp. by rewrite Hp.
Qed.

Section Sound.
Context (unmarshal_event : string -> option Event).
Context (scan : list Row -> list Row).
Hypothesis scan_perm : forall l, scan l ≡ₚ l.

(** auditd's answer to one attempt, over its store at that time; [down] is an exchange
    that fails. *)
Definition auditd_reply (traceID : string) (since : Time) (attempt : bool * Store) : option (list Event) :=
  if attempt.1 then None
  else match handleQueryEvents unmarshal_event scan (trace_query traceID since) attempt.2 with
       | EventsList l => Some l
       | _ => None
       end.

Definition attempts (traceID : string) (since : Time) (first second : bool * Store) (n : nat) : option (list Event) :=
  auditd_reply traceID since (match n with O => first | _ => second end).

(** A row of the trail that confirms a tool of a class: a tool execution in the trace,
    not before the second in which the delegation started. *)
Definition confirms (traceID : string) (since : Time) (class : string) (r : Row) : Prop :=
  AuditChain.trace_id r = traceID /\ event_type r = EventTypeToolExecution /\
  text_le (sqliteTimeFormat (whole_second since)) (timestamp r) = true /\
  exists e t, unmarshal_event (raw_json r) = Some e /\ event_tool e = Some t /\ ClassifyTool t = class.

Lemma trace_query_matches pg traceID since r : writable since -> traceID <> "" -> whole_second since <> 0%Z ->
  query_matches pg (query_of_params (trace_query traceID since)) r = true <->
  AuditChain.trace_id r = traceID /\ event_type r = EventTypeToolExecution /\
  text_le (sqliteTimeFormat (whole_second since)) (timestamp r) = true.
Proof.
  intros Hw Ht Hz. set (opts := query_of_params (trace_query traceID since)).
  assert (Hs : qo_Since opts = whole_second since) by (exact (since_read_back since Hw)).
  unfold query_matches, type_clause, col_is, confidence_clauses. rewrite Hs, (proj2 (Z.eqb_neq _ _) Hz : IsZero _ = false).
  change (qo_TraceID opts) with traceID. change (qo_EventType opts) with "tool_execution".
  change (qo_TraceIDPrefix opts) with "". change (qo_EventID opts) with "". change (qo_SessionID opts) with "".
  change (qo_Agent opts) with "". change (qo_ActionClass opts) with "". change (qo_ToolName opts) with "".
  change (qo_ApprovalStatus opts) with "". change (qo_OutcomeStatus opts) with "". change (qo_Origin opts) with "".
  change (float_positive (qo_MinConfidence opts)) with false. change (float_positive (qo_MaxConfidence opts)) with false.
  change ("" =?s "") with true. change (negb ("tool_execution" =?s "")) with true.
  rewrite (proj2 (streq_false traceID "") Ht). simpl orb. cbv iota.
  rewrite !andb_true_r, !andb_true_iff, !streq_spec. unfold EventTypeToolExecution. intuition.
Qed.

Lemma In_tools_confirmed t events : In t (tools_confirmed events) <-> exists e, In e events /\ event_tool e = Some t.
Proof. unfold tools_confirmed. rewrite <- list_elem_of_In, list_elem_of_omap. by setoid_rewrite list_elem_of_In. Qed.

Lemma of_class_some class tools : none (of_class class tools) = false <-> exists t, In t tools /\ ClassifyTool t = class.
Proof.
  unfold of_class. split.
  - destruct (List.filter _ tools) as [|t l] eqn:E; [done|]. intros _. exists t.
    assert (H : In t (List.filter (fun t => ClassifyTool t =?s class) tools)) by (rewrite E; by left).
    by rewrite filter_In, streq_spec in H.
  - intros (t & Hin & Hc). destruct (List.filter _ tools) as [|x l] eqn:E; [|done].
    assert (H : In t (List.filter (fun t => ClassifyTool t =?s class) tools)) by (by rewrite filter_In, streq_spec).
    by rewrite E in H.
Qed.

(** What the answer of a store confirms, and what it is complete for. *)
Lemma reply_confirms traceID since class s events : writable since -> traceID <> "" -> whole_second since <> 0%Z ->
  auditd_reply traceID since (false, s) = Some events ->
  (none (of_class class (tools_confirmed events)) = false -> exists r, In r (rows s) /\ confirms traceID since class r) /\
  (length events < 100 -> none (of_class class (tools_confirmed events)) = true ->
     forall r, In r (rows s) -> ~ confirms traceID since class r).
Proof.
  intros Hw Ht Hz. unfold auditd_reply, handleQueryEvents. simpl fst. simpl snd. cbv iota.
  set (opts := query_of_params (trace_query traceID since)).
  destruct (Query_spec unmarshal_event scan scan_perm opts s) as (picked & rest & Hp & _ & _ & Hlen & Hq).
  destruct (Query unmarshal_event scan opts s) as [l|]; [|done]. intros [= <-].
  assert (HIn : forall r, In r (picked ++ rest) <-> In r (rows s) /\ query_matches (isPostgres s) opts r = true).
  { intros r. rewrite <- filter_In. split; apply Permutation_in; [done|by symmetry]. }
  split.
  - intros (t & Hin & Hc)%of_class_some. apply In_tools_confirmed in Hin as (e & He & Htool).
    destruct (Forall2_In_r _ _ _ _ Hq He) as (r & Hr & Hu).
    destruct (proj1 (HIn r) (in_or_app _ _ _ (or_introl Hr))) as [Hrow Hm].
    apply trace_query_matches in Hm; [|done..]. exists r. split; [done|].
    destruct Hm as (H1 & H2 & H3). repeat split; [done..|]. by exists e, t.
  - intros Hshort Hnone r Hr (H1 & H2 & H3 & e & t & Hu & Htool & Hc).
    assert (Hm : In r (picked ++ rest)).
    { apply HIn. split; [done|]. by apply trace_query_matches. }
    change (qo_Limit opts) with 100%Z in Hlen. specialize (Hlen ltac:(lia)).
    pose proof (Forall2_length _ _ _ Hq) as Hl. rewrite length_app in Hlen.
    assert (rest = []) as -> by (destruct rest; simpl in *; [done|lia]).
    rewrite app_nil_r in Hm. destruct (Forall2_In_l _ _ _ _ Hq Hm) as (e' & He' & Hu').
    assert (e' = e) as -> by congruence.
    assert (Hf : none (of_class class (tools_confirmed l)) = false).
    { apply of_class_some. exists t. split; [|done]. apply In_tools_confirmed. by exists e. }
    congruence.
Qed.

(** The classes that satisfy a delegation of a class. *)
Definition satisfies (class : string) : list string :=
  if class =?s ActionDestructive then [ActionDestructive]
  else if class =?s ActionWrite then [ActionWrite; ActionDestructive] else [].

Lemma mismatch_spec auditURL reply class id agent : auditURL <> "" -> In class [ActionWrite; ActionDestructive] ->
  let tools := tools_confirmed (fetchToolExecutionEvents reply) in
  Mismatch (buildDelegationVerification auditURL reply class id agent) = true <->
  forall c, In c (satisfies class) -> none (of_class c tools) = true.
Proof.
  intros Hu Hc tools. unfold buildDelegationVerification. rewrite (proj2 (streq_false _ _) Hu). simpl Mismatch.
  fold tools. destruct Hc as [<-|[<-|[]]]; simpl.
  - rewrite andb_true_iff. split; [intros [H1 H2] c [<-|[<-|[]]]; done|].
    intros H. split; apply H; [by left|by right; left].
  - split; [intros H c [<-|[]]; done|]. intros H. apply H. by left.
Qed.

(** No mismatch: the trail of one of the two attempts has a row that confirms. *)
Lemma no_mismatch_confirmed traceID since auditURL class id agent (first second : bool * Store) :
  writable since -> traceID <> "" -> whole_second since <> 0%Z -> auditURL <> "" ->
  In class [ActionWrite; ActionDestructive] ->
  Mismatch (buildDelegationVerification auditURL (attempts traceID since first second) class id agent) = false ->
  exists s c r, (s = first.2 \/ s = second.2) /\ In c (satisfies class) /\ In r (rows s) /\
    confirms traceID since c r.
Proof.
  intros Hw Ht Hz Hu Hc Hv.
  pose proof (mismatch_spec auditURL (attempts traceID since first second) class id agent Hu Hc) as Hm. simpl in Hm.
  set (tools := tools_confirmed (fetchToolExecutionEvents (attempts traceID since first second))) in Hm.
  assert (exists c, In c (satisfies class) /\ none (of_class c tools) = false) as (c & Hin & Hsome).
  { rewrite Hv in Hm. destruct (existsb (fun c => negb (none (of_class c tools))) (satisfies class)) eqn:E.
    - apply existsb_exists in E as (c & Hin & Hn). exists c. split; [done|]. by apply negb_true_iff.
    - exfalso. assert (false = true); [|done]. apply Hm. intros c Hin.
      apply (existsb_false _ _) with (x := c) in E; [|done]. by apply negb_false_iff. }
  unfold tools, fetchToolExecutionEvents, attempts in Hsome.
  assert (Hone : forall x events, auditd_reply traceID since x = Some events ->
    none (of_class c (tools_confirmed events)) = false ->
    exists r, In r (rows x.2) /\ confirms traceID since c r).
  { intros [[] s] events H; [done|]. by apply (reply_confirms traceID since c s events Hw Ht Hz H). }
  destruct (auditd_reply traceID since first) as [ev|] eqn:E0.
  - destruct (Hone _ _ E0 Hsome) as (r & Hr & Hcr). exists first.2, c, r. auto.
  - destruct (auditd_reply traceID since second) as [ev|] eqn:E1; [|done].
    destruct (Hone _ _ E1 Hsome) as (r & Hr & Hcr). exists second.2, c, r. auto.
Qed.

(**  The check after a delegation that writes or destroys: when it reports
    no mismatch, the audit trail has a tool execution in the trace of the session, not
    before the second of the delegation's start, by a tool of the class (a destructive
    one will do for a write).  When it reports a mismatch and auditd has answered with
    fewer than a hundred events, the trail had no such execution at that time. *)
Theorem verification_sound traceID since auditURL class id agent down0 s0 down1 s1 :
  writable since -> traceID <> "" -> whole_second since <> 0%Z -> auditURL <> "" ->
  In class [ActionWrite; ActionDestructive] ->
  let reply := attempts traceID since (down0, s0) (down1, s1) in
  let v := buildDelegationVerification auditURL reply class id agent in
  (Mismatch v = false ->
     exists s c r, (s = s0 \/ s = s1) /\ In c (satisfies class) /\ In r (rows s) /\ confirms traceID since c r) /\
  (Mismatch v = true -> forall events, reply 0 = Some events -> length events < 100 ->
     forall c r, In c (satisfies class) -> In r (rows s0) -> ~ confirms traceID since c r).
Proof.
  intros Hw Ht Hz Hu Hc reply v. split; [by apply no_mismatch_confirmed|].
  intros Hv events He Hlen c r Hin. pose proof (mismatch_spec auditURL reply class id agent Hu Hc) as Hm.
  pose proof (proj1 Hm Hv c Hin) as Hnone. unfold fetchToolExecutionEvents in Hnone. rewrite He in Hnone.
  unfold reply, attempts in He. destruct down0; [done|].
  by apply (reply_confirms traceID since c s0 events Hw Ht Hz He).
Qed.
End Sound.

(** ** No answer without a delegation *)

(** What happens in an orchestrator: the model answers, or delegate_to_agent runs. *)
Inductive Turn :=
  | ModelAnswers (inv : string) (resp : LLMResponse)
  | Delegates (inv : string).

Definition turn (maxRetries : Z) (g : DelegationGuard) (t : Turn) : DelegationGuard :=
  match t with
  | ModelAnswers inv resp => (NoDelegationCallback maxRetries inv resp g).1
  | Delegates inv => MarkCalled inv g
  end.

Definition turns (maxRetries : Z) (h : list Turn) : DelegationGuard := fold_left (turn maxRetries) h NewDelegationGuard.

(** An answer to the user: text and no call of a function. *)
Definition text_only (resp : LLMResponse) : bool :=
  match resp with Some parts => has_text parts && negb (has_function_call parts) | None => false end.

Definition answers_of (inv : string) (h : list Turn) : Z :=
  Z.of_nat (length (List.filter (fun t => match t with
                                          | ModelAnswers i resp => (i =?s inv) && text_only resp
                                          | Delegates _ => false
                                          end) h)).

Lemma callback_passes max inv resp g : WasCalled inv g = true -> NoDelegationCallback max inv resp g = (g, None).
Proof. intros H. unfold NoDelegationCallback. destruct resp; [|done]. by rewrite H. Qed.

Lemma callback_spec max inv resp g : WasCalled inv g = false ->
  NoDelegationCallback max inv resp g =
  if text_only resp then
    ((IncrementRetry inv g).1,
     Some (if (max_retries max <? RetryCount inv g + 1)%Z then suppressed (max_retries max)
           else correction (RetryCount inv g + 1)))
  else (g, None).
Proof.
  intros H. unfold NoDelegationCallback, text_only. destruct resp as [parts|]; [|done]. rewrite H.
  destruct (has_text parts), (has_function_call parts); simpl; try done.
  by destruct (_ <? _)%Z.
Qed.

Lemma callback_guard max inv resp g :
  called (NoDelegationCallback max inv resp g).1 = called g /\
  forall i, i <> inv -> RetryCount i (NoDelegationCallback max inv resp g).1 = RetryCount i g.
Proof.
  destruct (WasCalled inv g) eqn:E; [by rewrite callback_passes|]. rewrite callback_spec by done.
  destruct (text_only resp); [|done]. split; [done|]. intros i Hi. unfold RetryCount. simpl.
  by rewrite lookup_insert_ne.
Qed.

Lemma turns_guard max inv h : ~ In (Delegates inv) h ->
  WasCalled inv (turns max h) = false /\ RetryCount inv (turns max h) = answers_of inv h.
Proof.
  unfold turns. induction h as [|t h IH] using rev_ind; intros Hn; [done|].
  destruct IH as [Hw Hr]; [intros H; apply Hn, in_or_app; by left|]. set (g := fold_left _ h _) in *.
  rewrite fold_left_app. cbn [fold_left]. fold g.
  unfold answers_of. rewrite List.filter_app, length_app, Nat2Z.inj_add. fold (answers_of inv h). rewrite <- Hr.
  destruct t as [i resp|i]; cbn [turn List.filter length].
  - destruct (callback_guard max i resp g) as [Hc Hk]. split; [unfold WasCalled; by rewrite Hc|].
    destruct (String.eqb_spec i inv) as [->|Hne]; cbn [andb length]; [|rewrite Hk by done; lia].
    rewrite callback_spec by done. destruct (text_only resp); simpl; [|lia].
    unfold RetryCount at 1. simpl. by rewrite lookup_insert_eq.
  - assert (i <> inv) by (intros ->; apply Hn, in_or_app; right; by left).
    split; [|simpl; unfold RetryCount; simpl; fold (RetryCount inv g); lia].
    unfold WasCalled. simpl. by rewrite lookup_insert_ne.
Qed.

(**  Whatever other invocations do, as long as an invocation has not
    delegated, no text-only answer of its model reaches the user: the first ones, as
    many as the limit allows, become numbered corrections, and every later one the fixed
    apology; once it has delegated, its answers are left alone. *)
Theorem answers_need_delegation max h inv resp :
  (~ In (Delegates inv) h -> text_only resp = true ->
   (NoDelegationCallback max inv resp (turns max h)).2 =
   Some (if (answers_of inv h <? max_retries max)%Z then correction (answers_of inv h + 1)
         else suppressed (max_retries max))) /\
  (In (Delegates inv) h -> (NoDelegationCallback max inv resp (turns max h)).2 = None).
Proof.
  split.
  - intros Hn Ht. destruct (turns_guard max inv h Hn) as [Hw Hr]. rewrite callback_spec, Ht, Hr by done. simpl.
    f_equal. destruct (Z.ltb_spec (answers_of inv h) (max_retries max)), (Z.ltb_spec (max_retries max) (answers_of inv h + 1));
      try done; lia.
  - intros Hin. rewrite callback_passes; [done|]. unfold turns.
    induction h as [|t h IH] using rev_ind; [done|]. rewrite fold_left_app. cbn [fold_left].
    apply in_app_or in Hin as [Hin|[->|[]]].
    + destruct t as [i r|i]; simpl; [|].
      * unfold WasCalled. rewrite (proj1 (callback_guard max i r _)). exact (IH Hin).
      * unfold WasCalled. simpl. destruct (decide (i = inv)) as [->|]; [by rewrite lookup_insert_eq|].
        rewrite lookup_insert_ne by done. by apply IH.
    + unfold WasCalled. simpl. by rewrite lookup_insert_eq.
Qed.

Definition plain_answer (s : string) : LLMResponse :=
  Some [{| p_Text := s; p_Thought := false; p_FunctionCall := None |}].

Lemma answers_need_delegation_witness :
  let h := [ModelAnswers "i" (plain_answer "done"); Delegates "j"; ModelAnswers "i" (plain_answer "done")] in
  (NoDelegationCallback 0 "i" (plain_answer "done") (turns 0 h)).2 = Some (suppressed 2).
Proof.
  intros h. rewrite (proj1 (answers_need_delegation 0 h "i" (plain_answer "done"))).
  - reflexivity.
  - intros [H|[H|[H|[]]]]; discriminate H.
  - reflexivity.
Defined.

(** ** A small trail *)

Module DelegationToy.

Definition start : Time := (Second * 3600 + 5)%Z.

(** A tool execution by an agent, and the row that the store keeps of it. *)
Definition executed (agent tool : string) : Event :=
  with_bodies (Some (tool_named tool agent)) None None None None None
    (base_event "tool_1" start EventTypeToolExecution "tr_1" "" ActionDestructive "" "").

Definition store_with (agent tool : string) : Store :=
  {| rows := [row_of (fun _ => "") (fun _ => "") (fun _ => "") (executed agent tool) (agent ++ " " ++ tool)];
     isPostgres := false; lastHash := ""; notified := [] |}.

Definition unmarshal (raw : string) : option Event :=
  match split_on " " raw with [agent; tool] => Some (executed agent tool) | _ => None end.

Definition trail (agent tool : string) : bool * Store := (false, store_with agent tool).
Definition empty_trail : bool * Store :=
  (false, {| rows := []; isPostgres := false; lastHash := ""; notified := [] |}).

Definition check (auditURL : string) (first second : bool * Store) : DelegationVerification :=
  buildDelegationVerification auditURL (attempts unmarshal id "tr_1" start first second) ActionDestructive "evt_1"
    "postgres_database_agent".

(** Without an audit URL nothing is checked, and the answer says that it was. *)
Example unchecked_is_clean :
  Mismatch (check "" empty_trail empty_trail) = false /\
  str_contains (formatVerificationBlock (check "" empty_trail empty_trail)) "VERIFICATION CLEAN" = true.
Proof. split; vm_compute; reflexivity. Qed.

(** An empty answer is final: the second attempt is for failures only. *)
Example empty_answer_not_retried :
  Mismatch (check "http://auditd" empty_trail (trail "postgres_database_agent" "terminate_connection")) = true /\
  Mismatch (check "http://auditd" (true, empty_trail.2) (trail "postgres_database_agent" "terminate_connection")) = false.
Proof. split; vm_compute; reflexivity. Qed.

(** A tool of another agent in the same trace confirms the delegation. *)
Example other_agent_confirms :
  let v := check "http://auditd" (trail "k8s_agent" "delete_pod") empty_trail in
  Mismatch v = false /\ DestructiveConfirmed v = ["delete_pod"] /\ dv_Agent v = "postgres_database_agent".
Proof. vm_compute. done. Qed.
End DelegationToy.

Lemma verification_sound_witness :
  exists s c r, (s = DelegationToy.store_with "a" "delete_pod" \/ s = DelegationToy.store_with "a" "delete_pod") /\
    In c (satisfies ActionDestructive) /\ In r (rows s) /\
    confirms DelegationToy.unmarshal "tr_1" DelegationToy.start c r.
Proof.
  apply (verification_sound DelegationToy.unmarshal id (fun l => Permutation_refl l) "tr_1" DelegationToy.start
           "http://auditd" ActionDestructive "evt_1" "a" false (DelegationToy.store_with "a" "delete_pod") false
           (DelegationToy.store_with "a" "delete_pod")).
  - split; [discriminate|reflexivity].
  - discriminate.
  - discriminate.
  - discriminate.
  - right. left. reflexivity.
  - vm_compute. reflexivity.
Defined.
