(* ===== verification/ToolRegistry.v ===== *)
(** * The tool registry

    internal/toolregistry/registry.go and intents.go: the catalogue of tools built from
    the agent cards.  A Go map that is ranged over is a list in the order of the range;
    the index by name is a finite map.  An input schema is decoded JSON; [None] is the
    nil map. *)

From S2P Require Import Prelude Events Action.

Open Scope string_scope.

Record ToolEntry := {
  en_Name : string;
  en_Agent : string;
  en_Description : string;
  en_InputSchema : option anymap;
  en_ActionClass : string;
  FleetEligible : bool;
  AutoRemediationEligible : bool;
  Capabilities : list string;
  Supersedes : list string;
  en_AgentVersion : string;
  en_SchemaFingerprint : string }.

Record Registry := { tools : list ToolEntry; byName : gmap string ToolEntry }.

(** The last entry of a name wins in the index; the list keeps them all. *)
Definition New (entries : list ToolEntry) : Registry :=
  {| tools := entries; byName := fold_left (fun m e => <[en_Name e := e]> m) entries ∅ |}.

Definition Get_tool (name : string) (r : Registry) : option ToolEntry := byName r !! name.

Definition ListByAgent (agent : string) (r : Registry) : list ToolEntry :=
  List.filter (fun e => en_Agent e =?s agent) (tools r).

Definition ListFleetEligible (r : Registry) : list ToolEntry := List.filter FleetEligible (tools r).

Definition ListAutoRemediationEligible (r : Registry) : list ToolEntry :=
  List.filter AutoRemediationEligible (tools r).

Definition IsAutoRemediationEligible (name : string) (r : Registry) : bool :=
  match Get_tool name r with Some e => AutoRemediationEligible e | None => false end.

Definition ListByCapability (cap : string) (r : Registry) : list ToolEntry :=
  List.filter (fun e => mem cap (Capabilities e)) (tools r).

(** The names that the entries of [names] declare redundant, as far as they are in
    [inSet]. *)
Definition superseded_by (inSet : list string) (r : Registry) (n : string) : list string :=
  match Get_tool n r with
  | Some e => List.filter (fun sup => mem sup inSet) (Supersedes e)
  | None => []
  end.

Definition dominated (names : list string) (r : Registry) : list string :=
  flat_map (superseded_by names r) names.

Definition ResolveSuperseded (names : list string) (r : Registry) : list string :=
  match dominated names r with
  | [] => names
  | d => List.filter (fun n => negb (mem n d)) names
  end.

(** The strings of a list of JSON values. *)
Definition strings_of (l : list any) : list string :=
  omap (fun v => match v with AStr s => Some s | _ => None end) l.

Definition map_get (k : string) (m : anymap) : option any := snd <$> find (fun kv => fst kv =?s k) m.

Definition required_keys (schema : anymap) : list string :=
  match map_get "required" schema with Some (AList l) => strings_of l | _ => [] end.

Definition has_key (args : anymap) (k : string) : bool := existsb (fun kv => fst kv =?s k) args.

Definition Validate (toolName : string) (args : anymap) (r : Registry) : option string :=
  match Get_tool toolName r with
  | None => Some ("unknown tool: " ++ toolName)
  | Some entry =>
      match en_InputSchema entry with
      | None => None
      | Some schema =>
          match find (fun key => negb (has_key args key)) (required_keys schema) with
          | Some key => Some ("tool " ++ toolName ++ ": missing required parameter " ++ quote key)
          | None => None
          end
      end
  end.

(** ** Building the registry from agent cards *)

Definition agentShortName : list (string * string) :=
  [("postgres_database_agent", "database"); ("k8s_agent", "k8s"); ("incident_agent", "incident");
   ("research_agent", "research"); ("sysadmin_agent", "sysadmin")].

Definition NormalizeAgentName (name : string) : string :=
  match find (fun kv => fst kv =?s name) agentShortName with Some kv => snd kv | None => name end.

Record Skill := { sk_ID : string; sk_Name : string; sk_Description : string; sk_Tags : list string }.

Record AgentCard := { cd_Version : string; cd_Skills : list Skill }.

Definition extractToolName (agentName skillID : string) : string :=
  let prefix := agentName ++ "-" in
  if has_prefix skillID prefix then trim_prefix skillID prefix else "".

Record SkillTags := {
  tg_fleet : bool;
  tg_auto : bool;
  tg_caps : list string;
  tg_supersedes : list string;
  tg_hash : string }.

Definition no_tags : SkillTags :=
  {| tg_fleet := false; tg_auto := false; tg_caps := []; tg_supersedes := []; tg_hash := "" |}.

Definition add_tag (t : SkillTags) (tag : string) : SkillTags :=
  if tag =?s "fleet:true" then
    {| tg_fleet := true; tg_auto := tg_auto t; tg_caps := tg_caps t; tg_supersedes := tg_supersedes t; tg_hash := tg_hash t |}
  else if tag =?s "auto_remediation:true" then
    {| tg_fleet := tg_fleet t; tg_auto := true; tg_caps := tg_caps t; tg_supersedes := tg_supersedes t; tg_hash := tg_hash t |}
  else if has_prefix tag "cap:" then
    {| tg_fleet := tg_fleet t; tg_auto := tg_auto t; tg_caps := (tg_caps t ++ [trim_prefix tag "cap:"])%list;
       tg_supersedes := tg_supersedes t; tg_hash := tg_hash t |}
  else if has_prefix tag "supersedes:" then
    {| tg_fleet := tg_fleet t; tg_auto := tg_auto t; tg_caps := tg_caps t;
       tg_supersedes := (tg_supersedes t ++ [trim_prefix tag "supersedes:"])%list; tg_hash := tg_hash t |}
  else if has_prefix tag "schema_hash:" then
    {| tg_fleet := tg_fleet t; tg_auto := tg_auto t; tg_caps := tg_caps t; tg_supersedes := tg_supersedes t;
       tg_hash := trim_prefix tag "schema_hash:" |}
  else t.

Definition parseSkillTags (tags : list string) : SkillTags := fold_left add_tag tags no_tags.

Section Build.
(** The schemas by agent and tool, and the table of classes. *)
Context (agentSchemas : gmap string (gmap string (list (string * any)))).
Context (classification : list (string * string)).

Definition skill_entry (agentName : string) (card : AgentCard) (skill : Skill) : option ToolEntry :=
  let toolName := extractToolName agentName (sk_ID skill) in
  if toolName =?s "" then None
  else
    let tags := parseSkillTags (sk_Tags skill) in
    Some {| en_Name := toolName; en_Agent := NormalizeAgentName agentName;
            en_Description := if sk_Description skill =?s "" then sk_Name skill else sk_Description skill;
            en_InputSchema := match agentSchemas !! agentName with Some m => m !! toolName | None => None end;
            en_ActionClass := default ActionUnknown (class_lookup toolName classification);
            FleetEligible := tg_fleet tags; AutoRemediationEligible := tg_auto tags;
            Capabilities := tg_caps tags; Supersedes := tg_supersedes tags;
            en_AgentVersion := cd_Version card; en_SchemaFingerprint := tg_hash tags |}.

Definition agent_entries (agent : string * option AgentCard) : list ToolEntry :=
  match snd agent with
  | None => []
  | Some card => omap (skill_entry (fst agent) card) (cd_Skills card)
  end.

Definition Build (agentCards : list (string * option AgentCard)) : Registry :=
  New (flat_map agent_entries agentCards).
End Build.

(** intents.go, in the sorted order the planner uses. *)
Definition IntentMap : list (string * list string) :=
  [("connectivity_check", ["check_connection"]);
   ("health_check", ["get_status_summary"]);
   ("lock_check", ["get_lock_info"]);
   ("replication_check", ["get_replication_status"]);
   ("table_bloat", ["get_table_stats"])].

(** ** Look-ups *)

Lemma byName_fold entries (m : gmap string ToolEntry) name e :
  fold_left (fun m e => <[en_Name e := e]> m) entries m !! name = Some e ->
  (In e entries /\ en_Name e = name) \/ m !! name = Some e.
Proof.
  revert m. induction entries as [|x l IH]; intros m; simpl; [by right|].
  intros H. apply IH in H as [[Hin He]|H]; [left; auto|].
  destruct (decide (en_Name x = name)) as [<-|Hn].
  - rewrite lookup_insert_eq in H. injection H as <-. left. auto.
  - rewrite lookup_insert_ne in H by done. by right.
Qed.

Lemma Get_New entries name e : Get_tool name (New entries) = Some e -> In e entries /\ en_Name e = name.
Proof. intros H. apply byName_fold in H as [H|H]; [done|]. by rewrite lookup_empty in H. Qed.

Lemma skill_entry_class agentSchemas classification agent card sk e :
  skill_entry agentSchemas classification agent card sk = Some e ->
  en_ActionClass e = default ActionUnknown (class_lookup (en_Name e) classification).
Proof. unfold skill_entry. destruct (_ =?s ""); [done|]. by intros [= <-]. Qed.

(** Every tool of a built registry has the class that the gateway and the agents check. *)
Lemma built_class agentSchemas cards name e : Get_tool name (Build agentSchemas ToolClassification cards) = Some e ->
  en_ActionClass e = ClassifyTool name.
Proof.
  intros H. apply Get_New in H as [Hin <-]. apply in_flat_map in Hin as (a & _ & Hin).
  unfold agent_entries in Hin. destruct (snd a) as [card|]; [|done].
  apply list_elem_of_In, list_elem_of_omap in Hin as (sk & _ & Hs). apply skill_entry_class in Hs as ->.
  unfold ClassifyTool. by destruct (class_lookup _ _).
Qed.

(** ** Superseded tools *)

(** [m] declares [n] redundant. *)
Definition supersedes (r : Registry) (m n : string) : Prop :=
  exists e, Get_tool m r = Some e /\ In n (Supersedes e).

Lemma In_dominated names r n : In n (dominated names r) <-> In n names /\ exists m, In m names /\ supersedes r m n.
Proof.
  unfold dominated, superseded_by, supersedes. rewrite in_flat_map. split.
  - intros (m & Hm & H). destruct (Get_tool m r) as [e|] eqn:E; [|done].
    apply filter_In in H as [H Hn]. rewrite mem_spec in Hn. split; [done|]. exists m. split; [done|]. by exists e.
  - intros (Hn & m & Hm & e & He & Hs). exists m. split; [done|]. rewrite He, filter_In, mem_spec. done.
Qed.

Lemma ResolveSuperseded_filter names r :
  ResolveSuperseded names r = List.filter (fun n => negb (mem n (dominated names r))) names.
Proof.
  unfold ResolveSuperseded. destruct (dominated names r) as [|d l] eqn:E; [|done].
  symmetry. apply forallb_filter_id. apply forallb_forall. done.
Qed.

Lemma In_resolved names r n : In n (ResolveSuperseded names r) <->
  In n names /\ ~ exists m, In m names /\ supersedes r m n.
Proof.
  rewrite ResolveSuperseded_filter, filter_In, negb_true_iff, mem_false, In_dominated. naive_solver.
Qed.

(** The names of a registry in which no tool supersedes, through others, itself: a
    measure that grows towards the superseding tool. *)
Definition ranked (r : Registry) (rank : string -> nat) : Prop := forall m n, supersedes r m n -> rank n < rank m.

Inductive above (r : Registry) (names : list string) : string -> string -> Prop :=
  | above_refl n : above r names n n
  | above_step m n k : In m names -> supersedes r m n -> above r names k m -> above r names k n.

(**  The tools that remain are, in their order, those that no tool of
    the list declares redundant; where no tool supersedes itself through others, each
    removed tool is superseded, directly or through others, by one that remains, so a
    list that is not empty keeps a tool. *)
Theorem superseded_resolved r names rank :
  (forall n, In n (ResolveSuperseded names r) <-> In n names /\ ~ exists m, In m names /\ supersedes r m n) /\
  sublist (ResolveSuperseded names r) names /\
  (ranked r rank -> forall n, In n names -> exists k, In k (ResolveSuperseded names r) /\ above r names k n).
Proof.
  split; [intros n; apply In_resolved|]. split.
  { rewrite ResolveSuperseded_filter. induction names as [|x l IH] using rev_ind; [done|].
    rewrite List.filter_app. simpl. clear IH. apply sublist_app.
    - generalize (dominated (l ++ [x]) r). intros d. induction l as [|y l IH]; simpl; [done|].
      destruct (negb _); [by apply sublist_skip|by apply sublist_cons].
    - destruct (negb _); [done|]. apply sublist_nil_l. }
  intros Hr.
  assert (Hbound : exists b, forall n, In n names -> rank n <= b).
  { induction names as [|x l [b IH]]; [by exists 0|]. exists (max b (rank x)).
    intros n [<-|H]; [lia|]. specialize (IH n H). lia. }
  destruct Hbound as [b Hb]. intros n Hn. remember (b - rank n) as d eqn:Ed. revert n Hn Ed.
  induction d as [d IH] using lt_wf_ind. intros n Hn ->.
  destruct (mem n (dominated names r)) eqn:E.
  - apply mem_spec, In_dominated in E as (_ & m & Hm & Hs). pose proof (Hr _ _ Hs). pose proof (Hb m Hm).
    destruct (IH (b - rank m) ltac:(lia) m Hm eq_refl) as (k & Hk & Ha). exists k. split; [done|].
    by apply (above_step r names m).
  - exists n. split; [|constructor]. rewrite ResolveSuperseded_filter, filter_In, E. done.
Qed.

Module RegistryToy.

Definition entry (name : string) (sup : list string) : ToolEntry :=
  {| en_Name := name; en_Agent := "database"; en_Description := ""; en_InputSchema := None; en_ActionClass := "read";
     FleetEligible := true; AutoRemediationEligible := false; Capabilities := []; Supersedes := sup;
     en_AgentVersion := ""; en_SchemaFingerprint := "" |}.

Definition status : Registry :=
  New [entry "get_status_summary" ["get_server_info"; "get_connection_stats"]; entry "get_server_info" [];
       entry "get_connection_stats" []].

Example dominant_wins :
  ResolveSuperseded ["get_server_info"; "get_status_summary"; "get_connection_stats"] status = ["get_status_summary"].
Proof. reflexivity. Qed.

(** Two tools that supersede each other both go. *)
Example both_go : ResolveSuperseded ["a"; "b"] (New [entry "a" ["b"]; entry "b" ["a"]]) = [].
Proof. reflexivity. Qed.

Definition rank (n : string) : nat := if n =?s "get_status_summary" then 1 else 0.

Lemma status_ranked : ranked status rank.
Proof.
  intros m n (e & He & Hs). apply Get_New in He as [Hin <-].
  destruct Hin as [<-|[<-|[<-|[]]]]; [|done|done]. destruct Hs as [<-|[<-|[]]]; vm_compute; lia.
Qed.
End RegistryToy.

Lemma superseded_resolved_witness :
  exists k, In k (ResolveSuperseded ["get_server_info"; "get_status_summary"] RegistryToy.status) /\
    above RegistryToy.status ["get_server_info"; "get_status_summary"] k "get_server_info".
Proof.
  apply (superseded_resolved RegistryToy.status ["get_server_info"; "get_status_summary"] RegistryToy.rank).
  - exact RegistryToy.status_ranked.
  - left. reflexivity.
Defined.
