(* ===== verification/Gateway.v ===== *)
(** * The gateway's REST endpoints in front of the agents

    cmd/gateway/gateway.go (identity and purpose of a request, authorisation of a route,
    natural-language queries, direct tool calls, incident and research requests), router.go
    (choice of an agent by a model) and [stripMarkdownFences] of planner.go.  A handler
    returns what it did, in order, and its reply.  The agents, the model, auditd's answers
    and the identity provider are parameters; so are the fresh ids and the clock.  What a
    goroutine does after the reply is part of the list of effects. *)

From Stdlib Require Import SpecFloat.
From S2P Require Import Prelude GoTime TimeText GoFormat Identity Authz Events Action ApprovalPolicy Rollback.
From S2P Require Import PlaybookPrompt AuditChain ToolAudit Delegation ToolRegistry.

Open Scope string_scope.

(** PlaybookPrompt declares the names of the database and system agents. *)
Definition agentNameK8s := "k8s_agent".
Definition agentNameIncident := "incident_agent".
Definition agentNameResearch := "research_agent".

(** ** Requests, replies and effects *)

(** The parts of an HTTP request and of its context that the handlers read. *)
Record Request := {
  rq_Method : string;
  rq_Path : string;
  rq_Header : gmap string string;
  rq_Principal : option ResolvedPrincipal;
  rq_Approval : option approvalContext }.

Definition Header (k : string) (r : Request) : string := default "" (rq_Header r !! k).

Definition set_header (k v : string) (r : Request) : Request :=
  {| rq_Method := rq_Method r; rq_Path := rq_Path r; rq_Header := <[k := v]> (rq_Header r);
     rq_Principal := rq_Principal r; rq_Approval := rq_Approval r |}.

Definition with_principal (p : ResolvedPrincipal) (r : Request) : Request :=
  {| rq_Method := rq_Method r; rq_Path := rq_Path r; rq_Header := rq_Header r; rq_Principal := Some p;
     rq_Approval := rq_Approval r |}.

Record a2aResponse := {
  rs_Agent : string;
  rs_TaskID : string;
  rs_State : string;
  rs_Text : string;
  rs_Artifacts : list (string * string * string);
  rs_ContextID : string;
  rs_ToolCalls : list string }.

Inductive Body :=
  | ErrorBody (message : string)
  | AgentBody (r : a2aResponse).

(** [rp_TraceID] and [rp_Mismatch] are the headers X-Trace-ID and X-Audit-Mismatch. *)
Record Reply := { rp_Status : Z; rp_TraceID : string; rp_Mismatch : bool; rp_Body : Body }.

Definition writeError (traceID : string) (status : Z) (message : string) : Reply :=
  {| rp_Status := status; rp_TraceID := traceID; rp_Mismatch := false; rp_Body := ErrorBody message |}.

Record directToolReq := {
  dt_TraceID : string;
  dt_Principal : ResolvedPrincipal;
  dt_Purpose : string;
  dt_PurposeNote : string;
  dt_PurposeExplicit : bool;
  dt_Args : anymap }.

Record directToolResp := { dt_Output : string; dt_Error : string }.

(** The record sent to auditd after a direct call; [tr_Args] is encoded as JSON. *)
Record ToolResultRecord := {
  tr_Server : string;
  tr_Tool : string;
  tr_Args : anymap;
  tr_Output : string;
  tr_Trace : string;
  tr_RecordedBy : string }.

Inductive Effect :=
  | Recorded (e : Event)
  | SentMessage (agent contextID prompt : string) (meta : anymap)
  | PostedTool (url : string) (body : directToolReq)
  | CountedMismatch (agent actionClass : string)
  | PostedResult (r : ToolResultRecord).

(** ** The gateway *)

Record Gateway := {
  g_agents : gmap string string;
  g_clients : list string;
  g_audited : bool;
  g_auditURL : string;
  g_manager : ApprovalManager;
  operatingMode : string;
  g_toolRegistry : option Registry;
  g_metrics : bool }.

(** The last eight or twelve characters of the fresh ids of one request. *)
Record Fresh := {
  fr_request : string;
  fr_trace : string;
  fr_event : string;
  fr_verif : string;
  fr_route : string }.

(** ** Helpers *)

Definition resolveRequest (r : Request) (purposeFromBody purposeNoteFromBody : string)
    : ResolvedPrincipal * string * string * bool :=
  let principal := PrincipalFromContext (rq_Principal r) in
  let '(purpose, purposeExplicit) := PurposeFromRequest (Header "X-Purpose" r) purposeFromBody in
  let note := Header "X-Purpose-Note" r in
  (principal, purpose, if note =?s "" then purposeNoteFromBody else note, purposeExplicit).

Definition patternAgent (pattern : string) : string :=
  if str_contains pattern "/api/v1/db/" then agentNameDB
  else if str_contains pattern "/api/v1/k8s/" then agentNameK8s
  else if str_contains pattern "/api/v1/incidents" then agentNameIncident
  else if str_contains pattern "/api/v1/research" then agentNameResearch
  else "gateway".

Definition agentAliases : list (string * string) :=
  [("database", agentNameDB); ("db", agentNameDB); ("k8s", agentNameK8s); ("incident", agentNameIncident);
   ("research", agentNameResearch); ("sysadmin", agentNameSysadmin); ("host", agentNameSysadmin)].

Definition agent_alias (name : string) : option string := snd <$> find (fun kv => fst kv =?s name) agentAliases.

Definition isPolicyDenial (text : string) : bool := str_contains (to_lower text) "policy denied".

Definition isToolError (text : string) : bool := str_contains text (nl ++ "ERROR —").

Definition in_quotes (s : string) : string := dquote ++ s ++ dquote.

(** [args] in the order of the range over the map. *)
Definition buildToolPrompt (toolName : string) (args : anymap) : string :=
  "Call the " ++ toolName ++ " tool" ++
  match args with
  | [] => ""
  | _ => " with the following parameters: " ++ join ", " (map (fun kv => fst kv ++ "=" ++ fmt_v (snd kv)) args)
  end ++ ".".

Definition string_arg (args : anymap) (key : string) : option string :=
  match map_get key args with Some (AStr s) => if s =?s "" then None else Some s | _ => None end.

Definition serverNameFromArgs (args : anymap) : string :=
  default "unknown" (head (omap (string_arg args) ["connection_string"; "context"; "namespace"])).

Definition fence : string := "```".

Definition stripMarkdownFences (s : string) : string :=
  let s := trim_space s in
  if has_prefix s (fence ++ "json") then
    trim_space (trim_suffix (trim_space (trim_prefix s (fence ++ "json"))) fence)
  else if has_prefix s fence then trim_space (trim_suffix (trim_space (trim_prefix s fence)) fence)
  else if has_prefix s ("yaml" ++ nl) then trim_space (trim_prefix s ("yaml" ++ nl))
  else if has_prefix s ("json" ++ nl) then trim_space (trim_prefix s ("json" ++ nl))
  else s.

(** The first line of a prompt, when it is not empty. *)
Definition classify_target (prompt : string) : string :=
  match split_on (ascii_of_N 10) prompt with
  | first :: _ :: _ => if first =?s "" then prompt else first
  | _ => prompt
  end.

(** ** The answer of an agent *)

Definition artifact_tools (part : ContentPart) : list string :=
  match part with
  | DataPart metadata data =>
      if meta_string "helpdesk_type" metadata =?s "tool_call_summary" then meta_strings "tool_calls" data else []
  | _ => []
  end.

Definition last_agent_message (history : list (string * list ContentPart)) : string :=
  match find (fun h => fst h =?s "agent") (List.rev history) with Some h => partsToText (snd h) | None => "" end.

Definition extractResponse (r : SendMessageResult) : a2aResponse :=
  match r with
  | Task t =>
      let status := match tk_Status t with Some parts => partsToText parts | None => "" end in
      let text := if status =?s "" then last_agent_message (tk_History t) else status in
      {| rs_Agent := ""; rs_TaskID := tk_ID t; rs_State := tk_State t;
         rs_Text := match tk_Artifacts t with
                    | a :: _ => if text =?s "" then partsToText (af_Parts a) else text
                    | [] => text
                    end;
         rs_Artifacts := map (fun a => (af_ID a, af_Name a, partsToText (af_Parts a))) (tk_Artifacts t);
         rs_ContextID := tk_ContextID t;
         rs_ToolCalls := flat_map (fun a => flat_map artifact_tools (af_Parts a)) (tk_Artifacts t) |}
  | PlainMessage parts =>
      {| rs_Agent := ""; rs_TaskID := ""; rs_State := ""; rs_Text := partsToText parts; rs_Artifacts := [];
         rs_ContextID := ""; rs_ToolCalls := [] |}
  end.

Definition with_agent (agent : string) (r : a2aResponse) : a2aResponse :=
  {| rs_Agent := agent; rs_TaskID := rs_TaskID r; rs_State := rs_State r; rs_Text := rs_Text r;
     rs_Artifacts := rs_Artifacts r; rs_ContextID := rs_ContextID r; rs_ToolCalls := rs_ToolCalls r |}.

(** ** Choosing an agent with a model (router.go) *)

Definition routingAgentDescriptions : list (string * string) :=
  [(agentNameDB, "Live PostgreSQL system problems that require querying a running database: connections, locks, replication lag, active queries, pg_stat_* views, configuration drift, performance on a specific server. Use only when the user needs current state from a live system.");
   (agentNameK8s, "Live Kubernetes cluster problems that require kubectl: pods, deployments, services, endpoints, events, node resources, CrashLoopBackOff, OOMKilled. Use only when the user needs current state from a live cluster.");
   (agentNameIncident, "Incident creation and investigation: creating incident bundles, listing past incidents, cross-system triage that spans database and infrastructure.");
   (agentNameResearch, "Conceptual questions, how-does-it-work explanations, documentation lookup, and best-practice advice that do not require querying a live system. Examples: explaining VACUUM vs VACUUM FULL, what WAL is, how connection pooling works, what a CrashLoopBackOff means. Prefer this agent whenever the question can be answered from knowledge rather than live data.");
   (agentNameSysadmin, "Live host/OS-level problems that require shell access: CPU, memory, disk, running processes, system journal, filesystem, non-Kubernetes Linux infrastructure.")].

Record RoutingDecision := {
  ro_Agent : string;
  ro_RequestCategory : string;
  ro_Confidence : spec_float;
  ro_UserIntent : string;
  ro_ReasoningChain : list string;
  ro_Alternatives : list Alternative }.

Definition no_decision : RoutingDecision :=
  {| ro_Agent := ""; ro_RequestCategory := ""; ro_Confidence := S754_zero false; ro_UserIntent := "";
     ro_ReasoningChain := []; ro_Alternatives := [] |}.

Section Gateway.
Context (g : Gateway) (fr : Fresh).
(** The clock: when the handler starts, when an approval is checked, and what has
    elapsed when the request is recorded. *)
Context (start now : Time) (elapsed : Z).
(** The agents, the model (by attempt), the two decoders, [fetchApprovalSession],
    auditd's answers to the verification query and the direct tool endpoints. *)
Context (send : string -> string -> string -> list (string * any) -> result string SendMessageResult).
Context (plannerLLM : option (nat -> string -> result string string)).
Context (unmarshal_decision : string -> RoutingDecision -> RoutingDecision * option string).
Context (fetch_session : string -> result string (option ApprovalSession)).
Context (audit_reply : nat -> option (list Event)).

(** What comes of a request to an agent's direct tool endpoint. *)
Inductive ToolPost :=
  | PostNotBuilt
  | PostFailed (e : string)
  | PostAnswered (status : Z) (body : string).

Context (post_tool : string -> directToolReq -> ToolPost).
Context (unmarshal_tool : string -> directToolResp * bool).

(** [routes] is the order of the range over the descriptions. *)
Definition agent_list (routes : list (string * string)) : string :=
  String.concat "" (map (fun d => "  " ++ fst d ++ " — " ++ snd d ++ nl)
                        (List.filter (fun d => mem (fst d) (g_clients g)) routes)).

Definition buildRoutingPrompt (routes : list (string * string)) (message : string) : string :=
  let agentList := agent_list routes in
  "You are a request router for an AI operations platform." ++ nl ++
  "Given a user message, select the single best agent to handle it." ++ nl ++ nl ++ "## Available Agents" ++
  nl ++ nl ++ agentList ++ nl ++ "## Instructions" ++ nl ++ nl ++
  "- Choose exactly one agent from the list above." ++ nl ++
  "- Set confidence between 0.0 and 1.0 (how certain you are this is the right agent)." ++ nl ++
  "- Provide 1–3 reasoning_chain steps explaining your choice." ++ nl ++
  "- For each agent you considered but did not choose, add an entry in alternatives_considered with rejected_because." ++
  nl ++
  "- request_category must be one of: database, kubernetes, incident, research, sysadmin, fleet, unknown." ++
  nl ++
  "- Key routing rule: if the question can be answered from knowledge or documentation without querying a live system, choose research_agent even if the topic is PostgreSQL or Kubernetes." ++
  nl ++
  "- Output ONLY valid JSON. Do not insert any words, punctuation, or characters outside of JSON string values." ++
  nl ++ nl ++ "## User Message" ++ nl ++ nl ++ quote message ++ nl ++ nl ++ "## Response Format" ++ nl ++ nl ++
  "Respond with ONLY valid JSON — no markdown fences, no prose, nothing outside the JSON object itself:" ++
  nl ++ "{" ++ nl ++ "  " ++ in_quotes "agent" ++ ": " ++ in_quotes "<internal agent name>" ++ "," ++ nl ++
  "  " ++ in_quotes "request_category" ++ ": " ++ in_quotes "<category>" ++ "," ++ nl ++ "  " ++
  in_quotes "confidence" ++ ": <0.0-1.0>," ++ nl ++ "  " ++ in_quotes "user_intent" ++ ": " ++
  in_quotes "<one sentence describing what the user wants>" ++ "," ++ nl ++ "  " ++
  in_quotes "reasoning_chain" ++ ": [" ++ in_quotes "<step 1>" ++ ", " ++ in_quotes "<step 2>" ++ "]," ++ nl ++
  "  " ++ in_quotes "alternatives_considered" ++ ": [" ++ nl ++ "    {" ++ in_quotes "agent" ++ ": " ++
  in_quotes "<name>" ++ ", " ++ in_quotes "rejected_because" ++ ": " ++ in_quotes "<reason>" ++ "}" ++ nl ++
  "  ]" ++ nl ++ "}".

Definition known_route (agent : string) : bool := mem agent (map fst routingAgentDescriptions).

(** Both attempts decode into the same variable. *)
Definition routeWithLLM (routes : list (string * string)) (message : string) : result string RoutingDecision :=
  match plannerLLM with
  | None => Err "LLM routing not configured (HELPDESK_MODEL_VENDOR, HELPDESK_MODEL_NAME, HELPDESK_API_KEY required)"
  | Some llm =>
      let prompt := buildRoutingPrompt routes message in
      let validated d :=
        if known_route (ro_Agent d) then Ok d else Err ("routing LLM returned unknown agent " ++ quote (ro_Agent d)) in
      match llm 1 prompt with
      | Err e => Err ("routing LLM call failed: " ++ e)
      | Ok raw =>
          match unmarshal_decision (stripMarkdownFences raw) no_decision with
          | (d, None) => validated d
          | (d, Some _) =>
              match llm 2 prompt with
              | Err e => Err ("routing LLM call failed: " ++ e)
              | Ok raw =>
                  match unmarshal_decision (stripMarkdownFences raw) d with
                  | (d, None) => validated d
                  | (_, Some e) => Err ("routing LLM returned unparseable JSON after 2 attempts: " ++ e)
                  end
              end
          end
      end
  end.

Definition routing_event (traceID : string) (principal : ResolvedPrincipal) (d : RoutingDecision) : Event :=
  let e := base_event ("rt_" ++ fr_route fr) now EventTypeDelegation traceID "" "" traceID (ro_UserIntent d) in
  {| EventID := EventID e; Timestamp := Timestamp e; EventType := EventType e; TraceID := TraceID e;
     ParentID := ParentID e; Origin := Origin e; e_ActionClass := e_ActionClass e; PrevHash := PrevHash e;
     EventHash := EventHash e; e_Principal := if EffectiveID principal =?s "" then None else Some principal;
     e_Purpose := e_Purpose e; e_PurposeNote := e_PurposeNote e; e_Session := e_Session e; e_Input := e_Input e;
     e_Output := e_Output e; e_Tool := e_Tool e; e_Approval := e_Approval e;
     e_Decision := Some {| d_Agent := ro_Agent d; RequestCategory := ro_RequestCategory d;
                           Confidence := ro_Confidence d; UserIntent := ro_UserIntent d;
                           ReasoningChain := ro_ReasoningChain d; AlternativesConsidered := ro_Alternatives d |};
     e_PolicyDecision := e_PolicyDecision e; e_AgentReasoning := e_AgentReasoning e;
     e_GovernanceViolation := e_GovernanceViolation e; e_DelegationVerification := e_DelegationVerification e;
     e_Outcome := Some (status_only "success"); e_RollbackExecution := e_RollbackExecution e |}.

Definition recordRoutingDecision (traceID : string) (principal : ResolvedPrincipal) (d : RoutingDecision)
    : list Effect := if g_audited g then [Recorded (routing_event traceID principal d)] else [].

(** ** Recording *)

Definition recordAudit (req : GatewayRequest) : list Effect :=
  map Recorded (RecordRequest (g_audited g) (g_manager g) now (fr_event fr) (fr_trace fr) req).

(** The record of a request, with the members the branches differ in. *)
Definition gateway_request (r : Request) (requestID traceID contextID agent tool : string) (params : anymap)
    (message response status err : string) (code : Z) (p : ResolvedPrincipal) (purpose note : string)
    : GatewayRequest :=
  {| gr_RequestID := requestID; gr_TraceID := traceID; gr_ContextID := contextID; gr_ParentID := "";
     gr_Principal := EffectiveID p; gr_ResolvedPrincipal := p; gr_Purpose := purpose; gr_PurposeNote := note;
     gr_Environment := ""; gr_Endpoint := rq_Path r; gr_Method := rq_Method r; gr_Agent := agent;
     gr_ToolName := tool; gr_ToolParameters := params; gr_ActionClass := ""; gr_Message := message;
     gr_Response := response; gr_StartTime := start; gr_Duration := elapsed; gr_Status := status;
     gr_Error := err; gr_HTTPCode := code |}.

(** [checkOperatingMode] with the refusal it records and writes. *)
Definition refuse_mode (r : Request) (toolName : string) : list Effect * Reply :=
  let hdr := Header "X-Trace-ID" r in
  let traceID := if hdr =?s "" then "mode_" ++ fr_trace fr else hdr in
  let errMsg := "operating mode " ++ quote (operatingMode g) ++ ": write and destructive operations are blocked" in
  (recordAudit (gateway_request r "" traceID "" "" toolName [] "" "" "denied" errMsg 403
                  (PrincipalFromContext (rq_Principal r)) "" ""),
   writeError "" 403 errMsg).

(** The wrapper of every route: it resolves the caller and asks the authorizer. *)
Definition auth (resolve : option (Request -> result string ResolvedPrincipal)) (authzr : option Authorizer)
    (pattern : string) (h : Request -> list Effect * Reply) (r : Request) : list Effect * Reply :=
  let hdr := Header "X-Trace-ID" r in
  let traceID := if hdr =?s "" then "authz_" ++ fr_trace fr else hdr in
  let principal :=
    match resolve with
    | None => zero_principal
    | Some f => match f r with Ok p => p | Err _ => header_principal "" end
    end in
  match match authzr with Some a => Authorize a pattern principal | None => None end with
  | Some authErr =>
      (recordAudit (gateway_request r "" traceID "" (patternAgent pattern) "" [] "" "" "denied"
                      (AuthError_text authErr) (auth_status authErr) principal "" ""),
       writeError "" (auth_status authErr) (AuthError_text authErr))
  | None => h (with_principal principal r)
  end.

(** ** A message to an agent *)

(** The metadata of the message. *)
Definition forwarded_meta (r : Request) (traceID : string) (p : ResolvedPrincipal) (purpose note : string)
    (explicit : bool) : anymap :=
  (("trace_id", AStr traceID) :: principal_meta p ++ meta_text "purpose" purpose ++
   meta_text "purpose_note" note ++ [("purpose_explicit", ABool explicit)] ++
   match rq_Approval r with
   | Some ac =>
       if mode ac =?s "" then []
       else ("approval_mode", AStr (mode ac)) :: meta_text "approval_session" (sessionID ac)
   | None => []
   end)%list.

Definition mode_of (r : Request) : string := match rq_Approval r with Some ac => mode ac | None => "" end.

Definition manual_hold (r : Request) (class : string) : bool :=
  (mode_of r =?s "manual") && (class =?s ActionDestructive).

Definition held (v : DelegationVerification) : DelegationVerification :=
  {| DelegationEventID := DelegationEventID v; dv_Agent := dv_Agent v; dv_ActionClass := dv_ActionClass v;
     ToolsConfirmed := ToolsConfirmed v; WriteConfirmed := WriteConfirmed v;
     DestructiveConfirmed := DestructiveConfirmed v; Mismatch := false;
     MismatchReason := "approval_mode=manual: destructive action proposed pending operator approval" |}.

(** The check of a natural-language answer: what it records and whether the reply
    carries the mismatch header. *)
Definition check_answer (r : Request) (agentName prompt traceID : string) : list Effect * bool :=
  if g_auditURL g =?s "" then ([], false)
  else
    let class := ClassifyDelegation agentName (classify_target prompt) in
    let v := buildDelegationVerification (g_auditURL g) audit_reply class "" agentName in
    let hold := manual_hold r class in
    let alarm := Mismatch v && negb hold in
    (((if alarm && g_metrics g then [CountedMismatch agentName class] else []) ++
      (if g_audited g
       then [Recorded (verification_event now ("gv_" ++ fr_verif fr) traceID (session_of traceID "")
                         (if hold then held v else v))]
       else []))%list, alarm).

Definition proxyToAgentWithTool (r : Request) (agentName toolName : string) (toolParams : anymap)
    (contextID prompt : string) : list Effect * Reply :=
  let hdr := Header "X-Trace-ID" r in
  let traceID :=
    if hdr =?s "" then (if toolName =?s "" then "tr_" else "dt_") ++ fr_trace fr else hdr in
  let '(p, purpose, note, explicit) := resolveRequest r "" "" in
  let record ctx response status err code :=
    recordAudit (gateway_request r (fr_request fr) traceID ctx agentName toolName toolParams prompt response status
                   err code p purpose note) in
  if negb (mem agentName (g_clients g)) then
    (record "" "" "error" "agent not available" 502%Z,
     writeError traceID 502 ("agent " ++ quote agentName ++ " not available"))
  else
    let '(blocked, msg) :=
      if toolName =?s "" then (false, "")
      else checkApprovalMode fetch_session now (g_auditURL g) (rq_Approval r) toolName in
    if blocked then ([], writeError traceID 403 msg)
    else
      let meta := forwarded_meta r traceID p purpose note explicit in
      let sent := SentMessage agentName contextID prompt meta in
      match send agentName contextID prompt meta with
      | Err e =>
          (sent :: record "" "" "error" e 502%Z,
           writeError traceID 502 ("A2A call to " ++ agentName ++ " failed: " ++ e))
      | Ok result =>
          let response := with_agent agentName (extractResponse result) in
          let text := rs_Text response in
          if rs_State response =?s "failed" then
            (sent :: record "" text "error" ("agent task failed: " ++ text) 502%Z,
             writeError traceID 502 ("agent task failed: " ++ text))
          else if negb (toolName =?s "") && isPolicyDenial text then
            (sent :: record "" text "denied" "policy denied" 403%Z, writeError traceID 403 text)
          else if negb (toolName =?s "") && isToolError text then
            (sent :: record "" text "error" "tool execution failed" 422%Z, writeError traceID 422 text)
          else
            let '(checks, mismatch) :=
              if toolName =?s "" then check_answer r agentName prompt traceID else ([], false) in
            ((sent :: checks ++ record (rs_ContextID response) text "success" "" 200%Z)%list,
             {| rp_Status := 200; rp_TraceID := traceID; rp_Mismatch := mismatch; rp_Body := AgentBody response |})
      end.

Definition proxyToAgent (r : Request) (agentName contextID prompt : string) : list Effect * Reply :=
  proxyToAgentWithTool r agentName "" [] contextID prompt.

(** ** A direct tool call *)

Definition recordToolResult (toolName : string) (args : anymap) (output traceID recordedBy : string) : list Effect :=
  [PostedResult {| tr_Server := serverNameFromArgs args; tr_Tool := toolName; tr_Args := args; tr_Output := output;
                   tr_Trace := traceID; tr_RecordedBy := recordedBy |}].

(** The status of a failed call and of its record. *)
Definition failure_status (httpStatus : Z) (text : string) : Z * string :=
  if isPolicyDenial text then (403%Z, "denied")
  else ((if (httpStatus <? 400)%Z then 422%Z else httpStatus), "error").

Definition dispatchDirectTool (r : Request) (agentName toolName : string) (args : anymap) : list Effect * Reply :=
  let hdr := Header "X-Trace-ID" r in
  let traceID := if hdr =?s "" then "dt_" ++ fr_trace fr else hdr in
  let '(p, purpose, note, explicit) := resolveRequest r "" "" in
  let record response status err code :=
    recordAudit (gateway_request r (fr_request fr) traceID "" agentName toolName args "" response status err code
                   p purpose note) in
  match g_agents g !! agentName with
  | None =>
      (record "" "error" "agent not available" 502%Z,
       writeError traceID 502 ("agent " ++ quote agentName ++ " not available"))
  | Some invokeURL =>
      let url := trim_suffix invokeURL "/invoke" ++ "/tool/" ++ toolName in
      let body := {| dt_TraceID := traceID; dt_Principal := p; dt_Purpose := purpose; dt_PurposeNote := note;
                     dt_PurposeExplicit := explicit; dt_Args := args |} in
      match post_tool url body with
      | PostNotBuilt => ([], writeError traceID 500 "failed to build tool request")
      | PostFailed e =>
          (PostedTool url body :: record "" "error" e 502%Z,
           writeError traceID 502 ("direct tool call to " ++ agentName ++ " failed: " ++ e))
      | PostAnswered httpStatus bytes =>
          let '(resp, decoded) := unmarshal_tool bytes in
          let output := if decoded then dt_Output resp else bytes in
          let text := if dt_Error resp =?s "" then output else dt_Error resp in
          if (400 <=? httpStatus)%Z || negb (dt_Error resp =?s "") then
            let '(code, status) := failure_status httpStatus text in
            (PostedTool url body :: record text status text code, writeError traceID code text)
          else if isToolError text then
            (PostedTool url body :: record text "error" "tool execution failed" 422%Z, writeError traceID 422 text)
          else
            ((PostedTool url body :: record text "success" "" 200%Z ++
              (if g_auditURL g =?s "" then [] else recordToolResult toolName args text traceID (EffectiveID p)))%list,
             {| rp_Status := 200; rp_TraceID := traceID; rp_Mismatch := false;
                rp_Body := AgentBody {| rs_Agent := agentName; rs_TaskID := ""; rs_State := "completed";
                                        rs_Text := text; rs_Artifacts := []; rs_ContextID := "";
                                        rs_ToolCalls := [] |} |})
      end
  end.

(** [args] is the decoded body, or the error of the decoder. *)
Definition handleTool (agentName : string) (r : Request) (toolName : string) (args : result string (list (string * any)))
    : list Effect * Reply :=
  if negb (checkOperatingMode (operatingMode g) toolName) then refuse_mode r toolName
  else
    let unknown :=
      match g_toolRegistry g with
      | Some reg => match Get_tool toolName reg with Some _ => false | None => true end
      | None => false
      end in
    if unknown then ([], writeError "" 400 ("unknown tool: " ++ toolName))
    else
      match args with
      | Err e => ([], writeError "" 400 ("invalid JSON body: " ++ e))
      | Ok args => dispatchDirectTool r agentName toolName args
      end.

Definition handleDBTool : Request -> string -> result string (list (string * any)) -> list Effect * Reply :=
  handleTool agentNameDB.

Definition handleK8sTool : Request -> string -> result string (list (string * any)) -> list Effect * Reply :=
  handleTool agentNameK8s.

(** ** Natural-language requests *)

Record QueryRequest := {
  qr_Agent : string;
  qr_Message : string;
  qr_Query : string;
  qr_User : string;
  qr_Purpose : string;
  qr_PurposeNote : string;
  qr_ContextID : string }.

(** A member of the body becomes the header, unless the header is set. *)
Definition bridge (v k : string) (r : Request) : Request :=
  if negb (v =?s "") && (Header k r =?s "") then set_header k v r else r.

Definition handleQuery (routes : list (string * string)) (r : Request) (body : result string QueryRequest)
    : list Effect * Reply :=
  match body with
  | Err e => ([], writeError "" 400 ("invalid JSON body: " ++ e))
  | Ok req =>
      let message := if qr_Message req =?s "" then qr_Query req else qr_Message req in
      if message =?s "" then ([], writeError "" 400 (in_quotes "message" ++ " (or " ++ in_quotes "query" ++ ") is required"))
      else
        let r := bridge (qr_PurposeNote req) "X-Purpose-Note"
                   (bridge (qr_Purpose req) "X-Purpose" (bridge (qr_User req) "X-User" r)) in
        let traceID := "tr_" ++ fr_trace fr in
        let r := set_header "X-Trace-ID" traceID r in
        if qr_Agent req =?s "" then
          match routeWithLLM routes message with
          | Err e =>
              ([], writeError "" 503 ("agent routing failed: " ++ e ++ " — set " ++ in_quotes "agent" ++
                     " explicitly or configure HELPDESK_MODEL_VENDOR/HELPDESK_MODEL_NAME/HELPDESK_API_KEY"))
          | Ok d =>
              let '(p, _, _, _) := resolveRequest r "" "" in
              let '(effs, reply) := proxyToAgent r (ro_Agent d) (qr_ContextID req) message in
              ((recordRoutingDecision traceID p d ++ effs)%list, reply)
          end
        else
          match agent_alias (qr_Agent req) with
          | None =>
              ([], writeError "" 400 ("unknown agent " ++ quote (qr_Agent req) ++
                     " (valid: database, db, k8s, sysadmin, host, incident, research)"))
          | Some agentName => proxyToAgent r agentName (qr_ContextID req) message
          end
  end.

Definition handleResearch (r : Request) (body : result string string) : list Effect * Reply :=
  match body with
  | Err e => ([], writeError "" 400 ("invalid JSON body: " ++ e))
  | Ok query =>
      if query =?s "" then ([], writeError "" 400 "query is required")
      else proxyToAgent r agentNameResearch "" query
  end.

Definition handleCreateIncident (r : Request) (args : result string (list (string * any))) : list Effect * Reply :=
  match args with
  | Err e => ([], writeError "" 400 ("invalid JSON body: " ++ e))
  | Ok args => proxyToAgent r agentNameIncident "" (buildToolPrompt "create_incident_bundle" args)
  end.

Definition handleListIncidents (r : Request) : list Effect * Reply :=
  proxyToAgent r agentNameIncident "" "List all previously created incident bundles.".
End Gateway.

(** ** The metadata as the agent reads it *)

(** The body of the A2A request: the client puts the context id inside the message. *)
Definition wire (prompt : string) (meta : anymap) : A2ARequest :=
  {| ar_contextId := ""; ar_metadata := meta; ar_parts := [("text", prompt)] |}.

Lemma meta_get_skip k k' v rest : k <> k' -> meta_get k (meta_text k' v ++ rest) = meta_get k rest.
Proof.
  intros H. unfold meta_text. destruct (v =?s ""); [done|]. unfold meta_get. simpl.
  by rewrite (proj2 (streq_false k' k)) by congruence.
Qed.

Lemma meta_get_skip_roles k l rest : k <> "roles" -> meta_get k (meta_roles l ++ rest) = meta_get k rest.
Proof.
  intros H. unfold meta_roles. destruct l; [done|]. unfold meta_get. simpl.
  by rewrite (proj2 (streq_false "roles" k)) by congruence.
Qed.

Lemma meta_get_cons k k' v rest : meta_get k ((k', v) :: rest) = if k' =?s k then Some v else meta_get k rest.
Proof. unfold meta_get. simpl. by destruct (k' =?s k). Qed.

(** A text member, when nothing after it has its name. *)
Lemma meta_get_here k v rest : meta_get k rest = None ->
  match meta_get k (meta_text k v ++ rest) with Some (AStr s) => s | _ => "" end = v.
Proof.
  intros H. unfold meta_text. destruct (v =?s "") eqn:E.
  - simpl. rewrite H. by apply streq_spec in E.
  - simpl. by rewrite meta_get_cons, streq_refl.
Qed.

Lemma omap_roles l : omap (fun v => match v with AStr s => Some s | _ => None end) (map AStr l) = l.
Proof. induction l as [|x l IH]; [done|]. exact (f_equal (cons x) IH). Qed.

Lemma meta_get_roles_here l rest : meta_get "roles" rest = None ->
  match meta_get "roles" (meta_roles l ++ rest) with
  | Some (AList l) => omap (fun v => match v with AStr s => Some s | _ => None end) l
  | _ => []
  end = l.
Proof.
  intros H. unfold meta_roles. destruct l as [|x l]; [simpl; by rewrite H|]. cbn [app].
  rewrite meta_get_cons, streq_refl. apply omap_roles.
Qed.

Ltac meta_skip :=
  repeat first
    [ rewrite meta_get_skip by discriminate
    | rewrite meta_get_skip_roles by discriminate
    | rewrite meta_get_cons; cbn [String.eqb Ascii.eqb Bool.eqb] ].

(** The members of the approval mode, which come last. *)
Definition approval_meta (r : Request) : anymap :=
  match rq_Approval r with
  | Some ac =>
      if mode ac =?s "" then [] else ("approval_mode", AStr (mode ac)) :: meta_text "approval_session" (sessionID ac)
  | None => []
  end.

Lemma approval_meta_other k r : k <> "approval_mode" -> k <> "approval_session" -> meta_get k (approval_meta r) = None.
Proof.
  intros H1 H2. unfold approval_meta. destruct (rq_Approval r) as [ac|]; [|done]. destruct (mode ac =?s ""); [done|].
  rewrite meta_get_cons, (proj2 (streq_false _ _)) by congruence.
  rewrite <- (app_nil_r (meta_text _ _)). by rewrite meta_get_skip.
Qed.

Definition session_forwarded (r : Request) : string :=
  match rq_Approval r with Some ac => if mode ac =?s "" then "" else sessionID ac | None => "" end.

Lemma approval_meta_read r :
  meta_string "approval_mode" (approval_meta r) = mode_of r /\
  meta_string "approval_session" (approval_meta r) = session_forwarded r.
Proof.
  unfold approval_meta, mode_of, session_forwarded, meta_string. destruct (rq_Approval r) as [ac|]; [|done].
  destruct (mode ac =?s "") eqn:E; [by apply streq_spec in E as ->|].
  rewrite !meta_get_cons, streq_refl. split; [done|].
  change ("approval_mode" =?s "approval_session") with false. cbv iota.
  rewrite <- (app_nil_r (meta_text _ _)). by apply meta_get_here.
Qed.

(** The caller without the operator members. *)
Definition without_operator (p : ResolvedPrincipal) : ResolvedPrincipal :=
  {| UserID := UserID p; Roles := Roles p; Service := Service p; AuthMethod := AuthMethod p; OperatorID := "";
     OperatorRoles := [] |}.

(** ** What a message and a direct call carry *)

Section Theorems.
Context (g : Gateway) (fr : Fresh) (start now : Time) (elapsed : Z).
Context (send : string -> string -> string -> list (string * any) -> result string SendMessageResult).
Context (fetch_session : string -> result string (option ApprovalSession)).
Context (audit_reply : nat -> option (list Event)).

Abbreviation proxied := (proxyToAgentWithTool g fr start now elapsed send fetch_session audit_reply).
Abbreviation audit_of := (recordAudit g fr now).

Definition is_message (x : Effect) : bool := match x with SentMessage _ _ _ _ => true | _ => false end.
Definition is_post (x : Effect) : bool := match x with PostedTool _ _ => true | _ => false end.
Definition is_result (x : Effect) : bool := match x with PostedResult _ => true | _ => false end.

(** The events that an endpoint records, in order. *)
Definition events_of (effs : list Effect) : list Event :=
  flat_map (fun x => match x with Recorded e => [e] | _ => [] end) effs.

Lemma audit_only req : Forall (fun x => exists e, x = Recorded e) (audit_of req).
Proof. unfold recordAudit, RecordRequest. destruct (g_audited g); repeat constructor. eauto. Qed.

Lemma audit_no_message req a c pr m : ~ In (SentMessage a c pr m) (audit_of req).
Proof. intros H. pose proof (proj1 (List.Forall_forall _ _) (audit_only req) _ H) as [e He]. done. Qed.

Lemma checks_no_message r agent prompt trace a c pr m :
  ~ In (SentMessage a c pr m) (check_answer g fr now audit_reply r agent prompt trace).1.
Proof.
  unfold check_answer. destruct (_ =?s ""); [intros []|]. simpl. rewrite in_app_iff.
  destruct (_ && _), (g_audited g); simpl; intuition congruence.
Qed.

(** The trace id of a proxied request. *)
Definition proxy_trace (r : Request) (toolName : string) : string :=
  if Header "X-Trace-ID" r =?s "" then (if toolName =?s "" then "tr_" else "dt_") ++ fr_trace fr
  else Header "X-Trace-ID" r.

Definition caller (r : Request) : ResolvedPrincipal := PrincipalFromContext (rq_Principal r).

Lemma resolveRequest_headers r : resolveRequest r "" "" =
  (caller r, Header "X-Purpose" r, Header "X-Purpose-Note" r, negb (Header "X-Purpose" r =?s "")).
Proof.
  unfold resolveRequest, PurposeFromRequest, caller.
  destruct (Header "X-Purpose" r =?s "") eqn:E; [apply streq_spec in E; rewrite E|];
    destruct (Header "X-Purpose-Note" r =?s "") eqn:E'; try (apply streq_spec in E'; rewrite E'); done.
Qed.

Lemma proxy_message r agent tool params ctx prompt a c pr m :
  In (SentMessage a c pr m) (proxied r agent tool params ctx prompt).1 ->
  rp_TraceID (proxied r agent tool params ctx prompt).2 = proxy_trace r tool /\
  a = agent /\ c = ctx /\ pr = prompt /\
  m = forwarded_meta r (proxy_trace r tool) (caller r) (Header "X-Purpose" r) (Header "X-Purpose-Note" r)
        (negb (Header "X-Purpose" r =?s "")).
Proof.
  unfold proxyToAgentWithTool. rewrite resolveRequest_headers. fold (proxy_trace r tool). cbv iota zeta.
  assert (Hin : forall x l, ~ In (SentMessage a c pr m) l ->
    In (SentMessage a c pr m) (x :: l) -> x = SentMessage a c pr m) by (intros x l H [H'|H']; done).
  destruct (negb _); [intros H; by apply audit_no_message in H|].
  destruct (if tool =?s "" then _ else _) as [[] msg]; [intros []|].
  destruct (send _ _ _ _) as [res|e]; [|intros H; apply Hin in H; [|apply audit_no_message]; by injection H as <- <- <- <-].
  destruct (_ =?s "failed"); [intros H; apply Hin in H; [|apply audit_no_message]; by injection H as <- <- <- <-|].
  destruct (negb _ && isPolicyDenial _);
    [intros H; apply Hin in H; [|apply audit_no_message]; by injection H as <- <- <- <-|].
  destruct (negb _ && isToolError _);
    [intros H; apply Hin in H; [|apply audit_no_message]; by injection H as <- <- <- <-|].
  pose proof (checks_no_message r agent prompt (proxy_trace r tool) a c pr m) as Hc.
  destruct (tool =?s ""); [destruct (check_answer _ _ _ _ _ _ _ _) as [checks mismatch]|];
    (intros H; apply Hin in H; [by injection H as <- <- <- <-|]); cbn [app].
  - rewrite in_app_iff. intros [H'|H']; [done|by apply audit_no_message in H'].
  - apply audit_no_message.
Qed.

(**  Who asked, why and under which approval mode reaches the agent: its
    middleware reads back from the message the trace id of the reply, the caller's user,
    roles, service and authentication method, the purpose with its note and whether it was
    declared, and the approval mode with its session; the operator behind a service
    account is the only part of the principal that is lost. *)
Theorem forwarded_identity r agent tool params ctx prompt a c pr m :
  In (SentMessage a c pr m) (proxied r agent tool params ctx prompt).1 ->
  let d := parseA2ARequest (Some (wire pr m)) in
  a = agent /\ c = ctx /\ rd_userQuery d = prompt /\
  rd_traceID d = rp_TraceID (proxied r agent tool params ctx prompt).2 /\
  resolvedPrincipal d = without_operator (caller r) /\
  rd_purpose d = Header "X-Purpose" r /\ rd_purposeNote d = Header "X-Purpose-Note" r /\
  rd_purposeExplicit d = negb (Header "X-Purpose" r =?s "") /\
  rd_approvalMode d = mode_of r /\ rd_approvalSession d = session_forwarded r.
Proof.
  intros H. apply proxy_message in H as (-> & -> & -> & -> & ->). cbv zeta.
  unfold parseA2ARequest, wire, forwarded_meta, principal_meta. fold (approval_meta r).
  cbn [ar_metadata ar_parts rd_userQuery rd_traceID rd_purpose rd_purposeNote rd_purposeExplicit rd_approvalMode
       rd_approvalSession]. rewrite <- !app_assoc.
  assert (Hap : forall k, k <> "approval_mode" -> k <> "approval_session" -> meta_get k (approval_meta r) = None)
    by (intros; by apply approval_meta_other).
  destruct (approval_meta_read r) as [Hmode Hsess].
  split_and!; try done.
  - unfold first_text. simpl. destruct (prompt =?s "") eqn:E; [|done]. apply streq_spec in E. done.
  - unfold resolvedPrincipal, without_operator, meta_string, meta_strings.
    cbn [rd_userID rd_roles rd_service rd_authMethod]. f_equal; meta_skip;
      first [apply meta_get_here|apply meta_get_roles_here]; meta_skip; by apply Hap.
  - unfold meta_string. meta_skip. apply meta_get_here. meta_skip. by apply Hap.
  - unfold meta_string. meta_skip. apply meta_get_here. meta_skip. by apply Hap.
  - unfold meta_bool. meta_skip. done.
  - rewrite <- Hmode. unfold meta_string at 1. meta_skip. done.
  - rewrite <- Hsess. unfold meta_string at 1. meta_skip. done.
Qed.

(** ** Direct tool calls *)

Context (post_tool : string -> directToolReq -> ToolPost) (unmarshal_tool : string -> directToolResp * bool).

Abbreviation dispatched := (dispatchDirectTool g fr start now elapsed post_tool unmarshal_tool).
Abbreviation tool_call := (handleTool g fr start now elapsed post_tool unmarshal_tool).

(** The mode and the registry let the tool pass. *)
Definition admitted (toolName : string) : Prop :=
  (operatingMode g = "readonly-governed" -> ~ In (ClassifyTool toolName) [ActionWrite; ActionDestructive]) /\
  (forall reg, g_toolRegistry g = Some reg -> exists e, Get_tool toolName reg = Some e).

Lemma mode_admits toolName : checkOperatingMode (operatingMode g) toolName = true ->
  operatingMode g = "readonly-governed" -> ~ In (ClassifyTool toolName) [ActionWrite; ActionDestructive].
Proof.
  unfold checkOperatingMode. intros H Hm. rewrite Hm, streq_refl in H. cbn [negb] in H. cbv iota in H.
  apply negb_true_iff, orb_false_iff in H as [H1 H2].
  intros [E|[E|[]]]; rewrite <- E, streq_refl in *; done.
Qed.

(** A refused call has no effect on an agent and no status below 400. *)
Lemma tool_call_cases agent r toolName args :
  (exists rargs, args = Ok rargs /\ admitted toolName /\ tool_call agent r toolName args = dispatched r agent toolName rargs) \/
  ((400 <= rp_Status (tool_call agent r toolName args).2)%Z /\
   Forall (fun x => exists e, x = Recorded e) (tool_call agent r toolName args).1 /\
   Forall (fun e => exists o, e_Outcome e = Some o /\ o_Status o = "denied") (events_of (tool_call agent r toolName args).1)).
Proof.
  unfold handleTool. destruct (checkOperatingMode _ _) eqn:Em; cbn [negb]; cbv iota.
  - destruct (match g_toolRegistry g with Some _ => _ | None => _ end) eqn:Er.
    + right. split; [done|]. split; constructor.
    + destruct args as [rargs|e]; [|right; split; [done|]; split; constructor].
      left. exists rargs. split_and!; [done| |done]. split; [by apply mode_admits|].
      intros reg Hreg. rewrite Hreg in Er. destruct (Get_tool toolName reg); [eauto|done].
  - right. split; [done|]. split; [apply audit_only|].
    unfold refuse_mode, recordAudit, RecordRequest. cbn [fst]. destruct (g_audited g); repeat constructor.
    eexists. split; reflexivity.
Qed.

(** The body of a direct call and its URL. *)
Definition direct_trace (r : Request) : string :=
  if Header "X-Trace-ID" r =?s "" then "dt_" ++ fr_trace fr else Header "X-Trace-ID" r.

Definition direct_body (r : Request) (args : anymap) : directToolReq :=
  {| dt_TraceID := direct_trace r; dt_Principal := caller r; dt_Purpose := Header "X-Purpose" r;
     dt_PurposeNote := Header "X-Purpose-Note" r; dt_PurposeExplicit := negb (Header "X-Purpose" r =?s "");
     dt_Args := args |}.

(** The record of a direct call agrees with the reply: its outcome is a success exactly
    for the status 200. *)
Definition faithful_record (r : Request) (agent toolName : string) (effs : list Effect) (reply : Reply) : Prop :=
  g_audited g = true -> exists e o, events_of effs = [e] /\ e_Outcome e = Some o /\
    (o_Status o = "success" <-> rp_Status reply = 200%Z) /\
    e_ActionClass e = ClassifyTool toolName /\ TraceID e = direct_trace r /\
    s_UserID (e_Session e) = EffectiveID (caller r).

Lemma record_faithful r agent toolName args response status err code reply tail :
  toolName <> "" -> events_of tail = [] ->
  (status = "success" <-> rp_Status reply = 200%Z) -> forall post, is_post post = true ->
  faithful_record r agent toolName
    (post :: audit_of (gateway_request start elapsed r (fr_request fr) (direct_trace r) "" agent toolName args ""
                  response status err code (caller r) (Header "X-Purpose" r) (Header "X-Purpose-Note" r)) ++ tail)
    reply.
Proof.
  intros Hn Ht Hs post Hp Ha. unfold recordAudit, RecordRequest. rewrite Ha.
  destruct post; try discriminate Hp. unfold events_of in *. cbn [map app]. simpl. rewrite Ht.
  eexists _, _. split; [reflexivity|]. split; [reflexivity|]. cbn [o_Status]. split; [exact Hs|].
  unfold request_event, request_class, gateway_request. simpl. rewrite (proj2 (streq_false _ _) Hn). simpl.
  split_and!; try done. unfold direct_trace. destruct (Header "X-Trace-ID" r =?s "") eqn:E; [done|]. by rewrite E.
Qed.

(** What a direct call may do, as a predicate on its effects and its reply. *)
Record direct_outcome (agent : string) (r : Request) (toolName : string) (rargs : anymap)
    (out : list Effect * Reply) : Prop := {
  posts_one : forall url body, In (PostedTool url body) out.1 -> exists base, g_agents g !! agent = Some base /\
    url = trim_suffix base "/invoke" ++ "/tool/" ++ toolName /\ body = direct_body r rargs;
  success_answered : rp_Status out.2 = 200%Z -> exists url body status bytes,
    In (PostedTool url body) out.1 /\ post_tool url body = PostAnswered status bytes /\ (status < 400)%Z /\
    dt_Error (unmarshal_tool bytes).1 = "";
  record_agrees : existsb is_post out.1 = true -> faithful_record r agent toolName out.1 out.2;
  result_kept : existsb is_result out.1 = true <-> rp_Status out.2 = 200%Z /\ g_auditURL g <> "" }.

Lemma audit_flags req : existsb is_post (audit_of req) = false /\ existsb is_result (audit_of req) = false.
Proof. unfold recordAudit, RecordRequest. by destruct (g_audited g). Qed.

(** A branch that refuses after the record of one request. *)
Lemma refused_outcome agent r toolName rargs posted response status err code msg :
  toolName <> "" -> status <> "success" -> code <> 200%Z ->
  (forall x, In x posted -> exists base, g_agents g !! agent = Some base /\
     x = PostedTool (trim_suffix base "/invoke" ++ "/tool/" ++ toolName) (direct_body r rargs)) ->
  length posted <= 1 ->
  direct_outcome agent r toolName rargs
    ((posted ++ audit_of (gateway_request start elapsed r (fr_request fr) (direct_trace r) "" agent toolName rargs ""
                  response status err code (caller r) (Header "X-Purpose" r) (Header "X-Purpose-Note" r)))%list,
     writeError (direct_trace r) code msg).
Proof.
  intros Hn Hs Hc Hp Hlen. destruct (audit_flags (gateway_request start elapsed r (fr_request fr) (direct_trace r) ""
    agent toolName rargs "" response status err code (caller r) (Header "X-Purpose" r) (Header "X-Purpose-Note" r)))
    as [F1 F2].
  split; cbn [fst snd].
  - intros url body [H|H]%in_app_or.
    + destruct (Hp _ H) as (base & Hb & E). exists base. by injection E as -> ->.
    + by pose proof (proj1 (List.Forall_forall _ _) (audit_only _) _ H) as [e He].
  - done.
  - destruct posted as [|x [|y posted]]; [simpl; by rewrite F1| |simpl in Hlen; lia]. intros _.
    destruct (Hp x (or_introl eq_refl)) as (base & _ & ->).
    cbn [app]. rewrite <- (app_nil_r (audit_of _)). by apply record_faithful.
  - rewrite existsb_app, F2. split; [|by intros [? _]].
    destruct posted as [|x [|y posted]]; [done| |simpl in Hlen; lia].
    by destruct (Hp x (or_introl eq_refl)) as (base & _ & ->).
Qed.

Lemma failure_status_code httpStatus text :
  (failure_status httpStatus text).1 <> 200%Z /\ (failure_status httpStatus text).2 <> "success".
Proof.
  unfold failure_status. destruct (isPolicyDenial text); [done|].
  destruct (Z.ltb_spec httpStatus 400); split; simpl; try done. lia.
Qed.

Lemma dispatched_outcome agent r toolName rargs : toolName <> "" ->
  direct_outcome agent r toolName rargs (dispatched r agent toolName rargs).
Proof.
  intros Hn. unfold dispatchDirectTool. rewrite resolveRequest_headers. fold (direct_trace r). cbv zeta iota.
  fold (direct_body r rargs).
  destruct (g_agents g !! agent) as [base|] eqn:Eb; [|by apply (refused_outcome agent r toolName rargs []); simpl; auto; lia].
  set (url := trim_suffix base "/invoke" ++ "/tool/" ++ toolName).
  assert (Hposted : forall x, In x [PostedTool url (direct_body r rargs)] -> exists base, g_agents g !! agent = Some base /\
    x = PostedTool (trim_suffix base "/invoke" ++ "/tool/" ++ toolName) (direct_body r rargs)).
  { intros x [<-|[]]. exists base. done. }
  destruct (post_tool url (direct_body r rargs)) as [|e|httpStatus bytes] eqn:Ep.
  - split; simpl; try done. by split; [|intros [? _]].
  - by apply (refused_outcome agent r toolName rargs [PostedTool url (direct_body r rargs)]).
  - destruct (unmarshal_tool bytes) as [resp decoded] eqn:Eu.
    set (text := if dt_Error resp =?s "" then _ else _).
    destruct ((400 <=? httpStatus)%Z || negb (dt_Error resp =?s "")) eqn:Ef.
    { pose proof (failure_status_code httpStatus text) as [H1 H2].
      destruct (failure_status httpStatus text) as [code status]. simpl in H1, H2.
      by apply (refused_outcome agent r toolName rargs [PostedTool url (direct_body r rargs)]). }
    apply orb_false_iff in Ef as [Hlt He]. apply Z.leb_gt in Hlt. apply negb_false_iff, streq_spec in He.
    destruct (isToolError text);
      [by apply (refused_outcome agent r toolName rargs [PostedTool url (direct_body r rargs)])|].
    split; cbn [fst snd rp_Status].
    + intros u b [H|H]; [exists base; by injection H as <- <-|].
      apply in_app_or in H as [H|H]; [by pose proof (proj1 (List.Forall_forall _ _) (audit_only _) _ H) as [e' ?]|].
      destruct (g_auditURL g =?s ""); [done|]. by destruct H.
    + intros _. exists url, (direct_body r rargs), httpStatus, bytes. split_and!; [by left|done|done|by rewrite Eu].
    + intros _. apply record_faithful; try done. by destruct (g_auditURL g =?s "").
    + simpl. rewrite existsb_app, (proj2 (audit_flags _)). simpl.
      destruct (g_auditURL g =?s "") eqn:E; simpl.
      * apply streq_spec in E. split; [done|]. by intros [_ H].
      * apply streq_false in E. done.
Qed.

(** C10 (functional).  A direct tool call: an agent is called at most at the endpoint of the
    tool, with the caller's identity, purpose and arguments, and only when the operating
    mode admits the class of the tool and the registry knows it; a reply of 200 means that
    the agent answered below 400 without an error; the one recorded request says success
    exactly when the reply does, under the tool's class, the reply's trace and the caller;
    and the output is kept for later queries exactly after a success.  A call that is not
    passed on is refused with a status of 400 or more. *)
Theorem direct_call_reported agent r toolName args : toolName <> "" ->
  let out := tool_call agent r toolName args in
  (exists rargs, args = Ok rargs /\ admitted toolName /\ direct_outcome agent r toolName rargs out) \/
  ((400 <= rp_Status out.2)%Z /\ existsb is_post out.1 = false /\ existsb is_result out.1 = false /\
   Forall (fun e => exists o, e_Outcome e = Some o /\ o_Status o = "denied") (events_of out.1)).
Proof.
  intros Hn out. destruct (tool_call_cases agent r toolName args) as [(rargs & -> & Ha & E)|(H1 & H2 & H3)].
  - left. exists rargs. unfold out. rewrite E. split_and!; [done|done|]. by apply dispatched_outcome.
  - right. fold out in H1, H2, H3. split_and!; [done| | |done].
    all: clear H1 H3; induction H2 as [|x l [e ->] _ IH]; simpl; done.
Qed.
End Theorems.

(** ** Answers in natural language *)

Section Answers.
Context (unmarshal_event : string -> option Event) (scan : list Row -> list Row).
Hypothesis scan_perm : forall l, scan l ≡ₚ l.
Context (g : Gateway) (fr : Fresh) (start now : Time) (elapsed : Z).
Context (send : string -> string -> string -> list (string * any) -> result string SendMessageResult).
Context (fetch_session : string -> result string (option ApprovalSession)).
(** auditd and its store at the two attempts of the verification query. *)
Context (first second : bool * Store).

Definition trail_reply (r : Request) : nat -> option (list Event) :=
  attempts unmarshal_event scan (proxy_trace fr r "") start first second.

Abbreviation answered r agent contextID prompt :=
  (proxyToAgent g fr start now elapsed send fetch_session (trail_reply r) r agent contextID prompt).

Definition asked_class (agent prompt : string) : string := ClassifyDelegation agent (classify_target prompt).

Lemma proxy_trace_some r tool : proxy_trace fr r tool <> "".
Proof.
  unfold proxy_trace. destruct (_ =?s "") eqn:E; [by destruct (tool =?s "")|]. by apply streq_false.
Qed.

(** A reply of 200 is the answer of the agent with the result of the check. *)
Lemma answered_ok r agent ctx prompt : rp_Status (answered r agent ctx prompt).2 = 200%Z ->
  let checked := check_answer g fr now (trail_reply r) r agent prompt (proxy_trace fr r "") in
  rp_TraceID (answered r agent ctx prompt).2 = proxy_trace fr r "" /\
  rp_Mismatch (answered r agent ctx prompt).2 = checked.2 /\
  forall x, In x checked.1 -> In x (answered r agent ctx prompt).1.
Proof.
  unfold proxyToAgent, proxyToAgentWithTool. rewrite resolveRequest_headers. fold (proxy_trace fr r "").
  rewrite streq_refl. cbn [negb andb]. cbv zeta iota.
  destruct (negb _); [done|]. destruct (send _ _ _ _) as [res|e]; [|done].
  destruct (_ =?s "failed"); [done|]. destruct (check_answer _ _ _ _ _ _ _ _) as [checks mismatch]. intros _.
  split_and!; [done|done|]. intros x Hx. right. apply in_app_iff. by left.
Qed.

End Answers.

(** ** A small gateway *)

Module GatewayToy.

Definition start : Time := (Second * 3600 + 5)%Z.

Definition toy (mode : string) : Gateway :=
  {| g_agents := {[ agentNameDB := "http://db/invoke" ]}; g_clients := [agentNameDB]; g_audited := true;
     g_auditURL := "http://auditd"; g_manager := NewApprovalManager None; operatingMode := mode;
     g_toolRegistry := None; g_metrics := true |}.

Definition fresh : Fresh :=
  {| fr_request := "r"; fr_trace := "t"; fr_event := "e"; fr_verif := "v"; fr_route := "o" |}.

Definition alice : ResolvedPrincipal :=
  {| UserID := "alice"; Roles := ["dba"]; Service := ""; AuthMethod := "static"; OperatorID := ""; OperatorRoles := [] |}.

Definition request (approval : option approvalContext) : Request :=
  {| rq_Method := "POST"; rq_Path := "/api/v1/query"; rq_Header := {[ "X-Trace-ID" := "tr_1" ]};
     rq_Principal := Some alice; rq_Approval := approval |}.

Definition sends (text : string) (_ _ _ : string) (_ : list (string * any)) : result string SendMessageResult :=
  Ok (PlainMessage [TextPart text]).

Definition no_session (_ : string) : result string (option ApprovalSession) := Err "".

Definition manual : approvalContext := {| mode := "manual"; sessionID := "" |}.

Definition ask (first : bool * Store) (approval : option approvalContext) (prompt : string) : list Effect * Reply :=
  proxyToAgent (toy "") fresh start start 1 (sends "done") no_session
    (trail_reply DelegationToy.unmarshal id fresh start first first (request approval)) (request approval) agentNameDB
    "" prompt.

Definition kill := "terminate connection 42".

(** An answer without a trace in the audit trail carries the header; with the tool in the
    trail, or when the run holds destructive actions, it does not. *)
Example unconfirmed_answer :
  rp_Mismatch (ask DelegationToy.empty_trail None kill).2 = true /\
  rp_Mismatch (ask (DelegationToy.trail agentNameDB "terminate_connection") None kill).2 = false /\
  rp_Mismatch (ask DelegationToy.empty_trail (Some manual) kill).2 = false.
Proof. vm_compute. done. Qed.

(** The gate of the approval mode stands in front of named tools only: a prompt is passed on. *)
Example manual_not_enforced :
  existsb is_message (ask DelegationToy.empty_trail (Some manual) kill).1 = true /\
  (checkApprovalMode no_session start "" (Some manual) "terminate_connection").1 = true.
Proof. vm_compute. done. Qed.

Definition tool (mode text : string) (args : list (string * any)) : list Effect * Reply :=
  handleTool (toy mode) fresh start start 1 (fun _ _ => PostAnswered 200 text)
    (fun s => ({| dt_Output := s; dt_Error := "" |}, true)) agentNameDB (request None) "terminate_connection" (Ok args).

Definition secret : list (string * any) := [("connection_string", AStr "host=db password=hunter2")].

Definition server_kept (effs : list Effect) : option string :=
  match List.filter is_result effs with PostedResult x :: _ => Some (tr_Server x) | _ => None end.

(** The record of the result is kept under the connection string, with its password. *)
Example password_kept :
  server_kept (tool "" "ok" secret).1 = Some "host=db password=hunter2" /\
  rp_Status (tool "" ("---" ++ nl ++ "ERROR — terminate_connection failed") secret).2 = 422%Z /\
  rp_Status (tool "readonly-governed" "ok" secret).2 = 403%Z.
Proof. vm_compute. done. Qed.

(** The user named in the body is not the one that is recorded. *)
Example body_user_ignored :
  match handleQuery (toy "") fresh start start 1 (sends "done") None (fun _ d => (d, None)) no_session
          (fun _ => None) routingAgentDescriptions
          {| rq_Method := "POST"; rq_Path := "/api/v1/query"; rq_Header := ∅; rq_Principal := Some alice;
             rq_Approval := None |}
          (Ok {| qr_Agent := "db"; qr_Message := ""; qr_Query := "show tables"; qr_User := "mallory";
                 qr_Purpose := ""; qr_PurposeNote := ""; qr_ContextID := "" |}) with
  | (effs, _) => map (fun e => s_UserID (e_Session e)) (events_of effs)
  end = [""; "alice"].
Proof. vm_compute. done. Qed.
End GatewayToy.

Lemma forwarded_identity_witness :
  resolvedPrincipal (parseA2ARequest (Some (wire "show tables"
    (forwarded_meta (GatewayToy.request None) "tr_1" GatewayToy.alice "" "" false)))) =
  without_operator GatewayToy.alice.
Proof.
  refine (proj1 (proj2 (proj2 (proj2 (proj2 (forwarded_identity (GatewayToy.toy "") GatewayToy.fresh GatewayToy.start
    GatewayToy.start 1 (GatewayToy.sends "done") GatewayToy.no_session (fun _ => None) (GatewayToy.request None)
    agentNameDB "" [] "" "show tables" agentNameDB "" "show tables"
    (forwarded_meta (GatewayToy.request None) "tr_1" GatewayToy.alice "" "" false) _)))))).
  left. vm_compute. reflexivity.
Defined.

Lemma direct_call_reported_witness :
  (400 <= rp_Status (GatewayToy.tool "readonly-governed" "ok" []).2)%Z.
Proof.
  destruct (direct_call_reported (GatewayToy.toy "readonly-governed") GatewayToy.fresh GatewayToy.start GatewayToy.start 1
    (fun _ _ => PostAnswered 200 "ok") (fun s => ({| dt_Output := s; dt_Error := "" |}, true)) agentNameDB
    (GatewayToy.request None) "terminate_connection" (Ok [])) as [(rargs & _ & [Ha _] & _)|[H _]].
  - discriminate.
  - exfalso. apply Ha; [reflexivity|]. vm_compute. auto.
  - exact H.
Defined.

