(* ===== verification/Planner.v ===== *)
(** * The fleet job planner

    cmd/gateway/planner.go: the prompt for the model, POST /api/v1/fleet/plan with its
    checks on the model's answer, and POST /api/v1/fleet/snapshot.  The decoders, the
    encoder of the job and the model are parameters; the server map is a list in the order
    of the range, one for each of the two ranges. *)

From S2P Require Import Prelude GoTime Identity Events Action Infra GovernanceCheck ApprovalPolicy.
From S2P Require Import Fleet ToolAudit Delegation ToolRegistry Gateway.

Open Scope string_scope.

Record FleetPlanRequest := { fq_Description : string; fq_TargetHints : list string; fq_Guidance : string }.

Record FleetPlanResponse := {
  fp_JobDef : JobDef;
  fp_JobDefRaw : string;
  PlannerNotes : string;
  RequiresApproval : bool;
  WrittenSteps : list string;
  ExcludedServers : list string;
  WarningMessages : list string }.

(** The members of the model's answer. *)
Record PlannerAnswer := {
  pa_JobDef : JobDef;
  pa_PlannerNotes : string;
  pa_ExcludedServers : list string;
  pa_WarningMessages : list string }.

(** ** The prompt *)

Definition or_none (l : list string) : string := match l with [] => "(none)" | _ => join ", " l end.

Definition context_line (kv : string * DBServer) : string :=
  let '(key, server) := kv in
  "  " ++ key ++ "  tags=[" ++ or_none (db_Tags server) ++ "]  sensitivity=[" ++ or_none (db_Sensitivity server) ++
  "]" ++ (match db_Sensitivity server with [] => "" | _ => "  [RESTRICTED]" end) ++ nl.

Definition is_restricted (server : DBServer) : bool := match db_Sensitivity server with [] => false | _ => true end.

Definition buildPlannerInfraContext (servers : list (string * DBServer)) : string * list string :=
  match servers with
  | [] => ("  (no database servers configured)", [])
  | _ => (String.concat "" (map context_line servers), map fst (List.filter (fun kv => is_restricted (snd kv)) servers))
  end.

Definition text_member (k fallback : string) (def : any) : string :=
  match def with
  | AMap m => match map_get k m with Some (AStr s) => s | _ => fallback end
  | _ => fallback
  end.

Definition param_line (required : list string) (param : string * any) : string :=
  let '(name, def) := param in
  let desc := text_member "description" "" def in
  "      " ++ name ++ " (" ++ text_member "type" "any" def ++ ", " ++
  (if mem name required then "required" else "optional") ++ ")" ++ (if desc =?s "" then "" else ": " ++ desc) ++ nl.

Definition catalog_entry (e : ToolEntry) : string :=
  "  " ++ en_Name e ++ "  agent=" ++ en_Agent e ++ "  class=" ++ en_ActionClass e ++ "  caps=[" ++
  join ", " (Capabilities e) ++ "]  — " ++ en_Description e ++ nl ++
  match en_InputSchema e with
  | None => ""
  | Some schema =>
      "    Parameters:" ++ nl ++
      match map_get "properties" schema with
      | Some (AMap props) => String.concat "" (map (param_line (required_keys schema)) props)
      | _ => ""
      end
  end.

Definition buildPlannerToolCatalog (r : Registry) : string :=
  String.concat "" (map catalog_entry (ListFleetEligible r)).

Definition buildIntentSection : string :=
  String.concat "" (map (fun kv => "  " ++ fst kv ++ " → " ++ join ", " (snd kv) ++ nl) IntentMap).

Definition assemblePlannerPrompt (infraSummary toolCatalog intentSection description hints guidance : string)
    : string :=
  let guidance_section := if guidance =?s "" then "" else "## Playbook Guidance" ++ nl ++ nl ++ guidance ++ nl ++ nl in
  "You are a fleet job planner for an AI database operations platform." ++ nl ++
  "Generate a valid fleet job definition as JSON based on the user's request." ++ nl ++ nl ++
  "## Available Infrastructure" ++ nl ++ nl ++ infraSummary ++ nl ++ "## Sensitivity Policy" ++ nl ++
  "Servers marked [RESTRICTED] have sensitive data (PII or critical). EXCLUDE them" ++ nl ++
  "from fleet jobs unless the request explicitly targets sensitive data." ++ nl ++
  "Always add excluded server names to the excluded_servers list in your response." ++ nl ++ nl ++
  "## Available Tools" ++ nl ++ nl ++ toolCatalog ++ nl ++ "## Intent-to-Tool Mapping" ++ nl ++
  "When the request matches a known intent, use EXACTLY the listed tools — do not add others:" ++ nl ++
  intentSection ++ guidance_section ++ "## JobDef Schema" ++ nl ++ nl ++ "{" ++ nl ++ "  " ++
  in_quotes "name" ++ ": " ++ in_quotes "string" ++ "," ++ nl ++ "  " ++ in_quotes "change" ++ ": {" ++ nl ++
  "    " ++ in_quotes "steps" ++ ": [" ++ nl ++ "      {" ++ in_quotes "agent" ++ ": " ++
  in_quotes "database|k8s" ++ ", " ++ in_quotes "tool" ++ ": " ++ in_quotes "<tool_name>" ++ ", " ++
  in_quotes "args" ++ ": {}, " ++ in_quotes "on_failure" ++ ": " ++ in_quotes "stop|continue" ++ "}" ++ nl ++
  "    ]" ++ nl ++ "  }," ++ nl ++ "  " ++ in_quotes "targets" ++ ": {" ++ in_quotes "tags" ++ ": [...], " ++
  in_quotes "names" ++ ": [...], " ++ in_quotes "exclude" ++ ": [...]}," ++ nl ++ "  " ++
  in_quotes "strategy" ++ ": {" ++ in_quotes "canary_count" ++ ": 1, " ++ in_quotes "wave_size" ++ ": 0, " ++
  in_quotes "wave_pause_seconds" ++ ": 0, " ++ in_quotes "failure_threshold" ++ ": 0.5}" ++ nl ++ "}" ++ nl ++
  nl ++ "Notes:" ++ nl ++
  "- connection_string and context args are injected automatically — do NOT include them in step args" ++ nl ++
  "- on_failure defaults to " ++ in_quotes "stop" ++ "; use " ++ in_quotes "continue" ++
  " only for diagnostic steps where partial results are useful" ++ nl ++
  "- wave_size 0 means all remaining servers in one wave" ++ nl ++
  "- For read-only jobs, canary_count=1 and wave_size=0 is fine" ++ nl ++
  "- For write/destructive jobs, use canary_count=1 and wave_size=3" ++ nl ++
  "- targets.tags MUST only contain tags that appear verbatim in the infrastructure list above — do NOT invent, infer, or substitute tag names; if the requested tag does not exist, use an empty tags list and explain in warning_messages" ++
  nl ++ nl ++ "## User Request" ++ nl ++ nl ++ "Description: " ++ quote description ++ nl ++
  "Target hints: " ++ hints ++ nl ++ nl ++ "## Response Format" ++ nl ++ nl ++
  "Respond with ONLY this JSON (no markdown, no explanation outside the JSON):" ++ nl ++ "{" ++ nl ++ "  " ++
  in_quotes "job_def" ++ ": <complete JobDef object>," ++ nl ++ "  " ++ in_quotes "planner_notes" ++ ": " ++
  in_quotes "<plain English: what this job does, why these tools, which servers targeted>" ++ "," ++ nl ++
  "  " ++ in_quotes "excluded_servers" ++ ": [" ++ in_quotes "server1" ++ ", ...]," ++ nl ++ "  " ++
  in_quotes "warning_messages" ++ ": [" ++ in_quotes "..." ++ "]" ++ nl ++ "}".

(** ** The checks on the answer *)

Definition target_selected (targets : Targets) (kv : string * DBServer) : bool :=
  let '(key, server) := kv in
  negb (mem key (Exclude targets)) &&
  match Names targets, Tags targets with
  | _ :: _, _ => mem key (Names targets)
  | [], _ :: _ => tag_match (Tags targets) (db_Tags server)
  | [], [] => true
  end.

Definition resolveTargetsFromInfra (servers : list (string * DBServer)) (targets : Targets) : list string :=
  map fst (List.filter (target_selected targets) servers).

Fixpoint names_from (seen : list string) (steps : list Step) : list string :=
  match steps with
  | [] => []
  | s :: rest =>
      if mem (st_Tool s) seen then names_from seen rest
      else st_Tool s :: names_from (st_Tool s :: seen) rest
  end.

Definition toolNamesFromSteps (steps : list Step) : list string := names_from [] steps.

Definition filterStepsByName (steps : list Step) (names : list string) : list Step :=
  List.filter (fun s => mem (st_Tool s) names) steps.

Definition validateStepArgs (args schema : anymap) : option string :=
  let unknown :=
    match map_get "properties" schema with
    | Some (AMap props) => find (fun kv => negb (has_key props (fst kv))) args
    | _ => None
    end in
  match unknown with
  | Some (name, _) => Some ("unknown parameter " ++ quote name ++ " (not in schema)")
  | None =>
      match find (fun key => negb (has_key args key)) (required_keys schema) with
      | Some key => Some ("missing required parameter " ++ quote key)
      | None => None
      end
  end.

(** The first step whose arguments its tool's schema refuses. *)
Fixpoint invalid_step (r : Registry) (steps : list Step) : option string :=
  match steps with
  | [] => None
  | step :: rest =>
      match match Get_tool (st_Tool step) r with Some e => en_InputSchema e | None => None end with
      | None => invalid_step r rest
      | Some schema =>
          match validateStepArgs (st_Args step) schema with
          | Some e => Some ("step " ++ quote (st_Tool step) ++ " args invalid: " ++ e)
          | None => invalid_step r rest
          end
      end
  end.

Definition known_tool (r : Registry) (name : string) : bool :=
  match Get_tool name r with Some _ => true | None => false end.

Definition unknown_step (r : Registry) (steps : list Step) : option Step :=
  find (fun s => negb (known_tool r (st_Tool s))) steps.

Definition known_tags (servers : list (string * DBServer)) : list string := flat_map (fun kv => db_Tags (snd kv)) servers.

Definition unknown_tags (servers : list (string * DBServer)) (targets : Targets) : list string :=
  List.filter (fun t => negb (mem t (known_tags servers))) (Tags targets).

(** The snapshot of every tool of the steps. *)
Definition tool_snapshots (r : Registry) (capturedAt : Time) (steps : list Step) : list (string * ToolSnapshot) :=
  omap (fun name =>
          match Get_tool name r with
          | Some e => Some (name, {| ts_AgentVersion := en_AgentVersion e;
                                     ts_SchemaFingerprint := en_SchemaFingerprint e; ts_CapturedAt := capturedAt |})
          | None => None
          end) (toolNamesFromSteps steps).

Definition with_snapshots (snapshots : list (string * ToolSnapshot)) (j : JobDef) : JobDef :=
  {| j_Name := j_Name j; Steps := Steps j; j_Targets := j_Targets j; j_Strategy := j_Strategy j;
     PlanTraceID := PlanTraceID j; ToolSnapshots := snapshots; PlanDescription := PlanDescription j;
     PlanTargetHints := PlanTargetHints j; PlanServers := PlanServers j |}.

(** The job with the members that the planner sets. *)
Definition planned_job (j : JobDef) (traceID : string) (steps : list Step) (snapshots : list (string * ToolSnapshot))
    (req : FleetPlanRequest) (servers : list string) : JobDef :=
  {| j_Name := j_Name j; Steps := steps; j_Targets := j_Targets j; j_Strategy := j_Strategy j;
     PlanTraceID := traceID; ToolSnapshots := snapshots; PlanDescription := fq_Description req;
     PlanTargetHints := fq_TargetHints req; PlanServers := servers |}.

Definition written_steps (steps : list Step) : list string :=
  map st_Tool (List.filter (fun s => IsApprovalRequired (ClassifyTool (st_Tool s))) steps).

Inductive PlanReply :=
  | PlanError (status : Z) (message : string)
  | Planned (resp : FleetPlanResponse).

Inductive SnapshotReply :=
  | SnapshotError (status : Z) (message : string)
  | Refreshed (job : JobDef) (raw : string).

Section Planner.
Context (g : Gateway) (fr : Fresh) (start now : Time) (elapsed : Z).
(** The configured servers, in the order of the range for the prompt and of the range
    for the targets; [None] is a gateway without a configuration. *)
Context (servers : option (list (string * DBServer) * list (string * DBServer))).
Context (plannerLLM : option (string -> result string string)).
Context (unmarshal_plan : string -> result string PlannerAnswer) (marshal_job : JobDef -> string).

Definition plan_request (r : Request) (traceID : string) (req : FleetPlanRequest) (raw : string) : GatewayRequest :=
  let '(p, purpose, note, _) := resolveRequest r "" "" in
  {| gr_RequestID := fr_request fr; gr_TraceID := traceID; gr_ContextID := ""; gr_ParentID := "";
     gr_Principal := EffectiveID p; gr_ResolvedPrincipal := p; gr_Purpose := purpose; gr_PurposeNote := note;
     gr_Environment := ""; gr_Endpoint := rq_Path r; gr_Method := rq_Method r; gr_Agent := "gateway";
     gr_ToolName := "fleet_plan"; gr_ToolParameters := []; gr_ActionClass := ActionRead;
     gr_Message := fq_Description req; gr_Response := raw; gr_StartTime := start; gr_Duration := elapsed;
     gr_Status := "success"; gr_Error := ""; gr_HTTPCode := 200 |}.

(** From the decoded answer on. *)
Definition checked_plan (r : Request) (reg : Registry) (first second : list (string * DBServer))
    (req : FleetPlanRequest) (answer : PlannerAnswer) : list Effect * PlanReply :=
  let traceID := "plan_" ++ fr_trace fr in
  let job := pa_JobDef answer in
  let steps := filterStepsByName (Steps job) (ResolveSuperseded (toolNamesFromSteps (Steps job)) reg) in
  let refuse msg := ([], PlanError 422 msg) in
  match unknown_step reg steps with
  | Some step => refuse ("planner returned unknown tool " ++ quote (st_Tool step))
  | None =>
      match invalid_step reg steps with
      | Some msg => refuse msg
      | None =>
          match unknown_tags second (j_Targets job) with
          | _ :: _ as unknown =>
              refuse ("planner used unknown tag(s) " ++ fmt_list unknown ++ "; available tags: " ++
                      fmt_list (isort String.ltb (dedup (known_tags second))) ++ " — refine the description")
          | [] =>
              let resolved := resolveTargetsFromInfra second (j_Targets job) in
              match find (fun s => mem s (snd (buildPlannerInfraContext first))) resolved with
              | Some server =>
                  refuse ("planner targeted restricted server " ++ quote server ++
                          "; add it to targets.exclude or refine the description")
              | None =>
                  let job := planned_job job traceID steps (tool_snapshots reg now steps) req
                               (isort String.ltb resolved) in
                  let raw := marshal_job job in
                  (recordAudit g fr now (plan_request r traceID req raw),
                   Planned {| fp_JobDef := job; fp_JobDefRaw := raw; PlannerNotes := pa_PlannerNotes answer;
                              RequiresApproval := existsb (fun s => IsApprovalRequired (ClassifyTool (st_Tool s))) steps;
                              WrittenSteps := written_steps steps; ExcludedServers := pa_ExcludedServers answer;
                              WarningMessages := pa_WarningMessages answer |})
              end
          end
      end
  end.

Definition handleFleetPlan (r : Request) (body : result string FleetPlanRequest) : list Effect * PlanReply :=
  match body with
  | Err e => ([], PlanError 400 ("invalid JSON body: " ++ e))
  | Ok req =>
      if fq_Description req =?s "" then ([], PlanError 400 "description is required")
      else
        match plannerLLM, servers, g_toolRegistry g with
        | None, _, _ =>
            ([], PlanError 503 ("fleet planner LLM not configured " ++
                   "(HELPDESK_MODEL_VENDOR, HELPDESK_MODEL_NAME, HELPDESK_API_KEY)"))
        | Some _, None, _ =>
            ([], PlanError 503 "fleet planner requires infrastructure config (HELPDESK_INFRA_CONFIG)")
        | Some _, Some _, None =>
            ([], PlanError 503 "fleet planner requires tool registry (no agents discovered)")
        | Some llm, Some (first, second), Some reg =>
            let hints := match fq_TargetHints req with [] => "none" | l => join ", " l end in
            let prompt :=
              assemblePlannerPrompt (fst (buildPlannerInfraContext first)) (buildPlannerToolCatalog reg)
                buildIntentSection (fq_Description req) hints (fq_Guidance req) in
            match llm prompt with
            | Err e => ([], PlanError 502 ("planner LLM call failed: " ++ e))
            | Ok raw =>
                match unmarshal_plan (stripMarkdownFences raw) with
                | Err e => ([], PlanError 422 ("planner returned unparseable JSON: " ++ e))
                | Ok answer => checked_plan r reg first second req answer
                end
            end
        end
  end.

Definition handleFleetSnapshot (body : result string JobDef) : SnapshotReply :=
  match g_toolRegistry g with
  | None => SnapshotError 503 "fleet snapshot requires tool registry"
  | Some reg =>
      match body with
      | Err e => SnapshotError 400 ("invalid request body: " ++ e)
      | Ok def =>
          match Steps def with
          | [] => SnapshotError 400 "job_def has no steps"
          | steps =>
              match unknown_step reg steps with
              | Some step => SnapshotError 422 ("unknown tool " ++ quote (st_Tool step))
              | None =>
                  let job := with_snapshots (tool_snapshots reg now steps) def in Refreshed job (marshal_job job)
              end
          end
      end
  end.
End Planner.

(** ** What a plan guarantees *)

Lemma invalid_step_none r steps : invalid_step r steps = None ->
  forall s e schema, In s steps -> Get_tool (st_Tool s) r = Some e -> en_InputSchema e = Some schema ->
  validateStepArgs (st_Args s) schema = None.
Proof.
  induction steps as [|x l IH]; [done|]. simpl. intros H s e schema [<-|Hin] He Hs.
  - rewrite He, Hs in H. by destruct (validateStepArgs _ _).
  - destruct (match Get_tool (st_Tool x) r with Some _ => _ | None => _ end); [|by eapply IH].
    destruct (validateStepArgs _ _); [done|]. by eapply IH.
Qed.

Lemma unknown_step_none r steps : unknown_step r steps = None ->
  forall s, In s steps -> exists e, Get_tool (st_Tool s) r = Some e.
Proof.
  intros H s Hs. pose proof (List.find_none _ _ H s Hs) as Hk. unfold known_tool in Hk.
  destruct (Get_tool (st_Tool s) r); [eauto|done].
Qed.

Lemma restricted_spec servers s :
  In s (snd (buildPlannerInfraContext servers)) <-> exists db, In (s, db) servers /\ db_Sensitivity db <> [].
Proof.
  assert (H : snd (buildPlannerInfraContext servers) =
              map fst (List.filter (fun kv => is_restricted (snd kv)) servers)) by (by destruct servers).
  rewrite H, in_map_iff. unfold is_restricted. split.
  - intros ([k db] & <- & [Hin Hr]%filter_In). exists db. split; [done|]. simpl in Hr. by destruct (db_Sensitivity db).
  - intros (db & Hin & Hr). exists (s, db). split; [done|]. apply filter_In. split; [done|]. simpl.
    by destruct (db_Sensitivity db).
Qed.

Lemma names_from_In seen steps n : In n (names_from seen steps) <-> In n (map st_Tool steps) /\ ~ In n seen.
Proof.
  revert seen. induction steps as [|s l IH]; intros seen; simpl; [naive_solver|].
  destruct (mem (st_Tool s) seen) eqn:E.
  - apply mem_spec in E. rewrite IH. naive_solver.
  - apply mem_false in E. simpl. rewrite IH. simpl. destruct (decide (st_Tool s = n)) as [<-|]; naive_solver.
Qed.

(** The steps that are left: those whose tool no tool of the answer declares redundant. *)
Lemma resolved_steps reg steps s :
  In s (filterStepsByName steps (ResolveSuperseded (toolNamesFromSteps steps) reg)) <->
  In s steps /\ ~ exists s', In s' steps /\ supersedes reg (st_Tool s') (st_Tool s).
Proof.
  unfold filterStepsByName, toolNamesFromSteps. rewrite filter_In, mem_spec, In_resolved.
  rewrite names_from_In, in_map_iff. split.
  - intros (Hs & _ & Hn). split; [done|]. intros (s' & Hs' & Hsup). apply Hn. exists (st_Tool s').
    split; [|done]. rewrite names_from_In, in_map_iff. split; [by exists s'|intros []].
  - intros (Hs & Hn). split_and!; [done|by exists s|intros []|].
    intros (m & Hm & Hsup). rewrite names_from_In, in_map_iff in Hm. destruct Hm as [(s' & <- & Hs') _].
    apply Hn. by exists s'.
Qed.

(** ** The targets of the planner and of the runner *)

(** The servers as the runner reads them. *)
Definition inventory (servers : list (string * DBServer)) : list (string * list string) :=
  map (fun kv => (fst kv, db_Tags (snd kv))) servers.

Lemma runner_targets servers order2 targets : order2 ≡ₚ inventory servers ->
  exists l, resolveTargets (Some (inventory servers)) order2 targets = Ok l /\
    l ≡ₚ map fst (List.filter (fun kv => negb (mem (fst kv) (Exclude targets)) &&
                   match Tags targets, Names targets with
                   | [], [] => true
                   | _, _ => mem (fst kv) (Names targets) || tag_match (Tags targets) (snd kv)
                   end) (inventory servers)).
Proof.
  intros Hp. unfold resolveTargets.
  destruct (Tags targets) as [|t ts], (Names targets) as [|n ns]; (eexists; split; [reflexivity|]).
  2,3,4: (erewrite List.filter_ext; [reflexivity|]; by intros [k v]).
  rewrite (filter_perm _ _ _ Hp). erewrite List.filter_ext; [reflexivity|]. intros [k v]. simpl. by rewrite andb_true_r.
Qed.

Lemma gateway_targets servers targets :
  resolveTargetsFromInfra servers targets =
  map fst (List.filter (fun kv => negb (mem (fst kv) (Exclude targets)) &&
             match Names targets, Tags targets with
             | _ :: _, _ => mem (fst kv) (Names targets)
             | [], _ :: _ => tag_match (Tags targets) (snd kv)
             | [], [] => true
             end) (inventory servers)).
Proof.
  unfold resolveTargetsFromInfra, inventory. induction servers as [|[k db] l IH]; [done|].
  cbn [map List.filter fst snd target_selected]. destruct (negb _ && _); cbn [map fst]; by rewrite IH.
Qed.

(** With names or tags, but not both, the runner works on the servers the planner checked. *)
Lemma targets_agree servers targets order1 order2 l :
  Names targets = [] \/ Tags targets = [] -> order1 ≡ₚ servers -> order2 ≡ₚ inventory order1 ->
  resolveTargets (Some (inventory order1)) order2 targets = Ok l -> l ≡ₚ resolveTargetsFromInfra servers targets.
Proof.
  intros Hor H1 H2 Hl. destruct (runner_targets order1 order2 targets H2) as (l' & Hl' & Hp).
  rewrite Hl in Hl'. injection Hl' as <-. rewrite Hp, gateway_targets. apply Permutation_map.
  assert (Hi : inventory order1 ≡ₚ inventory servers) by (by apply Permutation_map).
  rewrite (filter_perm _ _ _ Hi). erewrite List.filter_ext; [reflexivity|]. intros [k v]. simpl. f_equal.
  destruct (Names targets) as [|n ns], (Tags targets) as [|t ts]; try done; [|by destruct Hor].
  simpl. by rewrite orb_false_r.
Qed.

Lemma approval_agrees steps :
  existsb (fun s => IsApprovalRequired (ClassifyTool (st_Tool s))) steps = IsApprovalRequired (jobActionClass steps).
Proof.
  apply eq_true_iff_eq. rewrite (proj1 (jobActionClass_highest steps)). apply existsb_exists.
Qed.


(** ** A small inventory *)

Module PlannerToy.

Definition server (name : string) (tags sens : list string) : string * DBServer :=
  (name, {| db_Name := name; ConnectionString := ""; PasswordEnv := ""; db_K8sCluster := ""; K8sNamespace := "";
            K8sPodSelector := ""; VMName := ""; ContainerName := ""; SystemdUnit := ""; db_Tags := tags;
            db_Sensitivity := sens; ApprovalOverrideRoles := [] |}).

Definition servers : list (string * DBServer) := [server "a" ["dev"] []; server "b" ["prod"] ["pii"]].

Definition tool_step (tool : string) : Step := {| st_Agent := "database"; st_Tool := tool; st_Args := []; OnFailure := "" |}.

Definition job (tool : string) (targets : Targets) : JobDef :=
  {| j_Name := "j"; Steps := [tool_step tool]; j_Targets := targets;
     j_Strategy := {| CanaryCount := 1; WaveSize := 0; WavePauseSeconds := 0; FailureThreshold := float64_of 0;
                      sg_DryRun := false; CountPartialAsSuccess := false; ApprovalTimeoutSeconds := 0;
                      WaveGate := false; SchemaDrift := "" |};
     PlanTraceID := ""; ToolSnapshots := []; PlanDescription := ""; PlanTargetHints := []; PlanServers := [] |}.

Definition hidden : ToolEntry :=
  {| en_Name := "run_vacuum"; en_Agent := "database"; en_Description := ""; en_InputSchema := None;
     en_ActionClass := ActionWrite; FleetEligible := false; AutoRemediationEligible := false; Capabilities := [];
     Supersedes := []; en_AgentVersion := ""; en_SchemaFingerprint := "" |}.

Definition gateway : Gateway :=
  {| g_agents := ∅; g_clients := []; g_audited := true; g_auditURL := ""; g_manager := NewApprovalManager None;
     operatingMode := ""; g_toolRegistry := Some (New [hidden]); g_metrics := false |}.

Definition plan (targets : Targets) : list Effect * PlanReply :=
  handleFleetPlan gateway GatewayToy.fresh GatewayToy.start GatewayToy.start 1 (Some (servers, servers))
    (Some (fun _ => Ok "x"))
    (fun _ => Ok {| pa_JobDef := job "run_vacuum" targets; pa_PlannerNotes := ""; pa_ExcludedServers := [];
                    pa_WarningMessages := [] |}) (fun _ => "") (GatewayToy.request None)
    (Ok {| fq_Description := "vacuum"; fq_TargetHints := []; fq_Guidance := "" |}).

Definition only_dev : Targets := {| Tags := ["dev"]; Names := []; Exclude := [] |}.

(** The planner looks at the names only; the runner adds the servers with the tags, here
    a restricted one. *)
Definition names_and_tags : Targets := {| Tags := ["prod"]; Names := ["a"]; Exclude := [] |}.

Definition plan_servers (p : PlanReply) : list string :=
  match p with Planned resp => PlanServers (fp_JobDef resp) | PlanError _ _ => [] end.

Example restricted_server_reached :
  plan_servers (plan names_and_tags).2 = ["a"] /\
  resolveTargets (Some (inventory servers)) (inventory servers) names_and_tags = Ok ["a"; "b"].
Proof. vm_compute. done. Qed.

(** A tool that is not fleet-eligible is not in the prompt, but a plan that uses it passes. *)
Example hidden_tool_planned :
  buildPlannerToolCatalog (New [hidden]) = "" /\ plan_servers (plan only_dev).2 = ["a"].
Proof. vm_compute. done. Qed.
End PlannerToy.

