(* ===== verification/PlaybookDraft.v ===== *)
(** * Playbook drafts: synthesis from a trace and import

    cmd/gateway/playbook_from_trace.go and playbook_import.go: the two endpoints in front
    of a model that writes playbooks.  Parameters: the model, the YAML and JSON decoders,
    auditd's answers to the two reads of a trace, whether the reads of the active version
    and the final request get through.  What auditd does with the draft is its own handler
    ([PlaybookStore.handleCreate]) on its table; a playbook passes through JSON unchanged.
    The prompts are written out. *)

From Stdlib Require Import SpecFloat.
From S2P Require Import Prelude GoTime GoFormat PlaybookText PlaybookStore ToolRegistry Gateway Planner.

Open Scope string_scope.

(** ** YAML values *)

(** What an [interface{}] holds after decoding; [Other] stands for maps, numbers, booleans. *)
Inductive Yaml (Other : Type) :=
  | YNull
  | YStr (s : string)
  | YSeq (items : list (Yaml Other))
  | YOther (o : Other).
Arguments YNull {Other}.
Arguments YStr {Other} s.
Arguments YSeq {Other} items.
Arguments YOther {Other} o.

Section YamlValues.
Context {Other : Type}.
(** [yaml.Marshal] and [%v] *)
Context (yaml_Marshal : Yaml Other -> result string string) (sprint : Yaml Other -> string).

Definition yamlToString (v : Yaml Other) : string :=
  match v with
  | YNull => ""
  | YStr s => s
  | _ => match yaml_Marshal v with Ok b => trim_space b | Err _ => sprint v end
  end.

Definition yamlToStringSlice (v : Yaml Other) : list string :=
  match v with
  | YNull => []
  | YSeq items => map yamlToString items
  | YStr s => [s]
  | YOther _ => [yamlToString v]
  end.
End YamlValues.

(** ** Playbooks under construction *)

Record Knowledge := {
  k_Name : string; k_Description : string; k_ProblemClass : string; k_Guidance : string;
  k_Symptoms : list string; k_Escalation : list string; k_TargetHints : list string;
  k_EscalatesTo : list string; k_TransitionsTo : list string; k_SeriesID : string;
  k_Author : string; k_Version : string; k_PlaybookType : string }.

(** A playbook literal with these members; the others are zero. *)
Definition playbook_of (k : Knowledge) : Playbook :=
  {| PlaybookID := ""; pb_Name := k_Name k; pb_Description := k_Description k; TargetHints := k_TargetHints k;
     pb_CreatedBy := ""; pb_CreatedAt := 0; pb_UpdatedAt := 0; ProblemClass := k_ProblemClass k;
     Symptoms := k_Symptoms k; Guidance := k_Guidance k; pb_Escalation := k_Escalation k; RelatedPlaybooks := [];
     Author := k_Author k; LastValidated := None; pb_Version := k_Version k; pb_SeriesID := k_SeriesID k;
     IsActive := false; IsSystem := false; pb_Source := ""; OriginTrace := ""; PlaybookType := k_PlaybookType k;
     EntryPoint := false; EscalatesTo := k_EscalatesTo k; TransitionsTo := k_TransitionsTo k;
     RequiresEvidence := []; pb_ExecutionMode := ""; PermittedTools := []; pb_ApprovalMode := "";
     pb_AgentName := ""; JudgeVerdict := ""; JudgeModel := ""; JudgeAt := 0; RootCauseClasses := None |}.

(** ** Prompts *)

Definition fromTracePrompt (outcome trace : string) : string :=
  String.concat nl [
    "You are a playbook authoring assistant for an AI database operations platform.";
    "";
    "Given the following sequence of diagnostic tool calls and their outcomes from a " ++ outcome ++ " " ++
      "incident,";
    "synthesize a playbook YAML that captures the diagnostic and remediation approach.";
    "";
    "The playbook should cover:";
    "- name: a short descriptive name for this scenario";
    "- description: what this playbook does and why (used by the fleet planner to select it)";
    "- playbook_type: " ++ in_quotes "triage" ++ " if the trace is a read-only investigation ending with a " ++
      "FINDINGS/signal line; " ++ in_quotes "remediation" ++ " if it executes corrective actions";
    "- problem_class: one of: performance | availability | capacity | data_integrity | security";
    "- symptoms: observable indicators that would trigger this playbook";
    "- guidance: expert reasoning, the sequence of investigation steps, and any heuristics";
    "- escalation: conditions where a human operator must intervene";
    "";
    "Tool execution trace:";
    trace;
    "";
    "Respond with YAML only — a single playbook document, no markdown fences, no other text."].

Definition fromTraceUpdatePrompt (outcome active trace : string) : string :=
  String.concat nl [
    "You are a playbook authoring assistant for an AI database operations platform.";
    "";
    "Given a sequence of diagnostic tool calls from a " ++ outcome ++ " incident, produce an IMPROVED " ++
      "version of the existing playbook below.";
    "";
    "EXISTING PLAYBOOK (active version — improve this, do not start from scratch):";
    active;
    "";
    "TOOL EXECUTION TRACE (from this incident):";
    trace;
    "";
    "Improvement rules — follow these exactly:";
    "1. PRESERVE all numeric thresholds in escalation and guidance. Do not relax, remove, or replace " ++
      "existing escalation criteria — only add new ones alongside them.";
    "2. ADD investigation steps, heuristics, or patterns clearly observed in the trace that are missing from " ++
      "the current guidance.";
    "3. IMPROVE name, description, and symptoms if the trace reveals a more precise framing.";
    "4. TREAT trace-specific observed values as illustrative examples, not universal thresholds. If you " ++
      "reference a specific measurement from the trace (e.g., " ++ in_quotes "50% dead ratio" ++ "), " ++
      "explicitly label it as an example: " ++ in_quotes "e.g., in one observed case: X" ++ ".";
    "5. Keep the " ++ in_quotes "Required output" ++ " trailer (FINDINGS:/TRANSITION_TO:/ESCALATE_TO: lines) " ++
      "in guidance verbatim — it is an operational protocol, not knowledge content.";
    "6. Escalation must be at least as strict as the existing version; add criteria but do not relax " ++
      "existing ones.";
    "";
    "Respond with YAML only — a single playbook document, no markdown fences, no other text."].

Definition indent_newlines (s : string) : string := replace_go [(nl, nl ++ "  ")] 0 s.
Definition bullets (l : list string) : string := String.concat "" (map (fun s => "  - " ++ s ++ nl) l).

(** The knowledge members of the active version, as the prompt shows them. *)
Definition formatActivePlaybookYAML (pb : Playbook) : string :=
  "name: " ++ pb_Name pb ++ nl ++
  "description: |" ++ nl ++ "  " ++ indent_newlines (trim_right_newlines (pb_Description pb)) ++ nl ++
  (if ProblemClass pb =?s "" then "" else "problem_class: " ++ ProblemClass pb ++ nl) ++
  match Symptoms pb with [] => "" | l => "symptoms:" ++ nl ++ bullets l end ++
  "guidance: |" ++ nl ++ "  " ++ indent_newlines (trim_right_newlines (Guidance pb)) ++ nl ++
  match pb_Escalation pb with [] => "" | l => "escalation:" ++ nl ++ bullets l end.

(** ** Reading the model's YAML *)

Definition tab : ascii := ascii_of_N 9.
Definition carriage_return : ascii := ascii_of_N 13.
Definition is_blank (c : ascii) : bool := Ascii.eqb c " " || Ascii.eqb c tab.

Definition without_tabs (text : string) : string := replace_go [(String tab "", "  ")] 0 text.

(** One line of the draft: dropped, shifted by a blank, or kept. *)
Definition keep_line (line : string) : option string :=
  let trimmed := trim_left_set is_blank line in
  if has_prefix trimmed fence then None
  else if has_prefix trimmed "`" || has_prefix trimmed "@" then
    Some (String.substring 0 (String.length line - String.length trimmed) line ++ " " ++ trimmed)
  else Some line.

Definition without_fences (text : string) : string := join nl (omap keep_line (split_on newline text)).

Definition line_end (c : ascii) : bool := Ascii.eqb c newline || Ascii.eqb c carriage_return.

(** A first line that is neither a member, an item nor a separator is a language tag. *)
Definition without_tag (text : string) : string :=
  let first := before_any line_end text in
  let rest := drop_bytes (String.length first) text in
  let firstLine := trim_space first in
  if negb (first =?s "") && negb (rest =?s "") &&
     negb (firstLine =?s "") && negb (firstLine =?s "---") &&
     negb (str_contains firstLine ":") && negb (has_prefix firstLine "-")
  then trim_space rest else text.

Definition clean_yaml (text : string) : string := without_tag (without_fences (without_tabs text)).

Definition no_knowledge : Knowledge :=
  {| k_Name := ""; k_Description := ""; k_ProblemClass := ""; k_Guidance := ""; k_Symptoms := [];
     k_Escalation := []; k_TargetHints := []; k_EscalatesTo := []; k_TransitionsTo := []; k_SeriesID := "";
     k_Author := ""; k_Version := ""; k_PlaybookType := "" |}.

(** [name], [description], [problem_class], [author], [version], [series_id] and
    [playbook_type] of the scan. *)
Record Scalars := {
  s_name : string; s_description : string; s_problem_class : string; s_author : string;
  s_version : string; s_series_id : string; s_playbook_type : string }.

Definition no_scalars : Scalars :=
  {| s_name := ""; s_description := ""; s_problem_class := ""; s_author := ""; s_version := "";
     s_series_id := ""; s_playbook_type := "" |}.

Definition set_scalar (k v : string) (s : Scalars) : Scalars :=
  let put key old := if k =?s key then v else old in
  {| s_name := put "name" (s_name s); s_description := put "description" (s_description s);
     s_problem_class := put "problem_class" (s_problem_class s); s_author := put "author" (s_author s);
     s_version := put "version" (s_version s); s_series_id := put "series_id" (s_series_id s);
     s_playbook_type := put "playbook_type" (s_playbook_type s) |}.

(** [strings.Cut(line, ":")] *)
Definition cut_colon (line : string) : option (string * string) :=
  let before := before_any (Ascii.eqb ":") line in
  match drop_bytes (String.length before) line with
  | String _ after => Some (before, after)
  | EmptyString => None
  end.

Definition scan_line (s : Scalars) (line : string) : Scalars :=
  match cut_colon line with
  | None => s
  | Some (k, v) =>
      if has_prefix line " " || has_prefix line (String tab "") then s
      else set_scalar (trim_space k) (trim_space v) s
  end.

Definition extractPlaybookScalars (text : string) : Scalars :=
  fold_left scan_line (split_on newline text) no_scalars.

Definition scalars_playbook (guidance : string) (s : Scalars) : Playbook :=
  playbook_of
    {| k_Name := s_name s; k_Description := s_description s; k_ProblemClass := s_problem_class s;
       k_Guidance := guidance; k_Symptoms := []; k_Escalation := []; k_TargetHints := []; k_EscalatesTo := [];
       k_TransitionsTo := []; k_SeriesID := s_series_id s; k_Author := s_author s; k_Version := s_version s;
       k_PlaybookType := s_playbook_type s |}.

Section Lenient.
Context {Other : Type} (yaml_Marshal : Yaml Other -> result string string) (sprint : Yaml Other -> string).
(** Decoding into a map from member names to values. *)
Context (yaml_map : string -> result string (gmap string (Yaml Other))).

Definition map_playbook (raw : gmap string (Yaml Other)) : Playbook :=
  let value key := default YNull (raw !! key) in
  let str key := yamlToString yaml_Marshal sprint (value key) in
  let strSlice key := yamlToStringSlice yaml_Marshal sprint (value key) in
  playbook_of
    {| k_Name := str "name"; k_Description := str "description"; k_ProblemClass := str "problem_class";
       k_Guidance := str "guidance"; k_Symptoms := strSlice "symptoms"; k_Escalation := strSlice "escalation";
       k_TargetHints := strSlice "target_hints"; k_EscalatesTo := strSlice "escalates_to";
       k_TransitionsTo := strSlice "transitions_to"; k_SeriesID := str "series_id"; k_Author := str "author";
       k_Version := str "version"; k_PlaybookType := str "playbook_type" |}.

Definition parsePlaybookYAMLLenient (text : string) : result string Playbook :=
  let text := clean_yaml text in
  match yaml_map text with
  | Ok raw => Ok (map_playbook raw)
  | Err e =>
      let s := extractPlaybookScalars text in
      if (s_name s =?s "") && (s_description s =?s "") then Err e
      else Ok (scalars_playbook text s)
  end.
End Lenient.

(** ** Protocol checks of a draft *)

Definition require_text (value field : string) : list string :=
  if trim_space value =?s "" then [field ++ ": required field is empty"] else [].

Definition require_items (items : list string) (field : string) : list string :=
  match items with [] => [field ++ ": at least one entry required"] | _ => [] end.

Definition common_requirements (pb : Playbook) : list string :=
  (require_text (pb_Name pb) "name" ++ require_text (pb_SeriesID pb) "series_id" ++
   require_text (pb_Description pb) "description" ++ require_text (Guidance pb) "guidance" ++
   require_items (Symptoms pb) "symptoms" ++ require_items (pb_Escalation pb) "escalation")%list.

Definition has_signal (guidance : string) : bool :=
  str_contains guidance "TRANSITION_TO:" || str_contains guidance "ESCALATE_TO:".

Definition validatePlaybookProtocol (pb : Playbook) : list string :=
  (if PlaybookType pb =?s "triage" then
    common_requirements pb ++
    (if pb_ExecutionMode pb =?s "agent" then []
     else ["execution_mode: triage playbooks must use " ++ in_quotes "agent" ++ ", got " ++
             quote (pb_ExecutionMode pb)]%string) ++
    (if str_contains (Guidance pb) "FINDINGS:" then []
     else ["guidance: missing FINDINGS: line — triage playbooks must emit structured findings"]) ++
    (if has_signal (Guidance pb) then []
     else ["guidance: missing signal line — must end with TRANSITION_TO: <series_id> or " ++
             "ESCALATE_TO: <target|none>"]%string)
  else if PlaybookType pb =?s "remediation" then
    common_requirements pb ++
    (if pb_ExecutionMode pb =?s "agent_approve" then []
     else ["execution_mode: remediation playbooks must use " ++ in_quotes "agent_approve" ++ ", got " ++
             quote (pb_ExecutionMode pb)]%string) ++
    (if has_signal (Guidance pb) then
       ["guidance: remediation playbooks must not emit TRANSITION_TO or ESCALATE_TO — " ++
          "routing is handled by the triage gate"]%string
     else [])
  else [])%list.

(** ** Drafts from a trace *)

Record PlaybookFromTraceRequest := {
  ft_TraceID : string; ft_Outcome : string; ft_SeriesID : string; ft_Version : string }.

Record PlaybookFromTraceResponse := {
  dr_Draft : string; dr_Source : string; dr_PlaybookID : string; dr_Warnings : list string }.

Inductive DraftReply :=
  | DraftError (code : Z) (msg : string)
  | Drafted (r : PlaybookFromTraceResponse).

(** A GET to auditd: the request is not built, fails, its answer is not read, or is. *)
Inductive Got :=
  | NotBuilt (e : string)
  | Failed (e : string)
  | Unread (e : string)
  | Answered (status : Z) (data : string).

(** The POST of the draft: it fails before auditd acts, auditd's answer is lost, or it arrives. *)
Inductive Post := PostFails | AnswerLost | AnswerArrives.

Record TraceStep := {
  ts_Agent : string; ts_Tool : string; ts_Args : string; ts_Reason : string; ts_Status : string;
  ts_Result : string }.

(** A step as an event of type [tool_execution]. *)
Record TraceEvent := { te_EventType : string; te_Step : TraceStep }.

Definition trace_event (s : TraceStep) : TraceEvent := {| te_EventType := "tool_execution"; te_Step := s |}.

(** The members of the active version that its successor keeps, and the "Required output"
    trailer of its guidance. *)
Definition output_marker : string := "Required output".

Definition keep_trailer (active guidance : string) : string :=
  match str_index active (nl ++ output_marker) with
  | Some idx =>
      if str_contains guidance output_marker then guidance
      else trim_right_newlines guidance ++ nl ++ trim_right_newlines (drop_bytes idx active)
  | None => guidance
  end.

Definition carry_over (active pb : Playbook) : Playbook :=
  {| PlaybookID := PlaybookID pb; pb_Name := pb_Name pb; pb_Description := pb_Description pb;
     TargetHints := TargetHints active; pb_CreatedBy := pb_CreatedBy pb; pb_CreatedAt := pb_CreatedAt pb;
     pb_UpdatedAt := pb_UpdatedAt pb; ProblemClass := ProblemClass pb; Symptoms := Symptoms pb;
     Guidance := keep_trailer (Guidance active) (Guidance pb); pb_Escalation := pb_Escalation pb;
     RelatedPlaybooks := RelatedPlaybooks pb; Author := Author pb; LastValidated := LastValidated pb;
     pb_Version := pb_Version pb; pb_SeriesID := pb_SeriesID pb; IsActive := IsActive pb; IsSystem := IsSystem pb;
     pb_Source := pb_Source pb; OriginTrace := OriginTrace pb; PlaybookType := PlaybookType active;
     EntryPoint := EntryPoint active; EscalatesTo := EscalatesTo active; TransitionsTo := TransitionsTo active;
     RequiresEvidence := RequiresEvidence active; pb_ExecutionMode := pb_ExecutionMode active;
     PermittedTools := PermittedTools active; pb_ApprovalMode := pb_ApprovalMode active;
     pb_AgentName := pb_AgentName active; JudgeVerdict := JudgeVerdict pb; JudgeModel := JudgeModel pb;
     JudgeAt := JudgeAt pb; RootCauseClasses := RootCauseClasses pb |}.

(** The identity of a draft: what the request says of series and version goes before what
    the model wrote. *)
Definition stamp (req : PlaybookFromTraceRequest) (pb : Playbook) : Playbook :=
  let c := control_of pb in
  with_control
    {| c_PlaybookID := c_PlaybookID c; c_SeriesID := or_default (c_SeriesID c) (ft_SeriesID req);
       c_IsActive := false; c_IsSystem := c_IsSystem c; c_Source := "generated";
       c_Version := or_default (c_Version c) (ft_Version req); c_ExecutionMode := c_ExecutionMode c;
       c_CreatedBy := "from-trace"; c_CreatedAt := c_CreatedAt c; c_UpdatedAt := c_UpdatedAt c;
       c_OriginTrace := ft_TraceID req; c_JudgeVerdict := c_JudgeVerdict c; c_JudgeModel := c_JudgeModel c;
       c_JudgeAt := c_JudgeAt c; c_LastValidated := c_LastValidated c;
       c_RootCauseClasses := c_RootCauseClasses c |} pb.

Definition set_series (series : string) (pb : Playbook) : Playbook :=
  let c := control_of pb in
  with_control
    {| c_PlaybookID := c_PlaybookID c; c_SeriesID := series; c_IsActive := c_IsActive c; c_IsSystem := c_IsSystem c;
       c_Source := c_Source c; c_Version := c_Version c; c_ExecutionMode := c_ExecutionMode c;
       c_CreatedBy := c_CreatedBy c; c_CreatedAt := c_CreatedAt c; c_UpdatedAt := c_UpdatedAt c;
       c_OriginTrace := c_OriginTrace c; c_JudgeVerdict := c_JudgeVerdict c; c_JudgeModel := c_JudgeModel c;
       c_JudgeAt := c_JudgeAt c; c_LastValidated := c_LastValidated c;
       c_RootCauseClasses := c_RootCauseClasses c |} pb.

Definition draft_playbook (series8 : string) (req : PlaybookFromTraceRequest) (active : option Playbook)
    (parsed : Playbook) : Playbook :=
  let pb := stamp req parsed in
  let pb := match active with Some a => carry_over a pb | None => pb end in
  if pb_SeriesID pb =?s "" then set_series ("pbs_generated_" ++ series8) pb else pb.

Definition draft_text (raw : string) : string := trim_space (stripMarkdownFences raw).

Section FromTrace.
(** The gateway: auditd's base URL, the planner's model. *)
Context (auditURL : string) (plannerLLM : option (string -> result string string)).
(** auditd's answers to the reads of a trace, the decoders and the encoder of events. *)
Context (http_get : string -> Got) (json_array : string -> option (list string)).
Context (decode_steps : string -> result string (list TraceStep)) (encode_events : list TraceEvent -> string).
Context (parse : string -> result string Playbook).
(** The order of auditd's list, which reads of the active version get through, the final
    POST, the clock and the fresh parts of ids. *)
Context (order : Table -> Table) (fetch_ok : nat -> bool) (post : Post).
Context (now : Time) (id8 auditd8 series8 : string).

Definition isEmptyJSONArray (s : string) : bool :=
  match json_array (trim_space s) with Some (_ :: _) => false | _ => true end.

Definition audit_base : string := trim_suffix auditURL "/".

Definition trace_url (traceID : string) : string :=
  audit_base ++ "/v1/events?trace_id=" ++ traceID ++ "&event_type=tool_execution".

Definition steps_url (runID : string) : string := audit_base ++ "/v1/fleet/playbook-runs/" ++ runID ++ "/steps".

Definition fetchStepsAsTraceEvents (runID : string) : result string string :=
  match http_get (steps_url runID) with
  | NotBuilt e => Err ("build steps request: " ++ e)
  | Failed e => Err ("steps request: " ++ e)
  | Unread e => Err ("reading steps response: " ++ e)
  | Answered status data =>
      if negb (status =? 200)%Z then Err ("steps endpoint returned " ++ itoa status)
      else
        match decode_steps data with
        | Err e => Err ("parsing steps: " ++ e)
        | Ok steps => Ok (encode_events (map trace_event steps))
        end
  end.

Definition fetchTraceEvents (traceID : string) : result string string :=
  if auditURL =?s "" then Err "auditd URL not configured"
  else
    match http_get (trace_url traceID) with
    | NotBuilt e => Err ("build request: " ++ e)
    | Failed e => Err ("auditd request: " ++ e)
    | Unread e => Err ("reading auditd response: " ++ e)
    | Answered status data =>
        if negb (status =? 200)%Z then Err ("auditd returned " ++ itoa status ++ ": " ++ data)
        else if isEmptyJSONArray data && has_prefix traceID "plr_" then fetchStepsAsTraceEvents traceID
        else Ok data
    end.

(** The [n]-th read of the series' active version. *)
Definition fetch_active (n : nat) (series : string) (t : Table) : option Playbook :=
  if fetch_ok n then head (ListPlaybooks order (list_query "true" "true" series "") t) else None.

(** The first read is for the prompt; a second one replaces it when it gave nothing. *)
Definition prompt_active (req : PlaybookFromTraceRequest) (t : Table) : option Playbook :=
  if negb (ft_SeriesID req =?s "") && negb (auditURL =?s "") then fetch_active 0 (ft_SeriesID req) t else None.

Definition kept_active (req : PlaybookFromTraceRequest) (t : Table) : option Playbook :=
  match prompt_active req t with
  | Some a => Some a
  | None => if ft_SeriesID req =?s "" then None else fetch_active 1 (ft_SeriesID req) t
  end.

Definition synthesis_prompt (req : PlaybookFromTraceRequest) (trace : string) (t : Table) : string :=
  match prompt_active req t with
  | Some active => fromTraceUpdatePrompt (ft_Outcome req) (formatActivePlaybookYAML active) trace
  | None => fromTracePrompt (ft_Outcome req) trace
  end.

Definition persistPlaybookDraft (pb : Playbook) (t : Table) : Table * result string string :=
  match post with
  | PostFails => (t, Err "auditd request")
  | AnswerLost => ((handleCreate now id8 auditd8 (Ok pb) t).1, Err "auditd request")
  | AnswerArrives =>
      match handleCreate now id8 auditd8 (Ok pb) t with
      | (t', PPlaybook _ created) => (t', Ok (PlaybookID created))
      | (t', PError code msg) => (t', Err ("auditd returned " ++ itoa code ++ ": " ++ msg))
      | (t', _) => (t', Err "parse auditd response")
      end
  end.

(** What becomes of the draft's text: its row, the id and the warnings. *)
Definition store_draft (req : PlaybookFromTraceRequest) (draft : string) (t : Table)
    : Table * (string * list string) :=
  if auditURL =?s "" then (t, ("", []))
  else
    match parse draft with
    | Err _ => (t, ("", []))
    | Ok parsed =>
        let pb := draft_playbook series8 req (kept_active req t) parsed in
        let '(t', id) := persistPlaybookDraft pb t in
        (t', (match id with Ok id => id | Err _ => "" end, validatePlaybookProtocol pb))
    end.

Definition with_outcome (req : PlaybookFromTraceRequest) : PlaybookFromTraceRequest :=
  {| ft_TraceID := ft_TraceID req; ft_Outcome := or_default "resolved" (ft_Outcome req);
     ft_SeriesID := ft_SeriesID req; ft_Version := ft_Version req |}.

Definition synthesize (llm : string -> result string string) (req : PlaybookFromTraceRequest) (trace : string)
    (t : Table) : Table * DraftReply :=
  match llm (synthesis_prompt req trace t) with
  | Err e => (t, DraftError 500 ("LLM synthesis failed: " ++ e))
  | Ok raw =>
      let draft := draft_text raw in
      let '(t', (id, warnings)) := store_draft req draft t in
      (t', Drafted {| dr_Draft := draft; dr_Source := ft_TraceID req; dr_PlaybookID := id;
                      dr_Warnings := warnings |})
  end.

Definition handlePlaybookFromTrace (body : result string PlaybookFromTraceRequest) (t : Table)
    : Table * DraftReply :=
  match body with
  | Err e => (t, DraftError 400 ("invalid JSON body: " ++ e))
  | Ok req =>
      if ft_TraceID req =?s "" then (t, DraftError 400 (in_quotes "trace_id" ++ " is required"))
      else
        let req := with_outcome req in
        match plannerLLM with
        | None => (t, DraftError 503 "LLM not configured (plannerLLM is nil)")
        | Some llm =>
            match fetchTraceEvents (ft_TraceID req) with
            | Err e =>
                if auditURL =?s "" then
                  (t, DraftError 503 "auditd not configured: cannot synthesize playbook without an audit trace")
                else (t, DraftError 404 ("trace " ++ quote (ft_TraceID req) ++ " not found in auditd: " ++ e))
            | Ok trace =>
                if isEmptyJSONArray trace then
                  (t, DraftError 422 ("trace " ++ quote (ft_TraceID req) ++
                        " contains no tool execution events: nothing to synthesize from"))
                else synthesize llm req trace t
            end
        end
  end.
End FromTrace.

(** ** Import *)

Record PlaybookImportHints := { hi_Name : string; hi_ProblemClass : string; hi_SeriesID : string }.
Record PlaybookImportRequest := { im_Text : string; im_Format : string; im_Hints : PlaybookImportHints }.
Record PlaybookImportResponse := {
  ir_Draft : Playbook; ir_WarningMessages : list string; ir_Confidence : spec_float }.

Inductive ImportReply :=
  | ImportError (code : Z) (msg : string)
  | Imported (r : PlaybookImportResponse).

Definition supportedImportFormats : list string := ["markdown"; "text"; "yaml"; "rundeck"; "ansible"].

(** A draft with these members besides its knowledge; [Source] is always "imported". *)
Record ImportFields := {
  if_EntryPoint : bool; if_RequiresEvidence : list string; if_ExecutionMode : string; if_ApprovalMode : string }.

Definition imported_playbook (k : Knowledge) (f : ImportFields) : Playbook :=
  {| PlaybookID := ""; pb_Name := k_Name k; pb_Description := k_Description k; TargetHints := k_TargetHints k;
     pb_CreatedBy := ""; pb_CreatedAt := 0; pb_UpdatedAt := 0; ProblemClass := k_ProblemClass k;
     Symptoms := k_Symptoms k; Guidance := k_Guidance k; pb_Escalation := k_Escalation k; RelatedPlaybooks := [];
     Author := k_Author k; LastValidated := None; pb_Version := k_Version k; pb_SeriesID := k_SeriesID k;
     IsActive := false; IsSystem := false; pb_Source := "imported"; OriginTrace := "";
     PlaybookType := k_PlaybookType k; EntryPoint := if_EntryPoint f; EscalatesTo := k_EscalatesTo k;
     TransitionsTo := k_TransitionsTo k; RequiresEvidence := if_RequiresEvidence f;
     pb_ExecutionMode := or_default "fleet" (if_ExecutionMode f); PermittedTools := [];
     pb_ApprovalMode := if_ApprovalMode f; pb_AgentName := ""; JudgeVerdict := ""; JudgeModel := "";
     JudgeAt := 0; RootCauseClasses := None |}.

(** [importPlaybookYAML]: three members hold any value. *)
Record importPlaybookYAML (Other : Type) := {
  y_SeriesID : string; y_Name : string; y_Version : string; y_ProblemClass : string; y_Author : string;
  y_Description : string; y_Symptoms : Yaml Other; y_Guidance : Yaml Other; y_Escalation : Yaml Other;
  y_TargetHints : list string; y_EscalatesTo : list string; y_TransitionsTo : list string;
  y_Fields : ImportFields }.
Arguments y_SeriesID {Other}.
Arguments y_Name {Other}.
Arguments y_Version {Other}.
Arguments y_ProblemClass {Other}.
Arguments y_Author {Other}.
Arguments y_Description {Other}.
Arguments y_Symptoms {Other}.
Arguments y_Guidance {Other}.
Arguments y_Escalation {Other}.
Arguments y_TargetHints {Other}.
Arguments y_EscalatesTo {Other}.
Arguments y_TransitionsTo {Other}.
Arguments y_Fields {Other}.

(** The model's answer; the JSON playbook has no type. *)
Record ImportAnswer := {
  ia_Knowledge : Knowledge; ia_Fields : ImportFields; ia_Warnings : list string; ia_Confidence : spec_float }.

Definition untyped (k : Knowledge) : Knowledge :=
  {| k_Name := k_Name k; k_Description := k_Description k; k_ProblemClass := k_ProblemClass k;
     k_Guidance := k_Guidance k; k_Symptoms := k_Symptoms k; k_Escalation := k_Escalation k;
     k_TargetHints := k_TargetHints k; k_EscalatesTo := k_EscalatesTo k; k_TransitionsTo := k_TransitionsTo k;
     k_SeriesID := k_SeriesID k; k_Author := k_Author k; k_Version := k_Version k; k_PlaybookType := "" |}.

Definition tenths (n : Z) : spec_float := float_quotient false n 10.

Section Importing.
Context {Other : Type} (yaml_Marshal : Yaml Other -> result string string) (sprint : Yaml Other -> string).
Context (yaml_import : string -> result string (importPlaybookYAML Other)).
Context (json_import : string -> result string ImportAnswer).
Context (plannerLLM : option (string -> result string string)) (toolRegistry : option Registry).

Definition yaml_knowledge (y : importPlaybookYAML Other) : Knowledge :=
  {| k_Name := y_Name y; k_Description := y_Description y; k_ProblemClass := y_ProblemClass y;
     k_Guidance := yamlToString yaml_Marshal sprint (y_Guidance y);
     k_Symptoms := yamlToStringSlice yaml_Marshal sprint (y_Symptoms y);
     k_Escalation := yamlToStringSlice yaml_Marshal sprint (y_Escalation y); k_TargetHints := y_TargetHints y;
     k_EscalatesTo := y_EscalatesTo y; k_TransitionsTo := y_TransitionsTo y; k_SeriesID := y_SeriesID y;
     k_Author := y_Author y; k_Version := y_Version y; k_PlaybookType := "" |}.

Definition parsePlaybookYAML (text : string) (hints : PlaybookImportHints)
    : result string PlaybookImportResponse :=
  match yaml_import text with
  | Err e => Err e
  | Ok y =>
      let warnings :=
        ((if (y_Name y =?s "") && (hi_Name hints =?s "") then
            ["name is missing from YAML and not provided in hints"] else []) ++
         (if y_Description y =?s "" then
            ["description is missing — the planner needs this to generate steps"] else []))%list in
      Ok {| ir_Draft := imported_playbook (yaml_knowledge y) (y_Fields y); ir_WarningMessages := warnings;
            ir_Confidence := match warnings with [] => tenths 10 | _ => tenths 8 end |}
  end.

Definition parseImportResponse (raw : string) : result string PlaybookImportResponse :=
  match json_import (stripMarkdownFences raw) with
  | Err e => Err ("unmarshal LLM response: " ++ e)
  | Ok a =>
      let k := untyped (ia_Knowledge a) in
      Ok {| ir_Draft := imported_playbook k (ia_Fields a);
            ir_WarningMessages :=
              (ia_Warnings a ++
               if k_Name k =?s "" then ["name could not be extracted from the source text"] else [])%list;
            ir_Confidence := if SFleb (ia_Confidence a) (S754_zero false) then tenths 7 else ia_Confidence a |}
  end.

Definition import_schema : string :=
  "## Playbook Schema" ++ nl ++ nl ++
  "Extract the following fields from the source text:" ++ nl ++ nl ++
  "- name: short descriptive name (required)" ++ nl ++
  "- description: natural-language fleet intent; what steps to run and why (required)" ++ nl ++
  "- problem_class: one of: performance | availability | capacity | data_integrity | security" ++ nl ++
  "- symptoms: list of observable indicators that would trigger this playbook" ++ nl ++
  "- guidance: expert reasoning, heuristics, prioritization, common misdiagnoses (key field)" ++ nl ++
  "- escalation: list of conditions where the operator must stop and escalate to a human" ++ nl ++
  "- target_hints: list of server names, tags, or patterns this playbook applies to" ++ nl ++
  "- author: author or team name if mentioned" ++ nl ++
  "- version: version string if mentioned" ++ nl ++
  "- series_id: leave empty (will be generated)" ++ nl ++
  "- execution_mode: " ++ in_quotes "fleet" ++ " (default) for automated fleet jobs; " ++ in_quotes "agent"
      ++ " for interactive diagnostic" ++ nl ++
  "  sessions where the agent investigates and presents findings for operator review (read-only tools " ++
      "only)." ++ nl ++
  "  Use " ++ in_quotes "agent" ++ " only when the runbook is clearly an investigative/triage workflow, not " ++
      "a fleet operation." ++ nl ++
  "- entry_point: true if this is the recommended starting playbook for its problem class (e.g. the" ++ nl ++
  "  first playbook to run when a database is down). Default false." ++ nl ++
  "- escalates_to: leave empty — series IDs of follow-on playbooks cannot be inferred from text and" ++ nl ++
  "  must be filled in by the operator after import." ++ nl ++
  "- requires_evidence: list of log patterns or error signals that should be present before this" ++ nl ++
  "  playbook is selected (e.g. " ++ in_quotes "FATAL.*invalid value for parameter" ++ "). Extract from the " ++
      "source text" ++ nl ++
  "  where the author describes when to use this playbook." ++ nl ++ nl ++
  "For 'description', write it as a clear intent statement that an LLM fleet planner can" ++ nl ++
  "use to select appropriate tools from the Available Tools list above." ++ nl ++ nl.

Definition import_shape : string :=
  String.concat nl [
    "{";
    "  " ++ in_quotes "playbook" ++ ": {";
    "    " ++ in_quotes "name" ++ ": " ++ in_quotes "..." ++ ",";
    "    " ++ in_quotes "description" ++ ": " ++ in_quotes "..." ++ ",";
    "    " ++ in_quotes "problem_class" ++ ": " ++ in_quotes "..." ++ ",";
    "    " ++ in_quotes "symptoms" ++ ": [" ++ in_quotes "..." ++ "],";
    "    " ++ in_quotes "guidance" ++ ": " ++ in_quotes "..." ++ ",";
    "    " ++ in_quotes "escalation" ++ ": [" ++ in_quotes "..." ++ "],";
    "    " ++ in_quotes "target_hints" ++ ": [],";
    "    " ++ in_quotes "author" ++ ": " ++ in_quotes "..." ++ ",";
    "    " ++ in_quotes "version" ++ ": " ++ in_quotes "" ++ ",";
    "    " ++ in_quotes "series_id" ++ ": " ++ in_quotes "" ++ ",";
    "    " ++ in_quotes "execution_mode" ++ ": " ++ in_quotes "fleet" ++ ",";
    "    " ++ in_quotes "entry_point" ++ ": false,";
    "    " ++ in_quotes "escalates_to" ++ ": [],";
    "    " ++ in_quotes "requires_evidence" ++ ": [" ++ in_quotes "..." ++ "]";
    "  },";
    "  " ++ in_quotes "warning_messages" ++ ": [" ++ in_quotes "list any fields that could not be extracted " ++
      "or are uncertain" ++ "],";
    "  " ++ in_quotes "confidence" ++ ": 0.85";
    "}"].

Definition format_note (format : string) : string :=
  if format =?s "rundeck" then
    "Note: the source text is a Rundeck job definition. Translate shell commands and" ++ nl ++
    "node steps into natural language descriptions referencing the available tools." ++ nl ++ nl
  else if format =?s "ansible" then
    "Note: the source text is an Ansible playbook. Translate tasks into natural language" ++ nl ++
    "descriptions referencing the available tools where applicable." ++ nl ++ nl
  else "".

Definition hint_line (name value : string) : string :=
  if value =?s "" then "" else "- " ++ name ++ ": " ++ value ++ nl.

Definition hints_section (h : PlaybookImportHints) : string :=
  if (hi_Name h =?s "") && (hi_ProblemClass h =?s "") && (hi_SeriesID h =?s "") then ""
  else
    "## Hints" ++ nl ++ nl ++
    "The caller has provided these pre-filled values (use them if the extracted value is empty):" ++ nl ++
    hint_line "name" (hi_Name h) ++ hint_line "problem_class" (hi_ProblemClass h) ++
    hint_line "series_id" (hi_SeriesID h) ++ nl.

Definition assembleImportPrompt (text format : string) (hints : PlaybookImportHints) (toolCatalog : string)
    : string :=
  "You are a playbook authoring assistant for an AI database operations platform." ++ nl ++
  "Your job is to extract a structured playbook from the provided runbook text." ++ nl ++ nl ++
  "## Available Tools" ++ nl ++ nl ++ toolCatalog ++ nl ++ nl ++ import_schema ++ format_note format ++
  hints_section hints ++ "## Source Text (format: " ++ format ++ ")" ++ nl ++ nl ++ "---BEGIN SOURCE---" ++
      nl ++
  text ++ nl ++ "---END SOURCE---" ++ nl ++ nl ++ "## Response Format" ++ nl ++ nl ++
  "Output ONLY the following JSON object — no markdown fences, no commentary:" ++ nl ++ nl ++ import_shape
      ++ nl.

(** Hints fill in what the source left empty. *)
Definition hinted (hint old : string) : string := if old =?s "" then hint else old.

Definition apply_hints (h : PlaybookImportHints) (pb : Playbook) : Playbook :=
  {| PlaybookID := PlaybookID pb; pb_Name := hinted (hi_Name h) (pb_Name pb); pb_Description := pb_Description pb;
     TargetHints := TargetHints pb; pb_CreatedBy := pb_CreatedBy pb; pb_CreatedAt := pb_CreatedAt pb;
     pb_UpdatedAt := pb_UpdatedAt pb; ProblemClass := hinted (hi_ProblemClass h) (ProblemClass pb);
     Symptoms := Symptoms pb; Guidance := Guidance pb; pb_Escalation := pb_Escalation pb;
     RelatedPlaybooks := RelatedPlaybooks pb; Author := Author pb; LastValidated := LastValidated pb;
     pb_Version := pb_Version pb; pb_SeriesID := hinted (hi_SeriesID h) (pb_SeriesID pb); IsActive := IsActive pb;
     IsSystem := IsSystem pb; pb_Source := "imported"; OriginTrace := OriginTrace pb;
     PlaybookType := PlaybookType pb; EntryPoint := EntryPoint pb; EscalatesTo := EscalatesTo pb;
     TransitionsTo := TransitionsTo pb; RequiresEvidence := RequiresEvidence pb;
     pb_ExecutionMode := pb_ExecutionMode pb; PermittedTools := PermittedTools pb;
     pb_ApprovalMode := pb_ApprovalMode pb; pb_AgentName := pb_AgentName pb; JudgeVerdict := JudgeVerdict pb;
     JudgeModel := JudgeModel pb; JudgeAt := JudgeAt pb; RootCauseClasses := RootCauseClasses pb |}.

Definition import_answer (req : PlaybookImportRequest) (format : string) : ImportReply + PlaybookImportResponse :=
  if format =?s "yaml" then
    match parsePlaybookYAML (im_Text req) (im_Hints req) with
    | Err e => inl (ImportError 422 ("invalid YAML: " ++ e))
    | Ok resp => inr resp
    end
  else
    match plannerLLM, toolRegistry with
    | None, _ =>
        inl (ImportError 503 ("LLM not configured (HELPDESK_MODEL_VENDOR, " ++
               "HELPDESK_MODEL_NAME, HELPDESK_API_KEY)"))
    | Some _, None => inl (ImportError 503 "tool registry not available")
    | Some llm, Some reg =>
        match llm (assembleImportPrompt (im_Text req) format (im_Hints req) (buildPlannerToolCatalog reg)) with
        | Err e => inl (ImportError 502 ("LLM call failed: " ++ e))
        | Ok raw =>
            match parseImportResponse raw with
            | Err e => inl (ImportError 422 ("failed to parse LLM response: " ++ e))
            | Ok resp => inr resp
            end
        end
    end.

Definition handlePlaybookImport (body : result string PlaybookImportRequest) : ImportReply :=
  match body with
  | Err e => ImportError 400 ("invalid JSON: " ++ e)
  | Ok req =>
      if trim_space (im_Text req) =?s "" then ImportError 400 "text is required"
      else
        let format := or_default "text" (im_Format req) in
        if negb (mem format supportedImportFormats) then
          ImportError 400 ("unsupported format " ++ quote format ++
            "; supported: markdown, text, yaml, rundeck, ansible")
        else
          match import_answer req format with
          | inl err => err
          | inr resp =>
              Imported {| ir_Draft := apply_hints (im_Hints req) (ir_Draft resp);
                          ir_WarningMessages := ir_WarningMessages resp; ir_Confidence := ir_Confidence resp |}
          end
  end.
End Importing.

(** ** What a draft keeps of the active version *)

(** The members operators control. *)
Definition operations (pb : Playbook) :=
  (pb_ExecutionMode pb, pb_ApprovalMode pb, pb_AgentName pb, TransitionsTo pb, EscalatesTo pb,
   EntryPoint pb, RequiresEvidence pb, PermittedTools pb, TargetHints pb, PlaybookType pb).

Lemma str_index_None s sub : str_index s sub = None -> str_contains s sub = false.
Proof.
  unfold str_index. generalize 0. induction s as [|c s IH]; intros i; cbn [index_from str_contains].
  - by destruct (has_prefix "" sub).
  - destruct (has_prefix (String c s) sub); [done|]. apply IH.
Qed.

Lemma index_from_Some s sub i k : index_from i s sub = Some k ->
  i <= k /\ has_prefix (drop_bytes (k - i) s) sub = true.
Proof.
  revert i. induction s as [|c s IH]; intros i; cbn [index_from].
  - destruct (has_prefix "" sub) eqn:E; [|done]. intros [= <-]. by rewrite Nat.sub_diag.
  - destruct (has_prefix (String c s) sub) eqn:E; [intros [= <-]; by rewrite Nat.sub_diag|].
    intros H. apply IH in H as [Hle Hp]. split; [lia|].
    replace (k - i) with (S (k - S i)) by lia. done.
Qed.

Lemma str_index_Some s sub k : str_index s sub = Some k -> has_prefix (drop_bytes k s) sub = true.
Proof. intros H. apply index_from_Some in H as [_ H]. by rewrite Nat.sub_0_r in H. Qed.

(** A text that starts with a newline and a word keeps both when its newlines at the end go. *)
Lemma trim_keeps_start word s r : s = (word ++ r)%string ->
  trim_left_set (Ascii.eqb newline) (String.rev word) = String.rev word ->
  exists r', trim_right_newlines s = (word ++ r')%string.
Proof.
  intros -> Hn. unfold trim_right_newlines. rewrite rev_append_s.
  assert (H : forall a, exists b, trim_left_set (Ascii.eqb newline) (a ++ String.rev word)
             = (b ++ String.rev word)%string).
  { intros a. induction a as [|c a IH]; [exists ""; exact Hn|]. rewrite append_cons. cbn [trim_left_set].
    destruct (Ascii.eqb newline c); [exact IH|]. by exists (String c a). }
  destruct (H (String.rev r)) as [b ->]. exists (String.rev b). by rewrite rev_append_s, rev_involutive_s.
Qed.

Lemma keep_trailer_marker active guidance : str_contains active (nl ++ output_marker) = true ->
  str_contains (keep_trailer active guidance) output_marker = true.
Proof.
  intros Ha. unfold keep_trailer. destruct (str_index active _) as [k|] eqn:E.
  - destruct (str_contains guidance output_marker) eqn:G; [done|].
    apply str_index_Some, has_prefix_spec in E as [r Hr].
    destruct (trim_keeps_start (nl ++ output_marker) _ r Hr) as [r' ->]; [done|].
    apply str_contains_spec. exists (trim_right_newlines guidance ++ nl ++ nl), r'. by rewrite !app_assoc_s.
  - apply str_index_None in E. congruence.
Qed.

(** ** One draft *)

Lemma draft_playbook_control series8 req active parsed :
  IsActive (draft_playbook series8 req active parsed) = false /\
  IsSystem (draft_playbook series8 req active parsed) = IsSystem parsed /\
  pb_Source (draft_playbook series8 req active parsed) = "generated" /\
  pb_CreatedBy (draft_playbook series8 req active parsed) = "from-trace" /\
  OriginTrace (draft_playbook series8 req active parsed) = ft_TraceID req /\
  RootCauseClasses (draft_playbook series8 req active parsed) = RootCauseClasses parsed /\
  pb_SeriesID (draft_playbook series8 req active parsed) <> "" /\
  (ft_SeriesID req <> "" -> pb_SeriesID (draft_playbook series8 req active parsed) = ft_SeriesID req).
Proof.
  unfold draft_playbook.
  set (pb := match active with Some a => carry_over a (stamp req parsed) | None => stamp req parsed end).
  assert (Hpb : IsActive pb = false /\ IsSystem pb = IsSystem parsed /\ pb_Source pb = "generated" /\
    pb_CreatedBy pb = "from-trace" /\ OriginTrace pb = ft_TraceID req /\
    RootCauseClasses pb = RootCauseClasses parsed /\ pb_SeriesID pb = or_default (pb_SeriesID parsed) (ft_SeriesID req))
    by (subst pb; by destruct active).
  clearbody pb. destruct Hpb as (H1 & H2 & H3 & H4 & H5 & H6 & H7).
  destruct (pb_SeriesID pb =?s "") eqn:E.
  - repeat (split; [done|]). apply streq_spec in E. intros Hs. rewrite H7 in E. unfold or_default in E.
    rewrite (proj2 (streq_false _ _) Hs) in E. done.
  - apply streq_false in E. repeat (split; [done|]). intros Hs. rewrite H7. unfold or_default.
    by rewrite (proj2 (streq_false _ _) Hs).
Qed.

Lemma draft_playbook_operations series8 req active parsed :
  operations (draft_playbook series8 req (Some active) parsed) = operations active /\
  Guidance (draft_playbook series8 req (Some active) parsed) = keep_trailer (Guidance active) (Guidance parsed).
Proof. unfold draft_playbook. by destruct (_ =?s _). Qed.

(** The row auditd makes of a draft. *)
Lemma created_row now id8 series8 pb t t' r :
  handleCreate now id8 series8 (Ok pb) t = (t', r) ->
  t' = t \/
  (t' = t ++ [playbook_row (complete_playbook now id8 series8 pb)])%list /\
  existsb (has_id (PlaybookID (complete_playbook now id8 series8 pb))) t = false.
Proof.
  unfold handleCreate, Create. destruct (check_required pb); [intros [= <- _]; by left|].
  destruct (existsb _ t) eqn:E; intros [= <- _]; [by left|by right].
Qed.

Lemma row_of_generated now id8 series8 pb :
  IsActive pb = false -> pb_Source pb = "generated" ->
  let row := playbook_row (complete_playbook now id8 series8 pb) in
  IsActive row = false /\ pb_Source row = "generated" /\ IsSystem row = IsSystem pb /\
  pb_CreatedBy row = pb_CreatedBy pb /\ OriginTrace row = OriginTrace pb /\
  (pb_SeriesID pb <> "" -> pb_SeriesID row = pb_SeriesID pb) /\ Guidance row = Guidance pb /\
  operations row = (or_default "fleet" (pb_ExecutionMode pb), pb_ApprovalMode pb, pb_AgentName pb,
    TransitionsTo pb, EscalatesTo pb, EntryPoint pb, RequiresEvidence pb, PermittedTools pb, TargetHints pb,
    PlaybookType pb).
Proof.
  intros Ha Hs row. subst row. cbn [playbook_row complete_playbook with_control control_of IsActive pb_Source
    IsSystem pb_CreatedBy OriginTrace pb_SeriesID Guidance c_IsActive c_Source c_IsSystem c_CreatedBy
    c_OriginTrace c_SeriesID].
  rewrite Ha, Hs. cbn [or_default String.eqb Ascii.eqb Bool.eqb]. split.
  { unfold or_default. simpl. by destruct (pb_SeriesID pb =?s ""). }
  repeat (split; [done|]). split; [|done].
  intros H. unfold or_default. by rewrite (proj2 (streq_false _ _) H).
Qed.

(** ** The endpoint *)

Section FromTraceTheorems.
Context (auditURL : string) (plannerLLM : option (string -> result string string)).
Context (http_get : string -> Got) (json_array : string -> option (list string)).
Context (decode_steps : string -> result string (list TraceStep)) (encode_events : list TraceEvent -> string).
Context {Other : Type} (yaml_Marshal : Yaml Other -> result string string) (sprint : Yaml Other -> string).
Context (yaml_map : string -> result string (gmap string (Yaml Other))).
Context (order : Table -> Table) (fetch_ok : nat -> bool) (post : Post).
Context (now : Time) (id8 auditd8 series8 : string).

Notation parse := (parsePlaybookYAMLLenient yaml_Marshal sprint yaml_map).
Notation handle := (handlePlaybookFromTrace auditURL plannerLLM http_get json_array decode_steps encode_events
  parse order fetch_ok post now id8 auditd8 series8).
Notation fetch_trace := (fetchTraceEvents auditURL http_get json_array decode_steps encode_events).

Lemma grows_by_one (t : Table) row : (t ++ [row])%list <> t.
Proof. intros H. apply (f_equal List.length) in H. rewrite List.length_app in H. simpl in H. lia. Qed.

(** The decoder sets neither the system mark nor the root-cause classes. *)
Lemma parse_plain text pb : parse text = Ok pb -> IsSystem pb = false /\ RootCauseClasses pb = None.
Proof.
  unfold parsePlaybookYAMLLenient. destruct (yaml_map _); [by intros [= <-]|].
  destruct (_ && _); [done|]. by intros [= <-].
Qed.

(** What a request adds to the table. *)
Definition adds_draft (req : PlaybookFromTraceRequest) (t t' : Table) : Prop :=
  auditURL <> "" /\ exists text parsed, parse text = Ok parsed /\
    t' = (t ++ [playbook_row (complete_playbook now id8 auditd8
      (draft_playbook series8 req (kept_active auditURL order fetch_ok req t) parsed))])%list.

Lemma persist_adds pb t t' r : persistPlaybookDraft post now id8 auditd8 pb t = (t', r) ->
  t' = t \/ t' = (t ++ [playbook_row (complete_playbook now id8 auditd8 pb)])%list.
Proof.
  unfold persistPlaybookDraft. destruct (handleCreate now id8 auditd8 (Ok pb) t) as [t1 r1] eqn:E.
  destruct post; simpl.
  - intros [= <- _]. by left.
  - intros [= <- _]. apply created_row in E as [->|[-> _]]; [by left|by right].
  - assert (H : (t', r) = (t1, r) -> t' = t \/ t' = (t ++ [playbook_row (complete_playbook now id8 auditd8 pb)])%list).
    { intros [= ->]. apply created_row in E as [->|[-> _]]; [by left|by right]. }
    destruct r1; intros [= <- <-]; apply H; done.
Qed.

Lemma store_adds req draft t t' x :
  store_draft auditURL parse order fetch_ok post now id8 auditd8 series8 req draft t = (t', x) ->
  t' = t \/ adds_draft req t t'.
Proof.
  unfold store_draft. destruct (auditURL =?s "") eqn:Eu; [intros [= <- _]; by left|]. apply streq_false in Eu.
  destruct (parse draft) as [parsed|] eqn:Ep; [|intros [= <- _]; by left].
  destruct (persistPlaybookDraft _ _ _ _ _ _) as [t1 r1] eqn:E. intros [= <- _].
  apply persist_adds in E as [->| ->]; [by left|right]. split; [done|]. by exists draft, parsed.
Qed.

Lemma handle_inv body t t' r : handle body t = (t', r) ->
  (t' = t /\ exists code msg, r = DraftError code msg) \/
  exists req trace llm raw id warnings, body = Ok req /\ ft_TraceID req <> "" /\
    fetch_trace (ft_TraceID req) = Ok trace /\ isEmptyJSONArray json_array trace = false /\
    plannerLLM = Some llm /\
    llm (synthesis_prompt auditURL order fetch_ok (with_outcome req) trace t) = Ok raw /\
    store_draft auditURL parse order fetch_ok post now id8 auditd8 series8 (with_outcome req) (draft_text raw) t
      = (t', (id, warnings)) /\
    r = Drafted {| dr_Draft := draft_text raw; dr_Source := ft_TraceID req; dr_PlaybookID := id;
                   dr_Warnings := warnings |}.
Proof.
  unfold handlePlaybookFromTrace. destruct body as [req|e]; [|intros [= <- <-]; left; eauto].
  destruct (ft_TraceID req =?s "") eqn:Et; [intros [= <- <-]; left; eauto|]. apply streq_false in Et.
  destruct plannerLLM as [llm|]; [|intros [= <- <-]; left; eauto].
  change (ft_TraceID (with_outcome req)) with (ft_TraceID req).
  destruct (fetch_trace (ft_TraceID req)) as [trace|e] eqn:Ef;
    [|destruct (auditURL =?s ""); intros [= <- <-]; left; eauto].
  destruct (isEmptyJSONArray json_array trace) eqn:Ee; [intros [= <- <-]; left; eauto|].
  unfold synthesize. destruct (llm _) as [raw|e] eqn:El; [|intros [= <- <-]; left; eauto].
  destruct (store_draft _ _ _ _ _ _ _ _ _ _ _ _) as [t1 [id warnings]] eqn:Es. intros [= <- <-].
  right. exists req, trace, llm, raw, id, warnings. done.
Qed.

Lemma handle_adds body t t' r : handle body t = (t', r) ->
  t' = t \/ exists req, body = Ok req /\ adds_draft (with_outcome req) t t'.
Proof.
  intros H. apply handle_inv in H as [[-> _]|(req & trace & llm & raw & id & w & -> & _ & _ & _ & _ & _ & Hs & _)];
    [by left|].
  apply store_adds in Hs as [->|Hs]; [by left|right; eauto].
Qed.

(** The version whose settings are kept. *)
Lemma kept_active_Some req t active : auditURL <> "" -> ft_SeriesID req <> "" ->
  fetch_ok 0 = true \/ fetch_ok 1 = true ->
  head (ListPlaybooks order (list_query "true" "true" (ft_SeriesID req) "") t) = Some active ->
  kept_active auditURL order fetch_ok (with_outcome req) t = Some active.
Proof.
  intros Hu Hs Hf Ha. unfold kept_active, prompt_active, fetch_active.
  change (ft_SeriesID (with_outcome req)) with (ft_SeriesID req).
  rewrite (proj2 (streq_false _ _) Hu), (proj2 (streq_false _ _) Hs), Ha. simpl.
  destruct (fetch_ok 0); [done|]. by destruct Hf as [?| ->].
Qed.

Lemma concat_contains sep l x : In x l -> str_contains (String.concat sep l) x = true.
Proof.
  induction l as [|y l IH]; [done|]. intros Hin. apply str_contains_spec. destruct l as [|z l].
  - destruct Hin as [->|[]]. exists "", "". by rewrite app_empty_r.
  - change (String.concat sep (y :: z :: l)) with (y ++ sep ++ String.concat sep (z :: l))%string.
    destruct Hin as [->|Hin]; [by exists "", (sep ++ String.concat sep (z :: l))|].
    apply IH, str_contains_spec in Hin as (a & b & ->). exists (y ++ sep ++ a)%string, b. by rewrite !app_assoc_s.
Qed.

Lemma prompt_has_trace req trace t :
  str_contains (synthesis_prompt auditURL order fetch_ok req trace t) trace = true.
Proof.
  unfold synthesis_prompt. destruct (prompt_active _ _ _ _ _); apply concat_contains.
  - do 8 right. by left.
  - do 15 right. by left.
Qed.

(** Drafts wait for review.  Whatever trace is named and whatever the model
    writes, synthesis from a trace leaves every playbook of the table as it is and adds at
    most one, which is inactive, no system playbook, generated, marked with the trace it
    comes from, and in the series the caller named if it named one; so the versions that are
    active are those that were. *)
Theorem drafts_wait_for_review body t t' r (Hrun : handle body t = (t', r)) :
  List.filter IsActive t' = List.filter IsActive t /\
  (t' = t \/ exists req row, body = Ok req /\ t' = (t ++ [row])%list /\
     IsActive row = false /\ IsSystem row = false /\ pb_Source row = "generated" /\
     pb_CreatedBy row = "from-trace" /\ OriginTrace row = ft_TraceID req /\
     (ft_SeriesID req <> "" -> pb_SeriesID row = ft_SeriesID req)).
Proof.
  apply handle_adds in Hrun as [->|(req & -> & _ & text & parsed & Hp & ->)]; [by split; [|left]|].
  destruct (parse_plain _ _ Hp) as [Hsys _].
  destruct (draft_playbook_control series8 (with_outcome req)
    (kept_active auditURL order fetch_ok (with_outcome req) t) parsed) as (H1 & H2 & H3 & H4 & H5 & _ & H6 & H7).
  set (pb := draft_playbook _ _ _ _) in *.
  destruct (row_of_generated now id8 auditd8 pb H1 H3) as (R1 & R2 & R3 & R4 & R5 & R6 & _ & _).
  set (row := playbook_row _) in *. split.
  - rewrite List.filter_app. cbn [List.filter]. by rewrite R1, app_nil_r.
  - right. exists req, row. repeat split; try congruence.
    + by rewrite R5, H5.
    + intros Hs. rewrite R6 by done. by rewrite H7.
Qed.


(** Nothing is synthesised without evidence.  An answer with a draft means that
    a trace was read whose events are not an empty list, that the model was asked with a
    prompt holding that text, and that the draft is its answer without the fences; every
    refusal leaves the table as it was. *)
Theorem synthesis_has_evidence body t t' r (Hrun : handle body t = (t', r)) :
  match r with
  | DraftError _ _ => t' = t
  | Drafted resp =>
      exists req trace llm prompt raw, body = Ok req /\ fetch_trace (ft_TraceID req) = Ok trace /\
        isEmptyJSONArray json_array trace = false /\ plannerLLM = Some llm /\ llm prompt = Ok raw /\
        str_contains prompt trace = true /\ dr_Draft resp = draft_text raw /\ dr_Source resp = ft_TraceID req
  end.
Proof.
  apply handle_inv in Hrun as [[-> (code & msg & ->)]|(req & trace & llm & raw & id & w & -> & _ & Hf & He & Hl & Hr
    & _ & ->)]; [done|].
  exists req, trace, llm, (synthesis_prompt auditURL order fetch_ok (with_outcome req) trace t), raw.
  repeat (split; [done|]). split; [|done]. apply prompt_has_trace.
Qed.

(** The root-cause labels of a playbook do not reach the versions that
    synthesis makes of it: no row it adds has any. *)
Theorem synthesis_drops_root_causes body t t' r row (Hrun : handle body t = (t', r))
    (Hadd : t' = (t ++ [row])%list) : RootCauseClasses row = None.
Proof.
  apply handle_adds in Hrun as [Ht|(req' & -> & Hu & text & parsed & Hp & Ht)].
  { rewrite Hadd in Ht. by apply grows_by_one in Ht. }
  rewrite Hadd in Ht. apply app_inj_tail in Ht as [_ ->]. destruct (parse_plain _ _ Hp) as [_ Hc].
  destruct (draft_playbook_control series8 (with_outcome req')
    (kept_active auditURL order fetch_ok (with_outcome req') t) parsed) as (_ & _ & _ & _ & _ & H & _).
  set (pb := draft_playbook _ _ _ _) in *. clearbody pb. cbn [playbook_row complete_playbook with_control
    control_of RootCauseClasses c_RootCauseClasses]. by rewrite H, Hc.
Qed.
End FromTraceTheorems.

(** ** Protocol checks *)

Definition complete_draft (pb : Playbook) : Prop :=
  Forall (fun s => trim_space s <> "") [pb_Name pb; pb_SeriesID pb; pb_Description pb; Guidance pb] /\
  Symptoms pb <> [] /\ pb_Escalation pb <> [].

Lemma require_text_nil value field : require_text value field = [] <-> trim_space value <> "".
Proof. unfold require_text. destruct (_ =?s _) eqn:E; [apply streq_spec in E|apply streq_false in E]; done. Qed.

Lemma require_items_nil items field : require_items items field = [] <-> items <> [].
Proof. by destruct items. Qed.

Lemma common_requirements_nil pb : common_requirements pb = [] <-> complete_draft pb.
Proof.
  unfold common_requirements, complete_draft. rewrite !app_nil, !require_text_nil, !require_items_nil.
  rewrite !Forall_cons, Forall_nil. tauto.
Qed.

Lemma warn_unless_nil (b : bool) (w : string) : (if b then [] else [w]) = [] <-> b = true.
Proof. by destruct b. Qed.

Lemma warn_if_nil (b : bool) (w : string) : (if b then [w] else []) = [] <-> b = false.
Proof. by destruct b. Qed.

(** A draft has no warning exactly when it keeps the protocol of its type:
    a triage playbook is complete, runs as an agent, asks for findings and for a signal; a
    remediation playbook is complete, runs with approvals and gives no signal; another type
    has no protocol. *)
Theorem protocol_silent_iff pb :
  validatePlaybookProtocol pb = [] <->
  (PlaybookType pb = "triage" ->
     complete_draft pb /\ pb_ExecutionMode pb = "agent" /\ str_contains (Guidance pb) "FINDINGS:" = true /\
     has_signal (Guidance pb) = true) /\
  (PlaybookType pb = "remediation" ->
     complete_draft pb /\ pb_ExecutionMode pb = "agent_approve" /\ has_signal (Guidance pb) = false).
Proof.
  unfold validatePlaybookProtocol. destruct (PlaybookType pb =?s "triage") eqn:Et.
  - apply streq_spec in Et. rewrite Et, !app_nil, common_requirements_nil, !warn_unless_nil, streq_spec.
    split; [intros (?&?&?&?); by split|]. intros [H _]. by apply H.
  - apply streq_false in Et. destruct (PlaybookType pb =?s "remediation") eqn:Er.
    + apply streq_spec in Er. rewrite !app_nil, common_requirements_nil, warn_unless_nil, warn_if_nil, streq_spec.
      split; [intros (?&?&?); by split|]. intros [_ H]. by apply H.
    + apply streq_false in Er. done.
Qed.

(** ** Import *)

Section ImportTheorems.
Context {Other : Type} (yaml_Marshal : Yaml Other -> result string string) (sprint : Yaml Other -> string).
Context (yaml_import : string -> result string (importPlaybookYAML Other)).
Context (json_import : string -> result string ImportAnswer).
Context (plannerLLM : option (string -> result string string)) (toolRegistry : option Registry).

Notation import := (handlePlaybookImport yaml_Marshal sprint yaml_import json_import plannerLLM toolRegistry).

Lemma import_inv body resp : import body = Imported resp ->
  exists req k f warnings c, body = Ok req /\ k_PlaybookType k = "" /\
    resp = {| ir_Draft := apply_hints (im_Hints req) (imported_playbook k f); ir_WarningMessages := warnings;
              ir_Confidence := c |} /\
    (k_Name k = "" -> hi_Name (im_Hints req) = "" -> warnings <> []).
Proof.
  unfold handlePlaybookImport. destruct body as [req|]; [|done]. destruct (_ =?s _); [done|].
  destruct (negb _); [done|]. unfold import_answer.
  destruct (_ =?s "yaml").
  - unfold parsePlaybookYAML. destruct (yaml_import _) as [y|]; [|done]. intros [= <-]. do 5 eexists.
    split; [done|]. split; [|split; [reflexivity|]]; [done|]. cbn [yaml_knowledge k_Name]. by intros -> ->.
  - destruct plannerLLM as [llm|]; [|done]. destruct toolRegistry as [reg|]; [|done].
    destruct (llm _) as [raw|]; [|done]. unfold parseImportResponse.
    destruct (json_import _) as [a|]; [|done]. intros [= <-]. do 5 eexists.
    split; [done|]. split; [|split; [reflexivity|]]; [done|]. intros Hk _ H.
    apply app_eq_nil in H as [_ H]. cbn [untyped k_Name] in Hk, H. by rewrite Hk in H.
Qed.

(** An imported playbook waits for review.  Whatever the text and the model
    say, the draft of an import is inactive, no system playbook, marked as imported and
    runs in some mode; and when the caller posts it to auditd as it is, with or without a
    series, the row that is added is inactive too. *)
Theorem imports_wait_for_review body resp now id8 series8 t t' r
    (Himport : import body = Imported resp)
    (Hpost : handleCreate now id8 series8 (Ok (ir_Draft resp)) t = (t', r)) :
  IsActive (ir_Draft resp) = false /\ IsSystem (ir_Draft resp) = false /\ pb_Source (ir_Draft resp) = "imported" /\
  pb_ExecutionMode (ir_Draft resp) <> "" /\
  (t' = t \/ exists row, t' = (t ++ [row])%list /\ IsActive row = false /\ IsSystem row = false /\
     pb_Source row = "imported").
Proof.
  apply import_inv in Himport as (req & k & f & w & c & -> & _ & -> & _). cbn [ir_Draft] in *.
  repeat (split; [done|]). split.
  { cbn [apply_hints imported_playbook pb_ExecutionMode]. unfold or_default.
    destruct (_ =?s "") eqn:E; [done|]. by apply streq_false in E. }
  apply created_row in Hpost as [->|[-> _]]; [by left|right]. eexists. split; [reflexivity|]. split; [|done].
  cbn [playbook_row complete_playbook with_control control_of IsActive c_IsActive apply_hints imported_playbook
    pb_Source or_default String.eqb Ascii.eqb Bool.eqb negb orb andb].
  by rewrite andb_false_r.
Qed.

(** An import that could not find a name says so: a draft without a name
    comes with a warning. *)
Theorem nameless_import_warns body resp (Himport : import body = Imported resp)
    (Hname : pb_Name (ir_Draft resp) = "") : ir_WarningMessages resp <> [].
Proof.
  apply import_inv in Himport as (req & k & f & w & c & -> & _ & -> & Hw). cbn [ir_Draft ir_WarningMessages] in *.
  cbn [apply_hints pb_Name imported_playbook] in Hname. unfold hinted in Hname.
  destruct (k_Name k =?s "") eqn:E; [apply streq_spec in E; by apply Hw|]. apply streq_false in E. done.
Qed.

(** An import keeps no type, agent, permitted tools or root-cause labels:
    of a playbook file in the format of the system playbooks these members are lost. *)
Theorem import_drops_settings body resp (Himport : import body = Imported resp) :
  PlaybookType (ir_Draft resp) = "" /\ pb_AgentName (ir_Draft resp) = "" /\ PermittedTools (ir_Draft resp) = [] /\
  RootCauseClasses (ir_Draft resp) = None.
Proof. by apply import_inv in Himport as (req & k & f & w & c & -> & Hk & -> & _). Qed.
End ImportTheorems.

(** ** A toy gateway *)

Module DraftToy.

Definition guidance : string := "Look at the locks." ++ nl ++ "Required output" ++ nl ++ "FINDINGS: one line" ++ nl.

Definition active : Playbook :=
  {| PlaybookID := "pb_1"; pb_Name := "Locks"; pb_Description := "Find the blocker"; TargetHints := ["prod"];
       pb_CreatedBy := "ops"; pb_CreatedAt := 1; pb_UpdatedAt := 1; ProblemClass := "performance";
       Symptoms := ["slow"]; Guidance := guidance; pb_Escalation := ["call"]; RelatedPlaybooks := [];
       Author := "dba"; LastValidated := None; pb_Version := "1.0"; pb_SeriesID := "pbs_locks"; IsActive := true;
       IsSystem := false; pb_Source := "manual"; OriginTrace := ""; PlaybookType := "triage"; EntryPoint := true;
       EscalatesTo := []; TransitionsTo := ["pbs_kill"]; RequiresEvidence := []; pb_ExecutionMode := "agent";
       PermittedTools := ["get_locks"]; pb_ApprovalMode := "manual"; pb_AgentName := "postgres_database_agent";
       JudgeVerdict := ""; JudgeModel := ""; JudgeAt := 0;
       RootCauseClasses := Some {| rcc_Version := "1"; rcc_Classes := ["lock"] |} |}.

(** A model that writes a playbook with its own agent settings. *)
Definition written : gmap string (Yaml string) :=
  <["name" := YStr "Lock storm"]> (<["description" := YStr "Find and kill"]> (<["series_id" := YStr "pbs_other"]>
  (<["transitions_to" := YSeq [YStr "pbs_anything"]]> (<["guidance" := YStr "Kill it."]> ∅)))).

Definition run (req : PlaybookFromTraceRequest) (t : Table) : Table * DraftReply :=
  handlePlaybookFromTrace "http://auditd/" (Some (fun _ => Ok (fence ++ "yaml" ++ nl ++ "name: Lock storm")))
    (fun _ => Answered 200 "[{}]") (fun s => if s =?s "[]" then Some [] else Some [s]) (fun _ => Err "no steps")
    (fun _ => "[]")
    (parsePlaybookYAMLLenient (fun _ => Ok "") (fun _ => "") (fun _ => Ok written))
    (fun t => t) (fun _ => true) AnswerArrives 5 "id" "sr" "gw" (Ok req) t.

Definition request (series : string) : PlaybookFromTraceRequest :=
  {| ft_TraceID := "tr_1"; ft_Outcome := ""; ft_SeriesID := series; ft_Version := "1.1" |}.

Definition pinned : Table * DraftReply := run (request "pbs_locks") [active].
Definition new_row : Playbook := default active (last pinned.1).

Example pinned_reply : pinned.2 =
  Drafted {| dr_Draft := "yaml" ++ nl ++ "name: Lock storm"; dr_Source := "tr_1"; dr_PlaybookID := "pb_id";
             dr_Warnings := ["symptoms: at least one entry required"; "escalation: at least one entry required";
               "guidance: missing signal line — must end with TRANSITION_TO: <series_id> or " ++
               "ESCALATE_TO: <target|none>"] |}.
Proof. vm_compute. reflexivity. Qed.

(** Without a series the model's own routing is stored. *)
Example cold_draft :
  map (fun pb => (pb_SeriesID pb, TransitionsTo pb, IsActive pb)) (run (request "") [active]).1 =
    [("pbs_locks", ["pbs_kill"], true); ("pbs_other", ["pbs_anything"], false)].
Proof. vm_compute. reflexivity. Qed.

(** A trace id is not escaped in the query. *)
Example trace_id_in_query :
  trace_url "http://auditd" "x&limit=1" =
    "http://auditd/v1/events?trace_id=x&limit=1&event_type=tool_execution".
Proof. reflexivity. Qed.

Example cleaned :
  clean_yaml ("yaml" ++ nl ++ "name: a" ++ nl ++ fence ++ "sql" ++ nl ++ "`x`" ++ nl ++ fence) =
    "name: a" ++ nl ++ " `x`".
Proof. vm_compute. reflexivity. Qed.

Example scanned :
  s_name (extractPlaybookScalars ("name: A: b" ++ nl ++ "  name: c" ++ nl ++ "version: 2")) = "A: b".
Proof. vm_compute. reflexivity. Qed.

Definition import_run (text : string) : ImportReply :=
  handlePlaybookImport (Other := string) (fun _ => Ok "") (fun _ => "")
    (fun _ => Ok {| y_SeriesID := ""; y_Name := ""; y_Version := ""; y_ProblemClass := ""; y_Author := "";
       y_Description := "d"; y_Symptoms := YStr "s"; y_Guidance := YNull; y_Escalation := YNull;
       y_TargetHints := []; y_EscalatesTo := []; y_TransitionsTo := [];
       y_Fields := {| if_EntryPoint := false; if_RequiresEvidence := []; if_ExecutionMode := "";
                      if_ApprovalMode := "" |} |})
    (fun _ => Err "") None None
    (Ok {| im_Text := text; im_Format := "yaml"; im_Hints := {| hi_Name := ""; hi_ProblemClass := "capacity";
           hi_SeriesID := "" |} |}).

Definition import_draft : PlaybookImportResponse :=
  match import_run "x" with Imported r => r
  | ImportError _ _ => {| ir_Draft := active; ir_WarningMessages := []; ir_Confidence := tenths 1 |} end.
End DraftToy.

Lemma drafts_wait_for_review_witness :
  List.filter IsActive DraftToy.pinned.1 = List.filter IsActive [DraftToy.active] /\
  length DraftToy.pinned.1 = 2.
Proof.
  split; [|vm_compute; reflexivity].
  eapply drafts_wait_for_review. exact (surjective_pairing DraftToy.pinned).
Defined.


Lemma synthesis_has_evidence_witness :
  exists trace, str_contains (fromTraceUpdatePrompt "resolved" "" trace) trace = true /\
    isEmptyJSONArray (fun s => if s =?s "[]" then Some [] else Some [s]) trace = false.
Proof.
  pose proof (synthesis_has_evidence _ _ _ _ _ _ _ _ _ _ _ _ _ _ _ _ (Ok (DraftToy.request "pbs_locks"))
    [DraftToy.active] DraftToy.pinned.1 DraftToy.pinned.2 (surjective_pairing DraftToy.pinned)) as H.
  rewrite DraftToy.pinned_reply in H. destruct H as (req & trace & llm & prompt & raw & _ & Hf & He & _).
  exists trace. split; [|exact He]. apply concat_contains. do 8 right. by left.
Defined.

Lemma synthesis_drops_root_causes_witness :
  RootCauseClasses DraftToy.active <> None /\ RootCauseClasses DraftToy.new_row = None.
Proof.
  split; [discriminate|].
  apply (synthesis_drops_root_causes _ _ _ _ _ _ _ _ _ _ _ _ _ _ _ _ (Ok (DraftToy.request "pbs_locks"))
    [DraftToy.active] DraftToy.pinned.1 DraftToy.pinned.2 DraftToy.new_row (surjective_pairing DraftToy.pinned)).
  vm_compute. reflexivity.
Defined.

Lemma imports_wait_for_review_witness : IsActive (ir_Draft DraftToy.import_draft) = false.
Proof.
  assert (E : DraftToy.import_run "x" = Imported DraftToy.import_draft) by (vm_compute; reflexivity).
  unfold DraftToy.import_run in E.
  exact (proj1 (imports_wait_for_review _ _ _ _ _ _ _ _ 5 "a" "b" [] _ _ E (surjective_pairing _))).
Defined.

Lemma nameless_import_warns_witness : ir_WarningMessages DraftToy.import_draft <> [].
Proof.
  assert (E : DraftToy.import_run "x" = Imported DraftToy.import_draft) by (vm_compute; reflexivity).
  unfold DraftToy.import_run in E.
  apply (nameless_import_warns _ _ _ _ _ _ _ _ E). vm_compute. reflexivity.
Defined.

Lemma import_drops_settings_witness : PlaybookType (ir_Draft DraftToy.import_draft) = "".
Proof.
  assert (E : DraftToy.import_run "x" = Imported DraftToy.import_draft) by (vm_compute; reflexivity).
  unfold DraftToy.import_run in E. exact (proj1 (import_drops_settings _ _ _ _ _ _ _ _ E)).
Defined.
