(* ===== verification/GatewayProxy.v ===== *)
(** * The gateway's REST endpoints in front of auditd and of the inventory

    cmd/gateway/gateway.go: requests that are forwarded to auditd, the creation of fleet
    jobs, the registration of temporary databases, and the endpoints that list roles,
    tools, agents and databases.  auditd's answers, the decoders and encoders and the
    success of building a request are parameters.  JSON objects are lists of members; a
    JSON null decodes to a nil map, in which an assignment panics. *)

From S2P Require Import Prelude GoTime Identity Authz AuthzTables Events Action GovernanceCheck Infra.
From S2P Require Import ToolAudit Delegation ToolRegistry Gateway.

Open Scope string_scope.

(** ** Metrics *)

Definition GatewayMetrics : Type := gmap string Z.

Definition recordFabricationMismatch (agent actionClass : string) (m : GatewayMetrics) : GatewayMetrics :=
  let key := agent ++ "|" ++ actionClass in <[key := (default 0%Z (m !! key) + 1)%Z]> m.

(** A counter's key, cut at its first bar. *)
Definition metric_labels (key : string) : string * string :=
  match split_on "|" key with
  | agent :: (_ :: _) as rest => (agent, join "|" (tl rest))
  | _ => (key, "")
  end.

Definition metric_line (kv : string * Z) : string :=
  let '(agent, class) := metric_labels (fst kv) in
  "gateway_fabrication_mismatches_total{agent=" ++ quote agent ++ ",action_class=" ++ quote class ++ "} " ++
  itoa (snd kv) ++ nl.

(** [counters] in the order of the range. *)
Definition metrics_text (counters : list (string * Z)) : string :=
  "# HELP gateway_fabrication_mismatches_total Delegations where agent success had no matching audit-trail tool executions" ++ nl ++
  "# TYPE gateway_fabrication_mismatches_total counter" ++ nl ++ String.concat "" (map metric_line counters).

(** ** Replies *)

Inductive ProxyReply :=
  | Refuse (status : Z) (message : string)
  | JsonReply (status : Z) (members : anymap)
  | Relayed (status : Z) (traceID : string) (body : string).

(** A request to another service. *)
Record Upstream := { up_Method : string; up_URL : string; up_ContentType : string; up_Key : string; up_Body : string }.

(** The configuration these endpoints read. *)
Record ProxyConfig := {
  px_auditURL : string;
  px_auditAPIKey : string;
  px_agentAPIKey : string;
  px_usersFile : string;
  px_authzr : option Authorizer;
  px_aliases : list (string * string) }.

Section Proxy.
Context (cfg : ProxyConfig).
Context (built : string -> bool) (exchange : Upstream -> result string (Z * string)).

Definition not_configured : anymap :=
  [("enabled", ABool false);
   ("message", AStr "Governance service not configured. Set HELPDESK_AUDIT_URL to enable.")].

Definition target_url (path rawQuery : string) : string :=
  px_auditURL cfg ++ path ++ (if rawQuery =?s "" then "" else "?" ++ rawQuery).

Definition proxyGovernanceRequest (method path rawQuery contentType body : string) : list Upstream * ProxyReply :=
  if px_auditURL cfg =?s "" then ([], JsonReply 200 not_configured)
  else if negb (built (target_url path rawQuery)) then ([], Refuse 500 "internal error")
  else
    let up := {| up_Method := method; up_URL := target_url path rawQuery; up_ContentType := contentType;
                 up_Key := px_auditAPIKey cfg; up_Body := body |} in
    match exchange up with
    | Err _ => ([up], Refuse 502 "governance service unavailable")
    | Ok (status, answer) => ([up], Relayed status "" answer)
    end.

Definition fleet_unconfigured := "fleet service not configured. Set HELPDESK_AUDIT_URL to enable.".

Definition proxyFleetRequest (path rawQuery method body : string) : list Upstream * ProxyReply :=
  if px_auditURL cfg =?s "" then ([], Refuse 503 fleet_unconfigured)
  else if negb (built (target_url path rawQuery)) then ([], Refuse 500 "internal error")
  else
    let up := {| up_Method := method; up_URL := target_url path rawQuery; up_ContentType := "application/json";
                 up_Key := px_auditAPIKey cfg; up_Body := body |} in
    match exchange up with
    | Err _ => ([up], Refuse 502 "fleet service unavailable")
    | Ok (status, answer) => ([up], Relayed status "" answer)
    end.

(** The paths of the forwarded routes; the values of the path are decoded and not
    escaped again. *)
Definition approve_path (id : string) : string := "/v1/approvals/" ++ id ++ "/approve".
Definition deny_path (id : string) : string := "/v1/approvals/" ++ id ++ "/deny".
Definition event_path (eventID : string) : string := "/v1/events/" ++ eventID.
Definition job_path (jobID : string) : string := "/v1/fleet/jobs/" ++ jobID.
Definition job_servers_path (jobID : string) : string := job_path jobID ++ "/servers".
Definition job_server_path (jobID serverName : string) : string := job_servers_path jobID ++ "/" ++ serverName.
Definition job_steps_path (jobID serverName : string) : string := job_server_path jobID serverName ++ "/steps".
Definition job_approval_path (jobID approvalID : string) : string := job_path jobID ++ "/approval/" ++ approvalID.

(** The query of the explain endpoint: a member is added where it is absent. *)
Definition query_get (k : string) (q : list (string * string)) : string :=
  match find (fun kv => fst kv =?s k) q with Some kv => snd kv | None => "" end.

Definition query_set (k v : string) (q : list (string * string)) : list (string * string) :=
  (List.filter (fun kv => negb (fst kv =?s k)) q ++ [(k, v)])%list.

Definition query_default (k v : string) (q : list (string * string)) : list (string * string) :=
  if (query_get k q =?s "") && negb (v =?s "") then query_set k v q else q.

Definition explain_query (r : Request) (q : list (string * string)) : list (string * string) :=
  let '(p, purpose, _, _) := resolveRequest r "" "" in
  let q := query_default "service" (Service p) (query_default "user_id" (UserID p) q) in
  let q := match Roles p with
           | role :: _ => if query_get "role" q =?s "" then query_set "role" role q else q
           | [] => q
           end in
  query_default "purpose" purpose q.

Definition handleGovernanceExplain (encode : list (string * string) -> string) (r : Request)
    (q : list (string * string)) (contentType body : string) : list Upstream * ProxyReply :=
  proxyGovernanceRequest (rq_Method r) "/v1/governance/explain" (encode (explain_query r q)) contentType body.

(** ** GET /api/v1/governance *)

Definition governance_config : anymap :=
  (("auth_mode", AStr (if px_usersFile cfg =?s "" then "dev" else "enforcing")) ::
   (if px_usersFile cfg =?s "" then [] else [("users_file", AStr (px_usersFile cfg))]) ++
   match px_authzr cfg with
   | Some a => [("roles", AMap (map (fun kv => (fst kv, AList (map AStr (snd kv)))) (map_to_list (RoleGrants a))))]
   | None => []
   end)%list.

(** [upstream\[k\] = v] on a decoded object; [None] is the nil map. *)
Definition map_assign (k : string) (v : any) (m : option (list (string * any))) : outcome (list (string * any)) :=
  match m with
  | None => Panics
  | Some m => Returns (List.filter (fun kv => negb (fst kv =?s k)) m ++ [(k, v)])%list
  end.

Definition handleGovernance (decode : string -> option (option (list (string * any)))) : outcome (list Upstream * ProxyReply) :=
  if px_auditURL cfg =?s "" then
    Returns ([], JsonReply 200 (not_configured ++ [("config", AMap governance_config)])%list)
  else
    let up := {| up_Method := "GET"; up_URL := px_auditURL cfg ++ "/v1/governance/info"; up_ContentType := "";
                 up_Key := ""; up_Body := "" |} in
    match exchange up with
    | Err _ => Returns ([up], Refuse 502 "governance service unavailable")
    | Ok (status, answer) =>
        match decode answer with
        | None => Returns ([up], Refuse 502 "governance service returned invalid JSON")
        | Some upstream =>
            match map_assign "config" (AMap governance_config) upstream with
            | Returns m => Returns ([up], JsonReply status m)
            | Panics => Panics
            end
        end
    end.

(** ** POST /api/v1/fleet/jobs *)

Context (g : Gateway) (fr : Fresh) (now : Time).
Context (unmarshal_object : string -> result string (option (list (string * any)))).
Context (marshal_object : list (string * any) -> string).
(** The job id and the name in auditd's answer. *)
Context (unmarshal_created : string -> option (string * string)).

Definition job_request (r : Request) (jobID jobName : string) (code : Z) : GatewayRequest :=
  let '(p, purpose, _, _) := resolveRequest r "" "" in
  {| gr_RequestID := ""; gr_TraceID := "tr_" ++ jobID; gr_ContextID := ""; gr_ParentID := "";
     gr_Principal := EffectiveID p; gr_ResolvedPrincipal := p; gr_Purpose := purpose; gr_PurposeNote := "";
     gr_Environment := ""; gr_Endpoint := rq_Path r; gr_Method := rq_Method r; gr_Agent := ""; gr_ToolName := "";
     gr_ToolParameters := []; gr_ActionClass := ""; gr_Message := "fleet job: " ++ jobName; gr_Response := "";
     gr_StartTime := now; gr_Duration := 0; gr_Status := "success"; gr_Error := ""; gr_HTTPCode := code |}.

(** The body that is forwarded: the caller is the submitter unless the body names one. *)
Definition with_submitter (p : ResolvedPrincipal) (body : option (list (string * any))) : outcome (list (string * any)) :=
  if match body with Some m => has_key m "submitted_by" | None => false end then
    match body with Some m => Returns m | None => Panics end
  else map_assign "submitted_by" (AStr (EffectiveID p)) body.

Definition job_name (created : string) (body : anymap) : string :=
  if created =?s "" then match map_get "name" body with Some (AStr n) => n | _ => "" end else created.

Definition handleFleetCreateJob (r : Request) (bytes : option string) : outcome (list Upstream * list Effect * ProxyReply) :=
  if px_auditURL cfg =?s "" then Returns ([], [], Refuse 503 fleet_unconfigured)
  else
    match bytes with
    | None => Returns ([], [], Refuse 400 "failed to read body")
    | Some bytes =>
        match unmarshal_object bytes with
        | Err e => Returns ([], [], Refuse 400 ("invalid JSON body: " ++ e))
        | Ok body =>
            let '(p, _, _, _) := resolveRequest r "" "" in
            match with_submitter p body with
            | Panics => Panics
            | Returns body =>
                let url := px_auditURL cfg ++ "/v1/fleet/jobs" in
                if negb (built url) then Returns ([], [], Refuse 500 "internal error")
                else
                  let up := {| up_Method := "POST"; up_URL := url; up_ContentType := "application/json";
                               up_Key := px_auditAPIKey cfg; up_Body := marshal_object body |} in
                  match exchange up with
                  | Err _ => Returns ([up], [], Refuse 502 "fleet service unavailable")
                  | Ok (status, answer) =>
                      let created := if (status =? 201)%Z || (status =? 200)%Z then unmarshal_created answer else None in
                      match created with
                      | Some (jobID, name) =>
                          if jobID =?s "" then Returns ([up], [], Relayed status "" answer)
                          else
                            Returns ([up], recordAudit g fr now (job_request r jobID (job_name name body) status),
                                     Relayed status ("tr_" ++ jobID) answer)
                      | None => Returns ([up], [], Relayed status "" answer)
                      end
                  end
            end
        end
    end.
End Proxy.

(** ** Temporary databases *)

Record EphemeralDB := {
  ed_ServerID : string;
  ed_Name : string;
  ed_ConnectionString : string;
  ed_Tags : list string;
  ed_HostingType : string;
  ed_ContainerName : string }.

Definition ephemeralVMKey := "__ephemeral_local__".

Definition in_container (req : EphemeralDB) : bool :=
  (ed_HostingType req =?s "docker") || (ed_HostingType req =?s "podman").

Definition ephemeral_server (req : EphemeralDB) : DBServer :=
  {| db_Name := ed_Name req; ConnectionString := ed_ConnectionString req; PasswordEnv := ""; db_K8sCluster := "";
     K8sNamespace := ""; K8sPodSelector := ""; VMName := if in_container req then ephemeralVMKey else "";
     ContainerName := if in_container req then ed_ContainerName req else ""; SystemdUnit := "";
     db_Tags := ed_Tags req; db_Sensitivity := []; ApprovalOverrideRoles := [] |}.

Definition register_db (req : EphemeralDB) (c : option InfraConfig) : InfraConfig :=
  let c := default {| DBServers := ∅; K8sClusters := ∅; VMs := ∅ |} c in
  {| DBServers := <[ed_ServerID req := ephemeral_server req]> (DBServers c); K8sClusters := K8sClusters c;
     VMs := if in_container req
            then <[ephemeralVMKey := {| vm_Name := ephemeralVMKey; Address := ""; Runtime := ed_HostingType req |}]> (VMs c)
            else VMs c |}.

(** A POST to an agent, with its JSON body. *)
Record AgentPost := { ap_URL : string; ap_Key : string; ap_Body : anymap }.

Definition admin_post (invokeURL : string) (req : EphemeralDB) : AgentPost :=
  {| ap_URL := trim_suffix invokeURL "/invoke" ++ "/admin/register-db"; ap_Key := "";
     ap_Body := [("server_id", AStr (ed_ServerID req)); ("name", AStr (ed_Name req));
                 ("connection_string", AStr (ed_ConnectionString req)); ("tags", AList (map AStr (ed_Tags req)));
                 ("hosting_type", AStr (ed_HostingType req)); ("container_name", AStr (ed_ContainerName req))] |}.

Definition sysadmin_post (key invokeURL : string) (req : EphemeralDB) : AgentPost :=
  {| ap_URL := trim_suffix invokeURL "/invoke" ++ "/tool/register_infra_db"; ap_Key := key;
     ap_Body := [("server_id", AStr (ed_ServerID req)); ("container_name", AStr (ed_ContainerName req));
                 ("runtime", AStr (ed_HostingType req)); ("conn_str", AStr (ed_ConnectionString req))] |}.

Definition handleRegisterEphemeralDB (cfg : ProxyConfig) (agents : gmap string string)
    (body : result string EphemeralDB) (c : option InfraConfig) : option InfraConfig * list AgentPost * ProxyReply :=
  match body with
  | Err e => (c, [], Refuse 400 ("bad request: " ++ e))
  | Ok req =>
      if (ed_ServerID req =?s "") || (ed_ConnectionString req =?s "") then
        (c, [], Refuse 400 "server_id and connection_string are required")
      else
        (Some (register_db req c),
         ((match agents !! PlaybookPrompt.agentNameDB with Some url => [admin_post url req] | None => [] end) ++
          (if in_container req && negb (ed_ContainerName req =?s "") then
             match agents !! PlaybookPrompt.agentNameSysadmin with
             | Some url => [sysadmin_post (px_agentAPIKey cfg) url req]
             | None => []
             end
           else []))%list,
         JsonReply 200 [("server_id", AStr (ed_ServerID req)); ("status", AStr "registered")])
  end.

(** ** Listings *)

Definition handleListTools (reg : option Registry) : list ToolEntry * option Z * string :=
  match reg with
  | None => ([], None, "Tool registry not available.")
  | Some r => (tools r, Some (Z.of_nat (length (tools r))), "")
  end.

Definition handleGetTool (reg : option Registry) (toolName : string) : result (Z * string) ToolEntry :=
  match reg with
  | None => Err (503%Z, "tool registry not available")
  | Some r => match Get_tool toolName r with Some e => Ok e | None => Err (404%Z, "tool not found: " ++ toolName) end
  end.

Record RolesReply := {
  rr_Roles : list (string * list string);
  rr_AdminRole : string;
  rr_Aliases : list (string * string);
  rr_Enforcing : bool }.

Definition handleListRoles (cfg : ProxyConfig) : RolesReply :=
  match px_authzr cfg with
  | None => {| rr_Roles := []; rr_AdminRole := "admin"; rr_Aliases := px_aliases cfg; rr_Enforcing := false |}
  | Some a =>
      {| rr_Roles := map (fun name => (name, default [] (RoleGrants a !! name)))
                         (isort String.ltb (map fst (map_to_list (RoleGrants a))));
         rr_AdminRole := adminRole a; rr_Aliases := px_aliases cfg; rr_Enforcing := enforcing a |}
  end.

(** The counts, the databases and the summary of the inventory, when there is one. *)
Definition handleListInfrastructure (c : option InfraConfig) (servers : list (string * DBServer))
    : option (Z * Z * Z * list DBInfo * string) :=
  match c with
  | None => None
  | Some cfg =>
      Some (Z.of_nat (size (DBServers cfg)), Z.of_nat (size (K8sClusters cfg)), Z.of_nat (size (VMs cfg)),
            ListDatabases c servers, Summary c servers)
  end.

Definition handleListDatabases (c : option InfraConfig) (servers : list (string * DBServer)) : list DBInfo * option Z :=
  match c with
  | None => ([], None)
  | Some cfg => (ListDatabases c servers, Some (Z.of_nat (size (DBServers cfg))))
  end.

(** ** Creating a job *)

Section Jobs.
Context (cfg : ProxyConfig) (built : string -> bool) (exchange : Upstream -> result string (Z * string)).
Context (g : Gateway) (fr : Fresh) (now : Time).
Context (unmarshal_object : string -> result string (option (list (string * any)))).
Context (marshal_object : list (string * any) -> string) (unmarshal_created : string -> option (string * string)).

Abbreviation create := (handleFleetCreateJob cfg built exchange g fr now unmarshal_object marshal_object unmarshal_created).

Lemma map_get_app k m v : has_key m k = false -> map_get k (m ++ [(k, v)]) = Some v.
Proof.
  unfold map_get, has_key. induction m as [|[k' v'] m IH]; simpl; [by rewrite streq_refl|].
  destruct (k' =?s k); [done|]. exact IH.
Qed.

Lemma submitter_spec p body m : with_submitter p (Some body) = Returns m ->
  map_get "submitted_by" m =
  if has_key body "submitted_by" then map_get "submitted_by" body else Some (AStr (EffectiveID p)).
Proof.
  unfold with_submitter, map_assign. destruct (has_key body "submitted_by") eqn:E; intros [= <-]; [done|].
  apply map_get_app. unfold has_key in *. destruct (existsb _ (List.filter _ _)) eqn:E'; [|done].
  apply existsb_exists in E' as (kv & [_ Hn]%filter_In & Hk). by rewrite Hk in Hn.
Qed.

(**  A fleet job created through the gateway: the handler panics exactly
    on a body that is a JSON null; otherwise at most one request goes to auditd, with the
    caller as submitter unless the body names another; and a request is recorded, under
    the trace of the job that the reply announces, exactly when auditd has answered 200 or
    201 with a job id. *)
Theorem job_creation_traced r bytes : px_auditURL cfg <> "" -> g_audited g = true ->
  (create r (Some bytes) = Panics <-> unmarshal_object bytes = Ok None) /\
  forall ups effs reply, create r (Some bytes) = Returns (ups, effs, reply) ->
    (forall up, In up ups -> exists body m, ups = [up] /\ up_Method up = "POST" /\ up_Body up = marshal_object m /\
       unmarshal_object bytes = Ok (Some body) /\
       map_get "submitted_by" m =
         if has_key body "submitted_by" then map_get "submitted_by" body else Some (AStr (EffectiveID (caller r)))) /\
    match events_of effs with
    | [] => forall status trace answer, reply = Relayed status trace answer -> trace = ""
    | es => exists e status answer jobID name, es = [e] /\ reply = Relayed status ("tr_" ++ jobID) answer /\
        In status [200; 201]%Z /\ unmarshal_created answer = Some (jobID, name) /\ jobID <> "" /\
        TraceID e = "tr_" ++ jobID /\ s_UserID (e_Session e) = EffectiveID (caller r)
    end.
Proof.
  intros Hu Ha. unfold handleFleetCreateJob. rewrite (proj2 (streq_false _ _) Hu), resolveRequest_headers.
  destruct (unmarshal_object bytes) as [[body|]|e] eqn:Eb; cbn [with_submitter map_assign].
  2: by split.
  2: { split; [done|]. intros ups effs reply [= <- <- <-]. split; [intros up []|]. by intros. }
  pose proof (submitter_spec (caller r) body) as Hsub.
  destruct (with_submitter (caller r) (Some body)) as [m|] eqn:Em.
  2: { unfold with_submitter, map_assign in Em. by destruct (has_key body "submitted_by"). }
  specialize (Hsub m eq_refl). destruct (negb (built _)); [split; [done|]; intros ups effs reply [= <- <- <-]; by split|].
  set (up := {| up_Method := _ |}). destruct (exchange up) as [[status answer]|e].
  2: { split; [done|]. intros ups effs reply [= <- <- <-].
       split; [|done]. intros up' [<-|[]]. by exists body, m. }
  assert (Hups : forall up', In up' [up] -> exists body0 m0, [up] = [up'] /\ up_Method up' = "POST" /\
    up_Body up' = marshal_object m0 /\ Ok (Some body) = Ok (E := string) (Some body0) /\
    map_get "submitted_by" m0 = if has_key body0 "submitted_by" then map_get "submitted_by" body0
                                else Some (AStr (EffectiveID (caller r)))).
  { intros up' [<-|[]]. by exists body, m. }
  destruct ((status =? 201)%Z || (status =? 200)%Z) eqn:Es.
  2: { split; [done|]. intros ups effs reply [= <- <- <-]. split; [done|]. by intros ? ? ? [= _ <- _]. }
  destruct (unmarshal_created answer) as [[jobID name]|] eqn:Ec.
  2: { split; [done|]. intros ups effs reply [= <- <- <-]. split; [done|]. by intros ? ? ? [= _ <- _]. }
  destruct (jobID =?s "") eqn:Ej; (split; [done|]; intros ups effs reply [= <- <- <-]; split; [done|]).
  - by intros ? ? ? [= _ <- _].
  - apply streq_false in Ej. unfold recordAudit, RecordRequest. rewrite Ha. cbn [map events_of flat_map app].
    eexists _, status, answer, jobID, name. split; [reflexivity|]. split_and!; try done.
    + apply orb_true_iff in Es as [E|E]; apply Z.eqb_eq in E as ->; simpl; auto.
    + unfold request_event, job_request. by rewrite resolveRequest_headers.
    + unfold request_event, job_request. by rewrite resolveRequest_headers.
Qed.
End Jobs.

(** ** Temporary databases and the inventory *)

(** Registration leaves the other servers and the clusters alone, but an existing server of
    the same id loses its sensitivity and its override roles. *)
Lemma register_db_spec req c :
  DBServers (register_db req (Some c)) !! ed_ServerID req = Some (ephemeral_server req) /\
  (forall id, id <> ed_ServerID req -> DBServers (register_db req (Some c)) !! id = DBServers c !! id) /\
  K8sClusters (register_db req (Some c)) = K8sClusters c /\
  db_Sensitivity (ephemeral_server req) = [] /\ ApprovalOverrideRoles (ephemeral_server req) = [].
Proof.
  split_and!; try done; simpl; [by rewrite lookup_insert_eq|]. intros id Hid. by rewrite lookup_insert_ne.
Qed.

Module ProxyToy.

(** The id of a denial, decoded from the path, can turn it into an approval. *)
Example deny_becomes_approve :
  target_url {| px_auditURL := "http://auditd"; px_auditAPIKey := ""; px_agentAPIKey := ""; px_usersFile := "";
                px_authzr := None; px_aliases := [] |} (deny_path "apr_1/approve?x=") "" =
  "http://auditd/v1/approvals/apr_1/approve?x=/deny".
Proof. reflexivity. Qed.
End ProxyToy.

Lemma job_creation_traced_witness :
  handleFleetCreateJob
    {| px_auditURL := "http://auditd"; px_auditAPIKey := ""; px_agentAPIKey := ""; px_usersFile := "";
       px_authzr := None; px_aliases := [] |} (fun _ => true) (fun _ => Err "") (GatewayToy.toy "") GatewayToy.fresh
    GatewayToy.start (fun _ => Ok None) (fun _ => "") (fun _ => None) (GatewayToy.request None) (Some "null") = Panics.
Proof.
  apply (job_creation_traced {| px_auditURL := "http://auditd"; px_auditAPIKey := ""; px_agentAPIKey := "";
    px_usersFile := ""; px_authzr := None; px_aliases := [] |}); [discriminate|reflexivity|reflexivity].
Defined.

(** The route of the registration asks for no role: any caller with an identity passes. *)
Lemma anyone_registers p : IsAnonymous p = false ->
  Authorize (NewAuthorizer DefaultGatewayPermissions true) "POST /api/v1/admin/infra/register-db" p = None.
Proof.
  intros Hp. apply (Authorize_known _ _ p {| RequireRoles := []; ServiceOnly := false; AdminBypass := true; AllowAnonymous := false |});
    [reflexivity|vm_compute; reflexivity|].
  right. split; [exact Hp|]. right. split; [discriminate|]. left. reflexivity.
Qed.
