(* ===== verification/Notifications.v ===== *)
(** * cmd/auditd/approval_notifier.go: who hears of an approval request

    The notifier keeps a URL for each request whose resolution is to be called back, and
    posts to a webhook, to these URLs and to a mail server.  ApprovalHandlers keeps the calls
    of [NotifyCreated] and [NotifyResolved] in their order; here they run, along with the
    handlers, on the notifier's map.  The source makes each delivery in a goroutine: a
    [Delivery] says what is sent, in the order in which these are started; what becomes of
    it is only logged.  The map is not locked in the source; here the calls follow each
    other.  The clock's text [stamp] and seconds [unix], and the JSON encoder behind the
    members of a body, are parameters. *)

From S2P Require Import Prelude GoTime TimeText Identity Authz Events ApprovalStore ApprovalHandlers PlaybookPrompt.

Open Scope string_scope.

(** ** The notifier *)

Record ApprovalNotifierConfig := {
  cf_WebhookURL : string;
  cf_BaseURL : string;
  cf_SMTPHost : string;
  cf_SMTPPort : string;
  cf_SMTPUser : string;
  cf_SMTPPassword : string;
  cf_EmailFrom : string;
  cf_EmailTo : string }.

Record ApprovalNotifier := {
  webhookURL : string;
  callbackURLs : gmap string string;
  baseURL : string;
  smtpHost : string;
  smtpPort : string;
  smtpUser : string;
  smtpPassword : string;
  emailFrom : string;
  emailTo : list string }.

Definition NewApprovalNotifier (cfg : ApprovalNotifierConfig) : ApprovalNotifier :=
  {| webhookURL := cf_WebhookURL cfg; callbackURLs := ∅; baseURL := trim_suffix (cf_BaseURL cfg) "/";
     smtpHost := cf_SMTPHost cfg; smtpPort := cf_SMTPPort cfg; smtpUser := cf_SMTPUser cfg;
     smtpPassword := cf_SMTPPassword cfg; emailFrom := cf_EmailFrom cfg;
     emailTo := if cf_EmailTo cfg =?s "" then [] else map trim_space (split_on "," (cf_EmailTo cfg)) |}.

(** main.go: without a base URL, the listen address where there is mail. *)
Definition notifier_config (approvalBaseURL listenAddr : string) (cfg : ApprovalNotifierConfig) : ApprovalNotifierConfig :=
  {| cf_WebhookURL := cf_WebhookURL cfg;
     cf_BaseURL := if (approvalBaseURL =?s "") && given (cf_SMTPHost cfg) then "http://localhost" ++ listenAddr
                   else approvalBaseURL;
     cf_SMTPHost := cf_SMTPHost cfg; cf_SMTPPort := cf_SMTPPort cfg; cf_SMTPUser := cf_SMTPUser cfg;
     cf_SMTPPassword := cf_SMTPPassword cfg; cf_EmailFrom := cf_EmailFrom cfg; cf_EmailTo := cf_EmailTo cfg |}.

Definition mails (n : ApprovalNotifier) : bool :=
  given (smtpHost n) && match emailTo n with [] => false | _ => true end.

Definition IsEnabled (n : ApprovalNotifier) : bool := given (webhookURL n) || mails n.

Definition with_callbacks (m : gmap string string) (n : ApprovalNotifier) : ApprovalNotifier :=
  {| webhookURL := webhookURL n; callbackURLs := m; baseURL := baseURL n; smtpHost := smtpHost n;
     smtpPort := smtpPort n; smtpUser := smtpUser n; smtpPassword := smtpPassword n; emailFrom := emailFrom n;
     emailTo := emailTo n |}.

Definition RegisterCallback (approvalID callbackURL : string) (n : ApprovalNotifier) : ApprovalNotifier :=
  if given callbackURL then with_callbacks (<[approvalID := callbackURL]> (callbackURLs n)) n else n.

(** ** What is sent *)

Inductive Delivery :=
  | PostWebhook (url : string) (body : anymap)
  | PostCallback (url : string) (body : anymap)
  | SendMail (addr : string) (auth : option (string * string)) (from : string) (to : list string) (message : string).

(** The title of a message to Slack, its emoji and its colour. *)
Definition slack_style (status : string) : string * string * string :=
  if status =?s "approved" then (":white_check_mark:", "#36A64F", "Approval Granted")
  else if status =?s "denied" then (":x:", "#FF0000", "Approval Denied")
  else if status =?s "expired" then (":alarm_clock:", "#808080", "Approval Expired")
  else if status =?s "cancelled" then (":no_entry_sign:", "#808080", "Approval Cancelled")
  else (":hourglass:", "#FFA500", "Approval Request Created").

Definition slack_field (name value : string) : string := "*" ++ name ++ ":* " ++ value ++ nl.
Definition if_given (value text : string) : string := if given value then text else "".

Definition slack_text (emoji title : string) (a : StoredApproval) : string :=
  emoji ++ " *" ++ title ++ "*" ++ nl ++
  "*ID:* `" ++ ApprovalID a ++ "`" ++ nl ++
  slack_field "Action" (sa_ActionClass a) ++
  if_given (ToolName a) (slack_field "Tool" (ToolName a)) ++
  if_given (sa_AgentName a) (slack_field "Agent" (sa_AgentName a)) ++
  slack_field "Requested by" (RequestedBy a) ++
  if_given (ResolvedBy a)
    (slack_field "Resolved by" (ResolvedBy a) ++ if_given (ResolutionReason a) (slack_field "Reason" (ResolutionReason a))).

Definition slack_payload (unix : Z) (a : StoredApproval) : anymap :=
  let '(emoji, color, title) := slack_style (Status a) in
  [("attachments", AList [AMap [("color", AStr color); ("text", AStr (slack_text emoji title a)); ("ts", ANum unix)]])].

Definition webhook_payload (stamp eventType : string) (a : StoredApproval) : anymap :=
  ([("event_type", AStr ("approval_" ++ eventType)); ("approval_id", AStr (ApprovalID a)); ("status", AStr (Status a));
    ("action", AStr (sa_ActionClass a)); ("tool", AStr (ToolName a)); ("agent", AStr (sa_AgentName a));
    ("resource", AStr (sa_ResourceType a ++ "/" ++ sa_ResourceName a)); ("requested_by", AStr (RequestedBy a));
    ("requested_at", AStr (RFC3339 (RequestedAt a))); ("timestamp", AStr stamp)] ++
   (if given (ResolvedBy a)
    then [("resolved_by", AStr (ResolvedBy a)); ("resolved_at", AStr (RFC3339 (ResolvedAt a)));
          ("reason", AStr (ResolutionReason a))]
    else []) ++
   (if IsZero (ExpiresAt a) then [] else [("expires_at", AStr (RFC3339 (ExpiresAt a)))]))%list.

Definition sendWebhook (stamp : string) (unix : Z) (eventType : string) (a : StoredApproval) (n : ApprovalNotifier) : Delivery :=
  PostWebhook (webhookURL n)
    (if str_contains (webhookURL n) "slack.com" then slack_payload unix a else webhook_payload stamp eventType a).

Definition callback_payload (a : StoredApproval) : anymap :=
  ([("approval_id", AStr (ApprovalID a)); ("status", AStr (Status a)); ("resolved_by", AStr (ResolvedBy a));
    ("resolved_at", AStr (RFC3339 (ResolvedAt a))); ("resolution_reason", AStr (ResolutionReason a))] ++
   (if IsZero (ApprovalValidUntil a) then [] else [("valid_until", AStr (RFC3339 (ApprovalValidUntil a)))]))%list.

Definition sendCallback (url : string) (a : StoredApproval) : Delivery := PostCallback url (callback_payload a).

Definition created_subject (a : StoredApproval) : string :=
  "[APPROVAL REQUIRED] " ++ sa_ActionClass a ++ " - " ++ ToolName a.
Definition resolved_subject (a : StoredApproval) : string :=
  "[APPROVAL " ++ to_upper (Status a) ++ "] " ++ sa_ActionClass a ++ " - " ++ ToolName a.

Definition action_url (n : ApprovalNotifier) (a : StoredApproval) (verb : string) : string :=
  baseURL n ++ "/v1/approvals/" ++ ApprovalID a ++ "/" ++ verb.

Definition curl (url by_ reason : string) : string :=
  "curl -X POST " ++ dquote ++ url ++ dquote ++ " -H " ++ dquote ++ "Content-Type: application/json" ++ dquote ++
  " -d '{" ++ dquote ++ by_ ++ dquote ++ ":" ++ dquote ++ "email_user" ++ dquote ++ "," ++
  dquote ++ "reason" ++ dquote ++ ":" ++ dquote ++ reason ++ dquote ++ "}'".

Definition action_links (n : ApprovalNotifier) (a : StoredApproval) : string :=
  if_given (baseURL n)
    (nl ++ "Quick Actions (click to open in browser, then POST with curl):" ++ nl ++ nl ++
     "  Approve: " ++ curl (action_url n a "approve") "approved_by" "Approved via email" ++ nl ++ nl ++
     "  Deny:    " ++ curl (action_url n a "deny") "denied_by" "Denied via email" ++ nl ++ nl).

Definition created_body (n : ApprovalNotifier) (a : StoredApproval) : string :=
  "Approval Request Pending" ++ nl ++ nl ++ "A new approval request requires your attention." ++ nl ++ nl ++
  "Approval ID: " ++ ApprovalID a ++ nl ++ "Action:      " ++ sa_ActionClass a ++ nl ++
  "Tool:        " ++ ToolName a ++ nl ++ "Agent:       " ++ sa_AgentName a ++ nl ++
  "Requested:   " ++ RFC3339 (RequestedAt a) ++ " by " ++ RequestedBy a ++ nl ++
  "Expires:     " ++ RFC3339 (ExpiresAt a) ++ nl ++ action_links n a ++ nl ++
  "CLI Commands:" ++ nl ++ nl ++
  "  approvals approve " ++ ApprovalID a ++ " --reason " ++ dquote ++ "..." ++ dquote ++ nl ++
  "  approvals deny " ++ ApprovalID a ++ " --reason " ++ dquote ++ "..." ++ dquote ++ nl ++ nl.

Definition resolved_body (a : StoredApproval) : string :=
  "Approval Request " ++ to_upper (Status a) ++ nl ++ nl ++
  "Approval ID: " ++ ApprovalID a ++ nl ++ "Status:      " ++ Status a ++ nl ++
  "Action:      " ++ sa_ActionClass a ++ nl ++ "Tool:        " ++ ToolName a ++ nl ++
  "Agent:       " ++ sa_AgentName a ++ nl ++
  "Requested:   " ++ RFC3339 (RequestedAt a) ++ " by " ++ RequestedBy a ++ nl ++
  "Resolved:    " ++ RFC3339 (ResolvedAt a) ++ " by " ++ ResolvedBy a ++ nl ++
  "Reason:      " ++ ResolutionReason a ++ nl.

Definition cr_lf : string := String (ascii_of_N 13) nl.

Definition sendEmail (created : bool) (a : StoredApproval) (n : ApprovalNotifier) : Delivery :=
  let subject := if created then created_subject a else resolved_subject a in
  let body := if created then created_body n a else resolved_body a in
  SendMail (smtpHost n ++ ":" ++ smtpPort n)
    (if given (smtpUser n) && given (smtpPassword n) then Some (smtpUser n, smtpPassword n) else None)
    (emailFrom n) (emailTo n)
    ("From: " ++ emailFrom n ++ cr_lf ++ "To: " ++ join "," (emailTo n) ++ cr_lf ++ "Subject: " ++ subject ++ cr_lf ++
     cr_lf ++ body).

(** ** The calls of the handlers *)

Section Calls.
Context (stamp : Notification -> string) (unix : Notification -> Z).

Definition if_on {A} (b : bool) (x : A) : list A := if b then [x] else [].

Definition on_created (n : ApprovalNotifier) (a : StoredApproval) : ApprovalNotifier * list Delivery :=
  if negb (IsEnabled n) then (n, [])
  else
    let x := NotifyCreated a in
    let n := if given (CallbackURL a) then RegisterCallback (ApprovalID a) (CallbackURL a) n else n in
    (n, (if_on (given (webhookURL n)) (sendWebhook (stamp x) (unix x) "created" a n) ++
         if_on (mails n) (sendEmail true a n))%list).

Definition on_resolved (n : ApprovalNotifier) (a : StoredApproval) : ApprovalNotifier * list Delivery :=
  let x := NotifyResolved a in
  let '(n, called) :=
    match callbackURLs n !! ApprovalID a with
    | Some url => (with_callbacks (delete (ApprovalID a) (callbackURLs n)) n, [sendCallback url a])
    | None => (n, [])
    end in
  (n, (called ++ if_on (given (webhookURL n)) (sendWebhook (stamp x) (unix x) "resolved" a n) ++
       if_on (mails n && (Status a =?s "denied")) (sendEmail false a n))%list).

Definition deliver (st : ApprovalNotifier * list Delivery) (x : Notification) : ApprovalNotifier * list Delivery :=
  let '(n', ds) := match x with NotifyCreated a => on_created st.1 a | NotifyResolved a => on_resolved st.1 a end in
  (n', (st.2 ++ ds)%list).

(** The notifier after the calls that the handlers have made, and all it has sent. *)
Definition delivered (n : ApprovalNotifier) (calls : list Notification) : ApprovalNotifier * list Delivery :=
  fold_left deliver calls (n, []).

(** ** auditd's approval endpoints, one request after the other *)

Inductive server_op :=
  | ServeCreate (now : Time) (uuid8 : string) (db_err : option string) (body : Body CreateApprovalRequest)
  | ServeApprove (now : Time) (db_err : option string) (id : string) (p : ResolvedPrincipal) (body : Body ApproveRequest)
  | ServeDeny (now : Time) (db_err : option string) (id : string) (p : ResolvedPrincipal) (body : Body DenyRequest)
  | ServeCancel (now : Time) (db_err : option string) (id : string) (body : Body CancelRequest)
  | ServeExpiry (now : Time).

Definition serve_op (s : approvalServer) (o : server_op) : approvalServer :=
  match o with
  | ServeCreate now uuid8 db_err body => (handleCreateApproval now uuid8 db_err s body).1
  | ServeApprove now db_err id p body => (handleApprove now db_err s id p body).1
  | ServeDeny now db_err id p body => (handleDeny now db_err s id p body).1
  | ServeCancel now db_err id body => (handleCancel now db_err s id body).1
  | ServeExpiry now => expiration_tick now s
  end.

Definition serve_all (s : approvalServer) (ops : list server_op) : approvalServer := fold_left serve_op ops s.

(** What one request can do to the store and to the calls. *)
Inductive server_effect (s s' : approvalServer) : Prop :=
  | unchanged_by : (forall id, updated s' id = updated s id) -> sent s' = sent s -> server_effect s s'
  | creates a : updated s (ApprovalID a) = None -> updated s' (ApprovalID a) = Some a ->
      (forall id, id <> ApprovalID a -> updated s' id = updated s id) -> Status a = "pending" ->
      sent s' = (sent s ++ [NotifyCreated a])%list -> server_effect s s'
  | resolves_one r a : updated s (ApprovalID a) = Some r -> Status r = "pending" ->
      In (Status a) ["approved"; "denied"; "cancelled"] -> CallbackURL a = CallbackURL r ->
      updated s' (ApprovalID a) = Some a -> (forall id, id <> ApprovalID a -> updated s' id = updated s id) ->
      sent s' = (sent s ++ [NotifyResolved a])%list -> server_effect s s'
  | expires : (forall id, match updated s id with
                          | None => updated s' id = None
                          | Some r => exists r', updated s' id = Some r' /\ CallbackURL r' = CallbackURL r /\
                              (r' = r \/ Status r = "pending" /\ Status r' = "expired")
                          end) -> sent s' = sent s -> server_effect s s'.

Record good (s : approvalServer) : Prop := { good_ids : unique_ids (store s); good_notifier : notifier s = true }.

Lemma updated_Ok s id r : updated s id = Some r <-> GetRequest (store s) id = Ok r.
Proof. unfold updated. destruct (GetRequest _ _); split; congruence. Qed.

Lemma sent_notify x s : notifier s = true -> sent (notify x s) = (sent s ++ [x])%list.
Proof. unfold notify. by intros ->. Qed.

Lemma notifier_notify x s : notifier (notify x s) = notifier s.
Proof. unfold notify. by destruct (notifier s) eqn:E. Qed.

Lemma updated_store s s' id : store s = store s' -> updated s id = updated s' id.
Proof. unfold updated. by intros ->. Qed.

(** The three resolutions end alike: a pending record is replaced and announced. *)
Lemma resolution_effect db_err s id f st :
  good s -> (forall r, ApprovalID (f r) = ApprovalID r) -> (forall r, CallbackURL (f r) = CallbackURL r) ->
  (forall r, In (Status (f r)) ["approved"; "denied"; "cancelled"]) -> resolve db_err (store s) id f = (st, None) ->
  exists a, updated (with_store st s) id = Some a /\
    server_effect s (notify (NotifyResolved a) (with_store st s)) /\ unique_ids st.
Proof.
  intros [Hu Hn] Hid Hcb Hst Hr. destruct db_err as [e|]; [done|].
  pose proof (resolve_resolves (store s) id f Hu Hid) as H. rewrite Hr in H. unfold resolves in H.
  destruct (GetRequest (store s) id) as [r|] eqn:Eg; [|done]. destruct (is_pending r) eqn:Ep; [|done].
  destruct H as (_ & Hg & Ho). cbn [fst] in Hg, Ho. apply streq_spec in Ep.
  assert (Ea : ApprovalID (f r) = id) by (rewrite Hid; by apply GetRequest_In in Eg as [_ ?]).
  exists (f r). split_and!.
  - by apply updated_Ok.
  - apply (resolves_one _ _ r (f r)); rewrite ?Ea; try done.
    + by apply updated_Ok.
    + rewrite (updated_store _ (with_store st s)) by apply notify_store. by apply updated_Ok.
    + intros id' Hne. rewrite (updated_store _ (with_store st s)) by apply notify_store.
      unfold updated. cbn [store with_store]. by rewrite Ho.
    + by rewrite sent_notify.
  - pose proof (resolve_ids None (store s) id f Hid) as Hi. rewrite Hr in Hi. unfold unique_ids. cbn [fst] in Hi. by rewrite Hi.
Qed.

Lemma refused_effect db_err s id f st e : good s -> (forall r, ApprovalID (f r) = ApprovalID r) ->
  resolve db_err (store s) id f = (st, Some e) -> st = store s.
Proof.
  intros [Hu _] Hid Hr. destruct db_err as [e'|]; [by injection Hr as <- _|].
  pose proof (resolve_resolves (store s) id f Hu Hid) as H. rewrite Hr in H. unfold resolves in H.
  destruct (GetRequest (store s) id) as [r|]; [destruct (is_pending r); [by destruct H|]|]; by injection H as <-.
Qed.

Lemma same_effect s s' : store s' = store s -> sent s' = sent s -> server_effect s s'.
Proof. intros Hs Ht. apply unchanged_by; [|done]. intros id. by apply updated_store. Qed.

Lemma resolution_step db_err s id f :
  good s -> (forall r, ApprovalID (f r) = ApprovalID r) -> (forall r, CallbackURL (f r) = CallbackURL r) ->
  (forall r, In (Status (f r)) ["approved"; "denied"; "cancelled"]) ->
  let out := match resolve db_err (store s) id f with
             | (st, Some _) => with_store st s
             | (st, None) => (finish (with_store st s) id).1
             end in
  server_effect s out /\ good out.
Proof.
  intros Hg Hid Hcb Hst. destruct (resolve db_err (store s) id f) as [st [e|]] eqn:E.
  - apply (refused_effect _ _ _ _ _ _ Hg Hid) in E as ->. split; [by apply same_effect|]. by destruct Hg.
  - destruct (resolution_effect _ _ _ _ _ Hg Hid Hcb Hst E) as (a & Ha & He & Hu). unfold finish. cbv zeta.
    rewrite Ha. cbn [fst].
    split; [exact He|]. split; [by rewrite notify_store|]. rewrite notifier_notify. by destruct Hg.
Qed.

Lemma create_effect now uuid8 db_err s body : good s ->
  server_effect s (handleCreateApproval now uuid8 db_err s body).1 /\ good (handleCreateApproval now uuid8 db_err s body).1.
Proof.
  intros [Hu Hn]. assert (Hsame : server_effect s s /\ good s) by (split; [by apply same_effect|done]).
  unfold handleCreateApproval. destruct body as [| | |req]; try exact Hsame. cbn [with_body].
  destruct (_ =?s ""); [exact Hsame|]. destruct (_ =?s ""); [exact Hsame|]. cbv zeta.
  pose proof (unique_ids_apply (store s) (OCreate now uuid8 db_err (new_approval now req)) Hu) as Hu'. cbn [apply_op] in Hu'.
  unfold CreateRequest in *. destruct db_err as [e|]; [exact Hsame|].
  set (a := complete_request now uuid8 (new_approval now req)) in *.
  destruct (existsb _ _) eqn:E; [exact Hsame|]. cbn [fst] in *. set (st := with_table _ _) in *.
  assert (Hget : forall id, updated (notify (NotifyCreated a) (with_store st s)) id =
    match updated s id with Some r => Some r | None => if has_id id a then Some a else None end).
  { intros id. rewrite (updated_store _ (with_store st s)) by apply notify_store. unfold updated, GetRequest.
    cbn [store with_store table st with_table]. rewrite find_app_first. simpl. destruct (find _ (table (store s))); [done|].
    by destruct (has_id id a). }
  assert (Hnone : updated s (ApprovalID a) = None).
  { unfold updated, GetRequest. destruct (find _ _) as [r|] eqn:Ef; [|done]. apply find_some in Ef as [Hin Hh].
    rewrite existsb_false in E. by rewrite (E r Hin) in Hh. }
  split; [|split; [by rewrite notify_store|by rewrite notifier_notify]].
  apply (creates _ _ a); [done| | |done|by rewrite sent_notify].
  - rewrite Hget, Hnone. unfold has_id. by rewrite streq_refl.
  - intros id Hne. rewrite Hget. destruct (updated s id); [done|]. unfold has_id.
    by rewrite (proj2 (streq_false _ _)) by congruence.
Qed.

Lemma expiry_effect now s : good s -> server_effect s (expiration_tick now s) /\ good (expiration_tick now s).
Proof.
  intros [Hu Hn]. split; [|split; [exact (unique_ids_apply (store s) (OExpire now) Hu)|exact Hn]].
  apply expires; [|done]. intros id. unfold updated, expiration_tick. cbn [store with_store]. rewrite ExpireRequests_get.
  destruct (GetRequest (store s) id) as [r|]; [|done]. eexists. split; [done|].
  destruct (is_expired now r) eqn:E; [|by split; [|left]]. split; [done|]. right. split; [|done].
  unfold is_expired, is_pending in E. apply andb_true_iff in E as [E _]. by apply streq_spec.
Qed.

Lemma serve_effect s o : good s -> server_effect s (serve_op s o) /\ good (serve_op s o).
Proof.
  intros Hg. assert (Hsame : server_effect s s /\ good s) by (split; [by apply same_effect|done]).
  destruct o as [now uuid8 db_err body|now db_err id p body|now db_err id p body|now db_err id body|now]; cbn [serve_op].
  - by apply create_effect.
  - unfold handleApprove. destruct (id =?s ""); [exact Hsame|]. destruct body as [| | |req]; try exact Hsame. cbn [with_body].
    destruct (GetRequest _ _) as [existing|]; [|exact Hsame].
    destruct (if negb (IsAnonymous p) then _ else _) as [by_|]; [|exact Hsame]. unfold Approve.
    match goal with |- context [resolve ?e ?st ?i ?f] => pose proof (resolution_step e s i f Hg (fun _ => eq_refl)
      (fun _ => eq_refl) (fun _ => or_introl eq_refl)) as H; destruct (resolve e st i f) as [st' [err|]] end; exact H.
  - unfold handleDeny. destruct (id =?s ""); [exact Hsame|]. destruct body as [| | |req]; try exact Hsame. cbn [with_body].
    destruct (GetRequest _ _) as [existing|]; [|exact Hsame].
    destruct (if negb (IsAnonymous p) then _ else _) as [by_|]; [|exact Hsame]. unfold Deny.
    match goal with |- context [resolve ?e ?st ?i ?f] => pose proof (resolution_step e s i f Hg (fun _ => eq_refl)
      (fun _ => eq_refl) (fun _ => or_intror (or_introl eq_refl))) as H;
      destruct (resolve e st i f) as [st' [err|]] end; exact H.
  - assert (Hgo : forall by_ reason, let out :=
      match Cancel now db_err (store s) id by_ reason with
      | (st, Some _) => with_store st s
      | (st, None) => (finish (with_store st s) id).1
      end in server_effect s out /\ good out).
    { intros by_ reason. unfold Cancel. apply resolution_step; [done|done|done|]. intros r. right; right; by left. }
    unfold handleCancel. destruct (id =?s ""); [exact Hsame|].
    destruct body as [| |e|req]; try exact Hsame; cbn [with_body CancelledBy cr_Reason];
      match goal with |- context [Cancel _ _ _ _ ?b ?r] => specialize (Hgo b r) end;
      (destruct (Cancel _ _ _ _ _ _) as [st' [err|]]; exact Hgo).
  - by apply expiry_effect.
Qed.

(** ** The notifier follows the store *)

(** The URL that waits for the resolution of a request, and what was posted to it. *)
Definition awaiting (r : option StoredApproval) : option string :=
  match r with
  | Some r => if mem (Status r) ["pending"; "expired"] && given (CallbackURL r) then Some (CallbackURL r) else None
  | None => None
  end.

Definition called_back (r : option StoredApproval) : list Delivery :=
  match r with
  | Some r => if mem (Status r) ["approved"; "denied"; "cancelled"] && given (CallbackURL r)
              then [sendCallback (CallbackURL r) r] else []
  | None => []
  end.

Definition is_callback (id : string) (d : Delivery) : bool :=
  match d with
  | PostCallback _ body => existsb (fun kv => (fst kv =?s "approval_id") && match snd kv with AStr v => v =?s id | _ => false end) body
  | _ => false
  end.

Definition callbacks (id : string) (ds : list Delivery) : list Delivery := List.filter (is_callback id) ds.

Lemma callbacks_app id a b : callbacks id (a ++ b) = (callbacks id a ++ callbacks id b)%list.
Proof. apply List.filter_app. Qed.

Lemma is_callback_sent id url a : is_callback id (sendCallback url a) = (ApprovalID a =?s id).
Proof.
  unfold is_callback, sendCallback, callback_payload. rewrite existsb_app. cbn [existsb fst snd].
  rewrite streq_refl. replace ("status" =?s "approval_id") with false by reflexivity.
  replace ("resolved_by" =?s "approval_id") with false by reflexivity.
  replace ("resolved_at" =?s "approval_id") with false by reflexivity.
  replace ("resolution_reason" =?s "approval_id") with false by reflexivity. cbn [andb orb].
  rewrite orb_false_r. destruct (IsZero _); simpl; [by rewrite orb_false_r|].
  replace ("valid_until" =?s "approval_id") with false by reflexivity. cbn [andb orb]. by rewrite orb_false_r.
Qed.

Lemma other_deliveries id n x created a :
  callbacks id (if_on (given (webhookURL n)) (sendWebhook (stamp x) (unix x) created a n) ++
                if_on (mails n) (sendEmail true a n))%list = [] /\
  forall b, callbacks id (if_on (given (webhookURL n)) (sendWebhook (stamp x) (unix x) created a n) ++
                if_on b (sendEmail false a n))%list = [].
Proof. destruct (given (webhookURL n)); split; try (intros []); by destruct (mails n). Qed.

Record follows (s : approvalServer) (st : ApprovalNotifier * list Delivery) : Prop := {
  fw_enabled : IsEnabled st.1 = true;
  fw_urls : forall id, callbackURLs st.1 !! id = awaiting (updated s id);
  fw_called : forall id, callbacks id st.2 = called_back (updated s id) }.

Lemma delivered_snoc n calls x : delivered n (calls ++ [x]) = deliver (delivered n calls) x.
Proof. unfold delivered. by rewrite fold_left_app. Qed.

Lemma created_follows s s' st a : follows s st -> updated s (ApprovalID a) = None -> updated s' (ApprovalID a) = Some a ->
  (forall id, id <> ApprovalID a -> updated s' id = updated s id) -> Status a = "pending" ->
  follows s' (deliver st (NotifyCreated a)).
Proof.
  intros [He Hu Hc] Hnone Hsome Hother Hp. unfold deliver, on_created. rewrite He. cbn [negb]. cbv zeta. set (n := st.1) in *.
  set (n' := if given (CallbackURL a) then _ else _).
  assert (Hen : IsEnabled n' = true).
  { unfold n', RegisterCallback. by destruct (given (CallbackURL a)). }
  assert (Hurl : forall id, callbackURLs n' !! id = awaiting (updated s' id)).
  { intros id. unfold n', RegisterCallback. destruct (decide (id = ApprovalID a)) as [->|Hne].
    - rewrite Hsome. unfold awaiting. rewrite Hp. cbn [mem existsb]. change ("pending" =?s "pending") with true. cbn [orb andb].
      destruct (given (CallbackURL a)); [cbn [callbackURLs with_callbacks]; by rewrite lookup_insert_eq|].
      by rewrite Hu, Hnone.
    - rewrite Hother, <- Hu by done. destruct (given (CallbackURL a)); [|done]. cbn [callbackURLs with_callbacks].
      by rewrite lookup_insert_ne. }
  split; [exact Hen|exact Hurl|]. intros id. cbn [snd]. rewrite callbacks_app, Hc.
  rewrite (proj1 (other_deliveries id n' (NotifyCreated a) "created" a)), app_nil_r.
  destruct (decide (id = ApprovalID a)) as [->|Hne]; [|by rewrite Hother].
  rewrite Hnone, Hsome. unfold called_back. by rewrite Hp.
Qed.

Lemma resolved_follows s s' st r a : follows s st -> updated s (ApprovalID a) = Some r -> Status r = "pending" ->
  In (Status a) ["approved"; "denied"; "cancelled"] -> CallbackURL a = CallbackURL r ->
  updated s' (ApprovalID a) = Some a -> (forall id, id <> ApprovalID a -> updated s' id = updated s id) ->
  follows s' (deliver st (NotifyResolved a)).
Proof.
  intros [He Hu Hc] Hold Hp Hst Hcb Hnew Hother. unfold deliver, on_resolved. rewrite (Hu (ApprovalID a)), Hold.
  unfold awaiting at 1. rewrite Hp. change (mem "pending" ["pending"; "expired"]) with true. cbn [andb]. set (n := st.1) in *.
  assert (Hin : mem (Status a) ["approved"; "denied"; "cancelled"] = true) by (by apply mem_spec).
  assert (Hout : mem (Status a) ["pending"; "expired"] = false) by (by destruct Hst as [<-|[<-|[<-|[]]]]).
  set (called := if given (CallbackURL r) then [sendCallback (CallbackURL r) a] else []).
  set (n' := if given (CallbackURL r) then with_callbacks (delete (ApprovalID a) (callbackURLs n)) n else n).
  replace (match (if given (CallbackURL r) then Some (CallbackURL r) else None) with
           | Some url => (with_callbacks (delete (ApprovalID a) (callbackURLs n)) n, [sendCallback url a])
           | None => (n, [])
           end) with (n', called) by (unfold n', called; by destruct (given (CallbackURL r))).
  assert (Hurl : forall id, callbackURLs n' !! id = awaiting (updated s' id)).
  { intros id. unfold n'. destruct (decide (id = ApprovalID a)) as [->|Hne].
    - rewrite Hnew. unfold awaiting. rewrite Hout. cbn [andb]. destruct (given (CallbackURL r)) eqn:Eg.
      + cbn [callbackURLs with_callbacks]. by rewrite lookup_delete_eq.
      + rewrite Hu, Hold. unfold awaiting. by rewrite Eg, andb_false_r.
    - rewrite Hother, <- Hu by done. destruct (given (CallbackURL r)); [|done]. cbn [callbackURLs with_callbacks].
      by rewrite lookup_delete_ne. }
  split; [unfold n'; by destruct (given (CallbackURL r))|exact Hurl|]. intros id. cbn [snd].
  rewrite !callbacks_app, Hc. rewrite <- callbacks_app.
  rewrite (proj2 (other_deliveries id n' (NotifyResolved a) "resolved" a)), app_nil_r.
  destruct (decide (id = ApprovalID a)) as [->|Hne].
  - rewrite Hold, Hnew. unfold called_back. rewrite Hp, Hin, Hcb. change (mem "pending" _) with false. cbn [andb app].
    unfold called. destruct (given (CallbackURL r)); [|done]. cbn [callbacks List.filter].
    by rewrite is_callback_sent, streq_refl.
  - rewrite Hother by done. unfold called. destruct (given (CallbackURL r)); [|by rewrite app_nil_r].
    cbn [callbacks List.filter]. rewrite is_callback_sent, (proj2 (streq_false _ _)) by congruence. by rewrite app_nil_r.
Qed.

Lemma effect_follows n s s' : server_effect s s' -> follows s (delivered n (sent s)) -> follows s' (delivered n (sent s')).
Proof.
  intros H Hf. destruct H as [Hsame Ht|a H1 H2 H3 H4 Ht|r a H1 H2 H3 H4 H5 H6 Ht|Hexp Ht]; rewrite Ht.
  - destruct Hf as [He Hu Hc]. split; [done| |]; intros id; by rewrite Hsame.
  - rewrite delivered_snoc. by apply (created_follows s).
  - rewrite delivered_snoc. by apply (resolved_follows s s' _ r).
  - destruct Hf as [He Hu Hc]. split; [done| |]; intros id; [rewrite Hu|rewrite Hc]; specialize (Hexp id);
      (destruct (updated s id) as [r|]; [|by rewrite Hexp]); destruct Hexp as (r' & -> & Hcb & [->|[E1 E2]]); try done.
    + unfold awaiting. by rewrite E1, E2, Hcb.
    + unfold called_back. by rewrite E1, E2.
Qed.

Lemma served_follows n s ops : good s -> follows s (delivered n (sent s)) ->
  good (serve_all s ops) /\ follows (serve_all s ops) (delivered n (sent (serve_all s ops))).
Proof.
  revert s. induction ops as [|o ops IH]; intros s Hg Hf; [done|]. destruct (serve_effect s o Hg) as [He Hg'].
  exact (IH (serve_op s o) Hg' (effect_follows n s _ He Hf)).
Qed.

(** C17 (refinement).  A resolution is called back once, and only a resolution.  Whatever
    requests auditd's approval endpoints serve, one after the other, from an empty store
    and with a webhook or mail configured: what has been posted back for an identity is one
    callback, to the URL that the request was created with and with its record as it was
    resolved, if the request is approved, denied or cancelled, and nothing otherwise; and
    the notifier holds a URL for exactly the requests that are pending or have expired. *)
Theorem callbacks_once n0 s0 ops
    (Hempty : table (store s0) = []) (Hnone : sent s0 = []) (Hon : notifier s0 = true)
    (Henabled : IsEnabled n0 = true) (Hfresh : callbackURLs n0 = ∅) :
  let s := serve_all s0 ops in
  let '(n, ds) := delivered n0 (sent s) in
  forall id, callbacks id ds = called_back (updated s id) /\ callbackURLs n !! id = awaiting (updated s id).
Proof.
  intros s. assert (Hu : forall id, updated s0 id = None) by (intros id; unfold updated, GetRequest; by rewrite Hempty).
  destruct (served_follows n0 s0 ops) as [_ [_ Hurl Hc]].
  - split; [unfold unique_ids; rewrite Hempty; constructor|done].
  - rewrite Hnone. split; [done| |]; intros id; rewrite Hu; cbn; [by rewrite Hfresh, lookup_empty|done].
  - fold s in Hurl, Hc. destruct (delivered n0 (sent s)) as [n ds]. intros id. by split.
Qed.

(**  Without a webhook and mail nothing is ever sent, callbacks included. *)
Theorem no_channel_no_callback n calls : IsEnabled n = false -> callbackURLs n = ∅ -> delivered n calls = (n, []).
Proof.
  intros He Hm. unfold delivered. induction calls as [|x calls IH]; [done|]. cbn [fold_left].
  unfold IsEnabled in He. apply orb_false_iff in He as [Hw Hmail].
  assert (Hx : deliver (n, []) x = (n, [])); [|by rewrite Hx].
  unfold deliver. destruct x as [a|a]; cbn [fst snd].
  - unfold on_created, IsEnabled. by rewrite Hw, Hmail.
  - unfold on_resolved. by rewrite Hm, lookup_empty, Hw, Hmail.
Qed.
End Calls.

(** ** Requests on a concrete auditd *)

Module NotifyToy.
Definition config (hook mail : string) : ApprovalNotifierConfig :=
  {| cf_WebhookURL := hook; cf_BaseURL := "http://auditd/"; cf_SMTPHost := mail; cf_SMTPPort := "25"; cf_SMTPUser := "";
     cf_SMTPPassword := ""; cf_EmailFrom := "helpdesk@x"; cf_EmailTo := "ops@x, dba@x" |}.

Definition server (l : list StoredApproval) : approvalServer :=
  {| store := NewApprovalStore l; notifier := true; authorizer := NewAuthorizer ∅ false; sent := [] |}.

Definition ask (tool callback : string) : Body CreateApprovalRequest :=
  Decoded {| c_EventID := ""; c_TraceID := "tr_1"; c_ActionClass := "write"; c_ToolName := tool; c_AgentName := "db";
             c_ResourceType := "database"; c_ResourceName := "prod"; c_RequestedBy := "alice"; c_Context := [];
             c_PolicyName := ""; c_ApproverRole := ""; c_ExpiresInMin := 0; c_CallbackURL := callback |}.

Definition approve : Body ApproveRequest := Decoded {| ApprovedBy := ""; ar_Reason := "ok"; ValidForMin := 0 |}.

Definition created : server_op := ServeCreate Minute "1" None (ask "run_vacuum" "http://cb").
Definition history : list server_op := [created; ServeApprove (2 * Minute) None "apr_1" bob approve].

Definition ran (c : ApprovalNotifierConfig) (s : approvalServer) (ops : list server_op) : ApprovalNotifier * list Delivery :=
  delivered (fun _ => "now") (fun _ => 0%Z) (NewApprovalNotifier c) (sent (serve_all s ops)).

(** The URLs that were posted to, and the recipients of mail. *)
Definition reached (ds : list Delivery) : list string :=
  map (fun d => match d with PostWebhook u _ => u | PostCallback u _ => u | SendMail _ _ _ to _ => join " " to end) ds.

Example called_back_with_a_webhook :
  reached (ran (config "http://hook" "") (server []) history).2 = ["http://hook"; "http://cb"; "http://hook"].
Proof. vm_compute. reflexivity. Qed.

(** The same requests without a webhook and mail: the callback is not registered. *)
Example no_webhook_no_callback : ran (config "" "") (server []) history = (NewApprovalNotifier (config "" ""), []).
Proof. vm_compute. reflexivity. Qed.

(** auditd is restarted in between: the request and its URL are in the store, the
    notifier's map is empty. *)
Example restart_loses_the_callback :
  let stored := serve_all (server []) [created] in
  map CallbackURL (table (store stored)) = ["http://cb"] /\
  reached (ran (config "http://hook" "") (server (table (store stored)))
             [ServeApprove (2 * Minute) None "apr_1" bob approve]).2 = ["http://hook"].
Proof. vm_compute. repeat split. Qed.

(** A request that expires is not called back, and its URL stays in the map. *)
Example expiry_not_called_back :
  let out := ran (config "http://hook" "") (server []) [created; ServeExpiry (3 * Hours)] in
  reached out.2 = ["http://hook"] /\ callbackURLs out.1 !! "apr_1" = Some "http://cb" /\
  map Status (table (store (serve_all (server []) [created; ServeExpiry (3 * Hours)]))) = ["expired"].
Proof. vm_compute. repeat split. Qed.

(** The name of the tool is part of the subject as it is: a line break in it begins a
    header of its own. *)
Example subject_adds_a_header :
  match (ran (config "" "mx") (server []) [ServeCreate Minute "1" None (ask ("x" ++ cr_lf ++ "Bcc: eve@x") "")]).2 with
  | [SendMail _ _ _ _ message] => str_contains message (cr_lf ++ "Bcc: eve@x" ++ cr_lf)
  | _ => false
  end = true.
Proof. vm_compute. reflexivity. Qed.
End NotifyToy.

Lemma callbacks_once_witness :
  let s := serve_all (NotifyToy.server []) NotifyToy.history in
  let '(n, ds) := delivered (fun _ => "now") (fun _ => 0%Z) (NewApprovalNotifier (NotifyToy.config "http://hook" "")) (sent s) in
  forall id, callbacks id ds = called_back (updated s id) /\ callbackURLs n !! id = awaiting (updated s id).
Proof.
  exact (callbacks_once (fun _ => "now") (fun _ => 0%Z) (NewApprovalNotifier (NotifyToy.config "http://hook" ""))
    (NotifyToy.server []) NotifyToy.history eq_refl eq_refl eq_refl eq_refl eq_refl).
Defined.

Lemma no_channel_no_callback_witness :
  delivered (fun _ => "now") (fun _ => 0%Z) (NewApprovalNotifier (NotifyToy.config "" "")) [] =
    (NewApprovalNotifier (NotifyToy.config "" ""), []).
Proof. apply no_channel_no_callback; reflexivity. Defined.
