(* ===== verification/Decisions.v ===== *)
(** * The decision hub: cmd/gateway/decisions.go and internal/decisions/

    Pending decisions of four kinds (playbook gates, fleet approvals, step approvals and
    requests for feedback) under one list, and their resolution by the prefix of the id.
    The hub is a client of auditd; here it talks to the handlers of ApprovalHandlers,
    PlaybookRuns and RunFeedback behind the middleware of Authz, and resolves a gate with
    [handleProceedEscalation] of PlaybookChain.  A request that does not reach auditd has
    an error of [network], a parameter that sees the path.  An id is one plain segment of
    the path, not empty; what other texts do is shown in GatewayProxy.  [sort.Slice] is the class
    [SliceSort].  The feedback that a resolved gate posts in the background is applied at
    once.  Of [any] values the diagnostic report keeps its type. *)

From S2P Require Import Prelude GoTime TimeText Identity Authz AuthzTables Events ApprovalStore ApprovalHandlers.
From S2P Require Import Action ApprovalPolicy PlaybookText PlaybookStore PlaybookRuns RunFeedback PlaybookSteps.
From S2P Require Import GovernanceCheck Infra PlaybookPrompt PlaybookChain.

Open Scope string_scope.

(** ** internal/decisions/decision.go *)

Definition DecisionTypeGate := "gate".
Definition DecisionTypeFleetApproval := "fleet_approval".
Definition DecisionTypeStepApproval := "step_approval".
Definition DecisionTypeFeedback := "feedback".

Record Decision := {
  d_ID : string;
  d_Type : string;
  d_Status : string;
  d_Summary : string;
  d_RequestedBy : string;
  d_RequestedAt : Time;
  d_ExpiresAt : Time;
  d_ResolveURL : string;
  d_Extra : anymap;
  d_Report : option DiagnosticReport }.

(** [d.Extra\[k\] = v], for a key that is not there yet. *)
Definition add_extra (k : string) (v : any) (d : Decision) : Decision :=
  {| d_ID := d_ID d; d_Type := d_Type d; d_Status := d_Status d; d_Summary := d_Summary d;
     d_RequestedBy := d_RequestedBy d; d_RequestedAt := d_RequestedAt d; d_ExpiresAt := d_ExpiresAt d;
     d_ResolveURL := d_ResolveURL d; d_Extra := (d_Extra d ++ [(k, v)])%list; d_Report := d_Report d |}.

(** [v, _ := m\[k\].(string)] *)
Definition text_at (k : string) (m : anymap) : string :=
  match find (fun '(k', _) => k' =?s k) m with Some (_, AStr s) => s | _ => "" end.

(** ** Decisions from records *)

Section Conversions.
Context (baseURL : string).

Definition resolve_url (id : string) : string :=
  trim_suffix baseURL "/" ++ "/api/v1/decisions/" ++ id ++ "/resolve".

Definition stepActionClass (a : StoredApproval) : string :=
  or_default (sa_ActionClass a) (text_at "action_class" (RequestContext a)).

Definition approval_prefix (a : StoredApproval) : string :=
  if sa_ActionClass a =?s "escalation" then "fleet" else "step".

Definition approval_id (a : StoredApproval) : string := approval_prefix a ++ ":" ++ ApprovalID a.

(** [id] is what the URL names. *)
Definition approval_decision (id : string) (a : StoredApproval) : Decision :=
  {| d_ID := approval_id a;
     d_Type := if sa_ActionClass a =?s "escalation" then DecisionTypeFleetApproval else DecisionTypeStepApproval;
     d_Status := Status a;
     d_Summary := sa_ActionClass a ++ " " ++ sa_AgentName a ++ "/" ++ ToolName a;
     d_RequestedBy := RequestedBy a; d_RequestedAt := RequestedAt a; d_ExpiresAt := ExpiresAt a;
     d_ResolveURL := resolve_url id;
     d_Extra := [("tool", AStr (ToolName a)); ("agent", AStr (sa_AgentName a));
                 ("action_class", AStr (stepActionClass a)); ("resource_type", AStr (sa_ResourceType a));
                 ("resource_name", AStr (sa_ResourceName a)); ("run_id", AStr (sa_TraceID a))];
     d_Report := None |}.

Definition gateDecisionSummary (run : PlaybookRun) : string :=
  if given (TransitionedTo run) then "Triage complete — TRANSITION_TO " ++ TransitionedTo run
  else "Triage complete — ESCALATE_TO " ++ EscalatedTo run.

(** The report of [gateDecisionExtra] is [d_Report]. *)
Definition gateDecisionExtra (run : PlaybookRun) : anymap :=
  (("findings", AStr (FindingsSummary run)) :: ("series_id", AStr (run_SeriesID run)) ::
   (if given (TransitionedTo run) then
      [("gate_type", AStr "transition"); ("transition_target", AStr (TransitionedTo run))]
    else [("gate_type", AStr "escalation"); ("escalation_target", AStr (EscalatedTo run))]))%list.

Definition gate_decision (status id : string) (run : PlaybookRun) : Decision :=
  {| d_ID := id; d_Type := DecisionTypeGate; d_Status := status; d_Summary := gateDecisionSummary run;
     d_RequestedBy := run_Operator run; d_RequestedAt := run_StartedAt run; d_ExpiresAt := 0;
     d_ResolveURL := resolve_url id; d_Extra := gateDecisionExtra run; d_Report := run_Report run |}.

(** [next] is the playbook that [fetchPlaybookBySeriesID] finds for the run's target. *)
Definition with_preview (next : option Playbook) (d : Decision) : Decision :=
  match next with
  | Some pb =>
      add_extra "remediation_preview"
        (AMap [("series_id", AStr (pb_SeriesID pb)); ("name", AStr (pb_Name pb));
               ("description", AStr (pb_Description pb)); ("approval_mode", AStr (pb_ApprovalMode pb))]) d
  | None => d
  end.

Definition feedback_decision (status id : string) (at_ : Time) (fb : RunFeedback) : Decision :=
  {| d_ID := id; d_Type := DecisionTypeFeedback; d_Status := status;
     d_Summary := "Diagnosis feedback needed — " ++ fb_SeriesID fb; d_RequestedBy := fb_Operator fb;
     d_RequestedAt := at_; d_ExpiresAt := 0; d_ResolveURL := resolve_url id;
     d_Extra := [("run_id", AStr (fb_RunID fb)); ("series_id", AStr (fb_SeriesID fb))]; d_Report := None |}.

(** The record whose verdict is shown: the first with one, else the first. *)
Definition shown_feedback (fb : RunFeedback) (l : list RunFeedback) : RunFeedback * string :=
  match find (fun r => match VerdictCorrect r with Some _ => true | None => false end) (fb :: l) with
  | Some r => (r, "resolved")
  | None => (fb, "pending")
  end.

Definition feedback_details (fb : RunFeedback) (d : Decision) : Decision :=
  let d := match VerdictCorrect fb with Some b => add_extra "verdict_correct" (ABool b) d | None => d end in
  if given (VerdictNotes fb) then add_extra "verdict_notes" (AStr (VerdictNotes fb)) d else d.
End Conversions.

(** [RequestedAt.After]: the most recent first. *)
Definition newer (a b : Decision) : bool := (d_RequestedAt b <? d_RequestedAt a)%Z.

(** ** Ids *)

Inductive Backend :=
  | ToGate (runID : string)
  | ToApproval (approvalID : string)
  | ToFeedback (runID : string).

(** [id\[strings.Index(id, ":")+1:\]] *)
Fixpoint after_colon (s : string) : string :=
  match s with
  | String c s' => if Ascii.eqb c ":"%char then s' else after_colon s'
  | EmptyString => ""
  end.

Definition backend (id : string) : option Backend :=
  if has_prefix id "gate:" then Some (ToGate (trim_prefix id "gate:"))
  else if has_prefix id "fleet:" || has_prefix id "step:" then Some (ToApproval (after_colon id))
  else if has_prefix id "feedback:" then Some (ToFeedback (trim_prefix id "feedback:"))
  else None.

(** ** internal/decisions/notify.go

    What a notification sends to the webhook and by mail; [stamp] is the time in RFC 3339,
    [unix] in seconds, and the JSON encoding of a body and its HMAC are parameters.  A
    delivery that fails is logged and nothing more. *)

Record NotifierConfig := {
  WebhookURL : string;
  WebhookSecret : string;
  n_BaseURL : string;
  SMTPHost : string;
  SMTPPort : string;
  SMTPUser : string;
  SMTPPassword : string;
  EmailFrom : string;
  EmailTo : list string }.

Definition NewDecisionNotifier (cfg : NotifierConfig) : NotifierConfig :=
  {| WebhookURL := WebhookURL cfg; WebhookSecret := WebhookSecret cfg; n_BaseURL := trim_suffix (n_BaseURL cfg) "/";
     SMTPHost := SMTPHost cfg; SMTPPort := SMTPPort cfg; SMTPUser := SMTPUser cfg; SMTPPassword := SMTPPassword cfg;
     EmailFrom := EmailFrom cfg; EmailTo := EmailTo cfg |}.

Record webhookPayload := {
  wp_Event : string;
  DecisionID : string;
  wp_Type : string;
  wp_Status : string;
  wp_Summary : string;
  wp_RequestedBy : string;
  ResolveURL : string;
  wp_Extra : anymap;
  wp_Report : option DiagnosticReport;
  wp_Timestamp : string }.

Record slackAttachment := { Color : string; Title : string; Text : string; Footer : string; Ts : Z }.

Inductive WebhookBody := RawBody (p : webhookPayload) | SlackBody (a : slackAttachment).

Inductive Delivery :=
  | Webhook (url : string) (signature : option string) (body : WebhookBody)
  | Email (addr : string) (auth : option (string * string)) (from : string) (to : list string) (msg : string).

Section Notify.
Context (encode_body : WebhookBody -> option string) (hmac_hex : string -> string -> string).

Definition payload_of (stamp event : string) (d : Decision) : webhookPayload :=
  {| wp_Event := event; DecisionID := d_ID d; wp_Type := d_Type d; wp_Status := d_Status d;
     wp_Summary := d_Summary d; wp_RequestedBy := d_RequestedBy d; ResolveURL := d_ResolveURL d;
     wp_Extra := d_Extra d; wp_Report := d_Report d; wp_Timestamp := stamp |}.

Definition slack_color (event status : string) : string :=
  if event =?s "decision_resolved" then
    if status =?s "approved" then "#36a64f"
    else if mem status ["denied"; "abandoned"; "expired"] then "#d00000"
    else "#f0ad4e"
  else "#f0ad4e".

Definition slackPayload (unix : Z) (event : string) (p : webhookPayload) : slackAttachment :=
  let warning := text_at "confidence_warning" (wp_Extra p) in
  {| Color := slack_color event (wp_Status p);
     Title := "[" ++ to_upper (wp_Type p) ++ "] " ++ wp_Summary p;
     Text := join nl
       ((if given (wp_RequestedBy p) then [("Requested by: " ++ wp_RequestedBy p)%string] else []) ++
        (if given (ResolveURL p) && (event =?s "decision_pending") then [("Resolve: " ++ ResolveURL p)%string] else []) ++
        (if given warning then [("⚠ " ++ warning)%string] else []))%list;
     Footer := "aiHelpDesk Decision Hub"; Ts := unix |}.

(** A body that does not marshal is not sent. *)
Definition sendWebhook (cfg : NotifierConfig) (unix : Z) (event : string) (p : webhookPayload) : list Delivery :=
  let body := if str_contains (WebhookURL cfg) "slack.com" then SlackBody (slackPayload unix event p) else RawBody p in
  match encode_body body with
  | None => []
  | Some text =>
      [Webhook (WebhookURL cfg)
         (if given (WebhookSecret cfg) then Some ("sha256=" ++ hmac_hex (WebhookSecret cfg) text) else None) body]
  end.

Definition crlf : string := String (ascii_of_N 13) nl.

Definition sendEmail (cfg : NotifierConfig) (event : string) (p : webhookPayload) : list Delivery :=
  let subject := "[aiHelpDesk] Decision " ++ event ++ ": " ++ wp_Summary p in
  let body :=
    "Decision ID: " ++ DecisionID p ++ nl ++ "Type:        " ++ wp_Type p ++ nl ++
    "Status:      " ++ wp_Status p ++ nl ++
    (if given (wp_RequestedBy p) then "Requested by: " ++ wp_RequestedBy p ++ nl else "") ++
    (if given (ResolveURL p) then nl ++ "To resolve:" ++ nl ++ "  " ++ ResolveURL p ++ nl else "") in
  [Email (SMTPHost cfg ++ ":" ++ or_default "587" (SMTPPort cfg))
     (if given (SMTPUser cfg) then Some (SMTPUser cfg, SMTPPassword cfg) else None) (EmailFrom cfg) (EmailTo cfg)
     ("To: " ++ join ", " (EmailTo cfg) ++ crlf ++ "From: " ++ EmailFrom cfg ++ crlf ++ "Subject: " ++ subject ++
      crlf ++ crlf ++ body)].

Definition send (cfg : NotifierConfig) (stamp : string) (unix : Z) (event : string) (d : Decision) : list Delivery :=
  let p := payload_of stamp event d in
  ((if given (WebhookURL cfg) then sendWebhook cfg unix event p else []) ++
   (if given (SMTPHost cfg) && given (EmailFrom cfg) && negb (length (EmailTo cfg) =? 0)%nat
    then sendEmail cfg event p else []))%list.

(** The pointer may be nil. *)
Definition NotifyPending (n : option NotifierConfig) (stamp : string) (unix : Z) (d : Decision) : list Delivery :=
  match n with Some cfg => send cfg stamp unix "decision_pending" d | None => [] end.
Definition NotifyResolved (n : option NotifierConfig) (stamp : string) (unix : Z) (d : Decision) : list Delivery :=
  match n with Some cfg => send cfg stamp unix "decision_resolved" d | None => [] end.
End Notify.

(** ** The hub and auditd *)

Record HubConfig := { auditURL : string; auditAPIKey : string; baseURL : string }.

Definition bearer (key : string) : string := if given key then "Bearer " ++ key else "".

Section Hub.
Context {Value : Type}.
Abbreviation ChainWorld := (ChainWorld (Value := Value)).
Context (VString : string -> Value) (planner : Playbook -> string -> string -> list (PlaybookRunStep Value) ->
  result string (stepProposerResult (Value := Value))).
Context (encode_report : DiagnosticReport -> option string) (decode_report : string -> option DiagnosticReport).
Context (order : Table -> Table) (sort : list DiagnosticHypothesis -> list DiagnosticHypothesis).
Context (proxyToAgent : list AgentCall -> AgentCall -> Capture).
Context (fetchSession : string -> result string (option ApprovalSession)).
Context (fetchToolEvents : string -> list Event).
Context (new_id : list RunRow -> string) (uuid8 fresh : string).
Context `{!SliceSort newer}.
Context (cfg : HubConfig) (gw : Gateway).
(** The provider of auditd, and the transport. *)
Context (resolve : HttpRequest -> result string ResolvedPrincipal) (network : string -> option string).

(** auditd's part of the world, with the runs and playbooks in [h_chain]. *)
Record HubWorld := {
  h_approvals : approvalServer;
  h_feedback : list FeedbackRow;
  h_chain : ChainWorld }.

Definition with_approvals (s : approvalServer) (w : HubWorld) : HubWorld :=
  {| h_approvals := s; h_feedback := h_feedback w; h_chain := h_chain w |}.
Definition with_feedback (t : list FeedbackRow) (w : HubWorld) : HubWorld :=
  {| h_approvals := h_approvals w; h_feedback := t; h_chain := h_chain w |}.

Inductive HubReply :=
  | HubError (code : Z) (msg : string)
  | HubList (decisions : list Decision) (total : nat)
  | HubDecided (d : Decision)
  | HubResolved (status : string)
  | HubProxied (code : Z) (body : string)
  | HubGate (a : ChainAnswer (Value := Value))
  | HubFeedback (verdict_correct : bool).

(** A request to auditd: the transport, then the middleware, then the handler. *)
Definition call {A} (path pattern : string) (xUser : string) (w : HubWorld) (refused : Z -> string -> A)
    (handler : ResolvedPrincipal -> A) : result string A :=
  match network path with
  | Some e => Err e
  | None =>
      Ok (match Middleware (authorizer (h_approvals w))
                  (resolve {| h_Authorization := bearer (auditAPIKey cfg); h_XUser := xUser |}) pattern with
          | Authz.Refused code body => refused code body
          | Authz.Served p => handler p
          end)
  end.

Definition runs (w : HubWorld) : list RunRow := w_runs (base (h_chain w)).

(** ** The list *)

Definition list_query (status limit : string) : ListQuery :=
  {| lq_status := status; lq_agent := ""; lq_trace_id := ""; lq_requested_by := ""; lq_tool_name := "";
     lq_limit := limit |}.

Definition fetchPendingApprovals (status : string) (limit : Z) (w : HubWorld) : result string (list Decision) :=
  match call "/v1/approvals" "GET /v1/approvals" "" w HttpError
          (fun _ => handleListApprovals (h_approvals w) (list_query status (itoa limit))) with
  | Err e => Err e
  | Ok (HttpJSON 200 (PApprovals l)) => Ok (map (fun a => approval_decision (baseURL cfg) (approval_id a) a) l)
  | Ok r => Err ("auditd approvals returned " ++ itoa (Reply_code r))
  end.

Definition next_playbook (run : PlaybookRun) (w : HubWorld) : option Playbook :=
  if given (gate_next run) then fetchPlaybookBySeriesID order (gate_next run) (h_chain w) else None.

Definition pending_gate (w : HubWorld) (run : PlaybookRun) : Decision :=
  with_preview (next_playbook run w) (gate_decision (baseURL cfg) "pending" ("gate:" ++ RunID run) run).

Definition fetchPendingGates (limit : Z) (w : HubWorld) : result string (list Decision) :=
  match call "/v1/fleet/playbook-runs" "GET /v1/fleet/playbook-runs" "" w RError
          (fun _ => handleListByOutcome decode_report "" "" OutcomeGatePending (itoa limit) (runs w)) with
  | Err e => Err e
  | Ok (RMany l) => Ok (map (pending_gate w) l)
  | Ok (RError code _) => Err ("auditd playbook-runs returned " ++ itoa code)
  | Ok _ => Err "auditd playbook-runs returned 200"
  end.

Definition pending_feedback (fb : RunFeedback) : Decision :=
  feedback_decision (baseURL cfg) "pending" ("feedback:" ++ fb_RunID fb) (SubmittedAt fb) fb.

Definition fetchPendingFeedback (limit : Z) (w : HubWorld) : result string (list Decision) :=
  match call "/v1/fleet/playbook-runs/feedback-pending" "GET /v1/fleet/playbook-runs/feedback-pending" "" w FError
          (fun _ => handleListPendingFeedback (h_feedback w)) with
  | Err e => Err e
  | Ok (FMany l) => Ok (map pending_feedback (take (Z.to_nat limit) l))
  | Ok (FError code _) => Err ("auditd feedback-pending returned " ++ itoa code)
  | Ok _ => Err "auditd feedback-pending returned 200"
  end.

(** A failed fetch is logged and adds nothing. *)
Definition fetched (r : result string (list Decision)) : list Decision :=
  match r with Ok l => l | Err _ => [] end.

Definition hub_limit : Z := 50.

Definition approval_selected (filterType filterClass : string) (d : Decision) : bool :=
  ((filterType =?s "") || (filterType =?s d_Type d)) &&
  ((filterClass =?s "") || (text_at "action_class" (d_Extra d) =?s filterClass)).

Definition handleGetDecisions (status filterType filterClass : string) (w : HubWorld) : HubReply :=
  if auditURL cfg =?s "" then HubError 503 "auditd URL not configured"
  else
    let status := or_default "pending" status in
    let open_ := (status =?s "pending") || (status =?s "all") in
    let approvals :=
      if (filterType =?s "") || (filterType =?s DecisionTypeFleetApproval) || (filterType =?s DecisionTypeStepApproval)
      then List.filter (approval_selected filterType filterClass) (fetched (fetchPendingApprovals status hub_limit w))
      else [] in
    let gates :=
      if (filterClass =?s "") && ((filterType =?s "") || (filterType =?s DecisionTypeGate)) && open_
      then fetched (fetchPendingGates hub_limit w) else [] in
    let feedback :=
      if (filterClass =?s "") && ((filterType =?s "") || (filterType =?s DecisionTypeFeedback)) && open_
      then fetched (fetchPendingFeedback hub_limit w) else [] in
    let all := slice_sort newer (approvals ++ gates ++ feedback)%list in
    HubList all (length all).

(** ** One decision *)

(** With a trace id auditd lists the oldest event first, and the query takes one. *)
Definition fetchGateAcknowledgedReason (runID : string) (w : HubWorld) : string :=
  match find (fun e => (TraceID e =?s runID) && (EventType e =?s EventTypeGateAcknowledged))
          (audit_events (h_chain w)) with
  | Some e => match e_Output e with Some o => Response o | None => "" end
  | None => ""
  end.

Definition get_gate (id runID : string) (w : HubWorld) : HubReply :=
  match fetchPlaybookRun decode_report runID (base (h_chain w)) with
  | None => HubError 404 "run not found: not found"
  | Some run =>
      let pending := run_Outcome run =?s OutcomeGatePending in
      let d := with_preview (next_playbook run w)
                 (gate_decision (baseURL cfg) (if pending then "pending" else run_Outcome run) id run) in
      let reason := fetchGateAcknowledgedReason runID w in
      HubDecided (if negb pending && given reason then add_extra "resolved_reason" (AStr reason) d else d)
  end.

Definition get_approval (id approvalID : string) (w : HubWorld) : HubReply :=
  match call ("/v1/approvals/" ++ approvalID) "GET /v1/approvals/{approvalID}" "" w HttpError
          (fun _ => handleGetApproval (h_approvals w) approvalID) with
  | Err e => HubError 502 ("auditd unreachable: " ++ e)
  | Ok (HttpJSON 200 (PApproval (Some a))) => HubDecided (approval_decision (baseURL cfg) id a)
  | Ok r => if (Reply_code r =? 404)%Z then HubError 404 "approval not found"
            else HubError 502 ("auditd returned " ++ itoa (Reply_code r))
  end.

(** The list of a run's feedback has no query. *)
Definition get_feedback (now : Time) (id runID : string) (w : HubWorld) : HubReply :=
  match call ("/v1/fleet/playbook-runs/" ++ runID ++ "/feedback") "GET /v1/fleet/playbook-runs/{runID}/feedback" "" w
          FError (fun _ => handleGetFeedback runID "" "" (h_feedback w)) with
  | Err e => HubError 502 ("auditd unreachable: " ++ e)
  | Ok (FError code _) =>
      if (code =? 404)%Z then HubError 404 "no feedback request for run" else HubError 502 ("auditd returned " ++ itoa code)
  | Ok (FMany (first :: rest)) =>
      let '(fb, status) := shown_feedback first rest in
      HubDecided (feedback_details fb (feedback_decision (baseURL cfg) status id now fb))
  | Ok _ => HubError 404 "no feedback request for run"
  end.

Definition handleGetDecision (now : Time) (id : string) (w : HubWorld) : HubReply :=
  if auditURL cfg =?s "" then HubError 503 "auditd URL not configured"
  else
    match backend id with
    | Some (ToGate runID) => get_gate id runID w
    | Some (ToApproval approvalID) => get_approval id approvalID w
    | Some (ToFeedback runID) => get_feedback now id runID w
    | None => HubError 400 ("unknown decision ID prefix: " ++ id)
    end.

(** ** Resolution *)

Record ResolveRequest := {
  Resolution : string;
  rs_ResolvedBy : string;
  rs_Reason : string;
  rs_ApprovalMode : string;
  rs_ApprovalSession : string;
  rs_VerdictCorrect : option bool;
  rs_VerdictNotes : string }.

(** The header forwarded to auditd: the caller's own X-User, else the declared name. *)
Definition forwarded_user (xUser resolvedBy : string) : string := or_default resolvedBy xUser.

Definition is_success (code : Z) : bool := (code <? 300)%Z.

(** The answer of auditd as the hub passes it on. *)
Definition proxied (r : Reply) (status : string) : HubReply :=
  match r with
  | HttpError code body => HubProxied code body
  | HttpJSON code _ => if is_success code then HubResolved status else HubProxied code ""
  end.

Definition resolveAuditdApproval (now : Time) (db_err : option string) (xUser approvalID resolution resolvedBy
    reason : string) (w : HubWorld) : HubWorld * HubReply :=
  if auditURL cfg =?s "" then (w, HubError 503 "auditd URL not configured")
  else
    let denied := resolution =?s "denied" in
    let path := "/v1/approvals/" ++ approvalID ++ "/" ++ (if denied then "deny" else "approve") in
    let s := h_approvals w in
    let answer :=
      if denied then
        call path "POST /v1/approvals/{approvalID}/deny" (forwarded_user xUser resolvedBy) w
          (fun code body => (s, HttpError code body))
          (fun p => handleDeny now db_err s approvalID p (Decoded {| DeniedBy := resolvedBy; dr_Reason := reason |}))
      else
        call path "POST /v1/approvals/{approvalID}/approve" (forwarded_user xUser resolvedBy) w
          (fun code body => (s, HttpError code body))
          (fun p => handleApprove now db_err s approvalID p
                      (Decoded {| ApprovedBy := resolvedBy; ar_Reason := reason; ValidForMin := 0 |})) in
    match answer with
    | Err e => (w, HubError 502 ("auditd request failed: " ++ e))
    | Ok (s', r) => (with_approvals s' w, proxied r resolution)
    end.

(** The request that [resolveGate] writes for [handleProceedEscalation]: it has no
    reason and no connection string. *)
Definition gate_request (resolution resolvedBy mode session : string) : ProceedEscalationRequest :=
  {| pe_Resolution := resolution; pe_ResolvedBy := resolvedBy; pe_ApprovalMode := mode;
     pe_ApprovalSession := session; pe_ConnectionString := ""; pe_Reason := "" |}.

(** What [handleProceedEscalation] posts as feedback in the background. *)
Definition proceed_feedback (now : Time) (failure : option string) (user runID : string)
    (req : ProceedEscalationRequest) (verdict : option bool) (notes : string) (w : HubWorld) : list FeedbackRow :=
  let t := h_feedback w in
  let by_ := resolver (pe_ResolvedBy req) user in
  match fetchPlaybookRun decode_report runID (base (h_chain w)) with
  | None => t
  | Some run =>
      if negb (run_Outcome run =?s OutcomeGatePending) then t
      else if pe_Resolution req =?s "denied" then
        submitDenialFeedback now failure runID (run_SeriesID run) by_ (pe_Reason req) (runs w) t
      else
        match fetchPlaybookBySeriesID order (gate_next run) (h_chain w) with
        | None => t
        | Some _ =>
            if negb (match verdict with None => true | Some _ => false end) || given notes
            then postAtGateFeedback now failure runID by_ verdict notes (runs w) t else t
        end
  end.

Abbreviation proceedEscalation := (handleProceedEscalation VString planner encode_report decode_report order sort
  proxyToAgent fetchSession fetchToolEvents new_id uuid8 fresh gw).

Definition resolveGate (now : Time) (failure : option string) (approvalID : string) (principal : ResolvedPrincipal)
    (h : Headers) (runID resolution resolvedBy mode session : string) (verdict : option bool) (notes : string)
    (w : HubWorld) : HubWorld * HubReply :=
  let req := gate_request resolution resolvedBy mode session in
  let t := proceed_feedback now failure (x_user h) runID req verdict notes w in
  let '(c, a) := proceedEscalation now approvalID principal h runID (Ok req) (h_chain w) in
  ({| h_approvals := h_approvals w; h_feedback := t; h_chain := c |}, HubGate a).

Definition feedback_body (resolvedBy reason : string) (verdict : bool) : RunFeedback :=
  {| fb_RunID := ""; FeedbackType := "triage"; FeedbackTime := "post_incident"; fb_SeriesID := "";
     VerdictCorrect := Some verdict; VerdictNotes := reason; fb_Operator := resolvedBy; SubmittedAt := 0;
     FeedbackSource := "" |}.

Definition resolveFeedback (now : Time) (failure : option string) (xUser runID resolution resolvedBy reason : string)
    (w : HubWorld) : HubWorld * HubReply :=
  let verdict := resolution =?s "approved" in
  let user := forwarded_user xUser resolvedBy in
  match call ("/v1/fleet/playbook-runs/" ++ runID ++ "/feedback") "POST /v1/fleet/playbook-runs/{runID}/feedback" user w
          (fun code body => (h_feedback w, FError code body))
          (fun _ => handleSubmitFeedback now failure runID user (Ok (feedback_body resolvedBy reason verdict)) (runs w)
                      (h_feedback w)) with
  | Err e => (w, HubError 502 ("auditd request failed: " ++ e))
  | Ok (t, FError code body) => (with_feedback t w, HubProxied code body)
  | Ok (t, _) => (with_feedback t w, HubFeedback verdict)
  end.

(** [approvalID] and [principal] serve the run that an approved gate starts. *)
Definition handleResolveDecision (now : Time) (db_err failure : option string) (approvalID : string)
    (principal : ResolvedPrincipal) (h : Headers) (id : string) (body : result string ResolveRequest)
    (w : HubWorld) : HubWorld * HubReply :=
  if id =?s "" then (w, HubError 400 "decision ID is required")
  else
    match body with
    | Err e => (w, HubError 400 ("invalid request body: " ++ e))
    | Ok req =>
        if negb (Resolution req =?s "approved") && negb (Resolution req =?s "denied") then
          (w, HubError 400 ("resolution must be " ++ dquote ++ "approved" ++ dquote ++ " or " ++ dquote ++ "denied" ++ dquote))
        else
          match backend id with
          | Some (ToGate runID) =>
              resolveGate now failure approvalID principal h runID (Resolution req) (rs_ResolvedBy req)
                (rs_ApprovalMode req) (rs_ApprovalSession req) (rs_VerdictCorrect req) (rs_VerdictNotes req) w
          | Some (ToApproval target) =>
              resolveAuditdApproval now db_err (x_user h) target (Resolution req) (rs_ResolvedBy req) (rs_Reason req) w
          | Some (ToFeedback runID) =>
              resolveFeedback now failure (x_user h) runID (Resolution req) (rs_ResolvedBy req) (rs_Reason req) w
          | None =>
              (w, HubError 400 ("unknown decision ID prefix in " ++ quote id ++
                                "; expected gate:, fleet:, step:, or feedback:"))
          end
    end.

(** ** Lemmas *)

Lemma In_take {A} n (x : A) l : In x (take n l) -> In x l.
Proof. intros H. rewrite <- (take_drop n l). apply in_or_app. by left. Qed.

Lemma backend_gate id : backend ("gate:" ++ id) = Some (ToGate id).
Proof. reflexivity. Qed.

Lemma backend_feedback id : backend ("feedback:" ++ id) = Some (ToFeedback id).
Proof. reflexivity. Qed.

Lemma backend_approval a : backend (approval_id a) = Some (ToApproval (ApprovalID a)).
Proof. unfold approval_id, approval_prefix. by destruct (sa_ActionClass a =?s "escalation"). Qed.

Lemma with_preview_id next d : d_ID (with_preview next d) = d_ID d.
Proof. by destruct next. Qed.

(** The query that selects on the status alone. *)
Lemma query_status status n r :
  query_selects {| q_Status := status; q_AgentName := ""; q_TraceID := ""; q_RequestedBy := ""; q_ToolName := "";
                   q_Since := 0; q_Limit := n |} r = (status =?s "") || (Status r =?s status).
Proof. unfold query_selects. simpl. by rewrite !andb_true_r. Qed.

Lemma call_Ok {A} path pattern xUser w (refused : Z -> string -> A) handler r :
  call path pattern xUser w refused handler = Ok r ->
  (exists code body, r = refused code body) \/
  (exists p, Middleware (authorizer (h_approvals w))
     (resolve {| h_Authorization := bearer (auditAPIKey cfg); h_XUser := xUser |}) pattern = Authz.Served p /\
     r = handler p).
Proof.
  unfold call. destruct (network path); [done|]. intros [= <-].
  destruct (Middleware _ _ _); [left|right]; eauto.
Qed.

(** What the three fetches return, when they return. *)
Lemma fetched_approvals status n w l : fetchPendingApprovals status n w = Ok l ->
  exists m, l = map (fun a => approval_decision (baseURL cfg) (approval_id a) a) m /\
    forall a, In a m -> In a (table (store (h_approvals w))) /\ (status = "" \/ Status a = status).
Proof.
  unfold fetchPendingApprovals. destruct (call _ _ _ _ _ _) as [r|] eqn:E; [|done].
  apply call_Ok in E as [(code & body & ->)|(p & _ & ->)]; [done|]. unfold handleListApprovals.
  intros [= <-]. eexists. split; [done|]. intros a Ha. unfold ListRequests in Ha.
  assert (Hin : In a (isort newest_first (List.filter (query_selects
    {| q_Status := status; q_AgentName := ""; q_TraceID := ""; q_RequestedBy := ""; q_ToolName := "";
       q_Since := 0; q_Limit := 0 |}) (table (store (h_approvals w)))))).
  { revert Ha. cbn [lq_status list_query lq_agent lq_trace_id lq_requested_by lq_tool_name lq_limit q_Limit].
    destruct (0 <? _)%Z; [apply In_take|done]. }
  apply isort_In, filter_In in Hin. rewrite query_status, orb_true_iff, !streq_spec in Hin. naive_solver.
Qed.

Lemma fetched_gates n w l : fetchPendingGates n w = Ok l ->
  exists m, l = map (pending_gate w) m /\
    forall run, In run m -> exists r, In r (runs w) /\ rr_Outcome r = OutcomeGatePending /\
      run = scanPlaybookRun decode_report r.
Proof.
  unfold fetchPendingGates. destruct (call _ _ _ _ _ _) as [r|] eqn:E; [|done].
  apply call_Ok in E as [(code & body & ->)|(p & _ & ->)]; [done|]. unfold handleListByOutcome. simpl negb. cbv iota.
  intros [= <-]. eexists. split; [done|]. intros run Hr. unfold ListByOutcome, list_runs in Hr.
  apply in_map_iff in Hr as (r & <- & Hr). apply In_take, isort_In, filter_In in Hr as [Hr Ho].
  apply streq_spec in Ho. eauto.
Qed.

Lemma fetched_feedback n w l : fetchPendingFeedback n w = Ok l ->
  exists m, l = map pending_feedback m /\
    forall fb, In fb m -> exists r, In r (h_feedback w) /\ fr_Verdict r = None /\ fb = scanRunFeedbackRow r.
Proof.
  unfold fetchPendingFeedback. destruct (call _ _ _ _ _ _) as [r|] eqn:E; [|done].
  apply call_Ok in E as [(code & body & ->)|(p & _ & ->)]; [done|]. simpl. intros [= <-]. eexists. split; [done|].
  intros fb Hf. apply In_take in Hf. unfold ListPending in Hf. apply in_map_iff in Hf as (r & <- & Hr).
  apply isort_In, filter_In in Hr as [Hr Hb]. rewrite !andb_true_iff in Hb. destruct Hb as [[Hb _] _].
  exists r. split_and!; try done. unfold has_verdict in Hb. by destruct (fr_Verdict r).
Qed.

(** The record that a decision of the list is made from. *)
Definition made_from (status : string) (w : HubWorld) (d : Decision) (b : Backend) : Prop :=
  match b with
  | ToApproval id => exists a, In a (table (store (h_approvals w))) /\ ApprovalID a = id /\ Status a = status /\
      d = approval_decision (baseURL cfg) (approval_id a) a
  | ToGate id => exists r, In r (runs w) /\ rr_RunID r = id /\ rr_Outcome r = OutcomeGatePending /\
      d = pending_gate w (scanPlaybookRun decode_report r)
  | ToFeedback id => exists r, In r (h_feedback w) /\ fr_RunID r = id /\ fr_Verdict r = None /\
      d = pending_feedback (scanRunFeedbackRow r)
  end.

(**  The ids of the hub lead back: every decision that is listed, whatever
    the filters, has an id that resolution sends to the right store, with the key of the
    very record the decision was made from, which has the status asked for (an approval),
    waits at its gate (a run), or has no verdict yet (feedback); and the URL to act on the
    decision names that id.  The newest decisions come first, and the total is their number. *)
Theorem listed_ids_resolve status filterType filterClass w ds n :
  handleGetDecisions status filterType filterClass w = HubList ds n ->
  n = length ds /\ sorted_by newer ds /\
  forall d, In d ds ->
    d_ResolveURL d = resolve_url (baseURL cfg) (d_ID d) /\
    exists b, backend (d_ID d) = Some b /\ made_from (or_default "pending" status) w d b.
Proof.
  unfold handleGetDecisions. destruct (auditURL cfg =?s ""); [done|]. cbv zeta.
  set (st := or_default "pending" status).
  set (l1 := if _ || _ || _ then _ else []). set (l2 := if _ && _ && _ then _ else []). set (l3 := if _ && _ && _ then _ else []).
  intros [= <- <-]. split; [done|]. split; [apply slice_sort_sorted|]. intros d Hd.
  apply slice_sort_In in Hd. rewrite !in_app_iff in Hd. destruct Hd as [Hd|[Hd|Hd]].
  - unfold l1 in Hd. destruct (_ || _ || _); [|done]. apply filter_In in Hd as [Hd _].
    destruct (fetchPendingApprovals st hub_limit w) as [l|] eqn:E; [|done]. simpl in Hd.
    destruct (fetched_approvals _ _ _ _ E) as (m & -> & Hm). apply in_map_iff in Hd as (a & <- & Ha).
    destruct (Hm a Ha) as [Hin Hs]. split; [done|]. exists (ToApproval (ApprovalID a)). split; [apply backend_approval|].
    exists a. split_and!; try done. destruct Hs as [Hs|Hs]; [|done]. unfold st, or_default in Hs.
    destruct (status =?s "") eqn:Es; [done|]. by apply streq_false in Es.
  - unfold l2 in Hd. destruct (_ && _ && _); [|done].
    destruct (fetchPendingGates hub_limit w) as [l|] eqn:E; [|done]. simpl in Hd.
    destruct (fetched_gates _ _ _ E) as (m & -> & Hm). apply in_map_iff in Hd as (run & <- & Hr).
    destruct (Hm run Hr) as (r & Hin & Ho & ->). unfold pending_gate at 1 2 3. rewrite with_preview_id.
    split; [by destruct (next_playbook _ _)|]. exists (ToGate (rr_RunID r)). split; [apply backend_gate|]. by exists r.
  - unfold l3 in Hd. clear l1 l2 l3. destruct (_ && _ && _); [|done].
    destruct (fetchPendingFeedback hub_limit w) as [l|] eqn:E; [|done]. simpl in Hd.
    destruct (fetched_feedback _ _ _ E) as (m & -> & Hm). apply in_map_iff in Hd as (fb & <- & Hf).
    destruct (Hm fb Hf) as (r & Hin & Hv & ->). split; [done|]. exists (ToFeedback (fr_RunID r)).
    split; [apply backend_feedback|]. by exists r.
Qed.

(** ** Nothing is left out *)

Lemma take_isort_perm {A} (lt : A -> A -> bool) n l : length l <= n -> take n (isort lt l) ≡ₚ l.
Proof.
  intros H. rewrite take_ge; [apply isort_perm|]. by rewrite (Permutation_length (isort_perm lt l)).
Qed.

Lemma filter_all {A} (l : list A) : List.filter (fun _ => true) l = l.
Proof. induction l as [|x l IH]; [done|]. simpl. by rewrite IH. Qed.

(** The gateway's key opens an endpoint of auditd. *)
Definition opens (w : HubWorld) (pattern : string) : Prop :=
  exists p, Middleware (authorizer (h_approvals w))
    (resolve {| h_Authorization := bearer (auditAPIKey cfg); h_XUser := "" |}) pattern = Authz.Served p.

Lemma call_opens {A} path pattern w (refused : Z -> string -> A) handler r :
  network path = None -> opens w pattern -> (forall p, handler p = r) ->
  call path pattern "" w refused handler = Ok r.
Proof. intros Hn [p Hp] Hr. unfold call. by rewrite Hn, Hp, Hr. Qed.

Definition pending_approvals (w : HubWorld) : list StoredApproval :=
  List.filter ApprovalStore.is_pending (table (store (h_approvals w))).
Definition waiting_runs (w : HubWorld) : list RunRow :=
  List.filter (fun r => rr_Outcome r =?s OutcomeGatePending) (runs w).
Definition unanswered (w : HubWorld) : list FeedbackRow :=
  List.filter (fun r => negb (has_verdict r) && (fr_Type r =?s "triage") && (fr_Time r =?s "post_incident")) (h_feedback w).

Definition all_pending (w : HubWorld) : list Decision :=
  (map (fun a => approval_decision (baseURL cfg) (approval_id a) a) (pending_approvals w) ++
   map (fun r => pending_gate w (scanPlaybookRun decode_report r)) (waiting_runs w) ++
   map (fun r => pending_feedback (scanRunFeedbackRow r)) (unanswered w))%list.

Lemma approvals_complete w :
  network "/v1/approvals" = None -> opens w "GET /v1/approvals" -> length (pending_approvals w) <= 50 ->
  fetched (fetchPendingApprovals "pending" hub_limit w) ≡ₚ
    map (fun a => approval_decision (baseURL cfg) (approval_id a) a) (pending_approvals w).
Proof.
  intros Hn Ho Hl. unfold fetchPendingApprovals. rewrite (call_opens _ _ _ _ _ _ Hn Ho (fun _ => eq_refl)).
  change (itoa hub_limit) with "50". unfold handleListApprovals. cbn [lq_limit list_query]. cbn -[ListRequests].
  apply Permutation_map. unfold ListRequests. cbn [q_Limit]. change (0 <? 50)%Z with true. cbv iota.
  rewrite (List.filter_ext _ ApprovalStore.is_pending); [by apply (take_isort_perm _ 50)|]. intros a. by rewrite query_status.
Qed.

Lemma gates_complete w :
  network "/v1/fleet/playbook-runs" = None -> opens w "GET /v1/fleet/playbook-runs" -> length (waiting_runs w) <= 50 ->
  fetched (fetchPendingGates hub_limit w) ≡ₚ
    map (fun r => pending_gate w (scanPlaybookRun decode_report r)) (waiting_runs w).
Proof.
  intros Hn Ho Hl. unfold fetchPendingGates. rewrite (call_opens _ _ _ _ _ _ Hn Ho (fun _ => eq_refl)).
  change (itoa hub_limit) with "50". unfold handleListByOutcome. simpl negb. cbv iota. cbn [fetched].
  unfold ListByOutcome, list_runs. change (limit_of 50 "50") with 50%Z. cbv zeta.
  change ((50 <=? 0)%Z || (100 <? 50)%Z) with false.
  change (OutcomeGatePending =?s "") with false. cbv iota. cbn [fetched]. rewrite map_map.
  apply Permutation_map. by apply (take_isort_perm _ 50).
Qed.

Lemma feedback_complete w :
  network "/v1/fleet/playbook-runs/feedback-pending" = None ->
  opens w "GET /v1/fleet/playbook-runs/feedback-pending" -> length (unanswered w) <= 50 ->
  fetched (fetchPendingFeedback hub_limit w) ≡ₚ map (fun r => pending_feedback (scanRunFeedbackRow r)) (unanswered w).
Proof.
  intros Hn Ho Hl. unfold fetchPendingFeedback. rewrite (call_opens _ _ _ _ _ _ Hn Ho (fun _ => eq_refl)).
  cbn [handleListPendingFeedback fetched]. unfold ListPending.
  rewrite take_ge; [rewrite map_map; apply Permutation_map, isort_perm|]. rewrite length_map, (Permutation_length (isort_perm _ _)). exact Hl.
Qed.

(** C26 (equivalence).  The list of the hub is the work that waits.  When auditd can be
    reached, lets the gateway read, and no kind has more than fifty entries, the list
    without filters holds exactly one decision for each pending approval, each run at its
    gate and each request for feedback without a verdict, and nothing else. *)
Theorem hub_lists_pending w :
  auditURL cfg <> "" -> (forall path, network path = None) ->
  Forall (opens w) ["GET /v1/approvals"; "GET /v1/fleet/playbook-runs"; "GET /v1/fleet/playbook-runs/feedback-pending"] ->
  length (pending_approvals w) <= 50 -> length (waiting_runs w) <= 50 -> length (unanswered w) <= 50 ->
  exists ds, handleGetDecisions "" "" "" w = HubList ds (length ds) /\ ds ≡ₚ all_pending w.
Proof.
  intros Hu Hn Ho H1 H2 H3. unfold handleGetDecisions. rewrite (proj2 (streq_false _ "") Hu). cbv zeta.
  change (or_default "pending" "") with "pending". cbn -[slice_sort fetchPendingApprovals fetchPendingGates fetchPendingFeedback hub_limit].
  inversion Ho as [|? ? O1 Ho1]; inversion Ho1 as [|? ? O2 Ho2]; inversion Ho2 as [|? ? O3 _]; subst.
  eexists. split; [done|]. rewrite slice_sort_perm. unfold all_pending.
  rewrite (List.filter_ext _ (fun _ => true)) by done.
  rewrite filter_all.
  apply Permutation_app; [|apply Permutation_app];
    [apply approvals_complete|apply gates_complete|apply feedback_complete]; auto.
Qed.

(** ** Whose approval it is *)

Lemma handleApprove_json now db_err s id p body s' code payload :
  handleApprove now db_err s id p body = (s', HttpJSON code payload) -> code = 200%Z.
Proof.
  unfold handleApprove. destruct (id =?s ""); [done|]. destruct body as [| | |req]; try done. simpl.
  destruct (GetRequest (store s) id) as [existing|]; [|done].
  set (identified := if negb (IsAnonymous p) then _ else _).
  assert (H : forall r, identified = Err r -> exists c m, r = HttpError c m).
  { intros r. unfold identified. destruct (negb _); [|destruct (_ =?s _); intros [= <-]; eauto].
    destruct (Require_roles _ _ _); [intros [= <-]; eauto|]. destruct (_ =?s _); intros [= <-]; eauto. }
  destruct identified as [by_|r]; [|destruct (H r eq_refl) as (c & m & ->); done].
  destruct (Approve _ _ _ _ _ _ _) as [st [err|]]; [done|]. unfold finish. by intros [= _ <- _].
Qed.

Section Declared.
Context (verify : string -> string -> option bool) (prov : StaticProvider) (svc : string) (account : ServiceAccount).
Hypothesis static : forall r, resolve r = StaticProvider_Resolve verify prov r.
Hypothesis keyed : auditAPIKey cfg <> "".
Hypothesis gateway_account : find_account verify (auditAPIKey cfg) (serviceAccounts prov) = Some (svc, account).
Hypothesis named_account : svc <> "".

(** The roles of the user a header names, if there is such a user. *)
Definition declared_roles (name : string) : option (list string) := if name =?s "" then None else users prov !! name.

(** The name auditd knows the caller by, and the roles it looks at. *)
Definition recorded_name (name : string) : string := match declared_roles name with Some _ => name | None => svc end.
Definition roles_checked (name : string) : list string :=
  (expandRoles prov (sa_Roles account) ++
   match declared_roles name with Some roles => expandRoles prov roles | None => [] end)%list.

Lemma resolve_declared name : exists p,
  resolve {| h_Authorization := bearer (auditAPIKey cfg); h_XUser := name |} = Ok p /\ IsAnonymous p = false /\
  EffectiveID p = recorded_name name /\ forall role, HasRole p role = true <-> In role (roles_checked name).
Proof.
  rewrite static. unfold StaticProvider_Resolve, bearer, given. simpl h_XUser. simpl h_Authorization.
  rewrite (proj2 (streq_false _ "") keyed). cbn [negb]. change (has_prefix ("Bearer " ++ auditAPIKey cfg) "Bearer ") with true.
  cbv iota. change (trim_prefix ("Bearer " ++ auditAPIKey cfg) "Bearer ") with (auditAPIKey cfg).
  unfold resolveServiceAccount. rewrite gateway_account. unfold recorded_name, roles_checked, declared_roles.
  destruct (name =?s "") eqn:En; simpl negb; cbv iota; [|destruct (users prov !! name) eqn:Eu];
    (eexists; split; [done|]); (split; [done|]); unfold EffectiveID; simpl;
    rewrite ?En, ?(proj2 (streq_false svc "") named_account);
    (split; [done|]); intros role; by rewrite HasRole_spec, in_app_iff.
Qed.

End Declared.
End Hub.

(** ** One decision of each kind *)

Lemma newer_asym a b : newer a b = true -> newer b a = false.
Proof. unfold newer. go_simpl. lia. Qed.

Lemma newer_ge_trans a b c : newer b a = false -> newer c b = false -> newer c a = false.
Proof. unfold newer. go_simpl. lia. Qed.

Module HubToy.
#[local] Instance by_insertion : SliceSort newer := {
  slice_sort := isort newer;
  slice_sort_perm := isort_perm newer;
  slice_sort_sorted := isort_sorted newer newer_asym newer_ge_trans
}.

Definition cfg : HubConfig := {| auditURL := "http://auditd"; auditAPIKey := "k"; baseURL := "https://gw/" |}.

Definition account : ServiceAccount := {| sa_ID := "gateway"; sa_Roles := []; APIKeyHash := "k" |}.

(** auditd knows the gateway, which has no roles, and bob, a dba. *)
Definition provider : StaticProvider :=
  {| users := {["bob" := ["dba"]]}; serviceAccounts := [("gateway", account)]; aliases := ∅ |}.

Definition verify (key hash : string) : option bool := Some (key =?s hash).
Definition resolve : HttpRequest -> result string ResolvedPrincipal := StaticProvider_Resolve verify provider.
Definition reached (_ : string) : option string := None.

(** An approval is pending, a run waits at its gate, feedback is asked for. *)
Definition gated : ChainWorld (Value := string) :=
  ChainToy.settle (ChainToy.run ChainToy.gateway [ChainToy.names_fix] (ChainToy.request "auto" true)
                     (ChainToy.world (ChainToy.remedy "auto" "agent"))).1.

Definition world_of (s : approvalServer) : HubWorld (Value := string) :=
  {| h_approvals := s; h_chain := gated;
     h_feedback := (handleRequestFeedback "https://gw" Minute None "plr_1" "op" (w_runs (base gated)) []).1 |}.
Definition world : HubWorld (Value := string) := world_of sample_server.

Definition list_all (status filterType : string) (w : HubWorld (Value := string)) : HubReply (Value := string) :=
  handleGetDecisions (fun _ => None) (fun t => t) cfg resolve reached status filterType "" w.

Definition ids (r : HubReply (Value := string)) : list string :=
  match r with HubList l _ => map d_ID l | _ => [] end.

Example one_of_each : ids (list_all "" "" world) = ["feedback:plr_1"; "step:apr_1"; "gate:plr_1"].
Proof. vm_compute. reflexivity. Qed.

(** Asked for all, auditd is asked for approvals with the status [all]. *)
Example all_has_no_approvals : ids (list_all "all" "" world) = ["feedback:plr_1"; "gate:plr_1"].
Proof. vm_compute. reflexivity. Qed.

(** The approval of a fleet job carries the class of the job and counts as a step. *)
Definition fleet_request : StoredApproval :=
  {| ApprovalID := "apr_2"; sa_EventID := ""; sa_TraceID := "tr_2"; Status := "pending"; sa_ActionClass := "write";
     ToolName := "fleet_job"; sa_AgentName := "fleet-runner"; sa_ResourceType := "fleet_job"; sa_ResourceName := "flj_1";
     RequestedBy := "alice"; RequestedAt := Minute; RequestContext := []; ResolvedBy := ""; ResolvedAt := 0;
     ResolutionReason := ""; ExpiresAt := Hours; ApprovalValidUntil := 0; sa_PolicyName := ""; ApproverRole := "";
     CallbackURL := ""; CallbackSentAt := 0; CreatedAt := Minute; UpdatedAt := Minute |}.

Example fleet_approvals_hidden :
  let w := world_of (with_store (NewApprovalStore [fleet_request]) sample_server) in
  isFleetApproval fleet_request = true /\ ids (list_all "" "fleet_approval" w) = [] /\
  ids (list_all "" "step_approval" w) = ["step:apr_2"].
Proof. vm_compute. repeat split. Qed.

Definition request (resolution by_ : string) : ResolveRequest :=
  {| Resolution := resolution; rs_ResolvedBy := by_; rs_Reason := "ok"; rs_ApprovalMode := ""; rs_ApprovalSession := "";
     rs_VerdictCorrect := None; rs_VerdictNotes := "" |}.

Definition nobody : Headers := {| x_user := ""; x_trace := ""; x_method := "POST"; x_path := "/resolve" |}.

Definition resolve_it (id : string) (req : ResolveRequest) (w : HubWorld (Value := string))
    : HubWorld (Value := string) * HubReply (Value := string) :=
  handleResolveDecision (fun s => s) Toy.plan (fun _ => None) (fun _ => None) (fun t => t) (fun l => l)
    (ChainToy.script []) (fun _ => Err "session not found") (fun _ => []) ChainToy.new_id "u" "tr_f" cfg ChainToy.gateway
    resolve reached Minute None None "apr" zero_principal nobody id (Ok req) w.

(** The reason for denying a gate does not reach the record that later shows it. *)
Example denial_reason_lost :
  let w := (resolve_it "gate:plr_1" (request "denied" "op") world).1 in
  fetchGateAcknowledgedReason "plr_1" w = "" /\
  map rr_Outcome (w_runs (base (h_chain w))) = ["abandoned"].
Proof. vm_compute. repeat split. Qed.
End HubToy.

Lemma listed_ids_resolve_witness :
  exists ds, HubToy.list_all "" "" HubToy.world = HubList ds 3 /\
    forall d, In d ds -> exists b, backend (d_ID d) = Some b.
Proof.
  destruct (HubToy.list_all "" "" HubToy.world) as [| ds n | | | | |] eqn:E; try (vm_compute in E; discriminate E).
  exists ds. assert (Hn : n = 3) by (vm_compute in E; injection E as _ <-; reflexivity). subst n. split; [reflexivity|].
  intros d Hd. apply listed_ids_resolve in E as (_ & _ & H). destruct (H d Hd) as (_ & b & Hb & _). by exists b.
Defined.

Lemma opens_toy (pattern : string) : assoc pattern auditd_table = Some authenticated \/ assoc pattern auditd_table = None ->
  opens HubToy.cfg HubToy.resolve HubToy.world pattern.
Proof.
  intros H. unfold opens. eexists. unfold Middleware, Authorize. simpl authorizer.
  cbn [permissions enforcing NewAuthorizer]. unfold DefaultAuditdPermissions. rewrite lookup_table.
  by destruct H as [-> | ->].
Qed.

Lemma hub_lists_pending_witness :
  exists ds, HubToy.list_all "" "" HubToy.world = HubList ds (length ds) /\
    ds ≡ₚ all_pending (fun _ => None) (fun t => t) HubToy.cfg HubToy.world.
Proof.
  apply hub_lists_pending; [discriminate|reflexivity| |vm_compute; lia|vm_compute; lia|vm_compute; lia].
  repeat constructor; apply opens_toy; vm_compute; auto.
Defined.

