(* ===== verification/GitWebhook.v ===== *)
(** * cmd/gateway/webhooks.go: approval by a merge

    [handleGitWebhook] behind [POST /api/v1/webhooks/git], the one route of the gateway
    that is not wrapped in its authentication: the signature of the payload, the branch of
    a completed merge in the three payload formats, and the decision that its name
    resolves, with [handleResolveDecision] of Decisions.  encoding/json is modelled from
    the parsed value on: [parse] gives the value of a text, the members of an object in the
    order of the text, repeated ones included.  A failed [Unmarshal] leaves its target half
    written, but the source reads it only when there was no error.  As in Decisions the
    name of a decision is one segment of a path; [hmac_hex] is HMAC-SHA256 in hexadecimal. *)

From S2P Require Import Prelude GoTime Identity Authz AuthzTables Events ApprovalStore ApprovalHandlers Action.
From S2P Require Import ApprovalPolicy PlaybookText PlaybookStore PlaybookRuns RunFeedback PlaybookSteps.
From S2P Require Import GovernanceCheck Infra PlaybookPrompt PlaybookChain Decisions.

Open Scope string_scope.

(** ** encoding/json into typed targets *)

(** [json.Unmarshal] into a map of raw messages, and a key of it: the last member of the
    name counts. *)
Definition raw_object (v : any) : option anymap :=
  match v with AMap m => Some m | ANil => Some [] | _ => None end.

Fixpoint raw_member (k : string) (m : anymap) : option any :=
  match m with
  | [] => None
  | (k', v) :: m' =>
      match raw_member k m' with
      | Some x => Some x
      | None => if k' =?s k then Some v else None
      end
  end.

(** A null leaves the target as it was. *)
Definition decode_text (old : string) (v : any) : option string :=
  match v with AStr s => Some s | ANil => Some old | _ => None end.
Definition decode_bool (old : bool) (v : any) : option bool :=
  match v with ABool b => Some b | ANil => Some old | _ => None end.

(** The names of a struct's fields are compared without case; two runes beyond ASCII fold
    to ASCII letters. *)
Fixpoint fold_name (s : string) : string :=
  match s with
  | String "197" (String "191" r) => String "s" (fold_name r)
  | String "226" (String "132" (String "170" r)) => String "k" (fold_name r)
  | String c r => String (lower_byte c) (fold_name r)
  | EmptyString => EmptyString
  end.

(** [json.Unmarshal] into a struct whose fields [field] knows by their folded names. *)
Fixpoint decode_fields {A} (field : string -> A -> any -> option A) (m : anymap) (a : A) : option A :=
  match m with
  | [] => Some a
  | (k, v) :: m' => match field (fold_name k) a v with Some a' => decode_fields field m' a' | None => None end
  end.

Definition decode_struct {A} (field : string -> A -> any -> option A) (a : A) (v : any) : option A :=
  match v with AMap m => decode_fields field m a | ANil => Some a | _ => None end.

Record MergedPR := { pr_Merged : bool; pr_BaseRef : string }.

Definition base_field (k : string) (ref : string) (v : any) : option string :=
  if k =?s "ref" then decode_text ref v else Some ref.

Definition pr_field (k : string) (p : MergedPR) (v : any) : option MergedPR :=
  if k =?s "merged" then
    (b ← decode_bool (pr_Merged p) v; Some {| pr_Merged := b; pr_BaseRef := pr_BaseRef p |})
  else if k =?s "base" then
    (r ← decode_struct base_field (pr_BaseRef p) v; Some {| pr_Merged := pr_Merged p; pr_BaseRef := r |})
  else Some p.

Record MergedMR := { mr_State : string; mr_TargetBranch : string }.

Definition mr_field (k : string) (a : MergedMR) (v : any) : option MergedMR :=
  if k =?s "state" then
    (s ← decode_text (mr_State a) v; Some {| mr_State := s; mr_TargetBranch := mr_TargetBranch a |})
  else if k =?s "target_branch" then
    (s ← decode_text (mr_TargetBranch a) v; Some {| mr_State := mr_State a; mr_TargetBranch := s |})
  else Some a.

Definition github_branch (raw : anymap) (action : any) : string :=
  match decode_text "" action with
  | Some actionStr =>
      if negb (actionStr =?s "closed") then ""
      else
        match raw_member "pull_request" raw with
        | Some prRaw =>
            match decode_struct pr_field {| pr_Merged := false; pr_BaseRef := "" |} prRaw with
            | Some pr => if pr_Merged pr then pr_BaseRef pr else ""
            | None => ""
            end
        | None => ""
        end
  | None => ""
  end.

Definition gitlab_branch (raw : anymap) (object_kind : any) : string :=
  match decode_text "" object_kind with
  | Some kind =>
      if negb (kind =?s "merge_request") then ""
      else
        match raw_member "object_attributes" raw with
        | Some attrsRaw =>
            match decode_struct mr_field {| mr_State := ""; mr_TargetBranch := "" |} attrsRaw with
            | Some attrs => if mr_State attrs =?s "merged" then mr_TargetBranch attrs else ""
            | None => ""
            end
        | None => ""
        end
  | None => ""
  end.

(** ** The handler *)

Record GitWebhookConfig := { Secret : string; ResolveBranch : string }.

Record GitRequest := {
  gr_HubSignature : string;     (* X-Hub-Signature-256 *)
  gr_GitlabToken : string;      (* X-Gitlab-Token *)
  gr_headers : Headers;
  gr_Body : result string string }.

(** [io.LimitReader]: the rest of a longer body is not read. *)
Fixpoint limit_bytes (n : Z) (s : string) : string :=
  match s with
  | String c r => if (0 <? n)%Z then String c (limit_bytes (n - 1) r) else ""
  | EmptyString => ""
  end.
Definition webhook_limit : Z := Z.shiftl 1 20.

Inductive WebhookReply {Value : Type} :=
  | WebhookError (code : Z) (msg : string)
  | Acked
  | Resolving (r : HubReply (Value := Value)).
#[global] Arguments WebhookReply Value : clear implicits.

Section Branches.
Context (parse : string -> option any) (hmac_hex : string -> string -> string).

Definition extractMergedBranch (body : string) : string :=
  match parse body with
  | None => ""
  | Some v =>
      match raw_object v with
      | None => ""
      | Some raw =>
          match raw_member "action" raw with
          | Some action => github_branch raw action
          | None =>
              match raw_member "object_kind" raw with
              | Some kind => gitlab_branch raw kind
              | None =>
                  match raw_member "branch" raw with
                  | Some b => default "" (decode_text "" b)
                  | None => ""
                  end
              end
          end
      end
  end.

(** [hmac.Equal] is equality. *)
Definition verifyWebhookSignature (secret : string) (r : GitRequest) (body : string) : bool :=
  let expected := "sha256=" ++ hmac_hex secret body in
  if given (gr_HubSignature r) then gr_HubSignature r =?s expected
  else if given (gr_GitlabToken r) then gr_GitlabToken r =?s secret
  else false.

Definition branch_prefix (c : GitWebhookConfig) : string := or_default "approved/" (ResolveBranch c).

(** The decision that a branch names. *)
Definition branch_decision (c : GitWebhookConfig) (branch : string) : option string :=
  if branch =?s "" then None
  else if negb (has_prefix branch (branch_prefix c)) then None
  else
    let tail := trim_prefix branch (branch_prefix c) in
    if has_prefix tail "gate/" then Some ("gate:" ++ trim_prefix tail "gate/")
    else if has_prefix tail "fleet/" then Some ("fleet:" ++ trim_prefix tail "fleet/")
    else None.
End Branches.

(** The body that the webhook writes for [handleResolveDecision]. *)
Definition merge_approval : ResolveRequest :=
  {| Resolution := "approved"; rs_ResolvedBy := "git-webhook"; rs_Reason := ""; rs_ApprovalMode := "";
     rs_ApprovalSession := ""; rs_VerdictCorrect := None; rs_VerdictNotes := "" |}.

Section Webhook.
Context {Value : Type}.
Abbreviation ChainWorld := (ChainWorld (Value := Value)).
Context (VString : string -> Value) (planner : Playbook -> string -> string -> list (PlaybookRunStep Value) ->
  result string (stepProposerResult (Value := Value))).
Context (encode_report : DiagnosticReport -> option string) (decode_report : string -> option DiagnosticReport).
Context (order : Table -> Table) (sort : list DiagnosticHypothesis -> list DiagnosticHypothesis).
Context (proxyToAgent : list AgentCall -> AgentCall -> Capture).
Context (fetchSession : string -> result string (option ApprovalSession)).
Context (fetchToolEvents : string -> list Event).
Context (new_id : list RunRow -> string) (uuid8 fresh : string).
Context (cfg : HubConfig) (gw : Gateway).
Context (resolve : HttpRequest -> result string ResolvedPrincipal) (network : string -> option string).
Context (parse : string -> option any) (hmac_hex : string -> string -> string).

(** No middleware has put a principal into the context of the request. *)
Definition resolveDecision (now : Time) (db_err failure : option string) (approvalID : string) (h : Headers)
    (id : string) (w : HubWorld (Value := Value)) : HubWorld * HubReply :=
  handleResolveDecision VString planner encode_report decode_report order sort proxyToAgent fetchSession fetchToolEvents
    new_id uuid8 fresh cfg gw resolve network now db_err failure approvalID (PrincipalFromContext None) h id
    (Ok merge_approval) w.

Definition handleGitWebhook (c : GitWebhookConfig) (now : Time) (db_err failure : option string) (approvalID : string)
    (r : GitRequest) (w : HubWorld (Value := Value)) : HubWorld * WebhookReply Value :=
  match gr_Body r with
  | Err _ => (w, WebhookError 400 "failed to read request body")
  | Ok text =>
      let body := limit_bytes webhook_limit text in
      if given (Secret c) && negb (verifyWebhookSignature hmac_hex (Secret c) r body)
      then (w, WebhookError 401 "invalid webhook signature")
      else
        match branch_decision c (extractMergedBranch parse body) with
        | None => (w, Acked)
        | Some id =>
            let '(w', reply) := resolveDecision now db_err failure approvalID (gr_headers r) id w in
            (w', Resolving reply)
        end
  end.

(** ** Signed merges and nothing else *)

(** A caller that knows the secret, or something that GitHub or GitLab signed with it. *)
Definition authentic (secret : string) (r : GitRequest) (body : string) : Prop :=
  gr_HubSignature r = "sha256=" ++ hmac_hex secret body /\ gr_HubSignature r <> "" \/
  gr_HubSignature r = "" /\ gr_GitlabToken r = secret /\ secret <> "".

Lemma verify_authentic secret r body : secret <> "" ->
  verifyWebhookSignature hmac_hex secret r body = true <-> authentic secret r body.
Proof.
  intros Hs. unfold verifyWebhookSignature, authentic, given.
  destruct (gr_HubSignature r =?s "") eqn:Eh; go_simpl; cbn [negb].
  - destruct (gr_GitlabToken r =?s "") eqn:Et; go_simpl; cbn [negb].
    + split; [done|]. intros [[_ H]|(_ & H & _)]; congruence.
    + rewrite streq_spec. naive_solver.
  - rewrite streq_spec. naive_solver.
Qed.

(** The branches that name a decision, with what they name. *)
Inductive names (c : GitWebhookConfig) : string -> string -> Prop :=
  | names_gate runID : names c (branch_prefix c ++ "gate/" ++ runID) ("gate:" ++ runID)
  | names_fleet id : names c (branch_prefix c ++ "fleet/" ++ id) ("fleet:" ++ id).

Lemma trim_app p s : trim_prefix (p ++ s) p = s.
Proof.
  unfold trim_prefix. rewrite (proj2 (has_prefix_spec _ _)) by eauto.
  induction p as [|x p IH]; [done|exact IH].
Qed.

Lemma has_prefix_app p s : has_prefix (p ++ s) p = true.
Proof. apply has_prefix_spec. eauto. Qed.

Lemma branch_decision_spec c branch id : branch_decision c branch = Some id <-> names c branch id.
Proof.
  unfold branch_decision. split.
  - destruct (branch =?s ""); [done|]. destruct (has_prefix branch _) eqn:Ep; [|done].
    apply has_prefix_spec in Ep as [tail ->]. rewrite trim_app. cbn [negb].
    destruct (has_prefix tail "gate/") eqn:Eg; [apply has_prefix_spec in Eg as [x ->]; rewrite trim_app; intros [= <-]; constructor|].
    destruct (has_prefix tail "fleet/") eqn:Ef; [|done].
    apply has_prefix_spec in Ef as [x ->]. rewrite trim_app. intros [= <-]. constructor.
  - intros H. assert (Hne : (branch =?s "") = false).
    { apply streq_false. destruct H; destruct (branch_prefix c); discriminate. }
    rewrite Hne. destruct H; rewrite has_prefix_app, trim_app; cbn [negb].
    + by rewrite has_prefix_app, trim_app.
    + change (has_prefix ("fleet/" ++ id) "gate/") with false. by rewrite has_prefix_app, trim_app.
Qed.

Lemma Approve_others now e st id by_ reason v st' err id' :
  unique_ids st -> Approve now e st id by_ reason v = (st', err) -> id' <> id -> GetRequest st' id' = GetRequest st id'.
Proof.
  intros Hu. unfold Approve. destruct e as [e|]; [by intros [= <- _]|].
  set (f := set_resolution _ _ _ _ _).
  pose proof (resolve_resolves st id f Hu (fun _ => eq_refl)) as H. unfold resolves in H.
  destruct (GetRequest st id) as [r|]; [|rewrite H; by intros [= <- _]].
  destruct (ApprovalStore.is_pending r); [|rewrite H; by intros [= <- _]].
  intros E. rewrite E in H. intros Hne. by apply H.
Qed.

Lemma handleApprove_others now db_err s id p body id' :
  unique_ids (store s) -> id' <> id ->
  GetRequest (store (handleApprove now db_err s id p body).1) id' = GetRequest (store s) id'.
Proof.
  intros Hu Hne. unfold handleApprove. destruct (id =?s ""); [done|]. destruct body as [| | |req]; try done. simpl.
  destruct (GetRequest (store s) id) as [existing|]; [|done].
  destruct (if negb (IsAnonymous p) then _ else _) as [by_|]; [|done].
  destruct (Approve _ _ _ _ _ _ _) as [st [err|]] eqn:E; [exact (Approve_others _ _ _ _ _ _ _ _ _ _ Hu E Hne)|].
  rewrite finish_store. exact (Approve_others _ _ _ _ _ _ _ _ _ _ Hu E Hne).
Qed.

(** At most the named request is changed, from pending to approved. *)
Definition approves_only (now : Time) (target : string) (s s' : ApprovalStore) : Prop :=
  s' = s \/
  (exists existing by_, GetRequest s target = Ok existing /\ Status existing = "pending" /\
     GetRequest s' target = Ok (set_resolution "approved" by_ "" now 0 existing)) /\
  forall id', id' <> target -> GetRequest s' id' = GetRequest s id'.

Lemma handleApprove_only now db_err s id p by_ :
  unique_ids (store s) ->
  approves_only now id (store s)
    (store (handleApprove now db_err s id p (Decoded {| ApprovedBy := by_; ar_Reason := ""; ValidForMin := 0 |})).1).
Proof.
  intros Hu. destruct (handleApprove _ _ _ _ _ _) as [s' reply] eqn:E. cbn [fst].
  destruct (handleApprove_cases _ _ _ _ _ _ _ _ Hu E) as [(_ & req & ex & who & [= <-] & Hg & Hp & _ & _ & Hs)|[_ Hs]];
    [right|by left].
  split; [by exists ex, who|]. intros id' Hne. replace s' with (handleApprove now db_err s id p
    (Decoded {| ApprovedBy := by_; ar_Reason := ""; ValidForMin := 0 |})).1 by (by rewrite E).
  by apply handleApprove_others.
Qed.

Lemma merge_approves_only now db_err failure aid h target w : unique_ids (store (h_approvals w)) ->
  let w' := (resolveDecision now db_err failure aid h ("fleet:" ++ target) w).1 in
  h_chain w' = h_chain w /\ h_feedback w' = h_feedback w /\
  approves_only now target (store (h_approvals w)) (store (h_approvals w')).
Proof.
  intros Hu w'. unfold w', resolveDecision, handleResolveDecision.
  change (backend ("fleet:" ++ target)) with (Some (ToApproval target)).
  change (("fleet:" ++ target) =?s "") with false. simpl negb. cbn [andb]. unfold resolveAuditdApproval.
  change (Resolution merge_approval =?s "denied") with false. cbv iota zeta.
  destruct (auditURL cfg =?s ""); [by split_and!; try left|].
  destruct (call _ _ _ _ _ _) as [[s' r]|] eqn:E; [|by split_and!; try left].
  split_and!; [done..|]. cbn [fst h_approvals with_approvals].
  apply call_Ok in E as [(code & body & [= -> ->])|(p & _ & E)]; [by left|].
  replace s' with (s', r).1 by done. rewrite E. by apply handleApprove_only.
Qed.

Lemma merge_gate_approvals now db_err failure aid h runID w :
  h_approvals (resolveDecision now db_err failure aid h ("gate:" ++ runID) w).1 = h_approvals w.
Proof.
  unfold resolveDecision, handleResolveDecision.
  change (backend ("gate:" ++ runID)) with (Some (ToGate runID)). change ("gate:" ++ runID =?s "") with false.
  simpl negb. cbn [andb]. unfold resolveGate. by destruct (handleProceedEscalation _ _ _ _ _ _ _ _ _ _ _ _ _ _ _ _ _ _ _ _).
Qed.


Definition with_credentials (signature token : string) (r : GitRequest) : GitRequest :=
  {| gr_HubSignature := signature; gr_GitlabToken := token; gr_headers := gr_headers r; gr_Body := gr_Body r |}.

(**  Without a secret no credential has any part in the answer, and every
    body that names a decision resolves it, under the X-User header of whoever sent it. *)
Theorem no_secret_no_check c now db_err failure aid r w (Hs : Secret c = "") :
  (forall signature token, handleGitWebhook c now db_err failure aid (with_credentials signature token r) w =
     handleGitWebhook c now db_err failure aid r w) /\
  forall text id, gr_Body r = Ok text -> names c (extractMergedBranch parse (limit_bytes webhook_limit text)) id ->
    (handleGitWebhook c now db_err failure aid r w).1 = (resolveDecision now db_err failure aid (gr_headers r) id w).1.
Proof.
  unfold handleGitWebhook. rewrite Hs. cbn [given negb andb]. change (given "") with false. cbn [andb]. split; [done|].
  intros text id -> Hn. apply branch_decision_spec in Hn. cbv zeta. rewrite Hn. by destruct (resolveDecision _ _ _ _ _ _ _).
Qed.
End Webhook.

(** ** The documented payloads *)

Definition github_payload (action : string) (merged : bool) (head base : string) : any :=
  AMap [("action", AStr action); ("number", ANum 7);
        ("pull_request", AMap [("merged", ABool merged); ("head", AMap [("ref", AStr head)]);
                               ("base", AMap [("ref", AStr base)])])].

Definition gitlab_payload (state source target : string) : any :=
  AMap [("object_kind", AStr "merge_request");
        ("object_attributes", AMap [("source_branch", AStr source); ("target_branch", AStr target);
                                    ("state", AStr state); ("action", AStr "merge")])].

Definition generic_payload (branch : string) : any := AMap [("branch", AStr branch)].

(**  What the three payload formats say: the branch that a completed
    merge went into.  The branch that was merged has no part in it. *)
Theorem payload_branches parse body :
  (forall action merged head base, parse body = Some (github_payload action merged head base) ->
     extractMergedBranch parse body = if (action =?s "closed") && merged then base else "") /\
  (forall state source target, parse body = Some (gitlab_payload state source target) ->
     extractMergedBranch parse body = if state =?s "merged" then target else "") /\
  (forall branch, parse body = Some (generic_payload branch) -> extractMergedBranch parse body = branch).
Proof.
  unfold extractMergedBranch. split_and!.
  - intros action merged head base ->. 
    change ((if negb (action =?s "closed") then "" else if merged then base else "") =
            if (action =?s "closed") && merged then base else "").
    by destruct (action =?s "closed"), merged.
  - intros state source target ->. reflexivity.
  - by intros branch ->.
Qed.

(**  A request merged from the branch the documentation asks for, into a
    branch without the prefix, does nothing. *)
Theorem merged_source_ignored {Value : Type} (vs : string -> Value) planner er dr order sort pa fs ft nid u8 fresh hub gw res
    net parse hm c now db_err failure aid r w text id base
    (Hbody : gr_Body r = Ok text) (Hs : Secret c = "")
    (Hparse : parse (limit_bytes webhook_limit text) =
       Some (github_payload "closed" true (branch_prefix c ++ "fleet/" ++ id) base))
    (Hbase : has_prefix base (branch_prefix c) = false) :
  handleGitWebhook vs planner er dr order sort pa fs ft nid u8 fresh hub gw res net parse hm c now db_err failure aid r w =
    (w, Acked).
Proof.
  unfold handleGitWebhook. rewrite Hbody, Hs. change (given "") with false. cbn [andb].
  rewrite (proj1 (payload_branches parse _) _ _ _ _ Hparse). simpl andb. cbv iota. unfold branch_decision. rewrite Hbase.
  by destruct (base =?s "").
Qed.

(** ** Webhooks on a concrete gateway *)

Module WebhookToy.
(** The three texts that are sent. *)
Definition parse (text : string) : option any :=
  assoc text [("gate", github_payload "closed" true "fix" "approved/gate/plr_1");
              ("fleet", generic_payload "approved/fleet/apr_1");
              ("documented", github_payload "closed" true "approved/fleet/apr_1" "main");
              ("opened", github_payload "opened" false "fix" "approved/gate/plr_1")].

Definition hmac (secret body : string) : string := secret ++ "/" ++ body.

Definition default_config : GitWebhookConfig := {| Secret := ""; ResolveBranch := "" |}.
Definition signed_config : GitWebhookConfig := {| Secret := "s3"; ResolveBranch := "" |}.

Definition claims (user : string) : Headers :=
  {| x_user := user; x_trace := ""; x_method := "POST"; x_path := "/api/v1/webhooks/git" |}.
Definition post (signature user text : string) : GitRequest :=
  {| gr_HubSignature := signature; gr_GitlabToken := ""; gr_headers := claims user; gr_Body := Ok text |}.

Definition hook (c : GitWebhookConfig) (r : GitRequest) (w : HubWorld (Value := string))
    : HubWorld (Value := string) * WebhookReply string :=
  handleGitWebhook (fun s => s) Toy.plan (fun _ => None) (fun _ => None) (fun t => t) (fun l => l)
    (ChainToy.script []) (fun _ => Err "session not found") (fun _ => []) ChainToy.new_id "u" "tr_f" HubToy.cfg
    ChainToy.gateway HubToy.resolve HubToy.reached parse hmac c Minute None None "apr" r w.

Definition resolved_by (w : HubWorld (Value := string)) : list (string * string) :=
  map (fun a => (Status a, ResolvedBy a)) (table (store (h_approvals w))).

(** The route needs no caller, and without a secret whoever sends the body approves, in
    the name that the X-User header claims; the request was not for a fleet job. *)
Example anyone_approves_by_default :
  In "POST /api/v1/webhooks/git" gateway_public /\
  let out := hook default_config (post "" "bob" "fleet") HubToy.world in
  out.2 = Resolving (HubResolved "approved") /\ resolved_by out.1 = [("approved", "bob")] /\
  resolved_by HubToy.world = [("pending", "")].
Proof. split; [vm_compute; tauto|]. vm_compute. repeat split. Qed.

(** The name that the webhook gives itself is not a user that auditd knows. *)
Example nobody_may_approve :
  resolved_by (hook default_config (post "" "" "fleet") HubToy.world).1 = [("pending", "")].
Proof. vm_compute. reflexivity. Qed.

(** The gate of a run is approved in the same way, and the remediation starts. *)
Example anyone_opens_gates_by_default :
  length (w_runs (base (h_chain HubToy.world))) = 1 /\
  length (w_runs (base (h_chain (hook default_config (post "" "" "gate") HubToy.world).1))) = 2.
Proof. vm_compute. repeat split. Qed.

Example unsigned_refused :
  (hook signed_config (post "" "bob" "fleet") HubToy.world).2 = WebhookError 401 "invalid webhook signature" /\
  (hook signed_config (post "sha256=s3/opened" "bob" "fleet") HubToy.world).2 =
    WebhookError 401 "invalid webhook signature" /\
  (hook signed_config (post "sha256=s3/opened" "" "opened") HubToy.world).2 = Acked.
Proof. vm_compute. repeat split. Qed.
End WebhookToy.


Lemma no_secret_no_check_witness :
  (forall signature token,
     WebhookToy.hook WebhookToy.default_config (with_credentials signature token (WebhookToy.post "" "bob" "fleet"))
       HubToy.world =
     WebhookToy.hook WebhookToy.default_config (WebhookToy.post "" "bob" "fleet") HubToy.world) /\
  names WebhookToy.default_config (extractMergedBranch WebhookToy.parse "fleet") "fleet:apr_1".
Proof.
  split; [|exact (names_fleet WebhookToy.default_config "apr_1")].
  exact (proj1 (no_secret_no_check (fun s => s) Toy.plan (fun _ => None) (fun _ => None) (fun t => t) (fun l => l)
    (ChainToy.script []) (fun _ => Err "session not found") (fun _ => []) ChainToy.new_id "u" "tr_f" HubToy.cfg
    ChainToy.gateway HubToy.resolve HubToy.reached WebhookToy.parse WebhookToy.hmac WebhookToy.default_config Minute None
    None "apr" (WebhookToy.post "" "bob" "fleet") HubToy.world eq_refl)).
Defined.

Lemma payload_branches_witness :
  extractMergedBranch WebhookToy.parse "gate" = "approved/gate/plr_1" /\
  extractMergedBranch WebhookToy.parse "opened" = "" /\
  extractMergedBranch WebhookToy.parse "fleet" = "approved/fleet/apr_1".
Proof.
  split_and!;
    [exact (proj1 (payload_branches _ "gate") "closed" true "fix" _ eq_refl)
    |exact (proj1 (payload_branches _ "opened") "opened" false "fix" "approved/gate/plr_1" eq_refl)
    |exact (proj2 (proj2 (payload_branches _ "fleet")) _ eq_refl)].
Defined.

(** A branch approved/fleet/apr_1 merged into main. *)
Lemma merged_source_ignored_witness :
  WebhookToy.hook WebhookToy.default_config (WebhookToy.post "" "bob" "documented") HubToy.world = (HubToy.world, Acked).
Proof.
  exact (merged_source_ignored (fun s => s) Toy.plan (fun _ => None) (fun _ => None) (fun t => t) (fun l => l)
    (ChainToy.script []) (fun _ => Err "session not found") (fun _ => []) ChainToy.new_id "u" "tr_f" HubToy.cfg
    ChainToy.gateway HubToy.resolve HubToy.reached WebhookToy.parse WebhookToy.hmac WebhookToy.default_config Minute None
    None "apr" (WebhookToy.post "" "bob" "documented") HubToy.world "documented" "apr_1" "main" eq_refl eq_refl eq_refl
    eq_refl).
Defined.
