(* ===== verification/GatewayRoutes.v ===== *)
(** * The routes of the gateway and what they forward

    [RegisterRoutes] of cmd/gateway/gateway.go as a table: the pattern of each route,
    whether the authentication wraps it, and its handler.  The handlers that do nothing but
    forward to auditd are modelled here, with proxyToAuditd and its relatives of
    cmd/gateway/playbooks.go and uploads.go; the others stand by name and are modelled in
    Gateway, GatewayProxy, Planner, PlaybookChain, PlaybookDraft, Decisions and GitWebhook.
    The values of the path are those of net/http, decoded; the answer of auditd, and whether
    a URL can be parsed, are parameters. *)

From S2P Require Import Prelude GoTime Identity Authz AuthzTables Events Action PlaybookText PlaybookStore PlaybookPrompt.
From S2P Require Import Gateway GatewayProxy.

Open Scope string_scope.

(** ** Requests *)

Record HttpIn := {
  in_r : Request;
  in_value : string -> string;          (* PathValue *)
  in_RawQuery : string;
  in_Query : list (string * string);    (* URL.Query() *)
  in_Body : result string string }.

(** A request of the gateway to auditd. *)
Record AuditdRequest := {
  ar_Method : string;
  ar_URL : string;
  ar_ContentType : string;
  ar_Key : string;
  ar_XUser : string;
  ar_Body : result string string }.

(** What became of it.  The content headers are those of the answer. *)
Inductive Exchange :=
  | Unreachable (e : string)
  | Broken (status : Z) (contentType disposition part e : string)
  | Answered (status : Z) (contentType disposition body : string).

Inductive RouteReply :=
  | Plain (r : ProxyReply)
  | WithContent (status : Z) (contentType disposition body : string).

(** ** Paths of auditd *)

Definition with_query (r : HttpIn) (path : string) : string :=
  path ++ (if in_RawQuery r =?s "" then "" else "?" ++ in_RawQuery r).

Definition playbook_path (r : HttpIn) : string := "/v1/fleet/playbooks/" ++ in_value r "playbookID".
Definition run_path (r : HttpIn) : string := "/v1/fleet/playbook-runs/" ++ in_value r "runID".
Definition upload_path (r : HttpIn) : string := "/v1/uploads/" ++ in_value r "uploadID".

Definition calibration_path (r : HttpIn) : string :=
  let sid := query_get "series_id" (in_Query r) in
  "/v1/fleet/calibration" ++ (if given sid then "?series_id=" ++ sid else "").

Definition history_path (r : HttpIn) : string :=
  let since := query_get "since_days" (in_Query r) in
  let fault := query_get "fault_id" (in_Query r) in
  let parts := ((if given since then [("since_days=" ++ since)%string] else []) ++
                (if given fault then [("fault_id=" ++ fault)%string] else []))%list in
  "/v1/fleet/fault-run-history" ++ match parts with [] => "" | _ => "?" ++ join "&" parts end.

(** ** The table *)

Inductive Target :=
  | ToAuditd (path : HttpIn -> string)
  | ToGovernance (path : HttpIn -> string)
  | ToFleet (path : HttpIn -> string)
  | Explain
  | UploadCreate
  | UploadContent
  | JudgeVerdict
  | RunEvents
  | Own (handler : string).

(** The handlers that only forward. *)
Definition handleGovernancePolicies : Target := ToGovernance (fun _ => "/v1/governance/policies").
Definition handleGovernanceEvents : Target := ToGovernance (fun _ => "/v1/events").
Definition handleGovernanceEvent : Target := ToGovernance (fun r => event_path (in_value r "eventID")).
Definition handleGovernanceApprovals : Target := ToGovernance (fun _ => "/v1/approvals").
Definition handleGovernanceApprovalsPending : Target := ToGovernance (fun _ => "/v1/approvals/pending").
Definition handleGovernanceApprovalApprove : Target := ToGovernance (fun r => approve_path (in_value r "approvalID")).
Definition handleGovernanceApprovalDeny : Target := ToGovernance (fun r => deny_path (in_value r "approvalID")).
Definition handleGovernanceVerify : Target := ToGovernance (fun _ => "/v1/verify").
Definition handleGovernanceJourneys : Target := ToGovernance (fun _ => "/v1/journeys").
Definition handleGovernanceGovbotRuns : Target := ToGovernance (fun _ => "/v1/govbot/runs").
Definition handleFleetListJobs : Target := ToFleet (fun _ => "/v1/fleet/jobs").
Definition handleFleetGetJob : Target := ToFleet (fun r => job_path (in_value r "jobID")).
Definition handleFleetGetJobServers : Target := ToFleet (fun r => job_servers_path (in_value r "jobID")).
Definition handleFleetGetServer : Target :=
  ToFleet (fun r => job_server_path (in_value r "jobID") (in_value r "serverName")).
Definition handleFleetGetServerSteps : Target :=
  ToFleet (fun r => job_steps_path (in_value r "jobID") (in_value r "serverName")).
Definition handleFleetGetJobApproval : Target :=
  ToFleet (fun r => job_approval_path (in_value r "jobID") (in_value r "approvalID")).
Definition handleUploadGet : Target := ToAuditd upload_path.
Definition handlePlaybookCreate : Target := ToAuditd (fun _ => "/v1/fleet/playbooks").
Definition handlePlaybookList : Target := ToAuditd (fun r => with_query r "/v1/fleet/playbooks").
Definition handlePlaybookGet : Target := ToAuditd playbook_path.
Definition handlePlaybookUpdate : Target := ToAuditd playbook_path.
Definition handlePlaybookDelete : Target := ToAuditd playbook_path.
Definition handlePlaybookActivate : Target := ToAuditd (fun r => playbook_path r ++ "/activate").

Record Route := { rt_pattern : string; rt_auth : bool; rt_target : Target }.

Definition route (pattern : string) (t : Target) : Route := {| rt_pattern := pattern; rt_auth := true; rt_target := t |}.
Definition open_route (pattern : string) (t : Target) : Route := {| rt_pattern := pattern; rt_auth := false; rt_target := t |}.

(** The routes in the order of their registration. *)
Definition RegisterRoutes : list Route :=
  [route "GET /health" (Own "health");
   open_route "GET /metrics" (Own "metrics");
   route "GET /api/v1/agents" (Own "handleListAgents");
   route "GET /api/v1/tools" (Own "handleListTools");
   route "GET /api/v1/tools/{toolName}" (Own "handleGetTool");
   route "GET /api/v1/roles" (Own "handleListRoles");
   route "POST /api/v1/query" (Own "handleQuery");
   route "POST /api/v1/incidents" (Own "handleCreateIncident");
   route "GET /api/v1/incidents" (Own "handleListIncidents");
   route "GET /api/v1/incidents/{runID}" (Own "handleGetIncident");
   route "POST /api/v1/db/{tool}" (Own "handleDBTool");
   route "POST /api/v1/k8s/{tool}" (Own "handleK8sTool");
   route "POST /api/v1/research" (Own "handleResearch");
   route "GET /api/v1/infrastructure" (Own "handleListInfrastructure");
   route "GET /api/v1/databases" (Own "handleListDatabases");
   route "POST /api/v1/admin/infra/register-db" (Own "handleRegisterEphemeralDB");
   route "GET /api/v1/governance" (Own "handleGovernance");
   route "GET /api/v1/governance/policies" handleGovernancePolicies;
   route "GET /api/v1/governance/explain" Explain;
   route "GET /api/v1/governance/events" handleGovernanceEvents;
   route "GET /api/v1/governance/events/{eventID}" handleGovernanceEvent;
   route "GET /api/v1/governance/approvals/pending" handleGovernanceApprovalsPending;
   route "GET /api/v1/governance/approvals" handleGovernanceApprovals;
   route "POST /api/v1/governance/approvals/{approvalID}/approve" handleGovernanceApprovalApprove;
   route "POST /api/v1/governance/approvals/{approvalID}/deny" handleGovernanceApprovalDeny;
   route "GET /api/v1/governance/verify" handleGovernanceVerify;
   route "GET /api/v1/governance/journeys" handleGovernanceJourneys;
   route "GET /api/v1/governance/govbot/runs" handleGovernanceGovbotRuns;
   route "POST /api/v1/fleet/plan" (Own "handleFleetPlan");
   route "POST /api/v1/fleet/snapshot" (Own "handleFleetSnapshot");
   route "POST /api/v1/fleet/review" (Own "handleFleetReview");
   route "POST /api/v1/fleet/uploads" UploadCreate;
   route "GET /api/v1/fleet/uploads/{uploadID}" handleUploadGet;
   route "GET /api/v1/fleet/uploads/{uploadID}/content" UploadContent;
   route "POST /api/v1/fleet/playbooks/from-trace" (Own "handlePlaybookFromTrace");
   route "POST /api/v1/fleet/playbooks/import" (Own "handlePlaybookImport");
   route "POST /api/v1/fleet/playbooks" handlePlaybookCreate;
   route "GET /api/v1/fleet/playbooks" handlePlaybookList;
   route "GET /api/v1/fleet/playbooks/{playbookID}" handlePlaybookGet;
   route "PUT /api/v1/fleet/playbooks/{playbookID}" handlePlaybookUpdate;
   route "DELETE /api/v1/fleet/playbooks/{playbookID}" handlePlaybookDelete;
   route "POST /api/v1/fleet/playbooks/{playbookID}/activate" handlePlaybookActivate;
   route "POST /api/v1/fleet/playbooks/{playbookID}/judge-verdict" JudgeVerdict;
   route "POST /api/v1/fleet/playbooks/{playbookID}/run" (Own "handlePlaybookRun");
   route "GET /api/v1/fleet/playbooks/{playbookID}/runs" (ToAuditd (fun r => playbook_path r ++ "/runs?" ++ in_RawQuery r));
   route "GET /api/v1/fleet/playbooks/{playbookID}/stats" (ToAuditd (fun r => playbook_path r ++ "/stats"));
   route "GET /api/v1/fleet/playbook-runs" (ToAuditd (fun r => with_query r "/v1/fleet/playbook-runs"));
   route "PATCH /api/v1/fleet/playbook-runs/{runID}" (ToAuditd run_path);
   route "GET /api/v1/fleet/playbook-runs/{runID}" (ToAuditd run_path);
   route "POST /api/v1/fleet/playbook-runs/{runID}/proceed" (Own "handlePlaybookRunProceed");
   route "POST /api/v1/fleet/playbook-runs/{runID}/proceed-escalation" (Own "handleProceedEscalation");
   route "GET /api/v1/fleet/playbook-runs/{runID}/events" RunEvents;
   route "POST /api/v1/fleet/playbook-runs/{runID}/feedback" (ToAuditd (fun r => run_path r ++ "/feedback"));
   route "GET /api/v1/fleet/playbook-runs/{runID}/feedback" (ToAuditd (fun r => with_query r (run_path r ++ "/feedback")));
   route "POST /api/v1/fleet/playbook-runs/{runID}/request-feedback" (Own "handleRequestFeedback");
   route "POST /api/v1/fleet/playbook-runs/{runID}/evaluation" (ToAuditd (fun r => run_path r ++ "/evaluation"));
   route "GET /api/v1/fleet/playbook-runs/{runID}/evaluation" (ToAuditd (fun r => run_path r ++ "/evaluation"));
   route "GET /api/v1/fleet/series/{seriesID}/version-stats" (ToAuditd (fun r => "/v1/fleet/series/" ++ in_value r "seriesID" ++ "/version-stats"));
   route "GET /api/v1/fleet/calibration" (ToAuditd calibration_path);
   route "GET /api/v1/fleet/fault-run-history" (ToAuditd history_path);
   route "POST /api/v1/fleet/fault-stability" (ToAuditd (fun _ => "/v1/fleet/fault-stability"));
   route "GET /api/v1/fleet/fault-stability" (ToAuditd (fun _ => "/v1/fleet/fault-stability"));
   route "GET /api/v1/fleet/fault-stability/{faultID}" (ToAuditd (fun r => "/v1/fleet/fault-stability/" ++ in_value r "faultID"));
   route "GET /api/v1/decisions" (Own "handleGetDecisions");
   route "GET /api/v1/decisions/{id}" (Own "handleGetDecision");
   route "POST /api/v1/decisions/{id}/resolve" (Own "handleResolveDecision");
   open_route "POST /api/v1/webhooks/git" (Own "handleGitWebhook");
   route "GET /api/v1/fleet/playbook-runs/{runID}/steps" (ToAuditd (fun r => run_path r ++ "/steps"));
   route "GET /api/v1/fleet/playbook-runs/{runID}/pending-step" (ToAuditd (fun r => run_path r ++ "/pending-step"));
   route "GET /api/v1/tool-results" (ToAuditd (fun r => "/v1/tool-results?" ++ in_RawQuery r));
   route "POST /api/v1/fleet/jobs" (Own "handleFleetCreateJob");
   route "GET /api/v1/fleet/jobs" handleFleetListJobs;
   route "GET /api/v1/fleet/jobs/{jobID}" handleFleetGetJob;
   route "GET /api/v1/fleet/jobs/{jobID}/servers" handleFleetGetJobServers;
   route "GET /api/v1/fleet/jobs/{jobID}/servers/{serverName}" handleFleetGetServer;
   route "GET /api/v1/fleet/jobs/{jobID}/servers/{serverName}/steps" handleFleetGetServerSteps;
   route "GET /api/v1/fleet/jobs/{jobID}/approval/{approvalID}" handleFleetGetJobApproval].

(** ** proxyToAuditd and its relatives *)

Section Routes.
Context (cfg : ProxyConfig) (build_error : string -> option string) (roundtrip : AuditdRequest -> Exchange).

Definition auditd_base : string := trim_suffix (px_auditURL cfg) "/".

Definition auditd_request (method path contentType : string) (r : HttpIn) : AuditdRequest :=
  {| ar_Method := method; ar_URL := auditd_base ++ path; ar_ContentType := contentType; ar_Key := px_auditAPIKey cfg;
     ar_XUser := Header "X-User" (in_r r); ar_Body := in_Body r |}.

Definition exchange_with (up : AuditdRequest) : list AuditdRequest * RouteReply :=
  if px_auditURL cfg =?s "" then ([], Plain (Refuse 503 "auditd URL not configured"))
  else
    match build_error (ar_URL up) with
    | Some e => ([], Plain (Refuse 500 ("failed to build proxy request: " ++ e)))
    | None =>
        ([up], match roundtrip up with
               | Unreachable e => Plain (Refuse 502 ("auditd request failed: " ++ e))
               | Broken _ _ _ _ e => Plain (Refuse 502 ("failed to read auditd response: " ++ e))
               | Answered status _ _ body => Plain (Relayed status "" body)
               end)
    end.

Definition proxyToAuditd (path : string) (r : HttpIn) : list AuditdRequest * RouteReply :=
  exchange_with (auditd_request (rq_Method (in_r r)) path "application/json" r).

Definition handleUploadCreate (r : HttpIn) : list AuditdRequest * RouteReply :=
  exchange_with (auditd_request "POST" "/v1/uploads" (Header "Content-Type" (in_r r)) r).

(** No X-User goes along, and the content headers of the answer come back. *)
Definition handleUploadGetContent (r : HttpIn) : list AuditdRequest * RouteReply :=
  if px_auditURL cfg =?s "" then ([], Plain (Refuse 503 "auditd URL not configured"))
  else
    let up := {| ar_Method := "GET"; ar_URL := auditd_base ++ upload_path r ++ "/content"; ar_ContentType := "";
                 ar_Key := px_auditAPIKey cfg; ar_XUser := ""; ar_Body := Ok "" |} in
    match build_error (ar_URL up) with
    | Some e => ([], Plain (Refuse 500 ("failed to build proxy request: " ++ e)))
    | None =>
        ([up], match roundtrip up with
               | Unreachable e => Plain (Refuse 502 ("auditd request failed: " ++ e))
               | Broken status contentType disposition part _ => WithContent status contentType disposition part
               | Answered status contentType disposition body => WithContent status contentType disposition body
               end)
    end.

(** [unmarshal_verdict] reads the member verdict. *)
Definition handlePlaybookSetJudgeVerdict (unmarshal_verdict : string -> result string string) (r : HttpIn)
    : list AuditdRequest * RouteReply :=
  if in_value r "playbookID" =?s "" then ([], Plain (Refuse 400 "playbookID is required"))
  else
    match in_Body r with
    | Err _ => ([], Plain (Refuse 400 "failed to read body"))
    | Ok bytes =>
        match unmarshal_verdict bytes with
        | Err e => ([], Plain (Refuse 400 ("invalid JSON: " ++ e)))
        | Ok verdict =>
            if verdict =?s "" then ([], Plain (Refuse 400 "verdict is required"))
            else proxyToAuditd (playbook_path r ++ "/judge-verdict") r
        end
    end.

(** The trace of the run, as [fetchPlaybookRun] finds it. *)
Definition handlePlaybookRunEvents (fetchPlaybookRun : string -> result string string) (r : HttpIn)
    : list AuditdRequest * RouteReply :=
  let runID := in_value r "runID" in
  if runID =?s "" then ([], Plain (Refuse 400 "runID is required"))
  else
    match fetchPlaybookRun runID with
    | Err e =>
        ([], Plain (if str_contains e "not found" then Refuse 404 "run not found" else Refuse 500 "failed to fetch run"))
    | Ok trace =>
        if trace =?s "" then ([], Plain (Relayed 200 "" ("[]" ++ nl)))
        else
          let types := or_default "agent_reasoning,tool_execution,policy_decision" (query_get "types" (in_Query r)) in
          let limit := or_default "500" (query_get "limit" (in_Query r)) in
          proxyToAuditd ("/v1/events?trace_id=" ++ trace ++ "&types=" ++ types ++ "&limit=" ++ limit) r
    end.

(** The handler behind the authentication.  [own] are the handlers of the other files. *)
Context (built : string -> bool) (exchange : Upstream -> result string (Z * string)).
Context (encode : list (string * string) -> string) (unmarshal_verdict fetchPlaybookRun : string -> result string string).
Context (own : string -> HttpIn -> RouteReply).

Definition upstream_request (up : Upstream) : AuditdRequest :=
  {| ar_Method := up_Method up; ar_URL := up_URL up; ar_ContentType := up_ContentType up; ar_Key := up_Key up;
     ar_XUser := ""; ar_Body := Ok (up_Body up) |}.
Definition relayed (out : list Upstream * ProxyReply) : list AuditdRequest * RouteReply :=
  (map upstream_request out.1, Plain out.2).
Definition body_text (r : HttpIn) : string := match in_Body r with Ok b => b | Err _ => "" end.

Definition handle (t : Target) (r : HttpIn) : list AuditdRequest * RouteReply :=
  let contentType := Header "Content-Type" (in_r r) in
  let method := rq_Method (in_r r) in
  match t with
  | ToAuditd path => proxyToAuditd (path r) r
  | ToGovernance path =>
      relayed (proxyGovernanceRequest cfg built exchange method (path r) (in_RawQuery r) contentType (body_text r))
  | ToFleet path => relayed (proxyFleetRequest cfg built exchange (path r) (in_RawQuery r) method "")
  | Explain =>
      relayed (handleGovernanceExplain cfg built exchange encode (in_r r) (in_Query r) contentType (body_text r))
  | UploadCreate => handleUploadCreate r
  | UploadContent => handleUploadGetContent r
  | JudgeVerdict => handlePlaybookSetJudgeVerdict unmarshal_verdict r
  | RunEvents => handlePlaybookRunEvents fetchPlaybookRun r
  | Own handler => ([], own handler r)
  end.

Definition as_caller (p : ResolvedPrincipal) (r : HttpIn) : HttpIn :=
  {| in_r := with_principal p (in_r r); in_value := in_value r; in_RawQuery := in_RawQuery r; in_Query := in_Query r;
     in_Body := in_Body r |}.

Definition serve (authzr : option Authorizer) (provider : option (result string ResolvedPrincipal)) (rt : Route) (r : HttpIn)
    : list AuditdRequest * RouteReply :=
  if rt_auth rt then
    match gateway_auth authzr provider (rt_pattern rt) with
    | Refused code body => ([], Plain (Refuse code body))
    | Served p => handle (rt_target rt) (as_caller p r)
    end
  else handle (rt_target rt) r.
End Routes.

(** ** Patterns of net/http *)

Definition pattern_method (pattern : string) : string := hd "" (split_on " " pattern).
Definition pattern_path (pattern : string) : string := nth 1 (split_on " " pattern) "".

Definition is_wildcard (seg : string) : bool := has_prefix seg "{".

Fixpoint segments_match (pattern path : list string) : bool :=
  match pattern, path with
  | [], [] => true
  | p :: ps, s :: ss => (if is_wildcard p then given s else p =?s s) && segments_match ps ss
  | _, _ => false
  end.

(** The path of a request, without the query, has the form of the pattern. *)
Definition request_path (target : string) : string := hd "" (split_on "?" target).
Definition path_matches (pattern target : string) : bool :=
  segments_match (split_on "/" pattern) (split_on "/" (request_path target)).

(** A value that is one segment of a path and nothing else. *)
Definition plain (v : string) : Prop := v <> "" /\ Forall (fun c => split_on c v = [v]) ["/"; "?"; "#"; "%"]%char.

(** ** A path with its values in place *)

Definition lacks (c : ascii) (s : string) : Prop := split_on c s = [s].

Lemma lacks_cons c x s : lacks c (String x s) <-> x <> c /\ lacks c s.
Proof.
  unfold lacks. simpl. destruct (Ascii.eqb_spec x c) as [->|Hne]; [split; [done|by intros []]|].
  pose proof (split_on_nonempty c s). destruct (split_on c s) as [|p [|p' ps]]; [done| |].
  - split; [by intros [= ->]|]. by intros [_ [= ->]].
  - split; [done|]. by intros [_ ?].
Qed.

Lemma lacks_app c a b : lacks c (a ++ b) <-> lacks c a /\ lacks c b.
Proof.
  induction a as [|x a IH]; [split; [by split|by intros []]|].
  change (String x a ++ b) with (String x (a ++ b)). rewrite !lacks_cons, IH. tauto.
Qed.

Lemma split_app c a b : lacks c a -> split_on c (a ++ String c b) = a :: split_on c b.
Proof. intros H. by rewrite split_on_app, H. Qed.

Lemma request_path_app a q : lacks "?" a -> q = "" \/ has_prefix q "?" = true -> request_path (a ++ q) = a.
Proof.
  intros Ha [->|H]; unfold request_path; [by rewrite app_empty_r, Ha|].
  apply has_prefix_spec in H as [r ->]. change ("?" ++ r) with (String "?" r).
  by rewrite (split_app "?" a r Ha).
Qed.

(** The segment of a template, a value for a name in braces. *)
Definition fill (f : string -> string) (seg : string) : string :=
  if is_wildcard seg then f (trim_suffix (trim_prefix seg "{") "}") else seg.

Fixpoint fill_onto (f : string -> string) (segs : list string) (q : option string) : string :=
  match segs with
  | [] => default "" q
  | [s] => match q with Some q => fill f s ++ q | None => fill f s end
  | s :: segs => fill f s ++ "/" ++ fill_onto f segs q
  end.

Definition filled (f : string -> string) (segs : list string) : string := fill_onto f segs None.

Lemma fill_onto_app f segs q : segs <> [] -> fill_onto f segs q = filled f segs ++ default "" q.
Proof.
  unfold filled. induction segs as [|s [|s' segs] IH]; intros Hne; [done| |].
  - destruct q; simpl; [done|]. by rewrite app_empty_r.
  - cbn [fill_onto] in *. rewrite IH by done. by rewrite !app_assoc_s.
Qed.

Definition fills_to (f : string -> string) (seg : string) : Prop :=
  lacks "/" seg /\ lacks "?" seg /\ (is_wildcard seg = true -> plain (fill f seg)).

Lemma fill_lacks f seg : fills_to f seg -> lacks "/" (fill f seg) /\ lacks "?" (fill f seg).
Proof.
  intros (Hs & Hq & Hw). destruct (is_wildcard seg) eqn:E; [|by unfold fill; rewrite E].
  destruct (Hw eq_refl) as [_ H]. rewrite !Forall_cons in H. tauto.
Qed.

Lemma filled_split f segs : segs <> [] -> Forall (fills_to f) segs ->
  split_on "/" (filled f segs) = map (fill f) segs /\ lacks "?" (filled f segs).
Proof.
  unfold filled. intros Hne H. induction H as [|s segs Hs HF IH]; [done|]. destruct (fill_lacks _ _ Hs) as [H1 H2].
  destruct segs as [|s' segs]; [by split; [exact H1|]|]. destruct IH as [IH1 IH2]; [done|].
  cbn [fill_onto] in *. split.
  - change ("/" ++ ?x) with (String "/" x). rewrite split_app, IH1 by done. done.
  - apply lacks_app. split; [done|]. by apply lacks_cons.
Qed.

Lemma filled_matches f segs : Forall (fills_to f) segs -> segments_match segs (map (fill f) segs) = true.
Proof.
  induction 1 as [|s segs (_ & _ & Hw) HF IH]; [done|]. cbn [map segments_match]. rewrite IH, andb_true_r.
  destruct (is_wildcard s) eqn:E; [|unfold fill; by rewrite E, streq_refl].
  destruct (Hw eq_refl) as [Hne _]. unfold given. by rewrite (proj2 (streq_false _ _) Hne).
Qed.

Lemma target_matches f segs template q : segs <> [] -> Forall (fills_to f) segs -> split_on "/" template = segs ->
  q = "" \/ has_prefix q "?" = true -> path_matches template (filled f segs ++ q) = true.
Proof.
  intros Hne HF Ht Hq. destruct (filled_split f segs Hne HF) as [Hs Hl]. unfold path_matches.
  rewrite (request_path_app _ _ Hl Hq), Ht, Hs. by apply filled_matches.
Qed.

(** ** What is forwarded, and where *)

Definition is_query (q : string) : Prop := q = "" \/ has_prefix q "?" = true.

Lemma is_query_app q q' : is_query q -> is_query q' -> is_query (q ++ q').
Proof. intros [->|H] Hq'; [exact Hq'|]. right. apply has_prefix_spec in H as [s ->]. done. Qed.

(** The path at auditd of a route, where it has one. *)
Definition auditd_path (t : Target) : option (HttpIn -> string) :=
  match t with
  | ToAuditd path | ToGovernance path | ToFleet path => Some path
  | Explain => Some (fun _ => "/v1/governance/explain")
  | UploadCreate => Some (fun _ => "/v1/uploads")
  | UploadContent => Some (fun r => upload_path r ++ "/content")
  | JudgeVerdict => Some (fun r => playbook_path r ++ "/judge-verdict")
  | RunEvents => Some (fun _ => "/v1/events")
  | Own _ => None
  end.

(** Two targets write the method themselves. *)
Definition own_method (t : Target) : option string :=
  match t with UploadCreate => Some "POST" | UploadContent => Some "GET" | _ => None end.

(** A request whose values are the wildcards: the path it is given is the template. *)
Definition probe : HttpIn :=
  {| in_r := {| rq_Method := ""; rq_Path := ""; rq_Header := ∅; rq_Principal := None; rq_Approval := None |};
     in_value := fun k => "{" ++ k ++ "}"; in_RawQuery := ""; in_Query := []; in_Body := Ok "" |}.

Definition template (path : HttpIn -> string) : string := request_path (path probe).
Definition segments (path : HttpIn -> string) : list string := split_on "/" (template path).
Definition wildcards (pattern : string) : list string := List.filter is_wildcard (split_on "/" (pattern_path pattern)).

Definition row_pattern (rt : Route) (path : HttpIn -> string) : string :=
  pattern_method (rt_pattern rt) ++ " " ++ template path.

Definition registered_row (rt : Route) : bool :=
  match auditd_path (rt_target rt) with
  | None => true
  | Some path =>
      forallb id [mem (row_pattern rt path) auditd_registered;
                  pattern_method (row_pattern rt path) =?s pattern_method (rt_pattern rt);
                  pattern_path (row_pattern rt path) =?s template path;
                  match own_method (rt_target rt) with Some m => m =?s pattern_method (rt_pattern rt) | None => true end] &&
      forallb (fun seg => (negb (is_wildcard seg) || mem seg (wildcards (rt_pattern rt))) &&
                          (length (split_on "/" seg) =? 1)%nat && (length (split_on "?" seg) =? 1)%nat) (segments path)
  end.

Lemma rows_registered : forallb registered_row RegisterRoutes = true.
Proof. vm_compute. reflexivity. Qed.

Definition filled_path (path : HttpIn -> string) : Prop :=
  forall r, exists q, path r = fill_onto (in_value r) (segments path) q /\ is_query (default "" q).

Ltac same_path := cbn beta;
  lazy beta iota delta [auditd_path rt_target route open_route handleFleetListJobs handleFleetGetJob handleFleetGetJobServers handleFleetGetServer handleFleetGetServerSteps handleFleetGetJobApproval];
  unfold with_query, run_path, job_steps_path, job_approval_path, job_server_path, job_servers_path;
  rewrite ?app_assoc_s; reflexivity.

Ltac fill_row := intros r;
  first [ exists None; split; [same_path|by left]
        | eexists (Some (if in_RawQuery r =?s "" then "" else "?" ++ in_RawQuery r)); split;
            [same_path|destruct (in_RawQuery r =?s ""); [by left|by right]]
        | exists (Some ("?" ++ in_RawQuery r)); split; [same_path|by right] ].

Lemma calibration_filled : filled_path calibration_path.
Proof.
  intros r. unfold calibration_path. set (sid := query_get _ _).
  exists (Some (if given sid then "?series_id=" ++ sid else "")). split; [reflexivity|].
  destruct (given sid); [by right|by left].
Qed.

Lemma history_filled : filled_path history_path.
Proof.
  intros r. unfold history_path. set (parts := (_ ++ _)%list).
  exists (Some (match parts with [] => "" | _ => "?" ++ join "&" parts end)). split; [reflexivity|].
  destruct parts; [by left|by right].
Qed.

Lemma rows_filled : Forall (fun rt => match auditd_path (rt_target rt) with Some path => filled_path path | None => True end)
  RegisterRoutes.
Proof.
  unfold RegisterRoutes.
  repeat (apply List.Forall_cons; [first [exact I|exact calibration_filled|exact history_filled|fill_row]|]).
  apply List.Forall_nil.
Qed.

Lemma one_part c s : (length (split_on c s) =? 1)%nat = true -> lacks c s.
Proof.
  unfold lacks. rewrite Nat.eqb_eq. induction s as [|x s IH]; [done|]. simpl.
  destruct (Ascii.eqb x c); [simpl; intros [= H]; by destruct (split_on_nonempty c s (nil_length_inv _ H))|].
  pose proof (split_on_nonempty c s). destruct (split_on c s) as [|p [|? ?]]; try done. intros _.
  by injection (IH eq_refl) as ->.
Qed.

Lemma registered_spec rt path : In rt RegisterRoutes -> auditd_path (rt_target rt) = Some path ->
  In (row_pattern rt path) auditd_registered /\
  pattern_method (row_pattern rt path) = pattern_method (rt_pattern rt) /\
  pattern_path (row_pattern rt path) = template path /\
  (forall m, own_method (rt_target rt) = Some m -> m = pattern_method (rt_pattern rt)) /\
  (forall seg, In seg (segments path) -> is_wildcard seg = true -> In seg (wildcards (rt_pattern rt))) /\
  forall seg, In seg (segments path) -> lacks "/" seg /\ lacks "?" seg.
Proof.
  intros Hrt Hp. pose proof rows_registered as H. rewrite forallb_forall in H. specialize (H _ Hrt).
  unfold registered_row in H. rewrite Hp in H. apply andb_true_iff in H as [H1 H2].
  rewrite forallb_forall in H2. cbn [forallb] in H1. unfold id in H1. repeat rewrite andb_true_iff in H1.
  destruct H1 as (Hin & Hpm & Hpp & Hown & _). apply mem_spec in Hin. apply streq_spec in Hpm, Hpp.
  split_and!; [exact Hin|exact Hpm|exact Hpp| | |].
  - intros m Hm. rewrite Hm in Hown. by apply streq_spec in Hown.
  - intros seg Hs Hw. specialize (H2 _ Hs). rewrite Hw in H2. repeat rewrite andb_true_iff in H2.
    destruct H2 as [[H2 _] _]. by apply mem_spec.
  - intros seg Hs. specialize (H2 _ Hs). rewrite !andb_true_iff in H2. destruct H2 as [[_ Ha] Hb].
    split; by apply one_part.
Qed.

Lemma path_filled rt path : In rt RegisterRoutes -> auditd_path (rt_target rt) = Some path -> filled_path path.
Proof.
  intros Hrt Hp. pose proof (proj1 (List.Forall_forall _ _) rows_filled _ Hrt) as H. cbv beta in H. by rewrite Hp in H.
Qed.

Section Forwarding.
Context (cfg : ProxyConfig) (build_error : string -> option string) (roundtrip : AuditdRequest -> Exchange).
Context (built : string -> bool) (exchange : Upstream -> result string (Z * string)).
Context (encode : list (string * string) -> string) (unmarshal_verdict fetchPlaybookRun : string -> result string string).
Context (own : string -> HttpIn -> RouteReply).

Abbreviation answer := (handle cfg build_error roundtrip built exchange encode unmarshal_verdict fetchPlaybookRun own).
Abbreviation serve_route := (serve cfg build_error roundtrip built exchange encode unmarshal_verdict fetchPlaybookRun own).

Lemma target_url_query path raw : exists q, target_url cfg path raw = px_auditURL cfg ++ path ++ q /\ is_query q.
Proof.
  unfold target_url. eexists. split; [done|]. destruct (raw =?s ""); [by left|by right].
Qed.

Lemma exchanged up x : In x (exchange_with cfg build_error roundtrip up).1 -> x = up.
Proof.
  unfold exchange_with. destruct (px_auditURL cfg =?s ""); [done|]. destruct (build_error _); [done|]. by intros [<-|[]].
Qed.

Lemma governed method path raw ct body x :
  In x (relayed (proxyGovernanceRequest cfg built exchange method path raw ct body)).1 ->
  ar_URL x = target_url cfg path raw /\ ar_Method x = method /\ ar_Key x = px_auditAPIKey cfg /\ ar_XUser x = "".
Proof.
  unfold relayed, proxyGovernanceRequest. destruct (px_auditURL cfg =?s ""); [done|]. destruct (built _); [|done].
  cbn [negb]. by destruct (exchange _) as [[? ?]|]; cbn; intros [<-|[]].
Qed.

Lemma fleeted path raw method body x : In x (relayed (proxyFleetRequest cfg built exchange path raw method body)).1 ->
  ar_URL x = target_url cfg path raw /\ ar_Method x = method /\ ar_Key x = px_auditAPIKey cfg /\ ar_XUser x = "".
Proof.
  unfold relayed, proxyFleetRequest. destruct (px_auditURL cfg =?s ""); [done|]. destruct (built _); [|done].
  cbn [negb]. by destruct (exchange _) as [[? ?]|]; cbn; intros [<-|[]].
Qed.

Definition target_method (t : Target) (r : HttpIn) : string := default (rq_Method (in_r r)) (own_method t).

(** Every request to auditd carries the gateway's key, and as a user either nobody or
    whom the header of the caller names. *)
Definition forwards (t : Target) (r : HttpIn) (up : AuditdRequest) : Prop :=
  (exists path q, auditd_path t = Some path /\ ar_URL up = px_auditURL cfg ++ path r ++ q /\ is_query q) /\
  ar_Method up = target_method t r /\ ar_Key up = px_auditAPIKey cfg /\
  (ar_XUser up = "" \/ ar_XUser up = Header "X-User" (in_r r)).

Hypothesis no_slash : trim_suffix (px_auditURL cfg) "/" = px_auditURL cfg.

Lemma to_auditd t path q r up : auditd_path t = Some path -> is_query q -> target_method t r = rq_Method (in_r r) ->
  In up (proxyToAuditd cfg build_error roundtrip (path r ++ q) r).1 -> forwards t r up.
Proof.
  intros Hp Hq Hm H. apply exchanged in H as ->. split_and!; [|done|done|by right].
  exists path, q. split_and!; [done| |done]. cbn [ar_URL auditd_request]. unfold auditd_base. by rewrite no_slash.
Qed.

Lemma handle_forwards t r up : In up (answer t r).1 -> forwards t r up.
Proof.
  destruct t as [path|path|path| | | | | |h]; cbn [handle].
  - rewrite <- (app_empty_r (path r)). apply to_auditd; [done|by left|done].
  - intros H. apply governed in H as (Hu & Hm & Hk & Hx). destruct (target_url_query (path r) (in_RawQuery r)) as (q & Hq & Hi).
    unfold forwards. rewrite Hu. split_and!; [exists path, q; by rewrite Hq|exact Hm|exact Hk|by left].
  - intros H. apply fleeted in H as (Hu & Hm & Hk & Hx). destruct (target_url_query (path r) (in_RawQuery r)) as (q & Hq & Hi).
    unfold forwards. rewrite Hu. split_and!; [exists path, q; by rewrite Hq|exact Hm|exact Hk|by left].
  - intros H. apply governed in H as (Hu & Hm & Hk & Hx). unfold forwards. rewrite Hu, Hm, Hk, Hx.
    split_and!; [|done|done|by left].
    destruct (target_url_query "/v1/governance/explain" (encode (explain_query (in_r r) (in_Query r)))) as (q & Hq & Hi).
    eexists _, q. split_and!; [done|exact Hq|done].
  - intros H. apply exchanged in H as ->. split_and!; [|done|done|by right]. eexists _, "". split_and!; [done| |by left].
    cbn [ar_URL auditd_request]. unfold auditd_base. by rewrite no_slash.
  - unfold handleUploadGetContent. destruct (px_auditURL cfg =?s ""); [done|]. destruct (build_error _); [done|].
    intros [<-|[]]. split_and!; [|done|done|by left]. eexists _, "". split_and!; [done| |by left].
    cbn [ar_URL]. unfold auditd_base. by rewrite no_slash, app_empty_r.
  - unfold handlePlaybookSetJudgeVerdict. destruct (_ =?s ""); [done|]. destruct (in_Body r); [|done].
    destruct (unmarshal_verdict _) as [v|]; [|done]. destruct (v =?s ""); [done|].
    rewrite <- (app_empty_r (playbook_path r ++ _)). apply (to_auditd JudgeVerdict (fun r => playbook_path r ++ "/judge-verdict"));
      [done|by left|done].
  - unfold handlePlaybookRunEvents. destruct (_ =?s ""); [done|]. destruct (fetchPlaybookRun _) as [trace|]; [|done].
    destruct (trace =?s ""); [done|]. cbv zeta. match goal with |- In _ (proxyToAuditd _ _ _ (_ ++ ?q) _).1 -> _ =>
      apply (to_auditd RunEvents (fun _ => "/v1/events") ("?trace_id=" ++ q)) end; [done|by right|done].
  - done.
Qed.

End Forwarding.

(** ** Who gets through *)

(** The routes that ask for a role. *)
Definition role_routes : list string :=
  ["POST /api/v1/governance/approvals/{approvalID}/approve"; "POST /api/v1/governance/approvals/{approvalID}/deny";
   "POST /api/v1/db/{tool}"; "POST /api/v1/k8s/{tool}"; "POST /api/v1/fleet/jobs"].

(** The registered routes without an entry in the table of permissions. *)
Definition gateway_unlisted : list string :=
  ["POST /api/v1/fleet/playbooks/{playbookID}/judge-verdict"; "POST /api/v1/fleet/fault-stability";
   "GET /api/v1/fleet/fault-stability"; "GET /api/v1/fleet/fault-stability/{faultID}"].

Definition role_entry (k : string) (perm : Permission) : bool :=
  negb (ServiceOnly perm) &&
  if mem k role_routes then negb (AllowAnonymous perm) && match RequireRoles perm with [] => false | _ => true end
  else AllowAnonymous perm || match RequireRoles perm with [] => true | _ => false end.

Lemma role_entries : forallb (fun '(k, perm) => role_entry k perm) gateway_table = true.
Proof. vm_compute. reflexivity. Qed.

Definition enforcing_gateway : Authorizer := NewAuthorizer DefaultGatewayPermissions true.

Lemma roleless_authorized pattern p : IsAnonymous p = false -> (forall role, HasRole p role = false) ->
  Authorize enforcing_gateway pattern p = None <-> ~ In pattern role_routes.
Proof.
  intros Ha Hr. rewrite <- mem_false. destruct (permissions enforcing_gateway !! pattern) as [perm|] eqn:E.
  - rewrite (Authorize_known _ _ _ perm) by done. unfold meets.
    assert (Hrow : role_entry pattern perm = true).
    { unfold enforcing_gateway in E. cbn [permissions NewAuthorizer] in E. unfold DefaultGatewayPermissions in E.
      rewrite lookup_table in E. exact (table_forall _ _ _ _ role_entries E). }
    unfold role_entry in Hrow. apply andb_true_iff in Hrow as [Hs Hrow].
    apply negb_true_iff in Hs. rewrite Hs. destruct (mem pattern role_routes).
    + apply andb_true_iff in Hrow as [Hn Hne]. apply negb_true_iff in Hn. rewrite Hn.
      split; [|done]. intros [?|[_ [[_ H]|[_ [H|(role & _ & H)]]]]]; [done|by rewrite Hr in H| |by rewrite Hr in H].
      by rewrite H in Hne.
    + split; [done|]. intros _. apply orb_true_iff in Hrow as [H|H]; [by left|]. right. split; [done|]. right.
      split; [done|]. left. by destruct (RequireRoles perm).
  - rewrite Authorize_unknown by done. split; [|done]. intros _. destruct (mem pattern role_routes) eqn:Em; [|done].
    apply mem_spec in Em. exfalso. revert E. unfold enforcing_gateway. cbn [permissions NewAuthorizer].
    unfold DefaultGatewayPermissions. rewrite lookup_table.
    repeat (destruct Em as [<-|Em]; [by vm_compute|]). done.
Qed.

Lemma gateway_served a p pattern :
  gateway_auth (Some a) (Some (Ok p)) pattern = Served p <-> Authorize a pattern p = None.
Proof. unfold gateway_auth. destruct (Authorize a pattern p); split; congruence. Qed.

(**  Who reaches which route of an enforcing gateway.  The authentication
    wraps every registered route but the metrics and the git webhook.  A caller without
    identity passes it on exactly the seven public patterns, and a caller with an identity
    but without any role on every route but five: asking for an identity is all that the
    other routes do, those that write playbooks, resolve decisions, proceed with runs or
    register databases among them; four of them have no entry in the table at all. *)
Theorem gateway_reach p :
  map rt_pattern (List.filter (fun rt => negb (rt_auth rt)) RegisterRoutes) = ["GET /metrics"; "POST /api/v1/webhooks/git"] /\
  map rt_pattern (List.filter (fun rt => match assoc (rt_pattern rt) gateway_table with None => true | Some _ => false end)
    RegisterRoutes) = gateway_unlisted /\
  (IsAnonymous p = true -> forall pattern,
     gateway_auth (Some enforcing_gateway) (Some (Ok p)) pattern = Served p <-> In pattern gateway_public) /\
  (IsAnonymous p = false -> (forall role, HasRole p role = false) -> forall pattern,
     gateway_auth (Some enforcing_gateway) (Some (Ok p)) pattern = Served p <-> ~ In pattern role_routes).
Proof.
  split_and!; [reflexivity|reflexivity| |].
  - intros Ha pattern. rewrite gateway_served. by apply anonymous_reaches; [vm_compute|vm_compute|].
  - intros Ha Hr pattern. rewrite gateway_served. by apply roleless_authorized.
Qed.

(** ** Requests on a concrete gateway *)

Module RoutesToy.
Definition config : ProxyConfig :=
  {| px_auditURL := "http://auditd"; px_auditAPIKey := "k"; px_agentAPIKey := ""; px_usersFile := ""; px_authzr := None;
     px_aliases := [] |}.

Definition alice : ResolvedPrincipal :=
  {| UserID := "alice"; Roles := []; Service := ""; AuthMethod := "jwt"; OperatorID := ""; OperatorRoles := [] |}.

(** A request with one value in its path and a user in its header. *)
Definition ask (method name value user : string) : HttpIn :=
  {| in_r := {| rq_Method := method; rq_Path := ""; rq_Header := {["X-User" := user]}; rq_Principal := None;
                rq_Approval := None |};
     in_value := fun k => if k =?s name then value else ""; in_RawQuery := ""; in_Query := []; in_Body := Ok "" |}.

Definition served (rt : Route) (r : HttpIn) : list AuditdRequest * RouteReply :=
  serve config (fun _ => None) (fun _ => Answered 200 "" "" "ok") (fun _ => true) (fun _ => Ok (200%Z, "ok"))
    (fun _ => "") (fun _ => Ok "APPROVE") (fun _ => Ok "tr_1") (fun _ _ => Plain (Refuse 404 ""))
    (Some enforcing_gateway) (Some (Ok alice)) rt r.

Definition activate : Route :=
  route "POST /api/v1/fleet/playbooks/{playbookID}/activate" handlePlaybookActivate.

Definition sent (out : list AuditdRequest * RouteReply) : list (string * string) :=
  map (fun up => (ar_URL up, ar_XUser up)) out.1.

Example activation_forwarded :
  sent (served activate (ask "POST" "playbookID" "pb_1" "bob")) = [("http://auditd/v1/fleet/playbooks/pb_1/activate", "bob")].
Proof. vm_compute. reflexivity. Qed.

(** The value pb_1/runs? makes of the activation a request to record a run, which auditd
    leaves to service accounts: it comes with the key of one.  Alice has no role, and the
    header names another user. *)
Example service_route_reached :
  IsAnonymous alice = false /\ Service alice = "" /\ In activate RegisterRoutes /\
  sent (served activate (ask "POST" "playbookID" "pb_1/runs?" "bob")) =
    [("http://auditd/v1/fleet/playbooks/pb_1/runs?/activate", "bob")] /\
  path_matches "/v1/fleet/playbooks/{playbookID}/runs" "/v1/fleet/playbooks/pb_1/runs?/activate" = true /\
  In "POST /v1/fleet/playbooks/{playbookID}/runs" auditd_service_routes.
Proof. split_and!; [reflexivity|reflexivity|unfold RegisterRoutes; repeat (first [by left|right])|reflexivity|reflexivity|]. vm_compute. tauto. Qed.

(** A name of a run that is also the name of a list at auditd. *)
Example run_named_like_a_list :
  path_matches "/v1/fleet/playbook-runs/feedback-pending" (run_path (ask "GET" "runID" "feedback-pending" "")) = true /\
  In "GET /v1/fleet/playbook-runs/feedback-pending" auditd_registered.
Proof. split; [reflexivity|]. vm_compute. tauto. Qed.
End RoutesToy.


Lemma gateway_reach_witness :
  gateway_auth (Some enforcing_gateway) (Some (Ok RoutesToy.alice)) "DELETE /api/v1/fleet/playbooks/{playbookID}" =
    Served RoutesToy.alice.
Proof.
  apply (proj2 (proj2 (proj2 (gateway_reach RoutesToy.alice))) eq_refl (fun _ => eq_refl)).
  intros [H|[H|[H|[H|[H|[]]]]]]; discriminate H.
Defined.
