(* ===== verification/DatabaseTools.v ===== *)
(** * agents/database/tools.go: running SQL under the policy

    The way from a tool call to psql: the connection string is resolved against the
    inventory, the policy is asked before the command and again with the measured rows,
    and the call is recorded ([runPsqlAs]); the inspection of a session; the tools that
    cancel or terminate sessions with their verification
    (agentutil/retryutil/retryutil.go), and the maintenance tools.  The diagnostic tools
    and the registry of tools are in DatabaseQueries.

    psql is a parameter that sees the commands sent before, and so are the context's
    error, the duration of a command and the JSON of an EXPLAIN.  A loop over the map of
    servers goes over a list of its entries in the order of the run.  Delays between two
    checks are left out.  The enforcer is the one of Enforcer.v, the recorder the one of
    ToolAudit.v; log lines are left out. *)

From S2P Require Import Prelude GoTime GoFormat Events PolicyTypes PolicyEngine PolicyExplain Identity Action.
From S2P Require Import ApprovalStore ApprovalHandlers ApprovalClient Enforcer PlaybookText PlaybookStore PlaybookPrompt.
From S2P Require Import GovernanceCheck Infra ToolAudit.

Open Scope string_scope.

(** ** retryutil.go *)

Section Retry.
Context {W : Type}.
(** [ctx.Err()] before a check and during the sleep that follows it. *)
Context (ctx_err : W -> option string) (sleep_err : W -> option string).
Context (check : W -> W * result string bool) (afterAttempt : Z -> bool -> W -> W).

(** [left] checks may still be made, the next one is number [i]. *)
Fixpoint wait_loop (left : nat) (i : Z) (w : W) : W * (bool * Z * option string) :=
  match left with
  | O => (w, (false, (i - 1)%Z, None))
  | S left' =>
      match ctx_err w with
      | Some e => (w, (false, (i - 1)%Z, Some e))
      | None =>
          match check w with
          | (w1, Err e) => (afterAttempt i false w1, (false, i, Some e))
          | (w1, Ok ok) =>
              let w2 := afterAttempt i ok w1 in
              if ok then (w2, (true, i, None))
              else
                match left' with
                | O => (w2, (false, i, None))
                | S _ =>
                    match sleep_err w2 with
                    | Some e => (w2, (false, i, Some e))
                    | None => wait_loop left' (i + 1)%Z w2
                    end
                end
          end
      end
  end.

Definition WaitUntilResolved (maxAttempts : Z) (w : W) : W * (bool * Z * option string) :=
  wait_loop (Z.to_nat (if (maxAttempts <=? 0)%Z then 1 else maxAttempts)) 1 w.
End Retry.

(** ** Targets *)

Record databaseInfo := {
  di_Name : string;
  ConnectionStr : string;
  di_Tags : list string;
  di_Sensitivity : list string;
  IsFromInfraConfig : bool }.

Definition skipped_fields : list string :=
  ["password"; "sslpassword"; "sslmode"; "sslcert"; "sslkey"; "sslrootcert"; "connect_timeout"; "application_name"].

Definition connStrCoreFields (s : string) : gmap string string :=
  fold_left (fun m kv => if mem kv.1 skipped_fields then m else <[kv.1 := kv.2]> m) (conn_pairs s) ∅.

Definition connStrCoreFieldsMatch (infraConn : string) (inputCore : gmap string string) : bool :=
  let infraCore := connStrCoreFields infraConn in
  if (size infraCore =? 0)%nat then false
  else forallb (fun kv => default "" (inputCore !! kv.1) =?s kv.2) (map_to_list infraCore).

(** The value of the first field [prefix...] among the parts between spaces. *)
Definition first_field (prefix : string) (s : string) : string :=
  match find (fun part => has_prefix part prefix) (split_on " " s) with
  | Some part => trim_prefix part prefix
  | None => ""
  end.

(** The inventory with its servers in iteration order, and the databases registered at
    run time. *)
Record Inventory := {
  iv_config : option (InfraConfig * Servers);
  iv_ephemeral : Servers }.

Definition info_of (getenv : string -> string) (id : string) (db : DBServer) : databaseInfo :=
  {| di_Name := id; ConnectionStr := ResolvedConnectionString getenv db; di_Tags := db_Tags db;
     di_Sensitivity := db_Sensitivity db; IsFromInfraConfig := true |}.

(** A database registered at run time loses its sensitivity. *)
Definition ephemeral_info (getenv : string -> string) (id : string) (db : DBServer) : databaseInfo :=
  {| di_Name := id; ConnectionStr := ResolvedConnectionString getenv db; di_Tags := db_Tags db;
     di_Sensitivity := []; IsFromInfraConfig := true |}.

(** [name] is empty or ends in a space. *)
Definition unregistered (name : string) (servers : Servers) : string :=
  "database " ++ name ++ "not registered in infrastructure config; " ++
  "contact your IT administrator to add it. Known databases: " ++ join ", " (isort String.ltb (map fst servers)).

Definition plain_info (name conn : string) : databaseInfo :=
  {| di_Name := name; ConnectionStr := conn; di_Tags := []; di_Sensitivity := []; IsFromInfraConfig := false |}.

(** A connection string: by its core fields, by its host as a name, then at run time. *)
Definition resolve_string (getenv : string -> string) (config : InfraConfig) (servers ephemeral : Servers) (s : string)
    : result string databaseInfo :=
  match find (fun kv => connStrCoreFieldsMatch (ConnectionString kv.2) (connStrCoreFields s)) servers with
  | Some (id, db) => Ok (info_of getenv id db)
  | None =>
      let host := first_field "host=" s in
      match (if given host then DBServers config !! host else None) with
      | Some db => Ok (info_of getenv host db)
      | None =>
          match find (fun kv => ConnectionString kv.2 =?s s) ephemeral with
          | Some (id, db) => Ok (ephemeral_info getenv id db)
          | None => Err (unregistered "" servers)
          end
      end
  end.

Definition resolve_name (getenv : string -> string) (config : InfraConfig) (servers ephemeral : Servers) (s : string)
    : result string databaseInfo :=
  match DBServers config !! s with
  | Some db => Ok (info_of getenv s db)
  | None =>
      match find (fun kv => kv.1 =?s s) ephemeral with
      | Some (id, db) => Ok (ephemeral_info getenv id db)
      | None => Err (unregistered (quote s ++ " ") servers)
      end
  end.

Definition resolveDatabaseInfo (getenv : string -> string) (iv : Inventory) (connStrOrName : string)
    : result string databaseInfo :=
  let s := trim_space connStrOrName in
  match iv_config iv with
  | Some (config, servers) =>
      if str_contains s "=" then resolve_string getenv config servers (iv_ephemeral iv) s
      else resolve_name getenv config servers (iv_ephemeral iv) s
  | None =>
      Ok (if str_contains s "=" then plain_info (first_field "dbname=" s) s else plain_info s s)
  end.

(** ** Texts *)

Definition masked (part : string) : string := if has_prefix part "password=" then "password=***" else part.

Definition maskPassword (connStr : string) : string := join " " (map masked (split_on " " connStr)).

Definition truncateForAudit : string -> nat -> string := truncateString.

Definition any_in (out : string) (l : list string) : bool := existsb (str_contains out) l.

Definition diagnosePsqlError (output : string) : string :=
  let out := to_lower output in
  if str_contains out "does not exist" then
    "The requested database does not exist on this server. " ++
    "Verify the 'dbname' in the connection string is correct, or create the database first (e.g., CREATE DATABASE <name>)."
  else if str_contains out "connection refused" then
    "Connection refused. The PostgreSQL server may not be running, " ++
    "or the host/port in the connection string is wrong. " ++
    "Check that the server is started and listening on the expected address and port."
  else if str_contains out "could not translate host name" then
    "The hostname in the connection string could not be resolved. " ++
    "Check for typos in the 'host' parameter and ensure DNS is working."
  else if str_contains out "password authentication failed" then
    "Authentication failed. The username or password is incorrect. " ++
    "Verify the 'user' and 'password' in the connection string and the server's pg_hba.conf."
  else if str_contains out "no pg_hba.conf entry" then
    "Connection rejected by pg_hba.conf. The server does not allow connections " ++
    "from this host/user/database combination. Update pg_hba.conf and reload the server."
  else if any_in out ["timeout expired"; "could not connect"] then
    "Connection timed out. The server may be unreachable due to network issues, " ++
    "firewall rules, or an incorrect host/port."
  else if str_contains out "role" && str_contains out "does not exist" then
    "The specified user role does not exist on this server. " ++
    "Verify the 'user' in the connection string or create the role first."
  else if str_contains out "ssl" && any_in out ["unsupported"; "required"] then
    "SSL configuration mismatch. The server and client disagree on SSL requirements. " ++
    "Check the 'sslmode' parameter in the connection string."
  else "".

(** The first line of [output] for which [f] gives a number; 0 without one. *)
Definition first_number (f : string -> option Z) (output : string) : Z :=
  default 0%Z (head (omap f (split_on newline output))).

(** [strings.SplitN(line, "|", 2)] has a second part. *)
Definition after_bar (line : string) : option string :=
  match splitN "|" 2 line with [_; v] => Some (trim_space v) | _ => None end.

Definition parsePgFunctionResult (output : string) : Z :=
  first_number (fun line =>
    let line := trim_space line in
    if (has_prefix line "cancelled" || has_prefix line "terminated") && str_contains line "|" then
      match after_bar line with Some v => if v =?s "t" then Some 1%Z else None | None => None end
    else None) output.

Definition parseTerminatedCount (output : string) : Z :=
  first_number (fun line =>
    if str_contains line "terminated" && str_contains line "|" then
      match after_bar line with Some v => atoi v | None => None end
    else None) output.

(** The last word of a command tag. *)
Definition tag_number (line : string) : option Z :=
  let line := trim_space line in
  if existsb (has_prefix line) ["DELETE "; "UPDATE "; "INSERT "] then
    let parts := str_fields line in
    if (2 <=? length parts)%nat then atoi (List.last parts "") else None
  else None.

Definition parseRowsAffected : string -> Z := first_number tag_number.

(** A policy error as [%v] and [%w] print it. *)
Definition CheckError_text (e : CheckError) : string :=
  match e with
  | Enforcer.Refused msg => msg
  | ByPolicy pe => PolicyExplain.Error pe
  | ApprovalPending id =>
      "approval required (ID: " ++ id ++ ") — this operation needs human authorization before it can execute. " ++
      "Ask an approver to run: ./approvals approve " ++ id ++ " — then reply here to retry."
  end.

(** ** psql *)

(** A command: the connection string, if there is one, the flags before the query, the
    query and the flag after it; the environment is the same for all. *)
Record Command := { cmd_conn : string; cmd_flags : list string; cmd_query : string; cmd_expanded : bool }.

Definition cmd_args (c : Command) : list string :=
  ((if given (cmd_conn c) then [cmd_conn c] else []) ++ cmd_flags c ++ [cmd_query c] ++
   (if cmd_expanded c then ["-x"] else []))%list.

Definition cmd_env : list string := ["PGCONNECT_TIMEOUT=10"; "PGOPTIONS=-c lock_timeout=10000"].

Record DbAgent := {
  policyEnforcer : option PolicyEnforcer;
  toolAuditor : option ToolAuditor;
  inventory : Inventory;
  traceID : string }.

Section Tools.
Context {S : Type} `{!ApprovalAPI S}.
Context (operatingMode : string) (LoadLocation : string -> option (Time -> Z)).
Context (marshal_trace : DecisionTrace -> string) (now : Time) (clock : Clock).
Context (remote : policyCheckReq -> option (Z * option policyCheckResp)).
Context (getenv : string -> string) (ag : DbAgent).
(** Output and error of a command after the ones before it; the error of the context
    after them; the duration of the last one; the id of the next event. *)
Context (psql : list Command -> Command -> string * option string).
Context (ctx_err : list Command -> option string) (elapsed : list Command -> Z) (uuid8 : list Event -> string).
(** [plans\[0\].Plan.PlanRows] of the output of an EXPLAIN, if it is such JSON. *)
Context (plan_rows : string -> option Z).

Record DbWorld := {
  w_api : S;
  w_recorded : list Recorded;
  w_events : list Event;
  w_commands : list Command }.

Definition record_policy (l : list Recorded) (w : DbWorld) : DbWorld :=
  {| w_api := w_api w; w_recorded := (w_recorded w ++ l)%list; w_events := w_events w; w_commands := w_commands w |}.
Definition with_api (s : S) (w : DbWorld) : DbWorld :=
  {| w_api := s; w_recorded := w_recorded w; w_events := w_events w; w_commands := w_commands w |}.
Definition emit (l : list Event) (w : DbWorld) : DbWorld :=
  {| w_api := w_api w; w_recorded := w_recorded w; w_events := (w_events w ++ l)%list; w_commands := w_commands w |}.

Definition run_command (c : Command) (w : DbWorld) : DbWorld * (string * option string) :=
  ({| w_api := w_api w; w_recorded := w_recorded w; w_events := w_events w; w_commands := (w_commands w ++ [c])%list |},
   psql (w_commands w) c).

(** The recorder, when there is one. *)
Definition audited (f : ToolAuditor -> string -> list Event) (w : DbWorld) : DbWorld :=
  match toolAuditor ag with Some ta => emit (f ta (uuid8 (w_events w))) w | None => w end.

Definition tool_ctx (c : Ctx) (toolName : string) : Ctx := {| cx_trace := cx_trace c; cx_tool := toolName |}.

(** [CheckDatabase] of the resolved database, under the tool's name. *)
Definition ask_policy (c : Ctx) (info : databaseInfo) (toolName action note : string) (w : DbWorld)
    : DbWorld * option CheckError :=
  match policyEnforcer ag with
  | None => (w, None)
  | Some en =>
      let '(recorded, (s, err)) :=
        CheckTool operatingMode LoadLocation marshal_trace now clock remote en (w_api w) (tool_ctx c toolName)
          "database" (di_Name info) action (di_Tags info) note (di_Sensitivity info) in
      (record_policy recorded (with_api s w), err)
  end.

(** [CheckDatabaseResult] with measured rows. *)
Definition measure (c : Ctx) (info : databaseInfo) (action : string) (rows : Z) (w : DbWorld)
    : DbWorld * option CheckError :=
  match policyEnforcer ag with
  | None => (w, None)
  | Some en =>
      let '(recorded, err) :=
        CheckResult LoadLocation marshal_trace clock remote en c "database" (di_Name info) action (di_Tags info)
          {| to_RowsAffected := rows; to_PodsAffected := 0; to_Err := None |} in
      (record_policy recorded w, err)
  end.

Definition estimateRowsAffected (conn query : string) (w : DbWorld) : DbWorld * option Z :=
  let upper := to_upper (trim_space query) in
  if negb (has_prefix upper "DELETE") && negb (has_prefix upper "UPDATE") then (w, None)
  else
    match run_command {| cmd_conn := conn; cmd_flags := ["-w"; "-t"; "-A"; "-c"];
                         cmd_query := "EXPLAIN (FORMAT JSON) " ++ query; cmd_expanded := false |} w with
    | (w1, (_, Some _)) => (w1, None)
    | (w1, (out, None)) => (w1, plan_rows (trim_space out))
    end.

(** The estimate is looked at only under a policy, for writes and destructive calls. *)
Definition check_estimate (c : Ctx) (info : databaseInfo) (action query : string) (w : DbWorld)
    : DbWorld * option string :=
  if match policyEnforcer ag with Some _ => true | None => false end &&
     ((action =?s ActionWrite) || (action =?s ActionDestructive)) then
    match estimateRowsAffected (ConnectionStr info) query w with
    | (w1, None) => (w1, None)
    | (w1, Some rows) =>
        match measure c info action rows w1 with
        | (w2, Some e) =>
            (w2, Some ("blast radius check (estimated " ++ itoa rows ++ " rows): " ++ CheckError_text e))
        | (w2, None) => (w2, None)
        end
    end
  else (w, None).

Definition record_call (c : Ctx) (toolName conn query output : string) (err : option string) (w : DbWorld) : DbWorld :=
  audited (fun ta id =>
    RecordToolCall ta now id (traceID ag) c
      {| c_Name := toolName; c_Parameters := [("connection_string", AStr (maskPassword conn))];
         c_RawCommand := query; c_PreState := "" |}
      {| r_Output := truncateForAudit output 500; r_Error := default "" err |} (elapsed (w_commands w))) w.

(** The error of a failed command. *)
Definition psql_error (output err : string) (w : DbWorld) : string :=
  let out := or_default "(no output from psql)" (trim_space output) in
  match ctx_err (w_commands w) with
  | Some e => "psql timed out or was cancelled: " ++ e ++ nl ++ "Output: " ++ out
  | None =>
      let diagnosis := diagnosePsqlError out in
      if given diagnosis then diagnosis ++ nl ++ nl ++ "Raw error: " ++ out
      else "psql failed: " ++ err ++ nl ++ "Output: " ++ out
  end.

Definition not_in_config : string := "connection string not found in infraConfig; no tags available for policy matching".

Definition policy_note (info : databaseInfo) (plan : string) : string :=
  if IsFromInfraConfig info then plan else (if given plan then plan ++ nl ++ nl else "") ++ not_in_config.

Definition sql_command (conn query : string) : Command :=
  {| cmd_conn := conn; cmd_flags := ["-w"; "-c"]; cmd_query := query; cmd_expanded := true |}.

Definition runPsqlAs (c : Ctx) (connStr query toolName action sessionPlan : string) (w : DbWorld)
    : DbWorld * result string string :=
  match resolveDatabaseInfo getenv (inventory ag) connStr with
  | Err e => (w, Err e)
  | Ok info =>
      match ask_policy c info toolName action (policy_note info sessionPlan) w with
      | (w1, Some e) => (w1, Err ("policy denied: " ++ CheckError_text e))
      | (w1, None) =>
          match check_estimate c info action query w1 with
          | (w2, Some e) => (w2, Err e)
          | (w2, None) =>
              let '(w3, (output, err)) := run_command (sql_command (ConnectionStr info) query) w2 in
              let w4 := if given toolName then record_call c toolName (ConnectionStr info) query output err w3 else w3 in
              match err with
              | Some e => (w4, Err (psql_error output e w4))
              | None =>
                  match measure c info action (parseRowsAffected output) w4 with
                  | (w5, Some e) => (w5, Err ("policy denied after execution: " ++ CheckError_text e))
                  | (w5, None) => (w5, Ok output)
                  end
              end
          end
      end
  end.

Definition runPsqlWithToolName (c : Ctx) (connStr query toolName : string) : DbWorld -> DbWorld * result string string :=
  runPsqlAs c connStr query toolName ActionRead "".

Definition runPsql (c : Ctx) (connStr query : string) : DbWorld -> DbWorld * result string string :=
  runPsqlWithToolName c connStr query "".

(** Without -x, for large texts; nothing is measured afterwards. *)
Definition runPsqlTuples (c : Ctx) (connStr query toolName : string) (w : DbWorld) : DbWorld * result string string :=
  match resolveDatabaseInfo getenv (inventory ag) connStr with
  | Err e => (w, Err e)
  | Ok info =>
      match ask_policy c info toolName ActionRead (policy_note info "") w with
      | (w1, Some e) => (w1, Err ("policy denied: " ++ CheckError_text e))
      | (w1, None) =>
          let '(w2, (output, err)) :=
            run_command {| cmd_conn := ConnectionStr info; cmd_flags := ["-w"; "-t"; "-A"; "-c"];
                           cmd_query := query; cmd_expanded := false |} w1 in
          let w3 := record_call c toolName connStr query output err w2 in
          match err with
          | Some e => (w3, Err (psql_error output e w3))
          | None => (w3, Ok output)
          end
      end
  end.

(** ** Inspecting a session *)

Record ConnectionPlan := {
  PID : Z;
  cp_User : string;
  cp_Database : string;
  ClientAddr : string;
  State : string;
  StateDurationSecs : Z;
  HasOpenTransaction : bool;
  OpenTxAgeSecs : Z;
  HasWrites : bool;
  TotalLocks : Z;
  RowLocks : Z;
  LockedTables : list string;
  RollbackMinSecs : Z;
  RollbackMaxSecs : Z;
  CurrentQuery : string }.

(** The map so far and the last key. *)
Definition expanded_line (acc : gmap string string * string) (line : string) : gmap string string * string :=
  let '(result, lastKey) := acc in
  let trimmed := trim_space line in
  if (trimmed =?s "") || has_prefix trimmed "-[" then acc
  else
    match splitN "|" 2 line with
    | [k; v] =>
        let key := trim_space k in
        let val := trim_space v in
        if given key then (<[key := val]> result, key)
        else if given lastKey then (<[lastKey := default "" (result !! lastKey) ++ nl ++ val]> result, lastKey)
        else acc
    | _ => acc
    end.

Definition parseExpandedRow (output : string) : gmap string string :=
  (fold_left expanded_line (split_on newline output) (∅, "")).1.

Definition parseConnectionPlan (pid : Z) (output : string) : ConnectionPlan :=
  let row := parseExpandedRow output in
  let text k := default "" (row !! k) in
  let number k := default 0%Z (atoi (text k)) in
  let age := number "open_tx_secs" in
  let writes := text "has_writes" =?s "t" in
  let estimated := writes && (0 <? age)%Z in
  {| PID := pid; cp_User := text "usename"; cp_Database := text "datname"; ClientAddr := text "client_addr";
     State := text "state"; StateDurationSecs := number "state_duration_secs";
     HasOpenTransaction := text "has_open_tx" =?s "t"; OpenTxAgeSecs := age; HasWrites := writes;
     TotalLocks := number "total_locks"; RowLocks := number "row_locks";
     LockedTables := List.filter given (map trim_space (split_on "," (trim_space (text "locked_tables"))));
     RollbackMinSecs := if estimated then Z.max 1 (Z.quot age 2) else 0%Z;
     RollbackMaxSecs := if estimated then wrap64 (age * 2) else 0%Z;
     CurrentQuery := trim_space (text "current_query") |}.

Definition inspectionQuery (pid : Z) : string :=
  "SELECT" ++ nl ++ "	a.pid," ++ nl ++ "	a.usename," ++ nl ++
  "	COALESCE(a.datname, '')           AS datname," ++ nl ++
  "	COALESCE(a.client_addr::text, 'local') AS client_addr," ++ nl ++
  "	COALESCE(a.state, '')             AS state," ++ nl ++
  "	COALESCE(EXTRACT(EPOCH FROM (now() - a.state_change))::int, 0) AS state_duration_secs," ++ nl ++
  "	(a.xact_start IS NOT NULL)        AS has_open_tx," ++ nl ++
  "	COALESCE(EXTRACT(EPOCH FROM (now() - a.xact_start))::int, 0)   AS open_tx_secs," ++ nl ++
  "	(a.backend_xid IS NOT NULL)       AS has_writes," ++ nl ++
  "	COALESCE((" ++ nl ++ "		SELECT count(*)" ++ nl ++ "		FROM pg_locks l" ++ nl ++
  "		WHERE l.pid = a.pid AND l.granted" ++ nl ++ "	), 0) AS total_locks," ++ nl ++
  "	COALESCE((" ++ nl ++ "		SELECT count(*)" ++ nl ++ "		FROM pg_locks l" ++ nl ++
  "		WHERE l.pid = a.pid AND l.granted AND l.locktype = 'tuple'" ++ nl ++
  "	), 0) AS row_locks," ++ nl ++ "	COALESCE((" ++ nl ++
  "		SELECT string_agg(DISTINCT c.relname, ', ' ORDER BY c.relname)" ++ nl ++
  "		FROM pg_locks l" ++ nl ++ "		JOIN pg_class c ON l.relation = c.oid" ++ nl ++
  "		WHERE l.pid = a.pid AND l.granted AND l.relation IS NOT NULL" ++ nl ++
  "	), '') AS locked_tables," ++ nl ++ "	COALESCE(LEFT(a.query, 200), '')  AS current_query" ++ nl ++
  "FROM pg_stat_activity a" ++ nl ++ "WHERE a.pid = " ++ itoa pid ++ ";".

Definition inspectConnection (c : Ctx) (connStr : string) (pid : Z) (w : DbWorld) : DbWorld * result string ConnectionPlan :=
  match runPsqlWithToolName c connStr (inspectionQuery pid) "get_session_info" w with
  | (w1, Err e) => (w1, Err e)
  | (w1, Ok output) =>
      if str_contains output "(0 rows)" then (w1, Err ("no session found with pid " ++ itoa pid))
      else (w1, Ok (parseConnectionPlan pid output))
  end.

Definition formatDuration (secs : Z) : string :=
  if (secs <=? 0)%Z then "0s"
  else if (secs <? 60)%Z then itoa secs ++ "s"
  else if (secs <? 3600)%Z then itoa (Z.quot secs 60) ++ "m " ++ itoa (Z.rem secs 60) ++ "s"
  else itoa (Z.quot secs 3600) ++ "h " ++ itoa (Z.quot (Z.rem secs 3600) 60) ++ "m".

Definition formatConnectionPlan (p : ConnectionPlan) : string :=
  let last_query := nl ++ "  Last query: " ++ truncateForAudit (CurrentQuery p) 120 in
  let head :=
    "Session PID " ++ itoa (PID p) ++ nl ++ "  User:     " ++ cp_User p ++ nl ++ "  Database: " ++ cp_Database p ++ nl ++
    "  Client:   " ++ ClientAddr p ++ nl ++
    "  State:    " ++ State p ++ " (" ++ formatDuration (StateDurationSecs p) ++ " in current state)" ++ nl in
  if negb (HasOpenTransaction p) then
    head ++ nl ++ "  No open transaction." ++ (if given (CurrentQuery p) then last_query else "")
  else
    head ++ nl ++ "  Transaction:" ++ nl ++ "    Open TX age:   " ++ formatDuration (OpenTxAgeSecs p) ++ nl ++
    (if negb (HasWrites p) then "    Has writes:    no  (read-only — rollback is instant)" ++ nl
     else
       "    Has writes:    yes" ++ nl ++
       (match LockedTables p with [] => "" | l => "    Locked tables: " ++ join ", " l ++ nl end) ++
       (if (0 <? RowLocks p)%Z then "    Row locks:     " ++ itoa (RowLocks p) ++ nl else "") ++
       (if (RowLocks p <? TotalLocks p)%Z then "    Total locks:   " ++ itoa (TotalLocks p) ++ nl else "") ++
       nl ++ "    Rollback estimate: ~" ++ formatDuration (RollbackMinSecs p) ++ " to ~" ++
       formatDuration (RollbackMaxSecs p) ++ nl) ++
    (if given (CurrentQuery p) then last_query ++ nl else "").

(** ** Tool results *)

Record PsqlResult := { Output : string; VerifyStatus : string; RetryCount : Z }.

Definition plain (out : string) : PsqlResult := {| Output := out; VerifyStatus := ""; RetryCount := 0 |}.

Definition errorResult (toolName connStr err : string) : PsqlResult :=
  plain ("---" ++ nl ++ "ERROR — " ++ toolName ++ " failed for " ++ connStr ++ nl ++ nl ++ err ++ nl ++ "---").

Definition getSessionInfoImpl (c : Ctx) (conn : string) (pid : Z) (w : DbWorld) : DbWorld * PsqlResult :=
  match inspectConnection c conn pid w with
  | (w1, Err e) => (w1, errorResult "get_session_info" conn e)
  | (w1, Ok plan) => (w1, plain (formatConnectionPlan plan))
  end.

(** ** Cancelling and terminating

    The two tools are the same steps with different texts. *)

Record Signal := {
  sg_tool : string;
  sg_action : string;
  sg_query : Z -> string;
  sg_verify : Z -> string;
  sg_there : string;              (* what the verification shows while it failed *)
  sg_attempts : Z;
  sg_not_delivered : Z -> string -> string;
  sg_status : string;
  sg_unresolved : Z -> Z -> string -> string -> string }.

Definition details (plan : string) : string := "--- Session details ---" ++ nl ++ plan.

Definition cancel_signal : Signal := {|
  sg_tool := "cancel_query"; sg_action := ActionWrite; sg_attempts := 3; sg_status := "warning";
  sg_query := fun pid =>
    "SELECT pg_cancel_backend(" ++ itoa pid ++
    ") AS cancelled, pid, usename, datname, state, LEFT(query, 100) AS query_preview" ++ nl ++
    "FROM pg_stat_activity WHERE pid = " ++ itoa pid ++ ";";
  sg_verify := fun pid => "SELECT state FROM pg_stat_activity WHERE pid = " ++ itoa pid ++ ";";
  sg_there := "state | active";
  sg_not_delivered := fun pid plan =>
    "CANCELLATION FAILED: pg_cancel_backend(" ++ itoa pid ++ ") returned false." ++ nl ++
    "The backend may have already finished or this role lacks pg_signal_backend privilege." ++ nl ++ nl ++ details plan;
  sg_unresolved := fun pid attempts plan output =>
    "VERIFICATION WARNING: PID " ++ itoa pid ++ " is still in 'active' state after " ++ itoa attempts ++ " check(s)." ++ nl ++
    "The query may be in a non-interruptible kernel call. Monitor pg_stat_activity and consider terminate_connection if it persists." ++
    nl ++ nl ++ details plan ++ nl ++ "--- Cancel result ---" ++ nl ++ output |}.

Definition terminate_signal : Signal := {|
  sg_tool := "terminate_connection"; sg_action := ActionDestructive; sg_attempts := 2; sg_status := "escalation_required";
  sg_query := fun pid =>
    "SELECT pg_terminate_backend(" ++ itoa pid ++
    ") AS terminated, pid, usename, datname, state, LEFT(query, 100) AS query_preview" ++ nl ++
    "FROM pg_stat_activity WHERE pid = " ++ itoa pid ++ ";";
  sg_verify := fun pid => "SELECT count(*) AS still_alive FROM pg_stat_activity WHERE pid = " ++ itoa pid ++ ";";
  sg_there := "still_alive | 1";
  sg_not_delivered := fun pid plan =>
    "TERMINATION FAILED: pg_terminate_backend(" ++ itoa pid ++ ") returned false." ++ nl ++
    "The backend may have already exited or this role lacks pg_signal_backend privilege." ++ nl ++ nl ++ details plan;
  sg_unresolved := fun pid attempts plan output =>
    "VERIFICATION FAILED: PID " ++ itoa pid ++ " is still present in pg_stat_activity after termination." ++ nl ++
    "ESCALATION REQUIRED: The backend ignored SIGTERM." ++ nl ++ "Next steps (in order):" ++ nl ++
    "  1. Retry as a superuser role (pg_terminate_backend requires pg_signal_backend for non-owned backends)." ++ nl ++
    "  2. OS-level: kill -9 <os_pid> on the database host (find os_pid via pg_stat_activity)." ++ nl ++ nl ++
    details plan ++ nl ++ "--- Termination result ---" ++ nl ++ output |}.

(** [resolveDatabaseInfo] with its error dropped. *)
Definition info_or_zero (conn : string) : databaseInfo :=
  match resolveDatabaseInfo getenv (inventory ag) conn with Ok info => info | Err _ => plain_info "" "" end.

(** [CheckDatabaseSessionAge] of the inspected session. *)
Definition check_age (c : Ctx) (conn action : string) (plan : ConnectionPlan) (w : DbWorld) : DbWorld * option CheckError :=
  match policyEnforcer ag with
  | None => (w, None)
  | Some en =>
      let info := info_or_zero conn in
      let '(recorded, err) :=
        CheckDatabaseSessionAge LoadLocation marshal_trace clock remote en c (di_Name info) action (di_Tags info)
          (OpenTxAgeSecs plan) (HasWrites plan) in
      (record_policy recorded w, err)
  end.

(** The check of the measured effect after the call, with the database resolved anew. *)
Definition measure_again (c : Ctx) (conn action : string) (rows : Z) (w : DbWorld) : DbWorld * option string :=
  match policyEnforcer ag with
  | None => (w, None)
  | Some _ =>
      match resolveDatabaseInfo getenv (inventory ag) conn with
      | Err e => (w, Some e)
      | Ok info =>
          let '(w1, err) := measure c info action rows w in (w1, option_map CheckError_text err)
      end
  end.

(** A check that fails counts as resolved. *)
Definition verify_check (c : Ctx) (conn : string) (sg : Signal) (pid : Z) (w : DbWorld) : DbWorld * result string bool :=
  match runPsql c conn (sg_verify sg pid) w with
  | (w1, Err _) => (w1, Ok true)
  | (w1, Ok out) => (w1, Ok (negb (str_contains out (sg_there sg))))
  end.

Definition after_attempt (tool : string) (attempt : Z) (r : bool) : DbWorld -> DbWorld :=
  audited (fun ta id => RecordToolRetry ta now id (traceID ag) tool attempt r).

Definition verify_signal (c : Ctx) (conn : string) (sg : Signal) (pid : Z) (w : DbWorld) : DbWorld * (bool * Z) :=
  let '(w1, (resolved, attempts, _)) :=
    WaitUntilResolved (fun w => ctx_err (w_commands w)) (fun w => ctx_err (w_commands w)) (verify_check c conn sg pid)
      (after_attempt (sg_tool sg)) (sg_attempts sg) w in
  (w1, (resolved, attempts)).

Definition signalImpl (sg : Signal) (c : Ctx) (conn : string) (pid : Z) (w : DbWorld) : DbWorld * PsqlResult :=
  let failed e := errorResult (sg_tool sg) conn e in
  match inspectConnection c conn pid w with
  | (w1, Err e) => (w1, failed e)
  | (w1, Ok plan) =>
      let text := formatConnectionPlan plan in
      match check_age c conn (sg_action sg) plan w1 with
      | (w2, Some e) => (w2, failed (CheckError_text e))
      | (w2, None) =>
          match runPsqlAs c conn (sg_query sg pid) (sg_tool sg) (sg_action sg) text w2 with
          | (w3, Err e) => (w3, failed e)
          | (w3, Ok output) =>
              if str_contains output "(0 rows)" then (w3, plain ("No backend found with pid " ++ itoa pid ++ "."))
              else
                let delivered := parsePgFunctionResult output in
                match measure_again c conn (sg_action sg) delivered w3 with
                | (w4, Some e) => (w4, failed e)
                | (w4, None) =>
                    if (delivered =? 0)%Z then (w4, plain (sg_not_delivered sg pid text))
                    else
                      let '(w5, (resolved, attempts)) := verify_signal c conn sg pid w4 in
                      let retries := Z.max 0 (attempts - 1) in
                      if resolved then
                        (w5, {| Output := text ++ nl ++ "--- Result ---" ++ nl ++ output; VerifyStatus := "ok";
                                RetryCount := retries |})
                      else
                        (audited (fun ta id => RecordToolVerification ta now id (traceID ag) (sg_tool sg) (sg_status sg)) w5,
                         {| Output := sg_unresolved sg pid attempts text output; VerifyStatus := sg_status sg;
                            RetryCount := retries |})
                end
          end
      end
  end.

Definition cancelQueryImpl : Ctx -> string -> Z -> DbWorld -> DbWorld * PsqlResult := signalImpl cancel_signal.
Definition terminateConnectionImpl : Ctx -> string -> Z -> DbWorld -> DbWorld * PsqlResult := signalImpl terminate_signal.

(** ** Idle connections and maintenance *)

(** [strings.ReplaceAll(s, "'", "''")] *)
Fixpoint escape_quotes (s : string) : string :=
  match s with
  | EmptyString => EmptyString
  | String ch s' => if Ascii.eqb ch "'" then String ch (String ch (escape_quotes s')) else String ch (escape_quotes s')
  end.

Record TerminateIdleConnectionsArgs := {
  ti_ConnectionString : string;
  IdleMinutes : Z;
  ti_Database : string;
  ti_DryRun : bool }.

Definition database_filter (database : string) : string :=
  if given database then "AND datname = '" ++ escape_quotes database ++ "'" else "".

Definition idle_list_head (minutes : Z) : string :=
  "SELECT pid, usename, datname, client_addr, state," ++ nl ++
  "	EXTRACT(EPOCH FROM (now() - state_change))::int / 60 AS idle_minutes," ++ nl ++
  "	LEFT(query, 100) AS last_query" ++ nl ++ "FROM pg_stat_activity" ++ nl ++
  "WHERE state = 'idle'" ++ nl ++ "  AND state_change < now() - INTERVAL '" ++ itoa minutes ++ " minutes'" ++
  nl ++ "  AND pid != pg_backend_pid()" ++ nl ++ "  ".

Definition idle_list_query (minutes : Z) (filter : string) : string :=
  idle_list_head minutes ++ filter ++ nl ++ "ORDER BY state_change ASC;".

Definition idle_terminate_head (minutes : Z) : string :=
  "SELECT count(*) AS terminated" ++ nl ++ "FROM (" ++ nl ++
  "  SELECT pg_terminate_backend(pid) AS terminated" ++ nl ++
  "  FROM pg_stat_activity" ++ nl ++ "  WHERE state = 'idle'" ++ nl ++
  "    AND state_change < now() - INTERVAL '" ++ itoa minutes ++ " minutes'" ++ nl ++
  "    AND pid != pg_backend_pid()" ++ nl ++ "    ".

Definition idle_terminate_query (minutes : Z) (filter : string) : string :=
  idle_terminate_head minutes ++ filter ++ nl ++ ") t" ++ nl ++ "WHERE terminated IS TRUE;".

Definition terminateIdleConnectionsImpl (c : Ctx) (a : TerminateIdleConnectionsArgs) (w : DbWorld) : DbWorld * PsqlResult :=
  let tool := "terminate_idle_connections" in
  let conn := ti_ConnectionString a in
  if (IdleMinutes a <? 0)%Z then (w, plain "ERROR: idle_minutes must be 0 or greater (0 = no age filter).")
  else
    let filter := database_filter (ti_Database a) in
    if ti_DryRun a then
      match runPsqlAs c conn (idle_list_query (IdleMinutes a) filter) tool ActionRead "" w with
      | (w1, Err e) => (w1, errorResult tool conn e)
      | (w1, Ok output) =>
          (w1, plain (if str_contains output "(0 rows)"
                      then "[DRY RUN] No idle connections older than " ++ itoa (IdleMinutes a) ++ " minutes found."
                      else "[DRY RUN] Would terminate:" ++ nl ++ output))
      end
    else
      match runPsqlAs c conn (idle_terminate_query (IdleMinutes a) filter) tool ActionDestructive "" w with
      | (w1, Err e) => (w1, errorResult tool conn e)
      | (w1, Ok output) =>
          match measure_again c conn ActionDestructive (parseTerminatedCount output) w1 with
          | (w2, Some e) => (w2, errorResult tool conn e)
          | (w2, None) => (w2, plain output)
          end
      end.

(** One statement, and its output or its error. *)
Definition run_one (c : Ctx) (conn query tool action plan : string) (w : DbWorld) : DbWorld * PsqlResult :=
  match runPsqlAs c conn query tool action plan w with
  | (w1, Err e) => (w1, errorResult tool conn e)
  | (w1, Ok output) => (w1, plain output)
  end.

Definition resumeWalReplayImpl (c : Ctx) (conn : string) : DbWorld -> DbWorld * PsqlResult :=
  run_one c conn "SELECT pg_wal_replay_resume();" "resume_wal_replay" ActionWrite
    "Resume WAL replay on a paused standby to reduce replication lag".

Definition is_letter_or (extra : string) (ch : ascii) : bool :=
  let n := Z.of_N (N_of_ascii ch) in
  ((65 <=? n) && (n <=? 90) || (97 <=? n) && (n <=? 122) || (n =? 95))%Z || str_contains extra (String ch "").

Definition digit_chars : string := "0123456789".

Fixpoint all_bytes (p : ascii -> bool) (s : string) : bool :=
  match s with String ch s' => p ch && all_bytes p s' | EmptyString => true end.

(** A pattern of one byte and any number of others. *)
Definition first_then (p q : ascii -> bool) (s : string) : bool :=
  match s with String ch s' => p ch && all_bytes q s' | EmptyString => false end.

Definition plain_identifier : string -> bool := first_then (is_letter_or "") (is_letter_or digit_chars).

(** [tableNameRe.MatchString] and [identRe.MatchString] *)
Definition tableNameRe (s : string) : bool :=
  match split_on "." s with [schema; table] => plain_identifier schema && plain_identifier table | _ => false end.

Definition identRe : string -> bool := first_then (is_letter_or digit_chars) (is_letter_or (digit_chars ++ ".")).

Record RunVacuumArgs := { rv_ConnectionString : string; Table : string; Analyze : option bool }.

Definition vacuum_query (table : string) (analyze : bool) : string :=
  (if analyze then "VACUUM ANALYZE" else "VACUUM") ++ " " ++
  match splitN "." 2 table with
  | [schema; name] => dquote ++ schema ++ dquote ++ "." ++ dquote ++ name ++ dquote
  | _ => ""
  end ++ ";".

Definition runVacuumImpl (c : Ctx) (a : RunVacuumArgs) (w : DbWorld) : DbWorld * PsqlResult :=
  if negb (tableNameRe (Table a)) then
    (w, errorResult "run_vacuum" (rv_ConnectionString a)
          ("invalid table name " ++ quote (Table a) ++ ": must be schema.table with alphanumeric/underscore identifiers"))
  else
    run_one c (rv_ConnectionString a) (vacuum_query (Table a) (default true (Analyze a))) "run_vacuum" ActionWrite
      ("Reclaim dead tuples from " ++ Table a) w.

Definition drop_slot_query (slot : string) : string := "SELECT pg_drop_replication_slot('" ++ escape_quotes slot ++ "');".

Definition dropReplicationSlotImpl (c : Ctx) (conn slotName : string) (w : DbWorld) : DbWorld * PsqlResult :=
  if negb (identRe slotName) then
    (w, errorResult "drop_replication_slot" conn
          ("invalid slot name " ++ quote slotName ++ ": must contain only alphanumeric characters and underscores"))
  else
    run_one c conn (drop_slot_query slotName) "drop_replication_slot" ActionDestructive
      ("Drop inactive replication slot " ++ quote slotName ++ " to allow WAL recycling") w.

Definition resetPgSettingImpl (c : Ctx) (conn settingName : string) (w : DbWorld) : DbWorld * PsqlResult :=
  let tool := "reset_pg_setting" in
  if negb (identRe settingName) then
    (w, errorResult tool conn
          ("invalid setting name " ++ quote settingName ++
           ": must contain only alphanumeric characters, underscores, and dots"))
  else
    let plan := "Reset " ++ settingName ++ " to compiled default and reload configuration" in
    match runPsqlAs c conn ("ALTER SYSTEM RESET " ++ settingName ++ ";") tool ActionWrite plan w with
    | (w1, Err e) => (w1, errorResult tool conn e)
    | (w1, Ok out1) =>
        match runPsqlAs c conn "SELECT pg_reload_conf();" tool ActionWrite plan w1 with
        | (w2, Err e) => (w2, errorResult tool conn e)
        | (w2, Ok out2) => (w2, plain (out1 ++ nl ++ out2))
        end
    end.

Definition resetCacheStatsImpl (c : Ctx) (conn : string) (w : DbWorld) : DbWorld * PsqlResult :=
  let tool := "reset_cache_stats" in
  match runPsqlAs c conn "SELECT pg_stat_reset();" tool ActionWrite
          "reset_cache_stats: clear pg_stat_database counters so cache hit ratio reflects current state" w with
  | (w1, Err e) => (w1, errorResult tool conn e)
  | (w1, Ok output) =>
      (w1, plain ("Cache statistics reset. blks_hit and blks_read counters cleared — ratio will reflect only activity after this point." ++
                  nl ++ output))
  end.

(** ** What reaches psql *)

(** The policy lets the tool go on, for some state of the approvals. *)
Definition policy_lets (c : Ctx) (info : databaseInfo) (toolName action : string) : Prop :=
  match policyEnforcer ag with
  | None => True
  | Some en => exists s note,
      (CheckTool operatingMode LoadLocation marshal_trace now clock remote en s (tool_ctx c toolName)
         "database" (di_Name info) action (di_Tags info) note (di_Sensitivity info)).2.2 = None
  end.

(** A statement that a tool may send: the tool's name and the class it is checked under. *)
Record Ask := { ask_tool : string; ask_action : string; ask_query : string }.

Definition ask (tool action query : string) : Ask := {| ask_tool := tool; ask_action := action; ask_query := query |}.

(** The command runs one of the statements, on the database that [conn] resolves to, and
    the policy lets it. *)
Definition permitted (c : Ctx) (conn : string) (asks : list Ask) (cmd : Command) : Prop :=
  exists a info, In a asks /\ resolveDatabaseInfo getenv (inventory ag) conn = Ok info /\
    cmd_conn cmd = ConnectionStr info /\ cmd_query cmd = ask_query a /\
    policy_lets c info (ask_tool a) (ask_action a).

Definition sends (c : Ctx) (conn : string) (asks : list Ask) (w w' : DbWorld) : Prop :=
  exists new, w_commands w' = (w_commands w ++ new)%list /\ Forall (permitted c conn asks) new.

Lemma sends_same c conn asks w w' : w_commands w' = w_commands w -> sends c conn asks w w'.
Proof. intros H. exists []. by rewrite app_nil_r. Qed.

Lemma sends_refl c conn asks w : sends c conn asks w w.
Proof. by apply sends_same. Qed.

Lemma sends_weaken c conn asks asks' w w' : incl asks asks' -> sends c conn asks w w' -> sends c conn asks' w w'.
Proof.
  intros Hi (new & E & H). exists new. split; [done|]. eapply List.Forall_impl; [|exact H].
  intros cmd (a & info & Ha & Hr). exists a, info. split; [by apply Hi|done].
Qed.

Lemma sends_trans c conn asks w1 w2 w3 : sends c conn asks w1 w2 -> sends c conn asks w2 w3 -> sends c conn asks w1 w3.
Proof.
  intros (n1 & E1 & H1) (n2 & E2 & H2). exists (n1 ++ n2)%list. split; [by rewrite E2, E1, app_assoc|].
  by apply Forall_app.
Qed.

Lemma audited_commands f w : w_commands (audited f w) = w_commands w.
Proof. unfold audited. by destruct (toolAuditor ag). Qed.

Lemma ask_policy_spec c info tool action note w w' err : ask_policy c info tool action note w = (w', err) ->
  w_commands w' = w_commands w /\ (err = None -> policy_lets c info tool action).
Proof.
  unfold ask_policy, policy_lets. destruct (policyEnforcer ag) as [en|]; [|by intros [= <- <-]].
  destruct (CheckTool _ _ _ _ _ _ _ _ _ _ _ _ _ _ _) as [recorded [s e]] eqn:E. intros [= <- <-]. split; [done|].
  intros ->. exists (w_api w), note. by rewrite E.
Qed.

Lemma measure_commands c info action rows w : w_commands (measure c info action rows w).1 = w_commands w.
Proof. unfold measure. destruct (policyEnforcer ag); [|done]. by destruct (CheckResult _ _ _ _ _ _ _ _ _ _). Qed.

Lemma check_age_commands c conn action plan w : w_commands (check_age c conn action plan w).1 = w_commands w.
Proof.
  unfold check_age. destruct (policyEnforcer ag); [|done]. by destruct (CheckDatabaseSessionAge _ _ _ _ _ _ _ _ _ _ _).
Qed.

Lemma measure_again_commands c conn action rows w : w_commands (measure_again c conn action rows w).1 = w_commands w.
Proof.
  unfold measure_again. destruct (policyEnforcer ag); [|done]. destruct (resolveDatabaseInfo _ _ _) as [info|]; [|done].
  pose proof (measure_commands c info action rows w) as H. by destruct (measure _ _ _ _ _).
Qed.

(** A statement that is neither a DELETE nor an UPDATE. *)
Definition no_dml (query : string) : bool :=
  let upper := to_upper (trim_space query) in
  negb (has_prefix upper "DELETE") && negb (has_prefix upper "UPDATE").

Lemma check_estimate_skipped c info action query w : action = ActionRead \/ no_dml query = true ->
  check_estimate c info action query w = (w, None).
Proof.
  intros H. unfold check_estimate. destruct H as [->|H].
  - destruct (policyEnforcer ag); [|done]. reflexivity.
  - unfold estimateRowsAffected. unfold no_dml in H. cbv zeta in H |- *. rewrite H.
    destruct (policyEnforcer ag); [|done]. by destruct (_ || _).
Qed.

(** The chain of checks around one statement: it reaches psql once, with the policy's
    leave, or not at all. *)
Lemma runPsqlAs_spec c conn query tool action plan w : action = ActionRead \/ no_dml query = true ->
  let '(w', r) := runPsqlAs c conn query tool action plan w in
  (w_commands w' = w_commands w /\ exists e, r = Err e) \/
  exists info, resolveDatabaseInfo getenv (inventory ag) conn = Ok info /\ policy_lets c info tool action /\
    w_commands w' = (w_commands w ++ [sql_command (ConnectionStr info) query])%list.
Proof.
  intros Hq. unfold runPsqlAs. destruct (resolveDatabaseInfo getenv (inventory ag) conn) as [info|e] eqn:Ei; [|left; by eauto].
  destruct (ask_policy c info tool action _ w) as [w1 err1] eqn:E1. apply ask_policy_spec in E1 as [C1 P1].
  destruct err1 as [e1|]; [left; by eauto|]. rewrite (check_estimate_skipped _ _ _ _ _ Hq).
  destruct (run_command (sql_command (ConnectionStr info) query) w1) as [w3 [output err]] eqn:E3.
  unfold run_command in E3. injection E3 as <- _. set (w3 := {| w_api := _ |}).
  set (w4 := if given tool then _ else _).
  assert (C4 : w_commands w4 = (w_commands w ++ [sql_command (ConnectionStr info) query])%list).
  { unfold w4. destruct (given tool); [unfold record_call; rewrite audited_commands|]; simpl; by rewrite C1. }
  destruct err as [e|]; [right; exists info; by auto|].
  pose proof (measure_commands c info action (parseRowsAffected output) w4) as C5.
  destruct (measure _ _ _ _ w4) as [w5 [e|]]; simpl in C5; right; exists info; rewrite C5; by auto.
Qed.

Lemma runPsqlAs_sends c conn query tool action plan w : action = ActionRead \/ no_dml query = true ->
  sends c conn [ask tool action query] w (runPsqlAs c conn query tool action plan w).1.
Proof.
  intros Hq. pose proof (runPsqlAs_spec c conn query tool action plan w Hq) as H.
  destruct (runPsqlAs _ _ _ _ _ _ _) as [w' r]. destruct H as [[H _]|(info & Hi & Hp & H)]; [by apply sends_same|].
  eexists. split; [exact H|]. constructor; [|constructor]. exists (ask tool action query), info.
  split_and!; try done. by left.
Qed.

Lemma runPsqlTuples_sends c conn query tool w :
  sends c conn [ask tool ActionRead query] w (runPsqlTuples c conn query tool w).1.
Proof.
  unfold runPsqlTuples. destruct (resolveDatabaseInfo getenv (inventory ag) conn) as [info|e] eqn:Ei; [|apply sends_refl].
  destruct (ask_policy c info tool ActionRead _ w) as [w1 err1] eqn:E1. apply ask_policy_spec in E1 as [C1 P1].
  destruct err1 as [e1|]; [by apply sends_same|]. unfold run_command.
  destruct (psql (w_commands w1) _) as [output err]. set (cmd := {| cmd_conn := ConnectionStr info |}).
  set (w3 := record_call _ _ _ _ _ _ _).
  assert (C3 : w_commands w3 = (w_commands w ++ [cmd])%list)
    by (unfold w3, record_call; rewrite audited_commands; simpl; by rewrite C1).
  assert (Hs : sends c conn [ask tool ActionRead query] w w3).
  { exists [cmd]. split; [done|]. constructor; [|constructor]. exists (ask tool ActionRead query), info.
    split_and!; try done; [by left|by apply P1]. }
  by destruct err.
Qed.

(** Statements that start with another letter. *)
Lemma trim_left_end x c : is_space c = false -> exists y, trim_left (x ++ String c "") = (y ++ String c "")%string.
Proof.
  intros Hc. induction x as [|d x IH]; simpl.
  - rewrite Hc. by exists "".
  - destruct (is_space d); [exact IH|]. by exists (String d x).
Qed.

Lemma trim_space_first c s : is_space c = false -> exists s', trim_space (String c s) = String c s'.
Proof.
  intros Hc. unfold trim_space. simpl trim_left. rewrite Hc, rev_cons_s.
  destruct (trim_left_end (String.rev s) c Hc) as [y ->]. rewrite rev_append_s. simpl. by eexists.
Qed.

Lemma no_dml_first c s : is_space c = false ->
  Ascii.eqb (upper_byte c) "D" = false -> Ascii.eqb (upper_byte c) "U" = false -> no_dml (String c s) = true.
Proof.
  intros Hc H1 H2. unfold no_dml. destruct (trim_space_first c s Hc) as [s' ->].
  unfold to_upper. cbn [map_bytes]. cbv zeta. unfold has_prefix; fold has_prefix.
  rewrite Ascii.eqb_sym, H1. by rewrite Ascii.eqb_sym, H2.
Qed.

Lemma wait_loop_rel {W} (R : W -> W -> Prop) cerr serr check after :
  (forall w, R w w) -> (forall a b d, R a b -> R b d -> R a d) ->
  (forall w, R w (check w).1) -> (forall i r w, R w (after i r w)) ->
  forall n i w, R w (wait_loop (W := W) cerr serr check after n i w).1.
Proof.
  intros Hr Ht Hc Ha. induction n as [|n IH]; intros i w; simpl; [done|]. destruct (cerr w); [done|].
  specialize (Hc w). destruct (check w) as [w1 [ok|e]]; simpl in Hc; [|exact (Ht _ _ _ Hc (Ha _ _ _))].
  pose proof (Ht _ _ _ Hc (Ha i ok w1)) as H2. destruct ok; [done|]. destruct n as [|n]; [done|].
  destruct (serr _); [done|]. exact (Ht _ _ _ H2 (IH _ _)).
Qed.

(** Enough checks are made, and never too many; a wait that ends well ends with a check
    that says so. *)
Lemma wait_loop_spec {W} cerr serr check after n i w : (1 <= i)%Z ->
  let '(w', (resolved, attempts, err)) := wait_loop (W := W) cerr serr check after n i w in
  (i - 1 <= attempts <= i - 1 + Z.of_nat n)%Z /\
  (resolved = true -> (i <= attempts)%Z /\ exists wn, (check wn).2 = Ok true /\ w' = after attempts true (check wn).1) /\
  (resolved = false -> err = None -> attempts = (i - 1 + Z.of_nat n)%Z).
Proof.
  revert i w. induction n as [|n IH]; intros i w Hi; cbn [wait_loop]; [split; [lia|split]; [done|lia]|].
  destruct (cerr w); [split; [lia|split]; [done|done]|]. destruct (check w) as [w1 [ok|e]] eqn:Ec; [|split; [lia|split]; [done|done]].
  destruct ok; [split; [lia|split]; [ |done]; intros _; split; [done|]; exists w; by rewrite Ec|].
  destruct n as [|n]; [split; [lia|split]; [done|lia]|]. destruct (serr _); [split; [lia|split]; [done|done]|].
  specialize (IH (i + 1)%Z (after i false w1) ltac:(lia)).
  destruct (wait_loop _ _ _ _ _ _ _) as [w' [[resolved attempts] err]]. destruct IH as (H1 & H2 & H3).
  split; [lia|split].
  - intros Hr. destruct (H2 Hr) as [H2a H2b]. split; [lia|done].
  - intros Hf He. specialize (H3 Hf He). lia.
Qed.

(** ** The signals *)

Definition signal_asks (sg : Signal) (pid : Z) : list Ask :=
  [ask "get_session_info" ActionRead (inspectionQuery pid); ask (sg_tool sg) (sg_action sg) (sg_query sg pid);
   ask "" ActionRead (sg_verify sg pid)].

Lemma inspect_sends c conn pid w :
  sends c conn [ask "get_session_info" ActionRead (inspectionQuery pid)] w (inspectConnection c conn pid w).1.
Proof.
  unfold inspectConnection, runPsqlWithToolName.
  pose proof (runPsqlAs_sends c conn (inspectionQuery pid) "get_session_info" ActionRead "" w (or_introl eq_refl)) as H.
  destruct (runPsqlAs _ _ _ _ _ _ _) as [w1 [output|e]]; [|done]. by destruct (str_contains _ _).
Qed.

Lemma verify_check_sends c conn sg pid w : sends c conn [ask "" ActionRead (sg_verify sg pid)] w (verify_check c conn sg pid w).1.
Proof.
  unfold verify_check, runPsql, runPsqlWithToolName.
  pose proof (runPsqlAs_sends c conn (sg_verify sg pid) "" ActionRead "" w (or_introl eq_refl)) as H.
  by destruct (runPsqlAs _ _ _ _ _ _ _) as [w1 [output|e]].
Qed.

Lemma verify_signal_sends c conn sg pid w :
  sends c conn [ask "" ActionRead (sg_verify sg pid)] w (verify_signal c conn sg pid w).1.
Proof.
  unfold verify_signal, WaitUntilResolved.
  pose proof (wait_loop_rel (sends c conn [ask "" ActionRead (sg_verify sg pid)])
    (fun w => ctx_err (w_commands w)) (fun w => ctx_err (w_commands w)) (verify_check c conn sg pid) (after_attempt (sg_tool sg))
    (sends_refl _ _ _) (fun a b d => sends_trans _ _ _ a b d) (verify_check_sends c conn sg pid)
    (fun i r w => sends_same _ _ _ _ _ (audited_commands _ w))
    (Z.to_nat (if (sg_attempts sg <=? 0)%Z then 1 else sg_attempts sg)) 1 w) as H.
  by destruct (wait_loop _ _ _ _ _ _ _) as [w1 [[resolved attempts] e]].
Qed.

(** The statements of the commands, without their targets. *)
Definition statements (w w' : DbWorld) (l : list string) : Prop :=
  exists new, w_commands w' = (w_commands w ++ new)%list /\ map cmd_query new = l.

Lemma statements_same w w' : w_commands w' = w_commands w -> statements w w' [].
Proof. intros H. exists []. by rewrite app_nil_r. Qed.

Lemma statements_trans w1 w2 w3 l m : statements w1 w2 l -> statements w2 w3 m -> statements w1 w3 (l ++ m)%list.
Proof.
  intros (n1 & E1 & <-) (n2 & E2 & <-). exists (n1 ++ n2)%list. by rewrite E2, E1, app_assoc, map_app.
Qed.

Lemma sends_statements c conn t a q w w' : sends c conn [ask t a q] w w' ->
  exists l, statements w w' l /\ Forall (eq q) l.
Proof.
  intros (new & E & H). exists (map cmd_query new). split; [by exists new|]. apply Forall_map.
  eapply List.Forall_impl; [|exact H]. by intros cmd (x & info & [<-|[]] & _ & _ & -> & _).
Qed.

Lemma runPsqlAs_statements c conn query tool action plan w : action = ActionRead \/ no_dml query = true ->
  let '(w', r) := runPsqlAs c conn query tool action plan w in
  (statements w w' [] /\ exists e, r = Err e) \/ statements w w' [query].
Proof.
  intros Hq. pose proof (runPsqlAs_spec c conn query tool action plan w Hq) as H.
  destruct (runPsqlAs _ _ _ _ _ _ _) as [w' r]. destruct H as [[H He]|(info & _ & _ & H)].
  - left. split; [by apply statements_same|done].
  - right. by eexists.
Qed.

Lemma inspect_statements c conn pid w :
  let '(w', r) := inspectConnection c conn pid w in
  (statements w w' [] /\ exists e, r = Err e) \/ statements w w' [inspectionQuery pid].
Proof.
  unfold inspectConnection, runPsqlWithToolName.
  pose proof (runPsqlAs_statements c conn (inspectionQuery pid) "get_session_info" ActionRead "" w (or_introl eq_refl)) as H.
  destruct (runPsqlAs _ _ _ _ _ _ _) as [w1 [output|e]]; [|destruct H as [[H _]|H]; [left; by eauto|by right]].
  destruct (str_contains _ _); (destruct H as [[? [? H]]|H]; [done|by right]).
Qed.

Lemma verify_signal_spec c conn sg pid w : (0 < sg_attempts sg)%Z ->
  let '(w', (resolved, attempts)) := verify_signal c conn sg pid w in
  (0 <= attempts <= sg_attempts sg)%Z /\ (resolved = true -> (1 <= attempts)%Z /\
     exists wn, (verify_check c conn sg pid wn).2 = Ok true /\
       w' = after_attempt (sg_tool sg) attempts true (verify_check c conn sg pid wn).1).
Proof.
  intros Hn. unfold verify_signal, WaitUntilResolved. rewrite (proj2 (Z.leb_gt _ _) Hn).
  pose proof (wait_loop_spec (fun w => ctx_err (w_commands w)) (fun w => ctx_err (w_commands w)) (verify_check c conn sg pid)
    (after_attempt (sg_tool sg)) (Z.to_nat (sg_attempts sg)) 1 w ltac:(lia)) as H.
  destruct (wait_loop _ _ _ _ _ _ _) as [w1 [[resolved attempts] e]]. destruct H as (H1 & H2 & _). split; [lia|done].
Qed.

(** How far a call of a signal has come. *)
Definition inspected_then (sg : Signal) (c : Ctx) (conn : string) (pid : Z) (w : DbWorld) (l : list string) : Prop :=
  l = [] \/ l = [inspectionQuery pid] \/
  exists plan w1 w2 checks, inspectConnection c conn pid w = (w1, Ok plan) /\
    check_age c conn (sg_action sg) plan w1 = (w2, None) /\
    l = inspectionQuery pid :: sg_query sg pid :: checks /\ Forall (eq (sg_verify sg pid)) checks.

Definition reached (sg : Signal) (c : Ctx) (conn : string) (pid : Z) (w w' : DbWorld) : Prop :=
  sends c conn (signal_asks sg pid) w w' /\ exists l, statements w w' l /\ inspected_then sg c conn pid w l.

Lemma reached_same sg c conn pid w w1 w2 : w_commands w2 = w_commands w1 ->
  reached sg c conn pid w w1 -> reached sg c conn pid w w2.
Proof.
  intros Hc [Hs (l & Hl & Hi)]. split; [eapply sends_trans; [exact Hs|by apply sends_same]|].
  exists l. split; [|done]. rewrite <- (app_nil_r l). eapply statements_trans; [exact Hl|by apply statements_same].
Qed.

Lemma reached_inspection sg c conn pid w w1 r : inspectConnection c conn pid w = (w1, r) -> reached sg c conn pid w w1.
Proof.
  intros E. pose proof (inspect_sends c conn pid w) as Hs. pose proof (inspect_statements c conn pid w) as Hq.
  rewrite E in Hs, Hq. split.
  - eapply sends_weaken; [|exact Hs]. intros a [<-|[]]. by left.
  - destruct Hq as [[Hq _]|Hq]; (eexists; split; [exact Hq|]); [by left|by right; left].
Qed.

Lemma reached_signal sg c conn pid w w1 w2 plan text w3 r : no_dml (sg_query sg pid) = true ->
  inspectConnection c conn pid w = (w1, Ok plan) -> check_age c conn (sg_action sg) plan w1 = (w2, None) ->
  runPsqlAs c conn (sg_query sg pid) (sg_tool sg) (sg_action sg) text w2 = (w3, r) -> reached sg c conn pid w w3.
Proof.
  intros Hq E1 E2 E3. destruct (reached_inspection sg _ _ _ _ _ _ E1) as [Hs _].
  pose proof (inspect_statements c conn pid w) as Q1. rewrite E1 in Q1. destruct Q1 as [[_ [? ?]]|Q1]; [done|].
  pose proof (check_age_commands c conn (sg_action sg) plan w1) as C2. rewrite E2 in C2. simpl in C2.
  pose proof (runPsqlAs_sends c conn (sg_query sg pid) (sg_tool sg) (sg_action sg) text w2 (or_intror Hq)) as S3.
  pose proof (runPsqlAs_statements c conn (sg_query sg pid) (sg_tool sg) (sg_action sg) text w2 (or_intror Hq)) as Q3.
  rewrite E3 in S3, Q3. split.
  - eapply sends_trans; [exact Hs|]. eapply sends_trans; [by apply sends_same|].
    eapply sends_weaken; [|exact S3]. intros a [<-|[]]. by right; left.
  - pose proof (statements_trans _ _ _ _ _ Q1 (statements_same _ _ C2)) as Q2.
    destruct Q3 as [[Q3 _]|Q3]; (eexists; split; [exact (statements_trans _ _ _ _ _ Q2 Q3)|]); [by right; left|].
    right; right. exists plan, w1, w2, []. by split_and!.
Qed.

Lemma reached_checks sg c conn pid w w1 w2 w3 w4 plan text output : no_dml (sg_query sg pid) = true ->
  inspectConnection c conn pid w = (w1, Ok plan) -> check_age c conn (sg_action sg) plan w1 = (w2, None) ->
  runPsqlAs c conn (sg_query sg pid) (sg_tool sg) (sg_action sg) text w2 = (w3, Ok output) ->
  w_commands w4 = w_commands w3 -> reached sg c conn pid w (verify_signal c conn sg pid w4).1.
Proof.
  intros Hq E1 E2 E3 C4. destruct (reached_same _ _ _ _ _ _ _ C4 (reached_signal _ _ _ _ _ _ _ _ _ _ _ Hq E1 E2 E3)) as [Hs _].
  pose proof (inspect_statements c conn pid w) as Q1. rewrite E1 in Q1. destruct Q1 as [[_ [? ?]]|Q1]; [done|].
  pose proof (check_age_commands c conn (sg_action sg) plan w1) as C2. rewrite E2 in C2. simpl in C2.
  pose proof (runPsqlAs_statements c conn (sg_query sg pid) (sg_tool sg) (sg_action sg) text w2 (or_intror Hq)) as Q3.
  rewrite E3 in Q3. destruct Q3 as [[_ [? ?]]|Q3]; [done|].
  pose proof (verify_signal_sends c conn sg pid w4) as Hv. split.
  - eapply sends_trans; [exact Hs|]. eapply sends_weaken; [|exact Hv]. intros a [<-|[]]. by right; right; left.
  - destruct (sends_statements _ _ _ _ _ _ _ Hv) as (checks & Hc & Hf).
    pose proof (statements_trans _ _ _ _ _ (statements_trans _ _ _ _ _ Q1 (statements_same _ _ C2))
      (statements_trans _ _ _ _ _ (statements_trans _ _ _ _ _ Q3 (statements_same _ _ C4)) Hc)) as Q.
    eexists. split; [exact Q|]. right; right. exists plan, w1, w2, checks. by split_and!.
Qed.

(** What the status ok stands for. *)
Definition signal_succeeded (sg : Signal) (c : Ctx) (conn : string) (pid : Z) (w' : DbWorld) (r : PsqlResult) : Prop :=
  (0 <= RetryCount r < sg_attempts sg)%Z /\
  (exists plan w2 w3 output,
     runPsqlAs c conn (sg_query sg pid) (sg_tool sg) (sg_action sg) (formatConnectionPlan plan) w2 = (w3, Ok output) /\
     parsePgFunctionResult output <> 0%Z) /\
  exists wn, (verify_check c conn sg pid wn).2 = Ok true /\
    w' = after_attempt (sg_tool sg) (RetryCount r + 1) true (verify_check c conn sg pid wn).1.

Lemma signalImpl_reached sg c conn pid w :
  no_dml (sg_query sg pid) = true -> (0 < sg_attempts sg)%Z -> sg_status sg <> "ok" ->
  let '(w', r) := signalImpl sg c conn pid w in
  reached sg c conn pid w w' /\ (VerifyStatus r = "ok" -> signal_succeeded sg c conn pid w' r).
Proof.
  intros Hq Hn Hok. unfold signalImpl.
  destruct (inspectConnection c conn pid w) as [w1 [plan|e]] eqn:E1;
    [|split; [by eapply reached_inspection|done]].
  destruct (check_age c conn (sg_action sg) plan w1) as [w2 [e|]] eqn:E2.
  { split; [|done]. eapply reached_same; [|by eapply reached_inspection].
    pose proof (check_age_commands c conn (sg_action sg) plan w1) as H. by rewrite E2 in H. }
  destruct (runPsqlAs c conn (sg_query sg pid) _ _ _ w2) as [w3 [output|e]] eqn:E3;
    [|split; [by eapply reached_signal|done]].
  pose proof (reached_signal sg c conn pid w w1 w2 plan _ w3 _ Hq E1 E2 E3) as R3.
  destruct (str_contains output "(0 rows)"); [by split|].
  pose proof (measure_again_commands c conn (sg_action sg) (parsePgFunctionResult output) w3) as C4.
  destruct (measure_again _ _ _ _ w3) as [w4 [e|]]; simpl in C4; [split; [by eapply reached_same|done]|].
  destruct (parsePgFunctionResult output =? 0)%Z eqn:Ed; [split; [by eapply reached_same|done]|].
  pose proof (reached_checks sg c conn pid w w1 w2 w3 w4 plan _ output Hq E1 E2 E3 C4) as R5.
  pose proof (verify_signal_spec c conn sg pid w4 Hn) as Hv.
  destruct (verify_signal c conn sg pid w4) as [w5 [resolved attempts]]. destruct Hv as [Hb Hr]. destruct resolved.
  - split; [done|]. intros _. destruct (Hr eq_refl) as (Hp & wn & Hwn & ->). split; [simpl; lia|]. split.
    + exists plan, w2, w3, output. split; [done|]. by apply Z.eqb_neq.
    + exists wn. split; [done|]. simpl RetryCount. by replace (Z.max 0 (attempts - 1) + 1)%Z with attempts by lia.
  - split; [|done]. eapply reached_same; [|exact R5]. apply audited_commands.
Qed.

(**  A session is signalled only after it was inspected: cancel_query and
    terminate_connection send nothing but the inspection, then at most once the signal,
    and then only checks; each statement runs on the database that the argument resolves
    to and with the policy's leave in its class; the signal goes out only when the
    inspection found the session and the policy accepts the age of its transaction.  The
    status ok means that the server delivered the signal and the last thing the tool did
    was a check that passed, with the number of retries it reports, fewer than the tool's
    checks. *)
Theorem signals_are_inspected sg c conn pid w : In sg [cancel_signal; terminate_signal] ->
  let '(w', r) := signalImpl sg c conn pid w in
  sends c conn (signal_asks sg pid) w w' /\
  (exists l, statements w w' l /\
    (l = [] \/ l = [inspectionQuery pid] \/
     exists plan w1 w2 checks, inspectConnection c conn pid w = (w1, Ok plan) /\
       check_age c conn (sg_action sg) plan w1 = (w2, None) /\
       l = inspectionQuery pid :: sg_query sg pid :: checks /\ Forall (eq (sg_verify sg pid)) checks)) /\
  (VerifyStatus r = "ok" -> (0 <= RetryCount r < sg_attempts sg)%Z /\
     (exists plan w2 w3 output,
        runPsqlAs c conn (sg_query sg pid) (sg_tool sg) (sg_action sg) (formatConnectionPlan plan) w2 = (w3, Ok output) /\
        parsePgFunctionResult output <> 0%Z) /\
     exists wn, (verify_check c conn sg pid wn).2 = Ok true /\
       w' = after_attempt (sg_tool sg) (RetryCount r + 1) true (verify_check c conn sg pid wn).1).
Proof.
  intros Hin.
  assert (Hc : no_dml (sg_query sg pid) = true /\ (0 < sg_attempts sg)%Z /\ sg_status sg <> "ok")
    by (destruct Hin as [<-|[<-|[]]]; (split_and!; [by apply no_dml_first|reflexivity|discriminate])).
  destruct Hc as (Hq & Hn & Hok). unfold signalImpl.
  enough (H : let '(w', r) := signalImpl sg c conn pid w in reached sg c conn pid w w' /\ (VerifyStatus r = "ok" ->
    signal_succeeded sg c conn pid w' r)).
  { fold (signalImpl sg c conn pid w). destruct (signalImpl sg c conn pid w) as [w' r]. destruct H as [[H1 H2] H3]. by split_and!. }
  by apply signalImpl_reached.
Qed.
(** ** String literals

    How PostgreSQL reads a literal after its opening quote, with the setting
    standard_conforming_strings on, its default: a doubled quote stands for one. *)

Fixpoint read_literal (s : string) : option (string * string) :=
  match s with
  | EmptyString => None
  | String c s' =>
      if Ascii.eqb c "'" then
        match s' with
        | String d s'' =>
            if Ascii.eqb d "'" then option_map (fun '(v, rest) => (String d v, rest)) (read_literal s'')
            else Some (EmptyString, s')
        | EmptyString => Some (EmptyString, EmptyString)
        end
      else option_map (fun '(v, rest) => (String c v, rest)) (read_literal s')
  end.

Definition starts_quoted (s : string) : bool := has_prefix s "'".

Lemma read_escaped s rest : starts_quoted rest = false ->
  read_literal (escape_quotes s ++ "'" ++ rest) = Some (s, rest).
Proof.
  intros H. induction s as [|c s IH]; cbn [escape_quotes].
  - rewrite !append_cons. destruct rest as [|d rest]; [done|]. unfold starts_quoted in H. cbn [has_prefix] in H.
    rewrite andb_true_r, Ascii.eqb_sym in H. change (read_literal (String "'" (String d rest)) = Some ("", String d rest)).
    cbn [read_literal]. change (Ascii.eqb "'" "'") with true. by rewrite H.
  - destruct (Ascii.eqb c "'") eqn:E; rewrite !append_cons; cbn [read_literal]; rewrite ?E.
    all: change (String "'" ("" ++ rest)) with ("'" ++ rest)%string; by rewrite IH.
Qed.

(** Whether a literal is open after the text, when one is open before it or not. *)
Fixpoint quote_state (inside : bool) (s : string) : bool :=
  match s with
  | EmptyString => inside
  | String c s' => quote_state (if Ascii.eqb c "'" then negb inside else inside) s'
  end.

Lemma quote_state_app b s t : quote_state b (s ++ t) = quote_state (quote_state b s) t.
Proof. revert b. induction s as [|c s IH]; intros b; [done|]. rewrite append_cons. simpl. by rewrite IH. Qed.

Lemma quote_state_digits b acc s z : digits_value acc s = Some z -> quote_state b s = b.
Proof.
  revert acc. induction s as [|c s IH]; intros acc H; [done|]. cbn [digits_value] in H. cbn [quote_state].
  destruct (Ascii.eqb c "'") eqn:E; [by apply Ascii.eqb_eq in E as ->|].
  destruct (_ && _); [by eapply IH|done].
Qed.

Lemma quote_state_itoa b z : (0 <= z)%Z -> quote_state b (itoa z) = b.
Proof. intros Hz. destruct (itoa_digits z Hz) as [H _]. by eapply quote_state_digits. Qed.

(** The query has the value as one literal, between [before] and [rest]: no literal is
    open where it starts, it reads as the value, and the query goes on with [rest]. *)
Definition quoted_in (before value rest query : string) : Prop :=
  quote_state false before = false /\
  exists text, query = (before ++ "'" ++ text)%string /\ read_literal text = Some (value, rest).

Lemma quoted_here before value rest : quote_state false before = false -> starts_quoted rest = false ->
  quoted_in before value rest (before ++ "'" ++ escape_quotes value ++ "'" ++ rest).
Proof. intros Hb Hr. split; [done|]. eexists. split; [reflexivity|]. by apply read_escaped. Qed.

(** A plain identifier: letters, digits, underscores and dots. *)
Definition identifier_byte (ch : ascii) : bool := is_letter_or (digit_chars ++ ".") ch.

Lemma all_bytes_mono p q s : (forall ch, p ch = true -> q ch = true) -> all_bytes p s = true -> all_bytes q s = true.
Proof.
  intros H. induction s as [|ch s IH]; [done|]. cbn [all_bytes]. rewrite !andb_true_iff. intros [H1 H2]. auto.
Qed.

Lemma is_letter_or_more extra extra' ch :
  (str_contains extra (String ch "") = true -> str_contains extra' (String ch "") = true) ->
  is_letter_or extra ch = true -> is_letter_or extra' ch = true.
Proof. unfold is_letter_or. rewrite !orb_true_iff. tauto. Qed.

Lemma letter_is_identifier ch : is_letter_or "" ch = true -> identifier_byte ch = true.
Proof. apply is_letter_or_more. by destruct ch. Qed.

Lemma digit_is_identifier ch : is_letter_or digit_chars ch = true -> identifier_byte ch = true.
Proof. apply is_letter_or_more. apply contains_app_l. Qed.

Lemma identRe_bytes s : identRe s = true -> s <> "" /\ all_bytes identifier_byte s = true.
Proof.
  unfold identRe, first_then. destruct s as [|ch s]; [done|]. cbn [all_bytes]. rewrite !andb_true_iff.
  intros [H1 H2]. split_and!; [done|by apply digit_is_identifier|done].
Qed.

Lemma plain_identifier_bytes s : plain_identifier s = true -> s <> "" /\ all_bytes identifier_byte s = true.
Proof.
  unfold plain_identifier, first_then. destruct s as [|ch s]; [done|]. cbn [all_bytes]. rewrite !andb_true_iff.
  intros [H1 H2]. split_and!; [done|by apply letter_is_identifier|]. eapply all_bytes_mono; [|exact H2]. apply digit_is_identifier.
Qed.

(** ** Arguments in statements *)

Definition sends_only (P : string -> Prop) (w w' : DbWorld) : Prop :=
  exists new, w_commands w' = (w_commands w ++ new)%list /\ Forall (fun cmd => P (cmd_query cmd)) new.

Lemma sends_only_none P w w' : w_commands w' = w_commands w -> sends_only P w w'.
Proof. intros H. exists []. by rewrite app_nil_r. Qed.

Lemma sends_only_trans P w1 w2 w3 : sends_only P w1 w2 -> sends_only P w2 w3 -> sends_only P w1 w3.
Proof.
  intros (n1 & E1 & H1) (n2 & E2 & H2). exists (n1 ++ n2)%list. split; [by rewrite E2, E1, app_assoc|].
  by apply Forall_app.
Qed.

Lemma runPsqlAs_only P c conn query tool action plan w : action = ActionRead \/ no_dml query = true -> P query ->
  sends_only P w (runPsqlAs c conn query tool action plan w).1.
Proof.
  intros Hq HP. pose proof (runPsqlAs_spec c conn query tool action plan w Hq) as H.
  destruct (runPsqlAs _ _ _ _ _ _ _) as [w' r]. destruct H as [[H _]|(info & _ & _ & H)]; [by apply sends_only_none|].
  eexists. split; [exact H|]. by constructor.
Qed.

Lemma run_one_only P c conn query tool action plan w : action = ActionRead \/ no_dml query = true -> P query ->
  sends_only P w (run_one c conn query tool action plan w).1.
Proof.
  intros Hq HP. pose proof (runPsqlAs_only P c conn query tool action plan w Hq HP) as H. unfold run_one.
  by destruct (runPsqlAs _ _ _ _ _ _ _) as [w1 [output|e]].
Qed.

Lemma filter_quoted before database rest : given database = true -> quote_state false before = false ->
  starts_quoted rest = false ->
  quoted_in (before ++ "AND datname = ") database rest (before ++ database_filter database ++ rest).
Proof.
  intros Hd Hb Hr. unfold database_filter. rewrite Hd.
  replace (before ++ ("AND datname = '" ++ escape_quotes database ++ "'") ++ rest)%string
    with ((before ++ "AND datname = ") ++ "'" ++ escape_quotes database ++ "'" ++ rest)%string.
  - apply quoted_here; [by rewrite quote_state_app, Hb|done].
  - by rewrite !app_assoc_s.
Qed.

Lemma idle_heads_closed minutes : (0 <= minutes)%Z ->
  quote_state false (idle_list_head minutes) = false /\ quote_state false (idle_terminate_head minutes) = false.
Proof. intros H. unfold idle_list_head, idle_terminate_head. rewrite !quote_state_app, !(quote_state_itoa _ _ H). done. Qed.

Lemma splitN_two sep a b : all_bytes (fun ch => negb (Ascii.eqb ch sep)) a = true ->
  splitN sep 2 (a ++ String sep b) = [a; b].
Proof.
  intros H. simpl. assert (Hc : forall acc, (fix cut (acc s : string) : list string :=
    match s with
    | EmptyString => [acc]
    | String c s' => if Ascii.eqb c sep then acc :: [s'] else cut (acc ++ String c "")%string s'
    end) acc (a ++ String sep b)%string = [(acc ++ a)%string; b]).
  { induction a as [|ch a IH]; intros acc.
    - rewrite app_empty_r. simpl. by rewrite Ascii.eqb_refl.
    - cbn [all_bytes] in H. apply andb_true_iff in H as [H1 H2]. rewrite append_cons. apply negb_true_iff in H1. rewrite H1.
      rewrite (IH H2). by rewrite app_assoc_s. }
  exact (Hc "").
Qed.

Lemma split_on_one sep s a : split_on sep s = [a] -> s = a.
Proof.
  revert a. induction s as [|ch s IH]; intros a H; cbn [split_on] in H; [congruence|].
  pose proof (split_on_nonempty sep s) as Hne. destruct (Ascii.eqb ch sep); [congruence|].
  destruct (split_on sep s) as [|p ps]; [done|]. injection H as <- ->. by rewrite (IH p).
Qed.

Lemma split_on_two sep s a b : split_on sep s = [a; b] -> s = (a ++ String sep b)%string.
Proof.
  revert a. induction s as [|ch s IH]; intros a H; cbn [split_on] in H; [done|].
  destruct (Ascii.eqb ch sep) eqn:E.
  - apply Ascii.eqb_eq in E as ->. injection H as <- H. by rewrite (split_on_one _ _ _ H).
  - destruct (split_on sep s) as [|p ps]; [done|]. injection H as <- ->. by rewrite (IH p).
Qed.

Lemma identifier_no_dot ch : is_letter_or digit_chars ch = true -> negb (Ascii.eqb ch ".") = true.
Proof. destruct (Ascii.eqb_spec ch "."%char) as [->|]; done. Qed.

Lemma plain_identifier_no_dot s : plain_identifier s = true -> all_bytes (fun ch => negb (Ascii.eqb ch ".")) s = true.
Proof.
  unfold plain_identifier, first_then. destruct s as [|ch s]; [done|]. cbn [all_bytes]. rewrite andb_true_iff.
  intros [H1 H2]. rewrite identifier_no_dot; [|by eapply is_letter_or_more; [|exact H1]; destruct ch].
  eapply all_bytes_mono; [|exact H2]. apply identifier_no_dot.
Qed.

(** [t] is a table of a schema, both plain identifiers, and the statement names it so. *)
Definition vacuums (t query : string) : Prop :=
  exists schema name, t = (schema ++ "." ++ name)%string /\ plain_identifier schema = true /\ plain_identifier name = true /\
    In query (map (fun verb => verb ++ " " ++ dquote ++ schema ++ dquote ++ "." ++ dquote ++ name ++ dquote ++ ";")
                ["VACUUM ANALYZE"; "VACUUM"]).

Lemma vacuum_query_vacuums t analyze : tableNameRe t = true -> vacuums t (vacuum_query t analyze).
Proof.
  unfold tableNameRe. destruct (split_on "." t) as [|schema [|name [|? ?]]] eqn:E; try done.
  rewrite andb_true_iff. intros [H1 H2]. apply split_on_two in E. exists schema, name. split_and!; try done.
  rewrite E. unfold vacuum_query. rewrite splitN_two by (by apply plain_identifier_no_dot).
  rewrite !app_assoc_s. destruct analyze; [by left|by right; left].
Qed.

Lemma idle_stays c conn minutes dry :
  exists before rest, forall database w, given database = true ->
     sends_only (quoted_in before database rest) w
       (terminateIdleConnectionsImpl c {| ti_ConnectionString := conn; IdleMinutes := minutes; ti_Database := database;
          ti_DryRun := dry |} w).1.
Proof.
  exists ((if dry then idle_list_head minutes else idle_terminate_head minutes) ++ "AND datname = ")%string,
    (if dry then nl ++ "ORDER BY state_change ASC;" else nl ++ ") t" ++ nl ++ "WHERE terminated IS TRUE;").
  intros database w Hd. unfold terminateIdleConnectionsImpl. cbv zeta. cbn [ti_ConnectionString IdleMinutes ti_Database ti_DryRun].
  destruct (Z.ltb_spec minutes 0) as [?|Hm]; [by apply sends_only_none|].
  destruct (idle_heads_closed minutes Hm) as [H1 H2]. destruct dry.
  - pose proof (runPsqlAs_only _ c conn (idle_list_query minutes (database_filter database)) "terminate_idle_connections"
      ActionRead "" w (or_introl eq_refl) (filter_quoted _ _ (nl ++ "ORDER BY state_change ASC;") Hd H1 eq_refl)) as H.
    by destruct (runPsqlAs _ _ _ _ _ _ _) as [w1 [output|e]].
  - pose proof (runPsqlAs_only _ c conn (idle_terminate_query minutes (database_filter database)) "terminate_idle_connections"
      ActionDestructive "" w (or_intror (no_dml_first "S" _ eq_refl eq_refl eq_refl))
      (filter_quoted _ _ (nl ++ ") t" ++ nl ++ "WHERE terminated IS TRUE;") Hd H2 eq_refl)) as H.
    destruct (runPsqlAs _ _ _ _ _ _ _) as [w1 [output|e]]; [|done].
    pose proof (measure_again_commands c conn ActionDestructive (parseTerminatedCount output) w1) as H3.
    destruct (measure_again _ _ _ _ _) as [w2 [e|]]; exact (sends_only_trans _ _ _ _ H (sends_only_none _ _ _ H3)).
Qed.

Lemma reset_stays c conn setting w :
  sends_only (fun q => q = "SELECT pg_reload_conf();" \/
      q = ("ALTER SYSTEM RESET " ++ setting ++ ";")%string /\ setting <> "" /\ all_bytes identifier_byte setting = true) w
    (resetPgSettingImpl c conn setting w).1.
Proof.
  unfold resetPgSettingImpl. cbv zeta. destruct (identRe setting) eqn:E; [|by apply sends_only_none].
  apply identRe_bytes in E. set (P := fun q => _ \/ _). simpl negb. cbv iota.
  set (q := ("ALTER SYSTEM RESET " ++ setting ++ ";")%string). set (plan := ("Reset " ++ _)%string).
  pose proof (runPsqlAs_only P c conn q "reset_pg_setting" ActionWrite plan w
    (or_intror (no_dml_first "A" _ eq_refl eq_refl eq_refl)) (or_intror (conj eq_refl E))) as H1.
  destruct (runPsqlAs c conn q _ _ _ w) as [w1 [out1|e]]; [|done].
  pose proof (runPsqlAs_only P c conn "SELECT pg_reload_conf();" "reset_pg_setting" ActionWrite plan w1
    (or_intror eq_refl) (or_introl eq_refl)) as H2.
  destruct (runPsqlAs c conn _ _ _ _ w1) as [w2 [out2|e]]; by eapply sends_only_trans.
Qed.

(** C18 (safety).  Arguments stay in their place in the statements of the maintenance
    tools.  A database name for terminate_idle_connections is one string literal with that
    value between texts that do not depend on it, whatever its bytes are, and so is the
    slot of drop_replication_slot; run_vacuum sends nothing but a VACUUM of a schema and a
    table that are plain identifiers, and reset_pg_setting nothing but the reset of a name
    of letters, digits, underscores and dots, and the reload. *)
Theorem arguments_stay_in_place c conn minutes dry :
  (exists before rest, forall database w, given database = true ->
     sends_only (quoted_in before database rest) w
       (terminateIdleConnectionsImpl c {| ti_ConnectionString := conn; IdleMinutes := minutes; ti_Database := database;
          ti_DryRun := dry |} w).1) /\
  (forall slot w, sends_only (quoted_in "SELECT pg_drop_replication_slot(" slot ");") w
     (dropReplicationSlotImpl c conn slot w).1) /\
  (forall t analyze w, sends_only (vacuums t) w
     (runVacuumImpl c {| rv_ConnectionString := conn; Table := t; Analyze := analyze |} w).1) /\
  (forall setting w, sends_only (fun q => q = "SELECT pg_reload_conf();" \/
       q = ("ALTER SYSTEM RESET " ++ setting ++ ";")%string /\ setting <> "" /\ all_bytes identifier_byte setting = true) w
     (resetPgSettingImpl c conn setting w).1).
Proof.
  split_and!.
  - apply idle_stays.
  - intros slot w. unfold dropReplicationSlotImpl. destruct (identRe slot); [|by apply sends_only_none].
    apply run_one_only; [right; by apply no_dml_first|]. by apply quoted_here.
  - intros t analyze w. unfold runVacuumImpl. cbn [Table rv_ConnectionString]. destruct (tableNameRe t) eqn:E; [|by apply sends_only_none].
    apply run_one_only; [right; unfold vacuum_query; cbn [Analyze]; destruct (default true analyze); by apply no_dml_first|]. by apply vacuum_query_vacuums.
  - apply reset_stays.
Qed.
End Tools.

(** ** Registered databases *)

(** A server of the inventory, or one registered at run time, and what is known of it. *)
Definition registered (getenv : string -> string) (config : InfraConfig) (ephemeral : Servers) (info : databaseInfo) : Prop :=
  exists db, ConnectionStr info = ResolvedConnectionString getenv db /\ di_Tags info = db_Tags db /\
    ((DBServers config !! di_Name info = Some db /\ di_Sensitivity info = db_Sensitivity db) \/
     (In (di_Name info, db) ephemeral /\ di_Sensitivity info = [])).

Lemma resolved_is_registered getenv config servers ephemeral s info :
  (forall id db, In (id, db) servers -> DBServers config !! id = Some db) ->
  resolveDatabaseInfo getenv {| iv_config := Some (config, servers); iv_ephemeral := ephemeral |} s = Ok info ->
  registered getenv config ephemeral info.
Proof.
  intros Hs. unfold resolveDatabaseInfo, registered. cbn [iv_config iv_ephemeral]. cbv zeta.
  destruct (str_contains (trim_space s) "=").
  - unfold resolve_string. destruct (find _ servers) as [[id db]|] eqn:E1.
    + intros [= <-]. apply find_some in E1 as [E1 _]. exists db. split_and!; try done. left. by auto.
    + destruct (if given _ then _ else None) as [db|] eqn:E2.
      * intros [= <-]. exists db. split_and!; try done. left. split; [|done].
        by destruct (given (first_field "host=" (trim_space s))).
      * destruct (find _ ephemeral) as [[id db]|] eqn:E3; [|done]. intros [= <-].
        apply find_some in E3 as [E3 _]. exists db. by auto.
  - unfold resolve_name. destruct (DBServers config !! trim_space s) as [db|] eqn:E1.
    + intros [= <-]. exists db. by auto.
    + destruct (find _ ephemeral) as [[id db]|] eqn:E3; [|done]. intros [= <-].
      apply find_some in E3 as [E3 _]. exists db. by auto.
Qed.

(** ** Concrete runs *)

Module DbToy.

(** Reads are allowed, terminations of sessions whose transaction is under ten minutes
    too; everything else is denied. *)
Definition conditions (age : Z) : option Conditions :=
  Some {| RequireApproval := false; ApprovalQuorum := 0; MaxRowsAffected := 0; MaxPodsAffected := 0;
          MaxXactAgeSecs := age; Sched := None; AllowedPurposes := []; BlockedPurposes := [] |}.

Definition rule (action : string) (age : Z) : Rule :=
  {| rl_Action := [action]; rl_Effect := EffectAllow; rl_Conditions := conditions age; rl_Message := "" |}.

Definition engine : Engine :=
  {| config := {| Version := "1"; Policies := [
       {| pol_Name := "db"; pol_Description := ""; pol_Enabled := None; pol_Priority := 10; pol_Principals := [];
          pol_Resources := [sample_resource ""]; pol_Rules := [rule ActionRead 0; rule ActionDestructive 600] |}] |};
     defaultEffect := EffectDeny; dryRun := false |}.

Definition enforcer : PolicyEnforcer :=
  {| pe_engine := Some engine; policyCheckURL := ""; pe_trace := Some "tr_9"; pe_approvals := true;
     pe_agentName := "dbagent"; pe_auditor := true; requirePurposeForSensitive := false |}.

Definition orders : DBServer :=
  {| db_Name := "Orders"; ConnectionString := "host=db1 dbname=orders"; PasswordEnv := ""; db_K8sCluster := "";
     K8sNamespace := ""; K8sPodSelector := ""; VMName := ""; ContainerName := ""; SystemdUnit := ""; db_Tags := ["prod"];
     db_Sensitivity := []; ApprovalOverrideRoles := [] |}.

Definition agent : DbAgent :=
  {| policyEnforcer := Some enforcer; toolAuditor := None; traceID := "tr_9";
     inventory := {| iv_config := Some ({| DBServers := {[ "orders" := orders ]}; K8sClusters := ∅; VMs := ∅ |},
                                        [("orders", orders)]); iv_ephemeral := [] |} |}.

(** A session with a transaction of [age] seconds; the answers to signals and checks. *)
Definition server (age signal : string) (check : string * option string) (_ : list Command) (cmd : Command)
    : string * option string :=
  let q := cmd_query cmd in
  if has_prefix q "SELECT pg_" then (signal, None)
  else if str_contains q "has_open_tx" then
    ("usename | app" ++ nl ++ "has_open_tx | t" ++ nl ++ "open_tx_secs | " ++ age ++ nl ++ "has_writes | t", None)
  else check.

Definition start : DbWorld (S := Served) :=
  {| w_api := auditd_with []; w_recorded := []; w_events := []; w_commands := [] |}.

Definition ctx : Ctx := sample_ctx "" "".

Definition run (sg : Signal) (age signal : string) (check : string * option string) : DbWorld * PsqlResult :=
  signalImpl "fix" no_zones (fun _ => "") Hours sample_clock (fun _ => None) (fun _ => "") agent (server age signal check)
    (fun _ => None) (fun _ => 0%Z) (fun _ => "e") (fun _ => None) sg ctx "orders" 42 start.

Definition observed (r : DbWorld (S := Served) * PsqlResult) : nat * string * Z :=
  (length (w_commands r.1), VerifyStatus r.2, RetryCount r.2).

(** A session that is gone, one that stays, one with an old transaction, a signal the
    server does not deliver, and a class of calls the policy denies. *)
Example terminations :
  let gone := ("still_alive | 0", None) in
  observed (run terminate_signal "30" "terminated | t" gone) = (3, "ok", 0%Z) /\
  observed (run terminate_signal "30" "terminated | t" ("still_alive | 1", None)) = (4, "escalation_required", 1%Z) /\
  observed (run terminate_signal "3600" "terminated | t" gone) = (1, "", 0%Z) /\
  observed (run terminate_signal "30" "terminated | f" gone) = (2, "", 0%Z) /\
  observed (run cancel_signal "30" "cancelled | t" gone) = (1, "", 0%Z).
Proof. vm_compute. repeat split. Qed.

(** A check that psql could not run counts as resolved: the tool reports ok. *)
Example failed_check_is_ok :
  observed (run terminate_signal "30" "terminated | t" ("connection refused", Some "exit status 2")) = (3, "ok", 0%Z).
Proof. vm_compute. reflexivity. Qed.

Definition idle (database : string) : DbWorld * PsqlResult :=
  terminateIdleConnectionsImpl "fix" no_zones (fun _ => "") Hours sample_clock (fun _ => None) (fun _ => "") agent
    (server "" "terminated | 7" ("terminated | 7", None)) (fun _ => None) (fun _ => 0%Z) (fun _ => "e") (fun _ => None) ctx
    {| ti_ConnectionString := "orders"; IdleMinutes := 5; ti_Database := database; ti_DryRun := false |} start.

Example quotes_doubled :
  existsb (fun cmd => str_contains (cmd_query cmd) "datname = 'o''; DROP'") (w_commands (idle "o'; DROP").1) = true.
Proof. vm_compute. reflexivity. Qed.

(** The advice for a missing role is never given: the test for a missing database comes
    first and says yes. *)
Example missing_role_diagnosed :
  diagnosePsqlError ("FATAL:  role " ++ dquote ++ "app" ++ dquote ++ " does not exist") =
  diagnosePsqlError ("FATAL:  database " ++ dquote ++ "app" ++ dquote ++ " does not exist") /\
  has_prefix (diagnosePsqlError ("ERROR:  relation " ++ dquote ++ "t" ++ dquote ++ " does not exist"))
    "The requested database does not exist" = true.
Proof. vm_compute. split; reflexivity. Qed.
End DbToy.

Lemma signals_are_inspected_witness :
  DbToy.observed (DbToy.run terminate_signal "30" "terminated | t" ("still_alive | 0", None)) = (3, "ok", 0%Z) /\
  exists l, statements DbToy.start (DbToy.run terminate_signal "30" "terminated | t" ("still_alive | 0", None)).1 l.
Proof.
  split; [vm_compute; reflexivity|].
  pose proof (signals_are_inspected "fix" no_zones (fun _ => "") Hours sample_clock (fun _ => None) (fun _ => "") DbToy.agent
    (DbToy.server "30" "terminated | t" ("still_alive | 0", None)) (fun _ => None) (fun _ => 0%Z) (fun _ => "e")
    (fun _ => None) terminate_signal DbToy.ctx "orders" 42 DbToy.start (or_intror (or_introl eq_refl))) as H.
  fold (DbToy.run terminate_signal "30" "terminated | t" ("still_alive | 0", None)) in H.
  destruct (DbToy.run _ _ _ _) as [w' r]. destruct H as (_ & (l & Hl & _) & _). by exists l.
Defined.

Lemma arguments_stay_in_place_witness :
  length (w_commands (DbToy.idle "o'; DROP").1) = 1 /\
  exists before rest, sends_only (quoted_in before "o'; DROP" rest) DbToy.start (DbToy.idle "o'; DROP").1.
Proof.
  split; [vm_compute; reflexivity|].
  destruct (proj1 (arguments_stay_in_place "fix" no_zones (fun _ => "") Hours sample_clock (fun _ => None) (fun _ => "")
    DbToy.agent (DbToy.server "" "terminated | 7" ("terminated | 7", None)) (fun _ => None) (fun _ => 0%Z) (fun _ => "e")
    (fun _ => None) DbToy.ctx "orders" 5 false)) as (before & rest & H).
  exists before, rest. exact (H "o'; DROP" DbToy.start eq_refl).
Defined.
