(* ===== verification/DatabaseQueries.v ===== *)
(** * agents/database/tools.go: diagnostic tools and the registry

    The read tools, from [checkConnectionImpl] to [getPgLogImpl], with the SQL they send,
    the two that ask auditd instead, and the tools of [NewDatabaseDirectRegistry], which
    fleet steps and the gateway call by name.  The diagnostic tools use psql through the
    interface [SqlRunner]; the functions of DatabaseTools implement it.

    The shortest text of a float ([%g]) and the GET requests to auditd are parameters; the
    arguments of a call are decoded.  The goroutine of [getBaselineTool] that stores the
    baseline is left out: calls through the registry do not go through it. *)

From Stdlib Require Import SpecFloat.
From S2P Require Import Prelude GoTime TimeText GoFormat Events PolicyTypes PolicyEngine PolicyExplain Identity Action.
From S2P Require Import ApprovalStore ApprovalHandlers ApprovalClient Enforcer PlaybookText PlaybookStore PlaybookPrompt.
From S2P Require Import GovernanceCheck Infra ToolAudit DatabaseTools.

Open Scope string_scope.

(** ** Statements *)

Definition pgLogReadBytes : Z := 131072.
Definition pgLogDefaultLines : Z := 100.
Definition pgLogMaxLines : Z := 500.

Definition check_connection_query : string :=
  "SELECT version(), current_database(), current_user, inet_server_addr(), inet_server_port();".

Definition server_info_query : string :=
  "SELECT" ++ nl ++ "		version() as version," ++ nl ++ "		pg_postmaster_start_time() as server_started," ++
  nl ++ "		now() - pg_postmaster_start_time() as uptime," ++ nl ++
  "		current_setting('data_directory') as data_directory," ++ nl ++
  "		current_setting('config_file') as config_file," ++ nl ++
  "		current_setting('hba_file') as hba_file," ++ nl ++ "		current_setting('ident_file') as ident_file," ++
  nl ++ "		current_setting('log_directory') as log_directory," ++ nl ++
  "		current_setting('log_filename') as log_filename," ++ nl ++
  "		pg_size_pretty(pg_database_size(current_database())) as current_db_size," ++ nl ++
  "		CASE WHEN pg_is_in_recovery() THEN 'replica' ELSE 'primary' END as role," ++ nl ++
  "		(SELECT count(*) FROM pg_stat_activity) as total_connections," ++ nl ++
  "		(SELECT count(*) FROM pg_stat_activity WHERE state = 'active') as active_connections," ++ nl ++
  "		current_setting('max_connections') as max_connections;".

Definition database_info_query : string :=
  "SELECT" ++ nl ++ "		d.datname as database," ++ nl ++
  "		pg_size_pretty(pg_database_size(d.datname)) as size," ++ nl ++
  "		pg_catalog.pg_get_userbyid(d.datdba) as owner," ++ nl ++
  "		pg_catalog.pg_encoding_to_char(d.encoding) as encoding," ++ nl ++
  "		d.datcollate as collation," ++ nl ++ "		d.datconnlimit as connection_limit," ++ nl ++
  "		CASE WHEN pg_is_in_recovery() THEN 'Yes' ELSE 'No' END as in_recovery" ++ nl ++
  "	FROM pg_database d" ++ nl ++ "	WHERE d.datistemplate = false" ++ nl ++
  "	ORDER BY pg_database_size(d.datname) DESC;".

Definition active_connections_query (stateFilter : string) : string :=
  "SELECT" ++ nl ++ "		pid," ++ nl ++ "		usename as user," ++ nl ++
  "		datname as database," ++ nl ++ "		client_addr," ++ nl ++
  "		state," ++ nl ++ "		wait_event_type," ++ nl ++ "		wait_event," ++ nl ++
  "		EXTRACT(EPOCH FROM (now() - query_start))::int as query_seconds," ++ nl ++
  "		LEFT(query, 100) as query_preview" ++ nl ++ "	FROM pg_stat_activity" ++ nl ++
  "	WHERE pid != pg_backend_pid()" ++ nl ++ "	" ++ stateFilter ++ nl ++
  "	ORDER BY query_start ASC NULLS LAST" ++ nl ++ "	LIMIT 50;".

Definition connection_stats_query : string :=
  "SELECT" ++ nl ++ "		datname as database," ++ nl ++ "		COUNT(*) as total_connections," ++ nl ++
  "		COUNT(*) FILTER (WHERE state = 'active') as active," ++ nl ++
  "		COUNT(*) FILTER (WHERE state = 'idle') as idle," ++ nl ++
  "		COUNT(*) FILTER (WHERE state = 'idle in transaction') as idle_in_transaction," ++ nl ++
  "		COUNT(*) FILTER (WHERE wait_event_type = 'Lock') as waiting_on_lock," ++ nl ++
  "		(SELECT setting::int FROM pg_settings WHERE name = 'max_connections') as max_connections" ++ nl ++
  "	FROM pg_stat_activity" ++ nl ++ "	GROUP BY datname" ++ nl ++
  "	ORDER BY total_connections DESC;".

Definition status_summary_query : string :=
  "SELECT json_build_object(" ++ nl ++ "		'status',          'ok'," ++ nl ++
  "		'version',         regexp_replace(version(), '^PostgreSQL ([0-9]+\.[0-9]+).*', 'PG \1')," ++ nl ++
  "		'uptime',          extract(day  FROM (now() - pg_postmaster_start_time()))::int::text || 'd '" ++ nl ++
  "		                || extract(hour FROM (now() - pg_postmaster_start_time()))::int::text || 'h'," ++ nl ++
  "		'connections',     (SELECT count(*)::int FROM pg_stat_activity)," ++ nl ++
  "		'max_connections', current_setting('max_connections')::int," ++ nl ++
  "		'cache_hit_ratio', COALESCE(" ++ nl ++
  "		                     (SELECT ROUND(100.0 * sum(blks_hit) / NULLIF(sum(blks_read + blks_hit), 0), 2)" ++
  nl ++ "		                      FROM pg_stat_database WHERE datname NOT LIKE 'template%')," ++ nl ++
  "		                     0)" ++ nl ++ "	) AS status_summary".

Definition database_stats_query : string :=
  "SELECT" ++ nl ++ "		datname as database," ++ nl ++ "		numbackends as connections," ++ nl ++
  "		xact_commit as commits," ++ nl ++ "		xact_rollback as rollbacks," ++ nl ++
  "		blks_read as blocks_read," ++ nl ++ "		blks_hit as cache_hits," ++ nl ++
  "		ROUND(100.0 * blks_hit / NULLIF(blks_read + blks_hit, 0), 2) as cache_hit_ratio," ++ nl ++
  "		tup_returned as rows_returned," ++ nl ++ "		tup_fetched as rows_fetched," ++ nl ++
  "		tup_inserted as rows_inserted," ++ nl ++ "		tup_updated as rows_updated," ++ nl ++
  "		tup_deleted as rows_deleted," ++ nl ++ "		conflicts," ++ nl ++
  "		deadlocks" ++ nl ++ "	FROM pg_stat_database" ++ nl ++ "	WHERE datname NOT LIKE 'template%'" ++ nl ++
  "	ORDER BY numbackends DESC;".

Definition config_parameter_query (parameter : string) : string :=
  "SELECT name, setting, unit, short_desc" ++ nl ++ "			FROM pg_settings" ++ nl ++
  "			WHERE name ILIKE '%" ++ parameter ++ "%'" ++ nl ++ "			ORDER BY name;".

Definition config_parameters_query : string :=
  "SELECT name, setting, unit, short_desc" ++ nl ++ "			FROM pg_settings" ++ nl ++
  "			WHERE name IN (" ++ nl ++ "				'max_connections', 'shared_buffers', 'effective_cache_size'," ++ nl ++
  "				'work_mem', 'maintenance_work_mem', 'wal_level'," ++ nl ++
  "				'max_wal_senders', 'max_replication_slots', 'hot_standby'," ++ nl ++
  "				'listen_addresses', 'port', 'log_min_duration_statement'," ++ nl ++
  "				'statement_timeout', 'lock_timeout', 'idle_in_transaction_session_timeout'" ++ nl ++
  "			)" ++ nl ++ "			ORDER BY name;".

Definition replication_status_query : string :=
  "SELECT" ++ nl ++ "		CASE WHEN pg_is_in_recovery() THEN 'Replica' ELSE 'Primary' END as role," ++ nl ++
  "		pg_is_in_recovery() as is_in_recovery;" ++ nl ++ nl ++ "	SELECT" ++ nl ++
  "		client_addr," ++ nl ++ "		usename as user," ++ nl ++ "		application_name," ++ nl ++
  "		state," ++ nl ++ "		sync_state," ++ nl ++
  "		pg_wal_lsn_diff(sent_lsn, write_lsn) as write_lag_bytes," ++ nl ++
  "		pg_wal_lsn_diff(sent_lsn, flush_lsn) as flush_lag_bytes," ++ nl ++
  "		pg_wal_lsn_diff(sent_lsn, replay_lsn) as replay_lag_bytes" ++ nl ++
  "	FROM pg_stat_replication;" ++ nl ++ nl ++ "	SELECT" ++ nl ++
  "		slot_name," ++ nl ++ "		slot_type," ++ nl ++ "		active," ++ nl ++
  "		pg_wal_lsn_diff(pg_current_wal_lsn(), restart_lsn) as lag_bytes" ++ nl ++
  "	FROM pg_replication_slots;".

Definition lock_info_query : string :=
  "SELECT" ++ nl ++ "		blocked_locks.pid AS blocked_pid," ++ nl ++
  "		blocked_activity.usename AS blocked_user," ++ nl ++ "		blocking_locks.pid AS blocking_pid," ++ nl ++
  "		blocking_activity.usename AS blocking_user," ++ nl ++ "		blocked_activity.query AS blocked_query," ++
  nl ++ "		blocking_activity.query AS blocking_query" ++ nl ++
  "	FROM pg_catalog.pg_locks blocked_locks" ++ nl ++
  "	JOIN pg_catalog.pg_stat_activity blocked_activity ON blocked_activity.pid = blocked_locks.pid" ++ nl ++
  "	JOIN pg_catalog.pg_locks blocking_locks" ++ nl ++
  "		ON blocking_locks.locktype = blocked_locks.locktype" ++ nl ++
  "		AND blocking_locks.database IS NOT DISTINCT FROM blocked_locks.database" ++ nl ++
  "		AND blocking_locks.relation IS NOT DISTINCT FROM blocked_locks.relation" ++ nl ++
  "		AND blocking_locks.page IS NOT DISTINCT FROM blocked_locks.page" ++ nl ++
  "		AND blocking_locks.tuple IS NOT DISTINCT FROM blocked_locks.tuple" ++ nl ++
  "		AND blocking_locks.virtualxid IS NOT DISTINCT FROM blocked_locks.virtualxid" ++ nl ++
  "		AND blocking_locks.transactionid IS NOT DISTINCT FROM blocked_locks.transactionid" ++ nl ++
  "		AND blocking_locks.classid IS NOT DISTINCT FROM blocked_locks.classid" ++ nl ++
  "		AND blocking_locks.objid IS NOT DISTINCT FROM blocked_locks.objid" ++ nl ++
  "		AND blocking_locks.objsubid IS NOT DISTINCT FROM blocked_locks.objsubid" ++ nl ++
  "		AND blocking_locks.pid != blocked_locks.pid" ++ nl ++
  "	JOIN pg_catalog.pg_stat_activity blocking_activity ON blocking_activity.pid = blocking_locks.pid" ++
  nl ++ "	WHERE NOT blocked_locks.granted;".

Definition one_table_query (schema table : string) : string :=
  "SELECT" ++ nl ++ "			schemaname," ++ nl ++ "			relname as table_name," ++ nl ++
  "			pg_size_pretty(pg_total_relation_size(relid)) as total_size," ++ nl ++
  "			n_live_tup as live_rows," ++ nl ++ "			n_dead_tup as dead_rows," ++ nl ++
  "			ROUND(100.0 * n_dead_tup / NULLIF(n_live_tup + n_dead_tup, 0), 2) as dead_ratio," ++ nl ++
  "			last_vacuum," ++ nl ++ "			last_autovacuum," ++ nl ++ "			last_analyze," ++ nl ++
  "			last_autoanalyze," ++ nl ++ "			seq_scan," ++ nl ++ "			idx_scan" ++ nl ++
  "		FROM pg_stat_user_tables" ++ nl ++ "		WHERE schemaname = '" ++ schema ++ "' AND relname = '" ++ table ++
  "';".

Definition tables_query (schema : string) : string :=
  "SELECT" ++ nl ++ "			relname as table_name," ++ nl ++
  "			pg_size_pretty(pg_total_relation_size(relid)) as total_size," ++ nl ++
  "			n_live_tup as live_rows," ++ nl ++ "			n_dead_tup as dead_rows," ++ nl ++
  "			seq_scan," ++ nl ++ "			idx_scan" ++ nl ++ "		FROM pg_stat_user_tables" ++ nl ++
  "		WHERE schemaname = '" ++ schema ++ "'" ++ nl ++ "		ORDER BY pg_total_relation_size(relid) DESC" ++ nl ++
  "		LIMIT 20;".

Definition pg_settings_query (whereClause categoryFilter : string) : string :=
  "SELECT" ++ nl ++ "		category," ++ nl ++ "		name," ++ nl ++
  "		setting," ++ nl ++ "		unit," ++ nl ++ "		boot_val as default_value," ++ nl ++
  "		source," ++ nl ++ "		short_desc" ++ nl ++ "	FROM pg_settings" ++ nl ++
  "	WHERE " ++ whereClause ++ categoryFilter ++ nl ++ "	ORDER BY category, name;".

Definition extensions_query : string :=
  "SELECT" ++ nl ++ "		name," ++ nl ++ "		installed_version," ++ nl ++
  "		default_version," ++ nl ++ "		comment" ++ nl ++ "	FROM pg_available_extensions" ++ nl ++
  "	WHERE installed_version IS NOT NULL" ++ nl ++ "	ORDER BY name;".

Definition statements_check_query : string :=
  "SELECT 1 FROM pg_extension WHERE extname = 'pg_stat_statements';".

Definition slow_queries_query (limit : Z) : string :=
  "SELECT" ++ nl ++ "		LEFT(query, 120) as query," ++ nl ++ "		calls," ++ nl ++
  "		ROUND(total_exec_time::numeric, 2) as total_ms," ++ nl ++
  "		ROUND(mean_exec_time::numeric, 2) as mean_ms," ++ nl ++
  "		ROUND(max_exec_time::numeric, 2) as max_ms," ++ nl ++ "		rows" ++ nl ++
  "	FROM pg_stat_statements" ++ nl ++ "	ORDER BY total_exec_time DESC" ++ nl ++
  "	LIMIT " ++ itoa limit ++ ";".

Definition vacuum_status_query (ratio : string) : string :=
  "SELECT" ++ nl ++ "		schemaname," ++ nl ++ "		relname as table_name," ++ nl ++
  "		n_live_tup as live_rows," ++ nl ++ "		n_dead_tup as dead_rows," ++ nl ++
  "		ROUND(100.0 * n_dead_tup / NULLIF(n_live_tup + n_dead_tup, 0), 2) as dead_ratio_pct," ++ nl ++
  "		last_vacuum," ++ nl ++ "		last_autovacuum," ++ nl ++ "		last_analyze," ++ nl ++
  "		last_autoanalyze," ++ nl ++ "		autovacuum_count," ++ nl ++
  "		autoanalyze_count" ++ nl ++ "	FROM pg_stat_user_tables" ++ nl ++
  "	WHERE ROUND(100.0 * n_dead_tup / NULLIF(n_live_tup + n_dead_tup, 0), 2) >= " ++ ratio ++ nl ++
  "	ORDER BY n_dead_tup DESC" ++ nl ++ "	LIMIT 30;".

Definition database_sizes_query : string :=
  "SELECT" ++ nl ++ "		datname as database," ++ nl ++
  "		pg_size_pretty(pg_database_size(datname)) as size," ++ nl ++
  "		pg_database_size(datname) as size_bytes" ++ nl ++ "	FROM pg_database" ++ nl ++
  "	WHERE datistemplate = false" ++ nl ++ "	ORDER BY pg_database_size(datname) DESC;".

Definition table_sizes_query (topN : Z) : string :=
  "SELECT" ++ nl ++ "		schemaname," ++ nl ++ "		relname as table_name," ++ nl ++
  "		pg_size_pretty(pg_total_relation_size(relid)) as total_size," ++ nl ++
  "		pg_size_pretty(pg_relation_size(relid)) as table_size," ++ nl ++
  "		pg_size_pretty(pg_total_relation_size(relid) - pg_relation_size(relid)) as index_size" ++ nl ++
  "	FROM pg_stat_user_tables" ++ nl ++ "	ORDER BY pg_total_relation_size(relid) DESC" ++ nl ++
  "	LIMIT " ++ itoa topN ++ ";".

Definition bgwriter_query_18 : string :=
  "SELECT" ++ nl ++ "			c.num_timed        AS checkpoints_timed," ++ nl ++
  "			c.num_requested    AS checkpoints_req," ++ nl ++
  "			round(c.write_time::numeric / 1000, 2)  AS checkpoint_write_secs," ++ nl ++
  "			round(c.sync_time::numeric  / 1000, 2)  AS checkpoint_sync_secs," ++ nl ++
  "			c.buffers_written  AS buffers_checkpoint," ++ nl ++ "			b.buffers_clean," ++ nl ++
  "			b.maxwritten_clean," ++ nl ++ "			0                  AS buffers_backend," ++ nl ++
  "			0                  AS buffers_backend_fsync," ++ nl ++
  "			b.buffers_alloc," ++ nl ++ "			b.stats_reset" ++ nl ++
  "		FROM pg_stat_checkpointer c, pg_stat_bgwriter b;".

Definition bgwriter_query_17 : string :=
  "SELECT" ++ nl ++ "			c.num_timed        AS checkpoints_timed," ++ nl ++
  "			c.num_requested    AS checkpoints_req," ++ nl ++
  "			round(c.write_time::numeric / 1000, 2)  AS checkpoint_write_secs," ++ nl ++
  "			round(c.sync_time::numeric  / 1000, 2)  AS checkpoint_sync_secs," ++ nl ++
  "			c.buffers_written  AS buffers_checkpoint," ++ nl ++ "			b.buffers_clean," ++ nl ++
  "			b.maxwritten_clean," ++ nl ++ "			b.buffers_backend," ++ nl ++
  "			b.buffers_backend_fsync," ++ nl ++ "			b.buffers_alloc," ++ nl ++
  "			b.stats_reset" ++ nl ++ "		FROM pg_stat_checkpointer c, pg_stat_bgwriter b;".

Definition bgwriter_query_old : string :=
  "SELECT" ++ nl ++ "			checkpoints_timed," ++ nl ++ "			checkpoints_req," ++ nl ++
  "			round(checkpoint_write_time::numeric / 1000, 2) AS checkpoint_write_secs," ++ nl ++
  "			round(checkpoint_sync_time::numeric  / 1000, 2) AS checkpoint_sync_secs," ++ nl ++
  "			buffers_checkpoint," ++ nl ++ "			buffers_clean," ++ nl ++
  "			maxwritten_clean," ++ nl ++ "			buffers_backend," ++ nl ++
  "			buffers_backend_fsync," ++ nl ++ "			buffers_alloc," ++ nl ++
  "			stats_reset" ++ nl ++ "		FROM pg_stat_bgwriter;".

Definition wait_events_query : string :=
  "SELECT" ++ nl ++ "		wait_event_type," ++ nl ++ "		wait_event," ++ nl ++
  "		count(*) as sessions," ++ nl ++ "		string_agg(state, ', ' ORDER BY state) as states" ++ nl ++
  "	FROM pg_stat_activity" ++ nl ++ "	WHERE wait_event IS NOT NULL" ++ nl ++
  "	  AND pid <> pg_backend_pid()" ++ nl ++ "	GROUP BY wait_event_type, wait_event" ++ nl ++
  "	ORDER BY sessions DESC;".

Definition blocking_queries_query : string :=
  "SELECT" ++ nl ++ "		blocked_locks.pid AS blocked_pid," ++ nl ++
  "		blocked_activity.usename AS blocked_user," ++ nl ++
  "		blocked_activity.application_name AS blocked_app," ++ nl ++
  "		blocked_activity.wait_event_type AS wait_type," ++ nl ++
  "		blocked_activity.wait_event," ++ nl ++ "		blocking_locks.pid AS blocking_pid," ++ nl ++
  "		blocking_activity.usename AS blocking_user," ++ nl ++ "		blocking_locks.mode AS lock_mode," ++ nl ++
  "		COALESCE(rel.relname, '(relation unknown)') AS relation," ++ nl ++
  "		now() - blocked_activity.xact_start AS blocked_duration," ++ nl ++
  "		LEFT(blocked_activity.query, 100) AS blocked_query," ++ nl ++
  "		LEFT(blocking_activity.query, 100) AS blocking_query" ++ nl ++
  "	FROM pg_catalog.pg_locks blocked_locks" ++ nl ++ "	JOIN pg_catalog.pg_stat_activity blocked_activity" ++
  nl ++ "		ON blocked_activity.pid = blocked_locks.pid" ++ nl ++
  "	JOIN pg_catalog.pg_locks blocking_locks" ++ nl ++
  "		ON blocking_locks.locktype = blocked_locks.locktype" ++ nl ++
  "		AND blocking_locks.database IS NOT DISTINCT FROM blocked_locks.database" ++ nl ++
  "		AND blocking_locks.relation IS NOT DISTINCT FROM blocked_locks.relation" ++ nl ++
  "		AND blocking_locks.page IS NOT DISTINCT FROM blocked_locks.page" ++ nl ++
  "		AND blocking_locks.tuple IS NOT DISTINCT FROM blocked_locks.tuple" ++ nl ++
  "		AND blocking_locks.virtualxid IS NOT DISTINCT FROM blocked_locks.virtualxid" ++ nl ++
  "		AND blocking_locks.transactionid IS NOT DISTINCT FROM blocked_locks.transactionid" ++ nl ++
  "		AND blocking_locks.classid IS NOT DISTINCT FROM blocked_locks.classid" ++ nl ++
  "		AND blocking_locks.objid IS NOT DISTINCT FROM blocked_locks.objid" ++ nl ++
  "		AND blocking_locks.objsubid IS NOT DISTINCT FROM blocked_locks.objsubid" ++ nl ++
  "		AND blocking_locks.pid != blocked_locks.pid" ++ nl ++
  "	JOIN pg_catalog.pg_stat_activity blocking_activity" ++ nl ++
  "		ON blocking_activity.pid = blocking_locks.pid" ++ nl ++
  "	LEFT JOIN pg_catalog.pg_class rel" ++ nl ++ "		ON rel.oid = blocked_locks.relation" ++ nl ++
  "	WHERE NOT blocked_locks.granted" ++ nl ++ "	ORDER BY blocked_duration DESC NULLS LAST;".

Definition pg_log_query : string :=
  nl ++ "WITH latest AS (" ++ nl ++ "  SELECT" ++ nl ++
  "    CASE WHEN current_setting('log_directory') LIKE '/%'" ++ nl ++
  "      THEN current_setting('log_directory') || '/' || name" ++ nl ++
  "      ELSE current_setting('data_directory') || '/' || current_setting('log_directory') || '/' || name" ++
  nl ++ "    END AS path," ++ nl ++ "    size" ++ nl ++ "  FROM pg_ls_logdir()" ++ nl ++
  "  ORDER BY modification DESC" ++ nl ++ "  LIMIT 1" ++ nl ++
  ")" ++ nl ++ "SELECT COALESCE(" ++ nl ++ "  pg_read_file(path, GREATEST(0, size - " ++
  itoa pgLogReadBytes ++ "), LEAST(size, " ++ itoa pgLogReadBytes ++ "))," ++ nl ++
  "  ''" ++ nl ++ ")" ++ nl ++ "FROM latest;".

Definition bgwriter_version_query : string := "SELECT current_setting('server_version_num')::int AS v".

Definition bgwriter_query (version : Z) : string :=
  if (180000 <=? version)%Z then bgwriter_query_18 else if (170000 <=? version)%Z then bgwriter_query_17 else bgwriter_query_old.

(** [fmt.Sscanf(s, "%d", &n)] of a text that does not start with a space. *)
Definition scan_int (s : string) : option Z :=
  match s with
  | String c s' =>
      if Ascii.eqb c "-" || Ascii.eqb c "+" then atoi (String c (span_digits s').1) else atoi (span_digits s).1
  | EmptyString => None
  end.

(** The prefixes that need no transaction, looked at without spaces and case. *)
Definition is_dml (query : string) : bool :=
  negb (existsb (has_prefix (trim_space (to_upper query))) ["SELECT"; "WITH"; "EXPLAIN"; "TABLE"]).

Definition explain_statement (query : string) : string :=
  let explain := "EXPLAIN (ANALYZE, BUFFERS, FORMAT TEXT) " ++ query in
  if is_dml query then "BEGIN; " ++ explain ++ "; ROLLBACK;" else explain.

Definition state_filter (activeOnly : bool) : string :=
  if activeOnly then "AND state = 'active'" else "AND state IS NOT NULL".

Definition config_statement (parameter : string) : string :=
  if given parameter then config_parameter_query parameter else config_parameters_query.

Definition table_statement (schema table : string) : string :=
  let schemaFilter := or_default "public" schema in
  if given table then one_table_query schemaFilter table else tables_query schemaFilter.

Definition settings_statement (category : string) (showAll : bool) : string :=
  pg_settings_query (if showAll then "1=1" else "source NOT IN ('default', 'override')")
    (if given category then " AND category ILIKE '%" ++ escape_quotes category ++ "%'" else "").

Definition or_ten (n : Z) : Z := if (n <=? 0)%Z then 10%Z else n.

(** ** Lines of a log *)

Definition line_limit (lines : Z) : Z :=
  let lines := if (lines <=? 0)%Z then pgLogDefaultLines else lines in
  if (pgLogMaxLines <? lines)%Z then pgLogMaxLines else lines.

Definition matching_lines (filter content : string) : list string :=
  let f := to_lower (trim_space filter) in
  let all := split_on newline content in
  if given f then List.filter (fun l => str_contains (to_lower l) f) all else all.

Definition last_lines (n : Z) (l : list string) : list string := skipn (length l - Z.to_nat n) l.

(** The text of a log: [title] and the messages are the tool's. *)
Definition show_log (title empty no_match : string) (lines : Z) (filter raw : string) : string :=
  let content := trim_right_newlines raw in
  if content =?s "" then empty
  else
    match last_lines (line_limit lines) (matching_lines filter content) with
    | [] => no_match
    | l =>
        "=== " ++ title ++ " (last " ++ itoa (Z.of_nat (length l)) ++ " lines" ++
        (if given (to_lower (trim_space filter)) then ", filter=" ++ quote filter else "") ++ ") ===" ++ nl ++ join nl l
    end.

(** ** The interface to psql *)

Class SqlRunner (W : Type) := {
  sql : Ctx -> string -> string -> string -> W -> W * result string string;
  sql_tuples : Ctx -> string -> string -> string -> W -> W * result string string;
  (** the commands between two states are among the statements, each with the policy's leave *)
  asked : Ctx -> string -> list Ask -> W -> W -> Prop;
  asked_refl c conn asks w : asked c conn asks w w;
  asked_trans c conn asks w1 w2 w3 : asked c conn asks w1 w2 -> asked c conn asks w2 w3 -> asked c conn asks w1 w3;
  asked_weaken c conn asks asks' w w' : incl asks asks' -> asked c conn asks w w' -> asked c conn asks' w w';
  sql_asked c conn query tool w : asked c conn [ask tool ActionRead query] w (sql c conn query tool w).1;
  sql_tuples_asked c conn query tool w : asked c conn [ask tool ActionRead query] w (sql_tuples c conn query tool w).1 }.

Section Diagnostics.
Context {W : Type} `{!SqlRunner W} (fmt_g : spec_float -> string).

(** One query and a view of its output; an error is shown as such. *)
Definition reading (tool query : string) (view : string -> string) (c : Ctx) (conn : string) (w : W) : W * PsqlResult :=
  match sql c conn query tool w with
  | (w1, Err e) => (w1, errorResult tool conn e)
  | (w1, Ok output) => (w1, plain (view output))
  end.

Definition or_none (msg output : string) : string :=
  if (trim_space output =?s "") || str_contains output "(0 rows)" then msg else output.

Definition checkConnectionImpl : Ctx -> string -> W -> W * PsqlResult :=
  reading "check_connection" check_connection_query (fun output => "Connection successful!" ++ nl ++ output).

Definition getServerInfoImpl : Ctx -> string -> W -> W * PsqlResult := reading "get_server_info" server_info_query id.

Definition getDatabaseInfoImpl : Ctx -> string -> W -> W * PsqlResult := reading "get_database_info" database_info_query id.

Definition getActiveConnectionsImpl (activeOnly : bool) : Ctx -> string -> W -> W * PsqlResult :=
  reading "get_active_connections" (active_connections_query (state_filter activeOnly)) (or_none "No active connections found.").

Definition getConnectionStatsImpl : Ctx -> string -> W -> W * PsqlResult :=
  reading "get_connection_stats" connection_stats_query id.

Definition status_error : string := "{" ++ dquote ++ "status" ++ dquote ++ ":" ++ dquote ++ "error" ++ dquote ++ "}".

Definition getStatusSummaryImpl (c : Ctx) (conn : string) (w : W) : W * PsqlResult :=
  match sql c conn status_summary_query "get_status_summary" w with
  | (w1, Err _) => (w1, plain status_error)
  | (w1, Ok output) => (w1, plain (or_default status_error (default "" (parseExpandedRow output !! "status_summary"))))
  end.

Definition getDatabaseStatsImpl : Ctx -> string -> W -> W * PsqlResult := reading "get_database_stats" database_stats_query id.

Definition getConfigParameterImpl (parameter : string) : Ctx -> string -> W -> W * PsqlResult :=
  reading "get_config_parameter" (config_statement parameter) id.

Definition getReplicationStatusImpl : Ctx -> string -> W -> W * PsqlResult :=
  reading "get_replication_status" replication_status_query id.

Definition getLockInfoImpl : Ctx -> string -> W -> W * PsqlResult :=
  reading "get_lock_info" lock_info_query (or_none "No blocking locks found.").

Definition getTableStatsImpl (schema table : string) : Ctx -> string -> W -> W * PsqlResult :=
  reading "get_table_stats" (table_statement schema table) id.

Definition getPgSettingsImpl (category : string) (showAll : bool) : Ctx -> string -> W -> W * PsqlResult :=
  reading "get_pg_settings" (settings_statement category showAll)
    (or_none (if given category then "All " ++ quote category ++ " category settings are at their default values."
              else "All settings are at their default values.")).

Definition getExtensionsImpl : Ctx -> string -> W -> W * PsqlResult :=
  reading "get_extensions" extensions_query (or_none "No extensions installed.").

Definition getSlowQueriesImpl (limit : Z) (c : Ctx) (conn : string) (w : W) : W * PsqlResult :=
  let tool := "get_slow_queries" in
  match sql c conn statements_check_query tool w with
  | (w1, Err e) => (w1, errorResult tool conn e)
  | (w1, Ok checkOut) =>
      if negb (str_contains checkOut "1") then
        (w1, plain "pg_stat_statements extension is not installed. Enable it with: CREATE EXTENSION pg_stat_statements; and add it to shared_preload_libraries in postgresql.conf.")
      else
        reading tool (slow_queries_query (or_ten limit))
          (or_none "No queries recorded yet. pg_stat_statements resets on server restart.") c conn w1
  end.

Definition getVacuumStatusImpl (minDeadRatio : spec_float) : Ctx -> string -> W -> W * PsqlResult :=
  reading "get_vacuum_status" (vacuum_status_query (fmt_g minDeadRatio))
    (or_none ("No tables with dead row ratio >= " ++ fmt_f0 minDeadRatio ++ "%. Vacuum health looks good.")).

Definition getDiskUsageImpl (topN : Z) (c : Ctx) (conn : string) (w : W) : W * PsqlResult :=
  let tool := "get_disk_usage" in
  match sql c conn database_sizes_query tool w with
  | (w1, Err e) => (w1, errorResult tool conn e)
  | (w1, Ok dbOut) =>
      reading tool (table_sizes_query (or_ten topN))
        (fun tableOut => "-- Database Sizes --" ++ nl ++ dbOut ++ nl ++ "-- Top " ++ itoa (or_ten topN) ++
                         " Tables by Disk Usage --" ++ nl ++ tableOut) c conn w1
  end.

(** The version is asked for without a tool's name: it is not recorded. *)
Definition getBgwriterStatsImpl (c : Ctx) (conn : string) (w : W) : W * PsqlResult :=
  let tool := "get_bgwriter_stats" in
  match sql c conn bgwriter_version_query "" w with
  | (w1, Err e) => (w1, errorResult tool conn e)
  | (w1, Ok verOut) =>
      let version := match parseExpandedRow verOut !! "v" with Some s => default 0%Z (scan_int s) | None => 0%Z end in
      reading tool (bgwriter_query version) id c conn w1
  end.

Definition getWaitEventsImpl : Ctx -> string -> W -> W * PsqlResult :=
  reading "get_wait_events" wait_events_query (or_none "No sessions currently waiting.").

Definition getBlockingQueriesImpl : Ctx -> string -> W -> W * PsqlResult :=
  reading "get_blocking_queries" blocking_queries_query (or_none "No blocking queries found.").

Definition explainQueryImpl (query : string) (allowDML : bool) (c : Ctx) (conn : string) (w : W) : W * PsqlResult :=
  if query =?s "" then (w, plain "explain_query: query is required")
  else if is_dml query && negb allowDML then
    (w, plain "explain_query: only SELECT/WITH queries are allowed by default. Set allow_dml=true to EXPLAIN DML statements (they will be wrapped in BEGIN/ROLLBACK and not committed).")
  else reading "explain_query" (explain_statement query) id c conn w.

Definition log_denied : string :=
  "read_pg_log: permission denied for pg_ls_logdir — the database user lacks the pg_read_server_files privilege or superuser role." ++
  nl ++ nl ++ "For Kubernetes-managed PostgreSQL, use the k8s agent's get_pod_logs tool on the postgres pod instead (e.g. kubectl logs <pod> -n <namespace>).".

Definition log_missing : string :=
  "read_pg_log: log directory does not exist — logging_collector is likely disabled on this server. Enable it by setting logging_collector=on and log_destination=stderr in postgresql.conf, then restart PostgreSQL.".

Definition getPgLogImpl (lines : Z) (filter : string) (c : Ctx) (conn : string) (w : W) : W * PsqlResult :=
  match sql_tuples c conn pg_log_query "read_pg_log" w with
  | (w1, Err e) =>
      if str_contains e "pg_ls_logdir" && str_contains e "permission denied" then (w1, plain log_denied)
      else if any_in e ["could not open directory"; "No such file or directory"] then (w1, plain log_missing)
      else (w1, errorResult "read_pg_log" conn e)
  | (w1, Ok raw) =>
      (w1, plain (show_log "PostgreSQL Log"
        "read_pg_log: no log content found. Check that logging_collector=on and log_destination includes stderr or csvlog."
        ("read_pg_log: no log lines matched filter " ++ quote filter ++ ".") lines filter raw))
  end.

Definition rule_line : string :=
  "══════════════════════════════════════════" ++ nl.

(** The sections one after the other; each shows its own errors. *)
Definition baseline_section (c : Ctx) (conn : string) (acc : W * string) (s : string * (Ctx -> string -> W -> W * PsqlResult))
    : W * string :=
  let '(w1, r) := s.2 c conn acc.1 in
  (w1, acc.2 ++ rule_line ++ "  " ++ s.1 ++ nl ++ rule_line ++ Output r ++ nl).

Definition baseline_sections : list (string * (Ctx -> string -> W -> W * PsqlResult)) :=
  [("Server Info", getServerInfoImpl); ("PG Settings (non-default)", getPgSettingsImpl "" false);
   ("Extensions", getExtensionsImpl); ("Disk Usage", getDiskUsageImpl 0)].

Definition getBaselineImpl (c : Ctx) (conn : string) (w : W) : W * PsqlResult :=
  let '(w1, text) := fold_left (baseline_section c conn) baseline_sections (w, "") in (w1, plain text).

(** ** What the diagnostic tools send *)

Definition read_asks (tool : string) (queries : list string) : list Ask := map (ask tool ActionRead) queries.

Lemma reading_asked tool query view c conn w : asked c conn (read_asks tool [query]) w (reading tool query view c conn w).1.
Proof.
  unfold reading. pose proof (sql_asked c conn query tool w) as H. by destruct (sql c conn query tool w) as [w1 [output|e]].
Qed.

Lemma sql_then_asked c conn query tool w w1 r asks w2 : sql c conn query tool w = (w1, r) ->
  In (ask tool ActionRead query) asks -> asked c conn asks w1 w2 -> asked c conn asks w w2.
Proof.
  intros E Hin H. pose proof (sql_asked c conn query tool w) as H1. rewrite E in H1.
  eapply asked_trans; [|exact H]. eapply asked_weaken; [|exact H1]. by intros a [<-|[]].
Qed.

Lemma status_summary_asked c conn w :
  asked c conn (read_asks "get_status_summary" [status_summary_query]) w (getStatusSummaryImpl c conn w).1.
Proof.
  unfold getStatusSummaryImpl. pose proof (sql_asked c conn status_summary_query "get_status_summary" w) as H.
  by destruct (sql _ _ _ _ w) as [w1 [output|e]].
Qed.

Definition slow_asks (limit : Z) : list Ask :=
  read_asks "get_slow_queries" [statements_check_query; slow_queries_query (or_ten limit)].

Lemma slow_queries_asked limit c conn w : asked c conn (slow_asks limit) w (getSlowQueriesImpl limit c conn w).1.
Proof.
  unfold getSlowQueriesImpl. cbv zeta. destruct (sql c conn statements_check_query _ w) as [w1 r] eqn:E.
  eapply sql_then_asked; [exact E|by left|].
  destruct r as [out|e]; [|apply asked_refl]. destruct (negb _); [apply asked_refl|].
  eapply asked_weaken; [|apply reading_asked]. intros a [<-|[]]. by right; left.
Qed.

Definition disk_asks (topN : Z) : list Ask := read_asks "get_disk_usage" [database_sizes_query; table_sizes_query (or_ten topN)].

Lemma disk_usage_asked topN c conn w : asked c conn (disk_asks topN) w (getDiskUsageImpl topN c conn w).1.
Proof.
  unfold getDiskUsageImpl. cbv zeta. destruct (sql c conn database_sizes_query _ w) as [w1 r] eqn:E.
  eapply sql_then_asked; [exact E|by left|]. destruct r as [out|e]; [|apply asked_refl].
  eapply asked_weaken; [|apply reading_asked]. intros a [<-|[]]. by right; left.
Qed.

Definition bgwriter_asks : list Ask :=
  ask "" ActionRead bgwriter_version_query ::
  read_asks "get_bgwriter_stats" [bgwriter_query_18; bgwriter_query_17; bgwriter_query_old].

Lemma bgwriter_asked c conn w : asked c conn bgwriter_asks w (getBgwriterStatsImpl c conn w).1.
Proof.
  unfold getBgwriterStatsImpl. cbv zeta. destruct (sql c conn bgwriter_version_query _ w) as [w1 r] eqn:E.
  eapply sql_then_asked; [exact E|by left|]. destruct r as [out|e]; [|apply asked_refl].
  eapply asked_weaken; [|apply reading_asked]. intros a [<-|[]]. unfold bgwriter_query, bgwriter_asks, read_asks. simpl.
  repeat destruct (_ <=? _)%Z; tauto.
Qed.

Definition explain_asks (query : string) : list Ask := read_asks "explain_query" [explain_statement query].

Lemma explain_asked query dml c conn w : asked c conn (explain_asks query) w (explainQueryImpl query dml c conn w).1.
Proof.
  unfold explainQueryImpl. destruct (query =?s ""); [apply asked_refl|]. destruct (_ && _); [apply asked_refl|].
  apply reading_asked.
Qed.

Lemma pg_log_asked lines filter c conn w :
  asked c conn (read_asks "read_pg_log" [pg_log_query]) w (getPgLogImpl lines filter c conn w).1.
Proof.
  unfold getPgLogImpl. pose proof (sql_tuples_asked c conn pg_log_query "read_pg_log" w) as H.
  destruct (sql_tuples _ _ _ _ w) as [w1 [raw|e]]; [done|]. destruct (_ && _); [done|]. by destruct (any_in _ _).
Qed.

Definition baseline_asks : list Ask :=
  (read_asks "get_server_info" [server_info_query] ++ read_asks "get_pg_settings" [settings_statement "" false] ++
   read_asks "get_extensions" [extensions_query] ++ disk_asks 0)%list.

Lemma baseline_sections_asked c conn asks l acc :
  Forall (fun s => forall w, asked c conn asks w (s.2 c conn w).1) l ->
  asked c conn asks acc.1 (fold_left (baseline_section c conn) l acc).1.
Proof.
  revert acc. induction l as [|s l IH]; intros acc H; [apply asked_refl|]. inversion_clear H as [|? ? H1 H2]. simpl.
  eapply asked_trans; [apply (H1 acc.1)|].
  assert (Hs : (baseline_section c conn acc s).1 = (s.2 c conn acc.1).1)
    by (unfold baseline_section; by destruct (s.2 c conn acc.1)).
  rewrite <- Hs. by apply IH.
Qed.

Lemma baseline_asked c conn w : asked c conn baseline_asks w (getBaselineImpl c conn w).1.
Proof.
  unfold getBaselineImpl.
  assert (H : asked c conn baseline_asks w (fold_left (baseline_section c conn) baseline_sections (w, "")).1).
  { apply (baseline_sections_asked c conn baseline_asks baseline_sections (w, "")). unfold baseline_asks.
    repeat apply List.Forall_cons; try apply List.Forall_nil; intros w';
      (eapply asked_weaken; [|first [apply disk_usage_asked | apply reading_asked]]);
      intros a Ha; rewrite !in_app_iff; tauto. }
  by destruct (fold_left _ _ _).
Qed.
End Diagnostics.

(** ** Tools that ask auditd *)

(** A stored result as the tool shows it. *)
Record Snapshot := { sn_RecordedAt : Time; sn_ServerName : string; sn_RecordedBy : string; sn_Output : string }.

(** The answer to a GET: an error before there is one, or its status and what reading
    the body gives. *)
Inductive Fetched (A : Type) :=
  | BadRequest (e : string)
  | Unreachable (e : string)
  | Answered (status : Z) (body : result string A).
Arguments BadRequest {A} e.
Arguments Unreachable {A} e.
Arguments Answered {A} status body.

Definition maxSnapshotOutputBytes : Z := 32768.

Definition snapshot_text (i : Z) (s : Snapshot) : string :=
  "── Snapshot " ++ itoa i ++ " ─ recorded: " ++ datetime_text (sn_RecordedAt s) ++ " UTC ─ server: " ++ sn_ServerName s ++
  " ─ by: " ++ sn_RecordedBy s ++ " ──" ++ nl ++ sn_Output s ++ (if has_suffix (sn_Output s) nl then "" else nl) ++ nl.

(** The snapshots until the text is too long; the one that makes it so is shown in full. *)
Fixpoint snapshot_list (count i : Z) (acc : string) (l : list Snapshot) : string :=
  match l with
  | [] => acc
  | s :: l' =>
      let acc := acc ++ snapshot_text i s in
      if (maxSnapshotOutputBytes <? Z.of_nat (String.length acc))%Z then
        acc ++ "[output truncated — " ++ itoa i ++ " of " ++ itoa count ++ " snapshots shown]" ++ nl
      else snapshot_list count (i + 1) acc l'
  end.

Section Auditd.
Context (auditBaseURL : string).
(** A GET of a file, with what it holds up to the limit, and of stored results. *)
Context (get_file : string -> Fetched string) (get_results : string -> Fetched (Z * list Snapshot)).

Definition readUploadedFileImpl (uploadID : string) (lines : Z) (filter : string) : PsqlResult :=
  plain
    (if auditBaseURL =?s "" then "read_uploaded_file: HELPDESK_AUDIT_URL is not configured — cannot retrieve uploads"
     else if uploadID =?s "" then "read_uploaded_file: upload_id is required"
     else
       match get_file (trim_suffix auditBaseURL "/" ++ "/v1/uploads/" ++ uploadID ++ "/content") with
       | BadRequest e => "read_uploaded_file ERROR: failed to build request: " ++ e
       | Unreachable e => "read_uploaded_file ERROR: auditd unreachable: " ++ e
       | Answered status body =>
           if (status =? 404)%Z then
             "read_uploaded_file: upload " ++ quote uploadID ++ " not found or expired (uploads expire after 24 hours)"
           else if negb (status =? 200)%Z then "read_uploaded_file ERROR: auditd returned status " ++ itoa status
           else
             match body with
             | Err e => "read_uploaded_file ERROR: failed to read response: " ++ e
             | Ok raw =>
                 show_log "Uploaded File" "read_uploaded_file: the uploaded file is empty."
                   ("read_uploaded_file: no lines matched filter " ++ quote filter ++ ".") lines filter raw
             end
       end).

Definition snapshot_limit (limit : Z) : Z :=
  let limit := if (limit <=? 0)%Z then 3%Z else limit in if (10 <? limit)%Z then 10%Z else limit.

Definition getSavedSnapshotsImpl (toolName serverName : string) (limit : Z) (since : string) : PsqlResult :=
  let since := or_default "90d" since in
  let named := if given serverName then " on server " ++ quote serverName else "" in
  plain
    (if auditBaseURL =?s "" then "get_saved_snapshots: HELPDESK_AUDIT_URL is not configured — snapshot history is unavailable"
     else if toolName =?s "" then "get_saved_snapshots: tool_name is required"
     else
       match get_results (trim_suffix auditBaseURL "/" ++ "/v1/tool-results" ++ "?tool=" ++ toolName ++ "&limit=" ++
                          itoa (snapshot_limit limit) ++ "&since=" ++ since ++
                          (if given serverName then "&server=" ++ serverName else "")) with
       | BadRequest e => "get_saved_snapshots ERROR: failed to build request: " ++ e
       | Unreachable e => "get_saved_snapshots ERROR: auditd unreachable: " ++ e
       | Answered status body =>
           if negb (status =? 200)%Z then "get_saved_snapshots ERROR: auditd returned status " ++ itoa status
           else
             match body with
             | Err e => "get_saved_snapshots ERROR: failed to parse response: " ++ e
             | Ok (count, results) =>
                 if (count =? 0)%Z then
                   "get_saved_snapshots: no saved results found for tool " ++ quote toolName ++ named ++ " in the last " ++ since
                 else
                   snapshot_list count 1
                     ("=== " ++ itoa count ++ " saved snapshot(s) for tool " ++ quote toolName ++
                      (if given serverName then " on " ++ quote serverName else "") ++ " (most recent first) ===" ++ nl ++ nl)
                     results
             end
       end).
End Auditd.

(** ** The registry *)

(** A call with its decoded arguments, the connection string apart. *)
Inductive DbCall :=
  | CheckConnection | GetServerInfo | GetDatabaseInfo
  | GetActiveConnections (activeOnly : bool)
  | GetConnectionStats | GetDatabaseStats
  | GetConfigParameter (parameter : string)
  | GetReplicationStatus | GetLockInfo
  | GetTableStats (schema table : string)
  | GetSessionInfo (pid : Z)
  | CancelQuery (pid : Z)
  | TerminateConnection (pid : Z)
  | TerminateIdleConnections (minutes : Z) (database : string) (dry : bool)
  | GetStatusSummary
  | GetPgSettings (category : string) (showAll : bool)
  | GetExtensions | GetBaseline
  | GetSlowQueries (limit : Z)
  | GetVacuumStatus (minDeadRatio : spec_float)
  | GetDiskUsage (topN : Z)
  | GetBgwriterStats | GetWaitEvents | GetBlockingQueries
  | ExplainQuery (query : string) (allowDML : bool)
  | ReadPgLog (lines : Z) (filter : string)
  | ReadUploadedFile (uploadID : string) (lines : Z) (filter : string)
  | GetSavedSnapshots (toolName serverName : string) (limit : Z) (since : string)
  | ResumeWalReplay
  | RunVacuum (t : string) (analyze : option bool)
  | DropReplicationSlot (slot : string)
  | ResetPgSetting (setting : string)
  | ResetCacheStats.

Definition tool_name (d : DbCall) : string :=
  match d with
  | CheckConnection => "check_connection" | GetServerInfo => "get_server_info" | GetDatabaseInfo => "get_database_info"
  | GetActiveConnections _ => "get_active_connections" | GetConnectionStats => "get_connection_stats"
  | GetDatabaseStats => "get_database_stats" | GetConfigParameter _ => "get_config_parameter"
  | GetReplicationStatus => "get_replication_status" | GetLockInfo => "get_lock_info"
  | GetTableStats _ _ => "get_table_stats" | GetSessionInfo _ => "get_session_info" | CancelQuery _ => "cancel_query"
  | TerminateConnection _ => "terminate_connection" | TerminateIdleConnections _ _ _ => "terminate_idle_connections"
  | GetStatusSummary => "get_status_summary" | GetPgSettings _ _ => "get_pg_settings" | GetExtensions => "get_extensions"
  | GetBaseline => "get_baseline" | GetSlowQueries _ => "get_slow_queries" | GetVacuumStatus _ => "get_vacuum_status"
  | GetDiskUsage _ => "get_disk_usage" | GetBgwriterStats => "get_bgwriter_stats" | GetWaitEvents => "get_wait_events"
  | GetBlockingQueries => "get_blocking_queries" | ExplainQuery _ _ => "explain_query" | ReadPgLog _ _ => "read_pg_log"
  | ReadUploadedFile _ _ _ => "read_uploaded_file" | GetSavedSnapshots _ _ _ _ => "get_saved_snapshots"
  | ResumeWalReplay => "resume_wal_replay" | RunVacuum _ _ => "run_vacuum" | DropReplicationSlot _ => "drop_replication_slot"
  | ResetPgSetting _ => "reset_pg_setting" | ResetCacheStats => "reset_cache_stats"
  end.

(** The statements a call may send, each with the tool and the class it is checked under. *)
Definition tool_asks (fmt_g : spec_float -> string) (d : DbCall) : list Ask :=
  let tool := tool_name d in
  let reads := read_asks tool in
  match d with
  | CheckConnection => reads [check_connection_query]
  | GetServerInfo => reads [server_info_query]
  | GetDatabaseInfo => reads [database_info_query]
  | GetActiveConnections active => reads [active_connections_query (state_filter active)]
  | GetConnectionStats => reads [connection_stats_query]
  | GetDatabaseStats => reads [database_stats_query]
  | GetConfigParameter p => reads [config_statement p]
  | GetReplicationStatus => reads [replication_status_query]
  | GetLockInfo => reads [lock_info_query]
  | GetTableStats schema table => reads [table_statement schema table]
  | GetSessionInfo pid => reads [inspectionQuery pid]
  | CancelQuery pid => signal_asks cancel_signal pid
  | TerminateConnection pid => signal_asks terminate_signal pid
  | TerminateIdleConnections minutes database dry =>
      let filter := database_filter database in
      if dry then reads [idle_list_query minutes filter]
      else [ask tool ActionDestructive (idle_terminate_query minutes filter)]
  | GetStatusSummary => reads [status_summary_query]
  | GetPgSettings category showAll => reads [settings_statement category showAll]
  | GetExtensions => reads [extensions_query]
  | GetBaseline => baseline_asks
  | GetSlowQueries limit => slow_asks limit
  | GetVacuumStatus ratio => reads [vacuum_status_query (fmt_g ratio)]
  | GetDiskUsage topN => disk_asks topN
  | GetBgwriterStats => bgwriter_asks
  | GetWaitEvents => reads [wait_events_query]
  | GetBlockingQueries => reads [blocking_queries_query]
  | ExplainQuery query _ => explain_asks query
  | ReadPgLog _ _ => reads [pg_log_query]
  | ReadUploadedFile _ _ _ | GetSavedSnapshots _ _ _ _ => []
  | ResumeWalReplay => [ask tool ActionWrite "SELECT pg_wal_replay_resume();"]
  | RunVacuum t analyze => [ask tool ActionWrite (vacuum_query t (default true analyze))]
  | DropReplicationSlot slot => [ask tool ActionDestructive (drop_slot_query slot)]
  | ResetPgSetting setting =>
      [ask tool ActionWrite ("ALTER SYSTEM RESET " ++ setting ++ ";"); ask tool ActionWrite "SELECT pg_reload_conf();"]
  | ResetCacheStats => [ask tool ActionWrite "SELECT pg_stat_reset();"]
  end.

Section Registry.
Context {S : Type} `{!ApprovalAPI S}.
Context (operatingMode : string) (LoadLocation : string -> option (Time -> Z)).
Context (marshal_trace : DecisionTrace -> string) (now : Time) (clock : Clock).
Context (remote : policyCheckReq -> option (Z * option policyCheckResp)).
Context (getenv : string -> string) (ag : DbAgent).
Context (psql : list Command -> Command -> string * option string).
Context (ctx_err : list Command -> option string) (elapsed : list Command -> Z) (uuid8 : list Event -> string).
Context (plan_rows : string -> option Z).
Context (fmt_g : spec_float -> string) (auditBaseURL : string).
Context (get_file : string -> Fetched string) (get_results : string -> Fetched (Z * list Snapshot)).

Abbreviation checked f :=
  (f operatingMode LoadLocation marshal_trace now clock remote getenv ag psql ctx_err elapsed uuid8 plan_rows).
Abbreviation may_send := (sends operatingMode LoadLocation marshal_trace now clock remote getenv ag).

(** The functions of DatabaseTools are a runner. *)
#[local] Instance psql_runner : SqlRunner (DbWorld (S := S)) := {
  sql := checked runPsqlWithToolName;
  sql_tuples := runPsqlTuples operatingMode LoadLocation marshal_trace now clock remote getenv ag psql ctx_err elapsed uuid8;
  asked := may_send;
  asked_refl := sends_refl _ _ _ _ _ _ _ _;
  asked_trans := sends_trans _ _ _ _ _ _ _ _;
  asked_weaken := sends_weaken _ _ _ _ _ _ _ _;
  sql_asked c conn query tool w :=
    runPsqlAs_sends _ _ _ _ _ _ _ _ _ _ _ _ _ c conn query tool ActionRead "" w (or_introl eq_refl);
  sql_tuples_asked := runPsqlTuples_sends _ _ _ _ _ _ _ _ _ _ _ _ }.

Definition run_tool (c : Ctx) (conn : string) (d : DbCall) (w : DbWorld) : DbWorld * PsqlResult :=
  match d with
  | CheckConnection => checkConnectionImpl c conn w
  | GetServerInfo => getServerInfoImpl c conn w
  | GetDatabaseInfo => getDatabaseInfoImpl c conn w
  | GetActiveConnections active => getActiveConnectionsImpl active c conn w
  | GetConnectionStats => getConnectionStatsImpl c conn w
  | GetDatabaseStats => getDatabaseStatsImpl c conn w
  | GetConfigParameter p => getConfigParameterImpl p c conn w
  | GetReplicationStatus => getReplicationStatusImpl c conn w
  | GetLockInfo => getLockInfoImpl c conn w
  | GetTableStats schema table => getTableStatsImpl schema table c conn w
  | GetSessionInfo pid => checked getSessionInfoImpl c conn pid w
  | CancelQuery pid => checked cancelQueryImpl c conn pid w
  | TerminateConnection pid => checked terminateConnectionImpl c conn pid w
  | TerminateIdleConnections minutes database dry =>
      checked terminateIdleConnectionsImpl c
        {| ti_ConnectionString := conn; IdleMinutes := minutes; ti_Database := database; ti_DryRun := dry |} w
  | GetStatusSummary => getStatusSummaryImpl c conn w
  | GetPgSettings category showAll => getPgSettingsImpl category showAll c conn w
  | GetExtensions => getExtensionsImpl c conn w
  | GetBaseline => getBaselineImpl c conn w
  | GetSlowQueries limit => getSlowQueriesImpl limit c conn w
  | GetVacuumStatus ratio => getVacuumStatusImpl fmt_g ratio c conn w
  | GetDiskUsage topN => getDiskUsageImpl topN c conn w
  | GetBgwriterStats => getBgwriterStatsImpl c conn w
  | GetWaitEvents => getWaitEventsImpl c conn w
  | GetBlockingQueries => getBlockingQueriesImpl c conn w
  | ExplainQuery query dml => explainQueryImpl query dml c conn w
  | ReadPgLog lines filter => getPgLogImpl lines filter c conn w
  | ReadUploadedFile id lines filter => (w, readUploadedFileImpl auditBaseURL get_file id lines filter)
  | GetSavedSnapshots tool server limit since => (w, getSavedSnapshotsImpl auditBaseURL get_results tool server limit since)
  | ResumeWalReplay => checked resumeWalReplayImpl c conn w
  | RunVacuum t analyze => checked runVacuumImpl c {| rv_ConnectionString := conn; Table := t; Analyze := analyze |} w
  | DropReplicationSlot slot => checked dropReplicationSlotImpl c conn slot w
  | ResetPgSetting setting => checked resetPgSettingImpl c conn setting w
  | ResetCacheStats => checked resetCacheStatsImpl c conn w
  end.

(** A handler of the registry: the text of the result. *)
Definition NewDatabaseDirectRegistry (decode : string -> anymap -> result string (string * DbCall)) (name : string) (c : Ctx)
    (args : anymap) (w : DbWorld) : DbWorld * result string string :=
  match decode name args with
  | Err e => (w, Err e)
  | Ok (conn, d) => let '(w1, r) := run_tool c conn d w in (w1, Ok (Output r))
  end.

(** ** What a tool sends *)

Lemma run_one_sends c conn query tool action plan w : action = ActionRead \/ no_dml query = true ->
  may_send c conn [ask tool action query] w (checked run_one c conn query tool action plan w).1.
Proof.
  intros Hq. unfold run_one.
  pose proof (checked (runPsqlAs_sends (S := S)) c conn query tool action plan w Hq) as H.
  by destruct (runPsqlAs _ _ _ _ _ _ _ _ _ _ _ _ _ _ _ _ _ _ _ _) as [w1 [output|e]].
Qed.

Lemma idle_sends c conn minutes database dry w :
  may_send c conn (tool_asks fmt_g (TerminateIdleConnections minutes database dry)) w
    (run_tool c conn (TerminateIdleConnections minutes database dry) w).1.
Proof.
  unfold run_tool, tool_asks, terminateIdleConnectionsImpl. cbv zeta.
  cbn [ti_ConnectionString IdleMinutes ti_Database ti_DryRun tool_name].
  destruct (minutes <? 0)%Z; [apply sends_refl|]. destruct dry.
  - pose proof (checked (runPsqlAs_sends (S := S)) c conn (idle_list_query minutes (database_filter database))
      "terminate_idle_connections" ActionRead "" w (or_introl eq_refl)) as H.
    by destruct (runPsqlAs _ _ _ _ _ _ _ _ _ _ _ _ _ _ _ _ _ _ _ _) as [w1 [output|e]].
  - pose proof (checked (runPsqlAs_sends (S := S)) c conn (idle_terminate_query minutes (database_filter database))
      "terminate_idle_connections" ActionDestructive "" w (or_intror (no_dml_first "S" _ eq_refl eq_refl eq_refl))) as H.
    destruct (runPsqlAs _ _ _ _ _ _ _ _ _ _ _ _ _ _ _ _ _ _ _ _) as [w1 [output|e]]; [|done].
    pose proof (measure_again_commands LoadLocation marshal_trace clock remote getenv ag c conn ActionDestructive
      (parseTerminatedCount output) w1) as H2.
    destruct (measure_again _ _ _ _ _ _ _ _ _ _ _) as [w2 [e|]]; (eapply sends_trans; [exact H|by apply sends_same]).
Qed.

Lemma vacuum_sends c conn t analyze w :
  may_send c conn (tool_asks fmt_g (RunVacuum t analyze)) w (run_tool c conn (RunVacuum t analyze) w).1.
Proof.
  unfold run_tool, tool_asks, runVacuumImpl. cbn [Table rv_ConnectionString Analyze tool_name].
  destruct (negb _); [apply sends_refl|]. apply run_one_sends. right. unfold vacuum_query.
  destruct (default true analyze); by apply no_dml_first.
Qed.

Lemma reset_setting_sends c conn setting w :
  may_send c conn (tool_asks fmt_g (ResetPgSetting setting)) w (run_tool c conn (ResetPgSetting setting) w).1.
Proof.
  unfold run_tool, tool_asks, resetPgSettingImpl. cbv zeta. cbn [tool_name]. destruct (negb _); [apply sends_refl|].
  set (q := ("ALTER SYSTEM RESET " ++ setting ++ ";")%string). set (plan := ("Reset " ++ _)%string).
  pose proof (checked (runPsqlAs_sends (S := S)) c conn q "reset_pg_setting" ActionWrite plan w
    (or_intror (no_dml_first "A" _ eq_refl eq_refl eq_refl))) as H1.
  destruct (runPsqlAs _ _ _ _ _ _ _ _ _ _ _ _ _ c conn q _ _ _ w) as [w1 [out1|e]];
    (eapply sends_trans; [eapply sends_weaken; [|exact H1]; by intros a [<-|[]]; left|]); [|apply sends_refl].
  pose proof (checked (runPsqlAs_sends (S := S)) c conn "SELECT pg_reload_conf();" "reset_pg_setting" ActionWrite plan w1
    (or_intror eq_refl)) as H2.
  destruct (runPsqlAs _ _ _ _ _ _ _ _ _ _ _ _ _ c conn _ _ _ _ w1) as [w2 [out2|e]];
    (eapply sends_weaken; [|exact H2]; by intros a [<-|[]]; right; left).
Qed.

Lemma slot_sends c conn slot w :
  may_send c conn (tool_asks fmt_g (DropReplicationSlot slot)) w (run_tool c conn (DropReplicationSlot slot) w).1.
Proof.
  unfold run_tool, tool_asks, dropReplicationSlotImpl. cbn [tool_name]. destruct (negb _); [apply sends_refl|].
  apply run_one_sends. right. by apply no_dml_first.
Qed.

Lemma cache_sends c conn w : may_send c conn (tool_asks fmt_g ResetCacheStats) w (run_tool c conn ResetCacheStats w).1.
Proof.
  unfold run_tool, tool_asks, resetCacheStatsImpl. cbv zeta. cbn [tool_name].
  match goal with |- context [runPsqlAs _ _ _ _ _ _ _ _ _ _ _ _ _ c conn ?q ?t ?a ?p w] =>
    pose proof (checked (runPsqlAs_sends (S := S)) c conn q t a p w (or_intror eq_refl)) as H end.
  by destruct (runPsqlAs _ _ _ _ _ _ _ _ _ _ _ _ _ _ _ _ _ _ _ _) as [w1 [output|e]].
Qed.

Lemma signal_sends c conn sg pid w : In sg [cancel_signal; terminate_signal] ->
  may_send c conn (signal_asks sg pid) w (checked signalImpl sg c conn pid w).1.
Proof.
  intros Hin.
  assert (Hc : no_dml (sg_query sg pid) = true /\ (0 < sg_attempts sg)%Z /\ sg_status sg <> "ok")
    by (destruct Hin as [<-|[<-|[]]]; (split_and!; [by apply no_dml_first|reflexivity|discriminate])).
  destruct Hc as (Hq & Hn & Hok).
  pose proof (checked (signalImpl_reached (S := S)) sg c conn pid w Hq Hn Hok) as H.
  destruct (signalImpl _ _ _ _ _ _ _ _ _ _ _ _ _ _ _ _ _ _) as [w' r]. by destruct H as [[H _] _].
Qed.

Lemma session_info_sends c conn pid w :
  may_send c conn (tool_asks fmt_g (GetSessionInfo pid)) w (run_tool c conn (GetSessionInfo pid) w).1.
Proof.
  unfold run_tool, getSessionInfoImpl. pose proof (checked (inspect_sends (S := S)) c conn pid w) as H.
  by destruct (inspectConnection _ _ _ _ _ _ _ _ _ _ _ _ _ _ _ _ _) as [w1 [plan|e]].
Qed.

Lemma run_tool_sends c conn d w : may_send c conn (tool_asks fmt_g d) w (run_tool c conn d w).1.
Proof.
  destruct d; first
    [ exact (reading_asked _ _ _ c conn w) | exact (status_summary_asked c conn w) | exact (slow_queries_asked _ c conn w)
    | exact (disk_usage_asked _ c conn w) | exact (bgwriter_asked c conn w) | exact (explain_asked _ _ c conn w)
    | exact (pg_log_asked _ _ c conn w) | exact (baseline_asked c conn w) | apply session_info_sends
    | apply idle_sends | apply vacuum_sends | apply slot_sends | apply reset_setting_sends | apply cache_sends
    | apply sends_refl | apply run_one_sends; by right | apply signal_sends; simpl; tauto ].
Qed.

(** Every statement is checked as a read or, under the tool's own name, in the class of
    the tool. *)
Lemma tool_asks_class d a : In a (tool_asks fmt_g d) ->
  ask_action a = ActionRead \/ ask_tool a = tool_name d /\ ask_action a = ClassifyTool (tool_name d).
Proof.
  destruct d; simpl; try destruct dry; simpl; intuition (subst; auto).
Qed.

(** C16 (safety).  A call of any tool of the database agent's registry sends to psql only
    statements of that tool, each on a server of the inventory or one registered at run
    time, with that server's own connection string, and each with the policy's leave;
    the policy is asked for a read or, under the tool's name, for the class that the
    classification gives the tool. *)
Theorem tool_commands_permitted config servers ephemeral c conn d w :
  inventory ag = {| iv_config := Some (config, servers); iv_ephemeral := ephemeral |} ->
  (forall id db, In (id, db) servers -> DBServers config !! id = Some db) ->
  exists new, w_commands (run_tool c conn d w).1 = (w_commands w ++ new)%list /\
    Forall (fun cmd => exists a info, In a (tool_asks fmt_g d) /\ cmd_query cmd = ask_query a /\
      registered getenv config ephemeral info /\ cmd_conn cmd = ConnectionStr info /\
      (ask_action a = ActionRead \/ ask_tool a = tool_name d /\ ask_action a = ClassifyTool (tool_name d)) /\
      policy_lets operatingMode LoadLocation marshal_trace now clock remote ag c info (ask_tool a) (ask_action a)) new.
Proof.
  intros Hi Hs. destruct (run_tool_sends c conn d w) as (new & E & H). exists new. split; [done|].
  eapply List.Forall_impl; [|exact H]. intros cmd (a & info & Ha & Hr & Hc & Hq & Hp).
  exists a, info. split_and!; try done; [|by apply tool_asks_class].
  rewrite Hi in Hr. by eapply resolved_is_registered.
Qed.
End Registry.

(** ** Lines of a log *)

Lemma split_on_join_lines (content : string) (l : list string) : l <> [] -> (forall x, In x l -> In x (split_on newline content)) ->
  split_on newline (join nl l) = l.
Proof.
  induction l as [|x l IH]; [done|]. intros _ H. assert (Hx : split_on newline x = [x]) by (eapply split_on_line, H; by left).
  destruct l as [|y l]; [done|].
  change (join nl (x :: y :: l)) with (x ++ String newline (join nl (y :: l)))%string.
  rewrite split_on_app, Hx, IH; [done|done|]. intros z Hz. apply H. by right.
Qed.

Lemma matching_lines_in filter content x : In x (matching_lines filter content) ->
  In x (split_on newline content) /\ str_contains (to_lower x) (to_lower (trim_space filter)) = true.
Proof.
  unfold matching_lines. cbv zeta. destruct (given _) eqn:E.
  - intros H. by apply filter_In in H.
  - intros H. split; [done|]. unfold given in E. apply negb_false_iff, streq_spec in E. rewrite E. by destruct (to_lower x).
Qed.

Lemma line_limit_bounds lines : (1 <= line_limit lines <= 500)%Z.
Proof.
  unfold line_limit, pgLogDefaultLines, pgLogMaxLines. cbv zeta. destruct (Z.leb_spec lines 0); [simpl; lia|].
  destruct (Z.ltb_spec 500 lines); lia.
Qed.

Lemma last_lines_suffix n l : exists earlier, l = (earlier ++ last_lines n l)%list.
Proof. exists (firstn (length l - Z.to_nat n) l). symmetry. apply firstn_skipn. Qed.

(**  What the log tools show of a text: the message for an empty one,
    the message for no match, or the last of the lines that match the filter, at most as
    many as asked for and never more than 500, and the lines read back from the answer
    are those lines. *)
Theorem log_lines_shown title empty no_match lines filter raw :
  let shown := show_log title empty no_match lines filter raw in
  shown = empty \/ shown = no_match \/
  exists l header, shown = (header ++ nl ++ join nl l)%string /\ split_on newline (join nl l) = l /\
    (1 <= Z.of_nat (length l) <= line_limit lines)%Z /\ (line_limit lines <= 500)%Z /\
    (exists earlier, matching_lines filter (trim_right_newlines raw) = (earlier ++ l)%list) /\
    Forall (fun x => str_contains (to_lower x) (to_lower (trim_space filter)) = true) l.
Proof.
  intros shown. subst shown. unfold show_log. cbv zeta. destruct (_ =?s ""); [by left|]. right.
  set (content := trim_right_newlines raw). set (m := matching_lines filter content).
  destruct (last_lines (line_limit lines) m) as [|x l] eqn:E; [by left|]. right. exists (x :: l).
  destruct (last_lines_suffix (line_limit lines) m) as [earlier He]. rewrite E in He.
  assert (Hin : forall y, In y (x :: l) -> In y m) by (intros y Hy; rewrite He; apply in_or_app; by right).
  eexists. split; [rewrite <- !app_assoc_s; reflexivity|]. pose proof (line_limit_bounds lines) as Hb.
  assert (Hlen : (Z.of_nat (length (x :: l)) <= line_limit lines)%Z).
  { rewrite <- E. unfold last_lines. rewrite length_skipn. lia. }
  split; [|split; [simpl in *; lia|split; [lia|split]]].
  - apply (split_on_join_lines content); [done|]. intros y Hy. by apply Hin, matching_lines_in in Hy as [Hy _].
  - by exists earlier.
  - apply List.Forall_forall. intros y Hy. by apply Hin, matching_lines_in in Hy as [_ Hy].
Qed.

(** ** Concrete runs *)

Module QueriesToy.

Definition results (_ : string) : Fetched (Z * list Snapshot) := Unreachable "".

Definition run (ag : DbAgent) (answer : string * option string) (d : DbCall) : DbWorld (S := Served) * PsqlResult :=
  run_tool "fix" no_zones (fun _ => "") Hours sample_clock (fun _ => None) (fun _ => "") ag (fun _ _ => answer)
    (fun _ => None) (fun _ => 0%Z) (fun _ => "e") (fun _ => None) (fun _ => "0") "" (fun _ => Unreachable "") results
    DbToy.ctx "orders" d DbToy.start.

Definition sent (r : DbWorld (S := Served) * PsqlResult) : list string := map cmd_query (w_commands r.1).

(** The statement stands in the query outside its literals. *)
Definition stands_in (stmt q : string) : bool :=
  existsb (fun n => has_prefix (String.substring n (String.length stmt) q) stmt &&
                    negb (quote_state false (String.substring 0 n q))) (seq 0 (String.length q)).

Definition drop : string := "DROP TABLE t;".

(** A table or a parameter name that closes the literal adds a statement to the query,
    which is checked as a read; the category of get_pg_settings stays a literal. *)
Example names_add_statements :
  let value := "'; " ++ drop ++ " --" in
  forallb (stands_in drop) (sent (run DbToy.agent ("", None) (GetTableStats "" value))) = true /\
  forallb (stands_in drop) (sent (run DbToy.agent ("", None) (GetConfigParameter value))) = true /\
  existsb (stands_in drop) (sent (run DbToy.agent ("", None) (GetPgSettings value false))) = false /\
  map length [sent (run DbToy.agent ("", None) (GetTableStats "" value));
              sent (run DbToy.agent ("", None) (GetConfigParameter value))] = [1; 1] /\
  ClassifyTool "get_table_stats" = ActionRead.
Proof. vm_compute. repeat split. Qed.

(** Only the first word of a query is looked at: what follows a semicolon runs, what a
    WITH deletes is deleted, and a COMMIT ends the transaction that was to be rolled back. *)
Example explain_runs_more :
  sent (run DbToy.agent ("", None) (ExplainQuery "SELECT 1; DROP TABLE t" false)) =
    ["EXPLAIN (ANALYZE, BUFFERS, FORMAT TEXT) SELECT 1; DROP TABLE t"] /\
  sent (run DbToy.agent ("", None) (ExplainQuery "WITH x AS (DELETE FROM t RETURNING 1) SELECT 1" false)) =
    ["EXPLAIN (ANALYZE, BUFFERS, FORMAT TEXT) WITH x AS (DELETE FROM t RETURNING 1) SELECT 1"] /\
  sent (run DbToy.agent ("", None) (ExplainQuery "DELETE FROM t; COMMIT" true)) =
    ["BEGIN; EXPLAIN (ANALYZE, BUFFERS, FORMAT TEXT) DELETE FROM t; COMMIT; ROLLBACK;"] /\
  sent (run DbToy.agent ("", None) (ExplainQuery "DELETE FROM t" false)) = [].
Proof. vm_compute. repeat split. Qed.

(** The same agent without a rule for reads. *)
Definition denied : DbAgent :=
  {| policyEnforcer := Some sample_enforcer; toolAuditor := None; traceID := "tr_9"; inventory := inventory DbToy.agent |}.

(** The refusal of the policy is the text of most tools, but not of the status summary. *)
Example denial_not_shown :
  sent (run denied ("", None) GetStatusSummary) = [] /\
  Output (run denied ("", None) GetStatusSummary).2 = status_error /\
  str_contains (Output (run denied ("", None) GetDatabaseStats).2) "policy denied" = true.
Proof. vm_compute. repeat split. Qed.

(** One tool of the registry is not in the classification. *)
Example bgwriter_unclassified :
  ClassifyTool (tool_name GetBgwriterStats) = ActionUnknown /\
  length (sent (run DbToy.agent ("v | 170002", None) GetBgwriterStats)) = 2.
Proof. vm_compute. split; reflexivity. Qed.

Example log_tail :
  Output (run DbToy.agent ("a ERROR" ++ nl ++ "b" ++ nl ++ "c error" ++ nl, None) (ReadPgLog 1 "Error")).2 =
    "=== PostgreSQL Log (last 1 lines, filter=" ++ dquote ++ "Error" ++ dquote ++ ") ===" ++ nl ++ "c error".
Proof. vm_compute. reflexivity. Qed.
End QueriesToy.

Lemma tool_commands_permitted_witness :
  exists new, w_commands (QueriesToy.run DbToy.agent ("v | 170002", None) GetBgwriterStats).1 = ([] ++ new)%list /\ length new = 2.
Proof.
  edestruct (tool_commands_permitted "fix" no_zones (fun _ => "") Hours sample_clock (fun _ => None) (fun _ => "") DbToy.agent
    (fun _ _ => ("v | 170002", None)) (fun _ => None) (fun _ => 0%Z) (fun _ => "e") (fun _ => None) (fun _ => "0") ""
    (fun _ => Unreachable "") QueriesToy.results {| DBServers := {[ "orders" := DbToy.orders ]}; K8sClusters := ∅; VMs := ∅ |}
    [("orders", DbToy.orders)] [] DbToy.ctx "orders" GetBgwriterStats DbToy.start)
    as (new & E & _); [reflexivity|intros id db [[= <- <-]|[]]; vm_compute; reflexivity|].
  exists new. split; [exact E|]. pose proof (f_equal (@length Command) E) as Hl. rewrite length_app in Hl.
  revert Hl. vm_compute. congruence.
Defined.
