(* ===== verification/K8sTools.v ===== *)
(** * agents/k8s/tools.go: the Kubernetes agent

    Namespaces and contexts resolved against the inventory, the policy checks before and
    after, kubectl with its record, the tools that delete, restart and scale with their
    repeated checks (agentutil/retryutil, in DatabaseTools), the read tools, and the
    registry of direct tools.

    kubectl and the Kubernetes API (k8sclient.go turns its objects into JSON) are
    parameters that see the commands and reads made before; so are the context's error,
    the duration of the last command and the JSON of the replica count.  A Go map that is
    ranged over is a list in the order of the run.  Log lines are left out. *)

From S2P Require Import Prelude GoTime GoFormat Events PolicyTypes PolicyEngine PolicyExplain Identity Action Rollback.
From S2P Require Import ApprovalStore ApprovalHandlers ApprovalClient Enforcer PlaybookText PlaybookStore PlaybookPrompt.
From S2P Require Import GovernanceCheck Infra ToolAudit DatabaseTools.
From S2P Require Gateway.

Open Scope string_scope.

(** ** Targets *)

Record namespaceInfo := { ni_Namespace : string; ni_Tags : list string }.

(** The inventory, with its servers and clusters in the order of the run. *)
Record K8sInventory := {
  ki_config : InfraConfig;
  ki_servers : Servers;
  ki_clusters : list (string * K8sCluster) }.

Definition resolveContext (iv : option K8sInventory) (contextOrDBName : string) : string :=
  let s := trim_space contextOrDBName in
  match iv with
  | None => s
  | Some k =>
      match DBServers (ki_config k) !! s with
      | Some db =>
          if given (db_K8sCluster db) then
            match K8sClusters (ki_config k) !! db_K8sCluster db with Some cluster => k8s_Context cluster | None => s end
          else s
      | None => s
      end
  end.

(** The name of a registered database, then a namespace of one. *)
Definition database_namespace (k : K8sInventory) (s : string) : option namespaceInfo :=
  match (match DBServers (ki_config k) !! s with
         | Some db => if given (K8sNamespace db) then Some {| ni_Namespace := K8sNamespace db; ni_Tags := db_Tags db |} else None
         | None => None
         end) with
  | Some info => Some info
  | None =>
      option_map (fun kv => {| ni_Namespace := s; ni_Tags := db_Tags kv.2 |})
        (find (fun kv => K8sNamespace kv.2 =?s s) (ki_servers k))
  end.

(** The only cluster when no context is named, or the cluster of the context. *)
Definition namespace_cluster (k : K8sInventory) (resolvedCtx : string) : option K8sCluster :=
  match (if (resolvedCtx =?s "") && (length (ki_clusters k) =? 1)%nat then head (ki_clusters k) else None) with
  | Some kv => Some kv.2
  | None => option_map snd (find (fun kv => k8s_Context kv.2 =?s resolvedCtx) (ki_clusters k))
  end.

Definition resolveNamespaceInfo (iv : option K8sInventory) (namespaceOrDBName contextOrDBName : string)
    : result string namespaceInfo :=
  let s := trim_space namespaceOrDBName in
  if s =?s "" then Ok {| ni_Namespace := s; ni_Tags := [] |}
  else
    match iv with
    | None => Ok {| ni_Namespace := s; ni_Tags := [] |}
    | Some k =>
        match database_namespace k s with
        | Some info => Ok info
        | None =>
            match namespace_cluster k (resolveContext iv contextOrDBName) with
            | Some cluster => Ok {| ni_Namespace := s; ni_Tags := k8s_Tags cluster |}
            | None =>
                Err ("namespace or database " ++ quote s ++ " not registered in infrastructure config; " ++
                     "contact your IT administrator to add it. Known databases: " ++
                     join ", " (isort String.ltb (map fst (ki_servers k))))
            end
        end
    end.

(** ** Texts *)

Definition diagnoseKubectlError (output : string) : string :=
  let out := to_lower output in
  let says := str_contains out in
  if says "does not exist" && says "context" then
    "The specified Kubernetes context does not exist in the local kubeconfig. " ++
    "Run 'kubectl config get-contexts' to list available contexts, " ++
    "or check that the correct kubeconfig file is being used."
  else if says "connection refused" then
    "Connection refused by the Kubernetes API server. " ++
    "The cluster may be down, the API server address may be wrong, " ++ "or a VPN/tunnel may need to be active."
  else if says "unable to connect to the server" then
    "Cannot reach the Kubernetes API server. " ++
    "Check network connectivity, verify the cluster is running, " ++ "and confirm the server address in kubeconfig is correct."
  else if any_in out ["unauthorized"; "you must be logged in"] then
    "Authentication to the cluster failed. " ++
    "Credentials may have expired. Try re-authenticating (e.g., 'gcloud container clusters get-credentials' for GKE)."
  else if says "forbidden" then
    "Permission denied. The current user/service account does not have " ++ "the required RBAC permissions for this operation."
  else if says "not found" && says "namespace" then
    "The specified namespace does not exist in this cluster. " ++ "Run 'kubectl get namespaces' to list available namespaces."
  else if says "not found" && says "error from server" then
    "The requested resource was not found in the cluster. " ++
    "Verify the resource name, namespace, and that it has been created."
  else if any_in out ["executable file not found"; "command not found"] then
    "kubectl is not installed or not in the system PATH. " ++ "Install kubectl and ensure it is accessible."
  else if any_in out ["invalid configuration"; "no configuration"] then
    "The kubeconfig file is invalid or missing. " ++
    "Check that ~/.kube/config exists and is correctly formatted, " ++ "or set KUBECONFIG to point to the right file."
  else if any_in out ["i/o timeout"; "deadline exceeded"] then
    "Request to the Kubernetes API server timed out. " ++
    "The cluster may be under heavy load, or there may be network issues."
  else if says "certificate" && any_in out ["expired"; "invalid"; "unknown authority"] then
    "TLS certificate error communicating with the cluster. " ++
    "The cluster certificate may have expired or the CA is not trusted. " ++
    "Re-fetch cluster credentials or update the kubeconfig."
  else "".

Definition affected_line (line : string) : bool :=
  existsb (has_suffix (trim_space line)) [" deleted"; " configured"; " created"; " restarted"; " scaled"].

Definition parsePodsAffected (output : string) : Z :=
  Z.of_nat (length (List.filter affected_line (split_on newline output))).

Record KubectlResult := { k_Output : string; k_VerifyStatus : string; k_RetryCount : Z }.

Definition shown (out : string) : KubectlResult := {| k_Output := out; k_VerifyStatus := ""; k_RetryCount := 0 |}.

(** ** kubectl and the API *)

Record Kubectl := { kc_context : string; kc_args : list string }.

Definition full_args (k : Kubectl) : list string :=
  (("--request-timeout=10s" :: (if given (kc_context k) then ["--context"; kc_context k] else [])) ++ kc_args k)%list.

Definition raw_command (k : Kubectl) : string :=
  (if given (kc_context k) then "kubectl --context " ++ kc_context k ++ " " else "kubectl ") ++ join " " (kc_args k).

(** A read through the API; [ExecInPod] runs a command in a container. *)
Inductive ApiRead :=
  | ListPods (namespace labels : string)
  | ListServices (namespace name type : string)
  | ListEndpoints (namespace name : string)
  | ListEvents (namespace name type : string)
  | ListNodes (labels : bool)
  | ListPodResources (namespace name : string)
  | ListNodeStatus (name : string)
  | GetService (namespace name : string)
  | GetServiceEndpoints (namespace name : string)
  | GetPod (namespace name : string)
  | GetLogs (namespace name container : string) (tail : Z) (previous : bool)
  | ExecInPod (namespace name container : string) (command : list string).

(** What the summaries of a service and of a pod show. *)
Record PortView := { po_Name : string; po_Port : Z; po_Protocol : string; po_Target : string; po_NodePort : Z }.

Record ServiceView := {
  sv_Name : string;
  sv_Namespace : string;
  sv_Type : string;
  sv_ClusterIP : string;
  sv_Labels : list (string * string);
  sv_Selector : list (string * string);
  sv_Ports : list PortView;
  sv_SessionAffinity : string;
  sv_ExternalTrafficPolicy : string;
  sv_Ingress : list (string * string) }.          (* IP and hostname *)

Record SubsetView := { su_Addresses : list string; su_NotReady : list string; su_Ports : list Z }.

Record ContainerView := { co_Name : string; co_Ready : bool; co_Restarts : Z; co_Terminated : option (string * Z) }.

Record PodView := {
  pv_Name : string;
  pv_Namespace : string;
  pv_Node : string;
  pv_Phase : string;
  pv_Conditions : list (string * string);
  pv_Containers : list ContainerView;
  pv_Annotations : list (string * string);
  pv_Labels : list (string * string) }.

Definition pairs_text (prefix : string) (l : list (string * string)) : string :=
  String.concat "" (map (fun kv => prefix ++ kv.1 ++ "=" ++ kv.2 ++ nl) l).

Definition bool_text (b : bool) : string := if b then "true" else "false".

Definition pod_text (p : PodView) : string :=
  "Name:       " ++ pv_Name p ++ nl ++ "Namespace:  " ++ pv_Namespace p ++ nl ++ "Node:       " ++ pv_Node p ++ nl ++
  "Status:     " ++ pv_Phase p ++ nl ++ pairs_text "Condition:  " (pv_Conditions p) ++
  String.concat "" (map (fun c =>
    "Container " ++ co_Name c ++ ": ready=" ++ bool_text (co_Ready c) ++ " restarts=" ++ itoa (co_Restarts c) ++ nl ++
    match co_Terminated c with
    | Some (reason, code) => "  LastTerminated: reason=" ++ reason ++ " exitCode=" ++ itoa code ++ nl
    | None => ""
    end) (pv_Containers p)) ++
  pairs_text "Annotation: " (pv_Annotations p) ++ pairs_text "Label: " (pv_Labels p).

Definition port_text (p : PortView) : string :=
  "Port:       " ++ po_Name p ++ " " ++ itoa (po_Port p) ++ "/" ++ po_Protocol p ++ " -> " ++ po_Target p ++
  (if (po_NodePort p =? 0)%Z then "" else " (NodePort: " ++ itoa (po_NodePort p) ++ ")") ++ nl.

Definition ingress_text (i : string * string) : string :=
  if given i.1 then "LoadBalancerIngress: " ++ i.1 ++ nl
  else if given i.2 then "LoadBalancerIngress: " ++ i.2 ++ nl else "".

Definition addresses (sel : SubsetView -> list string) (l : list SubsetView) : list string :=
  flat_map (fun s => flat_map (fun ip => map (fun port => ip ++ ":" ++ itoa port) (su_Ports s)) (sel s)) l.

Definition endpoints_text (l : list SubsetView) : string :=
  "Endpoints:  " ++ match addresses su_Addresses l with [] => "<none>" | ready => join "," ready end ++ nl ++
  match addresses su_NotReady l with [] => "" | notReady => "NotReadyEndpoints: " ++ join "," notReady ++ nl end.

Definition service_text (s : ServiceView) (endpoints : result string (list SubsetView)) : string :=
  "Name:       " ++ sv_Name s ++ nl ++ "Namespace:  " ++ sv_Namespace s ++ nl ++ "Type:       " ++ sv_Type s ++ nl ++
  "ClusterIP:  " ++ sv_ClusterIP s ++ nl ++ pairs_text "Label: " (sv_Labels s) ++
  "Selector:   " ++ match sv_Selector s with [] => "<none>" | l => join "," (map (fun kv => kv.1 ++ "=" ++ kv.2) l) end ++ nl ++
  String.concat "" (map port_text (sv_Ports s)) ++ "SessionAffinity: " ++ sv_SessionAffinity s ++ nl ++
  (if mem (sv_Type s) ["NodePort"; "LoadBalancer"] then "ExternalTrafficPolicy: " ++ sv_ExternalTrafficPolicy s ++ nl else "") ++
  String.concat "" (map ingress_text (sv_Ingress s)) ++
  match endpoints with Ok l => endpoints_text l | Err _ => "" end.

Record K8sAgent := {
  k_policyEnforcer : option PolicyEnforcer;
  k_toolAuditor : option ToolAuditor;
  k_infra : option K8sInventory;
  k_traceID : string }.

Section Kubernetes.
Context {S : Type} `{!ApprovalAPI S}.
Context (operatingMode : string) (LoadLocation : string -> option (Time -> Z)).
Context (marshal_trace : DecisionTrace -> string) (now : Time) (clock : Clock).
Context (remote : policyCheckReq -> option (Z * option policyCheckResp)).
Context (ag : K8sAgent).
(** kubectl after the commands before it; the error of the context; the duration of the
    last command; the id of the next event. *)
Context (kubectl : list Kubectl -> Kubectl -> string * option string).
Context (ctx_err : list Kubectl -> option string) (elapsed : list Kubectl -> Z) (uuid8 : list Event -> string).
(** The client for a context, and what the API answers: JSON with its number of items,
    or the objects and texts of the other reads. *)
Context (clientset : string -> option string).
Context (api_json : string -> ApiRead -> result string (string * Z)).
Context (api_service : string -> ApiRead -> result string ServiceView).
Context (api_endpoints : string -> ApiRead -> result string (list SubsetView)).
Context (api_pod : string -> ApiRead -> result string PodView).
Context (api_logs : string -> ApiRead -> result string (result string string)).
Context (api_exec : string -> ApiRead -> result string (string * option string)).
Context (marshal_scale : ScalePreState -> string).

Record KWorld := {
  kw_api : S;
  kw_recorded : list Recorded;
  kw_events : list Event;
  kw_kubectl : list Kubectl;
  kw_reads : list (string * ApiRead) }.

Definition k_policy (l : list Recorded) (s : S) (w : KWorld) : KWorld :=
  {| kw_api := s; kw_recorded := (kw_recorded w ++ l)%list; kw_events := kw_events w; kw_kubectl := kw_kubectl w;
     kw_reads := kw_reads w |}.
Definition k_emit (f : ToolAuditor -> string -> list Event) (w : KWorld) : KWorld :=
  match k_toolAuditor ag with
  | Some ta =>
      {| kw_api := kw_api w; kw_recorded := kw_recorded w; kw_events := (kw_events w ++ f ta (uuid8 (kw_events w)))%list;
         kw_kubectl := kw_kubectl w; kw_reads := kw_reads w |}
  | None => w
  end.
Definition k_run (k : Kubectl) (w : KWorld) : KWorld :=
  {| kw_api := kw_api w; kw_recorded := kw_recorded w; kw_events := kw_events w; kw_kubectl := (kw_kubectl w ++ [k])%list;
     kw_reads := kw_reads w |}.
Definition k_read (kctx : string) (r : ApiRead) (w : KWorld) : KWorld :=
  {| kw_api := kw_api w; kw_recorded := kw_recorded w; kw_events := kw_events w; kw_kubectl := kw_kubectl w;
     kw_reads := (kw_reads w ++ [(kctx, r)])%list |}.

(** The context keeps the tool's name it has; no sensitivity is passed. *)
Definition checkK8sPolicy (c : Ctx) (namespace action : string) (tags : list string) (w : KWorld) : KWorld * option CheckError :=
  match k_policyEnforcer ag with
  | None => (w, None)
  | Some en =>
      let '(recorded, (s, err)) :=
        CheckTool operatingMode LoadLocation marshal_trace now clock remote en (kw_api w) c "kubernetes" namespace action
          tags "" [] in
      (k_policy recorded s w, err)
  end.

Definition checkK8sBlastRadiusPreExec (c : Ctx) (namespace action : string) (tags : list string) (pods : Z) (w : KWorld)
    : KWorld * option CheckError :=
  match k_policyEnforcer ag with
  | None => (w, None)
  | Some en =>
      let '(recorded, err) :=
        CheckResult LoadLocation marshal_trace clock remote en c "kubernetes" namespace action tags
          {| to_RowsAffected := 0; to_PodsAffected := pods; to_Err := None |} in
      (k_policy recorded (kw_api w) w, err)
  end.

(** Called after a command that succeeded. *)
Definition checkK8sPolicyResult (c : Ctx) (namespace action : string) (tags : list string) (output : string)
    : KWorld -> KWorld * option CheckError :=
  checkK8sBlastRadiusPreExec c namespace action tags (parsePodsAffected output).

Definition kubectl_error (output err : string) (w : KWorld) : string :=
  let out := or_default "(no output from kubectl)" (trim_space output) in
  match ctx_err (kw_kubectl w) with
  | Some e => "kubectl timed out or was cancelled: " ++ e ++ nl ++ "Output: " ++ out
  | None =>
      let diagnosis := diagnoseKubectlError out in
      if given diagnosis then diagnosis ++ nl ++ nl ++ "Raw error: " ++ out
      else "kubectl failed: " ++ err ++ nl ++ "Output: " ++ out
  end.

Definition runKubectl (k : Kubectl) (w : KWorld) : KWorld * result string string :=
  let w1 := k_run k w in
  match kubectl (kw_kubectl w) k with
  | (output, Some err) => (w1, Err (kubectl_error output err w1))
  | (output, None) => (w1, Ok output)
  end.

Definition record_kubectl (c : Ctx) (k : Kubectl) (toolName preState : string) (r : result string string) (w : KWorld) : KWorld :=
  let '(output, err) := match r with Ok output => (output, "") | Err e => ("", e) end in
  k_emit (fun ta id =>
    RecordToolCall ta now id (k_traceID ag) c
      {| c_Name := toolName;
         c_Parameters := [("args", AList (map AStr (kc_args k))); ("context", AStr (kc_context k))];
         c_RawCommand := raw_command k; c_PreState := preState |}
      {| r_Output := DatabaseTools.truncateForAudit output 500; r_Error := err |} (elapsed (kw_kubectl w))) w.

Definition runKubectlAndRecord (c : Ctx) (k : Kubectl) (toolName preState : string) (w : KWorld)
    : KWorld * result string string :=
  let '(w1, r) := runKubectl k w in
  (if given toolName then record_kubectl c k toolName preState r w1 else w1, r).

Definition runKubectlWithToolName (c : Ctx) (k : Kubectl) (toolName : string) : KWorld -> KWorld * result string string :=
  runKubectlAndRecord c k toolName "".

(** ** Changes and their checks *)

(** The three tools that change something end in the same steps, with these parts. *)
Record Mutation := {
  mu_tool : string;
  mu_command : Kubectl;
  mu_check : KWorld -> KWorld * result string bool;
  mu_status : string;
  mu_unresolved : Z -> string -> string }.

Definition k_after_attempt (tool : string) (attempt : Z) (r : bool) : KWorld -> KWorld :=
  k_emit (fun ta id => RecordToolRetry ta now id (k_traceID ag) tool attempt r).

Definition verifyRetryAttempts : Z := 3.

Definition verify_mutation (m : Mutation) (w : KWorld) : KWorld * (bool * Z) :=
  let '(w1, (resolved, attempts, _)) :=
    WaitUntilResolved (fun w => ctx_err (kw_kubectl w)) (fun w => ctx_err (kw_kubectl w)) (mu_check m)
      (k_after_attempt (mu_tool m)) verifyRetryAttempts w in
  (w1, (resolved, attempts)).

(** After the command succeeded: the policy on what it touched, then the checks. *)
Definition confirm (c : Ctx) (info : namespaceInfo) (m : Mutation) (output : string) (w : KWorld)
    : KWorld * result string KubectlResult :=
  match checkK8sPolicyResult c (ni_Namespace info) ActionDestructive (ni_Tags info) output w with
  | (w1, Some e) => (w1, Err ("policy denied after execution: " ++ CheckError_text e))
  | (w1, None) =>
      let '(w2, (resolved, attempts)) := verify_mutation m w1 in
      let retries := Z.max 0 (attempts - 1) in
      if resolved then (w2, Ok {| k_Output := output; k_VerifyStatus := "ok"; k_RetryCount := retries |})
      else
        (k_emit (fun ta id => RecordToolVerification ta now id (k_traceID ag) (mu_tool m) (mu_status m)) w2,
         Ok {| k_Output := mu_unresolved m attempts output; k_VerifyStatus := mu_status m; k_RetryCount := retries |})
  end.

Definition mutate (c : Ctx) (info : namespaceInfo) (preState : string) (m : Mutation) (w : KWorld)
    : KWorld * result string KubectlResult :=
  match runKubectlAndRecord c (mu_command m) (mu_tool m) preState w with
  | (w1, Err e) => (w1, Ok (shown ("ERROR: " ++ e)))
  | (w1, Ok output) => confirm c info m output w1
  end.

(** The namespace, then the policy in the class of the tool. *)
Definition admitted {A} (c : Ctx) (namespace kctx action : string) (body : namespaceInfo -> string -> KWorld -> KWorld * result string A)
    (w : KWorld) : KWorld * result string A :=
  match resolveNamespaceInfo (k_infra ag) namespace kctx with
  | Err e => (w, Err ("access denied: " ++ e))
  | Ok info =>
      match checkK8sPolicy c (ni_Namespace info) action (ni_Tags info) w with
      | (w1, Some e) => (w1, Err ("policy denied: " ++ CheckError_text e))
      | (w1, None) => body info (resolveContext (k_infra ag) kctx) w1
      end
  end.

Definition delete_args (pod namespace : string) (grace : Z) : list string :=
  (["delete"; "pod"; pod; "-n"; namespace] ++ (if (0 <? grace)%Z then ["--grace-period"; itoa grace] else []))%list.

(** Any error of the look-up counts as gone. *)
Definition pod_gone (kctx pod namespace : string) (w : KWorld) : KWorld * result string bool :=
  match runKubectl {| kc_context := kctx; kc_args := ["get"; "pod"; pod; "-n"; namespace] |} w with
  | (w1, Err _) => (w1, Ok true)
  | (w1, Ok _) => (w1, Ok false)
  end.

Definition delete_mutation (kctx pod namespace : string) (grace : Z) : Mutation := {|
  mu_tool := "delete_pod";
  mu_command := {| kc_context := kctx; kc_args := delete_args pod namespace grace |};
  mu_check := pod_gone kctx pod namespace;
  mu_status := "warning";
  mu_unresolved := fun attempts output =>
    "VERIFICATION WARNING: pod " ++ quote pod ++ " still appears in namespace " ++ quote namespace ++ " after " ++
    itoa attempts ++ " check(s)." ++ nl ++ "It may be stuck in Terminating due to a finalizer. To force-remove:" ++ nl ++
    "  kubectl delete pod " ++ pod ++ " -n " ++ namespace ++ " --force --grace-period=0" ++ nl ++
    "  kubectl patch pod " ++ pod ++ " -n " ++ namespace ++ " -p '{" ++ Gateway.in_quotes "metadata" ++ ":{" ++
    Gateway.in_quotes "finalizers" ++ ":[]}}' --type=merge" ++ nl ++ nl ++ "--- Delete result ---" ++ nl ++ output |}.

Definition deletePodImpl (c : Ctx) (kctx namespace pod : string) (grace : Z) : KWorld -> KWorld * result string KubectlResult :=
  admitted c namespace kctx ActionDestructive (fun info kctx w =>
    mutate c info "" (delete_mutation kctx pod (ni_Namespace info) grace) w).

Definition annotations_args (deployment namespace : string) : list string :=
  ["get"; "deployment"; deployment; "-n"; namespace; "-o"; "jsonpath={.spec.template.metadata.annotations}"].

Definition restart_seen (kctx deployment namespace : string) (w : KWorld) : KWorld * result string bool :=
  match runKubectl {| kc_context := kctx; kc_args := annotations_args deployment namespace |} w with
  | (w1, Err _) => (w1, Ok false)
  | (w1, Ok out) => (w1, Ok (str_contains out "restartedAt"))
  end.

Definition restart_mutation (kctx deployment namespace : string) : Mutation := {|
  mu_tool := "restart_deployment";
  mu_command := {| kc_context := kctx; kc_args := ["rollout"; "restart"; "deployment"; deployment; "-n"; namespace] |};
  mu_check := restart_seen kctx deployment namespace;
  mu_status := "warning";
  mu_unresolved := fun attempts output =>
    "VERIFICATION WARNING: restartedAt annotation not visible on deployment " ++ quote deployment ++ " after " ++
    itoa attempts ++ " check(s)." ++ nl ++
    "The command reported success but the restart could not be confirmed. Check:" ++ nl ++
    "  kubectl rollout status deployment/" ++ deployment ++ " -n " ++ namespace ++ nl ++ nl ++
    "--- Restart result ---" ++ nl ++ output |}.

Definition restartDeploymentImpl (c : Ctx) (kctx namespace deployment : string)
    : KWorld -> KWorld * result string KubectlResult :=
  admitted c namespace kctx ActionDestructive (fun info kctx w =>
    mutate c info "" (restart_mutation kctx deployment (ni_Namespace info)) w).

Definition replicas_command (kctx deployment namespace : string) : Kubectl :=
  {| kc_context := kctx; kc_args := ["get"; "deployment"; deployment; "-n"; namespace; "-o"; "jsonpath={.spec.replicas}"] |}.

Definition scale_command (kctx deployment namespace : string) (replicas : Z) : Kubectl :=
  {| kc_context := kctx; kc_args := ["scale"; "deployment"; deployment; "--replicas"; itoa replicas; "-n"; namespace] |}.

(** A count that is not the one asked for: the command is given again, its result dropped. *)
Definition scaled (kctx deployment namespace : string) (replicas : Z) (w : KWorld) : KWorld * result string bool :=
  match runKubectl (replicas_command kctx deployment namespace) w with
  | (w1, Err e) => (w1, Err e)
  | (w1, Ok out) =>
      if trim_space out =?s itoa replicas then (w1, Ok true)
      else ((runKubectl (scale_command kctx deployment namespace replicas) w1).1, Ok false)
  end.

Definition scale_mutation (kctx deployment namespace : string) (replicas : Z) : Mutation := {|
  mu_tool := "scale_deployment";
  mu_command := scale_command kctx deployment namespace replicas;
  mu_check := scaled kctx deployment namespace replicas;
  mu_status := "failed";
  mu_unresolved := fun attempts output =>
    "VERIFICATION FAILED: spec.replicas mismatch after " ++ itoa attempts ++ " apply attempt(s)." ++ nl ++
    "Check:" ++ nl ++ "  kubectl get deployment " ++ deployment ++ " -n " ++ namespace ++ nl ++ nl ++
    "--- Scale result ---" ++ nl ++ output |}.

(** The state to go back to; empty when it cannot be read or is not positive. *)
Definition scale_pre_state (namespace deployment : string) (r : result string string) : string :=
  match r with
  | Err _ => ""
  | Ok out =>
      match atoi (trim_space out) with
      | Some n =>
          if (0 <? n)%Z
          then marshal_scale {| Namespace := namespace; DeploymentName := deployment; PreviousReplicas := n |} else ""
      | None => ""
      end
  end.

Definition scaleDeploymentImpl (c : Ctx) (kctx namespace deployment : string) (replicas : Z)
    : KWorld -> KWorld * result string KubectlResult :=
  admitted c namespace kctx ActionDestructive (fun info kctx w =>
    match checkK8sBlastRadiusPreExec c (ni_Namespace info) ActionDestructive (ni_Tags info) replicas w with
    | (w1, Some e) => (w1, Err ("blast radius check denied: " ++ CheckError_text e))
    | (w1, None) =>
        let '(w2, r) := runKubectl (replicas_command kctx deployment (ni_Namespace info)) w1 in
        mutate c info (scale_pre_state (ni_Namespace info) deployment r)
          (scale_mutation kctx deployment (ni_Namespace info) replicas) w2
    end).

(** ** Reads *)

Definition recordClientGoAudit (c : Ctx) (toolName : string) (params : anymap) (count : Z) (err : string) (w : KWorld) : KWorld :=
  k_emit (fun ta id =>
    RecordToolCall ta now id (k_traceID ag) c
      {| c_Name := toolName; c_Parameters := params; c_RawCommand := "client-go: " ++ toolName; c_PreState := "" |}
      {| r_Output := "returned " ++ itoa count ++ " items"; r_Error := err |} (elapsed (kw_kubectl w))) w.

(** A listing: its JSON, recorded with the number of items. *)
Definition listing (c : Ctx) (tool : string) (params : anymap) (kctx : string) (r : ApiRead) (w : KWorld)
    : KWorld * result string string :=
  let w1 := k_read kctx r w in
  match api_json kctx r with
  | Ok (json, count) => (recordClientGoAudit c tool params count "" w1, Ok json)
  | Err e => (recordClientGoAudit c tool params 0 e w1, Err e)
  end.

Definition getPodsImpl (c : Ctx) (kctx namespace labels : string) : KWorld -> KWorld * result string string :=
  admitted c namespace kctx ActionRead (fun info kctx =>
    listing c "get_pods" [("context", AStr kctx); ("labels", AStr labels); ("namespace", AStr (ni_Namespace info))] kctx
      (ListPods (ni_Namespace info) labels)).

Definition getServiceImpl (c : Ctx) (kctx namespace name type : string) : KWorld -> KWorld * result string string :=
  admitted c namespace kctx ActionRead (fun info kctx =>
    listing c "get_service"
      [("context", AStr kctx); ("namespace", AStr (ni_Namespace info)); ("service_name", AStr name); ("service_type", AStr type)]
      kctx (ListServices (ni_Namespace info) name type)).

Definition getEndpointsImpl (c : Ctx) (kctx namespace name : string) : KWorld -> KWorld * result string string :=
  admitted c namespace kctx ActionRead (fun info kctx =>
    listing c "get_endpoints" [("context", AStr kctx); ("endpoint_name", AStr name); ("namespace", AStr (ni_Namespace info))]
      kctx (ListEndpoints (ni_Namespace info) name)).

Definition getEventsImpl (c : Ctx) (kctx namespace name type : string) : KWorld -> KWorld * result string string :=
  admitted c namespace kctx ActionRead (fun info kctx =>
    listing c "get_events"
      [("context", AStr kctx); ("event_type", AStr type); ("namespace", AStr (ni_Namespace info)); ("resource_name", AStr name)]
      kctx (ListEvents (ni_Namespace info) name type)).

Definition getPodResourcesImpl (c : Ctx) (kctx namespace pod : string) : KWorld -> KWorld * result string string :=
  admitted c namespace kctx ActionRead (fun info kctx =>
    listing c "get_pod_resources" [("context", AStr kctx); ("namespace", AStr (ni_Namespace info)); ("pod_name", AStr pod)]
      kctx (ListPodResources (ni_Namespace info) pod)).

(** Nodes are in no namespace: the policy is asked about [cluster], without tags. *)
Definition cluster_wide (c : Ctx) (kctx : string) (body : string -> KWorld -> KWorld * result string string) (w : KWorld)
    : KWorld * result string string :=
  match checkK8sPolicy c "cluster" ActionRead [] w with
  | (w1, Some e) => (w1, Err ("policy denied: " ++ CheckError_text e))
  | (w1, None) => body (resolveContext (k_infra ag) kctx) w1
  end.

Definition getNodesImpl (c : Ctx) (kctx : string) (labels : bool) : KWorld -> KWorld * result string string :=
  cluster_wide c kctx (fun kctx =>
    listing c "get_nodes" [("context", AStr kctx); ("show_labels", ABool labels)] kctx (ListNodes labels)).

Definition getNodeStatusImpl (c : Ctx) (kctx node : string) : KWorld -> KWorld * result string string :=
  cluster_wide c kctx (fun kctx =>
    listing c "get_node_status" [("context", AStr kctx); ("node_name", AStr node)] kctx (ListNodeStatus node)).

(** The record of the other reads, which is made only when they succeed. *)
Definition record_read (c : Ctx) (tool : string) (params : anymap) (output : string) (w : KWorld) : KWorld :=
  k_emit (fun ta id =>
    RecordToolCall ta now id (k_traceID ag) c
      {| c_Name := tool; c_Parameters := params; c_RawCommand := ""; c_PreState := "" |}
      {| r_Output := DatabaseTools.truncateForAudit output 500; r_Error := "" |} (elapsed (kw_kubectl w))) w.

Definition with_client (kctx : string) (body : KWorld -> KWorld * result string KubectlResult) (w : KWorld)
    : KWorld * result string KubectlResult :=
  match clientset kctx with Some e => (w, Err e) | None => body w end.

Definition describeServiceImpl (c : Ctx) (kctx namespace name : string) : KWorld -> KWorld * result string KubectlResult :=
  admitted c namespace kctx ActionRead (fun info kctx =>
    with_client kctx (fun w =>
      let ns := ni_Namespace info in
      let w1 := k_read kctx (GetService ns name) w in
      match api_service kctx (GetService ns name) with
      | Err e => (w1, Err ("error describing service: " ++ e))
      | Ok svc =>
          let w2 := k_read kctx (GetServiceEndpoints ns name) w1 in
          let text := service_text svc (api_endpoints kctx (GetServiceEndpoints ns name)) in
          (record_read c "describe_service" [("namespace", AStr ns); ("service_name", AStr name)] text w2, Ok (shown text))
      end)).

Definition describePodImpl (c : Ctx) (kctx namespace pod : string) : KWorld -> KWorld * result string KubectlResult :=
  admitted c namespace kctx ActionRead (fun info kctx =>
    with_client kctx (fun w =>
      let ns := ni_Namespace info in
      let w1 := k_read kctx (GetPod ns pod) w in
      match api_pod kctx (GetPod ns pod) with
      | Err e => (w1, Err ("error describing pod: " ++ e))
      | Ok p =>
          (record_read c "describe_pod" [("namespace", AStr ns); ("pod_name", AStr pod)] (pod_text p) w1, Ok (shown (pod_text p)))
      end)).

Definition getPodLogsImpl (c : Ctx) (kctx namespace pod container : string) (tail : Z) (previous : bool)
    : KWorld -> KWorld * result string KubectlResult :=
  admitted c namespace kctx ActionRead (fun info kctx =>
    with_client kctx (fun w =>
      let ns := ni_Namespace info in
      let r := GetLogs ns pod container (if (tail <=? 0)%Z then 50 else tail)%Z previous in
      let w1 := k_read kctx r w in
      match api_logs kctx r with
      | Err e => (w1, Err ("error getting pod logs: " ++ e))
      | Ok (Err e) => (w1, Err ("error reading pod logs: " ++ e))
      | Ok (Ok output) =>
          (record_read c "get_pod_logs" [("namespace", AStr ns); ("pod_name", AStr pod); ("previous", ABool previous)] output w1,
           Ok (shown (if trim_space output =?s "" then "No logs available for this pod." else output)))
      end)).

(** The command for the shell of the container; the path is put in as it is. *)
Definition file_command (path filter : string) (tail : Z) : string :=
  let cmd := if (0 <? tail)%Z then "tail -n " ++ itoa tail ++ " " ++ path else "cat " ++ path in
  if given filter then "(" ++ cmd ++ ") | grep -i " ++ quote filter ++ " || true" else cmd.

(** An error with some output is dropped. *)
Definition readPodFileImpl (c : Ctx) (kctx namespace pod container path filter : string) (tail : Z)
    : KWorld -> KWorld * result string KubectlResult :=
  admitted c namespace kctx ActionRead (fun info kctx =>
    with_client kctx (fun w =>
      let ns := ni_Namespace info in
      let r := ExecInPod ns pod container ["sh"; "-c"; file_command path filter tail] in
      let failed e := Err ("error reading file " ++ path ++ " from pod " ++ pod ++ ": " ++ e) in
      match api_exec kctx r with
      | Err e => (w, failed e)
      | Ok (output, err) =>
          let w1 := k_read kctx r w in
          let empty := trim_space output =?s "" in
          match err, empty with
          | Some e, true => (w1, failed e)
          | _, _ =>
              (record_read c "read_pod_file" [("file_path", AStr path); ("namespace", AStr ns); ("pod_name", AStr pod)] output w1,
               Ok (shown (if empty then "File " ++ path ++ " is empty or not found in pod " ++ pod ++ "." else output)))
          end
      end)).

(** ** The registry *)

(** A call with its decoded arguments; the context and the namespace are common. *)
Inductive K8sCall :=
  | KGetPods (labels : string)
  | KGetService (name type : string)
  | KDescribeService (name : string)
  | KGetEndpoints (name : string)
  | KGetEvents (name type : string)
  | KGetPodLogs (pod container : string) (tail : Z) (previous : bool)
  | KReadPodFile (pod container path filter : string) (tail : Z)
  | KDescribePod (pod : string)
  | KGetNodes (labels : bool)
  | KDeletePod (pod : string) (grace : Z)
  | KRestartDeployment (deployment : string)
  | KScaleDeployment (deployment : string) (replicas : Z)
  | KGetPodResources (pod : string)
  | KGetNodeStatus (node : string).

Definition k8s_name (d : K8sCall) : string :=
  match d with
  | KGetPods _ => "get_pods" | KGetService _ _ => "get_service" | KDescribeService _ => "describe_service"
  | KGetEndpoints _ => "get_endpoints" | KGetEvents _ _ => "get_events" | KGetPodLogs _ _ _ _ => "get_pod_logs"
  | KReadPodFile _ _ _ _ _ => "read_pod_file" | KDescribePod _ => "describe_pod" | KGetNodes _ => "get_nodes"
  | KDeletePod _ _ => "delete_pod" | KRestartDeployment _ => "restart_deployment"
  | KScaleDeployment _ _ => "scale_deployment" | KGetPodResources _ => "get_pod_resources"
  | KGetNodeStatus _ => "get_node_status"
  end.

Definition output_of (x : KWorld * result string KubectlResult) : KWorld * result string string :=
  (x.1, match x.2 with Ok r => Ok (k_Output r) | Err e => Err e end).

(** The handler of a tool, after its arguments were decoded. *)
Definition run_k8s (c : Ctx) (kctx namespace : string) (d : K8sCall) (w : KWorld) : KWorld * result string string :=
  match d with
  | KGetPods labels => getPodsImpl c kctx namespace labels w
  | KGetService name type => getServiceImpl c kctx namespace name type w
  | KDescribeService name => output_of (describeServiceImpl c kctx namespace name w)
  | KGetEndpoints name => getEndpointsImpl c kctx namespace name w
  | KGetEvents name type => getEventsImpl c kctx namespace name type w
  | KGetPodLogs pod container tail previous => output_of (getPodLogsImpl c kctx namespace pod container tail previous w)
  | KReadPodFile pod container path filter tail => output_of (readPodFileImpl c kctx namespace pod container path filter tail w)
  | KDescribePod pod => output_of (describePodImpl c kctx namespace pod w)
  | KGetNodes labels => getNodesImpl c kctx labels w
  | KDeletePod pod grace => output_of (deletePodImpl c kctx namespace pod grace w)
  | KRestartDeployment deployment => output_of (restartDeploymentImpl c kctx namespace deployment w)
  | KScaleDeployment deployment replicas => output_of (scaleDeploymentImpl c kctx namespace deployment replicas w)
  | KGetPodResources pod => getPodResourcesImpl c kctx namespace pod w
  | KGetNodeStatus node => getNodeStatusImpl c kctx node w
  end.

Definition NewK8sDirectRegistry (decode : string -> anymap -> result string (string * string * K8sCall)) (name : string) (c : Ctx)
    (args : anymap) (w : KWorld) : KWorld * result string string :=
  match decode name args with
  | Err e => (w, Err e)
  | Ok (kctx, namespace, d) => run_k8s c kctx namespace d w
  end.

(** ** What a call does to the cluster *)

(** Between two states there are commands, reads and events, in their order. *)
Definition adds (P : Kubectl -> Prop) (Q : string * ApiRead -> Prop) (w w' : KWorld) : Prop :=
  exists cmds reads evs, kw_kubectl w' = (kw_kubectl w ++ cmds)%list /\ kw_reads w' = (kw_reads w ++ reads)%list /\
    kw_events w' = (kw_events w ++ evs)%list /\ Forall P cmds /\ Forall Q reads.

Lemma adds_refl P Q w : adds P Q w w.
Proof. exists [], [], []. by rewrite !app_nil_r. Qed.

Lemma adds_trans P Q w1 w2 w3 : adds P Q w1 w2 -> adds P Q w2 w3 -> adds P Q w1 w3.
Proof.
  intros (c1 & r1 & e1 & H1 & H2 & H3 & H4 & H5) (c2 & r2 & e2 & H6 & H7 & H8 & H9 & H10).
  exists (c1 ++ c2)%list, (r1 ++ r2)%list, (e1 ++ e2)%list.
  rewrite H6, H7, H8, H1, H2, H3, !app_assoc. split_and!; (done || by apply Forall_app).
Qed.

Lemma adds_weaken (P P' : Kubectl -> Prop) (Q Q' : string * ApiRead -> Prop) w w' :
  (forall k, P k -> P' k) -> (forall r, Q r -> Q' r) -> adds P Q w w' -> adds P' Q' w w'.
Proof.
  intros HP HQ (cmds & reads & evs & H1 & H2 & H3 & H4 & H5). exists cmds, reads, evs.
  split_and!; try done; eapply List.Forall_impl; eauto.
Qed.

Lemma adds_emit P Q f w : adds P Q w (k_emit f w).
Proof.
  unfold k_emit. destruct (k_toolAuditor ag) as [ta|]; [|apply adds_refl].
  exists [], [], (f ta (uuid8 (kw_events w))). by rewrite !app_nil_r.
Qed.

Lemma adds_policy P Q l s w : adds P Q w (k_policy l s w).
Proof. exists [], [], []. by rewrite !app_nil_r. Qed.

Lemma adds_read (P : Kubectl -> Prop) (Q : string * ApiRead -> Prop) kctx r w : Q (kctx, r) -> adds P Q w (k_read kctx r w).
Proof. intros H. exists [], [(kctx, r)], []. rewrite !app_nil_r. split_and!; try done. by constructor. Qed.

Lemma adds_kubectl (P : Kubectl -> Prop) Q k w : P k -> adds P Q w (runKubectl k w).1.
Proof.
  intros H. assert (Ha : adds P Q w (k_run k w)) by (exists [k], [], []; rewrite !app_nil_r; split_and!; try done; by constructor).
  unfold runKubectl. by destruct (kubectl (kw_kubectl w) k) as [output [err|]].
Qed.

Lemma adds_recorded_kubectl (P : Kubectl -> Prop) Q c k tool pre w : P k -> adds P Q w (runKubectlAndRecord c k tool pre w).1.
Proof.
  intros H. unfold runKubectlAndRecord. pose proof (adds_kubectl P Q k w H) as Ha. destruct (runKubectl k w) as [w1 r]. simpl in *.
  destruct (given tool); [|done]. eapply adds_trans; [exact Ha|]. unfold record_kubectl. destruct r; apply adds_emit.
Qed.

Lemma adds_policy_check P Q c namespace action tags w : adds P Q w (checkK8sPolicy c namespace action tags w).1.
Proof.
  unfold checkK8sPolicy. destruct (k_policyEnforcer ag); [|apply adds_refl].
  destruct (CheckTool _ _ _ _ _ _ _ _ _ _ _ _ _ _ _) as [l [s e]]. apply adds_policy.
Qed.

Lemma adds_blast P Q c namespace action tags pods w :
  adds P Q w (checkK8sBlastRadiusPreExec c namespace action tags pods w).1.
Proof.
  unfold checkK8sBlastRadiusPreExec. destruct (k_policyEnforcer ag); [|apply adds_refl].
  destruct (CheckResult _ _ _ _ _ _ _ _ _ _) as [l e]. apply adds_policy.
Qed.

Lemma adds_verify (P : Kubectl -> Prop) Q m w : (forall w, adds P Q w (mu_check m w).1) -> adds P Q w (verify_mutation m w).1.
Proof.
  intros Hc. unfold verify_mutation, WaitUntilResolved.
  pose proof (wait_loop_rel (adds P Q) (fun w => ctx_err (kw_kubectl w)) (fun w => ctx_err (kw_kubectl w)) (mu_check m)
    (k_after_attempt (mu_tool m)) (adds_refl P Q) (fun a b d => adds_trans P Q a b d) Hc
    (fun i r w => adds_emit P Q _ w)
    (Z.to_nat (if (verifyRetryAttempts <=? 0)%Z then 1 else verifyRetryAttempts)) 1 w) as H.
  by destruct (wait_loop _ _ _ _ _ _ _) as [w1 [[resolved attempts] e]].
Qed.

Lemma confirm_adds (P : Kubectl -> Prop) Q c info m output w : (forall w, adds P Q w (mu_check m w).1) ->
  adds P Q w (confirm c info m output w).1.
Proof.
  intros Hc. unfold confirm, checkK8sPolicyResult.
  pose proof (adds_blast P Q c (ni_Namespace info) ActionDestructive (ni_Tags info) (parsePodsAffected output) w) as H2.
  destruct (checkK8sBlastRadiusPreExec _ _ _ _ _ w) as [w2 [e|]]; [done|].
  pose proof (adds_verify P Q m w2 Hc) as H3. destruct (verify_mutation m w2) as [w3 [resolved attempts]]. simpl in *.
  pose proof (adds_trans _ _ _ _ _ H2 H3) as H. destruct resolved; [done|].
  eapply adds_trans; [exact H|]. apply adds_emit.
Qed.

Lemma mutate_adds (P : Kubectl -> Prop) Q c info pre m w : P (mu_command m) -> (forall w, adds P Q w (mu_check m w).1) ->
  adds P Q w (mutate c info pre m w).1.
Proof.
  intros Hm Hc. unfold mutate. pose proof (adds_recorded_kubectl P Q c (mu_command m) (mu_tool m) pre w Hm) as H1.
  destruct (runKubectlAndRecord _ _ _ _ _) as [w1 [output|e]]; [|done]. eapply adds_trans; [exact H1|].
  by apply confirm_adds.
Qed.

(** The commands of the tools that change something. *)
Definition k8s_commands (kctx namespace : string) (d : K8sCall) : list Kubectl :=
  match d with
  | KDeletePod pod grace =>
      [mu_command (delete_mutation kctx pod namespace grace); {| kc_context := kctx; kc_args := ["get"; "pod"; pod; "-n"; namespace] |}]
  | KRestartDeployment deployment =>
      [mu_command (restart_mutation kctx deployment namespace);
       {| kc_context := kctx; kc_args := annotations_args deployment namespace |}]
  | KScaleDeployment deployment replicas =>
      [replicas_command kctx deployment namespace; scale_command kctx deployment namespace replicas]
  | _ => []
  end.

Definition k8s_reads (namespace : string) (d : K8sCall) : list ApiRead :=
  match d with
  | KGetPods labels => [ListPods namespace labels]
  | KGetService name type => [ListServices namespace name type]
  | KDescribeService name => [GetService namespace name; GetServiceEndpoints namespace name]
  | KGetEndpoints name => [ListEndpoints namespace name]
  | KGetEvents name type => [ListEvents namespace name type]
  | KGetPodLogs pod container tail previous => [GetLogs namespace pod container (if (tail <=? 0)%Z then 50 else tail)%Z previous]
  | KReadPodFile pod container path filter tail => [ExecInPod namespace pod container ["sh"; "-c"; file_command path filter tail]]
  | KDescribePod pod => [GetPod namespace pod]
  | KGetNodes labels => [ListNodes labels]
  | KGetPodResources pod => [ListPodResources namespace pod]
  | KGetNodeStatus node => [ListNodeStatus node]
  | KDeletePod _ _ | KRestartDeployment _ | KScaleDeployment _ _ => []
  end.

Definition k8s_action (d : K8sCall) : string :=
  match d with KDeletePod _ _ | KRestartDeployment _ | KScaleDeployment _ _ => ActionDestructive | _ => ActionRead end.

(** What the policy is asked about. *)
Definition k8s_subject (kctx namespace : string) (d : K8sCall) : result string namespaceInfo :=
  match d with
  | KGetNodes _ | KGetNodeStatus _ => Ok {| ni_Namespace := "cluster"; ni_Tags := [] |}
  | _ => resolveNamespaceInfo (k_infra ag) namespace kctx
  end.

(** The policy lets the action go on in the namespace, for some state of the approvals. *)
Definition k8s_lets (c : Ctx) (info : namespaceInfo) (action : string) : Prop :=
  match k_policyEnforcer ag with
  | None => True
  | Some en => exists s,
      (CheckTool operatingMode LoadLocation marshal_trace now clock remote en s c "kubernetes" (ni_Namespace info) action
         (ni_Tags info) "" []).2.2 = None
  end.

Definition is_command (kctx : string) (info : namespaceInfo) (d : K8sCall) (k : Kubectl) : Prop :=
  In k (k8s_commands kctx (ni_Namespace info) d).
Definition is_read (kctx : string) (info : namespaceInfo) (d : K8sCall) (r : string * ApiRead) : Prop :=
  r.1 = kctx /\ In r.2 (k8s_reads (ni_Namespace info) d).

(** Nothing was done, or what the tool may do, with the policy's leave. *)
Definition within (c : Ctx) (kctx namespace : string) (d : K8sCall) (w w' : KWorld) : Prop :=
  (kw_kubectl w' = kw_kubectl w /\ kw_reads w' = kw_reads w) \/
  exists info, k8s_subject kctx namespace d = Ok info /\ k8s_lets c info (k8s_action d) /\
    adds (is_command (resolveContext (k_infra ag) kctx) info d) (is_read (resolveContext (k_infra ag) kctx) info d) w w'.

Lemma checkK8sPolicy_spec c info action w w1 err :
  checkK8sPolicy c (ni_Namespace info) action (ni_Tags info) w = (w1, err) ->
  kw_kubectl w1 = kw_kubectl w /\ kw_reads w1 = kw_reads w /\ (err = None -> k8s_lets c info action).
Proof.
  unfold checkK8sPolicy, k8s_lets. destruct (k_policyEnforcer ag) as [en|]; [|by intros [= <- <-]].
  destruct (CheckTool _ _ _ _ _ _ _ _ _ _ _ _ _ _ _) as [l [s e]] eqn:E. intros [= <- <-]. split_and!; try done.
  intros ->. exists (kw_api w). by rewrite E.
Qed.

Lemma checked_within {A} c kctx namespace d info (body : KWorld -> KWorld * result string A) w (e : CheckError -> result string A) :
  k8s_subject kctx namespace d = Ok info ->
  (forall w1, adds (is_command (resolveContext (k_infra ag) kctx) info d) (is_read (resolveContext (k_infra ag) kctx) info d)
                w1 (body w1).1) ->
  within c kctx namespace d w
    (match checkK8sPolicy c (ni_Namespace info) (k8s_action d) (ni_Tags info) w with
     | (w1, Some err) => (w1, e err)
     | (w1, None) => body w1
     end).1.
Proof.
  intros Hs Hb. pose proof (adds_policy_check (is_command (resolveContext (k_infra ag) kctx) info d)
    (is_read (resolveContext (k_infra ag) kctx) info d) c (ni_Namespace info) (k8s_action d) (ni_Tags info) w) as Ha.
  destruct (checkK8sPolicy _ _ _ _ _) as [w1 [err|]] eqn:E; apply checkK8sPolicy_spec in E as (H1 & H2 & H3); [by left|].
  right. exists info. split_and!; [done|by apply H3|]. eapply adds_trans; [exact Ha|apply Hb].
Qed.

Lemma admitted_within {A} c kctx namespace d (body : namespaceInfo -> string -> KWorld -> KWorld * result string A) w :
  k8s_subject kctx namespace d = resolveNamespaceInfo (k_infra ag) namespace kctx ->
  (forall info w1, adds (is_command (resolveContext (k_infra ag) kctx) info d) (is_read (resolveContext (k_infra ag) kctx) info d)
                     w1 (body info (resolveContext (k_infra ag) kctx) w1).1) ->
  within c kctx namespace d w (admitted c namespace kctx (k8s_action d) body w).1.
Proof.
  intros Hs Hb. unfold admitted. destruct (resolveNamespaceInfo _ _ _) as [info|e] eqn:E; [|by left].
  eapply (checked_within c kctx namespace d info _ w (fun err => Err ("policy denied: " ++ CheckError_text err)));
    [exact Hs|apply Hb].
Qed.

Lemma output_of_world x : (output_of x).1 = x.1.
Proof. by destruct x. Qed.

Lemma listing_adds (P : Kubectl -> Prop) (Q : string * ApiRead -> Prop) c tool params kctx r w : Q (kctx, r) ->
  adds P Q w (listing c tool params kctx r w).1.
Proof.
  intros H. unfold listing. destruct (api_json kctx r) as [[json count]|e];
    (eapply adds_trans; [by apply adds_read|apply adds_emit]).
Qed.

Lemma with_client_adds P Q kctx body w : (forall w, adds P Q w (body w).1) -> adds P Q w (with_client kctx body w).1.
Proof. intros H. unfold with_client. destruct (clientset kctx); [apply adds_refl|apply H]. Qed.

Lemma read_then_record (P : Kubectl -> Prop) (Q : string * ApiRead -> Prop) c tool params output kctx r w : Q (kctx, r) ->
  adds P Q w (record_read c tool params output (k_read kctx r w)).
Proof. intros H. eapply adds_trans; [by apply adds_read|apply adds_emit]. Qed.

Lemma pod_gone_adds (P : Kubectl -> Prop) Q kctx pod namespace w :
  P {| kc_context := kctx; kc_args := ["get"; "pod"; pod; "-n"; namespace] |} -> adds P Q w (pod_gone kctx pod namespace w).1.
Proof.
  intros H. unfold pod_gone. set (k := {| kc_context := kctx |}) in *. pose proof (adds_kubectl P Q k w H) as Ha.
  by destruct (runKubectl k w) as [w1 [out|e]].
Qed.

Lemma restart_seen_adds (P : Kubectl -> Prop) Q kctx deployment namespace w :
  P {| kc_context := kctx; kc_args := annotations_args deployment namespace |} ->
  adds P Q w (restart_seen kctx deployment namespace w).1.
Proof.
  intros H. unfold restart_seen. set (k := {| kc_context := kctx |}) in *. pose proof (adds_kubectl P Q k w H) as Ha.
  by destruct (runKubectl k w) as [w1 [out|e]].
Qed.

Lemma scaled_adds (P : Kubectl -> Prop) Q kctx deployment namespace replicas w :
  P (replicas_command kctx deployment namespace) -> P (scale_command kctx deployment namespace replicas) ->
  adds P Q w (scaled kctx deployment namespace replicas w).1.
Proof.
  intros H1 H2. unfold scaled. pose proof (adds_kubectl P Q _ w H1) as Ha.
  destruct (runKubectl (replicas_command _ _ _) w) as [w1 [out|e]]; [|done]. destruct (_ =?s _); [done|].
  eapply adds_trans; [exact Ha|]. by apply adds_kubectl.
Qed.

Lemma scale_body_adds (P : Kubectl -> Prop) Q c info kctx deployment replicas w :
  P (replicas_command kctx deployment (ni_Namespace info)) -> P (scale_command kctx deployment (ni_Namespace info) replicas) ->
  adds P Q w
    (match checkK8sBlastRadiusPreExec c (ni_Namespace info) ActionDestructive (ni_Tags info) replicas w with
     | (w1, Some e) => (w1, Err ("blast radius check denied: " ++ CheckError_text e))
     | (w1, None) =>
         let '(w2, r) := runKubectl (replicas_command kctx deployment (ni_Namespace info)) w1 in
         mutate c info (scale_pre_state (ni_Namespace info) deployment r)
           (scale_mutation kctx deployment (ni_Namespace info) replicas) w2
     end).1.
Proof.
  intros H1 H2. pose proof (adds_blast P Q c (ni_Namespace info) ActionDestructive (ni_Tags info) replicas w) as Ha.
  destruct (checkK8sBlastRadiusPreExec _ _ _ _ _ w) as [w1 [e|]]; [done|]. eapply adds_trans; [exact Ha|].
  pose proof (adds_kubectl P Q _ w1 H1) as Hr. destruct (runKubectl _ w1) as [w2 r]. eapply adds_trans; [exact Hr|].
  apply mutate_adds; [done|]. intros w'. by apply scaled_adds.
Qed.

Lemma run_k8s_within c kctx namespace d w : within c kctx namespace d w (run_k8s c kctx namespace d w).1.
Proof.
  destruct d; unfold run_k8s; rewrite ?output_of_world;
    lazymatch goal with
    | |- within _ _ _ (KGetNodes _) _ _ => apply (checked_within c kctx namespace (KGetNodes labels) _ _ w _ eq_refl)
    | |- within _ _ _ (KGetNodeStatus _) _ _ => apply (checked_within c kctx namespace (KGetNodeStatus node) _ _ w _ eq_refl)
    | |- within _ _ _ ?d _ _ => apply (admitted_within c kctx namespace d _ w eq_refl)
    end; intros; try (apply listing_adds; split; [done|by left]); try (apply with_client_adds; intros; cbv zeta; cbn [fst snd]).
  - destruct (api_service _ _); [|apply adds_read; split; [done|by left]].
    eapply adds_trans; [apply (adds_read _ _ (resolveContext (k_infra ag) kctx) (GetService (ni_Namespace info) name)); split; [done|by left]|].
    apply read_then_record. split; [done|by right; left].
  - destruct (api_logs _ _) as [[output|e]|e]; [apply read_then_record|apply adds_read|apply adds_read]; (split; [done|by left]).
  - destruct (api_exec _ _) as [[output [e|]]|e]; [|apply read_then_record; split; [done|by left]|apply adds_refl].
    destruct (_ =?s ""); [apply adds_read|apply read_then_record]; (split; [done|by left]).
  - destruct (api_pod _ _); [apply read_then_record|apply adds_read]; (split; [done|by left]).
  - apply mutate_adds; [by left|]. intros w2. apply pod_gone_adds. by right; left.
  - apply mutate_adds; [by left|]. intros w2. apply restart_seen_adds. by right; left.
  - apply scale_body_adds; [by left|by right; left].
Qed.

(** C19 (safety).  What a call to the Kubernetes agent does to a cluster: nothing, or only
    the commands and reads of its tool, in the context of its argument and the namespace
    that the inventory gives for it, after the policy let the tool's action go on in
    exactly that namespace with its tags.  Only the tools that delete, restart and scale
    run kubectl, and the policy is asked for a destructive action then. *)
Theorem kubernetes_calls_permitted c kctx namespace d w :
  exists cmds reads,
    kw_kubectl (run_k8s c kctx namespace d w).1 = (kw_kubectl w ++ cmds)%list /\
    kw_reads (run_k8s c kctx namespace d w).1 = (kw_reads w ++ reads)%list /\
    (cmds <> [] -> k8s_action d = ActionDestructive) /\
    (cmds <> [] \/ reads <> [] ->
     exists info, k8s_subject kctx namespace d = Ok info /\ k8s_lets c info (k8s_action d) /\
       Forall (is_command (resolveContext (k_infra ag) kctx) info d) cmds /\
       Forall (is_read (resolveContext (k_infra ag) kctx) info d) reads).
Proof.
  destruct (run_k8s_within c kctx namespace d w) as [[H1 H2]|(info & Hs & Hl & cmds & reads & evs & H1 & H2 & _ & H4 & H5)].
  - exists [], []. rewrite H1, H2, !app_nil_r. split_and!; try done. by intros [?|?].
  - exists cmds, reads. split_and!; [done|done| |by intros _; exists info].
    intros Hne. destruct cmds as [|k cmds]; [done|]. inversion_clear H4 as [|? ? Hk _]. by destruct d.
Qed.

(** ** Scaling and its reversal *)

Definition anything {A : Type} (_ : A) : Prop := True.

Lemma runKubectl_events k w : kw_events (runKubectl k w).1 = kw_events w.
Proof. unfold runKubectl. by destruct (kubectl (kw_kubectl w) k) as [output [err|]]. Qed.

(** The event of a change is the first one it records, with the state before. *)
Lemma mutate_record c info pre m w ta : k_toolAuditor ag = Some ta -> ta_audited ta = true -> given (mu_tool m) = true ->
  (forall w, adds anything anything w (mu_check m w).1) ->
  exists event rest tool, kw_events (mutate c info pre m w).1 = (kw_events w ++ event :: rest)%list /\
    e_Tool event = Some tool /\ t_Name tool = mu_tool m /\ PreState tool = pre.
Proof.
  intros Ha Hon Hg Hc. unfold mutate, runKubectlAndRecord. rewrite Hg.
  pose proof (runKubectl_events (mu_command m) w) as He. destruct (runKubectl (mu_command m) w) as [w1 r]. simpl in He.
  assert (Hrec : exists event tool, kw_events (record_kubectl c (mu_command m) (mu_tool m) pre r w1) =
      (kw_events w ++ [event])%list /\ e_Tool event = Some tool /\ t_Name tool = mu_tool m /\ PreState tool = pre).
  { unfold record_kubectl, k_emit. rewrite Ha. destruct r as [output|e]; cbn [kw_events]; rewrite He;
      unfold RecordToolCall, if_audited; rewrite Hon; (eexists _, _; split; [reflexivity|]); by split_and!. }
  destruct Hrec as (event & tool & Hev & Htool). set (w2 := record_kubectl _ _ _ _ _ _) in *.
  destruct r as [output|e]; [|by exists event, [], tool].
  destruct (confirm_adds anything anything c info m output w2 Hc) as (_ & _ & evs & _ & _ & Hevs & _).
  exists event, evs, tool. split; [|done]. by rewrite Hevs, Hev, <- app_assoc.
Qed.

(** The status ok is given after a check that passed, the last thing that was done. *)
Lemma confirm_ok c info m output w r : mu_status m <> "ok" -> (confirm c info m output w).2 = Ok r -> k_VerifyStatus r = "ok" ->
  k_Output r = output /\ (0 <= k_RetryCount r < verifyRetryAttempts)%Z /\
  exists wn, (mu_check m wn).2 = Ok true /\
    (confirm c info m output w).1 = k_after_attempt (mu_tool m) (k_RetryCount r + 1) true (mu_check m wn).1.
Proof.
  intros Hs. unfold confirm, verify_mutation, WaitUntilResolved. destruct (checkK8sPolicyResult _ _ _ _ _ _) as [w1 [e|]]; [done|].
  simpl Z.leb. cbv iota.
  pose proof (wait_loop_spec (fun w => ctx_err (kw_kubectl w)) (fun w => ctx_err (kw_kubectl w)) (mu_check m)
    (k_after_attempt (mu_tool m)) (Z.to_nat verifyRetryAttempts) 1 w1 ltac:(lia)) as H.
  destruct (wait_loop _ _ _ _ _ _ _) as [w2 [[resolved attempts] e]]. destruct H as (H1 & H2 & _). destruct resolved.
  - intros [= <-] _. destruct (H2 eq_refl) as (Hp & wn & Hwn & ->). unfold verifyRetryAttempts in *. simpl.
    split_and!; [done|lia|lia|]. exists wn. split; [done|]. by replace (Z.max 0 (attempts - 1) + 1)%Z with attempts by lia.
  - by intros [= <-].
Qed.

(** The number of replicas that a look-up shows, if it can be gone back to. *)
Definition counted (r : result string string) : option Z :=
  match r with
  | Ok out => match atoi (trim_space out) with Some n => if (0 <? n)%Z then Some n else None | None => None end
  | Err _ => None
  end.

Definition scale_back (namespace deployment : string) (n : Z) : anymap :=
  [("namespace", AStr namespace); ("deployment", AStr deployment); ("replicas", ANum n)].

Lemma scale_plan ds dd t event tool namespace deployment r :
  (forall p, marshal_scale p <> "" /\ ds (marshal_scale p) = Ok p) ->
  e_Tool event = Some tool -> t_Name tool = "scale_deployment" ->
  PreState tool = scale_pre_state namespace deployment r ->
  exists plan, DeriveRollbackPlan ds dd t event = Ok plan /\
    option_map (fun op => (io_Tool op, Args op)) (InverseOp plan) =
    option_map (fun n => ("scale_deployment", scale_back namespace deployment n)) (counted r).
Proof.
  intros Hm He Hn Hp. unfold DeriveRollbackPlan. rewrite He, Hn. simpl. unfold deriveScaleRollback. rewrite Hp.
  unfold scale_pre_state, counted. destruct r as [out|e]; [|by eexists]. destruct (atoi (trim_space out)) as [n|]; [|by eexists].
  destruct (Z.ltb_spec 0 n); [|by eexists]. destruct (Hm {| Namespace := namespace; DeploymentName := deployment; PreviousReplicas := n |})
    as [Hne ->]. rewrite (proj2 (streq_false _ _) Hne). simpl. rewrite (proj2 (Z.eqb_neq _ _)) by lia. by eexists.
Qed.

Lemma checkK8sPolicy_keeps c namespace action tags w :
  kw_kubectl (checkK8sPolicy c namespace action tags w).1 = kw_kubectl w /\
  kw_events (checkK8sPolicy c namespace action tags w).1 = kw_events w.
Proof. unfold checkK8sPolicy. destruct (k_policyEnforcer ag); [|done]. by destruct (CheckTool _ _ _ _ _ _ _ _ _ _ _ _ _ _ _) as [l [s e]]. Qed.

Lemma blast_keeps c namespace action tags pods w :
  kw_kubectl (checkK8sBlastRadiusPreExec c namespace action tags pods w).1 = kw_kubectl w /\
  kw_events (checkK8sBlastRadiusPreExec c namespace action tags pods w).1 = kw_events w.
Proof. unfold checkK8sBlastRadiusPreExec. destruct (k_policyEnforcer ag); [|done]. by destruct (CheckResult _ _ _ _ _ _ _ _ _ _). Qed.

Lemma scale_ok c info pre kctx deployment replicas w w' r :
  mutate c info pre (scale_mutation kctx deployment (ni_Namespace info) replicas) w = (w', Ok r) -> k_VerifyStatus r = "ok" ->
  (0 <= k_RetryCount r < 3)%Z /\ exists wn out,
    (runKubectl (replicas_command kctx deployment (ni_Namespace info)) wn).2 = Ok out /\ trim_space out = itoa replicas /\
    w' = k_after_attempt "scale_deployment" (k_RetryCount r + 1) true
           (runKubectl (replicas_command kctx deployment (ni_Namespace info)) wn).1.
Proof.
  unfold mutate. destruct (runKubectlAndRecord _ _ _ _ w) as [w1 [output|e]]; [|by intros [= <- <-]].
  intros E Hok. destruct (confirm_ok c info (scale_mutation kctx deployment (ni_Namespace info) replicas) output w1 r)
    as (_ & Hr & wn & Hwn & Hlast); [discriminate|by rewrite E|done|].
  split; [done|]. rewrite E in Hlast. cbn [fst mu_check mu_tool scale_mutation] in Hwn, Hlast. unfold scaled in Hwn, Hlast.
  exists wn. destruct (runKubectl (replicas_command _ _ _) wn) as [w2 [out|e]]; [|done]. exists out.
  destruct (trim_space out =?s itoa replicas) eqn:Et; [|done]. apply streq_spec in Et. by split_and!.
Qed.

(** C20 (roundtrip).  A scaling that was let through can be undone as far as its state
    before was seen: its event is recorded, and the plan derived from that event is to
    scale the same deployment back to the number of replicas that was read right before,
    and has no inverse exactly when that number could not be read or was not positive.
    The status ok means that the cluster showed the number asked for in the end. *)
Theorem scaling_can_be_undone ds dd t c kctx namespace deployment replicas w w' r ta :
  (forall p, marshal_scale p <> "" /\ ds (marshal_scale p) = Ok p) ->
  k_toolAuditor ag = Some ta -> ta_audited ta = true ->
  scaleDeploymentImpl c kctx namespace deployment replicas w = (w', Ok r) ->
  exists info w1 event rest plan,
    resolveNamespaceInfo (k_infra ag) namespace kctx = Ok info /\ kw_kubectl w1 = kw_kubectl w /\
    kw_events w' = (kw_events w ++ event :: rest)%list /\ DeriveRollbackPlan ds dd t event = Ok plan /\
    option_map (fun op => (io_Tool op, Args op)) (InverseOp plan) =
      option_map (fun n => ("scale_deployment", scale_back (ni_Namespace info) deployment n))
        (counted (runKubectl (replicas_command (resolveContext (k_infra ag) kctx) deployment (ni_Namespace info)) w1).2) /\
    (k_VerifyStatus r = "ok" -> (0 <= k_RetryCount r < 3)%Z /\ exists wn out,
       (runKubectl (replicas_command (resolveContext (k_infra ag) kctx) deployment (ni_Namespace info)) wn).2 = Ok out /\
       trim_space out = itoa replicas /\
       w' = k_after_attempt "scale_deployment" (k_RetryCount r + 1) true
              (runKubectl (replicas_command (resolveContext (k_infra ag) kctx) deployment (ni_Namespace info)) wn).1).
Proof.
  intros Hm Ha Hon. unfold scaleDeploymentImpl, admitted.
  destruct (resolveNamespaceInfo _ _ _) as [info|e]; [|done]. set (ctx := resolveContext _ _).
  destruct (checkK8sPolicy_keeps c (ni_Namespace info) ActionDestructive (ni_Tags info) w) as [K1 E1].
  destruct (checkK8sPolicy _ _ _ _ w) as [w0 [e|]]; [done|].
  destruct (blast_keeps c (ni_Namespace info) ActionDestructive (ni_Tags info) replicas w0) as [K2 E2].
  destruct (checkK8sBlastRadiusPreExec _ _ _ _ _ w0) as [w1 [e|]]; [done|]. simpl in K1, E1, K2, E2.
  pose proof (runKubectl_events (replicas_command ctx deployment (ni_Namespace info)) w1) as E3.
  destruct (runKubectl (replicas_command ctx _ _) w1) as [w2 before] eqn:Er. simpl in E3.
  set (m := scale_mutation _ _ _ _). set (pre := scale_pre_state _ _ _). intros Hrun.
  destruct (mutate_record c info pre m w2 ta Ha Hon eq_refl) as (event & rest & tool & Hev & He & Hn & Hp);
    [intros w3; by apply scaled_adds|].
  destruct (scale_plan ds dd t event tool (ni_Namespace info) deployment before Hm He Hn Hp) as (plan & Hplan & Hop).
  exists info, w1, event, rest, plan. rewrite Hrun in Hev. simpl in Hev. rewrite Er.
  split_and!; [done|congruence|congruence|done|done|]. intros Hok. eapply scale_ok; eassumption.
Qed.
End Kubernetes.

(** ** Concrete runs *)

Module K8sToy.

Definition orders : DBServer :=
  {| db_Name := "Orders"; ConnectionString := "host=db1"; PasswordEnv := ""; db_K8sCluster := "blue"; K8sNamespace := "shop";
     K8sPodSelector := ""; VMName := ""; ContainerName := ""; SystemdUnit := ""; db_Tags := ["staging"];
     db_Sensitivity := ["pii"]; ApprovalOverrideRoles := [] |}.

Definition cluster (name tag : string) : K8sCluster :=
  {| k8s_Name := name; k8s_Context := name ++ "-ctx"; k8s_Tags := [tag]; k8s_Sensitivity := [] |}.

Definition inventory : K8sInventory :=
  let clusters := [("blue", cluster "blue" "staging"); ("red", cluster "red" "production")] in
  {| ki_config := {| DBServers := {[ "orders" := orders ]}; K8sClusters := list_to_map clusters; VMs := ∅ |};
     ki_servers := [("orders", orders)]; ki_clusters := clusters |}.

(** Reads are allowed, destructive calls with at most two pods. *)
Definition engine : Engine :=
  let rule action pods := {| rl_Action := [action]; rl_Effect := EffectAllow; rl_Message := "";
    rl_Conditions := Some {| RequireApproval := false; ApprovalQuorum := 0; MaxRowsAffected := 0; MaxPodsAffected := pods;
      MaxXactAgeSecs := 0; Sched := None; AllowedPurposes := []; BlockedPurposes := [] |} |} in
  {| config := {| Version := "1"; Policies := [
       {| pol_Name := "k8s"; pol_Description := ""; pol_Enabled := None; pol_Priority := 10; pol_Principals := [];
          pol_Resources := [{| rs_Type := "kubernetes"; rs_Match := {| rm_Name := ""; rm_NamePattern := ""; rm_Tags := ["staging"];
            rm_Namespace := ""; rm_Sensitivity := []; rm_Tool := ""; rm_ToolPattern := "" |} |}];
          pol_Rules := [rule ActionRead 0%Z; rule ActionDestructive 2%Z] |}] |};
     defaultEffect := EffectDeny; dryRun := false |}.

Definition agent : K8sAgent :=
  {| k_policyEnforcer := Some {| pe_engine := Some engine; policyCheckURL := ""; pe_trace := Some "tr_9"; pe_approvals := true;
       pe_agentName := "k8sagent"; pe_auditor := true; requirePurposeForSensitive := false |};
     k_toolAuditor := Some {| ta_audited := true; ta_agentName := "k8sagent"; ta_sessionID := "s" |};
     k_infra := Some inventory; k_traceID := "tr_9" |}.

(** A deployment of three replicas that is scaled at once, and a server that is away. *)
Definition healthy (before : list Kubectl) (k : Kubectl) : string * option string :=
  match kc_args k with
  | "get" :: "deployment" :: _ =>
      (if existsb (fun k => match kc_args k with "scale" :: _ => true | _ => false end) before then "1" else "3", None)
  | "get" :: _ => ("Unable to connect to the server: EOF", Some "exit status 1")
  | _ => ("deployment.apps/web scaled", None)
  end.

Definition away (_ : list Kubectl) (_ : Kubectl) : string * option string :=
  ("Unable to connect to the server: EOF", Some "exit status 1").

Definition start : KWorld (S := Served) :=
  {| kw_api := auditd_with []; kw_recorded := []; kw_events := []; kw_kubectl := []; kw_reads := [] |}.

Definition ctx : Ctx := sample_ctx "" "".

(** A code for states in place of JSON. *)
Fixpoint bits (p : positive) : string :=
  match p with xH => "." | xO p => String "0" (bits p) | xI p => String "1" (bits p) end.

Fixpoint of_bits (s : string) : positive :=
  match s with
  | String c s' => if Ascii.eqb c "0" then xO (of_bits s') else if Ascii.eqb c "1" then xI (of_bits s') else xH
  | EmptyString => xH
  end.

Definition marshal (p : ScalePreState) : string := bits (encode (Namespace p, DeploymentName p, PreviousReplicas p)).

Definition unmarshal (s : string) : result string ScalePreState :=
  match decode (A := string * string * Z) (of_bits s) with
  | Some (ns, d, n) => Ok {| Namespace := ns; DeploymentName := d; PreviousReplicas := n |}
  | None => Err "bad state"
  end.

Lemma of_bits_bits p : of_bits (bits p) = p.
Proof. induction p as [p IH|p IH|]; simpl; by rewrite ?IH. Qed.

Lemma unmarshal_marshal p : marshal p <> "" /\ unmarshal (marshal p) = Ok p.
Proof.
  split.
  - unfold marshal. by destruct (encode _).
  - unfold unmarshal, marshal. rewrite of_bits_bits, decode_encode. by destruct p.
Qed.

Definition scale (kctx namespace : string) (replicas : Z) : KWorld * result string KubectlResult :=
  scaleDeploymentImpl "fix" no_zones (fun _ => "") Hours sample_clock (fun _ => None) agent healthy (fun _ => None)
    (fun _ => 0%Z) (fun _ => "e") marshal ctx kctx namespace "web" replicas start.

Definition delete (kubectl : list Kubectl -> Kubectl -> string * option string) (kctx namespace pod : string) (grace : Z)
    : KWorld * result string KubectlResult :=
  deletePodImpl "fix" no_zones (fun _ => "") Hours sample_clock (fun _ => None) agent kubectl (fun _ => None) (fun _ => 0%Z)
    (fun _ => "e") ctx kctx namespace pod grace start.

Definition status (x : KWorld (S := Served) * result string KubectlResult) : nat * option string :=
  (length (kw_kubectl x.1), match x.2 with Ok r => Some (k_VerifyStatus r) | Err _ => None end).

Definition sent (x : KWorld (S := Served) * result string KubectlResult) : list (string * list string) :=
  map (fun k => (kc_context k, kc_args k)) (kw_kubectl x.1).

(** The command, its check; and a call with more pods than the rule allows.  The limit
    looks at the number to be reached: scaling to nothing is within every limit. *)
Example scalings :
  status (scale "" "orders" 1) = (3, Some "ok") /\ status (scale "" "orders" 5) = (0, None) /\
  (length (kw_kubectl (scale "" "orders" 0).1) >= 2)%nat.
Proof. vm_compute. repeat split. repeat constructor. Qed.

(** A look-up that fails for any reason counts as the pod being gone. *)
Example failed_lookup_is_gone : status (delete healthy "" "orders" "web-0" 0) = (2, Some "ok").
Proof. vm_compute. reflexivity. Qed.

(** The name of a pod may be a flag: this deletes every pod of the namespace. *)
Example pod_name_is_a_flag :
  head (sent (delete healthy "" "orders" "--all" 0)) = Some ("", ["delete"; "pod"; "--all"; "-n"; "shop"]).
Proof. vm_compute. reflexivity. Qed.

(** The tags are those of the database's namespace, whatever the context: the policy for
    staging lets a pod of the production cluster be deleted. *)
Example context_escapes_tags :
  sent (delete healthy "red-ctx" "orders" "web-0" 0) =
    [("red-ctx", ["delete"; "pod"; "web-0"; "-n"; "shop"]); ("red-ctx", ["get"; "pod"; "web-0"; "-n"; "shop"])] /\
  sent (delete healthy "red-ctx" "billing" "web-0" 0) = [].
Proof. vm_compute. split; reflexivity. Qed.

(** A grace period of zero is not passed on. *)
Example grace_zero_dropped : delete_args "p" "n" 0 = ["delete"; "pod"; "p"; "-n"; "n"].
Proof. reflexivity. Qed.

(** The failure of kubectl is an answer that the gateway does not take for a failure, as
    it does with the answers of the database agent. *)
Example failure_not_seen :
  (exists out, (delete away "" "orders" "web-0" 0).2 = Ok (shown out) /\ has_prefix out "ERROR: " = true /\
     Gateway.isToolError out = false) /\
  Gateway.isToolError (Output (errorResult "cancel_query" "orders" "psql failed")) = true.
Proof. split; [|vm_compute; reflexivity]. eexists. vm_compute. repeat split. Qed.

(** The path is part of a shell command, and the tool has no class. *)
Example path_is_a_command :
  file_command "/dev/null; rm -rf /data" "" 0 = "cat /dev/null; rm -rf /data" /\
  ClassifyTool "read_pod_file" = ActionUnknown /\ k8s_action (KReadPodFile "p" "" "/x" "" 0) = ActionRead.
Proof. vm_compute. repeat split. Qed.

(** Without a namespace nothing is looked up in the inventory, and no tag is checked. *)
Example empty_namespace_has_no_tags :
  resolveNamespaceInfo (Some inventory) " " "red-ctx" = Ok {| ni_Namespace := ""; ni_Tags := [] |} /\
  exists e, resolveNamespaceInfo (Some inventory) "billing" "green" = Err e.
Proof. split; [vm_compute; reflexivity|]. eexists. vm_compute. reflexivity. Qed.
End K8sToy.

Lemma scaling_can_be_undone_witness :
  K8sToy.status (K8sToy.scale "" "orders" 1) = (3, Some "ok") /\
  exists event rest plan, kw_events (K8sToy.scale "" "orders" 1).1 = event :: rest /\
    DeriveRollbackPlan K8sToy.unmarshal (fun _ => Err "") 0 event = Ok plan /\
    option_map Args (InverseOp plan) = Some (scale_back "shop" "web" 3).
Proof.
  split; [vm_compute; reflexivity|].
  destruct (K8sToy.scale "" "orders" 1) as [w' [r|e]] eqn:E; [|exfalso; revert E; vm_compute; discriminate].
  destruct (scaling_can_be_undone "fix" no_zones (fun _ => "") Hours sample_clock (fun _ => None) K8sToy.agent K8sToy.healthy
    (fun _ => None) (fun _ => 0%Z) (fun _ => "e") K8sToy.marshal K8sToy.unmarshal (fun _ => Err "") 0 K8sToy.ctx "" "orders"
    "web" 1 K8sToy.start w' r _ K8sToy.unmarshal_marshal eq_refl eq_refl E)
    as (info & w1 & event & rest & plan & Hi & Hk & Hev & Hp & Hop & _).
  assert (Hinfo : info = {| ni_Namespace := "shop"; ni_Tags := ["staging"] |}) by (revert Hi; vm_compute; congruence).
  exists event, rest, plan. split; [exact Hev|split; [exact Hp|]].
  revert Hop. rewrite Hinfo. unfold runKubectl. rewrite Hk. simpl. destruct (InverseOp plan) as [op|]; vm_compute; congruence.
Defined.
