(* ===== verification/SysadminTools.v ===== *)
(** * agents/sysadmin/tools.go: the system agent

    Hosts resolved against the inventory, commands run in the container or the pod of a
    database, the diagnostic tools, the tools that restart under the policy, and the
    registration of databases at run time, which changes the inventory.

    The commands are parameters that see the commands given before; so are the directory
    a log is copied to, the duration of the last command and the JSON of the results.  A
    Go map that is ranged over is a list in the order of the run.  Log lines and the
    wrappers for the model, which only log, are left out. *)

From S2P Require Import Prelude GoTime GoFormat Events PolicyTypes PolicyEngine PolicyExplain Identity Action.
From S2P Require Import ApprovalStore ApprovalHandlers ApprovalClient Enforcer PlaybookText PlaybookStore PlaybookPrompt.
From S2P Require Import GovernanceCheck Infra ToolAudit DatabaseTools.

Open Scope string_scope.

(** ** Targets *)

Record resolvedHost := {
  h_Runtime : string;
  h_ContainerName : string;
  h_SystemdUnit : string;
  h_K8sContext : string;
  h_K8sNamespace : string;
  h_K8sPodSelector : string;
  h_Tags : list string;
  h_Sensitivity : list string }.

(** The text after the last [sep], if there is one. *)
Definition after_last (sep : ascii) (s : string) : option string :=
  match rev (split_on sep s) with p :: _ :: _ => Some p | _ => None end.

Fixpoint cut_before (stop : ascii -> bool) (s : string) : string :=
  match s with
  | String c s' => if stop c then "" else String c (cut_before stop s')
  | EmptyString => ""
  end.

Definition decimal (c : ascii) : bool := let n := N_of_ascii c in (48 <=? n)%N && (n <=? 57)%N.

Definition bare_port (s : string) : string := if (trim_set decimal s =?s "") && given s then s else "".

Definition field_port (field : string) : string := if has_prefix field "port=" then trim_prefix field "port=" else "".

Definition connStrPort (s : string) : string :=
  match find given (map field_port (str_fields s)) with
  | Some p => p
  | None =>
      let s := trim_prefix (trim_prefix s "postgresql://") "postgres://" in
      match after_last ":" s with
      | Some rest =>
          let p := cut_before (fun c => Ascii.eqb c "/" || Ascii.eqb c "?") rest in
          if given p && (p <>?s s) then p else bare_port s
      | None => bare_port s
      end
  end.

(** The properties of the server found, on a cluster or on a machine. *)
Definition k8s_host (ic : InfraConfig) (serverID : string) (db : DBServer) : result string resolvedHost :=
  match K8sClusters ic !! db_K8sCluster db with
  | None =>
      Err ("server " ++ quote serverID ++ " references K8s cluster " ++ quote (db_K8sCluster db) ++
           " which is not defined in infrastructure config")
  | Some k8s =>
      if K8sPodSelector db =?s "" then
        Err ("server " ++ quote serverID ++ " has k8s_cluster but no k8s_pod_selector; add a label selector (e.g. " ++
             dquote ++ "app=postgres" ++ dquote ++ ") to locate the pod")
      else
        Ok {| h_Runtime := ""; h_ContainerName := ""; h_SystemdUnit := ""; h_K8sContext := k8s_Context k8s;
              h_K8sNamespace := or_default "default" (K8sNamespace db); h_K8sPodSelector := K8sPodSelector db;
              h_Tags := db_Tags db; h_Sensitivity := db_Sensitivity db |}
  end.

Definition container_runtime (runtime : string) : bool := mem runtime ["docker"; "podman"].

Definition vm_host (ic : InfraConfig) (serverID : string) (db : DBServer) : result string resolvedHost :=
  if VMName db =?s "" then
    Err ("server " ++ quote serverID ++
         " has neither vm_name nor k8s_cluster; sysadmin operations require one of these in infrastructure config")
  else
    match VMs ic !! VMName db with
    | None =>
        Err ("server " ++ quote serverID ++ " references VM " ++ quote (VMName db) ++
             " which is not defined in infrastructure config")
    | Some vm =>
        let h := {| h_Runtime := Runtime vm; h_ContainerName := ContainerName db; h_SystemdUnit := SystemdUnit db;
                    h_K8sContext := ""; h_K8sNamespace := ""; h_K8sPodSelector := "";
                    h_Tags := db_Tags db; h_Sensitivity := db_Sensitivity db |} in
        if container_runtime (h_Runtime h) then
          if h_ContainerName h =?s "" then
            Err ("server " ++ quote serverID ++ ": VM runtime is " ++ quote (h_Runtime h) ++
                 " but no container_name is set on the db_server entry")
          else Ok h
        else if h_Runtime h =?s "" then
          if h_SystemdUnit h =?s "" then
            Err ("server " ++ quote serverID ++
                 ": VM has no runtime (systemd expected) but no systemd_unit is set on the db_server entry")
          else Ok h
        else
          Err ("server " ++ quote serverID ++ ": VM has unknown runtime " ++ quote (h_Runtime h) ++
               " (supported: docker, podman, or empty for systemd)")
    end.

Definition host_of (ic : InfraConfig) (serverID : string) (db : DBServer) : result string resolvedHost :=
  if given (db_K8sCluster db) then k8s_host ic serverID db else vm_host ic serverID db.

Section Resolve.
(** The orders of the two ranges over the servers. *)
Context (by_port by_container : InfraConfig -> Servers).

(** By name, by port, by container. *)
Definition find_server (ic : InfraConfig) (serverID : string) : option (string * DBServer) :=
  match DBServers ic !! serverID with
  | Some db => Some (serverID, db)
  | None =>
      let port := connStrPort serverID in
      match (if given port then find (fun kv => connStrPort (ConnectionString kv.2) =?s port) (by_port ic) else None) with
      | Some kv => Some kv
      | None => find (fun kv => ContainerName kv.2 =?s serverID) (by_container ic)
      end
  end.

Definition resolveHost (infraConfig : option InfraConfig) (target : string) : result string resolvedHost :=
  match infraConfig with
  | None => Err "no infrastructure config loaded; set HELPDESK_INFRA_CONFIG"
  | Some ic =>
      let serverID := trim_space target in
      match find_server ic serverID with
      | Some (id, db) => host_of ic id db
      | None =>
          Err ("server " ++ quote serverID ++ " not found in infrastructure config. Known servers: " ++
               join ", " (isort String.ltb (map fst (map_to_list (DBServers ic)))))
      end
  end.
End Resolve.

(** The runtime, or nothing for systemd. *)
Definition containerRuntimeBin (host : resolvedHost) : result string string :=
  if container_runtime (h_Runtime host) then Ok (h_Runtime host)
  else if h_Runtime host =?s "" then Ok ""
  else Err ("unknown runtime " ++ quote (h_Runtime host) ++ " (supported: docker, podman, or empty for systemd)").

Definition hostRuntimeLabel (host : resolvedHost) : string :=
  if given (h_Runtime host) then h_Runtime host else if given (h_K8sPodSelector host) then "kubectl" else "systemd".

(** ** Registration at run time *)

Record RegisterInfraDBArgs := { rg_ServerID : string; rg_ContainerName : string; rg_Runtime : string; rg_ConnStr : string }.

Definition localVMKey : string := "__faulttest_local__".

Definition registered_db (args : RegisterInfraDBArgs) : DBServer :=
  {| db_Name := rg_ServerID args; ConnectionString := rg_ConnStr args; PasswordEnv := ""; db_K8sCluster := "";
     K8sNamespace := ""; K8sPodSelector := ""; VMName := localVMKey; ContainerName := rg_ContainerName args;
     SystemdUnit := ""; db_Tags := ["chaos"; "test"]; db_Sensitivity := []; ApprovalOverrideRoles := [] |}.

Definition no_config : InfraConfig := {| DBServers := ∅; K8sClusters := ∅; VMs := ∅ |}.

Definition registerInfraDB (args : RegisterInfraDBArgs) (infraConfig : option InfraConfig) : result string InfraConfig :=
  if rg_ServerID args =?s "" then Err "register_infra_db: server_id is required"
  else if rg_ContainerName args =?s "" then Err "register_infra_db: container_name is required"
  else
    let ic := match infraConfig with Some ic => ic | None => no_config end in
    Ok {| DBServers := <[rg_ServerID args := registered_db args]> (DBServers ic);
          K8sClusters := K8sClusters ic;
          VMs := <[localVMKey := {| vm_Name := localVMKey; Address := ""; Runtime := or_default "docker" (rg_Runtime args) |}]>
                   (VMs ic) |}.

(** ** Results *)

Record CheckHostResult := { ch_ServerID : string; ch_Runtime : string; ch_Status : string; ch_Details : string }.
Record HostLogsResult := { hl_ServerID : string; hl_Runtime : string; hl_Lines : Z; hl_Logs : string }.
(** [DiskResult] and [MemoryResult], which have the same fields. *)
Record UsageResult := { us_ServerID : string; us_Output : string }.
Record PgLogFileResult := { pl_ServerID : string; pl_Runtime : string; pl_LinesReturned : Z; pl_Logs : string }.
Record RestartResult := { re_ServerID : string; re_Runtime : string; re_Target : string; re_Success : bool; re_Output : string }.

Inductive SysResult :=
  | CheckedHost (r : CheckHostResult)
  | HostLogs (r : HostLogsResult)
  | Usage (r : UsageResult)
  | PgLogFile (r : PgLogFileResult)
  | Restarted (r : RestartResult).

(** The status that the output of [inspect] or [show] stands for. *)
Definition derived_status (output : string) : string :=
  let says := str_contains output in
  if says "running=true" || says "ActiveState=active" then "running"
  else if says "restarting=true" then "restarting"
  else if says "dead=true" || says "ActiveState=inactive" || says "ActiveState=failed" then "stopped"
  else "unknown".

Definition line_count (s : string) : Z := if given s then Z.of_nat (length (split_on newline s)) else 0%Z.

Definition default_lines (n : Z) : Z := if (n <=? 0)%Z then 100%Z else n.

Definition only_lines (keep : string -> bool) (s : string) : string := join nl (List.filter keep (split_on newline s)).

(** The filter of the log file, which ignores case. *)
Definition filtered_log (filter s : string) : string :=
  if given filter then only_lines (fun l => str_contains (to_lower l) (to_lower filter)) s else s.

Definition collector_note : string :=
  "(no output in container stdout/stderr — logging_collector=on is likely active, " ++
  "which redirects all PostgreSQL output to an on-disk log file. " ++
  "Call read_pg_log_file to read the PostgreSQL log.)".

Definition pgLogDefaultDir : string := "/var/lib/postgresql/data/log".

(** The last lines of a file that was copied. *)
Definition copied_lines (n : Z) (content : string) : string :=
  let all := split_on newline (trim_right_newlines content) in
  join nl (skipn (length all - Z.to_nat n) all).

(** An entry of the directory a log was copied to; no time when its look-up failed. *)
Record DirEntry := { de_Name : string; de_IsDir : bool; de_ModTime : option Time }.

Definition log_files (l : list DirEntry) : list (string * Time) :=
  flat_map (fun e => if de_IsDir e then [] else match de_ModTime e with Some t => [(de_Name e, t)] | None => [] end) l.

Definition newer_file (a b : string * Time) : bool := After a.2 b.2.

(** ** Commands *)

Record SysCommand := { sc_name : string; sc_args : list string }.

Definition command_text (k : SysCommand) : string := sc_name k ++ " " ++ join " " (sc_args k).

Definition inspect_format : string :=
  "{{.State.Status}} (running={{.State.Running}}, restarting={{.State.Restarting}}, " ++
  "oomkilled={{.State.OOMKilled}}, dead={{.State.Dead}}, exitcode={{.State.ExitCode}})".

Definition status_command (host : resolvedHost) (runtime : string) : SysCommand :=
  if given runtime then {| sc_name := runtime; sc_args := ["inspect"; "--format"; inspect_format; h_ContainerName host] |}
  else {| sc_name := "systemctl";
          sc_args := ["show"; "--property=ActiveState,SubState,Result,MainPID,ExecMainStartTimestamp"; h_SystemdUnit host] |}.

Definition logs_command (host : resolvedHost) (runtime : string) (lines : Z) : SysCommand :=
  if given runtime then {| sc_name := runtime; sc_args := ["logs"; "--tail"; itoa lines; h_ContainerName host] |}
  else {| sc_name := "journalctl"; sc_args := ["-u"; h_SystemdUnit host; "-n"; itoa lines; "--no-pager"] |}.

Definition container_exec (host : resolvedHost) (cmd : list string) : SysCommand :=
  {| sc_name := h_Runtime host; sc_args := "exec" :: h_ContainerName host :: cmd |}.

Definition kubectl_command (host : resolvedHost) (args : list string) : SysCommand :=
  {| sc_name := "kubectl"; sc_args := if given (h_K8sContext host) then "--context" :: h_K8sContext host :: args else args |}.

Definition find_pod_command (host : resolvedHost) : SysCommand :=
  kubectl_command host ["get"; "pod"; "-l"; h_K8sPodSelector host; "-n"; h_K8sNamespace host;
                        "-o"; "jsonpath={.items[0].metadata.name}"].

Definition pod_exec (host : resolvedHost) (pod : string) (cmd : list string) : SysCommand :=
  kubectl_command host (["exec"; pod; "-n"; h_K8sNamespace host; "--"] ++ cmd)%list.

Definition copy_command (host : resolvedHost) (logDir tmpDir : string) : SysCommand :=
  {| sc_name := h_Runtime host; sc_args := ["cp"; h_ContainerName host ++ ":" ++ logDir ++ "/."; tmpDir] |}.

Definition restart_container_command (host : resolvedHost) (runtime : string) : SysCommand :=
  {| sc_name := runtime; sc_args := ["restart"; h_ContainerName host] |}.

Definition restart_service_command (host : resolvedHost) : SysCommand :=
  {| sc_name := "systemctl"; sc_args := ["restart"; h_SystemdUnit host] |}.

Definition local_command (cmd : string) : SysCommand := {| sc_name := cmd; sc_args := ["-h"] |}.

(** ** The agent *)

Record SysAgent := { sy_policyEnforcer : option PolicyEnforcer; sy_toolAuditor : option ToolAuditor; sy_traceID : string }.

(** A call with its decoded arguments. *)
Inductive SysCall :=
  | CheckHost (target : string)
  | GetHostLogs (target : string) (lines : Z) (filter : string)
  | CheckDisk (target : string) (run_on_host : bool)
  | CheckMemory (target : string) (run_on_host : bool)
  | ReadPgLogFile (target : string) (lines : Z) (filter log_path : string)
  | RestartContainer (target reason : string)
  | RestartService (target reason : string).

Definition sys_name (d : SysCall) : string :=
  match d with
  | CheckHost _ => "check_host" | GetHostLogs _ _ _ => "get_host_logs" | CheckDisk _ _ => "check_disk"
  | CheckMemory _ _ => "check_memory" | ReadPgLogFile _ _ _ _ => "read_pg_log_file"
  | RestartContainer _ _ => "restart_container" | RestartService _ _ => "restart_service"
  end.

Section System.
Context {S : Type} `{!ApprovalAPI S}.
Context (operatingMode : string) (LoadLocation : string -> option (Time -> Z)).
Context (marshal_trace : DecisionTrace -> string) (now : Time) (clock : Clock).
Context (remote : policyCheckReq -> option (Z * option policyCheckResp)).
Context (ag : SysAgent) (by_port by_container : InfraConfig -> Servers).
(** The output of a command after the ones before it, with its error; the duration of the
    last command; the id of the next event. *)
Context (run : list SysCommand -> SysCommand -> string * option string).
Context (elapsed : list SysCommand -> Z) (uuid8 : list Event -> string).
(** The temporary directory, what it holds after the commands, and its files. *)
Context (MkdirTemp : list SysCommand -> result string string).
Context (ReadDir : list SysCommand -> result string (list DirEntry)).
Context (ReadFile : list SysCommand -> string -> result string string).
Context `{!SliceSort newer_file}.

Record SysWorld := {
  sw_infra : option InfraConfig;
  sw_api : S;
  sw_recorded : list Recorded;
  sw_events : list Event;
  sw_commands : list SysCommand }.

Definition sw_policy (l : list Recorded) (s : S) (w : SysWorld) : SysWorld :=
  {| sw_infra := sw_infra w; sw_api := s; sw_recorded := (sw_recorded w ++ l)%list; sw_events := sw_events w;
     sw_commands := sw_commands w |}.
Definition sw_emit (f : ToolAuditor -> string -> list Event) (w : SysWorld) : SysWorld :=
  match sy_toolAuditor ag with
  | Some ta =>
      {| sw_infra := sw_infra w; sw_api := sw_api w; sw_recorded := sw_recorded w;
         sw_events := (sw_events w ++ f ta (uuid8 (sw_events w)))%list; sw_commands := sw_commands w |}
  | None => w
  end.
Definition sw_run (k : SysCommand) (w : SysWorld) : SysWorld :=
  {| sw_infra := sw_infra w; sw_api := sw_api w; sw_recorded := sw_recorded w; sw_events := sw_events w;
     sw_commands := (sw_commands w ++ [k])%list |}.
Definition sw_configured (ic : InfraConfig) (w : SysWorld) : SysWorld :=
  {| sw_infra := Some ic; sw_api := sw_api w; sw_recorded := sw_recorded w; sw_events := sw_events w;
     sw_commands := sw_commands w |}.

Definition cmdRun (k : SysCommand) (w : SysWorld) : SysWorld * (string * option string) :=
  (sw_run k w, run (sw_commands w) k).

Definition resolved (target : string) (w : SysWorld) : result string resolvedHost :=
  resolveHost by_port by_container (sw_infra w) target.

(** In the container or the pod of the database; the error comes with the output. *)
Definition execInProcess (host : resolvedHost) (cmd : list string) (w : SysWorld) : SysWorld * (string * option string) :=
  if container_runtime (h_Runtime host) then cmdRun (container_exec host cmd) w
  else if given (h_K8sPodSelector host) then
    match cmdRun (find_pod_command host) w with
    | (w1, (podName, Some err)) => (w1, ("", Some ("kubectl get pod: " ++ err ++ ": " ++ podName)))
    | (w1, (out, None)) =>
        let podName := trim_space out in
        if podName =?s "" then
          (w1, ("", Some ("no pod found for selector " ++ quote (h_K8sPodSelector host) ++ " in namespace " ++
                          quote (h_K8sNamespace host))))
        else cmdRun (pod_exec host podName cmd) w1
    end
  else (w, ("", Some "cannot exec into process: target uses systemd (no exec primitive)")).

(** ** Diagnostics *)

Definition checkHostImpl (target : string) (w : SysWorld) : SysWorld * result string CheckHostResult :=
  match resolved target w with
  | Err e => (w, Err e)
  | Ok host =>
      match containerRuntimeBin host with
      | Err e => (w, Err e)
      | Ok runtime =>
          let label := if given runtime then runtime else "systemd" in
          let '(w1, (out, runErr)) := cmdRun (status_command host runtime) w in
          let output := trim_space out in
          (w1, Ok match runErr with
                  | Some e => {| ch_ServerID := target; ch_Runtime := label; ch_Status := "error"; ch_Details := e ++ ": " ++ output |}
                  | None => {| ch_ServerID := target; ch_Runtime := label; ch_Status := derived_status output; ch_Details := output |}
                  end)
      end
  end.

Definition getHostLogsImpl (target : string) (lines : Z) (filter : string) (w : SysWorld)
    : SysWorld * result string HostLogsResult :=
  match resolved target w with
  | Err e => (w, Err e)
  | Ok host =>
      match containerRuntimeBin host with
      | Err e => (w, Err e)
      | Ok runtime =>
          let '(w1, (out, runErr)) := cmdRun (logs_command host runtime (default_lines lines)) w in
          let text := trim_space out in
          match (if text =?s "" then runErr else None) with
          | Some e => (w1, Err ("get_host_logs " ++ target ++ ": " ++ e))
          | None =>
              let kept := if given filter then only_lines (fun l => str_contains l filter) text else text in
              let logOutput := if (kept =?s "") && given runtime then collector_note else kept in
              (w1, Ok {| hl_ServerID := target; hl_Runtime := if given runtime then runtime else "systemd";
                         hl_Lines := line_count logOutput; hl_Logs := logOutput |})
          end
      end
  end.

(** [checkDiskImpl] and [checkMemoryImpl] differ in the tool and in the command. *)
Definition usage_locally (tool cmd target : string) (w : SysWorld) : SysWorld * result string UsageResult :=
  match cmdRun (local_command cmd) w with
  | (w1, (out, Some e)) => (w1, Err (tool ++ ": " ++ e ++ ": " ++ out))
  | (w1, (out, None)) => (w1, Ok {| us_ServerID := target; us_Output := trim_space out |})
  end.

Definition usage (tool cmd target : string) (run_on_host : bool) (w : SysWorld) : SysWorld * result string UsageResult :=
  if given target && negb run_on_host && match sw_infra w with Some _ => true | None => false end then
    match resolved target w with
    | Err e => (w, Err e)
    | Ok host =>
        match execInProcess host [cmd; "-h"] w with
        | (w1, (out, None)) => (w1, Ok {| us_ServerID := target; us_Output := trim_space out |})
        | (w1, (out, Some e)) =>
            if str_contains e "cannot exec into process" then usage_locally tool cmd target w1
            else (w1, Err (tool ++ ": " ++ e ++ ": " ++ out))
        end
    end
  else usage_locally tool cmd target w.

Definition checkDiskImpl : string -> bool -> SysWorld -> SysWorld * result string UsageResult := usage "check_disk" "df".
Definition checkMemoryImpl : string -> bool -> SysWorld -> SysWorld * result string UsageResult := usage "check_memory" "free".

Definition no_files (target : string) (host : resolvedHost) (text : string) : PgLogFileResult :=
  {| pl_ServerID := target; pl_Runtime := hostRuntimeLabel host; pl_LinesReturned := 0; pl_Logs := text |}.

Definition log_shown (target : string) (host : resolvedHost) (logs : string) : PgLogFileResult :=
  {| pl_ServerID := target; pl_Runtime := hostRuntimeLabel host; pl_LinesReturned := line_count logs; pl_Logs := logs |}.

(** The log of a container that does not run, through a copy of the directory. *)
Definition readPgLogFileViaCopy (host : resolvedHost) (logDir : string) (lines : Z) (filter target : string) (w : SysWorld)
    : SysWorld * result string PgLogFileResult :=
  match MkdirTemp (sw_commands w) with
  | Err e => (w, Err ("read_pg_log_file: cannot create temp dir: " ++ e))
  | Ok tmpDir =>
      match cmdRun (copy_command host logDir tmpDir) w with
      | (w1, (_, Some e)) =>
          (w1, Err ("read_pg_log_file: container is stopped and docker cp failed — log dir may not exist: " ++ e))
      | (w1, (_, None)) =>
          let entries := match ReadDir (sw_commands w1) with Ok l => l | Err _ => [] end in
          match slice_sort newer_file (log_files entries) with
          | [] => (w1, Ok (no_files target host ("no log files found in " ++ logDir ++ " (read from stopped container via cp)")))
          | (name, _) :: _ =>
              match ReadFile (sw_commands w1) (tmpDir ++ "/" ++ name) with
              | Err e => (w1, Err ("read_pg_log_file: cannot read " ++ name ++ ": " ++ e))
              | Ok content => (w1, Ok (log_shown target host (filtered_log filter (copied_lines lines content))))
              end
          end
      end
  end.

Definition readPgLogFileImpl (target : string) (lines : Z) (filter log_path : string) (w : SysWorld)
    : SysWorld * result string PgLogFileResult :=
  match resolved target w with
  | Err e => (w, Err e)
  | Ok host =>
      let logDir := or_default pgLogDefaultDir log_path in
      let lines := default_lines lines in
      match execInProcess host ["ls"; "-t"; logDir] w with
      | (w1, (_, Some e)) =>
          if container_runtime (h_Runtime host) then readPgLogFileViaCopy host logDir lines filter target w1
          else (w1, Err ("read_pg_log_file: cannot list " ++ logDir ++ ": " ++ e))
      | (w1, (lsOut, None)) =>
          match str_fields (trim_space lsOut) with
          | [] => (w1, Ok (no_files target host ("no log files found in " ++ logDir ++
                                                 " — logging_collector may not be enabled")))
          | file :: _ =>
              let latestFile := logDir ++ "/" ++ file in
              match execInProcess host ["tail"; "-n"; itoa lines; latestFile] w1 with
              | (w2, (_, Some e)) => (w2, Err ("read_pg_log_file: cannot read " ++ latestFile ++ ": " ++ e))
              | (w2, (tailOut, None)) => (w2, Ok (log_shown target host (filtered_log filter (trim_space tailOut))))
              end
          end
      end
  end.

(** ** Restarts *)

Definition with_tool (c : Ctx) (tool : string) : Ctx := {| cx_trace := cx_trace c; cx_tool := tool |}.

(** The policy on the text of the target, with the tags of the server it stands for. *)
Definition restart_check (c : Ctx) (tool what target reason : string) (host : resolvedHost) (w : SysWorld)
    : SysWorld * option CheckError :=
  match sy_policyEnforcer ag with
  | None => (w, None)
  | Some en =>
      let '(recorded, (s, err)) :=
        CheckTool operatingMode LoadLocation marshal_trace now clock remote en (sw_api w) (with_tool c tool) "host" target
          ActionDestructive (h_Tags host) ("restart " ++ what ++ ": " ++ reason) (h_Sensitivity host) in
      (sw_policy recorded s w, err)
  end.

Definition record_restart (c : Ctx) (tool target reason : string) (k : SysCommand) (output : string) (runErr : option string)
    (w : SysWorld) : SysWorld :=
  sw_emit (fun ta eventID =>
    RecordToolCall ta now eventID (sy_traceID ag) c
      {| c_Name := tool; c_Parameters := [("reason", AStr reason); ("target", AStr target)];
         c_RawCommand := command_text k; c_PreState := "" |}
      {| r_Output := output; r_Error := from_option id "" runErr |} (elapsed (sw_commands w))) w.

(** The steps both tools end in; the result comes with the error of the command. *)
Definition restart (c : Ctx) (tool what target reason : string) (host : resolvedHost) (k : SysCommand) (runtime subject : string)
    (w : SysWorld) : SysWorld * (option RestartResult * option string) :=
  match restart_check c tool what target reason host w with
  | (w1, Some e) => (w1, (None, Some (CheckError_text e)))
  | (w1, None) =>
      let '(w2, (out, runErr)) := cmdRun k w1 in
      let output := trim_space out in
      (record_restart c tool target reason k output runErr w2,
       (Some {| re_ServerID := target; re_Runtime := runtime; re_Target := subject;
                re_Success := match runErr with None => true | Some _ => false end; re_Output := output |}, runErr))
  end.

Definition restartContainerImpl (c : Ctx) (target reason : string) (w : SysWorld)
    : SysWorld * (option RestartResult * option string) :=
  match resolved target w with
  | Err e => (w, (None, Some e))
  | Ok host =>
      if h_Runtime host =?s "" then
        (w, (None, Some ("server " ++ quote target ++
                         " is managed via systemd, not a container runtime; use restart_service instead")))
      else
        match containerRuntimeBin host with
        | Err e => (w, (None, Some e))
        | Ok runtime =>
            restart c "restart_container" "container" target reason host (restart_container_command host runtime) runtime
              (h_ContainerName host) w
        end
  end.

Definition restartServiceImpl (c : Ctx) (target reason : string) (w : SysWorld)
    : SysWorld * (option RestartResult * option string) :=
  match resolved target w with
  | Err e => (w, (None, Some e))
  | Ok host =>
      if h_SystemdUnit host =?s "" then
        (w, (None, Some ("server " ++ quote target ++
                         " uses a container runtime, not systemd; use restart_container instead")))
      else restart c "restart_service" "service" target reason host (restart_service_command host) "systemd" (h_SystemdUnit host) w
  end.

(** ** The registry *)

Definition answer {A} (f : A -> SysResult) (x : SysWorld * result string A) : SysWorld * result string SysResult :=
  (x.1, match x.2 with Ok r => Ok (f r) | Err e => Err e end).

(** The result of a restart that failed is dropped. *)
Definition restart_answer (x : SysWorld * (option RestartResult * option string)) : SysWorld * result string SysResult :=
  (x.1, match x.2 with
        | (_, Some e) => Err e
        | (Some r, None) => Ok (Restarted r)
        | (None, None) => Err ""
        end).

Definition run_sys (c : Ctx) (d : SysCall) (w : SysWorld) : SysWorld * result string SysResult :=
  match d with
  | CheckHost target => answer CheckedHost (checkHostImpl target w)
  | GetHostLogs target lines filter => answer HostLogs (getHostLogsImpl target lines filter w)
  | CheckDisk target run_on_host => answer Usage (checkDiskImpl target run_on_host w)
  | CheckMemory target run_on_host => answer Usage (checkMemoryImpl target run_on_host w)
  | ReadPgLogFile target lines filter log_path => answer PgLogFile (readPgLogFileImpl target lines filter log_path w)
  | RestartContainer target reason => restart_answer (restartContainerImpl c target reason w)
  | RestartService target reason => restart_answer (restartServiceImpl c target reason w)
  end.

(** The tools that the model has, and the registration, which it has not. *)
Definition NewSysadminDirectRegistry (decode : string -> anymap -> result string (SysCall + RegisterInfraDBArgs))
    (marshal_result : SysResult -> result string string) (name : string) (c : Ctx) (args : anymap) (w : SysWorld)
    : SysWorld * result string string :=
  match decode name args with
  | Err e => (w, Err e)
  | Ok (inl d) =>
      match run_sys c d w with
      | (w1, Err e) => (w1, Err e)
      | (w1, Ok r) => (w1, marshal_result r)
      end
  | Ok (inr a) =>
      match registerInfraDB a (sw_infra w) with
      | Err e => (w, Err e)
      | Ok ic => (sw_configured ic w, Ok ("{" ++ dquote ++ "ok" ++ dquote ++ ":true}"))
      end
  end.

(** ** What a call runs *)

(** Between two states there are commands, and nothing else changed. *)
Definition ran (P : SysCommand -> Prop) (w w' : SysWorld) : Prop :=
  sw_infra w' = sw_infra w /\ sw_events w' = sw_events w /\ sw_recorded w' = sw_recorded w /\
  exists cmds, sw_commands w' = (sw_commands w ++ cmds)%list /\ Forall P cmds.

Lemma ran_refl P w : ran P w w.
Proof. split_and!; try done. exists []. by rewrite app_nil_r. Qed.

Lemma ran_trans P w1 w2 w3 : ran P w1 w2 -> ran P w2 w3 -> ran P w1 w3.
Proof.
  intros (A1 & A2 & A3 & l1 & A4 & A5) (B1 & B2 & B3 & l2 & B4 & B5). split_and!; try congruence.
  exists (l1 ++ l2)%list. rewrite B4, A4, app_assoc. split; [done|]. by apply Forall_app.
Qed.

Lemma ran_weaken (P Q : SysCommand -> Prop) w w' : (forall k, P k -> Q k) -> ran P w w' -> ran Q w w'.
Proof. intros H (A1 & A2 & A3 & l & A4 & A5). split_and!; try done. exists l. split; [done|]. by eapply Forall_impl. Qed.

Lemma ran_cmd (P : SysCommand -> Prop) k w : P k -> ran P w (cmdRun k w).1.
Proof. intros Hk. split_and!; try done. exists [k]. split; [done|]. by repeat constructor. Qed.

(** A command inside the process of the database, or the look-up of its pod. *)
Inductive in_process (host : resolvedHost) (cmd : list string) : SysCommand -> Prop :=
  | in_container : container_runtime (h_Runtime host) = true -> in_process host cmd (container_exec host cmd)
  | pod_lookup : given (h_K8sPodSelector host) = true -> in_process host cmd (find_pod_command host)
  | in_pod pod : given (h_K8sPodSelector host) = true -> given pod = true -> in_process host cmd (pod_exec host pod cmd).

Lemma execInProcess_ran (P : SysCommand -> Prop) host cmd w :
  (forall k, in_process host cmd k -> P k) -> ran P w (execInProcess host cmd w).1.
Proof.
  intros H. unfold execInProcess. destruct (container_runtime (h_Runtime host)) eqn:Ec.
  { apply ran_cmd, H. by constructor. }
  destruct (given (h_K8sPodSelector host)) eqn:Eg; [|apply ran_refl].
  assert (Hl : ran P w (cmdRun (find_pod_command host) w).1) by by apply ran_cmd, H, pod_lookup.
  destruct (cmdRun (find_pod_command host) w) as [w1 [out [e|]]]; [done|].
  destruct (trim_space out =?s "") eqn:Et; [done|]. eapply ran_trans; [exact Hl|].
  apply ran_cmd, H. constructor; [done|]. unfold given. by rewrite Et.
Qed.

Definition sys_target (d : SysCall) : string :=
  match d with
  | CheckHost t | GetHostLogs t _ _ | CheckDisk t _ | CheckMemory t _ | ReadPgLogFile t _ _ _ | RestartContainer t _
  | RestartService t _ => t
  end.

Definition restarts (d : SysCall) : bool := match d with RestartContainer _ _ | RestartService _ _ => true | _ => false end.

(** The commands of a tool on a host; [runtime] is the host's, or empty for systemd. *)
Definition may_run (host : resolvedHost) (d : SysCall) (k : SysCommand) : Prop :=
  match d with
  | CheckHost _ => k = status_command host (h_Runtime host)
  | GetHostLogs _ lines _ => k = logs_command host (h_Runtime host) (default_lines lines)
  | CheckDisk _ _ => in_process host ["df"; "-h"] k
  | CheckMemory _ _ => in_process host ["free"; "-h"] k
  | ReadPgLogFile _ lines _ log_path =>
      let logDir := or_default pgLogDefaultDir log_path in
      in_process host ["ls"; "-t"; logDir] k \/
      (exists file, in_process host ["tail"; "-n"; itoa (default_lines lines); logDir ++ "/" ++ file] k) \/
      (container_runtime (h_Runtime host) = true /\ exists tmpDir, k = copy_command host logDir tmpDir)
  | RestartContainer _ _ => container_runtime (h_Runtime host) = true /\ k = restart_container_command host (h_Runtime host)
  | RestartService _ _ => given (h_SystemdUnit host) = true /\ k = restart_service_command host
  end.

(** The machine the agent itself runs on. *)
Definition local_usage (d : SysCall) (k : SysCommand) : Prop :=
  match d with CheckDisk _ _ => k = local_command "df" | CheckMemory _ _ => k = local_command "free" | _ => False end.

Definition runs (w : SysWorld) (d : SysCall) (k : SysCommand) : Prop :=
  local_usage d k \/ exists host, resolved (sys_target d) w = Ok host /\ may_run host d k.

Lemma containerRuntimeBin_is host runtime : containerRuntimeBin host = Ok runtime -> runtime = h_Runtime host.
Proof.
  unfold containerRuntimeBin. destruct (container_runtime (h_Runtime host)); [by intros [= <-]|].
  destruct (h_Runtime host =?s "") eqn:E; [|done]. apply streq_spec in E. intros [= <-]. done.
Qed.

Lemma checkHost_ran target w : ran (runs w (CheckHost target)) w (checkHostImpl target w).1.
Proof.
  unfold checkHostImpl. destruct (resolved target w) as [host|e] eqn:Er; [|apply ran_refl].
  destruct (containerRuntimeBin host) as [runtime|e] eqn:Eb; [|apply ran_refl]. apply containerRuntimeBin_is in Eb as ->.
  assert (H : ran (runs w (CheckHost target)) w (cmdRun (status_command host (h_Runtime host)) w).1)
    by (apply ran_cmd; right; by exists host).
  by destruct (cmdRun _ w) as [w1 [out runErr]].
Qed.

Lemma getHostLogs_ran target lines filter w :
  ran (runs w (GetHostLogs target lines filter)) w (getHostLogsImpl target lines filter w).1.
Proof.
  unfold getHostLogsImpl. destruct (resolved target w) as [host|e] eqn:Er; [|apply ran_refl].
  destruct (containerRuntimeBin host) as [runtime|e] eqn:Eb; [|apply ran_refl]. apply containerRuntimeBin_is in Eb as ->.
  assert (H : ran (runs w (GetHostLogs target lines filter)) w
                (cmdRun (logs_command host (h_Runtime host) (default_lines lines)) w).1)
    by (apply ran_cmd; right; by exists host).
  destruct (cmdRun _ w) as [w1 [out runErr]]. by destruct (if trim_space out =?s "" then runErr else None).
Qed.

Lemma usage_ran (P : SysCommand -> Prop) tool cmd target run_on_host w : P (local_command cmd) ->
  (forall host k, resolved target w = Ok host -> in_process host [cmd; "-h"] k -> P k) ->
  ran P w (usage tool cmd target run_on_host w).1.
Proof.
  intros Hl Hp. assert (Hloc : forall w, ran P w (usage_locally tool cmd target w).1).
  { intros w0. unfold usage_locally. pose proof (ran_cmd P (local_command cmd) w0 Hl) as H.
    by destruct (cmdRun _ w0) as [w1 [out [e|]]]. }
  unfold usage. destruct (_ && _); [|apply Hloc]. destruct (resolved target w) as [host|e] eqn:Er; [|apply ran_refl].
  pose proof (execInProcess_ran P host [cmd; "-h"] w (fun k => Hp host k eq_refl)) as H.
  destruct (execInProcess host _ w) as [w1 [out [e|]]]; [|done]. destruct (str_contains e _); [|done].
  by eapply ran_trans.
Qed.

Lemma readPgLogFile_ran target lines filter log_path w :
  ran (runs w (ReadPgLogFile target lines filter log_path)) w (readPgLogFileImpl target lines filter log_path w).1.
Proof.
  unfold readPgLogFileImpl. destruct (resolved target w) as [host|e] eqn:Er; [|apply ran_refl].
  set (P := runs w _). set (logDir := or_default _ _).
  assert (Hr : forall k, may_run host (ReadPgLogFile target lines filter log_path) k -> P k) by (intros k Hk; right; by exists host).
  pose proof (execInProcess_ran P host ["ls"; "-t"; logDir] w (fun k Hk => Hr k (or_introl Hk))) as Hls.
  destruct (execInProcess host ["ls"; "-t"; logDir] w) as [w1 [out [e|]]].
  - destruct (container_runtime (h_Runtime host)) eqn:Ec; [|done]. eapply ran_trans; [exact Hls|].
    unfold readPgLogFileViaCopy. destruct (MkdirTemp _) as [tmpDir|?]; [|apply ran_refl].
    assert (Hcp : ran P w1 (cmdRun (copy_command host logDir tmpDir) w1).1).
    { apply ran_cmd, Hr. right. right. split; [done|]. by exists tmpDir. }
    destruct (cmdRun (copy_command host logDir tmpDir) w1) as [w2 [out2 [e2|]]]; [done|].
    destruct (slice_sort _ _) as [|[name t] l]; [done|]. by destruct (ReadFile _ _).
  - destruct (str_fields (trim_space out)) as [|file l]; [done|]. eapply ran_trans; [exact Hls|].
    pose proof (execInProcess_ran P host ["tail"; "-n"; itoa (default_lines lines); logDir ++ "/" ++ file] w1
                  (fun k Hk => Hr k (or_intror (or_introl (ex_intro _ file Hk))))) as Ht.
    by destruct (execInProcess host _ w1) as [w2 [out2 [e2|]]].
Qed.

(** The reads: commands of their tool, with no check of the policy and no record. *)
Lemma reads_ran c d w : restarts d = false -> ran (runs w d) w (run_sys c d w).1.
Proof.
  destruct d as [t|t n f|t h|t h|t n f p|t r|t r]; intros Hr; try done; cbn [run_sys answer fst];
    auto using checkHost_ran, getHostLogs_ran, readPgLogFile_ran.
  - apply usage_ran; [by left|]. intros host k He Hk. right. by exists host.
  - apply usage_ran; [by left|]. intros host k He Hk. right. by exists host.
Qed.

(** The policy lets the restart go on, for some state of the approvals. *)
Definition restart_lets (c : Ctx) (tool note target : string) (host : resolvedHost) : Prop :=
  match sy_policyEnforcer ag with
  | None => True
  | Some en => exists s,
      (CheckTool operatingMode LoadLocation marshal_trace now clock remote en s (with_tool c tool) "host" target
         ActionDestructive (h_Tags host) note (h_Sensitivity host)).2.2 = None
  end.

(** The command is recorded, with the error it ended in. *)
Definition recorded_as (tool : string) (k : SysCommand) (w w' : SysWorld) : Prop :=
  forall ta, sy_toolAuditor ag = Some ta -> ta_audited ta = true ->
  exists event call, sw_events w' = (sw_events w ++ [event])%list /\ e_Tool event = Some call /\ t_Name call = tool /\
    RawCommand call = command_text k /\ t_Error call = from_option id "" (run (sw_commands w) k).2.

(** Nothing was run and there is an error, or the one command was. *)
Definition restart_done (tool note target : string) (c : Ctx) (host : resolvedHost) (k : SysCommand) (w : SysWorld)
    (x : SysWorld * (option RestartResult * option string)) : Prop :=
  (sw_commands x.1 = sw_commands w /\ sw_events x.1 = sw_events w /\ exists e, x.2 = (None, Some e)) \/
  (sw_commands x.1 = (sw_commands w ++ [k])%list /\ restart_lets c tool note target host /\ recorded_as tool k w x.1 /\
   x.2.2 = (run (sw_commands w) k).2).

Lemma restart_spec c tool what target reason host k runtime subject w :
  restart_done tool ("restart " ++ what ++ ": " ++ reason) target c host k w
    (restart c tool what target reason host k runtime subject w).
Proof.
  unfold restart, restart_done. set (note := _ ++ _).
  assert (Hp : sw_commands (restart_check c tool what target reason host w).1 = sw_commands w /\
    sw_events (restart_check c tool what target reason host w).1 = sw_events w /\
    ((restart_check c tool what target reason host w).2 = None -> restart_lets c tool note target host)).
  { unfold restart_check, restart_lets. destruct (sy_policyEnforcer ag) as [en|]; [|done]. fold note.
    destruct (CheckTool _ _ _ _ _ _ _ _ _ _ _ _ _ _ _) as [l [s e]] eqn:E. split_and!; [done..|].
    simpl. intros ->. exists (sw_api w). by rewrite E. }
  destruct (restart_check _ _ _ _ _ _ w) as [w1 [e|]]; destruct Hp as (Hc & He & Hl); simpl in Hc, He; [left; eauto|right].
  unfold cmdRun. rewrite Hc. destruct (run (sw_commands w) k) as [out runErr] eqn:Er. cbn [fst snd].
  set (w2 := sw_run k w1). assert (He2 : sw_events w2 = sw_events w) by done.
  assert (Hc2 : sw_commands w2 = (sw_commands w ++ [k])%list) by (unfold w2; cbn [sw_run sw_commands]; by rewrite Hc).
  split_and!; [|by apply Hl| |done].
  - unfold record_restart, sw_emit. by destruct (sy_toolAuditor ag).
  - intros ta Ha Hon. unfold record_restart, sw_emit. rewrite Ha. cbn [sw_events]. rewrite He2.
    unfold RecordToolCall, if_audited. rewrite Hon, Er. eexists _, _. split; [reflexivity|]. by split_and!.
Qed.

(** What the policy is told about a restart. *)
Definition restart_note (d : SysCall) : string :=
  match d with
  | RestartContainer _ reason => "restart container: " ++ reason
  | RestartService _ reason => "restart service: " ++ reason
  | _ => ""
  end.

Definition unrun (w : SysWorld) (x : SysWorld * (option RestartResult * option string)) : Prop :=
  x.1 = w /\ exists e, x.2 = (None, Some e).

Lemma restartContainer_spec c target reason w :
  unrun w (restartContainerImpl c target reason w) \/
  exists host, resolved target w = Ok host /\ container_runtime (h_Runtime host) = true /\
    restart_done "restart_container" ("restart container: " ++ reason) target c host
      (restart_container_command host (h_Runtime host)) w (restartContainerImpl c target reason w).
Proof.
  unfold restartContainerImpl. destruct (resolved target w) as [host|e]; [|left; split; eauto].
  destruct (h_Runtime host =?s "") eqn:Ee; [left; split; eauto|].
  destruct (containerRuntimeBin host) as [runtime|e] eqn:Eb; [|left; split; eauto].
  pose proof (containerRuntimeBin_is _ _ Eb) as ->. right. exists host. split; [done|]. split.
  - unfold containerRuntimeBin in Eb. rewrite Ee in Eb. by destruct (container_runtime (h_Runtime host)).
  - apply (restart_spec c "restart_container" "container").
Qed.

Lemma restartService_spec c target reason w :
  unrun w (restartServiceImpl c target reason w) \/
  exists host, resolved target w = Ok host /\ given (h_SystemdUnit host) = true /\
    restart_done "restart_service" ("restart service: " ++ reason) target c host (restart_service_command host) w
      (restartServiceImpl c target reason w).
Proof.
  unfold restartServiceImpl. destruct (resolved target w) as [host|e]; [|left; split; eauto].
  destruct (h_SystemdUnit host =?s "") eqn:Ee; [left; split; eauto|]. right. exists host. split; [done|]. split.
  - unfold given. by rewrite Ee.
  - apply (restart_spec c "restart_service" "service").
Qed.

(** The restart that a call asks for, on the host of its target. *)
Definition restarted_with (c : Ctx) (d : SysCall) (w : SysWorld) (cmds : list SysCommand) : Prop :=
  exists host k, cmds = [k] /\ resolved (sys_target d) w = Ok host /\ may_run host d k /\
    restart_lets c (sys_name d) (restart_note d) (sys_target d) host /\ recorded_as (sys_name d) k w (run_sys c d w).1 /\
    ((exists r, (run_sys c d w).2 = Ok r) -> (run (sw_commands w) k).2 = None).

Lemma restart_answer_spec x : (exists r, (restart_answer x).2 = Ok r) -> x.2.2 = None /\ x.2.1 <> None.
Proof. intros [r H]. revert H. unfold restart_answer. by destruct x as [? [[?|] [?|]]]. Qed.

Lemma restarts_spec c d w : restarts d = true ->
  exists cmds, sw_commands (run_sys c d w).1 = (sw_commands w ++ cmds)%list /\
    ((cmds = [] /\ exists e, (run_sys c d w).2 = Err e) \/ restarted_with c d w cmds).
Proof.
  assert (Hgen : forall x (cmd : resolvedHost -> SysCommand),
    run_sys c d w = restart_answer x ->
    (unrun w x \/ exists host, resolved (sys_target d) w = Ok host /\ may_run host d (cmd host) /\
       restart_done (sys_name d) (restart_note d) (sys_target d) c host (cmd host) w x) ->
    exists cmds, sw_commands (run_sys c d w).1 = (sw_commands w ++ cmds)%list /\
      ((cmds = [] /\ exists e, (run_sys c d w).2 = Err e) \/ restarted_with c d w cmds)).
  { intros x cmd Hx Hcase. rewrite Hx. unfold restarted_with. rewrite Hx. cbn [restart_answer fst].
    destruct Hcase as [[Hw [e He]]|(host & Hr & Hm & [(Hc & _ & e & He)|(Hc & Hl & Hrec & Hres)])].
    - exists []. rewrite Hw, app_nil_r. split; [done|]. left. split; [done|]. exists e. unfold restart_answer. by rewrite He.
    - exists []. rewrite Hc, app_nil_r. split; [done|]. left. split; [done|]. exists e. unfold restart_answer. by rewrite He.
    - exists [cmd host]. split; [exact Hc|]. right. exists host, (cmd host). split_and!; try done.
      intros Hok. apply restart_answer_spec in Hok as [Hn _]. congruence. }
  destruct d as [t|t n f|t h|t h|t n f p|t r|t r]; intros Hr; try done.
  - apply (Hgen (restartContainerImpl c t r w) (fun host => restart_container_command host (h_Runtime host)));
      [done|]. destruct (restartContainer_spec c t r w) as [H|(host & H1 & H2 & H3)]; [by left|]. right. exists host. by split_and!.
  - apply (Hgen (restartServiceImpl c t r w) restart_service_command);
      [done|]. destruct (restartService_spec c t r w) as [H|(host & H1 & H2 & H3)]; [by left|]. right. exists host. by split_and!.
Qed.

End System.

(** ** Hosts and the inventory *)

(** An order in which the servers are ranged over. *)
Definition ranges_over (order : InfraConfig -> Servers) : Prop := forall ic, order ic ≡ₚ map_to_list (DBServers ic).

Lemma ranged order ic (f : string * DBServer -> bool) id db : ranges_over order -> find f (order ic) = Some (id, db) ->
  DBServers ic !! id = Some db /\ f (id, db) = true.
Proof.
  intros Ho H. apply find_some in H as [Hin Hf]. split; [|done].
  apply elem_of_map_to_list. rewrite <- (Ho ic). by apply list_elem_of_In.
Qed.

(** How the text of a target stands for a server. *)
Definition names (ic : InfraConfig) (text id : string) (db : DBServer) : Prop :=
  id = text \/
  (DBServers ic !! text = None /\
   ((given (connStrPort text) = true /\ connStrPort (ConnectionString db) = connStrPort text) \/ ContainerName db = text)).

Lemma find_server_names by_port by_container ic text id db : ranges_over by_port -> ranges_over by_container ->
  find_server by_port by_container ic text = Some (id, db) -> DBServers ic !! id = Some db /\ names ic text id db.
Proof.
  intros Hp Hc. unfold find_server, names. destruct (DBServers ic !! text) as [db'|] eqn:El.
  { intros [= <- <-]. split; [done|by left]. }
  destruct (given (connStrPort text)) eqn:Eg; [destruct (find _ (by_port ic)) as [[id' db']|] eqn:Ep|].
  - intros [= <- <-]. apply (ranged by_port) in Ep as [H E]; [|done]. apply streq_spec in E. eauto 6.
  - intros H. apply (ranged by_container) in H as [H E]; [|done]. apply streq_spec in E. eauto.
  - intros H. apply (ranged by_container) in H as [H E]; [|done]. apply streq_spec in E. eauto.
Qed.

(** The three ways a database is hosted. *)
Definition in_pod_of (ic : InfraConfig) (db : DBServer) (h : resolvedHost) : Prop :=
  exists k8s, K8sClusters ic !! db_K8sCluster db = Some k8s /\ h_K8sContext h = k8s_Context k8s /\
    h_K8sPodSelector h = K8sPodSelector db /\ given (h_K8sPodSelector h) = true /\ given (h_K8sNamespace h) = true /\
    h_Runtime h = "" /\ h_SystemdUnit h = "" /\ h_ContainerName h = "".

Definition on_machine (ic : InfraConfig) (db : DBServer) (h : resolvedHost) : Prop :=
  exists vm, VMs ic !! VMName db = Some vm /\ h_Runtime h = Runtime vm /\ h_ContainerName h = ContainerName db /\
    h_SystemdUnit h = SystemdUnit db /\ h_K8sPodSelector h = "" /\
    ((container_runtime (Runtime vm) = true /\ given (ContainerName db) = true) \/
     (Runtime vm = "" /\ given (SystemdUnit db) = true)).

Lemma host_of_spec ic id db h : host_of ic id db = Ok h ->
  h_Tags h = db_Tags db /\ h_Sensitivity h = db_Sensitivity db /\
  if given (db_K8sCluster db) then in_pod_of ic db h else on_machine ic db h.
Proof.
  unfold host_of, k8s_host, vm_host, in_pod_of, on_machine. destruct (given (db_K8sCluster db)).
  - destruct (K8sClusters ic !! _) as [k8s|] eqn:Ek; [|done]. destruct (K8sPodSelector db =?s "") eqn:Es; [done|].
    intros [= <-]. split; [done|]. split; [done|]. exists k8s. split_and!; try done.
    + unfold given. cbn. by rewrite Es.
    + unfold or_default, given. cbn. destruct (K8sNamespace db =?s "") eqn:En; [done|]. by rewrite En.
  - destruct (VMName db =?s ""); [done|]. destruct (VMs ic !! _) as [vm|] eqn:Ev; [|done]. cbn -[container_runtime].
    destruct (container_runtime (Runtime vm)) eqn:Ec.
    + destruct (ContainerName db =?s "") eqn:En; [done|]. intros [= <-]. split; [done|]. split; [done|].
      exists vm. repeat (split; [done|]). left. unfold given. by rewrite En.
    + destruct (Runtime vm =?s "") eqn:Er; [|done]. destruct (SystemdUnit db =?s "") eqn:Eu; [done|].
      intros [= <-]. split; [done|]. split; [done|]. exists vm. repeat (split; [done|]). right.
      apply streq_spec in Er. unfold given. by rewrite Eu.
Qed.

(** A host that is resolved is one of the inventory: the server that the text names or
    stands for, with its tags and sensitivity, and with what its way of hosting needs, so
    that its runtime is known. *)
Theorem hosts_come_from_inventory by_port by_container ic target h :
  ranges_over by_port -> ranges_over by_container -> resolveHost by_port by_container (Some ic) target = Ok h ->
  (exists id db, DBServers ic !! id = Some db /\ names ic (trim_space target) id db /\
     h_Tags h = db_Tags db /\ h_Sensitivity h = db_Sensitivity db /\ (in_pod_of ic db h \/ on_machine ic db h)) /\
  containerRuntimeBin h = Ok (h_Runtime h).
Proof.
  intros Hp Hc. unfold resolveHost. destruct (find_server _ _ _ _) as [[id db]|] eqn:Ef; [|done].
  apply find_server_names in Ef as [Hl Hn]; [|done..]. intros H. apply host_of_spec in H as (Ht & Hs & Hk). split.
  - exists id, db. split_and!; try done. destruct (given (db_K8sCluster db)); auto.
  - unfold containerRuntimeBin. destruct (given (db_K8sCluster db)).
    + destruct Hk as (k8s & _ & _ & _ & _ & _ & Hr & _). by rewrite Hr.
    + destruct Hk as (vm & _ & Hr & _ & _ & _ & [[Hrt _]|[Hrt _]]); rewrite Hr; [by rewrite Hrt|by rewrite Hrt].
Qed.

(** A registration is seen by the tools at once, and by name the servers that do not
    share its machine resolve as before. *)
Theorem registered_host_resolved by_port by_container args infraConfig ic :
  registerInfraDB args infraConfig = Ok ic ->
  trim_space (rg_ServerID args) = rg_ServerID args -> container_runtime (or_default "docker" (rg_Runtime args)) = true ->
  resolveHost by_port by_container (Some ic) (rg_ServerID args) =
    Ok {| h_Runtime := or_default "docker" (rg_Runtime args); h_ContainerName := rg_ContainerName args; h_SystemdUnit := "";
          h_K8sContext := ""; h_K8sNamespace := ""; h_K8sPodSelector := ""; h_Tags := ["chaos"; "test"]; h_Sensitivity := [] |} /\
  (forall old text db, infraConfig = Some old -> DBServers old !! trim_space text = Some db ->
     trim_space text <> rg_ServerID args -> VMName db <> localVMKey ->
     resolveHost by_port by_container (Some ic) text = resolveHost by_port by_container (Some old) text).
Proof.
  unfold registerInfraDB. destruct (rg_ServerID args =?s ""); [done|]. destruct (rg_ContainerName args =?s "") eqn:Ec; [done|].
  intros [= <-] Ht Hr. split.
  - unfold resolveHost, find_server. rewrite Ht. cbn [DBServers]. rewrite lookup_insert_eq.
    unfold host_of, vm_host. cbn -[or_default container_runtime lookup localVMKey]. rewrite lookup_insert_eq.
    cbn -[or_default container_runtime]. by rewrite Hr, Ec.
  - intros old text db -> Hl Hne Hvm. unfold resolveHost, find_server. cbn [DBServers].
    rewrite lookup_insert_ne, Hl by congruence. unfold host_of, k8s_host, vm_host. cbn [K8sClusters VMs].
    by rewrite lookup_insert_ne by congruence.
Qed.

(** ** Concrete runs *)

Module SysToy.

Definition db (name conn cluster vm container unit tag : string) : DBServer :=
  {| db_Name := name; ConnectionString := conn; PasswordEnv := ""; db_K8sCluster := cluster; K8sNamespace := "";
     K8sPodSelector := if given cluster then "app=" ++ name else ""; VMName := vm; ContainerName := container;
     SystemdUnit := unit; db_Tags := [tag]; db_Sensitivity := []; ApprovalOverrideRoles := [] |}.

Definition inventory : InfraConfig :=
  {| DBServers := list_to_map [
       ("orders", db "orders" "host=db1 port=5432" "" "vm1" "orders-pg" "" "staging");
       ("billing", db "billing" "host=db2 port=5433" "" "vm1" "billing-pg" "pg-billing" "production");
       ("ledger", db "ledger" "host=db3 port=5434" "" "vm2" "" "postgresql" "staging");
       ("events", db "events" "host=db4 port=5435" "blue" "" "events-pg" "" "staging")];
     K8sClusters := {[ "blue" := {| k8s_Name := "blue"; k8s_Context := "blue-ctx"; k8s_Tags := []; k8s_Sensitivity := [] |} ]};
     VMs := list_to_map [("vm1", {| vm_Name := "vm1"; Address := "10.0.0.1"; Runtime := "docker" |});
                         ("vm2", {| vm_Name := "vm2"; Address := "10.0.0.2"; Runtime := "" |})] |}.

Definition order (ic : InfraConfig) : Servers := map_to_list (DBServers ic).

(** Restarts of staging and of tests are allowed, but not of [orders]. *)
Definition engine : Engine :=
  let policy name priority rname tags effect :=
    {| pol_Name := name; pol_Description := ""; pol_Enabled := None; pol_Priority := priority; pol_Principals := [];
       pol_Resources := [{| rs_Type := "host"; rs_Match := {| rm_Name := rname; rm_NamePattern := ""; rm_Tags := tags;
         rm_Namespace := ""; rm_Sensitivity := []; rm_Tool := ""; rm_ToolPattern := "" |} |}];
       pol_Rules := [{| rl_Action := [ActionDestructive]; rl_Effect := effect; rl_Message := ""; rl_Conditions := None |}] |} in
  {| config := {| Version := "1"; Policies := [
       policy "keep-orders" 20%Z "orders" [] EffectDeny; policy "staging" 10%Z "" ["staging"] EffectAllow;
       policy "tests" 5%Z "" ["chaos"] EffectAllow] |};
     defaultEffect := EffectDeny; dryRun := false |}.

Definition agent : SysAgent :=
  {| sy_policyEnforcer := Some {| pe_engine := Some engine; policyCheckURL := ""; pe_trace := Some "tr_9"; pe_approvals := false;
       pe_agentName := "sysadmin_agent"; pe_auditor := true; requirePurposeForSensitive := false |};
     sy_toolAuditor := Some {| ta_audited := true; ta_agentName := "sysadmin_agent"; ta_sessionID := "s" |};
     sy_traceID := "tr_9" |}.

Definition start (ic : InfraConfig) : SysWorld (S := Served) :=
  {| sw_infra := Some ic; sw_api := auditd_with []; sw_recorded := []; sw_events := []; sw_commands := [] |}.

#[local] Instance as_listed : SliceSort newer_file.
Proof.
  refine {| slice_sort := isort newer_file; slice_sort_perm := isort_perm newer_file;
            slice_sort_sorted := isort_sorted newer_file _ _ |}.
  - intros a b. unfold newer_file, After. intros H. apply Z.ltb_lt in H. apply Z.ltb_ge. lia.
  - intros a b c. unfold newer_file, After. intros H1 H2. apply Z.ltb_ge in H1, H2. apply Z.ltb_ge. lia.
Defined.

Definition call (ic : InfraConfig) (d : SysCall) : SysWorld (S := Served) * result string SysResult :=
  run_sys "fix" no_zones (fun _ => "") Hours sample_clock (fun _ => None) agent order order (fun _ _ => ("ok", None))
    (fun _ => 0%Z) (fun _ => "e") (fun _ => Ok "/tmp/pg_log_1") (fun _ => Ok []) (fun _ _ => Err "") (sample_ctx "" "")
    d (start ic).

Definition commands_of (ic : InfraConfig) (d : SysCall) : list string := map command_text (sw_commands (call ic d).1).

(** Rules about a name see the text of the target: the container's name goes past the
    rule that keeps the server, and so does its port. *)
Example name_rule_not_seen :
  commands_of inventory (RestartContainer "orders" "r") = [] /\
  commands_of inventory (RestartContainer "orders-pg" "r") = ["docker restart orders-pg"] /\
  commands_of inventory (RestartContainer "host=elsewhere port=5432" "r") = ["docker restart orders-pg"].
Proof. vm_compute. repeat split. Qed.

(** No text stands for a server whose container has no name. *)
Example blank_target_restarts : commands_of inventory (RestartService " " "r") = ["systemctl restart postgresql"].
Proof. vm_compute. reflexivity. Qed.

(** A registration under the name of a configured server takes its tags away, and with
    them the rules that keep it. *)
Definition taken_over : InfraConfig :=
  match registerInfraDB {| rg_ServerID := "billing"; rg_ContainerName := "billing-pg"; rg_Runtime := ""; rg_ConnStr := "" |}
          (Some inventory) with Ok ic => ic | Err _ => inventory end.

Example registration_drops_tags :
  commands_of inventory (RestartContainer "billing" "r") = [] /\
  commands_of taken_over (RestartContainer "billing" "r") = ["docker restart billing-pg"].
Proof. vm_compute. split; reflexivity. Qed.

(** The disk of a systemd target is the disk of the agent's machine. *)
Example disk_of_the_agent :
  commands_of inventory (CheckDisk "ledger" false) = ["df -h"] /\
  (call inventory (CheckDisk "ledger" false)).2 = Ok (Usage {| us_ServerID := "ledger"; us_Output := "ok" |}).
Proof. vm_compute. split; reflexivity. Qed.

(** A database in a cluster is looked up in systemd, under no name. *)
Example pod_is_no_service :
  commands_of inventory (CheckHost "events") =
    ["systemctl show --property=ActiveState,SubState,Result,MainPID,ExecMainStartTimestamp "] /\
  commands_of inventory (ReadPgLogFile "events" 0 "" "") =
    ["kubectl --context blue-ctx get pod -l app=events -n default -o jsonpath={.items[0].metadata.name}";
     "kubectl --context blue-ctx exec ok -n default -- ls -t /var/lib/postgresql/data/log";
     "kubectl --context blue-ctx get pod -l app=events -n default -o jsonpath={.items[0].metadata.name}";
     "kubectl --context blue-ctx exec ok -n default -- tail -n 100 /var/lib/postgresql/data/log/ok"].
Proof. vm_compute. split; reflexivity. Qed.

(** A unit is restarted also when the database runs in a container. *)
Example unit_of_a_container :
  exists h, resolveHost order order (Some taken_over) "billing" = Ok h /\ h_SystemdUnit h = "" /\
  exists h', resolveHost order order (Some inventory) "billing" = Ok h' /\ h_Runtime h' = "docker" /\
    restart_service_command h' = {| sc_name := "systemctl"; sc_args := ["restart"; "pg-billing"] |}.
Proof. eexists. split; [vm_compute; reflexivity|]. split; [done|]. eexists. split; [vm_compute; reflexivity|]. done. Qed.

(** All registrations share one machine: the last one decides the runtime. *)
Example shared_runtime :
  let add name runtime iv :=
    match registerInfraDB {| rg_ServerID := name; rg_ContainerName := name; rg_Runtime := runtime; rg_ConnStr := "" |} iv with
    | Ok ic => Some ic | Err _ => iv end in
  match resolveHost order order (add "b" "podman" (add "a" "docker" None)) "a" with Ok h => h_Runtime h | Err _ => "" end
    = "podman".
Proof. vm_compute. reflexivity. Qed.

(** The port of a text: from a field, after the last colon, or the whole text. *)
Example ports :
  map connStrPort ["host=a port=5432"; "postgres://u@h:6432/db?x"; "h:7432"; "5432"; "orders"; "a:b"; ""] =
    ["5432"; "6432"; "7432"; "5432"; ""; "b"; ""].
Proof. vm_compute. reflexivity. Qed.
End SysToy.

(** [resolveHost] over an order of its own gives what the theorem says. *)
Lemma hosts_come_from_inventory_witness :
  exists id db, DBServers SysToy.inventory !! id = Some db /\ ContainerName db = "orders-pg" /\ db_Tags db = ["staging"].
Proof.
  assert (E : resolveHost SysToy.order SysToy.order (Some SysToy.inventory) "orders-pg" =
    Ok {| h_Runtime := "docker"; h_ContainerName := "orders-pg"; h_SystemdUnit := ""; h_K8sContext := ""; h_K8sNamespace := "";
          h_K8sPodSelector := ""; h_Tags := ["staging"]; h_Sensitivity := [] |}) by (vm_compute; reflexivity).
  assert (Ho : ranges_over SysToy.order) by (intros ic; reflexivity).
  destruct (hosts_come_from_inventory SysToy.order SysToy.order SysToy.inventory "orders-pg" _ Ho Ho E)
    as [(id & db & Hl & _ & Ht & _ & Hk) _].
  exists id, db. split; [exact Hl|]. split; [|by rewrite <- Ht].
  destruct Hk as [(? & _ & _ & _ & _ & _ & Hr & _)|(? & _ & _ & Hc & _)]; [discriminate|by rewrite <- Hc].
Defined.

Lemma registered_host_resolved_witness :
  exists h, resolveHost SysToy.order SysToy.order (Some SysToy.taken_over) "billing" = Ok h /\ h_Tags h = ["chaos"; "test"].
Proof.
  destruct (registered_host_resolved SysToy.order SysToy.order
    {| rg_ServerID := "billing"; rg_ContainerName := "billing-pg"; rg_Runtime := ""; rg_ConnStr := "" |}
    (Some SysToy.inventory) SysToy.taken_over eq_refl ltac:(vm_compute; reflexivity) ltac:(vm_compute; reflexivity)) as [H _].
  eexists. split; [exact H|reflexivity].
Defined.
