(* ===== verification/IncidentAgent.v ===== *)
(** * The incident agent

    agents/incident/tools.go and bundle.go: the diagnostic commands of the four layers, the
    bundle with its manifest, the index of incidents, the request for a playbook draft and
    the callback, and the tool that lists the index.  Parameters: what the commands print,
    the encodings, what the file system refuses, the order of iteration over the maps of
    files, the gateway, the clock and the fresh id.  A directory is a path without redundant
    elements.  The logging of failed callbacks is left out. *)

From S2P Require Import K8sTools.
From S2P Require Import Prelude GoTime TimeText Events PlaybookText PlaybookStore Enforcer ToolAudit PlaybookDraft.

Open Scope string_scope.

(** ** Commands *)

(** A diagnostic command: the file its output goes to, the program that names its error,
    the text for an empty output and the arguments, the program first. *)
Record Item := { it_file : string; it_program : string; it_quiet : string; it_argv : list string }.

Definition version_sql : string :=
  "SELECT version(), current_database(), current_user, inet_server_addr(), inet_server_port();".

Definition databases_sql : string :=
  "SELECT" ++ nl ++
  "			d.datname as database," ++ nl ++
  "			pg_size_pretty(pg_database_size(d.datname)) as size," ++ nl ++
  "			pg_catalog.pg_get_userbyid(d.datdba) as owner," ++ nl ++
  "			pg_catalog.pg_encoding_to_char(d.encoding) as encoding," ++ nl ++
  "			d.datcollate as collation," ++ nl ++
  "			d.datconnlimit as connection_limit," ++ nl ++
  "			CASE WHEN pg_is_in_recovery() THEN 'Yes' ELSE 'No' END as in_recovery" ++ nl ++
  "		FROM pg_database d" ++ nl ++
  "		WHERE d.datistemplate = false" ++ nl ++
  "		ORDER BY pg_database_size(d.datname) DESC;".

Definition active_connections_sql : string :=
  "SELECT" ++ nl ++
  "			pid, usename as user, datname as database, client_addr, state," ++ nl ++
  "			wait_event_type, wait_event," ++ nl ++
  "			EXTRACT(EPOCH FROM (now() - query_start))::int as query_seconds," ++ nl ++
  "			LEFT(query, 200) as query_preview" ++ nl ++
  "		FROM pg_stat_activity" ++ nl ++
  "		WHERE pid != pg_backend_pid() AND state != 'idle'" ++ nl ++
  "		ORDER BY query_start ASC NULLS LAST" ++ nl ++
  "		LIMIT 100;".

Definition connection_stats_sql : string :=
  "SELECT" ++ nl ++
  "			datname as database," ++ nl ++
  "			COUNT(*) as total_connections," ++ nl ++
  "			COUNT(*) FILTER (WHERE state = 'active') as active," ++ nl ++
  "			COUNT(*) FILTER (WHERE state = 'idle') as idle," ++ nl ++
  "			COUNT(*) FILTER (WHERE state = 'idle in transaction') as idle_in_transaction," ++ nl ++
  "			COUNT(*) FILTER (WHERE wait_event_type = 'Lock') as waiting_on_lock," ++ nl ++
  "			(SELECT setting::int FROM pg_settings WHERE name = 'max_connections') as max_connections" ++ nl ++
  "		FROM pg_stat_activity" ++ nl ++
  "		GROUP BY datname" ++ nl ++
  "		ORDER BY total_connections DESC;".

Definition database_stats_sql : string :=
  "SELECT" ++ nl ++
  "			datname as database, numbackends as connections," ++ nl ++
  "			xact_commit as commits, xact_rollback as rollbacks," ++ nl ++
  "			blks_read as blocks_read, blks_hit as cache_hits," ++ nl ++
  "			ROUND(100.0 * blks_hit / NULLIF(blks_read + blks_hit, 0), 2) as cache_hit_ratio," ++ nl ++
  "			tup_returned as rows_returned, tup_fetched as rows_fetched," ++ nl ++
  "			tup_inserted as rows_inserted, tup_updated as rows_updated, tup_deleted as rows_deleted," ++ nl ++
  "			conflicts, deadlocks" ++ nl ++
  "		FROM pg_stat_database" ++ nl ++
  "		WHERE datname NOT LIKE 'template%'" ++ nl ++
  "		ORDER BY numbackends DESC;".

Definition config_params_sql : string :=
  "SELECT name, setting, unit, short_desc" ++ nl ++
  "		FROM pg_settings" ++ nl ++
  "		WHERE name IN (" ++ nl ++
  "			'max_connections', 'shared_buffers', 'effective_cache_size'," ++ nl ++
  "			'work_mem', 'maintenance_work_mem', 'wal_level'," ++ nl ++
  "			'max_wal_senders', 'max_replication_slots', 'hot_standby'," ++ nl ++
  "			'listen_addresses', 'port', 'log_min_duration_statement'," ++ nl ++
  "			'statement_timeout', 'lock_timeout', 'idle_in_transaction_session_timeout'" ++ nl ++
  "		)" ++ nl ++
  "		ORDER BY name;".

Definition replication_status_sql : string :=
  "SELECT" ++ nl ++
  "			CASE WHEN pg_is_in_recovery() THEN 'Replica' ELSE 'Primary' END as role," ++ nl ++
  "			pg_is_in_recovery() as is_in_recovery;" ++ nl ++
  "		SELECT client_addr, usename as user, application_name, state, sync_state," ++ nl ++
  "			pg_wal_lsn_diff(sent_lsn, write_lsn) as write_lag_bytes," ++ nl ++
  "			pg_wal_lsn_diff(sent_lsn, flush_lsn) as flush_lag_bytes," ++ nl ++
  "			pg_wal_lsn_diff(sent_lsn, replay_lsn) as replay_lag_bytes" ++ nl ++
  "		FROM pg_stat_replication;" ++ nl ++
  "		SELECT slot_name, slot_type, active," ++ nl ++
  "			pg_wal_lsn_diff(pg_current_wal_lsn(), restart_lsn) as lag_bytes" ++ nl ++
  "		FROM pg_replication_slots;".

Definition locks_sql : string :=
  "SELECT" ++ nl ++
  "			blocked_locks.pid AS blocked_pid," ++ nl ++
  "			blocked_activity.usename AS blocked_user," ++ nl ++
  "			blocking_locks.pid AS blocking_pid," ++ nl ++
  "			blocking_activity.usename AS blocking_user," ++ nl ++
  "			blocked_activity.query AS blocked_query," ++ nl ++
  "			blocking_activity.query AS blocking_query" ++ nl ++
  "		FROM pg_catalog.pg_locks blocked_locks" ++ nl ++
  "		JOIN pg_catalog.pg_stat_activity blocked_activity ON blocked_activity.pid = blocked_locks.pid" ++ nl ++
  "		JOIN pg_catalog.pg_locks blocking_locks" ++ nl ++
  "			ON blocking_locks.locktype = blocked_locks.locktype" ++ nl ++
  "			AND blocking_locks.database IS NOT DISTINCT FROM blocked_locks.database" ++ nl ++
  "			AND blocking_locks.relation IS NOT DISTINCT FROM blocked_locks.relation" ++ nl ++
  "			AND blocking_locks.page IS NOT DISTINCT FROM blocked_locks.page" ++ nl ++
  "			AND blocking_locks.tuple IS NOT DISTINCT FROM blocked_locks.tuple" ++ nl ++
  "			AND blocking_locks.virtualxid IS NOT DISTINCT FROM blocked_locks.virtualxid" ++ nl ++
  "			AND blocking_locks.transactionid IS NOT DISTINCT FROM blocked_locks.transactionid" ++ nl ++
  "			AND blocking_locks.classid IS NOT DISTINCT FROM blocked_locks.classid" ++ nl ++
  "			AND blocking_locks.objid IS NOT DISTINCT FROM blocked_locks.objid" ++ nl ++
  "			AND blocking_locks.objsubid IS NOT DISTINCT FROM blocked_locks.objsubid" ++ nl ++
  "			AND blocking_locks.pid != blocked_locks.pid" ++ nl ++
  "		JOIN pg_catalog.pg_stat_activity blocking_activity ON blocking_activity.pid = blocking_locks.pid" ++ nl ++
  "		WHERE NOT blocked_locks.granted;".

Definition table_stats_sql : string :=
  "SELECT" ++ nl ++
  "			schemaname, relname as table_name," ++ nl ++
  "			pg_size_pretty(pg_total_relation_size(relid)) as total_size," ++ nl ++
  "			n_live_tup as live_rows, n_dead_tup as dead_rows," ++ nl ++
  "			ROUND(100.0 * n_dead_tup / NULLIF(n_live_tup + n_dead_tup, 0), 2) as dead_ratio," ++ nl ++
  "			last_vacuum, last_autovacuum, last_analyze, last_autoanalyze," ++ nl ++
  "			seq_scan, idx_scan" ++ nl ++
  "		FROM pg_stat_user_tables" ++ nl ++
  "		ORDER BY pg_total_relation_size(relid) DESC" ++ nl ++
  "		LIMIT 30;".

Definition database_queries : list (string * string) :=
  [("version.txt", version_sql);
   ("databases.txt", databases_sql);
   ("active_connections.txt", active_connections_sql);
   ("connection_stats.txt", connection_stats_sql);
   ("database_stats.txt", database_stats_sql);
   ("config_params.txt", config_params_sql);
   ("replication_status.txt", replication_status_sql);
   ("locks.txt", locks_sql);
   ("table_stats.txt", table_stats_sql)].

(** [runPsqlExec]: the connection string is the first argument. *)
Definition psql_item (connStr : string) (q : string * string) : Item :=
  {| it_file := fst q; it_program := "psql"; it_quiet := "(no output from psql)";
     it_argv := "psql" :: (if connStr =?s "" then [] else [connStr]) ++ ["-c"; snd q; "-x"] |}.

Definition kubectl_item (kubeContext : string) (c : string * list string) : Item :=
  {| it_file := fst c; it_program := "kubectl"; it_quiet := "(no output from kubectl)";
     it_argv := "kubectl" :: "--request-timeout=10s" ::
       (if kubeContext =?s "" then [] else ["--context"; kubeContext]) ++ snd c |}.

Definition host_item (file name : string) (args : list string) : Item :=
  {| it_file := file; it_program := name; it_quiet := "(no output)"; it_argv := name :: args |}.

Definition kubernetes_commands (namespace : string) : list (string * list string) :=
  [("pods.txt", ["get"; "pods"; "-o"; "wide"; "-n"; namespace]);
   ("pods_all.txt", ["get"; "pods"; "-o"; "wide"; "--all-namespaces"]);
   ("services.txt", ["get"; "svc"; "-o"; "wide"; "-n"; namespace]);
   ("endpoints.txt", ["get"; "endpoints"; "-o"; "wide"; "-n"; namespace]);
   ("events.txt", ["get"; "events"; "--sort-by=.lastTimestamp"; "-n"; namespace]);
   ("nodes.txt", ["get"; "nodes"; "-o"; "wide"]);
   ("top_nodes.txt", ["top"; "nodes"]);
   ("top_pods.txt", ["top"; "pods"; "-n"; namespace])].

Definition os_items (darwin : bool) : list Item :=
  if darwin then
    [host_item "uname.txt" "uname" ["-a"];
     host_item "uptime.txt" "uptime" [];
     host_item "hostname.txt" "hostname" [];
     host_item "top.txt" "top" ["-l"; "1"; "-n"; "20"; "-s"; "0"];
     host_item "ps.txt" "ps" ["aux"];
     host_item "vm_stat.txt" "vm_stat" [];
     host_item "sysctl.txt" "sysctl" ["-a"]]
  else
    [host_item "uname.txt" "uname" ["-a"];
     host_item "uptime.txt" "uptime" [];
     host_item "hostname.txt" "hostname" [];
     host_item "top.txt" "top" ["-b"; "-n"; "1"];
     host_item "ps.txt" "ps" ["aux"; "--sort=-pcpu"];
     host_item "free.txt" "free" ["-h"];
     host_item "vmstat.txt" "vmstat" ["1"; "3"];
     host_item "dmesg.txt" "dmesg" ["--time-format=iso"; "-T"];
     host_item "sysctl.txt" "sysctl" ["-a"]].

Definition storage_items (darwin : bool) : list Item :=
  if darwin then
    [host_item "df.txt" "df" ["-h"];
     host_item "df_inodes.txt" "df" ["-i"];
     host_item "mount.txt" "mount" [];
     host_item "diskutil.txt" "diskutil" ["list"];
     host_item "iostat.txt" "iostat" ["-c"; "3"; "-w"; "1"]]
  else
    [host_item "df.txt" "df" ["-h"];
     host_item "df_inodes.txt" "df" ["-i"];
     host_item "mount.txt" "mount" [];
     host_item "lsblk.txt" "lsblk" ["-f"];
     host_item "iostat.txt" "iostat" ["-x"; "1"; "3"]].

(** ** The index and the results *)

Record Manifest := {
  m_IncidentID : string; m_InfraKey : string; m_Description : string; m_Timestamp : Time;
  m_Layers : list string; m_Errors : list string }.

Record IndexEntry := {
  ix_IncidentID : string; ix_InfraKey : string; ix_Description : string; ix_Timestamp : string;
  ix_BundlePath : string; ix_Layers : list string; ix_ErrorCount : Z }.

Record CreateIncidentBundleArgs := {
  InfraKey : string; ib_Description : string; ib_ConnectionString : string; K8sContext : string;
  K8sNamespace : string; CallbackURL : string; ib_Outcome : string; GeneratePlaybookDraft : bool }.

Record IncidentBundleResult := {
  ib_IncidentID : string; BundlePath : string; ib_Timestamp : string; ib_Layers : list string;
  ib_Errors : list string; ib_PlaybookDraft : string; ib_PlaybookID : string }.

(** The index file: absent, with a text that cannot be read, or a text. *)
Inductive IndexFile :=
  | NoIndex
  | Unreadable (e s : string)
  | IndexText (s : string).

(** A bundle on disk: its path and its entries, or nothing when it was not written to its
    end.  The commands run are kept with their arguments. *)
Record IncidentWorld := {
  iw_commands : list (list string);
  iw_bundles : list (string * option (list (string * string)));
  iw_index : IndexFile;
  iw_events : list Event;
  iw_drafts : list (string * string);
  iw_callbacks : list (string * IncidentBundleResult) }.

Definition ran (argv : list string) (w : IncidentWorld) : IncidentWorld :=
  {| iw_commands := iw_commands w ++ [argv]; iw_bundles := iw_bundles w; iw_index := iw_index w;
     iw_events := iw_events w; iw_drafts := iw_drafts w; iw_callbacks := iw_callbacks w |}.

Definition bundled (path : string) (entries : option (list (string * string))) (w : IncidentWorld) : IncidentWorld :=
  {| iw_commands := iw_commands w; iw_bundles := iw_bundles w ++ [(path, entries)]; iw_index := iw_index w;
     iw_events := iw_events w; iw_drafts := iw_drafts w; iw_callbacks := iw_callbacks w |}.

Definition indexed (i : IndexFile) (w : IncidentWorld) : IncidentWorld :=
  {| iw_commands := iw_commands w; iw_bundles := iw_bundles w; iw_index := i; iw_events := iw_events w;
     iw_drafts := iw_drafts w; iw_callbacks := iw_callbacks w |}.

Definition recorded (l : list Event) (w : IncidentWorld) : IncidentWorld :=
  {| iw_commands := iw_commands w; iw_bundles := iw_bundles w; iw_index := iw_index w;
     iw_events := iw_events w ++ l; iw_drafts := iw_drafts w; iw_callbacks := iw_callbacks w |}.

Definition asked (traceID outcome : string) (w : IncidentWorld) : IncidentWorld :=
  {| iw_commands := iw_commands w; iw_bundles := iw_bundles w; iw_index := iw_index w; iw_events := iw_events w;
     iw_drafts := iw_drafts w ++ [(traceID, outcome)]; iw_callbacks := iw_callbacks w |}.

Definition called_back (url : string) (r : IncidentBundleResult) (w : IncidentWorld) : IncidentWorld :=
  {| iw_commands := iw_commands w; iw_bundles := iw_bundles w; iw_index := iw_index w; iw_events := iw_events w;
     iw_drafts := iw_drafts w; iw_callbacks := iw_callbacks w ++ [(url, r)] |}.

(** [Format("20060102-150405")] of a time in UTC. *)
Definition compact_time (t : Time) : string :=
  let '(y, m, d) := civil (t / Day) in
  padded 4 y ++ padded 2 m ++ padded 2 d ++ "-" ++
  padded 2 (GoTime.Hour t) ++ padded 2 (t / Minute mod 60) ++ padded 2 (t / Second mod 60).

(** [filepath.Join] of clean elements. *)
Definition join_path (dir name : string) : string := if dir =?s "." then name else dir ++ "/" ++ name.

Definition indexFileName : string := "incidents.json".

(** The gateway behind [HELPDESK_GATEWAY_URL]. *)
Inductive GatewayAnswer :=
  | NoAnswer (e : string)
  | GatewayAnswered (r : DraftReply).

Section Incident.
(** The process: its environment, whether it runs on macOS, its auditor, the trace of the
    current request. *)
Context (incident_dir gateway_url : string) (darwin : bool) (auditor : option ToolAuditor)
  (cell : option string) (c : Ctx).
(** What the [n]-th command prints, with its error. *)
Context (exec : nat -> list string -> string * option string).
(** The file system: the error of creating the bundle, of writing its [n]-th entry, whether
    the compressed end of the bundle is written, the error of writing the index. *)
Context (create_error : option string) (tar_error : nat -> option string) (flushed : bool)
  (index_error : option string).
(** The encodings, the orders of iteration, the gateway. *)
Context (marshal_manifest : Manifest -> string) (marshal_result : IncidentBundleResult -> string).
Context (encode_index : list IndexEntry -> string) (decode_index : string -> result string (list IndexEntry)).
Context (layer_order : list (string * list (string * string)) -> list (string * list (string * string))).
Context (file_order : list (string * string) -> list (string * string)).
Context (gateway : string -> string -> GatewayAnswer) (now : Time) (elapsed : Z) (incidentID uuid8 traceID : string).

(** ** The layers *)

(** The output of a command, or its error. *)
Definition item_result (n : nat) (it : Item) : result string string :=
  match exec n (it_argv it) with
  | (output, None) => Ok output
  | (output, Some e) =>
      Err (it_program it ++ " failed: " ++ e ++ nl ++ "Output: " ++ or_default (it_quiet it) (trim_space output))
  end.

Definition item_content (r : result string string) : string :=
  match r with Ok output => output | Err e => "ERROR: " ++ e end.

Definition item_error (layer : string) (it : Item) (r : result string string) : list string :=
  match r with Ok _ => [] | Err e => [layer ++ "/" ++ it_file it ++ ": " ++ e] end.

(** The files of a layer and its errors. *)
Fixpoint collect (layer : string) (items : list Item) (w : IncidentWorld)
    : IncidentWorld * (list (string * string) * list string) :=
  match items with
  | [] => (w, ([], []))
  | it :: items =>
      let r := item_result (length (iw_commands w)) it in
      let '(w', (files, errs)) := collect layer items (ran (it_argv it) w) in
      (w', ((it_file it, item_content r) :: files, (item_error layer it r ++ errs)%list))
  end.

Definition collectDatabaseLayer (connStr : string) : IncidentWorld -> IncidentWorld * (list (string * string) * list string) :=
  collect "database" (map (psql_item connStr) database_queries).
Definition collectKubernetesLayer (kubeContext namespace : string)
    : IncidentWorld -> IncidentWorld * (list (string * string) * list string) :=
  collect "kubernetes" (map (kubectl_item kubeContext) (kubernetes_commands namespace)).
Definition collectOSLayer : IncidentWorld -> IncidentWorld * (list (string * string) * list string) :=
  collect "os" (os_items darwin).
Definition collectStorageLayer : IncidentWorld -> IncidentWorld * (list (string * string) * list string) :=
  collect "storage" (storage_items darwin).

(** The layers of a request with their commands. *)
Definition planned (args : CreateIncidentBundleArgs) : list (string * list Item) :=
  let namespace := or_default "default" (K8sNamespace args) in
  ((if ib_ConnectionString args =?s "" then []
    else [("database", map (psql_item (ib_ConnectionString args)) database_queries)]) ++
   (if K8sContext args =?s "" then []
    else [("kubernetes", map (kubectl_item (K8sContext args)) (kubernetes_commands namespace))]) ++
   [("os", os_items darwin); ("storage", storage_items darwin)])%list.

Record Collected := { co_layers : list (string * list (string * string)); co_errors : list string }.

Definition nothing_collected : Collected := {| co_layers := []; co_errors := [] |}.

(** One layer more. *)
Definition add_layer (name : string) (run : IncidentWorld -> IncidentWorld * (list (string * string) * list string))
    (acc : IncidentWorld * Collected) : IncidentWorld * Collected :=
  let '(w, (files, errs)) := run (fst acc) in
  (w, {| co_layers := co_layers (snd acc) ++ [(name, files)]; co_errors := co_errors (snd acc) ++ errs |}).

Definition collect_layers (args : CreateIncidentBundleArgs) (w : IncidentWorld) : IncidentWorld * Collected :=
  let acc := (w, nothing_collected) in
  let acc := if ib_ConnectionString args =?s "" then acc
             else add_layer "database" (collectDatabaseLayer (ib_ConnectionString args)) acc in
  let acc := if K8sContext args =?s "" then acc
             else add_layer "kubernetes"
                    (collectKubernetesLayer (K8sContext args) (or_default "default" (K8sNamespace args))) acc in
  add_layer "storage" collectStorageLayer (add_layer "os" collectOSLayer acc).

(** ** The bundle *)

Definition bundle_prefix (m : Manifest) : string := "incident-" ++ m_IncidentID m ++ "-" ++ compact_time (m_Timestamp m).

Definition layer_entries (prefix : string) (layer : string * list (string * string)) : list (string * string) :=
  map (fun f => (prefix ++ "/" ++ fst layer ++ "/" ++ fst f, snd f)) (file_order (snd layer)).

Definition tar_entries (m : Manifest) (layers : list (string * list (string * string))) : list (string * string) :=
  let prefix := bundle_prefix m in
  let in_bundle name := prefix ++ "/" ++ name in
  ((in_bundle "manifest.json", marshal_manifest m) ::
   flat_map (layer_entries prefix) (layer_order layers) ++
   match m_Errors m with [] => [] | errs => [(in_bundle "errors.txt", join nl errs)] end)%list.

(** The first entry that cannot be written. *)
Fixpoint write_entries (n : nat) (entries : list (string * string)) : option string :=
  match entries with
  | [] => None
  | _ :: entries => match tar_error n with Some e => Some e | None => write_entries (S n) entries end
  end.

(** The errors of closing the archive, which ends what is compressed, are not looked at. *)
Definition assembleTarball (m : Manifest) (layers : list (string * list (string * string))) (outputDir : string)
    (w : IncidentWorld) : IncidentWorld * result string string :=
  let outPath := join_path outputDir (bundle_prefix m ++ ".tar.gz") in
  match create_error with
  | Some e => (w, Err ("failed to create tarball: " ++ e))
  | None =>
      let entries := tar_entries m layers in
      match write_entries 0 entries with
      | Some e => (bundled outPath None w, Err e)
      | None => (bundled outPath (if flushed then Some entries else None) w, Ok outPath)
      end
  end.

(** ** The index *)

Definition old_entries (i : IndexFile) : list IndexEntry :=
  match i with
  | IndexText s => match decode_index s with Ok l => l | Err _ => [] end
  | _ => []
  end.

Definition index_entry (m : Manifest) (bundlePath : string) : IndexEntry :=
  {| ix_IncidentID := m_IncidentID m; ix_InfraKey := m_InfraKey m; ix_Description := m_Description m;
     ix_Timestamp := compact_time (m_Timestamp m); ix_BundlePath := bundlePath; ix_Layers := m_Layers m;
     ix_ErrorCount := Z.of_nat (length (m_Errors m)) |}.

(** A file that cannot be read counts as empty and is overwritten. *)
Definition appendToIndex (m : Manifest) (bundlePath : string) (w : IncidentWorld) : IncidentWorld :=
  let entries := (old_entries (iw_index w) ++ [index_entry m bundlePath])%list in
  match index_error with
  | Some _ => w
  | None =>
      match iw_index w with
      | Unreadable e _ => indexed (Unreadable e (encode_index entries)) w
      | _ => indexed (IndexText (encode_index entries)) w
      end
  end.

Definition listIncidentsTool (w : IncidentWorld) : result string (list IndexEntry) :=
  match iw_index w with
  | NoIndex => Ok []
  | Unreadable e _ => Err ("failed to read incidents index: " ++ e)
  | IndexText s =>
      match decode_index s with
      | Ok l => Ok l
      | Err e => Err ("failed to parse incidents index: " ++ e)
      end
  end.

(** ** The draft and the callback *)

Definition doPlaybookDraftRequest (draft_trace outcome : string) : result string (string * string) :=
  if gateway_url =?s "" then Err "HELPDESK_GATEWAY_URL not set"
  else
    match gateway draft_trace outcome with
    | NoAnswer e => Err ("POST from-trace: " ++ e)
    | GatewayAnswered (DraftError code msg) => Err ("gateway returned " ++ itoa code ++ ": " ++ msg)
    | GatewayAnswered (Drafted r) => Ok (dr_Draft r, dr_PlaybookID r)
    end.

Definition should_draft (args : CreateIncidentBundleArgs) : bool :=
  GeneratePlaybookDraft args ||
  ((ib_Outcome args =?s "resolved") || (ib_Outcome args =?s "escalated")) && negb (gateway_url =?s "").

(** The trace of the request, or the incident's id. *)
Definition draft_trace : string :=
  match cell with Some id => or_default incidentID id | None => incidentID end.

Definition with_draft (d : string * string) (r : IncidentBundleResult) : IncidentBundleResult :=
  {| ib_IncidentID := ib_IncidentID r; BundlePath := BundlePath r; ib_Timestamp := ib_Timestamp r;
     ib_Layers := ib_Layers r; ib_Errors := ib_Errors r; ib_PlaybookDraft := fst d; ib_PlaybookID := snd d |}.

Definition request_draft (args : CreateIncidentBundleArgs) (r : IncidentBundleResult) (w : IncidentWorld)
    : IncidentWorld * IncidentBundleResult :=
  if should_draft args then
    let outcome := or_default "resolved" (ib_Outcome args) in
    (if gateway_url =?s "" then w else asked draft_trace outcome w,
     match doPlaybookDraftRequest draft_trace outcome with Ok d => with_draft d r | Err _ => r end)
  else (w, r).

Definition record_bundle (args : CreateIncidentBundleArgs) (r : IncidentBundleResult) : list Event :=
  match auditor with
  | None => []
  | Some ta =>
      RecordToolCall ta now uuid8 traceID c
        {| c_Name := "create_incident_bundle";
           c_Parameters := [("infra_key", AStr (or_default "unknown" (InfraKey args)));
             ("description", AStr (or_default "Diagnostic bundle" (ib_Description args)));
             ("layers", AList (map AStr (ib_Layers r)))];
           c_RawCommand := ""; c_PreState := "" |}
        {| r_Output := marshal_result r; r_Error := "" |} elapsed
  end.

(** ** create_incident_bundle *)

Definition bundle_manifest (args : CreateIncidentBundleArgs) (co : Collected) : Manifest :=
  {| m_IncidentID := incidentID; m_InfraKey := or_default "unknown" (InfraKey args);
     m_Description := or_default "Diagnostic bundle" (ib_Description args); m_Timestamp := now;
     m_Layers := map fst (co_layers co); m_Errors := co_errors co |}.

Definition createIncidentBundleTool (args : CreateIncidentBundleArgs) (w : IncidentWorld)
    : IncidentWorld * result string IncidentBundleResult :=
  let outputDir := or_default "." incident_dir in
  let '(w, co) := collect_layers args w in
  let m := bundle_manifest args co in
  match assembleTarball m (co_layers co) outputDir w with
  | (w, Err e) => (w, Err ("failed to assemble tarball: " ++ e))
  | (w, Ok path) =>
      let w := appendToIndex m path w in
      let r := {| ib_IncidentID := incidentID; BundlePath := path; ib_Timestamp := compact_time now;
                  ib_Layers := m_Layers m; ib_Errors := m_Errors m; ib_PlaybookDraft := ""; ib_PlaybookID := "" |} in
      let w := recorded (record_bundle args r) w in
      let '(w, r) := request_draft args r w in
      (if CallbackURL args =?s "" then w else called_back (CallbackURL args) r w, Ok r)
  end.

(** ** What a run does *)

Definition ran_all (cmds : list (list string)) (w : IncidentWorld) : IncidentWorld :=
  {| iw_commands := iw_commands w ++ cmds; iw_bundles := iw_bundles w; iw_index := iw_index w;
     iw_events := iw_events w; iw_drafts := iw_drafts w; iw_callbacks := iw_callbacks w |}.

Lemma ran_all_nil w : ran_all [] w = w.
Proof. destruct w. unfold ran_all. simpl. by rewrite app_nil_r. Qed.

Lemma ran_all_ran it cmds w : ran_all cmds (ran it w) = ran_all (it :: cmds) w.
Proof. destruct w. unfold ran_all, ran. simpl. by rewrite <- app_assoc. Qed.

Lemma ran_all_app a b w : ran_all b (ran_all a w) = ran_all (a ++ b) w.
Proof. destruct w. unfold ran_all. simpl. by rewrite <- app_assoc. Qed.

(** A file of a layer holds the output of its command, or its error, which is listed. *)
Definition file_of (layer : string) (errs : list string) (it : Item) (f : string * string) : Prop :=
  fst f = it_file it /\
  exists n, snd f = item_content (item_result n it) /\ incl (item_error layer it (item_result n it)) errs.

Lemma file_of_incl layer errs errs' it f : incl errs errs' -> file_of layer errs it f -> file_of layer errs' it f.
Proof. intros Hi (Hf & n & Hc & He). split; [done|]. exists n. split; [done|]. by eapply incl_tran. Qed.

Lemma collect_spec layer items w w' files errs : collect layer items w = (w', (files, errs)) ->
  w' = ran_all (map it_argv items) w /\ Forall2 (file_of layer errs) items files.
Proof.
  revert w w' files errs. induction items as [|it items IH]; intros w w' files errs; cbn [collect].
  - intros [= <- <- <-]. by rewrite ran_all_nil.
  - destruct (collect layer items _) as [w1 [files1 errs1]] eqn:E. intros [= <- <- <-].
    apply IH in E as [-> HF]. cbn [map]. split; [apply ran_all_ran|]. constructor.
    + split; [done|]. exists (length (iw_commands w)). split; [done|]. by apply incl_appl, incl_refl.
    + eapply Forall2_impl; [exact HF|]. intros ? ? H. eapply file_of_incl; [|exact H]. by apply incl_appr, incl_refl.
Qed.

Definition commands_of (p : list (string * list Item)) : list (list string) :=
  flat_map (fun l => map it_argv (snd l)) p.

Definition layer_of (errs : list string) (p : string * list Item) (l : string * list (string * string)) : Prop :=
  fst l = fst p /\ Forall2 (file_of (fst p) errs) (snd p) (snd l).

Lemma layer_of_incl errs errs' p l : incl errs errs' -> layer_of errs p l -> layer_of errs' p l.
Proof.
  intros Hi [H1 H2]. split; [done|]. eapply Forall2_impl; [exact H2|]. intros ? ?. by apply file_of_incl.
Qed.

Definition collect_next (acc : IncidentWorld * Collected) (p : string * list Item) : IncidentWorld * Collected :=
  add_layer (fst p) (collect (fst p) (snd p)) acc.

Lemma collect_layers_fold args w :
  collect_layers args w = fold_left collect_next (planned args) (w, nothing_collected).
Proof.
  unfold collect_layers, planned. destruct (ib_ConnectionString args =?s ""), (K8sContext args =?s ""); reflexivity.
Qed.

Lemma fold_collect p : forall done w co, Forall2 (layer_of (co_errors co)) done (co_layers co) ->
  let '(w', co') := fold_left collect_next p (w, co) in
  w' = ran_all (commands_of p) w /\ Forall2 (layer_of (co_errors co')) (done ++ p)%list (co_layers co').
Proof.
  induction p as [|l p IH]; intros done w co Hd; cbn [fold_left].
  - by rewrite ran_all_nil, app_nil_r.
  - unfold collect_next at 2, add_layer. cbn [fst snd].
    destruct (collect (fst l) (snd l) w) as [w1 [files errs]] eqn:E. apply collect_spec in E as [-> HF].
    specialize (IH (done ++ [l])%list (ran_all (map it_argv (snd l)) w)
      {| co_layers := co_layers co ++ [(fst l, files)]; co_errors := co_errors co ++ errs |}).
    destruct (fold_left _ _ _) as [w' co']. rewrite <- app_assoc in IH. destruct IH as [-> HF'].
    + apply Forall2_app; [|constructor; [|constructor]].
      * eapply Forall2_impl; [exact Hd|]. intros ? ?. apply layer_of_incl. by apply incl_appl, incl_refl.
      * split; [done|]. eapply Forall2_impl; [exact HF|]. intros ? ?. apply file_of_incl. by apply incl_appr, incl_refl.
    + split; [apply ran_all_app|done].
Qed.

Lemma collect_layers_spec args w w' co : collect_layers args w = (w', co) ->
  w' = ran_all (commands_of (planned args)) w /\ Forall2 (layer_of (co_errors co)) (planned args) (co_layers co).
Proof.
  rewrite collect_layers_fold. pose proof (fold_collect (planned args) [] w nothing_collected) as H.
  intros E. rewrite E in H. apply H. constructor.
Qed.

Lemma layers_named errs p l : Forall2 (layer_of errs) p l -> map fst l = map fst p.
Proof. induction 1 as [|? ? ? ? [H _]]; [done|]. simpl. congruence. Qed.

Lemma tar_end m layers w w' path : assembleTarball m layers (or_default "." incident_dir) w = (w', Ok path) ->
  w' = bundled path (if flushed then Some (tar_entries m layers) else None) w /\
  path = join_path (or_default "." incident_dir) (bundle_prefix m ++ ".tar.gz").
Proof.
  unfold assembleTarball. destruct create_error; [done|]. destruct (write_entries _ _); [done|]. by intros [= <- <-].
Qed.

Lemma append_rest m path w : iw_commands (appendToIndex m path w) = iw_commands w /\
  iw_bundles (appendToIndex m path w) = iw_bundles w /\ iw_drafts (appendToIndex m path w) = iw_drafts w.
Proof. unfold appendToIndex. destruct index_error; [done|]. by destruct (iw_index w). Qed.

Definition drafts_asked (args : CreateIncidentBundleArgs) : list (string * string) :=
  if should_draft args && negb (gateway_url =?s "") then [(draft_trace, or_default "resolved" (ib_Outcome args))]
  else [].

Lemma request_draft_spec args r w w' r' : request_draft args r w = (w', r') ->
  w' = {| iw_commands := iw_commands w; iw_bundles := iw_bundles w; iw_index := iw_index w;
          iw_events := iw_events w; iw_drafts := iw_drafts w ++ drafts_asked args;
          iw_callbacks := iw_callbacks w |} /\
  BundlePath r' = BundlePath r /\ ib_Layers r' = ib_Layers r /\ ib_Errors r' = ib_Errors r /\
  ib_IncidentID r' = ib_IncidentID r.
Proof.
  unfold request_draft, drafts_asked. destruct (should_draft args).
  - intros [= <- <-]. split.
    + destruct w, (gateway_url =?s ""); unfold asked; simpl; [by rewrite app_nil_r|done].
    + by destruct (doPlaybookDraftRequest _ _).
  - intros [= <- <-]. split; [|done]. destruct w. simpl. by rewrite app_nil_r.
Qed.

(** A bundle that is reported: what was collected, packed and indexed before. *)
Lemma create_inv args w w' r : createIncidentBundleTool args w = (w', Ok r) ->
  exists co, let m := bundle_manifest args co in
    Forall2 (layer_of (co_errors co)) (planned args) (co_layers co) /\
    ib_Layers r = map fst (planned args) /\ ib_Errors r = co_errors co /\
    BundlePath r = join_path (or_default "." incident_dir) (bundle_prefix m ++ ".tar.gz") /\
    iw_commands w' = (iw_commands w ++ commands_of (planned args))%list /\
    iw_bundles w' =
      (iw_bundles w ++ [(BundlePath r, if flushed then Some (tar_entries m (co_layers co)) else None)])%list /\
    iw_drafts w' = (iw_drafts w ++ drafts_asked args)%list /\
    iw_index w' = iw_index (appendToIndex m (BundlePath r) w).
Proof.
  unfold createIncidentBundleTool. destruct (collect_layers args w) as [w1 co] eqn:Ec.
  apply collect_layers_spec in Ec as [-> HF].
  destruct (assembleTarball _ _ _ _) as [w2 [path|e]] eqn:Et; [|done]. apply tar_end in Et as [-> Hp].
  destruct (request_draft _ _ _) as [w3 r3] eqn:Er. apply request_draft_spec in Er as (-> & Hb & Hl & He & _).
  intros [= <- <-]. exists co. cbv zeta. cbn [BundlePath ib_Layers ib_Errors bundle_manifest m_Layers m_Errors] in Hb, Hl, He.
  rewrite Hb, Hl, He, Hp, (layers_named _ _ _ HF). set (m := bundle_manifest args co).
  set (path' := join_path _ _). set (wb := bundled _ _ _).
  destruct (append_rest m path' wb) as (A1 & A2 & A3).
  split; [done|]. do 3 (split; [done|]).
  destruct (CallbackURL args =?s ""); cbn [called_back recorded iw_commands iw_bundles iw_drafts iw_index];
    rewrite A1, A2, A3; (do 3 (split; [done|])); unfold appendToIndex; destruct index_error; try done;
    subst wb; simpl; by destruct (iw_index w).
Qed.

(** ** What the bundle holds *)

(** A range over a map visits every key once. *)
Context (layers_visited : forall l, layer_order l ≡ₚ l) (files_visited : forall l, file_order l ≡ₚ l).

Lemma entry_in_bundle m layers name files f : In (name, files) layers -> In f files ->
  In (bundle_prefix m ++ "/" ++ name ++ "/" ++ fst f, snd f) (tar_entries m layers).
Proof.
  intros Hl Hf. unfold tar_entries. right. apply in_or_app. left. apply in_flat_map. exists (name, files).
  split; [by apply (Permutation_in _ (Permutation_sym (layers_visited layers)))|].
  unfold layer_entries. apply in_map_iff. exists f. split; [done|]. cbn [snd].
  by apply (Permutation_in _ (Permutation_sym (files_visited files))).
Qed.

Lemma errors_in_bundle m layers : m_Errors m <> [] ->
  In (bundle_prefix m ++ "/errors.txt", join nl (m_Errors m)) (tar_entries m layers).
Proof.
  intros He. unfold tar_entries. right. apply in_or_app. right. destruct (m_Errors m) as [|e l]; [done|]. by left.
Qed.

(** A reported bundle is complete.  When the end of the archive reaches the
    disk, the bundle at the reported path has, for every layer that was asked for and every
    command of it, a file with what the command printed or with its error; every failure is
    among the reported errors, which are in errors.txt; the layers reported are those asked
    for, and the commands run are theirs and no other. *)
Theorem bundle_is_complete args w w' r (Hrun : createIncidentBundleTool args w = (w', Ok r))
    (Hflushed : flushed = true) :
  exists entries, iw_bundles w' = (iw_bundles w ++ [(BundlePath r, Some entries)])%list /\
    ib_Layers r = map fst (planned args) /\
    iw_commands w' = (iw_commands w ++ commands_of (planned args))%list /\
    (ib_Errors r <> [] -> exists name, In (name ++ "/errors.txt", join nl (ib_Errors r)) entries) /\
    forall layer items it, In (layer, items) (planned args) -> In it items ->
      exists name n, In (name ++ "/" ++ layer ++ "/" ++ it_file it, item_content (item_result n it)) entries /\
        forall e, item_result n it = Err e -> In (layer ++ "/" ++ it_file it ++ ": " ++ e) (ib_Errors r).
Proof.
  apply create_inv in Hrun as (co & HF & Hl & He & _ & Hc & Hb & _). rewrite Hflushed in Hb.
  set (m := bundle_manifest args co) in *. exists (tar_entries m (co_layers co)).
  split; [done|]. split; [done|]. split; [done|]. split.
  - intros Hne. exists (bundle_prefix m). rewrite He in *. by apply errors_in_bundle.
  - intros layer items it Hin Hit. destruct (Forall2_In_l _ _ _ _ HF Hin) as ([name files] & Hfiles & Hname & HF2).
    cbn [fst snd] in Hname, HF2. subst name.
    destruct (Forall2_In_l _ _ _ _ HF2 Hit) as (f & Hf & Hff & n & Hcontent & Herr).
    exists (bundle_prefix m), n. rewrite <- Hff, <- Hcontent. split; [by eapply entry_in_bundle|].
    intros e E. rewrite He, Hff. apply Herr. rewrite E. by left.
Qed.

(** ** Read-only commands *)

(** The commands of a request: psql with one of the fixed queries, kubectl get or top, or
    one of the fixed commands of the host. *)
Definition diagnostic (args : CreateIncidentBundleArgs) (argv : list string) : Prop :=
  (exists q, In q (map snd database_queries) /\ has_prefix q "SELECT" = true /\
     argv = ["psql"; ib_ConnectionString args; "-c"; q; "-x"]) \/
  (exists verb rest, In verb ["get"; "top"] /\
     argv = ("kubectl" :: "--request-timeout=10s" :: "--context" :: K8sContext args :: verb :: rest)) \/
  In argv (map it_argv (os_items darwin ++ storage_items darwin)).

Lemma planned_diagnostic args argv : In argv (commands_of (planned args)) -> diagnostic args argv.
Proof.
  unfold commands_of, planned. intros H. apply in_flat_map in H as ([layer items] & Hl & Ha). cbn [snd] in Ha.
  rewrite !in_app_iff in Hl. destruct Hl as [Hl|[Hl|Hl]].
  - destruct (ib_ConnectionString args =?s "") eqn:E; [done|]. destruct Hl as [Hl|[]]. apply (f_equal snd) in Hl. cbn [snd] in Hl. subst items. left.
    apply in_map_iff in Ha as (it & <- & Hit). apply in_map_iff in Hit as (q & <- & Hq).
    exists (snd q). split; [by apply in_map|]. split; [|unfold psql_item; cbn [it_argv]; by rewrite E].
    revert q Hq. apply List.Forall_forall. repeat constructor.
  - destruct (K8sContext args =?s "") eqn:E; [done|]. destruct Hl as [Hl|[]]. apply (f_equal snd) in Hl. cbn [snd] in Hl. subst items. right. left.
    apply in_map_iff in Ha as (it & <- & Hit). apply in_map_iff in Hit as (cmd & <- & Hcmd).
    unfold kubectl_item. cbn [it_argv]. rewrite E. simpl in Hcmd.
    repeat (destruct Hcmd as [<-|Hcmd]; [do 2 eexists; split; [|reflexivity]; simpl; tauto|]). done.
  - right. right. rewrite map_app, in_app_iff. destruct Hl as [[= _ <-]|[[= _ <-]|[]]]; [by left|by right].
Qed.

(** Collecting an incident bundle changes nothing it looks at: whatever the
    arguments, every command that is run is one of the fixed queries, a kubectl get or top,
    or a fixed command of the host; with no connection string no query is run, and with no
    context no kubectl. *)
Theorem bundles_only_read args w w' r (Hrun : createIncidentBundleTool args w = (w', Ok r)) :
  exists cmds, iw_commands w' = (iw_commands w ++ cmds)%list /\ Forall (diagnostic args) cmds /\
    (ib_ConnectionString args = "" -> forall argv, In argv cmds -> head argv <> Some "psql") /\
    (K8sContext args = "" -> forall argv, In argv cmds -> head argv <> Some "kubectl").
Proof.
  apply create_inv in Hrun as (co & _ & _ & _ & _ & Hc & _). exists (commands_of (planned args)).
  split; [done|]. split; [by apply List.Forall_forall, planned_diagnostic|].
  assert (Hhost : forall argv, In argv (map it_argv (os_items darwin ++ storage_items darwin)) ->
    head argv <> Some "psql" /\ head argv <> Some "kubectl").
  { apply List.Forall_forall. destruct darwin; repeat constructor; discriminate. }
  split; intros E argv Ha; unfold commands_of, planned in Ha; rewrite E, streq_refl in Ha; cbn [app] in Ha.
  - apply in_flat_map in Ha as ([layer items] & Hl & Ha). cbn [snd] in Ha. rewrite in_app_iff in Hl.
    destruct Hl as [Hl|Hl].
    + destruct (_ =?s ""); [done|]. destruct Hl as [Hl|[]]. apply (f_equal snd) in Hl. cbn [snd] in Hl. subst items.
      apply in_map_iff in Ha as (it & <- & Hit). apply in_map_iff in Hit as (cmd & <- & _). discriminate.
    + apply Hhost. rewrite map_app, in_app_iff. destruct Hl as [[= _ <-]|[[= _ <-]|[]]]; [by left|by right].
  - apply in_flat_map in Ha as ([layer items] & Hl & Ha). cbn [snd] in Ha. rewrite in_app_iff in Hl.
    destruct Hl as [Hl|Hl].
    + destruct (_ =?s ""); [done|]. destruct Hl as [Hl|[]]. apply (f_equal snd) in Hl. cbn [snd] in Hl. subst items.
      apply in_map_iff in Ha as (it & <- & Hit). apply in_map_iff in Hit as (q & <- & _). discriminate.
    + apply Hhost. rewrite map_app, in_app_iff. destruct Hl as [[= _ <-]|[[= _ <-]|[]]]; [by left|by right].
Qed.

(** ** The index *)

(** The JSON of an index is read back. *)
Context (index_read_back : forall l, decode_index (encode_index l) = Ok l).

(** The index keeps its history: when list_incidents gives the entries
    before, and the index can be written, it gives the same entries followed by the new
    bundle's after. *)
Theorem index_keeps_history args w w' r old (Hlist : listIncidentsTool w = Ok old) (Hwrite : index_error = None)
    (Hrun : createIncidentBundleTool args w = (w', Ok r)) :
  exists new, listIncidentsTool w' = Ok (old ++ [new])%list /\ ix_IncidentID new = incidentID /\
    ix_BundlePath new = BundlePath r /\ ix_Layers new = ib_Layers r /\
    ix_ErrorCount new = Z.of_nat (length (ib_Errors r)).
Proof.
  apply create_inv in Hrun as (co & HF & Hl & He & Hp & _ & _ & _ & Hi).
  unfold listIncidentsTool in *. rewrite Hi. unfold appendToIndex. rewrite Hwrite.
  exists (index_entry (bundle_manifest args co) (BundlePath r)).
  split; [|rewrite He, Hl, <- (layers_named _ _ _ HF); repeat split].
  unfold old_entries. destruct (iw_index w) as [|e s|s]; [|done|].
  - injection Hlist as <-. cbn [iw_index indexed]. by rewrite index_read_back.
  - destruct (decode_index s) as [l|]; [|done]. injection Hlist as ->. cbn [iw_index indexed].
    by rewrite index_read_back.
Qed.

(** A damaged index is replaced: when list_incidents cannot parse it, the next
    bundle leaves an index with its own entry alone. *)
Theorem damaged_index_is_lost args w w' r s e (Htext : iw_index w = IndexText s) (Hbad : decode_index s = Err e)
    (Hwrite : index_error = None) (Hrun : createIncidentBundleTool args w = (w', Ok r)) :
  exists new, listIncidentsTool w' = Ok [new] /\ ix_IncidentID new = incidentID.
Proof.
  apply create_inv in Hrun as (co & _ & _ & _ & _ & _ & _ & _ & Hi).
  exists (index_entry (bundle_manifest args co) (BundlePath r)). split; [|done].
  unfold listIncidentsTool. rewrite Hi. unfold appendToIndex, old_entries. rewrite Hwrite, Htext, Hbad.
  cbn [iw_index indexed]. by rewrite index_read_back.
Qed.

(** A draft is asked for exactly when a gateway is configured and the
    incident is over or the deprecated flag is set; it is asked for the trace of the request,
    or for the incident's id when there is none. *)
Theorem draft_asked_iff args w w' r (Hrun : createIncidentBundleTool args w = (w', Ok r)) :
  iw_drafts w' = (iw_drafts w ++
    if negb (gateway_url =?s "") &&
       (GeneratePlaybookDraft args || (ib_Outcome args =?s "resolved") || (ib_Outcome args =?s "escalated"))
    then [(draft_trace, or_default "resolved" (ib_Outcome args))] else [])%list.
Proof.
  apply create_inv in Hrun as (co & _ & _ & _ & _ & _ & _ & -> & _). f_equal. unfold drafts_asked, should_draft.
  destruct (gateway_url =?s ""), (GeneratePlaybookDraft args), (ib_Outcome args =?s "resolved"),
    (ib_Outcome args =?s "escalated"); reflexivity.
Qed.
End Incident.

(** ** A toy incident *)

Module IncidentToy.

Definition tuple (e : IndexEntry) : string * string * string * string * string * list string * Z :=
  (ix_IncidentID e, ix_InfraKey e, ix_Description e, ix_Timestamp e, ix_BundlePath e, ix_Layers e, ix_ErrorCount e).

Definition of_tuple (x : string * string * string * string * string * list string * Z) : IndexEntry :=
  let '(a, b, d, t, p, l, n) := x in
  {| ix_IncidentID := a; ix_InfraKey := b; ix_Description := d; ix_Timestamp := t; ix_BundlePath := p;
     ix_Layers := l; ix_ErrorCount := n |}.

Definition enc_index (l : list IndexEntry) : string := K8sTools.K8sToy.bits (encode (map tuple l)).

Definition dec_index (s : string) : result string (list IndexEntry) :=
  match decode (A := list (string * string * string * string * string * list string * Z))
          (K8sTools.K8sToy.of_bits s) with
  | Some l => Ok (map of_tuple l)
  | None => Err "invalid character"
  end.

Lemma index_text_back l : dec_index (enc_index l) = Ok l.
Proof.
  unfold dec_index, enc_index. rewrite K8sTools.K8sToy.of_bits_bits, decode_encode, map_map. f_equal.
  induction l as [|e l IH]; [done|]. cbn [map]. rewrite IH. by destruct e.
Qed.

Definition args (conn outcome : string) : CreateIncidentBundleArgs :=
  {| InfraKey := ""; ib_Description := ""; ib_ConnectionString := conn; K8sContext := ""; K8sNamespace := "";
     CallbackURL := ""; ib_Outcome := outcome; GeneratePlaybookDraft := false |}.

Definition world (i : IndexFile) : IncidentWorld :=
  {| iw_commands := []; iw_bundles := []; iw_index := i; iw_events := []; iw_drafts := []; iw_callbacks := [] |}.

(** psql fails; the gateway is there and refuses. *)
Definition exec (n : nat) (argv : list string) : string * option string :=
  match argv with
  | "psql" :: _ => ("", Some "exit status 2")
  | _ => ("ok", None)
  end.

Definition create (gateway_url : string) (flushed : bool) (a : CreateIncidentBundleArgs) (w : IncidentWorld)
    : IncidentWorld * result string IncidentBundleResult :=
  createIncidentBundleTool "" gateway_url false None (Some "tr_9") (sample_ctx "" "") exec None (fun _ => None) flushed
    None (fun _ => "{}") (fun _ => "{}") enc_index dec_index (fun l => l) (fun l => l) (fun _ _ => NoAnswer "refused")
    0 0 "ab12" "u" "" a w.

Definition names (w : IncidentWorld) : list string :=
  match iw_bundles w with [(_, Some entries)] => map fst entries | _ => [] end.

Definition run : IncidentWorld * result string IncidentBundleResult :=
  create "http://gw" true (args "host=db" "resolved") (world NoIndex).

Definition bundle_of (x : IncidentWorld * result string IncidentBundleResult) : IncidentBundleResult :=
  match x.2 with
  | Ok r => r
  | Err e => {| ib_IncidentID := e; BundlePath := ""; ib_Timestamp := ""; ib_Layers := []; ib_Errors := [];
                ib_PlaybookDraft := ""; ib_PlaybookID := "" |}
  end.

Example toy_bundle :
  ib_Layers (bundle_of run) = ["database"; "os"; "storage"] /\
  length (ib_Errors (bundle_of run)) = 9 /\ length (names run.1) = 25 /\
  iw_drafts run.1 = [("tr_9", "resolved")] /\ BundlePath (bundle_of run) = "incident-ab12-00010101-000000.tar.gz".
Proof. vm_compute. repeat split. Qed.

(** A bundle whose end is not written is reported like one that is. *)
Example truncated_bundle_reported :
  iw_bundles (create "" false (args "" "") (world NoIndex)).1 = [("incident-ab12-00010101-000000.tar.gz", None)] /\
  (create "" false (args "" "") (world NoIndex)).2 = (create "" true (args "" "") (world NoIndex)).2.
Proof. vm_compute. split; reflexivity. Qed.

(** The connection string is the first argument of psql, an option when it starts with a dash. *)
Example connection_string_is_an_option :
  it_argv (psql_item "-o|sh" ("version.txt", "SELECT 1")) = ["psql"; "-o|sh"; "-c"; "SELECT 1"; "-x"].
Proof. reflexivity. Qed.
End IncidentToy.

Notation toy_tool := (createIncidentBundleTool "" "http://gw" false None (Some "tr_9") (sample_ctx "" "") IncidentToy.exec None
      (fun _ => None) true None (fun _ => "{}") (fun _ => "{}") IncidentToy.enc_index IncidentToy.dec_index
      (fun l => l) (fun l => l) (fun _ _ => NoAnswer "refused") 0 0 "ab12" "u" "").

Lemma toy_ran : exists w' r, toy_tool (IncidentToy.args "host=db" "resolved") (IncidentToy.world NoIndex) = (w', Ok r).
Proof. exists IncidentToy.run.1, (IncidentToy.bundle_of IncidentToy.run). vm_compute. reflexivity. Qed.

Lemma toy_ran_damaged :
  exists w' r, toy_tool (IncidentToy.args "" "") (IncidentToy.world (IndexText "1")) = (w', Ok r).
Proof.
  set (x := IncidentToy.create "http://gw" true (IncidentToy.args "" "") (IncidentToy.world (IndexText "1"))).
  exists x.1, (IncidentToy.bundle_of x). vm_compute. reflexivity.
Qed.

Lemma bundle_is_complete_witness : exists w' r entries,
  toy_tool (IncidentToy.args "host=db" "resolved") (IncidentToy.world NoIndex) = (w', Ok r) /\
  iw_bundles w' = [(BundlePath r, Some entries)] /\ ib_Layers r = ["database"; "os"; "storage"].
Proof.
  destruct toy_ran as (w' & r & H). exists w', r. pose proof H as H'.
  apply bundle_is_complete in H' as (entries & Hb & Hl & _); [|done..]. exists entries.
  split; [exact H|]. split; [exact Hb|exact Hl].
Defined.

Lemma bundles_only_read_witness : exists w' r,
  toy_tool (IncidentToy.args "host=db" "resolved") (IncidentToy.world NoIndex) = (w', Ok r) /\
  forall argv, In argv (iw_commands w') -> head argv <> Some "kubectl".
Proof.
  destruct toy_ran as (w' & r & H). exists w', r. split; [exact H|].
  apply bundles_only_read in H as (cmds & -> & _ & _ & Hk). exact (Hk eq_refl).
Defined.

Lemma index_keeps_history_witness : exists w' new,
  listIncidentsTool IncidentToy.dec_index w' = Ok [new] /\ ix_IncidentID new = "ab12".
Proof.
  destruct toy_ran as (w' & r & H). exists w'.
  eapply index_keeps_history with (old := []) in H as (new & H & Hid & _);
    [|exact IncidentToy.index_text_back|reflexivity|reflexivity].
  exists new. split; [exact H|exact Hid].
Defined.

Lemma damaged_index_is_lost_witness : exists w' new, listIncidentsTool IncidentToy.dec_index w' = Ok [new].
Proof.
  destruct toy_ran_damaged as (w' & r & H). exists w'.
  eapply damaged_index_is_lost with (s := "1") (e := "invalid character") in H as (new & H & _);
    [|exact IncidentToy.index_text_back|reflexivity|vm_compute; reflexivity|reflexivity].
  exists new. exact H.
Defined.

Lemma draft_asked_iff_witness : exists w' r,
  toy_tool (IncidentToy.args "host=db" "resolved") (IncidentToy.world NoIndex) = (w', Ok r) /\
  iw_drafts w' = [("tr_9", "resolved")].
Proof. destruct toy_ran as (w' & r & H). exists w', r. split; [exact H|]. apply draft_asked_iff in H. exact H. Defined.
