(* ===== verification/AgentStart.v ===== *)
(** * How an agent starts

    agentutil/agentutil.go ([MustLoadConfig], [InitPolicyEngine], the constructor of the
    enforcer), agentutil/governance_check.go (what the governed modes demand) and the
    first part of agentutil/serve/serve.go, in the order of the main functions under
    agents/.

    The environment is a function, empty for what is not set.  Reading a policy file and
    the probe of auditd are parameters; log lines are left out, and with them the advice
    that the probe ends in. *)

From S2P Require Import Prelude GoTime GoFormat Events PolicyTypes PolicyEngine PolicyExplain PolicyLoader Identity.
From S2P Require Import ApprovalStore ApprovalHandlers ApprovalClient Enforcer PlaybookPrompt PlaybookStore ToolAudit.
From S2P Require Import DatabaseTools.

Open Scope string_scope.

(** ** Configuration *)

Record Config := {
  ModelVendor : string;
  ModelName : string;
  APIKey : string;
  ListenAddr : string;
  ExternalURL : string;
  AuditEnabled : bool;
  AuditURL : string;
  AuditDir : string;
  AuditAPIKey : string;
  PolicyEnabled : bool;
  PolicyFile : string;
  PolicyDryRun : bool;
  DefaultPolicy : string;
  UsersFile : string;
  ApprovalEnabled : bool;
  cfg_ApprovalTimeout : Z;
  PolicyCheckURL : string;
  PolicyCheckTimeout : Z }.

Definition truthy (v : string) : bool := (v =?s "true") || (v =?s "1").

Section Start.
Context (env : string -> string).

(** A policy file without the switch turns policies on. *)
Definition policy_enabled : bool :=
  let v := env "HELPDESK_POLICY_ENABLED" in
  truthy v || (given (env "HELPDESK_POLICY_FILE") && (v =?s "")).

Definition approval_timeout : Z := default (30 * Second)%Z (ParseDuration (env "HELPDESK_APPROVAL_TIMEOUT")).

(** [None] is the exit of the process. *)
Definition MustLoadConfig (defaultAddr : string) : option Config :=
  let auditURL := env "HELPDESK_AUDIT_URL" in
  let vendor := env "HELPDESK_MODEL_VENDOR" in
  let name := env "HELPDESK_MODEL_NAME" in
  let key := env "HELPDESK_API_KEY" in
  if (vendor =?s "") || (name =?s "") || (key =?s "") then None
  else
    Some {| ModelVendor := vendor; ModelName := name; APIKey := key;
            ListenAddr := or_default defaultAddr (env "HELPDESK_AGENT_ADDR");
            ExternalURL := env "HELPDESK_AGENT_URL";
            AuditEnabled := truthy (env "HELPDESK_AUDIT_ENABLED"); AuditURL := auditURL;
            AuditDir := env "HELPDESK_AUDIT_DIR"; AuditAPIKey := env "HELPDESK_AUDIT_API_KEY";
            PolicyEnabled := policy_enabled; PolicyFile := env "HELPDESK_POLICY_FILE";
            PolicyDryRun := truthy (env "HELPDESK_POLICY_DRY_RUN");
            DefaultPolicy := or_default "deny" (env "HELPDESK_DEFAULT_POLICY");
            UsersFile := env "HELPDESK_USERS_FILE";
            ApprovalEnabled := truthy (env "HELPDESK_APPROVAL_ENABLED"); cfg_ApprovalTimeout := approval_timeout;
            PolicyCheckURL := if policy_enabled && given auditURL then auditURL else "";
            PolicyCheckTimeout := 0 |}.

(** ** The governed modes *)

Record FixModeViolation := { fv_Module : string; fv_Severity : string; fv_Description : string; fv_Remediation : string }.

Definition isGovernedMode : bool := mem (to_lower (env "HELPDESK_OPERATING_MODE")) ["fix"; "readonly-governed"].

Definition currentOperatingMode : string := or_default "readonly" (to_lower (env "HELPDESK_OPERATING_MODE")).

Definition fatal (module description remediation : string) : FixModeViolation :=
  {| fv_Module := module; fv_Severity := "fatal"; fv_Description := description; fv_Remediation := remediation |}.
Definition warning (module description remediation : string) : FixModeViolation :=
  {| fv_Module := module; fv_Severity := "warning"; fv_Description := description; fv_Remediation := remediation |}.

Definition audit_disabled : FixModeViolation :=
  fatal "audit" "Audit logging is disabled. HELPDESK_AUDIT_ENABLED must be 'true' in fix mode."
    "Set HELPDESK_AUDIT_ENABLED=true and HELPDESK_AUDIT_URL to the auditd service URL.".
Definition audit_url_missing : FixModeViolation :=
  fatal "audit" "Central audit service URL is not set. HELPDESK_AUDIT_URL is required in fix mode."
    "Set HELPDESK_AUDIT_URL to the running auditd service URL (e.g. http://auditd:1199).".
Definition policy_disabled : FixModeViolation :=
  fatal "policy_engine" "Policy enforcement is disabled. HELPDESK_POLICY_ENABLED must be 'true' in fix mode."
    "Set HELPDESK_POLICY_ENABLED=true and HELPDESK_POLICY_FILE to a valid policy YAML.".
Definition policy_source_missing : FixModeViolation :=
  fatal "policy_engine" "Policy engine is enabled but neither HELPDESK_POLICY_FILE nor a remote check URL is configured."
    "Set HELPDESK_POLICY_FILE to a valid policy YAML, or set HELPDESK_AUDIT_URL to enable remote policy checks.".
Definition dry_run_active : FixModeViolation :=
  fatal "guardrails" "Policy dry-run mode is active. In fix mode policies must be enforced, not just logged."
    "Unset HELPDESK_POLICY_DRY_RUN or set it to 'false'.".
Definition approvals_disabled : FixModeViolation :=
  warning "approval_workflows"
    "Approval workflows are disabled. Risky fix-mode operations will not require human sign-off."
    "Set HELPDESK_APPROVAL_ENABLED=true.".
Definition infra_missing : FixModeViolation :=
  warning "explainability" "HELPDESK_INFRA_CONFIG is not set. Policy decisions cannot auto-resolve resource tags."
    "Set HELPDESK_INFRA_CONFIG to the infrastructure JSON file path.".

Definition audit_violations (auditEnabled : bool) (auditURL : string) : list FixModeViolation :=
  if negb auditEnabled then [audit_disabled] else if auditURL =?s "" then [audit_url_missing] else [].

Definition CheckFixModeViolations (cfg : Config) : list FixModeViolation :=
  if negb isGovernedMode then []
  else
    (audit_violations (AuditEnabled cfg) (AuditURL cfg) ++
     (if negb (PolicyEnabled cfg) then [policy_disabled]
      else if (PolicyFile cfg =?s "") && (PolicyCheckURL cfg =?s "") then [policy_source_missing] else []) ++
     (if PolicyDryRun cfg then [dry_run_active] else []) ++
     (if negb (ApprovalEnabled cfg) && (currentOperatingMode <>?s "readonly-governed") then [approvals_disabled] else []) ++
     (if env "HELPDESK_INFRA_CONFIG" =?s "" then [infra_missing] else []))%list.

(** For components that leave policies to other agents. *)
Definition CheckFixModeAuditViolations (auditEnabled : bool) (auditURL : string) : list FixModeViolation :=
  if negb isGovernedMode then [] else audit_violations auditEnabled auditURL.

(** What is sent while the violations are reported: an event to auditd, an incident to
    the gateway.  Whether it arrives changes nothing. *)
Inductive Report :=
  | PostedEvent (url bearer : string) (e : Event)
  | PostedIncident (url description : string).

Section Enforce.
Context (now : Time) (uuid8 : nat -> string).

Definition violation_event (componentName id : string) (v : FixModeViolation) : Event :=
  {| EventID := "gov_" ++ id; Events.Timestamp := now; EventType := EventTypeGovernanceViolation; TraceID := ""; ParentID := "";
     Origin := ""; e_ActionClass := ""; PrevHash := ""; EventHash := ""; e_Principal := None; e_Purpose := "";
     e_PurposeNote := ""; e_Session := session_of componentName ""; e_Input := input_of ""; e_Output := None; e_Tool := None;
     e_Approval := None; e_Decision := None; e_PolicyDecision := None; e_AgentReasoning := None;
     e_GovernanceViolation := Some {| OperatingMode := currentOperatingMode; gv_Module := fv_Module v;
       Severity := fv_Severity v; Description := fv_Description v; Remediation := fv_Remediation v |};
     e_DelegationVerification := None; e_Outcome := None; e_RollbackExecution := None |}.

Definition slash (c : ascii) : bool := Ascii.eqb c "/".
Definition trim_right_slashes (s : string) : string := String.rev (trim_left_set slash (String.rev s)).

Definition recordGovernanceViolationEvent (auditURL componentName id : string) (v : FixModeViolation) : Report :=
  PostedEvent (trim_right_slashes auditURL ++ "/v1/events") (env "HELPDESK_AUDIT_API_KEY") (violation_event componentName id v).

Definition createGovernanceIncident (gatewayURL componentName : string) (violations : list FixModeViolation) : Report :=
  PostedIncident (trim_right_slashes gatewayURL ++ "/api/v1/incidents")
    ("Fix mode governance compliance violation in " ++ componentName ++ ": required modules not configured: " ++
     join ", " (map fv_Module violations)).

Definition is_fatal (v : FixModeViolation) : bool := fv_Severity v =?s "fatal".

(** What is reported, and whether the process goes on.  The incident is posted by a
    goroutine of its own: a process that exits may end before it is. *)
Definition EnforceFixMode (violations : list FixModeViolation) (componentName auditURL : string) : list Report * bool :=
  let events :=
    if auditURL =?s "" then []
    else imap (fun i v => recordGovernanceViolationEvent auditURL componentName (uuid8 i) v) violations in
  let incident :=
    if given (env "HELPDESK_GATEWAY_URL")
    then [createGovernanceIncident (env "HELPDESK_GATEWAY_URL") componentName violations] else [] in
  match violations with
  | [] => ([], true)
  | _ => ((events ++ incident)%list, negb (existsb is_fatal violations))
  end.
End Enforce.

(** ** Policies *)

Section Policy.
(** LoadFile; the answer of GET /v1/governance/info at an attempt: none, a status and
    the member policy.enabled of a body that decodes. *)
Context (LoadFile : string -> result string PolicyTypes.Config).
Context (info : nat -> option (Z * option bool)).

(** Enabled; refused. *)
Definition probeRemotePolicyEngine (attempt : nat) : bool * bool :=
  match info attempt with
  | None => (false, false)
  | Some (status, body) =>
      if (status =? 401)%Z || (status =? 403)%Z then (false, true)
      else (match body with Some enabled => enabled | None => false end, false)
  end.

(** The attempts until an answer that settles it, three at most. *)
Fixpoint probe_attempts (fuel attempt : nat) : bool * bool :=
  match fuel with
  | O => (false, false)
  | Datatypes.S fuel' =>
      let '(enabled, refused) := probeRemotePolicyEngine attempt in
      if enabled || refused || (fuel' =? 0)%nat then (enabled, refused) else probe_attempts fuel' (attempt + 1)
  end.

(** No engine when policies are off or checked by auditd, which is asked before but
    whose answer is for the log only. *)
Definition InitPolicyEngine (cfg : Config) : result string (option Engine) :=
  if negb (PolicyEnabled cfg) then Ok None
  else if given (PolicyCheckURL cfg) then Ok (let _ := probe_attempts 3 0 in None)
  else if PolicyFile cfg =?s "" then Err "HELPDESK_POLICY_ENABLED is true but HELPDESK_POLICY_FILE is not set"
  else
    match LoadFile (PolicyFile cfg) with
    | Err e => Err ("load policy file: " ++ e)
    | Ok policyCfg =>
        Ok (Some (NewEngine (Some policyCfg)
                    (if to_lower (DefaultPolicy cfg) =?s "allow" then EffectAllow else EffectDeny) (PolicyDryRun cfg)))
    end.

Inductive AuditSink :=
  | Remote (url bearer : string)
  | Local (path : string).

(** [open_failure] is the error of opening the local database, if any. *)
Definition InitAuditStore (open_failure : string -> option string) (cfg : Config) : result string (option AuditSink) :=
  if negb (AuditEnabled cfg) then Ok None
  else if given (AuditURL cfg) then Ok (Some (Remote (AuditURL cfg) (AuditAPIKey cfg)))
  else
    let path := or_default "." (AuditDir cfg) ++ "/audit.db" in
    match open_failure path with
    | Some e => Err ("failed to create audit store: " ++ e)
    | None => Ok (Some (Local path))
    end.

(** Whether there is an approval client. *)
Definition InitApprovalClient (cfg : Config) : bool := ApprovalEnabled cfg && given (AuditURL cfg).

Record PolicyEnforcerConfig := {
  ec_Engine : option Engine;
  ec_PolicyCheckURL : string;
  ec_TraceStore : option string;
  ec_Approvals : bool;
  ec_AgentName : string;
  ec_ToolAuditor : bool;
  ec_RequirePurpose : bool }.

(** The timeouts, thirty and five seconds when they are zero, bound the exchanges that
    are parameters of the checks. *)
Definition NewPolicyEnforcerWithConfig (c : PolicyEnforcerConfig) : PolicyEnforcer :=
  {| pe_engine := ec_Engine c; policyCheckURL := ec_PolicyCheckURL c; pe_trace := ec_TraceStore c;
     pe_approvals := ec_Approvals c; pe_agentName := ec_AgentName c; pe_auditor := ec_ToolAuditor c;
     requirePurposeForSensitive := ec_RequirePurpose c |}.

(** The steps that the main functions of the database, Kubernetes and system agents
    share, up to the enforcer: the reports, and the agent unless the process exits.
    [traceID] is what the trace store holds at a call. *)
Definition start_agent (now : Time) (uuid8 : nat -> string) (open_failure : string -> option string)
    (defaultAddr componentName traceID : string) : list Report * option (Config * PolicyEnforcer) :=
  match MustLoadConfig defaultAddr with
  | None => ([], None)
  | Some cfg =>
      let '(reports, goes_on) := EnforceFixMode now uuid8 (CheckFixModeViolations cfg) componentName (AuditURL cfg) in
      if negb goes_on then (reports, None)
      else
        match InitAuditStore open_failure cfg with
        | Err _ => (reports, None)
        | Ok sink =>
            match InitPolicyEngine cfg with
            | Err _ => (reports, None)
            | Ok engine =>
                (reports, Some (cfg, NewPolicyEnforcerWithConfig
                  {| ec_Engine := engine; ec_PolicyCheckURL := PolicyCheckURL cfg; ec_TraceStore := Some traceID;
                     ec_Approvals := InitApprovalClient cfg; ec_AgentName := componentName;
                     ec_ToolAuditor := match sink with Some _ => true | None => false end;
                     ec_RequirePurpose := env "HELPDESK_REQUIRE_PURPOSE_FOR_SENSITIVE" =?s "true" |}))
            end
        end
  end.
End Policy.
End Start.

(** ** What the governed modes ensure *)

Lemma fatal_app l1 l2 : existsb is_fatal (l1 ++ l2) = existsb is_fatal l1 || existsb is_fatal l2.
Proof. apply existsb_app. Qed.

Lemma audit_violations_fatal enabled url : existsb is_fatal (audit_violations enabled url) = negb (enabled && given url).
Proof. unfold audit_violations, given. destruct enabled; [|done]. by destruct (url =?s ""). Qed.

(** The configuration that a governed mode lets an agent start with. *)
Definition governed_config (cfg : Config) : Prop :=
  AuditEnabled cfg = true /\ given (AuditURL cfg) = true /\ PolicyEnabled cfg = true /\
  (given (PolicyFile cfg) = true \/ given (PolicyCheckURL cfg) = true) /\ PolicyDryRun cfg = false.

(** The violations are fatal exactly when a governed mode finds something missing; a
    mode that is not governed has none. *)
Theorem fatal_violations_iff env cfg :
  (isGovernedMode env = false -> CheckFixModeViolations env cfg = []) /\
  (isGovernedMode env = true -> existsb is_fatal (CheckFixModeViolations env cfg) = false <-> governed_config cfg).
Proof.
  unfold CheckFixModeViolations, governed_config. split; intros ->; [done|]. cbn [negb].
  rewrite !fatal_app, audit_violations_fatal. unfold given.
  destruct (AuditEnabled cfg), (AuditURL cfg =?s ""), (PolicyEnabled cfg), (PolicyFile cfg =?s ""),
    (PolicyCheckURL cfg =?s ""), (PolicyDryRun cfg), (ApprovalEnabled cfg), (currentOperatingMode env <>?s "readonly-governed"),
    (env "HELPDESK_INFRA_CONFIG" =?s ""); vm_compute; intuition discriminate.
Qed.

Lemma EnforceFixMode_goes_on env now uuid8 l component url :
  (EnforceFixMode env now uuid8 l component url).2 = negb (existsb is_fatal l).
Proof. by destruct l. Qed.

Lemma loaded_config env addr cfg : MustLoadConfig env addr = Some cfg ->
  AuditURL cfg = env "HELPDESK_AUDIT_URL" /\
  PolicyCheckURL cfg = (if PolicyEnabled cfg && given (AuditURL cfg) then AuditURL cfg else "").
Proof. unfold MustLoadConfig. destruct (_ || _ || _); [done|]. by intros [= <-]. Qed.

Lemma started env LoadFile info now uuid8 open_failure addr component traceID reports cfg en :
  start_agent env LoadFile info now uuid8 open_failure addr component traceID = (reports, Some (cfg, en)) ->
  MustLoadConfig env addr = Some cfg /\ existsb is_fatal (CheckFixModeViolations env cfg) = false /\
  policyCheckURL en = PolicyCheckURL cfg /\ InitPolicyEngine LoadFile info cfg = Ok (pe_engine en) /\
  pe_auditor en = AuditEnabled cfg /\ pe_approvals en = InitApprovalClient cfg.
Proof.
  unfold start_agent. destruct (MustLoadConfig env addr) as [cfg'|]; [|done].
  pose proof (EnforceFixMode_goes_on env now uuid8 (CheckFixModeViolations env cfg') component (AuditURL cfg')) as Hg.
  destruct (EnforceFixMode _ _ _ _ _ _) as [l goes_on]. simpl in Hg. destruct goes_on; simpl; [|done].
  destruct (InitAuditStore open_failure cfg') as [sink|e] eqn:Es; [|done].
  destruct (InitPolicyEngine LoadFile info cfg') as [engine|e] eqn:Ee; [|done]. intros [= _ <- <-].
  symmetry in Hg. apply negb_true_iff in Hg. split_and!; try done. simpl.
  unfold InitAuditStore in Es. destruct (AuditEnabled cfg'); simpl in Es; [|by injection Es as <-].
  destruct (given (AuditURL cfg')); [by injection Es as <-|]. by destruct (open_failure _); [|injection Es as <-].
Qed.


(** ** Concrete starts *)

Module StartToy.

Definition env_of (l : list (string * string)) (k : string) : string :=
  match find (fun kv => kv.1 =?s k) l with Some kv => kv.2 | None => "" end.

Definition model : list (string * string) :=
  [("HELPDESK_MODEL_VENDOR", "gemini"); ("HELPDESK_MODEL_NAME", "m"); ("HELPDESK_API_KEY", "k")].

Definition governed : list (string * string) :=
  (model ++ [("HELPDESK_OPERATING_MODE", "Fix"); ("HELPDESK_AUDIT_ENABLED", "1"); ("HELPDESK_AUDIT_URL", "http://auditd:1199/");
             ("HELPDESK_POLICY_FILE", "/etc/policy.yaml"); ("HELPDESK_GATEWAY_URL", "http://gw:8080")])%list.

Definition begin (l : list (string * string)) : list Report * option (Config * PolicyEnforcer) :=
  start_agent (env_of l) (fun _ => Err "no such file") (fun _ => Some (200%Z, Some false)) 0%Z (fun _ => "e") (fun _ => None)
    "localhost:1100" "agent" "tr_9".

Definition running (l : list (string * string)) : option (string * bool * bool) :=
  option_map (fun ce => (policyCheckURL ce.2, pe_auditor ce.2, match pe_engine ce.2 with Some _ => true | None => false end))
    (begin l).2.

(** Two warnings are reported and the agent starts, although auditd has no engine. *)
Example governed_start :
  running governed = Some ("http://auditd:1199/", true, false) /\
  map (fun r => match r with
                | PostedEvent url _ e => (url, match e_GovernanceViolation e with Some v => gv_Module v | None => "" end)
                | PostedIncident url d => (url, d) end) (begin governed).1 =
    [("http://auditd:1199/v1/events", "approval_workflows"); ("http://auditd:1199/v1/events", "explainability");
     ("http://gw:8080/api/v1/incidents",
      "Fix mode governance compliance violation in agent: required modules not configured: approval_workflows, explainability")].
Proof. vm_compute. split; reflexivity. Qed.

(** A dry run is refused, in the agent, whose own engine is not the one that is asked. *)
Example dry_run_refused :
  running (("HELPDESK_POLICY_DRY_RUN", "true") :: governed) = None /\
  option_map (CheckFixModeViolations (env_of governed)) (MustLoadConfig (env_of governed) "") =
    Some [approvals_disabled; infra_missing].
Proof. vm_compute. split; reflexivity. Qed.

(** A mode that is written with a space or not at all is not governed: the agent starts
    without policies and without a log, and every call passes. *)
Example ungoverned_start :
  running (("HELPDESK_OPERATING_MODE", "fix ") :: model) = Some ("", false, false) /\
  match (begin (("HELPDESK_OPERATING_MODE", "fix ") :: model)).2 with
  | Some (_, en) =>
      (CheckTool "fix " no_zones (fun _ => "") Hours sample_clock (fun _ => None) en (auditd_with []) (sample_ctx "" "") "database"
         "orders" ActionDestructive ["production"] "" ["pii"]).2.2 = None
  | None => False
  end.
Proof. vm_compute. split; reflexivity. Qed.

(** A switch that is set to false keeps policies off although there is a file; a
    readonly-governed agent needs no approvals. *)
Example switches :
  policy_enabled (env_of (("HELPDESK_POLICY_ENABLED", "false") :: governed)) = false /\
  policy_enabled (env_of (("HELPDESK_POLICY_ENABLED", "TRUE") :: governed)) = false /\
  approval_timeout (env_of [("HELPDESK_APPROVAL_TIMEOUT", "2 minutes")]) = (30 * Second)%Z /\
  option_map (fun cfg => CheckFixModeViolations (env_of (("HELPDESK_OPERATING_MODE", "readonly-governed") :: governed)) cfg)
    (MustLoadConfig (env_of governed) "") = Some [infra_missing].
Proof. vm_compute. repeat split. Qed.
End StartToy.

