(* ===== verification/AgentServe.v ===== *)
(** * What an agent serves

    agentutil/serve/serve.go: the endpoint for direct tool calls with its authentication,
    and the tool calls that are added to an answer; of agentutil/agentutil.go the options
    written into an agent's card and the callback that records what the model reasons;
    agentutil/directtool.go and internal/authz/agent_routes.go.

    The registry of an agent is a function from names to handlers over the agent's own
    state (those of DatabaseQueries, K8sTools and SysadminTools are such functions).  The
    decoding of a body into the request record is a parameter.  The A2A transport and the
    model are not modelled. *)

From S2P Require Import Prelude GoTime Events Identity Authz Action ApprovalPolicy Enforcer PlaybookPrompt ToolAudit.
From S2P Require Import ToolRegistry.
From S2P Require Gateway K8sTools.

Open Scope string_scope.

(** ** The options of a card *)

(** The links, the provider and the examples, which the gateway does not read, are left
    out. *)
Record CardOptions := {
  co_Version : string;
  co_SkillTags : gmap string (list string);
  SkillAutoRemediationEligible : gmap string bool;
  SkillFleetEligible : gmap string bool;
  SkillCapabilities : gmap string (list string);
  SkillSupersedes : gmap string (list string);
  SkillSchemaHash : gmap string string }.

Definition flag_tag (m : gmap string bool) (id tag : string) : list string :=
  match m !! id with Some true => [tag] | _ => [] end.

Definition option_tags (opts : CardOptions) (id : string) : list string :=
  (default [] (co_SkillTags opts !! id) ++ flag_tag (SkillFleetEligible opts) id "fleet:true" ++
   flag_tag (SkillAutoRemediationEligible opts) id "auto_remediation:true" ++
   map (String.append "cap:") (default [] (SkillCapabilities opts !! id)) ++
   map (String.append "supersedes:") (default [] (SkillSupersedes opts !! id)) ++
   match SkillSchemaHash opts !! id with Some hash => if hash =?s "" then [] else [("schema_hash:" ++ hash)%string] | None => [] end)%list.

Definition ApplyCardOptions (card : AgentCard) (opts : CardOptions) : AgentCard :=
  {| cd_Version := if co_Version opts =?s "" then cd_Version card else co_Version opts;
     cd_Skills := map (fun s => {| sk_ID := sk_ID s; sk_Name := sk_Name s; sk_Description := sk_Description s;
                                   sk_Tags := (sk_Tags s ++ option_tags opts (sk_ID s))%list |}) (cd_Skills card) |}.

(** ** What the model does, in the answer and in the log *)

(** A part of the model's content: text, and the name of a call. *)
Record ModelPart := { mp_Text : string; mp_Call : option string }.

Definition called (content : option (list ModelPart)) : list string :=
  match content with
  | None => []
  | Some parts => List.filter given (omap mp_Call parts)
  end.

(** An event of a run: its content, and whether it is the final response with an
    artifact. *)
Record RunEvent := { re_Content : option (list ModelPart); re_Final : bool }.

(** The calls before an event and the summaries that are appended at it. *)
Definition after_event (names : list string) (e : RunEvent) : list string * list (list string) :=
  let names := (names ++ called (re_Content e))%list in
  (names, if re_Final e then match names with [] => [] | _ => [names] end else []).

Fixpoint tool_call_summaries (names : list string) (run : list RunEvent) : list (list string) :=
  match run with
  | [] => []
  | e :: rest => let '(names, out) := after_event names e in (out ++ tool_call_summaries names rest)%list
  end.

(** Text and calls in the same response are recorded. *)
Definition NewReasoningCallback (auditor : option ToolAuditor) (now : Time) (uuid8 traceID : string)
    (content : option (list ModelPart)) : list Event :=
  match auditor, content with
  | Some ta, Some parts =>
      let textParts := List.filter given (map mp_Text parts) in
      let toolCalls := omap mp_Call parts in
      match textParts, toolCalls with
      | _ :: _, _ :: _ => RecordAgentReasoning ta now uuid8 traceID (join (nl ++ nl) textParts) toolCalls
      | _, _ => []
      end
  | _, _ => []
  end.

(** ** Direct tool calls *)

Definition tool_pattern : string := "POST /tool/{name}".

Definition DefaultAgentPermissions : gmap string Permission :=
  {[ tool_pattern := {| AllowAnonymous := false; RequireRoles := []; AdminBypass := true; ServiceOnly := true |} ]}.

(** The provider that serves the agent: the users file, unless there is none or the
    mode is none.  [None] stands for a file that cannot be loaded. *)
Definition inbound_auth (usersFile idMode : string) (NewStatic : string -> option StaticProvider)
    : result string (option StaticProvider) :=
  if given usersFile && (idMode <>?s "none") then
    match NewStatic usersFile with
    | None => Err ("agent inbound auth: failed to load users file " ++ quote usersFile)
    | Some p => Ok (Some p)
    end
  else Ok None.

Definition tool_authorizer (provider : option StaticProvider) : Authorizer :=
  NewAuthorizer DefaultAgentPermissions (match provider with Some _ => true | None => false end).

(** A request: the credentials, the name, and the body as a JSON object unless it is
    none. *)
Record ToolRequest := { tp_Credentials : HttpRequest; tp_Name : string; tp_Body : option anymap }.

Record ToolReply := { tp_Status : Z; tp_Resp : Gateway.directToolResp }.

Definition tool_error (status : Z) (e : string) : ToolReply :=
  {| tp_Status := status; tp_Resp := {| Gateway.dt_Output := ""; Gateway.dt_Error := e |} |}.

Section Direct.
Context {W : Type} (tools : string -> option (Ctx -> anymap -> W -> W * result string string)).
Context (verify : string -> string -> option bool) (provider : option StaticProvider).
(** The JSON of a body read into the request record, as far as it fits. *)
Context (unmarshal : anymap -> Gateway.directToolReq).

(** The agent: the current trace id and the state of its tools. *)
Record Agent := { a_trace : string; a_world : W }.

Definition Resolve (r : HttpRequest) : ResolvedPrincipal :=
  match (match provider with Some p => StaticProvider_Resolve verify p r | None => NoAuthProvider_Resolve r end) with
  | Ok principal => principal
  | Err _ => header_principal ""
  end.

Definition bare_request (args : anymap) : Gateway.directToolReq :=
  {| Gateway.dt_TraceID := ""; Gateway.dt_Principal := zero_principal; Gateway.dt_Purpose := ""; Gateway.dt_PurposeNote := "";
     Gateway.dt_PurposeExplicit := false; Gateway.dt_Args := args |}.

(** A body without args is the arguments. *)
Definition read_request (body : anymap) : Gateway.directToolReq :=
  if has_key body "args" then unmarshal body else bare_request body.

(** The context of the tool: the principal that the body names. *)
Definition direct_ctx (req : Gateway.directToolReq) : Ctx :=
  {| cx_trace := Some {| tc_TraceID := Gateway.dt_TraceID req; tc_ParentID := ""; tc_Origin := "direct_tool";
       tc_Principal := Gateway.dt_Principal req; tc_Purpose := Gateway.dt_Purpose req;
       tc_PurposeNote := Gateway.dt_PurposeNote req; PurposeExplicit := Gateway.dt_PurposeExplicit req;
       ApprovalMode := ""; tc_ApprovalSession := "" |};
     cx_tool := "" |}.

Definition handleDirectTool (r : ToolRequest) (a : Agent) : Agent * ToolReply :=
  match Authorize (tool_authorizer provider) tool_pattern (Resolve (tp_Credentials r)) with
  | Some e => (a, tool_error (auth_status e) (AuthError_text e))
  | None =>
      match tools (tp_Name r) with
      | None => (a, tool_error 404 ("unknown tool: " ++ tp_Name r))
      | Some fn =>
          match tp_Body r with
          | None => (a, tool_error 400 "invalid JSON body")
          | Some body =>
              let req := read_request body in
              let trace := if given (Gateway.dt_TraceID req) then Gateway.dt_TraceID req else a_trace a in
              match fn (direct_ctx req) (Gateway.dt_Args req) (a_world a) with
              | (w, Err e) => ({| a_trace := trace; a_world := w |}, tool_error 422 e)
              | (w, Ok output) =>
                  ({| a_trace := trace; a_world := w |},
                   {| tp_Status := 200; tp_Resp := {| Gateway.dt_Output := output; Gateway.dt_Error := "" |} |})
              end
          end
      end
  end.
End Direct.

(** ** Who may call *)

Section Callers.
Context {W : Type} (tools : string -> option (Ctx -> anymap -> W -> W * result string string)).
Context (verify : string -> string -> option bool) (unmarshal : anymap -> Gateway.directToolReq).

(** The key of a service account was presented; or a user of the file with the role
    admin was named, without any key. *)
Definition proved_account (p : StaticProvider) (r : HttpRequest) : Prop :=
  exists id sa, In (id, sa) (serviceAccounts p) /\
    verify (trim_prefix (h_Authorization r) "Bearer ") (APIKeyHash sa) = Some true.
Definition named_admin (p : StaticProvider) (r : HttpRequest) : Prop :=
  has_prefix (h_Authorization r) "Bearer " = false /\
  exists roles, users p !! h_XUser r = Some roles /\ In "admin" (expandRoles p roles).

Lemma tool_permission p :
  permissions (tool_authorizer (Some p)) !! tool_pattern =
    Some {| AllowAnonymous := false; RequireRoles := []; AdminBypass := true; ServiceOnly := true |}.
Proof. by vm_compute. Qed.

Lemma authorized_caller p r :
  Authorize (tool_authorizer (Some p)) tool_pattern (Resolve verify (Some p) r) = None ->
  proved_account p r \/ named_admin p r.
Proof.
  unfold Authorize. change (Authz.enforcing (tool_authorizer (Some p))) with true. cbn [negb]. cbv iota.
  rewrite tool_permission. cbn [AllowAnonymous AdminBypass ServiceOnly RequireRoles]. unfold Resolve.
  destruct (IsAnonymous _) eqn:Ea; [done|]. change (adminRole (tool_authorizer (Some p))) with "admin".
  unfold StaticProvider_Resolve, proved_account, named_admin in *.
  destruct (has_prefix (h_Authorization r) "Bearer ").
  - unfold resolveServiceAccount in *. destruct (find_account _ _ _) as [[id sa]|] eqn:Ef; [|done].
    apply find_account_Some in Ef as [Hin Hv]. intros _. left. by exists id, sa.
  - destruct (h_XUser r =?s ""); [done|]. destruct (users p !! h_XUser r) as [roles|] eqn:Eu; [|done].
    cbn [Service andb]. destruct (HasRole _ "admin") eqn:Eh; simpl; [|done]. intros _. right. split; [done|].
    exists roles. split; [done|]. apply HasRole_spec in Eh as [H|[]]. exact H.
Qed.

(**  On an agent that has a users file, a direct call is looked at only for a
    caller that presented the key of a service account, or that named a user of the file
    who has the role admin: every other call is refused with 401 or 403 and changes
    nothing.  The name alone is enough for such a user. *)
Theorem direct_tools_authenticated p r (a : Agent (W := W)) :
  let out := handleDirectTool tools verify (Some p) unmarshal r a in
  proved_account p (tp_Credentials r) \/ named_admin p (tp_Credentials r) \/
  (out.1 = a /\ (tp_Status out.2 = 401%Z \/ tp_Status out.2 = 403%Z) /\ Gateway.dt_Output (tp_Resp out.2) = "").
Proof.
  intros out. unfold out, handleDirectTool. destruct (Authorize _ _ _) as [e|] eqn:E.
  - right. right. split; [done|]. split; [|done]. destruct e; [by left|by right].
  - apply authorized_caller in E as [H|H]; auto.
Qed.

(** The tool that a reply of 200 or 422 comes from, and the context it ran in. *)
Definition ran_tool (r : ToolRequest) (a a' : Agent (W := W)) (body : anymap) (res : result string string) : Prop :=
  exists fn, tools (tp_Name r) = Some fn /\ tp_Body r = Some body /\
    fn (direct_ctx (read_request unmarshal body)) (Gateway.dt_Args (read_request unmarshal body)) (a_world a) = (a_world a', res).

Lemma handleDirectTool_spec provider r a :
  let out := handleDirectTool tools verify provider unmarshal r a in
  (out.1 = a /\ In (tp_Status out.2) [401; 403; 404; 400]%Z) \/
  exists body res, Authorize (tool_authorizer provider) tool_pattern (Resolve verify provider (tp_Credentials r)) = None /\
    ran_tool r a out.1 body res /\
    out.2 = match res with
            | Ok output => {| tp_Status := 200; tp_Resp := {| Gateway.dt_Output := output; Gateway.dt_Error := "" |} |}
            | Err e => tool_error 422 e
            end.
Proof.
  intros out. unfold out, handleDirectTool, ran_tool. destruct (Authorize _ _ _) as [e|].
  { left. split; [done|]. destruct e; simpl; auto. }
  destruct (tools (tp_Name r)) as [fn|]; [|left; simpl; auto]. destruct (tp_Body r) as [body|]; [|left; simpl; auto 6].
  destruct (fn _ _ _) as [w res] eqn:Ef. right. exists body, res.
  destruct res as [output|e]; (split; [done|]); (split; [exists fn|reflexivity]); split_and!; try done; exact Ef.
Qed.
End Callers.

(** ** A direct call through the gateway *)

Section Composed.
Context {W : Type} (tools : string -> option (Ctx -> anymap -> W -> W * result string string)).
Context (verify : string -> string -> option bool) (provider : option StaticProvider).
Context (unmarshal : anymap -> Gateway.directToolReq) (marshal : Gateway.directToolReq -> anymap).
Context (unmarshal_tool : string -> Gateway.directToolResp * bool) (marshal_resp : Gateway.directToolResp -> string).
(** What is encoded is read back: the member args is always written. *)
Context (request_stable : forall b, has_key (marshal b) "args" = true /\ unmarshal (marshal b) = b).
Context (response_stable : forall x, unmarshal_tool (marshal_resp x) = (x, true)).
(** The gateway's key, and the agent at the time of the call. *)
Context (credential : HttpRequest) (a : Agent (W := W)).

Definition agent_answer (toolName url : string) (body : Gateway.directToolReq) : Gateway.ToolPost :=
  let reply := (handleDirectTool tools verify provider unmarshal
                  {| tp_Credentials := credential; tp_Name := toolName; tp_Body := Some (marshal body) |} a).2 in
  Gateway.PostAnswered (tp_Status reply) (marshal_resp (tp_Resp reply)).

Context (g : Gateway.Gateway) (fr : Gateway.Fresh) (start now : Time) (elapsed : Z).

(** A reply of 200 carries the output of the agent's answer. *)
Lemma dispatched_text post_tool agent r toolName args :
  let out := Gateway.dispatchDirectTool g fr start now elapsed post_tool unmarshal_tool r agent toolName args in
  Gateway.rp_Status out.2 = 200%Z ->
  exists url status bytes x, post_tool url (Gateway.direct_body fr r args) = Gateway.PostAnswered status bytes /\
    Gateway.rp_Body out.2 = Gateway.AgentBody x /\
    Gateway.rs_Text x = (if (unmarshal_tool bytes).2 then Gateway.dt_Output (unmarshal_tool bytes).1 else bytes).
Proof.
  intros out. unfold out, Gateway.dispatchDirectTool. rewrite Gateway.resolveRequest_headers. cbv zeta iota.
  fold (Gateway.direct_trace fr r). fold (Gateway.direct_body fr r args).
  destruct (Gateway.g_agents g !! agent) as [base|]; [|done]. set (url := _ ++ _).
  destruct (post_tool url (Gateway.direct_body fr r args)) as [|e|status bytes] eqn:Ep; [done|done|].
  destruct (unmarshal_tool bytes) as [resp decoded] eqn:Eu. set (text := if Gateway.dt_Error resp =?s "" then _ else _).
  destruct ((400 <=? status)%Z || negb (Gateway.dt_Error resp =?s "")) eqn:Ef.
  { pose proof (Gateway.failure_status_code status text) as [H _]. by destruct (Gateway.failure_status status text). }
  destruct (Gateway.isToolError text); [done|]. intros _. do 4 eexists. split; [exact Ep|]. split; [reflexivity|].
  apply orb_false_iff in Ef as [_ He]. apply negb_false_iff in He. unfold text. by rewrite He, Eu.
Qed.

End Composed.

(** ** A card and the registry that is built from it *)

(** A tag that means nothing to the registry. *)
Definition plain (tag : string) : Prop := forall t, add_tag t tag = t.

Lemma plain_tags l t : Forall plain l -> fold_left add_tag l t = t.
Proof. intros H. revert t. induction H as [|tag l Ht _ IH]; intros t; [done|]. simpl. by rewrite Ht. Qed.

Definition set_flags (fleet auto : bool) (t : SkillTags) : SkillTags :=
  {| tg_fleet := tg_fleet t || fleet; tg_auto := tg_auto t || auto; tg_caps := tg_caps t; tg_supersedes := tg_supersedes t;
     tg_hash := tg_hash t |}.

Lemma flag_tags opts id t :
  fold_left add_tag (flag_tag (SkillAutoRemediationEligible opts) id "auto_remediation:true")
    (fold_left add_tag (flag_tag (SkillFleetEligible opts) id "fleet:true") t) =
  set_flags (default false (SkillFleetEligible opts !! id)) (default false (SkillAutoRemediationEligible opts !! id)) t.
Proof.
  unfold flag_tag, set_flags. destruct t as [f a c s h].
  destruct (SkillFleetEligible opts !! id) as [[]|], (SkillAutoRemediationEligible opts !! id) as [[]|]; simpl;
    rewrite ?orb_true_r, ?orb_false_r; reflexivity.
Qed.

Lemma add_cap c t : add_tag t ("cap:" ++ c) =
  {| tg_fleet := tg_fleet t; tg_auto := tg_auto t; tg_caps := (tg_caps t ++ [c])%list; tg_supersedes := tg_supersedes t;
     tg_hash := tg_hash t |}.
Proof. reflexivity. Qed.

Lemma add_supersedes c t : add_tag t ("supersedes:" ++ c) =
  {| tg_fleet := tg_fleet t; tg_auto := tg_auto t; tg_caps := tg_caps t; tg_supersedes := (tg_supersedes t ++ [c])%list;
     tg_hash := tg_hash t |}.
Proof. reflexivity. Qed.

Lemma add_hash c t : add_tag t ("schema_hash:" ++ c) =
  {| tg_fleet := tg_fleet t; tg_auto := tg_auto t; tg_caps := tg_caps t; tg_supersedes := tg_supersedes t; tg_hash := c |}.
Proof. reflexivity. Qed.

Lemma cap_tags l t : fold_left add_tag (map (String.append "cap:") l) t =
  {| tg_fleet := tg_fleet t; tg_auto := tg_auto t; tg_caps := (tg_caps t ++ l)%list; tg_supersedes := tg_supersedes t;
     tg_hash := tg_hash t |}.
Proof.
  revert t. induction l as [|c l IH]; intros t; cbn [map fold_left]; [rewrite app_nil_r; by destruct t|].
  rewrite add_cap, IH. cbn. by rewrite <- app_assoc.
Qed.

Lemma supersedes_tags l t : fold_left add_tag (map (String.append "supersedes:") l) t =
  {| tg_fleet := tg_fleet t; tg_auto := tg_auto t; tg_caps := tg_caps t; tg_supersedes := (tg_supersedes t ++ l)%list;
     tg_hash := tg_hash t |}.
Proof.
  revert t. induction l as [|c l IH]; intros t; cbn [map fold_left]; [rewrite app_nil_r; by destruct t|].
  rewrite add_supersedes, IH. cbn. by rewrite <- app_assoc.
Qed.

Lemma option_tags_parsed opts id tags : Forall plain tags -> Forall plain (default [] (co_SkillTags opts !! id)) ->
  parseSkillTags (tags ++ option_tags opts id) =
  {| tg_fleet := default false (SkillFleetEligible opts !! id);
     tg_auto := default false (SkillAutoRemediationEligible opts !! id);
     tg_caps := default [] (SkillCapabilities opts !! id); tg_supersedes := default [] (SkillSupersedes opts !! id);
     tg_hash := default "" (SkillSchemaHash opts !! id) |}.
Proof.
  intros H1 H2. unfold parseSkillTags, option_tags. rewrite !fold_left_app, (plain_tags tags), (plain_tags (default [] _)) by done.
  rewrite flag_tags, cap_tags, supersedes_tags. unfold set_flags, no_tags. cbn.
  destruct (SkillSchemaHash opts !! id) as [hash|]; [|done]. cbn. destruct (hash =?s "") eqn:E; [|done].
  apply streq_spec in E as ->. done.
Qed.

Lemma extract_named agent tool : given tool = true -> extractToolName agent (agent ++ "-" ++ tool) = tool.
Proof.
  intros Hg. unfold extractToolName. rewrite <- app_assoc_s.
  assert (Hp : has_prefix ((agent ++ "-") ++ tool) (agent ++ "-") = true) by (apply has_prefix_spec; by exists tool).
  unfold trim_prefix. rewrite Hp. generalize (agent ++ "-"). clear. induction s as [|c s IH]; [done|]. exact IH.
Qed.

(**  What an agent declares about its tools reaches the gateway: the
    registry that is built from a card with the options written into it has an entry of
    the tool's name with the declared eligibility for fleets and for automatic
    remediation, capabilities, superseded tools and fingerprint, and with the version of
    the card, as long as the other tags do not look like one of these. *)
Theorem card_options_read_back agentSchemas classification agent card opts sk toolName :
  In sk (cd_Skills card) -> sk_ID sk = agent ++ "-" ++ toolName -> given toolName = true ->
  Forall plain (sk_Tags sk) -> Forall plain (default [] (co_SkillTags opts !! sk_ID sk)) ->
  exists e, In e (tools (Build agentSchemas classification [(agent, Some (ApplyCardOptions card opts))])) /\
    en_Name e = toolName /\ en_AgentVersion e = cd_Version (ApplyCardOptions card opts) /\
    FleetEligible e = default false (SkillFleetEligible opts !! sk_ID sk) /\
    AutoRemediationEligible e = default false (SkillAutoRemediationEligible opts !! sk_ID sk) /\
    Capabilities e = default [] (SkillCapabilities opts !! sk_ID sk) /\
    Supersedes e = default [] (SkillSupersedes opts !! sk_ID sk) /\
    en_SchemaFingerprint e = default "" (SkillSchemaHash opts !! sk_ID sk).
Proof.
  intros Hin Hid Hg H1 H2.
  set (sk' := {| sk_ID := sk_ID sk; sk_Name := sk_Name sk; sk_Description := sk_Description sk;
                 sk_Tags := (sk_Tags sk ++ option_tags opts (sk_ID sk))%list |}).
  assert (Hs : exists e, skill_entry agentSchemas classification agent (ApplyCardOptions card opts) sk' = Some e /\
    en_Name e = toolName /\ en_AgentVersion e = cd_Version (ApplyCardOptions card opts) /\
    FleetEligible e = default false (SkillFleetEligible opts !! sk_ID sk) /\
    AutoRemediationEligible e = default false (SkillAutoRemediationEligible opts !! sk_ID sk) /\
    Capabilities e = default [] (SkillCapabilities opts !! sk_ID sk) /\
    Supersedes e = default [] (SkillSupersedes opts !! sk_ID sk) /\
    en_SchemaFingerprint e = default "" (SkillSchemaHash opts !! sk_ID sk)).
  { unfold skill_entry, sk'. cbn [sk_ID sk_Tags sk_Name sk_Description]. rewrite option_tags_parsed by done.
    rewrite Hid, extract_named by done. unfold given in Hg. apply negb_true_iff in Hg. rewrite Hg.
    eexists. split; [reflexivity|]. by rewrite <- Hid. }
  destruct Hs as (e & He & Hrest). exists e. split; [|exact Hrest].
  unfold Build, New, agent_entries. cbn [tools flat_map fst snd]. rewrite app_nil_r.
  apply list_elem_of_In, list_elem_of_omap. exists sk'. split; [|exact He].
  apply list_elem_of_In. unfold ApplyCardOptions. cbn [cd_Skills]. apply in_map_iff. by exists sk.
Qed.

(** ** The calls of a run *)

Definition called_in (run : list RunEvent) : list string := flat_map (fun e => called (re_Content e)) run.

(** The summary at the final response names every call of the run so far, in order. *)
Lemma summary_of_run run names last : Forall (fun e => re_Final e = false) run -> re_Final last = true ->
  tool_call_summaries names (run ++ [last]) =
    match (names ++ called_in (run ++ [last]))%list with [] => [] | l => [l] end.
Proof.
  intros Hr Hl. revert names. induction Hr as [|e run He _ IH]; intros names.
  - cbn. unfold called_in. cbn. rewrite Hl, !app_nil_r.
    by destruct (names ++ called (re_Content last))%list.
  - cbn [app tool_call_summaries after_event]. rewrite He. cbn [app]. rewrite IH.
    unfold called_in. cbn [app flat_map]. by rewrite app_assoc.
Qed.

(** ** Concrete calls *)

Module ServeToy.

Definition users : UsersConfig :=
  {| uc_Users := [{| ue_ID := "alice"; ue_Roles := ["admin"] |}; {| ue_ID := "bob"; ue_Roles := ["dba"] |}];
     uc_ServiceAccounts := [{| sa_ID := "gateway"; sa_Roles := []; APIKeyHash := "h1" |}]; uc_RoleAliases := ∅ |}.

Definition provider : StaticProvider := NewStaticProvider users.

(** A tool that answers with the user it runs for. *)
Definition whoami (name : string) : option (Ctx -> anymap -> nat -> nat * result string string) :=
  if name =?s "whoami" then Some (fun c _ n => (Datatypes.S n, Ok (UserID (ctx_principal c)))) else None.

Definition agent : Agent (W := nat) := {| a_trace := ""; a_world := 0 |}.

(** A decoder that reads the principal's name. *)
Definition unmarshal (m : anymap) : Gateway.directToolReq :=
  {| Gateway.dt_TraceID := meta_string "trace_id" m;
     Gateway.dt_Principal := {| UserID := meta_string "user" m; Roles := []; Service := ""; AuthMethod := "";
                                OperatorID := ""; OperatorRoles := [] |};
     Gateway.dt_Purpose := ""; Gateway.dt_PurposeNote := ""; Gateway.dt_PurposeExplicit := false; Gateway.dt_Args := [] |}.

Definition call (provider : option StaticProvider) (bearer xuser : string) : Z * string :=
  let reply := (handleDirectTool whoami sample_verify provider unmarshal
                  {| tp_Credentials := {| h_Authorization := bearer; h_XUser := xuser |}; tp_Name := "whoami";
                     tp_Body := Some [("args", AMap []); ("user", AStr "carol")] |} agent).2 in
  (tp_Status reply, Gateway.dt_Output (tp_Resp reply) ++ Gateway.dt_Error (tp_Resp reply)).

(** The key of an account, or the name of an admin, and the tool runs for whoever the
    body names; without a users file it runs for everyone. *)
Example callers :
  call (Some provider) "Bearer h1!" "" = (200%Z, "carol") /\
  call (Some provider) "" "alice" = (200%Z, "carol") /\
  (call (Some provider) "" "bob").1 = 403%Z /\ (call (Some provider) "" "").1 = 401%Z /\
  (call (Some provider) "Bearer h2!" "").1 = 401%Z /\
  call None "" "" = (200%Z, "carol").
Proof. vm_compute. repeat split. Qed.

(** Codes for requests and replies that read back, in place of JSON. *)
Definition marshal (b : Gateway.directToolReq) : anymap :=
  let p := Gateway.dt_Principal b in
  [("args", AMap (Gateway.dt_Args b)); ("trace_id", AStr (Gateway.dt_TraceID b)); ("user", AStr (UserID p));
   ("roles", AList (map AStr (Roles p))); ("service", AStr (Service p)); ("method", AStr (AuthMethod p));
   ("operator", AStr (OperatorID p)); ("operator_roles", AList (map AStr (OperatorRoles p)));
   ("purpose", AStr (Gateway.dt_Purpose b)); ("note", AStr (Gateway.dt_PurposeNote b));
   ("explicit", ABool (Gateway.dt_PurposeExplicit b))].

Definition read_back (m : anymap) : Gateway.directToolReq :=
  {| Gateway.dt_TraceID := meta_string "trace_id" m;
     Gateway.dt_Principal := {| UserID := meta_string "user" m; Roles := meta_strings "roles" m; Service := meta_string "service" m;
                                AuthMethod := meta_string "method" m; OperatorID := meta_string "operator" m;
                                OperatorRoles := meta_strings "operator_roles" m |};
     Gateway.dt_Purpose := meta_string "purpose" m; Gateway.dt_PurposeNote := meta_string "note" m;
     Gateway.dt_PurposeExplicit := meta_bool "explicit" m;
     Gateway.dt_Args := match meta_get "args" m with Some (AMap args) => args | _ => [] end |}.

Lemma strings_back l : omap (fun v => match v with AStr s => Some s | _ => None end) (map AStr l) = l.
Proof. induction l as [|s l IH]; [done|]. simpl. f_equal. exact IH. Qed.

Lemma request_stable b : has_key (marshal b) "args" = true /\ read_back (marshal b) = b.
Proof.
  split; [reflexivity|]. destruct b as [tid [u rs s m o ors] pu pn pe args].
  unfold read_back, marshal, meta_string, meta_strings, meta_bool, meta_get. cbn -[omap].
  vm_compute (String.eqb _ _). cbn -[omap]. by rewrite !strings_back.
Qed.

Definition marshal_resp (x : Gateway.directToolResp) : string :=
  K8sTools.K8sToy.bits (encode (Gateway.dt_Output x, Gateway.dt_Error x)).

Definition unmarshal_resp (s : string) : Gateway.directToolResp * bool :=
  match decode (A := string * string) (K8sTools.K8sToy.of_bits s) with
  | Some (o, e) => ({| Gateway.dt_Output := o; Gateway.dt_Error := e |}, true)
  | None => ({| Gateway.dt_Output := ""; Gateway.dt_Error := "" |}, false)
  end.

Lemma response_stable x : unmarshal_resp (marshal_resp x) = (x, true).
Proof. unfold unmarshal_resp, marshal_resp. rewrite K8sTools.K8sToy.of_bits_bits, decode_encode. by destruct x. Qed.

(** A call of alice through the gateway, which has a key of its own. *)
Definition through_gateway : list Gateway.Effect * Gateway.Reply :=
  Gateway.dispatchDirectTool (Gateway.GatewayToy.toy "") Gateway.GatewayToy.fresh Gateway.GatewayToy.start
    Gateway.GatewayToy.start 1 (agent_answer whoami sample_verify (Some provider) read_back marshal marshal_resp
      {| h_Authorization := "Bearer h1!"; h_XUser := "" |} agent "whoami") unmarshal_resp
    (Gateway.GatewayToy.request None) agentNameDB "whoami" [].

Definition card : AgentCard :=
  {| cd_Version := "1"; cd_Skills := [{| sk_ID := "k8s_agent-get_pods"; sk_Name := "get_pods"; sk_Description := ""; sk_Tags := ["k8s"] |}] |}.

Definition options : CardOptions :=
  {| co_Version := "2"; co_SkillTags := {[ "k8s_agent-get_pods" := ["pods"] ]}; SkillAutoRemediationEligible := ∅;
     SkillFleetEligible := {[ "k8s_agent-get_pods" := true ]}; SkillCapabilities := {[ "k8s_agent-get_pods" := ["pods"] ]};
     SkillSupersedes := ∅; SkillSchemaHash := {[ "k8s_agent-get_pods" := "abc" ]} |}.

(** A tag of an author that looks like one of the others is taken for it. *)
Example tag_taken_for_option : ~ plain "fleet:true" /\ ~ plain "cap:x" /\ plain "pods".
Proof.
  split_and!; [| |intros t; reflexivity]; intros H; specialize (H no_tags); revert H; vm_compute; discriminate.
Qed.

(** A run with two calls: the summary is appended once, at the end. *)
Example summary :
  tool_call_summaries [] [{| re_Content := Some [{| mp_Text := "look"; mp_Call := Some "get_pods" |}]; re_Final := false |};
                          {| re_Content := Some [{| mp_Text := ""; mp_Call := Some "get_events" |}]; re_Final := false |};
                          {| re_Content := Some [{| mp_Text := "done"; mp_Call := None |}]; re_Final := true |}] =
    [["get_pods"; "get_events"]].
Proof. vm_compute. reflexivity. Qed.
End ServeToy.

Lemma card_options_read_back_witness :
  exists e, In e (tools (Build ∅ [] [("k8s_agent", Some (ApplyCardOptions ServeToy.card ServeToy.options))])) /\
    en_Name e = "get_pods" /\ FleetEligible e = true /\ AutoRemediationEligible e = false /\ en_AgentVersion e = "2" /\
    en_SchemaFingerprint e = "abc".
Proof.
  destruct (card_options_read_back ∅ [] "k8s_agent" ServeToy.card ServeToy.options
    {| sk_ID := "k8s_agent-get_pods"; sk_Name := "get_pods"; sk_Description := ""; sk_Tags := ["k8s"] |} "get_pods")
    as (e & H1 & H2 & H3 & H4 & H5 & _ & _ & H8);
    [left; reflexivity|reflexivity|reflexivity|repeat constructor|vm_compute; repeat constructor|].
  exists e. split; [exact H1|]. split; [exact H2|]. split; [rewrite H4; reflexivity|]. split; [rewrite H5; reflexivity|].
  split; [rewrite H3; reflexivity|rewrite H8; reflexivity].
Defined.

