(* ===== verification/AuditResults.v ===== *)
(** * What auditd keeps beside the log: results, uploads, certificates and reports

    internal/audit/tool_result_store.go, upload_store.go, fault_stability_store.go and
    govbot_store.go with their endpoints in cmd/auditd/.

    Tables are lists in insertion order, and rows that are equal under ORDER BY keep it.
    The text that the database driver makes of a time and reads from one, JSON and the
    multipart form are parameters.  A failing statement is an argument of the operations
    that write; failing SELECT statements, schema creation and migration are left out. *)

From Stdlib Require Import SpecFloat Permutation.
From S2P Require Import Prelude GoTime TimeText GoFormat PlaybookText PlaybookPrompt PlaybookStore AuditQuery Delegation.
From S2P Require Gateway.

Open Scope string_scope.

(** What an endpoint answers: an error with its status, or a status with a value. *)
Inductive StoreReply (A : Type) :=
  | SError (code : Z) (msg : string)
  | SDone (code : Z) (value : A).
Arguments SError {A} code msg.
Arguments SDone {A} code value.

(** ** tool_result_store.go *)

Record PersistedToolResult := {
  pr_ResultID : string;
  pr_ServerName : string;
  pr_ToolName : string;
  pr_ToolArgs : string;
  pr_Output : string;
  pr_TraceID : string;
  pr_JobID : string;
  pr_RecordedBy : string;
  pr_RecordedAt : Time;
  pr_Success : bool }.

(** [rr_At] is the text of the column, [rr_Success] the integer. *)
Record ResultRow := {
  row_ID : string;
  row_Server : string;
  row_Tool : string;
  row_Args : string;
  row_Output : string;
  row_Trace : string;
  row_Job : string;
  row_By : string;
  row_At : string;
  row_Success : Z }.

Record ToolResultQuery := { tq_ServerName : string; tq_ToolName : string; tq_JobID : string; tq_Since : Z; tq_Limit : Z }.

(** [int64(f)] on amd64, where what does not fit is the smallest integer. *)
Definition duration_of (x : spec_float) : Z :=
  match x with
  | S754_infinity _ | S754_nan => - 2 ^ 63
  | S754_finite true _ _ => let z := - float_trunc x in if in_int64 z then z else - 2 ^ 63
  | _ => let z := float_trunc x in if in_int64 z then z else - 2 ^ 63
  end%Z.

Definition since_unit (unit : ascii) : option Z :=
  if Ascii.eqb unit "d" then Some (24 * Hours)%Z
  else if Ascii.eqb unit "h" then Some Hours
  else if Ascii.eqb unit "m" then Some Minute else None.

Definition parseSinceDuration (s : string) : Z :=
  match String.rev s with
  | String unit (String _ _ as r) =>
      match ParseFloat (String.rev r), since_unit unit with
      | Some val, Some u => duration_of (float_mul val (float_int u))
      | _, _ => default 0%Z (ParseDuration s)
      end
  | _ => 0%Z
  end.

Section Results.
(** The driver's text of a time in a DATETIME column and the text it scans it as. *)
Context (time_text : Time -> string) (scan_text : string -> string).

Definition complete_result (now : Time) (uuid8 : string) (r : PersistedToolResult) : PersistedToolResult :=
  {| pr_ResultID := or_default ("res_" ++ uuid8) (pr_ResultID r); pr_ServerName := pr_ServerName r;
     pr_ToolName := pr_ToolName r; pr_ToolArgs := pr_ToolArgs r; pr_Output := pr_Output r; pr_TraceID := pr_TraceID r;
     pr_JobID := pr_JobID r; pr_RecordedBy := pr_RecordedBy r;
     pr_RecordedAt := if IsZero (pr_RecordedAt r) then now else pr_RecordedAt r; pr_Success := pr_Success r |}.

Definition result_row (r : PersistedToolResult) : ResultRow :=
  {| row_ID := pr_ResultID r; row_Server := pr_ServerName r; row_Tool := pr_ToolName r; row_Args := pr_ToolArgs r;
     row_Output := pr_Output r; row_Trace := pr_TraceID r; row_Job := pr_JobID r; row_By := pr_RecordedBy r;
     row_At := time_text (pr_RecordedAt r); row_Success := if pr_Success r then 1 else 0 |}.

(** The primary key refuses a result id that is there. *)
Definition Record_result (now : Time) (uuid8 : string) (failure : option string) (r : PersistedToolResult) (t : list ResultRow)
    : list ResultRow * result string PersistedToolResult :=
  let r := complete_result now uuid8 r in
  match failure with
  | Some e => (t, Err e)
  | None =>
      if existsb (fun x => row_ID x =?s pr_ResultID r) t then (t, Err "UNIQUE constraint failed: tool_results.result_id")
      else ((t ++ [result_row r])%list, Ok r)
  end.

Definition unset_or (v : string) (p : bool) : bool := (v =?s "") || p.

Definition result_matches (now : Time) (q : ToolResultQuery) (x : ResultRow) : bool :=
  unset_or (tq_ServerName q) (row_Server x =?s tq_ServerName q) && unset_or (tq_ToolName q) (row_Tool x =?s tq_ToolName q) &&
  unset_or (tq_JobID q) (row_Job x =?s tq_JobID q) &&
  ((tq_Since q <=? 0)%Z || text_le (datetime_text (now - tq_Since q)) (row_At x)).

Definition result_limit (limit : Z) : Z := if (limit <=? 0)%Z || (1000 <? limit)%Z then 100%Z else limit.

Definition later_result (a b : ResultRow) : bool := text_lt (row_At b) (row_At a).

Definition scanToolResult (x : ResultRow) : PersistedToolResult :=
  {| pr_ResultID := row_ID x; pr_ServerName := row_Server x; pr_ToolName := row_Tool x; pr_ToolArgs := row_Args x;
     pr_Output := row_Output x; pr_TraceID := row_Trace x; pr_JobID := row_Job x; pr_RecordedBy := row_By x;
     pr_RecordedAt := parseFlexTime (scan_text (row_At x)); pr_Success := negb (row_Success x =? 0)%Z |}.

Definition List_results (now : Time) (q : ToolResultQuery) (t : list ResultRow) : list PersistedToolResult :=
  map scanToolResult
    (take (Z.to_nat (result_limit (tq_Limit q))) (isort later_result (List.filter (result_matches now q) t))).

(** [body]: not read, the error of the decoder, or what it decodes to. *)
Definition handleRecord (now : Time) (uuid8 : string) (failure : option string)
    (body : option (result string PersistedToolResult)) (t : list ResultRow) : list ResultRow * StoreReply PersistedToolResult :=
  match body with
  | None => (t, SError 400 "failed to read body")
  | Some (Err e) => (t, SError 400 ("invalid JSON: " ++ e))
  | Some (Ok r) =>
      if pr_ServerName r =?s "" then (t, SError 400 "server_name is required")
      else if pr_ToolName r =?s "" then (t, SError 400 "tool_name is required")
      else
        match Record_result now uuid8 failure r t with
        | (t', Err _) => (t', SError 500 "failed to record tool result")
        | (t', Ok r) => (t', SDone 201 r)
        end
  end.

Definition result_query (q : string -> string) : ToolResultQuery :=
  {| tq_ServerName := q "server"; tq_ToolName := q "tool"; tq_JobID := q "job_id";
     tq_Since := if given (q "since") then parseSinceDuration (q "since") else 0;
     tq_Limit := default 0%Z (atoi (q "limit")) |}.

Definition handleList_results (now : Time) (q : string -> string) (t : list ResultRow) : StoreReply (list PersistedToolResult) :=
  SDone 200 (List_results now (result_query q) t).

(** What the gateway posts after a direct call, as the endpoint decodes it. *)
Definition posted_result (args_text : list (string * Events.any) -> string) (p : Gateway.ToolResultRecord) : PersistedToolResult :=
  {| pr_ResultID := ""; pr_ServerName := Gateway.tr_Server p; pr_ToolName := Gateway.tr_Tool p;
     pr_ToolArgs := args_text (Gateway.tr_Args p); pr_Output := Gateway.tr_Output p; pr_TraceID := Gateway.tr_Trace p;
     pr_JobID := ""; pr_RecordedBy := Gateway.tr_RecordedBy p; pr_RecordedAt := 0; pr_Success := true |}.
End Results.

(** ** upload_store.go *)

Definition UploadMaxBytes : Z := Z.shiftl 50 20.
Definition UploadTTL : Z := (24 * Hours)%Z.

Record Upload := { ul_UploadID : string; ul_Filename : string; ul_Size : Z; ul_UploadedAt : Time; ul_ExpiresAt : Time }.

Record UploadRow := { ur_ID : string; ur_Filename : string; ur_Content : string; ur_Size : Z; ur_UploadedAt : string; ur_ExpiresAt : string }.

Definition Store_upload (now : Time) (uuid8 : string) (failure : option string) (filename content : string) (t : list UploadRow)
    : list UploadRow * result string Upload :=
  let id := "ul_" ++ uuid8 in
  let exp := (now + UploadTTL)%Z in
  let size := Z.of_nat (String.length content) in
  match (match failure with
         | Some e => Some e
         | None => if existsb (fun x => ur_ID x =?s id) t then Some "UNIQUE constraint failed: uploads.upload_id" else None
         end) with
  | Some e => (t, Err ("store upload: " ++ e))
  | None =>
      ((t ++ [{| ur_ID := id; ur_Filename := filename; ur_Content := content; ur_Size := size;
                 ur_UploadedAt := RFC3339 now; ur_ExpiresAt := RFC3339 exp |}])%list,
       Ok {| ul_UploadID := id; ul_Filename := filename; ul_Size := size; ul_UploadedAt := now; ul_ExpiresAt := exp |})
  end.

Definition find_upload (id : string) (t : list UploadRow) : option UploadRow := find (fun x => ur_ID x =?s id) t.

(** Nothing when there is no row or its time is over. *)
Definition live_upload (now : Time) (id : string) (t : list UploadRow) : option UploadRow :=
  match find_upload id t with
  | Some x => if After now (parse_or_zero (ur_ExpiresAt x)) then None else Some x
  | None => None
  end.

Definition Get_upload (now : Time) (id : string) (t : list UploadRow) : option Upload :=
  option_map (fun x => {| ul_UploadID := ur_ID x; ul_Filename := ur_Filename x; ul_Size := ur_Size x;
                          ul_UploadedAt := parse_or_zero (ur_UploadedAt x); ul_ExpiresAt := parse_or_zero (ur_ExpiresAt x) |})
    (live_upload now id t).

Definition GetContent (now : Time) (id : string) (t : list UploadRow) : option (string * string) :=
  option_map (fun x => (ur_Content x, ur_Filename x)) (live_upload now id t).

(** The form: not parsed, without the file, its bytes unreadable, or the file. *)
Inductive UploadForm :=
  | BadForm (e : string)
  | NoFile
  | Unreadable (e : string)
  | UploadedFile (filename content : string).

Definition handleCreate_upload (now : Time) (uuid8 : string) (failure : option string) (form : UploadForm) (t : list UploadRow)
    : list UploadRow * StoreReply Upload :=
  match form with
  | BadForm e => (t, SError 400 ("failed to parse multipart form: " ++ e))
  | NoFile => (t, SError 400 "missing 'file' field in multipart form")
  | Unreadable e => (t, SError 500 ("failed to read file: " ++ e))
  | UploadedFile filename content =>
      if (UploadMaxBytes <? Z.of_nat (String.length content))%Z then (t, SError 413 "file exceeds 50 MB limit")
      else
        match Store_upload now uuid8 failure filename content t with
        | (t', Err _) => (t', SError 500 "failed to store upload")
        | (t', Ok u) => (t', SDone 201 u)
        end
  end.

Definition handleGet_upload (now : Time) (id : string) (t : list UploadRow) : StoreReply Upload :=
  match Get_upload now id t with
  | Some u => SDone 200 u
  | None => SError 404 "upload not found or expired"
  end.

(** An empty file is scanned as a nil slice or as an empty one, as the driver has it. *)
Definition handleGetContent (nil_when_empty : bool) (now : Time) (id : string) (t : list UploadRow)
    : StoreReply (string * string * string) :=
  match GetContent now id t with
  | Some (content, filename) =>
      if nil_when_empty && (content =?s "") then SError 404 "upload not found or expired"
      else SDone 200 (content, if has_suffix filename ".csv" then "text/csv" else "text/plain; charset=utf-8", filename)
  | None => SError 404 "upload not found or expired"
  end.


(** ** fault_stability_store.go *)

Record FaultStabilityCert := {
  fc_FaultID : string;
  fc_FaultName : string;
  fc_PlaybookSeriesID : string;
  fc_DiagnosisModel : string;
  fc_JudgeModel : string;
  fc_NRuns : Z;
  fc_PassRate : spec_float;
  fc_ConfRangePP : Z;
  fc_IsStable : bool;
  fc_TestedAt : Time;
  fc_PrimaryAttribution : string;
  fc_AttributionConsistent : bool;
  fc_AttributionDistribution : gmap string Z;
  fc_JudgeSpread : spec_float;
  fc_TaxonomyVersion : string }.

(** A row: the judge's model is in the column [model]. *)
Record CertRow := {
  cr_FaultID : string;
  cr_FaultName : string;
  cr_PlaybookSeriesID : string;
  cr_Model : string;
  cr_DiagnosisModel : string;
  cr_NRuns : Z;
  cr_PassRate : spec_float;
  cr_ConfRangePP : Z;
  cr_IsStable : Z;
  cr_TestedAt : string;
  cr_PrimaryAttribution : string;
  cr_AttributionConsistent : Z;
  cr_AttributionDistribution : string;
  cr_JudgeSpread : spec_float;
  cr_TaxonomyVersion : string }.

Definition cert_key (x : CertRow) : string * string := (cr_FaultID x, cr_DiagnosisModel x).

Definition complete_cert (now : Time) (c : FaultStabilityCert) : FaultStabilityCert :=
  {| fc_FaultID := fc_FaultID c; fc_FaultName := fc_FaultName c; fc_PlaybookSeriesID := fc_PlaybookSeriesID c;
     fc_DiagnosisModel := fc_DiagnosisModel c; fc_JudgeModel := fc_JudgeModel c; fc_NRuns := fc_NRuns c;
     fc_PassRate := fc_PassRate c; fc_ConfRangePP := fc_ConfRangePP c; fc_IsStable := fc_IsStable c;
     fc_TestedAt := if IsZero (fc_TestedAt c) then now else fc_TestedAt c;
     fc_PrimaryAttribution := fc_PrimaryAttribution c; fc_AttributionConsistent := fc_AttributionConsistent c;
     fc_AttributionDistribution := fc_AttributionDistribution c; fc_JudgeSpread := fc_JudgeSpread c;
     fc_TaxonomyVersion := fc_TaxonomyVersion c |}.

Definition bit (b : bool) : Z := if b then 1 else 0.

(** ON CONFLICT on the primary key: the row is replaced where it is. *)
Definition same_cert (r x : CertRow) : bool := bool_decide (cert_key x = cert_key r).

Definition upsert_cert (r : CertRow) (t : list CertRow) : list CertRow :=
  if existsb (same_cert r) t
  then map (fun x => if same_cert r x then r else x) t
  else (t ++ [r])%list.

Section Certificates.
(** JSON of a map, and its decoder. *)
Context (dist_text : gmap string Z -> string) (read_dist : string -> option (gmap string Z)).

Definition cert_row (c : FaultStabilityCert) : CertRow :=
  {| cr_FaultID := fc_FaultID c; cr_FaultName := fc_FaultName c; cr_PlaybookSeriesID := fc_PlaybookSeriesID c;
     cr_Model := fc_JudgeModel c; cr_DiagnosisModel := fc_DiagnosisModel c; cr_NRuns := fc_NRuns c;
     cr_PassRate := fc_PassRate c; cr_ConfRangePP := fc_ConfRangePP c; cr_IsStable := bit (fc_IsStable c);
     cr_TestedAt := RFC3339Nano (fc_TestedAt c); cr_PrimaryAttribution := fc_PrimaryAttribution c;
     cr_AttributionConsistent := bit (fc_AttributionConsistent c);
     cr_AttributionDistribution :=
       if bool_decide (fc_AttributionDistribution c = ∅) then "{}" else dist_text (fc_AttributionDistribution c);
     cr_JudgeSpread := fc_JudgeSpread c; cr_TaxonomyVersion := fc_TaxonomyVersion c |}.

Definition Upsert_cert (now : Time) (failure : option string) (c : FaultStabilityCert) (t : list CertRow)
    : list CertRow * option string :=
  match failure with
  | Some e => (t, Some e)
  | None => (upsert_cert (cert_row (complete_cert now c)) t, None)
  end.

Definition scanCert (x : CertRow) : FaultStabilityCert :=
  {| fc_FaultID := cr_FaultID x; fc_FaultName := cr_FaultName x; fc_PlaybookSeriesID := cr_PlaybookSeriesID x;
     fc_DiagnosisModel := cr_DiagnosisModel x; fc_JudgeModel := cr_Model x; fc_NRuns := cr_NRuns x;
     fc_PassRate := cr_PassRate x; fc_ConfRangePP := cr_ConfRangePP x; fc_IsStable := negb (cr_IsStable x =? 0)%Z;
     fc_TestedAt := if given (cr_TestedAt x) then parse_or_zero (cr_TestedAt x) else 0;
     fc_PrimaryAttribution := cr_PrimaryAttribution x;
     fc_AttributionConsistent := negb (cr_AttributionConsistent x =? 0)%Z;
     fc_AttributionDistribution :=
       if given (cr_AttributionDistribution x) && negb (cr_AttributionDistribution x =? "{}")
       then default ∅ (read_dist (cr_AttributionDistribution x)) else ∅;
     fc_JudgeSpread := cr_JudgeSpread x; fc_TaxonomyVersion := cr_TaxonomyVersion x |}.

Definition later_cert (a b : CertRow) : bool := text_lt (cr_TestedAt b) (cr_TestedAt a).

Definition certs_of (faultID : string) (t : list CertRow) : list CertRow :=
  isort later_cert (List.filter (fun x => cr_FaultID x =?s faultID) t).

Definition GetByFaultID (faultID : string) (t : list CertRow) : option FaultStabilityCert :=
  option_map scanCert (head (certs_of faultID t)).

Definition GetByFaultAndModel (faultID model : string) (t : list CertRow) : option FaultStabilityCert :=
  option_map scanCert (find (fun x => (cr_FaultID x =?s faultID) && (cr_DiagnosisModel x =?s model)) t).

Definition ListByFaultID (faultID : string) (t : list CertRow) : list FaultStabilityCert :=
  map scanCert (certs_of faultID t).

Definition by_fault (a b : CertRow) : bool :=
  text_lt (cr_FaultID a) (cr_FaultID b) || ((cr_FaultID a =?s cr_FaultID b) && later_cert a b).

Definition ListAll_certs (t : list CertRow) : list FaultStabilityCert := map scanCert (isort by_fault t).

Definition handleUpsert_cert (now : Time) (failure : option string) (body : result string FaultStabilityCert)
    (t : list CertRow) : list CertRow * StoreReply unit :=
  match body with
  | Err e => (t, SError 400 ("invalid JSON: " ++ e))
  | Ok c =>
      if fc_FaultID c =?s "" then (t, SError 400 "fault_id is required")
      else if (fc_NRuns c <? 1)%Z then (t, SError 400 "n_runs must be >= 1")
      else
        match Upsert_cert now failure c t with
        | (t', Some _) => (t', SError 500 "failed to store cert")
        | (t', None) => (t', SDone 204 ())
        end
  end.

Definition handleGet_cert (faultID : string) (t : list CertRow) : StoreReply FaultStabilityCert :=
  if faultID =?s "" then SError 400 "faultID is required"
  else
    match GetByFaultID faultID t with
    | Some c => SDone 200 c
    | None => SError 404 "no stability cert for fault"
    end.

Definition handleList_certs (t : list CertRow) : StoreReply (list FaultStabilityCert) := SDone 200 (ListAll_certs t).
End Certificates.

(** ** govbot_store.go *)

Record GovbotRun := {
  gr_ID : Z;
  gr_RunAt : Time;
  gr_Window : string;
  gr_Gateway : string;
  gr_Status : string;
  gr_AlertCount : Z;
  gr_WarningCount : Z;
  gr_Alerts : list string;
  gr_Warnings : list string;
  gr_ChainValid : bool;
  gr_PolicyDenies : Z;
  gr_PolicyNoMatch : Z;
  gr_MutationsTotal : Z;
  gr_MutationsDestructive : Z;
  gr_PendingApprovals : Z;
  gr_StaleApprovals : Z;
  gr_DecisionsByResource : string;
  gr_InvocationsByResource : string }.

(** A row: what is stored as it is, and the columns that are written another way. *)
Record GovbotRow := {
  gb_id : Z;
  gb_run_at : string;
  gb_alerts_json : string;
  gb_warnings_json : string;
  gb_chain_valid : Z;
  gb_plain : GovbotRun }.

(** The table, and the id that AUTOINCREMENT gives next. *)
Record GovbotTable := { gb_next : Z; gb_rows : list GovbotRow }.

Definition row_gateway (x : GovbotRow) : string := gr_Gateway (gb_plain x).

Definition later_run (a b : GovbotRow) : bool := text_lt (gb_run_at b) (gb_run_at a).

(** SQLite takes a negative LIMIT as none. *)
Definition sql_limit {A} (limit : Z) (l : list A) : list A := if (limit <? 0)%Z then l else take (Z.to_nat limit) l.

Section Reports.
(** JSON of the alerts and its decoder; a nil slice and an empty one are the same list. *)
Context (strings_text : list string -> string) (read_strings : string -> list string).

Definition SaveRun (failure : option string) (run : GovbotRun) (t : GovbotTable) : GovbotTable * option string :=
  match failure with
  | Some e => (t, Some e)
  | None =>
      ({| gb_next := gb_next t + 1;
          gb_rows := (gb_rows t ++ [{| gb_id := gb_next t; gb_run_at := RFC3339 (gr_RunAt run);
                                       gb_alerts_json := strings_text (gr_Alerts run);
                                       gb_warnings_json := strings_text (gr_Warnings run);
                                       gb_chain_valid := bit (gr_ChainValid run); gb_plain := run |}])%list |}, None)
  end.

Definition retained (gateway : string) (retain : Z) (rows : list GovbotRow) : list Z :=
  map gb_id (sql_limit retain (isort later_run (List.filter (fun x => row_gateway x =?s gateway) rows))).

Definition prune_keeps (gateway : string) (retain : Z) (rows : list GovbotRow) (x : GovbotRow) : bool :=
  negb (row_gateway x =?s gateway) || existsb (Z.eqb (gb_id x)) (retained gateway retain rows).

Definition Prune (failure : option string) (gateway : string) (retain : Z) (t : GovbotTable) : GovbotTable * option string :=
  if (retain <=? 0)%Z || (gateway =?s "") then (t, None)
  else
    match failure with
    | Some e => (t, Some e)
    | None => ({| gb_next := gb_next t; gb_rows := List.filter (prune_keeps gateway retain (gb_rows t)) (gb_rows t) |}, None)
    end.

Definition scan_run (x : GovbotRow) : GovbotRun :=
  let r := gb_plain x in
  {| gr_ID := gb_id x; gr_RunAt := parse_or_zero (gb_run_at x); gr_Window := gr_Window r; gr_Gateway := gr_Gateway r;
     gr_Status := gr_Status r; gr_AlertCount := gr_AlertCount r; gr_WarningCount := gr_WarningCount r;
     gr_Alerts := read_strings (gb_alerts_json x); gr_Warnings := read_strings (gb_warnings_json x);
     gr_ChainValid := negb (gb_chain_valid x =? 0)%Z; gr_PolicyDenies := gr_PolicyDenies r;
     gr_PolicyNoMatch := gr_PolicyNoMatch r; gr_MutationsTotal := gr_MutationsTotal r;
     gr_MutationsDestructive := gr_MutationsDestructive r; gr_PendingApprovals := gr_PendingApprovals r;
     gr_StaleApprovals := gr_StaleApprovals r; gr_DecisionsByResource := gr_DecisionsByResource r;
     gr_InvocationsByResource := gr_InvocationsByResource r |}.

Definition RecentRuns (window gateway : string) (limit : Z) (t : GovbotTable) : list GovbotRun :=
  map scan_run
    (sql_limit limit
       (isort later_run
          (List.filter (fun x => unset_or window (gr_Window (gb_plain x) =?s window) &&
                                 unset_or gateway (row_gateway x =?s gateway)) (gb_rows t)))).

(** [retain] is the query parameter; a failing prune is only logged. *)
Definition handleSaveRun (failure prune_failure : option string) (retain : string) (body : result string GovbotRun)
    (t : GovbotTable) : GovbotTable * StoreReply unit :=
  match body with
  | Err e => (t, SError 400 ("invalid request body: " ++ e))
  | Ok run =>
      match SaveRun failure run t with
      | (t', Some e) => (t', SError 500 ("failed to save run: " ++ e))
      | (t', None) =>
          (match atoi retain with
           | Some n => if (0 <? n)%Z then (Prune prune_failure (gr_Gateway run) n t').1 else t'
           | None => t'
           end, SDone 201 ())
      end
  end.

Definition runs_limit (limit : string) : Z :=
  match atoi limit with Some n => if (0 <? n)%Z then n else 50 | None => 50 end.

Definition handleGetRuns (q : string -> string) (t : GovbotTable) : StoreReply (list GovbotRun) :=
  SDone 200 (RecentRuns (q "window") (q "gateway") (runs_limit (q "limit")) t).
End Reports.

(** ** Lemmas *)

Lemma find_snoc_new {A} (f : A -> bool) l x : find f l = None -> f x = true -> find f (l ++ [x]) = Some x.
Proof. induction l as [|y l IH]; simpl; intros Hn Hx; [by rewrite Hx|]. destruct (f y); [done|]. by apply IH. Qed.

Lemma find_snoc_other {A} (f : A -> bool) l x : f x = false -> find f (l ++ [x]) = find f l.
Proof. induction l as [|y l IH]; simpl; intros Hx; [by rewrite Hx|]. destruct (f y); [done|]. by apply IH. Qed.

Lemma existsb_find {A} (f : A -> bool) l : existsb f l = false -> find f l = None.
Proof. induction l as [|y l IH]; simpl; [done|]. destruct (f y); [done|]. exact IH. Qed.

Lemma In_take_all {A} n (l : list A) x : length l <= n -> In x l -> In x (take n l).
Proof. intros Hn Hx. by rewrite take_ge. Qed.

Lemma in_sql_limit {A} k (l : list A) x : In x (sql_limit k l) -> In x l.
Proof.
  unfold sql_limit. destruct (k <? 0)%Z; [done|]. intros Hx. rewrite <- (take_drop (Z.to_nat k) l).
  apply in_or_app. by left.
Qed.

Lemma later_asym {A} (text : A -> string) a b : text_lt (text b) (text a) = true -> text_lt (text a) (text b) = false.
Proof. apply text_lt_asym. Qed.

Lemma later_ge_trans {A} (text : A -> string) a b c :
  text_lt (text a) (text b) = false -> text_lt (text b) (text c) = false -> text_lt (text a) (text c) = false.
Proof. intros H1 H2. exact (text_ge_trans _ _ _ H2 H1). Qed.

(** The first [k] of a list sorted by a time, newest first, are not older than the others. *)
Lemma sorted_prefix {A} (lt : A -> A -> bool) k l x y :
  sorted_by lt l -> In x (take k l) -> In y (drop k l) -> lt y x = false.
Proof.
  revert l. induction k as [|k IH]; intros [|z l] Hs Hx Hy; simpl in *; try done.
  inversion Hs as [|? ? Hl Hz]; subst. destruct Hx as [<-|Hx]; [|by apply (IH l)].
  rewrite List.Forall_forall in Hz. apply Hz. rewrite <- (take_drop k l). apply in_or_app. by right.
Qed.

Lemma length_sql_limit {A} k (l : list A) : (0 <= k)%Z -> (Z.of_nat (length (sql_limit k l)) <= k)%Z.
Proof.
  intros Hk. unfold sql_limit. rewrite (proj2 (Z.ltb_ge k 0) Hk). rewrite length_take. lia.
Qed.

Lemma scan_written scan_text time_text r :
  parseFlexTime (scan_text (time_text (pr_RecordedAt r))) = pr_RecordedAt r ->
  scanToolResult scan_text (result_row time_text r) = r.
Proof. destruct r as [? ? ? ? ? ? ? ? ? []]; unfold scanToolResult, result_row; simpl; intros H; by rewrite H. Qed.

Lemma matches_without_since time_text now q r :
  unset_or (tq_ServerName q) (pr_ServerName r =?s tq_ServerName q) = true ->
  unset_or (tq_ToolName q) (pr_ToolName r =?s tq_ToolName q) = true -> tq_JobID q = "" -> tq_Since q = 0%Z ->
  result_matches now q (result_row time_text r) = true.
Proof. unfold result_matches. simpl. intros -> -> Hj Hs. by rewrite Hj, Hs. Qed.

Lemma Record_result_done time_text now uuid8 r t t' r' :
  Record_result time_text now uuid8 None r t = (t', Ok r') ->
  r' = complete_result now uuid8 r /\ t' = (t ++ [result_row time_text r'])%list.
Proof. unfold Record_result. destruct (existsb _ t); [done|]. intros [= <- <-]. done. Qed.

Lemma listed_result time_text scan_text now q t r :
  result_matches now q (result_row time_text r) = true ->
  (Z.of_nat (length (List.filter (result_matches now q) t)) < result_limit (tq_Limit q))%Z ->
  scanToolResult scan_text (result_row time_text r) = r ->
  In r (List_results scan_text now q (t ++ [result_row time_text r])).
Proof.
  intros Hm Hl Hr. unfold List_results. rewrite <- Hr at 1. apply in_map.
  apply In_take_all.
  - rewrite (Permutation_length (isort_perm _ _)), List.filter_app, length_app. simpl. rewrite Hm. simpl. lia.
  - apply isort_In, filter_In. split; [apply in_or_app; right; by left|done].
Qed.

Lemma server_name_given args : Gateway.serverNameFromArgs args <> "".
Proof.
  unfold Gateway.serverNameFromArgs. destruct (head _) as [s|] eqn:E; [|done]. simpl. intros ->.
  destruct (omap _ _) as [|x l] eqn:Eo; [done|]. injection E as ->.
  assert (Hin : "" ∈ omap (Gateway.string_arg args) ["connection_string"; "context"; "namespace"]) by (rewrite Eo; left).
  apply list_elem_of_omap in Hin as (k & _ & Hk). unfold Gateway.string_arg in Hk. repeat case_match; simplify_eq/=.
Qed.

(** What the gateway posts of a direct call that succeeded is what the
    endpoint for trends lists: it is answered 201, and a list that asks for its server or
    any, and its tool or any, without a time or a job, has it as long as fewer results
    than its limit match already. *)
Theorem gateway_results_listed (time_text : Time -> string) (scan_text : string -> string)
    (args_text : list (string * Events.any) -> string) (now : Time) (uuid8 toolName output traceID recordedBy : string)
    (args : list (string * Events.any)) (p : Gateway.ToolResultRecord) (t : list ResultRow)
    (Hp : In (Gateway.PostedResult p) (Gateway.recordToolResult toolName args output traceID recordedBy))
    (Htool : toolName <> "") (Hnow : now <> 0%Z)
    (Hfresh : existsb (fun x => row_ID x =?s "res_" ++ uuid8) t = false)
    (Hscan : parseFlexTime (scan_text (time_text now)) = now) :
  let '(t', reply) := handleRecord time_text now uuid8 None (Some (Ok (posted_result args_text p))) t in
  exists r, reply = SDone 201 r /\ pr_ServerName r = Gateway.serverNameFromArgs args /\ pr_ToolName r = toolName /\
    pr_Output r = output /\ pr_RecordedBy r = recordedBy /\ pr_RecordedAt r = now /\
    forall q later, unset_or (q "server") (pr_ServerName r =?s q "server") = true ->
      unset_or (q "tool") (toolName =?s q "tool") = true -> q "job_id" = "" -> q "since" = "" ->
      (Z.of_nat (length (List.filter (result_matches later (result_query q)) t)) < result_limit (tq_Limit (result_query q)))%Z ->
      exists rs, handleList_results scan_text later q t' = SDone 200 rs /\ In r rs.
Proof.
  destruct Hp as [[= <-]|[]]. unfold handleRecord, Record_result, posted_result.
  cbn [pr_ServerName pr_ToolName Gateway.tr_Server Gateway.tr_Tool].
  rewrite (proj2 (streq_false _ _) (server_name_given args)), (proj2 (streq_false _ _) Htool).
  match goal with |- context [existsb ?f t] => change (existsb f t) with (existsb (fun x => row_ID x =?s "res_" ++ uuid8) t) end.
  rewrite Hfresh. eexists. split; [reflexivity|].
  cbn [pr_ServerName pr_ToolName pr_Output pr_RecordedBy pr_RecordedAt complete_result Gateway.tr_Output Gateway.tr_RecordedBy].
  split_and!; [done..|]. intros q later Hs Ht Hj Hsi Hl. eexists. split; [reflexivity|].
  assert (Hq : tq_Since (result_query q) = 0%Z) by (unfold result_query; simpl; by rewrite Hsi).
  apply (listed_result time_text); [by apply matches_without_since|done|by apply scan_written].
Qed.

Lemma live_snoc now id t x : find_upload id t = None -> ur_ID x = id ->
  live_upload now id (t ++ [x]) = if After now (parse_or_zero (ur_ExpiresAt x)) then None else Some x.
Proof.
  intros Hn Hx. unfold live_upload, find_upload in *.
  rewrite (find_snoc_new _ _ _ Hn); [done|]. by rewrite Hx, streq_refl.
Qed.

(** An upload is read back, bytes and name, until the whole second in which its day ends,
    and not after; what else is stored stays as it was. *)
Theorem uploads_read_back (now : Time) (uuid8 filename content : string) (t t' : list UploadRow) (u : Upload)
    (Hw : writable (now + UploadTTL))
    (Hs : Store_upload now uuid8 None filename content t = (t', Ok u)) :
  ul_ExpiresAt u = (now + 24 * Hours)%Z /\
  (forall later, GetContent later (ul_UploadID u) t' =
     if (whole_second (now + UploadTTL) <? later)%Z then None else Some (content, filename)) /\
  (forall later id, id <> ul_UploadID u -> GetContent later id t' = GetContent later id t).
Proof.
  unfold Store_upload in Hs. destruct (existsb _ t) eqn:He; [done|]. injection Hs as <- <-.
  cbn [ul_ExpiresAt ul_UploadID]. split; [reflexivity|]. split.
  - intros later. unfold GetContent. rewrite live_snoc; [|by apply existsb_find|done].
    cbn [ur_ExpiresAt]. change (RFC3339 (now + UploadTTL)) with (clock_fields (now + UploadTTL) ++ "Z").
    rewrite (since_read_back _ Hw). unfold After. by destruct (_ <? later)%Z.
  - intros later id Hid. unfold GetContent, live_upload, find_upload.
    rewrite find_snoc_other; [done|]. simpl. apply streq_false. congruence.
Qed.

Section CertLemmas.
Context (r : CertRow).

Lemma same_cert_spec x : same_cert r x = true <-> cert_key x = cert_key r.
Proof. apply bool_decide_eq_true. Qed.

Lemma upsert_cert_keys t : map cert_key (upsert_cert r t) =
  if existsb (same_cert r) t then map cert_key t else (map cert_key t ++ [cert_key r])%list.
Proof.
  unfold upsert_cert. destruct (existsb _ t); [|by rewrite map_app].
  rewrite map_map. apply map_ext. intros x. destruct (same_cert r x) eqn:E; [|done]. by apply same_cert_spec in E.
Qed.

Lemma upsert_cert_nodup t : NoDup (map cert_key t) -> NoDup (map cert_key (upsert_cert r t)).
Proof.
  rewrite upsert_cert_keys. destruct (existsb _ t) eqn:E; [done|]. intros Hn.
  apply NoDup_app. split; [done|]. split; [|apply NoDup_singleton].
  intros k Hk Hr. apply list_elem_of_singleton in Hr as ->. apply list_elem_of_In, in_map_iff in Hk as (x & Hx & Hin).
  rewrite existsb_false in E. specialize (E x Hin). apply same_cert_spec in Hx. congruence.
Qed.

Definition key_is (k : string * string) (x : CertRow) : bool := (cr_FaultID x =?s k.1) && (cr_DiagnosisModel x =?s k.2).

Lemma key_is_spec k x : key_is k x = true <-> cert_key x = k.
Proof.
  unfold key_is, cert_key. destruct k as [a b]. simpl. rewrite andb_true_iff, !streq_spec.
  split; [intros [-> ->]; done|intros [= -> ->]; done].
Qed.

Lemma key_is_same x : key_is (cert_key r) x = same_cert r x.
Proof. apply eq_true_iff_eq. by rewrite key_is_spec, same_cert_spec. Qed.

Lemma find_cert_same t : find (key_is (cert_key r)) (upsert_cert r t) = Some r.
Proof.
  assert (Hr : same_cert r r = true) by by apply same_cert_spec.
  rewrite (find_ext _ (same_cert r)) by (intros; apply key_is_same).
  unfold upsert_cert. destruct (existsb _ t) eqn:E.
  - induction t as [|x t IH]; simpl in *; [done|]. destruct (same_cert r x) eqn:Ex; [by rewrite Hr|].
    rewrite Ex. by apply IH.
  - apply find_snoc_new; [by apply existsb_find|done].
Qed.

Lemma find_cert_other k t : k <> cert_key r -> find (key_is k) (upsert_cert r t) = find (key_is k) t.
Proof.
  intros Hk. assert (Hr : key_is k r = false).
  { destruct (key_is k r) eqn:E; [|done]. by apply key_is_spec in E. }
  unfold upsert_cert. destruct (existsb _ t); [|by apply find_snoc_other].
  induction t as [|x t IH]; simpl; [done|]. destruct (same_cert r x) eqn:Hx.
  - rewrite Hr. apply same_cert_spec in Hx. destruct (key_is k x) eqn:E; [apply key_is_spec in E; congruence|done].
  - destruct (key_is k x); [done|exact IH].
Qed.
End CertLemmas.

Section CertTheorems.
Context (dist_text : gmap string Z -> string) (read_dist : string -> option (gmap string Z)).
Hypothesis dist_read : forall d, d <> ∅ -> read_dist (dist_text d) = Some d /\ given (dist_text d) = true /\ dist_text d <> "{}".

Lemma scan_cert_row c : writable (fc_TestedAt c) -> scanCert read_dist (cert_row dist_text c) = c.
Proof.
  intros Hw. pose proof (parse_written _ Hw) as Hp.
  assert (Ht : (if given (cr_TestedAt (cert_row dist_text c)) then parse_or_zero (cr_TestedAt (cert_row dist_text c)) else 0%Z)
               = fc_TestedAt c).
  { change (cr_TestedAt (cert_row dist_text c)) with (RFC3339Nano (fc_TestedAt c)). unfold parse_or_zero. rewrite Hp.
    destruct (RFC3339Nano (fc_TestedAt c)); [discriminate Hp|done]. }
  assert (Hd : (if given (cr_AttributionDistribution (cert_row dist_text c)) &&
                   negb (cr_AttributionDistribution (cert_row dist_text c) =?s "{}")
                then default ∅ (read_dist (cr_AttributionDistribution (cert_row dist_text c))) else ∅)
               = fc_AttributionDistribution c).
  { unfold cert_row. simpl. destruct (bool_decide_reflect (fc_AttributionDistribution c = ∅)) as [->|Hne]; [done|].
    destruct (dist_read _ Hne) as (-> & -> & Hb). by rewrite (proj2 (streq_false _ _) Hb). }
  unfold scanCert. rewrite Hd, Ht.
  destruct c as [? ? ? ? ? ? ? ? [] ? ? [] ? ? ?]; done.
Qed.

(** The table of stability certificates is a map from fault and
    diagnosis model: a certificate that is accepted is read back under its own pair as it was sent,
    with the current time when it has none, every other pair's certificate stays as it
    was, and no pair ever has two rows. *)
Theorem certificates_per_model (now : Time) (c : FaultStabilityCert) (t : list CertRow)
    (Hid : fc_FaultID c <> "") (Hn : (1 <= fc_NRuns c)%Z) (Hk : NoDup (map cert_key t))
    (Hw : writable (fc_TestedAt (complete_cert now c))) :
  let '(t', reply) := handleUpsert_cert dist_text now None (Ok c) t in
  reply = SDone 204 () /\ NoDup (map cert_key t') /\
  GetByFaultAndModel read_dist (fc_FaultID c) (fc_DiagnosisModel c) t' = Some (complete_cert now c) /\
  forall f m, (f, m) <> (fc_FaultID c, fc_DiagnosisModel c) ->
    GetByFaultAndModel read_dist f m t' = GetByFaultAndModel read_dist f m t.
Proof.
  unfold handleUpsert_cert, Upsert_cert. rewrite (proj2 (streq_false _ _) Hid), (proj2 (Z.ltb_ge _ _) Hn).
  set (r := cert_row dist_text (complete_cert now c)). split; [done|]. split; [by apply upsert_cert_nodup|]. split.
  - unfold GetByFaultAndModel. change (option_map (scanCert read_dist) (find (key_is (cert_key r)) (upsert_cert r t)) = Some (complete_cert now c)).
    rewrite find_cert_same. simpl. f_equal. by apply scan_cert_row.
  - intros f m Hfm. unfold GetByFaultAndModel.
    change (option_map (scanCert read_dist) (find (key_is (f, m)) (upsert_cert r t)) =
            option_map (scanCert read_dist) (find (key_is (f, m)) t)).
    by rewrite find_cert_other.
Qed.
End CertTheorems.

(** The certificate that is answered for a fault is one of its certificates, and
    no other of them has a later text of its time; 404 says that the fault has none. *)
Theorem latest_certificate_answered (read_dist : string -> option (gmap string Z)) (faultID : string) (t : list CertRow)
    (Hid : faultID <> "") :
  match handleGet_cert read_dist faultID t with
  | SDone code c => code = 200%Z /\ exists x, In x t /\ cr_FaultID x = faultID /\ c = scanCert read_dist x /\
      forall y, In y t -> cr_FaultID y = faultID -> text_lt (cr_TestedAt x) (cr_TestedAt y) = false
  | SError code _ => code = 404%Z /\ forall y, In y t -> cr_FaultID y <> faultID
  end.
Proof.
  unfold handleGet_cert, GetByFaultID. rewrite (proj2 (streq_false _ _) Hid).
  assert (Hin : forall y, In y (certs_of faultID t) <-> In y t /\ cr_FaultID y = faultID).
  { intros y. unfold certs_of. rewrite isort_In, filter_In, streq_spec. done. }
  assert (Hs : sorted_by later_cert (certs_of faultID t)).
  { apply isort_sorted; intros *; [apply (later_asym cr_TestedAt)|apply (later_ge_trans cr_TestedAt)]. }
  destruct (certs_of faultID t) as [|x l] eqn:E; simpl.
  - split; [done|]. intros y Hy Hf. by apply (proj2 (Hin y)).
  - split; [done|]. exists x. destruct (proj1 (Hin x) (or_introl eq_refl)) as [Hx Hf]. split_and!; [done..|].
    intros y Hy Hyf. destruct (proj2 (Hin y) (conj Hy Hyf)) as [<-|Hl].
    + destruct (text_lt _ _) eqn:El; [|done]. by rewrite (text_lt_asym _ _ El) in El.
    + inversion Hs as [|? ? _ Hall]; subst. rewrite List.Forall_forall in Hall. exact (Hall y Hl).
Qed.

Section PruneLemmas.
Context (gateway : string) (retain : Z).
Hypothesis retain_pos : (0 < retain)%Z.

Definition of_gateway (x : GovbotRow) : bool := row_gateway x =?s gateway.

Lemma retained_in rows i : In i (retained gateway retain rows) <->
  exists x, gb_id x = i /\ In x (take (Z.to_nat retain) (isort later_run (List.filter of_gateway rows))).
Proof.
  unfold retained, sql_limit. rewrite (proj2 (Z.ltb_ge retain 0)) by lia. apply in_map_iff.
Qed.

Lemma prune_keeps_own rows x : of_gateway x = true ->
  prune_keeps gateway retain rows x = true <-> In (gb_id x) (retained gateway retain rows).
Proof.
  intros Hx. unfold prune_keeps. unfold of_gateway in Hx. rewrite Hx. simpl. rewrite existsb_exists.
  split; [intros (i & Hi & He); apply Z.eqb_eq in He; by subst|intros Hi; exists (gb_id x); by rewrite Z.eqb_refl].
Qed.

Lemma prune_keeps_other rows x : of_gateway x = false -> prune_keeps gateway retain rows x = true.
Proof. intros Hx. unfold prune_keeps. unfold of_gateway in Hx. by rewrite Hx. Qed.

Lemma filter_filter_other rows (t : list GovbotRow) :
  List.filter (fun x => negb (of_gateway x)) (List.filter (prune_keeps gateway retain rows) t)
  = List.filter (fun x => negb (of_gateway x)) t.
Proof.
  induction t as [|x t IH]; simpl; [done|]. destruct (of_gateway x) eqn:Ex; simpl.
  - destruct (prune_keeps _ _ _ x); simpl; [rewrite Ex|]; exact IH.
  - rewrite prune_keeps_other by done. simpl. rewrite Ex. simpl. by rewrite IH.
Qed.

(** Rows with ids that are all different and among [ids] are at most as many. *)
Lemma filter_ids_length (p : GovbotRow -> bool) (ids : list Z) (t : list GovbotRow) : NoDup (map gb_id t) ->
  (forall x, In x t -> p x = true -> In (gb_id x) ids) -> length (List.filter p t) <= length ids.
Proof.
  intros Hn Hp. rewrite <- (length_map gb_id). apply submseteq_length, NoDup_submseteq.
  - clear Hp. induction t as [|x t IH]; simpl in *; [constructor|]. apply NoDup_cons in Hn as [Hx Hn].
    destruct (p x); [|by apply IH]. simpl. apply NoDup_cons. split; [|by apply IH].
    intros Hin. apply Hx. apply list_elem_of_In, in_map_iff in Hin as (y & Hy & Hin).
    apply filter_In in Hin as [Hin _]. rewrite <- Hy. apply list_elem_of_In. by apply in_map.
  - intros i Hi. apply list_elem_of_In, in_map_iff in Hi as (x & <- & Hx). apply filter_In in Hx as [Hx Hpx].
    apply list_elem_of_In. by apply Hp.
Qed.

Lemma same_id rows x y : NoDup (map gb_id rows) -> In x rows -> In y rows -> gb_id x = gb_id y -> x = y.
Proof.
  induction rows as [|z rows IH]; simpl; [done|]. intros Hn Hx Hy He. apply NoDup_cons in Hn as [Hz Hn].
  assert (Hne : forall w, In w rows -> gb_id w <> gb_id z).
  { intros w Hw Hc. apply Hz. rewrite <- Hc. apply list_elem_of_In. by apply in_map. }
  destruct Hx as [<-|Hx], Hy as [<-|Hy]; try done; [|..|by apply IH].
  - by destruct (Hne y Hy).
  - by destruct (Hne x Hx).
Qed.

Lemma dropped_not_later rows x y : NoDup (map gb_id rows) -> In x rows -> In y rows ->
  of_gateway x = true -> of_gateway y = true -> prune_keeps gateway retain rows x = true ->
  prune_keeps gateway retain rows y = false -> text_lt (gb_run_at x) (gb_run_at y) = false.
Proof.
  intros Hn Hx Hy Gx Gy Kx Ky. apply prune_keeps_own in Kx; [|done]. apply retained_in in Kx as (x' & Hi & Hx').
  set (l := isort later_run (List.filter of_gateway rows)) in *.
  assert (Hl : forall z, In z l <-> In z rows /\ of_gateway z = true) by (intros; unfold l; by rewrite isort_In, filter_In).
  assert (x' = x) as ->.
  { apply (same_id rows); [done| |done|done]. apply Hl. rewrite <- (take_drop (Z.to_nat retain) l). apply in_or_app. by left. }
  assert (Hd : In y (drop (Z.to_nat retain) l)).
  { assert (Hin : In y l) by by apply Hl. rewrite <- (take_drop (Z.to_nat retain) l) in Hin.
    apply in_app_or in Hin as [Hin|]; [|done]. exfalso.
    assert (prune_keeps gateway retain rows y = true); [|congruence].
    apply prune_keeps_own; [done|]. apply retained_in. by exists y. }
  apply (sorted_prefix later_run (Z.to_nat retain) l x y); [|done|done].
  apply isort_sorted; intros *; [apply (later_asym gb_run_at)|apply (later_ge_trans gb_run_at)].
Qed.
End PruneLemmas.

Lemma filter_and {A} (p q : A -> bool) l : List.filter p (List.filter q l) = List.filter (fun x => q x && p x) l.
Proof. induction l as [|x l IH]; simpl; [done|]. destruct (q x); simpl; [destruct (p x)|]; by rewrite IH. Qed.

(** The ids of the table are below the next one and all different. *)
Definition ids_fresh (t : GovbotTable) : Prop :=
  NoDup (map gb_id (gb_rows t)) /\ forall x, In x (gb_rows t) -> (gb_id x < gb_next t)%Z.

Lemma SaveRun_fresh strings_text run t : ids_fresh t -> ids_fresh (SaveRun strings_text None run t).1.
Proof.
  intros [Hn Hlt]. split; simpl.
  - rewrite map_app. apply NoDup_app. split; [done|]. split; [|apply NoDup_singleton].
    intros i Hi Hs. apply list_elem_of_singleton in Hs as ->. apply list_elem_of_In, in_map_iff in Hi as (x & Hx & Hin).
    specialize (Hlt x Hin). simpl in *. lia.
  - intros x Hx. apply in_app_or in Hx as [Hx|[<-|[]]]; simpl; [specialize (Hlt x Hx)|]; lia.
Qed.


(** ** Witnesses *)

Module ResultsToy.
Definition posted : Gateway.ToolResultRecord :=
  {| Gateway.tr_Server := "prod-db"; Gateway.tr_Tool := "get_replication_status";
     Gateway.tr_Args := [("connection_string", Events.AStr "prod-db")];
     Gateway.tr_Output := "ok";
     Gateway.tr_Trace := "tr_1"; Gateway.tr_RecordedBy := "alice" |}.

Definition cert : FaultStabilityCert :=
  {| fc_FaultID := "db-lock"; fc_FaultName := "Lock"; fc_PlaybookSeriesID := "pbs_lock"; fc_DiagnosisModel := "m1";
     fc_JudgeModel := "j"; fc_NRuns := 5; fc_PassRate := float_int 1; fc_ConfRangePP := 4; fc_IsStable := true; fc_TestedAt := 0;
     fc_PrimaryAttribution := "LOCK"; fc_AttributionConsistent := true; fc_AttributionDistribution := {["LOCK" := 5%Z]};
     fc_JudgeSpread := float_int 0; fc_TaxonomyVersion := "v1" |}.

Definition run (gateway : string) (at_ : Time) : GovbotRun :=
  {| gr_ID := 0; gr_RunAt := at_; gr_Window := "24h"; gr_Gateway := gateway; gr_Status := "healthy"; gr_AlertCount := 0;
     gr_WarningCount := 0; gr_Alerts := []; gr_Warnings := []; gr_ChainValid := true; gr_PolicyDenies := 0; gr_PolicyNoMatch := 0;
     gr_MutationsTotal := 0; gr_MutationsDestructive := 0; gr_PendingApprovals := 0; gr_StaleApprovals := 0;
     gr_DecisionsByResource := ""; gr_InvocationsByResource := "" |}.

(** Reports of two gateways, the newest of [g1] first. *)
Definition reports : GovbotTable :=
  fold_left (fun t r => (SaveRun (join ",") None r t).1)
    [run "g1" (3 * Hours)%Z; run "g1" Hours; run "g2" Hours; run "g1" (2 * Hours)%Z] {| gb_next := 1; gb_rows := [] |}.

(** A text of a map: the number that encodes it. *)
Definition toy_text (d : gmap string Z) : string := "#" ++ itoa (Zpos (encode d)).
Definition toy_read (s : string) : option (gmap string Z) :=
  match s with String _ r => z ← digits_value 0 r; decode (Z.to_pos z) | "" => None end.

Lemma toy_dist d : d <> ∅ -> toy_read (toy_text d) = Some d /\ given (toy_text d) = true /\ toy_text d <> "{}".
Proof.
  intros _. split_and!; [|done..]. 
  change (toy_read (toy_text d)) with (digits_value 0 (itoa (Zpos (encode d))) ≫= fun z => decode (A := gmap string Z) (Z.to_pos z)).
  rewrite (proj1 (itoa_digits (Zpos (encode d)) ltac:(done))). simpl. apply decode_encode.
Qed.
End ResultsToy.

(** The later of two certificates of one second is not the one that is answered: a fraction
    sorts before the letter Z. *)
Example fraction_is_older :
  let c model t := cert_row ResultsToy.toy_text
    {| fc_FaultID := "db-lock"; fc_FaultName := ""; fc_PlaybookSeriesID := ""; fc_DiagnosisModel := model; fc_JudgeModel := "";
       fc_NRuns := 1; fc_PassRate := float_int 1; fc_ConfRangePP := 0; fc_IsStable := true; fc_TestedAt := t;
       fc_PrimaryAttribution := ""; fc_AttributionConsistent := false; fc_AttributionDistribution := ∅;
       fc_JudgeSpread := float_int 0; fc_TaxonomyVersion := "" |} in
  option_map fc_DiagnosisModel (GetByFaultID ResultsToy.toy_read "db-lock" [c "old" Hours; c "new" (Hours + Second / 2)%Z])
  = Some "old".
Proof. vm_compute. reflexivity. Qed.

(** A report about an earlier time is answered 201 and dropped at once by its own [retain]. *)
Example late_report_dropped :
  let '(t', reply) := handleSaveRun (join ",") None None "2" (Ok (ResultsToy.run "g1" 0%Z)) ResultsToy.reports in
  reply = SDone 201 () /\ map gb_id (gb_rows t') = [1; 3; 4]%Z.
Proof. vm_compute. split; reflexivity. Qed.

(** The time that a query goes back. *)
Example since_values :
  map parseSinceDuration ["7d"; "1.5h"; "90m"; "30s"; "1w"; "d"; "-1d"]
  = [168 * Hours; 90 * Minute; 90 * Minute; 30 * Second; 0; 0; -24 * Hours]%Z.
Proof. vm_compute. reflexivity. Qed.

Lemma gateway_results_listed_witness :
  let '(t', reply) := handleRecord datetime_text Hours "ab12cd34" None
                        (Some (Ok (posted_result (fun _ => "") ResultsToy.posted))) [] in
  exists r, reply = SDone 201 r /\ pr_Output r = "ok" /\ pr_RecordedAt r = Hours /\
    exists rs, handleList_results (fun s => s) (2 * Hours)%Z (fun k => if k =?s "server" then "prod-db" else "") t' = SDone 200 rs /\ In r rs.
Proof.
  pose proof (gateway_results_listed datetime_text (fun s => s) (fun _ => "") Hours "ab12cd34"
    "get_replication_status" "ok" "tr_1" "alice" [("connection_string", Events.AStr "prod-db")] ResultsToy.posted []
    (or_introl eq_refl) ltac:(done) ltac:(done) eq_refl ltac:(vm_compute; reflexivity)) as H.
  destruct (handleRecord _ _ _ _ _ _) as [t' reply]. destruct H as (r & -> & Hn & Ht & Ho & _ & Ha & H).
  exists r. split; [done|]. split; [exact Ho|]. split; [exact Ha|]. apply H; [by rewrite Hn|done..].
Defined.

Lemma uploads_read_back_witness :
  match Store_upload (Hours + 5) "ab12cd34" None "pg.log" "LOG: x" [] with
  | (t', Ok u) => GetContent (2 * Hours)%Z (ul_UploadID u) t' = Some ("LOG: x", "pg.log")
  | _ => False
  end.
Proof.
  destruct (Store_upload (Hours + 5) "ab12cd34" None "pg.log" "LOG: x" []) as [t' [u|e]] eqn:E; [|discriminate E].
  assert (Hw : writable (Hours + 5 + UploadTTL)) by (split; [by apply Z.leb_le|by apply Z.ltb_lt]).
  destruct (uploads_read_back _ _ _ _ _ _ _ Hw E) as (_ & H & _). rewrite H. vm_compute. reflexivity.
Defined.

Lemma certificates_per_model_witness :
  let '(t', reply) := handleUpsert_cert ResultsToy.toy_text Hours None (Ok ResultsToy.cert) [] in
  reply = SDone 204 () /\
  GetByFaultAndModel ResultsToy.toy_read "db-lock" "m1" t' = Some (complete_cert Hours ResultsToy.cert).
Proof.
  pose proof (certificates_per_model ResultsToy.toy_text ResultsToy.toy_read ResultsToy.toy_dist Hours ResultsToy.cert []
    ltac:(discriminate) ltac:(done) ltac:(constructor) ltac:(split; [by apply Z.leb_le|by apply Z.ltb_lt])) as H.
  destruct (handleUpsert_cert _ _ _ _ _) as [t' reply]. destruct H as (Hr & _ & Hg & _). split; [exact Hr|exact Hg].
Defined.

Lemma latest_certificate_answered_witness :
  "db-lock" <> "" /\
  match handleGet_cert ResultsToy.toy_read "db-lock" [cert_row ResultsToy.toy_text ResultsToy.cert] with
  | SDone code _ => code = 200%Z | SError _ _ => False end.
Proof.
  split; [done|].
  pose proof (latest_certificate_answered ResultsToy.toy_read "db-lock" [cert_row ResultsToy.toy_text ResultsToy.cert] ltac:(done)) as H.
  destruct (handleGet_cert _ _ _) as [code msg|code c].
  - destruct H as [_ H]. exfalso. by apply (H _ (or_introl eq_refl)).
  - by destruct H.
Defined.

