(* ===== verification/GovernanceInfo.v ===== *)
(** * What the services say of themselves

    cmd/auditd/governance_handlers.go: the governance information with the policies, the
    approvals and the state of the log, and the summary of the policies.
    cmd/gateway/local_governance.go: the endpoints that a gateway with a log of its own
    serves in place of auditd.  The environment and the files are arguments; listening,
    and the cases in which SELECT statements fail, are left out. *)

From S2P Require Import Prelude GoTime TimeText Events AuditChain AuditQuery Journeys ApprovalStore.
From S2P Require Import PolicyTypes PolicyEngine.

Open Scope string_scope.

(** ** GET /v1/governance/info *)

Record RuleSummary := { ru_Actions : list string; ru_Effect : string; ru_Message : string; ru_Conditions : list string }.

Record PolicySummary := {
  ps_Name : string;
  ps_Description : string;
  ps_Enabled : bool;
  ps_Resources : list string;
  ps_Rules : list RuleSummary }.

Record PolicyInfo := {
  pi_Enabled : bool;
  pi_File : string;
  pi_PoliciesCount : Z;
  pi_RulesCount : Z;
  pi_Policies : list PolicySummary }.

Record ApprovalConfig := {
  ac_Enabled : bool;
  ac_WebhookConfigured : bool;
  ac_EmailConfigured : bool;
  ac_DefaultTimeout : string;
  ac_PendingCount : Z }.

Record AuditStatus := {
  as_Enabled : bool;
  as_Backend : string;
  as_EventsTotal : Z;
  as_ChainValid : bool;
  as_LastEventAt : string }.

Record GovernanceInfo := {
  gi_Policy : option PolicyInfo;
  gi_Approvals : ApprovalConfig;
  gi_Audit : AuditStatus;
  gi_Timestamp : string }.

(** What the notifier is configured with. *)
Record ApprovalNotifier := { webhookURL : string; smtpHost : string; emailTo : list string }.

Definition condition_labels (c : Conditions) : list string :=
  ((if RequireApproval c then ["requires approval"] else []) ++
   (if (0 <? MaxRowsAffected c)%Z then ["row limit"] else []) ++
   (if (0 <? MaxPodsAffected c)%Z then ["pod limit"] else []) ++
   match Sched c with Some _ => ["time-based"] | None => [] end)%list.

Definition rule_summary (r : Rule) : RuleSummary :=
  {| ru_Actions := rl_Action r; ru_Effect := rl_Effect r; ru_Message := rl_Message r;
     ru_Conditions := match rl_Conditions r with Some c => condition_labels c | None => [] end |}.

Definition policy_summary (p : Policy) : PolicySummary :=
  {| ps_Name := pol_Name p; ps_Description := pol_Description p; ps_Enabled := IsEnabled p;
     ps_Resources := map rs_Type (pol_Resources p); ps_Rules := map rule_summary (pol_Rules p) |}.

Definition no_policy_info : PolicyInfo :=
  {| pi_Enabled := false; pi_File := ""; pi_PoliciesCount := 0; pi_RulesCount := 0; pi_Policies := [] |}.

Definition policy_info (engine : option Engine) (file : string) : PolicyInfo :=
  match engine with
  | None => no_policy_info
  | Some e =>
      let policies := Policies (config e) in
      {| pi_Enabled := true; pi_File := file; pi_PoliciesCount := Z.of_nat (length policies);
         pi_RulesCount := fold_left (fun n p => n + Z.of_nat (length (pol_Rules p)))%Z policies 0%Z;
         pi_Policies := map policy_summary policies |}
  end.

Definition pending_query : ApprovalQueryOptions :=
  {| q_Status := "pending"; q_AgentName := ""; q_TraceID := ""; q_RequestedBy := ""; q_ToolName := ""; q_Since := 0;
     q_Limit := 1000 |}.

Definition approval_config (notifier : option ApprovalNotifier) (approvals : option ApprovalStore) : ApprovalConfig :=
  {| ac_Enabled := true;
     ac_WebhookConfigured := match notifier with Some n => negb (webhookURL n =?s "") | None => false end;
     ac_EmailConfigured :=
       match notifier with
       | Some n => negb (smtpHost n =?s "") && match emailTo n with [] => false | _ => true end
       | None => false
       end;
     ac_DefaultTimeout := "60m";
     ac_PendingCount := match approvals with Some s => Z.of_nat (length (ListRequests s pending_query)) | None => 0 end |}.

Section Info.
Context (sha256hex : string -> string) (marshal_hash : HashInput -> option string).
Context (unmarshal_event : string -> option Event) (scan : list Row -> list Row).

Definition last_event_at (s : Store) : string :=
  match Query unmarshal_event scan (no_options 1) s with
  | Ok (e :: _) => RFC3339 (Events.Timestamp e)
  | _ => ""
  end.

Definition audit_status (auditStore : option Store) : outcome AuditStatus :=
  match auditStore with
  | None =>
      Returns {| as_Enabled := true; as_Backend := "sqlite"; as_EventsTotal := 0; as_ChainValid := false; as_LastEventAt := "" |}
  | Some s =>
      match VerifyIntegrity sha256hex marshal_hash unmarshal_event s with
      | Panics => Panics
      | Returns status =>
          Returns {| as_Enabled := true; as_Backend := if isPostgres s then "postgres" else "sqlite";
                     as_EventsTotal := match status with Ok st => TotalEvents st | Err _ => 0 end;
                     as_ChainValid := match status with Ok st => Valid st | Err _ => false end;
                     as_LastEventAt := last_event_at s |}
      end
  end.

Definition handleGetInfo (now : Time) (engine : option Engine) (file : string) (notifier : option ApprovalNotifier)
    (approvals : option ApprovalStore) (auditStore : option Store) : outcome GovernanceInfo :=
  match audit_status auditStore with
  | Panics => Panics
  | Returns st =>
      Returns {| gi_Policy := Some (policy_info engine file); gi_Approvals := approval_config notifier approvals;
                 gi_Audit := st; gi_Timestamp := RFC3339 now |}
  end.
End Info.

(** Whether auditd loads its policies: [load] is policy.LoadFile with NewEngine. *)
Definition loaded_policies (getenv : string -> string) (load : string -> option Engine) : option Engine * string :=
  let enabled := getenv "HELPDESK_POLICY_ENABLED" in
  let file := getenv "HELPDESK_POLICY_FILE" in
  if ((enabled =?s "true") || (enabled =?s "1") || ((enabled =?s "") && negb (file =?s ""))) && negb (file =?s "")
  then (load file, file) else (None, "").

(** ** GET /v1/governance/policies *)

Definition summary_resource (r : Resource) : string :=
  let m := rs_Match r in
  rs_Type r ++ (if negb (rm_Name m =?s "") then ":" ++ rm_Name m
                else if negb (rm_NamePattern m =?s "") then ":" ++ rm_NamePattern m else "").

Definition strings_value (l : list string) : any := AList (map AStr l).

Definition rule_entry (r : Rule) : anymap :=
  ([("actions", strings_value (rl_Action r)); ("effect", AStr (rl_Effect r))] ++
   (if rl_Message r =?s "" then [] else [("message", AStr (rl_Message r))]) ++
   (if match rl_Conditions r with Some c => RequireApproval c | None => false end
    then [("requires_approval", ABool true)] else []))%list.

Definition policy_entry (p : Policy) : anymap :=
  ([("name", AStr (pol_Name p)); ("enabled", ABool (IsEnabled p))] ++
   (if pol_Description p =?s "" then [] else [("description", AStr (pol_Description p))]) ++
   match pol_Resources p with [] => [] | l => [("resources", strings_value (map summary_resource l))] end ++
   [("rules", AList (map (fun r => AMap (rule_entry r)) (pol_Rules p)))])%list.

Definition handleGetPolicySummary (engine : option Engine) (file : string) : anymap :=
  match engine with
  | None =>
      [("enabled", ABool false);
       ("message", AStr "No policy file configured. Set HELPDESK_POLICY_FILE to enable policy enforcement.")]
  | Some e =>
      [("enabled", ABool true); ("policy_file", AStr file);
       ("policies", AList (map (fun p => AMap (policy_entry p)) (Policies (config e))))]
  end.

(** ** The gateway's own endpoints *)

Inductive LocalReply :=
  | LocalInfo (m : anymap)
  | LocalEvents (l : list Event)
  | LocalEvent (e : Event)
  | LocalStatus (st : ChainStatus)
  | LocalJourneys (l : list JourneySummary)
  | LocalEmpty
  | LocalError (code : Z) (msg : string).

(** A parameter that is read only when it is given; here the empty one reads the same. *)
Definition local_options (q : Params) : QueryOptions :=
  {| qo_EventID := ""; qo_SessionID := q "session_id"; qo_EventType := q "event_type"; qo_EventTypes := [];
     qo_Agent := q "agent"; qo_Since := parse_or_zero (q "since"); qo_MinConfidence := S754_zero false;
     qo_MaxConfidence := S754_zero false; qo_Limit := limit_param q 100; qo_TraceID := q "trace_id";
     qo_TraceIDPrefix := q "trace_id_prefix"; qo_ActionClass := q "action_class"; qo_ToolName := "";
     qo_ApprovalStatus := ""; qo_OutcomeStatus := ""; qo_Origin := "" |}.

Definition local_journey_options (q : Params) : JourneyOptions :=
  {| jo_UserID := q "user"; jo_Purpose := ""; jo_From := parse_or_zero (q "from"); jo_Until := parse_or_zero (q "until");
     jo_Limit := limit_param q 50; jo_Since := 0; jo_Category := ""; jo_Outcome := ""; jo_HasRetries := false;
     jo_TraceID := q "trace_id"; jo_TraceIDPrefix := ""; jo_Origin := ""; jo_IncidentOnly := q "incident_only" =?s "true" |}.

Definition local_event_options (eventID : string) : QueryOptions :=
  {| qo_EventID := eventID; qo_SessionID := ""; qo_EventType := ""; qo_EventTypes := []; qo_Agent := ""; qo_Since := 0;
     qo_MinConfidence := S754_zero false; qo_MaxConfidence := S754_zero false; qo_Limit := 0; qo_TraceID := "";
     qo_TraceIDPrefix := ""; qo_ActionClass := ""; qo_ToolName := ""; qo_ApprovalStatus := ""; qo_OutcomeStatus := "";
     qo_Origin := "" |}.

Section Local.
Context (sha256hex : string -> string) (marshal_hash : HashInput -> option string).
Context (unmarshal_event : string -> option Event) (scan : list Row -> list Row).

Definition localHandleInfo (now : Time) (s : Store) : outcome LocalReply :=
  match VerifyIntegrity sha256hex marshal_hash unmarshal_event s with
  | Panics => Panics
  | Returns status =>
      let counts := match status with
                    | Ok st => [("events_total", ANum (TotalEvents st)); ("chain_valid", ABool (Valid st))]
                    | Err _ => []
                    end in
      let last := last_event_at unmarshal_event scan s in
      Returns (LocalInfo
        [("audit", AMap ([("enabled", ABool true); ("backend", AStr (if isPostgres s then "postgres" else "sqlite"))] ++
                         counts ++ if last =?s "" then [] else [("last_event_at", AStr last)])%list);
         ("timestamp", AStr (RFC3339 now))])
  end.

Definition localHandleEvents (q : Params) (s : Store) : LocalReply :=
  match Query unmarshal_event scan (local_options q) s with
  | Err e => LocalError 500 e
  | Ok events => LocalEvents events
  end.

Definition localHandleEvent (eventID : string) (s : Store) : LocalReply :=
  match Query unmarshal_event scan (local_event_options eventID) s with
  | Err e => LocalError 500 e
  | Ok [] => LocalError 404 "event not found"
  | Ok (e :: _) => LocalEvent e
  end.

Definition localHandleVerify (s : Store) : outcome LocalReply :=
  match VerifyIntegrity sha256hex marshal_hash unmarshal_event s with
  | Panics => Panics
  | Returns (Err e) => Returns (LocalError 500 e)
  | Returns (Ok st) => Returns (LocalStatus st)
  end.

Definition localHandleJourneys (now : Time) (runs : list (string * string)) (q : Params) (s : Store) : LocalReply :=
  LocalJourneys (QueryJourneys scan now runs (local_journey_options q) s).

Definition localHandleEmpty : LocalReply := LocalEmpty.

Definition localHandleUnavailable (msg : string) : LocalReply := LocalError 501 msg.

(** The routes, by path; [id] is the last part of an event's path. *)
Definition local_route (now : Time) (runs : list (string * string)) (path : string) (q : Params) (s : Store)
    : outcome LocalReply :=
  if path =?s "/v1/governance/info" then localHandleInfo now s
  else if path =?s "/v1/events" then Returns (localHandleEvents q s)
  else if path =?s "/v1/verify" then localHandleVerify s
  else if path =?s "/v1/approvals" then Returns localHandleEmpty
  else if path =?s "/v1/approvals/pending" then Returns localHandleEmpty
  else if path =?s "/v1/governance/policies" then Returns (localHandleUnavailable "policy engine not available in gateway local mode")
  else if path =?s "/v1/governance/explain" then Returns (localHandleUnavailable "explain not available in gateway local mode")
  else if path =?s "/v1/journeys" then Returns (localHandleJourneys now runs q s)
  else match split_on "/" path with
       | [""; "v1"; "events"; id] => if id =?s "" then Returns (LocalError 404 "404 page not found") else Returns (localHandleEvent id s)
       | _ => Returns (LocalError 404 "404 page not found")
       end.
End Local.

(** ** The two services agree where the parameters do *)

(** The events that a gateway with its own log answers are those that
    auditd answers from the same rows, when the request names no list of types, no tool,
    no outcome and no origin; these four parameters the gateway does not read. *)
Theorem local_events_agree (unmarshal_event : string -> option Event) (scan : list Row -> list Row) (q : Params) (s : Store)
    (Htypes : q "types" = "") (Htool : q "tool_name" = "") (Hout : q "outcome_status" = "") (Horig : q "origin" = "") :
  match handleQueryEvents unmarshal_event scan q s with
  | EventsList l => localHandleEvents unmarshal_event scan q s = LocalEvents l
  | EventsError code _ => exists msg, localHandleEvents unmarshal_event scan q s = LocalError code msg
  | _ => False
  end.
Proof.
  assert (Ho : local_options q = query_of_params q) by (unfold local_options, query_of_params; by rewrite Htypes, Htool, Hout, Horig).
  unfold handleQueryEvents, localHandleEvents. rewrite Ho. destruct (Query _ _ _ _); [done|]. by eexists.
Qed.

Lemma local_events_agree_witness :
  localHandleEvents toy_unmarshal (fun l => l) (fun k => if k =?s "limit" then "1" else "") toy_store
  = match handleQueryEvents toy_unmarshal (fun l => l) (fun k => if k =?s "limit" then "1" else "") toy_store with
    | EventsList l => LocalEvents l | _ => LocalEmpty end.
Proof.
  pose proof (local_events_agree toy_unmarshal (fun l => l) (fun k => if k =?s "limit" then "1" else "") toy_store
    eq_refl eq_refl eq_refl eq_refl) as H.
  exact H.
Defined.

(** The gateway answers a request for one origin with the events of every origin. *)
Example origin_ignored :
  let q k := if k =?s "origin" then "fleet" else "" in
  handleQueryEvents toy_unmarshal (fun l => l) q toy_store = EventsList [] /\
  match localHandleEvents toy_unmarshal (fun l => l) q toy_store with LocalEvents l => length l = 2 | _ => False end.
Proof. vm_compute. split; reflexivity. Qed.

(** The information of a policy counts its policies and rules and lists every one
    of its policies, enabled or not. *)
Theorem policy_info_counts (e : Engine) (file : string) :
  let p := policy_info (Some e) file in
  pi_Enabled p = true /\ pi_PoliciesCount p = Z.of_nat (length (pi_Policies p)) /\
  pi_RulesCount p = Z.of_nat (length (concat (map ps_Rules (pi_Policies p)))).
Proof.
  simpl. split; [done|]. split; [by rewrite length_map|]. rewrite map_map. simpl.
  enough (H : forall l n, fold_left (fun n p => n + Z.of_nat (length (pol_Rules p)))%Z l n
            = (n + Z.of_nat (length (concat (map (fun p => map rule_summary (pol_Rules p)) l))))%Z) by (rewrite H; lia).
  induction l as [|p l IH]; intros n; simpl; [lia|]. rewrite IH, length_app, length_map. lia.
Qed.
