(* ===== verification/Govbot.v ===== *)
(** * The compliance reporter

    cmd/govbot/main.go: the twelve phases of a report as functions from what the gateway
    answers to alerts and warnings, the snapshot, the exit code and the text for the
    webhook; cmd/govbot/history.go: the conversions, the history that auditd keeps and
    the one in a local file.  What is only printed, the flags and HTTP are left out; the
    JSON encoders and decoders are parameters. *)

From Stdlib Require Import SpecFloat.
From S2P Require Import Prelude GoTime TimeText GoFormat PlaybookText Events AuditChain AuditQuery ApprovalStore.
From S2P Require Import GovernanceInfo AuditResults Delegation.

Open Scope string_scope.

(** ** Text *)

(** [fmt.Sprintf("%.1f", x)] of a finite number that is not negative. *)
Definition fmt_f1 (x : spec_float) : string :=
  match x with
  | S754_finite _ m e => let n := round_half_even (Z.pos m * 10) e in itoa (n / 10) ++ "." ++ itoa (n mod 10)
  | _ => "0.0"
  end.

Definition positive_units (s unit name : string) (d : Z) : result string Z :=
  let wrong := "invalid duration " ++ quote s ++ ": " ++ name ++ " must be a positive integer" in
  match atoi (trim_suffix s unit) with
  | Some n => if (0 <? n)%Z then Ok (wrap64 (n * d)) else Err wrong
  | None => Err wrong
  end.

(** The error of ParseDuration is only printed: here always the general one. *)
Definition parseLookback (s : string) : result string Z :=
  if has_suffix s "w" then positive_units s "w" "weeks" (7 * 24 * Hours)
  else if has_suffix s "d" then positive_units s "d" "days" (24 * Hours)
  else match ParseDuration s with Some d => Ok d | None => Err ("time: invalid duration " ++ quote s) end.

Definition before_slash (s : string) : option string :=
  match splitN "/"%char 2 s with
  | [t; _] => if t =?s "" then None else Some t
  | _ => None
  end.

Definition round_to_second (d : Z) : Z :=
  let r := Z.rem d Second in
  if (d <? 0)%Z then
    (let d1 := if (- r + - r <? Second)%Z then d - r else d - Second - r in if in_int64 d1 then d1 else - 2 ^ 63)%Z
  else (let d1 := if (r + r <? Second)%Z then d - r else d + Second - r in if in_int64 d1 then d1 else 2 ^ 63 - 1)%Z.

(** ** What the gateway answers *)

(** [/v1/verify] answers a chain status, of which the reporter reads these members; the
    last two have names that auditd does not use. *)
Record integrityStatus := { is_Valid : bool; is_TotalEvents : Z; is_InvalidEventID : string; is_Message : string }.

Definition decoded_status (st : ChainStatus) : integrityStatus :=
  {| is_Valid := Valid st; is_TotalEvents := TotalEvents st; is_InvalidEventID := ""; is_Message := "" |}.

Record Answers := {
  an_info : result string GovernanceInfo;
  an_events : Time -> Z -> result string (list Event);
  an_pending : result string (list StoredApproval);
  an_integrity : result string integrityStatus }.

(** ** The phases *)

Record Findings := { alerts : list string; warnings : list string }.

Definition nothing : Findings := {| alerts := []; warnings := [] |}.
Definition alert (msg : string) : Findings := {| alerts := [msg]; warnings := [] |}.
Definition warn (msg : string) : Findings := {| alerts := []; warnings := [msg] |}.
Definition also (a b : Findings) : Findings :=
  {| alerts := (alerts a ++ alerts b)%list; warnings := (warnings a ++ warnings b)%list |}.
Definition all_of (l : list Findings) : Findings := fold_right also nothing l.
Definition when (b : bool) (f : Findings) : Findings := if b then f else nothing.

Definition count {A} (p : A -> bool) (l : list A) : Z := Z.of_nat (length (List.filter p l)).

Definition auditConfigured (info : GovernanceInfo) : bool := as_Enabled (gi_Audit info).

Definition policyEnabled (info : GovernanceInfo) : bool :=
  match gi_Policy info with Some p => pi_Enabled p | None => false end.

Definition governance_status (info : GovernanceInfo) : Findings :=
  if auditConfigured info
  then when (negb (as_ChainValid (gi_Audit info)))
         (alert "Audit hash chain integrity failure — log tampering may have occurred")
  else warn ("Gateway has no HELPDESK_AUDIT_URL — governance reporting is unavailable; " ++
             "audit logging and policy enforcement may still be active on individual agents").

Definition policy_overview (info : GovernanceInfo) : Findings :=
  when (auditConfigured info && negb (policyEnabled info))
    (warn "Policy enforcement is disabled — all agent actions are uncontrolled").

Definition audit_activity (info : GovernanceInfo) (events : result string (list Event)) : Findings :=
  match events with
  | Ok _ => nothing
  | Err e => when (auditConfigured info) (warn ("Failed to fetch audit events: " ++ e))
  end.

(** A failed fetch leaves no events. *)
Definition fetched (events : result string (list Event)) : list Event := match events with Ok l => l | Err _ => [] end.

(** The policy decisions that carry their record. *)
Definition decision_of (e : Event) : option (Event * PolicyDecision) :=
  if EventType e =?s EventTypePolicyDecision then
    match e_PolicyDecision e with Some pd => Some (e, pd) | None => None end
  else None.

Definition decisions (events : list Event) : list (Event * PolicyDecision) := omap decision_of events.

Definition resource_of (pd : PolicyDecision) : string := ResourceType pd ++ "/" ++ ResourceName pd.

Definition no_match (pd : PolicyDecision) : bool := (PolicyName pd =?s "") || (PolicyName pd =?s "default").
Definition denied (d : Event * PolicyDecision) : bool := Effect (d.2) =?s "deny".
Definition unmatched (d : Event * PolicyDecision) : bool :=
  ((Effect (d.2) =?s "allow") || (Effect (d.2) =?s "deny")) && no_match (d.2).
Definition unattributable (d : Event * PolicyDecision) : bool := TraceID (d.1) =?s "".

Definition decision_analysis (events : list Event) : Findings :=
  let ds := decisions events in
  all_of
    [when (0 <? count unattributable ds)%Z
       (warn (itoa (count unattributable ds) ++
              " policy decision(s) have no trace_id — cannot be attributed to any session or call origin"));
     when (0 <? count unmatched ds)%Z
       (warn (itoa (count unmatched ds) ++
              " policy decisions matched no rule (policy_name=default) — likely missing tags in infrastructure config"));
     when (0 <? count denied ds)%Z
       (alert (itoa (count denied ds) ++ " request(s) were denied by policy — review blocked request details above"))].

(** ** Enforcement coverage *)

Definition is_type (ty : string) (e : Event) : bool := EventType e =?s ty.

Definition traced (ty : string) (e : Event) : bool := is_type ty e && negb (TraceID e =?s "").

Definition traces_of (ty : string) (events : list Event) : gset string :=
  list_to_set (map TraceID (List.filter (traced ty) events)).

Definition uncontrolledTraces (events : list Event) : list string :=
  isort text_lt (elements (traces_of EventTypeToolExecution events ∖ traces_of EventTypePolicyDecision events)).

Definition is_direct (e : Event) : bool := traced EventTypePolicyDecision e && has_prefix (TraceID e) "chk_".

Definition chk_percent (events : list Event) : Z :=
  (100 * count is_direct events / count (traced EventTypePolicyDecision) events)%Z.

Definition bypass_message (traces : list string) : string :=
  itoa (Z.of_nat (length traces)) ++
  " trace(s) contain tool executions with no policy decision — agent(s) may be bypassing enforcement: " ++ join ", " traces.

Definition enforcement_coverage (info : GovernanceInfo) (events : list Event) : Findings :=
  let traces := uncontrolledTraces events in
  let unattributed := count (fun e => is_type EventTypePolicyDecision e && (TraceID e =?s "")) events in
  all_of
    [when (match traces with [] => false | _ => policyEnabled info end) (alert (bypass_message traces));
     if (0 <? count (traced EventTypePolicyDecision) events)%Z
     then when (50 <? chk_percent events)%Z
            (warn (itoa (chk_percent events) ++ "% of policy decisions originate from direct (chk_*) calls, not agents — " ++
                   "agents may not be using centralized enforcement (HELPDESK_AUDIT_URL)"))
     else when (policyEnabled info)
            (warn ("Policy enforcement is enabled but no policy decisions were recorded — " ++
                   "check that agents have HELPDESK_AUDIT_URL configured"));
     when (0 <? unattributed)%Z
       (warn (itoa unattributed ++
              " policy decision(s) in Phase 5 have no trace_id — cannot be correlated to any session or call origin"))].

(** ** Approvals and the chain *)

Definition staleThreshold : Z := (30 * Minute)%Z.

(** The [i]-th request is looked at at [clock i]. *)
Definition stale (clock : nat -> Time) (i : nat) (req : StoredApproval) : bool :=
  (staleThreshold <? round_to_second (time_sub (clock i) (RequestedAt req)))%Z.

Definition staleCount (clock : nat -> Time) (pending : list StoredApproval) : Z :=
  count (fun b => b) (imap (stale clock) pending).

Definition pending_approvals (info : GovernanceInfo) (clock : nat -> Time) (pending : result string (list StoredApproval)) : Findings :=
  match pending with
  | Err e => when (auditConfigured info) (warn ("Failed to fetch pending approvals: " ++ e))
  | Ok l =>
      when (0 <? staleCount clock l)%Z
        (warn (itoa (staleCount clock l) ++ " approval request(s) have been pending for over " ++
               Duration_String staleThreshold ++ " — approvers may not have been notified"))
  end.

Definition stale_approvals (clock : nat -> Time) (pending : result string (list StoredApproval)) : Z :=
  match pending with Ok l => staleCount clock l | Err _ => 0 end.

Definition chain_integrity (info : GovernanceInfo) (integrity : result string integrityStatus) : Findings :=
  if auditConfigured info then
    match integrity with
    | Err e => warn ("Failed to verify audit chain: " ++ e)
    | Ok st =>
        when (negb (is_Valid st))
          (alert ("Audit chain integrity FAILED (first invalid event: " ++ is_InvalidEventID st ++ ") — possible log tampering"))
    end
  else nothing.

(** ** Mutations *)

Definition changes_state (class : string) : bool := (class =?s "write") || (class =?s "destructive").

Definition is_mutation (e : Event) : bool := is_type EventTypeToolExecution e && changes_state (e_ActionClass e).

Definition mutations (events : list Event) : list Event := List.filter is_mutation events.

Definition hourlyCounts (events : list Event) : list Z :=
  map (fun h => count (fun e => Hour (Timestamp e) =? h)%Z (mutations events)) (seqZ 0 24).

(** The first hour with the most. *)
Fixpoint peak_from (h : Z) (best : Z * Z) (counts : list Z) : Z * Z :=
  match counts with
  | [] => best
  | c :: rest => peak_from (h + 1) (if (snd best <? c)%Z then (h, c) else best) rest
  end.

Definition peak (counts : list Z) : Z * Z := peak_from 0 (0, 0)%Z counts.

Definition hourly_mean (total : Z) : spec_float := SFdiv 53 1024 (float_int total) (float_int 24).
Definition peak_ratio (peakCount total : Z) : spec_float := SFdiv 53 1024 (float_int peakCount) (hourly_mean total).

Definition is_spike (peakCount total : Z) : bool := SFleb (float_int 3) (peak_ratio peakCount total).

Definition spike (events : list Event) : Findings :=
  let total := Z.of_nat (length (mutations events)) in
  let '(peakHour, peakCount) := peak (hourlyCounts events) in
  when ((5 <=? total)%Z && is_spike peakCount total)
    (alert ("Mutation spike at " ++ padded 2 peakHour ++ ":00 UTC: " ++ itoa peakCount ++ " mutations (" ++
            fmt_f1 (peak_ratio peakCount total) ++ "x the " ++ fmt_f1 (hourly_mean total) ++ "/hr mean)")).

(** Those of the period before, of what was fetched from its start on. *)
Definition previous_count (sinceTime : Time) (prevEvents : list Event) : Z :=
  count (fun e => Before (Timestamp e) sinceTime && is_mutation e) prevEvents.

Definition comparison (total : Z) (sinceTime : Time) (prev : result string (list Event)) : Findings :=
  match prev with
  | Err _ => nothing
  | Ok prevEvents =>
      let prevCount := previous_count sinceTime prevEvents in
      if (0 <? prevCount)%Z then
        let pct := Z.quot ((total - prevCount) * 100) prevCount in
        when (prevCount * 3 <? total * 2)%Z
          (alert ("Mutation count (" ++ itoa total ++ ") is " ++ (if (pct <? 0)%Z then "" else "+") ++ itoa pct ++
                  "% vs previous period (" ++ itoa prevCount ++ ") — investigate cause"))
      else
        when (5 <? total)%Z (warn (itoa total ++ " mutations recorded; previous equivalent period had none"))
  end.

Definition mutation_activity (events : list Event) (sinceTime : Time) (prev : result string (list Event)) : Findings :=
  let total := Z.of_nat (length (mutations events)) in
  also (comparison total sinceTime prev) (when (negb (total =? 0)%Z) (spike events)).

(** ** Policy coverage *)

Definition covKey : Type := string * string.

Definition cov_key (pd : PolicyDecision) : covKey := (resource_of pd, pd_Action pd).

Definition invocation (e : Event) : option covKey :=
  if is_type EventTypeToolInvoked e then option_map cov_key (e_PolicyDecision e) else None.

Definition check (e : Event) : option covKey :=
  if is_type EventTypePolicyDecision e then
    match e_PolicyDecision e with
    | Some pd => if PostExecution pd then None else Some (cov_key pd)
    | None => None
    end
  else None.

(** Invoked and checked. *)
Definition covStats : Type := Z * Z.

Definition count_key (add : covStats -> covStats) (key : Event -> option covKey) (m : gmap covKey covStats) (e : Event)
    : gmap covKey covStats :=
  match key e with Some k => <[k := add (default (0, 0)%Z (m !! k))]> m | None => m end.

Definition byCov (events : list Event) : gmap covKey covStats :=
  fold_left (count_key (fun s => (s.1, s.2 + 1)%Z) check) events
    (fold_left (count_key (fun s => (s.1 + 1, s.2)%Z) invocation) events ∅).

Definition cov_lt (a b : covKey * covStats) : bool :=
  if (fst (fst a) =?s fst (fst b)) then text_lt (snd (fst a)) (snd (fst b)) else text_lt (fst (fst a)) (fst (fst b)).

Definition covered (events : list Event) : list (covKey * covStats) := isort cov_lt (map_to_list (byCov events)).

Definition is_gap (x : covKey * covStats) : bool := (snd (snd x) <? fst (snd x))%Z.

Definition gap_percent (cs : covStats) : spec_float :=
  SFdiv 53 1024 (float_mul (float_int (snd cs)) (float_int 100)) (float_int (fst cs)).

Definition gap_message (x : covKey * covStats) : string :=
  let '((resource, action), cs) := x in
  resource ++ " " ++ action ++ ": " ++ itoa (fst cs - snd cs) ++ " of " ++ itoa (fst cs) ++
  " invocations had no policy check (" ++ fmt_f0 (gap_percent cs) ++ "% coverage)".

Definition gap_finding (x : covKey * covStats) : Findings :=
  if changes_state (snd (fst x)) then alert (gap_message x) else warn (gap_message x).

Definition seenTypes (events : list Event) : list string := omap (fun x => before_slash (fst (fst x))) (covered events).

Definition dead_rule (pol resType : string) : string :=
  "policy " ++ quote pol ++ " covers resource type " ++ quote resType ++ " — no tool_invoked events in window".

Definition deadRules (info : GovernanceInfo) (events : list Event) : list string :=
  if policyEnabled info then
    concat (map (fun pol => if ps_Enabled pol
                            then map (dead_rule (ps_Name pol)) (List.filter (fun t => negb (mem t (seenTypes events))) (ps_Resources pol))
                            else [])
              match gi_Policy info with Some p => pi_Policies p | None => [] end)
  else [].

Definition policy_coverage (info : GovernanceInfo) (events : list Event) : Findings :=
  match covered events with
  | [] => nothing
  | cov => also (all_of (map gap_finding (List.filter is_gap cov))) (all_of (map warn (deadRules info events)))
  end.

(** ** Identities and purposes *)

Definition has_identity (d : Event * PolicyDecision) : bool := negb (pd_UserID (d.2) =?s "") || negb (pd_Service (d.2) =?s "").
Definition has_purpose (d : Event * PolicyDecision) : bool := negb (pd_Purpose (d.2) =?s "").
Definition of_change (d : Event * PolicyDecision) : bool := changes_state (pd_Action (d.2)).
Definition sensitive (d : Event * PolicyDecision) : bool := match pd_Sensitivity (d.2) with [] => false | _ => true end.

Definition percent (part total : Z) : Z := (part * 100 / total)%Z.

Definition identity_coverage (events : list Event) : Findings :=
  let ds := decisions events in
  let total := Z.of_nat (length ds) in
  if (total =? 0)%Z then nothing
  else
    let identityPct := percent (count has_identity ds) total in
    let wd := count of_change ds in
    let wdPct := percent (count (fun d => of_change d && has_purpose d) ds) wd in
    also
      (when (identityPct <? 50)%Z
         (warn ("only " ++ itoa identityPct ++ "% of policy decisions carry identity — identity provider may not be configured")))
      (when ((0 <? wd)%Z && (wdPct <? 50)%Z)
         (warn ("only " ++ itoa wdPct ++ "% of write/destructive policy decisions declare a purpose"))).

Definition purpose_coverage (events : list Event) : Findings :=
  let ds := decisions events in
  let total := count sensitive ds in
  let without := count (fun d => sensitive d && negb (has_purpose d)) ds in
  if ((0 <? total) && (0 <? without))%Z then
    let pct := percent without total in
    if (50 <=? pct)%Z then alert (itoa pct ++ "% of sensitive resource accesses lack a declared purpose")
    else warn (itoa without ++ " sensitive resource access(es) without declared purpose")
  else nothing.

(** ** The report *)

Definition decision_keys (events : list Event) : gset string := list_to_set (map (fun d => resource_of (d.2)) (decisions events)).

Record runSnapshot := {
  sn_RunAt : Time;
  sn_Window : string;
  sn_Gateway : string;
  sn_Status : string;
  sn_AlertCount : Z;
  sn_WarningCount : Z;
  sn_AlertsJSON : string;
  sn_WarningsJSON : string;
  sn_ChainValid : bool;
  sn_PolicyDenies : Z;
  sn_PolicyNoMatch : Z;
  sn_MutationsTotal : Z;
  sn_MutationsDestructive : Z;
  sn_PendingApprovals : Z;
  sn_StaleApprovals : Z;
  sn_DecisionsByResource : string;
  sn_InvocationsByResource : string }.

Definition overall_status (f : Findings) : string :=
  match alerts f, warnings f with
  | _ :: _, _ => "alerts"
  | [], _ :: _ => "warnings"
  | [], [] => "healthy"
  end.

Definition exit_code (f : Findings) : Z := match alerts f with [] => 0 | _ => 2 end.

(** The phases that look at events say nothing when there are none. *)
Definition over_events (events : list Event) (f : list Event -> Findings) : Findings :=
  match events with [] => nothing | _ => f events end.

Definition analyse (info : GovernanceInfo) (sinceTime : Time) (clock : nat -> Time) (events prev : result string (list Event))
    (pending : result string (list StoredApproval)) (integrity : result string integrityStatus) : Findings :=
  let l := fetched events in
  all_of
    [governance_status info; policy_overview info; audit_activity info events; over_events l decision_analysis;
     over_events l (enforcement_coverage info); pending_approvals info clock pending; chain_integrity info integrity;
     over_events l (fun l => mutation_activity l sinceTime prev); over_events l (policy_coverage info);
     over_events l identity_coverage; over_events l purpose_coverage].

Section Report.
(** JSON of a list of texts; of an object whose members are all empty objects, because
    the counters of a resource have no exported name; of the counters by key. *)
Context (strings_json : list string -> string) (empty_objects_json : gset string -> string).
Context (invocations_json : list (string * (Z * Z)) -> string).

Definition snapshot (runAt : Time) (window gateway : string) (info : GovernanceInfo) (clock : nat -> Time) (events : list Event)
    (pending : result string (list StoredApproval)) (f : Findings) : runSnapshot :=
  {| sn_RunAt := runAt; sn_Window := window; sn_Gateway := gateway; sn_Status := overall_status f;
     sn_AlertCount := Z.of_nat (length (alerts f)); sn_WarningCount := Z.of_nat (length (warnings f));
     sn_AlertsJSON := strings_json (alerts f); sn_WarningsJSON := strings_json (warnings f);
     sn_ChainValid := as_ChainValid (gi_Audit info); sn_PolicyDenies := count denied (decisions events);
     sn_PolicyNoMatch := count unmatched (decisions events); sn_MutationsTotal := Z.of_nat (length (mutations events));
     sn_MutationsDestructive := count (fun e => e_ActionClass e =?s "destructive") (mutations events);
     sn_PendingApprovals := ac_PendingCount (gi_Approvals info); sn_StaleApprovals := stale_approvals clock pending;
     sn_DecisionsByResource := match events with [] => "" | _ => empty_objects_json (decision_keys events) end;
     sn_InvocationsByResource :=
       match covered events with
       | [] => ""
       | cov => invocations_json (map (fun x => (fst (fst x) ++ ":" ++ snd (fst x), snd x)) cov)
       end |}.

(** The process ends with a code: at once for a window it cannot read or when there is no
    answer about the state, or with the report. *)
Inductive Run :=
  | Stopped (code : Z) (msg : string)
  | Reported (code : Z) (f : Findings) (snap : runSnapshot) (info : GovernanceInfo).

Definition run (startTime now : Time) (clock : nat -> Time) (window gateway : string) (an : Answers) : Run :=
  match parseLookback window with
  | Err e => Stopped 1 ("invalid -since value " ++ quote window ++ ": " ++ e)
  | Ok since =>
      match an_info an with
      | Err e => Stopped 1 ("FATAL: " ++ e)
      | Ok info =>
          let sinceTime := (now - since)%Z in
          let events := an_events an sinceTime 1000 in
          let prev := an_events an (sinceTime - since)%Z 2000 in
          let f := analyse info sinceTime clock events prev (an_pending an) (an_integrity an) in
          Reported (exit_code f) f (snapshot startTime window gateway info clock (fetched events) (an_pending an) f) info
      end
  end.
End Report.

(** ** The webhook *)

Definition webhook_icon (f : Findings) : string :=
  match alerts f, warnings f with
  | _ :: _, _ => ":rotating_light:"
  | [], _ :: _ => ":warning:"
  | [], [] => ":white_check_mark:"
  end.

Definition overall_text (f : Findings) : string :=
  match alerts f, warnings f with
  | _ :: _, _ => "✗ ALERTS"
  | [], _ :: _ => "⚠ WARNINGS"
  | [], [] => "✓ HEALTHY"
  end.

Definition nl : string := String newline "".

Definition bullets (title circle : string) (l : list string) : string :=
  match l with
  | [] => ""
  | _ => nl ++ "*" ++ title ++ ":*" ++ nl ++ String.concat "" (map (fun a => "• " ++ circle ++ " " ++ a ++ nl) l)
  end.

Definition webhook_text (f : Findings) (info : GovernanceInfo) (window : string) : string :=
  webhook_icon f ++ " *AI Governance Report* — " ++ overall_text f ++ nl ++
  "Window: last " ++ window ++ "  |  Total events: " ++ itoa (as_EventsTotal (gi_Audit info)) ++ "  |  Pending approvals: " ++
  itoa (ac_PendingCount (gi_Approvals info)) ++ "  |  Chain: " ++
  (if as_ChainValid (gi_Audit info) then "✓ valid" else "✗ *INVALID*") ++ nl ++
  bullets "Alerts" ":red_circle:" (alerts f) ++ bullets "Warnings" ":large_yellow_circle:" (warnings f).

(** ** history.go *)

Section History.
Context (strings_json : list string -> string) (read_strings : string -> list string).

Definition snapToRun (s : runSnapshot) : GovbotRun :=
  {| gr_ID := 0; gr_RunAt := sn_RunAt s; gr_Window := sn_Window s; gr_Gateway := sn_Gateway s; gr_Status := sn_Status s;
     gr_AlertCount := sn_AlertCount s; gr_WarningCount := sn_WarningCount s; gr_Alerts := read_strings (sn_AlertsJSON s);
     gr_Warnings := read_strings (sn_WarningsJSON s); gr_ChainValid := sn_ChainValid s; gr_PolicyDenies := sn_PolicyDenies s;
     gr_PolicyNoMatch := sn_PolicyNoMatch s; gr_MutationsTotal := sn_MutationsTotal s;
     gr_MutationsDestructive := sn_MutationsDestructive s; gr_PendingApprovals := sn_PendingApprovals s;
     gr_StaleApprovals := sn_StaleApprovals s; gr_DecisionsByResource := sn_DecisionsByResource s;
     gr_InvocationsByResource := sn_InvocationsByResource s |}.

Definition runToSnap (r : GovbotRun) : runSnapshot :=
  {| sn_RunAt := gr_RunAt r; sn_Window := gr_Window r; sn_Gateway := gr_Gateway r; sn_Status := gr_Status r;
     sn_AlertCount := gr_AlertCount r; sn_WarningCount := gr_WarningCount r; sn_AlertsJSON := strings_json (gr_Alerts r);
     sn_WarningsJSON := strings_json (gr_Warnings r); sn_ChainValid := gr_ChainValid r; sn_PolicyDenies := gr_PolicyDenies r;
     sn_PolicyNoMatch := gr_PolicyNoMatch r; sn_MutationsTotal := gr_MutationsTotal r;
     sn_MutationsDestructive := gr_MutationsDestructive r; sn_PendingApprovals := gr_PendingApprovals r;
     sn_StaleApprovals := gr_StaleApprovals r; sn_DecisionsByResource := gr_DecisionsByResource r;
     sn_InvocationsByResource := gr_InvocationsByResource r |}.

(** The history that auditd keeps: the requests are answered by its handlers, and the
    body of a request is what the reporter encoded. *)
Definition remote_save (failure prune_failure : option string) (s : runSnapshot) (retain : Z) (t : GovbotTable)
    : GovbotTable * result string unit :=
  let q := if (0 <? retain)%Z then itoa retain else "" in
  match handleSaveRun strings_json failure prune_failure q (Ok (snapToRun s)) t with
  | (t', SDone 201 _) => (t', Ok ())
  | (t', SDone code _) => (t', Err ("POST /v1/govbot/runs: HTTP " ++ itoa code))
  | (t', SError code msg) => (t', Err ("POST /v1/govbot/runs: HTTP " ++ itoa code ++ ": " ++ msg))
  end.

Definition remote_recent (gatewayURL window : string) (n : Z) (t : GovbotTable) : result string (list runSnapshot) :=
  let q k := if k =?s "limit" then itoa n else if k =?s "window" then window else if k =?s "gateway" then gatewayURL else "" in
  match handleGetRuns read_strings q t with
  | SDone _ runs => Ok (map runToSnap runs)
  | SError code msg => Err ("GET /v1/govbot/runs: HTTP " ++ itoa code ++ ": " ++ msg)
  end.
End History.

(** The history in a local file: one table for every window and gateway. *)
Record LocalRow := { lr_id : Z; lr_run_at : string; lr_chain_valid : Z; lr_snap : runSnapshot }.
Record LocalTable := { lt_next : Z; lt_rows : list LocalRow }.

Definition later_local (a b : LocalRow) : bool := text_lt (lr_run_at b) (lr_run_at a).

Definition newest_local (n : Z) (rows : list LocalRow) : list LocalRow := AuditResults.sql_limit n (isort later_local rows).

Definition local_save (failure prune_failure : option string) (s : runSnapshot) (retain : Z) (t : LocalTable)
    : LocalTable * option string :=
  match failure with
  | Some e => (t, Some ("insert govbot run: " ++ e))
  | None =>
      let rows := (lt_rows t ++ [{| lr_id := lt_next t; lr_run_at := RFC3339 (sn_RunAt s);
                                    lr_chain_valid := bit (sn_ChainValid s); lr_snap := s |}])%list in
      let saved := {| lt_next := lt_next t + 1; lt_rows := rows |} in
      if (0 <? retain)%Z then
        match prune_failure with
        | Some e => (saved, Some ("prune govbot runs: " ++ e))
        | None =>
            ({| lt_next := lt_next t + 1;
                lt_rows := List.filter (fun x => existsb (fun y => (lr_id x =? lr_id y)%Z) (newest_local retain rows)) rows |}, None)
        end
      else (saved, None)
  end.

Definition set_run_at (t : Time) (chain : bool) (s : runSnapshot) : runSnapshot :=
  {| sn_RunAt := t; sn_Window := sn_Window s; sn_Gateway := sn_Gateway s; sn_Status := sn_Status s;
     sn_AlertCount := sn_AlertCount s; sn_WarningCount := sn_WarningCount s; sn_AlertsJSON := sn_AlertsJSON s;
     sn_WarningsJSON := sn_WarningsJSON s; sn_ChainValid := chain; sn_PolicyDenies := sn_PolicyDenies s;
     sn_PolicyNoMatch := sn_PolicyNoMatch s; sn_MutationsTotal := sn_MutationsTotal s;
     sn_MutationsDestructive := sn_MutationsDestructive s; sn_PendingApprovals := sn_PendingApprovals s;
     sn_StaleApprovals := sn_StaleApprovals s; sn_DecisionsByResource := sn_DecisionsByResource s;
     sn_InvocationsByResource := sn_InvocationsByResource s |}.

Definition local_recent (window : string) (n : Z) (t : LocalTable) : list runSnapshot :=
  map (fun x => set_run_at (parse_or_zero (lr_run_at x)) (negb (lr_chain_valid x =? 0)%Z) (lr_snap x))
    (newest_local n (List.filter (fun x => unset_or window (sn_Window (lr_snap x) =?s window)) (lt_rows t))).

(** The share of invocations that were checked, over the decoded counters; no decoding,
    no entry or no invocation is no share. *)
Definition coveragePct (read_invocations : string -> option (list (string * (Z * Z)))) (blob : string) : option spec_float :=
  if (blob =?s "") || (blob =?s "{}") || (blob =?s "null") then None
  else
    match read_invocations blob with
    | None | Some [] => None
    | Some entries =>
        let invoked := fold_left (fun n e => n + fst (snd e))%Z entries 0%Z in
        let checked := fold_left (fun n e => n + snd (snd e))%Z entries 0%Z in
        if (invoked =? 0)%Z then None
        else Some (SFdiv 53 1024 (float_mul (float_int checked) (float_int 100)) (float_int invoked))
    end.

(** ** Lemmas *)

Lemma all_of_alerts l : alerts (all_of l) = concat (map alerts l).
Proof. induction l as [|f l IH]; simpl; [done|]. by rewrite IH. Qed.

Lemma all_of_warnings l : warnings (all_of l) = concat (map warnings l).
Proof. induction l as [|f l IH]; simpl; [done|]. by rewrite IH. Qed.

Definition quiet (f : Findings) : Prop := alerts f = [] /\ warnings f = [].

Lemma quiet_also a b : quiet (also a b) <-> quiet a /\ quiet b.
Proof. unfold quiet, also. simpl. rewrite !app_nil. tauto. Qed.

Lemma quiet_all l : quiet (all_of l) <-> forall f, In f l -> quiet f.
Proof.
  induction l as [|f l IH]; simpl; [by split; [|intros _; split]|]. rewrite quiet_also, IH. split.
  - intros [H1 H2] g [<-|Hg]; [done|by apply H2].
  - intros H. split; [apply H; by left|intros g Hg; apply H; by right].
Qed.

Lemma quiet_when b f : ~ quiet f -> quiet (when b f) <-> b = false.
Proof. destruct b; simpl; intros Hf; split; try done. Qed.

Lemma not_quiet_alert m : ~ quiet (alert m).
Proof. by intros [? _]. Qed.

Lemma not_quiet_warn m : ~ quiet (warn m).
Proof. by intros [_ ?]. Qed.

Create HintDb findings.
#[export] Hint Resolve not_quiet_alert not_quiet_warn : findings.

Lemma healthy_quiet f : overall_status f = "healthy" <-> quiet f.
Proof. unfold overall_status, quiet. destruct (alerts f), (warnings f); split; try done; by intros [? ?]. Qed.

Lemma count_zero {A} (p : A -> bool) l : (0 <? count p l)%Z = false <-> forall x, In x l -> p x = false.
Proof.
  unfold count. rewrite Z.ltb_ge. induction l as [|y l IH]; simpl; [split; [done|lia]|].
  destruct (p y) eqn:E; simpl.
  - split; [lia|]. intros H. rewrite (H y (or_introl eq_refl)) in E. done.
  - rewrite IH. split; [intros H x [<-|Hx]; [done|by apply H]|intros H x Hx; apply H; by right].
Qed.

Lemma in_decisions events e pd : In (e, pd) (decisions events) <->
  In e events /\ EventType e = EventTypePolicyDecision /\ e_PolicyDecision e = Some pd.
Proof.
  unfold decisions. rewrite <- list_elem_of_In, list_elem_of_omap. setoid_rewrite list_elem_of_In. unfold decision_of. split.
  - intros (x & Hx & H). destruct (EventType x =?s EventTypePolicyDecision) eqn:E; [|done]. apply streq_spec in E.
    destruct (e_PolicyDecision x) eqn:Ep; [|done]. injection H as -> ->. done.
  - intros (Hin & Ht & Hp). exists e. split; [done|]. by rewrite Ht, streq_refl, Hp.
Qed.

Lemma in_traces ty events t : t ∈ traces_of ty events <->
  exists e, In e events /\ EventType e = ty /\ TraceID e = t /\ t <> "".
Proof.
  unfold traces_of. rewrite elem_of_list_to_set, list_elem_of_In, in_map_iff. setoid_rewrite filter_In.
  unfold traced, is_type. setoid_rewrite andb_true_iff. setoid_rewrite negb_true_iff.
  setoid_rewrite streq_spec. setoid_rewrite streq_false. split.
  - intros (e & <- & Hin & Ht & Hne). by exists e.
  - intros (e & Hin & Ht & <- & Hne). by exists e.
Qed.

Lemma in_uncontrolled events t : In t (uncontrolledTraces events) <->
  t ∈ traces_of EventTypeToolExecution events /\ t ∉ traces_of EventTypePolicyDecision events.
Proof. unfold uncontrolledTraces. rewrite isort_In, <- list_elem_of_In, elem_of_elements. apply elem_of_difference. Qed.

(** *** The counters of a key *)

Definition is_key (key : Event -> option covKey) (k : covKey) (e : Event) : bool := bool_decide (key e = Some k).

Lemma count_cons {A} (p : A -> bool) x l : count p (x :: l) = ((if p x then 1 else 0) + count p l)%Z.
Proof. unfold count. simpl. destruct (p x); simpl; lia. Qed.

(** [get] reads the counter that [add] increments, or another one. *)
Lemma count_key_get (get : covStats -> Z) (step : Z) add key events m k :
  (forall s, get (add s) = get s + step)%Z ->
  get (default (0, 0)%Z (fold_left (count_key add key) events m !! k))
  = (get (default (0, 0)%Z (m !! k)) + step * count (is_key key k) events)%Z.
Proof.
  intros Hadd. revert m. induction events as [|e events IH]; intros m; [unfold count; simpl; lia|].
  cbn [fold_left]. rewrite IH, count_cons. change (is_key key k e) with (bool_decide (key e = Some k)). unfold count_key at 1.
  destruct (key e) as [k'|] eqn:E.
  - destruct (decide (k' = k)) as [->|Hne].
    + rewrite lookup_insert_eq, bool_decide_eq_true_2 by done. simpl. rewrite Hadd. ring.
    + rewrite lookup_insert_ne by done. rewrite bool_decide_eq_false_2 by congruence. simpl. by rewrite Z.add_0_l.
  - rewrite bool_decide_eq_false_2 by done. simpl. by rewrite Z.add_0_l.
Qed.

Lemma pair_equal_spec_Z (a b : covStats) : a.1 = b.1 /\ a.2 = b.2 -> a = b.
Proof. destruct a, b; simpl. by intros [-> ->]. Qed.

Lemma byCov_counts events k : default (0, 0)%Z (byCov events !! k) =
  (count (is_key invocation k) events, count (is_key check k) events).
Proof.
  unfold byCov. apply pair_equal_spec_Z. split.
  - rewrite (count_key_get fst 0) by (simpl; lia). rewrite (count_key_get fst 1) by done. rewrite lookup_empty. simpl. lia.
  - rewrite (count_key_get snd 1) by done. rewrite (count_key_get snd 0) by (simpl; lia). rewrite lookup_empty. simpl. lia.
Qed.

(** *** What each phase says when it says nothing *)

Lemma quiet_status info : quiet (governance_status info) <-> auditConfigured info = true /\ as_ChainValid (gi_Audit info) = true.
Proof.
  unfold governance_status. destruct (auditConfigured info); [|split; [by intros [_ ?]|by intros [? _]]].
  rewrite quiet_when by auto with findings. rewrite negb_false_iff. tauto.
Qed.

Lemma quiet_overview info : auditConfigured info = true -> quiet (policy_overview info) -> policyEnabled info = true.
Proof.
  unfold policy_overview. intros -> Hq. rewrite quiet_when in Hq by auto with findings. by destruct (policyEnabled info).
Qed.

Lemma quiet_activity info events : auditConfigured info = true -> quiet (audit_activity info events) -> exists l, events = Ok l.
Proof. unfold audit_activity. intros -> Hq. destruct events as [l|e]; [by exists l|]. by destruct Hq. Qed.

Lemma quiet_over events f : quiet (over_events events f) -> events = [] \/ quiet (f events).
Proof. destruct events; [by left|by right]. Qed.

Lemma quiet_decisions events e pd : quiet (decision_analysis events) -> In e events ->
  EventType e = EventTypePolicyDecision -> e_PolicyDecision e = Some pd ->
  TraceID e <> "" /\ Effect pd <> "deny" /\ (Effect pd = "allow" -> PolicyName pd <> "" /\ PolicyName pd <> "default").
Proof.
  unfold decision_analysis. intros Hq Hin Ht Hp. rewrite quiet_all in Hq.
  assert (Hd : In (e, pd) (decisions events)) by by apply in_decisions.
  pose proof (Hq _ (or_introl eq_refl)) as H1. pose proof (Hq _ (or_intror (or_introl eq_refl))) as H2.
  pose proof (Hq _ (or_intror (or_intror (or_introl eq_refl)))) as H3.
  rewrite quiet_when, count_zero in H1, H2, H3 by auto with findings.
  specialize (H1 _ Hd). specialize (H2 _ Hd). specialize (H3 _ Hd). unfold unattributable, unmatched, denied, no_match in *.
  simpl in *. apply streq_false in H1, H3. split; [done|]. split; [done|]. intros Ha. rewrite Ha in H2. simpl in H2.
  apply orb_false_iff in H2 as [? ?]. split; by apply streq_false.
Qed.

Lemma quiet_enforcement info events e : policyEnabled info = true -> quiet (enforcement_coverage info events) -> In e events ->
  EventType e = EventTypeToolExecution -> TraceID e <> "" ->
  exists d, In d events /\ EventType d = EventTypePolicyDecision /\ TraceID d = TraceID e.
Proof.
  intros Hp Hq Hin Ht Hne. unfold enforcement_coverage in Hq. rewrite quiet_all in Hq.
  pose proof (Hq _ (or_introl eq_refl)) as H1. rewrite quiet_when, Hp in H1 by auto with findings.
  destruct (decide (TraceID e ∈ traces_of EventTypePolicyDecision events)) as [Hd|Hd].
  - apply in_traces in Hd as (d & Hdi & Hdt & Hdr & _). by exists d.
  - assert (Hu : In (TraceID e) (uncontrolledTraces events)).
    { apply in_uncontrolled. split; [|done]. apply in_traces. by exists e. }
    by destruct (uncontrolledTraces events).
Qed.

Lemma quiet_pending info clock pending : auditConfigured info = true -> quiet (pending_approvals info clock pending) ->
  exists l, pending = Ok l /\ forall i req, l !! i = Some req -> stale clock i req = false.
Proof.
  unfold pending_approvals. intros Hc Hq. destruct pending as [l|e]; [|rewrite Hc in Hq; by destruct Hq].
  exists l. split; [done|]. rewrite quiet_when in Hq by auto with findings. unfold staleCount in Hq. rewrite count_zero in Hq.
  intros i req Hl. apply Hq. apply list_elem_of_In, list_elem_of_lookup. exists i. by rewrite list_lookup_imap, Hl.
Qed.

Lemma quiet_integrity info integrity : auditConfigured info = true -> quiet (chain_integrity info integrity) ->
  exists st, integrity = Ok st /\ is_Valid st = true.
Proof.
  unfold chain_integrity. intros -> Hq. destruct integrity as [st|e]; [|by destruct Hq]. exists st. split; [done|].
  rewrite quiet_when in Hq by auto with findings. by destruct (is_Valid st).
Qed.

Lemma quiet_gap x : ~ quiet (gap_finding x).
Proof. unfold gap_finding. destruct (changes_state _); auto with findings. Qed.

Lemma covered_key events k : (0 < count (is_key invocation k) events)%Z ->
  In (k, (count (is_key invocation k) events, count (is_key check k) events)) (covered events).
Proof.
  intros Hk. unfold covered. apply isort_In, list_elem_of_In, elem_of_map_to_list. pose proof (byCov_counts events k) as H.
  destruct (byCov events !! k) as [s|] eqn:E; simpl in H; [subst s; exact E|]. injection H as H _. lia.
Qed.

Lemma quiet_coverage info events k : quiet (policy_coverage info events) ->
  (count (is_key invocation k) events <= count (is_key check k) events)%Z.
Proof.
  intros Hq. destruct (Z.lt_ge_cases 0 (count (is_key invocation k) events)) as [Hp|Hp].
  2: { unfold count in *. lia. }
  apply covered_key in Hp. unfold policy_coverage in Hq. destruct (covered events) as [|y l]; [done|].
  apply quiet_also in Hq as [Hq _]. rewrite quiet_all in Hq.
  destruct (is_gap (k, (count (is_key invocation k) events, count (is_key check k) events))) eqn:Eg.
  - exfalso. eapply quiet_gap, Hq, in_map, filter_In. by split.
  - unfold is_gap in Eg. simpl in Eg. by apply Z.ltb_ge in Eg.
Qed.

Section Theorems.
Context (strings_json : list string -> string) (empty_objects_json : gset string -> string).
Context (invocations_json : list (string * (Z * Z)) -> string).

Abbreviation govbot := (run strings_json empty_objects_json invocations_json).

Lemma run_reported startTime now clock window gateway an code f snap info :
  govbot startTime now clock window gateway an = Reported code f snap info ->
  exists since, parseLookback window = Ok since /\ an_info an = Ok info /\ code = exit_code f /\
    sn_Status snap = overall_status f /\
    f = analyse info (now - since)%Z clock (an_events an (now - since)%Z 1000) (an_events an (now - since - since)%Z 2000)
          (an_pending an) (an_integrity an).
Proof.
  unfold run. destruct (parseLookback window) as [since|e]; [|done]. destruct (an_info an) as [i|e]; [|done].
  intros H. injection H as <- <- <- <-. by exists since.
Qed.

(** C7 (safety). A report that says healthy means it: the log and the policies are on and
    the chain is valid by both answers, the events, the approvals and the check of the
    chain were all fetched, and among the events fetched every decision has a trace, none
    is a denial and none allows without a rule, every tool execution with a trace has a
    decision in its trace, no resource and action has more invocations than checks, and
    no approval is stale. *)
Theorem healthy_report_sound (startTime now : Time) (clock : nat -> Time) (window gateway : string) (an : Answers)
    (code : Z) (f : Findings) (snap : runSnapshot) (info : GovernanceInfo)
    (Hrun : govbot startTime now clock window gateway an = Reported code f snap info) (Hs : sn_Status snap = "healthy") :
  exists since events pending st,
    parseLookback window = Ok since /\ an_events an (now - since)%Z 1000 = Ok events /\ an_pending an = Ok pending /\
    an_integrity an = Ok st /\ code = 0%Z /\
    auditConfigured info = true /\ as_ChainValid (gi_Audit info) = true /\ is_Valid st = true /\ policyEnabled info = true /\
    (forall e pd, In e events -> EventType e = EventTypePolicyDecision -> e_PolicyDecision e = Some pd ->
       TraceID e <> "" /\ Effect pd <> "deny" /\ (Effect pd = "allow" -> PolicyName pd <> "" /\ PolicyName pd <> "default")) /\
    (forall e, In e events -> EventType e = EventTypeToolExecution -> TraceID e <> "" ->
       exists d, In d events /\ EventType d = EventTypePolicyDecision /\ TraceID d = TraceID e) /\
    (forall k, (count (is_key invocation k) events <= count (is_key check k) events)%Z) /\
    (forall i req, pending !! i = Some req -> stale clock i req = false).
Proof.
  destruct (run_reported _ _ _ _ _ _ _ _ _ _ Hrun) as (since & Hw & Hi & -> & Hst & Hf).
  rewrite Hst, healthy_quiet in Hs. pose proof Hs as Hq. rewrite Hf in Hq. unfold analyse in Hq. rewrite quiet_all in Hq.
  assert (Hcv := proj1 (quiet_status info) (Hq (governance_status info) ltac:(simpl; tauto))). destruct Hcv as [Hc Hv].
  assert (Hp := quiet_overview info Hc (Hq (policy_overview info) ltac:(simpl; tauto))).
  destruct (quiet_activity info _ Hc (Hq (audit_activity info _) ltac:(simpl; tauto))) as [events He].
  destruct (quiet_pending info clock _ Hc (Hq (pending_approvals info clock _) ltac:(simpl; tauto))) as (pending & Hpe & Hstale).
  destruct (quiet_integrity info _ Hc (Hq (chain_integrity info _) ltac:(simpl; tauto))) as (st & Hin & Hva).
  rewrite He in Hq. unfold fetched in Hq. exists since, events, pending, st. unfold exit_code. rewrite (proj1 Hs).
  split_and!; try done.
  - intros e pd Hie. destruct (quiet_over _ _ (Hq (over_events events decision_analysis) ltac:(simpl; tauto))) as [->|H]; [done|].
    by apply (quiet_decisions events).
  - intros e Hie.
    destruct (quiet_over _ _ (Hq (over_events events (enforcement_coverage info)) ltac:(simpl; tauto))) as [->|H]; [done|].
    by apply (quiet_enforcement info).
  - intros k. destruct (quiet_over _ _ (Hq (over_events events (policy_coverage info)) ltac:(simpl; tauto))) as [->|H]; [done|].
    by apply (quiet_coverage info).
Qed.
End Theorems.

(** ** Over the log of auditd *)

(** The parameters of the request for events. *)
Definition event_params (since : Time) (limit : Z) : Params :=
  fun k => if k =?s "since" then RFC3339 since else if k =?s "limit" then itoa limit else "".

Definition auditd_events (unmarshal_event : string -> option Event) (scan : list Row -> list Row) (s : Store)
    (since : Time) (limit : Z) : result string (list Event) :=
  match handleQueryEvents unmarshal_event scan (event_params since limit) s with
  | EventsList l => Ok l
  | EventsError code msg => Err ("GET /api/v1/governance/events: HTTP " ++ itoa code ++ ": " ++ msg)
  | _ => Err "decode events"
  end.

(** A row not before the second in which the window starts. *)
Definition in_window (since : Time) (r : Row) : bool := text_le (sqliteTimeFormat (whole_second since)) (timestamp r).

Lemma window_matches pg since limit r : writable since -> whole_second since <> 0%Z ->
  query_matches pg (query_of_params (event_params since limit)) r = in_window since r.
Proof.
  intros Hw Hz. set (opts := query_of_params (event_params since limit)).
  assert (Hs : qo_Since opts = whole_second since) by (exact (since_read_back since Hw)).
  unfold query_matches, type_clause, confidence_clauses. rewrite Hs, (proj2 (Z.eqb_neq _ _) Hz : IsZero _ = false).
  change (qo_MinConfidence opts) with (S754_zero false). change (qo_MaxConfidence opts) with (S754_zero false).
  change (qo_EventTypes opts) with (@nil string). cbn -[sqliteTimeFormat text_le in_window]. by rewrite !andb_true_r.
Qed.

Section OverAuditd.
Context (unmarshal_event : string -> option Event) (scan : list Row -> list Row).
Hypothesis scan_perm : forall l, scan l ≡ₚ l.

(** What is fetched is what the window holds, unless it holds more than the limit. *)
Lemma window_fetched s since limit events : writable since -> whole_second since <> 0%Z -> (0 < limit < 2 ^ 63)%Z ->
  (Z.of_nat (length (List.filter (in_window since) (rows s))) <= limit)%Z ->
  auditd_events unmarshal_event scan s since limit = Ok events ->
  forall e, In e events <-> exists r, In r (rows s) /\ in_window since r = true /\ unmarshal_event (raw_json r) = Some e.
Proof.
  intros Hw Hz Hl Hmax. unfold auditd_events, handleQueryEvents. set (opts := query_of_params (event_params since limit)).
  assert (Hlim : qo_Limit opts = limit).
  { change (match atoi (itoa limit) with Some n => if (0 <? n)%Z then n else 100%Z | None => 100%Z end = limit). rewrite atoi_itoa by lia. by rewrite (proj2 (Z.ltb_lt 0 limit) ltac:(lia)). }
  assert (Hf : List.filter (query_matches (isPostgres s) opts) (rows s) = List.filter (in_window since) (rows s)).
  { apply List.filter_ext. intros r. by apply window_matches. }
  destruct (Query_spec unmarshal_event scan scan_perm opts s) as (picked & rest & Hp & _ & _ & Hlen & Hq).
  destruct (Query unmarshal_event scan opts s) as [l|]; [|done]. intros [= <-].
  rewrite Hf in Hp. rewrite Hlim in Hlen. specialize (Hlen ltac:(lia)).
  pose proof (Permutation_length Hp) as Hpl. rewrite length_app in Hpl, Hlen.
  assert (rest = []) as -> by (destruct rest; simpl in *; [done|lia]). rewrite app_nil_r in Hp.
  intros e. split.
  - intros He. destruct (Forall2_In_r _ _ _ _ Hq He) as (r & Hr & Hu).
    apply (Permutation_in _ Hp), filter_In in Hr as [Hr Hwin]. by exists r.
  - intros (r & Hr & Hwin & Hu).
    destruct (Forall2_In_l _ _ _ _ Hq (Permutation_in _ (symmetry Hp) (proj2 (filter_In _ _ _) (conj Hr Hwin)))) as (e' & He & Hu').
    by assert (e' = e) as -> by congruence.
Qed.

Context (strings_json : list string -> string) (empty_objects_json : gset string -> string).
Context (invocations_json : list (string * (Z * Z)) -> string).

(** A tool execution that the log of auditd holds for the window, with a
    trace in which the window has no policy decision, makes the report end with code 2
    and an alert that lists the trace, when policies are enabled, the window has at most
    the thousand rows that are fetched, and they can be decoded. *)
Theorem bypass_in_log_reported (s : Store) (startTime now since : Time) (clock : nat -> Time) (window gateway : string)
    (an : Answers) (info : GovernanceInfo) (r : Row) (e : Event)
    (Hwindow : parseLookback window = Ok since) (Hinfo : an_info an = Ok info) (Hpolicy : policyEnabled info = true)
    (Hevents : an_events an = auditd_events unmarshal_event scan s)
    (Hw : writable (now - since)) (Hz : whole_second (now - since) <> 0%Z)
    (Hmax : (Z.of_nat (length (List.filter (in_window (now - since)) (rows s))) <= 1000)%Z)
    (Hdec : forall r, In r (rows s) -> unmarshal_event (raw_json r) <> None)
    (Hr : In r (rows s)) (Hwin : in_window (now - since) r = true) (Hu : unmarshal_event (raw_json r) = Some e)
    (Ht : EventType e = EventTypeToolExecution) (Hne : TraceID e <> "")
    (Hfree : forall r' e', In r' (rows s) -> in_window (now - since) r' = true -> unmarshal_event (raw_json r') = Some e' ->
       TraceID e' = TraceID e -> EventType e' <> EventTypePolicyDecision) :
  exists f snap traces,
    run strings_json empty_objects_json invocations_json startTime now clock window gateway an = Reported 2 f snap info /\
    In (bypass_message traces) (alerts f) /\ In (TraceID e) traces.
Proof.
  unfold run. rewrite Hwindow, Hinfo, Hevents.
  destruct (auditd_events unmarshal_event scan s (now - since)%Z 1000) as [events|msg] eqn:Ev.
  2: { exfalso. unfold auditd_events, handleQueryEvents in Ev.
       destruct (Query_spec unmarshal_event scan scan_perm (query_of_params (event_params (now - since)%Z 1000)) s)
         as (picked & rest & Hp & _ & _ & _ & Hq).
       destruct (Query _ _ _ _); [done|]. destruct Hq as (x & Hx & Hn). apply (Hdec x); [|done].
       apply (filter_In (query_matches (isPostgres s) (query_of_params (event_params (now - since)%Z 1000)))).
       eapply Permutation_in; [exact Hp|]. apply in_or_app. by left. }
  pose proof (window_fetched s _ 1000 events Hw Hz ltac:(lia) Hmax Ev) as Hin.
  assert (Hun : In (TraceID e) (uncontrolledTraces events)).
  { apply in_uncontrolled. split.
    - apply in_traces. exists e. split_and!; try done. apply Hin. by exists r.
    - intros Hd. apply in_traces in Hd as (d & Hd & Hdt & Hdr & _). apply Hin in Hd as (r' & Hr' & Hw' & Hu').
      by apply (Hfree r' d). }
  set (f := analyse _ _ _ _ _ _ _). 
  assert (Ha : In (bypass_message (uncontrolledTraces events)) (alerts f)).
  { unfold f, analyse. rewrite all_of_alerts. apply in_concat. exists (alerts (over_events events (enforcement_coverage info))).
    split; [apply in_map; simpl; tauto|]. destruct events as [|x l]; [done|]. unfold over_events, enforcement_coverage.
    rewrite all_of_alerts. apply in_concat. eexists. split; [left; reflexivity|].
    destruct (uncontrolledTraces (x :: l)); [done|]. rewrite Hpolicy. by left. }
  exists f. eexists. exists (uncontrolledTraces events). split; [|by split].
  unfold exit_code. destruct (alerts f) eqn:Ef; [done|]. reflexivity.
Qed.
End OverAuditd.

(** ** The history *)

Lemma isort_first {A} (lt : A -> A -> bool) (l : list A) x
    (asym : forall a b, lt a b = true -> lt b a = false)
    (trans : forall a b c, lt b a = false -> lt c b = false -> lt c a = false) :
  In x l -> (forall y, In y l -> y = x \/ lt x y = true) -> exists rest, isort lt l = x :: rest.
Proof.
  intros Hx Hfirst. pose proof (isort_sorted lt asym trans l) as Hs.
  destruct (isort lt l) as [|h rest] eqn:E.
  - apply (isort_In lt) in Hx. by rewrite E in Hx.
  - assert (Hh : In h l) by (apply (isort_In lt); rewrite E; by left).
    destruct (Hfirst h Hh) as [->|Hlt]; [by exists rest|].
    assert (Hin : In x (h :: rest)) by (rewrite <- E; by apply isort_In).
    destruct Hin as [->|Hin]; [by exists rest|]. inversion Hs as [|? ? _ Hall]; subst.
    rewrite List.Forall_forall in Hall. by rewrite (Hall x Hin) in Hlt.
Qed.

Lemma sql_limit_first {A} n (x : A) rest : (0 < n)%Z -> exists rest', AuditResults.sql_limit n (x :: rest) = x :: rest'.
Proof.
  intros Hn. unfold AuditResults.sql_limit. rewrite (proj2 (Z.ltb_ge n 0)) by lia.
  destruct (Z.to_nat n) as [|k] eqn:E; [lia|]. eexists. reflexivity.
Qed.

Definition whole_snapshot (s : runSnapshot) : runSnapshot := set_run_at (whole_second (sn_RunAt s)) (sn_ChainValid s) s.

Section HistoryTheorem.
Context (strings_json : list string -> string) (read_strings : string -> list string).
Hypothesis strings_read : forall l, read_strings (strings_json l) = l.

(** The row a snapshot is saved as is the newest of its gateway, and survives the prune. *)
Lemma saved_kept run n t x :
  gr_Gateway run <> "" -> (0 < n)%Z ->
  x = {| gb_id := gb_next t; gb_run_at := RFC3339 (gr_RunAt run); gb_alerts_json := strings_json (gr_Alerts run);
         gb_warnings_json := strings_json (gr_Warnings run); gb_chain_valid := bit (gr_ChainValid run); gb_plain := run |} ->
  (forall y, In y (gb_rows t) -> row_gateway y = gr_Gateway run -> text_lt (gb_run_at y) (RFC3339 (gr_RunAt run)) = true) ->
  In x (gb_rows (Prune None (gr_Gateway run) n (SaveRun strings_json None run t).1).1).
Proof.
  intros Hg Hn -> Hold. unfold Prune. rewrite (proj2 (Z.leb_gt n 0) Hn), (proj2 (streq_false _ _) Hg). simpl orb. cbv iota.
  cbn [fst gb_rows SaveRun]. set (x := {| gb_id := gb_next t |}). set (rows := (gb_rows t ++ [x])%list).
  apply filter_In. split; [apply in_or_app; right; by left|].
  apply prune_keeps_own; [apply streq_refl|]. apply retained_in; [done|]. exists x. split; [done|].
  destruct (isort_first later_run (List.filter (of_gateway (gr_Gateway run)) rows) x) as (rest & ->).
  - intros *. apply (later_asym gb_run_at).
  - intros *. apply (later_ge_trans gb_run_at).
  - apply filter_In. split; [apply in_or_app; right; by left|apply streq_refl].
  - intros y [Hy Gy]%filter_In. apply in_app_or in Hy as [Hy|[<-|[]]]; [|by left]. right.
    apply Hold; [done|]. by apply streq_spec.
  - destruct (Z.to_nat n) eqn:E; [lia|]. by left.
Qed.

Lemma saved_read_back s id al wa : sn_AlertsJSON s = strings_json al -> sn_WarningsJSON s = strings_json wa ->
  writable (sn_RunAt s) ->
  let run := snapToRun read_strings s in
  runToSnap strings_json (scan_run read_strings
    {| gb_id := id; gb_run_at := RFC3339 (gr_RunAt run); gb_alerts_json := strings_json (gr_Alerts run);
       gb_warnings_json := strings_json (gr_Warnings run); gb_chain_valid := bit (gr_ChainValid run); gb_plain := run |})
  = whole_snapshot s.
Proof.
  intros Hal Hwa Hw run. unfold runToSnap, scan_run, whole_snapshot, set_run_at, run, snapToRun.
  cbn [gb_id gb_run_at gb_alerts_json gb_warnings_json gb_chain_valid gb_plain gr_RunAt gr_Window gr_Gateway gr_Status gr_AlertCount
       gr_WarningCount gr_Alerts gr_Warnings gr_ChainValid gr_PolicyDenies gr_PolicyNoMatch gr_MutationsTotal gr_MutationsDestructive
       gr_PendingApprovals gr_StaleApprovals gr_DecisionsByResource gr_InvocationsByResource].
  change (RFC3339 (sn_RunAt s)) with (clock_fields (sn_RunAt s) ++ "Z").
  rewrite (since_read_back _ Hw), !strings_read, Hal, Hwa, !strings_read. by destruct (sn_ChainValid s).
Qed.

(** The history that auditd keeps gives the reporter back what it saved: the newest of
    the runs of its window and gateway is the saved one, its time cut to the second, when
    no run of the gateway is recorded for that second or later, whatever is pruned. *)
Theorem history_read_back (s : runSnapshot) (t t' : GovbotTable) (retain n : Z) (al wa : list string)
    (Hal : sn_AlertsJSON s = strings_json al) (Hwa : sn_WarningsJSON s = strings_json wa)
    (Hg : sn_Gateway s <> "") (Hw : writable (sn_RunAt s)) (Hretain : (0 < retain < 2 ^ 63)%Z) (Hn : (0 < n < 2 ^ 63)%Z)
    (Hold : forall y, In y (gb_rows t) -> row_gateway y = sn_Gateway s ->
       text_lt (gb_run_at y) (RFC3339 (sn_RunAt s)) = true)
    (Hsave : remote_save strings_json read_strings None None s retain t = (t', Ok ())) :
  exists rest, remote_recent strings_json read_strings (sn_Gateway s) (sn_Window s) n t' = Ok (whole_snapshot s :: rest).
Proof.
  unfold remote_save in Hsave. rewrite (proj2 (Z.ltb_lt 0 retain)) in Hsave by lia.
  unfold handleSaveRun in Hsave. cbn [SaveRun] in Hsave. rewrite atoi_itoa, (proj2 (Z.ltb_lt 0 retain)) in Hsave by lia.
  injection Hsave as <-. set (run := snapToRun read_strings s).
  match goal with |- context [(Prune None ?g retain ?saved).1] => set (t' := (Prune None g retain saved).1) end.
  pose proof (saved_kept run retain t _ Hg ltac:(lia) eq_refl Hold) as Hx. set (x := {| gb_id := gb_next t |}) in Hx.
  change (In x (gb_rows t')) in Hx.
  assert (Hrows : forall y, In y (gb_rows t') -> In y (gb_rows t) \/ y = x).
  { intros y Hy. unfold t', Prune in Hy. rewrite (proj2 (Z.leb_gt retain 0)) in Hy by lia.
    change (gr_Gateway run) with (sn_Gateway s) in Hy. rewrite (proj2 (streq_false _ _) Hg) in Hy. simpl orb in Hy.
    cbv iota in Hy. apply filter_In in Hy as [Hy _]. apply in_app_or in Hy as [Hy|[<-|[]]]; [by left|by right]. }
  unfold remote_recent, handleGetRuns.
  match goal with |- context [RecentRuns _ ?w ?g (runs_limit ?l) _] =>
    change w with (sn_Window s); change g with (sn_Gateway s); change l with (itoa n) end.
  unfold runs_limit. rewrite atoi_itoa, (proj2 (Z.ltb_lt 0 n)) by lia. unfold RecentRuns.
  match goal with |- context [isort later_run (List.filter ?p (gb_rows t'))] => set (sel := p) end.
  destruct (isort_first later_run (List.filter sel (gb_rows t')) x) as (rest & ->).
  - intros *. apply (later_asym gb_run_at).
  - intros *. apply (later_ge_trans gb_run_at).
  - apply filter_In. split; [done|]. unfold sel, unset_or, row_gateway. simpl. by rewrite !streq_refl, !orb_true_r.
  - intros y [Hy Sy]%filter_In. destruct (Hrows y Hy) as [Hy' | ->]; [right|by left]. apply Hold; [done|].
    unfold sel, unset_or in Sy. apply andb_true_iff in Sy as [_ Sy]. rewrite (proj2 (streq_false _ _) Hg) in Sy. by apply streq_spec.
  - destruct (sql_limit_first n x rest ltac:(lia)) as (rest' & ->). exists (map (runToSnap strings_json) (map (scan_run read_strings) rest')).
    rewrite <- (saved_read_back s (gb_next t) al wa Hal Hwa Hw). reflexivity.
Qed.
End HistoryTheorem.

(** ** Witnesses and examples *)

Module GovbotToy.
Definition pd (effect policy action user : string) : PolicyDecision :=
  {| ResourceType := "database"; ResourceName := "prod"; pd_Action := action; pd_Tags := []; Effect := effect;
     PolicyName := policy; RuleIndex := 0; Message := ""; Note := ""; DryRun := false; PostExecution := false; Trace := "";
     Explanation := ""; pd_UserID := user; pd_Roles := []; pd_Service := ""; pd_AuthMethod := ""; AutoApproved := false;
     pd_Purpose := "maintenance"; pd_PurposeNote := ""; pd_Sensitivity := [] |}.

Definition ev (ty trace class : string) (at_ : Time) (d : option PolicyDecision) : Event :=
  {| EventID := ""; Timestamp := at_; EventType := ty; TraceID := trace; ParentID := ""; Origin := "";
     e_ActionClass := class; PrevHash := ""; EventHash := ""; e_Principal := None; e_Purpose := ""; e_PurposeNote := "";
     e_Session := e_Session zero_event; e_Input := e_Input zero_event; e_Output := None; e_Tool := None; e_Approval := None;
     e_Decision := None; e_PolicyDecision := d; e_AgentReasoning := None; e_GovernanceViolation := None;
     e_DelegationVerification := None; e_Outcome := None; e_RollbackExecution := None |}.

Definition decision (trace effect policy action : string) : Event :=
  ev EventTypePolicyDecision trace "" Hours (Some (pd effect policy action "alice")).
Definition execution (trace class : string) : Event := ev EventTypeToolExecution trace class Hours None.
Definition invoked (action : string) : Event := ev EventTypeToolInvoked "tr_1" "" Hours (Some (pd "" "" action "")).

Definition info : GovernanceInfo :=
  {| gi_Policy := Some {| pi_Enabled := true; pi_File := "p.yaml"; pi_PoliciesCount := 0; pi_RulesCount := 0; pi_Policies := [] |};
     gi_Approvals := {| ac_Enabled := true; ac_WebhookConfigured := false; ac_EmailConfigured := false; ac_DefaultTimeout := "60m";
                        ac_PendingCount := 0 |};
     gi_Audit := {| as_Enabled := true; as_Backend := "sqlite"; as_EventsTotal := 3; as_ChainValid := true; as_LastEventAt := "" |};
     gi_Timestamp := "" |}.

Definition answers (events : Time -> Z -> result string (list Event)) : Answers :=
  {| an_info := Ok info; an_events := events; an_pending := Ok [];
     an_integrity := Ok {| is_Valid := true; is_TotalEvents := 3; is_InvalidEventID := ""; is_Message := "" |} |}.

Definition always (l : list Event) : Time -> Z -> result string (list Event) := fun _ _ => Ok l.

Definition json (l : list string) : string := join "," l.

Definition report (window : string) (an : Answers) : Run :=
  run json (fun _ => "") (fun _ => "") (48 * Hours) (48 * Hours) (fun _ => 48 * Hours)%Z window "http://gw" an.

Definition findings (r : Run) : option (Z * list string * list string) :=
  match r with Reported code f _ _ => Some (code, alerts f, warnings f) | Stopped _ _ => None end.

Definition status (r : Run) : string := match r with Reported _ _ snap _ => sn_Status snap | Stopped _ _ => "" end.

Definition clean : list Event := [invoked "write"; decision "tr_1" "allow" "dba" "write"; execution "tr_1" "write"].

(** A store with one row, whose text decodes to a given event. *)
Definition store_of (e : Event) : Store :=
  {| rows := [row_of (fun _ => "") (fun _ => "") (fun _ => "") e "x"]; isPostgres := false; lastHash := ""; notified := [] |}.

(** A list of texts, each behind the number of its bytes. *)
Definition enc_list (l : list string) : string := foldr (fun a s => enc a ++ s) "" l.

Fixpoint dec_list (n : nat) (s : string) : list string :=
  match n with
  | O => []
  | S n' => match dec s with Some (a, r) => a :: dec_list n' r | None => [] end
  end.

Definition read_list (s : string) : list string := dec_list (String.length s) s.

Lemma enc_length a : 1 <= String.length (enc a).
Proof. destruct a; simpl; lia. Qed.

Lemma dec_list_enc l n : length l <= n -> dec_list n (enc_list l) = l.
Proof.
  revert n. induction l as [|a l IH]; intros n Hn; [by destruct n|]. destruct n as [|n]; simpl in *; [lia|].
  rewrite dec_enc, IH; [done|lia].
Qed.

Lemma read_enc_list l : read_list (enc_list l) = l.
Proof.
  apply dec_list_enc. induction l as [|a l IH]; [done|]. simpl. rewrite length_app_s. pose proof (enc_length a). lia.
Qed.

Definition snap (at_ : Time) : runSnapshot :=
  {| sn_RunAt := at_; sn_Window := "24h"; sn_Gateway := "http://gw"; sn_Status := "alerts"; sn_AlertCount := 1; sn_WarningCount := 0;
     sn_AlertsJSON := enc_list ["bypass"]; sn_WarningsJSON := enc_list []; sn_ChainValid := true; sn_PolicyDenies := 0;
     sn_PolicyNoMatch := 0; sn_MutationsTotal := 2; sn_MutationsDestructive := 0; sn_PendingApprovals := 0; sn_StaleApprovals := 0;
     sn_DecisionsByResource := ""; sn_InvocationsByResource := "" |}.
End GovbotToy.

Import GovbotToy.

(** A trace without a decision, a chain that is not valid and a write without a check. *)
Example alerts_raised :
  findings (report "24h" (answers (always [invoked "write"; decision "tr_2" "allow" "dba" "read"; execution "tr_1" "read"])))
  = Some (2%Z,
      ["1 trace(s) contain tool executions with no policy decision — agent(s) may be bypassing enforcement: tr_1";
       "database/prod write: 1 of 1 invocations had no policy check (0% coverage)"], []).
Proof. vm_compute. reflexivity. Qed.

(** An execution without a trace is in no count, so a report with one is healthy. *)
Example untraced_execution_unseen :
  status (report "24h" (answers (always (execution "" "destructive" :: clean)))) = "healthy".
Proof. vm_compute. reflexivity. Qed.

(** A check of one call hides another call of the same kind that had none. *)
Example repeated_check_hides_gap :
  status (report "24h" (answers (always (invoked "write" :: decision "tr_1" "allow" "dba" "write" :: clean)))) = "healthy" /\
  findings (report "24h" (answers (always (invoked "write" :: clean))))
  = Some (2%Z, ["database/prod write: 1 of 2 invocations had no policy check (50% coverage)"], []).
Proof. vm_compute. split; reflexivity. Qed.

(** Without events nothing is said of the policies, and a window that lies in the future has none. *)
Example nothing_seen_is_healthy :
  parseLookback "-24h" = Ok (- 24 * Hours)%Z /\
  status (report "-24h" (answers (fun since _ => if (48 * Hours <? since)%Z then Ok [] else Ok [execution "tr_1" "write"]))) = "healthy".
Proof. vm_compute. split; reflexivity. Qed.

(** Up to eight mutations, any hour with one is a spike: it is three times the mean of an hour. *)
Lemma few_mutations_spike total peakCount : (5 <= total <= 8)%Z -> (1 <= peakCount <= total)%Z -> is_spike peakCount total = true.
Proof.
  intros Ht Hp. assert (Hall : forallb (fun t => forallb (fun p => is_spike p t) (seqZ 1 8)) (seqZ 5 4) = true) by (vm_compute; reflexivity).
  rewrite forallb_forall in Hall. specialize (Hall total ltac:(apply list_elem_of_In, elem_of_seqZ; lia)).
  rewrite forallb_forall in Hall. apply Hall, list_elem_of_In, elem_of_seqZ. lia.
Qed.

Example lookbacks :
  map parseLookback ["24h"; "7d"; "2w"; "0d"; "1.5d"]
  = [Ok (24 * Hours)%Z; Ok (168 * Hours)%Z; Ok (336 * Hours)%Z; 
     Err ("invalid duration " ++ quote "0d" ++ ": days must be a positive integer");
     Err ("invalid duration " ++ quote "1.5d" ++ ": days must be a positive integer")].
Proof. vm_compute. reflexivity. Qed.

Lemma healthy_report_sound_witness :
  exists code f snap i, report "24h" (answers (always clean)) = Reported code f snap i /\ sn_Status snap = "healthy" /\ code = 0%Z /\
    forall e, In e clean -> EventType e = EventTypeToolExecution -> TraceID e <> "" ->
      exists d, In d clean /\ EventType d = EventTypePolicyDecision /\ TraceID d = TraceID e.
Proof.
  assert (Hs : status (report "24h" (answers (always clean))) = "healthy") by (vm_compute; reflexivity).
  destruct (report "24h" (answers (always clean))) as [c m|code f snap i] eqn:E; [discriminate Hs|]. simpl in Hs.
  destruct (healthy_report_sound json (fun _ => "") (fun _ => "") _ _ _ _ _ _ _ _ _ _ E Hs)
    as (since & events & pending & st & _ & He & _ & _ & Hc & _ & _ & _ & _ & _ & Hx & _).
  injection He as <-. exists code, f, snap, i. split_and!; [done|done|done|exact Hx].
Defined.

Lemma bypass_in_log_reported_witness :
  exists f snap traces,
    report "24h" (answers (auditd_events (fun _ => Some (execution "tr_9" "write")) (fun l => l)
      (store_of (ev EventTypeToolExecution "tr_9" "write" (47 * Hours) None)))) = Reported 2 f snap info /\
    In (bypass_message traces) (alerts f) /\ In "tr_9" traces.
Proof.
  set (e := execution "tr_9" "write"). set (s := store_of (ev EventTypeToolExecution "tr_9" "write" (47 * Hours)%Z None)).
  apply (bypass_in_log_reported (fun _ => Some e) (fun l => l) (fun l => Permutation_refl l) json (fun _ => "") (fun _ => "")
    s (48 * Hours)%Z (48 * Hours)%Z (24 * Hours)%Z (fun _ => 48 * Hours)%Z "24h" "http://gw" _ info (List.hd (row_of (fun _ => "") (fun _ => "")
      (fun _ => "") e "") (rows s)) e).
  - vm_compute. reflexivity.
  - reflexivity.
  - reflexivity.
  - reflexivity.
  - split; [by apply Z.leb_le|by apply Z.ltb_lt].
  - done.
  - by apply Z.leb_le.
  - done.
  - by left.
  - vm_compute. reflexivity.
  - reflexivity.
  - reflexivity.
  - done.
  - intros r' e' _ _ [= <-] _. done.
Defined.

Lemma history_read_back_witness :
  exists t' rest, remote_save enc_list read_list None None (snap (2 * Hours + 5)) 1
      (remote_save enc_list read_list None None (snap Hours) 1 {| gb_next := 1; gb_rows := [] |}).1 = (t', Ok ()) /\
    remote_recent enc_list read_list "http://gw" "24h" 31 t' = Ok (whole_snapshot (snap (2 * Hours + 5)) :: rest) /\
    length (gb_rows t') = 1.
Proof.
  set (t := (remote_save enc_list read_list None None (snap Hours) 1 {| gb_next := 1; gb_rows := [] |}).1).
  assert (Hold : forallb (fun y => text_lt (gb_run_at y) (RFC3339 (2 * Hours + 5))) (gb_rows t) = true) by (vm_compute; reflexivity).
  rewrite forallb_forall in Hold.
  destruct (remote_save enc_list read_list None None (snap (2 * Hours + 5)) 1 t) as [t' [u|e]] eqn:E; [|discriminate E].
  destruct u. destruct (history_read_back enc_list read_list read_enc_list (snap (2 * Hours + 5)) t t' 1 31 ["bypass"] [])
    as (rest & H); try done; [intros y Hy _; exact (Hold y Hy)|].
  exists t', rest. split; [done|]. split; [exact H|].
  rewrite <- (f_equal (fun p => length (gb_rows p.1)) E : _ = length (gb_rows t')). vm_compute. reflexivity.
Defined.
