(* ===== verification/FleetReview.v ===== *)
(** * cmd/gateway/review.go: a job definition against the registry and the inventory

    [handleFleetReview]: the tools of the steps, the snapshots against the live registry,
    the restricted and the new servers.  What it finds is related to the planner that makes
    such jobs (Planner) and to the check that the runner makes before it executes one
    (Fleet).  The snapshots are in the order of the range over their map; the inventory is
    the list of the servers, as in Planner, once for each of the three ranges over it. *)

From S2P Require Import Prelude GoTime TimeText GoFormat Events Action Infra GovernanceCheck Fleet ToolRegistry Gateway Planner.
From S2P Require Govbot.

Open Scope string_scope.

Record FleetReviewIssue := { is_Severity : string; is_Code : string; is_Message : string }.

Record FleetReviewResponse := {
  rv_OK : bool;
  Issues : list FleetReviewIssue;
  SnapshotAge : string;
  NewServers : list string }.

Inductive ReviewReply :=
  | ReviewError (status : Z) (message : string)
  | Reviewed (resp : FleetReviewResponse).

Definition issue (severity code message : string) : FleetReviewIssue :=
  {| is_Severity := severity; is_Code := code; is_Message := message |}.

(** ** The four checks *)

Definition unknown_tools (reg : Registry) (steps : list Step) : list FleetReviewIssue :=
  flat_map (fun step =>
      match Get_tool (st_Tool step) reg with
      | Some _ => []
      | None => [issue "error" "unknown_tool" ("tool " ++ quote (st_Tool step) ++ " not found in registry")]
      end) steps.

(** [liveMap\[e.Name\]] over the list of the registry: the last entry of a name. *)
Definition live_tool (reg : Registry) : gmap string (string * string) :=
  fold_left (fun m e => <[en_Name e := (en_SchemaFingerprint e, en_AgentVersion e)]> m) (tools reg) ∅.

Definition drift_message (toolName : string) (snap : ToolSnapshot) (fingerprint version : string) : string :=
  "tool " ++ quote toolName ++ " schema changed: planned fingerprint=" ++ ts_SchemaFingerprint snap ++ ", current=" ++
  fingerprint ++ " (planned version=" ++ ts_AgentVersion snap ++ ", current=" ++ version ++ ", captured=" ++
  RFC3339 (ts_CapturedAt snap) ++ ")".

Definition snapshot_issues (reg : Registry) (kv : string * ToolSnapshot) : list FleetReviewIssue :=
  let '(toolName, snap) := kv in
  match live_tool reg !! toolName with
  | None =>
      [issue "warning" "tool_removed"
         ("tool " ++ quote toolName ++ " was present at plan time but is no longer in the registry")]
  | Some (fingerprint, version) =>
      if negb (ts_SchemaFingerprint snap =?s "") && negb (fingerprint =?s "") &&
         negb (ts_SchemaFingerprint snap =?s fingerprint)
      then [issue "error" "schema_drift" (drift_message toolName snap fingerprint version)]
      else if negb (ts_AgentVersion snap =?s "") && negb (version =?s "") && negb (ts_AgentVersion snap =?s version)
      then [issue "warning" "version_changed"
              ("tool " ++ quote toolName ++ " agent version changed: planned=" ++ ts_AgentVersion snap ++ ", current=" ++
               version ++ " (fingerprint unchanged)")]
      else []
  end.

Definition drift_issues (reg : Registry) (snapshots : list (string * ToolSnapshot)) : list FleetReviewIssue :=
  match snapshots with
  | [] => [issue "warning" "no_snapshots"
             "job_def has no tool_snapshots; schema drift cannot be checked (run --refresh-snapshots or replan)"]
  | _ => flat_map (snapshot_issues reg) snapshots
  end.

(** The servers, in the order of each of the three ranges; without an inventory neither of
    the last two checks is made. *)
Abbreviation Inventory := (list (string * DBServer)).

Definition restricted_issues (context targets : Inventory) (def : JobDef) : list FleetReviewIssue :=
  let restricted := snd (buildPlannerInfraContext context) in
  flat_map (fun server =>
      if mem server restricted
      then [issue "warning" "restricted_server"
              ("job targets restricted server " ++ quote server ++ " (sensitivity data); review carefully")]
      else []) (resolveTargetsFromInfra targets (j_Targets def)).

Definition new_servers (current : Inventory) (def : JobDef) : list string :=
  match PlanServers def with
  | [] => []
  | planned =>
      isort String.ltb (List.filter (fun s => negb (mem s planned)) (resolveTargetsFromInfra current (j_Targets def)))
  end.

Definition new_server_issues (servers : list string) : list FleetReviewIssue :=
  match servers with
  | [] => []
  | _ => [issue "info" "new_servers"
            (itoa (Z.of_nat (length servers)) ++ " server(s) added since plan: " ++ fmt_list servers ++
             " — they will be included in the next run")]
  end.

(** ** The answer *)

Definition earlier (oldest : Time) (snap : ToolSnapshot) : Time :=
  if IsZero oldest || Before (ts_CapturedAt snap) oldest then ts_CapturedAt snap else oldest.

Definition snapshot_age (now : Time) (snapshots : list (string * ToolSnapshot)) : string :=
  let oldest := fold_left earlier (map snd snapshots) 0%Z in
  if IsZero oldest then "" else Duration_String (Govbot.round_to_second (now - oldest)%Z).

Definition blocks (i : FleetReviewIssue) : bool := (is_Severity i =?s "error") || (is_Severity i =?s "warning").

Definition review (now : Time) (reg : Registry) (infra : option (Inventory * Inventory * Inventory)) (def : JobDef)
    : FleetReviewResponse :=
  let fresh := match infra with Some (_, _, current) => new_servers current def | None => [] end in
  let issues :=
    (unknown_tools reg (Steps def) ++ drift_issues reg (ToolSnapshots def) ++
     match infra with Some (context, targets, _) => restricted_issues context targets def | None => [] end ++
     new_server_issues fresh)%list in
  {| rv_OK := negb (existsb blocks issues); Issues := issues; SnapshotAge := snapshot_age now (ToolSnapshots def);
     NewServers := fresh |}.

Definition handleFleetReview (now : Time) (registry : option Registry)
    (infra : option (Inventory * Inventory * Inventory)) (body : result string JobDef) : ReviewReply :=
  match registry with
  | None => ReviewError 503 "fleet review requires tool registry"
  | Some reg =>
      match body with
      | Err e => ReviewError 400 ("invalid request body: " ++ e)
      | Ok def =>
          match Steps def with
          | [] => ReviewError 400 "job_def has no steps"
          | _ => Reviewed (review now reg infra def)
          end
      end
  end.

(** ** What the review says of the runner's check *)

(** The members of a registry's entry that the runner reads from /api/v1/tools. *)
Definition to_live (e : ToolRegistry.ToolEntry) : Fleet.ToolEntry :=
  {| te_Name := en_Name e; te_AgentVersion := en_AgentVersion e; te_SchemaFingerprint := en_SchemaFingerprint e |}.

Lemma fold_insert_fmap {A B} (key : A -> string) (f : A -> B) l (m : gmap string A) :
  fold_left (fun m e => <[key e := f e]> m) l (f <$> m) = f <$> fold_left (fun m e => <[key e := e]> m) l m.
Proof. revert m. induction l as [|e l IH]; intros m; [done|]. cbn [fold_left]. by rewrite <- IH, fmap_insert. Qed.

Lemma live_tool_index reg : live_tool reg =
  (fun t => (te_SchemaFingerprint t, te_AgentVersion t)) <$> live_index (map to_live (tools reg)).
Proof.
  unfold live_index. rewrite <- fold_insert_fmap, fmap_empty. unfold live_tool. generalize (∅ : gmap string (string * string)).
  induction (tools reg) as [|e l IH]; intros m; [done|]. cbn [map fold_left]. by rewrite IH.
Qed.

Lemma live_tool_Get reg name : reg = New (tools reg) ->
  live_tool reg !! name = (fun e => (en_SchemaFingerprint e, en_AgentVersion e)) <$> Get_tool name reg.
Proof.
  intros ->. unfold live_tool, Get_tool. cbn [tools New byName].
  pose proof (fold_insert_fmap en_Name (fun e => (en_SchemaFingerprint e, en_AgentVersion e)) (tools reg) ∅) as H.
  rewrite fmap_empty in H. rewrite H. apply lookup_fmap.
Qed.

(** What the review reports of a snapshot, by what the runner looks at. *)
Lemma snapshot_issues_cases reg name snap :
  match live_index (map to_live (tools reg)) !! name with
  | None => map is_Code (snapshot_issues reg (name, snap)) = ["tool_removed"]
  | Some t =>
      map is_Code (snapshot_issues reg (name, snap)) =
        if differs (ts_SchemaFingerprint snap) (te_SchemaFingerprint t) then ["schema_drift"]
        else if differs (ts_AgentVersion snap) (te_AgentVersion t) then ["version_changed"] else []
  end.
Proof.
  unfold snapshot_issues. rewrite live_tool_index, lookup_fmap.
  destruct (live_index _ !! name) as [t|]; [|done]. simpl. unfold differs.
  destruct (_ && _ && _); [done|]. by destruct (_ && _ && _).
Qed.

Definition stops_runner (i : FleetReviewIssue) : bool := mem (is_Code i) ["no_snapshots"; "tool_removed"; "schema_drift"].

Lemma snapshot_stops reg e : existsb stops_runner (snapshot_issues reg e) = false <->
  ~ drifted (live_index (map to_live (tools reg))) e.
Proof.
  destruct e as [name snap]. pose proof (snapshot_issues_cases reg name snap) as H. unfold drifted. cbn [fst snd].
  assert (E : existsb stops_runner (snapshot_issues reg (name, snap)) =
    existsb (fun c => mem c ["no_snapshots"; "tool_removed"; "schema_drift"]) (map is_Code (snapshot_issues reg (name, snap)))).
  { clear H. generalize (snapshot_issues reg (name, snap)). intros l.
    by induction l as [|i l IH]; [|cbn [map existsb]; rewrite <- IH]. }
  rewrite E. destruct (live_index _ !! name) as [t|]; rewrite H; [|simpl; intuition congruence].
  rewrite <- differs_spec. destruct (differs _ _); [simpl; intuition congruence|].
  by destruct (differs _ _); simpl; intuition congruence.
Qed.

Lemma existsb_flat_map {A B} (p : B -> bool) (f : A -> list B) l :
  existsb p (flat_map f l) = false <-> forall x, In x l -> existsb p (f x) = false.
Proof.
  induction l as [|a l IH]; [simpl; intuition|]. cbn [flat_map]. rewrite existsb_app, orb_false_iff, IH.
  split; [intros [H1 H2] x [<-|Hx]; auto|intros H; split; intros; apply H; simpl; auto].
Qed.

(** The tools the runner has something to say about under a policy that lets it go on. *)
Lemma drift_loop_tools policy reg snaps res : policy <> "abort" ->
  map dr_Tool (drift_loop policy (live_index (map to_live (tools reg))) snaps res).1 =
    (map dr_Tool res ++ map fst (List.filter (fun e => match snapshot_issues reg e with [] => false | _ => true end) snaps))%list.
Proof.
  intros Hp. apply streq_false in Hp. revert res. induction snaps as [|[name snap] snaps IH]; intros res; cbn [drift_loop].
  - by rewrite app_nil_r.
  - pose proof (snapshot_issues_cases reg name snap) as H. rewrite Hp. cbn [List.filter].
    destruct (live_index _ !! name) as [t|].
    + destruct (differs (ts_SchemaFingerprint snap) _), (differs (ts_AgentVersion snap) _); cbn [negb andb];
        revert H; destruct (snapshot_issues reg (name, snap)); intros H; try done;
        rewrite IH, ?map_app; cbn [map fst dr_Tool]; by rewrite <- ?app_assoc.
    + revert H. destruct (snapshot_issues reg (name, snap)); [done|]. intros _.
      rewrite IH, map_app. cbn [map fst dr_Tool]. by rewrite <- app_assoc.
Qed.

(**  The review and the runner agree about schema drift.  On the tools
    of the gateway's registry, the runner's check under the policy abort fails exactly if
    the review of the same job reports missing snapshots, a removed tool or a changed
    schema; under a policy that goes on, the runner reports exactly the tools that the
    review has an issue with. *)
Theorem review_agrees_with_runner reg snaps :
  ((CheckSchemaDrift snaps (map to_live (tools reg)) "abort").2 = None <->
     existsb stops_runner (drift_issues reg snaps) = false) /\
  (forall policy, policy <> "ignore" -> policy <> "abort" ->
     map dr_Tool (CheckSchemaDrift snaps (map to_live (tools reg)) policy).1 =
       map fst (List.filter (fun e => match snapshot_issues reg e with [] => false | _ => true end) snaps)).
Proof.
  unfold CheckSchemaDrift, drift_issues. split.
  - change ("abort" =?s "ignore") with false. cbv iota. destruct snaps as [|e snaps]; [done|].
    rewrite drift_loop_abort, existsb_flat_map. by split; intros H x Hx; apply snapshot_stops, H.
  - intros policy Hi Ha. rewrite (proj2 (streq_false _ _) Hi).
    destruct snaps as [|e snaps]; [by rewrite (proj2 (streq_false _ _) Ha)|]. by rewrite drift_loop_tools.
Qed.

(** ** What an accepted job is *)

Lemma existsb_nil {A} (p : A -> bool) (l : list A) : (forall x, p x = true) -> existsb p l = false <-> l = [].
Proof.
  intros H. destruct l as [|x l]; [done|]. simpl. rewrite H. by split.
Qed.

Lemma snapshot_blocks reg e : existsb blocks (snapshot_issues reg e) = false <-> snapshot_issues reg e = [].
Proof.
  destruct e as [name snap]. unfold snapshot_issues. destruct (live_tool reg !! name) as [[f v]|]; [|done].
  destruct (_ && _ && _); [done|]. by destruct (_ && _ && _).
Qed.

Lemma new_server_blocks l : existsb blocks (new_server_issues l) = false.
Proof. by destruct l. Qed.

Lemma restricted_none context targets def : existsb blocks (restricted_issues context targets def) = false <->
  forall s, In s (resolveTargetsFromInfra targets (j_Targets def)) ->
    forall db, In (s, db) context -> db_Sensitivity db = [].
Proof.
  unfold restricted_issues. rewrite existsb_flat_map. split.
  - intros H s Hs db Hin. specialize (H s Hs). destruct (mem s _) eqn:Em; [done|]. apply mem_false in Em.
    rewrite restricted_spec in Em. destruct (db_Sensitivity db) eqn:E; [done|]. exfalso. apply Em.
    exists db. by rewrite E.
  - intros H s Hs. destruct (mem s _) eqn:Em; [|done]. apply mem_spec, restricted_spec in Em as (db & Hin & Hne).
    by apply H in Hin.
Qed.

(** The tool of a snapshot is live and nothing that both sides know of it has changed. *)
Definition unchanged (reg : Registry) (e : string * ToolSnapshot) : Prop :=
  exists fingerprint version, live_tool reg !! e.1 = Some (fingerprint, version) /\
    differs (ts_SchemaFingerprint e.2) fingerprint = false /\ differs (ts_AgentVersion e.2) version = false.

Lemma snapshot_quiet reg e : snapshot_issues reg e = [] <-> unchanged reg e.
Proof.
  destruct e as [name snap]. unfold snapshot_issues, unchanged. cbn [fst snd].
  destruct (live_tool reg !! name) as [[f v]|]; [|split; [done|by intros (? & ? & ? & _)]].
  change (_ && _ && _) with (differs (ts_SchemaFingerprint snap) f) at 1.
  change (_ && _ && _) with (differs (ts_AgentVersion snap) v) at 1.
  destruct (differs (ts_SchemaFingerprint snap) f) eqn:E1.
  - split; [done|]. intros (? & ? & [= <- <-] & H & _). congruence.
  - destruct (differs (ts_AgentVersion snap) v) eqn:E2; (split; [intros H|]); try done; [|by exists f, v].
    intros (? & ? & [= <- <-] & _ & H). congruence.
Qed.

(**  A review is positive exactly if every tool of the steps is in the
    registry, there are snapshots and none of their tools is gone or changed, and no server
    that the gateway resolves the targets to is restricted.  New servers never speak
    against a job. *)
Theorem review_ok_iff now reg infra def :
  rv_OK (review now reg infra def) = true <->
  (forall s, In s (Steps def) -> exists e, Get_tool (st_Tool s) reg = Some e) /\
  ToolSnapshots def <> [] /\ (forall e, In e (ToolSnapshots def) -> unchanged reg e) /\
  match infra with
  | None => True
  | Some (context, targets, _) =>
      forall s, In s (resolveTargetsFromInfra targets (j_Targets def)) ->
        forall db, In (s, db) context -> db_Sensitivity db = []
  end.
Proof.
  unfold review. cbn [rv_OK]. rewrite negb_true_iff, !existsb_app, !orb_false_iff, new_server_blocks.
  assert (H1 : existsb blocks (unknown_tools reg (Steps def)) = false <->
               forall s, In s (Steps def) -> exists e, Get_tool (st_Tool s) reg = Some e).
  { unfold unknown_tools. rewrite existsb_flat_map. split; intros H s Hs; specialize (H s Hs).
    - destruct (Get_tool _ _); [eauto|done].
    - by destruct H as [e ->]. }
  assert (H2 : existsb blocks (drift_issues reg (ToolSnapshots def)) = false <->
               ToolSnapshots def <> [] /\ forall e, In e (ToolSnapshots def) -> unchanged reg e).
  { unfold drift_issues. destruct (ToolSnapshots def) as [|e l]; [split; [done|by intros []]|].
    rewrite existsb_flat_map. split.
    - intros H. split; [done|]. intros x Hx. by apply snapshot_quiet, snapshot_blocks, H.
    - intros [_ H] x Hx. by apply snapshot_blocks, snapshot_quiet, H. }
  rewrite H1, H2. destruct infra as [[[context targets] current]|]; [rewrite restricted_none|]; simpl; tauto.
Qed.

(** ** A plan under review *)

Lemma snapshots_taken reg now steps e : reg = New (tools reg) -> In e (tool_snapshots reg now steps) -> unchanged reg e.
Proof.
  intros Hreg. unfold tool_snapshots. intros Hin. apply list_elem_of_In, list_elem_of_omap in Hin as (name & _ & H).
  destruct (Get_tool name reg) as [t|] eqn:E; [|done]. injection H as <-. unfold unchanged. cbn [fst snd].
  exists (en_SchemaFingerprint t), (en_AgentVersion t). rewrite live_tool_Get, E by done. split; [done|].
  unfold differs. by rewrite !streq_refl, !andb_false_r.
Qed.

Lemma snapshots_nonempty reg now steps : steps <> [] ->
  (forall s, In s steps -> exists e, Get_tool (st_Tool s) reg = Some e) -> tool_snapshots reg now steps <> [].
Proof.
  intros Hne H. destruct steps as [|s steps]; [done|]. destruct (H s) as [e He]; [by left|].
  unfold tool_snapshots, toolNamesFromSteps. cbn [names_from mem existsb omap list_omap]. by rewrite He.
Qed.

Lemma target_selected_perm first second targets : first ≡ₚ second ->
  resolveTargetsFromInfra first targets ≡ₚ resolveTargetsFromInfra second targets.
Proof. intros H. unfold resolveTargetsFromInfra. by rewrite (filter_perm _ _ _ H). Qed.

(**  A job that the planner has just made passes the review: as long as
    registry and inventory are what they were, whatever order they are ranged over in, the
    review of a planned job that has steps is positive and finds no new server. *)
Theorem planned_job_passes_review g fr start now now' elapsed first second llm unmarshal_plan marshal_job r body effs resp reg
    context targets current
    (Hplan : handleFleetPlan g fr start now elapsed (Some (first, second)) llm unmarshal_plan marshal_job r body =
       (effs, Planned resp))
    (Hreg : g_toolRegistry g = Some reg) (Hnew : reg = New (tools reg)) (Hsteps : Steps (fp_JobDef resp) <> [])
    (H1 : first ≡ₚ second) (H2 : context ≡ₚ second) (H3 : targets ≡ₚ second) (H4 : current ≡ₚ second) :
  exists rv, handleFleetReview now' (Some reg) (Some (context, targets, current)) (Ok (fp_JobDef resp)) = Reviewed rv /\
    rv_OK rv = true /\ NewServers rv = [].
Proof.
  unfold handleFleetPlan in Hplan. destruct body as [req|e]; [|done]. destruct (_ =?s ""); [done|].
  destruct llm as [llm|]; [|done]. rewrite Hreg in Hplan. destruct (llm _) as [raw|e]; [|done].
  destruct (unmarshal_plan _) as [answer|e]; [|done]. revert Hplan. unfold checked_plan. set (steps := filterStepsByName _ _).
  destruct (unknown_step reg steps) as [?|] eqn:Eu; [done|]. destruct (invalid_step reg steps) as [?|]; [done|].
  destruct (unknown_tags second _) as [|? ?]; [|done]. destruct (find _ _) as [?|] eqn:Ef; [done|].
  intros [= <- <-]. cbn [fp_JobDef] in *. set (job := planned_job _ _ _ _ _ _) in *.
  unfold handleFleetReview. destruct (Steps job) as [|s0 l0] eqn:Es; [done|]. eexists. split; [reflexivity|]. split.
  - apply review_ok_iff. assert (Hk : forall s, In s (Steps job) -> exists e, Get_tool (st_Tool s) reg = Some e).
    { intros s Hs. exact (unknown_step_none _ _ Eu s Hs). }
    split_and!; [exact Hk| |intros e He; exact (snapshots_taken reg now steps e Hnew He)|].
    + apply snapshots_nonempty; [|exact Hk]. change steps with (Steps job). by rewrite Es.
    + intros s Hs db Hin. apply (Permutation_in _ (target_selected_perm _ _ _ H3)) in Hs.
      pose proof (List.find_none _ _ Ef s Hs) as Hr. apply mem_false in Hr. rewrite restricted_spec in Hr.
      destruct (db_Sensitivity db) eqn:E; [done|]. exfalso. apply Hr. exists db. rewrite E. split; [|done].
      by apply (Permutation_in _ (Permutation_sym H1)), (Permutation_in _ H2).
  - cbn [review NewServers]. unfold new_servers. destruct (PlanServers job) as [|p ps] eqn:Ep; [done|]. rewrite <- Ep.
    destruct (List.filter _ _) as [|x l] eqn:E; [done|]. exfalso. assert (Hx : In x (x :: l)) by by left.
    rewrite <- E in Hx. apply filter_In in Hx as [Hin Hx]. apply negb_true_iff, mem_false in Hx. apply Hx.
    cbn [PlanServers job planned_job]. apply isort_In. exact (Permutation_in _ (target_selected_perm _ _ _ H4) Hin).
Qed.

(** ** Jobs under review *)

Module ReviewToy.
Definition vacuum (version fingerprint : string) : ToolRegistry.ToolEntry :=
  {| en_Name := "run_vacuum"; en_Agent := "database"; en_Description := ""; en_InputSchema := None;
     en_ActionClass := ActionWrite; FleetEligible := true; AutoRemediationEligible := false; Capabilities := [];
     Supersedes := []; en_AgentVersion := version; en_SchemaFingerprint := fingerprint |}.

Definition snapshot : ToolSnapshot := {| ts_AgentVersion := "1.0"; ts_SchemaFingerprint := "aa"; ts_CapturedAt := Minute |}.

Definition job (targets : Targets) : JobDef := with_snapshots [("run_vacuum", snapshot)] (PlannerToy.job "run_vacuum" targets).

Definition codes (reg : Registry) (targets : Targets) : list string * bool :=
  let rv := review (2 * Minute) reg (Some (PlannerToy.servers, PlannerToy.servers, PlannerToy.servers)) (job targets) in
  (map is_Code (Issues rv), rv_OK rv).

Example new_schema_reported :
  codes (New [vacuum "1.1" "bb"]) PlannerToy.only_dev = (["schema_drift"], false) /\
  codes (New [vacuum "1.1" "aa"]) PlannerToy.only_dev = (["version_changed"], false) /\
  codes (New [vacuum "1.0" "aa"]) PlannerToy.only_dev = ([], true).
Proof. vm_compute. repeat split. Qed.

(** With names and tags the review looks at the named servers only; the runner adds the
    servers with the tags, here a restricted one. *)
Example restricted_server_not_reviewed :
  codes (New [vacuum "1.0" "aa"]) PlannerToy.names_and_tags = ([], true) /\
  resolveTargets (Some (inventory PlannerToy.servers)) (inventory PlannerToy.servers) PlannerToy.names_and_tags = Ok ["a"; "b"].
Proof. vm_compute. repeat split. Qed.

(** A job without snapshots, which the runner accepts unless its policy is abort, fails. *)
Example unsnapshot_job_fails :
  map is_Code (Issues (review Minute (New [vacuum "1.0" "aa"]) None (PlannerToy.job "run_vacuum" PlannerToy.only_dev))) =
    ["no_snapshots"].
Proof. vm_compute. reflexivity. Qed.
End ReviewToy.

Lemma planned_job_passes_review_witness :
  exists resp rv, (PlannerToy.plan PlannerToy.only_dev).2 = Planned resp /\
    handleFleetReview Minute (Some (New [PlannerToy.hidden]))
      (Some (PlannerToy.servers, PlannerToy.servers, PlannerToy.servers)) (Ok (fp_JobDef resp)) = Reviewed rv /\
    rv_OK rv = true /\ NewServers rv = [].
Proof.
  assert (Hlen : match (PlannerToy.plan PlannerToy.only_dev).2 with
                 | Planned resp => length (Steps (fp_JobDef resp)) | PlanError _ _ => 0 end = 1) by (vm_compute; reflexivity).
  destruct (PlannerToy.plan PlannerToy.only_dev) as [effs [c m|resp]] eqn:E; [discriminate Hlen|].
  exists resp. cbn [snd] in Hlen.
  destruct (planned_job_passes_review PlannerToy.gateway GatewayToy.fresh GatewayToy.start GatewayToy.start Minute 1
    PlannerToy.servers PlannerToy.servers (Some (fun _ => Ok "x")) _ (fun _ => "") (GatewayToy.request None) _ effs resp
    (New [PlannerToy.hidden]) PlannerToy.servers PlannerToy.servers PlannerToy.servers E eq_refl eq_refl
    ltac:(intros H; rewrite H in Hlen; discriminate Hlen) (Permutation_refl _) (Permutation_refl _) (Permutation_refl _)
    (Permutation_refl _)) as (rv & H). by exists rv.
Defined.

Lemma review_ok_iff_witness :
  rv_OK (review Minute (New [ReviewToy.vacuum "1.0" "aa"]) None (ReviewToy.job PlannerToy.only_dev)) = true.
Proof.
  apply review_ok_iff. split_and!.
  - intros s [<-|[]]. by exists (ReviewToy.vacuum "1.0" "aa").
  - discriminate.
  - intros e [<-|[]]. exists "aa", "1.0". split_and!; vm_compute; reflexivity.
  - exact I.
Defined.

Lemma review_agrees_with_runner_witness :
  map dr_Tool (CheckSchemaDrift [("run_vacuum", ReviewToy.snapshot)]
                 (map to_live (tools (New [ReviewToy.vacuum "1.1" "bb"]))) "warn").1 = ["run_vacuum"].
Proof.
  rewrite (proj2 (review_agrees_with_runner (New [ReviewToy.vacuum "1.1" "bb"]) [("run_vacuum", ReviewToy.snapshot)]) "warn"
    ltac:(discriminate) ltac:(discriminate)). vm_compute. reflexivity.
Defined.
