(* ===== verification/Govexplain.v ===== *)
(** * cmd/govexplain/main.go: the policy explainer

    The command line client of the explanation endpoint, with [LoadFile] of the policy
    loader and [Load] of internal/infra: a hypothetical check evaluated in the process or
    asked of auditd or the gateway, one recorded event, a list of decisions.  A run is what
    it prints and its exit code.  The flags are values; a request carries the map of its
    query parameters ([url.Values]) and a path segment before escaping, and [get] answers
    it.  The alignment of the table (text/tabwriter) is left out: a row is its cells.  The
    JSON decoder and printer, os.ReadFile, os.ExpandEnv, the YAML decoder and the local
    time zone are parameters. *)

From S2P Require Import Prelude GoTime TimeText GoFormat Identity Authz Events AuditChain PolicyTypes PolicyEngine PolicyExplain.
From S2P Require Import PolicyLoader AuthzTables Enforcer GovernanceCheck AuditQuery PlaybookText Action AgentStart Delegation Decisions GitWebhook.

Open Scope string_scope.

(** ** The command line *)

Record Flags := {
  gateway : string; auditd : string; policyFile : string; fl_infraConfig : string;
  event : string; resource : string; action : string; tags : string; userID : string; role : string;
  purpose : string; sensitivity : string; apiKey : string; asJSON : bool;
  list_mode : bool; since : string; session : string; trace : string; tracePrefix : string;
  effect : string; limit : Z; table : bool }.

Definition envOrDefault (env : string -> string) (key def : string) : string :=
  if env key =?s "" then def else env key.

Inductive Printed := Line (s : string) | Row (cells : list string).

Record Exit := { stdout : list Printed; stderr : list string; code : Z }.

Definition failed (msg : string) : Exit := {| stdout := []; stderr := [msg]; code := 3 |}.
Definition printed (l : list Printed) (c : Z) : Exit := {| stdout := l; stderr := []; code := c |}.

Definition usage : list string :=
  ["Usage:";
   "  Hypothetical (via gateway):  govexplain --resource TYPE:NAME --action ACTION [--tags TAG,…]";
   "  Hypothetical (direct):       govexplain --auditd http://localhost:1199 --resource TYPE:NAME --action ACTION";
   "  Hypothetical (local):        govexplain --policy-file policies.yaml --resource TYPE:NAME --action ACTION";
   "  Retrospective (via gateway): govexplain --event EVENT_ID";
   "  Retrospective (direct):      govexplain --auditd http://localhost:1199 --event EVENT_ID";
   "  List (direct):               govexplain --auditd http://localhost:1199 --list [--since 1h] [--effect deny]";
   "  List (via gateway):          govexplain --list [--since 1h] [--session ID] [--limit 50]";
   "  List by trace prefix:        govexplain --auditd http://localhost:1199 --list --trace-prefix chk_";
   "";
   "Authentication:";
   "  --api-key KEY   Bearer token for gateway/auditd (or set HELPDESK_CLIENT_API_KEY)"].

Definition misused : Exit := {| stdout := []; stderr := usage; code := 3 |}.
Definition bad_resource : Exit := failed "error: --resource must be TYPE:NAME (e.g. database:prod-db)".

Definition effectToCode (effect : string) : Z :=
  if effect =?s "allow" then 0
  else if effect =?s "deny" then 1
  else if effect =?s "require_approval" then 2
  else 3.

(** ** Requests *)

(** The address is [hg_base] and [hg_path], with [hg_segment] escaped after it. *)
Record HttpGet := {
  hg_base : string; hg_path : string; hg_segment : string; hg_query : gmap string string;
  hg_auth : option string }.
Record HttpReply := { hr_StatusCode : Z; hr_Body : result string string }.

(** [q.Set], under a guard that the value is there. *)
Definition set_given (k v : string) (q : gmap string string) : gmap string string :=
  if v =?s "" then q else <[k := v]> q.

(** How a server reads them. *)
Definition params (q : gmap string string) : Params := fun k => default "" (q !! k).

Definition hypothetical_query (resourceType resourceName action tags userID role purpose sensitivity : string)
    : gmap string string :=
  set_given "sensitivity" sensitivity (set_given "purpose" purpose (set_given "role" role (set_given "user_id" userID
    (set_given "tags" tags
      (<["action" := action]> (<["resource_name" := resourceName]> (<["resource_type" := resourceType]> ∅))))))).

Definition list_query (session trace tracePrefix : string) (since : option Time) : gmap string string :=
  let q := set_given "trace_id_prefix" tracePrefix (set_given "trace_id" trace (set_given "session_id" session
             (<["event_type" := "policy_decision"]> ∅))) in
  match since with Some t => <["since" := RFC3339 t]> q | None => q end.

(** ** What is read from an answer *)

Definition text_of (v : any) : string := default "" (decode_text "" v).
Definition nonempty_text (v : any) : option string :=
  s ← decode_text "" v; if s =?s "" then None else Some s.
Definition text_member (k : string) (m : anymap) : string :=
  match raw_member k m with Some v => text_of v | None => "" end.
Definition object_member (k : string) (m : anymap) : option anymap := raw_member k m ≫= raw_object.

Definition effect_under (k : string) (m : anymap) : option string :=
  d ← object_member k m; text_of <$> raw_member "effect" d.

Definition extractEffect (m : anymap) : string :=
  match effect_under "decision" m with
  | Some s => s
  | None => default "" (effect_under "policy_decision" m)
  end.

Definition exit_of_value (v : option any) : Z :=
  match v ≫= raw_object with Some wrapper => effectToCode (extractEffect wrapper) | None => 3 end.

Definition explanation_of (m : anymap) : option string := raw_member "explanation" m ≫= nonempty_text.

Record parsedEvent := { raw : anymap; effStr : string }.

(** The loop over the events: it stops at [limit] and drops what is not an object or has
    another effect. *)
Fixpoint filtered (limit : Z) (effectFilter : string) (events : list any) : list parsedEvent :=
  match events with
  | [] => []
  | v :: rest =>
      if (limit <=? 0)%Z then []
      else
        match raw_object v with
        | None => filtered limit effectFilter rest
        | Some ev =>
            let eff := extractEffect ev in
            if negb (effectFilter =?s "") && negb (eff =?s effectFilter) then filtered limit effectFilter rest
            else {| raw := ev; effStr := eff |} :: filtered (limit - 1) effectFilter rest
        end
  end.

Definition worst (result : Z) (e : parsedEvent) : Z :=
  let c := effectToCode (effStr e) in
  if (c =? 1)%Z || (negb (result =? 1)%Z && (c =? 2)%Z) then c else result.

Definition worst_code (l : list parsedEvent) : Z := fold_left worst l 0%Z.

Definition separator : string := Nat.iter 60 (append "─") "".

(** "01-02 15:04:05" *)
Definition short_text (t : Time) : string :=
  let '(_, m, d) := civil (t / Day) in
  padded 2 m ++ "-" ++ padded 2 d ++ " " ++
  padded 2 (Hour t) ++ ":" ++ padded 2 (t / Minute mod 60) ++ ":" ++ padded 2 (t / Second mod 60).

(** ** [parseSince] *)

Definition units_ago (now : Time) (s unit : string) (d : Z) : option Time :=
  if has_suffix s unit then
    match atoi (trim_suffix s unit) with
    | Some n => if (0 <? n)%Z then Some (now + wrap64 (- n * d))%Z else None
    | None => None
    end
  else None.

Definition since_error (s : string) : string :=
  "expected duration (e.g. 1h, 30m, 7d, 2w) or RFC3339 timestamp, got " ++ quote s.

Definition parseSince (now : Time) (s : string) : result string Time :=
  match units_ago now s "d" (24 * Hours) with
  | Some t => Ok t
  | None =>
      match units_ago now s "w" (7 * 24 * Hours) with
      | Some t => Ok t
      | None =>
          match ParseDuration s with
          | Some d => Ok (now + wrap64 (- d))%Z
          | None => match Parse_RFC3339 s with Some t => Ok t | None => Err (since_error s) end
          end
      end
  end.

(** ** Files *)

Section Files.
Context (read_file : string -> result string string).

Section Policies.
Context (ExpandEnv : string -> string) (yaml_Unmarshal : string -> result string PolicyTypes.Config).
Context `{!SliceSort higher_priority}.

(** [LoadFile] of internal/policy/loader.go. *)
Definition LoadFile (path : string) : result string PolicyTypes.Config :=
  match read_file path with
  | Err e => Err ("read policy file: " ++ e)
  | Ok data => Load ExpandEnv yaml_Unmarshal data
  end.
End Policies.

(** [Load] of internal/infra/infra.go. *)
Context (json_infra : string -> result string InfraConfig).

Definition infra_Load (path : string) : result string InfraConfig :=
  match read_file path with
  | Err e => Err ("failed to read infrastructure config file: " ++ e)
  | Ok data =>
      match json_infra data with
      | Err e => Err ("failed to parse infrastructure config: " ++ e)
      | Ok config => Ok config
      end
  end.

(** A field of the entry of the configuration, when it has values and the flag has none. *)
Definition resolved (of_db : DBServer -> list string) (of_k8s : K8sCluster -> list string) (cfg : InfraConfig)
    (resourceType resourceName given : string) : string :=
  let fallback l := match l with [] => given | _ => join "," l end in
  if given =?s "" then
    if resourceType =?s "database" then
      match DBServers cfg !! resourceName with Some db => fallback (of_db db) | None => given end
    else if resourceType =?s "kubernetes" then
      match K8sClusters cfg !! resourceName with Some k8s => fallback (of_k8s k8s) | None => given end
    else given
  else given.

(** The two texts, and the warnings. *)
Definition resolveFromInfra (infraPath resourceType resourceName tags sensitivity : string)
    : string * string * list string :=
  if infraPath =?s "" then (tags, sensitivity, [])
  else
    match infra_Load infraPath with
    | Err e => (tags, sensitivity, ["warning: could not load infra config " ++ quote infraPath ++ ": " ++ e])
    | Ok cfg =>
        (resolved db_Tags k8s_Tags cfg resourceType resourceName tags,
         resolved db_Sensitivity k8s_Sensitivity cfg resourceType resourceName sensitivity, [])
    end.
End Files.

(** ** The modes *)

Definition warned (warnings : list string) (e : Exit) : Exit :=
  {| stdout := stdout e; stderr := (warnings ++ stderr e)%list; code := code e |}.

(** The words of a flag: unlike [words], an empty flag is split too. *)
Definition split_words (raw : string) : list string :=
  List.filter (fun t => negb (t =?s "")) (map trim_space (split_on "," raw)).

Definition local_request (resourceType resourceName action tagsStr userID role purpose sensitivityStr : string) : Request :=
  {| rq_Principal := {| rp_UserID := userID; rp_Roles := if role =?s "" then [] else [role]; rp_Service := "" |};
     rq_Resource := {| rr_Type := resourceType; rr_Name := resourceName; rr_Tags := split_words tagsStr;
                       rr_Namespace := ""; rr_Extra := []; rr_Sensitivity := split_words sensitivityStr;
                       rr_ToolName := "" |};
     rq_Action := action;
     rq_Context := {| PolicyTypes.Timestamp := {| instant := 0%Z; zone_offset := 0%Z |}; rc_TraceID := "";
                      RowsAffected := 0; PodsAffected := 0; XactAgeSecs := 0;
                      rc_Purpose := purpose; rc_PurposeNote := "" |} |}.

Section Client.
Context (parse : string -> option any) (indent : anymap -> string) (indent_trace : DecisionTrace -> string).
Context (get : HttpGet -> result string HttpReply) (local : Time -> Z) (now : Time).

(** [bearerTransport]: the header of every request, when a key is configured. *)
Definition bearer (apiKey : string) : option string := if apiKey =?s "" then None else Some ("Bearer " ++ apiKey).

(** [client.Get], [io.ReadAll] and the status: the body, or how the run ends. *)
Definition fetch (req : HttpGet) : result Exit string :=
  match get req with
  | Err e => Err (failed ("error: " ++ e))
  | Ok resp =>
      match hr_Body resp with
      | Err e => Err (failed ("error reading response: " ++ e))
      | Ok body =>
          if (hr_StatusCode resp =? 200)%Z then Ok body
          else Err (failed ("error: HTTP " ++ itoa (hr_StatusCode resp) ++ ": " ++ trim_space body))
      end
  end.

Definition exitCodeFromJSON (data : string) : Z := exit_of_value (parse data).

(** What a body is printed as; the code of a retrospective answer is read from its
    policy_decision member alone. *)
Definition explained (body : string) : Exit :=
  match parse body ≫= raw_object with
  | None => printed [Line body] 3
  | Some result =>
      match object_member "policy_decision" result ≫= explanation_of with
      | Some s => printed [Line s] (exit_of_value (raw_member "policy_decision" result))
      | None =>
          match explanation_of result with
          | Some s => printed [Line s] (exitCodeFromJSON body)
          | None => printed [Line (indent result)] (exitCodeFromJSON body)
          end
      end
  end.

Definition doExplainRequest (req : HttpGet) (asJSON : bool) : Exit :=
  match fetch req with
  | Err e => e
  | Ok body => if asJSON then printed [Line body] (exitCodeFromJSON body) else explained body
  end.

Definition request (auth : option string) (base path segment : string) (q : gmap string string) : HttpGet :=
  {| hg_base := trim_right_slashes base; hg_path := path; hg_segment := segment; hg_query := q; hg_auth := auth |}.

Definition runHypotheticalDirect (auth : option string)
    (auditdURL resourceType resourceName action tags userID role purpose sensitivity : string) (asJSON : bool) : Exit :=
  doExplainRequest (request auth auditdURL "/v1/governance/explain" ""
    (hypothetical_query resourceType resourceName action tags userID role purpose sensitivity)) asJSON.

Definition runRetrospectiveDirect (auth : option string) (auditdURL eventID : string) (asJSON : bool) : Exit :=
  doExplainRequest (request auth auditdURL "/v1/events/" eventID ∅) asJSON.

Definition runHypothetical (auth : option string)
    (gateway resourceType resourceName action tags userID role purpose sensitivity : string) (asJSON : bool) : Exit :=
  doExplainRequest (request auth gateway "/api/v1/governance/explain" ""
    (hypothetical_query resourceType resourceName action tags userID role purpose sensitivity)) asJSON.

Definition runRetrospective (auth : option string) (gateway eventID : string) (asJSON : bool) : Exit :=
  doExplainRequest (request auth gateway "/api/v1/governance/events/" eventID ∅) asJSON.

(** *** The list *)

Definition shown_time (format : Time -> string) (e : parsedEvent) : string :=
  match raw_member "timestamp" (raw e) with
  | None => ""
  | Some v => let ts := text_of v in
              match Parse_RFC3339 ts with Some t => format (t + local t)%Z | None => ts end
  end.

Definition decision_member (e : parsedEvent) : anymap := default [] (object_member "policy_decision" (raw e)).

Definition table_row (e : parsedEvent) : Printed :=
  let pd := decision_member e in
  Row [text_member "event_id" (raw e); shown_time short_text e; to_upper (effStr e); text_member "action" pd;
       text_member "resource_type" pd ++ ":" ++ text_member "resource_name" pd; text_member "policy_name" pd;
       text_member "trace_id" (raw e)].

Definition printTable (events : list parsedEvent) : Exit :=
  printed (Row ["EVENT"; "TIME"; "EFFECT"; "ACTION"; "RESOURCE"; "POLICY"; "TRACE"] :: map table_row events) 0.

Definition list_entry (i : nat) (e : parsedEvent) : list Printed :=
  ((if (0 <? i)%nat then [Line separator] else []) ++
   [Line (text_member "event_id" (raw e) ++ "  " ++ shown_time datetime_text e)] ++
   match explanation_of (decision_member e) with Some s => [Line s] | None => [] end)%list.

(** The events of a reply, as the list shows them. *)
Definition listed (body effectFilter : string) (limit : Z) (asTable : bool) : Exit :=
  match parse body with
  | Some (AList events) =>
      match filtered limit effectFilter events with
      | [] => printed [Line "No policy decision events found."] 0
      | l => if asTable then printTable l else printed (concat (imap list_entry l)) (worst_code l)
      end
  | Some ANil => printed [Line "No policy decision events found."] 0
  | _ => failed "error parsing response"
  end.

Definition runList (auth : option string) (base path since session trace tracePrefix effectFilter : string) (limit : Z)
    (asJSON asTable : bool) : Exit :=
  match (if since =?s "" then Ok None else match parseSince now since with Ok t => Ok (Some t) | Err e => Err e end) with
  | Err e => failed ("error: --since: " ++ e)
  | Ok sinceTime =>
      match fetch (request auth base path "" (list_query session trace tracePrefix sinceTime)) with
      | Err e => e
      | Ok body => if asJSON then printed [Line body] 0 else listed body effectFilter limit asTable
      end
  end.

(** *** The check in the process *)

Context (read_file : string -> result string string) (json_infra : string -> result string InfraConfig).
Context (ExpandEnv : string -> string) (yaml_Unmarshal : string -> result string PolicyTypes.Config).
Context `{!SliceSort higher_priority}.
Context (LoadLocation : string -> option (Time -> Z)) (clock : Clock).

Definition runLocalExplain
    (policyFile resourceType resourceName action tagsStr userID role purpose sensitivityStr : string) (asJSON : bool) : Exit :=
  match LoadFile read_file ExpandEnv yaml_Unmarshal policyFile with
  | Err e => failed ("error loading policy file: " ++ e)
  | Ok cfg =>
      let trace := Explain LoadLocation (NewEngine (Some cfg) "" false) clock
                     (local_request resourceType resourceName action tagsStr userID role purpose sensitivityStr) in
      printed [Line (if asJSON || (PolicyTypes.Explanation trace =?s "") then indent_trace trace
                     else PolicyTypes.Explanation trace)]
        (effectToCode (d_Effect (tr_Decision trace)))
  end.

(** *** [main] *)

(** The resource, split; its tags and classes; and the check of them. *)
Definition with_resource (f : Flags) (check : string -> string -> string -> string -> Exit) : Exit :=
  match splitN ":"%char 2 (resource f) with
  | [resourceType; resourceName] =>
      let '(resolvedTags, resolvedSensitivity, warnings) :=
        resolveFromInfra read_file json_infra (fl_infraConfig f) resourceType resourceName (tags f) (sensitivity f) in
      warned warnings (check resourceType resourceName resolvedTags resolvedSensitivity)
  | _ => bad_resource
  end.

Definition main (f : Flags) : Exit :=
  if negb (policyFile f =?s "") && negb (resource f =?s "") && negb (action f =?s "") && (event f =?s "") &&
     negb (list_mode f)
  then with_resource f (fun rt rn tg sn =>
         runLocalExplain (policyFile f) rt rn (action f) tg (userID f) (role f) (purpose f) sn (asJSON f))
  else
    let auth := bearer (apiKey f) in
    let direct := negb (auditd f =?s "") in
    if list_mode f then
      (if direct then runList auth (auditd f) "/v1/events" else runList auth (gateway f) "/api/v1/governance/events")
        (since f) (session f) (trace f) (tracePrefix f) (effect f) (limit f) (asJSON f) (table f)
    else if negb (event f =?s "") then
      (if direct then runRetrospectiveDirect auth (auditd f) else runRetrospective auth (gateway f)) (event f) (asJSON f)
    else if (resource f =?s "") || (action f =?s "") then misused
    else
      with_resource f (fun rt rn tg sn =>
        (if direct then runHypotheticalDirect auth (auditd f) else runHypothetical auth (gateway f))
          rt rn (action f) tg (userID f) (role f) (purpose f) sn (asJSON f)).
End Client.

(** ** Theorems *)

(** A list of words that a flag can carry. *)
Definition flag_words (l : list string) : Prop :=
  Forall (fun t => t <> "" /\ trim_space t = t /\ split_on "," t = [t]) l.

Lemma split_words_words raw : split_words raw = words raw.
Proof. unfold split_words, words. destruct (raw =?s "") eqn:E; [|done]. apply streq_spec in E. by subst. Qed.

Lemma split_words_join l : flag_words l -> split_words (join "," l) = l.
Proof.
  unfold split_words. induction 1 as [|t l (Hne & Ht & Hs) Hl IH]; [done|].
  assert (Hf : negb (t =?s "") = true) by (by apply negb_true_iff, streq_false).
  destruct l as [|u l].
  - cbn [join]. rewrite Hs. cbn [map List.filter]. by rewrite Ht, Hf.
  - change (join "," (t :: u :: l)) with (t ++ String "," (join "," (u :: l))).
    rewrite split_on_app, Hs, map_app, List.filter_app, IH. cbn [map List.filter]. by rewrite Ht, Hf.
Qed.

(** What a server with the same configuration falls back to. *)
Definition entry_words (of_db : DBServer -> list string) (of_k8s : K8sCluster -> list string) (cfg : InfraConfig)
    (resourceType resourceName : string) : list string :=
  if resourceType =?s "database" then
    match DBServers cfg !! resourceName with Some db => of_db db | None => [] end
  else if resourceType =?s "kubernetes" then
    match K8sClusters cfg !! resourceName with Some k8s => of_k8s k8s | None => [] end
  else [].

(** A flag that is given has a word. *)
Definition flag_given (s : string) : Prop := s = "" \/ words s <> [].

Lemma resolved_words of_db of_k8s cfg rt rn given : flag_given given -> flag_words (entry_words of_db of_k8s cfg rt rn) ->
  words (resolved of_db of_k8s cfg rt rn given) =
  match words given with [] => entry_words of_db of_k8s cfg rt rn | w => w end.
Proof.
  intros Hg Hw. unfold resolved. destruct (given =?s "") eqn:E.
  2: { destruct Hg as [->|Hg]; [done|]. by destruct (words given). }
  apply streq_spec in E. subst. change (words "") with (@nil string). rewrite <- !split_words_words.
  revert Hw. unfold entry_words.
  assert (Hfall : forall l, flag_words l -> split_words (match l with [] => "" | _ => join "," l end) = l).
  { intros [|t l] Hl; [done|]. by apply split_words_join. }
  destruct (rt =?s "database"); [destruct (DBServers cfg !! rn); [|done]; apply Hfall|].
  destruct (rt =?s "kubernetes"); [destruct (K8sClusters cfg !! rn); [|done]; apply Hfall|done].
Qed.

(** How auditd reads the parameters of a check. *)
Definition explain_query (q : Params) : ExplainQuery :=
  {| x_resource_type := q "resource_type"; x_resource_name := q "resource_name"; x_action := q "action";
     x_tags := q "tags"; x_user_id := q "user_id"; x_service := q "service"; x_role := q "role";
     x_purpose := q "purpose"; x_sensitivity := q "sensitivity" |}.

Lemma params_insert k v q j : params (<[k := v]> q) j = if k =?s j then v else params q j.
Proof.
  unfold params. destruct (k =?s j) eqn:E.
  - apply streq_spec in E. subst. by rewrite lookup_insert_eq.
  - rewrite lookup_insert_ne; [done|]. by apply streq_false.
Qed.

Lemma params_set_given k v q j : params q k = "" -> params (set_given k v q) j = if k =?s j then v else params q j.
Proof.
  intros Hk. unfold set_given. destruct (v =?s "") eqn:E; [|by apply params_insert].
  apply streq_spec in E. subst. destruct (k =?s j) eqn:E'; [|done]. apply streq_spec in E'. by subst.
Qed.

Ltac read_params := repeat (rewrite params_set_given || rewrite params_insert); try reflexivity.

Lemma hypothetical_read rt rn ac tg us ro pu se :
  explain_query (params (hypothetical_query rt rn ac tg us ro pu se)) =
  {| x_resource_type := rt; x_resource_name := rn; x_action := ac; x_tags := tg; x_user_id := us; x_service := "";
     x_role := ro; x_purpose := pu; x_sensitivity := se |}.
Proof. unfold explain_query, hypothetical_query. f_equal; read_params. Qed.

Lemma explanation_shown LoadLocation e now req : PolicyTypes.Explanation (Explain LoadLocation e now req) =?s "" = false.
Proof. reflexivity. Qed.

Definition with_policy (p : string) (f : Flags) : Flags :=
  {| gateway := gateway f; auditd := auditd f; policyFile := p; fl_infraConfig := fl_infraConfig f; event := event f;
     resource := resource f; action := action f; tags := tags f; userID := userID f; role := role f;
     purpose := purpose f; sensitivity := sensitivity f; apiKey := apiKey f; asJSON := asJSON f;
     list_mode := list_mode f; since := since f; session := session f; trace := trace f;
     tracePrefix := tracePrefix f; effect := effect f; limit := limit f; table := table f |}.

(** A hypothetical check of the resource [rt:rn], for auditd. *)
Definition asks (f : Flags) (rt rn : string) : Prop :=
  list_mode f = false /\ event f = "" /\ auditd f <> "" /\ action f <> "" /\ rt <> "" /\ rn <> "" /\
  splitN ":"%char 2 (resource f) = [rt; rn].

(** The members of an encoded trace that the client reads. *)
Definition encodes_trace (m : anymap) (t : DecisionTrace) : Prop :=
  (exists d, raw_member "decision" m = Some (AMap d) /\ raw_member "effect" d = Some (AStr (d_Effect (tr_Decision t)))) /\
  raw_member "explanation" m = Some (AStr (PolicyTypes.Explanation t)) /\ raw_member "policy_decision" m = None.

Section Agreement.
Context (parse : string -> option any) (indent : anymap -> string) (indent_trace : DecisionTrace -> string).
Context (get : HttpGet -> result string HttpReply) (local : Time -> Z) (now : Time).
Context (read_file : string -> result string string) (json_infra : string -> result string InfraConfig).
Context (ExpandEnv : string -> string) (yaml_Unmarshal : string -> result string PolicyTypes.Config).
Context `{!SliceSort higher_priority}.
Context (LoadLocation : string -> option (Time -> Z)) (clock : Clock).

Abbreviation main :=
  (main parse indent indent_trace get local now read_file json_infra ExpandEnv yaml_Unmarshal LoadLocation clock).
Abbreviation resolve := (resolveFromInfra read_file json_infra).

(** The server has the policies of the file and the infrastructure of the client, whose
    entry for the resource a flag could carry. *)
Definition same_files (s : governanceServer) (p infraPath rt rn : string) (cfg : PolicyTypes.Config) : Prop :=
  LoadFile read_file ExpandEnv yaml_Unmarshal p = Ok cfg /\
  policyEngine s = Some (NewEngine (Some cfg) "" false) /\
  match infraConfig s with
  | None => infraPath = ""
  | Some ic =>
      infraPath <> "" /\ infra_Load read_file json_infra infraPath = Ok ic /\
      flag_words (entry_words db_Tags k8s_Tags ic rt rn) /\ flag_words (entry_words db_Sensitivity k8s_Sensitivity ic rt rn)
  end.

Definition auditd_serves (s : governanceServer) (f : Flags) : Prop :=
  forall q t, handleExplain LoadLocation clock s (explain_query (params q)) = ExplainTrace t ->
    exists body m,
      get (request (bearer (apiKey f)) (auditd f) "/v1/governance/explain" "" q) =
        Ok {| hr_StatusCode := 200; hr_Body := Ok body |} /\
      parse body = Some (AMap m) /\ encodes_trace m t.

Lemma entry_tags s ic rt rn : infraConfig s = Some ic -> tagsFromInfra s rt rn = entry_words db_Tags k8s_Tags ic rt rn.
Proof. unfold tagsFromInfra. by intros ->. Qed.

Lemma entry_sensitivity s ic rt rn : infraConfig s = Some ic ->
  sensitivityFromInfra s rt rn = entry_words db_Sensitivity k8s_Sensitivity ic rt rn.
Proof. unfold sensitivityFromInfra. by intros ->. Qed.

(** The texts the client sends or splits are the words the server works with. *)
Lemma resolve_words s p path rt rn cfg tg sn : same_files s p path rt rn cfg -> flag_given tg -> flag_given sn ->
  exists tg' sn', resolve path rt rn tg sn = (tg', sn', []) /\
    words tg' = match words tg with [] => tagsFromInfra s rt rn | w => w end /\
    words sn' = match words sn with [] => sensitivityFromInfra s rt rn | w => w end.
Proof.
  intros (_ & _ & Hi) Ht Hs. unfold resolveFromInfra. destruct (infraConfig s) as [ic|] eqn:Ei.
  - destruct Hi as (Hp & Hl & Hwt & Hws). apply streq_false in Hp. rewrite Hp, Hl.
    do 2 eexists. split; [reflexivity|]. rewrite (entry_tags s ic), (entry_sensitivity s ic) by done.
    by split; apply resolved_words.
  - subst path. exists tg, sn. split; [reflexivity|]. unfold tagsFromInfra, sensitivityFromInfra. rewrite Ei.
    by split; [destruct (words tg)|destruct (words sn)].
Qed.

Lemma fetch_ok req body : get req = Ok {| hr_StatusCode := 200; hr_Body := Ok body |} -> fetch get req = Ok body.
Proof. unfold fetch. by intros ->. Qed.

(** An answer with a trace ends with the code of its effect. *)
Lemma trace_answer req body m t js :
  get req = Ok {| hr_StatusCode := 200; hr_Body := Ok body |} -> parse body = Some (AMap m) -> encodes_trace m t ->
  let e := doExplainRequest parse indent get req js in
  code e = effectToCode (d_Effect (tr_Decision t)) /\ stderr e = [] /\
  (js = false -> PolicyTypes.Explanation t <> "" -> stdout e = [Line (PolicyTypes.Explanation t)]).
Proof.
  intros Hg Hp ((d & Hd & He) & Hx & Hn). cbv zeta. unfold doExplainRequest. rewrite (fetch_ok _ _ Hg).
  assert (Hc : exitCodeFromJSON parse body = effectToCode (d_Effect (tr_Decision t))).
  { unfold exitCodeFromJSON, exit_of_value. rewrite Hp. cbn [mbind option_bind raw_object].
    unfold extractEffect, effect_under, object_member. rewrite Hd. cbn [mbind option_bind raw_object fmap option_fmap option_map].
    by rewrite He. }
  destruct js; [by split_and!|].
  unfold explained. rewrite Hp. cbn [mbind option_bind raw_object]. unfold object_member. rewrite Hn.
  cbn [mbind option_bind]. unfold explanation_of. rewrite Hx. cbn [mbind option_bind nonempty_text decode_text].
  destruct (_ =?s "") eqn:E; (split_and!; [exact Hc|done|]).
  - apply streq_spec in E. by intros _ [].
  - done.
Qed.

(** The request auditd evaluates is the one the client evaluates. *)
Lemma same_request s (q : ExplainQuery) tg' sn' :
  x_service q = "" ->
  words tg' = explain_tags s q -> words sn' = explain_sensitivity s q ->
  explain_request s q = local_request (x_resource_type q) (x_resource_name q) (x_action q) tg' (x_user_id q) (x_role q)
                          (x_purpose q) sn'.
Proof.
  intros Hs Ht Hn. unfold explain_request, local_request. rewrite !split_words_words, Ht, Hn, Hs. reflexivity.
Qed.

Lemma handle_explained s (q : ExplainQuery) engine : policyEngine s = Some engine ->
  x_resource_type q <> "" -> x_resource_name q <> "" -> x_action q <> "" ->
  exists t, handleExplain LoadLocation clock s q = ExplainTrace t /\
    let t0 := Explain LoadLocation engine clock (explain_request s q) in
    tr_Decision t = tr_Decision t0 /\
    PolicyTypes.Explanation t =
      (if notFoundInInfra s q then not_found_note (x_resource_name q) else "") ++ PolicyTypes.Explanation t0.
Proof.
  intros He Ht Hn Ha. unfold handleExplain. rewrite He.
  apply streq_false in Ht, Hn, Ha. rewrite Ht, Hn, Ha. cbn [orb].
  eexists. split; [reflexivity|]. cbv zeta. by destruct (notFoundInInfra s q).
Qed.

Lemma main_local f p rt rn tg sn : asks f rt rn -> p <> "" ->
  resolve (fl_infraConfig f) rt rn (tags f) (sensitivity f) = (tg, sn, []) ->
  main (with_policy p f) =
  warned [] (runLocalExplain indent_trace read_file ExpandEnv yaml_Unmarshal LoadLocation clock p rt rn (action f) tg
               (userID f) (role f) (purpose f) sn (asJSON f)).
Proof.
  intros (Hl & Hev & _ & Ha & _ & _ & Hr) Hp Hres. unfold Govexplain.main, with_resource, with_policy; cbn -[splitN resolveFromInfra runLocalExplain runHypotheticalDirect String.eqb].
  apply streq_false in Hp, Ha. rewrite Hp, Ha, Hl, Hev.
  destruct (resource f =?s "") eqn:Er; [apply streq_spec in Er; by rewrite Er in Hr|]. cbn -[splitN resolveFromInfra runLocalExplain runHypotheticalDirect String.eqb].
  by rewrite Hr, Hres.
Qed.

Lemma main_direct f rt rn tg sn : asks f rt rn ->
  resolve (fl_infraConfig f) rt rn (tags f) (sensitivity f) = (tg, sn, []) ->
  main (with_policy "" f) =
  warned [] (runHypotheticalDirect parse indent get (bearer (apiKey f)) (auditd f) rt rn (action f) tg
               (userID f) (role f) (purpose f) sn (asJSON f)).
Proof.
  intros (Hl & Hev & Hau & Ha & _ & _ & Hr) Hres. unfold Govexplain.main, with_resource, with_policy; cbn -[splitN resolveFromInfra runLocalExplain runHypotheticalDirect String.eqb].
  apply streq_false in Hau, Ha. rewrite Hau, Ha, Hl, Hev.
  destruct (resource f =?s "") eqn:Er; [apply streq_spec in Er; by rewrite Er in Hr|]. cbn -[splitN resolveFromInfra runLocalExplain runHypotheticalDirect String.eqb].
  by rewrite Hr, Hres.
Qed.

(** A check evaluated in the process, from a policy file, ends with the
    exit code of the same check asked of an auditd that runs with that file and the same
    infrastructure configuration, and prints the same explanation, which auditd precedes
    with its note when the resource is not in the configuration; neither warns.  The type,
    the name and the action are not empty, a tag or sensitivity flag that is given has a
    word, and the configured ones are trimmed and without commas. *)
Theorem local_check_matches_auditd (s : governanceServer) (f : Flags) (p rt rn : string) (cfg : PolicyTypes.Config)
    (Hask : asks f rt rn) (Hp : p <> "") (Hfiles : same_files s p (fl_infraConfig f) rt rn cfg)
    (Ht : flag_given (tags f)) (Hs : flag_given (sensitivity f)) (Hserve : auditd_serves s f) :
  let here := main (with_policy p f) in
  let there := main (with_policy "" f) in
  code here = code there /\ stderr here = [] /\ stderr there = [] /\
  (asJSON f = false -> exists e note, stdout here = [Line e] /\ stdout there = [Line (note ++ e)] /\
     (note = "" \/ note = not_found_note rn /\ resourceInInfra s rt rn = false)).
Proof.
  cbv zeta. destruct (resolve_words s p _ rt rn cfg _ _ Hfiles Ht Hs) as (tg & sn & Hres & Htg & Hsn).
  rewrite (main_local f p rt rn tg sn), (main_direct f rt rn tg sn) by done.
  destruct Hask as (_ & _ & _ & Ha & Hrt & Hrn & _). destruct Hfiles as (Hload & Heng & _).
  unfold runLocalExplain, runHypotheticalDirect. rewrite Hload.
  set (q := hypothetical_query _ _ _ _ _ _ _ _).
  pose proof (hypothetical_read rt rn (action f) tg (userID f) (role f) (purpose f) sn) as Hq. fold q in Hq.
  assert (Hwt : words tg = explain_tags s (explain_query (params q))).
  { rewrite Hq. unfold explain_tags. cbn. rewrite Htg. destruct (words (tags f)); [|done]. by destruct (tagsFromInfra s rt rn). }
  assert (Hws : words sn = explain_sensitivity s (explain_query (params q))).
  { rewrite Hq. unfold explain_sensitivity. cbn. rewrite Hsn. destruct (words (sensitivity f)); [|done].
    by destruct (sensitivityFromInfra s rt rn). }
  destruct (handle_explained s (explain_query (params q)) _ Heng) as (t & Hx & Hd & He); [by rewrite Hq..|].
  rewrite (same_request s _ tg sn) in Hd, He by (done || by rewrite Hq). rewrite Hq in Hd, He. cbn -[Explain notFoundInInfra not_found_note] in Hd, He.
  destruct (Hserve q t Hx) as (body & m & Hg & Hb & Henc).
  destruct (trace_answer _ body m t (asJSON f) Hg Hb Henc) as (Hc & Herr & Hout).
  cbn [warned code stderr stdout printed app]. rewrite Hc, Herr, Hd. split_and!; try done.
  intros Hj. rewrite Hj in Hout |- *. rewrite Hout; [|done|].
  2: { rewrite He. destruct (notFoundInInfra _ _); [|by apply streq_false]. unfold not_found_note. discriminate. }
  rewrite He, explanation_shown. cbn [orb]. eexists _, _. split_and!; [reflexivity..|].
  destruct (notFoundInInfra _ _) eqn:En; [right|by left]. split; [done|].
  unfold notFoundInInfra in En. apply andb_prop in En as [_ En]. by apply negb_true_iff in En.
Qed.
End Agreement.

(** ** Exit codes of the other modes *)

(** Whether an event of the list has the effect. *)
Definition has_effect (eff : string) (l : list parsedEvent) : bool := existsb (fun e => effStr e =?s eff) l.

Lemma worst_from l : forall r,
  fold_left worst l r =
  if (r =? 1)%Z || has_effect "deny" l then 1%Z else if has_effect "require_approval" l then 2%Z else r.
Proof.
  induction l as [|x l IH]; intros r; cbn [fold_left].
  - cbn. rewrite orb_false_r. by destruct (Z.eqb_spec r 1) as [->|].
  - rewrite IH. unfold has_effect. cbn [existsb]. unfold worst, effectToCode.
    destruct (effStr x =?s "allow") eqn:E1; [apply streq_spec in E1; rewrite E1; cbn; by rewrite andb_false_r|].
    destruct (effStr x =?s "deny") eqn:E2; [cbn; by rewrite orb_true_r|].
    destruct (effStr x =?s "require_approval") eqn:E3; cbn; [|by rewrite andb_false_r].
    destruct (Z.eqb_spec r 1) as [->|Hr]; cbn; [done|]. by repeat case_match.
Qed.

Lemma has_effect_spec eff l : has_effect eff l = true <-> exists e, In e l /\ effStr e = eff.
Proof.
  unfold has_effect. rewrite existsb_exists. by setoid_rewrite streq_spec.
Qed.

Lemma filtered_length limit eff events : (Z.of_nat (length (filtered limit eff events)) <= Z.max 0 limit)%Z.
Proof.
  revert limit. induction events as [|v events IH]; intros limit; cbn [filtered]; [cbn; lia|].
  destruct (Z.leb_spec limit 0); [cbn; lia|]. destruct (raw_object v); [|apply IH].
  destruct (_ && _); [apply IH|]. cbn [length]. specialize (IH (limit - 1)%Z). lia.
Qed.

Lemma filtered_sound limit eff events e : In e (filtered limit eff events) ->
  (exists v, In v events /\ raw_object v = Some (raw e)) /\ effStr e = extractEffect (raw e) /\ (eff <> "" -> effStr e = eff).
Proof.
  revert limit. induction events as [|v events IH]; intros limit; cbn [filtered]; [done|].
  destruct (limit <=? 0)%Z; [done|].
  assert (Hrest : forall n, In e (filtered n eff events) ->
    (exists v', In v' (v :: events) /\ raw_object v' = Some (raw e)) /\ effStr e = extractEffect (raw e) /\ (eff <> "" -> effStr e = eff)).
  { intros n Hn. destruct (IH n Hn) as ((v' & Hv & Hr) & H). split; [|done]. exists v'. by split; [right|]. }
  destruct (raw_object v) as [ev|] eqn:Ev; [|apply Hrest].
  destruct (_ && _) eqn:Ef; [apply Hrest|]. intros [<-|Hin]; [|by apply (Hrest (limit - 1)%Z)].
  cbn. split_and!; [exists v; split; [by left|done]|done|]. intros Hne. apply andb_false_iff in Ef as [Ef|Ef].
  - apply negb_false_iff, streq_spec in Ef. done.
  - by apply negb_false_iff, streq_spec in Ef.
Qed.

(** The list shows no more events than its limit, all of them of the
    effect asked for; printed as text its exit code is the worst of their effects (1 when
    one is denied, else 2 when one requires approval, else 0, with no event and with
    unknown effects too), and printed as a table it is 0. *)
Theorem list_code_is_worst (parse : string -> option any) (local : Time -> Z) (body eff : string) (limit : Z)
    (events : list any) (Hbody : parse body = Some (AList events)) :
  let shown := filtered limit eff events in
  (Z.of_nat (length shown) <= Z.max 0 limit)%Z /\
  (forall e, In e shown -> eff <> "" -> extractEffect (raw e) = eff) /\
  code (listed parse local body eff limit true) = 0%Z /\
  let c := code (listed parse local body eff limit false) in
  (c = 1%Z <-> exists e, In e shown /\ extractEffect (raw e) = "deny") /\
  (c = 2%Z <-> (exists e, In e shown /\ extractEffect (raw e) = "require_approval") /\
               ~ exists e, In e shown /\ extractEffect (raw e) = "deny") /\
  (c = 0%Z \/ c = 1%Z \/ c = 2%Z).
Proof.
  intros shown. split; [apply filtered_length|].
  split; [intros e He Hne; destruct (filtered_sound _ _ _ _ He) as (_ & <- & H); by apply H|].
  assert (Heff : forall x, has_effect x shown = true <-> exists e, In e shown /\ extractEffect (raw e) = x).
  { intros x. rewrite has_effect_spec. split; intros (e & He & Hx); exists e;
      destruct (filtered_sound _ _ _ _ He) as (_ & Hs & _); split; congruence. }
  assert (Hc : code (listed parse local body eff limit false) =
               if has_effect "deny" shown then 1%Z else if has_effect "require_approval" shown then 2%Z else 0%Z).
  { unfold listed. rewrite Hbody. fold shown. destruct shown as [|x l]; [done|]. cbn [code printed]. unfold worst_code. by rewrite worst_from. }
  split. { unfold listed. rewrite Hbody. fold shown. by destruct shown. }
  cbv zeta. rewrite Hc, <- !Heff. destruct (has_effect "deny" shown), (has_effect "require_approval" shown); intuition (congruence || lia).
Qed.

(** An event whose recorded decision has an explanation and the effect [e]:
    with -json the exit code is the one of the effect; without it the explanation is
    printed and the code is 3, the one of an error, whatever the effect, since the code is
    then read from the decision alone. *)
Theorem retrospective_text_fails (parse : string -> option any) (indent : anymap -> string)
    (get : HttpGet -> result string HttpReply) (req : HttpGet) (body s e : string) (m pd : anymap)
    (Hget : get req = Ok {| hr_StatusCode := 200; hr_Body := Ok body |}) (Hbody : parse body = Some (AMap m))
    (Hnone : raw_member "decision" m = None) (Hpd : raw_member "policy_decision" m = Some (AMap pd))
    (Heff : raw_member "effect" pd = Some (AStr e)) (Hexp : raw_member "explanation" pd = Some (AStr s)) (Hs : s <> "")
    (Hinner : raw_member "decision" pd = None /\ raw_member "policy_decision" pd = None) :
  code (doExplainRequest parse indent get req true) = effectToCode e /\
  doExplainRequest parse indent get req false = printed [Line s] 3.
Proof.
  unfold doExplainRequest. rewrite (fetch_ok get _ _ Hget). split.
  - cbn [code printed]. unfold exitCodeFromJSON, exit_of_value. rewrite Hbody. cbn [mbind option_bind raw_object].
    unfold extractEffect, effect_under, object_member. rewrite Hnone, Hpd. cbn. by rewrite Heff.
  - unfold explained. rewrite Hbody. cbn [mbind option_bind raw_object]. unfold object_member, explanation_of. rewrite Hpd.
    cbn [mbind option_bind raw_object]. rewrite Hexp. cbn [mbind option_bind nonempty_text decode_text].
    apply streq_false in Hs. rewrite Hs. unfold exit_of_value. cbn [mbind option_bind raw_object].
    unfold extractEffect, effect_under, object_member. by rewrite !(proj1 Hinner), (proj2 Hinner).
Qed.

(** What auditd reads in the request of the list: the policy decisions of
    the session, the trace and the prefix, not before the second of the start, and, with
    no parameter for it, at most 100 of them whatever limit and effect are asked for. *)
Theorem list_request_understood (session trace prefix : string) (t : Time) (Hw : writable t) :
  let read since := query_of_params (params (list_query session trace prefix since)) in
  let with_since since := {| qo_EventID := ""; qo_SessionID := session; qo_EventType := EventTypePolicyDecision;
    qo_EventTypes := []; qo_Agent := ""; qo_Since := since; qo_MinConfidence := S754_zero false;
    qo_MaxConfidence := S754_zero false; qo_Limit := 100; qo_TraceID := trace; qo_TraceIDPrefix := prefix;
    qo_ActionClass := ""; qo_ToolName := ""; qo_ApprovalStatus := ""; qo_OutcomeStatus := ""; qo_Origin := "" |} in
  read None = with_since 0%Z /\ read (Some t) = with_since (whole_second t).
Proof.
  cbv zeta. assert (Hr := since_read_back t Hw). unfold list_query.
  split; unfold query_of_params, limit_param; f_equal; read_params. exact Hr.
Qed.

(** ** Witnesses and examples *)

Module ExplainToy.
(** A trace as a text, and the value that is decoded from it. *)
Definition trace_text (t : DecisionTrace) : string := enc (d_Effect (tr_Decision t)) ++ PolicyTypes.Explanation t.
Definition trace_members (e s : string) : anymap := [("decision", AMap [("effect", AStr e)]); ("explanation", AStr s)].
Definition parse_trace (body : string) : option any :=
  match dec body with Some (e, s) => Some (AMap (trace_members e s)) | None => None end.

Definition infra : InfraConfig := {| DBServers := {["orders" := orders]}; K8sClusters := ∅; VMs := ∅ |}.

Definition server : governanceServer :=
  {| auditStore := NewStore [] false; policyEngine := Some (NewEngine (Some sample_loaded) "" false);
     infraConfig := Some infra |}.

(** An auditd at any address, which answers every check. *)
Definition auditd_get (req : HttpGet) : result string HttpReply :=
  match handleExplain no_zones sample_clock server (explain_query (params (hg_query req))) with
  | ExplainTrace t => Ok {| hr_StatusCode := 200; hr_Body := Ok (trace_text t) |}
  | _ => Ok {| hr_StatusCode := 400; hr_Body := Ok "resource_type, resource_name and action are required" |}
  end.

Definition flags (resource action tags : string) : Flags :=
  {| gateway := "http://localhost:8080"; auditd := "http://auditd:1199/"; policyFile := "p.yaml";
     fl_infraConfig := "infra.json"; event := ""; Govexplain.resource := resource; Govexplain.action := action;
     Govexplain.tags := tags; userID := ""; role := ""; purpose := ""; sensitivity := ""; apiKey := "k";
     asJSON := false; list_mode := false; since := ""; session := ""; trace := ""; tracePrefix := ""; effect := "";
     limit := 20; table := false |}.

Definition go (f : Flags) : Exit :=
  main parse_trace (fun _ => "{}") (fun _ => "{}") auditd_get (fun _ => 0%Z) (100 * Day)%Z (fun p => Ok p) (fun _ => Ok infra)
    (fun s => s) sample_yaml (SliceSort0 := insertion_priority) no_zones sample_clock f.

Lemma served f : auditd_serves parse_trace auditd_get no_zones sample_clock server f.
Proof.
  intros q t Hq. unfold auditd_get. cbn [request hg_query]. rewrite Hq. do 2 eexists. split; [reflexivity|].
  unfold parse_trace, trace_text. rewrite dec_enc. split; [reflexivity|].
  split_and!; [|reflexivity..]. eexists. split; reflexivity.
Qed.

(** Auditd splits the tags [,] into no words and falls back to its configuration; the
    client that evaluates the check itself does not. *)
Example empty_words_differ :
  let q := hypothetical_query "database" "orders" "write" "," "" "" "" "" in
  explain_tags server (explain_query (params q)) = ["prod"] /\
  rr_Tags (rq_Resource (local_request "database" "orders" "write" "," "" "" "" "")) = [] /\
  resolved db_Tags k8s_Tags infra "database" "orders" "," = "," /\
  resolved db_Tags k8s_Tags infra "database" "orders" "" = "prod".
Proof. vm_compute. repeat split. Qed.

Example days_weeks_and_clock :
  parseSince (100 * Day)%Z "7d" = Ok (93 * Day)%Z /\ parseSince (100 * Day)%Z "2w" = Ok (86 * Day)%Z /\
  parseSince (100 * Day)%Z "1h30m" = Ok (100 * Day - 90 * Minute)%Z /\
  parseSince (100 * Day)%Z "-1h" = Ok (100 * Day + Hours)%Z /\
  parseSince (100 * Day)%Z "0001-01-02T00:00:00Z" = Ok Day /\
  parseSince (100 * Day)%Z "0d" = Err (since_error "0d") /\ parseSince (100 * Day)%Z "1.5d" = Err (since_error "1.5d").
Proof. vm_compute. repeat split. Qed.

(** Three decisions as auditd sends them. *)
Definition decided (id eff : string) : any :=
  AMap [("event_id", AStr id); ("timestamp", AStr "2024-02-29T10:30:00Z"); ("trace_id", AStr "tr_1");
        ("policy_decision", AMap [("effect", AStr eff); ("explanation", AStr ("it is " ++ eff)); ("resource_type", AStr "database");
                                  ("resource_name", AStr "orders"); ("action", AStr "write"); ("policy_name", AStr "db")])].
Definition three : list any := [decided "pol_1" "allow"; decided "pol_2" "require_approval"; decided "pol_3" "deny"].
Definition parse_three (body : string) : option any :=
  if body =?s "three" then Some (AList three) else if body =?s "one" then Some (decided "pol_3" "deny") else None.

Definition show (eff : string) (limit : Z) (asTable : bool) : Exit := listed parse_three (fun _ => 0%Z) "three" eff limit asTable.

(** A limit that stops before the denial hides it from the exit code, and so does the
    table. *)
Example limited_list :
  map code [show "" 20 false; show "" 2 false; show "allow" 20 false; show "" 20 true; show "" 0 false] = [1; 2; 0; 0; 0]%Z /\
  stdout (show "deny" 20 true) =
    [Row ["EVENT"; "TIME"; "EFFECT"; "ACTION"; "RESOURCE"; "POLICY"; "TRACE"];
     Row ["pol_3"; "02-29 10:30:00"; "DENY"; "write"; "database:orders"; "db"; "tr_1"]] /\
  stdout (show "" 1 false) = [Line "pol_1  2024-02-29 10:30:00"; Line "it is allow"].
Proof. vm_compute. repeat split. Qed.
End ExplainToy.

Lemma local_check_matches_auditd_witness :
  code (ExplainToy.go (ExplainToy.flags "database:orders" "write" "")) =
  code (ExplainToy.go (with_policy "" (ExplainToy.flags "database:orders" "write" ""))).
Proof.
  apply (local_check_matches_auditd ExplainToy.parse_trace (fun _ => "{}") (fun _ => "{}") ExplainToy.auditd_get (fun _ => 0%Z)
    (100 * Day)%Z (fun p => Ok p) (fun _ => Ok ExplainToy.infra) (fun s => s) sample_yaml (SliceSort0 := insertion_priority)
    no_zones sample_clock ExplainToy.server (ExplainToy.flags "database:orders" "write" "") "p.yaml" "database" "orders"
    sample_loaded); try discriminate; try (left; reflexivity); [..|apply ExplainToy.served].
  - repeat split; discriminate.
  - split_and!; [vm_compute; reflexivity|reflexivity|]. cbn [infraConfig ExplainToy.server].
    split_and!; [discriminate|reflexivity|..]; repeat constructor; vm_compute; (reflexivity || discriminate).
Defined.

Lemma list_code_is_worst_witness : code (ExplainToy.show "" 20 true) = 0%Z.
Proof.
  apply (list_code_is_worst ExplainToy.parse_three (fun _ => 0%Z) "three" "" 20 ExplainToy.three). reflexivity.
Defined.

Lemma retrospective_text_fails_witness :
  doExplainRequest ExplainToy.parse_three (fun _ => "{}") (fun _ => Ok {| hr_StatusCode := 200; hr_Body := Ok "one" |})
    (request None "http://auditd" "/v1/events/" "pol_3" ∅) false = printed [Line "it is deny"] 3.
Proof.
  refine (proj2 (retrospective_text_fails ExplainToy.parse_three (fun _ => "{}") _ _ "one" "it is deny" "deny" _ _
    _ _ _ _ _ _ _ _)); try reflexivity; [discriminate|by split].
Defined.

Lemma list_request_understood_witness :
  qo_Since (query_of_params (params (list_query "s" "" "chk_" (Some (100 * Day)%Z)))) = (100 * Day)%Z.
Proof.
  rewrite (proj2 (list_request_understood "s" "" "chk_" (100 * Day)%Z ltac:(vm_compute; split; [discriminate|reflexivity]))). reflexivity.
Defined.
