(* ===== verification/ApprovalCommands.v ===== *)
(** * The approvals command and its HTTP client

    cmd/approvals/main.go with the package flag it parses its arguments with,
    [InitLogging] of internal/logging, and the requests of internal/audit/
    approval_client.go (its look-ups are in ApprovalClient).  A server is [send] on a
    world; a request keeps the map of its query and the fields of its body, so JSON
    starts at the decoders of an answer, which are parameters, as are [strconv.ParseInt]
    and what encodes an answer for [-json].  A command gives its lines and its error; the
    alignment of the table (text/tabwriter) and the text of the usage are left out, and
    an address that cannot be parsed is not considered.  The world has the clock; a wait
    has fuel for its polls. *)

From Stdlib Require Import SpecFloat.
From S2P Require Import Prelude GoTime TimeText GoFormat Identity Authz AuthzTables Events ApprovalStore ApprovalHandlers.
From S2P Require Import ApprovalClient Govbot.

Open Scope string_scope.

(** ** Arguments *)

(** [InitLogging]: the level, and the arguments without it. *)
Fixpoint strip_log_level (levelStr : string) (args : list string) : string * list string :=
  match args with
  | [] => (levelStr, [])
  | arg :: rest =>
      if has_prefix arg "--log-level=" then strip_log_level (trim_prefix arg "--log-level=") rest
      else if has_prefix arg "-log-level=" then strip_log_level (trim_prefix arg "-log-level=") rest
      else if (arg =?s "-log-level") || (arg =?s "--log-level") then
        match rest with
        | value :: rest' => strip_log_level value rest'
        | [] => (levelStr, [])
        end
      else let '(level, remaining) := strip_log_level levelStr rest in (level, arg :: remaining)
  end.

Inductive Level := LevelDebug | LevelInfo | LevelWarn | LevelError.

Definition log_level (levelStr : string) : Level :=
  let l := to_lower levelStr in
  if l =?s "debug" then LevelDebug
  else if (l =?s "warn") || (l =?s "warning") then LevelWarn
  else if l =?s "error" then LevelError
  else LevelInfo.

Definition InitLogging (env : string -> string) (args : list string) : Level * list string :=
  let levelStr := if env "HELPDESK_LOG_LEVEL" =?s "" then "info" else env "HELPDESK_LOG_LEVEL" in
  let '(level, remaining) := strip_log_level levelStr args in (log_level level, remaining).

(** The package flag: what an argument is. *)
Inductive Argument :=
  | Positional
  | Terminator
  | BadSyntax
  | Flag (name : string) (value : option string).

(** The name up to an equals sign that is not its first byte. *)
Fixpoint cut_equals (s : string) : string * option string :=
  match s with
  | EmptyString => ("", None)
  | String c r =>
      if Ascii.eqb c "=" then ("", Some r) else let '(name, value) := cut_equals r in (String c name, value)
  end.

Definition flag_named (name : string) : Argument :=
  match name with
  | EmptyString => BadSyntax
  | String c r =>
      if Ascii.eqb c "-" || Ascii.eqb c "=" then BadSyntax
      else let '(rest, value) := cut_equals r in Flag (String c rest) value
  end.

Definition classify (s : string) : Argument :=
  match s with
  | String "-" (String c r) =>
      if Ascii.eqb c "-" then (if r =?s "" then Terminator else flag_named r) else flag_named (String c r)
  | _ => Positional
  end.

Inductive FlagKind := StringFlag | IntFlag | BoolFlag.
Inductive FlagValue := VString (s : string) | VInt (n : Z) | VBool (b : bool).

Definition ParseBool (s : string) : option bool :=
  if mem s ["1"; "t"; "T"; "true"; "TRUE"; "True"] then Some true
  else if mem s ["0"; "f"; "F"; "false"; "FALSE"; "False"] then Some false
  else None.

Abbreviation Values := (gmap string FlagValue).

Inductive Parsed :=
  | ParseDone (values : Values) (args : list string)
  | ParseHelp
  | ParseFailed (err : string).

Section Flags.
(** [strconv.ParseInt(s, 0, 64)], its error a parse error or a range error. *)
Context (parse_int : string -> result string Z) (formal : string -> option FlagKind).

Definition set_flag (kind : FlagKind) (name v : string) : result string FlagValue :=
  match kind with
  | StringFlag => Ok (VString v)
  | IntFlag =>
      match parse_int v with
      | Ok n => Ok (VInt n)
      | Err e => Err ("invalid value " ++ quote v ++ " for flag -" ++ name ++ ": " ++ e)
      end
  | BoolFlag =>
      match ParseBool v with
      | Some b => Ok (VBool b)
      | None => Err ("invalid boolean value " ++ quote v ++ " for -" ++ name ++ ": parse error")
      end
  end.

(** [FlagSet.Parse]: it stops at the first argument that is not a flag. *)
Fixpoint Parse (values : Values) (args : list string) : Parsed :=
  match args with
  | [] => ParseDone values []
  | s :: rest =>
      match classify s with
      | Positional => ParseDone values args
      | Terminator => ParseDone values rest
      | BadSyntax => ParseFailed ("bad flag syntax: " ++ s)
      | Flag name value =>
          match formal name with
          | None =>
              if (name =?s "help") || (name =?s "h") then ParseHelp
              else ParseFailed ("flag provided but not defined: -" ++ name)
          | Some kind =>
              match kind, value, rest with
              | BoolFlag, None, _ => Parse (<[name := VBool true]> values) rest
              | _, Some v, _ =>
                  match set_flag kind name v with
                  | Ok x => Parse (<[name := x]> values) rest
                  | Err e => ParseFailed e
                  end
              | _, None, v :: rest' =>
                  match set_flag kind name v with
                  | Ok x => Parse (<[name := x]> values) rest'
                  | Err e => ParseFailed e
                  end
              | _, None, [] => ParseFailed ("flag needs an argument: -" ++ name)
              end
          end
      end
  end.
End Flags.

Definition string_flag (values : Values) (name dflt : string) : string :=
  match values !! name with Some (VString s) => s | _ => dflt end.
Definition int_flag (values : Values) (name : string) (dflt : Z) : Z :=
  match values !! name with Some (VInt n) => n | _ => dflt end.
Definition bool_flag (values : Values) (name : string) : bool :=
  match values !! name with Some (VBool b) => b | _ => false end.

(** ** Text *)

Definition statusIcon (status : string) : string :=
  if status =?s "pending" then "[?]"
  else if status =?s "approved" then "[+]"
  else if status =?s "denied" then "[-]"
  else if status =?s "expired" then "[X]"
  else if status =?s "cancelled" then "[~]"
  else "[.]".

(** [d.Seconds()], [d.Minutes()] and [d.Hours()] of a positive duration, as integers. *)
Definition whole_units (unit d : Z) : Z :=
  float_trunc (SFadd 53 1024 (float_int (d / unit)) (SFdiv 53 1024 (float_int (d mod unit)) (float_int unit))).

Definition formatDuration (d : Z) : string :=
  if (d <? Minute)%Z then itoa (whole_units Second d) ++ "s"
  else if (d <? Hours)%Z then itoa (whole_units Minute d) ++ "m"
  else itoa (whole_units Hours d) ++ "h" ++ itoa (whole_units Minute d mod 60) ++ "m".

Definition truncate (s : string) (maxLen : nat) : string :=
  if (String.length s <=? maxLen)%nat then s else substring 0 (maxLen - 3) s ++ "...".

(** "15:04:05" *)
Definition time_of_day (t : Time) : string :=
  padded 2 (Hour t) ++ ":" ++ padded 2 (t / Minute mod 60) ++ ":" ++ padded 2 (t / Second mod 60).

(** ** Requests *)

Inductive Auth := NoAuth | BearerToken (key : string) | XUser (user : string).

Record authCreds := { cr_apiKey : string; cr_user : string }.

Definition effectiveUser (env : string -> string) (c : authCreds) : string :=
  if negb (cr_user c =?s "") then cr_user c
  else if negb (env "USER" =?s "") then env "USER"
  else "operator".

(** The header of [doHTTPRequest] and of [authTransport]. *)
Definition credentials (c : authCreds) : Auth :=
  if negb (cr_apiKey c =?s "") then BearerToken (cr_apiKey c)
  else if negb (cr_user c =?s "") then XUser (cr_user c)
  else NoAuth.

(** What auditd decodes: a member that is left out has its zero value. *)
Inductive ApiBody :=
  | NoBody
  | CreateBody (r : CreateApprovalRequest)
  | ApproveBody (r : ApproveRequest)
  | DenyBody (r : DenyRequest)
  | CancelBody (r : CancelRequest).

Record ApiRequest := {
  ap_method : string; ap_base : string; ap_path : string; ap_query : gmap string string;
  ap_auth : Auth; ap_body : ApiBody }.

(** The status, and what reading the body gave. *)
Abbreviation ApiReply := (result string (Z * result string string)).

Definition approval_path (id op : string) : string := "/v1/approvals/" ++ id ++ op.

Definition set_param (k v : string) (q : gmap string string) : gmap string string :=
  if v =?s "" then q else <[k := v]> q.

Definition list_params (o : ApprovalListOptions) : gmap string string :=
  let q := set_param "tool_name" (lo_ToolName o) (set_param "requested_by" (lo_RequestedBy o)
             (set_param "trace_id" (lo_TraceID o) (set_param "agent" (lo_AgentName o)
               (set_param "status" (lo_Status o) ∅)))) in
  if (0 <? lo_Limit o)%Z then <["limit" := itoa (lo_Limit o)]> q else q.

(** [ApprovalClient]: the address, and the transport of [WithAPIKey] or [WithUser]. *)
Record HttpClient := { cl_baseURL : string; cl_auth : Auth }.

Definition NewApprovalClient (baseURL : string) : HttpClient := {| cl_baseURL := baseURL; cl_auth := NoAuth |}.
(** A transport with an empty key or user sets no header. *)
Definition WithAPIKey (apiKey : string) (c : HttpClient) : HttpClient :=
  {| cl_baseURL := cl_baseURL c; cl_auth := if apiKey =?s "" then NoAuth else BearerToken apiKey |}.
Definition WithUser (userID : string) (c : HttpClient) : HttpClient :=
  {| cl_baseURL := cl_baseURL c; cl_auth := if userID =?s "" then NoAuth else XUser userID |}.

Record CreateResponse := { cp_ApprovalID : string; cp_Status : string; cp_ExpiresAt : string }.

Definition pollChunk : Z := (90 * Second)%Z.

Section Client.
Context {W : Type} (send : W -> ApiRequest -> W * ApiReply) (clock : W -> Time).
Context (decode_approval : string -> result string StoredApproval).
Context (decode_approvals : string -> result string (list StoredApproval)).
Context (decode_created : string -> result string CreateResponse).

Definition call (c : HttpClient) (method path : string) (q : gmap string string) (body : ApiBody) : ApiRequest :=
  {| ap_method := method; ap_base := cl_baseURL c; ap_path := path; ap_query := q; ap_auth := cl_auth c; ap_body := body |}.

(** The answer up to its body. *)
Definition received (r : ApiReply) : result string (Z * string) :=
  match r with
  | Err e => Err ("send request: " ++ e)
  | Ok (_, Err e) => Err ("read response: " ++ e)
  | Ok (status, Ok body) => Ok (status, body)
  end.

Definition unexpected (status : Z) (body : string) : string := "unexpected status " ++ itoa status ++ ": " ++ body.

Definition decoded_as {A} (decode : string -> result string A) (body : string) : result string A :=
  match decode body with Ok a => Ok a | Err e => Err ("unmarshal response: " ++ e) end.

Definition CreateApproval (c : HttpClient) (w : W) (req : CreateApprovalRequest) : W * result string CreateResponse :=
  let '(w', r) := send w (call c "POST" "/v1/approvals" ∅ (CreateBody req)) in
  (w', match received r with
       | Err e => Err e
       | Ok (status, body) =>
           if (status =? 201)%Z then decoded_as decode_created body else Err (unexpected status body)
       end).

(** The end of [GetApproval] and of a poll. *)
Definition one_approval (approvalID : string) (r : ApiReply) : result string StoredApproval :=
  match received r with
  | Err e => Err e
  | Ok (status, body) =>
      if (status =? 404)%Z then Err ("approval not found: " ++ approvalID)
      else if (status =? 200)%Z then decoded_as decode_approval body
      else Err (unexpected status body)
  end.

Definition GetApproval (c : HttpClient) (w : W) (approvalID : string) : W * result string StoredApproval :=
  let '(w', r) := send w (call c "GET" (approval_path approvalID "") ∅ NoBody) in (w', one_approval approvalID r).

Definition ListApprovals (c : HttpClient) (w : W) (opts : ApprovalListOptions) : W * result string (list StoredApproval) :=
  let '(w', r) := send w (call c "GET" "/v1/approvals" (list_params opts) NoBody) in
  (w', match received r with
       | Err e => Err e
       | Ok (status, body) =>
           if (status =? 200)%Z then decoded_as decode_approvals body else Err (unexpected status body)
       end).

(** A body that cannot be read is left out of the error. *)
Definition CancelApproval (c : HttpClient) (w : W) (approvalID cancelledBy reason : string) : W * option string :=
  let '(w', r) := send w (call c "POST" (approval_path approvalID "/cancel") ∅
                            (CancelBody {| CancelledBy := cancelledBy; cr_Reason := reason |})) in
  (w', match r with
       | Err e => Some ("send request: " ++ e)
       | Ok (status, body) =>
           if (status =? 200)%Z then None
           else Some (unexpected status (match body with Ok b => b | Err _ => "" end))
       end).

Definition poll (c : HttpClient) (approvalID : string) (chunk : Z) : ApiRequest :=
  call c "GET" (approval_path approvalID "/wait") (<["timeout" := Duration_String chunk]> ∅) NoBody.

(** The loop of [WaitForApproval]: [None] when the fuel is spent. *)
Fixpoint wait_loop (fuel : nat) (c : HttpClient) (deadline : Time) (approvalID : string) (w : W)
    : option (W * result string StoredApproval) :=
  match fuel with
  | O => None
  | S fuel' =>
      let remaining := time_sub deadline (clock w) in
      if (remaining <=? 0)%Z then Some (GetApproval c w approvalID)
      else
        let chunk := if (pollChunk <? remaining)%Z then pollChunk else remaining in
        let '(w', r) := send w (poll c approvalID chunk) in
        match one_approval approvalID r with
        | Err e => Some (w', Err e)
        | Ok result =>
            if negb (Status result =?s "pending") then Some (w', Ok result)
            else wait_loop fuel' c deadline approvalID w'
        end
  end.

Definition WaitForApproval (fuel : nat) (c : HttpClient) (w : W) (approvalID : string) (timeout : Z)
    : option (W * result string StoredApproval) := wait_loop fuel c (clock w + timeout)%Z approvalID w.

Definition doHTTPRequest (auditURL : string) (creds : authCreds) (w : W) (path : string) (body : ApiBody)
    : W * result string string :=
  let '(w', r) := send w {| ap_method := "POST"; ap_base := auditURL; ap_path := path; ap_query := ∅;
                            ap_auth := credentials creds; ap_body := body |} in
  (w', match r with
       | Err e => Err e
       | Ok (_, Err e) => Err e
       | Ok (status, Ok respBody) =>
           if (400 <=? status)%Z then Err ("HTTP " ++ itoa status ++ ": " ++ respBody) else Ok respBody
       end).

(** ** The commands *)

Inductive CmdEnd := Done | Failed (err : string) | FlagExit (code : Z) (err : string).
Inductive Printed := Line (s : string) | Row (cells : list string) | Json (text : string).

Context (parse_int : string -> result string Z) (env : string -> string).
Context (print_any : any -> string).
Context (encode_approval : StoredApproval -> string) (encode_approvals : list StoredApproval -> string).

(** [fs.Parse] of a set that exits on errors. *)
Definition parsed {A} (formal : string -> option FlagKind) (args : list string) (k : Values -> list string -> A)
    (exit : CmdEnd -> A) : A :=
  match Parse parse_int formal ∅ args with
  | ParseDone values rest => k values rest
  | ParseHelp => exit (FlagExit 0 "")
  | ParseFailed e => exit (FlagExit 2 e)
  end.

Definition list_flags (name : string) : option FlagKind :=
  if mem name ["status"; "agent"; "trace-id"] then Some StringFlag else if name =?s "limit" then Some IntFlag else None.
Definition approve_flags (name : string) : option FlagKind :=
  if name =?s "reason" then Some StringFlag else if name =?s "valid-for" then Some IntFlag else None.
Definition deny_flags (name : string) : option FlagKind := if name =?s "reason" then Some StringFlag else None.

Definition expires_cell (now : Time) (a : StoredApproval) : string :=
  if IsZero (ExpiresAt a) then ""
  else let remaining := time_sub (ExpiresAt a) now in
       if (0 <? remaining)%Z then formatDuration remaining else "expired".

Definition approval_row (now : Time) (a : StoredApproval) : Printed :=
  Row [ApprovalID a; statusIcon (Status a) ++ " " ++ Status a; sa_ActionClass a; truncate (ToolName a) 20;
       sa_AgentName a; time_of_day (RequestedAt a); expires_cell now a].

Definition cmdList (c : HttpClient) (args : list string) (outputJSON : bool) (w : W) : W * list Printed * CmdEnd :=
  parsed list_flags args (fun values _ =>
    let '(w', r) := ListApprovals c w
      {| lo_Status := string_flag values "status" ""; lo_AgentName := string_flag values "agent" "";
         lo_TraceID := string_flag values "trace-id" ""; lo_RequestedBy := ""; lo_ToolName := "";
         lo_Limit := int_flag values "limit" 20 |} in
    match r with
    | Err e => (w', [], Failed ("list approvals: " ++ e))
    | Ok approvals =>
        if outputJSON then (w', [Json (encode_approvals approvals)], Done)
        else
          match approvals with
          | [] => (w', [Line "No approvals found."], Done)
          | _ => (w', Row ["ID"; "STATUS"; "ACTION"; "TOOL"; "AGENT"; "REQUESTED"; "EXPIRES"] ::
                        map (approval_row (clock w')) approvals, Done)
          end
    end) (fun e => (w, [], e)).

Definition when_text (label value : string) : list Printed := if value =?s "" then [] else [Line (label ++ value)].

Definition expiry_line (now : Time) (a : StoredApproval) : list Printed :=
  if IsZero (ExpiresAt a) then []
  else let remaining := time_sub (ExpiresAt a) now in
       [Line (if (0 <? remaining)%Z then "Expires In:     " ++ formatDuration remaining
              else "Expired At:     " ++ RFC3339 (ExpiresAt a))].

Definition shown_approval (now : Time) (a : StoredApproval) : list Printed :=
  ([Line ("Approval ID:    " ++ ApprovalID a); Line ("Status:         " ++ statusIcon (Status a) ++ " " ++ Status a);
    Line ("Action Class:   " ++ sa_ActionClass a)] ++
   when_text "Tool:           " (ToolName a) ++ when_text "Agent:          " (sa_AgentName a) ++
   (if sa_ResourceType a =?s "" then [] else [Line ("Resource:       " ++ sa_ResourceType a ++ "/" ++ sa_ResourceName a)]) ++
   [Line ("Requested By:   " ++ RequestedBy a); Line ("Requested At:   " ++ RFC3339 (RequestedAt a))] ++
   expiry_line now a ++ when_text "Trace ID:       " (sa_TraceID a) ++ when_text "Event ID:       " (sa_EventID a) ++
   when_text "Policy:         " (sa_PolicyName a) ++
   (if ResolvedBy a =?s "" then []
    else [Line ("Resolved By:    " ++ ResolvedBy a); Line ("Resolved At:    " ++ RFC3339 (ResolvedAt a))]) ++
   when_text "Reason:         " (ResolutionReason a) ++
   match RequestContext a with
   | [] => []
   | m => Line "Request Context:" :: map (fun kv => Line ("  " ++ fst kv ++ ": " ++ print_any (snd kv))) m
   end)%list.

Definition cmdShow (c : HttpClient) (args : list string) (outputJSON : bool) (w : W) : W * list Printed * CmdEnd :=
  match args with
  | [] => (w, [], Failed "approval ID required")
  | approvalID :: _ =>
      let '(w', r) := GetApproval c w approvalID in
      match r with
      | Err e => (w', [], Failed ("get approval: " ++ e))
      | Ok a => (w', if outputJSON then [Json (encode_approval a)] else shown_approval (clock w') a, Done)
      end
  end.

Definition approve_body (creds : authCreds) (reason : string) (validFor : Z) : ApproveRequest :=
  {| ApprovedBy := effectiveUser env creds; ar_Reason := reason;
     ValidForMin := if (0 <? validFor)%Z then validFor else 0%Z |}.
Definition deny_body (creds : authCreds) (reason : string) : DenyRequest :=
  {| DeniedBy := effectiveUser env creds; dr_Reason := reason |}.

Definition cmdApprove (args : list string) (auditURL : string) (creds : authCreds) (w : W) : W * list Printed * CmdEnd :=
  parsed approve_flags args (fun values rest =>
    match rest with
    | [] => (w, [], Failed "approval ID required")
    | approvalID :: _ =>
        let '(w', r) := doHTTPRequest auditURL creds w (approval_path approvalID "/approve")
          (ApproveBody (approve_body creds (string_flag values "reason" "") (int_flag values "valid-for" 0))) in
        match r with
        | Err e => (w', [], Failed ("approve: " ++ e))
        | Ok resp =>
            match decode_approval resp with
            | Err e => (w', [], Failed ("parse response: " ++ e))
            | Ok a =>
                (w', ([Line ("Approved: " ++ ApprovalID a); Line ("  Status:      " ++ Status a);
                       Line ("  Approved By: " ++ ResolvedBy a)] ++
                      if IsZero (ApprovalValidUntil a) then []
                      else [Line ("  Valid Until: " ++ RFC3339 (ApprovalValidUntil a))])%list, Done)
            end
        end
    end) (fun e => (w, [], e)).

Definition cmdDeny (args : list string) (auditURL : string) (creds : authCreds) (w : W) : W * list Printed * CmdEnd :=
  parsed deny_flags args (fun values rest =>
    match rest with
    | [] => (w, [], Failed "approval ID required")
    | approvalID :: _ =>
        let reason := string_flag values "reason" "" in
        if reason =?s "" then (w, [], Failed "--reason is required when denying")
        else
          let '(w', r) := doHTTPRequest auditURL creds w (approval_path approvalID "/deny") (DenyBody (deny_body creds reason)) in
          match r with
          | Err e => (w', [], Failed ("deny: " ++ e))
          | Ok resp =>
              match decode_approval resp with
              | Err e => (w', [], Failed ("parse response: " ++ e))
              | Ok a => (w', [Line ("Denied: " ++ ApprovalID a); Line ("  Status:    " ++ Status a);
                              Line ("  Denied By: " ++ ResolvedBy a); Line ("  Reason:    " ++ ResolutionReason a)], Done)
              end
          end
    end) (fun e => (w, [], e)).

Definition cmdCancel (c : HttpClient) (args : list string) (w : W) : W * list Printed * CmdEnd :=
  match args with
  | [] => (w, [], Failed "approval ID required")
  | approvalID :: _ =>
      let cancelledBy := if env "USER" =?s "" then "operator" else env "USER" in
      match CancelApproval c w approvalID cancelledBy "Cancelled via CLI" with
      | (w', Some e) => (w', [], Failed ("cancel: " ++ e))
      | (w', None) => (w', [Line ("Cancelled: " ++ approvalID)], Done)
      end
  end.

(** *** Watching *)

(** An approval seen for the first time. *)
Definition announcement (now : Time) (a : StoredApproval) : list Printed :=
  let remaining := time_sub (ExpiresAt a) now in
  ([Line ""; Line ("NEW APPROVAL REQUEST: " ++ ApprovalID a); Line ("  Action:    " ++ sa_ActionClass a);
    Line ("  Tool:      " ++ ToolName a); Line ("  Agent:     " ++ sa_AgentName a);
    Line ("  Requested: " ++ time_of_day (RequestedAt a) ++ " by " ++ RequestedBy a)] ++
   (if negb (IsZero (ExpiresAt a)) && (0 <? remaining)%Z then [Line ("  Expires:   in " ++ formatDuration remaining)] else []) ++
   [Line ("  > Type '" ++ ApprovalID a ++ "' to approve, or '!" ++ ApprovalID a ++ " reason' to deny")])%list.

(** The approvals of a reply that are announced, and the ones seen after it. *)
Fixpoint unseen (seen : gset string) (approvals : list StoredApproval) : list StoredApproval * gset string :=
  match approvals with
  | [] => ([], seen)
  | a :: rest =>
      if bool_decide (ApprovalID a ∈ seen) then unseen seen rest
      else let '(news, seen') := unseen ({[ApprovalID a]} ∪ seen) rest in (a :: news, seen')
  end.

Definition pending_options : ApprovalListOptions := filters "pending" "" "" "" 20.

Definition showPending (c : HttpClient) (w : W) (seen : gset string) : W * gset string * list Printed :=
  let '(w', r) := ListApprovals c w pending_options in
  match r with
  | Err e => (w', seen, [Line ("Error fetching pending: " ++ e)])
  | Ok approvals =>
      let '(news, seen') := unseen seen approvals in
      (w', seen', concat (map (announcement (clock w')) news))
  end.

Definition approveApproval (auditURL : string) (creds : authCreds) (id reason : string) (w : W) : W * list Printed :=
  let '(w', r) := doHTTPRequest auditURL creds w (approval_path id "/approve") (ApproveBody (approve_body creds reason 0)) in
  (w', [Line (match r with Ok _ => "Approved: " ++ id | Err e => "Error: " ++ e end)]).

Definition denyApproval (auditURL : string) (creds : authCreds) (id reason : string) (w : W) : W * list Printed :=
  let '(w', r) := doHTTPRequest auditURL creds w (approval_path id "/deny") (DenyBody (deny_body creds reason)) in
  (w', [Line (match r with Ok _ => "Denied: " ++ id | Err e => "Error: " ++ e end)]).

(** The id and the reason of a line. *)
Definition id_and_reason (input : string) : string * string :=
  match splitN " "%char 2 input with
  | id :: reason :: _ => (trim_space id, trim_space reason)
  | id :: [] => (trim_space id, "")
  | [] => ("", "")
  end.

Inductive WatchEvent := Tick | Input (line : string).

Definition watch_input (auditURL : string) (creds : authCreds) (input : string) (w : W) : W * list Printed :=
  if input =?s "" then (w, [])
  else if has_prefix input "!" then
    let '(id, reason) := id_and_reason (trim_prefix input "!") in
    if reason =?s "" then (w, [Line "Denial requires a reason. Use: !<ID> <reason>"])
    else denyApproval auditURL creds id reason w
  else let '(id, reason) := id_and_reason input in approveApproval auditURL creds id reason w.

(** One turn of the loop of [cmdWatch]. *)
Definition watch_step (c : HttpClient) (auditURL : string) (creds : authCreds) (s : W * gset string) (e : WatchEvent)
    : W * gset string * list Printed :=
  match e with
  | Tick => showPending c s.1 s.2
  | Input line => let '(w', out) := watch_input auditURL creds (trim_space line) s.1 in (w', s.2, out)
  end.

Fixpoint watch (c : HttpClient) (auditURL : string) (creds : authCreds) (s : W * gset string) (events : list WatchEvent)
    : W * gset string * list Printed :=
  match events with
  | [] => (s.1, s.2, [])
  | e :: rest =>
      let '(s', out) := watch_step c auditURL creds s e in
      let '(s'', out') := watch c auditURL creds s' rest in (s'', (out ++ out')%list)
  end.

Definition watch_banner : list Printed :=
  [Line "Watching for pending approvals... (press Ctrl+C to exit)";
   Line "Enter: <ID> [reason]  to approve, or  !<ID> <reason>  to deny"; Line "Example: apr_abc123 looks good"; Line ""].

(** [cmdWatch] up to the events that have come: the first check, then a turn for each. *)
Definition cmdWatch (c : HttpClient) (auditURL : string) (creds : authCreds) (events : list WatchEvent) (w : W)
    : W * list Printed :=
  let '(s, out) := watch c auditURL creds (w, ∅) (Tick :: events) in (s.1, (watch_banner ++ out)%list).

(** *** [main] *)

Definition main_flags (name : string) : option FlagKind :=
  if mem name ["url"; "api-key"; "user"] then Some StringFlag else if name =?s "json" then Some BoolFlag else None.

Inductive MainEnd := Ended (code : Z) (stderr : string) | Usage (code : Z) (stderr : string) | Watching.

Definition client_of (auditURL : string) (creds : authCreds) : HttpClient :=
  let c := NewApprovalClient auditURL in
  if negb (cr_apiKey creds =?s "") then WithAPIKey (cr_apiKey creds) c
  else if negb (cr_user creds =?s "") then WithUser (cr_user creds) c
  else c.

Definition command_end (r : W * list Printed * CmdEnd) : W * list Printed * MainEnd :=
  let '(w, out, e) := r in
  (w, out, match e with
           | Done => Ended 0 ""
           | Failed err => Ended 1 ("Error: " ++ err)
           | FlagExit code err => Ended code err
           end).

Definition main (osArgs : list string) (events : list WatchEvent) (w : W) : W * list Printed * MainEnd :=
  let args := snd (InitLogging env osArgs) in
  match Parse parse_int main_flags ∅ args with
  | ParseHelp => (w, [], Usage 0 "")
  | ParseFailed e => (w, [], Usage 2 e)
  | ParseDone values remainingArgs =>
      let auditURL := string_flag values "url" (env "HELPDESK_AUDIT_URL") in
      let creds := {| cr_apiKey := string_flag values "api-key" (env "HELPDESK_APPROVAL_KEY");
                      cr_user := string_flag values "user" (env "HELPDESK_APPROVAL_USER") |} in
      let outputJSON := bool_flag values "json" in
      if auditURL =?s "" then
        (w, [], Ended 1 "Error: audit service URL required (use --url or set HELPDESK_AUDIT_URL)")
      else
        match remainingArgs with
        | [] => (w, [], Usage 1 "")
        | command :: cmdArgs =>
            let client := client_of auditURL creds in
            if command =?s "list" then command_end (cmdList client cmdArgs outputJSON w)
            else if command =?s "pending" then command_end (cmdList client ["--status=pending"] outputJSON w)
            else if command =?s "show" then command_end (cmdShow client cmdArgs outputJSON w)
            else if command =?s "approve" then command_end (cmdApprove cmdArgs auditURL creds w)
            else if command =?s "deny" then command_end (cmdDeny cmdArgs auditURL creds w)
            else if command =?s "cancel" then command_end (cmdCancel client cmdArgs w)
            else if command =?s "watch" then
              let '(w', out) := cmdWatch client auditURL creds events w in (w', out, Watching)
            else (w, [], Usage 1 ("Unknown command: " ++ command))
        end
  end.
End Client.

(** ** An auditd behind the requests *)

(** A path segment that reaches its handler as it is. *)
Definition plain_byte (c : ascii) : bool := negb (mem (String c "") ["/"; "?"; "#"; "%"; " "]).
Definition plain (id : string) : Prop := forallb plain_byte (list_ascii_of_string id) = true.

Definition approve_request (base id : string) (auth : Auth) (req : ApproveRequest) : ApiRequest :=
  {| ap_method := "POST"; ap_base := base; ap_path := approval_path id "/approve"; ap_query := ∅; ap_auth := auth;
     ap_body := ApproveBody req |}.

Definition approve_route : string := "POST /v1/approvals/{approvalID}/approve".

(** What auditd answers with. *)
Definition answer_of (body_of : Payload -> string) (r : Reply) : ApiReply :=
  Ok (Reply_code r, Ok (match r with HttpError _ msg => msg ++ nl | HttpJSON _ p => body_of p end)).

(** A world with an auditd: what the client relies on. *)
Class Auditd {W : Type} (send : W -> ApiRequest -> W * ApiReply) (body_of : Payload -> string) := {
  server : W -> approvalServer;
  enforced : bool;
  identify : Auth -> result string ResolvedPrincipal;
  approve_served w base id auth req : plain id ->
    let r := send w (approve_request base id auth req) in
    match auditd_auth enforced (identify auth) approve_route with
    | Refused code msg => server r.1 = server w /\ r.2 = Ok (code, Ok (msg ++ nl))
    | Authz.Served p =>
        exists now, let '(s', reply) := handleApprove now None (server w) id p (Decoded req) in
          server r.1 = s' /\ r.2 = answer_of body_of reply
    end }.

(** ** Theorems *)

Lemma refused_code enf provider pattern code msg : auditd_auth enf provider pattern = Refused code msg -> (400 <= code)%Z.
Proof. unfold auditd_auth, Middleware. destruct (Authorize _ _ _) as [[]|]; [intros [= <- _]; simpl; lia..|done]. Qed.

(** An error reply, with its code. *)
#[local] Ltac an_error := do 2 eexists; split; [reflexivity|lia].

(** An answer of the handler is an error, or the record it has written. *)
Lemma approve_reply now db_err s id p req : unique_ids (store s) ->
  let '(s', reply) := handleApprove now db_err s id p (Decoded req) in
  (exists c m, reply = HttpError c m /\ (400 <= c)%Z /\ store s' = store s) \/
  (exists existing by_, let a := set_resolution "approved" by_ (ar_Reason req) now (valid_until now (ValidForMin req)) existing in
     reply = HttpJSON 200 (PApproval (Some a)) /\ GetRequest (store s) id = Ok existing /\ Status existing = "pending" /\
     may_resolve s p existing (ApprovedBy req) by_ /\ (IsAnonymous p = false -> by_ <> RequestedBy existing) /\
     GetRequest (store s') id = Ok a).
Proof.
  intros Hu. destruct (handleApprove now db_err s id p (Decoded req)) as [s' reply] eqn:E.
  pose proof (handleApprove_cases _ _ _ _ _ _ _ _ Hu E) as Hc.
  assert (Hshape : (exists c m, reply = HttpError c m /\ (400 <= c)%Z) \/ exists st, (s', reply) = finish (with_store st s) id).
  { clear Hc Hu. revert E. unfold handleApprove. destruct (id =?s ""); [intros [= _ <-]; left; an_error|]. simpl.
    destruct (GetRequest (store s) id) as [existing|]; [|intros [= _ <-]; left; an_error].
    set (identified := if negb (IsAnonymous p) then _ else _).
    assert (H : forall r, identified = Err r -> exists c m, r = HttpError c m /\ (400 <= c)%Z).
    { intros r. unfold identified. destruct (negb _); [|destruct (_ =?s _); intros [= <-]; an_error].
      destruct (Require_roles _ _ _); [intros [= <-]; an_error|]. destruct (_ =?s _); intros [= <-]; an_error. }
    destruct identified as [by_|r]; [|intros [= _ <-]; left; by apply H].
    destruct (Approve _ _ _ _ _ _ _) as [st [err|]]; [intros [= _ <-]; left; an_error|]. intros <-. right. by exists st. }
  destruct Hshape as [(c & m & -> & Hge)|(st & Hf)].
  - left. exists c, m. split_and!; [done..|]. destruct Hc as [(H & _)|[_ H]]; [|done]. cbn in H. lia.
  - right. pose proof (finish_store (with_store st s) id) as Hs. rewrite <- Hf in Hs. cbn in Hs.
    injection Hf as _ Hreply. destruct Hc as [(_ & r & existing & by_ & [= <-] & Hg & Hp & Hm & Hn & Ha)|[H _]].
    + exists existing, by_. cbv zeta. rewrite Hreply. unfold updated. rewrite Hs in Ha. cbn [with_store store]. rewrite Ha.
      split_and!; try done. by rewrite Hs.
    + by rewrite Hreply in H.
Qed.

Section Approving.
Context {W : Type} (send : W -> ApiRequest -> W * ApiReply) (body_of : Payload -> string) `{!Auditd send body_of}.
Context (decode_approval : string -> result string StoredApproval) (parse_int : string -> result string Z) (env : string -> string).
Hypothesis decode_encoded : forall a, decode_approval (body_of (PApproval (Some a))) = Ok a.

(** The lines of an approval that was given. *)
Definition approved_lines (a : StoredApproval) : list Printed :=
  ([Line ("Approved: " ++ ApprovalID a); Line ("  Status:      " ++ Status a); Line ("  Approved By: " ++ ResolvedBy a)] ++
   if IsZero (ApprovalValidUntil a) then [] else [Line ("  Valid Until: " ++ RFC3339 (ApprovalValidUntil a))])%list.

(** The approve command against auditd: when it succeeds, the request named
    by its first argument was pending, auditd let the caller of the credentials in, who
    was entitled to approve it and, when authenticated, had not requested it; it is now
    approved in that caller's name with the reason and the validity of the flags, and the
    lines printed are those of the record.  When the command fails, the store of auditd is
    what it was. *)
Theorem approve_command_sound (args : list string) (url : string) (creds : authCreds) (w : W)
    (Huniq : unique_ids (store (server w)))
    (Hplain : forall values id more, Parse parse_int approve_flags ∅ args = ParseDone values (id :: more) -> plain id) :
  let '(w', out, e) := cmdApprove send decode_approval parse_int env args url creds w in
  (e <> Done /\ store (server w') = store (server w)) \/
  (e = Done /\ exists values id more p existing by_ now,
     let valid := int_flag values "valid-for" 0 in
     let a := set_resolution "approved" by_ (string_flag values "reason" "") now
                (valid_until now (if (0 <? valid)%Z then valid else 0)) existing in
     Parse parse_int approve_flags ∅ args = ParseDone values (id :: more) /\
     auditd_auth enforced (identify (credentials creds)) approve_route = Authz.Served p /\
     GetRequest (store (server w)) id = Ok existing /\ Status existing = "pending" /\
     may_resolve (server w) p existing (effectiveUser env creds) by_ /\
     (IsAnonymous p = false -> by_ <> RequestedBy existing) /\
     GetRequest (store (server w')) id = Ok a /\ out = approved_lines a).
Proof.
  unfold cmdApprove, parsed. destruct (Parse parse_int approve_flags ∅ args) as [values [|id more]| |msg] eqn:Ep; try (by left).
  specialize (Hplain values id more eq_refl). unfold doHTTPRequest.
  set (req := approve_body env creds _ _). pose proof (approve_served w url id (credentials creds) req Hplain) as Hs.
  unfold approve_request in Hs. cbv zeta in Hs. destruct (send w _) as [w' r]. cbn [fst snd] in Hs.
  destruct (auditd_auth _ _ _) as [code msg|p] eqn:Ea.
  - destruct Hs as [Hst ->]. apply refused_code in Ea. apply Z.leb_le in Ea. rewrite Ea. left. split; [done|]. by rewrite Hst.
  - destruct Hs as (now & Hs). pose proof (approve_reply now None (server w) id p req Huniq) as Hr.
    destruct (handleApprove _ _ _ _ _ _) as [s' reply]. destruct Hs as [Hst ->]. unfold answer_of.
    destruct Hr as [(c & m & -> & Hc & Hsame)|(existing & by_ & -> & Hg & Hp & Hm & Hn & Ha)]; cbn [Reply_code].
    + apply Z.leb_le in Hc. rewrite Hc. left. split; [done|]. by rewrite Hst.
    + change (400 <=? 200)%Z with false. cbv iota. rewrite decode_encoded. right. split; [done|].
      exists values, id, more, p, existing, by_, now. rewrite Hst. by split_and!.
Qed.
End Approving.

(** The flags of a command end at its first argument that is not one.
    With the id first, as the usage and the examples write it, deny always fails for want
    of the reason, without a request, and approve sends neither reason nor validity; with
    the reason first, both send it. *)
Theorem flags_behind_the_id (parse_int : string -> result string Z) {W} (send : W -> ApiRequest -> W * ApiReply)
    decode_approval env (id : string) (rest : list string) (url : string) (creds : authCreds) (w : W)
    (Hid : classify id = Positional) :
  let deny := cmdDeny send decode_approval parse_int env in
  let approve := cmdApprove send decode_approval parse_int env in
  deny (id :: rest) url creds w = (w, [], Failed "--reason is required when denying") /\
  approve (id :: rest) url creds w = approve [id] url creds w /\
  forall reason, reason <> "" ->
    deny ("--reason" :: reason :: id :: rest) url creds w =
      (let '(w', r) := doHTTPRequest send url creds w (approval_path id "/deny") (DenyBody (deny_body env creds reason)) in
       match r with
       | Err e => (w', [], Failed ("deny: " ++ e))
       | Ok resp =>
           match decode_approval resp with
           | Err e => (w', [], Failed ("parse response: " ++ e))
           | Ok a => (w', [Line ("Denied: " ++ ApprovalID a); Line ("  Status:    " ++ Status a);
                           Line ("  Denied By: " ++ ResolvedBy a); Line ("  Reason:    " ++ ResolutionReason a)], Done)
           end
       end).
Proof.
  assert (Hp : forall formal values more, Parse parse_int formal values (id :: more) = ParseDone values (id :: more)).
  { intros formal values more. cbn [Parse]. by rewrite Hid. }
  cbv zeta. split; [unfold cmdDeny, parsed; by rewrite Hp|]. split; [unfold cmdApprove, parsed; by rewrite !Hp|].
  intros reason Hr. unfold cmdDeny, parsed.
  assert (Hq : Parse parse_int deny_flags ∅ ("--reason" :: reason :: id :: rest) =
               ParseDone (<["reason" := VString reason]> ∅) (id :: rest)) by (cbn -[insert]; by rewrite Hid).
  rewrite Hq. unfold string_flag. rewrite lookup_insert_eq. apply streq_false in Hr. by rewrite Hr.
Qed.

(** *** Watching and waiting *)

Lemma unseen_approvals_spec approvals : forall seen, let '(news, seen') := unseen seen approvals in
  NoDup (map ApprovalID news) /\ (forall a, In a news -> In a approvals /\ ApprovalID a ∉ seen) /\
  (forall id, id ∈ seen' <-> id ∈ seen \/ In id (map ApprovalID news)) /\
  (forall a, In a approvals -> ApprovalID a ∈ seen').
Proof.
  induction approvals as [|a rest IH]; intros seen; cbn [unseen].
  - split_and!; [constructor|done| |done]. intros id. cbn. tauto.
  - case_bool_decide as Hin.
    + specialize (IH seen). destruct (unseen seen rest) as [news seen']. destruct IH as (H1 & H2 & H3 & H4).
      split_and!; [done|intros x Hx; by destruct (H2 x Hx); split; [right|]|done|].
      intros x [->|Hx]; [apply H3; by left|by apply H4].
    + specialize (IH ({[ApprovalID a]} ∪ seen)). destruct (unseen _ rest) as [news seen']. destruct IH as (H1 & H2 & H3 & H4).
      split_and!.
      * cbn. constructor; [|done]. intros (x & Hx & Hi)%list_elem_of_In%in_map_iff. destruct (H2 x Hi) as [_ Hn]. set_solver.
      * intros x [->|Hx]; [by split; [left|]|]. destruct (H2 x Hx). split; [by right|set_solver].
      * intros id. rewrite H3. cbn. set_solver.
      * intros x [->|Hx]; [apply H3; set_solver|by apply H4].
Qed.

Section Watching.
Context {W : Type} (send : W -> ApiRequest -> W * ApiReply) (clock : W -> Time).
Context (decode_approval : string -> result string StoredApproval).
Context (decode_approvals : string -> result string (list StoredApproval)) (env : string -> string).

Abbreviation list_pending c w := (ListApprovals send decode_approvals c w pending_options).
Abbreviation watch := (watch send clock decode_approvals env).
Abbreviation watch_step := (watch_step send clock decode_approvals env).

(** The approvals that a turn announces for the first time. *)
Definition step_news (c : HttpClient) (s : W * gset string) (e : WatchEvent) : list StoredApproval :=
  match e, (list_pending c s.1).2 with
  | Tick, Ok approvals => (unseen s.2 approvals).1
  | _, _ => []
  end.

Fixpoint watch_news (c : HttpClient) (url : string) (creds : authCreds) (s : W * gset string) (events : list WatchEvent)
    : list StoredApproval :=
  match events with
  | [] => []
  | e :: rest => (step_news c s e ++ watch_news c url creds (watch_step c url creds s e).1 rest)%list
  end.

Lemma step_spec c url creds s e :
  let '(s', out) := watch_step c url creds s e in
  let news := step_news c s e in
  NoDup (map ApprovalID news) /\ (forall a, In a news -> ApprovalID a ∉ s.2) /\
  (forall id, id ∈ s'.2 <-> id ∈ s.2 \/ In id (map ApprovalID news)) /\
  (news <> [] -> out = concat (map (announcement (clock s'.1)) news)).
Proof.
  destruct e as [|line]; cbn [watch_step ApprovalCommands.watch_step step_news].
  - unfold showPending. destruct (list_pending c s.1) as [w' [approvals|e]]; cbn [snd].
    2: { cbn. split_and!; [constructor|done|intros id; cbn; tauto|done]. }
    pose proof (unseen_approvals_spec approvals s.2) as H. destruct (unseen s.2 approvals) as [news seen']. cbn [fst snd].
    destruct H as (H1 & H2 & H3 & _). split_and!; [done|intros a Ha; by apply H2|done|done].
  - destruct (watch_input _ _ _ _ _ _) as [w' out]. cbn. split_and!; [constructor|done|intros id; cbn; tauto|done].
Qed.

Lemma watch_news_spec c url creds events : forall s,
  let news := watch_news c url creds s events in
  NoDup (map ApprovalID news) /\ (forall a, In a news -> ApprovalID a ∉ s.2) /\
  (forall id, id ∈ (watch c url creds s events).1.2 <-> id ∈ s.2 \/ In id (map ApprovalID news)) /\
  (forall a, In a news -> exists now before after, (watch c url creds s events).2 = (before ++ announcement now a ++ after)%list).
Proof.
  induction events as [|e rest IH]; intros s; cbv zeta.
  { cbn. split_and!; [constructor|done|intros id; tauto|done]. }
  cbn [watch_news watch ApprovalCommands.watch]. pose proof (step_spec c url creds s e) as Hs. cbv zeta in Hs.
  destruct (watch_step c url creds s e) as [s' out] eqn:Es. destruct Hs as (S1 & S2 & S3 & S4). cbn [fst].
  destruct (IH s') as (H1 & H2 & H3 & H4). destruct (watch c url creds s' rest) as [s'' out'] eqn:Ew. cbn [fst snd] in *.
  rewrite map_app. split_and!.
  - apply NoDup_app. split_and!; [done| |done]. intros id Hid Hin. apply list_elem_of_In in Hid, Hin.
    apply in_map_iff in Hin as (a & <- & Ha). apply (H2 a Ha). apply S3. by right.
  - intros a [Ha|Ha]%in_app_or; [by apply S2|]. intros Hin. apply (H2 a Ha), S3. by left.
  - intros id. rewrite H3, S3, in_app_iff. tauto.
  - intros a [Ha|Ha]%in_app_or.
    + assert (Hne : step_news c s e <> []) by (by intros H; rewrite H in Ha). rewrite (S4 Hne).
      apply in_split in Ha as (l1 & l2 & ->). rewrite map_app, concat_app. cbn [map concat].
      exists (clock s'.1), (concat (map (announcement (clock s'.1)) l1)), (concat (map (announcement (clock s'.1)) l2) ++ out')%list.
      by rewrite <- !app_assoc.
    + destruct (H4 a Ha) as (now & before & after & ->). exists now, (out ++ before)%list, after. by rewrite <- app_assoc.
Qed.

(** A watch announces every pending request it is told of exactly once:
    the ids it announces are those it has seen, none of them twice, whatever the polls and
    the lines typed, each with its announcement in the output; and the requests of any
    reply to a poll are among them from that turn on. *)
Theorem watch_announces_once (c : HttpClient) (url : string) (creds : authCreds) (w : W) (events : list WatchEvent) :
  let news := watch_news c url creds (w, ∅) events in
  let '(s, out) := watch c url creds (w, ∅) events in
  NoDup (map ApprovalID news) /\ (forall id, id ∈ s.2 <-> In id (map ApprovalID news)) /\
  (forall a, In a news -> exists now before after, out = (before ++ announcement now a ++ after)%list) /\
  (forall approvals, (list_pending c s.1).2 = Ok approvals ->
     forall a, In a approvals -> ApprovalID a ∈ (watch_step c url creds s Tick).1.2).
Proof.
  cbv zeta. destruct (watch_news_spec c url creds events (w, ∅)) as (H1 & _ & H3 & H4).
  destruct (watch c url creds (w, ∅) events) as [s out]. cbn [fst snd] in *. split_and!; [done| |done|].
  - intros id. rewrite H3. set_solver.
  - intros approvals Hl a Ha. cbn. unfold showPending. destruct (list_pending c s.1) as [w' r]. cbn in Hl. subst r.
    pose proof (unseen_approvals_spec approvals s.2) as H. destruct (unseen s.2 approvals) as [news seen']. cbn. by apply H.
Qed.

Definition ticking : Prop := forall w r, (clock w < clock (send w r).1)%Z.

Abbreviation wait_loop := (wait_loop send clock decode_approval).

Lemma wait_loop_ends (Htick : ticking) c deadline id fuel : forall w,
  (Z.max 0 (deadline - clock w) < Z.of_nat fuel)%Z -> wait_loop fuel c deadline id w <> None.
Proof.
  induction fuel as [|fuel IH]; intros w Hf; [lia|]. cbn [ApprovalCommands.wait_loop].
  destruct (_ <=? 0)%Z eqn:Er; [done|]. apply Z.leb_gt in Er. unfold time_sub in Er.
  pose proof (Htick w (poll c id (if (pollChunk <? time_sub deadline (clock w))%Z then pollChunk else time_sub deadline (clock w)))) as Ht.
  destruct (send w _) as [w' r]. cbn in Ht. destruct (one_approval _ _ _) as [a|e]; [|done].
  destruct (negb _); [done|]. apply IH. lia.
Qed.

(** What a wait came back with: a resolved request from one of its polls, or, past the
    deadline, the request as it was. *)
Lemma wait_loop_result c deadline id fuel : forall w w' a,
  wait_loop fuel c deadline id w = Some (w', Ok a) ->
  Status a <> "pending" \/
  exists w1, (time_sub deadline (clock w1) <= 0)%Z /\ GetApproval send decode_approval c w1 id = (w', Ok a).
Proof.
  induction fuel as [|fuel IH]; intros w w' a; [done|]. cbn [ApprovalCommands.wait_loop].
  destruct (_ <=? 0)%Z eqn:Er.
  - intros [= Hg]. right. exists w. split; [by apply Z.leb_le|done].
  - destruct (send w _) as [w1 r]. destruct (one_approval _ _ _) as [b|e]; [|done].
    destruct (Status b =?s "pending") eqn:Es; cbn [negb]; [apply IH|]. intros [= <- <-]. left. by apply streq_false.
Qed.

(** [WaitForApproval] comes back, with fuel for one poll per
    nanosecond of its timeout, when every request takes time; an approval it comes back
    with is resolved, or was read after the deadline; and no poll asks the server to wait
    longer than it does, at most 90 seconds of its 120. *)
Theorem wait_comes_back (c : HttpClient) (w : W) (id : string) (timeout : Z) (Htick : ticking) :
  (exists w' r, WaitForApproval send clock decode_approval (S (Z.to_nat timeout)) c w id timeout = Some (w', r) /\
     forall a, r = Ok a -> Status a <> "pending" \/
       exists w1, (clock w + timeout <= clock w1)%Z /\ GetApproval send decode_approval c w1 id = (w', Ok a)) /\
  forall remaining, (0 < remaining)%Z ->
    let chunk := (if (pollChunk <? remaining)%Z then pollChunk else remaining) in
    (0 < chunk <= pollChunk)%Z /\ wait_timeout (Some chunk) = chunk.
Proof.
  split.
  - unfold WaitForApproval. destruct (wait_loop _ _ _ _ _) as [[w' r]|] eqn:E.
    + exists w', r. split; [done|]. intros a ->. destruct (wait_loop_result _ _ _ _ _ _ _ E) as [H|(w1 & H1 & H2)]; [by left|right].
      exists w1. split; [unfold time_sub in H1; lia|done].
    + exfalso. eapply (wait_loop_ends Htick c _ id); [|exact E]. lia.
  - intros remaining Hr. cbv zeta. unfold pollChunk, wait_timeout, Second.
    destruct (Z.ltb_spec (90 * 1000000000) remaining); (split; [lia|]); rewrite (proj2 (Z.ltb_ge _ _)); lia.
Qed.
End Watching.

(** ** Witnesses and examples *)

Module CommandToy.
(** A text from which every approval can be read back: values are countable. *)
Fixpoint any_tree (v : any) : gen_tree (bool + (Z + string)) :=
  match v with
  | ANil => GenNode 0 []
  | ABool b => GenNode 1 [GenLeaf (inl b)]
  | ANum n => GenNode 2 [GenLeaf (inr (inl n))]
  | AFloat s => GenNode 3 [GenLeaf (inr (inr s))]
  | AStr s => GenNode 4 [GenLeaf (inr (inr s))]
  | AList l => GenNode 5 (map any_tree l)
  | AMap m => GenNode 6 (map (fun kv => match kv with (k, x) => GenNode 7 [GenLeaf (inr (inr k)); any_tree x] end) m)
  end.

Fixpoint tree_any (t : gen_tree (bool + (Z + string))) : any :=
  match t with
  | GenNode 1 [GenLeaf (inl b)] => ABool b
  | GenNode 2 [GenLeaf (inr (inl n))] => ANum n
  | GenNode 3 [GenLeaf (inr (inr s))] => AFloat s
  | GenNode 4 [GenLeaf (inr (inr s))] => AStr s
  | GenNode 5 l => AList (map tree_any l)
  | GenNode 6 m =>
      AMap (map (fun t => match t with GenNode 7 [GenLeaf (inr (inr k)); x] => (k, tree_any x) | _ => ("", ANil) end) m)
  | _ => ANil
  end.

Fixpoint tree_any_tree (v : any) : tree_any (any_tree v) = v.
Proof.
  destruct v as [| | | | |l|m]; try reflexivity; simpl; f_equal.
  - induction l as [|x l IH]; simpl; [reflexivity|]. by rewrite tree_any_tree, IH.
  - induction m as [|[k x] m IH]; simpl; [reflexivity|]. by rewrite tree_any_tree, IH.
Qed.

#[local] Instance any_eq : EqDecision any.
Proof. exact (inj_eq_dec any_tree (Inj0 := fun x y H => eq_trans (eq_sym (tree_any_tree x)) (eq_trans (f_equal tree_any H) (tree_any_tree y)))). Defined.
#[local] Instance any_countable : Countable any := inj_countable' any_tree tree_any tree_any_tree.

Definition fields (a : StoredApproval) : list string * list Z * any :=
  ([ApprovalID a; sa_EventID a; sa_TraceID a; Status a; sa_ActionClass a; ToolName a; sa_AgentName a; sa_ResourceType a;
    sa_ResourceName a; RequestedBy a; ResolvedBy a; ResolutionReason a; sa_PolicyName a; ApproverRole a; CallbackURL a],
   [RequestedAt a; ResolvedAt a; ExpiresAt a; ApprovalValidUntil a; CallbackSentAt a; CreatedAt a; UpdatedAt a],
   AMap (RequestContext a)).

Definition of_fields (x : list string * list Z * any) : option StoredApproval :=
  match x with
  | ([id; ev; tr; st; cls; tool; ag; rty; rn; rby; by_; why; pol; role; cb], [rat; at_; exp; valid; sent; cr; up], AMap m) =>
      Some {| ApprovalID := id; sa_EventID := ev; sa_TraceID := tr; Status := st; sa_ActionClass := cls; ToolName := tool;
              sa_AgentName := ag; sa_ResourceType := rty; sa_ResourceName := rn; RequestedBy := rby; RequestedAt := rat;
              RequestContext := m; ResolvedBy := by_; ResolvedAt := at_; ResolutionReason := why; ExpiresAt := exp;
              ApprovalValidUntil := valid; sa_PolicyName := pol; ApproverRole := role; CallbackURL := cb;
              CallbackSentAt := sent; CreatedAt := cr; UpdatedAt := up |}
  | _ => None
  end.

Fixpoint bits (p : positive) : string :=
  match p with xH => "" | xO p => String "0" (bits p) | xI p => String "1" (bits p) end.
Fixpoint of_bits (s : string) : positive :=
  match s with EmptyString => xH | String c s => if Ascii.eqb c "0" then xO (of_bits s) else xI (of_bits s) end.

Lemma of_bits_inverse p : of_bits (bits p) = p.
Proof. induction p as [p IH|p IH|]; simpl; by rewrite ?IH. Qed.

Definition number (z : Z) : string := bits (encode z).
Definition of_number (s : string) : option Z := decode (of_bits s).

Definition body_of (p : Payload) : string :=
  match p with
  | PApproval (Some a) => let '(texts, times, m) := fields a in GovbotToy.enc_list (texts ++ map number times ++ [bits (encode m)])%list
  | _ => ""
  end.

Definition of_parts (l : list string) : option StoredApproval :=
  times ← mapM of_number (firstn 7 (skipn 15 l));
  m ← last l ≫= fun s => decode (of_bits s);
  of_fields (firstn 15 l, times, m).

Definition decode_approval (body : string) : result string StoredApproval :=
  match of_parts (GovbotToy.read_list body) with Some a => Ok a | None => Err "invalid" end.

Lemma of_number_number z : of_number (number z) = Some z.
Proof. unfold of_number, number. by rewrite of_bits_inverse, decode_encode. Qed.

Lemma decode_encoded a : decode_approval (body_of (PApproval (Some a))) = Ok a.
Proof.
  destruct a. unfold decode_approval, body_of. cbn [fields]. rewrite GovbotToy.read_enc_list. unfold of_parts.
  cbn [app map firstn skipn mapM]. rewrite !of_number_number. cbn [mbind option_bind last]. by rewrite of_bits_inverse, decode_encode.
Qed.

(** An auditd that knows bob, and its clock. *)
Definition identify (a : Auth) : result string ResolvedPrincipal :=
  match a with XUser u => if u =?s "bob" then Ok bob else Err "unknown user" | _ => Err "no identity" end.

Definition id_of (path : string) : option string :=
  match split_on "/" path with [""; "v1"; "approvals"; id; "approve"] => Some id | _ => None end.

Definition send (w : approvalServer * Time) (r : ApiRequest) : (approvalServer * Time) * ApiReply :=
  let '(s, now) := w in
  match id_of (ap_path r), ap_body r with
  | Some id, ApproveBody req =>
      match auditd_auth true (identify (ap_auth r)) approve_route with
      | Refused code msg => ((s, now + 1)%Z, Ok (code, Ok (msg ++ Prelude.nl)))
      | Authz.Served p =>
          let '(s', reply) := handleApprove now None s id p (Decoded req) in ((s', now + 1)%Z, answer_of body_of reply)
      end
  | _, _ => ((s, now + 1)%Z, Ok (404%Z, Ok "404 page not found"))
  end.

Lemma id_of_path id : plain id -> id_of (approval_path id "/approve") = Some id.
Proof.
  intros Hp. unfold id_of, approval_path.
  assert (H : forall rest, split_on "/" (id ++ String "/" rest) = id :: split_on "/" rest).
  { intros rest. unfold plain in Hp. induction id as [|c id IH]; [reflexivity|]. cbn in Hp.
    apply andb_prop in Hp as [Hc Hp]. change (String c id ++ String "/" rest) with (String c (id ++ String "/" rest)). cbn [split_on]. rewrite (IH Hp).
    destruct (Ascii.eqb_spec c "/") as [->|_]; [discriminate|reflexivity]. }
  change (split_on "/" ("/v1/approvals/" ++ id ++ "/approve")) with
    ("" :: "v1" :: "approvals" :: split_on "/" (id ++ String "/" "approve")).
  by rewrite H.
Qed.

#[local] Instance toy_auditd : Auditd send body_of.
Proof.
  refine {| server := fst; enforced := true; ApprovalCommands.identify := identify |}.
  intros [s now] base id auth req Hp. unfold send, approve_request. cbn [ap_path ap_body ap_auth]. rewrite (id_of_path id Hp).
  destruct (auditd_auth _ _ _) as [code msg|p]; [by split|]. exists now. by destruct (handleApprove _ _ _ _ _ _).
Defined.

Lemma send_bob s now base id req : plain id ->
  send (s, now) (approve_request base id (XUser "bob") req) =
  let '(s', reply) := handleApprove now None s id bob (Decoded req) in ((s', now + 1)%Z, answer_of body_of reply).
Proof.
  intros Hp. unfold send, approve_request. cbn [ap_path ap_body ap_auth]. rewrite (id_of_path id Hp).
  change (identify (XUser "bob")) with (@Ok string _ bob). unfold approve_route. by rewrite approve_route_served.
Qed.

Lemma send_clock w r : snd (send w r).1 = (snd w + 1)%Z.
Proof.
  destruct w as [s now]. unfold send. destruct (id_of _) as [id|]; [|reflexivity]. destruct (ap_body r); try reflexivity.
  destruct (auditd_auth _ _ _); [reflexivity|]. by destruct (handleApprove _ _ _ _ _ _).
Qed.

Definition parse_int (s : string) : result string Z := match atoi s with Some n => Ok n | None => Err "parse error" end.
Definition no_env (k : string) : string := "".
Definition as_bob : authCreds := {| cr_apiKey := ""; cr_user := "bob" |}.

Definition run (args : list string) : (approvalServer * Time) * list Printed * MainEnd :=
  main send snd decode_approval (fun _ => Err "unused") parse_int (fun k => if k =?s "HELPDESK_AUDIT_URL" then "http://auditd" else "")
    (fun _ => "") (fun _ => "") (fun _ => "") args [] (sample_server, Minute).

Definition ending (r : (approvalServer * Time) * list Printed * MainEnd) : list Printed * MainEnd := (r.1.2, r.2).

(** The command as its usage writes it, and with the flags first. *)
Example usage_is_misleading :
  ending (run ["--user"; "bob"; "deny"; "apr_1"; "--reason"; "not justified"]) =
    ([], Ended 1 "Error: --reason is required when denying") /\
  (run ["--user"; "bob"; "deny"; "apr_1"; "--reason"; "not justified"]).1.1.2 = Minute /\
  ending (run ["deny"; "--reason"]) = ([], Ended 2 "flag needs an argument: -reason") /\
  ending (run ["--jsno"; "pending"]) = ([], Usage 2 "flag provided but not defined: -jsno") /\
  ending (run ["-h"]) = ([], Usage 0 "") /\ ending (run ["undo"]) = ([], Usage 1 "Unknown command: undo") /\
  (InitLogging no_env ["--log-level"; "warn"; "deny"; "-log-level=debug"; "apr_1"]) = (LevelDebug, ["deny"; "apr_1"]).
Proof. vm_compute. repeat split. Qed.

Example flag_durations :
  map formatDuration [59 * Second; 90 * Second; Hours - 1; 25 * Hours + 61 * Minute]%Z = ["59s"; "1m"; "59m"; "26h1m"] /\
  map (fun s => truncate s 20) ["delete_rows"; "terminate_idle_connections"] = ["delete_rows"; "terminate_idle_co..."].
Proof. vm_compute. repeat split. Qed.
End CommandToy.

Lemma approve_command_sound_witness :
  let r := cmdApprove CommandToy.send CommandToy.decode_approval CommandToy.parse_int CommandToy.no_env
             ["--reason"; "ok"; "-valid-for=30"; "apr_1"] "http://auditd" CommandToy.as_bob (sample_server, Minute) in
  r.2 = Done /\ exists a, GetRequest (store r.1.1.1) "apr_1" = Ok a /\ Status a = "approved" /\ r.1.2 = approved_lines a.
Proof.
  intros r. assert (Hdone : r.2 = Done).
  { unfold r, cmdApprove, parsed.
    assert (Hq : Parse CommandToy.parse_int approve_flags ∅ ["--reason"; "ok"; "-valid-for=30"; "apr_1"] =
      ParseDone (<["valid-for" := VInt 30]> (<["reason" := VString "ok"]> ∅)) ["apr_1"]) by (vm_compute; reflexivity).
    rewrite Hq. unfold doHTTPRequest.
    change {| ap_method := _ |} with (approve_request "http://auditd" "apr_1" (XUser "bob")
      (approve_body CommandToy.no_env CommandToy.as_bob "ok" 30)).
    rewrite CommandToy.send_bob by reflexivity. vm_compute. reflexivity. }
  split; [exact Hdone|].
  pose proof (approve_command_sound CommandToy.send CommandToy.body_of (Auditd0 := CommandToy.toy_auditd) CommandToy.decode_approval CommandToy.parse_int
    CommandToy.no_env CommandToy.decode_encoded ["--reason"; "ok"; "-valid-for=30"; "apr_1"] "http://auditd" CommandToy.as_bob
    (sample_server, Minute) sample_store_unique) as H.
  assert (Hp : forall values id more, Parse CommandToy.parse_int approve_flags ∅ ["--reason"; "ok"; "-valid-for=30"; "apr_1"] =
    ParseDone values (id :: more) -> plain id).
  { intros values id more Hq. vm_compute in Hq. injection Hq as _ <- _. reflexivity. }
  specialize (H Hp). fold r in H. destruct r as [[w' out] e]. cbn [fst snd] in *.
  destruct H as [[H _]|(_ & values & id & more & p & existing & by_ & now & Hq & _ & _ & _ & _ & _ & Ha & Ho)];
    [destruct (H Hdone)|].
  assert (id = "apr_1") as -> by (vm_compute in Hq; by injection Hq as _ <- _).
  eexists. split; [exact Ha|]. by split.
Defined.

Lemma flags_behind_the_id_witness :
  cmdDeny CommandToy.send CommandToy.decode_approval CommandToy.parse_int CommandToy.no_env
    ["apr_1"; "--reason"; "Request not justified"] "http://auditd" CommandToy.as_bob (sample_server, Minute) =
  ((sample_server, Minute), [], Failed "--reason is required when denying").
Proof.
  exact (proj1 (flags_behind_the_id CommandToy.parse_int CommandToy.send CommandToy.decode_approval CommandToy.no_env "apr_1"
    ["--reason"; "Request not justified"] "http://auditd" CommandToy.as_bob (sample_server, Minute) eq_refl)).
Defined.

Lemma wait_comes_back_witness :
  WaitForApproval CommandToy.send snd CommandToy.decode_approval 11 (NewApprovalClient "http://auditd") (sample_server, Minute)
    "apr_1" 10 <> None.
Proof.
  destruct (wait_comes_back CommandToy.send snd CommandToy.decode_approval (NewApprovalClient "http://auditd")
    (sample_server, Minute) "apr_1" 10) as [(w' & r & H & _) _].
  - intros w r. rewrite CommandToy.send_clock. lia.
  - cbn [snd] in H. intros Hn. vm_compute Z.to_nat in H. by rewrite H in Hn.
Defined.
