(* ===== verification/RemoteStore.v ===== *)
(** * internal/audit/remote_store.go: the audit store over HTTP

    [RemoteStore] as a client of a world that answers requests: recording, outcomes,
    queries and verification.  The query is written into the address without escaping;
    the way a server reads it back ([url.ParseQuery]) is modelled, so what is lost on the
    way shows.  A time carries the offset of its zone.  The JSON encoders and decoders are
    parameters, and an address that cannot be parsed is left out. *)

From Stdlib Require Import SpecFloat.
From S2P Require Import Prelude GoTime TimeText GoFormat Identity Authz AuthzTables Events AuditChain AuditQuery Delegation.

Open Scope string_scope.

(** ** [url.ParseQuery] *)

Definition hex_digit (c : ascii) : option N :=
  let n := N_of_ascii c in
  if (48 <=? n)%N && (n <=? 57)%N then Some (n - 48)%N
  else if (97 <=? n)%N && (n <=? 102)%N then Some (n - 87)%N
  else if (65 <=? n)%N && (n <=? 70)%N then Some (n - 55)%N
  else None.

(** [url.QueryUnescape] *)
Fixpoint QueryUnescape (s : string) : option string :=
  match s with
  | EmptyString => Some ""
  | String "%" (String a (String b r)) =>
      hi ← hex_digit a; lo ← hex_digit b; rest ← QueryUnescape r; Some (String (ascii_of_N (16 * hi + lo)) rest)
  | String "%" _ => None
  | String "+" r => rest ← QueryUnescape r; Some (String " " rest)
  | String c r => rest ← QueryUnescape r; Some (String c rest)
  end.

(** The two sides of the first equals sign. *)
Fixpoint cut_equals (s : string) : string * string :=
  match s with
  | EmptyString => ("", "")
  | String c r => if Ascii.eqb c "=" then ("", r) else let '(k, v) := cut_equals r in (String c k, v)
  end.

(** A setting that cannot be read is skipped. *)
Definition setting (s : string) : option (string * string) :=
  if (s =?s "") || existsb (fun c => Ascii.eqb c ";") (list_ascii_of_string s) then None
  else let '(k, v) := cut_equals s in k' ← QueryUnescape k; v' ← QueryUnescape v; Some (k', v').

(** [r.URL.Query().Get]: the first value of the name. *)
Definition query_params (query : string) : Params :=
  fun k => match find (fun kv => kv.1 =?s k) (omap setting (split_on "&" query)) with Some kv => kv.2 | None => "" end.

(** ** The client *)

(** [t.Format(time.RFC3339)] of a time in a zone. *)
Record ZonedTime := { zt_instant : Time; zt_offset : Z }.
Definition zone_text (offset : Z) : string :=
  if (offset =? 0)%Z then "Z"
  else (if (offset <? 0)%Z then "-" else "+") ++
       padded 2 (Z.abs offset / Hours) ++ ":" ++ padded 2 (Z.abs offset / Minute mod 60).
Definition format_zoned (t : ZonedTime) : string := clock_fields (zt_instant t + zt_offset t)%Z ++ zone_text (zt_offset t).

Record RemoteStore := { rs_baseURL : string; rs_token : option string }.
Definition NewRemoteStore (baseURL : string) : RemoteStore := {| rs_baseURL := baseURL; rs_token := None |}.
(** With an empty key the header is [Bearer] and a space. *)
Definition WithAPIKey (apiKey : string) (r : RemoteStore) : RemoteStore :=
  {| rs_baseURL := rs_baseURL r; rs_token := Some apiKey |}.

Record RemoteRequest := { rm_method : string; rm_url : string; rm_auth : option string; rm_body : option string }.

(** The status, and what reading the body gave. *)
Abbreviation RemoteReply := (result string (Z * result string string)).

Definition remote_request (r : RemoteStore) (method path : string) (body : option string) : RemoteRequest :=
  {| rm_method := method; rm_url := rs_baseURL r ++ path; rm_auth := (fun k => "Bearer " ++ k) <$> rs_token r; rm_body := body |}.

(** The members of the answer to a recorded event. *)
Record RecordedIDs := { ri_EventID : string; ri_EventHash : string; ri_PrevHash : string }.

Definition take_ids (e : Event) (ids : RecordedIDs) : Event := set_hashes (ri_PrevHash ids) (ri_EventHash ids) (set_EventID (ri_EventID ids) e).

Definition given_param (k v : string) : string := if v =?s "" then "" else k ++ "=" ++ v ++ "&".

Definition remote_query (opts : QueryOptions) (since : ZonedTime) : string :=
  given_param "session_id" (qo_SessionID opts) ++ given_param "trace_id" (qo_TraceID opts) ++
  given_param "event_type" (qo_EventType opts) ++ given_param "agent" (qo_Agent opts) ++
  given_param "action_class" (qo_ActionClass opts) ++
  (if IsZero (zt_instant since) then "" else "since=" ++ format_zoned since ++ "&").

Section Remote.
Context {W : Type} (send : W -> RemoteRequest -> W * RemoteReply).
Context (marshal_event : Event -> option string) (marshal_outcome : Outcome -> string).
Context (decode_ids : string -> option RecordedIDs) (decode_events : string -> result string (list Event)).
Context (decode_status : string -> result string ChainStatus).

Definition returned (status : Z) (body : result string string) : string :=
  "audit service returned " ++ itoa status ++ ": " ++ match body with Ok b => b | Err _ => "" end.

(** The event of the caller and the error.  An answer that cannot be read leaves the
    event as it was, without an error. *)
Definition Record (r : RemoteStore) (w : W) (event : Event) : W * Event * option string :=
  match marshal_event event with
  | None => (w, event, Some "marshal event")
  | Some body =>
      let '(w', reply) := send w (remote_request r "POST" "/v1/events" (Some body)) in
      match reply with
      | Err e => (w', event, Some ("send event: " ++ e))
      | Ok (status, b) =>
          if (status =? 200)%Z then
            (w', match b with
                 | Ok text => match decode_ids text with Some ids => take_ids event ids | None => event end
                 | Err _ => event
                 end, None)
          else (w', event, Some (returned status b))
      end
  end.

Definition RecordOutcome (r : RemoteStore) (w : W) (eventID : string) (outcome : Outcome) : W * option string :=
  let '(w', reply) := send w (remote_request r "POST" ("/v1/events/" ++ eventID ++ "/outcome") (Some (marshal_outcome outcome))) in
  (w', match reply with
       | Err e => Some ("send outcome: " ++ e)
       | Ok (status, b) => if (status =? 200)%Z then None else Some (returned status b)
       end).

(** The decoded body of an answer with status 200. *)
Definition decoded_reply {A} (what doing : string) (decode : string -> result string A) (reply : RemoteReply) : result string A :=
  match reply with
  | Err e => Err (doing ++ ": " ++ e)
  | Ok (status, b) =>
      if (status =? 200)%Z then
        match b with
        | Err e => Err ("decode " ++ what ++ ": " ++ e)
        | Ok text => match decode text with Ok a => Ok a | Err e => Err ("decode " ++ what ++ ": " ++ e) end
        end
      else Err (returned status b)
  end.

Definition Query (r : RemoteStore) (w : W) (opts : QueryOptions) (since : ZonedTime) : W * result string (list Event) :=
  let '(w', reply) := send w (remote_request r "GET" ("/v1/events?" ++ remote_query opts since) None) in
  (w', decoded_reply "events" "query events" decode_events reply).

Definition VerifyIntegrity (r : RemoteStore) (w : W) : W * result string ChainStatus :=
  let '(w', reply) := send w (remote_request r "GET" "/v1/verify" None) in
  (w', decoded_reply "result" "verify chain" decode_status reply).

Definition Close (r : RemoteStore) : option string := None.
End Remote.

(** ** What the server reads *)

(** A byte that the query leaves as it is. *)
Definition plain_byte (c : ascii) : bool := negb (mem (String c "") ["&"; ";"; "%"; "+"; "#"]).
Fixpoint plain_value (s : string) : bool :=
  match s with EmptyString => true | String c r => plain_byte c && plain_value r end.

Lemma plain_app a b : plain_value (a ++ b) = plain_value a && plain_value b.
Proof. induction a as [|c a IH]; [done|]. simpl. by rewrite IH, andb_assoc. Qed.

Lemma plain_digits w : forall n acc, plain_value acc = true -> plain_value (pad_digits w n acc) = true.
Proof.
  induction w as [|w IH]; intros n acc Ha; [done|]. cbn [pad_digits]. apply IH. cbn [plain_value]. rewrite Ha, andb_true_r.
  pose proof (Z.mod_pos_bound n 10 ltac:(done)) as Hd. remember (n mod 10)%Z as d.
  assert (Hc : (d = 0 \/ d = 1 \/ d = 2 \/ d = 3 \/ d = 4 \/ d = 5 \/ d = 6 \/ d = 7 \/ d = 8 \/ d = 9)%Z) by lia.
  clear Heqd Hd. repeat (destruct Hc as [->|Hc]; [reflexivity|]). by rewrite Hc.
Qed.

Lemma plain_clock t : plain_value (clock_fields t) = true.
Proof.
  unfold clock_fields. destruct (civil _) as [[y m] d]. unfold padded. rewrite !plain_app, !plain_digits by done. done.
Qed.

(** One byte of a plain value. *)
Lemma plain_cons c s : plain_value (String c s) = true ->
  plain_value s = true /\ forall d, In d ["&"; ";"; "%"; "+"; "#"]%char -> Ascii.eqb c d = false.
Proof.
  intros [Hc Hs]%andb_prop. split; [done|]. intros d Hd. destruct (Ascii.eqb_spec c d) as [->|]; [|done].
  exfalso. simpl in Hd. by destruct Hd as [<-|[<-|[<-|[<-|[<-|[]]]]]].
Qed.

Lemma unescape_plain s : plain_value s = true -> QueryUnescape s = Some s.
Proof.
  induction s as [|c s IH]; [done|]. intros Hp. destruct (plain_cons c s Hp) as [Hs Hd].
  assert (Hpc : Ascii.eqb c "%" = false) by (apply Hd; simpl; tauto).
  assert (Hpl : Ascii.eqb c "+" = false) by (apply Hd; simpl; tauto).
  cbn [QueryUnescape]. rewrite (IH Hs). clear IH Hp Hd Hs.
  destruct c as [[] [] [] [] [] [] [] []]; try reflexivity; discriminate.
Qed.

Lemma plain_no_semicolon s : plain_value s = true -> existsb (fun c => Ascii.eqb c ";") (list_ascii_of_string s) = false.
Proof.
  induction s as [|c s IH]; [done|]. intros Hp. destruct (plain_cons c s Hp) as [Hs Hd]. cbn.
  by rewrite (Hd ";"%char), IH by (done || simpl; tauto).
Qed.

Lemma plain_one_part s rest : plain_value s = true -> split_on "&" (s ++ String "&" rest) = s :: split_on "&" rest.
Proof.
  induction s as [|c s IH]; [done|]. intros Hp. destruct (plain_cons c s Hp) as [Hs Hd].
  change (String c s ++ String "&" rest) with (String c (s ++ String "&" rest)). cbn [split_on].
  by rewrite (IH Hs), (Hd "&"%char) by (simpl; tauto).
Qed.

(** A name that is written as it is. *)
Definition plain_name (k : string) : bool :=
  negb (k =?s "") && plain_value k && forallb (fun c => negb (Ascii.eqb c "=")) (list_ascii_of_string k).

Lemma cut_name k v : forallb (fun c => negb (Ascii.eqb c "=")) (list_ascii_of_string k) = true -> cut_equals (k ++ String "=" v) = (k, v).
Proof.
  induction k as [|c k IH]; [done|]. intros [Hc Hk]%andb_prop.
  change (String c k ++ String "=" v) with (String c (k ++ String "=" v)). cbn [cut_equals].
  apply negb_true_iff in Hc. by rewrite Hc, (IH Hk).
Qed.

Definition pair_of (k v : string) : list (string * string) := if v =?s "" then [] else [(k, v)].

Lemma read_param k v rest : plain_name k = true -> plain_value v = true ->
  omap setting (split_on "&" (given_param k v ++ rest)) = (pair_of k v ++ omap setting (split_on "&" rest))%list.
Proof.
  intros [[Hk Hp]%andb_prop Hn]%andb_prop Hv. unfold given_param, pair_of. destruct (v =?s "") eqn:Ev; [done|].
  assert (Hkv : plain_value (k ++ "=" ++ v) = true) by (by rewrite !plain_app, Hp, Hv).
  replace ((k ++ "=" ++ v ++ "&") ++ rest) with ((k ++ "=" ++ v) ++ String "&" rest) by (by rewrite !app_assoc_s).
  rewrite (plain_one_part _ _ Hkv). cbn [omap list_omap]. unfold setting at 1.
  rewrite (plain_no_semicolon _ Hkv). change ("=" ++ v) with (String "=" v). rewrite (cut_name k v Hn).
  rewrite (unescape_plain k Hp), (unescape_plain v Hv).
  destruct k as [|c k]; [done|]. reflexivity.
Qed.

Definition read_pair (l : list (string * string)) (k : string) : string :=
  match find (fun kv => kv.1 =?s k) l with Some kv => kv.2 | None => "" end.

Lemma read_pair_of k v l j : read_pair l k = "" -> read_pair (pair_of k v ++ l)%list j = if k =?s j then v else read_pair l j.
Proof.
  intros Hl. unfold pair_of. destruct (v =?s "") eqn:Ev.
  - apply streq_spec in Ev. subst. destruct (k =?s j) eqn:E; [|done]. apply streq_spec in E. by subst.
  - unfold read_pair. cbn [app find fst]. by destruct (k =?s j).
Qed.

(** The value of a name in such a list. *)
#[local] Ltac read_pairs :=
  lazymatch goal with
  | |- context [read_pair (pair_of ?k ?v ++ ?l)%list ?j] =>
      rewrite (read_pair_of k v l j) by read_pairs;
      let c := eval vm_compute in (k =?s j) in change (k =?s j) with c; cbv iota; read_pairs
  | |- _ => try reflexivity
  end.

(** What auditd reads in the address of a remote query, when the values
    have no byte that the query would have to escape: the session, the trace, the type,
    the agent, the class and the start, to its second and when it is a time in UTC.  Every
    other option of the caller, its limit included, is not sent: the answer is at most
    100 events. *)
Theorem remote_query_understood (opts : QueryOptions) (t : Time)
    (Hplain : forallb plain_value [qo_SessionID opts; qo_TraceID opts; qo_EventType opts; qo_Agent opts; qo_ActionClass opts] = true)
    (Ht : t = 0%Z \/ writable t) :
  query_of_params (query_params (remote_query opts {| zt_instant := t; zt_offset := 0 |})) =
  {| qo_EventID := ""; qo_SessionID := qo_SessionID opts; qo_EventType := qo_EventType opts; qo_EventTypes := [];
     qo_Agent := qo_Agent opts; qo_Since := whole_second t; qo_MinConfidence := S754_zero false;
     qo_MaxConfidence := S754_zero false; qo_Limit := 100; qo_TraceID := qo_TraceID opts; qo_TraceIDPrefix := "";
     qo_ActionClass := qo_ActionClass opts; qo_ToolName := ""; qo_ApprovalStatus := ""; qo_OutcomeStatus := ""; qo_Origin := "" |}.
Proof.
  cbn [forallb] in Hplain. repeat (apply andb_prop in Hplain as [?H Hplain]).
  set (since := if IsZero t then "" else clock_fields t ++ "Z").
  assert (Hs : plain_value since = true).
  { unfold since. destruct (IsZero t); [done|]. by rewrite plain_app, plain_clock. }
  assert (Hq : query_params (remote_query opts {| zt_instant := t; zt_offset := 0 |}) =
    read_pair (pair_of "session_id" (qo_SessionID opts) ++ pair_of "trace_id" (qo_TraceID opts) ++
               pair_of "event_type" (qo_EventType opts) ++ pair_of "agent" (qo_Agent opts) ++
               pair_of "action_class" (qo_ActionClass opts) ++ pair_of "since" since ++ [])%list).
  { unfold query_params, remote_query. cbn [zt_instant].
    replace (if IsZero t then "" else "since=" ++ format_zoned {| zt_instant := t; zt_offset := 0 |} ++ "&")
      with (given_param "since" since ++ "").
    - by rewrite !read_param by (done || reflexivity).
    - unfold given_param, since, format_zoned, zone_text. cbn [zt_instant zt_offset]. rewrite Z.add_0_r, app_empty_r.
      destruct (IsZero t); [done|]. destruct (clock_fields t ++ "Z") eqn:E; [by destruct (clock_fields t)|]. by rewrite <- E, !app_assoc_s. }
  assert (Hr : parse_or_zero since = whole_second t).
  { unfold since. destruct Ht as [->|Hw]; [reflexivity|]. destruct (IsZero t) eqn:E; [|exact (since_read_back t Hw)].
    apply Z.eqb_eq in E. by subst. }
  rewrite Hq. unfold query_of_params, limit_param. f_equal; read_pairs. exact Hr.
Qed.

(** ** Against auditd *)

Section OverAuditd.
Context (sha256hex : string -> string) (marshal_hash : HashInput -> option string).
Context (marshal_event : Event -> option string).
Context (marshal_decision : Decision -> string) (marshal_tool : ToolExecution -> string).
Context (marshal_approval : Approval -> string).
Context (read_event : string -> result string Event).

Abbreviation record_event :=
  (Record_event sha256hex marshal_hash marshal_event marshal_decision marshal_tool marshal_approval).
Abbreviation complete := (complete_event sha256hex marshal_hash).
Abbreviation handle :=
  (handleRecordEvent sha256hex marshal_hash marshal_event marshal_decision marshal_tool marshal_approval).

(** What of the answer to a posted event is read: a status, and with 200 the ids. *)
Definition answered (decode_ids : string -> option RecordedIDs) (reply : EventsReply) (b : Z * result string string) : Prop :=
  match reply with
  | EventRecorded id hash prev =>
      b.1 = 200%Z /\ exists text, b.2 = Ok text /\ decode_ids text = Some {| ri_EventID := id; ri_EventHash := hash; ri_PrevHash := prev |}
  | _ => b.1 <> 200%Z
  end.

(** A world with an auditd: a request may not reach it, and its answer may be lost. *)
Class EventServer {W : Type} (send : W -> RemoteRequest -> W * RemoteReply) (decode_ids : string -> option RecordedIDs) := {
  server : W -> AuditChain.Store;
  event_posted w r text :
    let a := send w (remote_request r "POST" "/v1/events" (Some text)) in
    (server a.1 = server w /\ ((exists e, a.2 = Err e) \/ exists b, a.2 = Ok b /\ b.1 <> 200%Z)) \/
    exists now uuid8 db_err, let '(s', reply) := handle now uuid8 db_err (read_event text) (server w) in
      server a.1 = s' /\ ((exists e, a.2 = Err e) \/ exists b, a.2 = Ok b /\ answered decode_ids reply b) }.

Lemma Record_event_error now uuid8 db_err s e : (record_event now uuid8 db_err s e).2 <> None ->
  (record_event now uuid8 db_err s e).1 = s.
Proof.
  unfold Record_event. destruct (marshal_event _); [|done]. by destruct (insert_row _ _ _).
Qed.

Lemma record_retry now uuid8 db_err s e s' : record_event now uuid8 db_err s e = (s', None) -> record_event now uuid8 None s e = (s', None).
Proof.
  unfold Record_event. destruct (marshal_event _); [|done]. unfold insert_row.
  destruct db_err; [|done]. intros [=].
Qed.

Context {W : Type} (send : W -> RemoteRequest -> W * RemoteReply) (decode_ids : string -> option RecordedIDs).
Context `{!EventServer send decode_ids}.

(** Recording over HTTP is recording in the store of auditd, of the event
    that its text is read as: without an error the store is the one after [Record] on it
    and the event of the caller has the id and the hashes it was given there, its other
    fields as they were; after an error the event is unchanged, and the event was
    recorded or not, since the answer may be lost, but nothing else happened. *)
Theorem remote_record_refines (r : RemoteStore) (w : W) (event : Event)
    (Hread : forall text, marshal_event event = Some text -> read_event text = Ok event) :
  let '(w', event', err) := Record send marshal_event decode_ids r w event in
  let recorded := fun (now : Time) uuid8 => record_event now uuid8 None (server w) event = (server w', None) in
  match err with
  | None => exists now uuid8, recorded now uuid8 /\
      let c := complete now uuid8 (server w) event in
      event' = set_hashes (PrevHash c) (EventHash c) (set_EventID (EventID c) event)
  | Some _ => event' = event /\ (server w' = server w \/ exists now uuid8, recorded now uuid8)
  end.
Proof.
  unfold Record. destruct (marshal_event event) as [text|] eqn:Em; [|by split; [|left]].
  pose proof (event_posted w r text) as Hp. cbv zeta in Hp. destruct (send w _) as [w' reply]. cbn [fst snd] in Hp.
  destruct Hp as [[Hs [[e ->]|([status b] & -> & Hb)]]|(now & uuid8 & db_err & Hp)].
  - split; [done|by left].
  - cbn in Hb. apply Z.eqb_neq in Hb. rewrite Hb. split; [done|by left].
  - rewrite (Hread text eq_refl) in Hp. unfold handleRecordEvent in Hp.
    pose proof (Record_event_error now uuid8 db_err (server w) event) as Herr.
    pose proof (record_retry now uuid8 db_err (server w) event) as Hok.
    destruct (record_event now uuid8 db_err (server w) event) as [s' [e|]].
    + cbn [fst snd] in *. specialize (Herr ltac:(done)). destruct Hp as [Hs [[e' ->]|([status b] & -> & Hb)]].
      * split; [done|left; congruence].
      * cbn in Hb. apply Z.eqb_neq in Hb. rewrite Hb. split; [done|left; congruence].
    + specialize (Hok s' eq_refl). destruct Hp as [Hs [[e' ->]|([status b] & -> & Hb)]].
      * split; [done|right]. exists now, uuid8. by rewrite Hs.
      * destruct Hb as (Hst & text' & Hb & Hd). cbn in Hst, Hb. subst status b. cbn [Z.eqb]. change (200 =? 200)%Z with true.
        cbv iota. rewrite Hd. exists now, uuid8. rewrite Hs. by split.
Qed.
End OverAuditd.

(** ** Witnesses and examples *)

Module RemoteToy.
Definition read_event (text : string) : result string Event :=
  match toy_unmarshal text with Some e => Ok e | None => Err "unexpected end of JSON input" end.

Definition ids_text (id hash prev : string) : string := enc id ++ enc hash ++ enc prev.
Definition decode_ids (text : string) : option RecordedIDs :=
  a ← dec text; b ← dec a.2; c ← dec b.2; Some {| ri_EventID := a.1; ri_EventHash := b.1; ri_PrevHash := c.1 |}.

Definition reply_of (r : EventsReply) : Z * result string string :=
  match r with
  | EventRecorded id hash prev => (200%Z, Ok (ids_text id hash prev))
  | EventsError code msg => (if (code =? 200)%Z then 500%Z else code, Ok msg)
  | _ => (500%Z, Ok "")
  end.

(** An auditd that answers every POST as an event. *)
Definition send (w : AuditChain.Store) (r : RemoteRequest) : AuditChain.Store * RemoteReply :=
  match rm_body r with
  | Some text =>
      let '(s', reply) := handleRecordEvent toy_sha toy_hash toy_event (fun _ => "") (fun _ => "") (fun _ => "") 5%Z "u1" None
                            (read_event text) w in
      (s', Ok (reply_of reply))
  | None => (w, Ok (404%Z, Ok "404 page not found"))
  end.

#[local] Instance toy_server : EventServer toy_sha toy_hash toy_event (fun _ => "") (fun _ => "") (fun _ => "") read_event send decode_ids.
Proof.
  refine {| server := fun w => w |}. intros w r text. right. exists 5%Z, "u1", None. unfold send. cbn [rm_body remote_request].
  destruct (handleRecordEvent _ _ _ _ _ _ _ _ _ _ _) as [s' reply]. cbn [fst snd]. split; [done|right].
  eexists. split; [reflexivity|]. destruct reply as [code msg|l|e|id hash prev|]; cbn; try done.
  - by destruct (Z.eqb_spec code 200).
  - split; [done|]. eexists. split; [reflexivity|]. unfold decode_ids, ids_text. rewrite dec_enc. cbn [mbind option_bind fst snd].
    rewrite dec_enc. cbn [mbind option_bind fst snd]. replace (enc prev) with (enc prev ++ "") by (by rewrite app_empty_r). by rewrite dec_enc.
Defined.

Definition options (trace : string) : QueryOptions :=
  {| qo_EventID := "evt_1"; qo_SessionID := ""; qo_EventType := "tool_execution"; qo_EventTypes := []; qo_Agent := ""; qo_Since := 0%Z;
     qo_MinConfidence := S754_zero false; qo_MaxConfidence := S754_zero false; qo_Limit := 5; qo_TraceID := trace;
     qo_TraceIDPrefix := ""; qo_ActionClass := ""; qo_ToolName := "drop_table"; qo_ApprovalStatus := ""; qo_OutcomeStatus := "";
     qo_Origin := "" |}.

Definition asked (trace : string) (t : Time) (offset : Z) : string :=
  remote_query (options trace) {| zt_instant := t; zt_offset := offset |}.

(** A zone east of UTC writes a plus sign, which is read as a space: the start is lost.
    A trace with an ampersand adds parameters. *)
Example what_the_query_loses :
  asked "tr_1" (100 * Day)%Z (2 * Hours)%Z = "trace_id=tr_1&event_type=tool_execution&since=0001-04-11T02:00:00+02:00&" /\
  qo_Since (query_of_params (query_params (asked "tr_1" (100 * Day)%Z (2 * Hours)%Z))) = 0%Z /\
  qo_Since (query_of_params (query_params (asked "tr_1" (100 * Day)%Z (- 2 * Hours)%Z))) = (100 * Day)%Z /\
  qo_ActionClass (query_of_params (query_params (asked "tr_1&action_class=read" 0%Z 0%Z))) = "read" /\
  query_params "a=1&a=2&b=x%2By+z&c;d&e" "a" = "1" /\ query_params "a=1&b=x%2By+z" "b" = "x+y z" /\ query_params "%zz=1&b" "b" = "".
Proof. vm_compute. repeat split. Qed.
End RemoteToy.

Lemma remote_query_understood_witness :
  qo_Limit (query_of_params (query_params (RemoteToy.asked "tr_1" (100 * Day)%Z 0%Z))) = 100%Z /\
  qo_TraceID (query_of_params (query_params (RemoteToy.asked "tr_1" (100 * Day)%Z 0%Z))) = "tr_1".
Proof.
  unfold RemoteToy.asked. rewrite (remote_query_understood (RemoteToy.options "tr_1") (100 * Day)%Z eq_refl
    ltac:(right; vm_compute; split; [discriminate|reflexivity])). split; reflexivity.
Defined.

Lemma remote_record_refines_witness :
  let r := WithAPIKey "k" (NewRemoteStore "http://auditd") in
  let '(w', event', err) := Record RemoteToy.send toy_event RemoteToy.decode_ids r (NewStore [] false) (set_EventID "c" zero_event) in
  err = None /\ exists now uuid8,
    Record_event toy_sha toy_hash toy_event (fun _ => "") (fun _ => "") (fun _ => "") now uuid8 None (NewStore [] false)
      (set_EventID "c" zero_event) = (w', None).
Proof.
  intros r. pose proof (remote_record_refines toy_sha toy_hash toy_event (fun _ => "") (fun _ => "") (fun _ => "") RemoteToy.read_event
    RemoteToy.send RemoteToy.decode_ids (EventServer0 := RemoteToy.toy_server) r (NewStore [] false) (set_EventID "c" zero_event)) as H.
  assert (Hread : forall text, toy_event (set_EventID "c" zero_event) = Some text -> RemoteToy.read_event text = Ok (set_EventID "c" zero_event)).
  { intros text [= <-]. vm_compute. reflexivity. }
  specialize (H Hread). destruct (Record _ _ _ _ _ _) as [[w' event'] err] eqn:E.
  assert (err = None) as -> by (vm_compute in E; injection E as _ _ E; by rewrite <- E).
  destruct H as (now & uuid8 & H & _). split; [reflexivity|]. by exists now, uuid8.
Defined.
