(* ===== verification/IncidentNarrative.v ===== *)
(** * cmd/gateway/incident_narrative.go: the story of an incident

    [handleGetIncident] over what its fetches return, the fetches over the tables of
    auditd (PlaybookRuns, RunFeedback) and its audit log (AuditQuery), and the chapters it
    tells against what [recordGateAcknowledged] and the run store have written.  The
    gateway has an auditd that answers; the identifiers in the addresses are taken as they
    are.  [incident] is the handler over the tables of auditd. *)

From Stdlib Require Import SpecFloat.
From S2P Require Import Prelude GoTime TimeText GoFormat Identity Events AuditChain AuditQuery PlaybookText PlaybookStore.
From S2P Require Import PlaybookRuns RunFeedback PlaybookSteps PlaybookChain.

Open Scope string_scope.

(** ** The narrative *)

Record TriageChapter := {
  tc_RunID : string; tc_Playbook : string; tc_Findings : string; tc_Report : option DiagnosticReport; tc_Transcript : string }.

Record GateChapter := {
  gc_ApprovedBy : string; gc_AcknowledgedAt : Time; gc_Resolution : string; gc_Reason : string; gc_ApprovalMode : string }.

Record IncidentJourneyRef := { jr_Phase : string; jr_TraceID : string }.

(** What stands before the first occurrence of [sep]. *)
Fixpoint cut_before (sep s : string) : option string :=
  if has_prefix s sep then Some ""
  else match s with EmptyString => None | String c r => String c <$> cut_before sep r end.

(** [d.Seconds()] *)
Definition seconds (d : Z) : spec_float := float_add (float_int (Z.quot d Second)) (SFdiv 53 1024 (float_int (Z.rem d Second)) (float_int Second)).

Section Narrative.
Context {Value : Type}.

Record RemediationChapter := {
  rc_RunID : string; rc_Playbook : string; rc_Outcome : string; rc_Steps : list (PlaybookRunStep Value);
  rc_Findings : string; rc_Transcript : string }.

Record IncidentNarrative := {
  IncidentID : string; in_StartedAt : Time; in_ResolvedAt : option Time; in_DurationSec : spec_float;
  in_Operator : string; in_TriggerContext : string; Triage : TriageChapter; Gate : option GateChapter;
  Remediation : option RemediationChapter; in_Feedback : list RunFeedback; in_Evaluation : option RunEvaluation;
  in_Journeys : list IncidentJourneyRef }.

Definition triage_chapter (run : PlaybookRun) : TriageChapter :=
  {| tc_RunID := RunID run; tc_Playbook := run_SeriesID run; tc_Findings := FindingsSummary run;
     tc_Report := run_Report run; tc_Transcript := AgentTranscript run |}.

Definition isGated (run : PlaybookRun) : bool :=
  (run_Outcome run =?s OutcomeTransitioned) || (run_Outcome run =?s OutcomeEscalated) || (run_Outcome run =?s OutcomeAbandoned).

Definition gate_resolution (outcome : string) : string :=
  if (outcome =?s OutcomeTransitioned) || (outcome =?s OutcomeEscalated) then "approved"
  else if outcome =?s OutcomeAbandoned then "denied"
  else "pending".

(** The operator of the first reason. *)
Definition approver_of (chain : list string) : string :=
  match chain with
  | chain0 :: _ => match cut_before " acknowledged" chain0 with Some p => trim_prefix p "operator " | None => "" end
  | [] => ""
  end.

(** An event without a decision ends the handler with a nil dereference. *)
Definition gate_chapter (outcome : string) (event : option Event) : Prelude.outcome GateChapter :=
  let chapter by_ at_ reason :=
    {| gc_ApprovedBy := by_; gc_AcknowledgedAt := at_; gc_Resolution := gate_resolution outcome; gc_Reason := reason;
       gc_ApprovalMode := "" |} in
  match event with
  | None => Returns (chapter "" 0%Z "")
  | Some e =>
      match Events.e_Decision e with
      | None => Panics
      | Some d => Returns (chapter (approver_of (ReasoningChain d)) (Events.Timestamp e)
                             (match Events.e_Output e with Some o => Response o | None => "" end))
      end
  end.

Definition journey_ref (phase trace : string) : list IncidentJourneyRef :=
  if trace =?s "" then [] else [{| jr_Phase := phase; jr_TraceID := trace |}].

Definition journeys (run : PlaybookRun) (remediation : option PlaybookRun) : list IncidentJourneyRef :=
  match remediation with
  | None => journey_ref "triage" (run_TraceID run)
  | Some rem =>
      if negb (run_TraceID run =?s "") && negb (run_TraceID rem =?s "") && (run_TraceID run =?s run_TraceID rem) then
        [{| jr_Phase := "triage+remediation"; jr_TraceID := run_TraceID run |}]
      else (journey_ref "triage" (run_TraceID run) ++ journey_ref "remediation" (run_TraceID rem))%list
  end.

(** When the incident ended. *)
Definition resolved_at (run : PlaybookRun) (remediation : option PlaybookRun) : option Time :=
  match remediation with
  | Some rem => if IsZero (run_CompletedAt rem) then None else Some (run_CompletedAt rem)
  | None =>
      if negb (IsZero (run_CompletedAt run)) && negb (run_Outcome run =?s OutcomeGatePending) then Some (run_CompletedAt run)
      else None
  end.

(** What the fetches return. *)
Record Sources := {
  s_run : string -> result string PlaybookRun;
  s_gate : string -> option Event;
  s_remediation : string -> option PlaybookRun;
  s_steps : string -> list (PlaybookRunStep Value);
  s_feedback : string -> list RunFeedback;
  s_evaluation : string -> option RunEvaluation }.

Inductive IncidentReply :=
  | IncidentError (code : Z) (msg : string)
  | IncidentPanic
  | IncidentFound (n : IncidentNarrative).

Definition remediation_chapter (src : Sources) (rem : PlaybookRun) : RemediationChapter :=
  {| rc_RunID := RunID rem; rc_Playbook := run_SeriesID rem; rc_Outcome := run_Outcome rem; rc_Steps := s_steps src (RunID rem);
     rc_Findings := FindingsSummary rem; rc_Transcript := AgentTranscript rem |}.

Definition narrative (src : Sources) (runID : string) (run : PlaybookRun) (gate : option GateChapter) : IncidentNarrative :=
  let remediation := s_remediation src runID in
  let resolved := resolved_at run remediation in
  {| IncidentID := runID; in_StartedAt := run_StartedAt run; in_ResolvedAt := resolved;
     in_DurationSec := match resolved with Some t => seconds (time_sub t (run_StartedAt run)) | None => S754_zero false end;
     in_Operator := run_Operator run; in_TriggerContext := TriggerContext run; Triage := triage_chapter run; Gate := gate;
     Remediation := remediation_chapter src <$> remediation; in_Feedback := s_feedback src runID;
     in_Evaluation := s_evaluation src runID; in_Journeys := journeys run remediation |}.

Definition handleGetIncident (src : Sources) (runID : string) : IncidentReply :=
  if runID =?s "" then IncidentError 400 "runID is required"
  else
    match s_run src runID with
    | Err e => if str_contains e "not found" then IncidentError 404 "run not found" else IncidentError 500 "failed to fetch run"
    | Ok run =>
        if isGated run || (run_Outcome run =?s OutcomeGatePending) then
          match gate_chapter (run_Outcome run) (s_gate src runID) with
          | Panics => IncidentPanic
          | Returns gate => IncidentFound (narrative src runID run (Some gate))
          end
        else IncidentFound (narrative src runID run None)
    end.

(** ** The fetches, over auditd *)

Context (decode_report : string -> option DiagnosticReport) (unmarshal_event : string -> option Event).
Context (scan : list Row -> list Row).

Record AuditdTables := {
  at_runs : list RunRow; at_events : AuditChain.Store; at_steps : list (PlaybookRunStep Value);
  at_feedback : list FeedbackRow; at_evaluations : list EvaluationRow }.

(** [fetchPlaybookRun] *)
Definition fetch_run (t : AuditdTables) (runID : string) : result string PlaybookRun :=
  match handleGetRun decode_report runID (at_runs t) with
  | ROne r => Ok r
  | RError code _ => if (code =? 404)%Z then Err "not found" else Err ("auditd returned " ++ itoa code)
  | _ => Err "auditd returned 204"
  end.

Definition gate_params (runID : string) : Params :=
  fun k => if k =?s "trace_id" then runID else if k =?s "event_type" then EventTypeGateAcknowledged
           else if k =?s "limit" then "1" else "".

Definition fetchGateAcknowledgedEvent (t : AuditdTables) (runID : string) : option Event :=
  match handleQueryEvents unmarshal_event scan (gate_params runID) (at_events t) with
  | EventsList (e :: _) => Some e
  | _ => None
  end.

Definition fetchRemediationRun (t : AuditdTables) (triageRunID : string) : option PlaybookRun :=
  match handleListByOutcome decode_report "" triageRunID "" "1" (at_runs t) with
  | RMany (r :: _) => Some r
  | _ => None
  end.

Definition fetch_steps (t : AuditdTables) (runID : string) : list (PlaybookRunStep Value) :=
  match handleListSteps runID (at_steps t) with SMany l => l | _ => [] end.

Definition fetchAllRunFeedback (t : AuditdTables) (runID : string) : list RunFeedback :=
  match handleGetFeedback runID "" "" (at_feedback t) with FMany l => l | _ => [] end.

Definition fetchRunEvaluation (t : AuditdTables) (runID : string) : option RunEvaluation :=
  match handleGetEvaluation runID (at_evaluations t) with
  | EOne e => if ev_RunID e =?s "" then None else Some e
  | _ => None
  end.

Definition sources (t : AuditdTables) : Sources :=
  {| s_run := fetch_run t; s_gate := fetchGateAcknowledgedEvent t; s_remediation := fetchRemediationRun t;
     s_steps := fetch_steps t; s_feedback := fetchAllRunFeedback t; s_evaluation := fetchRunEvaluation t |}.

Definition incident (t : AuditdTables) (runID : string) : IncidentReply := handleGetIncident (sources t) runID.
End Narrative.

(** ** Theorems *)

Lemma cut_step c s sep : Ascii.eqb " " c = false -> cut_before (String " " sep) (String c s) = String c <$> cut_before (String " " sep) s.
Proof. intros H. cbn [cut_before has_prefix]. by rewrite H. Qed.

(** A word before a space: it is what stands before the separator, if the separator is
    there, and is passed over otherwise. *)
Lemma cut_no_space sep x rest : split_on " " x = [x] -> cut_before (String " " sep) (x ++ String " " rest) =
  if has_prefix rest sep then Some x else String.append x <$> cut_before (String " " sep) (String " " rest).
Proof.
  induction x as [|c x IH]; intros Hx.
  - change ("" ++ String " " rest) with (String " " rest). cbn [cut_before has_prefix].
    change (Ascii.eqb " " " ") with true. cbn [andb].
    destruct (has_prefix rest sep); [done|]. by destruct (cut_before (String " " sep) rest).
  - cbn [split_on] in Hx. destruct (Ascii.eqb c " ") eqn:Ec; [discriminate|].
    pose proof (split_on_nonempty " " x) as Hne. destruct (split_on " " x) as [|p ps] eqn:Es; [done|]. injection Hx as -> ->.
    change (String c x ++ String " " rest) with (String c (x ++ String " " rest)).
    rewrite cut_step by (destruct (Ascii.eqb_spec " " c) as [<-|]; [discriminate Ec|done]). rewrite (IH eq_refl).
    destruct (has_prefix rest sep); [reflexivity|]. destruct (cut_before (String " " sep) (String " " rest)); reflexivity.
Qed.

Lemma cut_step_space sep s : cut_before (String " " sep) (String " " s) =
  if has_prefix s sep then Some "" else String " " <$> cut_before (String " " sep) s.
Proof. cbn [cut_before has_prefix]. by change (Ascii.eqb " " " ") with true. Qed.

Lemma prefix_before_space p : forall x r, forallb (fun c => negb (Ascii.eqb c " ")) (list_ascii_of_string p) = true ->
  has_prefix (x ++ String " " r) p = has_prefix x p.
Proof.
  induction p as [|c p IH]; intros x r Hp; [by destruct x|]. cbn in Hp. apply andb_prop in Hp as [Hc Hp].
  destruct x as [|d x].
  - change ("" ++ String " " r) with (String " " r). cbn. apply negb_true_iff in Hc. by rewrite Hc.
  - change (String d x ++ String " " r) with (String d (x ++ String " " r)). cbn. by rewrite (IH x r Hp).
Qed.

(** A name that the first reason gives back: one word that does not begin like the
    separator. *)
Definition reported_name (x : string) : Prop := split_on " " x = [x] /\ has_prefix x "acknowledged" = false.

Lemma approver_reported by_ tail reasons : reported_name by_ ->
  approver_of (("operator " ++ by_ ++ " acknowledged informed gate for run " ++ tail) :: reasons) = by_.
Proof.
  intros [Hs Hp]. unfold approver_of. set (rest := " informed gate for run " ++ tail).
  change ("operator " ++ by_ ++ " acknowledged informed gate for run " ++ tail) with
    ("operator" ++ String " " (by_ ++ String " " ("acknowledged" ++ rest))).
  rewrite (cut_no_space "acknowledged" "operator" _ eq_refl).
  rewrite (prefix_before_space "acknowledged" by_ ("acknowledged" ++ rest) eq_refl), Hp.
  rewrite (cut_step_space "acknowledged" (by_ ++ String " " ("acknowledged" ++ rest))).
  rewrite (prefix_before_space "acknowledged" by_ ("acknowledged" ++ rest) eq_refl), Hp.
  rewrite (cut_no_space "acknowledged" by_ _ Hs). replace (has_prefix ("acknowledged" ++ rest) "acknowledged") with true by (symmetry; apply has_prefix_spec; by exists rest). reflexivity.
Qed.

Section Told.
Context {Value : Type} (encode_report : DiagnosticReport -> option string) (decode_report : string -> option DiagnosticReport).
Context (unmarshal_event : string -> option Event) (scan : list Row -> list Row) (uuid8 : string).
Hypothesis scan_perm : forall l, scan l ≡ₚ l.

Abbreviation told := (incident (Value := Value) decode_report unmarshal_event scan).

(** The log has one acknowledgement of the run, and its row is read as an event with the
    decision, the output and the time of [e]. *)
Definition logged (s : AuditChain.Store) (runID : string) (e : Event) : Prop :=
  exists row e', List.filter (query_matches (isPostgres s) (query_of_params (gate_params runID))) (rows s) = [row] /\
    unmarshal_event (raw_json row) = Some e' /\ Events.e_Decision e' = Events.e_Decision e /\
    Events.e_Output e' = Events.e_Output e /\ Events.Timestamp e' = Events.Timestamp e.

Lemma logged_found s runID e (t : AuditdTables (Value := Value)) : at_events t = s -> logged s runID e ->
  exists e', fetchGateAcknowledgedEvent unmarshal_event scan t runID = Some e' /\
    Events.e_Decision e' = Events.e_Decision e /\ Events.e_Output e' = Events.e_Output e /\ Events.Timestamp e' = Events.Timestamp e.
Proof.
  intros <- (row & e' & Hf & Hu & H). exists e'. split; [|done].
  unfold fetchGateAcknowledgedEvent, handleQueryEvents, Query, query_rows. rewrite Hf.
  rewrite (proj1 (Permutation_singleton_r _ _) (scan_perm [row])). simpl. by rewrite Hu.
Qed.

(** A gate that an operator denies, as the gateway records it in the run
    store and in the log, is told as denied, by that operator, at that time and for that
    reason, when the operator's name is one word; the findings and the transcript of the
    investigation are gone from the story, which has the text of the denial in their
    place. *)
Theorem denial_is_told (g : PlaybookChain.Gateway) (now : Time) (runID by_ : string) (req : ProceedEscalationRequest)
    (run : PlaybookRun) (w : ChainWorld (Value := Value)) (t : AuditdTables (Value := Value)) (r : RunRow)
    (Hid : runID <> "") (Hrow : find (run_is runID) (w_runs (base w)) = Some r) (Hname : reported_name by_)
    (Hruns : at_runs t = w_runs (base (gate_denied encode_report uuid8 g now runID by_ req run w).1))
    (Hlog : logged (at_events t) runID (gate_event uuid8 now run by_ "denied" (pe_ApprovalMode req) (pe_Reason req))) :
  exists n, told t runID = IncidentFound n /\
    Gate n = Some {| gc_ApprovedBy := by_; gc_AcknowledgedAt := now; gc_Resolution := "denied"; gc_Reason := pe_Reason req;
                     gc_ApprovalMode := "" |} /\
    tc_RunID (Triage n) = runID /\ tc_Findings (Triage n) = "gate denied by operator" /\ tc_Transcript (Triage n) = "".
Proof.
  destruct (logged_found _ _ _ t eq_refl Hlog) as (e' & Hg & Hd & Ho & Ht).
  unfold gate_denied in Hruns. cbn [fst] in Hruns.
  rewrite (proj1 (notify_keeps _ _ _)) in Hruns. cbn [base on_base] in Hruns. rewrite complete_now_runs in Hruns by done.
  rewrite (proj1 (emit_keeps _ _ _)) in Hruns.
  set (u := full_update OutcomeAbandoned "" "" "gate denied by operator" "" "" (run_Report run)) in *.
  assert (Hrun : fetch_run decode_report t runID = Ok (scanPlaybookRun decode_report (updated_run encode_report now u r))).
  { unfold fetch_run, handleGetRun, GetByRunID. apply streq_false in Hid. rewrite Hid, Hruns, find_updated, Hrow. reflexivity. }
  unfold incident, handleGetIncident. apply streq_false in Hid. rewrite Hid. cbn [s_run sources]. rewrite Hrun.
  change (s_gate (sources decode_report unmarshal_event scan t) runID) with (fetchGateAcknowledgedEvent unmarshal_event scan t runID).
  rewrite Hg. set (ended := scanPlaybookRun _ _). assert (Hout : run_Outcome ended = OutcomeAbandoned) by reflexivity.
  unfold isGated, gate_chapter, gate_resolution. rewrite Hout, Hd, Ho, Ht. cbn -[approver_of narrative ended].
  pose proof (approver_reported by_ (RunID run) ["resolution: denied"; "escalation_target: " ++ EscalatedTo run] Hname) as Ha.
  eexists. split; [reflexivity|]. cbn -[approver_of]. split_and!; try reflexivity.
  - do 2 f_equal. exact Ha.
  - apply find_some in Hrow as [_ Hr]. by apply run_is_spec in Hr.
Qed.
End Told.

(** What the story says of a gate follows the outcome of the run alone: a run that ended
    transitioned or escalated is told as approved, an abandoned one as denied. *)
Definition told_resolution (outcome : string) : option string :=
  if (outcome =?s OutcomeTransitioned) || (outcome =?s OutcomeEscalated) then Some "approved"
  else if outcome =?s OutcomeAbandoned then Some "denied"
  else if outcome =?s OutcomeGatePending then Some "pending"
  else None.

Lemma told_resolution_spec run : gc_Resolution <$> (if isGated run || (run_Outcome run =?s OutcomeGatePending)
    then Some {| gc_ApprovedBy := ""; gc_AcknowledgedAt := 0; gc_Resolution := gate_resolution (run_Outcome run); gc_Reason := ""; gc_ApprovalMode := "" |}
    else None) = told_resolution (run_Outcome run).
Proof.
  unfold isGated, gate_resolution, told_resolution.
  destruct (run_Outcome run =?s OutcomeTransitioned); [done|]. destruct (run_Outcome run =?s OutcomeEscalated); [done|].
  destruct (run_Outcome run =?s OutcomeAbandoned); [done|]. by destruct (run_Outcome run =?s OutcomeGatePending).
Qed.

Lemma in_journey_ref phase t trace : In trace (map jr_TraceID (journey_ref phase t)) <-> trace <> "" /\ t = trace.
Proof.
  unfold journey_ref. destruct (t =?s "") eqn:E; [apply streq_spec in E as ->|apply streq_false in E]; cbn; naive_solver.
Qed.

Lemma NoDup_journey_ref phase t : NoDup (map jr_TraceID (journey_ref phase t)).
Proof. unfold journey_ref. destruct (t =?s ""); [by constructor|by apply NoDup_singleton]. Qed.

Section Story.
Context {Value : Type}.
Implicit Types src : Sources (Value := Value).

(** The story of a run that is there, whose acknowledgement in the log,
    if there is one, has a decision, tells of a gate if and only if the run ended
    transitioned, escalated or abandoned or waits at one, and its resolution is the one of
    the outcome: a run that escalated without any gate is told as approved, by nobody, at
    the zero time. *)
Theorem gate_follows_outcome src runID run (Hid : runID <> "") (Hrun : s_run src runID = Ok run)
    (Hdec : forall e, s_gate src runID = Some e -> Events.e_Decision e <> None) :
  exists n, handleGetIncident src runID = IncidentFound n /\
    gc_Resolution <$> Gate n = told_resolution (run_Outcome run) /\
    (s_gate src runID = None -> forall g, Gate n = Some g -> gc_ApprovedBy g = "" /\ gc_AcknowledgedAt g = 0%Z).
Proof.
  unfold handleGetIncident. apply streq_false in Hid. rewrite Hid, Hrun. pose proof (told_resolution_spec run) as Hs.
  destruct (isGated run || (run_Outcome run =?s OutcomeGatePending)).
  2: { eexists. split; [reflexivity|]. split; [exact Hs|done]. }
  unfold gate_chapter. destruct (s_gate src runID) as [e|] eqn:Hg.
  - specialize (Hdec e eq_refl). destruct (Events.e_Decision e) as [d|]; [|done].
    eexists. split; [reflexivity|]. split; [exact Hs|done].
  - eexists. split; [reflexivity|]. split; [exact Hs|]. intros _ g [= <-]. done.
Qed.

(** The journeys of a story are the audit traces of its runs, each
    once: no run with a trace is left out and no empty trace is listed. *)
Theorem journeys_are_the_traces src runID n (H : handleGetIncident src runID = IncidentFound n) :
  exists run, s_run src runID = Ok run /\
    NoDup (map jr_TraceID (in_Journeys n)) /\
    forall trace, In trace (map jr_TraceID (in_Journeys n)) <->
      trace <> "" /\ (run_TraceID run = trace \/ exists rem, s_remediation src runID = Some rem /\ run_TraceID rem = trace).
Proof.
  unfold handleGetIncident in H. destruct (runID =?s ""); [done|]. destruct (s_run src runID) as [run|]; [|by destruct (str_contains _ _)].
  exists run. split; [done|].
  assert (in_Journeys n = journeys run (s_remediation src runID)) as ->.
  { destruct (isGated run || _); [destruct (gate_chapter _ _); [|done]|]; by injection H as <-. }
  unfold journeys. destruct (s_remediation src runID) as [rem|].
  2: { split; [apply NoDup_journey_ref|].
       intros trace. rewrite in_journey_ref. naive_solver. }
  destruct (negb _ && negb _ && _) eqn:Eq.
  - rewrite !andb_true_iff, !negb_true_iff, !streq_false, streq_spec in Eq. cbn.
    split; [by apply NoDup_singleton|naive_solver].
  - split; [|intros trace; rewrite map_app, in_app_iff, !in_journey_ref; naive_solver].
    unfold journey_ref. destruct (run_TraceID run =?s "") eqn:E1, (run_TraceID rem =?s "") eqn:E2; cbn;
      [by constructor|by apply NoDup_singleton|by apply NoDup_singleton|].
    cbn in Eq. apply streq_false in Eq. apply NoDup_cons. split; [set_solver|by apply NoDup_singleton].
Qed.
End Story.

(** ** A course *)

Module IncidentToy.
Import ChainToy.

Definition log (w : ChainWorld (Value := string)) : AuditChain.Store :=
  {| AuditChain.rows := map (fun e => AuditChain.row_of (fun _ => "") (fun _ => "") (fun _ => "") e (Events.EventID e)) (audit_events w); AuditChain.isPostgres := false;
     AuditChain.lastHash := ""; AuditChain.notified := [] |}.

Definition tables (w : ChainWorld (Value := string)) : AuditdTables (Value := string) :=
  {| at_runs := w_runs (base w); at_events := log w; at_steps := w_steps (base w); at_feedback := []; at_evaluations := [] |}.

Definition read (w : ChainWorld (Value := string)) (json : string) : option Event :=
  find (fun e : Event => Events.EventID e =?s json) (audit_events w).

Definition tell (runID : string) (w : ChainWorld (Value := string)) : IncidentReply (Value := string) :=
  incident (fun _ => None) (read w) (fun l => l) (tables w) runID.

Definition gate_of (r : IncidentReply (Value := string)) : option (string * string * string) :=
  match r with IncidentFound n => (fun g => (gc_Resolution g, gc_ApprovedBy g, tc_Findings (Triage n))) <$> Gate n | _ => None end.

Definition waiting : ChainWorld (Value := string) :=
  settle (run gateway [names_fix; fixed] (request "auto" true) (world (remedy "auto" "agent"))).1.

Definition denied : ChainWorld (Value := string) := settle (proceed [names_fix; fixed] "plr_1" "denied" waiting).1.
Definition approved : ChainWorld (Value := string) := settle (proceed [names_fix; fixed] "plr_1" "approved" waiting).1.

Definition fetches : Sources (Value := string) :=
  sources (fun _ => None) (read approved) (fun l => l) (tables approved).

(** The row of the run that waits, and the row of the denial in the log. *)
Definition waiting_row : RunRow :=
  ltac:(let x := eval vm_compute in (find (run_is "plr_1") (w_runs (base waiting))) in match x with Some ?r => exact r end).
Definition logged_rows : list AuditChain.Row :=
  Eval vm_compute in List.filter (query_matches false (query_of_params (gate_params "plr_1"))) (AuditChain.rows (log denied)).
Definition denied_row : AuditChain.Row := ltac:(match eval cbv delta [logged_rows] in logged_rows with [?r] => exact r end).
Definition denied_event : Event :=
  ltac:(let x := eval vm_compute in (read denied (AuditChain.raw_json denied_row)) in match x with Some ?e => exact e end).

Lemma denial_logged : logged (read denied) (at_events (tables denied)) "plr_1"
  (gate_event "u" 6 (scanPlaybookRun (fun _ => None) waiting_row) "op" "denied" "manual" "").
Proof. exists denied_row, denied_event. split; [vm_compute; reflexivity|]. split; [vm_compute; reflexivity|]. vm_compute. repeat split. Qed.

Example story_course :
  gate_of (tell "plr_1" waiting) = Some ("pending", "", "recommended=vacuum") /\
  gate_of (tell "plr_1" denied) = Some ("denied", "op", "gate denied by operator") /\
  gate_of (tell "plr_1" approved) = Some ("approved", "op", "recommended=vacuum").
Proof. vm_compute. repeat split. Qed.

(** A playbook that names the operator's token as a transition meets no gate, and is told
    as approved. *)
Example approved_by_nobody :
  gate_of (tell "plr_1" (settle (run gateway [answer "0.9" "recommended=failover" "TRANSITION_TO: requires_operator_approval"]
    (request "auto" false) (world (remedy "auto" "agent"))).1)) = Some ("approved", "", "recommended=failover").
Proof. vm_compute. repeat split. Qed.
End IncidentToy.

Lemma option_found {A} (f : A -> bool) (o : option A) :
  match o with Some x => f x | None => false end = true -> exists x, o = Some x /\ f x = true.
Proof. destruct o; [eauto|done]. Qed.

Lemma run_found {Value} (src : Sources (Value := Value)) id (f : PlaybookRun -> bool) :
  match s_run src id with Ok run => f run | Err _ => false end = true -> exists run, s_run src id = Ok run /\ f run = true.
Proof. destruct (s_run src id); [eauto|done]. Qed.

Lemma story_found {Value} (r : IncidentReply (Value := Value)) :
  match r with IncidentFound _ => true | _ => false end = true -> exists n, r = IncidentFound n.
Proof. destruct r; eauto; done. Qed.

Lemma gate_follows_outcome_witness :
  exists n, handleGetIncident IncidentToy.fetches "plr_1" = IncidentFound n /\ gc_Resolution <$> Gate n = Some "approved".
Proof.
  destruct (run_found IncidentToy.fetches "plr_1" (fun run => run_Outcome run =?s OutcomeTransitioned)) as (run & Er & E);
    [vm_compute; reflexivity|].
  destruct (option_found (fun e => bool_decide (is_Some (Events.e_Decision e))) (s_gate IncidentToy.fetches "plr_1")) as (e & Eg & D);
    [vm_compute; reflexivity|].
  destruct (gate_follows_outcome IncidentToy.fetches "plr_1" run) as (n & Hn & Hg & _); [discriminate|exact Er| |].
  - rewrite Eg. intros e' [= <-]. apply bool_decide_eq_true in D as [d ->]. discriminate.
  - exists n. split; [exact Hn|]. rewrite Hg. apply streq_spec in E. rewrite E. reflexivity.
Defined.

Lemma journeys_are_the_traces_witness :
  exists n, handleGetIncident IncidentToy.fetches "plr_1" = IncidentFound n /\ NoDup (map jr_TraceID (in_Journeys n)).
Proof.
  destruct (story_found (handleGetIncident IncidentToy.fetches "plr_1")) as (n & E); [vm_compute; reflexivity|].
  exists n. split; [exact E|].
  destruct (journeys_are_the_traces IncidentToy.fetches "plr_1" n E) as (run & _ & H & _). exact H.
Defined.

Lemma denial_is_told_witness :
  exists n, IncidentToy.tell "plr_1" IncidentToy.denied = IncidentFound n /\
    option_map gc_Resolution (Gate n) = Some "denied" /\ tc_Findings (Triage n) = "gate denied by operator".
Proof.
  pose (req := {| pe_Resolution := "denied"; pe_ResolvedBy := "op"; pe_ApprovalMode := "manual"; pe_ApprovalSession := "";
                  pe_ConnectionString := ""; pe_Reason := "" |}).
  destruct (denial_is_told (fun _ => None) (fun _ => None) (IncidentToy.read IncidentToy.denied) (fun l => l)  "u"
    (fun l => reflexivity l) ChainToy.gateway 6 "plr_1" "op" req (scanPlaybookRun (fun _ => None) IncidentToy.waiting_row)
    IncidentToy.waiting (IncidentToy.tables IncidentToy.denied) IncidentToy.waiting_row) as (n & Hn & Hg & _ & Hf & _).
  - discriminate.
  - vm_compute. reflexivity.
  - split; reflexivity.
  - vm_compute. reflexivity.
  - exact IncidentToy.denial_logged.
  - exists n. split; [exact Hn|]. rewrite Hg. split; [reflexivity|exact Hf].
Defined.
